(* ===== verification/_CoqProject ===== *)
-Q . S2P
Prelude.v
CMem.v
Sys.v
PktTls.v
PktHttp.v
PktSum.v
PktFake.v
Mpool.v
State.v
Conev.v
Desync.v
Socks.v
Extend.v
Proxy.v
Jni.v
Flow.v
Chunk.v
SocksClient.v
TcpClient.v
Packet.v
Device.v
Addr.v
Lwip.v
StateFacts.v
SocksFacts.v
SocksProps.v
TimerFacts.v
BufFacts.v
PoolFacts.v
PoolProps.v
PktTlsFacts.v
PktHttpFacts.v
PktSumFacts.v
MpoolFacts.v
MpoolOrd.v
MpoolProps.v
DesyncFacts.v
ExtendFacts.v
DesyncProps.v
ExtendProps.v
JniFacts.v
JniProps.v
ChunkFacts.v
FlowFacts.v
ChunkProps.v
FlowProps.v
SocksClientFacts.v
SocksClientSteps.v
SocksClientProps.v
TcpClientFacts.v
TcpClientSteps.v
TcpClientCalls.v
TcpClientProps.v
PacketFacts.v
DeviceFacts.v
DeviceProps.v
DevicePump.v
AddrFacts.v
AddrProps.v
LwipFacts.v
Bridge.v
BridgeFrame.v
BridgeFacts.v
BridgeProps.v
TunJni.v
TunJniProps.v
Datagram.v
UdpClient.v
DatagramFacts.v
UdpClientFacts.v
UdpClientSteps.v
UdpClientTree.v
UdpClientProps.v
UdpPeers.v
