(* ===== verification/Prelude.v ===== *)
(** The native code of myVPNproject, modelled and verified.

    * The program

    An Android application opens a TUN device and hands its descriptor to two native
    engines (everything below is under src/app/src/main/jni/).

    - byedpi/ is a SOCKS and HTTP proxy that sends the first bytes of each outgoing
      connection so that a middlebox does not recognise them: in parts, with decoys, as
      several TLS records, with changed letter case. ciadpi_jni.c configures it from the
      application's settings, runs it in a thread and stops it.
    - badvpn/ (tun2socks) reads packets from the device, lets lwIP terminate their TCP
      connections, and carries each of them, and UDP, over SOCKS5 to byedpi.
      tun2socks_jni.c starts and stops it.

    * How the model reads

    Prelude holds the result type [res] ([Ok], [Ub] for what C leaves undefined or a
    failed assertion, [Fuel] for a loop cut off), its total correctness judgement [wp],
    integers at their width ([u8], [u16], [s32], [usz], ...) and record updates. CMem is
    byte memory, an object being the list of its bytes, with the functions of <string.h>,
    <ctype.h> and <stdlib.h> that the code calls. Sys is the environment: a [call] for
    every system or library call, a history of calls and replies, and [Prog S A], a
    program on a state [S] that appends to the history. The replies are any function of
    the history ([Os]), so a theorem over [Os] holds for every kernel, peer, allocator and
    random generator. [wpp] is total correctness for [Prog].

    * The parts of byedpi

    - PktTls, PktHttp, PktSum, PktFake: packets.c. Parsing and rewriting TLS and HTTP,
      checksums, built-in decoys. Theorems in PktTlsFacts, PktHttpFacts, PktSumFacts:
      memory safety on hostile input, look-ups against reference walks, splitting and
      merging records.
    - Mpool: mpool.c and kavl.h. MpoolFacts, MpoolOrd, MpoolProps: the three key
      comparisons are orders (host names under a condition), insertion, deletion and
      look-up implement a set of keys.
    - State: the data of params.h and conev.h, objects in stores by address. Conev:
      conev.c, the pool of events, timers, buffers, the loop. TimerFacts, BufFacts,
      PoolFacts, PoolProps: the pool's invariant, the sorted doubly linked list of timers,
      each event closed once, no stale event served.
    - Desync (desync.c), DesyncFacts, DesyncProps: the in-band bytes sent are a prefix of
      the data in order, and the count reported is what went out.
    - Socks (proxy.c's addresses, messages, outgoing sockets), SocksFacts, SocksProps.
    - Extend (extend.c), ExtendFacts, ExtendProps: choice of a group, cache, triggers, the
      tracker of TLS records.
    - Proxy (proxy.c's event handlers and server) composes all of these.
    - Jni (ciadpi_jni.c), JniFacts, JniProps: what the settings become, the life of the
      engine thread.

    * The parts of tun2socks

    - Flow: the interfaces of flow/, PacketStreamSender, PacketProtoEncoder and
      PacketProtoDecoder. Chunk: ChunkBuffer2 and PacketBuffer. FlowFacts, FlowProps,
      ChunkFacts, ChunkProps: frames survive a stream cut anywhere; the buffer is a queue
      that never stops.
    - SocksClient: BSocksClient.c. SocksClientFacts, SocksClientSteps, SocksClientProps:
      it implements an abstract SOCKS5 conversation, is never stuck, and byedpi's own
      server understands it and is understood.
    - TcpClient: the TCP client of tun2socks.c. TcpClientFacts, TcpClientSteps,
      TcpClientCalls, TcpClientProps: every callback and job keeps the client's invariant;
      freed once, aborts reported to lwIP, both streams relayed in order and without loss,
      never stuck.
    - Packet: the IPv4, IPv6 and UDP headers of misc/, their checksums and checks.
      Device: BTap.c, SinglePacketBuffer.c and the handlers of tun2socks.c for packets from
      the device and to it. PacketFacts, DeviceFacts, DeviceProps: a packet goes to the UDP
      client exactly when a grammar of valid datagrams has it, and what is written for a
      datagram is read back as that datagram. DevicePump: every order of jobs, output and
      datagrams; packets are handled once, in order and unaltered, and the pump never stops.
    - Addr: numbers and addresses as text (misc/parse_number.h, memref.h, ipaddr.h,
      ipaddr6.h, system/BAddr.h). AddrFacts, AddrProps: what is printed is read back as the
      same address, and the readers are safe and answer on every string.
    - Lwip: of lwIP, the list of interfaces and their numbers, the control blocks that
      listen and the search for the listener of a connection (core/netif.c, core/tcp.c,
      core/tcp_in.c). LwipFacts: its operations on a list of listeners.
    - Bridge: tun2socks_bridge_run and tun2socks_bridge_stop of tun2socks.c, with their
      arguments, the job that initializes lwIP, the TCP timer, every failure label and the
      loop, a list of events in any order. The device and each TCP client keep the history
      of calls of their own model; [run_part] and [on_link] run them on the one history of
      the program. BridgeFrame: what the parts leave alone. BridgeFacts: the loop's
      invariant. BridgeProps: what is taken is given back and the program can be run again,
      but a second run accepts no connection.
    - TunJni: tun2socks_jni.c on top of Bridge. TunJniProps: a session from start to stop.
    - Datagram: system/BDatagram_unix.c, a datagram socket between two packet interfaces.
      DatagramFacts: the invariant of its two directions, under what POSIX says of a
      message ([datagrams_ok]); a transfer that can go on has its job set or waits for the
      descriptor, never both.
    - UdpClient: socks_udp_client/SocksUdpClient.c with flow/BufferWriter.c and
      flowextra/PacketPassInactivityMonitor.c. [con_run] is a step of the reactor for a
      connection, [run_connection] the same for the client, which a connection may end.
      UdpClientFacts: a connection's invariant, kept by every ready step. UdpClientSteps: a
      connection made and freed, every failure included. UdpClientTree: the client as a
      whole. UdpClientProps: in any order of datagrams and steps the client is safe, leaves
      nothing open, sends what it took in order, gives what it received in order, is never
      stuck and does not lose the first datagram; three findings as examples. UdpPeers:
      byedpi reads its datagrams and writes those that it reads.

    * Bounds and fuel

    A loop over a buffer takes its size as fuel, and the theorems show that it returns.
    The loops of kavl.h are bounded by [KAVL_MAX_DEPTH] as in the code; the overflow at
    that depth is a theorem. The mutual recursion that ends a TCP client has [FREE_DEPTH]
    calls: each closes one of two sides, so four are more than enough, which the invariant
    proof checks. Programs that wait for events (the loops of byedpi and of the reactor)
    take a schedule or fuel: they run until they are stopped.

    * Not modelled

    lwIP (third party, vendored), but for Lwip: its calls have any replies, and what it
    may call is stated by [tcp_enabled]. BReactor, BPending, BConnection and BConnector: waiting and
    sockets; jobs are flags and every order of jobs is allowed, which includes the one the
    queue takes. Logging and crash_handler.c. Sides of badvpn that the Android build leaves
    out (command line, Windows, udpgw) and generated code. The Kotlin application.
    A data race between threads: the two engine threads share only the flags of start and
    stop. *)
From stdpp Require Export base tactics option numbers list.
From Stdlib Require Export ZArith Lia ZifyBool.

#[global] Open Scope Z_scope.

(** ** Results of C computations

    [Ok a] is a normal result; [Ub] is an access outside an object, a division
    by zero or a failed [assert]; [Fuel] says that the step bound of a loop was
    used up before the loop left. *)
Inductive res (A : Type) : Type :=
  | Ok (a : A)
  | Ub
  | Fuel.
Arguments Ok {A} a.
Arguments Ub {A}.
Arguments Fuel {A}.

#[global] Instance res_ret : MRet res := fun A a => Ok a.
#[global] Instance res_bind : MBind res := fun A B k m =>
  match m with Ok a => k a | Ub => Ub | Fuel => Fuel end.
#[global] Instance res_map : FMap res := fun A B f m =>
  match m with Ok a => Ok (f a) | Ub => Ub | Fuel => Fuel end.

Definition res_of_option {A} (o : option A) : res A :=
  match o with Some a => Ok a | None => Ub end.

(** [wp r Q]: the computation ends normally and its value satisfies [Q] (a total
    correctness judgement: it excludes both [Ub] and [Fuel]). *)
Definition wp {A} (r : res A) (Q : A -> Prop) : Prop :=
  match r with Ok a => Q a | _ => False end.

#[global] Arguments wp : simpl never.

Section wp.
Context {A B : Type}.
Implicit Types (r : res A) (Q : A -> Prop).

Lemma wp_ok (a : A) Q : Q a -> wp (Ok a) Q.
Proof. done. Qed.

Lemma wp_ret (a : A) Q : Q a -> wp (mret a) Q.
Proof. done. Qed.

Lemma wp_bind r (k : A -> res B) (Q : B -> Prop) :
  wp r (fun a => wp (k a) Q) -> wp (r ≫= k) Q.
Proof. by destruct r. Qed.

Lemma wp_mono r (P Q : A -> Prop) :
  wp r P -> (forall a, P a -> Q a) -> wp r Q.
Proof. unfold wp. destruct r; auto. Qed.

Lemma wp_inv r Q : wp r Q -> exists a, r = Ok a /\ Q a.
Proof. unfold wp. destruct r; [eauto|done|done]. Qed.

Lemma wp_intro r Q a : r = Ok a -> Q a -> wp r Q.
Proof. by intros ->. Qed.

Lemma wp_and r (P Q : A -> Prop) : wp r P -> wp r Q -> wp r (fun a => P a /\ Q a).
Proof. unfold wp. destruct r; auto. Qed.

Lemma bind_ok_inv r (k : A -> res B) (b : B) :
  r ≫= k = Ok b -> exists a, r = Ok a /\ k a = Ok b.
Proof. destruct r; simpl; [eauto|done|done]. Qed.
End wp.

Create HintDb cmem.

(** ** Machine integers: wrap-around of a width *)
Definition u8 (x : Z) : Z := x mod 2 ^ 8.
Definition u16 (x : Z) : Z := x mod 2 ^ 16.
Definition u32 (x : Z) : Z := x mod 2 ^ 32.
Definition u64 (x : Z) : Z := x mod 2 ^ 64.
(** [size_t] (and the conversion of a [ssize_t] to it) on the 64-bit ABIs. *)
Definition usz (x : Z) : Z := x mod 2 ^ 64.
Definition s32 (x : Z) : Z := (x + 2 ^ 31) mod 2 ^ 32 - 2 ^ 31.

Lemma u8_small x : 0 <= x < 256 -> u8 x = x.
Proof. intros. unfold u8. rewrite Z.mod_small; lia. Qed.
Lemma u8_range x : 0 <= u8 x < 256.
Proof. unfold u8. apply Z.mod_pos_bound. lia. Qed.
Lemma u16_small x : 0 <= x < 65536 -> u16 x = x.
Proof. intros. unfold u16. rewrite Z.mod_small; lia. Qed.
Lemma u16_range x : 0 <= u16 x < 65536.
Proof. unfold u16. apply Z.mod_pos_bound. lia. Qed.
Lemma usz_small x : 0 <= x < 2 ^ 64 -> usz x = x.
Proof. intros. unfold usz. by rewrite Z.mod_small. Qed.
Lemma s32_small x : - 2 ^ 31 <= x < 2 ^ 31 -> s32 x = x.
Proof. intros. unfold s32. rewrite Z.mod_small; lia. Qed.

#[global] Arguments u8 : simpl never.
#[global] Arguments u16 : simpl never.
#[global] Arguments u32 : simpl never.
#[global] Arguments u64 : simpl never.
#[global] Arguments usz : simpl never.
#[global] Arguments s32 : simpl never.

(** ** The C truth of an [int] used as a condition, and flag tests [x & m] *)
Definition truthy (x : Z) : bool := negb (x =? 0).
Definition has_flag (x m : Z) : bool := truthy (Z.land x m).

(** C's [/] and [%]: truncation toward zero; a zero divisor is undefined. *)
Definition c_div (a b : Z) : res Z := if b =? 0 then Ub else Ok (Z.quot a b).
Definition c_mod (a b : Z) : res Z := if b =? 0 then Ub else Ok (Z.rem a b).

(** ** Tactics *)

(** One step of a total correctness proof of a [res] computation; conditions
    become hypotheses in the context. *)
Ltac wp_step :=
  lazymatch goal with
  | |- wp (_ ≫= _) _ => apply wp_bind
  | |- wp (mbind _ _) _ => apply wp_bind
  | |- wp (mret _) _ => apply wp_ret
  | |- wp (Ok _) _ => apply wp_ok
  | |- wp (if ?b then _ else _) _ => destruct b eqn:?
  | |- wp (let '(_, _) := ?p in _) _ => destruct p
  end; cbv beta.
Ltac wp_steps := repeat wp_step.

(** ** Record update

    [r <| f := v |>] is [r] with field [f] set to [v]. A record that declares its
    eta expansion gets the setter of each field by computation. *)
Class Eta (R : Type) := eta : R -> R.
Class Setter {R T : Type} (f : R -> T) := set_field : T -> R -> R.
Ltac solve_setter :=
  match goal with
  | |- @Setter ?R ?T ?f =>
      exact (fun (v__ : T) (r__ : R) =>
        ltac:(let e := eval unfold eta in (@eta R _ r__) in
              let h := eval hnf in e in
              match eval pattern (f r__) in h with
              | ?k _ => let b := eval cbv beta in (k v__) in exact b end))
  end.
#[global] Hint Extern 1 (Setter _) => solve_setter : typeclass_instances.
Notation "r <| f := v |>" := (set_field (f := f) v r)
  (at level 1, left associativity, f at level 9, v at level 200, format "r <| f  :=  v |>").
