(* ===== verification/CMem.v ===== *)
(** Byte memory: C objects of [char] as lists of bytes (a [Z] in [0, 256)),
    indexed from the pointer the code holds; the <string.h>, <ctype.h> and
    <stdlib.h> functions the sources call on them; and the total correctness
    rules of each access. *)
From S2P Require Import Prelude.

Definition zlen {A} (l : list A) : Z := Z.of_nat (length l).
Definition is_byte (b : Z) : Prop := 0 <= b < 256.
Definition bytes_ok (m : list Z) : Prop := Forall is_byte m.

(** ** Single bytes *)
Definition byte_at (m : list Z) (i : Z) : Z := default 0 (m !! Z.to_nat i).

Definition rd (m : list Z) (i : Z) : res Z :=
  if i <? 0 then Ub else res_of_option (m !! Z.to_nat i).

Definition wr (m : list Z) (i v : Z) : res (list Z) :=
  if (0 <=? i) && (i <? zlen m) then Ok (<[Z.to_nat i := v]> m) else Ub.

(** ** Ranges *)
Definition slice (m : list Z) (s n : Z) : list Z :=
  take (Z.to_nat n) (drop (Z.to_nat s) m).
Definition splice (m : list Z) (d : Z) (src : list Z) : list Z :=
  take (Z.to_nat d) m ++ src ++ drop (Z.to_nat (d + zlen src)) m.

Definition in_range (m : list Z) (s n : Z) : bool :=
  (0 <=? s) && (0 <=? n) && (s + n <=? zlen m).

Definition rd_list (m : list Z) (s n : Z) : res (list Z) :=
  if in_range m s n then Ok (slice m s n) else Ub.
Definition wr_list (m : list Z) (d : Z) (src : list Z) : res (list Z) :=
  if in_range m d (zlen src) then Ok (splice m d src) else Ub.

Definition memmove (m : list Z) (d s n : Z) : res (list Z) :=
  src ← rd_list m s n; wr_list m d src.
Definition memset (m : list Z) (d v n : Z) : res (list Z) :=
  if n <? 0 then Ub else wr_list m d (replicate (Z.to_nat n) v).

(** [memchr] reads one byte after the other and stops at the first match. A
    negative count is a huge [size_t]: it reads to a match or out of the object. *)
Fixpoint memchr_loop (k : nat) (m : list Z) (p c : Z) : res (option Z) :=
  match k with
  | O => Ok None
  | S k => b ← rd m p; if b =? c then Ok (Some p) else memchr_loop k m (p + 1) c
  end.
Definition memchr (m : list Z) (p c n : Z) : res (option Z) :=
  memchr_loop (if n <? 0 then S (length m) else Z.to_nat n) m p c.

Fixpoint list_cmp (a b : list Z) : Z :=
  match a, b with
  | x :: a, y :: b => if x <? y then -1 else if y <? x then 1 else list_cmp a b
  | _, _ => 0
  end.
Definition memcmp (a : list Z) (i : Z) (b : list Z) (j n : Z) : res Z :=
  x ← rd_list a i n; y ← rd_list b j n; Ok (list_cmp x y).

(** ** Plain [char]: signed on x86, unsigned on ARM; both are covered *)
Class CharAbi := char_signed : bool.
Definition schar {CA : CharAbi} (b : Z) : Z :=
  if char_signed && (128 <=? b) then b - 256 else b.

(** ** Characters, in the C locale *)
Definition isspace (c : Z) : bool := ((9 <=? c) && (c <=? 13)) || (c =? 32).
Definition isdigit (c : Z) : bool := (48 <=? c) && (c <=? 57).
Definition tolower (c : Z) : Z := if (65 <=? c) && (c <=? 90) then c + 32 else c.
Definition toupper (c : Z) : Z := if (97 <=? c) && (c <=? 122) then c - 32 else c.

(** [strncmp(m + p, lit, strlen(lit)) == 0] and the case-insensitive
    [strncasecmp], [lit] a literal without a NUL: both stop at a mismatch. *)
Fixpoint strn_eq (f : Z -> Z) (m : list Z) (p : Z) (lit : list Z) : res bool :=
  match lit with
  | [] => Ok true
  | c :: lit => b ← rd m p; if f b =? f c then strn_eq f m (p + 1) lit else Ok false
  end.
Definition strncmp_eq (m : list Z) (p : Z) (lit : list Z) : res bool := strn_eq id m p lit.
Definition strncasecmp_eq (m : list Z) (p : Z) (lit : list Z) : res bool := strn_eq tolower m p lit.

(** [strtol(m + p, &end, 10)]: the value, clamped to [long], and [end]. *)
Fixpoint skip_while (f : Z -> bool) (k : nat) (m : list Z) (p : Z) : res Z :=
  match k with
  | O => Fuel
  | S k => b ← rd m p; if f b then skip_while f k m (p + 1) else Ok p
  end.
Fixpoint strtol_digits (k : nat) (m : list Z) (p acc : Z) : res (Z * Z) :=
  match k with
  | O => Fuel
  | S k => b ← rd m p;
      if isdigit b then strtol_digits k m (p + 1) (acc * 10 + (b - 48)) else Ok (acc, p)
  end.
Definition clamp_long (x : Z) : Z := Z.max (- 2 ^ 63) (Z.min (2 ^ 63 - 1) x).
Definition strtol (m : list Z) (p : Z) : res (Z * Z) :=
  let k := S (length m) in
  q ← skip_while isspace k m p;
  c ← rd m q;
  let q' := if (c =? 43) || (c =? 45) then q + 1 else q in
  '(v, e) ← strtol_digits k m q' 0;
  Ok (clamp_long (if c =? 45 then - v else v), if e =? q' then p else e).

#[global] Arguments rd : simpl never.
#[global] Arguments wr : simpl never.
#[global] Arguments rd_list : simpl never.
#[global] Arguments wr_list : simpl never.
#[global] Arguments memmove : simpl never.
#[global] Arguments memset : simpl never.
#[global] Arguments memchr : simpl never.
#[global] Arguments memcmp : simpl never.
#[global] Arguments strtol : simpl never.
#[global] Arguments zlen : simpl never.
#[global] Arguments byte_at : simpl never.
#[global] Arguments slice : simpl never.
#[global] Arguments splice : simpl never.

(** ** Lemmas: values and lengths *)
Lemma zlen_nonneg {A} (l : list A) : 0 <= zlen l.
Proof. unfold zlen. lia. Qed.
#[export] Hint Resolve zlen_nonneg : cmem.

Lemma zlen_nil {A} : zlen (@nil A) = 0.
Proof. done. Qed.
Lemma zlen_cons {A} (x : A) l : zlen (x :: l) = zlen l + 1.
Proof. unfold zlen. simpl. lia. Qed.
Lemma zlen_app {A} (l k : list A) : zlen (l ++ k) = zlen l + zlen k.
Proof. unfold zlen. rewrite length_app. lia. Qed.
Lemma zlen_replicate {A} n (x : A) : zlen (replicate n x) = Z.of_nat n.
Proof. unfold zlen. by rewrite length_replicate. Qed.
Lemma zlen_insert (m : list Z) i v : zlen (<[i := v]> m) = zlen m.
Proof. unfold zlen. by rewrite length_insert. Qed.
Lemma zlen_slice m s n :
  0 <= s -> 0 <= n -> s + n <= zlen m -> zlen (slice m s n) = n.
Proof. unfold zlen, slice. rewrite length_take, length_drop. lia. Qed.
Lemma zlen_splice m d src :
  0 <= d -> d + zlen src <= zlen m -> zlen (splice m d src) = zlen m.
Proof.
  unfold splice. rewrite !zlen_app. unfold zlen.
  rewrite length_take, length_drop. lia.
Qed.
Lemma zlen_take (m : list Z) n : 0 <= n <= zlen m -> zlen (take (Z.to_nat n) m) = n.
Proof. unfold zlen. rewrite length_take. lia. Qed.
Lemma zlen_drop (m : list Z) n : 0 <= n <= zlen m -> zlen (drop (Z.to_nat n) m) = zlen m - n.
Proof. unfold zlen. rewrite length_drop. lia. Qed.

Lemma lookup_byte_at m i : 0 <= i < zlen m -> m !! Z.to_nat i = Some (byte_at m i).
Proof.
  intros [? Hi]. unfold byte_at. destruct (m !! Z.to_nat i) eqn:E; [done|].
  apply lookup_ge_None in E. unfold zlen in Hi. lia.
Qed.
Lemma rd_ok m i : 0 <= i < zlen m -> rd m i = Ok (byte_at m i).
Proof.
  intros H. unfold rd. rewrite (proj2 (Z.ltb_ge i 0)) by lia.
  by rewrite lookup_byte_at.
Qed.
Lemma wr_ok m i v : 0 <= i < zlen m -> wr m i v = Ok (<[Z.to_nat i := v]> m).
Proof.
  intros H. unfold wr. by rewrite (proj2 (Z.leb_le 0 i)), (proj2 (Z.ltb_lt i _)) by lia.
Qed.
Lemma in_range_true m s n :
  0 <= s -> 0 <= n -> s + n <= zlen m -> in_range m s n = true.
Proof. intros. unfold in_range. rewrite !andb_true_iff, !Z.leb_le. lia. Qed.
Lemma rd_list_ok m s n :
  0 <= s -> 0 <= n -> s + n <= zlen m -> rd_list m s n = Ok (slice m s n).
Proof. intros. unfold rd_list. by rewrite in_range_true. Qed.
Lemma wr_list_ok m d src :
  0 <= d -> d + zlen src <= zlen m -> wr_list m d src = Ok (splice m d src).
Proof. intros. unfold wr_list. rewrite in_range_true; auto with cmem. Qed.
Lemma memmove_ok m d s n :
  0 <= s -> 0 <= n -> s + n <= zlen m -> 0 <= d -> d + n <= zlen m ->
  memmove m d s n = Ok (splice m d (slice m s n)).
Proof.
  intros. unfold memmove. rewrite rd_list_ok by done. simpl.
  rewrite wr_list_ok; [done|lia|rewrite zlen_slice; lia].
Qed.

(** ** Bytes stay bytes *)
Lemma byte_at_range m i : bytes_ok m -> 0 <= byte_at m i < 256.
Proof.
  intros H. unfold byte_at. destruct (m !! Z.to_nat i) eqn:E; simpl; [|lia].
  eapply Forall_lookup_1 in H; [|done]. exact H.
Qed.
Lemma bytes_ok_app m k : bytes_ok (m ++ k) <-> bytes_ok m /\ bytes_ok k.
Proof. apply Forall_app. Qed.
Lemma bytes_ok_take m n : bytes_ok m -> bytes_ok (take n m).
Proof. apply Forall_take. Qed.
Lemma bytes_ok_drop m n : bytes_ok m -> bytes_ok (drop n m).
Proof. apply Forall_drop. Qed.
Lemma bytes_ok_slice m s n : bytes_ok m -> bytes_ok (slice m s n).
Proof. intros. by apply bytes_ok_take, bytes_ok_drop. Qed.
Lemma bytes_ok_splice m d src : bytes_ok m -> bytes_ok src -> bytes_ok (splice m d src).
Proof.
  intros. unfold splice. apply bytes_ok_app; split; [by apply bytes_ok_take|].
  apply bytes_ok_app; split; [done|by apply bytes_ok_drop].
Qed.
Lemma bytes_ok_insert m i v : bytes_ok m -> is_byte v -> bytes_ok (<[i := v]> m).
Proof. intros. by apply Forall_insert. Qed.
#[export] Hint Resolve byte_at_range bytes_ok_take bytes_ok_drop bytes_ok_slice
  bytes_ok_splice bytes_ok_insert : cmem.

(** ** Total correctness rules *)
Lemma wp_rd m i (Q : Z -> Prop) : 0 <= i < zlen m -> Q (byte_at m i) -> wp (rd m i) Q.
Proof. intros. by rewrite rd_ok. Qed.

Lemma wp_memchr_loop k m p c (Q : option Z -> Prop) :
  0 <= p -> p + Z.of_nat k <= zlen m ->
  Q None -> (forall r, p <= r < p + Z.of_nat k -> byte_at m r = c -> Q (Some r)) ->
  wp (memchr_loop k m p c) Q.
Proof.
  revert p. induction k as [|k IH]; intros p Hp Hk Hn Hs; [done|]. simpl.
  apply wp_bind, wp_rd; [lia|]. destruct (Z.eqb_spec (byte_at m p) c) as [E|].
  - apply Hs; [lia|done].
  - apply IH; [lia|lia|done|]. intros r Hr. apply Hs. lia.
Qed.

Lemma wp_memchr m p c n (Q : option Z -> Prop) :
  0 <= p -> 0 <= n -> p + n <= zlen m ->
  Q None -> (forall r, p <= r < p + n -> byte_at m r = c -> Q (Some r)) ->
  wp (memchr m p c n) Q.
Proof.
  intros Hp Hn Hl ? Hs. unfold memchr. rewrite (proj2 (Z.ltb_ge n 0)) by lia.
  apply wp_memchr_loop; [lia|lia|done|]. intros r Hr. apply Hs. lia.
Qed.

Lemma wp_strn_eq f m p lit (Q : bool -> Prop) :
  0 <= p -> p + zlen lit <= zlen m ->
  Q false ->
  ((forall j, 0 <= j < zlen lit -> f (byte_at m (p + j)) = f (byte_at lit j)) -> Q true) ->
  wp (strn_eq f m p lit) Q.
Proof.
  revert p. induction lit as [|c lit IH]; intros p Hp Hl Hf Ht; simpl.
  { apply Ht. intros j ?. exfalso. unfold zlen in *. simpl in *. lia. }
  rewrite zlen_cons in Hl. pose proof (zlen_nonneg lit). apply wp_bind, wp_rd; [lia|].
  destruct (Z.eqb_spec (f (byte_at m p)) (f c)) as [E|]; [|done].
  apply IH; [lia|lia|done|]. intros Hall. apply Ht. intros j Hj.
  rewrite zlen_cons in Hj. destruct (decide (j = 0)) as [->|].
  - rewrite Z.add_0_r. done.
  - replace (p + j) with (p + 1 + (j - 1)) by lia. rewrite Hall by lia.
    unfold byte_at. replace (Z.to_nat j) with (S (Z.to_nat (j - 1))) by lia. done.
Qed.

(** ** Sub-lists at known offsets *)
Lemma slice_app_mid (a b c : list Z) s n :
  s = zlen a -> n = zlen b -> slice (a ++ b ++ c) s n = b.
Proof.
  intros -> ->. unfold slice, zlen. rewrite !Nat2Z.id.
  rewrite drop_app_length. apply take_app_length.
Qed.
Lemma slice_app (m : list Z) s a b : 0 <= s -> 0 <= a -> 0 <= b ->
  slice m s a ++ slice m (s + a) b = slice m s (a + b).
Proof.
  intros. unfold slice. rewrite !Z2Nat.inj_add by done.
  rewrite <- (drop_drop m (Z.to_nat a) (Z.to_nat s)). generalize (drop (Z.to_nat s) m) as l. intros l.
  revert l. induction (Z.to_nat a) as [|k IH]; intros [|x l]; simpl; rewrite ?take_nil; [done..|]. by rewrite IH.
Qed.
Lemma slice_slice m s n a b : 0 <= s -> 0 <= a -> 0 <= b -> a + b <= n ->
  slice (slice m s n) a b = slice m (s + a) b.
Proof.
  intros. unfold slice. rewrite skipn_firstn_comm, drop_drop, take_take. f_equal; [lia|f_equal; lia].
Qed.
Lemma splice_app_mid (a b c src : list Z) d :
  d = zlen a -> zlen src = zlen b -> splice (a ++ b ++ c) d src = a ++ src ++ c.
Proof.
  intros -> Hl. unfold splice. rewrite Hl. unfold zlen.
  rewrite <- Nat2Z.inj_add, !Nat2Z.id, take_app_length.
  rewrite (assoc_L (++) a b c), <- length_app, drop_app_length. done.
Qed.
Lemma byte_at_app_mid (a : list Z) x (c : list Z) i : i = zlen a -> byte_at (a ++ x :: c) i = x.
Proof.
  intros ->. unfold byte_at, zlen. rewrite Nat2Z.id.
  by rewrite list_lookup_middle.
Qed.
Lemma insert_app_mid (a : list Z) x y (c : list Z) i :
  i = zlen a -> <[Z.to_nat i := y]> (a ++ x :: c) = a ++ y :: c.
Proof.
  intros ->. unfold zlen. rewrite Nat2Z.id.
  replace (length a) with (length a + 0)%nat by lia. by rewrite insert_app_r.
Qed.
Lemma byte_at_app_l (a c : list Z) i : 0 <= i < zlen a -> byte_at (a ++ c) i = byte_at a i.
Proof. intros H. unfold byte_at. rewrite lookup_app_l; [done|unfold zlen in H; lia]. Qed.
Lemma byte_at_app_r (a c : list Z) i : zlen a <= i -> byte_at (a ++ c) i = byte_at c (i - zlen a).
Proof.
  intros H. unfold byte_at, zlen in *. rewrite lookup_app_r by lia.
  f_equal. f_equal. lia.
Qed.
Lemma byte_at_insert m i j v :
  0 <= i < zlen m -> 0 <= j -> byte_at (<[Z.to_nat i := v]> m) j = if i =? j then v else byte_at m j.
Proof.
  intros Hi Hj. unfold byte_at. destruct (Z.eqb_spec i j) as [->|].
  - rewrite list_lookup_insert_eq; [done|unfold zlen in *; lia].
  - rewrite list_lookup_insert_ne; [done|lia].
Qed.
Lemma list_eq_byte_at (a b : list Z) :
  zlen a = zlen b -> (forall i, 0 <= i < zlen a -> byte_at a i = byte_at b i) -> a = b.
Proof.
  intros Hl H. apply list_eq_same_length with (n := length a); [unfold zlen in Hl; lia|done|].
  intros i x y Hi Hx Hy. specialize (H (Z.of_nat i)). unfold byte_at in H.
  rewrite Nat2Z.id, Hx, Hy in H. apply H. unfold zlen. lia.
Qed.
Lemma byte_at_splice m d src i :
  0 <= d -> d + zlen src <= zlen m -> 0 <= i < zlen m ->
  byte_at (splice m d src) i =
    if (d <=? i) && (i <? d + zlen src) then byte_at src (i - d) else byte_at m i.
Proof.
  intros Hd Hs Hi. pose proof (zlen_nonneg src). unfold splice.
  assert (Ht : zlen (take (Z.to_nat d) m) = d) by (apply zlen_take; lia).
  destruct ((d <=? i) && (i <? d + zlen src)) eqn:E.
  - rewrite byte_at_app_r, byte_at_app_l by lia. by rewrite Ht.
  - destruct (decide (i < d)).
    + rewrite byte_at_app_l by lia. unfold byte_at. by rewrite lookup_take_lt by lia.
    + rewrite byte_at_app_r, byte_at_app_r by lia. unfold byte_at.
      rewrite lookup_drop. do 2 f_equal. lia.
Qed.
Lemma byte_at_slice m s n i :
  0 <= s -> 0 <= i < n -> byte_at (slice m s n) i = byte_at m (s + i).
Proof.
  intros. unfold byte_at, slice. rewrite lookup_take_lt by lia.
  rewrite lookup_drop. do 2 f_equal. lia.
Qed.
Lemma slice_splice_at m d src : 0 <= d -> d + zlen src <= zlen m -> slice (splice m d src) d (zlen src) = src.
Proof.
  intros. pose proof (zlen_nonneg src). apply list_eq_byte_at; rewrite zlen_slice; rewrite ?zlen_splice; try lia.
  intros i Hi. rewrite byte_at_slice, byte_at_splice by lia.
  destruct ((d <=? d + i) && (d + i <? d + zlen src)) eqn:E; [f_equal; lia|lia].
Qed.
Lemma slice_splice_before m d src s n : 0 <= s -> 0 <= n -> s + n <= d -> d + zlen src <= zlen m ->
  slice (splice m d src) s n = slice m s n.
Proof.
  intros. pose proof (zlen_nonneg src). apply list_eq_byte_at; rewrite !zlen_slice; rewrite ?zlen_splice; try lia.
  intros i Hi. rewrite !byte_at_slice, byte_at_splice by lia. case_match eqn:E; [lia|done].
Qed.

(** ** Lists of a known short length *)
Lemma zlen_3 {A} (l : list A) : zlen l = 3 -> exists a b c, l = [a; b; c].
Proof. destruct l as [|a [|b [|c [|? ?]]]]; unfold zlen; simpl; intros; try lia. eauto. Qed.
Lemma zlen_5 {A} (l : list A) : zlen l = 5 -> exists a b c d e, l = [a; b; c; d; e].
Proof.
  destruct l as [|a [|b [|c [|d [|e [|? ?]]]]]]; unfold zlen; simpl; intros; try lia. eauto 6.
Qed.
Lemma zlen_0_nil {A} (l : list A) : zlen l = 0 -> l = [].
Proof. destruct l; [done|]. unfold zlen. simpl. lia. Qed.

(** [memmove] whose source and destination are known pieces of the object. *)
Lemma memmove_app (m a b c a' b' c' : list Z) d s n :
  m = a ++ b ++ c -> m = a' ++ b' ++ c' ->
  s = zlen a -> n = zlen b -> d = zlen a' -> zlen b' = n ->
  memmove m d s n = Ok (a' ++ b ++ c').
Proof.
  intros Hm Hm' -> -> -> Hb. pose proof (zlen_nonneg a). pose proof (zlen_nonneg a').
  pose proof (zlen_nonneg b).
  assert (zlen m = zlen a + (zlen b + zlen c)) by (rewrite Hm, !zlen_app; done).
  assert (zlen m = zlen a' + (zlen b' + zlen c')) by (rewrite Hm', !zlen_app; done).
  pose proof (zlen_nonneg c). pose proof (zlen_nonneg c').
  rewrite memmove_ok by lia. f_equal.
  rewrite Hm at 2. rewrite slice_app_mid by done. rewrite Hm'.
  by apply splice_app_mid.
Qed.

(** ** Texts that differ in letter case only *)
Definition lc (m : list Z) : list Z := tolower <$> m.

Lemma tolower_idem b : tolower (tolower b) = tolower b.
Proof. unfold tolower. repeat case_match; lia. Qed.
Lemma tolower_toupper b : tolower (toupper b) = tolower b.
Proof. unfold tolower, toupper. repeat case_match; lia. Qed.
Lemma isspace_tolower b : isspace (tolower b) = isspace b.
Proof. unfold isspace, tolower. case_match; lia. Qed.
Lemma zlen_lc m : zlen (lc m) = zlen m.
Proof. unfold zlen, lc. by rewrite length_fmap. Qed.
Lemma lc_app a b : lc (a ++ b) = lc a ++ lc b.
Proof. apply fmap_app. Qed.
Lemma lc_zlen a b : lc a = lc b -> zlen a = zlen b.
Proof. intros H. by rewrite <- (zlen_lc a), H, zlen_lc. Qed.
Lemma byte_at_lc m i : 0 <= i < zlen m -> byte_at (lc m) i = tolower (byte_at m i).
Proof.
  intros H. unfold byte_at at 1, lc. rewrite list_lookup_fmap, lookup_byte_at by done. done.
Qed.
Lemma lc_byte_at a b i :
  lc a = lc b -> 0 <= i < zlen b -> tolower (byte_at a i) = tolower (byte_at b i).
Proof.
  intros H Hi. rewrite <- !byte_at_lc; [by rewrite H|done|by rewrite (lc_zlen _ _ H)].
Qed.
Lemma lc_insert m i v :
  0 <= i < zlen m -> tolower v = tolower (byte_at m i) -> lc (<[Z.to_nat i := v]> m) = lc m.
Proof.
  intros Hi Hv. unfold lc. rewrite list_fmap_insert.
  apply list_insert_id. rewrite list_lookup_fmap, lookup_byte_at by done.
  simpl. by rewrite Hv.
Qed.
