(* ===== verification/Sys.v ===== *)
(** The operating system as an oracle: the calls the native code makes, a
    history of calls and replies, and the state-and-history monad [Prog] in
    which the stateful code is written, with its total correctness rules. *)
From S2P Require Import Prelude CMem.

(** ** Calls and replies

    One constructor per library or system call of byedpi whose outcome the code
    does not determine. [ret] is what the caller sees of it: the return value,
    [errno] after the call, and the bytes the call stores into the caller's
    object. Logging (LOG, uniperror) is no call: it returns nothing the code uses.
    After [CCheckpoint] come badvpn's: [realloc], its connector and connection objects,
    and the call-back of an object's owner; [CTun] is what tun2socks asks of lwIP, of
    the reactor and of the system. *)
Inductive tun_call : Type :=
  (* lwIP, on the connection [pcb] *)
  | TcpClose (pcb : Z)
  | TcpAbort (pcb : Z)
  | TcpRecved (pcb len : Z)
  | TcpSndbuf (pcb : Z)
  | TcpWrite (pcb : Z) (data : list Z)
  | TcpOutput (pcb : Z)
  (* lwIP's set-up, input and timers *)
  | LwipInit
  | NetifRemove
  | TcpNew (v6 : bool)
  | TcpListen (pcb : Z)
  | PbufAlloc (n : Z)
  | PbufFree (data : list Z)
  | IpInput (packet : list Z)
  | Ip6Input (packet : list Z)
  | TcpTmr
  | IpReassTmr
  | Nd6Tmr
  | Ip6ReassTmr
  | NetworkInit
  | ReadFile (name : list Z)
  (* the reactor, timers and descriptors *)
  | ReactorInit
  | ReactorFree
  | ReactorQuit
  | AddFd (fd : Z)
  | RemoveFd (fd : Z)
  | SetFdEvents (fd events : Z)
  | SetTimer
  | RemoveTimer
  | Fcntl (fd : Z)
  | Dup (fd : Z)
  | OpenTun
  | Ioctl (fd request : Z) (arg : list Z)
  | Read (fd n : Z)
  | Write (fd : Z) (data : list Z)
  | BAlloc (n : Z)
  (* the connection of a SOCKS client took or brought bytes *)
  | ConnSent (data : list Z)
  | ConnGot (data : list Z)
  (* the UDP clients *)
  | UdpClientInit (mtu : Z)
  | UdpClientFree
  | UdpSubmit (local remote : Z * list Z) (data : list Z)
  | UdpGwSubmit (local remote : Z * list Z) (is_dns : bool) (data : list Z)
  (* the datagram sockets of the UDP client, and what it hands to its owner: of a
     message that was received the name and the local address follow its bytes *)
  | LimitIncrement
  | SendMsg (fd : Z) (name control data : list Z)
  | RecvMsg (fd n : Z)
  | MsgName
  | MsgLocal
  | UdpReceived (local remote : Z * list Z) (data : list Z).

Inductive call : Type :=
  | CRand
  | CSend (fd : Z) (data : list Z) (flags : Z)
  | CRecv (fd size : Z)
  | CRecvfrom (fd size : Z)
  | CSetsockopt (fd level name : Z) (value : list Z)
  | CGetsockopt (fd level name : Z)
  | CSocket (domain type : Z)
  | CBind (fd : Z) (addr : list Z)
  | CConnect (fd : Z) (addr : list Z)
  | CListen (fd backlog : Z)
  | CAccept (fd : Z)
  | CGetsockname (fd : Z)
  | CGetpeername (fd : Z)
  | CShutdown (fd : Z)
  | CClose (fd : Z)
  | CPipe
  | CVmsplice (fd : Z) (data : list Z)
  | CSplice (fd_in fd_out len : Z)
  | CMmap (n : Z)
  | CMunmap (n : Z)
  | CMalloc (n : Z)
  | CFree (data : list Z)
  | CFreeElem (addr : Z)
  | CEpollCreate (n : Z)
  | CEpollCtl (op fd events item : Z)
  | CEpollWait (max ms : Z)
  | CGetaddrinfo (host : list Z) (socktype family : Z) (numeric : bool)
  | CTime
  | CTimeMs
  | CSendmsg (fd : Z) (data : list Z) (passed_fd : Z)
  | CGetUtf (s : list Z)
  | CPthreadCreate
  | CPthreadJoin
  | CCheckpoint
  | CRealloc (n : Z)
  | CConnectorInit (addr : list Z)
  | CConnectorFree
  | CConnectionInit
  | CConnectionFree
  | CConnectionLocalAddr
  | CHandler (event : Z)
  | CTun (c : tun_call).

Record ret : Type := Ret { rv : Z; re : Z; rdata : list Z }.

(** Newest first. *)
Abbreviation hist := (list (call * ret)).

(** The environment: any reply as a function of the whole past and the call. *)
Class Os := os_reply : hist -> call -> ret.

(** [errno]: what the last call left in it. *)
Definition get_e (h : hist) : Z :=
  match h with [] => 0 | (_, r) :: _ => re r end.

(** ** Programs over a state [S] *)
Definition Prog (S A : Type) : Type := S -> hist -> res (A * S * hist).

#[global] Instance prog_ret S : MRet (Prog S) := fun A a s h => Ok (a, s, h).
#[global] Instance prog_bind S : MBind (Prog S) := fun A B k m s h =>
  match m s h with Ok (a, s', h') => k a s' h' | Ub => Ub | Fuel => Fuel end.

Section ops.
Context {OS : Os} {S : Type}.

Definition syscall (c : call) : Prog S ret :=
  fun s h => let r := os_reply h c in Ok (r, s, (c, r) :: h).
Definition errno : Prog S Z := fun s h => Ok (get_e h, s, h).
Definition pget : Prog S S := fun s h => Ok (s, s, h).
Definition pput (s : S) : Prog S unit := fun _ h => Ok (tt, s, h).
Definition pmod (f : S -> S) : Prog S unit := fun s h => Ok (tt, f s, h).
Definition pgets {A} (f : S -> A) : Prog S A := fun s h => Ok (f s, s, h).
Definition lift {A} (r : res A) : Prog S A := fun s h =>
  match r with Ok a => Ok (a, s, h) | Ub => Ub | Fuel => Fuel end.
Definition pub {A} : Prog S A := fun _ _ => Ub.
Definition pfuel {A} : Prog S A := fun _ _ => Fuel.
(** [assert(b)] *)
Definition passert (b : bool) : Prog S unit := if b then mret tt else pub.
(** a pointer the code dereferences *)
Definition deref {A} (o : option A) : Prog S A :=
  match o with Some a => mret a | None => pub end.
Definition rand_ : Prog S Z := r ← syscall CRand; mret (rv r).
End ops.
Arguments pub {S A}.
Arguments pfuel {S A}.

(** ** Total correctness *)
Definition wpp {S A} (m : Prog S A) (s : S) (h : hist) (Q : A -> S -> hist -> Prop) : Prop :=
  match m s h with Ok (a, s', h') => Q a s' h' | _ => False end.

Section rules.
Context {OS : Os} {S A B : Type}.
Implicit Types (s : S) (h : hist).

Lemma wpp_ret (a : A) s h (Q : A -> S -> hist -> Prop) : Q a s h -> wpp (mret a) s h Q.
Proof. done. Qed.
Lemma wpp_bind (m : Prog S A) (k : A -> Prog S B) s h (Q : B -> S -> hist -> Prop) :
  wpp m s h (fun a s' h' => wpp (k a) s' h' Q) -> wpp (m ≫= k) s h Q.
Proof. unfold wpp, mbind, prog_bind. by destruct (m s h) as [[[? ?] ?]| |]. Qed.
Lemma wpp_mono (m : Prog S A) s h (P Q : A -> S -> hist -> Prop) :
  wpp m s h P -> (forall a s' h', P a s' h' -> Q a s' h') -> wpp m s h Q.
Proof. unfold wpp. destruct (m s h) as [[[? ?] ?]| |]; auto. Qed.
Lemma wpp_inv (m : Prog S A) s h (Q : A -> S -> hist -> Prop) :
  wpp m s h Q -> exists a s' h', m s h = Ok (a, s', h') /\ Q a s' h'.
Proof. unfold wpp. destruct (m s h) as [[[a s'] h']| |]; [|done..]. by exists a, s', h'. Qed.
Lemma wpp_syscall c s h (Q : ret -> S -> hist -> Prop) :
  Q (os_reply h c) s ((c, os_reply h c) :: h) -> wpp (syscall c) s h Q.
Proof. done. Qed.
Lemma wpp_errno s h (Q : Z -> S -> hist -> Prop) : Q (get_e h) s h -> wpp errno s h Q.
Proof. done. Qed.
Lemma wpp_pget s h (Q : S -> S -> hist -> Prop) : Q s s h -> wpp pget s h Q.
Proof. done. Qed.
Lemma wpp_pmod f s h (Q : unit -> S -> hist -> Prop) : Q tt (f s) h -> wpp (pmod f) s h Q.
Proof. done. Qed.
Lemma wpp_pgets (f : S -> A) s h (Q : A -> S -> hist -> Prop) : Q (f s) s h -> wpp (pgets f) s h Q.
Proof. done. Qed.
Lemma wpp_lift (r : res A) s h (Q : A -> S -> hist -> Prop) :
  wp r (fun a => Q a s h) -> wpp (lift r) s h Q.
Proof. unfold wpp, lift. by destruct r. Qed.
Lemma wpp_passert b s h (Q : unit -> S -> hist -> Prop) : b = true -> Q tt s h -> wpp (passert b) s h Q.
Proof. by intros ->. Qed.
Lemma wpp_deref (o : option A) a s h (Q : A -> S -> hist -> Prop) :
  o = Some a -> Q a s h -> wpp (deref o) s h Q.
Proof. by intros ->. Qed.
End rules.

(** One symbolic step of a program under [wpp]. *)
Ltac wpp_step :=
  lazymatch goal with
  | |- wpp (_ ≫= _) _ _ _ => apply wpp_bind
  | |- wpp (mret _) _ _ _ => apply wpp_ret
  | |- wpp (syscall _) _ _ _ => apply wpp_syscall
  | |- wpp errno _ _ _ => apply wpp_errno
  | |- wpp pget _ _ _ => apply wpp_pget
  | |- wpp (pmod _) _ _ _ => apply wpp_pmod
  | |- wpp (pgets _) _ _ _ => apply wpp_pgets
  | |- wpp (lift _) _ _ _ => apply wpp_lift
  end; cbv beta.
