(* ===== verification/PktTls.v ===== *)
(** byedpi/packets.c, the TLS half: locating extensions in a ClientHello,
    reading and replacing the server name, merging and splitting TLS records,
    randomising a fake ClientHello. Buffers are the whole object the [char *]
    points to; [n] or [size] is the number of bytes the code was told. *)
From S2P Require Import Prelude CMem Sys.

(** ** 16-bit big-endian access: the macros ANTOHS and SHTONA *)
Definition ANTOHS (data : list Z) (i : Z) : res Z :=
  hi ← rd data i; lo ← rd data (i + 1); Ok (Z.shiftl hi 8 + lo).
Definition SHTONA (data : list Z) (i x : Z) : res (list Z) :=
  data ← wr data i (u8 (Z.shiftr x 8)); wr data (i + 1) (u8 (Z.land x 255)).

#[global] Arguments ANTOHS : simpl never.
#[global] Arguments SHTONA : simpl never.

(** ** Extensions *)
Fixpoint find_ext_loop (k : nat) (type : Z) (data : list Z) (size skip : Z) : res Z :=
  match k with
  | O => Fuel
  | S k =>
      if skip + 4 <? size then
        epyt ← ANTOHS data skip;
        if type =? epyt then Ok skip else
        len ← ANTOHS data (skip + 2);
        find_ext_loop k type data size (skip + (len + 4))
      else Ok 0
  end.

Definition find_tls_ext_offset (type : Z) (data : list Z) (size skip : Z) : res Z :=
  if size <=? skip + 2 then Ok 0 else
  ext_len ← ANTOHS data skip;
  let skip := skip + 2 in
  let size := if ext_len <? size - skip then ext_len + skip else size in
  find_ext_loop (S (Z.to_nat size)) type data size skip.

Definition find_ext_block (data : list Z) (size : Z) : res Z :=
  if size <? 44 then Ok 0 else
  sid_len ← rd data 43;
  if size <? 44 + sid_len + 2 then Ok 0 else
  cip_len ← ANTOHS data (44 + sid_len);
  let skip := 44 + sid_len + 2 + cip_len + 2 in
  Ok (if size <? skip then 0 else skip).

(** ** Records *)
Fixpoint merge_loop (k : nat) (buffer : list Z) (n full_sz r_sz i : Z) : res (Z * Z * list Z) :=
  match k with
  | O => Fuel
  | S k =>
      let full_sz := u16 (full_sz + r_sz) in
      if n - 5 <? 5 + full_sz then Ok (full_sz, i, buffer) else
      b ← rd buffer (5 + full_sz);
      b0 ← rd buffer 0;
      if negb (b =? b0) then Ok (full_sz, i, buffer) else
      r_sz ← ANTOHS buffer (5 + full_sz + 3);
      if n <? full_sz + 10 + r_sz then Ok (full_sz, i, buffer) else
      buffer ← memmove buffer (5 + full_sz) (10 + full_sz) (n - (10 + full_sz));
      merge_loop k buffer n full_sz r_sz (i + 1)
  end.

Definition merge_tls_records (buffer : list Z) (n : Z) : res (Z * list Z) :=
  if n <? 5 then Ok (0, buffer) else
  r_sz ← ANTOHS buffer 3;
  '(full_sz, i, buffer) ← merge_loop (S (Z.to_nat n)) buffer n 0 r_sz 0;
  buffer ← SHTONA buffer 3 full_sz;
  buffer ← SHTONA buffer 7 (full_sz - 4);
  Ok (i * 5, buffer).

Definition part_tls (buffer : list Z) (bsize n pos : Z) : res (Z * list Z) :=
  if (n <? 3) || (usz (bsize - n) <? 5) || (pos <? 0) || (n <? pos + 5) then Ok (0, buffer) else
  r_sz ← ANTOHS buffer 3;
  if r_sz <? pos then Ok (n, buffer) else
  buffer ← memmove buffer (5 + pos + 5) (5 + pos) (n - (5 + pos));
  buffer ← memmove buffer (5 + pos) 0 3;
  buffer ← SHTONA buffer 3 pos;
  buffer ← SHTONA buffer (5 + pos + 3) (r_sz - pos);
  Ok (5, buffer).

(** ** Removing and resizing extensions *)
Fixpoint remove_ks_loop (k : nat) (buffer : list Z) (n group ks_offs ks_sz g_offs : Z)
    : res (Z * list Z) :=
  match k with
  | O => Fuel
  | S k =>
      if g_offs + 4 <? ks_offs + 4 + ks_sz then
        g_sz ← ANTOHS buffer (g_offs + 2);
        if n <? ks_offs + 4 + g_sz then Ok (0, buffer) else
        g_tp ← ANTOHS buffer g_offs;
        if g_tp =? group then
          let g_end := g_offs + 4 + g_sz in
          buffer ← memmove buffer g_offs g_end (n - g_end);
          buffer ← SHTONA buffer (ks_offs + 2) (ks_sz - (4 + g_sz));
          buffer ← SHTONA buffer (ks_offs + 4) (ks_sz - (4 + g_sz) - 2);
          Ok (4 + g_sz, buffer)
        else remove_ks_loop k buffer n group ks_offs ks_sz (g_offs + (4 + g_sz))
      else Ok (0, buffer)
  end.

Definition remove_ks_group (buffer : list Z) (n skip group : Z) : res (Z * list Z) :=
  ks_offs ← find_tls_ext_offset 0x0033 buffer n skip;
  if (ks_offs =? 0) || (n <=? ks_offs + 6) then Ok (0, buffer) else
  ks_sz ← ANTOHS buffer (ks_offs + 2);
  if n <? ks_offs + 4 + ks_sz then Ok (0, buffer) else
  remove_ks_loop (S (Z.to_nat ks_sz)) buffer n group ks_offs ks_sz (ks_offs + 4 + 2).

Definition remove_tls_ext (buffer : list Z) (n skip type : Z) : res (Z * list Z) :=
  ext_offs ← find_tls_ext_offset type buffer n skip;
  if ext_offs =? 0 then Ok (0, buffer) else
  ext_sz ← ANTOHS buffer (ext_offs + 2);
  let ext_end := ext_offs + 4 + ext_sz in
  if n <? ext_end then Ok (0, buffer) else
  buffer ← memmove buffer ext_offs ext_end (n - ext_end);
  Ok (ext_sz + 4, buffer).

Definition resize_ech_ext (buffer : list Z) (n skip inc : Z) : res (Z * list Z) :=
  ech_offs ← find_tls_ext_offset 0xfe0d buffer n skip;
  if ech_offs =? 0 then Ok (0, buffer) else
  ech_sz ← ANTOHS buffer (ech_offs + 2);
  let ech_end := ech_offs + 4 + ech_sz in
  if (ech_sz <? 12) || (n <? ech_end) then Ok (0, buffer) else
  enc_sz ← ANTOHS buffer (ech_offs + 4 + 6);
  let pay_offs := ech_offs + 4 + 8 + enc_sz in
  let pay_sz := u16 (ech_sz - (8 + enc_sz + 2)) in
  if n <? pay_offs + 2 then Ok (0, buffer) else
  let inc := if pay_sz <? - inc then - pay_sz else inc in
  buffer ← SHTONA buffer (ech_offs + 2) (ech_sz + inc);
  buffer ← SHTONA buffer pay_offs (pay_sz + inc);
  buffer ← memmove buffer (ech_end + inc) ech_end (n - (ech_end + inc));
  Ok (inc, buffer).

Definition resize_sni (buffer : list Z) (n sni_offs sni_sz new_sz : Z) : res (list Z) :=
  buffer ← SHTONA buffer (sni_offs + 2) (new_sz + 5);
  buffer ← SHTONA buffer (sni_offs + 4) (new_sz + 3);
  buffer ← SHTONA buffer (sni_offs + 7) new_sz;
  let sni_end := sni_offs + 4 + sni_sz in
  memmove buffer (sni_end + new_sz - (sni_sz - 5)) sni_end (n - sni_end).

(** ** Replacing the server name *)
Section with_os.
Context {OS : Os} {St : Type}.

(** one character of [copy_name]'s switch: '*', '?' and '#' are wildcards *)
Definition copy_name_char (c : Z) : Prog St Z :=
  if c =? 42 then
    r ← rand_; let r := Z.rem r (10 + 122 - 97 + 1) in
    mret ((if r <? 10 then 48 else 97 - 10) + r)
  else if c =? 63 then r ← rand_; mret (97 + Z.rem r (122 - 97 + 1))
  else if c =? 35 then r ← rand_; mret (48 + Z.rem r 10)
  else mret c.

Fixpoint copy_name_loop (k : nat) (out name : list Z) (off i : Z) : Prog St (list Z) :=
  match k with
  | O => mret out
  | S k =>
      c ← lift (rd name i);
      v ← copy_name_char c;
      out ← lift (wr out (off + i) (u8 v));
      copy_name_loop k out name off (i + 1)
  end.
Definition copy_name (out : list Z) (off : Z) (name : list Z) (out_len : Z) : Prog St (list Z) :=
  copy_name_loop (Z.to_nat out_len) out name off 0.

Definition sni_exts : list Z :=
  [0x0015; 0x0031; 0x0010; 0x001c; 0x0023; 0x0005; 0x0022; 0x0012; 0x001b].

(** the loop that drops optional extensions until the padding fits; [None]: no
    extension is left (the code returns -1) *)
Fixpoint drop_exts (exts : list Z) (buffer : list Z) (n skip avail : Z)
    : res (option Z * list Z) :=
  if truthy avail && (avail <? 4) then
    match exts with
    | [] => Ok (None, buffer)
    | e :: exts =>
        '(d, buffer) ← remove_tls_ext buffer n skip e;
        drop_exts exts buffer n skip (avail + d)
    end
  else Ok (Some avail, buffer).

(** the last third of [change_tls_sni], from the second look-up of the SNI on *)
Definition change_sni_finish (host buffer : list Z) (n skip r_sz sni_sz new_sz diff avail : Z)
    : Prog St (Z * list Z) :=
  sni_offs ← lift (find_tls_ext_offset 0x00 buffer n skip);
  if sni_offs =? 0 then mret (-1, buffer) else
  buffer ← lift (if truthy diff then resize_sni buffer n sni_offs sni_sz new_sz else Ok buffer);
  buffer ← copy_name buffer (sni_offs + 9) host new_sz;
  '(avail, buffer) ← lift (
    if 0 <? avail then
      '(d, buffer) ← resize_ech_ext buffer n skip avail; Ok (avail - d, buffer)
    else Ok (avail, buffer));
  lift (
    buffer ← (if 4 <=? avail then
      buffer ← SHTONA buffer (5 + r_sz - avail) 0x0015;
      buffer ← SHTONA buffer (5 + r_sz - avail + 2) (avail - 4);
      memset buffer (5 + r_sz - avail + 4) 0 (avail - 4)
    else Ok buffer);
    buffer ← SHTONA buffer 3 r_sz;
    buffer ← SHTONA buffer 7 (r_sz - 4);
    buffer ← SHTONA buffer skip (5 + r_sz - skip - 2);
    Ok (0, buffer)).

Definition change_tls_sni (host buffer : list Z) (n nn : Z) : Prog St (Z * list Z) :=
  '(m, buffer) ← lift (merge_tls_records buffer n);
  let avail := s32 (m + (nn - n)) in
  r_sz ← lift (ANTOHS buffer 3);
  let r_sz := u16 (r_sz + avail) in
  skip ← lift (find_ext_block buffer n);
  if skip =? 0 then mret (-1, buffer) else
  sni_offs ← lift (find_tls_ext_offset 0x00 buffer n skip);
  if sni_offs =? 0 then mret (-1, buffer) else
  let new_sz := u16 (zlen host) in
  sni_sz ← lift (ANTOHS buffer (sni_offs + 2));
  if n <? sni_offs + 4 + sni_sz then mret (-1, buffer) else
  let diff := new_sz - (sni_sz - 5) in
  let avail := avail - diff in
  '(diff, buffer) ← lift (
    if (diff <? 0) && (0 <? avail) then
      buffer ← resize_sni buffer n sni_offs sni_sz new_sz; Ok (0, buffer)
    else Ok (diff, buffer));
  '(avail, buffer) ← lift (
    if truthy avail then
      '(d, buffer) ← resize_ech_ext buffer n skip avail; Ok (avail - d, buffer)
    else Ok (avail, buffer));
  '(avail, buffer) ← lift (
    if avail <? -50 then
      '(d, buffer) ← remove_ks_group buffer n skip 0x11ec; Ok (avail + d, buffer)
    else Ok (avail, buffer));
  '(avail, buffer) ← lift (drop_exts sni_exts buffer n skip avail);
  match avail with
  | None => mret (-1, buffer)
  | Some avail => change_sni_finish host buffer n skip r_sz sni_sz new_sz diff avail
  end.

(** ** Random bytes *)
Fixpoint gen_rand_loop (k : nat) (out : list Z) (off : Z) : Prog St (list Z) :=
  match k with
  | O => mret out
  | S k =>
      r ← rand_;
      out ← lift (wr out off (u8 (Z.rem r 256)));
      gen_rand_loop k out (off + 1)
  end.
Definition gen_rand_array (out : list Z) (off len : Z) : Prog St (list Z) :=
  gen_rand_loop (Z.to_nat len) out off.

Fixpoint randomize_ks_loop (k : nat) (buffer : list Z) (n ks_offs ks_sz g_offs : Z)
    : Prog St (list Z) :=
  match k with
  | O => pfuel
  | S k =>
      if g_offs + 4 <? ks_offs + 4 + ks_sz then
        g_sz ← lift (ANTOHS buffer (g_offs + 2));
        if n <? ks_offs + 4 + g_sz then mret buffer else
        buffer ← gen_rand_array buffer (g_offs + 4) g_sz;
        randomize_ks_loop k buffer n ks_offs ks_sz (g_offs + (4 + g_sz))
      else mret buffer
  end.

Definition randomize_tls (buffer : list Z) (n : Z) : Prog St (list Z) :=
  if n <? 44 then mret buffer else
  sid_len ← lift (rd buffer 43);
  if n <? 44 + sid_len + 2 then mret buffer else
  buffer ← gen_rand_array buffer 11 32;
  buffer ← gen_rand_array buffer 44 sid_len;
  skip ← lift (find_ext_block buffer n);
  if skip =? 0 then mret buffer else
  ks_offs ← lift (find_tls_ext_offset 0x0033 buffer n skip);
  if (ks_offs =? 0) || (n <=? ks_offs + 6) then mret buffer else
  ks_sz ← lift (ANTOHS buffer (ks_offs + 2));
  if n <? ks_offs + 4 + ks_sz then mret buffer else
  randomize_ks_loop (S (Z.to_nat ks_sz)) buffer n ks_offs ks_sz (ks_offs + 4 + 2).
End with_os.

(** ** Recognising and reading a ClientHello *)
Definition is_tls_chello (buffer : list Z) (bsize : Z) : res bool :=
  if 5 <? bsize then
    t ← ANTOHS buffer 0;
    if t =? 0x1603 then b ← rd buffer 5; Ok (b =? 1) else Ok false
  else Ok false.
Definition is_tls_shello (buffer : list Z) (bsize : Z) : res bool :=
  if 5 <? bsize then
    t ← ANTOHS buffer 0;
    if t =? 0x1603 then b ← rd buffer 5; Ok (b =? 2) else Ok false
  else Ok false.

(** The length of the server name, and where [*hs] points (unset: [None]). *)
Definition parse_tls (buffer : list Z) (bsize : Z) : res (Z * option Z) :=
  ch ← is_tls_chello buffer bsize;
  if negb ch then Ok (0, None) else
  skip ← find_ext_block buffer bsize;
  if skip =? 0 then Ok (0, None) else
  sni_offs ← find_tls_ext_offset 0x00 buffer bsize skip;
  if (sni_offs =? 0) || (bsize <=? sni_offs + 12) then Ok (0, None) else
  len ← ANTOHS buffer (sni_offs + 7);
  if bsize <? sni_offs + 9 + len then Ok (0, None) else
  Ok (len, Some (sni_offs + 9)).

Definition neq_tls_sid (req : list Z) (qn : Z) (resp : list Z) (sn : Z) : res bool :=
  if (qn <? 75) || (sn <? 75) then Ok false else
  ch ← is_tls_chello req qn;
  if negb ch then Ok false else
  t ← ANTOHS resp 0;
  if negb (t =? 0x1603) then Ok false else
  sid_len ← rd req 43;
  let skip := 44 + sid_len + 3 in
  o ← find_tls_ext_offset 0x2b resp sn skip;
  if o =? 0 then Ok false else
  r43 ← rd resp 43;
  if negb (sid_len =? r43) then Ok true else
  c ← memcmp req 44 resp 44 sid_len;
  Ok (truthy c).
