(* ===== verification/PktHttp.v ===== *)
(** byedpi/packets.c, the HTTP half: recognising a request, finding its Host
    header, recognising a redirect away from the requested host, rewriting the
    Host header. *)
From S2P Require Import Prelude CMem.
From Stdlib Require Import String Ascii.
#[local] Abbreviation length := (@Datatypes.length _).

(** A C string literal as bytes. *)
Fixpoint bytes_of_string (s : string) : list Z :=
  match s with
  | EmptyString => []
  | String c s => Z.of_N (N_of_ascii c) :: bytes_of_string s
  end.
Definition LF : Z := 10.
Definition CRLF : list Z := [13; 10].

(** ** [strncasestr]: the offset of the first occurrence, or none *)
Fixpoint strncasestr_loop (k : nat) (a : list Z) (size : Z) (b : list Z) (p : Z)
    : res (option Z) :=
  match k with
  | O => Fuel
  | S k =>
      o ← memchr a p (byte_at b 0) (size - p);
      match o with
      | None => Ok None
      | Some p =>
          if size <? p + zlen b then Ok None else
          e ← strncasecmp_eq a p b;
          if (e : bool) then Ok (Some p) else strncasestr_loop k a size b (p + 1)
      end
  end.
Definition strncasestr (a : list Z) (size : Z) (b : list Z) : res (option Z) :=
  strncasestr_loop (S (Z.to_nat size)) a size b 0.

Definition http_methods : list (list Z) :=
  map bytes_of_string
    ["HEAD"; "GET"; "POST"; "PUT"; "DELETE"; "OPTIONS"; "CONNECT"; "TRACE"; "PATCH"]%string.
Definition host_hdr : list Z := LF :: bytes_of_string "Host:".
Definition location_hdr : list Z := LF :: bytes_of_string "Location:".

Fixpoint any_method (ms : list (list Z)) (buffer : list Z) : res bool :=
  match ms with
  | [] => Ok false
  | m :: ms => e ← strncmp_eq buffer 0 m; if (e : bool) then Ok true else any_method ms buffer
  end.

Section with_abi.
Context {CA : CharAbi}.

Definition is_http (buffer : list Z) (bsize : Z) : res bool :=
  if bsize <? 16 then Ok false else
  b ← rd buffer 0;
  if (84 <? schar b) || (schar b <? 67) then Ok false else
  any_method http_methods buffer.

(** [for (; host < end && *host == ' '; host++)] *)
Fixpoint skip_blanks (k : nat) (m : list Z) (host e : Z) : res Z :=
  match k with
  | O => Fuel
  | S k =>
      if host <? e then
        b ← rd m host; if b =? 32 then skip_blanks k m (host + 1) e else Ok host
      else Ok host
  end.

(** [for (; isspace(l_end[-1]); l_end--)] *)
Fixpoint trim_end (k : nat) (m : list Z) (l_end : Z) : res Z :=
  match k with
  | O => Fuel
  | S k => b ← rd m (l_end - 1); if isspace b then trim_end k m (l_end - 1) else Ok l_end
  end.

(** [do h_end--; while (isdigit(h_end[0]));] *)
Fixpoint back_digits (k : nat) (m : list Z) (h_end : Z) : res Z :=
  match k with
  | O => Fuel
  | S k => b ← rd m (h_end - 1); if isdigit b then back_digits k m (h_end - 1) else Ok (h_end - 1)
  end.

(** What [parse_http] returns and stores: the length, [*hs] and [*port], each
    unset where the code does not reach the store. *)
Record http_host := HttpHost { hh_len : Z; hh_hs : option Z; hh_port : option Z }.
Definition no_host (port : option Z) : http_host := HttpHost 0 None port.

Definition parse_http (buffer : list Z) (bsize : Z) (want_port : bool) : res http_host :=
  h ← is_http buffer bsize;
  if negb h then Ok (no_host None) else
  o ← strncasestr buffer bsize host_hdr;
  match o with
  | None => Ok (no_host None)
  | Some p =>
      let k := S (length buffer) in
      host ← skip_blanks k buffer (p + 6) bsize;
      l ← memchr buffer host LF (bsize - host);
      match l with
      | None => Ok (no_host None)
      | Some l_end =>
          l_end ← trim_end k buffer l_end;
          h_end ← back_digits k buffer (l_end - 1);
          c ← rd buffer h_end;
          '(h_end, port, bad) ← (
            if negb (c =? 58) then Ok (l_end, (if want_port then Some 80 else None), false)
            else if want_port then
              '(i, e) ← strtol buffer (h_end + 1);
              if (i <=? 0) || negb (e =? l_end) || (0xffff <? i)
              then Ok (h_end, None, true) else Ok (h_end, Some i, false)
            else Ok (h_end, None, false));
          if (bad : bool) then Ok (no_host port) else
          c ← rd buffer host;
          if c =? 91 then
            d ← rd buffer (h_end - 1);
            if negb (d =? 93) then Ok (no_host port)
            else Ok (HttpHost (h_end - 1 - (host + 1)) (Some (host + 1)) port)
          else Ok (HttpHost (h_end - host) (Some host) port)
      end
  end.

Definition get_http_code (b : list Z) (n : Z) : res Z :=
  if n <? 13 then Ok 0 else
  e ← strncmp_eq b 0 (bytes_of_string "HTTP/1.");
  if negb e then Ok 0 else
  l ← memchr b 12 LF (n - 12);
  match l with
  | None => Ok 0
  | Some _ =>
      '(num, e) ← strtol b 9;
      c ← rd b e;
      Ok (if (num <? 100) || (511 <? num) || negb (isspace c) then 0 else num)
  end.

(** [while (h != host) { h--; if (h[-1] == '.') break; }] *)
Fixpoint back_label (k : nat) (m : list Z) (host h : Z) : res Z :=
  match k with
  | O => Fuel
  | S k =>
      if h =? host then Ok h else
      b ← rd m (h - 2);
      if b =? 46 then Ok (h - 1) else back_label k m host (h - 1)
  end.

Definition is_http_redirect (req : list Z) (qn : Z) (resp : list Z) (sn : Z) : res bool :=
  r ← parse_http req qn false;
  let len := hh_len r in
  if (len <=? 0) || (sn <? 29) then Ok false else
  match hh_hs r with
  | None => Ub
  | Some host =>
      code ← get_http_code resp sn;
      if (308 <? code) || (code <? 300) then Ok false else
      o ← strncasestr resp sn location_hdr;
      match o with
      | None => Ok false
      | Some l =>
          let location := l + 11 in
          if sn <=? location + 8 then Ok false else
          o ← memchr resp location LF (sn - location);
          match o with
          | None => Ok false
          | Some l_end =>
              let k := S (length resp) in
              l_end ← trim_end k resp l_end;
              location ← (
                if 7 <? l_end - location then
                  e ← strncmp_eq resp location (bytes_of_string "http://");
                  if (e : bool) then Ok (location + 7) else
                  e ← strncmp_eq resp location (bytes_of_string "https://");
                  Ok (if (e : bool) then location + 8 else location)
                else Ok location);
              o ← memchr resp location 47 (l_end - location);
              let le := match o with Some le => le | None => l_end end in
              let he := host + len in
              let kq := S (length req) in
              h ← back_label kq req host he;
              h ← back_label kq req host h;
              if le - location <? he - h then Ok true else
              c ← memcmp resp (le - (he - h)) req h (he - h);
              Ok (truthy c)
          end
      end
  end.

(** [for (par = host - 1; *par != ':'; par--)] *)
Fixpoint back_colon (k : nat) (m : list Z) (par : Z) : res Z :=
  match k with
  | O => Fuel
  | S k => b ← rd m par; if b =? 58 then Ok par else back_colon k m (par - 1)
  end.

Definition MH_HMIX : Z := 1.
Definition MH_SPACE : Z := 2.
Definition MH_DMIX : Z := 4.

Definition map_at (f : Z -> Z) (m : list Z) (i : Z) : res (list Z) :=
  b ← rd m i; wr m i (f b).

(** [for (int i = 0; i < hlen; i += 2) host[i] = toupper(host[i])] *)
Fixpoint dmix_loop (k : nat) (m : list Z) (host hlen i : Z) : res (list Z) :=
  match k with
  | O => Fuel
  | S k =>
      if i <? hlen then
        m ← map_at toupper m (host + i); dmix_loop k m host hlen (i + 2)
      else Ok m
  end.

(** [for (; !isspace(host[hlen]); hlen++)] *)
Fixpoint to_space (k : nat) (m : list Z) (host hlen : Z) : res Z :=
  match k with
  | O => Fuel
  | S k => b ← rd m (host + hlen); if isspace b then Ok hlen else to_space k m host (hlen + 1)
  end.

Definition mod_hmix (buffer : list Z) (par : Z) : res (list Z) :=
  buffer ← map_at tolower buffer par;
  buffer ← map_at toupper buffer (par + 1);
  map_at toupper buffer (par + 3).

Definition mod_space (buffer : list Z) (par host hlen : Z) : res (list Z) :=
  hlen ← to_space (S (length buffer)) buffer host hlen;
  let sc := host - (par + 5) in
  buffer ← memmove buffer (par + 5) host hlen;
  memset buffer (par + 5 + hlen) 9 sc.

Definition mod_http (buffer : list Z) (bsize m : Z) : res (Z * list Z) :=
  r ← parse_http buffer bsize false;
  let hlen := hh_len r in
  if hlen =? 0 then Ok (-1, buffer) else
  match hh_hs r with
  | None => Ub
  | Some host =>
      let k := S (length buffer) in
      par ← back_colon k buffer (host - 1);
      let par := par - 4 in
      buffer ← (if has_flag m MH_HMIX then mod_hmix buffer par else Ok buffer);
      buffer ← (if has_flag m MH_DMIX then dmix_loop k buffer host hlen 0 else Ok buffer);
      buffer ← (if has_flag m MH_SPACE then mod_space buffer par host hlen else Ok buffer);
      Ok (0, buffer)
  end.
End with_abi.
