(* ===== verification/PktSum.v ===== *)
(** byedpi/packets.c, the Internet checksums ([uint16_t] loads are little-endian
    on every ABI the application is built for). *)
From S2P Require Import Prelude CMem.

(** a [uint16_t] load at [m + i] *)
Definition ld16 (m : list Z) (i : Z) : res Z :=
  lo ← rd m i; hi ← rd m (i + 1); Ok (lo + 256 * hi).

(** [for (; len > 1; len -= 2) sum += *p++; if (len) sum += last byte;] *)
Fixpoint sum_loop (k : nat) (m : list Z) (p len sum : Z) : res Z :=
  match k with
  | O => Fuel
  | S k =>
      if 1 <? len then
        w ← ld16 m p; sum_loop k m (p + 2) (len - 2) (u32 (sum + w))
      else if len =? 0 then Ok sum
      else b ← rd m p; Ok (u32 (sum + b))
  end.

(** [while (sum >> 16) sum = (sum & 0xffff) + (sum >> 16);] *)
Fixpoint fold_loop (k : nat) (sum : Z) : res Z :=
  match k with
  | O => Fuel
  | S k =>
      if truthy (Z.shiftr sum 16)
      then fold_loop k (u32 (Z.land sum 0xffff + Z.shiftr sum 16))
      else Ok sum
  end.

Definition ip_checksum (data : list Z) (len : Z) : res Z :=
  sum ← sum_loop (S (Z.to_nat len)) data 0 len 0;
  sum ← fold_loop 4 sum;
  Ok (u16 (Z.lnot (u16 sum))).

(** [for (size_t i = 0; i < 6; i++) sum += *p++] *)
Fixpoint pseudo_loop (k : nat) (m : list Z) (p sum : Z) : res Z :=
  match k with
  | O => Ok sum
  | S k => w ← ld16 m p; pseudo_loop k m (p + 2) (u32 (sum + w))
  end.

Definition tcp_checksum (pseudo data : list Z) (len : Z) : res Z :=
  sum ← pseudo_loop 6 pseudo 0 0;
  sum ← sum_loop (S (Z.to_nat len)) data 0 len sum;
  sum ← fold_loop 4 sum;
  Ok (u16 (Z.lnot (u16 sum))).
