(* ===== verification/PktFake.v ===== *)
(** byedpi/packets.c, the built-in decoys: a ClientHello for www.wikipedia.org,
    an HTTP request and a UDP payload, and the functions that copy them into a
    fresh packet. *)
From S2P Require Import Prelude CMem Sys PktHttp.
From Stdlib Require Import String.

(** [char tls_data[517]]: 351 bytes of text, the rest of the array is zero. *)
Definition tls_data : list Z :=
  [
    22; 3; 1; 2; 0; 1; 0; 1; 252; 3; 3; 3; 95; 111; 44; 237; 19; 34; 248; 220;
    178; 242; 96; 72; 45; 114; 102; 111; 87; 221; 19; 157; 27; 55; 220; 250; 54; 46; 186; 249;
    146; 153; 58; 32; 249; 223; 12; 46; 138; 85; 137; 130; 49; 99; 26; 239; 168; 190; 8; 88;
    167; 163; 90; 24; 211; 150; 95; 4; 92; 180; 98; 175; 137; 215; 15; 139; 0; 62; 19; 2;
    19; 3; 19; 1; 192; 44; 192; 48; 0; 159; 204; 169; 204; 168; 204; 170; 192; 43; 192; 47;
    0; 158; 192; 36; 192; 40; 0; 107; 192; 35; 192; 39; 0; 103; 192; 10; 192; 20; 0; 57;
    192; 9; 192; 19; 0; 51; 0; 157; 0; 156; 0; 61; 0; 60; 0; 53; 0; 47; 0; 255;
    1; 0; 1; 117; 0; 0; 0; 22; 0; 20; 0; 0; 17; 119; 119; 119; 46; 119; 105; 107;
    105; 112; 101; 100; 105; 97; 46; 111; 114; 103; 0; 11; 0; 4; 3; 0; 1; 2; 0; 10;
    0; 22; 0; 20; 0; 29; 0; 23; 0; 30; 0; 25; 0; 24; 1; 0; 1; 1; 1; 2;
    1; 3; 1; 4; 0; 16; 0; 14; 0; 12; 2; 104; 50; 8; 104; 116; 116; 112; 47; 49;
    46; 49; 0; 22; 0; 0; 0; 23; 0; 0; 0; 49; 0; 0; 0; 13; 0; 42; 0; 40;
    4; 3; 5; 3; 6; 3; 8; 7; 8; 8; 8; 9; 8; 10; 8; 11; 8; 4; 8; 5;
    8; 6; 4; 1; 5; 1; 6; 1; 3; 3; 3; 1; 3; 2; 4; 2; 5; 2; 6; 2;
    0; 43; 0; 9; 8; 3; 4; 3; 3; 3; 2; 3; 1; 0; 45; 0; 2; 1; 1; 0;
    51; 0; 38; 0; 36; 0; 29; 0; 32; 17; 140; 184; 140; 232; 138; 8; 144; 30; 238; 25;
    217; 221; 232; 212; 6; 177; 209; 226; 171; 224; 22; 99; 214; 220; 218; 132; 164; 184; 75; 251;
    14; 0; 21; 0; 172; 0; 0; 0; 0; 0; 0 ] ++ replicate 166 0.

(** [char http_data[43]]: the text without its terminating NUL fills the array. *)
Definition http_data : list Z :=
  bytes_of_string "GET / HTTP/1.1" ++ CRLF ++ bytes_of_string "Host: www.wikipedia.org"
    ++ CRLF ++ CRLF.

(** [char udp_data[64]] *)
Definition udp_data : list Z := replicate 64 0.

(** [struct packet]: [pk_data] is [None] for a null pointer, else the object. *)
Record packet : Type := Packet { pk_size : Z; pk_data : option (list Z); pk_off : Z }.
Definition packet0 : packet := Packet 0 None 0.

Section with_os.
Context {OS : Os} {St : Type}.

(** [malloc]/[calloc] of [n] bytes: [Some] zeroed object ([malloc]'s content is
    indeterminate; the callers overwrite what they read) or a null pointer. *)
Definition alloc (n : Z) : Prog St (option (list Z)) :=
  r ← syscall (CMalloc n);
  mret (if rv r =? 0 then None else Some (replicate (Z.to_nat n) 0)).

Definition fake_tls_init (len : Z) : Prog St (Z * packet) :=
  o ← alloc (if len <? 517 then 517 else len);
  match o with
  | None => mret (-1, packet0)
  | Some d => d ← lift (wr_list d 0 tls_data); mret (0, Packet 517 (Some d) 0)
  end.

Definition fake_http_init : Prog St (Z * packet) :=
  o ← alloc 43;
  match o with
  | None => mret (-1, packet0)
  | Some d => d ← lift (wr_list d 0 http_data); mret (0, Packet 43 (Some d) 0)
  end.

Definition fake_udp_init (len : Z) : Prog St (Z * packet) :=
  let sz := if truthy len then len else 64 in
  o ← alloc sz;
  match o with
  | None => mret (-1, packet0)
  | Some d =>
      d ← lift (wr_list d 0 (take (Z.to_nat (if sz <? 64 then sz else 64)) udp_data));
      mret (0, Packet sz (Some d) 0)
  end.
End with_os.
