(* ===== verification/Mpool.v ===== *)
(** byedpi/mpool.c and kavl.h: pools of keys (host names, address prefixes, cached
    destinations) kept in binary search trees, with the three key comparisons. *)
From S2P Require Import Prelude CMem Sys.

Definition CMP_BYTES : Z := 0.
Definition CMP_BITS : Z := 1.
Definition CMP_HOST : Z := 2.
Definition MF_STATIC : Z := 1.
Definition MF_EXTRA : Z := 2.
Definition KAVL_MAX_DEPTH : Z := 64.

(** [struct elem] and the fields [struct elem_i] adds to it. [el_addr] is the
    element's address, [el_data] the object its key pointer points to, [el_len]
    counts bytes, or bits under CMP_BITS. [el_dp] is the address of a group of
    desync parameters. *)
Record elem : Type := Elem {
  el_addr : Z; el_len : Z; el_data : list Z; el_cmp : Z;
  el_extra_len : Z; el_extra : option (list Z);
  el_mask : Z; el_dp : option nat; el_detect : Z; el_time : Z }.

(** The tree threads through the elements ([KAVL_HEAD]); [balance__] is written
    and never read, so it is left out. *)
Inductive tree : Type :=
  | Leaf
  | Node (l : tree) (e : elem) (r : tree).

Record mphdr : Type := Mphdr { mp_flags : Z; mp_cmp : Z; mp_count : Z; mp_root : tree }.

(** ** Comparisons *)
Section cmp.
Context {CA : CharAbi}.

Definition bit_cmp (p q : elem) : res Z :=
  let len := if el_len q <? el_len p then el_len q else el_len p in
  let df := Z.rem len 8 in
  let bytes := Z.quot len 8 in
  c ← memcmp (el_data p) 0 (el_data q) 0 bytes;
  if truthy c || negb (truthy df) then Ok c else
  b1 ← rd (el_data p) bytes;
  b2 ← rd (el_data q) bytes;
  let c1 := u8 (Z.shiftr (schar b1) (8 - df)) in
  let c2 := u8 (Z.shiftr (schar b2) (8 - df)) in
  Ok (if negb (c1 =? c2) then (if c1 <? c2 then -1 else 1) else 0).

Definition byte_cmp (p q : elem) : res Z :=
  if negb (el_len p =? el_len q) then Ok (if el_len p <? el_len q then -1 else 1)
  else memcmp (el_data p) 0 (el_data q) 0 (el_len p).

(** The loop of [host_cmp], from the ends of the names backwards; [None]: the
    shorter name is used up, [pd] and [qd] point to where the comparison stopped. *)
Fixpoint host_loop (k : nat) (p q : elem) (pd qd : Z) : res (option Z) :=
  match k with
  | O => Ok None
  | S k =>
      a ← rd (el_data p) (pd - 1);
      b ← rd (el_data q) (qd - 1);
      if negb (a =? b) then Ok (Some (if schar a <? schar b then -1 else 1))
      else host_loop k p q (pd - 1) (qd - 1)
  end.
Definition host_cmp (p q : elem) : res Z :=
  let len := if el_len q <? el_len p then el_len q else el_len p in
  o ← host_loop (Z.to_nat len) p q (el_len p) (el_len q);
  match o with
  | Some c => Ok c
  | None =>
      if el_len p =? el_len q then Ok 0 else
      c ← (if el_len q <? el_len p then rd (el_data p) (el_len p - Z.max len 0 - 1)
           else rd (el_data q) (el_len q - Z.max len 0 - 1));
      if c =? 46 then Ok 0 else Ok (if el_len q <? el_len p then 1 else -1)
  end.

Definition scmp (p q : elem) : res Z :=
  if el_cmp p =? CMP_BITS then bit_cmp p q
  else if el_cmp p =? CMP_HOST then host_cmp p q
  else byte_cmp p q.

(** ** kavl.h *)
Fixpoint kavl_find (t : tree) (x : elem) : res (option elem) :=
  match t with
  | Leaf => Ok None
  | Node l e r =>
      c ← scmp x e;
      if c =? 0 then Ok (Some e) else if c <? 0 then kavl_find l x else kavl_find r x
  end.

(** The descent of [kavl_insert] at depth [d], which stores each node it visits in
    [path[d]] and its child in [b[d + 1]]; the element found, or [None] when [x]
    was linked in. *)
Fixpoint kavl_insert_at (d : Z) (t : tree) (x : elem) : res (option elem * tree) :=
  match t with
  | Leaf => Ok (None, Node Leaf x Leaf)
  | Node l e r =>
      c ← scmp x e;
      if c =? 0 then Ok (Some e, t)
      else if KAVL_MAX_DEPTH <=? d + 1 then Ub
      else if c <? 0 then '(v, l) ← kavl_insert_at (d + 1) l x; Ok (v, Node l e r)
      else '(v, r) ← kavl_insert_at (d + 1) r x; Ok (v, Node l e r)
  end.
Definition kavl_insert (t : tree) (x : elem) : res (option elem * tree) := kavl_insert_at 0 t x.

(** Unlink the leftmost element. *)
Fixpoint pop_first (t : tree) : option (elem * tree) :=
  match t with
  | Leaf => None
  | Node l e r =>
      match pop_first l with
      | None => Some (e, r)
      | Some (m, l) => Some (m, Node l e r)
      end
  end.
Definition kavl_erase_first (t : tree) : option elem * tree :=
  match pop_first t with None => (None, t) | Some (e, t) => (Some e, t) end.

(** [kavl_erase]: an element with a right child is replaced by its successor. The
    descent stores each node it passes in [path[d]]. *)
Fixpoint kavl_erase_at (d : Z) (t : tree) (x : elem) : res (option elem * tree) :=
  match t with
  | Leaf => Ok (None, Leaf)
  | Node l e r =>
      c ← scmp x e;
      if c =? 0 then
        Ok (Some e, match pop_first r with None => l | Some (rep, r) => Node l rep r end)
      else if KAVL_MAX_DEPTH <=? d then Ub
      else if c <? 0 then '(v, l) ← kavl_erase_at (d + 1) l x; Ok (v, Node l e r)
      else '(v, r) ← kavl_erase_at (d + 1) r x; Ok (v, Node l e r)
  end.
Definition kavl_erase (t : tree) (x : elem) : res (option elem * tree) := kavl_erase_at 0 t x.
End cmp.

(** The iterator: a stack of subtrees, top first, of at most 64 entries. *)
Fixpoint push_left (t : tree) (stack : list tree) : res (list tree) :=
  match t with
  | Leaf => Ok stack
  | Node l _ _ => if zlen stack <? KAVL_MAX_DEPTH then push_left l (t :: stack) else Ub
  end.
Definition kavl_itr_first (t : tree) : res (list tree) := push_left t [].
Definition kavl_at (itr : list tree) : option elem :=
  match itr with Node _ e _ :: _ => Some e | _ => None end.
Definition kavl_itr_next (itr : list tree) : res (bool * list tree) :=
  match itr with
  | [] => Ok (false, itr)
  | Node _ _ r :: itr => itr ← push_left r itr; Ok (0 <? zlen itr, itr)
  | Leaf :: _ => Ub
  end.

(** A store through a pointer to the element at address [a]. *)
Fixpoint tree_upd (a : Z) (f : elem -> elem) (t : tree) : tree :=
  match t with
  | Leaf => Leaf
  | Node l e r =>
      Node (tree_upd a f l) (if el_addr e =? a then f e else e) (tree_upd a f r)
  end.

Fixpoint tree_size (t : tree) : nat :=
  match t with Leaf => O | Node l _ r => S (tree_size l + tree_size r) end.

(** ** mpool.c *)
Section mpool.
Context {CA : CharAbi} {OS : Os} {St : Type}.

Definition mem_pool (flags cmp_type : Z) : Prog St (option mphdr) :=
  r ← syscall (CMalloc 24);
  mret (if rv r =? 0 then None else Some (Mphdr flags cmp_type 0 Leaf)).

(** [struct elem temp = { .cmp_type, .len, .data }] *)
Definition temp_elem (hdr : mphdr) (str : list Z) (len : Z) : elem :=
  Elem 0 len str (mp_cmp hdr) 0 None 0 None 0 0.

Definition mem_get (hdr : mphdr) (str : list Z) (len : Z) : res (option elem) :=
  kavl_find (mp_root hdr) (temp_elem hdr str len).

Definition free_ (data : list Z) : Prog St unit := _ ← syscall (CFree data); mret tt.

Definition destroy_elem (hdr : mphdr) (e : elem) : Prog St unit :=
  (if has_flag (mp_flags hdr) MF_STATIC then mret tt else free_ (el_data e));;
  (if has_flag (mp_flags hdr) MF_EXTRA then
     match el_extra e with Some x => free_ x | None => mret tt end
   else mret tt);;
  _ ← syscall (CFreeElem (el_addr e)); mret tt.

Definition mem_delete (hdr : mphdr) (str : list Z) (len : Z) : Prog St mphdr :=
  '(e, t) ← lift (kavl_erase (mp_root hdr) (temp_elem hdr str len));
  match e with
  | None => mret hdr
  | Some e =>
      destroy_elem hdr e;;
      mret (Mphdr (mp_flags hdr) (mp_cmp hdr) (usz (mp_count hdr - 1)) t)
  end.

Definition set_root (hdr : mphdr) (t : tree) : mphdr :=
  Mphdr (mp_flags hdr) (mp_cmp hdr) (mp_count hdr) t.

(** [while (e != v && e->len < v->len) { mem_delete; v = kavl_insert }] *)
Fixpoint mem_add_loop (k : nat) (hdr : mphdr) (e : elem) (v : option elem)
    : Prog St (option elem * mphdr) :=
  match k with
  | O => pfuel
  | S k =>
      match v with
      | Some v' =>
          if el_len e <? el_len v' then
            hdr ← mem_delete hdr (el_data v') (el_len v');
            '(v, t) ← lift (kavl_insert (mp_root hdr) e);
            mem_add_loop k (set_root hdr t) e v
          else mret (v, hdr)
      | None => mret (v, hdr)
      end
  end.

(** The element returned ([None] for a null pointer) and the pool. *)
Definition mem_add (hdr : mphdr) (str : list Z) (len struct_size : Z)
    : Prog St (option elem * mphdr) :=
  r ← syscall (CMalloc struct_size);
  if rv r =? 0 then mret (None, hdr) else
  let e := Elem (rv r) len str (mp_cmp hdr) 0 None 0 None 0 0 in
  '(v, t) ← lift (kavl_insert (mp_root hdr) e);
  '(v, hdr) ← mem_add_loop (S (S (tree_size t))) (set_root hdr t) e v;
  match v with
  | Some v => destroy_elem hdr e;; mret (Some v, hdr)
  | None => mret (Some e, Mphdr (mp_flags hdr) (mp_cmp hdr) (usz (mp_count hdr + 1)) (mp_root hdr))
  end.

Fixpoint mem_destroy_loop (k : nat) (hdr : mphdr) : Prog St unit :=
  match k with
  | O => pfuel
  | S k =>
      match kavl_erase_first (mp_root hdr) with
      | (None, _) => mret tt
      | (Some e, t) => destroy_elem hdr e;; mem_destroy_loop k (set_root hdr t)
      end
  end.
Definition mem_destroy (hdr : mphdr) : Prog St unit :=
  mem_destroy_loop (S (tree_size (mp_root hdr))) hdr.
End mpool.

(** ** Saving and loading the cache

    A line of the cache file, as [fprintf] and [fscanf] see its fields: address
    text, prefix length of the address, port, time, host ("-" for none). The
    address text is the C library's ([inet_ntop], [inet_pton]). *)
Record cache_line : Type := CacheLine {
  cl_addr : list Z; cl_bits : Z; cl_port : Z; cl_time : Z; cl_host : list Z }.

Section cache_file.
Context {CA : CharAbi} {OS : Os} {St : Type}.
Context (inet_ntop : bool -> list Z -> list Z) (inet_pton : bool -> list Z -> option (list Z)).

Definition AF_INET : Z := 2.
Definition AF_INET6 : Z := 10.
Definition ld_u16 (m : list Z) (i : Z) : res Z := lo ← rd m i; hi ← rd m (i + 1); Ok (lo + 256 * hi).
Definition ld_be16 (m : list Z) (i : Z) : res Z := hi ← rd m i; lo ← rd m (i + 1); Ok (256 * hi + lo).

(** ["%.*s"]: at most [n] characters, up to a NUL *)
Fixpoint c_prec (n : nat) (s : list Z) : list Z :=
  match n, s with
  | S n, c :: s => if c =? 0 then [] else c :: c_prec n s
  | _, _ => []
  end.

(** [struct cache_key]: family (host order) at 0, port (network order) at 2, the
    address at 4. *)
Definition dump_elem (p : elem) : res cache_line :=
  fam ← ld_u16 (el_data p) 0;
  ip ← (if fam =? AF_INET then rd_list (el_data p) 4 4 else rd_list (el_data p) 4 16);
  port ← ld_be16 (el_data p) 2;
  Ok (CacheLine (inet_ntop (fam =? AF_INET) ip) (el_len p - 4 * 8) port (el_time p)
        (c_prec (Z.to_nat (if truthy (el_extra_len p) then el_extra_len p else 1))
           (default [45] (el_extra p)))).

Fixpoint dump_loop (k : nat) (itr : list tree) (dp : option nat) : res (list cache_line) :=
  match k with
  | O => Fuel
  | S k =>
      match kavl_at itr with
      | None => Ub
      | Some p =>
          ls ← (if decide (el_dp p = dp) then l ← dump_elem p; Ok [l] else Ok []);
          '(more, itr) ← kavl_itr_next itr;
          if (more : bool) then ls' ← dump_loop k itr dp; Ok (ls ++ ls') else Ok ls
      end
  end.
Definition dump_cache (hdr : mphdr) (dp : option nat) : res (list cache_line) :=
  match mp_root hdr with
  | Leaf => Ok []
  | t => itr ← kavl_itr_first t; dump_loop (S (tree_size t)) itr dp
  end.

Definition st_u16 (x : Z) : list Z := [u8 x; u8 (Z.shiftr x 8)].
Definition st_be16 (x : Z) : list Z := [u8 (Z.shiftr x 8); u8 x].

(** The key [load_cache] builds from a line, and its length in bits. *)
Definition line_key (l : cache_line) : option (list Z * Z) :=
  let bitlen := s32 (cl_bits l + 32) in
  match inet_pton true (cl_addr l) with
  | Some ip =>
      if 8 * 8 <? bitlen then None
      else Some (st_u16 AF_INET ++ st_be16 (cl_port l) ++ ip, bitlen)
  | None =>
      match inet_pton false (cl_addr l) with
      | None => None
      | Some ip =>
          if 20 * 8 <? bitlen then None
          else Some (st_u16 AF_INET6 ++ st_be16 (cl_port l) ++ ip, bitlen)
      end
  end.

(** the stores through the pointer [mem_add] returned; the new object holds the
    host and its NUL *)
Definition load_fields (l : cache_line) (dp : option nat) (extra : option (list Z)) (e : elem) : elem :=
  Elem (el_addr e) (el_len e) (el_data e) (el_cmp e) (zlen (cl_host l))
    (match extra with Some _ => extra | None => el_extra e end)
    (el_mask e) dp (el_detect e) (cl_time l).

(** [load_cache] on the lines of the file *)
Fixpoint load_cache (hdr : mphdr) (file : list cache_line) (dp : option nat) : Prog St mphdr :=
  match file with
  | [] => mret hdr
  | l :: file =>
      match line_key l with
      | None => load_cache hdr file dp
      | Some (key, bitlen) =>
          r ← syscall (CMalloc (zlen key));
          if rv r =? 0 then mret hdr else
          '(e, hdr) ← mem_add hdr key bitlen 96;
          match e with
          | None => free_ key;; mret hdr
          | Some e =>
              extra ← (if 1 <? zlen (cl_host l) then
                r ← syscall (CMalloc (zlen (cl_host l) + 1));
                if rv r =? 0 then pub else mret (Some (cl_host l ++ [0]))
              else mret None);
              load_cache (set_root hdr (tree_upd (el_addr e) (load_fields l dp extra) (mp_root hdr)))
                file dp
          end
      end
  end.
End cache_file.
