(* ===== verification/State.v ===== *)
(** The data of byedpi (params.h, conev.h): groups of desync parameters, buffers,
    events, the event pool, and the world that holds them all. Objects the code
    points to live in stores under a number that stands for their address; a
    pointer is such a number, a pointer that may be null an [option]. *)
From stdpp Require Export gmap.
From S2P Require Import Prelude CMem Sys Mpool PktFake.
#[global] Open Scope Z_scope.

(** ** Constants *)
Definition OFFSET_END : Z := 1.
Definition OFFSET_MID : Z := 2.
Definition OFFSET_RAND : Z := 4.
Definition OFFSET_SNI : Z := 8.
Definition OFFSET_HOST : Z := 16.
Definition OFFSET_START : Z := 32.
Definition DETECT_HTTP_LOCAT : Z := 1.
Definition DETECT_TLS_ERR : Z := 2.
Definition DETECT_TORST : Z := 8.
Definition DETECT_CONNECT : Z := 16.
Definition AUTO_ONRECONN : Z := 1.
Definition AUTO_NORECONN : Z := 2.
Definition AUTO_SORT : Z := 4.
Definition MODE_SOCKS5 : Z := 1.
Definition MODE_SOCKS4 : Z := 2.
Definition MODE_HTTP : Z := 4.
Definition MODE_TRANSPARENT : Z := 8.
Definition MODE_SHADOWSOCKS : Z := 16.
Definition MODE_RAWTLS : Z := 32.
Definition MODE_TCP : Z := 64.
Definition FM_RAND : Z := 1.
Definition FM_ORIG : Z := 2.
Definition IS_TCP : Z := 1.
Definition IS_UDP : Z := 2.
Definition IS_HTTP : Z := 4.
Definition IS_HTTPS : Z := 8.
Definition IS_IPV4 : Z := 16.
Definition FLAG_S4 : Z := 1.
Definition FLAG_S5 : Z := 2.
Definition FLAG_CONN : Z := 4.
Definition FLAG_HTTP : Z := 8.
Definition POLLIN : Z := 1.
Definition POLLOUT : Z := 4.
Definition POLLERR : Z := 8.
Definition POLLHUP : Z := 16.
Definition POLLRDHUP : Z := 8192.
Definition POLLDEF : Z := Z.lor (Z.lor POLLIN POLLRDHUP) (Z.lor POLLERR POLLHUP).
Definition POLLTIMEOUT : Z := 0.
Definition MAX_BUFF_INP : Z := 8.

(** [enum demode] *)
Inductive demode : Type :=
  | DESYNC_NONE | DESYNC_SPLIT | DESYNC_DISORDER | DESYNC_OOB | DESYNC_DISOOB | DESYNC_FAKE.
#[global] Instance demode_eq : EqDecision demode.
Proof. solve_decision. Defined.

(** ** Values of <errno.h> and of the socket headers (Linux) *)
Definition EINTR : Z := 4.
Definition EAGAIN : Z := 11.
Definition EMSGSIZE : Z := 90.
Definition ENOENT : Z := 2.
Definition ENETUNREACH : Z := 101.
Definition ECONNRESET : Z := 104.
Definition ETIMEDOUT : Z := 110.
Definition ECONNREFUSED : Z := 111.
Definition EHOSTUNREACH : Z := 113.
Definition EINPROGRESS : Z := 115.
Definition SOCK_STREAM : Z := 1.
Definition SOCK_DGRAM : Z := 2.

(** ** Structures *)

(** [union sockaddr_u]: its 28 bytes as the family (host order), the port as the
    [uint16_t] a load of [sin_port] gives, and the 24 bytes behind: [sin_addr] is
    the first four, [sin6_addr] sixteen from the fourth. *)
Record sockaddr_u : Type := Sockaddr { sa_family : Z; sin_port : Z; sa_body : list Z }.
#[global] Instance eta_sockaddr : Eta sockaddr_u := fun r => Sockaddr (sa_family r) (sin_port r) (sa_body r).
Definition sockaddr0 : sockaddr_u := Sockaddr 0 0 (replicate 24 0).
Definition sin_addr (a : sockaddr_u) : list Z := slice (sa_body a) 0 4.
Definition sin6_addr (a : sockaddr_u) : list Z := slice (sa_body a) 4 16.
Definition set_sin_addr (ip : list Z) (a : sockaddr_u) : sockaddr_u :=
  a <| sa_body := splice (sa_body a) 0 ip |>.
Definition set_sin6_addr (ip : list Z) (a : sockaddr_u) : sockaddr_u :=
  a <| sa_body := splice (sa_body a) 4 ip |>.

(** [htons], on the value a load of a network-order field gives *)
Definition htons (x : Z) : Z := 256 * (x mod 256) + (x / 256) mod 256.

(** [struct part] *)
Record part : Type := Part { pt_m : demode; pt_flag : Z; pt_pos : Z; pt_r : Z; pt_s : Z }.

(** [struct desync_params]; [dp_parts] and [dp_tlsrec] with their counts as lists,
    the fake SNI list with its count. *)
Record desync_params : Type := DesyncParams {
  dp_ttl : Z; dp_md5sig : bool; dp_fake_data : packet; dp_udp_fake_count : Z;
  dp_fake_offset : option part; dp_fake_sni_list : list (list Z); dp_fake_mod : Z;
  dp_fake_tls_size : Z; dp_drop_sack : bool; dp_oob_char : Z * Z; dp_parts : list part;
  dp_mod_http : Z; dp_tlsrec : list part; dp_tlsminor : Z; dp_tlsminor_set : bool;
  dp_proto : Z; dp_detect : Z; dp_auto_level : Z; dp_hosts : option mphdr;
  dp_ipset : option mphdr; dp_pf : Z * Z; dp_rounds : Z * Z; dp_out_type : Z;
  dp_out_addr : sockaddr_u; dp_id : Z; dp_bit : Z; dp_fail_count : Z; dp_pri : Z;
  dp_cache_ttl : Z; dp_prev : option nat; dp_next : option nat }.
#[global] Instance eta_desync_params : Eta desync_params := fun r => DesyncParams
  (dp_ttl r) (dp_md5sig r) (dp_fake_data r) (dp_udp_fake_count r)
  (dp_fake_offset r) (dp_fake_sni_list r) (dp_fake_mod r)
  (dp_fake_tls_size r) (dp_drop_sack r) (dp_oob_char r) (dp_parts r)
  (dp_mod_http r) (dp_tlsrec r) (dp_tlsminor r) (dp_tlsminor_set r)
  (dp_proto r) (dp_detect r) (dp_auto_level r) (dp_hosts r)
  (dp_ipset r) (dp_pf r) (dp_rounds r) (dp_out_type r)
  (dp_out_addr r) (dp_id r) (dp_bit r) (dp_fail_count r) (dp_pri r)
  (dp_cache_ttl r) (dp_prev r) (dp_next r).
(** [calloc]ed *)
Definition desync_params0 : desync_params :=
  DesyncParams 0 false packet0 0 None [] 0 0 false (0, 0) [] 0 [] 0 false 0 0 0 None None
    (0, 0) (0, 0) 0 sockaddr0 0 0 0 0 0 None None.

(** [struct params] *)
Record params_t : Type := Params {
  pr_dp_n : Z; pr_dp : option nat; pr_dp_full_mask : Z; pr_await_int : Z;
  pr_wait_send : bool; pr_def_ttl : Z; pr_custom_ttl : bool; pr_tfo : bool;
  pr_timeout : Z; pr_ptimeout : Z; pr_to_count_lim : Z; pr_to_bytes_lim : Z;
  pr_cache_pre : Z; pr_mode : Z; pr_ipv6 : bool; pr_resolve : bool; pr_udp : bool;
  pr_delay_conn : bool; pr_auto_reconnect : bool; pr_max_open : Z; pr_bfsize : Z;
  pr_baddr : sockaddr_u; pr_mempool : option mphdr; pr_protect_path : option (list Z) }.
#[global] Instance eta_params : Eta params_t := fun r => Params
  (pr_dp_n r) (pr_dp r) (pr_dp_full_mask r) (pr_await_int r)
  (pr_wait_send r) (pr_def_ttl r) (pr_custom_ttl r) (pr_tfo r)
  (pr_timeout r) (pr_ptimeout r) (pr_to_count_lim r) (pr_to_bytes_lim r)
  (pr_cache_pre r) (pr_mode r) (pr_ipv6 r) (pr_resolve r) (pr_udp r)
  (pr_delay_conn r) (pr_auto_reconnect r) (pr_max_open r) (pr_bfsize r)
  (pr_baddr r) (pr_mempool r) (pr_protect_path r).
Definition params0 : params_t :=
  Params 0 None 0 0 false 0 false false 0 0 0 0 0 0 false false false false false 0 0 sockaddr0 None None.

(** [struct buffer] *)
Record buffer : Type := Buffer {
  b_size : Z; b_offset : Z; b_lock : Z; b_next : option nat; b_data : list Z }.
#[global] Instance eta_buffer : Eta buffer := fun r =>
  Buffer (b_size r) (b_offset r) (b_lock r) (b_next r) (b_data r).

(** The functions an [evcb_t] may point to. *)
Inductive evcb : Type :=
  | cb_null | cb_on_accept | cb_on_request | cb_on_connect | cb_on_tunnel | cb_on_udp_tunnel
  | cb_on_ignore | cb_recv_and_connect | cb_on_socks_conn | cb_on_socks_recv.
#[global] Instance evcb_eq : EqDecision evcb.
Proof. solve_decision. Defined.

(** [struct eval]. [ev_restore_fake] points into a mapping (its number and an
    offset), [ev_restore_orig] into the data of a buffer. *)
Record eval : Type := Eval_ {
  ev_fd : Z; ev_index : Z; ev_mod_iter : Z; ev_cb : evcb; ev_tv_ms : Z;
  ev_tv_next : option nat; ev_tv_prev : option nat; ev_after_conn_cb : evcb;
  ev_conn_state : Z; ev_pair : option nat; ev_buff : option nat; ev_sq_buff : option nat;
  ev_flag : Z; ev_addr : sockaddr_u; ev_host : option (list Z); ev_host_len : Z;
  ev_recv_count : Z; ev_round_sent : Z; ev_round_count : Z; ev_dp : option nat;
  ev_dp_mask : Z; ev_detect : Z; ev_mark : bool; ev_to_count : Z; ev_tls_rec_size : Z;
  ev_tls_rec_pos : Z; ev_tls_rec : list Z; ev_restore_ttl : bool; ev_restore_md5 : bool;
  ev_restore_fake : option (nat * Z); ev_restore_fake_len : Z;
  ev_restore_orig : option (nat * Z); ev_restore_orig_len : Z; ev_part_sent : Z }.
#[global] Instance eta_eval : Eta eval := fun r => Eval_
  (ev_fd r) (ev_index r) (ev_mod_iter r) (ev_cb r) (ev_tv_ms r)
  (ev_tv_next r) (ev_tv_prev r) (ev_after_conn_cb r)
  (ev_conn_state r) (ev_pair r) (ev_buff r) (ev_sq_buff r)
  (ev_flag r) (ev_addr r) (ev_host r) (ev_host_len r)
  (ev_recv_count r) (ev_round_sent r) (ev_round_count r) (ev_dp r)
  (ev_dp_mask r) (ev_detect r) (ev_mark r) (ev_to_count r) (ev_tls_rec_size r)
  (ev_tls_rec_pos r) (ev_tls_rec r) (ev_restore_ttl r) (ev_restore_md5 r)
  (ev_restore_fake r) (ev_restore_fake_len r)
  (ev_restore_orig r) (ev_restore_orig_len r) (ev_part_sent r).
(** all bytes zero *)
Definition eval0 : eval :=
  Eval_ 0 0 0 cb_null 0 None None cb_null 0 None None None 0 sockaddr0 None 0 0 0 0 None
    0 0 false 0 0 0 (replicate 5 0) false false None 0 None 0 0.

(** [struct poolhd]. A pointer to an event is its index in [pl_items]. [pl_pevents]
    is what the last [epoll_wait] stored: event bits and the item each concerns. *)
Record poolhd : Type := Poolhd {
  pl_max : Z; pl_count : Z; pl_efd : Z; pl_links : list nat; pl_items : list eval;
  pl_pevents : list (Z * nat); pl_iters : Z; pl_brk : bool; pl_tv_start : option nat;
  pl_tv_end : option nat; pl_root_buff : option nat; pl_buff_count : Z }.
#[global] Instance eta_poolhd : Eta poolhd := fun r => Poolhd
  (pl_max r) (pl_count r) (pl_efd r) (pl_links r) (pl_items r)
  (pl_pevents r) (pl_iters r) (pl_brk r) (pl_tv_start r)
  (pl_tv_end r) (pl_root_buff r) (pl_buff_count r).
Definition poolhd0 : poolhd := Poolhd 0 0 0 [] [] [] 0 false None None None 0.

(** The globals and the heap. [w_fresh] numbers the next object. *)
Record world : Type := World {
  w_params : params_t; w_dps : gmap nat desync_params; w_pool : poolhd;
  w_bufs : gmap nat buffer; w_maps : gmap nat (list Z); w_fresh : nat;
  w_fake_tls : packet; w_fake_http : packet; w_fake_udp : packet; w_server_fd : Z }.
#[global] Instance eta_world : Eta world := fun r => World
  (w_params r) (w_dps r) (w_pool r) (w_bufs r) (w_maps r) (w_fresh r)
  (w_fake_tls r) (w_fake_http r) (w_fake_udp r) (w_server_fd r).

(** ** Access through pointers *)
Section access.
Context {OS : Os}.

Definition W := Prog world.

Definition gpar : W params_t := pgets w_params.
Definition gpool : W poolhd := pgets w_pool.
Definition mpool (f : poolhd -> poolhd) : W unit := pmod (fun w => w <| w_pool := f (w_pool w) |>).
Definition mparams (f : params_t -> params_t) : W unit :=
  pmod (fun w => w <| w_params := f (w_params w) |>).

Definition gev (i : nat) : W eval := w ← pget; deref (pl_items (w_pool w) !! i).
Definition mev (i : nat) (f : eval -> eval) : W unit :=
  e ← gev i; mpool (fun p => p <| pl_items := <[i := f e]> (pl_items p) |>).

Definition gbuf (b : nat) : W buffer := w ← pget; deref (w_bufs w !! b).
Definition mbuf (b : nat) (f : buffer -> buffer) : W unit :=
  x ← gbuf b; pmod (fun w => w <| w_bufs := <[b := f x]> (w_bufs w) |>).

Definition gdp (d : nat) : W desync_params := w ← pget; deref (w_dps w !! d).
Definition mdp (d : nat) (f : desync_params -> desync_params) : W unit :=
  x ← gdp d; pmod (fun w => w <| w_dps := <[d := f x]> (w_dps w) |>).

Definition gmapping (m : nat) : W (list Z) := w ← pget; deref (w_maps w !! m).

(** The event another event's [pair] points to. *)
Definition gpair (i : nat) : W nat := e ← gev i; deref (ev_pair e).
End access.
