(* ===== verification/Conev.v ===== *)
(** byedpi/conev.c: the event pool, its timers, its buffers, its loop. *)
From S2P Require Import Prelude CMem Sys Mpool PktFake State.
#[local] Open Scope Z_scope.

Definition EPOLL_CTL_ADD : Z := 1.
Definition EPOLL_CTL_DEL : Z := 2.
Definition EPOLL_CTL_MOD : Z := 3.

Section conev.
Context {OS : Os}.

(** ** Buffers *)
Definition new_buffer (size : Z) : W nat :=
  w ← pget;
  let b := w_fresh w in
  pput (w <| w_fresh := S b |>
          <| w_bufs := <[b := Buffer size 0 0 None (replicate (Z.to_nat size) 0)]> (w_bufs w) |>);;
  mret b.

Definition buff_pop (size : Z) : W (option nat) :=
  p ← gpool;
  match pl_root_buff p with
  | Some b =>
      x ← gbuf b;
      mpool (fun p => p <| pl_root_buff := b_next x |> <| pl_buff_count := pl_buff_count p - 1 |>);;
      mret (Some b)
  | None =>
      r ← syscall (CMalloc (40 + size));
      if rv r =? 0 then mret None else b ← new_buffer size; mret (Some b)
  end.

Definition free_buffer (b : nat) : W unit :=
  _ ← gbuf b; pmod (fun w => w <| w_bufs := delete b (w_bufs w) |>).

Definition buff_push (o : option nat) : W unit :=
  match o with
  | None => mret tt
  | Some b =>
      p ← gpool;
      if MAX_BUFF_INP <=? pl_buff_count p then free_buffer b else
      mbuf b (fun x => x <| b_lock := 0 |> <| b_offset := 0 |> <| b_next := pl_root_buff p |>);;
      mpool (fun p => p <| pl_root_buff := Some b |> <| pl_buff_count := pl_buff_count p + 1 |>)
  end.

(** conev.h *)
Definition buff_ppop (size : Z) : W (option nat) :=
  o ← buff_pop size; buff_push o;; mret o.

Fixpoint buff_destroy (k : nat) (root : option nat) : W unit :=
  match k with
  | O => pfuel
  | S k =>
      match root with
      | None => mret tt
      | Some c => x ← gbuf c; free_buffer c;; buff_destroy k (b_next x)
      end
  end.

(** ** Timers *)
Definition time_ms : W Z := r ← syscall CTimeMs; mret (rv r).

(** [while (prev && prev->tv_ms >= val->tv_ms)]: the neighbours of the new timer *)
Fixpoint timer_place (k : nat) (ms : Z) (next prev : option nat) : W (option nat * option nat) :=
  match k with
  | O => pfuel
  | S k =>
      match prev with
      | None => mret (next, prev)
      | Some q =>
          e ← gev q;
          if ms <=? ev_tv_ms e then timer_place k ms prev (ev_tv_prev e) else mret (next, prev)
      end
  end.

Definition set_timer (val : nat) (ms : Z) : W unit :=
  e ← gev val;
  if truthy (ev_tv_ms e) then mret tt else
  p ← gpool;
  t ← time_ms;
  mev val (fun e => e <| ev_tv_ms := t + ms |>);;
  '(next, prev) ← timer_place (S (length (pl_items p))) (t + ms) None (pl_tv_end p);
  mev val (fun e => e <| ev_tv_next := next |> <| ev_tv_prev := prev |>);;
  match next with Some q => mev q (fun e => e <| ev_tv_prev := Some val |>) | None => mret tt end;;
  match prev with Some q => mev q (fun e => e <| ev_tv_next := Some val |>) | None => mret tt end;;
  p ← gpool;
  (if decide (pl_tv_start p = None \/ next = pl_tv_start p)
   then mpool (fun p => p <| pl_tv_start := Some val |>) else mret tt);;
  (if decide (pl_tv_end p = None \/ prev = pl_tv_end p)
   then mpool (fun p => p <| pl_tv_end := Some val |>) else mret tt).

Definition remove_timer (val : nat) : W unit :=
  e ← gev val;
  match ev_tv_prev e with
  | Some q => mev q (fun x => x <| ev_tv_next := ev_tv_next e |>) | None => mret tt end;;
  match ev_tv_next e with
  | Some q => mev q (fun x => x <| ev_tv_prev := ev_tv_prev e |>) | None => mret tt end;;
  p ← gpool;
  (if decide (pl_tv_start p = Some val)
   then mpool (fun p => p <| pl_tv_start := ev_tv_next e |>) else mret tt);;
  (if decide (pl_tv_end p = Some val)
   then mpool (fun p => p <| pl_tv_end := ev_tv_prev e |>) else mret tt);;
  mev val (fun e => e <| ev_tv_ms := 0 |> <| ev_tv_next := None |> <| ev_tv_prev := None |>).

(** ** Events *)
Definition epoll_ctl (op fd events : Z) (item : nat) : W Z :=
  r ← syscall (CEpollCtl op fd events (Z.of_nat item)); mret (rv r).

Definition close_ (fd : Z) : W unit := _ ← syscall (CClose fd); mret tt.

Definition add_event (cb : evcb) (fd e : Z) : W (option nat) :=
  passert (0 <? fd);;
  p ← gpool;
  if pl_max p <=? pl_count p then mret None else
  val ← deref (pl_links p !! Z.to_nat (pl_count p));
  mev val (fun _ => eval0 <| ev_mod_iter := pl_iters p |> <| ev_fd := fd |>
                          <| ev_index := pl_count p |> <| ev_cb := cb |>);;
  rc ← epoll_ctl EPOLL_CTL_ADD fd (Z.lor POLLDEF e) val;
  if truthy rc then mret None else
  mpool (fun p => p <| pl_count := pl_count p + 1 |>);;
  mret (Some val).

(** [links[i] = v] *)
Definition set_link (i : Z) (v : nat) : W unit :=
  p ← gpool;
  if (0 <=? i) && (i <? zlen (pl_links p))
  then mpool (fun p => p <| pl_links := <[Z.to_nat i := v]> (pl_links p) |>) else pub.

(** [munmap]; the call fails on an address inside a page *)
Definition munmap_ (m : nat) (off len : Z) : W unit :=
  _ ← syscall (CMunmap len);
  if off =? 0 then pmod (fun w => w <| w_maps := delete m (w_maps w) |>) else mret tt.

(** [if (val->restore_fake) munmap(...)] *)
Definition unmap_fake (val : nat) : W unit :=
  e ← gev val;
  match ev_restore_fake e with
  | None => mret tt
  | Some (m, off) =>
      munmap_ m off (ev_restore_fake_len e);;
      mev val (fun e => e <| ev_restore_fake := None |>)
  end.

(** The part of [del_event] before its last [if]: everything but the pair. *)
Definition del_one (val : nat) (e : eval) : W unit :=
  p ← gpool;
  epoll_ctl EPOLL_CTL_DEL (ev_fd e) 0 val;;
  buff_push (ev_buff e);;
  mev val (fun e => e <| ev_buff := None |>);;
  buff_push (ev_sq_buff e);;
  mev val (fun e => e <| ev_sq_buff := None |>);;
  unmap_fake val;;
  match ev_host e with
  | Some host => _ ← syscall (CFree host); mev val (fun e => e <| ev_host := None |>)
  | None => mret tt
  end;;
  close_ (ev_fd e);;
  mev val (fun e => e <| ev_fd := -1 |> <| ev_mod_iter := pl_iters p |>);;
  remove_timer val;;
  let count := pl_count p - 1 in
  mpool (fun p => p <| pl_count := count |>);;
  p ← gpool;
  ev ← (if count <? 0 then pub else deref (pl_links p !! Z.to_nat count));
  if decide (ev = val) then mret tt else
  set_link (ev_index e) ev;;
  set_link count val;;
  mev ev (fun x => x <| ev_index := ev_index e |>).

Fixpoint del_event_f (k : nat) (val : nat) : W unit :=
  match k with
  | O => pfuel
  | S k =>
      e ← gev val;
      p ← gpool;
      passert ((-1 <=? ev_fd e) && (ev_mod_iter e <=? pl_iters p));;
      if ev_fd e =? -1 then mret tt else
      del_one val e;;
      e ← gev val;
      match ev_pair e with
      | None => mret tt
      | Some q =>
          x ← gev q;
          (if decide (ev_pair x = Some val) then mev q (fun x => x <| ev_pair := None |>) else mret tt);;
          mev val (fun e => e <| ev_pair := None |>);;
          del_event_f k q
      end;;
      p ← gpool;
      passert (0 <=? pl_count p)
  end.
(** Each level of the recursion closes an event that was open. *)
Definition del_event (val : nat) : W unit :=
  p ← gpool; del_event_f (S (S (length (pl_items p)))) val.

Fixpoint destroy_events (k : nat) : W unit :=
  match k with
  | O => pfuel
  | S k =>
      p ← gpool;
      if pl_count p =? 0 then mret tt else
      val ← deref (pl_links p !! 0%nat);
      del_event val;;
      destroy_events k
  end.
Definition destroy_pool : W unit :=
  p ← gpool;
  destroy_events (S (length (pl_items p)));;
  p ← gpool;
  (if truthy (pl_efd p) then close_ (pl_efd p) else mret tt);;
  w ← pget;
  buff_destroy (S (size (w_bufs w))) (pl_root_buff p);;
  mpool (fun _ => poolhd0).

(** Whether the pool was made. *)
Definition init_pool (count : Z) : W bool :=
  r ← syscall (CMalloc 96);
  if rv r =? 0 then mret false else
  efd ← syscall (CEpollCreate count);
  if rv efd <? 0 then mret false else
  mpool (fun _ => poolhd0 <| pl_max := count |> <| pl_efd := rv efd |>);;
  r1 ← syscall (CMalloc (12 * count));
  r2 ← syscall (CMalloc (8 * count));
  r3 ← syscall (CMalloc (304 * count));
  if (rv r1 =? 0) || (rv r2 =? 0) || (rv r3 =? 0) then destroy_pool;; mret false else
  mpool (fun p => p <| pl_links := seq 0 (Z.to_nat count) |>
                    <| pl_items := replicate (Z.to_nat count) eval0 |>);;
  mret true.

Definition mod_etype (val : nat) (type : Z) : W Z :=
  e ← gev val;
  passert (0 <? ev_fd e);;
  epoll_ctl EPOLL_CTL_MOD (ev_fd e) (Z.lor POLLDEF type) val.

(** What [epoll_wait] stores: event bits and item of each event, flattened. *)
Fixpoint pevents_of (l : list Z) : list (Z * nat) :=
  match l with ev :: item :: l => (ev, Z.to_nat item) :: pevents_of l | _ => [] end.

(** The event, [*offs] and [*type] after the call. *)
Fixpoint next_event_f (k : nat) (offs type ms : Z) : W (option nat * Z * Z) :=
  match k with
  | O => pfuel
  | S k =>
      p ← gpool;
      passert ((-1 <=? offs) && (offs <? pl_max p));;
      o ← (if offs <? 0 then
             r ← syscall (CEpollWait (pl_max p) ms);
             let i := rv r in
             if i <=? 0 then mret (inl (if i =? 0 then POLLTIMEOUT else type))
             else
               mpool (fun p => p <| pl_pevents := pevents_of (rdata r) |> <| pl_iters := pl_iters p + 1 |>);;
               mret (inr (i - 1))
           else mret (inr offs));
      match o with
      | inl type => mret (None, offs, type)
      | inr i =>
          p ← gpool;
          '(ev, val) ← deref (pl_pevents p !! Z.to_nat i);
          e ← gev val;
          if ev_mod_iter e =? pl_iters p then next_event_f k (i - 1) type ms
          else mret (Some val, i - 1, ev)
      end
  end.
Definition next_event (offs type ms : Z) : W (option nat * Z * Z) :=
  next_event_f (Z.to_nat (offs + 1) + 2) offs type ms.

Definition next_event_tv (offs type : Z) : W (option nat * Z * Z) :=
  p ← gpool;
  match pl_tv_start p with
  | None => next_event offs type (-1)
  | Some s =>
      e ← gev s;
      t ← time_ms;
      let ms := s32 (ev_tv_ms e - t) in
      '(val, offs, type) ← (if 0 <? ms then next_event offs type ms
                            else mret (None, offs, POLLTIMEOUT));
      p ← gpool;
      match val, pl_tv_start p with
      | None, Some s =>
          if type =? POLLTIMEOUT then remove_timer s;; mret (Some s, offs, type)
          else mret (val, offs, type)
      | _, _ => mret (val, offs, type)
      end
  end.

(** [loop_event]: [call] is the call through [val->cb]. The loop serves events as
    long as the process lives; [k] bounds the rounds observed. *)
Section loop.
Context (call : evcb -> nat -> Z -> W Z).

Fixpoint loop_event (k : nat) (i etype : Z) : W unit :=
  match k with
  | O => pfuel
  | S k =>
      p ← gpool;
      if pl_brk p then mret tt else
      '(val, i, etype) ← next_event_tv i etype;
      match val with
      | None =>
          e ← errno;
          if e =? EINTR then loop_event k i etype else mret tt
      | Some val =>
          e ← gev val;
          ret ← call (ev_cb e) val etype;
          (if ret <? 0 then del_event val else mret tt);;
          loop_event k i etype
      end
  end.
End loop.
End conev.
