(* ===== verification/Desync.v ===== *)
(** byedpi/desync.c: how a client's first bytes leave the host: in parts, out of
    order, with out-of-band bytes, with decoys, in split TLS records. *)
From S2P Require Import Prelude CMem Sys Mpool PktTls PktHttp PktFake State Conev.
#[local] Open Scope Z_scope.

Definition DEFAULT_TTL : Z := 8.
Definition ERR_WAIT : Z := -12.
Definition IPPROTO_IP : Z := 0.
Definition IPPROTO_TCP : Z := 6.
Definition IPPROTO_IPV6 : Z := 41.
Definition SOL_SOCKET : Z := 1.
Definition IP_TTL : Z := 2.
Definition IPV6_UNICAST_HOPS : Z := 16.
Definition TCP_INFO : Z := 11.
Definition TCP_MD5SIG : Z := 14.
Definition SO_ATTACH_FILTER : Z := 26.
Definition SO_DETACH_FILTER : Z := 27.
Definition MSG_OOB : Z := 1.
(** [offsetof(struct tcp_info, tcpi_notsent_bytes)] *)
Definition NOTSENT_OFFS : Z := 144.

(** [struct proto_info] *)
Record proto_info : Type := ProtoInfo {
  pi_init : bool; pi_type : Z; pi_host_len : Z; pi_host_pos : Z }.
#[global] Instance eta_proto_info : Eta proto_info := fun r =>
  ProtoInfo (pi_init r) (pi_type r) (pi_host_len r) (pi_host_pos r).
Definition proto_info0 : proto_info := ProtoInfo false 0 0 0.

(** The packet [get_tcp_fake] makes: a fresh mapping ([None]: null), the size and
    the offset its sender starts at. *)
Record tcp_fake : Type := TcpFake { tf_map : option nat; tf_size : Z; tf_off : Z }.

Section desync.
Context {CA : CharAbi} {OS : Os}.

Definition send_ (fd : Z) (data : list Z) (flags : Z) : W Z :=
  r ← syscall (CSend fd data flags); mret (rv r).
Definition setsockopt_ (fd level name : Z) (value : list Z) : W Z :=
  r ← syscall (CSetsockopt fd level name value); mret (rv r).

Definition setttl (fd ttl : Z) : W Z :=
  ret6 ← setsockopt_ fd IPPROTO_IPV6 IPV6_UNICAST_HOPS [ttl];
  ret4 ← setsockopt_ fd IPPROTO_IP IP_TTL [ttl];
  mret (if truthy ret4 && truthy ret6 then -1 else 0).

(** the filter, four numbers for each instruction *)
Definition sack_code : list Z :=
  [0x30; 0; 0; 0x0c;  0x74; 0; 0; 0x04;  0x35; 0; 3; 0x0b;  0x30; 0; 0; 0x22;
   0x15; 0; 1; 0x05;  0x6; 0; 0; 0x00;  0x6; 0; 0; 0x40000].
Definition drop_sack (fd : Z) : W Z :=
  r ← setsockopt_ fd SOL_SOCKET SO_ATTACH_FILTER sack_code;
  mret (if r =? -1 then -1 else 0).

(** The reply's data: [tcpi_state], the size stored in [ts], [tcpi_notsent_bytes]. *)
Definition sock_has_notsent (sfd : Z) : W bool :=
  r ← syscall (CGetsockopt sfd IPPROTO_TCP TCP_INFO);
  if rv r <? 0 then mret false else
  if negb (byte_at (rdata r) 0 =? 1) then mret false else
  if byte_at (rdata r) 1 <=? NOTSENT_OFFS then mret false else
  mret (truthy (byte_at (rdata r) 2)).

(** [mmap] gives whole pages of zeros *)
Definition page_ceil (n : Z) : Z := (n + 4095) / 4096 * 4096.
Definition alloc_pktd (n : Z) : W (option nat) :=
  r ← syscall (CMmap n);
  if rv r =? -1 then mret None else
  w ← pget;
  let m := w_fresh w in
  pput (w <| w_fresh := S m |>
          <| w_maps := <[m := replicate (Z.to_nat (page_ceil n)) 0]> (w_maps w) |>);;
  mret (Some m).
Definition put_map (m : nat) (p : list Z) : W unit :=
  pmod (fun w => w <| w_maps := <[m := p]> (w_maps w) |>).

(** ** Positions *)
Definition init_proto_info (buffer : list Z) (n : Z) (info : proto_info) : res proto_info :=
  if pi_init info then Ok info else
  '(len, host) ← parse_tls buffer n;
  '(info, host) ← (
    if truthy len then Ok (info <| pi_host_len := len |> <| pi_type := IS_HTTPS |>, host)
    else
      h ← parse_http buffer n false;
      let info := info <| pi_host_len := hh_len h |> in
      Ok (if truthy (hh_len h) then info <| pi_type := IS_HTTP |> else info,
          match hh_hs h with Some o => Some o | None => host end));
  Ok (info <| pi_host_pos := default 0 host |> <| pi_init := true |>).

(** [n] is a [size_t]; [rand() % (n - lp)] is computed in [unsigned long]. *)
Definition gen_offset (pos flag : Z) (buffer : list Z) (n lp : Z) (info : proto_info)
    : W (Z * proto_info) :=
  if has_flag flag (Z.lor OFFSET_SNI OFFSET_HOST) then
    info ← lift (init_proto_info buffer n info);
    if negb (truthy (pi_host_pos info)) || (has_flag flag OFFSET_SNI && negb (pi_type info =? IS_HTTPS))
    then mret (-1, info) else
    let pos := pos + pi_host_pos info in
    if has_flag flag OFFSET_END then mret (pos + pi_host_len info, info)
    else if has_flag flag OFFSET_MID then mret (pos + Z.quot (pi_host_len info) 2, info)
    else if has_flag flag OFFSET_RAND then
      r ← rand_; d ← lift (c_mod r (pi_host_len info)); mret (pos + d, info)
    else mret (pos, info)
  else if has_flag flag OFFSET_RAND then
    r ← rand_; d ← lift (c_mod r (usz (n - lp))); mret (pos + (lp + d), info)
  else if has_flag flag OFFSET_MID then mret (pos + usz n / 2, info)
  else if (pos <? 0) || has_flag flag OFFSET_END then mret (pos + n, info)
  else mret (pos, info).

(** ** Decoys *)

(** the first [n] bytes of a packet's data into the page *)
Definition copy_pkt (p : list Z) (data : option (list Z)) (n : Z) : res (list Z) :=
  if n =? 0 then Ok p else
  d ← res_of_option data; d ← rd_list d 0 n; wr_list p 0 d.

(** the [do ... while (0)] of [get_tcp_fake] *)
Definition fill_fake (p buffer : list Z) (n : Z) (pkt : packet) (info : proto_info)
    (opt : desync_params) (sni : option (list Z)) : W (list Z) :=
  let f_size := dp_fake_tls_size opt in
  let f_size := if f_size <? 0 then n + f_size else f_size in
  let f_size := if (n <? f_size) || (f_size <=? 0) then n else f_size in
  '(done, p) ← (
    if has_flag (dp_fake_mod opt) FM_ORIG && (pi_type info =? IS_HTTPS) then
      d ← lift (rd_list buffer 0 n);
      p ← lift (wr_list p 0 d);
      match sni with
      | None => mret (true, p)
      | Some s => '(rc, p) ← change_tls_sni s p n f_size; mret (rc =? 0, p)
      end
    else mret (false, p));
  if (done : bool) then mret p else
  p ← lift (copy_pkt p (pk_data pkt) (pk_size pkt));
  match sni with
  | None => mret p
  | Some s => '(_, p) ← change_tls_sni s p (pk_size pkt) f_size; mret p
  end.

Definition get_tcp_fake (buffer : list Z) (n : Z) (info : proto_info) (opt : desync_params)
    : W (tcp_fake * proto_info) :=
  w ← pget;
  '(pkt, info) ← lift (
    match pk_data (dp_fake_data opt) with
    | Some _ => Ok (dp_fake_data opt, info)
    | None =>
        info ← (if truthy (pi_type info) then Ok info else
          ch ← is_tls_chello buffer n;
          if (ch : bool) then Ok (info <| pi_type := IS_HTTPS |>) else
          h ← is_http buffer n;
          Ok (if (h : bool) then info <| pi_type := IS_HTTP |> else info));
        Ok (if pi_type info =? IS_HTTP then w_fake_http w else w_fake_tls w, info)
    end);
  let ps := if pk_size pkt <? n then n else pk_size pkt in
  o ← alloc_pktd ps;
  match o with
  | None => mret (TcpFake None (pk_size pkt) (pk_off pkt), info)
  | Some m =>
      p ← gmapping m;
      sni ← (match dp_fake_sni_list opt with
             | [] => mret None
             | l => r ← rand_; i ← lift (c_mod r (zlen l)); s ← deref (l !! Z.to_nat i); mret (Some s)
             end);
      p ← fill_fake p buffer n pkt info opt sni;
      p ← (if has_flag (dp_fake_mod opt) FM_RAND then randomize_tls p ps else mret p);
      put_map m p;;
      match dp_fake_offset opt with
      | None => mret (TcpFake (Some m) ps (pk_off pkt), info)
      | Some fo =>
          '(off, info) ← gen_offset (pt_pos fo) (pt_flag fo) buffer n 0 info;
          mret (TcpFake (Some m) ps (if (ps <? off) || (off <? 0) then 0 else off), info)
      end
  end.

Definition set_md5sig (sfd key_len : Z) : W Z :=
  r ← syscall (CGetpeername sfd);
  if rv r <? 0 then mret (-1) else
  rc ← setsockopt_ sfd IPPROTO_TCP TCP_MD5SIG (key_len :: rdata r);
  mret (if rc <? 0 then -1 else 0).

(** [send_fake]: [buff] and [boff] are where [buffer] points; the pipe's ends come
    in the reply's data. *)
Definition send_fake (val : nat) (buff : nat) (boff pos : Z) (opt : desync_params)
    (m : nat) (pkt : tcp_fake) : W Z :=
  fds ← syscall CPipe;
  if rv fds <? 0 then mret (-1) else
  mev val (fun e => e <| ev_restore_orig := Some (buff, boff) |> <| ev_restore_orig_len := pos |>
                      <| ev_restore_fake := Some (m, tf_off pkt) |>
                      <| ev_restore_fake_len := tf_size pkt |>);;
  e ← gev val;
  ret ← (
    rc ← setttl (ev_fd e) (if truthy (dp_ttl opt) then dp_ttl opt else DEFAULT_TTL);
    if rc <? 0 then mret (-1) else
    mev val (fun e => e <| ev_restore_ttl := true |>);;
    rc ← (if dp_md5sig opt then set_md5sig (ev_fd e) 5 else mret 0);
    if truthy rc then mret (-1) else
    mev val (fun e => e <| ev_restore_md5 := dp_md5sig opt |>);;
    p ← gmapping m;
    r ← syscall (CVmsplice (byte_at (rdata fds) 1) (slice p (tf_off pkt) pos));
    if rv r <? 0 then mret (-1) else
    r ← syscall (CSplice (byte_at (rdata fds) 0) (ev_fd e) (rv r));
    mret (if rv r <? 0 then -1 else rv r));
  close_ (byte_at (rdata fds) 0);;
  close_ (byte_at (rdata fds) 1);;
  mret ret.

Definition restore_state (val : nat) : W unit :=
  e ← gev val;
  match ev_restore_fake e with
  | None => mret tt
  | Some (m, off) =>
      '(b, boff) ← deref (ev_restore_orig e);
      x ← gbuf b;
      d ← lift (rd_list (b_data x) boff (ev_restore_orig_len e));
      p ← gmapping m;
      p ← lift (wr_list p off d);
      put_map m p;;
      munmap_ m off (ev_restore_fake_len e);;
      mev val (fun e => e <| ev_restore_fake := None |>)
  end;;
  (if ev_restore_md5 e then
     set_md5sig (ev_fd e) 0;; mev val (fun e => e <| ev_restore_md5 := false |>)
   else mret tt);;
  (if ev_restore_ttl e then
     p ← gpar; setttl (ev_fd e) (pr_def_ttl p);; mev val (fun e => e <| ev_restore_ttl := false |>)
   else mret tt).

(** [buffer] is the object from the pointer on. *)
Definition send_oob (sfd : Z) (buffer : list Z) (n pos : Z) (c : Z * Z) : W Z :=
  if n <=? pos then mret (-1) else
  rchar ← lift (rd buffer pos);
  buffer ← lift (wr buffer pos (if truthy (snd c) then fst c else 97));
  d ← lift (rd_list buffer 0 (pos + 1));
  len ← send_ sfd d MSG_OOB;
  if len <? 0 then mret (-1) else mret (len - 1).

(** ** [tamp]: changes to the first request in place *)

(** a function on the object behind [m + off] *)
Definition at_off {A} (m : list Z) (off : Z) (f : list Z -> res (A * list Z)) : res (A * list Z) :=
  if in_range m off 0 then
    '(a, t) ← f (drop (Z.to_nat off) m); Ok (a, take (Z.to_nat off) m ++ t)
  else Ub.

(** The rounds [for (; r > 0 || i < n; r--)] makes over parts with repeat counts. *)
Fixpoint rounds_of (ps : list part) : nat :=
  match ps with [] => O | p :: ps => Nat.max 1 (Z.to_nat (pt_r p)) + rounds_of ps end.

(** [ps] are the parts not yet taken, [cur] and [r] the part under way. *)
Fixpoint tlsrec_loop (k : nat) (buffer : list Z) (bfsize n lp : Z) (cur : option part)
    (r : Z) (ps : list part) (rc : Z) (info : proto_info) : W (list Z * Z * proto_info) :=
  match k with
  | O => pfuel
  | S k =>
      match (if 0 <? r then cur else head ps) with
      | None => mret (buffer, n, info)
      | Some part =>
          let ps := if 0 <? r then ps else tail ps in
          let r := if 0 <? r then r else pt_r part in
          let pos := rc * 5 in
          '(g, info) ← gen_offset (pt_pos part) (pt_flag part) buffer (n - pos) lp info;
          let pos := pos + g in
          let pos := if (pt_pos part <? 0) || truthy (pt_flag part) then pos - 5 else pos in
          let pos := pos + pt_s part * (pt_r part - r) in
          if pos <? lp then mret (buffer, n, info) else
          '(rc', buffer) ← lift (at_off buffer lp
             (fun m => part_tls m (usz (bfsize - lp)) (n - lp) (pos - lp)));
          if rc' =? 0 then mret (buffer, n, info) else
          tlsrec_loop k buffer bfsize (n + 5) (pos + 5) (Some part) (r - 1) ps (rc + 1) info
      end
  end.

Definition tamp (buffer : list Z) (bfsize n : Z) (dp : desync_params) (info : proto_info)
    : W (list Z * Z * proto_info) :=
  buffer ← lift (
    if truthy (dp_mod_http dp) then
      h ← is_http buffer n;
      if (h : bool) then '(_, buffer) ← mod_http buffer n (dp_mod_http dp); Ok buffer else Ok buffer
    else Ok buffer);
  buffer ← lift (
    if dp_tlsminor_set dp then
      ch ← is_tls_chello buffer n;
      if (ch : bool) then wr buffer 2 (dp_tlsminor dp) else Ok buffer
    else Ok buffer);
  ch ← lift (match dp_tlsrec dp with [] => Ok false | _ => is_tls_chello buffer n end);
  if (ch : bool) then
    tlsrec_loop (S (rounds_of (dp_tlsrec dp))) buffer bfsize n 0 None 0 (dp_tlsrec dp) 0 info
  else mret (buffer, n, info).

(** ** [desync] *)

(** One part, from [lp] to [pos]: the [switch] on its method. [None]: return -1. *)
Definition send_part (sfd : Z) (item bid : nat) (bfsize n lp pos r : Z) (part : part)
    (dp : desync_params) (info : proto_info) : W (option Z * proto_info) :=
  b ← gbuf bid;
  let buffer := b_data b in
  let rest := drop (Z.to_nat lp) buffer in
  match pt_m part with
  | DESYNC_FAKE =>
      '(pkt, info) ← get_tcp_fake buffer n info dp;
      match tf_map pkt with
      | None => mret (None, info)
      | Some m =>
          s ← (if pos =? lp then mret 0 else send_fake item bid lp (pos - lp) dp m pkt);
          mret (Some s, info)
      end
  | DESYNC_OOB =>
      s ← send_oob sfd rest (bfsize - lp) (pos - lp) (dp_oob_char dp); mret (Some s, info)
  | DESYNC_DISORDER | DESYNC_DISOOB =>
      rc ← (if negb (truthy (Z.rem (pt_r part - r) 2)) then setttl sfd 1 else mret 0);
      if rc <? 0 then mret (Some (-1), info) else
      mev item (fun e => e <| ev_restore_ttl := true |>);;
      s ← (if decide (pt_m part = DESYNC_DISOOB)
           then send_oob sfd rest (bfsize - lp) (pos - lp) (dp_oob_char dp)
           else d ← lift (rd_list buffer lp (pos - lp)); send_ sfd d 0);
      mret (Some s, info)
  | DESYNC_SPLIT | DESYNC_NONE =>
      d ← lift (rd_list buffer lp (pos - lp)); s ← send_ sfd d 0; mret (Some s, info)
  end.

(** What stays fixed over the parts of one call. *)
Record dctx : Type := Dctx {
  dc_val : nat; dc_pair : nat; dc_sfd : Z; dc_buff : nat; dc_bfsize : Z; dc_n : Z;
  dc_offset : Z; dc_skip : Z; dc_part_skip : Z; dc_dp : desync_params }.

(** The loop over the parts: [inl (ret, wait)] when it returns from [desync],
    [inr lp] when it falls through to what is left. *)
Fixpoint parts_loop (k : nat) (c : dctx) (lp : Z) (cur : option part) (r : Z) (ps : list part)
    (curr_part : Z) (info : proto_info) : W (Z * bool + Z) :=
  match k with
  | O => pfuel
  | S k =>
      match (if 0 <? r then cur else head ps) with
      | None => mret (inr lp)
      | Some part =>
          let ps := if 0 <? r then ps else tail ps in
          let r := if 0 <? r then r else pt_r part in
          let curr_part := curr_part + 1 in
          b ← gbuf (dc_buff c);
          '(pos, info) ← gen_offset (pt_pos part) (pt_flag part) (b_data b) (dc_n c) lp info;
          let pos := pos + pt_s part * (pt_r part - r) in
          if ((truthy (dc_skip c) && (pos <? dc_skip c)) || (curr_part <? dc_part_skip c))
             && negb (has_flag (pt_flag part) OFFSET_START)
          then parts_loop k c lp (Some part) (r - 1) ps curr_part info else
          if truthy (dc_offset c) && (pos <? dc_offset c)
          then parts_loop k c lp (Some part) (r - 1) ps curr_part info else
          if (pos <? 0) || (pos <? lp) then mret (inr lp) else
          let pos := if dc_n c <? pos then dc_n c else pos in
          '(s, info) ← (
            if curr_part =? dc_part_skip c then mret (Some (pos - lp), info)
            else send_part (dc_sfd c) (dc_val c) (dc_buff c) (dc_bfsize c) (dc_n c) lp pos r part (dc_dp c) info);
          match s with
          | None => mret (inl (-1, false))
          | Some s =>
              mev (dc_pair c) (fun e => e <| ev_part_sent := curr_part |>);;
              pr ← gpar;
              if s =? ERR_WAIT then
                set_timer (dc_val c) (pr_await_int pr);; mret (inl (lp - dc_offset c, true))
              else if s <? 0 then
                e ← errno;
                if e =? EAGAIN then mret (inl (lp - dc_offset c, false)) else mret (inl (-1, false))
              else if negb (s =? pos - lp) then mret (inl (lp + s - dc_offset c, false))
              else
                ns ← sock_has_notsent (dc_sfd c);
                if ns || (pr_wait_send pr && (dc_part_skip c <? curr_part)) then
                  set_timer (dc_val c) (pr_await_int pr);; mret (inl (pos - dc_offset c, true))
                else
                  restore_state (dc_val c);;
                  parts_loop k c pos (Some part) (r - 1) ps curr_part info
          end
      end
  end.

(** [desync] returns the bytes sent or -1; [*np] and [*wait] after it come along. *)
Definition desync (val bid : nat) (np : Z) : W (Z * Z * bool) :=
  e ← gev val;
  pair ← deref (ev_pair e);
  pe ← gev pair;
  did ← deref (ev_dp pe);
  dp ← gdp did;
  b ← gbuf bid;
  let skip := ev_round_sent pe in
  '(n, info) ← (
    if truthy skip then mret (np, proto_info0) else
    info ← lift (init_proto_info (b_data b) np proto_info0);
    '(buffer, n, info) ← tamp (b_data b) (b_size b) np dp info;
    mbuf bid (fun b => b <| b_data := buffer |>);;
    mret (n, info));
  let c := Dctx val pair (ev_fd e) bid (b_size b) n (b_offset b) skip (ev_part_sent pe) dp in
  o ← parts_loop (S (rounds_of (dp_parts dp))) c (b_offset b) None 0 (dp_parts dp) 0 info;
  match o with
  | inl (ret, wait) => mret (ret, n, wait)
  | inr lp =>
      if lp <? n then
        b ← gbuf bid;
        d ← lift (rd_list (b_data b) lp (n - lp));
        s ← send_ (ev_fd e) d 0;
        if s <? 0 then
          er ← errno;
          if er =? EAGAIN then mret (lp - b_offset b, n, false) else mret (-1, n, false)
        else mret (n - b_offset b, n, false)
      else mret (n - b_offset b, n, false)
  end.

Definition pre_desync (sfd : Z) (dp : desync_params) : W Z :=
  rc ← (if dp_drop_sack dp then drop_sack sfd else mret 0);
  mret (if truthy rc then -1 else 0).
Definition post_desync (sfd : Z) (dp : desync_params) : W Z :=
  if dp_drop_sack dp then
    r ← setsockopt_ sfd SOL_SOCKET SO_DETACH_FILTER [0];
    mret (if r =? -1 then -1 else 0)
  else mret 0.

(** ** [desync_udp] *)
Fixpoint udp_fakes (k : nat) (sfd : Z) (data : list Z) : W bool :=
  match k with
  | O => mret true
  | S k => len ← send_ sfd data 0; if len <? 0 then mret false else udp_fakes k sfd data
  end.

(** the decoy's bytes, from its offset on *)
Definition udp_fake_data (pkt : packet) (off : option part) : res (list Z) :=
  let '(pos, size) :=
    match off with
    | None => (0, pk_size pkt)
    | Some fo => if pt_pos fo <? pk_size pkt then (pt_pos fo, pk_size pkt - pt_pos fo) else (0, 0)
    end in
  if size =? 0 then Ok [] else d ← res_of_option (pk_data pkt); rd_list d pos size.

Definition desync_udp (sfd : Z) (buffer : list Z) (n : Z) (dp : desync_params) : W Z :=
  w ← pget;
  data ← lift (rd_list buffer 0 n);
  if negb (dp_udp_fake_count dp =? 0) then
    let pkt := match pk_data (dp_fake_data dp) with Some _ => dp_fake_data dp | None => w_fake_udp w end in
    d ← lift (udp_fake_data pkt (dp_fake_offset dp));
    rc ← setttl sfd (if truthy (dp_ttl dp) then dp_ttl dp else DEFAULT_TTL);
    if rc <? 0 then mret (-1) else
    ok ← udp_fakes (Z.to_nat (dp_udp_fake_count dp)) sfd d;
    if negb ok then mret (-1) else
    rc ← setttl sfd (pr_def_ttl (w_params w));
    if rc <? 0 then mret (-1) else send_ sfd data 0
  else send_ sfd data 0.
End desync.
