(* ===== verification/Socks.v ===== *)
(** byedpi/proxy.c, the parts below the event handlers: addresses, the SOCKS4,
    SOCKS5 and HTTP requests and replies, outgoing sockets; and the socket set-up
    of extend.c ([socket_mod], [protect]). *)
From S2P Require Import Prelude CMem Sys Mpool PktTls PktHttp PktFake State Conev Desync.
From Stdlib Require Import String.
#[local] Open Scope Z_scope.
#[local] Open Scope list_scope.
#[local] Abbreviation length := (@Datatypes.length _).

Definition S_VER5 : Z := 5.
Definition S_VER4 : Z := 4.
Definition S_AUTH_NONE : Z := 0.
Definition S_AUTH_BAD : Z := 255.
Definition S_CMD_CONN : Z := 1.
Definition S_CMD_AUDP : Z := 3.
Definition S_ATP_I4 : Z := 1.
Definition S_ATP_ID : Z := 3.
Definition S_ATP_I6 : Z := 4.
Definition S_ER_OK : Z := 0.
Definition S_ER_GEN : Z := 1.
Definition S_ER_NET : Z := 3.
Definition S_ER_HOST : Z := 4.
Definition S_ER_CONN : Z := 5.
Definition S_ER_CMD : Z := 7.
Definition S_ER_ATP : Z := 8.
Definition S4_OK : Z := 90.
Definition S4_ER : Z := 91.
Definition S_SIZE_I4 : Z := 10.
Definition S_SIZE_I6 : Z := 22.
Definition S_SIZE_ID : Z := 7.
Definition S_SIZE_MIN : Z := S_SIZE_I4.

Definition AF_UNIX : Z := 1.
Definition SOCK_NONBLOCK : Z := 2048.
Definition SO_LINGER : Z := 13.
Definition SO_RCVTIMEO : Z := 20.
Definition SO_SNDTIMEO : Z := 21.
Definition IPV6_V6ONLY : Z := 26.
Definition TCP_NODELAY : Z := 1.
Definition TCP_SYNCNT : Z := 7.
Definition TCP_FASTOPEN_CONNECT : Z := 30.

(** ** Addresses *)

(** [SA_SIZE]: how much of the union a call sees; the family, the port, and so many
    bytes behind them. *)
Definition sa_tail (family : Z) : Z := if family =? AF_INET6 then 24 else 12.
Definition sa_bytes (a : sockaddr_u) : list Z :=
  sa_family a :: sin_port a :: slice (sa_body a) 0 (sa_tail (sa_family a)).
(** a call that stores an address stores that much into the union *)
Definition sa_store (d : list Z) (a : sockaddr_u) : sockaddr_u :=
  match d with
  | f :: p :: body => Sockaddr f p (splice (sa_body a) 0 (slice body 0 (sa_tail f)))
  | _ => a
  end.

(** the view [ipv6m] of the IPv6 address: [o64], [o16], [t16], [o32] *)
Definition v4mapped (a : sockaddr_u) : bool :=
  bool_decide (slice (sa_body a) 4 12 = replicate 10 0 ++ [255; 255]).
Definition map_fix (addr : sockaddr_u) (f6 : Z) : sockaddr_u :=
  if (sa_family addr =? AF_INET) && truthy f6 then
    addr <| sa_family := AF_INET6 |>
         <| sa_body := splice (splice (sa_body addr) 16 (sin_addr addr)) 4 (replicate 10 0 ++ [255; 255]) |>
  else if v4mapped addr && negb (truthy f6) then
    set_sin_addr (slice (sa_body addr) 16 4) (addr <| sa_family := AF_INET |>)
  else addr.

Definition addr_equ (a b : sockaddr_u) : bool :=
  if sa_family a =? AF_INET then bool_decide (sin_addr a = sin_addr b)
  else bool_decide (sin6_addr a = sin6_addr b).

Section socks.
Context {CA : CharAbi} {OS : Os}.

Definition nb_socket (domain type : Z) : W Z :=
  r ← syscall (CSocket domain (Z.lor type SOCK_NONBLOCK));
  mret (if rv r <? 0 then -1 else rv r).

Definition checkpoint : W unit := _ ← syscall CCheckpoint; mret tt.

(** a C string: up to the first NUL *)
Fixpoint c_string (l : list Z) : list Z :=
  match l with [] => [] | c :: l => if c =? 0 then [] else c :: c_string l end.

(** [None]: return -1 *)
Definition resolve (m : list Z) (p len : Z) (addr : sockaddr_u) (type : Z) : W (option sockaddr_u) :=
  host ← lift (rd_list m p len);
  pr ← gpar;
  r ← syscall (CGetaddrinfo (c_string host) type (if pr_ipv6 pr then 0 else AF_INET) (negb (pr_resolve pr)));
  checkpoint;;
  mret (if truthy (rv r) || bool_decide (rdata r = []) then None else Some (sa_store (rdata r) addr)).

(** ** SOCKS and HTTP *)

(** the loop over the methods offered *)
Fixpoint find_auth (k : nat) (buffer : list Z) (i n : Z) : res Z :=
  match k with
  | O => Fuel
  | S k =>
      if i <? n then
        b ← rd buffer i; if b =? S_AUTH_NONE then Ok S_AUTH_NONE else find_auth k buffer (i + 1) n
      else Ok S_AUTH_BAD
  end.
Definition auth_socks5 (fd : Z) (buffer : list Z) (n : Z) : W Z :=
  if n <=? 2 then mret (-1) else
  b ← lift (rd buffer 1);
  if negb (b =? n - 2) then mret (-1) else
  c ← lift (find_auth (S (Z.to_nat n)) buffer 2 n);
  s ← send_ fd [S_VER5; c] 0;
  if s <? 0 then mret (-1) else mret (if c =? S_AUTH_BAD then -1 else 0).

Definition resp_s5_error (fd e : Z) : W Z :=
  send_ fd ([5; u8 e; 0; S_ATP_I4] ++ [0; 0; 0; 0] ++ [0; 0]) 0.

(** the SOCKS5 reply code for an [errno] value *)
Definition s5_code (e : Z) : Z :=
  if e =? 0 then S_ER_OK
  else if e =? ECONNREFUSED then S_ER_CONN
  else if (e =? EHOSTUNREACH) || (e =? ETIMEDOUT) then S_ER_HOST
  else if e =? ENETUNREACH then S_ER_NET
  else S_ER_GEN.

Definition http_ok : list Z := bytes_of_string "HTTP/1.1 200 OK" ++ CRLF ++ CRLF.
Definition http_fail : list Z := bytes_of_string "HTTP/1.1 503 Fail" ++ CRLF ++ CRLF.

Definition resp_error (fd e flag : Z) : W Z :=
  if flag =? FLAG_S4 then
    send_ fd [0; if truthy e then S4_ER else S4_OK; 0; 0; 0; 0; 0; 0] 0
  else if flag =? FLAG_S5 then resp_s5_error fd (s5_code e)
  else if flag =? FLAG_HTTP then send_ fd (if truthy e then http_fail else http_ok) 0
  else if truthy e then
    r ← setsockopt_ fd SOL_SOCKET SO_LINGER [1; 0]; mret (if r <? 0 then -1 else 0)
  else mret 0.

(** [strchr(m + p, 0)] *)
Definition strchr0 (m : list Z) (p : Z) : res Z :=
  skip_while (fun b => negb (b =? 0)) (S (length m)) m p.

Definition s4_get_addr (buff : list Z) (n : Z) (dst : sockaddr_u) : W (Z * sockaddr_u) :=
  if n <? 8 + 1 then mret (-1, dst) else
  cmd ← lift (rd buff 1);
  if negb (cmd =? S_CMD_CONN) then mret (-1, dst) else
  port ← lift (ld_u16 buff 2);
  hi ← lift (ld_be16 buff 4);
  lo ← lift (ld_be16 buff 6);
  pr ← gpar;
  if 65536 * hi + lo <=? 255 then
    last ← lift (rd buff (n - 1));
    if negb (pr_resolve pr) || truthy last then mret (-1, dst) else
    id_end ← lift (strchr0 buff 8);
    let len := s32 (n - id_end - 2) in
    if (len <? 3) || (255 <? len) then mret (-1, dst) else
    o ← resolve buff (id_end + 1) len dst SOCK_STREAM;
    match o with
    | None => mret (-1, dst)
    | Some dst => mret (0, dst <| sin_port := port |>)
    end
  else
    ip ← lift (rd_list buff 4 4);
    mret (0, set_sin_addr ip (dst <| sa_family := AF_INET |>) <| sin_port := port |>).

(** [m] is the object and [p] where [buffer] points in it. *)
Definition s5_get_addr (m : list Z) (p n : Z) (addr : sockaddr_u) (type : Z) : W (Z * sockaddr_u) :=
  if n <? S_SIZE_MIN then mret (- S_ER_GEN, addr) else
  atp ← lift (rd m (p + 3));
  dlen ← lift (rd m (p + 4));
  let o := if atp =? S_ATP_I4 then S_SIZE_I4
           else if atp =? S_ATP_ID then dlen + S_SIZE_ID
           else if atp =? S_ATP_I6 then S_SIZE_I6 else 0 in
  if n <? o then mret (- S_ER_GEN, addr) else
  pr ← gpar;
  a ← (if atp =? S_ATP_I4 then
         ip ← lift (rd_list m (p + 4) 4);
         mret (inr (set_sin_addr ip (addr <| sa_family := AF_INET |>)))
       else if atp =? S_ATP_ID then
         if negb (pr_resolve pr) then mret (inl (- S_ER_ATP)) else
         o ← (if dlen <? 3 then mret None else resolve m (p + 5) dlen addr type);
         mret (match o with None => inl (- S_ER_HOST) | Some a => inr a end)
       else if atp =? S_ATP_I6 then
         if negb (pr_ipv6 pr) then mret (inl (- S_ER_ATP)) else
         ip ← lift (rd_list m (p + 4) 16);
         mret (inr (set_sin6_addr ip (addr <| sa_family := AF_INET6 |>)))
       else mret (inr addr));
  match a with
  | inl e => mret (e, addr)
  | inr addr => port ← lift (ld_u16 m (p + o - 2)); mret (o, addr <| sin_port := port |>)
  end.

Definition port_bytes (x : Z) : list Z := [x mod 256; (x / 256) mod 256].

(** Writes the address form, the address and the port of a request or reply that
    starts at [p], or, for [e] set, ends at [p]. *)
Definition s5_set_addr (m : list Z) (p n : Z) (addr : sockaddr_u) (e : bool) : res (Z * list Z) :=
  if n <? S_SIZE_I4 then Ok (-1, m) else
  if sa_family addr =? AF_INET then
    let r := if e then p - S_SIZE_I4 else p in
    m ← wr_list m (r + 3) (S_ATP_I4 :: sin_addr addr ++ port_bytes (sin_port addr));
    Ok (S_SIZE_I4, m)
  else
    if n <? S_SIZE_I6 then Ok (-1, m) else
    let r := if e then p - S_SIZE_I6 else p in
    m ← wr_list m (r + 3) (S_ATP_I6 :: sin6_addr addr ++ port_bytes (sin_port addr));
    Ok (S_SIZE_I6, m).

Definition http_get_addr (buff : list Z) (n : Z) (dst : sockaddr_u) : W (Z * sockaddr_u) :=
  h ← lift (parse_http buff n true);
  if (hh_len h <? 3) || (255 <? hh_len h) then mret (-1, dst) else
  host ← deref (hh_hs h);
  o ← resolve buff host (hh_len h) dst SOCK_STREAM;
  match o with
  | None => mret (-1, dst)
  | Some dst => mret (0, dst <| sin_port := htons (default 0 (hh_port h)) |>)
  end.

Definition tls_get_addr (buff : list Z) (n : Z) (dst : sockaddr_u) : W (Z * sockaddr_u) :=
  '(len, host) ← lift (parse_tls buff n);
  if (len <? 3) || (255 <? len) then mret (-1, dst) else
  host ← deref host;
  pr ← gpar;
  o ← (if pr_resolve pr then resolve buff host len dst SOCK_STREAM else mret (Some dst));
  match o with
  | None => mret (-1, dst)
  | Some dst => mret (0, dst <| sin_port := htons 443 |>)
  end.

(** ** Outgoing sockets *)

(** extend.c: hand the descriptor to the application, which keeps it out of the
    tunnel. [strcpy] copies the path with its NUL into 108 bytes. *)
Definition protect (conn_fd : Z) (path : list Z) : W Z :=
  if 108 <=? zlen (c_string path) then pub else
  r ← syscall (CSocket AF_UNIX SOCK_STREAM);
  let fd := rv r in
  if fd <? 0 then mret (-1) else
  setsockopt_ fd SOL_SOCKET SO_RCVTIMEO [0; 150000];;
  setsockopt_ fd SOL_SOCKET SO_SNDTIMEO [0; 150000];;
  r ← syscall (CConnect fd (AF_UNIX :: c_string path));
  if truthy (rv r) then close_ fd;; mret (-1) else
  r ← syscall (CSendmsg fd [49] conn_fd);
  if rv r <? 0 then close_ fd;; mret (-1) else
  r ← syscall (CRecv fd 1);
  if rv r <? 1 then close_ fd;; mret (-1) else
  close_ fd;; mret 0.

Definition socket_mod (fd : Z) : W Z :=
  pr ← gpar;
  rc ← (if pr_custom_ttl pr then setttl fd (pr_def_ttl pr) else mret 0);
  if rc <? 0 then mret (-1) else
  match pr_protect_path pr with
  | Some path => protect fd path
  | None => mret 0
  end.

(** The socket or -1, and the address as [map_fix] left it. *)
Definition remote_sock (dst : sockaddr_u) (type : Z) : W (Z * sockaddr_u) :=
  pr ← gpar;
  let family := sa_family (pr_baddr pr) in
  let dst := map_fix dst (if family =? AF_INET6 then 6 else 0) in
  if negb (sa_family dst =? family) then mret (-1, dst) else
  sfd ← nb_socket (sa_family dst) type;
  if sfd <? 0 then mret (-1, dst) else
  rc ← socket_mod sfd;
  if rc <? 0 then checkpoint;; close_ sfd;; mret (-1, dst) else
  rc ← (if sa_family dst =? AF_INET6 then setsockopt_ sfd IPPROTO_IPV6 IPV6_V6ONLY [0] else mret 0);
  if truthy rc then close_ sfd;; mret (-1, dst) else
  r ← syscall (CBind sfd (sa_bytes (pr_baddr pr)));
  if rv r <? 0 then close_ sfd;; mret (-1, dst) else
  mret (sfd, dst).

(** The options [create_conn] sets, in order, each closing the socket on failure. *)
Definition conn_opts (sfd : Z) : W bool :=
  pr ← gpar;
  r ← setsockopt_ sfd IPPROTO_TCP TCP_SYNCNT [1];
  if truthy r then close_ sfd;; mret false else
  r ← (if pr_tfo pr then setsockopt_ sfd IPPROTO_TCP TCP_FASTOPEN_CONNECT [1] else mret 0);
  if truthy r then close_ sfd;; mret false else
  r ← setsockopt_ sfd IPPROTO_TCP TCP_NODELAY [1];
  if truthy r then close_ sfd;; mret false else mret true.

Definition create_conn (val : nat) (dst : sockaddr_u) (next : evcb) : W Z :=
  '(sfd, addr) ← remote_sock dst SOCK_STREAM;
  if sfd <? 0 then mret (-1) else
  ok ← conn_opts sfd;
  if negb ok then mret (-1) else
  r ← syscall (CConnect sfd (sa_bytes addr));
  checkpoint;;
  e ← errno;
  if (rv r <? 0) && negb (e =? EINPROGRESS) && negb (e =? EAGAIN) then close_ sfd;; mret (-1) else
  pev ← add_event next sfd POLLOUT;
  match pev with
  | None => close_ sfd;; mret (-1)
  | Some pev =>
      rc ← mod_etype val 0;
      if rc <? 0 then mret (-1) else
      mev val (fun e => e <| ev_pair := Some pev |>);;
      mev pev (fun e => e <| ev_pair := Some val |> <| ev_addr := dst |> <| ev_flag := FLAG_CONN |>);;
      mev val (fun e => e <| ev_cb := cb_on_ignore |>);;
      mret 0
  end.
End socks.
