(* ===== verification/Extend.v ===== *)
(** byedpi/extend.c: choosing the group of parameters for a connection, the cache
    of destinations, reacting to errors and answers, and the hooks the tunnel
    calls around [send] and [recv]. *)
From S2P Require Import Prelude CMem Sys Mpool PktTls PktHttp PktFake State Conev Desync Socks.
#[local] Open Scope Z_scope.

Definition TCP_USER_TIMEOUT : Z := 18.

(** ** Pure parts *)

(** [serialize_addr]: the bytes of the key, whose number it returns *)
Definition serialize_addr (dst : sockaddr_u) : list Z :=
  st_u16 (sa_family dst) ++ st_u16 (sin_port dst) ++
  (if sa_family dst =? AF_INET then sin_addr dst else sin6_addr dst).

Section pure.
Context {CA : CharAbi}.

Fixpoint eq_bytes (k : nat) (a b : list Z) (by_ n : Z) : res Z :=
  match k with
  | O => Fuel
  | S k =>
      if by_ <? n then
        x ← rd a by_; y ← rd b by_;
        if x =? y then eq_bytes k a b (by_ + 1) n else Ok by_
      else Ok by_
  end.
Fixpoint eq_bits (k : nat) (x y bi : Z) : res Z :=
  match k with
  | O => Fuel
  | S k =>
      if (bi <? 8) && negb (Z.shiftr (schar x) bi =? Z.shiftr (schar y) bi)
      then eq_bits k x y (bi + 1) else Ok bi
  end.
Definition eq_bitlen (a b : list Z) (n : Z) : res Z :=
  by_ ← eq_bytes (S (Z.to_nat n)) a b 0 n;
  bi ← (if by_ =? n then Ok 0 else x ← rd a by_; y ← rd b by_; eq_bits 9 x y 0);
  Ok (by_ * 8 + 8 - bi).

Definition check_host (hosts : mphdr) (buffer : list Z) (n : Z) : res bool :=
  '(len, host) ← parse_tls buffer n;
  '(len, host) ← (
    if truthy len then Ok (len, host)
    else h ← parse_http buffer n false;
         Ok (hh_len h, match hh_hs h with Some o => Some o | None => host end));
  match host with
  | None => if len =? 0 then Ok false else Ub
  | Some o =>
      if len <=? 0 then Ok false else
      v ← mem_get hosts (drop (Z.to_nat o) buffer) len;
      Ok (match v with Some v => el_len v <=? len | None => false end)
  end.

Definition check_ip (ipset : mphdr) (dst : sockaddr_u) : res bool :=
  let data := if sa_family dst =? AF_INET6 then sin6_addr dst else sin_addr dst in
  v ← mem_get ipset data (zlen data * 8);
  Ok (bool_decide (is_Some v)).

Definition check_proto_tcp (proto : Z) (buffer : list Z) (n : Z) : res bool :=
  if negb (has_flag proto (Z.lnot IS_IPV4)) then Ok true else
  h ← (if has_flag proto IS_HTTP then is_http buffer n else Ok false);
  if (h : bool) then Ok true else
  if has_flag proto IS_HTTPS then is_tls_chello buffer n else Ok false.

Definition check_l34 (dp : desync_params) (st : Z) (dst : sockaddr_u) : res bool :=
  if has_flag (dp_proto dp) IS_UDP && negb (st =? SOCK_DGRAM) then Ok false else
  if has_flag (dp_proto dp) IS_TCP && negb (st =? SOCK_STREAM) then Ok false else
  if has_flag (dp_proto dp) IS_IPV4 && (negb (sa_family dst =? AF_INET) && negb (v4mapped dst))
  then Ok false else
  if truthy (fst (dp_pf dp)) && ((sin_port dst <? fst (dp_pf dp)) || (snd (dp_pf dp) <? sin_port dst))
  then Ok false else
  match dp_ipset dp with
  | Some s => check_ip s dst
  | None => Ok true
  end.
End pure.

Definition check_round (nr : Z * Z) (r : Z) : bool :=
  (negb (truthy (snd nr)) && (r <=? 1)) || ((fst nr <=? r) && (r <=? snd nr)).

Section extend.
Context {CA : CharAbi} {OS : Os}.

Definition set_timeout (fd s : Z) : W Z :=
  r ← setsockopt_ fd IPPROTO_TCP TCP_USER_TIMEOUT [s]; mret (if truthy r then -1 else 0).

Definition time_ : W Z := r ← syscall CTime; mret (rv r).

(** ** The cache of destinations *)
Definition gmem : W mphdr := p ← gpar; deref (pr_mempool p).
Definition put_mem (hdr : mphdr) : W unit := mparams (fun p => p <| pr_mempool := Some hdr |>).

Fixpoint tree_get (a : Z) (t : tree) : option elem :=
  match t with
  | Leaf => None
  | Node l e r =>
      if el_addr e =? a then Some e
      else match tree_get a l with Some e => Some e | None => tree_get a r end
  end.
(** The cached element at address [a]. *)
Definition gelem (a : Z) : W elem := h ← gmem; deref (tree_get a (mp_root h)).
Definition melem (a : Z) (f : elem -> elem) : W unit :=
  h ← gmem; put_mem (set_root h (tree_upd a f (mp_root h))).

Definition cache_get (dst : sockaddr_u) : W (option elem) :=
  let key := serialize_addr dst in
  let len := zlen key in
  h ← gmem;
  val ← lift (mem_get h key (len * 8));
  match val with
  | None => mret None
  | Some val =>
      d ← deref (el_dp val);
      dp ← gdp d;
      t ← time_;
      if truthy (dp_cache_ttl dp) && (el_time val + dp_cache_ttl dp <? t) then
        h ← mem_delete h key len; put_mem h;; mret None
      else mret (Some val)
  end.

(** [*host] is the host of the event [lav]. The address of the element, or none. *)
Definition cache_add (dst : sockaddr_u) (lav : nat) : W (option Z) :=
  let key := serialize_addr dst in
  let bytes := zlen key in
  t ← time_;
  p ← gpar;
  h ← gmem;
  cmp_len ← lift (
    if (sa_family dst =? AF_INET) && truthy (pr_cache_pre p) then
      val ← mem_get h key (bytes * 8 - pr_cache_pre p);
      match val with Some v => eq_bitlen key (el_data v) bytes | None => Ok (bytes * 8) end
    else Ok (bytes * 8));
  r ← syscall (CMalloc bytes);
  if rv r =? 0 then mret None else
  '(val, h) ← mem_add h key cmp_len 96;
  put_mem h;;
  match val with
  | None => free_ key;; mret None
  | Some val =>
      let a := el_addr val in
      e ← gev lav;
      melem a (fun x => Elem (el_addr x) (el_len x) (el_data x) (el_cmp x) (el_extra_len x)
                          (el_extra x) (el_mask x) (el_dp x) (el_detect x) t);;
      match el_extra val, ev_host e with
      | None, Some host =>
          melem a (fun x => Elem (el_addr x) (el_len x) (el_data x) (el_cmp x) (ev_host_len e)
                              (Some host) (el_mask x) (el_dp x) (el_detect x) (el_time x));;
          mev lav (fun e => e <| ev_host := None |>)
      | _, _ => mret tt
      end;;
      mret (Some a)
  end.
Definition melem_dp (a mask : Z) (dp : option nat) (detect : Z) : W unit :=
  melem a (fun x => Elem (el_addr x) (el_len x) (el_data x) (el_cmp x) (el_extra_len x)
                      (el_extra x) mask dp detect (el_time x)).

Definition dump_all_cache : W unit :=
  p ← gpar;
  match pr_mempool p with
  | None => mret tt
  | Some h => mem_destroy h;; mparams (fun p => p <| pr_mempool := None |>)
  end.

(** ** Choosing a group *)

Definition next_dp (d : nat) : W (option nat) := x ← gdp d; mret (dp_next x).

(** One candidate of [find_dp]. *)
Definition dp_fits (c : eval) (d : nat) (dp : desync_params) (init : option nat)
    (buff : option (list Z)) (n : Z) (dst : sockaddr_u) : res bool :=
  if has_flag (dp_bit dp) (ev_dp_mask c) then Ok false else
  if negb (bool_decide (Some d = init) || negb (truthy (dp_detect dp)) || has_flag (ev_detect c) (dp_detect dp))
  then Ok false else
  l34 ← check_l34 dp SOCK_STREAM dst;
  if negb l34 then Ok false else
  p ← (match buff with
       | Some b => if truthy (dp_proto dp) then check_proto_tcp (dp_proto dp) b n else Ok true
       | None => Ok true
       end);
  if negb p then Ok false else
  match dp_hosts dp, buff with
  | Some h, Some b => check_host h b n
  | _, _ => Ok true
  end.

Fixpoint find_dp_loop (k : nat) (client : nat) (dp init : option nat)
    (buff : option (list Z)) (n : Z) (dst : sockaddr_u) : W (option nat) :=
  match k with
  | O => pfuel
  | S k =>
      pr ← gpar;
      let dp := match dp with None => pr_dp pr | Some _ => dp end in
      c ← gev client;
      if ev_dp_mask c =? pr_dp_full_mask pr then mret None else
      d ← deref dp;
      x ← gdp d;
      ok ← lift (dp_fits c d x init buff n dst);
      if (ok : bool) then mret (Some d) else
      mev client (fun e => e <| ev_dp_mask := Z.lor (ev_dp_mask e) (dp_bit x) |>);;
      find_dp_loop k client (dp_next x) init buff n dst
  end.

(** Each group is visited at most twice: from the current one to the end of the
    list, and then once around. *)
Definition find_dp (client : nat) (buff : option (list Z)) (n : Z) (dst : sockaddr_u) : W (option nat) :=
  c ← gev client;
  '(buff, n) ← (match buff, ev_buff c with
                | None, Some b => x ← gbuf b; mret (Some (b_data x), b_lock x)
                | _, _ => mret (buff, n)
                end);
  w ← pget;
  find_dp_loop (S (S (2 * size (w_dps w)))) client (ev_dp c) (ev_dp c) buff n dst.

(** [if (p) p->next = q] *)
Definition set_next (p q : option nat) : W unit :=
  match p with None => mret tt | Some d => mdp d (fun x => x <| dp_next := q |>) end.
Definition set_prev (p q : option nat) : W unit :=
  match p with None => mret tt | Some d => mdp d (fun x => x <| dp_prev := q |>) end.
Definition need (o : option nat) : W (option nat) := d ← deref o; mret (Some d).

Definition swop_groups (dpc dpn : nat) : W unit :=
  dpc_cp ← gdp dpc;
  n ← gdp dpn;
  mdp dpc (fun x => x <| dp_next := dp_next n |> <| dp_prev := dp_prev n |>);;
  mdp dpn (fun x => x <| dp_prev := dp_prev dpc_cp |> <| dp_next := dp_next dpc_cp |>);;
  set_next (dp_prev dpc_cp) (Some dpn);;
  c ← gdp dpc;
  set_prev (dp_next c) (Some dpc);;
  (if decide (dp_next dpc_cp <> Some dpn) then
     n ← gdp dpn; o ← need (dp_next n); set_prev o (Some dpn);;
     c ← gdp dpc; o ← need (dp_prev c); set_next o (Some dpc)
   else set_prev (Some dpc) (Some dpn);; set_next (Some dpn) (Some dpc));;
  n ← gdp dpn;
  mdp dpc (fun x => x <| dp_detect := dp_detect n |> <| dp_auto_level := dp_auto_level n |>);;
  mdp dpn (fun x => x <| dp_detect := dp_detect dpc_cp |> <| dp_auto_level := dp_auto_level dpc_cp |>);;
  p ← gpar;
  if decide (pr_dp p = Some dpc) then mparams (fun p => p <| pr_dp := Some dpn |>) else mret tt.

(** ** Connecting *)
Definition recv_ (fd size : Z) : W ret := syscall (CRecv fd size).

(** [connect_hook] *)
Definition connect_hook (val : nat) (dst : sockaddr_u) (next : evcb) : W Z :=
  e ← gev val;
  match ev_dp e with
  | Some _ => mret tt
  | None =>
      o ← cache_get dst;
      match o with
      | Some c => mev val (fun e => e <| ev_dp_mask := el_mask c |> <| ev_detect := el_detect c |>
                                      <| ev_dp := el_dp c |>)
      | None => mret tt
      end
  end;;
  dp ← find_dp val None 0 dst;
  match dp with
  | None => mret (-1)
  | Some d =>
      mev val (fun e => e <| ev_dp := Some d |>);;
      dp ← gdp d;
      e ← gev val;
      pr ← gpar;
      if (bool_decide (is_Some (dp_hosts dp)) || truthy (dp_proto dp))
         && bool_decide (ev_buff e = None) && pr_delay_conn pr then
        rc ← resp_error (ev_fd e) 0 (ev_flag e);
        if rc <? 0 then mret (-1) else
        mev val (fun e => e <| ev_cb := cb_recv_and_connect |> <| ev_addr := dst |>);;
        mret 0
      else if truthy (dp_out_type dp) then
        e ← create_conn val (dp_out_addr dp) (if dp_out_type dp =? MODE_SOCKS5 then cb_on_socks_conn else next);
        (if e =? 0 then
           q ← gpair val;
           mev q (fun x => x <| ev_after_conn_cb := next |> <| ev_addr := dst |>)
         else mret tt);;
        mret e
      else create_conn val dst next
  end.

Definition reconnect (val : nat) : W Z :=
  e ← gev val;
  passert (ev_flag e =? FLAG_CONN);;
  client ← deref (ev_pair e);
  c ← gev client;
  match ev_sq_buff c with
  | None => mret tt
  | Some sq =>
      s ← gbuf sq;
      b ← (match ev_buff c with
           | Some b => mret (Some b)
           | None => o ← buff_pop (b_size s); mev client (fun e => e <| ev_buff := o |>);; mret o
           end);
      b ← deref b;
      mbuf b (fun x => x <| b_lock := b_lock s |>);;
      x ← gbuf b;
      d ← lift (rd_list (b_data s) 0 (b_lock s));
      data ← lift (wr_list (b_data x) 0 d);
      mbuf b (fun x => x <| b_data := data |> <| b_offset := 0 |>)
  end;;
  mev client (fun e => e <| ev_round_sent := 0 |> <| ev_part_sent := 0 |>);;
  e ← gev val;
  rc ← connect_hook client (ev_addr e) cb_on_connect;
  if truthy rc then mret (-1) else
  mev val (fun e => e <| ev_pair := None |>);;
  del_event val;;
  mret 0.

(** The loop of [on_trigger]: [dp] where it stopped, [next] and [uncheked]. *)
Fixpoint trigger_loop (k : nat) (lav : nat) (type : Z) (can_reconn : bool) (dp : option nat) (uncheked : Z)
    : W (option nat * option nat * Z) :=
  match k with
  | O => pfuel
  | S k =>
      match dp with
      | None => mret (None, None, uncheked)
      | Some d =>
          x ← gdp d;
          l ← gev lav;
          if (uncheked =? 0) && (dp_detect x =? 0) then mret (dp, None, uncheked) else
          if negb (has_flag (dp_bit x) (ev_dp_mask l))
             && (negb (truthy (dp_detect x)) || has_flag (dp_detect x) type)
             && (negb (has_flag (dp_auto_level x) AUTO_ONRECONN) || can_reconn)
          then mret (dp, dp, uncheked) else
          mev lav (fun e => e <| ev_dp_mask := Z.lor (ev_dp_mask e) (dp_bit x) |>);;
          trigger_loop k lav type can_reconn (dp_next x) (Z.land uncheked (Z.lnot (dp_bit x)))
      end
  end.

Definition on_trigger (type : Z) (val : nat) (client_alive : bool) : W Z :=
  lav ← gpair val;
  l ← gev lav;
  v ← gev val;
  let before_req := (ev_recv_count l =? 0) && (ev_recv_count v =? 0) in
  let can_reconn := (bool_decide (is_Some (ev_sq_buff l)) || before_req) && client_alive in
  cache ← cache_add (ev_addr v) lav;
  match cache with
  | None => mret (-1)
  | Some a =>
      ld ← deref (ev_dp l);
      mdp ld (fun x => x <| dp_fail_count := dp_fail_count x + 1 |>);;
      x ← gdp ld;
      mev lav (fun e => e <| ev_dp_mask := Z.lor (ev_dp_mask e) (dp_bit x) |> <| ev_detect := type |>);;
      l ← gev lav;
      w ← pget;
      '(dp, next, uncheked) ←
        trigger_loop (S (size (w_dps w))) lav type can_reconn (pr_dp (w_params w)) (ev_dp_mask l);
      c ← gelem a;
      (if has_flag (dp_bit x) (el_mask c) then mret tt else
         (match next with
          | Some nx =>
              ndp ← gdp nx;
              x ← gdp ld;
              if has_flag (dp_auto_level ndp) AUTO_SORT && (dp_pri ndp <? dp_pri x)
                 && negb (has_flag (dp_bit x) uncheked)
              then swop_groups ld nx else mret tt
          | None => mret tt
          end);;
         mdp ld (fun x => x <| dp_pri := dp_pri x + 1 |>));;
      match next with
      | None => p ← gpar; melem_dp a 0 (pr_dp p) 0;; mret (-1)
      | Some nx =>
          l ← gev lav;
          c ← gelem a;
          melem_dp a (Z.lor (el_mask c) (ev_dp_mask l)) dp (ev_detect l);;
          ndp ← gdp nx;
          if negb (has_flag (dp_auto_level ndp) AUTO_NORECONN) && can_reconn then reconnect val
          else mret (-1)
      end
  end.

Definition on_torst (val : nat) : W Z :=
  rc ← on_trigger DETECT_TORST val true;
  if rc =? 0 then mret 0 else
  q ← gpair val;
  e ← gev q;
  setsockopt_ (ev_fd e) SOL_SOCKET SO_LINGER [1; 0];;
  mret (-1).

Definition on_fin (val : nat) : W Z :=
  e ← gev val;
  let is_client := negb (ev_flag e =? FLAG_CONN) in
  match (if is_client then ev_pair e else Some val) with
  | None => mret (-1)
  | Some val =>
      v ← gev val;
      q ← gpair val;
      p ← gev q;
      if negb (ev_mark p && (ev_round_count v <=? 1)) then mret (-1) else
      rc ← on_trigger DETECT_TLS_ERR val (negb is_client);
      mret (if rc =? 0 then 0 else -1)
  end.

Definition on_timeout (val : nat) : W Z :=
  mev val (fun e => e <| ev_to_count := ev_to_count e + 1 |>);;
  e ← gev val;
  p ← gpar;
  if pr_to_count_lim p <=? ev_to_count e then on_torst val
  else set_timer val (pr_ptimeout p);; mret 0.

Definition on_connerr (val : nat) : W Z := on_trigger DETECT_CONNECT val true.

(** ** Answers *)
Definition resp_trigger (dp : desync_params) (req : list Z) (qn : Z) (resp : list Z) (sn : Z) : res bool :=
  r ← (if has_flag (dp_detect dp) DETECT_HTTP_LOCAT then is_http_redirect req qn resp sn else Ok false);
  if (r : bool) then Ok true else
  if has_flag (dp_detect dp) DETECT_TLS_ERR then
    ch ← is_tls_chello req qn;
    e ← (if (ch : bool) then sh ← is_tls_shello resp sn; Ok (negb sh) else Ok false);
    if (e : bool) then Ok true else neq_tls_sid req qn resp sn
  else Ok false.

Fixpoint resp_loop (k : nat) (dp : option nat) (mask : Z) (req : list Z) (qn : Z) (resp : list Z) (sn : Z)
    : W (option desync_params) :=
  match k with
  | O => pfuel
  | S k =>
      match dp with
      | None => mret None
      | Some d =>
          x ← gdp d;
          if has_flag (dp_bit x) mask then resp_loop k (dp_next x) mask req qn resp sn else
          t ← lift (resp_trigger x req qn resp sn);
          if (t : bool) then mret (Some x) else resp_loop k (dp_next x) mask req qn resp sn
      end
  end.

Definition on_response (val : nat) (resp : list Z) (sn : Z) : W Z :=
  q ← gpair val;
  p ← gev q;
  sq ← deref (ev_sq_buff p);
  b ← gbuf sq;
  pd ← deref (ev_dp p);
  x ← gdp pd;
  let mask := Z.lor (ev_dp_mask p) (dp_bit x) in
  mev q (fun e => e <| ev_dp_mask := mask |>);;
  w ← pget;
  o ← resp_loop (S (size (w_dps w))) (pr_dp (w_params w)) mask (b_data b) (b_size b) resp sn;
  match o with
  | Some dp => on_trigger (dp_detect dp) val true
  | None => mret (-1)
  end.

(** The fields of an event that [try_set_tls_timer] keeps across calls. *)
Record tls_st : Type := TlsSt { ts_pos : Z; ts_size : Z; ts_rec : list Z }.

(** The loop: [inl] the state when it returns -1, [inr] when it ends. *)
Fixpoint tls_rec_loop (k : nat) (buff : list Z) (n pos : Z) (s : tls_st) : res (tls_st + tls_st) :=
  match k with
  | O => Fuel
  | S k =>
      let continue_ pos s := if pos <? n then tls_rec_loop k buff n pos s else Ok (inr s) in
      if ts_pos s <? 5 then
        b ← rd buff pos;
        r ← wr (ts_rec s) (ts_pos s) b;
        continue_ (pos + 1) (TlsSt (ts_pos s + 1) (ts_size s) r)
      else
        let body s :=
          let e := ts_size s - ts_pos s in
          if e <=? 0 then Ok (inl s) else
          let e := if n <? pos + e then n - pos else e in
          continue_ (pos + e) (TlsSt (ts_pos s + e) (ts_size s) (ts_rec s)) in
        if ts_pos s =? 5 then
          len ← ANTOHS (ts_rec s) 3;
          t ← rd (ts_rec s) 0;
          let s := TlsSt (ts_pos s) (len + 5) (ts_rec s) in
          if (t <? 0x14) || (0x18 <? t) then Ok (inl s) else body s
        else if ts_pos s =? ts_size s then continue_ pos (TlsSt 0 0 (ts_rec s))
        else body s
  end.

Definition try_set_tls_timer (val : nat) (buff : list Z) (n : Z) : W Z :=
  pr ← gpar;
  e ← gev val;
  if truthy (pr_to_bytes_lim pr) && (pr_to_bytes_lim pr <? ev_recv_count e) then
    remove_timer val;; mret (-1)
  else
  o ← lift (tls_rec_loop (S (2 * Z.to_nat n)) buff n 0
              (TlsSt (ev_tls_rec_pos e) (ev_tls_rec_size e) (ev_tls_rec e)));
  let s := match o with inl s => s | inr s => s end in
  mev val (fun e => e <| ev_tls_rec_pos := ts_pos s |> <| ev_tls_rec_size := ts_size s |>
                      <| ev_tls_rec := ts_rec s |>);;
  match o with
  | inl _ => mret (-1)
  | inr s =>
      (if truthy (pr_ptimeout pr) then
         remove_timer val;;
         (if ts_pos s =? ts_size s then mret tt else set_timer val (pr_ptimeout pr))
       else mret tt);;
      mret 0
  end.

(** ** The hooks *)
Definition free_first_req (client : nat) : W unit :=
  c ← gev client;
  buff_push (ev_sq_buff c);;
  mev client (fun e => e <| ev_sq_buff := None |>).

Definition save_hostname (client : nat) (buffer : list Z) (n : Z) : W unit :=
  c ← gev client;
  match ev_host c with
  | Some _ => mret tt
  | None =>
      '(len, host) ← lift (parse_tls buffer n);
      '(len, host) ← (if truthy len then mret (len, host) else
        h ← lift (parse_http buffer n false);
        mret (hh_len h, match hh_hs h with Some o => Some o | None => host end));
      if len =? 0 then mret tt else
      r ← syscall (CMalloc len);
      if rv r =? 0 then mret tt else
      o ← deref host;
      d ← lift (rd_list buffer o len);
      mev client (fun e => e <| ev_host := Some d |> <| ev_host_len := len |>)
  end.

Definition setup_conn (client : nat) (buffer : list Z) (n : Z) : W Z :=
  q ← gpair client;
  p ← gev q;
  dp ← find_dp client (Some buffer) n (ev_addr p);
  match dp with
  | None => mret (-1)
  | Some d =>
      save_hostname client buffer n;;
      ch ← lift (is_tls_chello buffer n);
      mev client (fun e => e <| ev_mark := ch |> <| ev_dp := Some d |>);;
      pr ← gpar;
      rc ← (if truthy (pr_timeout pr) then set_timeout (ev_fd p) (pr_timeout pr) else mret 0);
      if truthy rc then mret (-1) else
      x ← gdp d;
      rc ← pre_desync (ev_fd p) x;
      mret (if truthy rc then -1 else 0)
  end.

Definition cancel_setup (remote : nat) : W Z :=
  e ← gev remote;
  q ← deref (ev_pair e);
  p ← gev q;
  d ← deref (ev_dp p);
  dp ← gdp d;
  rc ← post_desync (ev_fd e) dp;
  mret (if truthy rc then -1 else 0).

Definition handle_err (val : nat) (e : Z) : W Z :=
  if (e =? ECONNRESET) || (e =? ECONNREFUSED) || (e =? ETIMEDOUT) || (e =? EHOSTUNREACH) then
    v ← gev val;
    if ev_flag v =? FLAG_CONN then on_torst val else on_fin val
  else mret (-1).

(** [tcp_send_hook]: [np] is the value of [*n], [alias] says that [n] points to the
    buffer's [lock]. The result, [*n] and [*wait] after the call. *)
Definition tcp_send_hook (remote bid : nat) (np : Z) (alias : bool) : W (Z * Z * bool) :=
  e ← gev remote;
  b ← gbuf bid;
  let off := b_offset b in
  o ← (
    if negb (ev_flag e =? FLAG_CONN) then mret (Some None) else
    client ← deref (ev_pair e);
    c ← gev client;
    rc ← (if ev_recv_count c =? np then setup_conn client (b_data b) np else mret 0);
    if rc <? 0 then mret None else
    c ← gev client;
    d ← deref (ev_dp c);
    dp ← gdp d;
    if negb (check_round (dp_rounds dp) (ev_round_count c)) then mret (Some None) else
    '(sn, n, wait) ← desync remote bid np;
    (if alias then mbuf bid (fun b => b <| b_lock := n |>) else mret tt);;
    mret (Some (Some (sn, n, wait))));
  match o with
  | None => mret (-1, np, false)
  | Some o =>
      '(sn, n, wait, again) ← (
        match o with
        | Some (sn, n, wait) => mret (sn, n, wait, false)
        | None =>
            b ← gbuf bid;
            d ← lift (rd_list (b_data b) off (np - off));
            sn ← send_ (ev_fd e) d 0;
            er ← errno;
            mret (sn, np, false, (sn <? 0) && (er =? EAGAIN))
        end);
      if (again : bool) then mret (0, n, wait) else
      if sn <? 0 then er ← errno; rc ← handle_err remote er; mret (rc, n, wait)
      else
        q ← gpair remote;
        mev q (fun x => x <| ev_round_sent := ev_round_sent x + sn |>);;
        mret (sn, n, wait)
  end.

(** What [tcp_recv_hook] does for the first answers of a server. *)
Definition recv_remote (val bid : nat) (n : Z) : W (option Z) :=
  v ← gev val;
  q ← deref (ev_pair v);
  p ← gev q;
  b ← gbuf bid;
  pr ← gpar;
  (if ev_mark p then
     rc ← try_set_tls_timer val (b_data b) n;
     if truthy rc then mev q (fun e => e <| ev_mark := false |>) else mret tt
   else mret tt);;
  (if (0 <=? ev_to_count v) && truthy (pr_timeout pr)
      && (truthy (pr_to_bytes_lim pr) && (pr_to_bytes_lim pr <? ev_recv_count v)) then
     set_timeout (ev_fd v) 0;; mev val (fun e => e <| ev_to_count := -1 |>)
   else mret tt);;
  match ev_sq_buff p with
  | None => mret None
  | Some _ =>
      rc ← on_response val (b_data b) n;
      if rc =? 0 then mret (Some 0) else free_first_req q;; mret None
  end.

(** ... and for the first requests of a client: a copy to send again. *)
Definition recv_client (val bid : nat) (n : Z) : W (option Z) :=
  v ← gev val;
  b ← gbuf bid;
  sq ← (match ev_sq_buff v with
        | Some sq => mret (Some sq)
        | None => o ← buff_pop (b_size b); mev val (fun e => e <| ev_sq_buff := o |>);; mret o
        end);
  match sq with
  | None => mret (Some (-1))
  | Some sq =>
      mbuf sq (fun x => x <| b_lock := b_lock x + n |>);;
      s ← gbuf sq;
      (if b_size s <=? b_lock s then free_first_req val else
         d ← lift (rd_list (b_data b) 0 n);
         data ← lift (wr_list (b_data s) (b_lock s - n) d);
         mbuf sq (fun x => x <| b_data := data |>));;
      mret None
  end.

Definition tcp_recv_hook (val bid : nat) : W Z :=
  v ← gev val;
  b ← gbuf bid;
  r ← recv_ (ev_fd v) (b_size b);
  let n := rv r in
  if n <? 1 then
    if n =? 0 then on_fin val else
    e ← errno;
    if e =? EAGAIN then mret 0 else handle_err val e
  else
  data ← lift (wr_list (b_data b) 0 (rdata r));
  mbuf bid (fun b => b <| b_data := data |>);;
  mev val (fun e => e <| ev_recv_count := ev_recv_count e + n |>);;
  v ← gev val;
  (if ev_round_sent v =? 0 then
     mev val (fun e => e <| ev_round_count := ev_round_count e + 1 |>);;
     match ev_pair v with
     | Some q => mev q (fun e => e <| ev_round_sent := 0 |> <| ev_part_sent := 0 |>)
     | None => mret tt
     end
   else mret tt);;
  v ← gev val;
  rc ← (
    if (ev_flag v =? FLAG_CONN) && (ev_round_sent v =? 0) then
      q ← deref (ev_pair v);
      p ← gev q;
      d ← deref (ev_dp p);
      dp ← gdp d;
      if check_round (dp_rounds dp) (ev_round_count v)
         && negb (check_round (dp_rounds dp) (ev_round_count v + 1))
      then cancel_setup val else mret 0
    else mret 0);
  if truthy rc then mret (-1) else
  pr ← gpar;
  o ← (
    if ev_flag v =? FLAG_CONN then recv_remote val bid n
    else if pr_auto_reconnect pr && (bool_decide (is_Some (ev_sq_buff v)) || (ev_recv_count v =? n))
    then recv_client val bid n
    else mret None);
  mret (match o with Some rc => rc | None => n end).

Definition recv_and_connect (val : nat) : W Z :=
  pr ← gpar;
  o ← buff_pop (pr_bfsize pr);
  mev val (fun e => e <| ev_buff := o |>);;
  match o with
  | None => mret (-1)
  | Some b =>
      n ← tcp_recv_hook val b;
      mbuf b (fun x => x <| b_lock := n |>);;
      if n <=? 0 then mret (-1) else
      e ← gev val;
      connect_hook val (ev_addr e) cb_on_connect
  end.

Fixpoint udp_dp_loop (k : nat) (dp : option nat) (dst : sockaddr_u) : W (option nat) :=
  match k with
  | O => pfuel
  | S k =>
      match dp with
      | None => mret None
      | Some d =>
          x ← gdp d;
          ok ← lift (if truthy (dp_detect x) then Ok false else check_l34 x SOCK_DGRAM dst);
          if (ok : bool) then mret (Some d) else udp_dp_loop k (dp_next x) dst
      end
  end.

Definition udp_hook (val : nat) (buffer : list Z) (n : Z) (dst : sockaddr_u) : W Z :=
  v ← gev val;
  q ← deref (ev_pair v);
  pev ← gpair q;
  p ← gev pev;
  w ← pget;
  d ← (match ev_dp p with
       | Some d => mret (Some d)
       | None =>
           o ← udp_dp_loop (S (size (w_dps w))) (pr_dp (w_params w)) dst;
           match o with
           | Some d => mev pev (fun e => e <| ev_dp := Some d |>);; mret (Some d)
           | None => mret None
           end
       end);
  match d with
  | None => mret (-1)
  | Some d =>
      dp ← gdp d;
      if negb (check_round (dp_rounds dp) (ev_round_count p)) then
        data ← lift (rd_list buffer 0 n); send_ (ev_fd v) data 0
      else desync_udp (ev_fd v) buffer n dp
  end.

(** ** Connecting through an upstream SOCKS5 server *)
Section upstream.
(** the call through [val->after_conn_cb] *)
Context (call : evcb -> nat -> Z -> W Z).

Definition on_socks_recv (val : nat) : W Z :=
  e ← gev val;
  r ← recv_ (ev_fd e) 262;
  let n := rv r in
  if n <? 2 then call (ev_after_conn_cb e) val POLLERR else
  req ← lift (wr_list (replicate 262 0) 0 (rdata r));
  if negb (byte_at req 0 =? S_VER5) || negb (byte_at req 1 =? S_ER_OK)
  then call (ev_after_conn_cb e) val POLLERR else
  if negb (ev_conn_state e =? FLAG_S5) then
    req ← lift (wr req 1 S_CMD_CONN);
    '(len, req) ← lift (s5_set_addr req 0 262 (ev_addr e) false);
    d ← lift (rd_list req 0 len);
    s ← send_ (ev_fd e) d 0;
    if s <? 0 then call (ev_after_conn_cb e) val POLLERR else
    mev val (fun e => e <| ev_conn_state := FLAG_S5 |>);; mret 0
  else
    mev val (fun e => e <| ev_cb := ev_after_conn_cb e |>);;
    call (ev_after_conn_cb e) val POLLOUT.

Definition on_socks_conn (val : nat) (t : Z) : W Z :=
  e ← gev val;
  s ← send_ (ev_fd e) [S_VER5; 1; 0] 0;
  if s <? 0 then call (ev_after_conn_cb e) val t else
  rc ← mod_etype val POLLIN;
  if truthy rc then mret (-1) else
  mev val (fun e => e <| ev_cb := cb_on_socks_recv |>);; mret 0.
End upstream.
End extend.
