(* ===== verification/Proxy.v ===== *)
(** byedpi/proxy.c: the event handlers (accepting clients, reading their requests,
    moving data between the two sides, UDP association), the dispatch through
    [evcb_t], the server. *)
From S2P Require Import Prelude CMem Sys Mpool PktTls PktHttp PktFake State Conev Desync Socks Extend.
From Stdlib Require Import String.
#[local] Open Scope Z_scope.
#[local] Open Scope list_scope.
#[local] Abbreviation length := (@Datatypes.length _).

Definition SO_REUSEADDR : Z := 2.
Definition SO_ERROR : Z := 4.
Definition SO_ORIGINAL_DST : Z := 80.

Section proxy.
Context {CA : CharAbi} {OS : Os}.

Definition getsockname (fd : Z) (a : sockaddr_u) : W (option sockaddr_u) :=
  r ← syscall (CGetsockname fd);
  mret (if truthy (rv r) then None else Some (sa_store (rdata r) a)).

(** ** UDP association *)
Definition udp_associate (val : nat) (dst : sockaddr_u) : W Z :=
  '(ufd, addr) ← remote_sock dst SOCK_DGRAM;
  if ufd <? 0 then mret (-1) else
  o ← add_event cb_on_udp_tunnel ufd POLLIN;
  match o with
  | None => close_ ufd;; mret (-1)
  | Some pev =>
  v ← gev val;
  o ← getsockname (ev_fd v) addr;
  match o with
  | None => mret (-1)
  | Some addr =>
  let addr := addr <| sin_port := 0 |> in
  cfd ← nb_socket (sa_family addr) SOCK_DGRAM;
  if cfd <? 0 then del_event pev;; mret (-1) else
  r ← syscall (CBind cfd (sa_bytes addr));
  if rv r <? 0 then del_event pev;; close_ cfd;; mret (-1) else
  o ← add_event cb_on_udp_tunnel cfd POLLIN;
  match o with
  | None => del_event pev;; close_ cfd;; mret (-1)
  | Some client =>
  mev val (fun e => e <| ev_cb := cb_on_ignore |> <| ev_pair := Some client |>);;
  mev client (fun e => e <| ev_pair := Some pev |>);;
  mev pev (fun e => e <| ev_pair := Some val |>);;
  v ← gev val;
  mev client (fun e => e <| ev_flag := FLAG_CONN |> <| ev_addr := (ev_addr v) <| sin_port := 0 |> |>);;
  o ← getsockname cfd addr;
  match o with
  | None => mret (-1)
  | Some addr =>
  '(len, r) ← lift (s5_set_addr (5 :: replicate 261 0) 0 262 addr false);
  if len <? 0 then mret (-1) else
  d ← lift (rd_list r 0 len);
  s ← send_ (ev_fd v) d 0;
  if s <? 0 then mret (-1) else
  rc ← mod_etype val POLLRDHUP;
  mret (if truthy rc then -1 else 0)
  end end end end.

(** ** Transparent mode *)
Definition transp_conn (val : nat) : W Z :=
  v ← gev val;
  r ← syscall (CGetsockopt (ev_fd v) IPPROTO_IP SO_ORIGINAL_DST);
  r ← (if truthy (rv r) then syscall (CGetsockopt (ev_fd v) IPPROTO_IPV6 SO_ORIGINAL_DST) else mret r);
  if truthy (rv r) then mret (-1) else
  let remote := sa_store (rdata r) sockaddr0 in
  r ← syscall (CGetsockname (ev_fd v));
  if rv r <? 0 then mret (-1) else
  let self := sa_store (rdata r) sockaddr0 in
  if (sa_family self =? sa_family remote) && (sin_port self =? sin_port remote) && addr_equ self remote
  then mret (-1) else
  rc ← connect_hook val remote cb_on_connect;
  mret (if truthy rc then -1 else 0).

(** ** Accepting *)
Fixpoint on_accept (fuel : nat) (val : nat) : W Z :=
  match fuel with
  | O => pfuel
  | S k =>
      v ← gev val;
      r ← syscall (CAccept (ev_fd v));
      let c := rv r in
      if c <? 0 then
        e ← errno;
        if (e =? EAGAIN) || (e =? EINPROGRESS) then mret 0
        else mpool (fun p => p <| pl_brk := true |>);; mret (-1)
      else
      let client := sa_store (rdata r) sockaddr0 in
      rc ← setsockopt_ c IPPROTO_TCP TCP_NODELAY [1];
      if truthy rc then close_ c;; on_accept k val else
      o ← add_event cb_on_request c POLLIN;
      match o with
      | None => close_ c;; on_accept k val
      | Some rval =>
          mev rval (fun e => e <| ev_addr := client |>);;
          checkpoint;;
          pr ← gpar;
          if has_flag (pr_mode pr) MODE_TRANSPARENT then
            rc ← transp_conn rval;
            (if (rc <? 0) && negb (has_flag (pr_mode pr) (Z.lnot MODE_TRANSPARENT))
             then del_event rval else mret tt);;
            on_accept k val
          else on_accept k val
      end
  end.

(** ** The tunnel *)

(** [do { ... } while (n == buff->size)] *)
Fixpoint tunnel_loop (fuel : nat) (val pev buff : nat) : W Z :=
  match fuel with
  | O => pfuel
  | S k =>
      n ← tcp_recv_hook val buff;
      let finish : W Z :=
        v ← gev val; buff_push (ev_buff v);; mev val (fun e => e <| ev_buff := None |>);; mret 0 in
      if n =? 0 then finish else
      if n <? 0 then mret (-1) else
      '(sn, n, wait) ← tcp_send_hook pev buff n false;
      if sn <? 0 then mret (-1) else
      if (sn <? n) || wait then
        mbuf buff (fun b => b <| b_lock := n |> <| b_offset := sn |>);;
        rc ← mod_etype val 0;
        rc ← (if truthy rc then mret rc else mod_etype pev (if negb wait then POLLOUT else 0));
        mret (if truthy rc then -1 else 0)
      else
        b ← gbuf buff;
        if n =? b_size b then tunnel_loop k val pev buff else finish
  end.

Definition on_tunnel (fuel : nat) (val : nat) (etype : Z) : W Z :=
  v ← gev val;
  pev ← deref (ev_pair v);
  p ← gev pev;
  if (etype =? POLLTIMEOUT) && bool_decide (ev_buff p = None) && truthy (ev_round_count v)
  then on_timeout val else
  '(val, pev) ← (if has_flag etype POLLOUT || (etype =? POLLTIMEOUT)
                 then q ← deref (ev_pair p); mret (pev, q) else mret (val, pev));
  v ← gev val;
  o ← (match ev_buff v with
       | None => mret None
       | Some bid =>
           b ← gbuf bid;
           let n := b_lock b - b_offset b in
           '(sn, _, wait) ← tcp_send_hook pev bid (b_lock b) true;
           if sn <? 0 then mret (Some (-1)) else
           if (sn <? n) || wait then
             v ← gev val;
             bid ← deref (ev_buff v);
             mbuf bid (fun b => b <| b_offset := b_offset b + sn |>);;
             mret (Some 0)
           else
             v ← gev val;
             buff_push (ev_buff v);;
             mev val (fun e => e <| ev_buff := None |>);;
             rc ← mod_etype val POLLIN;
             rc ← (if truthy rc then mret rc else mod_etype pev POLLIN);
             mret (if truthy rc then Some (-1) else None)
       end);
  match o with
  | Some rc => mret rc
  | None =>
      pr ← gpar;
      o ← buff_pop (pr_bfsize pr);
      match o with
      | None => mret (-1)
      | Some buff =>
          mev val (fun e => e <| ev_buff := Some buff |>);;
          tunnel_loop fuel val pev buff
      end
  end.

(** ** The UDP tunnel *)

(** A datagram from the client: the SOCKS5 header is read and taken off. [inl]: the
    handler returns; [inr None]: the next datagram; [inr (Some ns)]: sent. *)
Definition udp_from_client (val pev bid : nat) (n : Z) (addr : sockaddr_u) : W (Z + option Z) :=
  v ← gev val;
  stop ← (
    if truthy (sin_port (ev_addr v)) then mret None else
    if negb (addr_equ addr (ev_addr v)) then mret (Some 0) else
    r ← syscall (CConnect (ev_fd v) (sa_bytes addr));
    if rv r <? 0 then mret (Some (-1)) else
    mev val (fun e => e <| ev_addr := addr |>);; mret None);
  match stop with
  | Some rc => mret (inl rc)
  | None =>
  b ← gbuf bid;
  frag ← lift (rd (b_data b) 2);
  if truthy frag then mret (inr None) else
  '(offs, addr) ← s5_get_addr (b_data b) 0 n addr SOCK_DGRAM;
  if offs <? 0 then mret (inl (-1)) else
  p ← gev pev;
  pr ← gpar;
  let family := sa_family (pr_baddr pr) in
  stop ← (
    if truthy (sin_port (ev_addr p)) then mret None else
    let addr := if family =? AF_INET6 then map_fix addr 6 else addr in
    if negb (family =? sa_family addr) then mret (Some (-1)) else
    r ← syscall (CConnect (ev_fd p) (sa_bytes addr));
    if rv r <? 0 then mret (Some (-1)) else
    mev pev (fun e => e <| ev_addr := addr |>);; mret None);
  match stop with
  | Some rc => mret (inl rc)
  | None =>
  p ← gev pev;
  ns ← udp_hook pev (drop (Z.to_nat offs) (b_data b)) (n - offs) (ev_addr p);
  mret (inr (Some ns))
  end end.

(** A datagram from the server, behind 22 free bytes: the header is put on. *)
Definition udp_from_server (pev bid : nat) (n : Z) (addr : sockaddr_u) : W (Z + option Z) :=
  let addr := map_fix addr 0 in
  b ← gbuf bid;
  m ← lift (memset (b_data b) 0 0 S_SIZE_I6);
  '(offs, m) ← lift (s5_set_addr m S_SIZE_I6 S_SIZE_I6 addr true);
  mbuf bid (fun b => b <| b_data := m |>);;
  if (offs <? 0) || (S_SIZE_I6 <? offs) then mret (inl (-1)) else
  p ← gev pev;
  d ← lift (rd_list m (S_SIZE_I6 - offs) (offs + n));
  ns ← send_ (ev_fd p) d 0;
  mret (inr (Some ns)).

(** The reply to [recvfrom]: the address (family, port, tail), then the data. *)
Fixpoint udp_loop (fuel : nat) (val pev bid : nat) (shift : Z) (addr : sockaddr_u) : W Z :=
  match fuel with
  | O => pfuel
  | S k =>
      v ← gev val;
      b ← gbuf bid;
      r ← syscall (CRecvfrom (ev_fd v) (b_size b - shift));
      let n := rv r in
      if n <? 0 then
        e ← errno;
        if e =? EAGAIN then mret 0
        else if (e =? EMSGSIZE) || (e =? ECONNREFUSED) then udp_loop k val pev bid shift addr
        else mret (-1)
      else
      let addr := sa_store (rdata r) addr in
      let data := drop (Z.to_nat (2 + sa_tail (sa_family addr))) (rdata r) in
      m ← lift (wr_list (b_data b) shift data);
      mbuf bid (fun b => b <| b_data := m |>);;
      mev val (fun e => e <| ev_recv_count := ev_recv_count e + n |>);;
      v ← gev val;
      (if ev_round_sent v =? 0 then
         mev val (fun e => e <| ev_round_count := ev_round_count e + 1 |>
                             <| ev_round_sent := ev_round_sent e + n |>);;
         mev pev (fun e => e <| ev_round_sent := 0 |>)
       else mret tt);;
      o ← (if ev_flag v =? FLAG_CONN then udp_from_client val pev bid n addr
           else udp_from_server pev bid n addr);
      match o with
      | inl rc => mret rc
      | inr None => udp_loop k val pev bid shift addr
      | inr (Some ns) =>
          if ns <? 0 then
            e ← errno;
            if (e =? EMSGSIZE) || (e =? ECONNREFUSED) then udp_loop k val pev bid shift addr
            else mret (-1)
          else udp_loop k val pev bid shift addr
      end
  end.

Definition on_udp_tunnel (fuel : nat) (val : nat) : W Z :=
  pr ← gpar;
  o ← buff_ppop (pr_bfsize pr);
  match o with
  | None => mret (-1)
  | Some bid =>
      v ← gev val;
      q ← deref (ev_pair v);
      pev ← (if ev_flag v =? FLAG_CONN then mret q else gpair q);
      udp_loop fuel val pev bid (if ev_flag v =? FLAG_CONN then 0 else S_SIZE_I6) sockaddr0
  end.

(** ** Requests *)
Definition save_buffer (val bid : nat) (n : Z) : W Z :=
  pr ← gpar;
  o ← buff_pop (pr_bfsize pr);
  mev val (fun e => e <| ev_buff := o |>);;
  passert (bool_decide (o = Some bid));;
  mbuf bid (fun b => b <| b_lock := n |>);;
  mev val (fun e => e <| ev_recv_count := n |> <| ev_round_count := ev_round_count e + 1 |>);;
  if pr_auto_reconnect pr then
    o ← buff_pop (pr_bfsize pr);
    mev val (fun e => e <| ev_sq_buff := o |>);;
    match o with
    | None => mret (-1)
    | Some sq =>
        b ← gbuf bid;
        mbuf sq (fun x => x <| b_lock := b_lock b |>);;
        s ← gbuf sq;
        d ← lift (rd_list (b_data b) 0 (b_lock b));
        m ← lift (wr_list (b_data s) 0 d);
        mbuf sq (fun x => x <| b_data := m |>);;
        mret 0
    end
  else mret 0.

Definition handle_s5 (val bid : nat) (n : Z) (dst : sockaddr_u) : W Z :=
  v ← gev val;
  b ← gbuf bid;
  if negb (ev_flag v =? FLAG_S5) then
    rc ← auth_socks5 (ev_fd v) (b_data b) n;
    if truthy rc then mret (-1) else
    mev val (fun e => e <| ev_flag := FLAG_S5 |>);; mret 0
  else
  if n <? S_SIZE_MIN then mret (-1) else
  cmd ← lift (rd (b_data b) 1);
  pr ← gpar;
  o ← (
    if cmd =? S_CMD_CONN then
      '(s5e, dst) ← s5_get_addr (b_data b) 0 n dst SOCK_STREAM;
      if 0 <=? s5e then rc ← connect_hook val dst cb_on_connect; mret (inl rc) else mret (inr s5e)
    else if (cmd =? S_CMD_AUDP) && pr_udp pr then
      '(s5e, dst) ← s5_get_addr (b_data b) 0 n dst SOCK_DGRAM;
      if 0 <=? s5e then rc ← udp_associate val dst; mret (inl rc) else mret (inr s5e)
    else mret (inr (- S_ER_CMD)));
  match o with
  | inl rc => mret rc
  | inr s5e => resp_s5_error (ev_fd v) (- s5e);; mret 1
  end.

(** What [on_request] found: return at once, or an error code, the destination and
    whether to skip the connection. *)
Definition read_request (val bid : nat) (n : Z) : W (Z + Z * sockaddr_u * bool) :=
  let dst := sockaddr0 in
  v ← gev val;
  b ← gbuf bid;
  pr ← gpar;
  let data := b_data b in
  first ← lift (rd data 0);
  let mode := pr_mode pr in
  if has_flag mode MODE_SOCKS5 && (first =? S_VER5) then
    e ← handle_s5 val bid n dst;
    if 0 <? e then mret (inl (-1)) else mret (inr (e, dst, true))
  else if has_flag mode MODE_SOCKS4 && (first =? S_VER4) then
    mev val (fun e => e <| ev_flag := FLAG_S4 |>);;
    '(e, dst) ← s4_get_addr data n dst; mret (inr (e, dst, false))
  else
  conn ← lift (if has_flag mode MODE_HTTP && (7 <? n)
               then strncmp_eq data 0 (bytes_of_string "CONNECT") else Ok false);
  if (conn : bool) then
    mev val (fun e => e <| ev_flag := FLAG_HTTP |>);;
    '(e, dst) ← http_get_addr data n dst; mret (inr (e, dst, false))
  else if has_flag mode MODE_SHADOWSOCKS && (schar first <=? S_ATP_I6) then
    '(sz, dst) ← s5_get_addr data (-3) (n + 3) dst SOCK_STREAM;
    if sz <? 0 then mret (inl (-1)) else
    m ← lift (memmove data 0 (sz - 3) (n - (sz - 3)));
    mbuf bid (fun b => b <| b_data := m |>);;
    rc ← save_buffer val bid (n - (sz - 3));
    if truthy rc then mret (inl (-1)) else mret (inr (0, dst, false))
  else
  ch ← lift (if has_flag mode MODE_RAWTLS then is_tls_chello data n else Ok false);
  if (ch : bool) then
    '(e, dst) ← tls_get_addr data n dst;
    rc ← (if e =? 0 then save_buffer val bid n else mret 0);
    if truthy rc then mret (inl (-1)) else mret (inr (e, dst, false))
  else if has_flag mode MODE_TCP then
    rc ← save_buffer val bid n;
    if truthy rc then mret (inl (-1)) else mret (inr (0, dst, false))
  else mret (inl (-1)).

Definition on_request (val : nat) : W Z :=
  pr ← gpar;
  o ← buff_ppop (pr_bfsize pr);
  match o with
  | None => mret (-1)
  | Some bid =>
      v ← gev val;
      b ← gbuf bid;
      r ← recv_ (ev_fd v) (b_size b);
      let n := rv r in
      if n <? 1 then mret (-1) else
      m ← lift (wr_list (b_data b) 0 (rdata r));
      mbuf bid (fun b => b <| b_data := m |>);;
      o ← read_request val bid n;
      match o with
      | inl rc => mret rc
      | inr (error, dst, skip_conn) =>
          error ← (if (error =? 0) && negb skip_conn then connect_hook val dst cb_on_connect else mret error);
          if truthy error then
            v ← gev val; resp_error (ev_fd v) ENOENT (ev_flag v);; mret (-1)
          else mret 0
      end
  end.

Definition on_connect (fuel : nat) (val : nat) (et : Z) : W Z :=
  v ← gev val;
  (* [inl rc]: return; [inr error] *)
  o ← (
    if has_flag et POLLERR then
      r ← syscall (CGetsockopt (ev_fd v) SOL_SOCKET SO_ERROR);
      if truthy (rv r) then mret (inl (-1)) else
      let error := byte_at (rdata r) 0 in
      let error := if truthy error then error else ECONNREFUSED in
      if (error =? ECONNRESET) || (error =? ECONNREFUSED) || (error =? ETIMEDOUT) then
        rc ← on_connerr val;
        mret (if rc =? 0 then inl 0 else inr error)
      else mret (inr error)
    else
      rc ← mod_etype val POLLIN;
      q ← deref (ev_pair v);
      rc ← (if truthy rc then mret rc else mod_etype q POLLIN);
      if truthy rc then mret (inl (-1)) else
      mev val (fun e => e <| ev_cb := cb_on_tunnel |>);;
      mev q (fun e => e <| ev_cb := cb_on_tunnel |>);;
      mret (inr 0));
  match o with
  | inl rc => mret rc
  | inr error =>
      q ← gpair val;
      p ← gev q;
      if (error =? 0) && bool_decide (is_Some (ev_buff p)) then on_tunnel fuel val et else
      rc ← resp_error (ev_fd p) error (ev_flag p);
      if rc <? 0 then mret (-1) else mret (if truthy error then -1 else 0)
  end.

Definition on_ignore (etype : Z) : Z :=
  if has_flag etype (Z.lor POLLHUP (Z.lor POLLERR POLLRDHUP)) then -1 else 0.

(** ** Dispatch: the call [val->cb(pool, val, etype)] *)
Definition call_direct (fuel : nat) (cb : evcb) (val : nat) (etype : Z) : W Z :=
  match cb with
  | cb_on_accept => on_accept fuel val
  | cb_on_request => on_request val
  | cb_on_connect => on_connect fuel val etype
  | cb_on_tunnel => on_tunnel fuel val etype
  | cb_on_udp_tunnel => on_udp_tunnel fuel val
  | cb_on_ignore => mret (on_ignore etype)
  | cb_recv_and_connect => recv_and_connect val
  | cb_null | cb_on_socks_conn | cb_on_socks_recv => pub
  end.
(** the handlers of an upstream connection call on through [after_conn_cb], which
    is never one of themselves *)
Definition call_cb (fuel : nat) (cb : evcb) (val : nat) (etype : Z) : W Z :=
  match cb with
  | cb_on_socks_conn => on_socks_conn (call_direct fuel) val etype
  | cb_on_socks_recv => on_socks_recv (call_direct fuel) val
  | _ => call_direct fuel cb val etype
  end.

(** ** The server *)
Definition on_cancel : W unit :=
  w ← pget; _ ← syscall (CShutdown (w_server_fd w)); mret tt.
Definition on_hup : W unit := dump_all_cache.

Definition start_event_loop (fuel : nat) (srvfd : Z) : W Z :=
  pmod (fun w => w <| w_server_fd := srvfd |>);;
  pr ← gpar;
  ok ← init_pool (pr_max_open pr * 2 + 1);
  if negb ok then close_ srvfd;; mret (-1) else
  o ← add_event cb_on_accept srvfd POLLIN;
  match o with
  | None => destroy_pool;; close_ srvfd;; mret (-1)
  | Some _ =>
      loop_event (call_cb fuel) fuel (-1) (-1);;
      destroy_pool;;
      mret 0
  end.

Definition listen_socket (srv : sockaddr_u) : W Z :=
  srvfd ← nb_socket (sa_family srv) SOCK_STREAM;
  if srvfd <? 0 then mret (-1) else
  r ← setsockopt_ srvfd SOL_SOCKET SO_REUSEADDR [1];
  if r =? -1 then close_ srvfd;; mret (-1) else
  r ← syscall (CBind srvfd (sa_bytes srv));
  if rv r <? 0 then close_ srvfd;; mret (-1) else
  r ← syscall (CListen srvfd 10);
  if truthy (rv r) then close_ srvfd;; mret (-1) else
  mret srvfd.

Definition run (fuel : nat) (srv : sockaddr_u) : W Z :=
  fd ← listen_socket srv;
  if fd <? 0 then mret (-1) else start_event_loop fuel fd.
End proxy.
