(* ===== verification/Jni.v ===== *)
(** ciadpi_jni.c: the engine's configuration as the application gives it, its
    translation to byedpi's parameters, the engine thread, start and stop. *)
From S2P Require Import Prelude CMem Sys Mpool PktHttp PktFake State Conev Desync Socks Extend Proxy.
From Stdlib Require Import String.
#[local] Open Scope Z_scope.
#[local] Open Scope list_scope.
#[local] Abbreviation length := (@Datatypes.length _).

(** [JniConfig]; [j_protect_path] is the string its array holds, without the NUL. *)
Record JniConfig : Type := JniConfig_ {
  j_socks_port : Z; j_split_pos : Z; j_split_flag : Z; j_disorder : Z; j_oob_enabled : Z;
  j_oob_pos : Z; j_oob_flag : Z; j_fake_enabled : Z; j_fake_ttl : Z; j_drop_sack : Z;
  j_tlsrec_pos : Z; j_tlsrec_flag : Z; j_udp_fake_count : Z; j_mod_http : Z;
  j_protect_path : list Z; j_ipv6_enabled : Z }.
#[global] Instance eta_jni_config : Eta JniConfig := fun r => JniConfig_
  (j_socks_port r) (j_split_pos r) (j_split_flag r) (j_disorder r) (j_oob_enabled r)
  (j_oob_pos r) (j_oob_flag r) (j_fake_enabled r) (j_fake_ttl r) (j_drop_sack r)
  (j_tlsrec_pos r) (j_tlsrec_flag r) (j_udp_fake_count r) (j_mod_http r)
  (j_protect_path r) (j_ipv6_enabled r).
(** zeroed by [memset] *)
Definition jni_config0 : JniConfig := JniConfig_ 0 0 0 0 0 0 0 0 0 0 0 0 0 0 [] 0.

(** ** Position strings and HTTP modes *)

Definition is_digit (c : Z) : bool := (48 <=? c) && (c <=? 57).
(** [atoi] of a string that starts with a digit: [strtol] saturates, the cast to
    [int] wraps. *)
Fixpoint atoi_digits (acc : Z) (s : list Z) : Z :=
  match s with
  | c :: s => if is_digit c then atoi_digits (10 * acc + (c - 48)) s else acc
  | [] => acc
  end.
Definition atoi (s : list Z) : Z := s32 (Z.min (atoi_digits 0 s) (2 ^ 63 - 1)).

Definition strchr_ (s : list Z) (c : string) : bool :=
  existsb (fun x => existsb (Z.eqb x) (bytes_of_string c)) s.
Definition is_char (c : Z) (s : string) : bool := existsb (Z.eqb c) (bytes_of_string s).

(** The body of [parse_pos_string] on the characters of the string: the position
    and the flags. [strchr_ s "sS"] is [strchr(s, 's') || strchr(s, 'S')]. *)
Definition pos_of_chars (s : list Z) (default_pos : Z) : Z * Z :=
  let c0 := byte_at s 0 in
  let num := is_digit c0 in
  let '(pos, flag) :=
    if num then let pos := atoi s in (if pos <=? 0 then default_pos else pos, 0)
    else if is_char c0 "eE" then (0, OFFSET_END)
    else if is_char c0 "mM" then (0, OFFSET_MID)
    else if is_char c0 "rR" then (0, OFFSET_RAND)
    else (default_pos, 0) in
  let flag := if strchr_ s "sS" then Z.lor flag OFFSET_SNI else flag in
  let flag := if strchr_ s "hH" then Z.lor flag OFFSET_HOST else flag in
  let flag := if strchr_ s "mM" then if num then Z.lor flag OFFSET_MID else flag else flag in
  let flag := if strchr_ s "eE" then if num then Z.lor flag OFFSET_END else flag else flag in
  let flag := if strchr_ s "rR" then if num then Z.lor flag OFFSET_RAND else flag else flag in
  (pos, flag).

(** One turn of the loop of [parse_mod_http] *)
Definition mod_http_char (flags c : Z) : Z :=
  let flags := if is_char c "hH" then Z.lor flags MH_HMIX else flags in
  let flags := if is_char c "dD" then Z.lor flags MH_DMIX else flags in
  if is_char c "rR" then Z.lor flags MH_SPACE else flags.

Section jni.
Context {CA : CharAbi} {OS : Os}.

(** [GetStringUTFChars] of a [jstring] that is not null: its characters, or a null
    pointer when the virtual machine has no memory. *)
Definition utf_chars {St} (s : list Z) : Prog St (option (list Z)) :=
  r ← syscall (CGetUtf s); mret (if rv r =? 0 then None else Some s).

Definition parse_pos_string {St} (jstr : option (list Z)) (default_pos : Z) : Prog St (Z * Z) :=
  match jstr with
  | None => mret (default_pos, 0)
  | Some s =>
      o ← utf_chars s;
      match o with
      | None => mret (default_pos, 0)
      | Some s => mret (pos_of_chars s default_pos)
      end
  end.

Definition parse_mod_http {St} (jstr : option (list Z)) : Prog St Z :=
  match jstr with
  | None => mret 0
  | Some s =>
      o ← utf_chars s;
      match o with
      | None => mret 0
      | Some s => mret (fold_left mod_http_char s 0)
      end
  end.

(** ** Parameters *)

Definition detect_default_ttl : W Z :=
  fd ← syscall (CSocket AF_INET SOCK_STREAM);
  if rv fd <? 0 then mret 64 else
  r ← syscall (CGetsockopt (rv fd) IPPROTO_IP IP_TTL);
  let ttl := byte_at (rdata r) 0 in
  close_ (rv fd);;
  mret (if (rv r <? 0) || (ttl <=? 0) then 64 else ttl).

(** the primary part: [mode], [pos], [flag] *)
Definition primary_part (cfg : JniConfig) : part :=
  let pos := if 0 <? j_split_pos cfg then j_split_pos cfg else 1 in
  let flag := j_split_flag cfg in
  if truthy (j_oob_enabled cfg) then
    Part (if truthy (j_disorder cfg) then DESYNC_DISOOB else DESYNC_OOB)
      (if truthy (j_oob_flag cfg) then j_oob_flag cfg else flag)
      (if 0 <? j_oob_pos cfg then j_oob_pos cfg else pos) 1 0
  else
    Part (if truthy (j_disorder cfg) then DESYNC_DISORDER
          else if truthy (j_fake_enabled cfg) then DESYNC_FAKE else DESYNC_SPLIT) flag pos 1 0.

Definition malloc_ok {St} (n : Z) : Prog St bool := r ← syscall (CMalloc n); mret (truthy (rv r)).

(** up to the group of parameters *)
Definition init_base (cfg : JniConfig) : W unit :=
  mparams (fun _ => params0);;
  pmod (fun w => w <| w_fake_tls := packet0 |> <| w_fake_http := packet0 |> <| w_fake_udp := packet0 |>);;
  mparams (fun p => p <| pr_mode := MODE_SOCKS5 |> <| pr_resolve := true |>
    <| pr_ipv6 := truthy (j_ipv6_enabled cfg) |> <| pr_udp := true |>
    <| pr_max_open := 512 |> <| pr_bfsize := 16384 |>);;
  ttl ← detect_default_ttl;
  mparams (fun p => p <| pr_def_ttl := ttl |> <| pr_custom_ttl := false |>
    <| pr_baddr := Sockaddr AF_INET6 0 (replicate 24 0) |>);;
  (if 0 <? zlen (j_protect_path cfg) then
     ok ← malloc_ok (zlen (j_protect_path cfg) + 1);
     if (ok : bool) then mparams (fun p => p <| pr_protect_path := Some (j_protect_path cfg) |>);; checkpoint
     else mret tt
   else checkpoint);;
  p ← gpar;
  (if bool_decide (pr_mempool p = None)
   then m ← mem_pool MF_EXTRA CMP_BITS; mparams (fun p => p <| pr_mempool := m |>)
   else mret tt).

(** the fakes: parts and decoys *)
Definition init_fake (cfg : JniConfig) (d : nat) (have_parts : bool) : W unit :=
  let prim := primary_part cfg in
  if truthy (j_fake_enabled cfg) then
    mdp d (fun x => x <| dp_ttl := if 0 <? j_fake_ttl cfg then j_fake_ttl cfg else 6 |>);;
    (if negb (bool_decide (pt_m prim = DESYNC_FAKE)) && have_parts then
       ok ← malloc_ok (2 * 20);
       if (ok : bool) then
         mdp d (fun x => x <| dp_parts := Part DESYNC_FAKE (pt_flag prim) (pt_pos prim) 1 0 :: dp_parts x |>)
       else mret tt
     else mret tt);;
    '(_, t) ← fake_tls_init 1024;
    pmod (fun w => w <| w_fake_tls := t |>);;
    '(_, hp) ← fake_http_init;
    pmod (fun w => w <| w_fake_http := hp |>)
  else mret tt.

Definition init_params (cfg : JniConfig) : W unit :=
  init_base cfg;;
  ok ← malloc_ok 312;
  if negb ok then mret tt else
  w ← pget;
  let d := w_fresh w in
  pmod (fun w => w <| w_fresh := S d |>
    <| w_dps := <[d := desync_params0 <| dp_bit := 1 |> <| dp_id := 0 |> <| dp_oob_char := (97, 0) |>]> (w_dps w) |>);;
  mparams (fun p => p <| pr_dp := Some d |> <| pr_dp_n := 1 |> <| pr_dp_full_mask := 1 |>);;
  have_parts ← malloc_ok 20;
  (if (have_parts : bool) then mdp d (fun x => x <| dp_parts := [primary_part cfg] |>) else mret tt);;
  (if truthy (j_drop_sack cfg) then mdp d (fun x => x <| dp_drop_sack := true |>) else mret tt);;
  init_fake cfg d have_parts;;
  (if 0 <? j_tlsrec_pos cfg then
     ok ← malloc_ok 20;
     if (ok : bool) then
       mdp d (fun x => x <| dp_tlsrec := [Part DESYNC_SPLIT (j_tlsrec_flag cfg) (j_tlsrec_pos cfg) 1 0] |>)
     else mret tt
   else mret tt);;
  (if 0 <? j_udp_fake_count cfg then mdp d (fun x => x <| dp_udp_fake_count := j_udp_fake_count cfg |>)
   else mret tt);;
  (if truthy (j_mod_http cfg) then mdp d (fun x => x <| dp_mod_http := j_mod_http cfg |>) else mret tt).

(** [free(params.dp)]: the array of [n] groups from [d] *)
Fixpoint free_dps (n : nat) (d : nat) : W unit :=
  match n with
  | O => mret tt
  | S n => pmod (fun w => w <| w_dps := delete d (w_dps w) |>);; free_dps n (S d)
  end.

Definition free_packet (p : packet) : W unit :=
  match pk_data p with Some d => _ ← syscall (CFree d); mret tt | None => mret tt end.
Definition null_data (p : packet) : packet := Packet (pk_size p) None (pk_off p).

Definition cleanup_params : W unit :=
  p ← gpar;
  (match pr_dp p with
   | Some d =>
       free_dps (Z.to_nat (pr_dp_n p)) d;;
       mparams (fun p => p <| pr_dp := None |> <| pr_dp_n := 0 |>)
   | None => mret tt
   end);;
  (match pr_mempool p with
   | Some m => mem_destroy m;; mparams (fun p => p <| pr_mempool := None |>)
   | None => mret tt
   end);;
  (match pr_protect_path p with
   | Some s => _ ← syscall (CFree s); mparams (fun p => p <| pr_protect_path := None |>)
   | None => mret tt
   end);;
  w ← pget;
  free_packet (w_fake_tls w);; free_packet (w_fake_http w);; free_packet (w_fake_udp w);;
  pmod (fun w => w <| w_fake_tls := null_data (w_fake_tls w) |>
    <| w_fake_http := null_data (w_fake_http w) |> <| w_fake_udp := null_data (w_fake_udp w) |>).

(** ** The engine *)

(** The file's own globals next to byedpi's. *)
Record jni_state : Type := JniState { js_world : world; js_running : Z; js_cfg : JniConfig }.
#[global] Instance eta_jni_state : Eta jni_state := fun r =>
  JniState (js_world r) (js_running r) (js_cfg r).

Definition in_world {A} (m : W A) : Prog jni_state A := fun s h =>
  match m (js_world s) h with
  | Ok (a, w, h') => Ok (a, s <| js_world := w |>, h')
  | Ub => Ub
  | Fuel => Fuel
  end.
Definition jget : Prog jni_state jni_state := pget.
Definition mcfg (f : JniConfig -> JniConfig) : Prog jni_state unit :=
  pmod (fun s => s <| js_cfg := f (js_cfg s) |>).

(** [127.0.0.1], at the configured port *)
Definition srv_addr (cfg : JniConfig) : sockaddr_u :=
  Sockaddr AF_INET (htons (u16 (j_socks_port cfg))) ([127; 0; 0; 1] ++ replicate 20 0).

Definition ciadpi_thread (fuel : nat) : Prog jni_state unit :=
  s ← jget;
  let cfg := js_cfg s in
  in_world checkpoint;;
  in_world (init_params cfg);;
  in_world checkpoint;;
  in_world checkpoint;;
  in_world (run fuel (srv_addr cfg));;
  in_world checkpoint;;
  in_world cleanup_params;;
  pmod (fun s => s <| js_running := 0 |>).

(** [p != NULL && GetStringUTFLength(p) > 0] *)
Definition str_set (p : option (list Z)) : bool :=
  match p with Some s => 0 <? zlen s | None => false end.

Definition ciadpi_config (socksPort splitPos disorder fakeEnabled fakeTtl dropSack : Z)
    (splitPosStr oobPosStr tlsRecStr modHttpStr : option (list Z)) (udpFakeCount : Z)
    (protectPath : option (list Z)) (ipv6Enabled : Z) : Prog jni_state unit :=
  mcfg (fun _ => jni_config0);;
  mcfg (fun c => c <| j_socks_port := socksPort |> <| j_disorder := disorder |>
    <| j_fake_enabled := fakeEnabled |> <| j_fake_ttl := fakeTtl |> <| j_drop_sack := dropSack |>
    <| j_udp_fake_count := udpFakeCount |> <| j_ipv6_enabled := ipv6Enabled |>);;
  (match protectPath with
   | Some pp =>
       o ← utf_chars pp;
       match o with
       | Some pp => mcfg (fun c => c <| j_protect_path := take 255 pp |>)
       | None => mret tt
       end
   | None => mret tt
   end);;
  '(parsed_split, split_flag) ← parse_pos_string splitPosStr (if 0 <? splitPos then splitPos else 1);
  mcfg (fun c => c <| j_split_pos := if 0 <? parsed_split then parsed_split else 1 |>
    <| j_split_flag := split_flag |>);;
  '(oob_pos, oob_flag) ← parse_pos_string oobPosStr 0;
  (if str_set oobPosStr then
     mcfg (fun c => c <| j_oob_enabled := 1 |> <| j_oob_pos := if 0 <? oob_pos then oob_pos else 1 |>
       <| j_oob_flag := oob_flag |>)
   else mret tt);;
  '(tls_pos, tls_flag) ← parse_pos_string tlsRecStr 0;
  (if str_set tlsRecStr then
     mcfg (fun c => c <| j_tlsrec_pos := if 0 <? tls_pos then tls_pos else 1 |>
       <| j_tlsrec_flag := tls_flag |>)
   else mret tt);;
  m ← parse_mod_http modHttpStr;
  mcfg (fun c => c <| j_mod_http := m |>);;
  mcfg (fun c =>
    if negb (truthy (j_disorder c)) && negb (truthy (j_oob_enabled c))
       && negb (truthy (j_fake_enabled c)) && (j_tlsrec_pos c <=? 0)
    then c <| j_split_pos := if 0 <? j_split_pos c then j_split_pos c else 1 |> <| j_disorder := 1 |>
    else c).

(** [Java_..._ciadpiStart]; the thread itself is [ciadpi_thread]. *)
Definition ciadpiStart (socksPort splitPos disorder fakeEnabled fakeTtl dropSack : Z)
    (splitPosStr oobPosStr tlsRecStr modHttpStr : option (list Z)) (udpFakeCount : Z)
    (protectPath : option (list Z)) (ipv6Enabled : Z) : Prog jni_state Z :=
  s ← jget;
  if truthy (js_running s) then mret 0 else
  ciadpi_config socksPort splitPos disorder fakeEnabled fakeTtl dropSack splitPosStr oobPosStr
    tlsRecStr modHttpStr udpFakeCount protectPath ipv6Enabled;;
  pmod (fun s => s <| js_running := 1 |>);;
  r ← syscall CPthreadCreate;
  if truthy (rv r) then pmod (fun s => s <| js_running := 0 |>);; mret (-1)
  else mret 0.

Definition ciadpiStop : Prog jni_state unit :=
  s ← jget;
  if negb (truthy (js_running s)) then mret tt else
  let fd := w_server_fd (js_world s) in
  (if 0 <? fd then _ ← syscall (CShutdown fd); mret tt else mret tt);;
  _ ← syscall CPthreadJoin;
  pmod (fun s => s <| js_running := 0 |>).
End jni.
