(* ===== verification/Flow.v ===== *)
(** badvpn's flow interfaces (flow/*Interface.h, .c): the hand-over of a packet or
    of a piece of a stream between two objects, each completed through a job; and
    the objects that only use them: PacketStreamSender, PacketProtoEncoder,
    PacketProtoDecoder.

    A pointer into the buffer of the object's owner is the offset it points to. A
    job is the flag that says whether it is in the queue: [.._job] takes it out and
    runs it. An [ASSERT] that fails is [Ub]. *)
From S2P Require Import Prelude CMem.

Definition assert_ (b : bool) : res unit := if b then Ok tt else Ub.

(** [.._STATE_NONE] to [.._STATE_DONE_PENDING], the same in the four interfaces *)
Inductive if_state : Type :=
  | STATE_NONE | STATE_OPERATION_PENDING | STATE_BUSY | STATE_DONE_PENDING.
#[global] Instance if_state_eq : EqDecision if_state.
Proof. solve_decision. Defined.
Abbreviation is_state x y := (bool_decide (x = y)).

(** ** PacketPassInterface *)
Record PacketPassInterface : Type := PacketPassInterface_ {
  ppi_state : if_state; ppi_mtu : Z; ppi_job_operation : bool; ppi_job_operation_data : Z; ppi_job_operation_len : Z;
  ppi_job_requestcancel : bool; ppi_job_done : bool; ppi_cancel_requested : bool; ppi_handler_requestcancel : bool }.
#[global] Instance eta_ppi : Eta PacketPassInterface := fun r => PacketPassInterface_
  (ppi_state r) (ppi_mtu r) (ppi_job_operation r) (ppi_job_operation_data r) (ppi_job_operation_len r)
  (ppi_job_requestcancel r) (ppi_job_done r) (ppi_cancel_requested r) (ppi_handler_requestcancel r).

Definition PacketPassInterface_Init (m : Z) : res PacketPassInterface :=
  assert_ (0 <=? m);; Ok (PacketPassInterface_ STATE_NONE m false 0 0 false false false false).
Definition PacketPassInterface_EnableCancel (i : PacketPassInterface) : res PacketPassInterface :=
  assert_ (negb (ppi_handler_requestcancel i));; Ok (i <| ppi_handler_requestcancel := true |>).
Definition PacketPassInterface_Done (i : PacketPassInterface) : res PacketPassInterface :=
  assert_ (is_state (ppi_state i) STATE_BUSY);;
  Ok (i <| ppi_job_requestcancel := false |> <| ppi_job_done := true |> <| ppi_state := STATE_DONE_PENDING |>).
Definition PacketPassInterface_Sender_Send (i : PacketPassInterface) (data len : Z) : res PacketPassInterface :=
  assert_ (0 <=? len);; assert_ (len <=? ppi_mtu i);; assert_ (is_state (ppi_state i) STATE_NONE);;
  Ok (i <| ppi_job_operation_data := data |> <| ppi_job_operation_len := len |> <| ppi_job_operation := true |>
        <| ppi_state := STATE_OPERATION_PENDING |> <| ppi_cancel_requested := false |>).
Definition PacketPassInterface_Sender_RequestCancel (i : PacketPassInterface) : res PacketPassInterface :=
  assert_ (negb (is_state (ppi_state i) STATE_NONE));; assert_ (ppi_handler_requestcancel i);;
  if ppi_cancel_requested i then Ok i else
  let i := i <| ppi_cancel_requested := true |> in
  if is_state (ppi_state i) STATE_OPERATION_PENDING then
    Ok (i <| ppi_job_operation := false |> <| ppi_job_done := true |> <| ppi_state := STATE_DONE_PENDING |>)
  else if is_state (ppi_state i) STATE_BUSY then Ok (i <| ppi_job_requestcancel := true |>)
  else Ok i.

(** [.._Free] takes the jobs out of the queue. *)
Definition PacketPassInterface_Free (i : PacketPassInterface) : PacketPassInterface :=
  i <| ppi_job_done := false |> <| ppi_job_requestcancel := false |> <| ppi_job_operation := false |>.
Definition PacketPassInterface_GetMTU (i : PacketPassInterface) : Z := ppi_mtu i.
Definition PacketPassInterface_HasCancel (i : PacketPassInterface) : bool := ppi_handler_requestcancel i.

(** The jobs; what the handler they call gets is their result. *)
Definition PacketPassInterface_job_operation (i : PacketPassInterface) : res (PacketPassInterface * (Z * Z)) :=
  assert_ (is_state (ppi_state i) STATE_OPERATION_PENDING);;
  Ok (i <| ppi_job_operation := false |> <| ppi_state := STATE_BUSY |>, (ppi_job_operation_data i, ppi_job_operation_len i)).
Definition PacketPassInterface_job_requestcancel (i : PacketPassInterface) : res PacketPassInterface :=
  assert_ (is_state (ppi_state i) STATE_BUSY);; assert_ (ppi_cancel_requested i);;
  assert_ (ppi_handler_requestcancel i);; Ok (i <| ppi_job_requestcancel := false |>).
Definition PacketPassInterface_job_done (i : PacketPassInterface) : res PacketPassInterface :=
  assert_ (is_state (ppi_state i) STATE_DONE_PENDING);;
  Ok (i <| ppi_job_done := false |> <| ppi_state := STATE_NONE |>).

(** ** PacketRecvInterface *)
Record PacketRecvInterface : Type := PacketRecvInterface_ {
  pri_state : if_state; pri_mtu : Z; pri_job_operation : bool; pri_job_operation_data : Z;
  pri_job_done : bool; pri_job_done_len : Z }.
#[global] Instance eta_pri : Eta PacketRecvInterface := fun r => PacketRecvInterface_
  (pri_state r) (pri_mtu r) (pri_job_operation r) (pri_job_operation_data r) (pri_job_done r) (pri_job_done_len r).

Definition PacketRecvInterface_Init (m : Z) : res PacketRecvInterface :=
  assert_ (0 <=? m);; Ok (PacketRecvInterface_ STATE_NONE m false 0 false 0).
Definition PacketRecvInterface_Free (i : PacketRecvInterface) : PacketRecvInterface :=
  i <| pri_job_done := false |> <| pri_job_operation := false |>.
Definition PacketRecvInterface_GetMTU (i : PacketRecvInterface) : Z := pri_mtu i.
Definition PacketRecvInterface_Done (i : PacketRecvInterface) (len : Z) : res PacketRecvInterface :=
  assert_ (0 <=? len);; assert_ (len <=? pri_mtu i);; assert_ (is_state (pri_state i) STATE_BUSY);;
  Ok (i <| pri_job_done_len := len |> <| pri_job_done := true |> <| pri_state := STATE_DONE_PENDING |>).
Definition PacketRecvInterface_Receiver_Recv (i : PacketRecvInterface) (data : Z) : res PacketRecvInterface :=
  assert_ (is_state (pri_state i) STATE_NONE);;
  Ok (i <| pri_job_operation_data := data |> <| pri_job_operation := true |> <| pri_state := STATE_OPERATION_PENDING |>).
Definition PacketRecvInterface_job_operation (i : PacketRecvInterface) : res (PacketRecvInterface * Z) :=
  assert_ (is_state (pri_state i) STATE_OPERATION_PENDING);;
  Ok (i <| pri_job_operation := false |> <| pri_state := STATE_BUSY |>, pri_job_operation_data i).
Definition PacketRecvInterface_job_done (i : PacketRecvInterface) : res (PacketRecvInterface * Z) :=
  assert_ (is_state (pri_state i) STATE_DONE_PENDING);;
  Ok (i <| pri_job_done := false |> <| pri_state := STATE_NONE |>, pri_job_done_len i).

(** ** StreamPassInterface *)
Record StreamPassInterface : Type := StreamPassInterface_ {
  spi_state : if_state; spi_job_operation : bool; spi_job_operation_data : Z; spi_job_operation_len : Z;
  spi_job_done : bool; spi_job_done_len : Z }.
#[global] Instance eta_spi : Eta StreamPassInterface := fun r => StreamPassInterface_
  (spi_state r) (spi_job_operation r) (spi_job_operation_data r) (spi_job_operation_len r) (spi_job_done r) (spi_job_done_len r).

Definition StreamPassInterface_Init : StreamPassInterface := StreamPassInterface_ STATE_NONE false 0 0 false 0.
Definition StreamPassInterface_Free (i : StreamPassInterface) : StreamPassInterface :=
  i <| spi_job_done := false |> <| spi_job_operation := false |>.
Definition StreamPassInterface_Done (i : StreamPassInterface) (len : Z) : res StreamPassInterface :=
  assert_ (is_state (spi_state i) STATE_BUSY);; assert_ (0 <? len);; assert_ (len <=? spi_job_operation_len i);;
  Ok (i <| spi_job_done_len := len |> <| spi_job_done := true |> <| spi_state := STATE_DONE_PENDING |>).
Definition StreamPassInterface_Sender_Send (i : StreamPassInterface) (data len : Z) : res StreamPassInterface :=
  assert_ (0 <? len);; assert_ (is_state (spi_state i) STATE_NONE);;
  Ok (i <| spi_job_operation_data := data |> <| spi_job_operation_len := len |> <| spi_job_operation := true |>
        <| spi_state := STATE_OPERATION_PENDING |>).
Definition StreamPassInterface_job_operation (i : StreamPassInterface) : res (StreamPassInterface * (Z * Z)) :=
  assert_ (is_state (spi_state i) STATE_OPERATION_PENDING);;
  Ok (i <| spi_job_operation := false |> <| spi_state := STATE_BUSY |>, (spi_job_operation_data i, spi_job_operation_len i)).
Definition StreamPassInterface_job_done (i : StreamPassInterface) : res (StreamPassInterface * Z) :=
  assert_ (is_state (spi_state i) STATE_DONE_PENDING);;
  Ok (i <| spi_job_done := false |> <| spi_state := STATE_NONE |>, spi_job_done_len i).

(** ** StreamRecvInterface *)
Record StreamRecvInterface : Type := StreamRecvInterface_ {
  sri_state : if_state; sri_job_operation : bool; sri_job_operation_data : Z; sri_job_operation_len : Z;
  sri_job_done : bool; sri_job_done_len : Z }.
#[global] Instance eta_sri : Eta StreamRecvInterface := fun r => StreamRecvInterface_
  (sri_state r) (sri_job_operation r) (sri_job_operation_data r) (sri_job_operation_len r) (sri_job_done r) (sri_job_done_len r).

Definition StreamRecvInterface_Init : StreamRecvInterface := StreamRecvInterface_ STATE_NONE false 0 0 false 0.
Definition StreamRecvInterface_Free (i : StreamRecvInterface) : StreamRecvInterface :=
  i <| sri_job_done := false |> <| sri_job_operation := false |>.
Definition StreamRecvInterface_Done (i : StreamRecvInterface) (len : Z) : res StreamRecvInterface :=
  assert_ (is_state (sri_state i) STATE_BUSY);; assert_ (0 <? len);; assert_ (len <=? sri_job_operation_len i);;
  Ok (i <| sri_job_done_len := len |> <| sri_job_done := true |> <| sri_state := STATE_DONE_PENDING |>).
Definition StreamRecvInterface_Receiver_Recv (i : StreamRecvInterface) (data len : Z) : res StreamRecvInterface :=
  assert_ (0 <? len);; assert_ (is_state (sri_state i) STATE_NONE);;
  Ok (i <| sri_job_operation_data := data |> <| sri_job_operation_len := len |> <| sri_job_operation := true |>
        <| sri_state := STATE_OPERATION_PENDING |>).
Definition StreamRecvInterface_job_operation (i : StreamRecvInterface) : res (StreamRecvInterface * (Z * Z)) :=
  assert_ (is_state (sri_state i) STATE_OPERATION_PENDING);;
  Ok (i <| sri_job_operation := false |> <| sri_state := STATE_BUSY |>, (sri_job_operation_data i, sri_job_operation_len i)).
Definition StreamRecvInterface_job_done (i : StreamRecvInterface) : res (StreamRecvInterface * Z) :=
  assert_ (is_state (sri_state i) STATE_DONE_PENDING);;
  Ok (i <| sri_job_done := false |> <| sri_state := STATE_NONE |>, sri_job_done_len i).

(** ** PacketStreamSender: a packet goes out as a stream, in as many pieces as the
    stream takes *)
Record PacketStreamSender : Type := PacketStreamSender_ {
  s_input : PacketPassInterface; s_output : StreamPassInterface; s_in : Z; s_in_len : Z; s_in_used : Z }.
#[global] Instance eta_sender : Eta PacketStreamSender := fun r => PacketStreamSender_
  (s_input r) (s_output r) (s_in r) (s_in_len r) (s_in_used r).

Definition send_data (s : PacketStreamSender) : res PacketStreamSender :=
  assert_ (0 <=? s_in_len s);;
  if s_in_used s <? s_in_len s then
    o ← StreamPassInterface_Sender_Send (s_output s) (s_in s + s_in_used s) (s_in_len s - s_in_used s);
    Ok (s <| s_output := o |>)
  else
    let s := s <| s_in_len := -1 |> in
    i ← PacketPassInterface_Done (s_input s); Ok (s <| s_input := i |>).

Definition sender_input_handler_send (s : PacketStreamSender) (data data_len : Z) : res PacketStreamSender :=
  assert_ (s_in_len s =? -1);; assert_ (0 <=? data_len);;
  send_data (s <| s_in_len := data_len |> <| s_in := data |> <| s_in_used := 0 |>).

Definition sender_output_handler_done (s : PacketStreamSender) (data_len : Z) : res PacketStreamSender :=
  assert_ (0 <=? s_in_len s);; assert_ (0 <? data_len);;
  assert_ (data_len <=? s_in_len s - s_in_used s);;
  send_data (s <| s_in_used := s_in_used s + data_len |>).

Definition PacketStreamSender_Init (mtu : Z) : res PacketStreamSender :=
  i ← PacketPassInterface_Init mtu; Ok (PacketStreamSender_ i StreamPassInterface_Init 0 (-1) 0).

Definition PacketStreamSender_Free (s : PacketStreamSender) : PacketStreamSender :=
  s <| s_input := PacketPassInterface_Free (s_input s) |>.

(** The sender's jobs: its input's [job_operation] calls it, its output's [job_done]
    calls it back. *)
Definition sender_operation_job (s : PacketStreamSender) : res PacketStreamSender :=
  '(i, (data, len)) ← PacketPassInterface_job_operation (s_input s);
  sender_input_handler_send (s <| s_input := i |>) data len.
Definition sender_done_job (s : PacketStreamSender) : res PacketStreamSender :=
  '(o, len) ← StreamPassInterface_job_done (s_output s);
  sender_output_handler_done (s <| s_output := o |>) len.

(** ** PacketProto (protocol/packetproto.h): a packet in a stream is its length,
    little endian, and its bytes *)
Definition PACKETPROTO_MAXPAYLOAD : Z := 65535.
Definition PACKETPROTO_ENCLEN (len : Z) : Z := 2 + len.
Definition le16 (x : Z) : list Z := [x mod 256; (x / 256) mod 256].
Definition ltoh16 (m : list Z) (p : Z) : res Z := a ← rd m p; b ← rd m (p + 1); Ok (a + 256 * b).

(** *** PacketProtoEncoder *)
Record PacketProtoEncoder : Type := PacketProtoEncoder_ {
  e_input : PacketRecvInterface; e_output : PacketRecvInterface; e_output_packet : option Z }.
#[global] Instance eta_encoder : Eta PacketProtoEncoder := fun r => PacketProtoEncoder_
  (e_input r) (e_output r) (e_output_packet r).

Definition encoder_output_handler_recv (enc : PacketProtoEncoder) (data : Z) : res PacketProtoEncoder :=
  assert_ (bool_decide (e_output_packet enc = None));;
  i ← PacketRecvInterface_Receiver_Recv (e_input enc) (data + 2);
  Ok (enc <| e_output_packet := Some data |> <| e_input := i |>).

(** [mem] is the memory [output_packet] points into. *)
Definition encoder_input_handler_done (enc : PacketProtoEncoder) (mem : list Z) (in_len : Z)
    : res (PacketProtoEncoder * list Z) :=
  match e_output_packet enc with
  | None => Ub
  | Some p =>
      mem ← wr_list mem p (le16 (u16 in_len));
      o ← PacketRecvInterface_Done (e_output enc) (PACKETPROTO_ENCLEN in_len);
      Ok (enc <| e_output_packet := None |> <| e_output := o |>, mem)
  end.

Definition PacketProtoEncoder_Init (input : PacketRecvInterface) : res PacketProtoEncoder :=
  assert_ (pri_mtu input <=? PACKETPROTO_MAXPAYLOAD);;
  o ← PacketRecvInterface_Init (PACKETPROTO_ENCLEN (pri_mtu input));
  Ok (PacketProtoEncoder_ input o None).

(** *** PacketProtoDecoder *)
Record PacketProtoDecoder : Type := PacketProtoDecoder_ {
  d_input : StreamRecvInterface; d_output : PacketPassInterface; d_output_mtu : Z;
  d_buf : list Z; d_buf_size : Z; d_buf_start : Z; d_buf_used : Z }.
#[global] Instance eta_decoder : Eta PacketProtoDecoder := fun r => PacketProtoDecoder_
  (d_input r) (d_output r) (d_output_mtu r) (d_buf r) (d_buf_size r) (d_buf_start r) (d_buf_used r).

(** What [process_data] finds at the start of the data: a whole packet, part of one,
    or a length over the MTU. *)
Inductive found : Type := FoundPacket (len : Z) | FoundPart | FoundTooLarge.
Definition find_packet (enc : PacketProtoDecoder) : res found :=
  let left := d_buf_used enc in
  if usz left <? 2 then Ok FoundPart else
  data_len ← ltoh16 (d_buf enc) (d_buf_start enc);
  if d_output_mtu enc <? data_len then Ok FoundTooLarge else
  if left - 2 <? data_len then Ok FoundPart else Ok (FoundPacket data_len).

Definition receive_more (enc : PacketProtoDecoder) : res PacketProtoDecoder :=
  i ← StreamRecvInterface_Receiver_Recv (d_input enc) (d_buf_start enc + d_buf_used enc)
        (d_buf_size enc - (d_buf_start enc + d_buf_used enc));
  Ok (enc <| d_input := i |>).

(** The flag says that [handler_error] is called, the last thing done. *)
Definition process_data (enc : PacketProtoDecoder) : res (PacketProtoDecoder * bool) :=
  f ← find_packet enc;
  match f with
  | FoundPacket data_len =>
      let data := d_buf_start enc + 2 in
      let enc := enc <| d_buf_start := d_buf_start enc + (2 + data_len) |>
                     <| d_buf_used := d_buf_used enc - (2 + data_len) |> in
      o ← PacketPassInterface_Sender_Send (d_output enc) data data_len;
      Ok (enc <| d_output := o |>, false)
  | FoundTooLarge =>
      enc ← receive_more (enc <| d_buf_start := 0 |> <| d_buf_used := 0 |>); Ok (enc, true)
  | FoundPart =>
      enc ← (if d_buf_start enc + d_buf_used enc =? d_buf_size enc then
               b ← memmove (d_buf enc) 0 (d_buf_start enc) (d_buf_used enc);
               Ok (enc <| d_buf := b |> <| d_buf_start := 0 |>)
             else Ok enc);
      enc ← receive_more enc; Ok (enc, false)
  end.

Definition decoder_input_handler_done (enc : PacketProtoDecoder) (data_len : Z) : res (PacketProtoDecoder * bool) :=
  assert_ (0 <? data_len);; assert_ (data_len <=? d_buf_size enc - (d_buf_start enc + d_buf_used enc));;
  process_data (enc <| d_buf_used := d_buf_used enc + data_len |>).
Definition decoder_output_handler_done (enc : PacketProtoDecoder) : res (PacketProtoDecoder * bool) :=
  process_data enc.

(** [mem]: what [malloc] gives, [None] for a null pointer. *)
Definition PacketProtoDecoder_Init (input : StreamRecvInterface) (output : PacketPassInterface)
    (mem : option (list Z)) : res (option PacketProtoDecoder) :=
  let output_mtu := Z.min (ppi_mtu output) PACKETPROTO_MAXPAYLOAD in
  let buf_size := PACKETPROTO_ENCLEN output_mtu in
  match mem with
  | None => Ok None
  | Some buf =>
      i ← StreamRecvInterface_Receiver_Recv input 0 buf_size;
      Ok (Some (PacketProtoDecoder_ i output output_mtu buf buf_size 0 0))
  end.

Definition PacketProtoDecoder_Reset (enc : PacketProtoDecoder) : PacketProtoDecoder :=
  enc <| d_buf_start := d_buf_start enc + d_buf_used enc |> <| d_buf_used := 0 |>.

(** The decoder's jobs: its input's [job_done], its output's [job_done]. *)
Definition decoder_input_job (enc : PacketProtoDecoder) : res (PacketProtoDecoder * bool) :=
  '(i, len) ← StreamRecvInterface_job_done (d_input enc);
  decoder_input_handler_done (enc <| d_input := i |>) len.
Definition decoder_output_job (enc : PacketProtoDecoder) : res (PacketProtoDecoder * bool) :=
  o ← PacketPassInterface_job_done (d_output enc);
  decoder_output_handler_done (enc <| d_output := o |>).
