(* ===== verification/Chunk.v ===== *)
(** structure/ChunkBuffer2.h: the circular buffer of packets, and flow/PacketBuffer.c,
    the queue built on it. The buffer is the list of its bytes, four to a block; the
    pointers [input_dest] and [output_dest] are byte offsets into it. *)
From S2P Require Import Prelude CMem Flow.

Definition INT_MAX : Z := 2 ^ 31 - 1.
(** misc/balign.h, on [size_t] *)
Definition bdivide_up (a b : Z) : Z :=
  let r := usz a mod b in if 0 <? r then usz a / b + 1 else usz a / b.
(** [sizeof(struct ChunkBuffer2_block)] *)
Definition BLOCK : Z := 4.

Record ChunkBuffer2 : Type := ChunkBuffer2_ {
  cb_buffer : list Z; cb_size : Z; cb_wrap : Z; cb_start : Z; cb_used : Z; cb_mtu : Z;
  cb_input_dest : option Z; cb_input_avail : Z; cb_output_dest : option Z; cb_output_avail : Z }.
#[global] Instance eta_chunk_buffer : Eta ChunkBuffer2 := fun r => ChunkBuffer2_
  (cb_buffer r) (cb_size r) (cb_wrap r) (cb_start r) (cb_used r) (cb_mtu r)
  (cb_input_dest r) (cb_input_avail r) (cb_output_dest r) (cb_output_avail r).

(** [buffer[i].len] *)
Definition le32 (x : Z) : list Z :=
  [x mod 256; (x / 256) mod 256; (x / 65536) mod 256; (x / 16777216) mod 256].
Definition block_len (m : list Z) (i : Z) : res Z :=
  a ← rd m (BLOCK * i); b ← rd m (BLOCK * i + 1); c ← rd m (BLOCK * i + 2); d ← rd m (BLOCK * i + 3);
  Ok (s32 (a + 256 * b + 65536 * c + 16777216 * d)).
Definition set_block_len (m : list Z) (i len : Z) : res (list Z) := wr_list m (BLOCK * i) (le32 len).

Definition ChunkBuffer2_end (buf : ChunkBuffer2) : Z :=
  if cb_wrap buf - cb_start buf <=? cb_used buf then cb_used buf - (cb_wrap buf - cb_start buf)
  else cb_start buf + cb_used buf.

Definition assert_buffer (buf : ChunkBuffer2) : res unit :=
  assert_ (0 <? cb_size buf);; assert_ (0 <? cb_wrap buf);; assert_ (cb_wrap buf <=? cb_size buf);;
  assert_ (0 <=? cb_start buf);; assert_ (cb_start buf <? cb_wrap buf);; assert_ (0 <=? cb_used buf);;
  assert_ (cb_used buf <=? cb_wrap buf);;
  assert_ ((cb_wrap buf =? cb_size buf) || (cb_wrap buf - cb_start buf <=? cb_used buf));;
  assert_ (0 <=? cb_mtu buf).

(** the number of free blocks from [end] *)
Definition free_blocks (buf : ChunkBuffer2) : Z :=
  if cb_wrap buf - cb_start buf <=? cb_used buf then cb_start buf - ChunkBuffer2_end buf
  else cb_size buf - ChunkBuffer2_end buf.
Definition avail_bytes (free : Z) : Z := s32 (usz (BLOCK * (free - 1))).

Definition assert_io (buf : ChunkBuffer2) : res unit :=
  let end_ := ChunkBuffer2_end buf in
  (if cb_size buf - end_ - 1 <? cb_mtu buf then
     assert_ (bool_decide (cb_input_dest buf = None));; assert_ (cb_input_avail buf =? -1)
   else
     let free := free_blocks buf in
     if 0 <? free then
       assert_ (bool_decide (cb_input_dest buf = Some (BLOCK * (end_ + 1))));;
       assert_ (cb_input_avail buf =? avail_bytes free)
     else assert_ (bool_decide (cb_input_dest buf = None));; assert_ (cb_input_avail buf =? -1));;
  if 0 <? cb_used buf then
    datalen ← block_len (cb_buffer buf) (cb_start buf);
    assert_ (0 <=? datalen);;
    let blocklen := bdivide_up datalen BLOCK in
    assert_ (blocklen <=? cb_used buf - 1);; assert_ (blocklen <=? cb_wrap buf - cb_start buf - 1);;
    assert_ (bool_decide (cb_output_dest buf = Some (BLOCK * (cb_start buf + 1))));;
    assert_ (cb_output_avail buf =? datalen)
  else assert_ (bool_decide (cb_output_dest buf = None));; assert_ (cb_output_avail buf =? -1).

Definition update_input (buf : ChunkBuffer2) : ChunkBuffer2 :=
  let end_ := ChunkBuffer2_end buf in
  if cb_size buf - end_ - 1 <? cb_mtu buf then buf <| cb_input_dest := None |> <| cb_input_avail := -1 |>
  else
    let free := free_blocks buf in
    if 0 <? free then
      buf <| cb_input_dest := Some (BLOCK * (end_ + 1)) |> <| cb_input_avail := avail_bytes free |>
    else buf <| cb_input_dest := None |> <| cb_input_avail := -1 |>.

Definition update_output (buf : ChunkBuffer2) : res ChunkBuffer2 :=
  if 0 <? cb_used buf then
    datalen ← block_len (cb_buffer buf) (cb_start buf);
    assert_ (0 <=? datalen);;
    let blocklen := bdivide_up datalen BLOCK in
    assert_ (blocklen <=? cb_used buf - 1);; assert_ (blocklen <=? cb_wrap buf - cb_start buf - 1);;
    Ok (buf <| cb_output_dest := Some (BLOCK * (cb_start buf + 1)) |> <| cb_output_avail := datalen |>)
  else Ok (buf <| cb_output_dest := None |> <| cb_output_avail := -1 |>).

Definition ChunkBuffer2_calc_blocks (chunk_len num : Z) : Z :=
  let chunk_data_blocks := s32 (bdivide_up chunk_len BLOCK) in
  if INT_MAX - 1 <? chunk_data_blocks then -1 else
  let chunk_blocks := 1 + chunk_data_blocks in
  if INT_MAX - 1 <? num then -1 else
  let num_chunks := num + 1 in
  if Z.quot INT_MAX num_chunks <? chunk_blocks then -1 else chunk_blocks * num_chunks.

Definition ChunkBuffer2_Init (buffer : list Z) (blocks mtu : Z) : res ChunkBuffer2 :=
  assert_ (0 <? blocks);; assert_ (0 <=? mtu);;
  let buf := ChunkBuffer2_ buffer blocks blocks 0 0 (s32 (bdivide_up mtu BLOCK)) None 0 None 0 in
  assert_buffer buf;;
  let buf := update_input buf in
  buf ← update_output buf;
  assert_io buf;; Ok buf.

Definition ChunkBuffer2_SubmitPacket (buf : ChunkBuffer2) (len : Z) : res ChunkBuffer2 :=
  assert_ (bool_decide (is_Some (cb_input_dest buf)));; assert_ (0 <=? len);;
  assert_ (len <=? cb_input_avail buf);;
  assert_buffer buf;; assert_io buf;;
  let end_ := ChunkBuffer2_end buf in
  let blocklen := s32 (bdivide_up len BLOCK) in
  assert_ (blocklen <=? cb_size buf - end_ - 1);;
  assert_ ((cb_used buf <? cb_wrap buf - cb_start buf) || (blocklen <=? cb_start buf - end_ - 1));;
  b ← set_block_len (cb_buffer buf) end_ len;
  let buf := buf <| cb_buffer := b |> <| cb_used := cb_used buf + (1 + blocklen) |> in
  let buf :=
    if (cb_used buf <=? cb_wrap buf - cb_start buf)
       && (cb_size buf - (end_ + 1 + blocklen) - 1 <? cb_mtu buf)
    then buf <| cb_wrap := end_ + 1 + blocklen |> else buf in
  assert_buffer buf;;
  let buf := update_input buf in
  buf ← (if cb_used buf =? 1 + blocklen then update_output buf else Ok buf);
  assert_io buf;; Ok buf.

Definition ChunkBuffer2_ConsumePacket (buf : ChunkBuffer2) : res ChunkBuffer2 :=
  assert_ (bool_decide (is_Some (cb_output_dest buf)));;
  assert_buffer buf;; assert_io buf;;
  assert_ (1 <=? cb_wrap buf - cb_start buf);; assert_ (1 <=? cb_used buf);;
  len ← block_len (cb_buffer buf) (cb_start buf);
  let blocklen := s32 (bdivide_up len BLOCK) in
  assert_ (blocklen <=? cb_wrap buf - cb_start buf - 1);; assert_ (blocklen <=? cb_used buf - 1);;
  let data_wrapped := cb_wrap buf - cb_start buf <=? cb_used buf in
  let buf := buf <| cb_start := cb_start buf + (1 + blocklen) |> <| cb_used := cb_used buf - (1 + blocklen) |> in
  let buf := if cb_start buf =? cb_wrap buf then buf <| cb_start := 0 |> <| cb_wrap := cb_size buf |> else buf in
  assert_buffer buf;;
  let buf := if data_wrapped then update_input buf else buf in
  buf ← update_output buf;
  assert_io buf;; Ok buf.

(** ** PacketBuffer *)
Record PacketBuffer : Type := PacketBuffer_ {
  pb_input : PacketRecvInterface; pb_input_mtu : Z; pb_output : PacketPassInterface; pb_buf : ChunkBuffer2 }.
#[global] Instance eta_packet_buffer : Eta PacketBuffer := fun r => PacketBuffer_
  (pb_input r) (pb_input_mtu r) (pb_output r) (pb_buf r).

(** a pointer handed to a neighbour: not null where the callee asserts it *)
Definition some_ptr (p : option Z) : res Z := res_of_option p.
Definition buffer_receive (buf : PacketBuffer) : res PacketBuffer :=
  p ← some_ptr (cb_input_dest (pb_buf buf));
  i ← PacketRecvInterface_Receiver_Recv (pb_input buf) p; Ok (buf <| pb_input := i |>).
Definition buffer_send (buf : PacketBuffer) : res PacketBuffer :=
  p ← some_ptr (cb_output_dest (pb_buf buf));
  o ← PacketPassInterface_Sender_Send (pb_output buf) p (cb_output_avail (pb_buf buf));
  Ok (buf <| pb_output := o |>).

Definition buffer_input_handler_done (buf : PacketBuffer) (in_len : Z) : res PacketBuffer :=
  assert_ (0 <=? in_len);; assert_ (in_len <=? pb_input_mtu buf);;
  let was_empty := cb_output_avail (pb_buf buf) <? 0 in
  c ← ChunkBuffer2_SubmitPacket (pb_buf buf) in_len;
  let buf := buf <| pb_buf := c |> in
  buf ← (if pb_input_mtu buf <=? cb_input_avail (pb_buf buf) then buffer_receive buf else Ok buf);
  if was_empty then buffer_send buf else Ok buf.

Definition buffer_output_handler_done (buf : PacketBuffer) : res PacketBuffer :=
  let was_full := cb_input_avail (pb_buf buf) <? pb_input_mtu buf in
  c ← ChunkBuffer2_ConsumePacket (pb_buf buf);
  let buf := buf <| pb_buf := c |> in
  buf ← (if was_full && (pb_input_mtu buf <=? cb_input_avail (pb_buf buf)) then buffer_receive buf else Ok buf);
  if 0 <=? cb_output_avail (pb_buf buf) then buffer_send buf else Ok buf.

(** [mem]: what [BAllocArray] gives for a number of bytes, [None] for a null pointer. *)
Definition PacketBuffer_Init (input : PacketRecvInterface) (output : PacketPassInterface) (num_packets : Z)
    (mem : Z -> option (list Z)) : res (option PacketBuffer) :=
  assert_ (pri_mtu input <=? ppi_mtu output);; assert_ (0 <? num_packets);;
  let num_blocks := ChunkBuffer2_calc_blocks (pri_mtu input) num_packets in
  if num_blocks <? 0 then Ok None else
  match mem (BLOCK * num_blocks) with
  | None => Ok None
  | Some m =>
      c ← ChunkBuffer2_Init m num_blocks (pri_mtu input);
      buf ← buffer_receive (PacketBuffer_ input (pri_mtu input) output c);
      Ok (Some buf)
  end.

(** The jobs of the two interfaces that call the buffer back. *)
Definition buffer_input_job (buf : PacketBuffer) : res PacketBuffer :=
  '(i, len) ← PacketRecvInterface_job_done (pb_input buf);
  buffer_input_handler_done (buf <| pb_input := i |>) len.
Definition buffer_output_job (buf : PacketBuffer) : res PacketBuffer :=
  o ← PacketPassInterface_job_done (pb_output buf);
  buffer_output_handler_done (buf <| pb_output := o |>).
