(* ===== verification/SocksClient.v ===== *)
(** socksclient/BSocksClient.c: the SOCKS5 client with which tun2socks asks the local
    server (byedpi) for a connection, or for a UDP association. *)
From S2P Require Import Prelude CMem Sys Flow.

(** ** misc/socks_proto.h *)
Definition SOCKS_VERSION : Z := 5.
Definition SOCKS_METHOD_NO_AUTHENTICATION_REQUIRED : Z := 0.
Definition SOCKS_METHOD_USERNAME_PASSWORD : Z := 2.
Definition SOCKS_CMD_CONNECT : Z := 1.
Definition SOCKS_CMD_UDP_ASSOCIATE : Z := 3.
Definition SOCKS_ATYP_IPV4 : Z := 1.
Definition SOCKS_ATYP_IPV6 : Z := 4.
Definition SOCKS_REP_SUCCEEDED : Z := 0.

(** [sizeof] of the packed structures *)
Definition HELLO_HEADER : Z := 2.
Definition SERVER_HELLO : Z := 2.
Definition REQUEST_HEADER : Z := 4.
Definition REPLY_HEADER : Z := 4.
Definition ADDR_IPV4 : Z := 6.
Definition ADDR_IPV6 : Z := 18.

(** ** system/BAddr.h *)

(** [BAddr]: its type and the 24 bytes of its union; [ipv4] is an address of four bytes
    and a port of two, [ipv6] one of sixteen and two, both in network order. *)
Record BAddr : Type := BAddr_ { ba_type : Z; ba_body : list Z }.
#[global] Instance eta_baddr : Eta BAddr := fun r => BAddr_ (ba_type r) (ba_body r).
Definition BADDR_TYPE_NONE : Z := 0.
Definition BADDR_TYPE_IPV4 : Z := 1.
Definition BADDR_TYPE_IPV6 : Z := 2.
Definition ba_ipv4 (a : BAddr) : list Z := slice (ba_body a) 0 ADDR_IPV4.
Definition ba_ipv6 (a : BAddr) : list Z := slice (ba_body a) 0 ADDR_IPV6.
Definition BAddr_MakeIPv4 (ip port : list Z) : BAddr := BAddr_ BADDR_TYPE_IPV4 (ip ++ port ++ replicate 18 0).
Definition BAddr_MakeIPv6 (ip port : list Z) : BAddr := BAddr_ BADDR_TYPE_IPV6 (ip ++ port ++ replicate 6 0).

(** ** misc/bsize.h *)
Record bsize_t : Type := Bsize { is_overflow : bool; value : Z }.
Definition SIZE_MAX : Z := 2 ^ 64 - 1.
Definition bsize_fromsize (v : Z) : bsize_t := Bsize false v.
Definition bsize_add (s1 s2 : bsize_t) : bsize_t :=
  Bsize (is_overflow s1 || is_overflow s2 || (SIZE_MAX - value s1 <? value s2)) (usz (value s1 + value s2)).
Definition bsize_max (s1 s2 : bsize_t) : bsize_t :=
  Bsize (is_overflow s1 || is_overflow s2) (if value s2 <? value s1 then value s1 else value s2).
Definition bsize_mul (s1 s2 : bsize_t) : bsize_t :=
  Bsize (is_overflow s1 || is_overflow s2 || (negb (value s1 =? 0) && (SIZE_MAX / value s1 <? value s2)))
    (usz (value s1 * value s2)).

(** ** The client *)
Inductive client_state : Type :=
  | STATE_CONNECTING | STATE_CONNECTED_HANDLER | STATE_SENDING_HELLO | STATE_SENT_HELLO
  | STATE_SENDING_PASSWORD | STATE_SENT_PASSWORD | STATE_SENDING_REQUEST | STATE_SENT_REQUEST
  | STATE_RECEIVED_REPLY_HEADER | STATE_UP.
#[global] Instance client_state_eq : EqDecision client_state.
Proof. solve_decision. Defined.

Definition BSOCKSCLIENT_EVENT_ERROR : Z := 1.
Definition BSOCKSCLIENT_EVENT_UP : Z := 2.
Definition BSOCKSCLIENT_EVENT_ERROR_CLOSED : Z := 3.
Definition BSOCKSCLIENT_EVENT_CONNECTED : Z := 4.
Definition BCONNECTION_EVENT_RECVCLOSED : Z := 2.

(** [struct BSocksClient_auth_info] *)
Record auth_info : Type := AuthInfo {
  auth_type : Z; ai_username : list Z; ai_username_len : Z; ai_password : list Z; ai_password_len : Z }.

(** [BSocksClient]. [o_auth_info] is the array with its length; [o_sender] is
    [control.send_sender] with the interfaces at its two ends; [o_recv_dest] is an
    offset into [o_buffer]. *)
Record BSocksClient : Type := BSocksClient_ {
  o_auth_info : list auth_info; o_dest_addr : BAddr; o_udp : bool; o_bind_addr : BAddr;
  o_state : client_state; o_buffer : option (list Z); o_continue_job : bool;
  o_sender : PacketStreamSender; o_recv_if : StreamRecvInterface;
  o_recv_dest : Z; o_recv_len : Z; o_recv_total : Z }.
#[global] Instance eta_client : Eta BSocksClient := fun r => BSocksClient_
  (o_auth_info r) (o_dest_addr r) (o_udp r) (o_bind_addr r) (o_state r) (o_buffer r)
  (o_continue_job r) (o_sender r) (o_recv_if r) (o_recv_dest r) (o_recv_len r) (o_recv_total r).
Definition num_auth_info (o : BSocksClient) : Z := zlen (o_auth_info o).

Definition BSocksClient_auth_none : auth_info := AuthInfo SOCKS_METHOD_NO_AUTHENTICATION_REQUIRED [] 0 [] 0.
Definition BSocksClient_auth_password (username : list Z) (username_len : Z) (password : list Z) (password_len : Z)
  : auth_info := AuthInfo SOCKS_METHOD_USERNAME_PASSWORD username username_len password password_len.

(** What [realloc] leaves of a block, and unknown bytes behind it. *)
Fixpoint resize_block (n : nat) (old junk : list Z) : list Z :=
  match n with
  | O => []
  | S n => match old with
           | b :: old => b :: resize_block n old junk
           | [] => u8 (default 0 (head junk)) :: resize_block n [] (tail junk)
           end
  end.

(** the first method of the list that the server picked *)
Fixpoint find_method (l : list auth_info) (m : Z) : option auth_info :=
  match l with
  | [] => None
  | ai :: l => if auth_type ai =? m then Some ai else find_method l m
  end.

Section client.
Context {OS : Os}.
Abbreviation C A := (Prog BSocksClient A).

Definition set_state (st : client_state) : C unit := pmod (fun o => o <| o_state := st |>).
Definition report_error (error : Z) : C unit := _ ← syscall (CHandler error); mret tt.

Definition init_control_io : C unit :=
  s ← lift (PacketStreamSender_Init (2 ^ 31 - 1));
  pmod (fun o => o <| o_recv_if := StreamRecvInterface_Init |> <| o_sender := s |>).
Definition free_control_io : C unit :=
  pmod (fun o => o <| o_sender := PacketStreamSender_Free (o_sender o) |>);;
  pmod (fun o => o <| o_sender := (o_sender o) <| s_output := StreamPassInterface_Free (s_output (o_sender o)) |> |>);;
  pmod (fun o => o <| o_recv_if := StreamRecvInterface_Free (o_recv_if o) |>).
Definition init_up_io : C unit :=
  pmod (fun o => o <| o_recv_if := StreamRecvInterface_Init |>
    <| o_sender := (o_sender o) <| s_output := StreamPassInterface_Init |> |>).
Definition free_up_io : C unit :=
  pmod (fun o => o <| o_sender := (o_sender o) <| s_output := StreamPassInterface_Free (s_output (o_sender o)) |> |>);;
  pmod (fun o => o <| o_recv_if := StreamRecvInterface_Free (o_recv_if o) |>).

(** [false]: return 0 *)
Definition reserve_buffer (size : bsize_t) : C bool :=
  if is_overflow size then mret false else
  let n := if value size =? 0 then 1 else value size in
  r ← syscall (CRealloc n);
  if rv r =? 0 then mret false else
  pmod (fun o => o <| o_buffer := Some (resize_block (Z.to_nat n) (default [] (o_buffer o)) (rdata r)) |>);;
  mret true.

Definition buffer_write (pos : Z) (bytes : list Z) : C unit :=
  o ← pget; m ← deref (o_buffer o); m ← lift (wr_list m pos bytes);
  pmod (fun o => o <| o_buffer := Some m |>).
Definition buffer_read (pos n : Z) : C (list Z) :=
  o ← pget; m ← deref (o_buffer o); lift (rd_list m pos n).
(** [PacketPassInterface_Sender_Send(o->control.send_if, o->buffer, size)] *)
Definition send_packet (size : Z) : C unit :=
  o ← pget;
  i ← lift (PacketPassInterface_Sender_Send (s_input (o_sender o)) 0 size);
  pmod (fun o => o <| o_sender := (o_sender o) <| s_input := i |> |>).

Definition do_receive : C unit :=
  o ← pget;
  passert (o_recv_len o <? o_recv_total o);;
  i ← lift (StreamRecvInterface_Receiver_Recv (o_recv_if o) (o_recv_dest o + o_recv_len o)
              (o_recv_total o - o_recv_len o));
  pmod (fun o => o <| o_recv_if := i |>).
Definition start_receive (dest total : Z) : C unit :=
  passert (0 <? total);;
  pmod (fun o => o <| o_recv_dest := dest |> <| o_recv_len := 0 |> <| o_recv_total := total |>);;
  do_receive.

Definition connector_handler (is_error : bool) : C unit :=
  o ← pget;
  passert (bool_decide (o_state o = STATE_CONNECTING));;
  if is_error then report_error BSOCKSCLIENT_EVENT_ERROR else
  r ← syscall CConnectionInit;
  if rv r =? 0 then report_error BSOCKSCLIENT_EVENT_ERROR else
  init_control_io;;
  set_state STATE_CONNECTED_HANDLER;;
  pmod (fun o => o <| o_continue_job := true |>);;
  _ ← syscall (CHandler BSOCKSCLIENT_EVENT_CONNECTED); mret tt.

Definition connection_handler (event : Z) : C unit :=
  o ← pget;
  passert (negb (bool_decide (o_state o = STATE_CONNECTING)));;
  if bool_decide (o_state o = STATE_UP) && (event =? BCONNECTION_EVENT_RECVCLOSED)
  then report_error BSOCKSCLIENT_EVENT_ERROR_CLOSED
  else report_error BSOCKSCLIENT_EVENT_ERROR.

(** the loop that writes the methods *)
Fixpoint write_methods (i : Z) (l : list auth_info) : C unit :=
  match l with
  | [] => mret tt
  | ai :: l => buffer_write (HELLO_HEADER + i * 1) [u8 (auth_type ai)];; write_methods (i + 1) l
  end.

Definition continue_job_handler : C unit :=
  o ← pget;
  passert (bool_decide (o_state o = STATE_CONNECTED_HANDLER));;
  if (num_auth_info o =? 0) || (255 <? num_auth_info o) then report_error BSOCKSCLIENT_EVENT_ERROR else
  let size := bsize_add (bsize_fromsize HELLO_HEADER)
                (bsize_mul (bsize_fromsize (num_auth_info o)) (bsize_fromsize 1)) in
  ok ← reserve_buffer size;
  if negb ok then report_error BSOCKSCLIENT_EVENT_ERROR else
  buffer_write 0 [SOCKS_VERSION; u8 (num_auth_info o)];;
  write_methods 0 (o_auth_info o);;
  send_packet (value size);;
  set_state STATE_SENDING_HELLO.

Definition auth_finished : C unit :=
  o ← pget;
  let t := ba_type (o_dest_addr o) in
  let head := bsize_fromsize REQUEST_HEADER in
  if negb ((t =? BADDR_TYPE_IPV4) || (t =? BADDR_TYPE_IPV6)) then report_error BSOCKSCLIENT_EVENT_ERROR else
  let size := bsize_add head (bsize_fromsize (if t =? BADDR_TYPE_IPV4 then ADDR_IPV4 else ADDR_IPV6)) in
  ok ← reserve_buffer size;
  if negb ok then report_error BSOCKSCLIENT_EVENT_ERROR else
  let cmd := if o_udp o then SOCKS_CMD_UDP_ASSOCIATE else SOCKS_CMD_CONNECT in
  atyp ← (if t =? BADDR_TYPE_IPV4
          then buffer_write REQUEST_HEADER (ba_ipv4 (o_dest_addr o));; mret SOCKS_ATYP_IPV4
          else buffer_write REQUEST_HEADER (ba_ipv6 (o_dest_addr o));; mret SOCKS_ATYP_IPV6);
  buffer_write 0 [SOCKS_VERSION; cmd; 0; atyp];;
  send_packet (value size);;
  set_state STATE_SENDING_REQUEST.

(** ** What the server answers *)

Definition received_hello : C unit :=
  imsg ← buffer_read 0 SERVER_HELLO;
  o ← pget;
  if negb (byte_at imsg 0 =? SOCKS_VERSION) then report_error BSOCKSCLIENT_EVENT_ERROR else
  match find_method (o_auth_info o) (byte_at imsg 1) with
  | None => report_error BSOCKSCLIENT_EVENT_ERROR
  | Some ai =>
      if auth_type ai =? SOCKS_METHOD_NO_AUTHENTICATION_REQUIRED then auth_finished
      else if auth_type ai =? SOCKS_METHOD_USERNAME_PASSWORD then
        let ul := ai_username_len ai in
        let pl := ai_password_len ai in
        if (ul =? 0) || (255 <? ul) || (pl =? 0) || (255 <? pl) then report_error BSOCKSCLIENT_EVENT_ERROR else
        let size := bsize_fromsize (1 + 1 + ul + 1 + pl) in
        ok ← reserve_buffer size;
        if negb ok then report_error BSOCKSCLIENT_EVENT_ERROR else
        buffer_write 0 [1];;
        buffer_write 1 [u8 ul];;
        name ← lift (rd_list (ai_username ai) 0 ul);
        buffer_write 2 name;;
        buffer_write (2 + ul) [u8 pl];;
        word ← lift (rd_list (ai_password ai) 0 pl);
        buffer_write (3 + ul) word;;
        send_packet (value size);;
        set_state STATE_SENDING_PASSWORD
      else pub
  end.

Definition received_reply_header : C unit :=
  imsg ← buffer_read 0 REPLY_HEADER;
  if negb (byte_at imsg 0 =? SOCKS_VERSION) then report_error BSOCKSCLIENT_EVENT_ERROR else
  if negb (byte_at imsg 1 =? SOCKS_REP_SUCCEEDED) then report_error BSOCKSCLIENT_EVENT_ERROR else
  let atyp := byte_at imsg 3 in
  if negb ((atyp =? SOCKS_ATYP_IPV4) || (atyp =? SOCKS_ATYP_IPV6)) then report_error BSOCKSCLIENT_EVENT_ERROR else
  let v4 := atyp =? SOCKS_ATYP_IPV4 in
  pmod (fun o => o <| o_bind_addr := (o_bind_addr o) <| ba_type := if v4 then BADDR_TYPE_IPV4 else BADDR_TYPE_IPV6 |> |>);;
  start_receive REPLY_HEADER (if v4 then ADDR_IPV4 else ADDR_IPV6);;
  set_state STATE_RECEIVED_REPLY_HEADER.

Definition received_password_reply : C unit :=
  m ← buffer_read 0 2;
  if negb (byte_at m 0 =? 1) then report_error BSOCKSCLIENT_EVENT_ERROR else
  if negb (byte_at m 1 =? 0) then report_error BSOCKSCLIENT_EVENT_ERROR else auth_finished.

Definition received_reply_rest : C unit :=
  o ← pget;
  let t := ba_type (o_bind_addr o) in
  if negb ((t =? BADDR_TYPE_IPV4) || (t =? BADDR_TYPE_IPV6)) then pub else
  a ← buffer_read REPLY_HEADER (if t =? BADDR_TYPE_IPV4 then ADDR_IPV4 else ADDR_IPV6);
  pmod (fun o => o <| o_bind_addr := (o_bind_addr o) <| ba_body := splice (ba_body (o_bind_addr o)) 0 a |> |>);;
  m ← deref (o_buffer o);
  _ ← syscall (CFree m);
  pmod (fun o => o <| o_buffer := None |>);;
  free_control_io;;
  init_up_io;;
  set_state STATE_UP;;
  _ ← syscall (CHandler BSOCKSCLIENT_EVENT_UP); mret tt.

Definition recv_handler_done (data_len : Z) : C unit :=
  o ← pget;
  passert (0 <=? data_len);;
  passert (data_len <=? o_recv_total o - o_recv_len o);;
  pmod (fun o => o <| o_recv_len := o_recv_len o + data_len |>);;
  o ← pget;
  if o_recv_len o <? o_recv_total o then do_receive else
  match o_state o with
  | STATE_SENT_HELLO => received_hello
  | STATE_SENT_REQUEST => received_reply_header
  | STATE_SENT_PASSWORD => received_password_reply
  | STATE_RECEIVED_REPLY_HEADER => received_reply_rest
  | _ => pub
  end.

(** One case of [send_handler_done]: a buffer of [size] bytes, of which [total] are
    received first. *)
Definition await_reply (size : bsize_t) (total : Z) (st : client_state) : C unit :=
  ok ← reserve_buffer size;
  if negb ok then report_error BSOCKSCLIENT_EVENT_ERROR else
  start_receive 0 total;;
  set_state st.

Definition send_handler_done : C unit :=
  o ← pget;
  passert (bool_decide (is_Some (o_buffer o)));;
  match o_state o with
  | STATE_SENDING_HELLO => await_reply (bsize_fromsize SERVER_HELLO) SERVER_HELLO STATE_SENT_HELLO
  | STATE_SENDING_REQUEST =>
      await_reply (bsize_add (bsize_fromsize REPLY_HEADER) (bsize_max (bsize_fromsize ADDR_IPV4) (bsize_fromsize ADDR_IPV6)))
        REPLY_HEADER STATE_SENT_REQUEST
  | STATE_SENDING_PASSWORD => await_reply (bsize_fromsize 2) 2 STATE_SENT_PASSWORD
  | _ => pub
  end.

(** ** The owner's calls *)

Definition BSocksClient_SetDestAddr (dest_addr : BAddr) : C unit :=
  o ← pget;
  passert (bool_decide (o_state o = STATE_CONNECTING) || bool_decide (o_state o = STATE_CONNECTED_HANDLER));;
  pmod (fun o => o <| o_dest_addr := dest_addr |>).
Definition BSocksClient_GetBindAddr : C BAddr :=
  o ← pget; passert (bool_decide (o_state o = STATE_UP));; mret (o_bind_addr o).
(** The value of the connection: whether there is an address, and its bytes. *)
Definition BSocksClient_GetLocalAddr : C (Z * list Z) :=
  o ← pget; passert (negb (bool_decide (o_state o = STATE_CONNECTING)));;
  r ← syscall CConnectionLocalAddr; mret (rv r, rdata r).
Definition BSocksClient_GetSendInterface : C StreamPassInterface :=
  o ← pget; passert (bool_decide (o_state o = STATE_UP));; passert (negb (o_udp o));; mret (s_output (o_sender o)).
Definition BSocksClient_GetRecvInterface : C StreamRecvInterface :=
  o ← pget; passert (bool_decide (o_state o = STATE_UP));; passert (negb (o_udp o));; mret (o_recv_if o).

(** [false]: return 0. The object's memory before is [o]. *)
Definition BSocksClient_Init (server_addr : BAddr) (auth : list auth_info) (dest_addr : BAddr) (udp : bool) : C bool :=
  passert (negb (ba_type server_addr =? BADDR_TYPE_NONE));;
  passert (forallb (fun ai => (auth_type ai =? SOCKS_METHOD_NO_AUTHENTICATION_REQUIRED)
                              || (auth_type ai =? SOCKS_METHOD_USERNAME_PASSWORD)) auth);;
  pmod (fun o => o <| o_auth_info := auth |> <| o_dest_addr := dest_addr |> <| o_udp := udp |>
    <| o_buffer := None |> <| o_continue_job := false |>);;
  r ← syscall (CConnectorInit (ba_body server_addr));
  if rv r =? 0 then mret false else set_state STATE_CONNECTING;; mret true.

Definition BSocksClient_Free : C unit :=
  o ← pget;
  (if negb (bool_decide (o_state o = STATE_CONNECTING))
   then (if bool_decide (o_state o = STATE_UP) then free_up_io else free_control_io);; _ ← syscall CConnectionFree; mret tt else mret tt);;
  _ ← syscall CConnectorFree;
  pmod (fun o => o <| o_continue_job := false |>);;
  match o_buffer o with
  | Some m => _ ← syscall (CFree m); pmod (fun o => o <| o_buffer := None |>)
  | None => mret tt
  end.

(** ** The jobs *)
Definition continue_job : C unit := pmod (fun o => o <| o_continue_job := false |>);; continue_job_handler.
Definition with_sender (f : PacketStreamSender -> res PacketStreamSender) : C unit :=
  o ← pget; s ← lift (f (o_sender o)); pmod (fun o => o <| o_sender := s |>).
Definition send_done_job : C unit :=
  with_sender (fun s => i ← PacketPassInterface_job_done (s_input s); Ok (s <| s_input := i |>));;
  send_handler_done.
Definition recv_done_job : C unit :=
  o ← pget;
  '(i, len) ← lift (StreamRecvInterface_job_done (o_recv_if o));
  pmod (fun o => o <| o_recv_if := i |>);;
  recv_handler_done len.
End client.
