(* ===== verification/TcpClient.v ===== *)
(** tun2socks/tun2socks.c, the TCP client: one connection that lwIP accepted from the
    device, relayed through a SOCKS client to byedpi. lwIP's callbacks, the SOCKS
    client's events and the two interfaces of its connection are entry points; the
    structure can be freed in any of them. *)
From S2P Require Import Prelude CMem Sys Flow SocksClient.

(** lwip/err.h, lwip/opt.h, tun2socks.h *)
Definition ERR_OK : Z := 0.
Definition ERR_MEM : Z := -1.
Definition ERR_ABRT : Z := -13.
Definition TCP_MSS : Z := 1460.
Definition TCP_WND : Z := 4 * TCP_MSS.
Definition CLIENT_SOCKS_RECV_BUF_SIZE : Z := 8192.

(** What tun2socks sets in a [struct tcp_pcb]; [p_open] is false once lwIP owns it alone:
    after [tcp_close], [tcp_abort] or an error. *)
Record pcb : Type := Pcb { p_id : Z; p_open : bool; p_arg : bool; p_errf : bool; p_recv : bool; p_sent : bool }.
#[global] Instance eta_pcb : Eta pcb := fun r => Pcb (p_id r) (p_open r) (p_arg r) (p_errf r) (p_recv r) (p_sent r).

(** [struct tcp_client]. [tc_dead] says that [dead_aborted] points to the variable of the
    running callback, the interfaces [socks_send_if] and [socks_recv_if] are those of
    [tc_socks]. [socks_username] is left out: the library build has no user names. *)
Record tcp_client : Type := TcpClient_ {
  tc_aborted : bool; tc_dead : bool; tc_local_addr : BAddr; tc_remote_addr : BAddr;
  tc_client_closed : bool; tc_buf : list Z; tc_buf_used : Z;
  tc_socks : BSocksClient; tc_socks_up : bool; tc_socks_closed : bool;
  tc_recv_buf : list Z; tc_recv_used : Z; tc_recv_sent : Z; tc_recv_waiting : bool; tc_tcp_pending : Z }.
#[global] Instance eta_tcp_client : Eta tcp_client := fun r => TcpClient_
  (tc_aborted r) (tc_dead r) (tc_local_addr r) (tc_remote_addr r) (tc_client_closed r) (tc_buf r) (tc_buf_used r)
  (tc_socks r) (tc_socks_up r) (tc_socks_closed r) (tc_recv_buf r) (tc_recv_used r) (tc_recv_sent r)
  (tc_recv_waiting r) (tc_tcp_pending r).

(** What a client's code works on: the structure at the address [cw_self] ([None] once
    freed), its pcb, the variable [badvpn__dead] of the running callback, and the
    globals [num_clients] and [tcp_clients]. *)
Record cworld : Type := Cworld {
  cw_self : Z; cw_client : option tcp_client; cw_pcb : pcb; cw_frame : option Z;
  cw_num_clients : Z; cw_tcp_clients : list Z }.
#[global] Instance eta_cworld : Eta cworld := fun r => Cworld
  (cw_self r) (cw_client r) (cw_pcb r) (cw_frame r) (cw_num_clients r) (cw_tcp_clients r).

(** [ip_addr_t] *)
Record ip_addr : Type := IpAddr { ip_v6 : bool; ip_bytes : list Z }.
(** [hton16], as the bytes in memory *)
Definition hton16 (x : Z) : list Z := [(x / 256) mod 256; x mod 256].
Definition baddr_from_lwip (a : ip_addr) (port_hostorder : Z) : BAddr :=
  if ip_v6 a then BAddr_MakeIPv6 (ip_bytes a) (hton16 port_hostorder)
  else BAddr_MakeIPv4 (ip_bytes a) (hton16 port_hostorder).

(** What the reactor can run for a client: an event of its SOCKS client, before and
    after it is up; a job of the two interfaces; and, in the name of the connection, the
    completion of a send of [n] bytes or the arrival of [data]. *)
Inductive job : Type :=
  | JSocks (event : Z) (o : BSocksClient)
  | JSocksUp (event : Z)
  | JSendOp | JSendConn (n : Z) | JSendDone
  | JRecvOp | JRecvConn (data : list Z) | JRecvDone.

(** The SOCKS client is up and its interfaces are unused. *)
Definition socks_ready (o : BSocksClient) : bool :=
  bool_decide (o_state o = STATE_UP) && negb (o_udp o)
  && is_state (spi_state (s_output (o_sender o))) STATE_NONE
  && negb (spi_job_operation (s_output (o_sender o))) && negb (spi_job_done (s_output (o_sender o)))
  && is_state (sri_state (o_recv_if o)) STATE_NONE
  && negb (sri_job_operation (o_recv_if o)) && negb (sri_job_done (o_recv_if o)).

Section client.
Context {OS : Os}.
Abbreviation W A := (Prog cworld A).

Definition cget : W cworld := pget.
(** [client->...] *)
Definition client : W tcp_client := w ← cget; deref (cw_client w).
Definition mcl (f : tcp_client -> tcp_client) : W unit :=
  w ← cget; cl ← deref (cw_client w); pput (w <| cw_client := Some (f cl) |>).
Definition on_socks {A} (p : Prog BSocksClient A) : W A := fun w h =>
  match cw_client w with
  | None => Ub
  | Some cl =>
      match p (tc_socks cl) h with
      | Ok (a, o, h) => Ok (a, w <| cw_client := Some (cl <| tc_socks := o |>) |>, h)
      | Ub => Ub
      | Fuel => Fuel
      end
  end.

(** ** The calls to lwIP: on a pcb that is still the client's *)
Definition the_pcb : W pcb := w ← cget; passert (p_open (cw_pcb w));; mret (cw_pcb w).
Definition mpcb (f : pcb -> pcb) : W unit := p ← the_pcb; pmod (fun w => w <| cw_pcb := f p |>).
Definition tcp_arg : W unit := mpcb (fun p => p <| p_arg := true |>).
Definition tcp_err (set : bool) : W unit := mpcb (fun p => p <| p_errf := set |>).
Definition tcp_recv (set : bool) : W unit := mpcb (fun p => p <| p_recv := set |>).
Definition tcp_sent (set : bool) : W unit := mpcb (fun p => p <| p_sent := set |>).
Definition tcp_call (c : Z -> tun_call) : W ret := p ← the_pcb; syscall (CTun (c (p_id p))).
Definition pcb_gone : W unit := pmod (fun w => w <| cw_pcb := (cw_pcb w) <| p_open := false |> |>).
Definition tcp_close : W Z :=
  r ← tcp_call TcpClose; (if rv r =? ERR_OK then pcb_gone else mret tt);; mret (rv r).
(** It would call the error callback: the code has always removed it. *)
Definition tcp_abort : W unit :=
  p ← the_pcb; passert (negb (p_errf p));; _ ← tcp_call TcpAbort; pcb_gone.
Definition tcp_recved (len : Z) : W unit := _ ← tcp_call (fun p => TcpRecved p len); mret tt.
(** a [u16_t] *)
Definition tcp_sndbuf : W Z := r ← tcp_call TcpSndbuf; mret (u16 (rv r)).
Definition tcp_write (data : list Z) : W Z := r ← tcp_call (fun p => TcpWrite p data); mret (rv r).
Definition tcp_output : W Z := r ← tcp_call TcpOutput; mret (rv r).

(** ** misc/dead.h *)
(** [DEAD_KILL_WITH(client->dead_aborted, v)] *)
Definition dead_kill (v : Z) : W unit :=
  cl ← client;
  if tc_dead cl then w ← cget; _ ← deref (cw_frame w); pmod (fun w => w <| cw_frame := Some v |>) else mret tt.
(** [DEAD_ENTER]; the result is [badvpn__prev_ptr]. *)
Definition dead_enter : W bool :=
  cl ← client; pmod (fun w => w <| cw_frame := Some 0 |>);;
  mcl (fun cl => cl <| tc_dead := true |>);; mret (tc_dead cl).
(** [DEAD_LEAVE2], the value [DEAD_KILLED], and the end of the variable's life; a
    previous pointer would point to a callback that has returned. *)
Definition dead_leave (prev : bool) : W Z :=
  w ← cget; d ← deref (cw_frame w);
  (if d =? 0 then mcl (fun cl => cl <| tc_dead := prev |>) else mret tt);;
  passert (negb prev);; pmod (fun w => w <| cw_frame := None |>);; mret d.

(** ** The interfaces *)
Definition socks_send (data len : Z) : W unit :=
  on_socks (o ← pget; i ← lift (StreamPassInterface_Sender_Send (s_output (o_sender o)) data len);
            pmod (fun o => o <| o_sender := (o_sender o) <| s_output := i |> |>)).
Definition socks_recv (data n : Z) : W unit :=
  on_socks (o ← pget; i ← lift (StreamRecvInterface_Receiver_Recv (o_recv_if o) data n);
            pmod (fun o => o <| o_recv_if := i |>)).

(** ** Ending a client *)
Definition remove {A} (eqb : A -> A -> bool) (x : A) (l : list A) : list A := List.filter (fun y => negb (eqb x y)) l.
Definition client_dealloc : W unit :=
  cl ← client;
  passert (tc_client_closed cl);; passert (tc_socks_closed cl);;
  w ← cget; passert (0 <? cw_num_clients w);;
  pmod (fun w => w <| cw_num_clients := cw_num_clients w - 1 |>);;
  pmod (fun w => w <| cw_tcp_clients := remove Z.eqb (cw_self w) (cw_tcp_clients w) |>);;
  (if negb (tc_aborted cl) then dead_kill (-1) else mret tt);;
  _ ← syscall (CFreeElem (cw_self w));
  pmod (fun w => w <| cw_client := None |>).

Definition client_abort_pcb : W unit :=
  cl ← client; passert (negb (tc_aborted cl));;
  tcp_abort;;
  mcl (fun cl => cl <| tc_aborted := true |>);;
  dead_kill 1.

Definition remove_callbacks : W unit := tcp_err false;; tcp_recv false;; tcp_sent false.

(** The three call one another; each call in the cycle closes a side that was open. *)
Fixpoint client_handle_freed_client_f (fuel : nat) : W unit :=
  match fuel with
  | O => pfuel
  | S fuel =>
      cl ← client; passert (negb (tc_client_closed cl));;
      mcl (fun cl => cl <| tc_client_closed := true |>);;
      if (0 <? tc_buf_used cl) && negb (tc_socks_closed cl) then mret tt
      else if negb (tc_socks_closed cl) then client_free_socks_f fuel else client_dealloc
  end
with client_free_client_f (fuel : nat) : W unit :=
  match fuel with
  | O => pfuel
  | S fuel =>
      cl ← client; passert (negb (tc_client_closed cl));;
      remove_callbacks;;
      err ← tcp_close;
      (if err =? ERR_OK then mret tt else client_abort_pcb);;
      client_handle_freed_client_f fuel
  end
with client_free_socks_f (fuel : nat) : W unit :=
  match fuel with
  | O => pfuel
  | S fuel =>
      cl ← client; passert (negb (tc_socks_closed cl));;
      (if tc_socks_up cl then if negb (tc_client_closed cl) then tcp_recv false else mret tt else mret tt);;
      on_socks BSocksClient_Free;;
      mcl (fun cl => cl <| tc_socks_closed := true |>);;
      if tc_socks_up cl && ((0 <=? tc_recv_used cl) || (0 <? tc_tcp_pending cl)) && negb (tc_client_closed cl)
      then mret tt
      else if negb (tc_client_closed cl) then client_free_client_f fuel else client_dealloc
  end.
Definition FREE_DEPTH : nat := 4.
Definition client_handle_freed_client : W unit := client_handle_freed_client_f FREE_DEPTH.
Definition client_free_client : W unit := client_free_client_f FREE_DEPTH.
Definition client_free_socks : W unit := client_free_socks_f FREE_DEPTH.

Definition client_abort_client : W unit :=
  cl ← client; passert (negb (tc_client_closed cl));;
  remove_callbacks;; client_abort_pcb;; client_handle_freed_client.

Definition client_murder : W unit :=
  cl ← client;
  (if negb (tc_client_closed cl)
   then remove_callbacks;; client_abort_pcb;; mcl (fun cl => cl <| tc_client_closed := true |>) else mret tt);;
  cl ← client;
  (if negb (tc_socks_closed cl)
   then on_socks BSocksClient_Free;; mcl (fun cl => cl <| tc_socks_closed := true |>) else mret tt);;
  client_dealloc.

Definition client_err_func (err : Z) : W unit :=
  cl ← client; passert (negb (tc_client_closed cl));; client_handle_freed_client.

(** ** From the device to SOCKS *)
Definition client_send_to_socks : W unit :=
  cl ← client;
  passert (negb (tc_socks_closed cl));; passert (tc_socks_up cl);; passert (0 <? tc_buf_used cl);;
  socks_send 0 (tc_buf_used cl).

Definition client_socks_send_handler_done (data_len : Z) : W unit :=
  cl ← client;
  passert (negb (tc_socks_closed cl));; passert (tc_socks_up cl);; passert (0 <? tc_buf_used cl);;
  passert (0 <? data_len);; passert (data_len <=? tc_buf_used cl);;
  b ← lift (memmove (tc_buf cl) 0 data_len (tc_buf_used cl - data_len));
  mcl (fun cl => cl <| tc_buf := b |>);;
  mcl (fun cl => cl <| tc_buf_used := tc_buf_used cl - data_len |>);;
  (if negb (tc_client_closed cl) then tcp_recved data_len else mret tt);;
  cl ← client;
  if 0 <? tc_buf_used cl then socks_send 0 (tc_buf_used cl)
  else if tc_client_closed cl then client_free_socks else mret tt.

(** ** From SOCKS to the device *)
Definition client_socks_recv_initiate : W unit :=
  cl ← client;
  passert (negb (tc_client_closed cl));; passert (negb (tc_socks_closed cl));; passert (tc_socks_up cl);;
  passert (tc_recv_used cl =? -1);;
  socks_recv 0 CLIENT_SOCKS_RECV_BUF_SIZE.

(** The loop that writes to lwIP, at most [fuel] times: what follows it, or an abort. *)
Fixpoint write_loop (fuel : nat) : W bool :=
  match fuel with
  | O => pfuel
  | S fuel =>
      cl ← client;
      room ← tcp_sndbuf;
      let to_write := Z.min (tc_recv_used cl - tc_recv_sent cl) room in
      if to_write =? 0 then mret true else
      data ← lift (rd_list (tc_recv_buf cl) (tc_recv_sent cl) to_write);
      err ← tcp_write data;
      if negb (err =? ERR_OK) then
        if err =? ERR_MEM then mret true else client_abort_client;; mret false
      else
      mcl (fun cl => cl <| tc_recv_sent := tc_recv_sent cl + to_write |>);;
      mcl (fun cl => cl <| tc_tcp_pending := tc_tcp_pending cl + to_write |>);;
      cl ← client;
      if tc_recv_sent cl <? tc_recv_used cl then write_loop fuel else mret true
  end.

(** [false]: return -1 *)
Definition client_socks_recv_send_out : W bool :=
  cl ← client;
  passert (negb (tc_client_closed cl));; passert (tc_socks_up cl);; passert (0 <? tc_recv_used cl);;
  passert (tc_recv_sent cl <? tc_recv_used cl);; passert (negb (tc_recv_waiting cl));;
  go_on ← write_loop (Z.to_nat (tc_recv_used cl - tc_recv_sent cl));
  if negb go_on then mret false else
  err ← tcp_output;
  if negb (err =? ERR_OK) then client_abort_client;; mret false else
  cl ← client;
  if tc_recv_sent cl <? tc_recv_used cl then
    if tc_tcp_pending cl =? 0 then client_abort_client;; mret false
    else mcl (fun cl => cl <| tc_recv_waiting := true |>);; mret true
  else mcl (fun cl => cl <| tc_recv_used := -1 |>);; mret true.

Definition client_socks_recv_handler_done (data_len : Z) : W unit :=
  passert (0 <? data_len);; passert (data_len <=? CLIENT_SOCKS_RECV_BUF_SIZE);;
  cl ← client;
  passert (negb (tc_socks_closed cl));; passert (tc_socks_up cl);; passert (tc_recv_used cl =? -1);;
  if tc_client_closed cl then mret tt else
  mcl (fun cl => cl <| tc_recv_used := data_len |>);;
  mcl (fun cl => cl <| tc_recv_sent := 0 |>);;
  mcl (fun cl => cl <| tc_recv_waiting := false |>);;
  ok ← client_socks_recv_send_out;
  if negb ok then mret tt else
  cl ← client;
  if tc_recv_used cl =? -1 then client_socks_recv_initiate else mret tt.

(** ** The SOCKS client's events *)
Definition client_socks_handler (event : Z) : W unit :=
  cl ← client; passert (negb (tc_socks_closed cl));;
  if event =? BSOCKSCLIENT_EVENT_ERROR then client_free_socks
  else if event =? BSOCKSCLIENT_EVENT_UP then
    passert (negb (tc_socks_up cl));;
    _ ← on_socks BSocksClient_GetSendInterface;
    _ ← on_socks BSocksClient_GetRecvInterface;
    mcl (fun cl => cl <| tc_recv_used := -1 |>);;
    mcl (fun cl => cl <| tc_tcp_pending := 0 |>);;
    (if negb (tc_client_closed cl) then tcp_sent true else mret tt);;
    mcl (fun cl => cl <| tc_socks_up := true |>);;
    (if 0 <? tc_buf_used cl then client_send_to_socks else mret tt);;
    if negb (tc_client_closed cl) then client_socks_recv_initiate else mret tt
  else if event =? BSOCKSCLIENT_EVENT_ERROR_CLOSED then
    passert (tc_socks_up cl);; client_free_socks
  else mret tt.

(** ** The reactor *)

(** The connection still completes sends and receives: not once it is freed. *)
Definition job_ready (w : cworld) (j : job) : bool :=
  match cw_client w with
  | None => false
  | Some cl =>
      let out := s_output (o_sender (tc_socks cl)) in
      let inp := o_recv_if (tc_socks cl) in
      negb (tc_socks_closed cl) &&
      match j with
      | JSocks e o => negb (tc_socks_up cl) &&
          ((e =? BSOCKSCLIENT_EVENT_ERROR) || (e =? BSOCKSCLIENT_EVENT_CONNECTED)
           || (e =? BSOCKSCLIENT_EVENT_UP) && socks_ready o)
      | JSocksUp e => tc_socks_up cl &&
          ((e =? BSOCKSCLIENT_EVENT_ERROR) || (e =? BSOCKSCLIENT_EVENT_ERROR_CLOSED))
      | JSendOp => tc_socks_up cl && spi_job_operation out
      | JSendConn n => tc_socks_up cl && is_state (spi_state out) STATE_BUSY && (0 <? n) && (n <=? spi_job_operation_len out)
      | JSendDone => tc_socks_up cl && spi_job_done out
      | JRecvOp => tc_socks_up cl && sri_job_operation inp
      | JRecvConn data => tc_socks_up cl && is_state (sri_state inp) STATE_BUSY
          && (0 <? zlen data) && (zlen data <=? sri_job_operation_len inp)
      | JRecvDone => tc_socks_up cl && sri_job_done inp
      end
  end.

Definition run_job (j : job) : W unit :=
  match j with
  | JSocks e o => mcl (fun cl => cl <| tc_socks := o |>);; client_socks_handler e
  | JSocksUp e => client_socks_handler e
  | JSendOp => on_socks (with_sender (fun s =>
      '(i, _) ← StreamPassInterface_job_operation (s_output s); Ok (s <| s_output := i |>)))
  | JSendConn n =>
      cl ← client;
      data ← lift (rd_list (tc_buf cl) (spi_job_operation_data (s_output (o_sender (tc_socks cl)))) n);
      _ ← syscall (CTun (ConnSent data));
      on_socks (with_sender (fun s => i ← StreamPassInterface_Done (s_output s) n; Ok (s <| s_output := i |>)))
  | JSendDone =>
      cl ← client;
      '(i, len) ← lift (StreamPassInterface_job_done (s_output (o_sender (tc_socks cl))));
      on_socks (with_sender (fun s => Ok (s <| s_output := i |>)));;
      client_socks_send_handler_done len
  | JRecvOp => on_socks (o ← pget;
      '(i, _) ← lift (StreamRecvInterface_job_operation (o_recv_if o)); pmod (fun o => o <| o_recv_if := i |>))
  | JRecvConn data =>
      cl ← client;
      b ← lift (wr_list (tc_recv_buf cl) (sri_job_operation_data (o_recv_if (tc_socks cl))) data);
      mcl (fun cl => cl <| tc_recv_buf := b |>);;
      _ ← syscall (CTun (ConnGot data));
      on_socks (o ← pget; i ← lift (StreamRecvInterface_Done (o_recv_if o) (zlen data));
        pmod (fun o => o <| o_recv_if := i |>))
  | JRecvDone =>
      cl ← client;
      '(i, len) ← lift (StreamRecvInterface_job_done (o_recv_if (tc_socks cl)));
      on_socks (pmod (fun o => o <| o_recv_if := i |>));;
      client_socks_recv_handler_done len
  end.

(** [SYNC_COMMIT]: jobs run before the callback goes on, any that are in the queue then. *)
Fixpoint synchronize (js : list job) : W unit :=
  match js with
  | [] => mret tt
  | j :: js => w ← cget; (if job_ready w j then run_job j else mret tt);; synchronize js
  end.

(** ** lwIP's callbacks *)
Definition callback_result (d : Z) : Z := if 0 <? d then ERR_ABRT else ERR_OK.

(** [p]: the bytes of the pbuf chain, [None] for a null pointer. *)
Definition client_recv_func (p : option (list Z)) (js : list job) : W Z :=
  cl ← client; passert (negb (tc_client_closed cl));;
  prev ← dead_enter;
  match p with
  | None => client_free_client;; d ← dead_leave prev; mret (callback_result d)
  | Some data =>
      passert (0 <? zlen data);;
      if usz (TCP_WND - tc_buf_used cl) <? zlen data then
        d ← dead_leave prev; mret ERR_MEM
      else
        b ← lift (wr_list (tc_buf cl) (tc_buf_used cl) data);
        mcl (fun cl => cl <| tc_buf := b |>);;
        mcl (fun cl => cl <| tc_buf_used := tc_buf_used cl + zlen data |>);;
        _ ← syscall (CTun (PbufFree data));
        cl ← client;
        (if (tc_buf_used cl =? zlen data) && tc_socks_up cl then
           passert (negb (tc_socks_closed cl));; client_send_to_socks;; synchronize js
         else mret tt);;
        d ← dead_leave prev; mret (callback_result d)
  end.

Definition client_sent_func (len : Z) (js : list job) : W Z :=
  cl ← client;
  passert (negb (tc_client_closed cl));; passert (tc_socks_up cl);; passert (0 <? len);;
  passert (len <=? tc_tcp_pending cl);;
  prev ← dead_enter;
  mcl (fun cl => cl <| tc_tcp_pending := tc_tcp_pending cl - len |>);;
  cl ← client;
  (if 0 <? tc_recv_used cl then
     passert (tc_recv_waiting cl);; passert (tc_recv_sent cl <? tc_recv_used cl);;
     mcl (fun cl => cl <| tc_recv_waiting := false |>);;
     ok ← client_socks_recv_send_out;
     if negb ok then mret tt else
     cl ← client;
     passert (0 <? tc_tcp_pending cl);;
     if (tc_recv_used cl =? -1) && negb (tc_socks_closed cl) then client_socks_recv_initiate;; synchronize js
     else mret tt
   else if tc_socks_closed cl && (tc_tcp_pending cl =? 0) then client_free_client else mret tt);;
  d ← dead_leave prev; mret (callback_result d).

(** [mem]: what the block of [size] bytes that [malloc] gives holds; [newpcb] with its
    addresses. *)
Definition listener_accept_func (size : Z) (newpcb : pcb) (local_ip remote_ip : ip_addr) (local_port remote_port : Z)
    (server : BAddr) (auth : list auth_info) (mem : tcp_client) (js : list job) : W Z :=
  r ← syscall (CMalloc size);
  if rv r =? 0 then mret ERR_MEM else
  pmod (fun w => w <| cw_self := rv r |> <| cw_client := Some mem |>);;
  mcl (fun cl => cl <| tc_local_addr := baddr_from_lwip local_ip local_port |>);;
  mcl (fun cl => cl <| tc_remote_addr := baddr_from_lwip remote_ip remote_port |>);;
  cl ← client;
  ok ← on_socks (BSocksClient_Init server auth (tc_local_addr cl) false);
  if negb ok then
    _ ← syscall (CFreeElem (rv r)); pmod (fun w => w <| cw_client := None |>);; mret ERR_MEM
  else
  mcl (fun cl => cl <| tc_aborted := false |>);;
  mcl (fun cl => cl <| tc_dead := false |>);;
  pmod (fun w => w <| cw_tcp_clients := cw_tcp_clients w ++ [cw_self w] |>);;
  w ← cget; passert (0 <=? cw_num_clients w);;
  pmod (fun w => w <| cw_num_clients := cw_num_clients w + 1 |>);;
  _ ← syscall CCheckpoint;
  pmod (fun w => w <| cw_pcb := newpcb |>);;
  mcl (fun cl => cl <| tc_client_closed := false |>);;
  tcp_arg;; tcp_err true;; tcp_recv true;;
  mcl (fun cl => cl <| tc_buf_used := 0 |>);;
  mcl (fun cl => cl <| tc_socks_up := false |>);;
  mcl (fun cl => cl <| tc_socks_closed := false |>);;
  prev ← dead_enter;
  synchronize js;;
  d ← dead_leave prev; mret (callback_result d).
End client.
