(* ===== verification/Packet.v ===== *)
(** misc/ipv4_proto.h, ipv6_proto.h and udp_proto.h: the headers of the packets that go
    through the device, their checksums and their checks. A field wider than a byte is
    its bytes in memory, in network order. *)
From S2P Require Import Prelude CMem PktSum Flow TcpClient.

(** ** misc/read_write_int.h, misc/byteorder.h *)
Definition badvpn_read_be16 (m : list Z) (p : Z) : res Z :=
  a ← rd m p; b ← rd m (p + 1); Ok (Z.lor (Z.shiftl a 8) (Z.shiftl b 0)).
(** the value of a field *)
Definition ntoh16 (b : list Z) : Z := 256 * byte_at b 0 + byte_at b 1.
(** [hton32] *)
Definition hton32 (x : Z) : list Z := [(x / 2 ^ 24) mod 256; (x / 2 ^ 16) mod 256; (x / 2 ^ 8) mod 256; x mod 256].

(** [for (uint16_t i = 0; i < k; i++) t += badvpn_read_be16(m + p + 2 * i);] *)
Fixpoint sum_be16 (k : nat) (m : list Z) (p t : Z) : res Z :=
  match k with
  | O => Ok t
  | S k => x ← badvpn_read_be16 m p; sum_be16 k m (p + 2) (u32 (t + x))
  end.

(** ** misc/ipv4_proto.h *)
Definition IPV4_PROTOCOL_UDP : Z := 17.
Record ipv4_header : Type := Ipv4Header {
  version4_ihl4 : Z; i4_ds : Z; i4_total_length : list Z; i4_identification : list Z; i4_fragment : list Z;
  i4_ttl : Z; i4_protocol : Z; i4_checksum : list Z; i4_source : list Z; i4_destination : list Z }.
#[global] Instance eta_ipv4 : Eta ipv4_header := fun r => Ipv4Header
  (version4_ihl4 r) (i4_ds r) (i4_total_length r) (i4_identification r) (i4_fragment r)
  (i4_ttl r) (i4_protocol r) (i4_checksum r) (i4_source r) (i4_destination r).
Definition IPV4_HEADER : Z := 20.
Definition IPV4_PROTOCOL_OFFSET : Z := 9.
(** the object's bytes, and [memcpy] to it *)
Definition ipv4_bytes (h : ipv4_header) : list Z :=
  [version4_ihl4 h; i4_ds h] ++ i4_total_length h ++ i4_identification h ++ i4_fragment h
  ++ [i4_ttl h; i4_protocol h] ++ i4_checksum h ++ i4_source h ++ i4_destination h.
Definition ipv4_of (b : list Z) : ipv4_header :=
  Ipv4Header (byte_at b 0) (byte_at b 1) (slice b 2 2) (slice b 4 2) (slice b 6 2)
    (byte_at b 8) (byte_at b 9) (slice b 10 2) (slice b 12 4) (slice b 16 4).
Definition IPV4_GET_VERSION (h : ipv4_header) : Z := Z.shiftr (Z.land (version4_ihl4 h) 0xF0) 4.
Definition IPV4_GET_IHL (h : ipv4_header) : Z := Z.shiftr (Z.land (version4_ihl4 h) 0x0F) 0.
Definition IPV4_MAKE_VERSION_IHL (size : Z) : Z := size / 4 + Z.shiftl 4 4.

(** [extra] is the pointer [m + p]. *)
Definition ipv4_checksum (header : ipv4_header) (m : list Z) (p extra_len : Z) : res (list Z) :=
  assert_ (extra_len mod 2 =? 0);;
  t ← sum_be16 (Z.to_nat (IPV4_HEADER / 2)) (ipv4_bytes header) 0 0;
  t ← sum_be16 (Z.to_nat (extra_len / 2)) m p t;
  t ← fold_loop 4 t;
  Ok (hton16 (u16 (Z.lnot t))).

(** The packet is [data_len] bytes at [m + data]. [None]: it is refused; or the header
    and the place of the payload. *)
Definition ipv4_check (m : list Z) (data data_len : Z) : res (option (ipv4_header * Z * Z)) :=
  assert_ (0 <=? data_len);;
  if data_len <? IPV4_HEADER then Ok None else
  b ← rd_list m data IPV4_HEADER;
  let h := ipv4_of b in
  if negb (IPV4_GET_VERSION h =? 4) then Ok None else
  let header_len := u16 (IPV4_GET_IHL h * 4) in
  if header_len <? IPV4_HEADER then Ok None else
  if data_len <? header_len then Ok None else
  let total_length := ntoh16 (i4_total_length h) in
  if total_length <? header_len then Ok None else
  if data_len <? total_length then Ok None else
  checksum_computed ← ipv4_checksum (h <| i4_checksum := hton16 0 |>) m (data + IPV4_HEADER) (header_len - IPV4_HEADER);
  if negb (bool_decide (i4_checksum h = checksum_computed)) then Ok None else
  Ok (Some (h, data + header_len, total_length - header_len)).

(** ** misc/ipv6_proto.h *)
Definition IPV6_NEXT_UDP : Z := 17.
Record ipv6_header : Type := Ipv6Header {
  version4_tc4 : Z; tc4_fl4 : Z; i6_fl : list Z; i6_payload_length : list Z; i6_next_header : Z; i6_hop_limit : Z;
  i6_source : list Z; i6_destination : list Z }.
Definition IPV6_HEADER : Z := 40.
Definition IPV6_NEXT_OFFSET : Z := 6.
Definition ipv6_bytes (h : ipv6_header) : list Z :=
  [version4_tc4 h; tc4_fl4 h] ++ i6_fl h ++ i6_payload_length h ++ [i6_next_header h; i6_hop_limit h]
  ++ i6_source h ++ i6_destination h.
Definition ipv6_of (b : list Z) : ipv6_header :=
  Ipv6Header (byte_at b 0) (byte_at b 1) (slice b 2 2) (slice b 4 2) (byte_at b 6) (byte_at b 7)
    (slice b 8 16) (slice b 24 16).
Definition ipv6_check (m : list Z) (data data_len : Z) : res (option (ipv6_header * Z * Z)) :=
  assert_ (0 <=? data_len);;
  if data_len <? IPV6_HEADER then Ok None else
  b ← rd_list m data IPV6_HEADER;
  let h := ipv6_of b in
  if negb (Z.shiftr (version4_tc4 h) 4 =? 6) then Ok None else
  let payload_length := ntoh16 (i6_payload_length h) in
  if usz (data_len - IPV6_HEADER) <? payload_length then Ok None else
  Ok (Some (h, data + IPV6_HEADER, payload_length)).

(** ** misc/udp_proto.h *)
Record udp_header : Type := UdpHeader {
  ud_source_port : list Z; ud_dest_port : list Z; ud_length : list Z; ud_checksum : list Z }.
#[global] Instance eta_udp : Eta udp_header := fun r => UdpHeader
  (ud_source_port r) (ud_dest_port r) (ud_length r) (ud_checksum r).
Definition UDP_HEADER : Z := 8.
Definition udp_bytes (h : udp_header) : list Z := ud_source_port h ++ ud_dest_port h ++ ud_length h ++ ud_checksum h.
Definition udp_of (b : list Z) : udp_header := UdpHeader (slice b 0 2) (slice b 2 2) (slice b 4 2) (slice b 6 2).

Definition udp_checksum_summer (m : list Z) (p len : Z) : res Z :=
  assert_ (len mod 2 =? 0);; sum_be16 (Z.to_nat (len / 2)) m p 0.

(** what both checksums add for the payload at [m + p] *)
Definition udp_payload_sum (m : list Z) (p payload_len t : Z) : res Z :=
  if payload_len mod 2 =? 0 then s ← udp_checksum_summer m p payload_len; Ok (u32 (t + s))
  else
    s ← udp_checksum_summer m p (payload_len - 1);
    b ← rd m (p + payload_len - 1);
    s' ← udp_checksum_summer (hton16 (u16 (Z.shiftl b 8))) 0 2;
    Ok (u32 (u32 (t + s) + s')).
(** their end *)
Definition udp_finish (t : Z) : res (list Z) :=
  t ← fold_loop 4 t;
  let t := u32 (Z.lnot t) in
  let t := if t =? 0 then 2 ^ 16 - 1 else t in
  Ok (hton16 (u16 t)).

Definition udp_checksum (header : udp_header) (m : list Z) (p payload_len : Z) (source_addr dest_addr : list Z) : res (list Z) :=
  s1 ← udp_checksum_summer source_addr 0 4;
  s2 ← udp_checksum_summer dest_addr 0 4;
  s3 ← udp_checksum_summer (hton16 IPV4_PROTOCOL_UDP) 0 2;
  s4 ← udp_checksum_summer (hton16 (u16 (UDP_HEADER + payload_len))) 0 2;
  s5 ← udp_checksum_summer (udp_bytes header) 0 UDP_HEADER;
  t ← udp_payload_sum m p payload_len (u32 (u32 (u32 (u32 (u32 (0 + s1) + s2) + s3) + s4) + s5));
  udp_finish t.

Definition udp_ip6_checksum (header : udp_header) (m : list Z) (p payload_len : Z) (source_addr dest_addr : list Z) : res (list Z) :=
  s1 ← udp_checksum_summer source_addr 0 16;
  s2 ← udp_checksum_summer dest_addr 0 16;
  s3 ← udp_checksum_summer (hton32 (u32 (UDP_HEADER + payload_len))) 0 4;
  s4 ← udp_checksum_summer (hton32 IPV6_NEXT_UDP) 0 4;
  s5 ← udp_checksum_summer (udp_bytes header) 0 UDP_HEADER;
  t ← udp_payload_sum m p payload_len (u32 (u32 (u32 (u32 (u32 (0 + s1) + s2) + s3) + s4) + s5));
  udp_finish t.

Definition udp_check (m : list Z) (data data_len : Z) : res (option (udp_header * Z * Z)) :=
  assert_ (0 <=? data_len);;
  if data_len <? UDP_HEADER then Ok None else
  b ← rd_list m data UDP_HEADER;
  let h := udp_of b in
  let data := data + UDP_HEADER in
  let data_len := data_len - UDP_HEADER in
  let udp_length := ntoh16 (ud_length h) in
  if udp_length <? UDP_HEADER then Ok None else
  if usz (UDP_HEADER + data_len) <? udp_length then Ok None else
  Ok (Some (h, data, udp_length - UDP_HEADER)).
