(* ===== verification/Device.v ===== *)
(** The device side of tun2socks: tuntap/BTap.c (the Linux code), flow/SinglePacketBuffer.c,
    and from tun2socks/tun2socks.c the handlers of packets that come from the device or go
    to it. The four jobs of the two interfaces carry a packet from the device's descriptor
    to [device_read_handler_send] and back. *)
From S2P Require Import Prelude CMem Sys Flow Chunk SocksClient TcpClient Packet.

(** ** BTap *)
Definition BREACTOR_READ : Z := 1.
Definition BREACTOR_WRITE : Z := 2.
Inductive BTap_dev_type : Type := BTAP_DEV_TUN | BTAP_DEV_TAP.
Inductive BTap_init_data : Type := BTAP_INIT_STRING (name : option (list Z)) | BTAP_INIT_FD (fd mtu : Z).
Definition BTAP_ETHERNET_HEADER_LENGTH : Z := 14.
Definition is_tap (t : BTap_dev_type) : bool := match t with BTAP_DEV_TAP => true | BTAP_DEV_TUN => false end.

(** [BTap]. [t_output_packet] is an offset into the buffer of the receiver. *)
Record BTap : Type := BTap_ {
  t_close_fd : bool; t_fd : Z; t_frame_mtu : Z; t_poll_events : Z;
  t_output : PacketRecvInterface; t_output_packet : option Z }.
#[global] Instance eta_tap : Eta BTap := fun r => BTap_
  (t_close_fd r) (t_fd r) (t_frame_mtu r) (t_poll_events r) (t_output r) (t_output_packet r).

(** enum UdpMode *)
Inductive UdpMode : Type := UdpModeNone | UdpModeUdpgw | UdpModeSocks.
#[global] Instance UdpMode_eq : EqDecision UdpMode.
Proof. solve_decision. Defined.

(** The globals of tun2socks.c that this side uses: [quitting], [device], the buffer of
    [device_read_buffer], [device_read_interface], [device_write_buf], [udp_mode],
    [udp_mtu], whether [options.netif_ip6addr] is set, [options.udpgw_transparent_dns],
    [netif_ipaddr.ipv4]. *)
Record dev : Type := Dev {
  d_quitting : bool; d_tap : BTap; d_buf : list Z; d_read_if : PacketPassInterface; d_write_buf : list Z;
  d_udp_mode : UdpMode; d_udp_mtu : Z; d_ip6 : bool; d_transparent_dns : bool; d_netif_ipaddr : list Z }.
#[global] Instance eta_dev : Eta dev := fun r => Dev
  (d_quitting r) (d_tap r) (d_buf r) (d_read_if r) (d_write_buf r)
  (d_udp_mode r) (d_udp_mtu r) (d_ip6 r) (d_transparent_dns r) (d_netif_ipaddr r).

Section device.
Context {OS : Os}.
Abbreviation D A := (Prog dev A).

Definition tun_ (c : tun_call) : D ret := syscall (CTun c).
Definition gtap : D BTap := pgets d_tap.
Definition mtap (f : BTap -> BTap) : D unit := pmod (fun d => d <| d_tap := f (d_tap d) |>).

Definition terminate : D unit :=
  d ← pget; passert (negb (d_quitting d));;
  pmod (fun d => d <| d_quitting := true |>);;
  _ ← tun_ ReactorQuit; mret tt.
Definition device_error_handler : D unit := d ← pget; passert (negb (d_quitting d));; terminate.
Definition tap_report_error : D unit := device_error_handler.

(** [o->output]'s functions *)
Definition output_Done (len : Z) : D unit :=
  t ← gtap; i ← lift (PacketRecvInterface_Done (t_output t) len); mtap (fun t => t <| t_output := i |>).
Definition set_events (events : Z) : D unit :=
  mtap (fun t => t <| t_poll_events := events |>);;
  t ← gtap; _ ← tun_ (SetFdEvents (t_fd t) (t_poll_events t)); mret tt.
(** [read(o->fd, packet, o->frame_mtu)] *)
Definition tap_read (packet : Z) : D Z :=
  t ← gtap;
  r ← tun_ (Read (t_fd t) (t_frame_mtu t));
  (if 0 <? rv r then
     d ← pget; b ← lift (wr_list (d_buf d) packet (rdata r)); pmod (fun d => d <| d_buf := b |>)
   else mret tt);;
  mret (rv r).
Definition would_block (e : Z) : bool := (e =? 11).

Definition fd_handler (events : Z) : D unit :=
  if Z.land events BREACTOR_READ =? 0 then mret tt else
  t ← gtap; packet ← deref (t_output_packet t);
  bytes ← tap_read packet;
  if bytes <=? 0 then
    e ← errno;
    if (bytes =? 0) || would_block e then mret tt else tap_report_error
  else
    passert (bytes <=? t_frame_mtu t);;
    mtap (fun t => t <| t_output_packet := None |>);;
    set_events (Z.land (t_poll_events t) (Z.lnot BREACTOR_READ));;
    output_Done bytes.

Definition tap_output_handler_recv (data : Z) : D unit :=
  t ← gtap; passert (bool_decide (t_output_packet t = None));;
  bytes ← tap_read data;
  if bytes <=? 0 then
    e ← errno;
    if (bytes =? 0) || would_block e then
      mtap (fun t => t <| t_output_packet := Some data |>);;
      set_events (Z.lor (t_poll_events t) BREACTOR_READ)
    else tap_report_error
  else
    passert (bytes <=? t_frame_mtu t);; output_Done bytes.

(** [fail1] *)
Definition tap_fail1 : D bool :=
  t ← gtap;
  (if t_close_fd t then r ← syscall (CClose (t_fd t)); passert (rv r =? 0) else mret tt);; mret false.
(** [struct ifreq] with a name and, behind it, the flags; what [ioctl] stored there *)
Definition IFNAMSIZ : Z := 16.
Definition ifreq (name : list Z) (flags : Z) : list Z :=
  take 15 (name ++ replicate 15 0) ++ [0] ++ [flags mod 2 ^ 8; flags / 2 ^ 8] ++ replicate 22 0.
Definition ifr_name (r : ret) : list Z := slice (rdata r) 0 IFNAMSIZ.
Definition ifr_int (r : ret) : Z :=
  s32 (byte_at (rdata r) 16 + 2 ^ 8 * byte_at (rdata r) 17 + 2 ^ 16 * byte_at (rdata r) 18 + 2 ^ 24 * byte_at (rdata r) 19).
Definition TUNSETIFF : Z := 0x400454CA.
Definition SIOCGIFMTU : Z := 0x8921.
Definition IFF_TUN : Z := 1.
Definition IFF_TAP : Z := 2.
Definition IFF_NO_PI : Z := 0x1000.
(** the string in an array: [strcpy] needs its end *)
Definition strcpy_ (b : list Z) : res (list Z) :=
  n ← memchr b 0 0 (zlen b); match n with Some n => Ok (slice b 0 n) | None => Ub end.

(** the descriptor and the MTU; [None]: the device could not be opened, [Some false]:
    it was, and then something failed *)
Definition tap_open (dev_type : BTap_dev_type) (init : BTap_init_data) : D (option bool) :=
  match init with
  | BTAP_INIT_FD fd mtu =>
      passert (0 <=? fd);; passert (0 <=? mtu);;
      passert (negb (is_tap dev_type) || (BTAP_ETHERNET_HEADER_LENGTH <=? mtu));;
      mtap (fun t => t <| t_fd := fd |> <| t_frame_mtu := mtu |>);; mret (Some true)
  | BTAP_INIT_STRING name =>
      r ← tun_ OpenTun;
      mtap (fun t => t <| t_fd := rv r |>);;
      if rv r <? 0 then mret None else
      c ← tun_ (Ioctl (rv r) TUNSETIFF (ifreq (default [] name) (Z.lor IFF_NO_PI (if is_tap dev_type then IFF_TAP else IFF_TUN))));
      if rv c <? 0 then mret (Some false) else
      devname_real ← lift (strcpy_ (ifr_name c));
      s ← syscall (CSocket 2 2);
      if rv s <? 0 then mret (Some false) else
      m ← tun_ (Ioctl (rv s) SIOCGIFMTU (ifreq devname_real 0));
      if rv m <? 0 then _ ← syscall (CClose (rv s)); mret (Some false) else
      mtap (fun t => t <| t_frame_mtu := ifr_int m + (if is_tap dev_type then BTAP_ETHERNET_HEADER_LENGTH else 0) |>);;
      _ ← syscall (CClose (rv s)); mret (Some true)
  end.

Definition BTap_Init2 (dev_type : BTap_dev_type) (init : BTap_init_data) : D bool :=
  mtap (fun t => t <| t_close_fd := match init with BTAP_INIT_FD _ _ => false | _ => true end |>);;
  opened ← tap_open dev_type init;
  match opened with
  | None => mret false
  | Some false => tap_fail1
  | Some true =>
      t ← gtap;
      r ← tun_ (Fcntl (t_fd t));
      if rv r <? 0 then tap_fail1 else
      r ← tun_ (AddFd (t_fd t));
      if rv r =? 0 then tap_fail1 else
      mtap (fun t => t <| t_poll_events := 0 |>);;
      i ← lift (PacketRecvInterface_Init (t_frame_mtu t));
      mtap (fun t => t <| t_output := i |> <| t_output_packet := None |>);;
      mret true
  end.

Definition BTap_Free : D unit :=
  mtap (fun t => t <| t_output := PacketRecvInterface_Free (t_output t) |>);;
  t ← gtap; _ ← tun_ (RemoveFd (t_fd t));
  if t_close_fd t then r ← syscall (CClose (t_fd t)); passert (rv r =? 0) else mret tt.

Definition BTap_GetMTU (d : dev) : Z := t_frame_mtu (d_tap d).

(** [data] is what the packet's bytes are; nothing depends on the result of [write]. *)
Definition BTap_Send (data : list Z) : D unit :=
  d ← pget; passert (zlen data <=? BTap_GetMTU d);;
  _ ← tun_ (Write (t_fd (d_tap d)) data); mret tt.

(** ** SinglePacketBuffer *)
Definition single_input_handler_done (in_len : Z) : D unit :=
  d ← pget; i ← lift (PacketPassInterface_Sender_Send (d_read_if d) 0 in_len); pmod (fun d => d <| d_read_if := i |>).
Definition single_receive : D unit :=
  t ← gtap; i ← lift (PacketRecvInterface_Receiver_Recv (t_output t) 0); mtap (fun t => t <| t_output := i |>).
Definition single_output_handler_done : D unit := single_receive.

Definition SinglePacketBuffer_Init : D bool :=
  d ← pget;
  passert (PacketRecvInterface_GetMTU (t_output (d_tap d)) <=? PacketPassInterface_GetMTU (d_read_if d));;
  r ← tun_ (BAlloc (PacketRecvInterface_GetMTU (t_output (d_tap d))));
  if rv r =? 0 then mret false else
  pmod (fun d => d <| d_buf := resize_block (Z.to_nat (PacketRecvInterface_GetMTU (t_output (d_tap d)))) [] (rdata r) |>);;
  single_receive;; mret true.
Definition SinglePacketBuffer_Free : D unit :=
  d ← pget; _ ← syscall (CFree (d_buf d)); mret tt.

(** ** Packets from the device *)
Definition netif_input_func (p : list Z) : D Z :=
  d ← pget;
  let ip_version := if 0 <? zlen p then Z.shiftr (byte_at p 0) 4 else 0 in
  if ip_version =? 4 then r ← tun_ (IpInput p); mret (rv r)
  else if (ip_version =? 6) && d_ip6 d then r ← tun_ (Ip6Input p); mret (rv r)
  else _ ← tun_ (PbufFree p); mret ERR_OK.

Definition addr_pair (a : BAddr) : Z * list Z := (ba_type a, ba_body a).
(** The end of [process_device_udp_packet]: the packet's data is [data_len] bytes at
    [data]. *)
Definition submit_udp (local_addr remote_addr : BAddr) (is_dns : bool) (data data_len : Z) : D bool :=
  d ← pget;
  if d_udp_mtu d <? data_len then mret false else
  b ← lift (rd_list (d_buf d) data data_len);
  match d_udp_mode d with
  | UdpModeUdpgw => _ ← tun_ (UdpGwSubmit (addr_pair local_addr) (addr_pair remote_addr) is_dns b); mret true
  | UdpModeSocks => _ ← tun_ (UdpSubmit (addr_pair local_addr) (addr_pair remote_addr) b); mret true
  | UdpModeNone => mret true
  end.

Definition process_udp4 (data data_len : Z) : D bool :=
  d ← pget;
  if data_len <? IPV4_HEADER then mret false else
  proto ← lift (rd (d_buf d) (data + IPV4_PROTOCOL_OFFSET));
  if negb (proto =? IPV4_PROTOCOL_UDP) then mret false else
  ip ← lift (ipv4_check (d_buf d) data data_len);
  match ip with
  | None => mret false
  | Some (iph, data, data_len) =>
      udp ← lift (udp_check (d_buf d) data data_len);
      match udp with
      | None => mret false
      | Some (udph, data, data_len) =>
          checksum_computed ← lift (udp_checksum (udph <| ud_checksum := [0; 0] |>) (d_buf d) data (u16 data_len)
            (i4_source iph) (i4_destination iph));
          if negb (bool_decide (ud_checksum udph = checksum_computed)) then mret false else
          let local_addr := BAddr_MakeIPv4 (i4_source iph) (ud_source_port udph) in
          let remote_addr := BAddr_MakeIPv4 (i4_destination iph) (ud_dest_port udph) in
          if bool_decide (ud_dest_port udph = hton16 443) then mret false else
          let is_dns := d_transparent_dns d && bool_decide (i4_destination iph = d_netif_ipaddr d)
            && bool_decide (ud_dest_port udph = hton16 53) in
          submit_udp local_addr remote_addr is_dns data data_len
      end
  end.

Definition process_udp6 (data data_len : Z) : D bool :=
  d ← pget;
  if negb (d_ip6 d) then mret false else
  if data_len <? IPV6_HEADER then mret false else
  next ← lift (rd (d_buf d) (data + IPV6_NEXT_OFFSET));
  if negb (next =? IPV6_NEXT_UDP) then mret false else
  ip ← lift (ipv6_check (d_buf d) data data_len);
  match ip with
  | None => mret false
  | Some (iph, data, data_len) =>
      udp ← lift (udp_check (d_buf d) data data_len);
      match udp with
      | None => mret false
      | Some (udph, data, data_len) =>
          checksum_computed ← lift (udp_ip6_checksum (udph <| ud_checksum := [0; 0] |>) (d_buf d) data (u16 data_len)
            (i6_source iph) (i6_destination iph));
          if negb (bool_decide (ud_checksum udph = checksum_computed)) then mret false else
          let local_addr := BAddr_MakeIPv6 (i6_source iph) (ud_source_port udph) in
          let remote_addr := BAddr_MakeIPv6 (i6_destination iph) (ud_dest_port udph) in
          if bool_decide (ud_dest_port udph = hton16 443) then mret false else
          submit_udp local_addr remote_addr false data data_len
      end
  end.

Definition process_device_udp_packet (data data_len : Z) : D bool :=
  passert (0 <=? data_len);;
  d ← pget;
  if bool_decide (d_udp_mode d = UdpModeNone) then mret false else
  ip_version ← (if 0 <? data_len then b ← lift (rd (d_buf d) data); mret (Z.shiftr b 4) else mret 0);
  if ip_version =? 4 then process_udp4 data data_len
  else if ip_version =? 6 then process_udp6 data data_len
  else mret false.

Definition device_read_handler_send (data data_len : Z) : D unit :=
  d ← pget; passert (negb (d_quitting d));; passert (0 <=? data_len);;
  i ← lift (PacketPassInterface_Done (d_read_if d)); pmod (fun d => d <| d_read_if := i |>);;
  udp ← process_device_udp_packet data data_len;
  if (udp : bool) then mret tt else
  if 2 ^ 16 - 1 <? data_len then mret tt else
  r ← tun_ (PbufAlloc data_len);
  if rv r =? 0 then mret tt else
  d ← pget; p ← lift (rd_list (d_buf d) data data_len);
  err ← netif_input_func p;
  if negb (err =? ERR_OK) then _ ← tun_ (PbufFree p); mret tt else mret tt.

(** ** Packets to the device *)

(** [do { ... } while (p = p->next)]: the length, or no space *)
Fixpoint gather (p : list (list Z)) (len : Z) : D (option Z) :=
  match p with
  | [] => mret (Some len)
  | payload :: p =>
      d ← pget;
      if BTap_GetMTU d - len <? zlen payload then mret None else
      b ← lift (wr_list (d_write_buf d) len payload);
      pmod (fun d => d <| d_write_buf := b |>);;
      gather p (len + zlen payload)
  end.
(** [p]: the payloads of the pbuf chain, at least one *)
Definition common_netif_output (p : list (list Z)) : D Z :=
  d ← pget;
  if d_quitting d then mret ERR_OK else
  match p with
  | [payload] =>
      if BTap_GetMTU d <? zlen payload then mret ERR_OK else BTap_Send payload;; mret ERR_OK
  | _ =>
      len ← gather p 0;
      match len with
      | None => mret ERR_OK
      | Some len => d ← pget; b ← lift (rd_list (d_write_buf d) 0 len); BTap_Send b;; mret ERR_OK
      end
  end.

(** The headers, then the data, into [device_write_buf], and the packet to the device. *)
Definition send_parts (iph udph data : list Z) : D unit :=
  d ← pget;
  b ← lift (wr_list (d_write_buf d) 0 iph);
  b ← lift (wr_list b (zlen iph) udph);
  b ← lift (wr_list b (zlen iph + zlen udph) data);
  pmod (fun d => d <| d_write_buf := b |>);;
  p ← lift (rd_list b 0 (zlen iph + zlen udph + zlen data));
  BTap_Send p.

Definition udp_send_packet_to_device (local_addr remote_addr : BAddr) (data : list Z) : D unit :=
  d ← pget;
  let data_len := zlen data in
  passert (negb (bool_decide (d_udp_mode d = UdpModeNone)));;
  passert ((ba_type local_addr =? BADDR_TYPE_IPV4) || (ba_type local_addr =? BADDR_TYPE_IPV6));;
  passert (ba_type local_addr =? ba_type remote_addr);;
  if ba_type local_addr =? BADDR_TYPE_IPV4 then
    if (usz (2 ^ 16 - 1 - (IPV4_HEADER + UDP_HEADER)) <? data_len)
       || (BTap_GetMTU d - (IPV4_HEADER + UDP_HEADER) <? data_len) then mret tt else
    let iph := Ipv4Header (IPV4_MAKE_VERSION_IHL IPV4_HEADER) 0 (hton16 (u16 (IPV4_HEADER + UDP_HEADER + data_len)))
      (hton16 0) (hton16 0) 64 IPV4_PROTOCOL_UDP (hton16 0)
      (slice (ba_ipv4 remote_addr) 0 4) (slice (ba_ipv4 local_addr) 0 4) in
    c ← lift (ipv4_checksum iph [] 0 0);
    let iph := iph <| i4_checksum := c |> in
    let udph := UdpHeader (slice (ba_ipv4 remote_addr) 4 2) (slice (ba_ipv4 local_addr) 4 2)
      (hton16 (u16 (UDP_HEADER + data_len))) (hton16 0) in
    c ← lift (udp_checksum udph data 0 (u16 data_len) (i4_source iph) (i4_destination iph));
    send_parts (ipv4_bytes iph) (udp_bytes (udph <| ud_checksum := c |>)) data
  else
    if negb (d_ip6 d) then mret tt else
    if (usz (2 ^ 16 - 1 - UDP_HEADER) <? data_len)
       || (BTap_GetMTU d - (IPV6_HEADER + UDP_HEADER) <? data_len) then mret tt else
    let iph := Ipv6Header (Z.shiftl 6 4) 0 (hton16 0) (hton16 (u16 (UDP_HEADER + data_len))) IPV6_NEXT_UDP 64
      (slice (ba_ipv6 remote_addr) 0 16) (slice (ba_ipv6 local_addr) 0 16) in
    let udph := UdpHeader (slice (ba_ipv6 remote_addr) 16 2) (slice (ba_ipv6 local_addr) 16 2)
      (hton16 (u16 (UDP_HEADER + data_len))) (hton16 0) in
    c ← lift (udp_ip6_checksum udph data 0 (u16 data_len) (i6_source iph) (i6_destination iph));
    send_parts (ipv6_bytes iph) (udp_bytes (udph <| ud_checksum := c |>)) data.

(** ** The jobs of the two interfaces *)
Inductive dev_job : Type := DRecvOp | DRecvDone | DPassOp | DPassDone | DFd (events : Z).

Definition dev_job_ready (d : dev) (j : dev_job) : bool :=
  match j with
  | DRecvOp => pri_job_operation (t_output (d_tap d))
  | DRecvDone => pri_job_done (t_output (d_tap d))
  | DPassOp => ppi_job_operation (d_read_if d)
  | DPassDone => ppi_job_done (d_read_if d)
  | DFd events => Z.land events BREACTOR_READ =? Z.land (Z.land events BREACTOR_READ) (t_poll_events (d_tap d))
  end.

Definition run_dev_job (j : dev_job) : D unit :=
  match j with
  | DRecvOp =>
      t ← gtap; '(i, data) ← lift (PacketRecvInterface_job_operation (t_output t));
      mtap (fun t => t <| t_output := i |>);; tap_output_handler_recv data
  | DRecvDone =>
      t ← gtap; '(i, len) ← lift (PacketRecvInterface_job_done (t_output t));
      mtap (fun t => t <| t_output := i |>);; single_input_handler_done len
  | DPassOp =>
      d ← pget; '(i, p) ← lift (PacketPassInterface_job_operation (d_read_if d));
      pmod (fun d => d <| d_read_if := i |>);; device_read_handler_send (fst p) (snd p)
  | DPassDone =>
      d ← pget; i ← lift (PacketPassInterface_job_done (d_read_if d));
      pmod (fun d => d <| d_read_if := i |>);; single_output_handler_done
  | DFd events => fd_handler events
  end.
End device.
