(* ===== verification/Addr.v ===== *)
(** Addresses and numbers as text: misc/parse_number.h, misc/memref.h, misc/ipaddr.h,
    misc/ipaddr6.h, and the parts of system/BAddr.h that read and print addresses. A
    [MemRef] is the list of its characters; a C string is given without its NUL. *)
From S2P Require Import Prelude CMem Sys Mpool Flow SocksClient TcpClient Packet.

(** ** misc/memref.h *)
Definition MemRef_SubFrom (o : list Z) (offset : Z) : res (list Z) :=
  assert_ (offset <=? zlen o);; Ok (slice o offset (zlen o - offset)).
Definition MemRef_SubTo (o : list Z) (length : Z) : res (list Z) :=
  assert_ (length <=? zlen o);; Ok (slice o 0 length).
Definition MemRef_FindChar (o : list Z) (ch : Z) : res (option Z) := memchr o 0 ch (zlen o).

(** ** misc/parse_number.h *)
Definition decode_decimal_digit (c : Z) : Z := if (48 <=? c) && (c <=? 57) then c - 48 else -1.
Definition decode_hex_digit (c : Z) : Z :=
  if (48 <=? c) && (c <=? 57) then c - 48
  else if (65 <=? c) && (c <=? 70) then c - 55
  else if (97 <=? c) && (c <=? 102) then c - 87 else -1.
Definition UINTMAX_MAX : Z := 2 ^ 64 - 1.
(** "18446744073709551615" *)
Definition parse_number__uintmax_max_str : list Z :=
  [49; 56; 52; 52; 54; 55; 52; 52; 48; 55; 51; 55; 48; 57; 53; 53; 49; 54; 49; 53].

Fixpoint parse__no_overflow (str : list Z) (n : Z) : option Z :=
  match str with
  | [] => Some n
  | c :: str => if (c <? 48) || (57 <? c) then None else parse__no_overflow str (u64 (10 * n + (c - 48)))
  end.
(** the loop that removes leading zeros *)
Fixpoint skip_zeros (str : list Z) : list Z :=
  match str with
  | c :: str' => if c =? 48 then skip_zeros str' else str
  | [] => []
  end.
Definition parse_unsigned_integer (str : list Z) : option Z :=
  if zlen str =? 0 then None else
  let str := skip_zeros str in
  let max_len := zlen parse_number__uintmax_max_str in
  if (max_len <? zlen str) || ((zlen str =? max_len) && (0 <? list_cmp str parse_number__uintmax_max_str)) then None
  else parse__no_overflow str 0.
Fixpoint parse_hex_loop (str : list Z) (n : Z) : option Z :=
  match str with
  | [] => Some n
  | c :: str =>
      let digit := decode_hex_digit c in
      if digit <? 0 then None else
      if UINTMAX_MAX / 16 <? n then None else
      let n := u64 (n * 16) in
      if UINTMAX_MAX - n <? digit then None else parse_hex_loop str (u64 (n + digit))
  end.
Definition parse_unsigned_hex_integer (str : list Z) : option Z :=
  if zlen str =? 0 then None else parse_hex_loop str 0.
Definition parse_signmag_integer (str : list Z) : option (Z * Z) :=
  let '(sign, str) :=
    match str with
    | c :: rest => if (c =? 43) || (c =? 45) then (1 - 2 * (if c =? 45 then 1 else 0), rest) else (1, str)
    | [] => (1, str)
    end in
  match parse_unsigned_integer str with None => None | Some mag => Some (sign, mag) end.

Fixpoint repr_size_loop (fuel : nat) (x size : Z) : res Z :=
  match fuel with
  | O => Fuel
  | S fuel => let size := size + 1 in let x := x / 10 in if 0 <? x then repr_size_loop fuel x size else Ok size
  end.
(** A 64-bit number has at most 20 digits. *)
Definition DIGITS : nat := 20.
Definition compute_decimal_repr_size (x : Z) : res Z := repr_size_loop DIGITS x 0.
Fixpoint repr_loop (fuel : nat) (m : list Z) (out x : Z) : res (list Z) :=
  match fuel with
  | O => Fuel
  | S fuel =>
      m ← wr m (out - 1) (48 + x mod 10);
      let x := x / 10 in
      if 0 <? x then repr_loop fuel m (out - 1) x else Ok m
  end.
Definition generate_decimal_repr (m : list Z) (x out repr_size : Z) : res (list Z) :=
  n ← compute_decimal_repr_size x; assert_ (repr_size =? n);;
  repr_loop DIGITS m (out + repr_size) x.
Definition generate_decimal_repr_string (m : list Z) (x out : Z) : res (list Z * Z) :=
  repr_size ← compute_decimal_repr_size x;
  m ← generate_decimal_repr m x out repr_size;
  m ← wr m (out + repr_size) 0;
  Ok (m, repr_size).

(** The digits that [sprintf] writes for [%d], [%u] and [%x]. *)
Definition digit_char (d : Z) : Z := if d <? 10 then 48 + d else 87 + d.
Fixpoint print_digits (fuel : nat) (base n : Z) (acc : list Z) : list Z :=
  match fuel with
  | O => acc
  | S fuel => if n <? base then digit_char n :: acc else print_digits fuel base (n / base) (digit_char (n mod base) :: acc)
  end.
Definition print_num (base n : Z) : list Z := print_digits DIGITS base n [].

(** ** misc/ipaddr.h. An address is its four bytes in network order. *)

(** the loop over the four parts; [i] of them are done *)
Fixpoint ipv4_loop (fuel : nat) (name : list Z) (i : Z) (out : list Z) : res (option (list Z)) :=
  match fuel with
  | O => Fuel
  | S fuel =>
      dot ← MemRef_FindChar name 46;
      let j := match dot with Some j => j | None => zlen name end in
      if ((j =? zlen name) && (i <? 3)) || ((j <? zlen name) && (i =? 3)) then Ok None else
      if (j <? 1) || (3 <? j) then Ok None else
      part ← MemRef_SubTo name j;
      match parse_unsigned_integer part with
      | None => Ok None
      | Some d =>
          if 255 <? d then Ok None else
          out ← wr out i d;
          if i =? 3 then Ok (Some out) else ipv4_loop fuel (slice name (j + 1) (zlen name - (j + 1))) (i + 1) out
      end
  end.
(** [out] is what the variable held. *)
Definition ipaddr_parse_ipv4_addr (name out : list Z) : res (option (list Z)) := ipv4_loop 4 name 0 out.
Definition ipaddr_parse_ipv4_prefix (str : list Z) : option Z :=
  match parse_unsigned_integer str with None => None | Some d => if 32 <? d then None else Some d end.
Definition ipaddr_parse_ipv4_ifaddr (str out : list Z) : res (option (list Z * Z)) :=
  slash ← MemRef_FindChar str 47;
  match slash with
  | None => Ok None
  | Some slash_pos =>
      a ← MemRef_SubTo str slash_pos; addr ← ipaddr_parse_ipv4_addr a out;
      match addr with
      | None => Ok None
      | Some addr =>
          p ← MemRef_SubFrom str (slash_pos + 1);
          match ipaddr_parse_ipv4_prefix p with None => Ok None | Some prefix => Ok (Some (addr, prefix)) end
      end
  end.
(** [t |= 1 << (width - i - 1)] for [i] from 0 *)
Fixpoint top_bits (n : nat) (width : Z) (t : Z) : Z :=
  match n with O => t | S n => Z.lor (top_bits n width t) (Z.shiftl 1 (width - Z.of_nat n - 1)) end.
Definition ipaddr_ipv4_mask_from_prefix (prefix : Z) : res (list Z) :=
  assert_ (0 <=? prefix);; assert_ (prefix <=? 32);; Ok (hton32 (u32 (top_bits (Z.to_nat prefix) 32 0))).
Definition ntoh32 (b : list Z) : Z := 2 ^ 24 * byte_at b 0 + 2 ^ 16 * byte_at b 1 + 2 ^ 8 * byte_at b 2 + byte_at b 3.
(** [for (i = 0; i <= 32; i++)], [n] turns to go *)
Fixpoint prefix_loop (n : nat) (i mask : Z) : option Z :=
  match n with
  | O => None
  | S n => if mask =? u32 (top_bits (Z.to_nat i) 32 0) then Some i else prefix_loop n (i + 1) mask
  end.
Definition ipaddr_ipv4_prefix_from_mask (mask : list Z) : option Z := prefix_loop 33 0 (ntoh32 mask).
Definition ipaddr_ipv4_ifaddr_from_addr_mask (addr mask : list Z) : option (list Z * Z) :=
  match ipaddr_ipv4_prefix_from_mask mask with None => None | Some prefix => Some (addr, prefix) end.
Definition land_bytes (a m : list Z) : list Z := zip_with Z.land a m.
Definition ipaddr_ipv4_addrs_in_network (addr1 addr2 : list Z) (netprefix : Z) : res bool :=
  assert_ (0 <=? netprefix);; assert_ (netprefix <=? 32);;
  mask ← ipaddr_ipv4_mask_from_prefix netprefix;
  Ok (bool_decide (land_bytes addr1 mask = land_bytes addr2 mask)).
Definition ipaddr_print_addr (b : list Z) : list Z :=
  print_num 10 (byte_at b 0) ++ [46] ++ print_num 10 (byte_at b 1) ++ [46] ++ print_num 10 (byte_at b 2) ++ [46] ++ print_num 10 (byte_at b 3).
Definition ipaddr_print_ifaddr (b : list Z) (prefix : Z) : res (list Z) :=
  assert_ (0 <=? prefix);; assert_ (prefix <=? 32);; Ok (ipaddr_print_addr b ++ [47] ++ print_num 10 prefix).

(** ** misc/ipaddr6.h *)
Definition NUM_BLOCKS : Z := 8.
(** the local variables of [ipaddr6_parse_ipv6_addr] and [out_addr->bytes] *)
Record p6 : Type := P6 { p6_i : Z; p6_num_blocks : Z; p6_compress_pos : Z; p6_block : Z; p6_empty : bool; p6_bytes : list Z }.
#[global] Instance eta_p6 : Eta p6 := fun r => P6 (p6_i r) (p6_num_blocks r) (p6_compress_pos r) (p6_block r) (p6_empty r) (p6_bytes r).
(** where the first loop ends: at a dot ([ipv4_ending]) or at the end of the string *)
Inductive p6_end : Type := P6Dot (s : p6) | P6End (s : p6).

(** a block of 16 bits is done *)
Definition store_block (s : p6) : res p6 :=
  b ← wr (p6_bytes s) (2 * p6_num_blocks s) (Z.shiftr (p6_block s) 8);
  b ← wr b (2 * p6_num_blocks s + 1) (Z.land (p6_block s) 0xFF);
  Ok (s <| p6_bytes := b |> <| p6_num_blocks := p6_num_blocks s + 1 |>).

Definition p6_colon (name : list Z) (s : p6) : res (option p6) :=
  is_double ← (if p6_i s + 1 <? zlen name then c ← rd name (p6_i s + 1); Ok (c =? 58) else Ok false);
  o ← (if 0 <? p6_i s then
         if p6_empty s || (p6_num_blocks s =? 7) then Ok None
         else s ← store_block s; Ok (Some (s <| p6_block := 0 |> <| p6_empty := true |>))
       else if negb is_double then Ok None else Ok (Some s));
  match o with
  | None => Ok None
  | Some s =>
      if (is_double : bool) then
        if negb (p6_compress_pos s =? -1) then Ok None
        else Ok (Some (s <| p6_compress_pos := p6_num_blocks s |> <| p6_i := p6_i s + 2 |>))
      else Ok (Some (s <| p6_i := p6_i s + 1 |>))
  end.
Definition p6_digit (c : Z) (s : p6) : option p6 :=
  let digit := decode_hex_digit c in
  if digit <? 0 then None else
  if (2 ^ 16 - 1) / 16 <? p6_block s then None else
  let block := u16 (p6_block s * 16) in
  if 2 ^ 16 - 1 - block <? digit then None else
  Some (s <| p6_block := u16 (block + digit) |> <| p6_empty := false |> <| p6_i := p6_i s + 1 |>).
Fixpoint p6_loop (fuel : nat) (name : list Z) (s : p6) : res (option p6_end) :=
  match fuel with
  | O => Fuel
  | S fuel =>
      if negb (p6_i s <? zlen name) then Ok (Some (P6End s)) else
      c ← rd name (p6_i s);
      if c =? 46 then Ok (Some (P6Dot s)) else
      o ← (if c =? 58 then p6_colon name s else Ok (p6_digit c s));
      match o with None => Ok None | Some s => p6_loop fuel name s end
  end.

(** [while (name.ptr[i - 1] != ':') i--;] *)
Fixpoint p6_back (fuel : nat) (name : list Z) (i : Z) : res Z :=
  match fuel with
  | O => Fuel
  | S fuel => c ← rd name (i - 1); if c =? 58 then Ok i else p6_back fuel name (i - 1)
  end.
(** the loop over the dotted decimal ending, from [i] on *)
Fixpoint p6_dotted (fuel : nat) (name : list Z) (i cur_byte byte : Z) (empty : bool) (bytes : list Z) : res (option (Z * Z * bool * list Z)) :=
  match fuel with
  | O => Fuel
  | S fuel =>
      if negb (i <? zlen name) then Ok (Some (cur_byte, byte, empty, bytes)) else
      c ← rd name i;
      if c =? 46 then
        if empty || (cur_byte =? 3) then Ok None
        else bytes ← wr bytes cur_byte byte; p6_dotted fuel name (i + 1) (cur_byte + 1) 0 true bytes
      else if negb empty && (byte =? 0) then Ok None
      else
        let digit := decode_decimal_digit c in
        if digit <? 0 then Ok None else
        if (2 ^ 8 - 1) / 10 <? byte then Ok None else
        let byte := u8 (byte * 10) in
        if 2 ^ 8 - 1 - byte <? digit then Ok None else
        p6_dotted fuel name (i + 1) cur_byte (u8 (byte + digit)) false bytes
  end.
(** [ipv4_ending]; [junk] is what the array [bytes] held. *)
Definition p6_ipv4_ending (name junk : list Z) (s : p6) : res (option p6) :=
  if p6_empty s || ((p6_num_blocks s =? 0) && (p6_compress_pos s =? -1)) then Ok None else
  i ← p6_back (S (Z.to_nat (p6_i s))) name (p6_i s);
  o ← p6_dotted (S (length name)) name i 0 0 true junk;
  match o with
  | None => Ok None
  | Some (cur_byte, byte, empty, bytes) =>
      if negb (cur_byte =? 3) || empty then Ok None else
      bytes ← wr bytes cur_byte byte;
      if NUM_BLOCKS - p6_num_blocks s <? 2 then Ok None else
      b ← wr_list (p6_bytes s) (2 * p6_num_blocks s) bytes;
      Ok (Some (s <| p6_bytes := b |> <| p6_num_blocks := p6_num_blocks s + 2 |>))
  end.
(** [ipv4_done]: the blocks behind the double colon go to the end, zeros between *)
Definition p6_done (s : p6) : res (option (list Z)) :=
  if (p6_compress_pos s =? -1) && negb (p6_num_blocks s =? NUM_BLOCKS) then Ok None else
  let compress_pos := if p6_compress_pos s =? -1 then 0 else p6_compress_pos s in
  let num_rear := p6_num_blocks s - compress_pos in
  b ← memmove (p6_bytes s) (2 * (NUM_BLOCKS - num_rear)) (2 * compress_pos) (2 * num_rear);
  b ← memset b (2 * compress_pos) 0 (2 * (NUM_BLOCKS - num_rear - compress_pos));
  Ok (Some b).
Definition ipaddr6_parse_ipv6_addr (name out junk : list Z) : res (option (list Z)) :=
  o ← p6_loop (S (length name)) name (P6 0 0 (-1) 0 true out);
  match o with
  | None => Ok None
  | Some (P6Dot s) => o ← p6_ipv4_ending name junk s; match o with None => Ok None | Some s => p6_done s end
  | Some (P6End s) =>
      if negb (p6_empty s) then s ← store_block s; p6_done s
      else if negb (p6_num_blocks s =? p6_compress_pos s) then Ok None else p6_done s
  end.

Definition ipaddr6_parse_ipv6_prefix (str : list Z) : option Z :=
  match parse_unsigned_integer str with None => None | Some d => if 128 <? d then None else Some d end.
Definition ipaddr6_parse_ipv6_ifaddr (str out junk : list Z) : res (option (list Z * Z)) :=
  slash ← MemRef_FindChar str 47;
  match slash with
  | None => Ok None
  | Some slash_pos =>
      a ← MemRef_SubTo str slash_pos; addr ← ipaddr6_parse_ipv6_addr a out junk;
      match addr with
      | None => Ok None
      | Some addr =>
          p ← MemRef_SubFrom str (slash_pos + 1);
          match ipaddr6_parse_ipv6_prefix p with None => Ok None | Some prefix => Ok (Some (addr, prefix)) end
      end
  end.

(** The run of zero blocks that is left out: the first longest. *)
Fixpoint largest_run (n : nat) (addr : list Z) (i current_start current_len largest_start largest_len : Z) : Z * Z :=
  match n with
  | O => (largest_start, largest_len)
  | S n =>
      if (byte_at addr (2 * i) =? 0) && (byte_at addr (2 * i + 1) =? 0) then
        let current_len := current_len + 1 in
        if largest_len <? current_len then largest_run n addr (i + 1) current_start current_len current_start current_len
        else largest_run n addr (i + 1) current_start current_len largest_start largest_len
      else largest_run n addr (i + 1) (i + 1) 0 largest_start largest_len
  end.
Definition block_at (addr : list Z) (i : Z) : Z := Z.lor (u16 (Z.shiftl (byte_at addr (2 * i)) 8)) (byte_at addr (2 * i + 1)).
(** the texts of the blocks from [i] on, [n] of them *)
Definition blocks_text (addr : list Z) (i n : Z) : list (list Z) :=
  (fun j => print_num 16 (block_at addr j)) <$> seqZ i n.
Definition ipaddr6_print_addr (addr : list Z) : list Z :=
  let '(largest_start, largest_len) := largest_run 8 addr 0 0 0 0 0 in
  if 1 <? largest_len then
    concat ((fun t => t ++ [58]) <$> blocks_text addr 0 largest_start)
    ++ (if largest_start =? 0 then [58] else [])
    ++ concat ((fun t => 58 :: t) <$> blocks_text addr (largest_start + largest_len) (8 - (largest_start + largest_len)))
    ++ (if largest_start + largest_len =? 8 then [58] else [])
  else
    match blocks_text addr 0 8 with
    | [] => []
    | t :: ts => t ++ concat ((fun t => 58 :: t) <$> ts)
    end.
Definition ipaddr6_print_ifaddr (addr : list Z) (prefix : Z) : res (list Z) :=
  assert_ (0 <=? prefix);; assert_ (prefix <=? 128);; Ok (ipaddr6_print_addr addr ++ [47] ++ print_num 10 prefix).

(** [out_mask] holds [out] before; [1 << (8 - i - 1)] of a byte. *)
Fixpoint or_top_bits (n : nat) (m : list Z) (p i : Z) : res (list Z) :=
  match n with
  | O => Ok m
  | S n => b ← rd m p; m ← wr m p (u8 (Z.lor b (u8 (Z.shiftl 1 (8 - i - 1))))); or_top_bits n m p (i + 1)
  end.
Definition ipaddr6_ipv6_mask_from_prefix (prefix : Z) (out : list Z) : res (list Z) :=
  assert_ (0 <=? prefix);; assert_ (prefix <=? 128);;
  let quot := prefix / 8 in
  let rem := prefix mod 8 in
  m ← (if 0 <? quot then memset out 0 (2 ^ 8 - 1) quot else Ok out);
  m ← (if 0 <? 16 - quot then memset m quot 0 (16 - quot) else Ok m);
  or_top_bits (Z.to_nat rem) m quot 0.
Fixpoint full_bytes (n : nat) (mask : list Z) (i prefix : Z) : res (Z * Z) :=
  match n with
  | O => Ok (i, prefix)
  | S n => b ← rd mask i; if b =? 2 ^ 8 - 1 then full_bytes n mask (i + 1) (prefix + 8) else Ok (i, prefix)
  end.
Fixpoint byte_prefix (n : nat) (j t b : Z) : option Z :=
  match n with
  | O => None
  | S n => if b =? t then Some j else byte_prefix n (j + 1) (if j <? 8 then Z.lor t (u8 (Z.shiftl 1 (8 - j - 1))) else t) b
  end.
Fixpoint rest_zero (n : nat) (mask : list Z) (i : Z) : res bool :=
  match n with
  | O => Ok true
  | S n => b ← rd mask i; if negb (b =? 0) then Ok false else rest_zero n mask (i + 1)
  end.
Definition ipaddr6_ipv6_prefix_from_mask (mask : list Z) : res (option Z) :=
  '(i, prefix) ← full_bytes 16 mask 0 0;
  if i <? 16 then
    b ← rd mask i;
    match byte_prefix 9 0 0 b with
    | None => Ok None
    | Some j => z ← rest_zero (Z.to_nat (16 - (i + 1))) mask (i + 1); Ok (if (z : bool) then Some (prefix + j) else None)
    end
  else Ok (Some prefix).
Definition ipaddr6_ipv6_ifaddr_from_addr_mask (addr mask : list Z) : res (option (list Z * Z)) :=
  p ← ipaddr6_ipv6_prefix_from_mask mask; Ok (match p with None => None | Some prefix => Some (addr, prefix) end).
Definition ipaddr6_ipv6_addrs_in_network (addr1 addr2 : list Z) (netprefix : Z) : res bool :=
  assert_ (0 <=? netprefix);; assert_ (netprefix <=? 128);;
  let quot := netprefix / 8 in
  let rem := netprefix mod 8 in
  c ← memcmp addr1 0 addr2 0 quot;
  if negb (c =? 0) then Ok false else
  if rem =? 0 then Ok true else
  let t := u8 (top_bits (Z.to_nat rem) 8 0) in
  a ← rd addr1 quot; b ← rd addr2 quot; Ok (Z.land a t =? Z.land b t).

(** ** system/BAddr.h *)
Definition BADDR_MAX_ADDR_LEN : Z := 128.
(** [BIPAddr]: the bytes of its union are four or sixteen. *)
Record BIPAddr : Type := BIPAddr_ { bip_type : Z; bip_ip : list Z }.

Definition BIPAddr_Print (a : BIPAddr) : res (list Z) :=
  if bip_type a =? BADDR_TYPE_NONE then Ok [40; 110; 111; 110; 101; 41]
  else if bip_type a =? BADDR_TYPE_IPV4 then Ok (ipaddr_print_addr (bip_ip a))
  else if bip_type a =? BADDR_TYPE_IPV6 then
    bs ← rd_list (bip_ip a) 0 16;
    match (fun i => print_num 16 (ntoh16 (slice bs (2 * i) 2))) <$> seqZ 0 8 with
    | [] => Ok []
    | t :: ts => Ok (t ++ concat ((fun t => 58 :: t) <$> ts))
    end
  else Ub.

(** Without BADDR_TYPE_PACKET. *)
Definition BAddr_Print (a : BAddr) : res (list Z) :=
  if ba_type a =? BADDR_TYPE_NONE then Ok [40; 110; 111; 110; 101; 41]
  else if ba_type a =? BADDR_TYPE_IPV4 then
    s ← BIPAddr_Print (BIPAddr_ BADDR_TYPE_IPV4 (slice (ba_ipv4 a) 0 4)); Ok (s ++ [58] ++ print_num 10 (ntoh16 (slice (ba_ipv4 a) 4 2)))
  else if ba_type a =? BADDR_TYPE_IPV6 then
    s ← BIPAddr_Print (BIPAddr_ BADDR_TYPE_IPV6 (slice (ba_ipv6 a) 0 16)); Ok (s ++ [58] ++ print_num 10 (ntoh16 (slice (ba_ipv6 a) 16 2)))
  else Ub.

(** the position of [c] in [str] from [i] on, or the end *)
Fixpoint find_end (fuel : nat) (str : list Z) (i c : Z) : res Z :=
  match fuel with
  | O => Fuel
  | S fuel => if i <? zlen str then b ← rd str i; if b =? c then Ok i else find_end fuel str (i + 1) c else Ok i
  end.
(** where [BAddr_Parse2] finds the address and the port *)
Definition split_addr (str : list Z) : res (option (Z * list Z * list Z)) :=
  let len := zlen str in
  c ← rd str 0;
  if c =? 91 then
    i ← find_end (S (length str)) str 1 93;
    if len <=? i then Ok None else
    colon ← (if len <=? i + 1 then Ok false else c ← rd str (i + 1); Ok (c =? 58));
    if negb colon then Ok None else
    Ok (Some (BADDR_TYPE_IPV6, slice str 1 (i - 1), slice str (i + 2) (len - (i + 2))))
  else
    i ← find_end (S (length str)) str 0 58;
    if len <=? i then Ok None else
    Ok (Some (BADDR_TYPE_IPV4, slice str 0 i, slice str (i + 1) (len - (i + 1)))).
(** the port in [port_str] *)
Definition parse_port (port_str : list Z) : res (option Z) :=
  '(conv_res, e) ← strtol (port_str ++ [0]) 0;
  c ← rd (port_str ++ [0]) e;
  if (zlen port_str =? 0) || negb (c =? 0) then Ok None
  else if (conv_res <? 0) || (2 ^ 16 - 1 <? conv_res) then Ok None else Ok (Some (u16 conv_res)).

Section resolve.
Context {OS : Os} {St : Type}.

(** [getaddrinfo(host, NULL, &hints, &addrs)] and the address of the first result *)
Definition getaddrinfo (host : list Z) (type : Z) (noresolve : bool) : Prog St (option (list Z)) :=
  r ← syscall (CGetaddrinfo host 0 (if type =? BADDR_TYPE_IPV6 then AF_INET6 else AF_INET) noresolve);
  if negb (rv r =? 0) then mret None else
  ip ← lift (if type =? BADDR_TYPE_IPV6 then rd_list (rdata r) 8 16 else rd_list (rdata r) 4 4);
  mret (Some ip).

Definition BIPAddr_Resolve (str : list Z) (noresolve : bool) : Prog St (option BIPAddr) :=
  let len := zlen str in
  let v6 := (1 <=? len) && (byte_at str 0 =? 91) && (byte_at str (len - 1) =? 93) in
  let type := if v6 then BADDR_TYPE_IPV6 else BADDR_TYPE_IPV4 in
  let addr_start := if v6 then 1 else 0 in
  let addr_len := if v6 then len - 2 else len in
  if BADDR_MAX_ADDR_LEN <? addr_len then mret None else
  addr_str ← lift (rd_list str addr_start addr_len);
  ip ← getaddrinfo addr_str type noresolve;
  mret (match ip with None => None | Some ip => Some (BIPAddr_ type ip) end).

(** With [name] NULL, as all callers here pass it. *)
Definition BAddr_Parse2 (str : list Z) (noresolve : bool) : Prog St (option BAddr) :=
  let len := zlen str in
  if (len <? 1) || (1000 <? len) then mret None else
  parts ← lift (split_addr str);
  match parts with
  | None => mret None
  | Some (type, addr_str, port_str) =>
      if 128 <=? zlen addr_str then mret None else
      if 6 <=? zlen port_str then mret None else
      port ← lift (parse_port port_str);
      match port with
      | None => mret None
      | Some port =>
          ip ← getaddrinfo addr_str type noresolve;
          mret (match ip with
                | None => None
                | Some ip => Some (if type =? BADDR_TYPE_IPV6 then BAddr_MakeIPv6 ip (hton16 port) else BAddr_MakeIPv4 ip (hton16 port))
                end)
      end
  end.
End resolve.
