(* ===== verification/Lwip.v ===== *)
(** The part of lwIP that decides which connections tun2socks accepts: the list of
    network interfaces and their numbers (core/netif.c), the listening control blocks
    and what they are bound to (core/tcp.c), and the search for the listener of a segment
    (core/tcp_in.c, [tcp_input]). *)
From S2P Require Import Prelude CMem Sys Flow TcpClient.
From stdpp Require Import gmap.
#[local] Open Scope Z_scope.

Definition NETIF_NO_INDEX : Z := 0.
Definition ERR_USE : Z := -8.
Definition ERR_VAL : Z := -6.
Definition IPADDR_TYPE_V4 : Z := 0.
Definition IPADDR_TYPE_V6 : Z := 6.
Definition IPADDR_TYPE_ANY : Z := 46.
Definition IP6_ADDR_VALID : Z := 16.

(** [struct netif]: of the IPv6 addresses, the one with index 0. [n_addr] is where the
    structure is. *)
Record netif : Type := Netif {
  n_addr : Z; n_name : list Z; n_num : Z; n_ip : list Z; n_netmask : list Z; n_gw : list Z;
  n_ip6 : list Z; n_ip6_state : Z; n_up : bool; n_link_up : bool; n_pretend_tcp : bool }.
#[global] Instance eta_netif : Eta netif := fun r => Netif
  (n_addr r) (n_name r) (n_num r) (n_ip r) (n_netmask r) (n_gw r)
  (n_ip6 r) (n_ip6_state r) (n_up r) (n_link_up r) (n_pretend_tcp r).

(** What a closed and a listening control block have in common: state, type and bytes of
    [local_ip], [local_port], [bound_to_netif], [local_netif], [netif_idx], and whether
    [accept] is the application's. *)
Record lpcb : Type := Lpcb {
  q_listen : bool; q_type : Z; q_ip : list Z; q_port : Z;
  q_bound : bool; q_netif : list Z; q_netif_idx : Z; q_accept : bool }.
#[global] Instance eta_lpcb : Eta lpcb := fun r => Lpcb
  (q_listen r) (q_type r) (q_ip r) (q_port r) (q_bound r) (q_netif r) (q_netif_idx r) (q_accept r).

(** The static variables, and the control blocks by address; [l_next] is an address no
    control block has. *)
Record lwip : Type := Lwip_ {
  l_netif_num : Z; l_netif_list : list netif; l_netif_default : option Z;
  l_pcbs : gmap Z lpcb; l_next : Z; l_bound_pcbs : list Z; l_listen_pcbs : list Z }.
#[global] Instance eta_lwip : Eta lwip := fun r => Lwip_
  (l_netif_num r) (l_netif_list r) (l_netif_default r) (l_pcbs r) (l_next r) (l_bound_pcbs r) (l_listen_pcbs r).

(** ** core/netif.c *)

(** Does an interface have the number? [k] of them were looked at. *)
Fixpoint num_taken (l : list netif) (num k : Z) : res bool :=
  match l with
  | [] => Ok false
  | n :: l => assert_ (k + 1 <=? 255);; if n_num n =? num then Ok true else num_taken l num (k + 1)
  end.
Fixpoint assign_num (fuel : nat) (l : list netif) (num : Z) : res Z :=
  match fuel with
  | O => Fuel
  | S fuel =>
      let num := if num =? 255 then 0 else num in
      taken ← num_taken l num 0;
      if (taken : bool) then assign_num fuel l (u8 (num + 1)) else Ok num
  end.
(** One turn per number. *)
Definition NUM_TURNS : nat := 257.

Definition netif_get_index (n : netif) : Z := u8 (n_num n + 1).
Definition netif_is_named (n : netif) (name : list Z) : bool :=
  let num := u8 (byte_at name 2 - 48) in
  bool_decide (n_name n = take 2 name) && (n_num n =? num).

Section lwip.
Context {OS : Os}.
Abbreviation L A := (Prog lwip A).

Definition netif_add (self : Z) (ipaddr netmask gw : list Z) (init : netif -> netif * Z) : L bool :=
  w ← pget;
  let '(n, err) := init (Netif self [] (l_netif_num w) ipaddr netmask gw (replicate 16 0) 0 false false false) in
  if negb (err =? ERR_OK) then mret false else
  num ← lift (assign_num NUM_TURNS (l_netif_list w) (n_num n));
  pmod (fun w => w <| l_netif_num := if num =? 254 then 0 else u8 (num + 1) |>
                   <| l_netif_list := (n <| n_num := num |>) :: l_netif_list w |>);;
  mret true.

(** A change of the structure at [self]. *)
Definition mnetif (self : Z) (f : netif -> netif) : L unit :=
  pmod (fun w => w <| l_netif_list := (fun n => if n_addr n =? self then f n else n) <$> l_netif_list w |>).
Definition netif_set_up (self : Z) : L unit := mnetif self (fun n => n <| n_up := true |>).
Definition netif_set_link_up (self : Z) : L unit := mnetif self (fun n => n <| n_link_up := true |>).
Definition netif_set_pretend_tcp (self pretend : Z) : L unit :=
  mnetif self (fun n => n <| n_pretend_tcp := negb (pretend =? 0) |>).
Definition netif_set_default (self : option Z) : L unit := pmod (fun w => w <| l_netif_default := self |>).
Definition netif_ip6_addr_set (self : Z) (addr : list Z) : L unit := mnetif self (fun n => n <| n_ip6 := addr |>).
Definition netif_ip6_addr_set_state (self state : Z) : L unit := mnetif self (fun n => n <| n_ip6_state := state |>).

Fixpoint netif_unlink (self : Z) (l : list netif) : list netif :=
  match l with [] => [] | n :: l => if n_addr n =? self then l else n :: netif_unlink self l end.
(** The call stands for what lwIP does to connections that use the interface's address. *)
Definition netif_remove (self : Z) : L unit :=
  _ ← syscall (CTun NetifRemove);
  w ← pget;
  (if bool_decide (l_netif_default w = Some self) then netif_set_default None else mret tt);;
  pmod (fun w => w <| l_netif_list := netif_unlink self (l_netif_list w) |>).

(** ** core/tcp.c *)
Definition get_pcb (a : Z) : L lpcb := w ← pget; deref (l_pcbs w !! a).
Definition mpcb_at (a : Z) (f : lpcb -> lpcb) : L unit :=
  p ← get_pcb a; pmod (fun w => w <| l_pcbs := <[a := f p]> (l_pcbs w) |>).
(** [memp_malloc] gives the block at [l_next], or none. *)
Definition alloc_pcb (c : tun_call) (p : lpcb) : L (option Z) :=
  r ← syscall (CTun c);
  if rv r =? 0 then mret None else
  w ← pget;
  pput (w <| l_pcbs := <[l_next w := p]> (l_pcbs w) |> <| l_next := l_next w + 1 |>);;
  mret (Some (l_next w)).
Definition memp_free (a : Z) : L unit := pmod (fun w => w <| l_pcbs := delete a (l_pcbs w) |>).

Definition tcp_new_ip_type (type : Z) : L (option Z) :=
  alloc_pcb (TcpNew (type =? IPADDR_TYPE_V6))
    (Lpcb false type (replicate (if type =? IPADDR_TYPE_V6 then 16 else 4) 0) 0 false [0; 0; 0] NETIF_NO_INDEX false).

(** Is one of the control blocks bound to the interface, with an address of the type? *)
Fixpoint netif_in_use (type : Z) (ifname : list Z) (l : list Z) : L bool :=
  match l with
  | [] => mret false
  | a :: l =>
      cpcb ← get_pcb a;
      if q_bound cpcb && bool_decide (q_netif cpcb = ifname)
         && ((type =? IPADDR_TYPE_ANY) || (q_type cpcb =? IPADDR_TYPE_ANY) || (type =? q_type cpcb))
      then mret true else netif_in_use type ifname l
  end.
Definition ip_addr_set_any (type : Z) : list Z := replicate (if type =? IPADDR_TYPE_V6 then 16 else 4) 0.
Definition tcp_bind_to_netif (pcb : Z) (ifname : list Z) : L Z :=
  p ← get_pcb pcb;
  if q_listen p then mret ERR_VAL else
  w ← pget;
  used ← netif_in_use (q_type p) ifname (l_listen_pcbs w ++ l_bound_pcbs w);
  if (used : bool) then mret ERR_USE else
  mpcb_at pcb (fun p => p <| q_bound := true |>);;
  (if negb (q_type p =? IPADDR_TYPE_ANY) then mpcb_at pcb (fun p => p <| q_ip := ip_addr_set_any (q_type p) |>) else mret tt);;
  mpcb_at pcb (fun p => p <| q_port := 0 |>);;
  mpcb_at pcb (fun p => p <| q_netif := ifname |>);;
  pmod (fun w => w <| l_bound_pcbs := pcb :: l_bound_pcbs w |>);;
  mret ERR_OK.
Definition tcp_bind_netif (pcb : Z) (n : option netif) : L unit :=
  mpcb_at pcb (fun p => p <| q_netif_idx := match n with Some n => netif_get_index n | None => NETIF_NO_INDEX end |>).

Definition tcp_listen (pcb : Z) : L (option Z) :=
  p ← get_pcb pcb;
  if q_listen p then mret None else
  lp ← alloc_pcb (TcpListen pcb)
         (Lpcb true (q_type p) (q_ip p) (q_port p) (q_bound p) (q_netif p) NETIF_NO_INDEX false);
  match lp with
  | None => mret None
  | Some lpcb =>
      (if negb (q_port p =? 0) || q_bound p
       then pmod (fun w => w <| l_bound_pcbs := TcpClient.remove Z.eqb pcb (l_bound_pcbs w) |>) else mret tt);;
      memp_free pcb;;
      pmod (fun w => w <| l_listen_pcbs := lpcb :: l_listen_pcbs w |>);;
      mret (Some lpcb)
  end.
Definition tcp_accept (pcb : Z) : L unit := mpcb_at pcb (fun p => p <| q_accept := true |>).
(** [tcp_close] of a control block that has no connection *)
Definition tcp_close_idle (pcb : Z) : L Z :=
  p ← get_pcb pcb;
  (if q_listen p then pmod (fun w => w <| l_listen_pcbs := TcpClient.remove Z.eqb pcb (l_listen_pcbs w) |>)
   else if negb (q_port p =? 0) || q_bound p
   then pmod (fun w => w <| l_bound_pcbs := TcpClient.remove Z.eqb pcb (l_bound_pcbs w) |>) else mret tt);;
  memp_free pcb;; mret ERR_OK.

(** ** core/tcp_in.c *)
Definition version_match_exact (p : lpcb) (dest : ip_addr) : bool :=
  q_type p =? (if ip_v6 dest then IPADDR_TYPE_V6 else IPADDR_TYPE_V4).
Definition version_match (p : lpcb) (dest : ip_addr) : bool :=
  (q_type p =? IPADDR_TYPE_ANY) || version_match_exact p dest.
(** The listener for a segment to port [port] of [dest] that came in on [inp], when no
    connection has it: the first match, else the last one bound to the interface. *)
Fixpoint find_listener (inp : netif) (dest : ip_addr) (port : Z) (netif_pcb : option Z) (l : list Z) : L (option Z) :=
  match l with
  | [] => mret netif_pcb
  | a :: l =>
      p ← get_pcb a;
      if negb (q_netif_idx p =? NETIF_NO_INDEX) && negb (q_netif_idx p =? netif_get_index inp)
      then find_listener inp dest port netif_pcb l
      else if q_bound p then
        find_listener inp dest port (if version_match p dest && netif_is_named inp (q_netif p) then Some a else netif_pcb) l
      else if (q_port p =? port)
              && ((q_type p =? IPADDR_TYPE_ANY)
                  || version_match_exact p dest
                     && (bool_decide (q_ip p = ip_bytes dest) || forallb (Z.eqb 0) (q_ip p)))
      then mret (Some a)
      else find_listener inp dest port netif_pcb l
  end.
(** The listener moves to the front of its list. *)
Definition tcp_input_listener (inp : netif) (dest : ip_addr) (port : Z) : L (option Z) :=
  w ← pget;
  lpcb ← find_listener inp dest port None (l_listen_pcbs w);
  match lpcb with
  | None => mret None
  | Some a => pmod (fun w => w <| l_listen_pcbs := a :: TcpClient.remove Z.eqb a (l_listen_pcbs w) |>);; mret (Some a)
  end.
End lwip.
