(* ===== verification/StateFacts.v ===== *)
(** Rules for the accesses through pointers of State.v, and the tactic that runs a
    stateful program under [wpp]. *)
From S2P Require Import Prelude CMem Sys Mpool PktFake State.
#[local] Open Scope Z_scope.

(** Setting an item, as a function on worlds. *)
Definition upd_item (i : nat) (e : eval) (w : world) : world :=
  w <| w_pool := (w_pool w) <| pl_items := <[i := e]> (pl_items (w_pool w)) |> |>.
Definition upd_buf (b : nat) (x : buffer) (w : world) : world :=
  w <| w_bufs := <[b := x]> (w_bufs w) |>.

Section rules.
Context {OS : Os}.
Implicit Types (w : world) (h : hist).

Lemma wpp_gpar w h (Q : params_t -> world -> hist -> Prop) : Q (w_params w) w h -> wpp gpar w h Q.
Proof. done. Qed.
Lemma wpp_gpool w h (Q : poolhd -> world -> hist -> Prop) : Q (w_pool w) w h -> wpp gpool w h Q.
Proof. done. Qed.
Lemma wpp_mpool f w h (Q : unit -> world -> hist -> Prop) :
  Q tt (w <| w_pool := f (w_pool w) |>) h -> wpp (mpool f) w h Q.
Proof. done. Qed.
Lemma wpp_mparams f w h (Q : unit -> world -> hist -> Prop) :
  Q tt (w <| w_params := f (w_params w) |>) h -> wpp (mparams f) w h Q.
Proof. done. Qed.
Lemma wpp_gev i e w h (Q : eval -> world -> hist -> Prop) :
  pl_items (w_pool w) !! i = Some e -> Q e w h -> wpp (gev i) w h Q.
Proof.
  intros E HQ. unfold gev. apply wpp_bind, wpp_pget. by apply wpp_deref with e.
Qed.
Lemma wpp_mev i f e w h (Q : unit -> world -> hist -> Prop) :
  pl_items (w_pool w) !! i = Some e -> Q tt (upd_item i (f e) w) h -> wpp (mev i f) w h Q.
Proof.
  intros E HQ. unfold mev. apply wpp_bind, wpp_gev with e; [done|]. by apply wpp_mpool.
Qed.
Lemma wpp_gbuf b x w h (Q : buffer -> world -> hist -> Prop) :
  w_bufs w !! b = Some x -> Q x w h -> wpp (gbuf b) w h Q.
Proof. intros E HQ. unfold gbuf. apply wpp_bind, wpp_pget. by apply wpp_deref with x. Qed.
Lemma wpp_mbuf b f x w h (Q : unit -> world -> hist -> Prop) :
  w_bufs w !! b = Some x -> Q tt (upd_buf b (f x) w) h -> wpp (mbuf b f) w h Q.
Proof.
  intros E HQ. unfold mbuf. apply wpp_bind, wpp_gbuf with x; [done|]. by apply wpp_pmod.
Qed.
Lemma wpp_gdp d x w h (Q : desync_params -> world -> hist -> Prop) :
  w_dps w !! d = Some x -> Q x w h -> wpp (gdp d) w h Q.
Proof. intros E HQ. unfold gdp. apply wpp_bind, wpp_pget. by apply wpp_deref with x. Qed.
Lemma wpp_mdp d f x w h (Q : unit -> world -> hist -> Prop) :
  w_dps w !! d = Some x -> Q tt (w <| w_dps := <[d := f x]> (w_dps w) |>) h -> wpp (mdp d f) w h Q.
Proof. intros E HQ. unfold mdp. apply wpp_bind, wpp_gdp with x; [done|]. by apply wpp_pmod. Qed.
End rules.

(** One step that needs no choice: control flow, calls, accesses whose object the
    context names. *)
Ltac wpp_go1 :=
  lazymatch goal with
  | |- wpp (_ ≫= _) _ _ _ => apply wpp_bind
  | |- wpp (mret _) _ _ _ => apply wpp_ret
  | |- wpp (syscall _) _ _ _ => apply wpp_syscall
  | |- wpp errno _ _ _ => apply wpp_errno
  | |- wpp pget _ _ _ => apply wpp_pget
  | |- wpp (pmod _) _ _ _ => apply wpp_pmod
  | |- wpp (pgets _) _ _ _ => apply wpp_pgets
  | |- wpp gpar _ _ _ => apply wpp_gpar
  | |- wpp gpool _ _ _ => apply wpp_gpool
  | |- wpp (mpool _) _ _ _ => apply wpp_mpool
  | |- wpp (mparams _) _ _ _ => apply wpp_mparams
  | |- wpp (gev _) _ _ _ => eapply wpp_gev; [eassumption|]
  | |- wpp (mev _ _) _ _ _ => eapply wpp_mev; [eassumption|]
  | |- wpp (gbuf _) _ _ _ => eapply wpp_gbuf; [eassumption|]
  | |- wpp (mbuf _ _) _ _ _ => eapply wpp_mbuf; [eassumption|]
  | |- wpp (gdp _) _ _ _ => eapply wpp_gdp; [eassumption|]
  | |- wpp (lift _) _ _ _ => apply wpp_lift
  end; cbv beta.
Ltac wpp_case :=
  match goal with
  | |- wpp (if ?b then _ else _) _ _ _ => destruct b eqn:?
  | |- wpp (match ?o with Some _ => _ | None => _ end) _ _ _ => destruct o eqn:?
  | |- wpp ((if ?b then _ else _) ≫= _) _ _ _ => destruct b eqn:?
  end.
(** Run: all the way, splitting on conditions. *)
Ltac wpp_go := repeat first [wpp_go1 | wpp_case].
