(* ===== verification/SocksFacts.v ===== *)
(** Theorems about the SOCKS half of proxy.c: addresses survive the mapping to
    IPv6 and the SOCKS5 encoding, the method negotiation, requests from hostile
    clients, and sockets that are closed on every error path. *)
From S2P Require Import Prelude CMem Sys Mpool PktTls PktHttp PktFake State Conev Desync Socks StateFacts.
#[local] Open Scope Z_scope.
#[local] Open Scope list_scope.

(** ** Addresses *)

(** An address as the sockets calls fill it in. *)
Record addr_ok (a : sockaddr_u) : Prop := {
  ao_family : sa_family a = AF_INET \/ sa_family a = AF_INET6;
  ao_port : 0 <= sin_port a < 65536;
  ao_body : zlen (sa_body a) = 24;
}.
(** the address proper *)
Definition ip_of (a : sockaddr_u) : list Z :=
  if sa_family a =? AF_INET then sin_addr a else sin6_addr a.
Definition same_addr (a b : sockaddr_u) : Prop :=
  sa_family a = sa_family b /\ sin_port a = sin_port b /\ ip_of a = ip_of b.

Lemma zlen_ip_of a : addr_ok a -> zlen (ip_of a) = if sa_family a =? AF_INET then 4 else 16.
Proof.
  intros [_ _ Hb]. unfold ip_of, sin_addr, sin6_addr.
  case_match; rewrite zlen_slice; lia.
Qed.

Lemma slice_splice_same m d src n :
  0 <= d -> d + zlen src <= zlen m -> n = zlen src -> slice (splice m d src) d n = src.
Proof.
  intros Hd Hl ->. unfold splice. rewrite slice_app_mid; [done| |done].
  rewrite zlen_take; [done|]. pose proof (zlen_nonneg src). lia.
Qed.
Lemma slice_splice_after m d src s n :
  0 <= d -> d + zlen src <= s -> 0 <= n -> s + n <= zlen m -> slice (splice m d src) s n = slice m s n.
Proof.
  intros Hd Hs Hn Hl. pose proof (zlen_nonneg src).
  assert (E : zlen (splice m d src) = zlen m) by (apply zlen_splice; lia).
  apply list_eq_byte_at; [rewrite !zlen_slice; lia|].
  intros i Hi. rewrite zlen_slice in Hi by lia.
  rewrite !byte_at_slice, byte_at_splice by lia. case_match; [lia|done].
Qed.

Lemma set_sin_addr_get ip a : zlen (sa_body a) = 24 -> zlen ip = 4 -> sin_addr (set_sin_addr ip a) = ip.
Proof. intros. unfold sin_addr, set_sin_addr. simpl. apply slice_splice_same; lia. Qed.
Lemma set_sin6_addr_get ip a : zlen (sa_body a) = 24 -> zlen ip = 16 -> sin6_addr (set_sin6_addr ip a) = ip.
Proof. intros. unfold sin6_addr, set_sin6_addr. simpl. apply slice_splice_same; lia. Qed.

Lemma map_fix_6 a : addr_ok a -> sa_family a = AF_INET ->
  exists b, map_fix a 6 = Sockaddr AF_INET6 (sin_port a) b /\ zlen b = 24 /\
    slice b 4 12 = replicate 10 0 ++ [255; 255] /\ slice b 16 4 = sin_addr a.
Proof.
  intros [Hf Hp Hb] E. unfold map_fix. rewrite E. simpl.
  assert (Hs : zlen (sin_addr a) = 4) by (unfold sin_addr; rewrite zlen_slice; lia).
  set (b1 := splice (sa_body a) 16 (sin_addr a)).
  assert (H1 : zlen b1 = 24) by (unfold b1; rewrite zlen_splice; lia).
  eexists. split; [reflexivity|]. split; [rewrite zlen_splice; [done|lia|rewrite H1; vm_compute; congruence]|].
  split.
  - apply slice_splice_same; [lia|rewrite H1; vm_compute; congruence|done].
  - rewrite slice_splice_after; [|lia|vm_compute; congruence|lia|lia].
    apply slice_splice_same; lia.
Qed.

(** ** Encoding *)
Lemma ld_u16_port (a : list Z) x (c : list Z) i :
  0 <= x < 65536 -> i = zlen a -> ld_u16 (a ++ port_bytes x ++ c) i = Ok x.
Proof.
  intros Hx ->. unfold ld_u16, port_bytes. simpl.
  pose proof (zlen_nonneg a). pose proof (zlen_nonneg c).
  rewrite !rd_ok; [|rewrite zlen_app, !zlen_cons; lia..]. simpl.
  rewrite byte_at_app_mid by done.
  replace (a ++ x mod 256 :: (x / 256) mod 256 :: c) with ((a ++ [x mod 256]) ++ (x / 256) mod 256 :: c)
    by (by rewrite <- app_assoc).
  rewrite byte_at_app_mid by (by rewrite zlen_app). f_equal.
  pose proof (Z.div_mod x 256). rewrite (Z.mod_small (x / 256)); [lia|].
  split; [apply Z.div_pos; lia|apply Z.div_lt_upper_bound; lia].
Qed.

Definition s5_size (a : sockaddr_u) : Z := if sa_family a =? AF_INET then S_SIZE_I4 else S_SIZE_I6.
Definition s5_atp (a : sockaddr_u) : Z := if sa_family a =? AF_INET then S_ATP_I4 else S_ATP_I6.

(** What [s5_set_addr] writes, from the address form on. *)
Lemma s5_set_addr_writes A B C p n a e :
  addr_ok a -> s5_size a <= n ->
  zlen A = (if e : bool then p - s5_size a else p) + 3 -> zlen B = s5_size a - 3 ->
  s5_set_addr (A ++ B ++ C) p n a e
  = Ok (s5_size a, A ++ (s5_atp a :: ip_of a ++ port_bytes (sin_port a)) ++ C).
Proof.
  intros Ha Hn HA HB. pose proof (zlen_ip_of a Ha) as Hip. unfold s5_set_addr.
  unfold s5_size, s5_atp, ip_of, S_SIZE_I4, S_SIZE_I6 in *.
  destruct (sa_family a =? AF_INET) eqn:E;
    (rewrite (proj2 (Z.ltb_ge n 10)) by lia; try rewrite (proj2 (Z.ltb_ge n 22)) by lia);
    (rewrite wr_list_ok; [| |]; cycle 1;
     [pose proof (zlen_nonneg A); destruct e; lia
     |rewrite !zlen_app, zlen_cons, zlen_app; simpl; rewrite Hip;
      pose proof (zlen_nonneg C); change (zlen (port_bytes (sin_port a))) with 2; destruct e; lia|]);
    simpl; do 2 f_equal; apply splice_app_mid;
    [destruct e; lia|rewrite zlen_cons, zlen_app, Hip; change (zlen (port_bytes (sin_port a))) with 2; lia
    |destruct e; lia|rewrite zlen_cons, zlen_app, Hip; change (zlen (port_bytes (sin_port a))) with 2; lia].
Qed.

Lemma app_comm_cons' (x : Z) l k : (x :: l) ++ k = [x] ++ l ++ k.
Proof. done. Qed.

Section stateful.
Context {CA : CharAbi} {OS : Os}.

(** What [s5_get_addr] reads back. *)
Lemma wpp_s5_get_addr_reads A C p n a a0 type w h :
  addr_ok a -> zlen (sa_body a0) = 24 -> s5_size a <= n -> zlen A = p + 3 ->
  (sa_family a = AF_INET6 -> pr_ipv6 (w_params w) = true) ->
  wpp (s5_get_addr (A ++ (s5_atp a :: ip_of a ++ port_bytes (sin_port a)) ++ C) p n a0 type) w h
    (fun r w' h' => fst r = s5_size a /\ same_addr (snd r) a /\ w' = w /\ h' = h).
Proof.
  intros Ha Hb Hn HA H6. pose proof (zlen_ip_of a Ha) as Hip.
  destruct Ha as [Hf Hp Hbody]. set (M := A ++ _ ++ C).
  pose proof (zlen_nonneg A). pose proof (zlen_nonneg C).
  assert (HM : zlen M = zlen A + s5_size a - 3 + zlen C).
  { unfold M. rewrite !zlen_app, zlen_cons, zlen_app, Hip. unfold s5_size, S_SIZE_I4, S_SIZE_I6.
    change (zlen (port_bytes (sin_port a))) with 2. case_match; lia. }
  assert (Hatp : rd M (p + 3) = Ok (s5_atp a)).
  { rewrite rd_ok; [|rewrite HM; unfold s5_size, S_SIZE_I4, S_SIZE_I6; case_match; lia].
    f_equal. unfold M. simpl. apply byte_at_app_mid. lia. }
  assert (Hip' : rd_list M (p + 4) (zlen (ip_of a)) = Ok (ip_of a)).
  { rewrite rd_list_ok; [|lia|apply zlen_nonneg|rewrite HM, Hip; unfold s5_size, S_SIZE_I4, S_SIZE_I6; case_match; lia].
    f_equal. unfold M. rewrite app_comm_cons', <- !app_assoc. rewrite (app_assoc A [s5_atp a]).
    apply slice_app_mid; [rewrite zlen_app; unfold zlen at 2; simpl; lia|done]. }
  assert (Hport : ld_u16 M (p + s5_size a - 2) = Ok (sin_port a)).
  { unfold M. rewrite app_comm_cons', <- !app_assoc. rewrite (app_assoc A [s5_atp a]), (app_assoc (A ++ _)).
    apply ld_u16_port; [done|]. rewrite !zlen_app, Hip. unfold s5_size, S_SIZE_I4, S_SIZE_I6.
    change (zlen [s5_atp a]) with 1. case_match; lia. }
  unfold s5_get_addr.
  assert (Hd : exists d, rd M (p + 4) = Ok d).
  { rewrite rd_ok; [by eexists|]. rewrite HM. unfold s5_size, S_SIZE_I4, S_SIZE_I6. case_match; lia. }
  destruct Hd as [d Hd].
  unfold s5_size, s5_atp, ip_of in *. unfold same_addr, ip_of.
  assert (E : n <? S_SIZE_MIN = false) by (unfold S_SIZE_MIN, S_SIZE_I4, S_SIZE_I6 in *; destruct (sa_family a =? AF_INET); lia).
  rewrite E. apply wpp_bind, wpp_lift, wp_intro with (1 := Hatp), wpp_bind, wpp_lift, wp_intro with (1 := Hd).
  destruct Hf as [Hf|Hf]; rewrite Hf in *; simpl in *.
  - rewrite (proj2 (Z.ltb_ge n S_SIZE_I4)) by lia.
    apply wpp_bind, wpp_gpar, wpp_bind, wpp_bind, wpp_lift. rewrite Hip in Hip'.
    apply wp_intro with (1 := Hip'), wpp_ret, wpp_bind, wpp_lift, wp_intro with (1 := Hport), wpp_ret.
    simpl. repeat split.
    by apply (set_sin_addr_get (sin_addr a) ((a0) <| sa_family := AF_INET |>)).
  - rewrite (proj2 (Z.ltb_ge n S_SIZE_I6)) by lia.
    apply wpp_bind, wpp_gpar, wpp_bind. rewrite (H6 eq_refl). simpl. apply wpp_bind, wpp_lift.
    rewrite Hip in Hip'.
    apply wp_intro with (1 := Hip'), wpp_ret, wpp_bind, wpp_lift, wp_intro with (1 := Hport), wpp_ret.
    simpl. repeat split.
    by apply (set_sin6_addr_get (sin6_addr a) ((a0) <| sa_family := AF_INET6 |>)).
Qed.
End stateful.

(** ** Hostile requests *)
Section hostile.
Context {CA : CharAbi} {OS : Os}.

Lemma wpp_resolve m p len addr type w h (Q : option sockaddr_u -> world -> hist -> Prop) :
  0 <= p -> 0 <= len -> p + len <= zlen m ->
  (forall o h', Q o w h') -> wpp (resolve m p len addr type) w h Q.
Proof.
  intros Hp Hl Hm HQ. unfold resolve, checkpoint. apply wpp_bind, wpp_lift. rewrite rd_list_ok by done.
  apply wp_ok. wpp_go. all: apply HQ.
Qed.

(** What a call of [s5_get_addr] may answer: a SOCKS5 error code, negated, and the
    address unchanged, or the length of the request. *)
Definition s5_answer (n : Z) (addr : sockaddr_u) (r : Z * sockaddr_u) : Prop :=
  (fst r < 0 /\ - fst r ∈ [S_ER_GEN; S_ER_ATP; S_ER_HOST] /\ snd r = addr)
  \/ S_SIZE_ID < fst r <= n.

Lemma wpp_s5_get_addr m p n addr type w h :
  bytes_ok m -> 0 <= p -> p + n <= zlen m ->
  byte_at m (p + 3) ∈ [S_ATP_I4; S_ATP_ID; S_ATP_I6] ->
  wpp (s5_get_addr m p n addr type) w h (fun r w' h' => w' = w /\ s5_answer n addr r).
Proof.
  intros Hb Hp Hn Hatp. unfold s5_get_addr, S_SIZE_MIN, S_SIZE_I4.
  destruct (Z.ltb_spec n 10).
  { apply wpp_ret. split; [done|]. left. simpl. split; [done|]. split; [|done].
    unfold S_ER_GEN. constructor. }
  apply wpp_bind, wpp_lift. rewrite rd_ok by lia. apply wp_ok, wpp_bind, wpp_lift.
  rewrite rd_ok by lia. apply wp_ok.
  pose proof (byte_at_range m (p + 4) Hb) as Hd.
  set (d := byte_at m (p + 4)) in *. set (atp := byte_at m (p + 3)) in *.
  assert (Herr : forall e, e ∈ [S_ER_GEN; S_ER_ATP; S_ER_HOST] -> s5_answer n addr (- e, addr)).
  { intros e He. left. simpl. rewrite Z.opp_involutive. split; [|done].
    unfold S_ER_GEN, S_ER_ATP, S_ER_HOST in He. set_unfold in He. lia. }
  assert (Hend : forall a o, S_SIZE_ID < o <= n ->
    wpp (port ← lift (ld_u16 m (p + o - 2)); mret (o, a <| sin_port := port |>)) w h
      (fun r w' h' => w' = w /\ s5_answer n addr r)).
  { intros a o Ho. unfold S_SIZE_ID in *. apply wpp_bind, wpp_lift. unfold ld_u16. rewrite !rd_ok by lia. simpl.
    apply wp_ok, wpp_ret. split; [done|]. by right. }
  unfold S_ATP_I4, S_ATP_ID, S_ATP_I6, S_SIZE_ID, S_SIZE_I6 in *.
  apply elem_of_cons in Hatp as [E|Hatp]; [|apply elem_of_cons in Hatp as [E|E%list_elem_of_singleton]];
    rewrite E; simpl.
  - destruct (Z.ltb_spec n 10); [lia|]. apply wpp_bind, wpp_gpar, wpp_bind, wpp_bind, wpp_lift.
    rewrite rd_list_ok by lia. apply wp_ok, wpp_ret. apply Hend. lia.
  - destruct (Z.ltb_spec n (d + 7)).
    { apply wpp_ret. split; [done|]. apply Herr. set_solver. }
    apply wpp_bind, wpp_gpar, wpp_bind. destruct (pr_resolve (w_params w)); simpl.
    2: { apply wpp_ret. apply wpp_ret. split; [done|]. apply Herr. set_solver. }
    destruct (Z.ltb_spec d 3).
    { apply wpp_bind, wpp_ret, wpp_ret, wpp_ret. split; [done|]. apply Herr. set_solver. }
    apply wpp_bind. apply wpp_resolve; [lia..|]. intros [a|] h'; apply wpp_ret.
    + apply wpp_bind, wpp_lift. unfold ld_u16. rewrite !rd_ok by lia. simpl.
      apply wp_ok, wpp_ret. split; [done|]. right. simpl. unfold S_SIZE_ID. lia.
    + apply wpp_ret. split; [done|]. apply Herr. set_solver.
  - destruct (Z.ltb_spec n 22).
    { apply wpp_ret. split; [done|]. apply Herr. set_solver. }
    apply wpp_bind, wpp_gpar, wpp_bind. destruct (pr_ipv6 (w_params w)); simpl.
    2: { apply wpp_ret. apply wpp_ret. split; [done|]. apply Herr. set_solver. }
    apply wpp_bind, wpp_lift. rewrite rd_list_ok by lia. apply wp_ok, wpp_ret. apply Hend. lia.
Qed.

Lemma wp_find_auth k m i n (Q : Z -> Prop) :
  0 <= i -> n <= zlen m -> (Z.to_nat (n - i) < k)%nat ->
  (forall c, (c = S_AUTH_NONE \/ c = S_AUTH_BAD) ->
     (c = S_AUTH_NONE <-> exists j, i <= j < n /\ byte_at m j = S_AUTH_NONE) -> Q c) ->
  wp (find_auth k m i n) Q.
Proof.
  revert i. induction k as [|k IH]; intros i Hi Hn Hk HQ; [lia|]. simpl.
  destruct (Z.ltb_spec i n).
  - apply wp_bind, wp_rd; [lia|]. destruct (Z.eqb_spec (byte_at m i) S_AUTH_NONE) as [E|E].
    + apply HQ; [by left|]. split; [|done]. intros _. exists i. by split; [lia|].
    + apply IH; [lia|lia|lia|]. intros c Hc Hiff. apply HQ; [done|]. rewrite Hiff.
      split; intros (j & Hj & Ej); exists j; (split; [|done]); [lia|].
      destruct (decide (j = i)) as [->|]; [done|lia].
  - apply HQ; [by right|]. unfold S_AUTH_NONE, S_AUTH_BAD. split; [done|]. intros (j & ? & ?). lia.
Qed.
End hostile.

(** ** Sockets are closed on every error path *)

(** The descriptors a history leaves open, newest first. *)
Fixpoint rem_fd (fd : Z) (l : list Z) : list Z :=
  match l with [] => [] | x :: l => if x =? fd then l else x :: rem_fd fd l end.
Fixpoint open_fds (h : hist) : list Z :=
  match h with
  | [] => []
  | (c, r) :: h =>
      match c with
      | CSocket _ _ => if rv r <? 0 then open_fds h else rv r :: open_fds h
      | CClose fd => rem_fd fd (open_fds h)
      | _ => open_fds h
      end
  end.

Lemma rem_fd_head fd l : rem_fd fd (fd :: l) = l.
Proof. simpl. by rewrite Z.eqb_refl. Qed.
#[local] Ltac fds :=
  simpl in *; repeat match goal with H : (rv _ <? 0) = _ |- _ => rewrite H in *; clear H end;
  rewrite ?rem_fd_head; try done.

Section sockets.
Context {CA : CharAbi} {OS : Os}.

Lemma wpp_nb_socket domain type w h :
  wpp (nb_socket domain type) w h (fun r w' h' => w' = w /\
    ((r = -1 /\ open_fds h' = open_fds h) \/ (0 <= r /\ open_fds h' = r :: open_fds h))).
Proof.
  unfold nb_socket. wpp_go. split; [done|]. simpl.
  destruct (Z.ltb_spec (rv (os_reply h (CSocket domain (Z.lor type SOCK_NONBLOCK)))) 0); [by left|by right].
Qed.

Lemma wpp_protect fd path w h :
  zlen (c_string path) < 108 ->
  wpp (protect fd path) w h (fun r w' h' => w' = w /\ (r = 0 \/ r = -1) /\ open_fds h' = open_fds h).
Proof.
  intros Hp. unfold protect, setsockopt_, close_. rewrite (proj2 (Z.leb_gt 108 _)) by done.
  wpp_go; (split; [done|]); (split; [tauto|]); fds.
Qed.

Lemma wpp_setttl fd ttl w h :
  wpp (setttl fd ttl) w h (fun r w' h' => w' = w /\ (r = 0 \/ r = -1) /\ open_fds h' = open_fds h).
Proof. unfold setttl, setsockopt_. wpp_go. case_match; auto. Qed.

Definition path_ok (w : world) : Prop :=
  match pr_protect_path (w_params w) with Some p => zlen (c_string p) < 108 | None => True end.

Lemma wpp_socket_mod fd w h :
  path_ok w ->
  wpp (socket_mod fd) w h (fun r w' h' => w' = w /\ (r = 0 \/ r = -1) /\ open_fds h' = open_fds h).
Proof.
  intros Hp. unfold socket_mod, path_ok in *. apply wpp_bind, wpp_gpar.
  set (pre := if pr_custom_ttl _ then _ else _).
  assert (Hpre : wpp pre w h (fun r w' h' => w' = w /\ (r = 0 \/ r = -1) /\ open_fds h' = open_fds h)).
  { unfold pre. destruct (pr_custom_ttl _); [apply wpp_setttl|apply wpp_ret; auto]. }
  apply wpp_bind. eapply wpp_mono; [exact Hpre|]. intros r w' h' (-> & Hr & Ho). simpl.
  destruct (r <? 0); [apply wpp_ret; auto|].
  destruct (pr_protect_path _); [|apply wpp_ret; auto].
  eapply wpp_mono; [by apply wpp_protect|]. intros r' w' h'' (-> & Hr' & Ho'). by rewrite Ho'.
Qed.

(** A socket call that ends with a descriptor or nothing open. *)
Definition sock_post (h : hist) (r : Z) (h' : hist) : Prop :=
  (r = -1 /\ open_fds h' = open_fds h) \/ (0 <= r /\ open_fds h' = r :: open_fds h).

Lemma wpp_remote_sock dst type w h :
  path_ok w ->
  wpp (remote_sock dst type) w h (fun r w' h' => w' = w /\ sock_post h (fst r) h').
Proof.
  intros Hp. unfold remote_sock. apply wpp_bind, wpp_gpar. cbv zeta.
  destruct (negb _); [apply wpp_ret; split; [done|by left]|].
  apply wpp_bind. eapply wpp_mono; [apply wpp_nb_socket|]. intros sfd w' h1 (-> & [[-> Ho]|[Hs Ho]]).
  { simpl. apply wpp_ret. split; [done|by left]. }
  cbv beta. rewrite (proj2 (Z.ltb_ge sfd 0)) by done.
  apply wpp_bind. eapply wpp_mono; [by apply wpp_socket_mod|]. intros rc w' h2 (-> & Hr & Ho2).
  assert (Hclose : forall h3, open_fds h3 = sfd :: open_fds h ->
    wpp (close_ sfd;; mret (-1, map_fix dst (if sa_family (pr_baddr (w_params w)) =? AF_INET6 then 6 else 0)))
      w h3 (fun r w' h' => w' = w /\ sock_post h (fst r) h')).
  { intros h3 Ho3. unfold close_. wpp_go. split; [done|]. left. split; [done|].
    simpl. by rewrite Ho3, rem_fd_head. }
  cbv beta. destruct (rc <? 0).
  { apply wpp_bind. unfold checkpoint. wpp_go1. wpp_go1. wpp_go1. apply Hclose. simpl. by rewrite Ho2, Ho. }
  apply wpp_bind. set (pre := if _ =? AF_INET6 then _ else _).
  assert (Hpre : wpp pre w h2 (fun r w' h' => w' = w /\ open_fds h' = open_fds h2)).
  { unfold pre, setsockopt_. destruct (_ =? AF_INET6); wpp_go; done. }
  eapply wpp_mono; [exact Hpre|]. intros r w' h3 (-> & Ho3). cbv beta.
  destruct (truthy r); [apply Hclose; by rewrite Ho3, Ho2|].
  apply wpp_bind, wpp_syscall. cbv beta. destruct (rv _ <? 0).
  { apply Hclose. simpl. by rewrite Ho3, Ho2. }
  apply wpp_ret. split; [done|]. right. split; [done|]. simpl. by rewrite Ho3, Ho2.
Qed.
End sockets.
