(* ===== verification/SocksProps.v ===== *)
(** The properties of the SOCKS messages and of outgoing sockets, with their
    witnesses. *)
From S2P Require Import Prelude CMem Sys Mpool PktTls PktHttp PktFake State Conev Desync Socks.
From S2P Require Import StateFacts SocksFacts Proxy.
#[local] Open Scope Z_scope.
#[local] Open Scope list_scope.

#[local] Arguments find_auth : simpl never.

(** 93.184.216.34 and 2001:db8::1, port 443 (as loaded on a little-endian host) *)
Definition addr4 : sockaddr_u := Sockaddr AF_INET 47873 ([93; 184; 216; 34] ++ replicate 20 0).
Definition addr6 : sockaddr_u :=
  Sockaddr AF_INET6 47873 ([0; 0; 0; 0; 32; 1; 13; 184] ++ replicate 11 0 ++ [1; 0; 0; 0; 0]).
Lemma addr4_ok : addr_ok addr4.
Proof. split; [by left|done|done]. Qed.
Lemma addr6_ok : addr_ok addr6.
Proof. split; [by right|done|done]. Qed.

(** C33: an address a client sends is the address the reply decoder reads. Whatever
    the object holds, [s5_set_addr] writes an address (either family) into a
    request that starts at [p], or ends at [p] when [e] is set, touching only the
    address bytes, and [s5_get_addr] on the request (longer datagrams included)
    gives back the family, the address, the port and the length of the header. *)
Theorem s5_addr_roundtrip {CA : CharAbi} {OS : Os} m p n a e a0 type n' w h :
  let r := if e : bool then p - s5_size a else p in
  addr_ok a -> zlen (sa_body a0) = 24 -> s5_size a <= n -> s5_size a <= n' ->
  0 <= r -> r + s5_size a <= zlen m ->
  (sa_family a = AF_INET6 -> pr_ipv6 (w_params w) = true) ->
  exists m', s5_set_addr m p n a e = Ok (s5_size a, m') /\ zlen m' = zlen m /\
    (forall i, 0 <= i < r + 3 \/ r + s5_size a <= i < zlen m -> byte_at m' i = byte_at m i) /\
    wpp (s5_get_addr m' r n' a0 type) w h
      (fun x w' h' => fst x = s5_size a /\ same_addr (snd x) a /\ w' = w /\ h' = h).
Proof.
  intros r Ha Hb Hn Hn' Hr Hm H6. pose proof (zlen_ip_of a Ha) as Hip.
  assert (Hs : 10 <= s5_size a) by (unfold s5_size, S_SIZE_I4, S_SIZE_I6; case_match; lia).
  pose (A := take (Z.to_nat (r + 3)) m). pose (T := drop (Z.to_nat (r + 3)) m).
  pose (B := take (Z.to_nat (s5_size a - 3)) T). pose (C := drop (Z.to_nat (s5_size a - 3)) T).
  assert (HA : zlen A = r + 3) by (apply zlen_take; lia).
  assert (HT : zlen T = zlen m - (r + 3)) by (apply zlen_drop; lia).
  assert (HB : zlen B = s5_size a - 3) by (apply zlen_take; lia).
  assert (Em : m = A ++ B ++ C) by (unfold A, B, C; rewrite take_drop; unfold T; by rewrite take_drop).
  rewrite Em. set (B' := s5_atp a :: ip_of a ++ port_bytes (sin_port a)).
  assert (HB' : zlen B' = zlen B).
  { unfold B'. rewrite zlen_cons, zlen_app, Hip, HB. change (zlen (port_bytes (sin_port a))) with 2.
    unfold s5_size, S_SIZE_I4, S_SIZE_I6. case_match; lia. }
  exists (A ++ B' ++ C). split; [by apply s5_set_addr_writes|].
  split; [by rewrite !zlen_app, HB'|]. split.
  - rewrite <- Em. intros i Hi. assert (zlen C = zlen m - (r + s5_size a)) by (unfold C; rewrite zlen_drop; lia).
    destruct Hi as [Hi|Hi].
    + rewrite Em, !byte_at_app_l by lia. done.
    + rewrite Em, !byte_at_app_r by lia. by rewrite HB'.
  - apply wpp_s5_get_addr_reads; [done..|lia|done].
Qed.

Definition os0 : Os := fun _ _ => Ret 0 0 [].
Definition world0 : world :=
  World (params0 <| pr_ipv6 := true |> <| pr_resolve := true |>) ∅ poolhd0 ∅ ∅ 0%nat packet0 packet0 packet0 0.
#[local] Instance abi : CharAbi := true.

(** the header of a datagram from 2001:db8::1 in front of its payload *)
Lemma s5_addr_roundtrip_witness :
  exists m', s5_set_addr (replicate 22 0 ++ [104; 105]) 22 22 addr6 true = Ok (22, m') /\
    zlen m' = 24 /\
    (forall i, 0 <= i < 3 \/ 22 <= i < 24 -> byte_at m' i = byte_at (replicate 22 0 ++ [104; 105]) i) /\
    wpp (s5_get_addr (OS := os0) m' 0 24 sockaddr0 SOCK_DGRAM) world0 []
      (fun x w' h' => fst x = 22 /\ same_addr (snd x) addr6 /\ w' = world0 /\ h' = []).
Proof.
  apply (s5_addr_roundtrip (OS := os0) (replicate 22 0 ++ [104; 105]) 22 22 addr6 true sockaddr0
           SOCK_DGRAM 24 world0 []); try (vm_compute; congruence). apply addr6_ok.
Defined.

(** Mapping an IPv4 address to IPv6 for a dual-stack socket gives an IPv4-mapped
    address (::ffff:a.b.c.d) with the same port, and mapping that back gives the
    address. *)
Theorem map_fix_roundtrip a :
  addr_ok a -> sa_family a = AF_INET ->
  let b := map_fix a 6 in
  sa_family b = AF_INET6 /\ sin_port b = sin_port a /\
  sin6_addr b = replicate 10 0 ++ [255; 255] ++ sin_addr a /\ same_addr (map_fix b 0) a.
Proof.
  intros Ha E b. destruct (map_fix_6 a Ha E) as (x & Eb & Hx & H12 & H4). unfold b. rewrite Eb.
  assert (Hs : zlen (sin_addr a) = 4) by (unfold sin_addr; destruct Ha; rewrite zlen_slice; lia).
  split; [done|]. split; [done|]. split.
  - trans (slice x 4 12 ++ slice x 16 4); [unfold sin6_addr; simpl|by rewrite H12, H4].
    apply list_eq_byte_at; [rewrite zlen_app, !zlen_slice; lia|].
    intros i Hi. rewrite zlen_slice in Hi by lia. rewrite byte_at_slice by lia.
    destruct (decide (i < 12)).
    + rewrite byte_at_app_l by (rewrite zlen_slice; lia). by rewrite byte_at_slice by lia.
    + rewrite byte_at_app_r; rewrite zlen_slice by lia; [|lia]. rewrite byte_at_slice by lia. f_equal. lia.
  - unfold map_fix. simpl. unfold v4mapped. simpl. rewrite bool_decide_true by done. simpl.
    unfold same_addr, ip_of. simpl. split; [done|]. split; [done|]. rewrite E. simpl.
    rewrite <- H4. by apply (set_sin_addr_get (slice x 16 4) (Sockaddr AF_INET (sin_port a) x)); [|rewrite zlen_slice; lia].
Qed.

Lemma map_fix_roundtrip_witness :
  let b := map_fix addr4 6 in
  sa_family b = AF_INET6 /\ sin_port b = 47873 /\
  sin6_addr b = replicate 10 0 ++ [255; 255] ++ [93; 184; 216; 34] /\ same_addr (map_fix b 0) addr4.
Proof. apply (map_fix_roundtrip addr4); [apply addr4_ok|reflexivity]. Defined.

(** The SOCKS5 method negotiation. A greeting of the right length is answered by
    two bytes: method 0 when the client offers it, 255 otherwise; the client goes
    on exactly when it offered method 0 and the answer could be sent. Any other
    message is refused without an answer. *)
Theorem auth_socks5_spec {CA : CharAbi} {OS : Os} fd buffer n w h :
  n <= zlen buffer ->
  exists r h', auth_socks5 fd buffer n w h = Ok (r, w, h') /\ (r = 0 \/ r = -1) /\
    if (2 <? n) && (byte_at buffer 1 =? n - 2)
    then exists c s, h' = (CSend fd [S_VER5; c] 0, s) :: h /\
      (c = S_AUTH_NONE \/ c = S_AUTH_BAD) /\
      (c = S_AUTH_NONE <-> exists j, 2 <= j < n /\ byte_at buffer j = S_AUTH_NONE) /\
      (r = 0 <-> c = S_AUTH_NONE /\ 0 <= rv s)
    else r = -1 /\ h' = h.
Proof.
  intros Hn.
  destruct (wpp_inv (auth_socks5 fd buffer n) w h (fun r w' h' => w' = w /\ (r = 0 \/ r = -1) /\
    if (2 <? n) && (byte_at buffer 1 =? n - 2)
    then exists c s, h' = (CSend fd [S_VER5; c] 0, s) :: h /\
      (c = S_AUTH_NONE \/ c = S_AUTH_BAD) /\
      (c = S_AUTH_NONE <-> exists j, 2 <= j < n /\ byte_at buffer j = S_AUTH_NONE) /\
      (r = 0 <-> c = S_AUTH_NONE /\ 0 <= rv s)
    else r = -1 /\ h' = h)) as (r & w' & h' & E & -> & H); [|by exists r, h'].
  unfold auth_socks5. destruct (Z.leb_spec n 2).
  { apply wpp_ret. rewrite (proj2 (Z.ltb_ge 2 n)) by done. simpl. auto. }
  rewrite (proj2 (Z.ltb_lt 2 n)) by done. simpl.
  apply wpp_bind, wpp_lift. rewrite rd_ok by lia. apply wp_ok.
  destruct (Z.eqb_spec (byte_at buffer 1) (n - 2)); simpl; [|by apply wpp_ret; auto].
  apply wpp_bind, wpp_lift. apply wp_find_auth; [lia|done|lia|]. intros c Hc Hiff.
  unfold send_. wpp_go; (split; [done|]); (split; [destruct (c =? S_AUTH_BAD); auto|]); exists c; eexists; (split; [done|]);
    (split; [done|]); (split; [done|]).
  - split; [done|]. intros [? ?]. lia.
  - destruct (Z.eqb_spec c S_AUTH_BAD) as [->|]; split; try done; [intros []; done|].
    intros _. split; [by destruct Hc|lia].
Qed.

Lemma auth_socks5_spec_witness :
  exists r h', auth_socks5 (OS := os0) 7 [5; 2; 1; 0; 9] 4 world0 [] = Ok (r, world0, h') /\ (r = 0 \/ r = -1) /\
    exists c s, h' = [(CSend 7 [S_VER5; c] 0, s)] /\ (c = S_AUTH_NONE \/ c = S_AUTH_BAD) /\
      (c = S_AUTH_NONE <-> exists j, 2 <= j < 4 /\ byte_at [5; 2; 1; 0; 9] j = S_AUTH_NONE) /\
      (r = 0 <-> c = S_AUTH_NONE /\ 0 <= rv s).
Proof. apply (auth_socks5_spec (OS := os0) 7 [5; 2; 1; 0; 9] 4 world0 []). vm_compute. congruence. Defined.

(** A SOCKS5 request of one of the three address forms is decoded safely whatever
    its bytes and whatever the resolver answers: the decoder stays inside the
    received bytes, changes no state, and answers either one of the three error
    codes with the address untouched or the length of the request, which the
    received bytes hold. *)
Theorem s5_get_addr_safe {CA : CharAbi} {OS : Os} m p n addr type w h :
  bytes_ok m -> 0 <= p -> p + n <= zlen m ->
  byte_at m (p + 3) ∈ [S_ATP_I4; S_ATP_ID; S_ATP_I6] ->
  exists r h', s5_get_addr m p n addr type w h = Ok (r, w, h') /\ s5_answer n addr r.
Proof.
  intros. destruct (wpp_inv _ _ _ _ (wpp_s5_get_addr m p n addr type w h ltac:(done) ltac:(done) ltac:(done) ltac:(done)))
    as (r & w' & h' & E & -> & ?). by exists r, h'.
Qed.

Lemma s5_get_addr_safe_witness :
  let m := [5; 1; 0; 3; 200; 97; 46; 98; 99; 1; 187] in
  exists r h', s5_get_addr (OS := os0) m 0 11 sockaddr0 SOCK_STREAM world0 [] = Ok (r, world0, h')
    /\ s5_answer 11 sockaddr0 r.
Proof.
  apply (s5_get_addr_safe (OS := os0) _ 0 11 sockaddr0 SOCK_STREAM world0 []).
  - repeat constructor; vm_compute; congruence.
  - reflexivity.
  - vm_compute. congruence.
  - vm_compute. repeat constructor.
Defined.

(** A request with any other address form is not refused: the length stays 0, no
    case of the [switch] applies, and the decoder loads the port from the two
    bytes before the request. *)
Theorem s5_unknown_atyp {CA : CharAbi} {OS : Os} m n addr type w h :
  10 <= n <= zlen m -> byte_at m 3 ∉ [S_ATP_I4; S_ATP_ID; S_ATP_I6] ->
  s5_get_addr m 0 n addr type w h = Ub.
Proof.
  intros Hn Hatp. unfold s5_get_addr, S_SIZE_MIN, S_SIZE_I4. rewrite (proj2 (Z.ltb_ge n 10)) by lia.
  rewrite !rd_ok by lia. simpl.
  unfold S_ATP_I4, S_ATP_ID, S_ATP_I6 in Hatp. rewrite !not_elem_of_cons in Hatp.
  destruct Hatp as (H1 & H2 & H3 & _). unfold mbind, prog_bind, lift. simpl.
  rewrite (proj2 (Z.eqb_neq _ S_ATP_I4)), (proj2 (Z.eqb_neq _ S_ATP_ID)), (proj2 (Z.eqb_neq _ S_ATP_I6)) by done.
  rewrite (proj2 (Z.ltb_ge n 0)) by lia. reflexivity.
Qed.

Lemma s5_unknown_atyp_witness :
  s5_get_addr (OS := os0) [5; 1; 0; 2; 127; 0; 0; 1; 0; 80] 0 10 sockaddr0 SOCK_STREAM world0 [] = Ub.
Proof.
  apply (s5_unknown_atyp (OS := os0)); [vm_compute; split; congruence|].
  vm_compute. intros H. repeat (apply elem_of_cons in H as [|H]; [congruence|]). by apply not_elem_of_nil in H.
Defined.

(** C34: an outgoing socket is never leaked. Whatever fails ([protect], the socket
    options, [bind], an address of the wrong family), every descriptor that
    [remote_sock] opened is closed again when it answers -1, those of the bridge to
    the application included; otherwise exactly the answered one is left open. The
    path of the bridge's socket must fit its 108 bytes. *)
Theorem remote_sock_no_leak {CA : CharAbi} {OS : Os} dst type w h :
  path_ok w ->
  exists fd a h', remote_sock dst type w h = Ok ((fd, a), w, h') /\
    ((fd = -1 /\ open_fds h' = open_fds h) \/ (0 <= fd /\ open_fds h' = fd :: open_fds h)).
Proof.
  intros Hp. destruct (wpp_inv _ _ _ _ (wpp_remote_sock dst type w h Hp)) as ([fd a] & w' & h' & E & -> & ?).
  by exists fd, a, h'.
Qed.

Lemma remote_sock_no_leak_witness :
  let OS : Os := fun h c => match c with CBind _ _ => Ret (-1) 98 [] | _ => Ret (10 + zlen h) 0 [] end in
  exists fd a h', remote_sock addr4 SOCK_STREAM world0 [] = Ok ((fd, a), world0, h') /\
    ((fd = -1 /\ open_fds h' = []) \/ (0 <= fd /\ open_fds h' = [fd])).
Proof. intros OS. apply (remote_sock_no_leak addr4 SOCK_STREAM world0 []). exact I. Defined.

(** [protect] copies its path into [sun_path] without a check: a path of 108
    characters or more overruns it (the application may configure up to 255). *)
Theorem protect_path_overruns {CA : CharAbi} {OS : Os} fd path w h :
  108 <= zlen (c_string path) -> protect fd path w h = Ub.
Proof. intros H. unfold protect. by rewrite (proj2 (Z.leb_le _ _) H). Qed.

Lemma protect_path_overruns_witness : protect (OS := os0) 5 (replicate 120 97) world0 [] = Ub.
Proof. apply (protect_path_overruns (OS := os0)). vm_compute. congruence. Defined.
