(* ===== verification/TimerFacts.v ===== *)
(** The timers of conev.c: the doubly linked list of events between [tv_start] and
    [tv_end] represents a sequence ordered by deadline. *)
From S2P Require Import Prelude CMem Sys Mpool PktFake State Conev StateFacts.
From stdpp Require Import sorting.
#[local] Open Scope Z_scope.

(** ** Doubly linked segments *)
Definition hd_or (l : list nat) (d : option nat) : option nat := match l with [] => d | x :: _ => Some x end.
Fixpoint lst_or (l : list nat) (d : option nat) : option nat :=
  match l with [] => d | x :: l => lst_or l (Some x) end.

(** The cells [l], reached from [p] and leading to [n]. *)
Fixpoint seg (nx pv : nat -> option nat) (p : option nat) (l : list nat) (n : option nat) : Prop :=
  match l with
  | [] => True
  | i :: l => pv i = p /\ nx i = hd_or l n /\ seg nx pv (Some i) l n
  end.

Section seg.
Implicit Types (l k : list nat) (p n : option nat).

Lemma hd_or_app l k d : hd_or (l ++ k) d = hd_or l (hd_or k d).
Proof. by destruct l. Qed.
Lemma lst_or_app l k d : lst_or (l ++ k) d = lst_or k (lst_or l d).
Proof. revert d. induction l as [|x l IH]; intros d; simpl; [done|apply IH]. Qed.
Lemma lst_or_cons l x d : lst_or l (Some x) = lst_or (x :: l) d.
Proof. done. Qed.
Lemma lst_or_snoc l x d : lst_or (l ++ [x]) d = Some x.
Proof. by rewrite lst_or_app. Qed.
Lemma lst_or_elem l x i : lst_or l (Some x) = Some i -> i = x \/ i ∈ l.
Proof.
  revert x. induction l as [|y l IH]; intros x; simpl; [intros [= ->]; by left|].
  intros [->|Hi]%IH; [right; constructor|right; by constructor].
Qed.
Lemma lst_or_None_elem l i : lst_or l None = Some i -> i ∈ l.
Proof. destruct l as [|x l]; [done|]. simpl. intros [->|H]%lst_or_elem; constructor; done. Qed.
Lemma hd_or_elem l i : hd_or l None = Some i -> i ∈ l.
Proof. destruct l; [done|]. intros [= ->]. constructor. Qed.
Lemma lst_or_None_nil l : lst_or l None = None -> l = [].
Proof.
  destruct l as [|x l]; [done|]. simpl. revert x. induction l as [|y l IH]; intros x; simpl; [done|].
  intros H. by apply IH in H.
Qed.

Lemma seg_app nx pv p l k n :
  seg nx pv p (l ++ k) n <-> seg nx pv p l (hd_or k n) /\ seg nx pv (lst_or l p) k n.
Proof.
  revert p. induction l as [|i l IH]; intros p; simpl; [tauto|].
  rewrite IH, hd_or_app. tauto.
Qed.

Lemma seg_ext nx pv nx' pv' p l n :
  (forall i, nx' i = nx i) -> (forall i, pv' i = pv i) -> seg nx pv p l n -> seg nx' pv' p l n.
Proof. intros En Ep. revert p. induction l as [|i l IH]; intros p; simpl; [done|]. rewrite En, Ep. intuition. Qed.

Lemma seg_ext_in nx pv nx' pv' p l n :
  (forall i, i ∈ l -> nx' i = nx i) -> (forall i, i ∈ l -> pv' i = pv i) -> seg nx pv p l n -> seg nx' pv' p l n.
Proof.
  intros En Ep. revert p. induction l as [|i l IH]; intros p; simpl; [done|].
  rewrite En, Ep by constructor. intros (? & ? & ?). split; [done|]. split; [done|].
  apply IH; [intros; apply En; by constructor|intros; apply Ep; by constructor|done].
Qed.

(** The links of other cells do not matter; the outer link of the last cell may be
    set anew, and that of the first. *)
Lemma seg_set_last nx pv nx' pv' p l n n' :
  NoDup l -> seg nx pv p l n -> (forall i, i ∈ l -> pv' i = pv i) ->
  (forall i, i ∈ l -> lst_or l None = Some i -> nx' i = n') ->
  (forall i, i ∈ l -> lst_or l None <> Some i -> nx' i = nx i) -> seg nx' pv' p l n'.
Proof.
  revert p. induction l as [|i l IH]; intros p; [done|].
  rewrite NoDup_cons. intros [Hi Hnd] (Hp & Hn & Hs) Epv Elast Eoth. simpl.
  split; [rewrite Epv by constructor; done|]. destruct l as [|j l].
  - split; [by apply Elast; [constructor|]|done].
  - assert (Ei : lst_or (i :: j :: l) None = lst_or (j :: l) None) by done. split.
    + rewrite Eoth; [done|constructor|]. rewrite Ei. intros E%lst_or_None_elem. done.
    + apply IH; [done|done|intros; apply Epv; by constructor| |].
      * intros x Hx E. apply Elast; [by constructor|by rewrite Ei].
      * intros x Hx E. apply Eoth; [by constructor|by rewrite Ei].
Qed.
Lemma seg_set_first nx pv nx' pv' p p' l n :
  NoDup l -> seg nx pv p l n -> (forall i, i ∈ l -> nx' i = nx i) ->
  (forall i, hd_or l None = Some i -> pv' i = p') ->
  (forall i, i ∈ l -> hd_or l None <> Some i -> pv' i = pv i) -> seg nx' pv' p' l n.
Proof.
  destruct l as [|i l]; [done|]. rewrite NoDup_cons. intros [Hi Hnd] (Hp & Hn & Hs) Enx Ef Eoth.
  simpl. split; [by apply Ef|]. split; [rewrite Enx by constructor; done|].
  assert (forall q, seg nx pv q l n -> seg nx' pv' q l n) as Hgen; [|by apply Hgen].
  assert (Hl : forall x, x ∈ l -> pv' x = pv x /\ nx' x = nx x).
  { intros x Hx. split; [|apply Enx; by constructor]. apply Eoth; [by constructor|]. simpl. congruence. }
  clear -Hl. induction l as [|j l IH]; intros q; [done|]. simpl. intros (? & ? & ?).
  destruct (Hl j ltac:(constructor)) as [-> ->]. split; [done|]. split; [done|].
  apply IH; [|done]. intros x Hx. apply Hl. by constructor.
Qed.
End seg.

(** ** The timers of a pool *)
Definition nxt (its : list eval) (i : nat) : option nat := match its !! i with Some e => ev_tv_next e | None => None end.
Definition prv (its : list eval) (i : nat) : option nat := match its !! i with Some e => ev_tv_prev e | None => None end.
Definition deadline (its : list eval) (i : nat) : Z := match its !! i with Some e => ev_tv_ms e | None => 0 end.

Record timers_ok (p : poolhd) (l : list nat) : Prop := {
  to_nodup : NoDup l;
  to_seg : seg (nxt (pl_items p)) (prv (pl_items p)) None l None;
  to_start : pl_tv_start p = hd_or l None;
  to_end : pl_tv_end p = lst_or l None;
  to_set : forall i e, pl_items p !! i = Some e -> ev_tv_ms e <> 0 <-> i ∈ l;
  to_unset : forall i e, pl_items p !! i = Some e -> i ∉ l -> ev_tv_next e = None /\ ev_tv_prev e = None;
  to_alloc : forall i, i ∈ l -> is_Some (pl_items p !! i);
  to_sorted : StronglySorted (fun i j => deadline (pl_items p) i <= deadline (pl_items p) j) l;
}.

(** What timer operations leave alone. *)
Definition strip (e : eval) : eval :=
  e <| ev_tv_ms := 0 |> <| ev_tv_next := None |> <| ev_tv_prev := None |>.
Definition tv_frame (p p' : poolhd) : Prop :=
  strip <$> pl_items p' = strip <$> pl_items p /\
  p' = p <| pl_items := pl_items p' |> <| pl_tv_start := pl_tv_start p' |> <| pl_tv_end := pl_tv_end p' |>.

Lemma is_Some_insert (its : list eval) i e' j : is_Some ((<[i := e']> its) !! j) <-> is_Some (its !! j).
Proof. by rewrite !lookup_lt_is_Some, length_insert. Qed.
Lemma strip_insert (its : list eval) (i : nat) e e' :
  its !! i = Some e -> strip e' = strip e -> strip <$> <[i := e']> its = strip <$> its.
Proof.
  intros Hi He. rewrite list_fmap_insert. apply list_insert_id.
  by rewrite list_lookup_fmap, Hi, He.
Qed.

(** Writing one timer field of an item, null pointers included. *)
Section set.
Context {OS : Os}.

Definition tv_upd (o : option nat) (f : eval -> eval) (its : list eval) : list eval :=
  match o with
  | Some i => match its !! i with Some e => <[i := f e]> its | None => its end
  | None => its
  end.
Definition with_items (its : list eval) (w : world) : world :=
  w <| w_pool := (w_pool w) <| pl_items := its |> |>.

Lemma wpp_opt_mev (o : option nat) f w h (Q : unit -> world -> hist -> Prop) :
  (forall i, o = Some i -> is_Some (pl_items (w_pool w) !! i)) ->
  Q tt (with_items (tv_upd o f (pl_items (w_pool w))) w) h ->
  wpp (match o with Some q => mev q f | None => mret tt end) w h Q.
Proof.
  intros Ho HQ. destruct o as [i|].
  - destruct (Ho i eq_refl) as [e He]. eapply wpp_mev; [done|]. simpl in HQ. by rewrite He in HQ.
  - apply wpp_ret. simpl in HQ. by destruct w as [? ? [] ? ? ? ? ? ? ?].
Qed.

Lemma tv_upd_strip o f its : (forall e, strip (f e) = strip e) -> strip <$> tv_upd o f its = strip <$> its.
Proof.
  intros Hf. destruct o as [i|]; simpl; [|done]. destruct (its !! i) eqn:E; [|done].
  by eapply strip_insert.
Qed.
Lemma tv_upd_is_Some o f its j : is_Some (tv_upd o f its !! j) <-> is_Some (its !! j).
Proof. destruct o as [i|]; simpl; [|done]. case_match; [apply is_Some_insert|done]. Qed.
(** A field the update keeps, and one it sets to [c]. *)
Section field.
Context {A : Type} (g : eval -> A) (d : A) (o : option nat) (f : eval -> eval) (its : list eval) (j : nat).
Definition fld (its : list eval) (j : nat) : A := match its !! j with Some e => g e | None => d end.
Lemma fld_keep : (forall e, g (f e) = g e) -> fld (tv_upd o f its) j = fld its j.
Proof.
  intros Hf. destruct o as [i|]; simpl; [|done]. destruct (its !! i) eqn:E; [|done].
  assert (Hi : (i < length its)%nat) by (by eapply lookup_lt_Some). unfold fld.
  destruct (decide (i = j)) as [->|]; [|by rewrite list_lookup_insert_ne].
  rewrite list_lookup_insert_eq by done. by rewrite E, Hf.
Qed.
Lemma fld_set c : (forall e, g (f e) = c) -> is_Some (its !! j) ->
  fld (tv_upd o f its) j = if decide (o = Some j) then c else fld its j.
Proof.
  intros Hf [e He]. destruct o as [i|]; simpl; [|by destruct (decide (None = Some j))].
  destruct (decide (Some i = Some j)) as [[= ->]|Hne].
  - rewrite He. unfold fld. rewrite list_lookup_insert_eq; [done|by eapply lookup_lt_Some].
  - destruct (its !! i) eqn:E; [|done]. unfold fld. rewrite list_lookup_insert_ne; [done|congruence].
Qed.
End field.

Lemma wpp_timer_place k ms w h l1 l2 l :
  l = l1 ++ l2 -> seg (nxt (pl_items (w_pool w))) (prv (pl_items (w_pool w))) None l None ->
  (forall i, i ∈ l -> is_Some (pl_items (w_pool w) !! i)) ->
  (length l1 < k)%nat -> Forall (fun i => ms <= deadline (pl_items (w_pool w)) i) l2 ->
  wpp (timer_place k ms (hd_or l2 None) (lst_or l1 None)) w h (fun r w' h' => w' = w /\ h' = h /\
    exists k1 k2, l = k1 ++ k2 /\ r = (hd_or k2 None, lst_or k1 None) /\
      Forall (fun i => ms <= deadline (pl_items (w_pool w)) i) k2 /\
      forall i, lst_or k1 None = Some i -> deadline (pl_items (w_pool w)) i < ms).
Proof.
  intros -> Hseg Hal. revert k l2 Hseg Hal. induction l1 as [|q l1 IH] using rev_ind;
    intros [|k] l2 Hseg Hal Hk Hf; try lia; simpl.
  - apply wpp_ret. split; [done|]. split; [done|]. by exists [], l2.
  - rewrite length_app in Hk. simpl in Hk. rewrite lst_or_snoc.
    destruct (Hal q) as [e He]; [apply elem_of_app; left; apply elem_of_app; right; constructor|].
    apply wpp_bind. eapply wpp_gev; [exact He|].
    assert (Ed : deadline (pl_items (w_pool w)) q = ev_tv_ms e) by (unfold deadline; by rewrite He).
    destruct (Z.leb_spec ms (ev_tv_ms e)).
    + rewrite <- app_assoc in Hseg, Hal.
      assert (Ep : ev_tv_prev e = lst_or l1 None).
      { apply seg_app in Hseg as [_ Hseg]. simpl in Hseg. destruct Hseg as [Hp _].
        unfold prv in Hp. rewrite He in Hp. done. }
      rewrite Ep. change (Some q) with (hd_or (q :: l2) None).
      eapply wpp_mono; [apply IH; [done|done|lia|by constructor; [lia|]]|].
      intros r w' h' (-> & -> & k1 & k2 & E & ? & ? & ?). split; [done|]. split; [done|].
      exists k1, k2. rewrite <- E, <- app_assoc. done.
    + apply wpp_ret. split; [done|]. split; [done|]. exists (l1 ++ [q]), l2.
      split; [done|]. rewrite lst_or_snoc. split; [done|]. split; [done|].
      intros i [= <-]. lia.
Qed.
End set.

Section sorted.
Context (R : nat -> nat -> Prop).

Lemma SS_insert l1 x l2 :
  StronglySorted R (l1 ++ l2) -> Forall (fun i => R i x) l1 -> Forall (R x) l2 ->
  StronglySorted R (l1 ++ x :: l2).
Proof.
  induction l1 as [|y l1 IH]; simpl; intros Hs H1 H2; [by constructor|].
  inversion_clear Hs as [|? ? Hs' Hf]. inversion_clear H1. constructor; [by apply IH|].
  apply Forall_app in Hf as [? ?]. apply Forall_app. split; [done|]. by constructor.
Qed.
Lemma SS_remove l1 x l2 : StronglySorted R (l1 ++ x :: l2) -> StronglySorted R (l1 ++ l2).
Proof.
  induction l1 as [|y l1 IH]; simpl; intros Hs; [by inversion_clear Hs|].
  inversion_clear Hs as [|? ? Hs' Hf]. constructor; [by apply IH|].
  apply Forall_app in Hf as [? Hf]. inversion_clear Hf. by apply Forall_app.
Qed.
Lemma SS_last l q : (forall i, R i i) -> StronglySorted R l -> lst_or l None = Some q -> Forall (fun i => R i q) l.
Proof.
  intros Hr. induction l as [|y l IH]; intros Hs Hq; [done|]. inversion_clear Hs as [|? ? Hs' Hf].
  destruct l as [|z l]; [simpl in Hq; simplify_eq; by constructor|].
  assert (Hf' := IH Hs' Hq). constructor; [|done].
  rewrite Forall_forall in Hf. apply Hf. by apply lst_or_None_elem.
Qed.
Lemma SS_app_l l1 l2 : StronglySorted R (l1 ++ l2) -> StronglySorted R l1.
Proof.
  induction l1 as [|y l1 IH]; simpl; intros Hs; [constructor|]. inversion_clear Hs as [|? ? Hs' Hf].
  constructor; [by apply IH|]. by apply Forall_app in Hf as [? ?].
Qed.
End sorted.
Lemma SS_ext (f g : nat -> Z) l : (forall i, i ∈ l -> g i = f i) ->
  StronglySorted (fun i j => f i <= f j) l -> StronglySorted (fun i j => g i <= g j) l.
Proof.
  induction l as [|x l IH]; intros E Hs; [constructor|]. inversion_clear Hs as [|? ? Hs' Hf].
  constructor; [apply IH; [|done]; intros; apply E; by constructor|].
  rewrite Forall_forall in *. intros y Hy. rewrite !E by (by constructor). by apply Hf.
Qed.

Lemma nodup_mid (l1 l2 : list nat) x : NoDup (l1 ++ l2) -> x ∉ l1 ++ l2 -> NoDup (l1 ++ x :: l2).
Proof. intros. rewrite <- Permutation_middle. by apply NoDup_cons. Qed.
Lemma nodup_app_hd (l1 l2 : list nat) i : NoDup (l1 ++ l2) -> i ∈ l1 -> hd_or l2 None <> Some i.
Proof. intros (_ & H & _)%NoDup_app Hi E%hd_or_elem. by apply (H i). Qed.
Lemma nodup_app_lst (l1 l2 : list nat) i : NoDup (l1 ++ l2) -> i ∈ l2 -> lst_or l1 None <> Some i.
Proof. intros (_ & H & _)%NoDup_app Hi E%lst_or_None_elem. by apply (H i). Qed.

(** The items after [val] has been linked in between [l1] and [l2]. *)
Definition linked (its : list eval) (val : nat) (T : Z) (l1 l2 : list nat) : list eval :=
  tv_upd (lst_or l1 None) (fun e => e <| ev_tv_next := Some val |>)
    (tv_upd (hd_or l2 None) (fun e => e <| ev_tv_prev := Some val |>)
      (tv_upd (Some val) (fun e => e <| ev_tv_next := hd_or l2 None |> <| ev_tv_prev := lst_or l1 None |>)
        (tv_upd (Some val) (fun e => e <| ev_tv_ms := T |>) its))).

Section linked.
Context (p : poolhd) (l1 l2 : list nat) (val : nat) (T : Z).
Context (Hok : timers_ok p (l1 ++ l2)) (Hval : is_Some (pl_items p !! val)) (Hnew : val ∉ l1 ++ l2).

Lemma linked_is_Some j : is_Some (linked (pl_items p) val T l1 l2 !! j) <-> is_Some (pl_items p !! j).
Proof. unfold linked. by rewrite !tv_upd_is_Some. Qed.
Lemma linked_strip : strip <$> linked (pl_items p) val T l1 l2 = strip <$> pl_items p.
Proof. unfold linked. by rewrite !tv_upd_strip. Qed.

Lemma linked_nxt j : is_Some (pl_items p !! j) -> nxt (linked (pl_items p) val T l1 l2) j =
  if decide (lst_or l1 None = Some j) then Some val
  else if decide (val = j) then hd_or l2 None else nxt (pl_items p) j.
Proof.
  intros Hj. change nxt with (fld ev_tv_next None). unfold linked.
  rewrite (fld_set ev_tv_next None _ _ _ _ (Some val)) by (by rewrite ?tv_upd_is_Some). case_decide; [done|].
  rewrite fld_keep by done.
  rewrite (fld_set ev_tv_next None _ _ _ _ (hd_or l2 None)) by (by rewrite ?tv_upd_is_Some).
  rewrite fld_keep by done. repeat case_decide; congruence.
Qed.
Lemma linked_prv j : is_Some (pl_items p !! j) -> prv (linked (pl_items p) val T l1 l2) j =
  if decide (hd_or l2 None = Some j) then Some val
  else if decide (val = j) then lst_or l1 None else prv (pl_items p) j.
Proof.
  intros Hj. change prv with (fld ev_tv_prev None). unfold linked.
  rewrite fld_keep by done.
  rewrite (fld_set ev_tv_prev None _ _ _ _ (Some val)) by (by rewrite ?tv_upd_is_Some). case_decide; [done|].
  rewrite (fld_set ev_tv_prev None _ _ _ _ (lst_or l1 None)) by (by rewrite ?tv_upd_is_Some).
  rewrite fld_keep by done. repeat case_decide; congruence.
Qed.
Lemma linked_deadline j : is_Some (pl_items p !! j) ->
  deadline (linked (pl_items p) val T l1 l2) j = if decide (val = j) then T else deadline (pl_items p) j.
Proof.
  intros Hj. change deadline with (fld ev_tv_ms 0). unfold linked. rewrite !fld_keep by done.
  rewrite (fld_set ev_tv_ms 0 _ _ _ _ T) by done. repeat case_decide; congruence.
Qed.

Lemma in_is_Some i : i ∈ l1 ++ l2 -> is_Some (pl_items p !! i).
Proof. apply (to_alloc _ _ Hok). Qed.
Lemma linked_ok p' :
  pl_items p' = linked (pl_items p) val T l1 l2 ->
  pl_tv_start p' = hd_or (l1 ++ val :: l2) None -> pl_tv_end p' = lst_or (l1 ++ val :: l2) None ->
  T <> 0 -> Forall (fun i => deadline (pl_items p) i <= T) l1 ->
  Forall (fun i => T <= deadline (pl_items p) i) l2 -> timers_ok p' (l1 ++ val :: l2).
Proof.
  intros Ei Es Ee HT H1 H2. destruct Hok as [Hnd Hseg Hst Hen Hset Hun Hal Hsort].
  rewrite elem_of_app in Hnew.
  assert (Hv1 : val ∉ l1) by tauto. assert (Hv2 : val ∉ l2) by tauto. rewrite <- elem_of_app in Hnew.
  assert (Hne : forall i, i ∈ l1 ++ l2 -> val <> i) by (intros i Hi ->; done).
  assert (Hne1 : forall i, i ∈ l1 -> val <> i) by (intros i Hi ->; done).
  assert (Hne2 : forall i, i ∈ l2 -> val <> i) by (intros i Hi ->; done).
  assert (Hi1 : forall i, i ∈ l1 -> is_Some (pl_items p !! i)) by (intros; apply Hal, elem_of_app; tauto).
  assert (Hi2 : forall i, i ∈ l2 -> is_Some (pl_items p !! i)) by (intros; apply Hal, elem_of_app; tauto).
  split; [by apply nodup_mid| |done|done| | | |].
  - rewrite Ei. apply seg_app in Hseg as [Hs1 Hs2]. apply seg_app. split.
    + apply (seg_set_last (nxt (pl_items p)) (prv (pl_items p))) with (n := hd_or l2 None); [by apply NoDup_app in Hnd as []|done| | |].
      * intros i Hi. rewrite linked_prv by auto.
        rewrite !decide_False; [done|congruence|by apply (nodup_app_hd l1)].
      * intros i Hi E. by rewrite linked_nxt, decide_True by auto.
      * intros i Hi E. rewrite linked_nxt, !decide_False by (done || congruence || auto). done.
    + simpl. rewrite linked_prv, linked_nxt by done.
      rewrite (decide_True (P := val = val)) by done.
      rewrite (decide_False (P := hd_or l2 None = Some val)) by (intros E%hd_or_elem; done).
      rewrite (decide_False (P := lst_or l1 None = Some val)) by (intros E%lst_or_None_elem; done).
      rewrite (decide_True (P := val = val)) by done.
      split; [done|]. split; [done|].
      apply (seg_set_first (nxt (pl_items p)) (prv (pl_items p))) with (p := lst_or l1 None); [by apply NoDup_app in Hnd as (_ & _ & ?)|done| | |].
      * intros i Hi. rewrite linked_nxt by auto.
        rewrite !decide_False; [done|congruence|by apply (nodup_app_lst l1 l2)].
      * intros i E. rewrite linked_prv, decide_True; [done|done|]. apply hd_or_elem in E. auto.
      * intros i Hi E. rewrite linked_prv, !decide_False by (done || congruence || auto). done.
  - intros i e He. assert (Hs : is_Some (pl_items p !! i)) by (apply linked_is_Some; rewrite <- Ei; by eexists).
    assert (Ed : ev_tv_ms e = deadline (pl_items p') i) by (unfold deadline; by rewrite He).
    rewrite Ed, Ei, linked_deadline by done. destruct Hs as [e0 He0].
    rewrite elem_of_app, elem_of_cons. destruct (decide (val = i)) as [->|]; [tauto|].
    unfold deadline. rewrite He0, (Hset i e0 He0), elem_of_app. intuition congruence.
  - intros i e He Hi. assert (Hs : is_Some (pl_items p !! i)) by (apply linked_is_Some; rewrite <- Ei; by eexists).
    assert (En : ev_tv_next e = nxt (pl_items p') i) by (unfold nxt; by rewrite He).
    assert (Ep : ev_tv_prev e = prv (pl_items p') i) by (unfold prv; by rewrite He).
    rewrite En, Ep, Ei, linked_nxt, linked_prv by done.
    rewrite elem_of_app, elem_of_cons in Hi.
    assert (i ∉ l1 /\ i <> val /\ i ∉ l2) as (? & ? & ?) by tauto.
    rewrite !decide_False by (congruence || (intros E%hd_or_elem; done) || (intros E%lst_or_None_elem; done)).
    destruct Hs as [e0 He0]. unfold nxt, prv. rewrite He0. apply (Hun i); [done|]. rewrite elem_of_app. tauto.
  - intros i Hi. rewrite Ei. apply linked_is_Some. rewrite elem_of_app, elem_of_cons in Hi. destruct Hi as [?|[->|?]]; auto.
  - apply SS_insert.
    + eapply SS_ext; [|exact Hsort]. intros i Hi. rewrite Ei, linked_deadline by auto.
      rewrite decide_False; [done|auto].
    + rewrite Forall_forall in *. intros i Hi. rewrite Ei, !linked_deadline by auto.
      rewrite (decide_True (P := val = val)), (decide_False (P := val = i)) by auto. by apply H1.
    + rewrite Forall_forall in *. intros i Hi. rewrite Ei, !linked_deadline by auto.
      rewrite (decide_True (P := val = val)), (decide_False (P := val = i)) by auto. by apply H2.
Qed.
End linked.

Lemma with_items_twice its its' w : with_items its' (with_items its w) = with_items its' w.
Proof. done. Qed.
Lemma upd_item_tv i f e w : pl_items (w_pool w) !! i = Some e ->
  upd_item i (f e) w = with_items (tv_upd (Some i) f (pl_items (w_pool w))) w.
Proof. intros E. unfold upd_item, with_items. simpl. by rewrite E. Qed.

#[local] Arguments timer_place : simpl never.
#[local] Arguments tv_upd : simpl never.

Lemma hd_in (l1 l2 : list nat) x : hd_or l2 None = Some x -> x ∈ l1 ++ l2.
Proof. intros ?%hd_or_elem. apply elem_of_app. tauto. Qed.
Lemma lst_in (l1 l2 : list nat) x : lst_or l1 None = Some x -> x ∈ l1 ++ l2.
Proof. intros ?%lst_or_None_elem. apply elem_of_app. tauto. Qed.

Lemma nodup_bound (l : list nat) n : NoDup l -> (forall i, i ∈ l -> (i < n)%nat) -> (length l <= n)%nat.
Proof.
  intros Hnd Hb. rewrite <- (length_seq n 0). apply submseteq_length, NoDup_submseteq; [done|].
  intros i Hi. apply elem_of_seq. specialize (Hb i Hi). lia.
Qed.

Section ops.
Context {OS : Os}.

Lemma wpp_tv_mev i f w h (Q : unit -> world -> hist -> Prop) :
  is_Some (pl_items (w_pool w) !! i) ->
  Q tt (with_items (tv_upd (Some i) f (pl_items (w_pool w))) w) h -> wpp (mev i f) w h Q.
Proof. intros [e He] HQ. eapply wpp_mev; [done|]. by rewrite upd_item_tv. Qed.

(** The pool with its timers changed. *)
Definition timed (its : list eval) (s e : option nat) (w : world) : world :=
  w <| w_pool := (w_pool w) <| pl_items := its |> <| pl_tv_start := s |> <| pl_tv_end := e |> |>.

Lemma wpp_set_ends {A B : Prop} (d1 : {A} + {~ A}) (d2 : {B} + {~ B}) s e w h
    (Q : unit -> world -> hist -> Prop) :
  Q tt (timed (pl_items (w_pool w)) (if d1 then s else pl_tv_start (w_pool w))
        (if d2 then e else pl_tv_end (w_pool w)) w) h ->
  wpp ((if d1 then mpool (fun p => p <| pl_tv_start := s |>) else mret tt);;
       (if d2 then mpool (fun p => p <| pl_tv_end := e |>) else mret tt)) w h Q.
Proof.
  intros HQ. apply wpp_bind. destruct w as [? ? [] ? ? ? ? ? ? ?]. unfold timed in HQ. simpl in *.
  destruct d1, d2; exact HQ.
Qed.

Lemma wpp_set_timer val ms w h l :
  timers_ok (w_pool w) l -> is_Some (pl_items (w_pool w) !! val) -> val ∉ l ->
  let T := rv (os_reply h CTimeMs) + ms in
  T <> 0 ->
  wpp (set_timer val ms) w h (fun _ w' h' => exists l1 l2, l = l1 ++ l2 /\
    h' = (CTimeMs, os_reply h CTimeMs) :: h /\
    w' = timed (linked (pl_items (w_pool w)) val T l1 l2)
           (hd_or (l1 ++ val :: l2) None) (lst_or (l1 ++ val :: l2) None) w /\
    Forall (fun i => deadline (pl_items (w_pool w)) i < T) l1 /\
    Forall (fun i => T <= deadline (pl_items (w_pool w)) i) l2 /\
    timers_ok (w_pool w') (l1 ++ val :: l2)).
Proof.
  intros Hok Hval Hnew T HT. pose proof Hok as [Hnd Hseg Hst Hen Hset Hun Hal Hsort].
  unfold set_timer. destruct Hval as [e He]. apply wpp_bind. eapply wpp_gev; [exact He|].
  assert (Ez : ev_tv_ms e = 0) by (destruct (decide (ev_tv_ms e = 0)) as [?|Hn]; [done|by apply (Hset val e He) in Hn]).
  rewrite Ez. simpl. apply wpp_bind, wpp_gpool, wpp_bind. unfold time_ms. apply wpp_bind, wpp_syscall, wpp_ret.
  fold T. apply wpp_bind. apply wpp_tv_mev; [by eexists|]. set (w1 := with_items _ w).
  assert (Hd : forall i, i <> val -> deadline (pl_items (w_pool w1)) i = deadline (pl_items (w_pool w)) i).
  { intros i Hi. change deadline with (fld ev_tv_ms 0). unfold w1, with_items. simpl. unfold tv_upd. rewrite He.
    unfold fld. by rewrite list_lookup_insert_ne. }
  assert (Hl1 : forall i, is_Some (pl_items (w_pool w1) !! i) <-> is_Some (pl_items (w_pool w) !! i)).
  { intros i. apply tv_upd_is_Some. }
  assert (Hseg1 : seg (nxt (pl_items (w_pool w1))) (prv (pl_items (w_pool w1))) None l None).
  { eapply seg_ext; [| |exact Hseg]; intros i.
    - by apply (fld_keep ev_tv_next None (Some val) (fun e => e <| ev_tv_ms := T |>)).
    - by apply (fld_keep ev_tv_prev None (Some val) (fun e => e <| ev_tv_ms := T |>)). }
  assert (Hl : (length l < S (length (pl_items (w_pool w))))%nat).
  { apply Nat.lt_succ_r. apply nodup_bound; [done|]. intros i Hi. by apply lookup_lt_is_Some, Hal. }
  apply wpp_bind. rewrite Hen. change (timer_place ?k ?m None ?x) with (timer_place k m (hd_or [] None) x).
  eapply wpp_mono; [apply (wpp_timer_place _ _ w1 _ l [] l); [by rewrite app_nil_r|done|intros i Hi; by apply Hl1, Hal|done|done]|].
  intros r w' h' (-> & -> & l1 & l2 & -> & -> & Hge & Hlt). cbv beta iota.
  apply wpp_bind. apply wpp_tv_mev; [by apply Hl1|].
  apply wpp_bind. apply wpp_opt_mev; [intros i E; simpl; rewrite !tv_upd_is_Some; by apply Hal, hd_in|].
  apply wpp_bind. apply wpp_opt_mev; [intros i E; simpl; rewrite !tv_upd_is_Some; by apply Hal, lst_in|].
  apply wpp_bind, wpp_gpool.
  match goal with |- wpp _ ?x _ _ => set (w2 := x) end.
  assert (Hs2 : pl_tv_start (w_pool w2) = hd_or (l1 ++ l2) None) by done.
  assert (He2 : pl_tv_end (w_pool w2) = lst_or (l1 ++ l2) None) by done.
  apply wpp_set_ends.
  assert (Es : (if decide (pl_tv_start (w_pool w2) = None \/ hd_or l2 None = pl_tv_start (w_pool w2))
                then Some val else pl_tv_start (w_pool w2)) = hd_or (l1 ++ val :: l2) None).
  { rewrite Hs2. destruct l1 as [|x l1]; simpl.
    - rewrite decide_True; [done|by right].
    - rewrite decide_False; [done|]. intros [E|E%hd_or_elem]; [done|].
      apply NoDup_app in Hnd as (_ & Hx & _). apply (Hx x); [constructor|done]. }
  assert (Ee : (if decide (pl_tv_end (w_pool w2) = None \/ lst_or l1 None = pl_tv_end (w_pool w2))
                then Some val else pl_tv_end (w_pool w2)) = lst_or (l1 ++ val :: l2) None).
  { rewrite He2, !lst_or_app. destruct l2 as [|x l2]; simpl.
    - rewrite decide_True; [done|by right].
    - rewrite decide_False; [done|]. intros [E|E].
      + by apply (lst_or_None_nil (x :: l2)) in E.
      + apply NoDup_app in Hnd as (_ & Hx & _). destruct (lst_or l2 (Some x)) as [y|] eqn:Ey; [|by apply (lst_or_None_nil (x :: l2)) in Ey].
        apply lst_or_None_elem in E. apply (Hx y E). apply (lst_or_None_elem (x :: l2)). done. }
  rewrite Es, Ee. exists l1, l2. split; [done|]. split; [done|]. split; [done|].
  assert (H1 : Forall (fun i => deadline (pl_items (w_pool w)) i < T) l1).
  { destruct (lst_or l1 None) as [q|] eqn:Eq; [|apply lst_or_None_nil in Eq as ->; constructor].
    pose proof (SS_last _ l1 q (fun i => Z.le_refl _) (SS_app_l _ _ _ Hsort) Eq) as Hf.
    specialize (Hlt q eq_refl). rewrite Hd in Hlt by (intros ->; by apply Hnew, lst_in).
    eapply Forall_impl; [exact Hf|]. intros i Hi. simpl in Hi. lia. }
  assert (H2 : Forall (fun i => T <= deadline (pl_items (w_pool w)) i) l2).
  { rewrite Forall_forall in *. intros i Hi. rewrite <- Hd; [by apply Hge|].
    intros ->. apply Hnew, elem_of_app. by right. }
  split; [done|]. split; [done|]. apply (linked_ok (w_pool w) l1 l2 val T); try done.
  eapply Forall_impl; [exact H1|]. simpl. lia.
Qed.
End ops.

(** ** Removing *)
Definition untime (e : eval) : eval :=
  e <| ev_tv_ms := 0 |> <| ev_tv_next := None |> <| ev_tv_prev := None |>.
Definition unlinked (its : list eval) (val : nat) (nx pr : option nat) : list eval :=
  tv_upd (Some val) untime
    (tv_upd nx (fun e => e <| ev_tv_prev := pr |>)
      (tv_upd pr (fun e => e <| ev_tv_next := nx |>) its)).
Definition without (val : nat) (l : list nat) : list nat := filter (fun i => i <> val) l.

Lemma without_not_in val l : val ∉ l -> without val l = l.
Proof.
  unfold without. induction l as [|x l IH]; [done|]. rewrite not_elem_of_cons. intros [? ?].
  rewrite filter_cons, decide_True by done. by rewrite IH.
Qed.
Lemma without_mid l1 val l2 : NoDup (l1 ++ val :: l2) -> without val (l1 ++ val :: l2) = l1 ++ l2.
Proof.
  intros Hnd. rewrite <- Permutation_middle, NoDup_cons, elem_of_app in Hnd. destruct Hnd as [Hn _].
  unfold without. rewrite filter_app, filter_cons, decide_False by congruence.
  fold (without val l1). fold (without val l2). rewrite !without_not_in by tauto. done.
Qed.
Lemma elem_without val l i : i ∈ without val l <-> i <> val /\ i ∈ l.
Proof. unfold without. by rewrite list_elem_of_filter. Qed.

Section unlinked.
Context (p : poolhd) (l : list nat) (val : nat) (ev : eval).
Context (Hok : timers_ok p l) (Hval : pl_items p !! val = Some ev).

(** Where the links of [val] lead: the neighbours when it is in the list. *)
Lemma unlink_split :
  (exists l1 l2, l = l1 ++ val :: l2 /\ ev_tv_next ev = hd_or l2 None /\ ev_tv_prev ev = lst_or l1 None)
  \/ (val ∉ l /\ ev_tv_next ev = None /\ ev_tv_prev ev = None).
Proof.
  destruct (decide (val ∈ l)) as [Hin|Hn].
  - left. apply list_elem_of_split in Hin as (l1 & l2 & ->). exists l1, l2. split; [done|].
    destruct Hok as [_ Hseg _ _ _ _ _ _]. apply seg_app in Hseg as [_ Hs]. simpl in Hs.
    unfold nxt, prv in Hs. rewrite Hval in Hs. tauto.
  - right. split; [done|]. by apply (to_unset _ _ Hok val).
Qed.

Lemma neighbours_in i : ev_tv_next ev = Some i \/ ev_tv_prev ev = Some i -> i ∈ l /\ i <> val.
Proof.
  destruct unlink_split as [(l1 & l2 & -> & -> & ->)|(? & -> & ->)]; [|intros []; done].
  pose proof (to_nodup _ _ Hok) as Hnd. rewrite <- Permutation_middle, NoDup_cons, elem_of_app in Hnd.
  rewrite elem_of_app, elem_of_cons.
  intros [E%hd_or_elem|E%lst_or_None_elem]; (split; [tauto|intros ->; tauto]).
Qed.

Lemma unlinked_is_Some j : is_Some (unlinked (pl_items p) val (ev_tv_next ev) (ev_tv_prev ev) !! j) <-> is_Some (pl_items p !! j).
Proof. unfold unlinked. by rewrite !tv_upd_is_Some. Qed.
Lemma unlinked_strip : strip <$> unlinked (pl_items p) val (ev_tv_next ev) (ev_tv_prev ev) = strip <$> pl_items p.
Proof. unfold unlinked. by rewrite !tv_upd_strip. Qed.
Lemma unlinked_nxt j : is_Some (pl_items p !! j) -> nxt (unlinked (pl_items p) val (ev_tv_next ev) (ev_tv_prev ev)) j =
  if decide (val = j) then None else if decide (ev_tv_prev ev = Some j) then ev_tv_next ev else nxt (pl_items p) j.
Proof.
  intros Hj. change nxt with (fld ev_tv_next None). unfold unlinked.
  rewrite (fld_set ev_tv_next None _ _ _ _ None) by (by rewrite ?tv_upd_is_Some).
  rewrite fld_keep by done. rewrite (fld_set ev_tv_next None _ _ _ _ (ev_tv_next ev)) by done.
  repeat case_decide; congruence.
Qed.
Lemma unlinked_prv j : is_Some (pl_items p !! j) -> prv (unlinked (pl_items p) val (ev_tv_next ev) (ev_tv_prev ev)) j =
  if decide (val = j) then None else if decide (ev_tv_next ev = Some j) then ev_tv_prev ev else prv (pl_items p) j.
Proof.
  intros Hj. change prv with (fld ev_tv_prev None). unfold unlinked.
  rewrite (fld_set ev_tv_prev None _ _ _ _ None) by (by rewrite ?tv_upd_is_Some).
  rewrite (fld_set ev_tv_prev None _ _ _ _ (ev_tv_prev ev)) by (by rewrite ?tv_upd_is_Some).
  rewrite fld_keep by done. repeat case_decide; congruence.
Qed.
Lemma unlinked_deadline j : is_Some (pl_items p !! j) ->
  deadline (unlinked (pl_items p) val (ev_tv_next ev) (ev_tv_prev ev)) j = if decide (val = j) then 0 else deadline (pl_items p) j.
Proof.
  intros Hj. change deadline with (fld ev_tv_ms 0). unfold unlinked.
  rewrite (fld_set ev_tv_ms 0 _ _ _ _ 0) by (by rewrite ?tv_upd_is_Some).
  rewrite !fld_keep by done. repeat case_decide; congruence.
Qed.

Lemma unlinked_seg : seg (nxt (unlinked (pl_items p) val (ev_tv_next ev) (ev_tv_prev ev)))
  (prv (unlinked (pl_items p) val (ev_tv_next ev) (ev_tv_prev ev))) None (without val l) None.
Proof.
  destruct Hok as [Hnd Hseg _ _ _ _ Hal _].
  destruct unlink_split as [(l1 & l2 & -> & En & Ep)|(Hn & En & Ep)].
  - rewrite without_mid by done. assert (Hnd' := Hnd). rewrite <- Permutation_middle, NoDup_cons, elem_of_app in Hnd'.
    destruct Hnd' as [Hv Hnd']. apply seg_app in Hseg as [Hs1 Hs2]. simpl in Hs2. destruct Hs2 as (_ & _ & Hs2).
    assert (H1 : forall i, i ∈ l1 -> is_Some (pl_items p !! i) /\ val <> i).
    { intros i Hi. split; [apply Hal, elem_of_app; tauto|intros ->; tauto]. }
    assert (H2 : forall i, i ∈ l2 -> is_Some (pl_items p !! i) /\ val <> i).
    { intros i Hi. split; [apply Hal; rewrite elem_of_app, elem_of_cons; tauto|intros ->; tauto]. }
    apply seg_app. split.
    + apply (seg_set_last (nxt (pl_items p)) (prv (pl_items p))) with (n := Some val);
        [by apply NoDup_app in Hnd' as []|done| | |]; intros i Hi; destruct (H1 i Hi).
      * rewrite unlinked_prv, En, !decide_False by (done || by apply (nodup_app_hd l1)). done.
      * intros E. by rewrite unlinked_nxt, Ep, decide_False, decide_True.
      * intros E. rewrite unlinked_nxt, Ep, !decide_False by done. done.
    + apply (seg_set_first (nxt (pl_items p)) (prv (pl_items p))) with (p := Some val);
        [by apply NoDup_app in Hnd' as (_ & _ & ?)|done| | |].
      * intros i Hi; destruct (H2 i Hi). rewrite unlinked_nxt, Ep, !decide_False by (done || by apply (nodup_app_lst l1 l2)). done.
      * intros i E. destruct (H2 i (hd_or_elem _ _ E)). by rewrite unlinked_prv, En, decide_False, decide_True.
      * intros i Hi E; destruct (H2 i Hi). rewrite unlinked_prv, En, !decide_False by done. done.
  - rewrite without_not_in by done. assert (Hne : forall i, i ∈ l -> val <> i) by (intros i ? ->; done).
    eapply seg_ext_in; [| |exact Hseg]; intros i Hi.
    + rewrite unlinked_nxt, Ep, !decide_False by (done || auto). done.
    + rewrite unlinked_prv, En, !decide_False by (done || auto). done.
Qed.

Lemma unlinked_start : (if decide (pl_tv_start p = Some val) then ev_tv_next ev else pl_tv_start p) = hd_or (without val l) None.
Proof.
  rewrite (to_start _ _ Hok). destruct unlink_split as [(l1 & l2 & E & En & _)|(Hn & _)].
  - pose proof (to_nodup _ _ Hok) as Hnd. rewrite E in Hnd |- *. rewrite without_mid by done.
    destruct l1 as [|x l1]; simpl; [by rewrite decide_True|].
    rewrite decide_False; [done|]. intros [= ->]. rewrite <- app_comm_cons in Hnd.
    apply NoDup_cons in Hnd as [Hnd _]. apply Hnd, elem_of_app. right. constructor.
  - rewrite without_not_in by done. rewrite decide_False; [done|]. intros E%hd_or_elem. done.
Qed.
Lemma unlinked_end : (if decide (pl_tv_end p = Some val) then ev_tv_prev ev else pl_tv_end p) = lst_or (without val l) None.
Proof.
  rewrite (to_end _ _ Hok). destruct unlink_split as [(l1 & l2 & E & _ & Ep)|(Hn & _)].
  - pose proof (to_nodup _ _ Hok) as Hnd. rewrite E in Hnd |- *. rewrite without_mid by done.
    rewrite !lst_or_app. simpl. destruct l2 as [|x l2]; simpl; [by rewrite decide_True|].
    rewrite decide_False; [done|]. intros Ex. apply lst_or_elem in Ex.
    apply NoDup_app in Hnd as (_ & _ & Hnd). apply NoDup_cons in Hnd as [Hnd _]. apply Hnd.
    destruct Ex as [->|]; [constructor|by constructor].
  - rewrite without_not_in by done. rewrite decide_False; [done|]. intros E%lst_or_None_elem. done.
Qed.

Lemma unlinked_ok p' :
  pl_items p' = unlinked (pl_items p) val (ev_tv_next ev) (ev_tv_prev ev) ->
  pl_tv_start p' = hd_or (without val l) None -> pl_tv_end p' = lst_or (without val l) None ->
  timers_ok p' (without val l).
Proof.
  intros Ei Es Ee. pose proof unlinked_seg as Hseg. rewrite <- Ei in Hseg.
  pose proof Hok as [Hnd _ _ _ Hset Hun Hal Hsort].
  assert (Hs : forall i e, pl_items p' !! i = Some e -> is_Some (pl_items p !! i)).
  { intros i e He. apply unlinked_is_Some. rewrite <- Ei. by eexists. }
  split; [by apply NoDup_filter|done|done|done| | | |].
  - intros i e He. pose proof (Hs i e He) as [e0 He0].
    assert (Ed : ev_tv_ms e = deadline (pl_items p') i) by (unfold deadline; by rewrite He).
    rewrite Ed, Ei, unlinked_deadline, elem_without by (by eexists).
    destruct (decide (val = i)) as [->|]; [split; [done|intros []; done]|].
    unfold deadline. rewrite He0, (Hset i e0 He0). intuition congruence.
  - intros i e He Hi. pose proof (Hs i e He) as [e0 He0]. rewrite elem_without in Hi.
    assert (En : ev_tv_next e = nxt (pl_items p') i) by (unfold nxt; by rewrite He).
    assert (Ep : ev_tv_prev e = prv (pl_items p') i) by (unfold prv; by rewrite He).
    rewrite En, Ep, Ei, unlinked_nxt, unlinked_prv by (by eexists).
    destruct (decide (val = i)) as [->|Hne]; [done|].
    assert (Hil : i ∉ l) by (intros ?; apply Hi; split; congruence).
    rewrite !decide_False by (intros E; apply Hil; apply neighbours_in; tauto).
    unfold nxt, prv. rewrite He0. by apply (Hun i).
  - intros i [_ Hi]%elem_without. rewrite Ei. by apply unlinked_is_Some, Hal.
  - assert (Hss : StronglySorted (fun i j => deadline (pl_items p) i <= deadline (pl_items p) j) (without val l)).
    { destruct unlink_split as [(l1 & l2 & E & _)|(Hn & _)]; [|by rewrite without_not_in].
      rewrite E in Hnd, Hsort |- *. rewrite without_mid by done. by eapply SS_remove. }
    eapply SS_ext; [|exact Hss]. intros i [Hne Hi]%elem_without.
    rewrite Ei, unlinked_deadline by auto. by rewrite decide_False by congruence.
Qed.
End unlinked.

Section remove.
Context {OS : Os}.

Lemma wpp_set_ends_then {A B : Prop} (d1 : {A} + {~ A}) (d2 : {B} + {~ B}) s s' e e' (m : W unit) w h Q :
  wpp m (timed (pl_items (w_pool w)) (if d1 then s else pl_tv_start (w_pool w))
           (if d2 then e else pl_tv_end (w_pool w)) w) h Q ->
  s' = s -> e' = e ->
  wpp ((if d1 then mpool (fun p => p <| pl_tv_start := s' |>) else mret tt);;
       (if d2 then mpool (fun p => p <| pl_tv_end := e' |>) else mret tt);; m) w h Q.
Proof.
  intros HQ -> ->. apply wpp_bind. destruct w as [? ? [] ? ? ? ? ? ? ?]. unfold timed in HQ. simpl in *.
  destruct d1, d2; exact HQ.
Qed.

Lemma wpp_remove_timer val ev w h l :
  timers_ok (w_pool w) l -> pl_items (w_pool w) !! val = Some ev ->
  wpp (remove_timer val) w h (fun _ w' h' => h' = h /\
    w' = timed (unlinked (pl_items (w_pool w)) val (ev_tv_next ev) (ev_tv_prev ev))
           (hd_or (without val l) None) (lst_or (without val l) None) w /\
    timers_ok (w_pool w') (without val l)).
Proof.
  intros Hok Hval. unfold remove_timer. apply wpp_bind. eapply wpp_gev; [exact Hval|].
  assert (Hn : forall i, ev_tv_next ev = Some i \/ ev_tv_prev ev = Some i -> is_Some (pl_items (w_pool w) !! i)).
  { intros i Hi. apply (to_alloc _ _ Hok). by eapply neighbours_in. }
  apply wpp_bind. apply wpp_opt_mev; [intros i E; apply Hn; tauto|].
  apply wpp_bind. apply wpp_opt_mev; [intros i E; simpl; rewrite tv_upd_is_Some; apply Hn; tauto|].
  apply wpp_bind, wpp_gpool.
  match goal with |- wpp _ ?x _ _ => set (w2 := x) end.
  assert (Es : pl_tv_start (w_pool w2) = pl_tv_start (w_pool w)) by done.
  assert (Ee : pl_tv_end (w_pool w2) = pl_tv_end (w_pool w)) by done.
  eapply wpp_set_ends_then; [|reflexivity|reflexivity]. rewrite Es, Ee, (unlinked_start _ _ _ _ Hok Hval), (unlinked_end _ _ _ _ Hok Hval).
  apply wpp_tv_mev; [simpl; by rewrite !tv_upd_is_Some|].
  split; [done|]. split; [done|]. by apply (unlinked_ok (w_pool w) l val ev).
Qed.
End remove.
