(* ===== verification/BufFacts.v ===== *)
(** The buffers of conev.c: the chain from [root_buff] represents a stack of at most
    [MAX_BUFF_INP] free buffers. *)
From S2P Require Import Prelude CMem Sys Mpool PktFake State Conev StateFacts TimerFacts.
#[local] Open Scope Z_scope.

(** The free buffers from [root] on. *)
Fixpoint buf_chain (m : gmap nat buffer) (root : option nat) (l : list nat) : Prop :=
  match l with
  | [] => root = None
  | b :: l => root = Some b /\ exists x, m !! b = Some x /\ buf_chain m (b_next x) l
  end.

Record bufs_ok (w : world) (l : list nat) : Prop := {
  bo_nodup : NoDup l;
  bo_chain : buf_chain (w_bufs w) (pl_root_buff (w_pool w)) l;
  bo_count : pl_buff_count (w_pool w) = Z.of_nat (length l);
  bo_max : (length l <= 8)%nat;
  bo_fresh : forall b, is_Some (w_bufs w !! b) -> (b < w_fresh w)%nat;
}.

Lemma buf_chain_frame m root l b x :
  b ∉ l -> buf_chain m root l -> buf_chain (<[b := x]> m) root l.
Proof.
  revert root. induction l as [|c l IH]; intros root; [done|]. rewrite not_elem_of_cons.
  intros [Hne Hn] (-> & y & Hy & Hc). split; [done|]. exists y. rewrite lookup_insert_ne by done. auto.
Qed.
Lemma buf_chain_delete m root l b :
  b ∉ l -> buf_chain m root l -> buf_chain (delete b m) root l.
Proof.
  revert root. induction l as [|c l IH]; intros root; [done|]. rewrite not_elem_of_cons.
  intros [Hne Hn] (-> & y & Hy & Hc). split; [done|]. exists y. rewrite lookup_delete_ne by done. auto.
Qed.
Lemma buf_chain_alloc m root l b : buf_chain m root l -> b ∈ l -> is_Some (m !! b).
Proof.
  revert root. induction l as [|c l IH]; intros root; simpl; [by intros _ ?%not_elem_of_nil|].
  intros (_ & y & Hy & Hc) [->|Hb]%elem_of_cons; [by eexists|by eapply IH].
Qed.

(** What buffer operations leave alone. *)
Definition buf_frame (w w' : world) : Prop :=
  w' = w <| w_bufs := w_bufs w' |> <| w_fresh := w_fresh w' |>
         <| w_pool := (w_pool w) <| pl_root_buff := pl_root_buff (w_pool w') |>
                                 <| pl_buff_count := pl_buff_count (w_pool w') |> |>
  /\ (w_fresh w <= w_fresh w')%nat.

Lemma buf_frame_refl w : buf_frame w w.
Proof. split; [by destruct w as [? ? [] ? ? ? ? ? ? ?]|done]. Qed.
Lemma buf_frame_items w w' : buf_frame w w' -> pl_items (w_pool w') = pl_items (w_pool w).
Proof. intros [-> _]. done. Qed.

Section buf.
Context {OS : Os}.

(** [buff_pop]: the top of the stack, or a new buffer, or nothing when there is no
    memory. *)
Lemma wpp_buff_pop size w h l :
  bufs_ok w l ->
  wpp (buff_pop size) w h (fun o w' h' => buf_frame w w' /\
    match l with
    | b :: l' => o = Some b /\ h' = h /\ w_bufs w' = w_bufs w /\ bufs_ok w' l'
    | [] => bufs_ok w' [] /\ match o with
        | Some b => b = w_fresh w /\ w_bufs w !! b = None /\
            w_bufs w' = <[b := Buffer size 0 0 None (replicate (Z.to_nat size) 0)]> (w_bufs w)
        | None => w_bufs w' = w_bufs w
        end
    end).
Proof.
  intros [Hnd Hc Hct Hmx Hf]. unfold buff_pop. apply wpp_bind, wpp_gpool.
  destruct l as [|b l]; simpl in Hc.
  - rewrite Hc. apply wpp_bind, wpp_syscall. destruct (_ =? 0).
    + apply wpp_ret. split; [apply buf_frame_refl|]. split; [|done]. by split.
    + unfold new_buffer. apply wpp_bind, wpp_bind, wpp_pget, wpp_bind. unfold pput.
      apply wpp_ret, wpp_ret.
      assert (Hn : w_bufs w !! w_fresh w = None).
      { destruct (w_bufs w !! w_fresh w) eqn:E; [|done]. specialize (Hf _ (ex_intro _ _ E)). lia. }
      split; [split; [by destruct w as [? ? [] ? ? ? ? ? ? ?]|simpl; lia]|]. split; [|done]. split; try done.
      simpl. intros b Hb. destruct (decide (b = w_fresh w)) as [->|]; [lia|].
      rewrite lookup_insert_ne in Hb by done. specialize (Hf b Hb). lia.
  - destruct Hc as (-> & x & Hx & Hc). apply wpp_bind. eapply wpp_gbuf; [exact Hx|].
    apply wpp_bind, wpp_mpool, wpp_ret. split; [split; [by destruct w as [? ? [] ? ? ? ? ? ? ?]|done]|].
    split; [done|]. split; [done|]. split; [done|]. simpl in *. apply NoDup_cons in Hnd as [_ Hnd].
    split; simpl; [done|done|lia|lia|done].
Qed.

(** [buff_push]: on the stack, or freed when it is full. *)
Lemma wpp_buff_push b w h l :
  bufs_ok w l -> is_Some (w_bufs w !! b) -> b ∉ l ->
  wpp (buff_push (Some b)) w h (fun _ w' h' => h' = h /\ buf_frame w w' /\
    (forall c, c <> b -> w_bufs w' !! c = w_bufs w !! c) /\
    bufs_ok w' (if (length l <? 8)%nat then b :: l else l)).
Proof.
  intros [Hnd Hc Hct Hmx Hf] [x Hx] Hb. unfold buff_push. apply wpp_bind, wpp_gpool.
  unfold MAX_BUFF_INP. rewrite Hct. destruct (Nat.ltb_spec (length l) 8) as [Hl|Hl].
  - rewrite (proj2 (Z.leb_gt 8 _)) by lia. apply wpp_bind. eapply wpp_mbuf; [exact Hx|].
    apply wpp_mpool. split; [done|]. split; [split; [by destruct w as [? ? [] ? ? ? ? ? ? ?]|done]|].
    split; [intros c Hcb; simpl; by rewrite lookup_insert_ne|].
    split; simpl; [by apply NoDup_cons| |lia|lia|].
    + split; [done|]. eexists. rewrite lookup_insert_eq. split; [done|]. simpl. by apply buf_chain_frame.
    + intros c Hcs. destruct (decide (b = c)) as [->|]; [apply Hf; by eexists|].
      rewrite lookup_insert_ne in Hcs by done. by apply Hf.
  - rewrite (proj2 (Z.leb_le 8 _)) by lia. unfold free_buffer. apply wpp_bind. eapply wpp_gbuf; [exact Hx|].
    apply wpp_pmod. split; [done|]. split; [split; [by destruct w as [? ? [] ? ? ? ? ? ? ?]|done]|].
    split; [intros c Hcb; simpl; by rewrite lookup_delete_ne|].
    split; simpl; [done|by apply buf_chain_delete|done|done|].
    intros c Hcs. destruct (decide (b = c)) as [->|]; [apply Hf; by eexists|].
    rewrite lookup_delete_ne in Hcs by done. by apply Hf.
Qed.

Lemma wpp_buff_ppop size w h l :
  bufs_ok w l ->
  wpp (buff_ppop size) w h (fun o w' h' => match o with
    | Some b => exists l', bufs_ok w' (b :: l')
    | None => bufs_ok w' [] /\ l = []
    end).
Proof.
  intros Hok. unfold buff_ppop. apply wpp_bind. eapply wpp_mono; [by apply wpp_buff_pop|].
  intros o w' h' (_ & Ho). destruct l as [|b l'].
  - destruct Ho as [Hok' Ho]. destruct o as [b|].
    + destruct Ho as (-> & _ & Eb). apply wpp_bind.
      eapply wpp_mono; [apply (wpp_buff_push _ _ _ [])|]; [done|rewrite Eb, lookup_insert_eq; by eexists|apply not_elem_of_nil|].
      intros _ w'' h'' (_ & _ & _ & ?). apply wpp_ret. by exists [].
    + apply wpp_bind, wpp_ret, wpp_ret. by split.
  - destruct Ho as (-> & _ & Eb & Hok'). destruct Hok as [Hnd Hc _ Hmx _]. apply NoDup_cons in Hnd as [Hb _].
    apply wpp_bind. eapply wpp_mono; [apply wpp_buff_push; [done|rewrite Eb; eapply buf_chain_alloc; [done|constructor]|done]|].
    intros _ w'' h'' (_ & _ & _ & H). apply wpp_ret. exists l'. simpl in Hmx.
    by rewrite (proj2 (Nat.ltb_lt _ _)) in H by lia.
Qed.
End buf.
