(* ===== verification/PoolFacts.v ===== *)
(** The event pool of conev.c: the invariant that ties links, items, timers and
    buffers together, and that its operations keep it. *)
From S2P Require Import Prelude CMem Sys Mpool PktFake State Conev StateFacts TimerFacts BufFacts.
#[local] Open Scope Z_scope.

(** An event in use: its link is below [count]. *)
Definition live (p : poolhd) (v : nat) : Prop :=
  exists k, pl_links p !! k = Some v /\ Z.of_nat k < pl_count p.
(** The two buffers an event owns. *)
Definition slot (e : eval) (s : bool) : option nat := if s then ev_sq_buff e else ev_buff e.
Definition closed (p : poolhd) (v : nat) : Prop := exists e, pl_items p !! v = Some e /\ ev_fd e = -1.

(** [tl] are the timers, [bl] the free buffers; [x] is an event whose descriptor is
    already closed while it is being deleted. *)
Record pool_inv (x : option nat) (w : world) (tl bl : list nat) : Prop := {
  pi_len : length (pl_links (w_pool w)) = length (pl_items (w_pool w));
  pi_max : pl_max (w_pool w) = Z.of_nat (length (pl_items (w_pool w)));
  pi_nodup : NoDup (pl_links (w_pool w));
  pi_range : forall v, v ∈ pl_links (w_pool w) -> (v < length (pl_items (w_pool w)))%nat;
  pi_count : 0 <= pl_count (w_pool w) <= Z.of_nat (length (pl_links (w_pool w)));
  pi_index : forall k v, pl_links (w_pool w) !! k = Some v -> Z.of_nat k < pl_count (w_pool w) ->
    exists e, pl_items (w_pool w) !! v = Some e /\ ev_index e = Z.of_nat k;
  pi_fd : forall v e, live (w_pool w) v -> pl_items (w_pool w) !! v = Some e -> Some v <> x -> 0 < ev_fd e;
  pi_iter : forall v e, pl_items (w_pool w) !! v = Some e -> ev_mod_iter e <= pl_iters (w_pool w);
  pi_pair : forall v e q, live (w_pool w) v -> pl_items (w_pool w) !! v = Some e -> ev_pair e = Some q ->
    live (w_pool w) q \/ closed (w_pool w) q;
  pi_timers : timers_ok (w_pool w) tl;
  pi_tlive : forall i, i ∈ tl -> live (w_pool w) i;
  pi_bufs : bufs_ok w bl;
  pi_own : forall v e s b, live (w_pool w) v -> pl_items (w_pool w) !! v = Some e -> slot e s = Some b ->
    is_Some (w_bufs w !! b) /\ b ∉ bl;
  pi_distinct : forall v e s v' e' s' b, live (w_pool w) v -> pl_items (w_pool w) !! v = Some e ->
    slot e s = Some b -> live (w_pool w) v' -> pl_items (w_pool w) !! v' = Some e' ->
    slot e' s' = Some b -> v = v' /\ s = s';
}.

Lemma live_item x w tl bl v : pool_inv x w tl bl -> live (w_pool w) v -> is_Some (pl_items (w_pool w) !! v).
Proof.
  intros Hi (k & Hk & Hlt). destruct (pi_index _ _ _ _ Hi k v Hk Hlt) as (e & He & _). by eexists.
Qed.

(** ** Changing items *)

(** What an update of an item keeps, as far as the invariant is concerned. *)
Record keeps (lv : nat -> Prop) (x x' : option nat) (iters : Z) (v : nat) (e e' : eval) : Prop := {
  ke_index : ev_index e' = ev_index e;
  ke_iter : ev_mod_iter e' <= iters;
  ke_fd : ev_fd e' = ev_fd e \/ (x' = Some v /\ ev_fd e' = -1);
  ke_pair : ev_pair e' = ev_pair e \/ forall q, ev_pair e' = Some q -> lv q;
  ke_slot : forall s, slot e' s = slot e s \/ slot e' s = None;
}.

Lemma pool_inv_items x x' w w' tl tl' bl :
  pool_inv x w tl bl -> (x' = x \/ x = None) ->
  length (pl_items (w_pool w')) = length (pl_items (w_pool w)) ->
  w' = w <| w_pool := (w_pool w) <| pl_items := pl_items (w_pool w') |>
             <| pl_tv_start := pl_tv_start (w_pool w') |> <| pl_tv_end := pl_tv_end (w_pool w') |> |> ->
  (forall v e', pl_items (w_pool w') !! v = Some e' ->
     exists e, pl_items (w_pool w) !! v = Some e /\ keeps (live (w_pool w)) x x' (pl_iters (w_pool w)) v e e') ->
  timers_ok (w_pool w') tl' -> (forall i, i ∈ tl' -> live (w_pool w) i) ->
  pool_inv x' w' tl' bl.
Proof.
  intros Hi Hx Hlen Ew Hk Ht Htl.
  assert (Hlinks : pl_links (w_pool w') = pl_links (w_pool w)) by (rewrite Ew; done).
  assert (Hcount : pl_count (w_pool w') = pl_count (w_pool w)) by (rewrite Ew; done).
  assert (Hmax : pl_max (w_pool w') = pl_max (w_pool w)) by (rewrite Ew; done).
  assert (Hit : pl_iters (w_pool w') = pl_iters (w_pool w)) by (rewrite Ew; done).
  assert (Hb : w_bufs w' = w_bufs w) by (rewrite Ew; done).
  assert (Hl : forall v, live (w_pool w') v <-> live (w_pool w) v).
  { intros v. unfold live. by rewrite Hlinks, Hcount. }
  assert (Hcl : forall q, closed (w_pool w) q -> closed (w_pool w') q).
  { intros q (e & He & Hfd). destruct (pl_items (w_pool w') !! q) as [e'|] eqn:E'.
    - destruct (Hk q e' E') as (e1 & He1 & K). assert (e1 = e) as -> by congruence.
      exists e'. split; [done|]. destruct (ke_fd _ _ _ _ _ _ _ K) as [->|[_ ->]]; done.
    - apply lookup_ge_None in E'. apply lookup_lt_Some in He. lia. }
  destruct Hi. split; rewrite ?Hlinks, ?Hcount, ?Hmax, ?Hit, ?Hlen, ?Hb; try done.
  - intros k v Hkv Hlt. destruct (pi_index0 k v Hkv Hlt) as (e & He & Hix).
    destruct (pl_items (w_pool w') !! v) as [e'|] eqn:E'.
    + destruct (Hk v e' E') as (e1 & He1 & K). exists e'. split; [done|]. rewrite (ke_index _ _ _ _ _ _ _ K). congruence.
    + apply lookup_ge_None in E'. apply lookup_lt_Some in He. lia.
  - intros v e' Hlv He' Hxv. rewrite Hl in Hlv. destruct (Hk v e' He') as (e & He & K).
    destruct (ke_fd _ _ _ _ _ _ _ K) as [->|[? ?]]; [|congruence]. apply (pi_fd0 v); [done|done|].
    destruct Hx as [->| ->]; done.
  - intros v e' He'. destruct (Hk v e' He') as (e & He & K). apply (ke_iter _ _ _ _ _ _ _ K).
  - intros v e' q Hlv He' Hq. rewrite Hl in *. destruct (Hk v e' He') as (e & He & K).
    destruct (ke_pair _ _ _ _ _ _ _ K) as [Ep|Ep]; [|left; auto].
    destruct (pi_pair0 v e q Hlv He) as [?|?]; [congruence|by left|right; auto].
  - intros i Hin. apply Hl. auto.
  - destruct pi_bufs0. split; rewrite ?Hb; try done; rewrite Ew; done.
  - intros v e' s b Hlv He' Hs. rewrite Hl in Hlv. destruct (Hk v e' He') as (e & He & K).
    destruct (ke_slot _ _ _ _ _ _ _ K s) as [Es|Es]; [|congruence]. apply (pi_own0 v e s); [done|done|congruence].
  - intros v e' s v2 e2' s2 b Hlv He' Hs Hlv2 He2' Hs2. rewrite Hl in *.
    destruct (Hk v e' He') as (e & He & K). destruct (Hk v2 e2' He2') as (e2 & He2 & K2).
    destruct (ke_slot _ _ _ _ _ _ _ K s) as [Es|Es]; [|congruence].
    destruct (ke_slot _ _ _ _ _ _ _ K2 s2) as [Es2|Es2]; [|congruence].
    apply (pi_distinct0 v e s v2 e2 s2 b); congruence.
Qed.

(** Timers only look at the timer fields. *)
Definition tv_fields (e : eval) := (ev_tv_ms e, ev_tv_next e, ev_tv_prev e).
Lemma timers_ok_ext p p' l :
  (forall i, tv_fields <$> pl_items p' !! i = tv_fields <$> pl_items p !! i) ->
  pl_tv_start p' = pl_tv_start p -> pl_tv_end p' = pl_tv_end p -> timers_ok p l -> timers_ok p' l.
Proof.
  unfold tv_fields. intros Hf Es Ee [Hnd Hseg Hst Hen Hset Hun Hal Hsort].
  assert (Hn : forall i, nxt (pl_items p') i = nxt (pl_items p) i).
  { intros i. specialize (Hf i). unfold nxt. destruct (pl_items p' !! i), (pl_items p !! i); simplify_eq/=; congruence. }
  assert (Hp : forall i, prv (pl_items p') i = prv (pl_items p) i).
  { intros i. specialize (Hf i). unfold prv. destruct (pl_items p' !! i), (pl_items p !! i); simplify_eq/=; congruence. }
  assert (Hd : forall i, deadline (pl_items p') i = deadline (pl_items p) i).
  { intros i. specialize (Hf i). unfold deadline. destruct (pl_items p' !! i), (pl_items p !! i); simplify_eq/=; congruence. }
  split; [done|by eapply seg_ext|congruence|congruence| | | |].
  - intros i e He. specialize (Hf i). rewrite He in Hf. destruct (pl_items p !! i) as [e0|] eqn:E0; simplify_eq/=.
    rewrite <- (Hset i e0 E0). by replace (ev_tv_ms e) with (ev_tv_ms e0) by congruence.
  - intros i e He. specialize (Hf i). rewrite He in Hf. destruct (pl_items p !! i) as [e0|] eqn:E0; simplify_eq/=.
    intros Hi. destruct (Hun i e0 E0 Hi). split; congruence.
  - intros i Hi. destruct (Hal i Hi) as [e He]. specialize (Hf i). rewrite He in Hf.
    by destruct (pl_items p' !! i).
  - eapply SS_ext; [|exact Hsort]. intros; apply Hd.
Qed.

Lemma pool_inv_upd x x' w tl bl v e e' :
  pool_inv x w tl bl -> (x' = x \/ x = None) -> pl_items (w_pool w) !! v = Some e ->
  keeps (live (w_pool w)) x x' (pl_iters (w_pool w)) v e e' -> tv_fields e' = tv_fields e ->
  pool_inv x' (upd_item v e' w) tl bl.
Proof.
  intros Hi Hx He K Htv. assert (Hlt : (v < length (pl_items (w_pool w)))%nat) by (by eapply lookup_lt_Some).
  eapply pool_inv_items; [exact Hi|done|simpl; apply length_insert| | | |].
  - by destruct w as [? ? [] ? ? ? ? ? ? ?].
  - intros u f Hf. simpl in Hf. destruct (decide (u = v)) as [->|].
    + rewrite list_lookup_insert_eq in Hf by done. simplify_eq. by exists e.
    + rewrite list_lookup_insert_ne in Hf by done. exists f. split; [done|].
      split; auto. by apply (pi_iter _ _ _ _ Hi u).
  - eapply timers_ok_ext; [| | |apply (pi_timers _ _ _ _ Hi)]; [|done|done].
    intros i. simpl. destruct (decide (i = v)) as [->|].
    + rewrite list_lookup_insert_eq by done. rewrite He. simpl. by rewrite Htv.
    + by rewrite list_lookup_insert_ne.
  - apply (pi_tlive _ _ _ _ Hi).
Qed.

(** ** Timers, buffers and links of the pool *)
Lemma strip_fields e e' : strip e' = strip e ->
  ev_index e' = ev_index e /\ ev_mod_iter e' = ev_mod_iter e /\ ev_fd e' = ev_fd e /\
  ev_pair e' = ev_pair e /\ ev_buff e' = ev_buff e /\ ev_sq_buff e' = ev_sq_buff e.
Proof.
  intros H. split; [exact (f_equal ev_index H)|]. split; [exact (f_equal ev_mod_iter H)|].
  split; [exact (f_equal ev_fd H)|]. split; [exact (f_equal ev_pair H)|].
  split; [exact (f_equal ev_buff H)|exact (f_equal ev_sq_buff H)].
Qed.
Lemma strip_lookup (its its' : list eval) (v : nat) e' : strip <$> its' = strip <$> its -> its' !! v = Some e' ->
  exists e, its !! v = Some e /\ strip e' = strip e.
Proof.
  intros H He. assert (E : (strip <$> its') !! v = (strip <$> its) !! v) by congruence.
  rewrite !list_lookup_fmap, He in E. destruct (its !! v) as [e|]; [|done].
  apply (inj Some) in E. by exists e.
Qed.

Lemma pool_inv_timed x w its s e tl tl' bl :
  pool_inv x w tl bl -> strip <$> its = strip <$> pl_items (w_pool w) ->
  timers_ok (w_pool (timed its s e w)) tl' -> (forall i, i ∈ tl' -> live (w_pool w) i) ->
  pool_inv x (timed its s e w) tl' bl.
Proof.
  intros Hi Hs Ht Hl. eapply pool_inv_items; [exact Hi|by left| | | |done|done].
  - assert (E : length (strip <$> its) = length (strip <$> pl_items (w_pool w))) by congruence.
    by rewrite !length_fmap in E.
  - done.
  - intros v e' He'. destruct (strip_lookup _ _ v e' Hs He') as (e0 & He0 & E). exists e0. split; [done|].
    apply strip_fields in E as (? & Em & ? & ? & Eb & Eq). split; [done| |by left|by left|].
    + rewrite Em. by apply (pi_iter _ _ _ _ Hi v).
    + intros b. left. unfold slot. by rewrite Eb, Eq.
Qed.

(** [if (val->buff) { buff_push(pool, val->buff); val->buff = 0; }], both buffers *)
Definition clear_slot (s : bool) (e : eval) : eval :=
  if s then e <| ev_sq_buff := None |> else e <| ev_buff := None |>.
Lemma pool_inv_push x w w1 tl bl bl' v e s b :
  pool_inv x w tl bl -> live (w_pool w) v -> pl_items (w_pool w) !! v = Some e -> slot e s = Some b ->
  buf_frame w w1 -> (forall c, c <> b -> w_bufs w1 !! c = w_bufs w !! c) -> bufs_ok w1 bl' ->
  (forall c, c ∈ bl' -> c = b \/ c ∈ bl) ->
  pool_inv x (upd_item v (clear_slot s e) w1) tl bl'.
Proof.
  intros Hi Hlv He Hs [Ew Hfr] Hc Hb' Hbl.
  assert (Hw1 : pool_inv x (w <| w_bufs := w_bufs w |>) tl bl) by (destruct w; exact Hi).
  assert (Hlt : (v < length (pl_items (w_pool w)))%nat) by (by eapply lookup_lt_Some).
  assert (K : keeps (live (w_pool w)) x x (pl_iters (w_pool w)) v e (clear_slot s e)).
  { assert (ev_mod_iter e <= pl_iters (w_pool w)) by (by apply (pi_iter _ _ _ _ Hi v)).
    destruct s; split; simpl; auto; intros []; simpl; auto. }
  pose proof (pool_inv_upd x x w tl bl v e (clear_slot s e) Hi (or_introl eq_refl) He K ltac:(by destruct s)) as Hu.
  set (w2 := upd_item v (clear_slot s e) w1).
  assert (Ep : w_pool w2 = (w_pool (upd_item v (clear_slot s e) w)) <| pl_root_buff := pl_root_buff (w_pool w1) |>
     <| pl_buff_count := pl_buff_count (w_pool w1) |>) by (unfold w2; rewrite Ew; done).
  assert (Hne : forall u f t c, live (w_pool w2) u -> pl_items (w_pool w2) !! u = Some f -> slot f t = Some c -> c <> b).
  { intros u f t c Hu1 Hf Hsf ->. rewrite Ep in Hu1, Hf. simpl in Hf.
    destruct (decide (u = v)) as [->|Hne].
    - rewrite list_lookup_insert_eq in Hf by done. simplify_eq.
      destruct (decide (t = s)) as [->|Hts]; [destruct s; simpl in Hsf; congruence|].
      assert (slot e t = Some b) by (destruct s, t; simpl in *; congruence).
      destruct (pi_distinct _ _ _ _ Hi v e s v e t b Hlv He Hs Hlv He ltac:(done)); congruence.
    - rewrite list_lookup_insert_ne in Hf by done.
      destruct (pi_distinct _ _ _ _ Hi v e s u f t b Hlv He Hs Hu1 Hf Hsf); congruence. }
  destruct Hu. split; rewrite ?Ep; try done.
  - eapply timers_ok_ext; [| | |exact pi_timers0]; done.
  - destruct Hb'. split; done.
  - intros u f t c Hu1 Hf Hsf. assert (c <> b) by (apply (Hne u f t c); rewrite ?Ep; done).
    destruct (pi_own0 u f t c) as [Hal Hnb]; [done|done|done|]. split.
    + change (w_bufs w2) with (w_bufs w1). rewrite Hc by done. exact Hal.
    + intros Hin. destruct (Hbl c Hin); done.
Qed.

(** Taking [val] out of the links: the last live link moves to its place. *)
Definition swapped (ls : list nat) (k c : nat) (a b : nat) : list nat := <[c := a]> (<[k := b]> ls).
Lemma swapped_lookup ls k c a b i : (k < length ls)%nat -> (c < length ls)%nat ->
  ls !! k = Some a -> ls !! c = Some b ->
  swapped ls k c a b !! i = ls !! (if decide (i = c) then k else if decide (i = k) then c else i).
Proof.
  intros Hk Hc Ha Hb. unfold swapped. destruct (decide (i = c)) as [->|].
  - by rewrite list_lookup_insert_eq by (by rewrite length_insert).
  - rewrite list_lookup_insert_ne by done. destruct (decide (i = k)) as [->|].
    + by rewrite list_lookup_insert_eq.
    + by rewrite list_lookup_insert_ne.
Qed.
Lemma swapped_nodup ls k c a b : (k < length ls)%nat -> (c < length ls)%nat ->
  ls !! k = Some a -> ls !! c = Some b -> NoDup ls -> NoDup (swapped ls k c a b).
Proof.
  intros Hk Hc Ha Hb Hnd. rewrite NoDup_alt in *. intros i j x Hi Hj.
  rewrite swapped_lookup in Hi, Hj by done. specialize (Hnd _ _ _ Hi Hj). repeat case_decide; congruence.
Qed.

Section swap.
Context (w : world) (tl bl : list nat) (val k c ev : nat) (e ee : eval).
Context (Hi : pool_inv (Some val) w tl bl) (Hk : pl_links (w_pool w) !! k = Some val)
  (Hkc : Z.of_nat k < pl_count (w_pool w)) (Hc : Z.of_nat c = pl_count (w_pool w) - 1)
  (Hev : pl_links (w_pool w) !! c = Some ev) (He : pl_items (w_pool w) !! val = Some e)
  (Hee : pl_items (w_pool w) !! ev = Some ee) (Hfd : ev_fd e = -1) (Htl : val ∉ tl).
Definition swap_world : world :=
  w <| w_pool := (w_pool w) <| pl_count := Z.of_nat c |> <| pl_links := swapped (pl_links (w_pool w)) k c val ev |>
         <| pl_items := <[ev := ee <| ev_index := Z.of_nat k |>]> (pl_items (w_pool w)) |> |>.

Lemma swap_links i : pl_links (w_pool swap_world) !! i =
  pl_links (w_pool w) !! (if decide (i = c) then k else if decide (i = k) then c else i).
Proof. apply swapped_lookup; [by eapply lookup_lt_Some|by eapply lookup_lt_Some|done|done]. Qed.

Lemma swap_live v : live (w_pool swap_world) v <-> live (w_pool w) v /\ v <> val.
Proof.
  pose proof (pi_nodup _ _ _ _ Hi) as Hnd. rewrite NoDup_alt in Hnd.
  unfold live at 1. setoid_rewrite swap_links. simpl. split.
  - intros (i & Hiv & Hlt). rewrite decide_False in Hiv by lia. destruct (decide (i = k)) as [->|Hne].
    + assert (v = ev) as -> by congruence. split; [exists c; split; [done|lia]|].
      intros ->. specialize (Hnd _ _ _ Hk Hev). lia.
    + split; [exists i; split; [done|lia]|]. intros ->. by specialize (Hnd _ _ _ Hk Hiv).
  - intros [(i & Hiv & Hlt) Hne]. destruct (decide (i = c)) as [->|].
    + exists k. assert (k <> c) by congruence. rewrite decide_False, decide_True by done. split; [done|lia].
    + assert (i <> k) by congruence. exists i. rewrite !decide_False by done. split; [done|lia].
Qed.

Lemma swap_items v e' : pl_items (w_pool swap_world) !! v = Some e' ->
  exists e0, pl_items (w_pool w) !! v = Some e0 /\ (e' = e0 \/ e' = e0 <| ev_index := Z.of_nat k |>).
Proof.
  simpl. assert (Hlt : (ev < length (pl_items (w_pool w)))%nat) by (by eapply lookup_lt_Some).
  destruct (decide (v = ev)) as [->|].
  - rewrite list_lookup_insert_eq by done. intros [= <-]. exists ee. auto.
  - rewrite list_lookup_insert_ne by done. intros Hv. exists e'. auto.
Qed.

Lemma pool_inv_swap : pool_inv None swap_world tl bl.
Proof.
  assert (Hclosed : forall q, closed (w_pool w) q -> closed (w_pool swap_world) q).
  { intros q (f & Hf & Hq). destruct (decide (q = ev)) as [->|].
    - exists (ee <| ev_index := Z.of_nat k |>). simpl. rewrite list_lookup_insert_eq by (by eapply lookup_lt_Some).
      split; [done|]. simpl. congruence.
    - exists f. simpl. by rewrite list_lookup_insert_ne. }
  assert (Hlen : length (pl_items (w_pool swap_world)) = length (pl_items (w_pool w))) by (simpl; apply length_insert).
  assert (Hlenl : length (pl_links (w_pool swap_world)) = length (pl_links (w_pool w))).
  { simpl. unfold swapped. by rewrite !length_insert. }
  assert (Hcv : closed (w_pool swap_world) val) by (apply Hclosed; by exists e).
  destruct Hi. split; rewrite ?Hlen, ?Hlenl.
  - done.
  - done.
  - simpl. apply swapped_nodup; [by eapply lookup_lt_Some|by eapply lookup_lt_Some|done..].
  - intros v Hv. apply list_elem_of_lookup in Hv as [i Hv]. rewrite swap_links in Hv.
    apply pi_range0. by apply list_elem_of_lookup_2 in Hv.
  - simpl. lia.
  - intros i v Hv Hlt. rewrite swap_links in Hv. simpl in Hlt. rewrite decide_False in Hv by lia.
    destruct (decide (i = k)) as [->|Hne].
    + assert (v = ev) as -> by congruence. exists (ee <| ev_index := Z.of_nat k |>). simpl.
      rewrite list_lookup_insert_eq by (by eapply lookup_lt_Some). done.
    + destruct (pi_index0 i v Hv ltac:(lia)) as (f & Hf & Hix). exists f. simpl.
      rewrite list_lookup_insert_ne; [done|]. intros ->. rewrite NoDup_alt in pi_nodup0.
      specialize (pi_nodup0 _ _ _ Hv Hev). lia.
  - intros v e' Hv He' _. apply swap_live in Hv as [Hv Hne]. apply swap_items in He' as (e0 & He0 & [->| ->]);
      exact (pi_fd0 v e0 Hv He0 (fun E => Hne (inj Some _ _ E))).
  - intros v e' He'. apply swap_items in He' as (e0 & He0 & [->| ->]); exact (pi_iter0 v e0 He0).
  - intros v e' q Hv He' Hq. apply swap_live in Hv as [Hv Hne]. apply swap_items in He' as (e0 & He0 & E).
    assert (Hq0 : ev_pair e0 = Some q) by (destruct E as [->| ->]; done).
    destruct (decide (q = val)) as [->|]; [by right|].
    destruct (pi_pair0 v e0 q Hv He0 Hq0); [left; by apply swap_live|right; auto].
  - eapply timers_ok_ext; [| | |exact pi_timers0]; [|done|done]. intros i. simpl.
    destruct (decide (i = ev)) as [->|].
    + rewrite list_lookup_insert_eq by (by eapply lookup_lt_Some). by rewrite Hee.
    + by rewrite list_lookup_insert_ne.
  - intros i Hin. apply swap_live. split; [auto|]. intros ->. done.
  - destruct pi_bufs0. split; done.
  - intros v e' s b Hv He' Hs. apply swap_live in Hv as [Hv _]. apply swap_items in He' as (e0 & He0 & E).
    apply (pi_own0 v e0 s b Hv He0). destruct E as [->| ->], s; done.
  - intros v e1 s v2 e2 s2 b Hv He1 Hs Hv2 He2 Hs2.
    apply swap_live in Hv as [Hv _]. apply swap_items in He1 as (e0 & He0 & E).
    apply swap_live in Hv2 as [Hv2 _]. apply swap_items in He2 as (e3 & He3 & E3).
    apply (pi_distinct0 v e0 s v2 e3 s2 b Hv He0); [destruct E as [->| ->], s; done|done|done|destruct E3 as [->| ->], s2; done].
Qed.
End swap.

Section unlink.
Context {OS : Os}.

Definition unlink (val : nat) (ix count : Z) : W unit :=
  mpool (fun p => p <| pl_count := count |>);;
  p ← gpool;
  ev ← (if count <? 0 then pub else deref (pl_links p !! Z.to_nat count));
  if decide (ev = val) then mret tt else
  set_link ix ev;; set_link count val;; mev ev (fun x => x <| ev_index := ix |>).

Lemma wpp_set_link i v w h (Q : unit -> world -> hist -> Prop) :
  0 <= i < zlen (pl_links (w_pool w)) ->
  Q tt (w <| w_pool := (w_pool w) <| pl_links := <[Z.to_nat i := v]> (pl_links (w_pool w)) |> |>) h ->
  wpp (set_link i v) w h Q.
Proof.
  intros Hi HQ. unfold set_link. apply wpp_bind, wpp_gpool.
  rewrite (proj2 (Z.leb_le 0 i)), (proj2 (Z.ltb_lt i _)) by lia. by apply wpp_mpool.
Qed.

Lemma wpp_unlink val e w h tl bl :
  pool_inv (Some val) w tl bl -> live (w_pool w) val -> pl_items (w_pool w) !! val = Some e ->
  ev_fd e = -1 -> val ∉ tl ->
  wpp (unlink val (ev_index e) (pl_count (w_pool w) - 1)) w h (fun _ w' h' => h' = h /\
    pool_inv None w' tl bl /\ pl_count (w_pool w') = pl_count (w_pool w) - 1 /\ pl_efd (w_pool w') = pl_efd (w_pool w) /\
    length (pl_items (w_pool w')) = length (pl_items (w_pool w)) /\
    (forall v, live (w_pool w') v <-> live (w_pool w) v /\ v <> val) /\
    forall v e', pl_items (w_pool w') !! v = Some e' ->
      exists e0, pl_items (w_pool w) !! v = Some e0 /\ ev_fd e' = ev_fd e0 /\ ev_pair e' = ev_pair e0).
Proof.
  intros Hi Hlv He Hfd Htl. pose proof Hlv as (k & Hk & Hkc).
  set (c := Z.to_nat (pl_count (w_pool w) - 1)).
  pose proof (pi_count _ _ _ _ Hi) as Hct.
  destruct (pi_index _ _ _ _ Hi k val Hk Hkc) as (e0 & He0 & Hix). assert (e0 = e) as -> by congruence.
  assert (Hkl : (k < length (pl_links (w_pool w)))%nat) by (by eapply lookup_lt_Some).
  assert (Hcl : (c < length (pl_links (w_pool w)))%nat) by (unfold c; lia).
  destruct (lookup_lt_is_Some_2 _ _ Hcl) as [ev Hev].
  unfold unlink. apply wpp_bind, wpp_mpool, wpp_bind, wpp_gpool, wpp_bind.
  rewrite (proj2 (Z.ltb_ge _ 0)) by lia. simpl. fold c. eapply wpp_deref; [exact Hev|].
  assert (Hlev : live (w_pool w) ev) by (exists c; split; [done|unfold c; lia]).
  destruct (live_item _ _ _ _ _ Hi Hlev) as [ee Hee].
  assert (Hc : Z.of_nat c = pl_count (w_pool w) - 1) by (unfold c; lia).
  pose proof (pool_inv_swap w tl bl val k c ev e ee Hi Hk Hkc Hc Hev He Hee Hfd Htl) as Hinv.
  pose proof (swap_live w tl bl val k c ev ee Hi Hk Hkc Hc Hev Hee) as Hlive.
  pose proof (swap_items w val k c ev ee Hee) as Hitems.
  assert (Hpost : forall w', w' = swap_world w val k c ev ee -> h = h /\ pool_inv None w' tl bl /\
    pl_count (w_pool w') = pl_count (w_pool w) - 1 /\ pl_efd (w_pool w') = pl_efd (w_pool w) /\
    length (pl_items (w_pool w')) = length (pl_items (w_pool w)) /\
    (forall v, live (w_pool w') v <-> live (w_pool w) v /\ v <> val) /\
    forall v e', pl_items (w_pool w') !! v = Some e' ->
      exists e0, pl_items (w_pool w) !! v = Some e0 /\ ev_fd e' = ev_fd e0 /\ ev_pair e' = ev_pair e0).
  { intros w' ->. split; [done|]. split; [done|]. split; [simpl; lia|]. split; [done|]. split; [simpl; apply length_insert|].
    split; [exact Hlive|]. intros v e' He'. apply Hitems in He' as (e0 & ? & [->| ->]); by exists e0. }
  destruct (decide (ev = val)) as [->|Hne].
  - apply wpp_ret. apply Hpost. assert (k = c) as <-.
    { pose proof (pi_nodup _ _ _ _ Hi) as Hnd. rewrite NoDup_alt in Hnd. by apply (Hnd k c val). }
    assert (ee = e) as -> by congruence. unfold swap_world, swapped.
    rewrite !(list_insert_id _ k val) by (rewrite ?list_insert_id; done).
    replace (e <| ev_index := Z.of_nat k |>) with e by (rewrite <- Hix; by destruct e).
    rewrite list_insert_id by done. rewrite Hc. by destruct w as [? ? [] ? ? ? ? ? ? ?].
  - apply wpp_bind, wpp_set_link; [simpl; unfold zlen; rewrite Hix; lia|].
    apply wpp_bind, wpp_set_link; [simpl; unfold zlen; rewrite length_insert; lia|].
    eapply wpp_mev; [exact Hee|]. apply Hpost. rewrite Hix, <- Hc, !Nat2Z.id. done.
Qed.
End unlink.

(** ** Deleting *)
Lemma pool_inv_world x w w' tl bl :
  w_pool w' = w_pool w -> w_bufs w' = w_bufs w -> w_fresh w' = w_fresh w ->
  pool_inv x w tl bl -> pool_inv x w' tl bl.
Proof.
  intros Ep Eb Ef []. split; rewrite ?Ep, ?Eb; try done.
  destruct pi_bufs0. split; rewrite ?Ep, ?Eb, ?Ef; done.
Qed.

(** What deleting leaves of the other events, and of [val] until it is unlinked. *)
Record same_events (w w' : world) : Prop := {
  se_links : pl_links (w_pool w') = pl_links (w_pool w);
  se_count : pl_count (w_pool w') = pl_count (w_pool w);
  se_efd : pl_efd (w_pool w') = pl_efd (w_pool w);
  se_iters : pl_iters (w_pool w') = pl_iters (w_pool w);
  se_len : length (pl_items (w_pool w')) = length (pl_items (w_pool w));
  se_item : forall v f', pl_items (w_pool w') !! v = Some f' -> exists f, pl_items (w_pool w) !! v = Some f /\
    ev_fd f' = ev_fd f /\ ev_pair f' = ev_pair f /\ ev_index f' = ev_index f;
}.
Lemma same_refl w : same_events w w.
Proof. split; try done. intros v f Hf. by exists f. Qed.
Lemma same_trans w1 w2 w3 : same_events w1 w2 -> same_events w2 w3 -> same_events w1 w3.
Proof.
  intros [] []. split; try congruence. intros v f' Hf.
  destruct (se_item1 v f' Hf) as (f & Hf2 & ? & ? & ?). destruct (se_item0 v f Hf2) as (g & ? & ? & ? & ?).
  exists g. split; [done|]. split; [congruence|]. split; congruence.
Qed.
Lemma same_upd w v e e' : pl_items (w_pool w) !! v = Some e -> ev_fd e' = ev_fd e -> ev_pair e' = ev_pair e ->
  ev_index e' = ev_index e -> same_events w (upd_item v e' w).
Proof.
  intros He ? ? ?. split; try done; [simpl; apply length_insert|]. intros u f Hf. simpl in Hf.
  destruct (decide (u = v)) as [->|].
  - rewrite list_lookup_insert_eq in Hf by (by eapply lookup_lt_Some). simplify_eq. by exists e.
  - rewrite list_lookup_insert_ne in Hf by done. by exists f.
Qed.
Lemma same_buf w w' : buf_frame w w' -> same_events w w'.
Proof. intros [-> _]. split; try done. intros v f Hf. by exists f. Qed.
Lemma same_live w w' v : same_events w w' -> live (w_pool w') v <-> live (w_pool w) v.
Proof. intros []. unfold live. by rewrite se_links0, se_count0. Qed.
Lemma same_item w w' v e : same_events w w' -> pl_items (w_pool w) !! v = Some e ->
  exists e', pl_items (w_pool w') !! v = Some e' /\ ev_fd e' = ev_fd e /\ ev_pair e' = ev_pair e /\ ev_index e' = ev_index e.
Proof.
  intros S He. destruct (pl_items (w_pool w') !! v) as [e'|] eqn:E.
  - destruct (se_item _ _ S v e' E) as (f & Hf & ?). assert (f = e) as -> by congruence. by exists e'.
  - apply lookup_ge_None in E. rewrite (se_len _ _ S) in E. apply lookup_lt_Some in He. lia.
Qed.

(** The descriptors a history closes. *)
Fixpoint closes (h : hist) : list Z :=
  match h with
  | [] => []
  | (CClose fd, _) :: h => fd :: closes h
  | _ :: h => closes h
  end.

Section del.
Context {OS : Os}.

Lemma wpp_clear s val e w h tl bl :
  pool_inv None w tl bl -> live (w_pool w) val -> pl_items (w_pool w) !! val = Some e ->
  forall Q : unit -> world -> hist -> Prop,
  (forall w' bl', pool_inv None w' tl bl' -> same_events w w' ->
     pl_items (w_pool w') = <[val := clear_slot s e]> (pl_items (w_pool w)) -> Q tt w' h) ->
  wpp (buff_push (slot e s);; mev val (clear_slot s)) w h Q.
Proof.
  intros Hi Hlv He Q HQ. pose proof (pi_own _ _ _ _ Hi val e s) as Hown. apply wpp_bind.
  destruct (slot e s) as [b|] eqn:Es.
  - destruct (Hown b Hlv He eq_refl) as [Hal Hnb].
    eapply wpp_mono; [apply (wpp_buff_push b w h bl); [apply (pi_bufs _ _ _ _ Hi)|done|done]|].
    intros _ w1 h1 (-> & Hfr & Hoth & Hok).
    assert (Ei : pl_items (w_pool w1) = pl_items (w_pool w)) by (by apply buf_frame_items).
    eapply wpp_mev; [rewrite Ei; exact He|].
    apply (HQ _ (if (length bl <? 8)%nat then b :: bl else bl)).
    + eapply (pool_inv_push None w w1); try done. intros c Hc. case_match; [|by right].
      apply elem_of_cons in Hc. destruct Hc; auto.
    + eapply same_trans; [by apply same_buf|]. apply same_upd with e; [by rewrite Ei|by destruct s..].
    + simpl. by rewrite Ei.
  - apply wpp_ret. eapply wpp_mev; [exact He|]. apply (HQ _ bl).
    + eapply pool_inv_upd; [exact Hi|by left|exact He| |by destruct s].
      assert (ev_mod_iter e <= pl_iters (w_pool w)) by (by apply (pi_iter _ _ _ _ Hi val)).
      destruct s; split; simpl; auto; intros []; simpl; auto.
    + apply same_upd with e; [done|by destruct s..].
    + done.
Qed.

Lemma wpp_unmap_fake val e w h tl bl :
  pool_inv None w tl bl -> pl_items (w_pool w) !! val = Some e ->
  forall Q : unit -> world -> hist -> Prop,
  (forall w' h' e', pool_inv None w' tl bl -> same_events w w' -> closes h' = closes h ->
     pl_items (w_pool w') !! val = Some e' -> ev_host e' = ev_host e -> Q tt w' h') ->
  wpp (unmap_fake val) w h Q.
Proof.
  intros Hi He Q HQ. unfold unmap_fake. apply wpp_bind. eapply wpp_gev; [exact He|].
  destruct (ev_restore_fake e) as [[m off]|]; [|apply wpp_ret; eapply HQ; [done|apply same_refl|done|done|done]].
  apply wpp_bind. unfold munmap_. apply wpp_bind, wpp_syscall.
  assert (Hfin : forall w1 h1, w_pool w1 = w_pool w -> w_bufs w1 = w_bufs w -> w_fresh w1 = w_fresh w -> closes h1 = closes h ->
    wpp (mev val (fun e => e <| ev_restore_fake := None |>)) w1 h1 Q).
  { intros w1 h1 Ep Eb Ef Eh. eapply wpp_mev; [rewrite Ep; exact He|].
    assert (Hi1 : pool_inv None w1 tl bl) by (by eapply pool_inv_world).
    eapply (HQ _ _ (e <| ev_restore_fake := None |>)); [| |done| |done].
    - eapply pool_inv_upd; [exact Hi1|by left|rewrite Ep; exact He| |done].
      assert (ev_mod_iter e <= pl_iters (w_pool w)) by (by apply (pi_iter _ _ _ _ Hi val)).
      rewrite Ep. split; auto.
    - eapply same_trans; [|by apply same_upd with e; [rewrite Ep|..]].
      split; rewrite ?Ep; try done. intros v f Hf. by exists f.
    - simpl. rewrite Ep, list_lookup_insert_eq; [done|by eapply lookup_lt_Some]. }
  destruct (off =? 0); [apply wpp_pmod|apply wpp_ret]; by apply Hfin.
Qed.

Lemma wpp_seq2 {A B C} (a : W A) (b : A -> W B) (m : W C) w h (Q : C -> world -> hist -> Prop) :
  wpp (x ← a; b x) w h (fun _ w' h' => wpp m w' h' Q) -> wpp (x ← a; b x;; m) w h Q.
Proof.
  intros H. apply wpp_bind. unfold wpp, mbind, prog_bind in *.
  destruct (a w h) as [[[x w1] h1]| |]; [|done|done].
  destruct (b x w1 h1) as [[[y w2] h2]| |]; done.
Qed.

Lemma wpp_free_host val (o : option (list Z)) e w h tl bl :
  pool_inv None w tl bl -> pl_items (w_pool w) !! val = Some e ->
  forall Q : unit -> world -> hist -> Prop,
  (forall w' h', pool_inv None w' tl bl -> same_events w w' -> closes h' = closes h -> Q tt w' h') ->
  wpp (match o with
       | Some host => _ ← syscall (CFree host); mev val (fun e => e <| ev_host := None |>)
       | None => mret tt
       end) w h Q.
Proof.
  intros Hi He Q HQ. destruct o as [host|]; [|apply wpp_ret; apply HQ; [done|apply same_refl|done]].
  apply wpp_bind, wpp_syscall. eapply wpp_mev; [exact He|].
  apply HQ; [|by apply same_upd with e|done].
  eapply pool_inv_upd; [exact Hi|by left|exact He| |done].
  assert (ev_mod_iter e <= pl_iters (w_pool w)) by (by apply (pi_iter _ _ _ _ Hi val)). split; auto.
Qed.

(** The last part: the descriptor is closed, the timer and the link go. *)
Lemma wpp_detach val e w h tl bl iters count ix :
  pool_inv None w tl bl -> live (w_pool w) val -> pl_items (w_pool w) !! val = Some e ->
  iters = pl_iters (w_pool w) -> count = pl_count (w_pool w) -> ix = ev_index e ->
  wpp (mev val (fun e => e <| ev_fd := -1 |> <| ev_mod_iter := iters |>);;
       remove_timer val;; unlink val ix (count - 1)) w h (fun _ w' h' => h' = h /\
    pl_count (w_pool w') = pl_count (w_pool w) - 1 /\ pl_efd (w_pool w') = pl_efd (w_pool w) /\
    length (pl_items (w_pool w')) = length (pl_items (w_pool w)) /\
    (forall v, live (w_pool w') v <-> live (w_pool w) v /\ v <> val) /\
    (exists e', pl_items (w_pool w') !! val = Some e' /\ ev_fd e' = -1 /\ ev_pair e' = ev_pair e) /\
    (forall v f', v <> val -> pl_items (w_pool w') !! v = Some f' ->
       exists f, pl_items (w_pool w) !! v = Some f /\ ev_fd f' = ev_fd f /\ ev_pair f' = ev_pair f) /\
    exists tl', pool_inv None w' tl' bl).
Proof.
  intros Hi Hlv He -> -> ->. apply wpp_bind. eapply wpp_mev; [exact He|].
  set (e1 := e <| ev_fd := -1 |> <| ev_mod_iter := pl_iters (w_pool w) |>). set (w1 := upd_item val e1 w).
  assert (Hi1 : pool_inv (Some val) w1 tl bl).
  { eapply pool_inv_upd; [exact Hi|by right|exact He| |done]. split; simpl; [done|lia|by right|by left|by left]. }
  assert (Hvl : (val < length (pl_items (w_pool w)))%nat) by (by eapply lookup_lt_Some).
  assert (He1 : pl_items (w_pool w1) !! val = Some e1) by (simpl; by rewrite list_lookup_insert_eq).
  apply wpp_bind. eapply wpp_mono; [by apply (wpp_remove_timer val e1 w1 h tl), He1; apply (pi_timers _ _ _ _ Hi1)|].
  intros _ w2 h2 (-> & Ew2 & Ht2).
  set (its := unlinked (pl_items (w_pool w1)) val (ev_tv_next e1) (ev_tv_prev e1)) in *.
  assert (Hst : strip <$> its = strip <$> pl_items (w_pool w1)).
  { apply (unlinked_strip (w_pool w1) val e1). }
  assert (Hi2 : pool_inv (Some val) w2 (without val tl) bl).
  { rewrite Ew2 in Ht2 |- *. eapply pool_inv_timed; [exact Hi1|done|done|].
    intros i [_ Hin]%elem_without. by apply (pi_tlive _ _ _ _ Hi1). }
  assert (Hi2items : pl_items (w_pool w2) = its) by (by rewrite Ew2).
  assert (Hback : forall v f', pl_items (w_pool w2) !! v = Some f' -> exists f, pl_items (w_pool w1) !! v = Some f /\
    ev_fd f' = ev_fd f /\ ev_pair f' = ev_pair f /\ ev_index f' = ev_index f).
  { intros v f' Hf. rewrite Hi2items in Hf. destruct (strip_lookup _ _ v f' Hst Hf) as (f & Hf1 & E).
    exists f. split; [done|]. apply strip_fields in E. tauto. }
  assert (He2 : exists e2, pl_items (w_pool w2) !! val = Some e2).
  { rewrite Hi2items. apply (unlinked_is_Some (w_pool w1) val e1). by eexists. }
  destruct He2 as [e2 He2]. destruct (Hback val e2 He2) as (e1' & He1' & Efd & Epr & Eix).
  assert (e1' = e1) as -> by congruence.
  replace (ev_index e) with (ev_index e2) by (rewrite Eix; done).
  assert (Hlive2 : forall v, live (w_pool w2) v <-> live (w_pool w) v) by (intros v; by rewrite Ew2).
  replace (pl_count (w_pool w)) with (pl_count (w_pool w2)) by (by rewrite Ew2).
  eapply wpp_mono; [apply (wpp_unlink val e2 w2 h (without val tl) bl Hi2); [by apply Hlive2|done|by rewrite Efd|]|].
  { intros [Hx _]%elem_without. done. }
  intros _ w3 h3 (-> & Hi3 & Hc3 & Hefd3 & Hlen3 & Hl3 & Hb3). split; [done|]. split; [done|].
  split; [by rewrite Hefd3, Ew2|].
  split. { rewrite Hlen3, Ew2. unfold its. simpl.
    assert (E : length (strip <$> its) = length (strip <$> pl_items (w_pool w1))) by (by rewrite Hst).
    rewrite !length_fmap in E. simpl in E. by rewrite length_insert in E. }
  split. { intros v. by rewrite Hl3, Hlive2. }
  split.
  - destruct (pl_items (w_pool w3) !! val) as [e3|] eqn:E3.
    + destruct (Hb3 val e3 E3) as (e2' & He2' & ? & ?). assert (e2' = e2) as -> by congruence.
      change (ev_fd e1) with (-1) in Efd. change (ev_pair e1) with (ev_pair e) in Epr.
      exists e3. split; [done|]. split; congruence.
    + apply lookup_ge_None in E3. rewrite Hlen3 in E3. apply lookup_lt_Some in He2. lia.
  - split; [|by exists (without val tl)]. intros v f' Hne Hf.
    destruct (Hb3 v f' Hf) as (f2 & Hf2 & ? & ?). destruct (Hback v f2 Hf2) as (f1 & Hf1 & ? & ? & _).
    exists f1. simpl in Hf1. rewrite list_lookup_insert_ne in Hf1 by done.
    split; [done|]. split; congruence.
Qed.

Definition deleted_one (val : nat) (e : eval) (w : world) (h : hist) (w' : world) (h' : hist) : Prop :=
  pl_count (w_pool w') = pl_count (w_pool w) - 1 /\ pl_efd (w_pool w') = pl_efd (w_pool w) /\
  length (pl_items (w_pool w')) = length (pl_items (w_pool w)) /\
  (forall v, live (w_pool w') v <-> live (w_pool w) v /\ v <> val) /\
  closes h' = ev_fd e :: closes h /\
  (exists e', pl_items (w_pool w') !! val = Some e' /\ ev_fd e' = -1 /\ ev_pair e' = ev_pair e) /\
  (forall v f', v <> val -> pl_items (w_pool w') !! v = Some f' ->
     exists f, pl_items (w_pool w) !! v = Some f /\ ev_fd f' = ev_fd f /\ ev_pair f' = ev_pair f).

Lemma wpp_del_one val e w h tl bl :
  pool_inv None w tl bl -> live (w_pool w) val -> pl_items (w_pool w) !! val = Some e ->
  wpp (del_one val e) w h (fun _ w' h' => deleted_one val e w h w' h' /\
    exists tl' bl', pool_inv None w' tl' bl').
Proof.
  intros Hi Hlv He. unfold del_one. apply wpp_bind, wpp_gpool. apply wpp_bind.
  unfold epoll_ctl. apply wpp_bind, wpp_syscall, wpp_ret.
  apply (wpp_seq2 (buff_push (slot e false)) (fun _ => mev val (clear_slot false))).
  apply (wpp_clear false val e _ _ tl bl Hi Hlv He). intros w1 bl1 Hi1 S1 E1.
  assert (Hlv1 : live (w_pool w1) val) by (by apply (same_live w)).
  assert (He1 : pl_items (w_pool w1) !! val = Some (clear_slot false e)).
  { rewrite E1, list_lookup_insert_eq; [done|by eapply lookup_lt_Some]. }
  apply (wpp_seq2 (buff_push (slot (clear_slot false e) true)) (fun _ => mev val (clear_slot true))).
  apply (wpp_clear true val _ _ _ tl bl1 Hi1 Hlv1 He1). intros w2 bl2 Hi2 S2 E2.
  assert (He2 : pl_items (w_pool w2) !! val = Some (clear_slot true (clear_slot false e))).
  { rewrite E2, list_lookup_insert_eq; [done|by eapply lookup_lt_Some]. }
  pose proof (same_trans _ _ _ S1 S2) as S12.
  apply wpp_bind. apply (wpp_unmap_fake val _ _ _ tl bl2 Hi2 He2). intros w3 h3 e3 Hi3 S3 Hh3 He3 Ehost.
  pose proof (same_trans _ _ _ S12 S3) as S13. simpl in Ehost. clear S1 S2 S12 S3.
  apply wpp_bind. apply (wpp_free_host val (ev_host e) e3 w3 h3 tl bl2 Hi3 He3). intros w4 h4 Hi4 S4 Hh4.
  pose proof (same_trans _ _ _ S13 S4) as S. clear S13 S4.
  destruct (same_item _ _ val e S He) as (e4 & He4 & Efd & Epr & Eix).
  apply wpp_bind. unfold close_. apply wpp_bind, wpp_syscall, wpp_ret.
  eapply wpp_mono; [apply (wpp_detach val e4 w4 _ tl bl2 (pl_iters (w_pool w)) (pl_count (w_pool w)) (ev_index e));
    [done|by apply (same_live w)|done|by rewrite (se_iters _ _ S)|by rewrite (se_count _ _ S)|done]|].
  intros _ w' h' (-> & Hc & Hefd & Hlen & Hl & (e5 & He5 & Hfd5 & Hp5) & Hoth & tl' & Hi').
  split; [|by exists tl', bl2]. split; [by rewrite Hc, (se_count _ _ S)|]. split; [by rewrite Hefd, (se_efd _ _ S)|].
  split; [by rewrite Hlen, (se_len _ _ S)|]. split.
  { intros v. rewrite Hl. by rewrite (same_live w w4). }
  split; [simpl; by rewrite Hh4, Hh3|]. split; [exists e5; split; [done|]; split; [done|congruence]|].
  intros v f' Hne Hf. destruct (Hoth v f' Hne Hf) as (f & Hf4 & ? & ?).
  destruct (se_item _ _ S v f Hf4) as (f0 & ? & ? & ? & _). exists f0. split; [done|]. split; congruence.
Qed.

(** What [del_event] does: [val] is closed, and so is every event that left the
    pool; the others stay and keep their descriptors. *)
Record deleted (val : nat) (w : world) (h : hist) (w' : world) (h' : hist) : Prop := {
  de_val : closed (w_pool w') val;
  de_pair : forall e q, live (w_pool w) val -> pl_items (w_pool w) !! val = Some e -> ev_pair e = Some q ->
    closed (w_pool w') q;
  de_live : forall v, live (w_pool w') v -> live (w_pool w) v;
  de_gone : forall v, live (w_pool w) v -> live (w_pool w') v \/ closed (w_pool w') v;
  de_closed : forall v, closed (w_pool w) v -> closed (w_pool w') v;
  de_fd : forall v f', live (w_pool w') v -> pl_items (w_pool w') !! v = Some f' ->
    exists f, pl_items (w_pool w) !! v = Some f /\ ev_fd f' = ev_fd f;
  de_efd : pl_efd (w_pool w') = pl_efd (w_pool w);
  de_len : length (pl_items (w_pool w')) = length (pl_items (w_pool w));
  de_count : exists fds, closes h' = fds ++ closes h /\
    pl_count (w_pool w') = pl_count (w_pool w) - Z.of_nat (length fds) /\
    forall v e, live (w_pool w) v -> pl_items (w_pool w) !! v = Some e -> ~ live (w_pool w') v -> ev_fd e ∈ fds;
}.

(** clearing a [pair] *)
Definition unpair (v : nat) (e : eval) (w : world) : world := upd_item v (e <| ev_pair := None |>) w.
Lemma unpair_inv v e w tl bl : pl_items (w_pool w) !! v = Some e -> pool_inv None w tl bl -> pool_inv None (unpair v e w) tl bl.
Proof.
  intros He Hi. eapply pool_inv_upd; [exact Hi|by left|exact He| |done].
  assert (ev_mod_iter e <= pl_iters (w_pool w)) by (by apply (pi_iter _ _ _ _ Hi v)). split; auto.
  right. done.
Qed.
Lemma unpair_item v e w u f' : pl_items (w_pool w) !! v = Some e -> pl_items (w_pool (unpair v e w)) !! u = Some f' ->
  exists f, pl_items (w_pool w) !! u = Some f /\ ev_fd f' = ev_fd f.
Proof.
  intros He. simpl. destruct (decide (u = v)) as [->|].
  - rewrite list_lookup_insert_eq by (by eapply lookup_lt_Some). intros [= <-]. by exists e.
  - rewrite list_lookup_insert_ne by done. intros Hf. by exists f'.
Qed.
Lemma unpair_closed v e w u : pl_items (w_pool w) !! v = Some e -> closed (w_pool w) u -> closed (w_pool (unpair v e w)) u.
Proof.
  intros He (f & Hf & Hfd). unfold closed. simpl. destruct (decide (u = v)) as [->|].
  - exists (e <| ev_pair := None |>). rewrite list_lookup_insert_eq by (by eapply lookup_lt_Some).
    split; [done|]. simpl. congruence.
  - exists f. by rewrite list_lookup_insert_ne.
Qed.

Lemma live_count w v x tl bl : pool_inv x w tl bl -> live (w_pool w) v -> 0 < pl_count (w_pool w).
Proof. intros _ (k & _ & ?). lia. Qed.

Lemma deleted_step val e w h w1 h1 q w3 w' h' :
  deleted_one val e w h w1 h1 -> pl_items (w_pool w) !! val = Some e ->
  ev_pair e = None \/ ev_pair e = Some q ->
  (forall v, live (w_pool w3) v <-> live (w_pool w1) v) ->
  (forall v, closed (w_pool w1) v -> closed (w_pool w3) v) ->
  (forall v f', pl_items (w_pool w3) !! v = Some f' -> exists f, pl_items (w_pool w1) !! v = Some f /\ ev_fd f' = ev_fd f) ->
  length (pl_items (w_pool w3)) = length (pl_items (w_pool w1)) -> pl_efd (w_pool w3) = pl_efd (w_pool w1) ->
  pl_count (w_pool w3) = pl_count (w_pool w1) ->
  deleted q w3 h1 w' h' -> deleted val w h w' h'.
Proof.
  intros (Hc & Hefd & Hlen & Hl & Hcl & (e1 & He1 & Hfd1 & _) & Hoth) He Hpr Hl3 Hcl3 Hit3 Hlen3 Hefd3 Hc3 [].
  assert (Hback : forall v f1, v <> val -> pl_items (w_pool w3) !! v = Some f1 ->
    exists f, pl_items (w_pool w) !! v = Some f /\ ev_fd f1 = ev_fd f).
  { intros v f3 Hne Hf3. destruct (Hit3 v f3 Hf3) as (f1 & Hf1 & E). destruct (Hoth v f1 Hne Hf1) as (f & Hf & E' & _).
    exists f. split; [done|congruence]. }
  assert (Hcl1 : forall v, v <> val -> closed (w_pool w) v -> closed (w_pool w1) v).
  { intros v Hne (f & Hf & Hfd). destruct (pl_items (w_pool w1) !! v) as [f1|] eqn:E1.
    - destruct (Hoth v f1 Hne E1) as (f0 & Hf0 & E & _). exists f1. split; [done|]. congruence.
    - apply lookup_ge_None in E1. apply lookup_lt_Some in Hf. lia. }
  assert (Hvalc : closed (w_pool w') val) by (apply de_closed0, Hcl3; by exists e1).
  assert (Hsub : forall v, live (w_pool w') v -> live (w_pool w) v /\ v <> val).
  { intros v Hv. apply Hl, Hl3. auto. }
  split.
  - done.
  - intros f u _ Hf Hu. assert (f = e) as -> by congruence. destruct Hpr as [?|E]; [congruence|].
    assert (u = q) as -> by congruence. done.
  - intros v Hv. by apply Hsub.
  - intros v Hv. destruct (decide (v = val)) as [->|Hne]; [by right|].
    apply de_gone0. apply Hl3, Hl. done.
  - intros v Hv. destruct (decide (v = val)) as [->|Hne]; [done|]. apply de_closed0, Hcl3. auto.
  - intros v f' Hv Hf'. destruct (de_fd0 v f' Hv Hf') as (f3 & Hf3 & E). apply Hsub in Hv as [_ Hne].
    destruct (Hback v f3 Hne Hf3) as (f & Hf & E'). exists f. split; [done|congruence].
  - congruence.
  - congruence.
  - destruct de_count0 as (fds & Ecl & Ect & Hin). exists (fds ++ [ev_fd e]).
    rewrite <- app_assoc. simpl. rewrite Ecl, Hcl. split; [done|].
    split; [rewrite length_app; simpl; lia|]. intros v f Hv Hf Hnl.
    apply elem_of_app. destruct (decide (v = val)) as [->|Hne]; [right; replace f with e by congruence; constructor|left].
    destruct (pl_items (w_pool w3) !! v) as [f3|] eqn:E3.
    + destruct (Hback v f3 Hne E3) as (f0 & Hf0 & E). replace (ev_fd f) with (ev_fd f3) by congruence.
      apply (Hin v f3); [apply Hl3, Hl; done|done|done].
    + apply lookup_ge_None in E3. apply lookup_lt_Some in Hf. lia.
Qed.

Lemma wpp_del_event_f k val w h tl bl :
  pool_inv None w tl bl -> live (w_pool w) val \/ closed (w_pool w) val ->
  pl_count (w_pool w) < Z.of_nat k ->
  wpp (del_event_f k val) w h (fun _ w' h' => deleted val w h w' h' /\ exists tl' bl', pool_inv None w' tl' bl').
Proof.
  revert val w h tl bl. induction k as [|k IH]; intros val w h tl bl Hi Hval Hk;
    pose proof (pi_count _ _ _ _ Hi) as Hct; [lia|].
  assert (He : is_Some (pl_items (w_pool w) !! val)).
  { destruct Hval as [?|(e & ? & _)]; [by eapply live_item|by eexists]. }
  destruct He as [e He]. simpl. apply wpp_bind. eapply wpp_gev; [exact He|]. apply wpp_bind, wpp_gpool, wpp_bind.
  apply wpp_passert.
  { apply andb_true_iff. rewrite !Z.leb_le. split; [|by apply (pi_iter _ _ _ _ Hi val)].
    destruct Hval as [Hl|(e' & He' & ?)]; [pose proof (pi_fd _ _ _ _ Hi val e Hl He ltac:(done)); lia|].
    assert (e' = e) as -> by congruence. lia. }
  destruct (Z.eqb_spec (ev_fd e) (-1)) as [Hfd|Hfd].
  { apply wpp_ret. split; [|by exists tl, bl]. split; try done; [by exists e| |by left|by eexists|].
    { intros f u Hl Hf. pose proof (pi_fd _ _ _ _ Hi val f Hl Hf ltac:(done)). assert (f = e) as -> by congruence. lia. }
    exists []. split; [done|]. split; [simpl; lia|]. intros v f Hv Hf []. done. }
  destruct Hval as [Hlv|(e' & He' & ?)]; [|congruence].
  apply wpp_bind. eapply wpp_mono; [by apply (wpp_del_one val e w h tl bl)|].
  intros _ w1 h1 (Hone & tl1 & bl1 & Hi1). pose proof Hone as (Hc1 & Hefd1 & Hlen1 & Hl1 & Hcl1 & (e1 & He1 & Hfd1 & Hp1) & Hoth1).
  apply wpp_bind. eapply wpp_gev; [exact He1|].
  assert (Hend : forall w' h', deleted val w h w' h' /\ (exists tl' bl', pool_inv None w' tl' bl') ->
    wpp (p ← gpool; passert (0 <=? pl_count p)) w' h'
      (fun _ w' h' => deleted val w h w' h' /\ exists tl' bl', pool_inv None w' tl' bl')).
  { intros w' h' [Hd (tl' & bl' & Hi')]. apply wpp_bind, wpp_gpool, wpp_passert; [|split; [done|by exists tl', bl']].
    pose proof (pi_count _ _ _ _ Hi'). lia. }
  destruct (ev_pair e1) as [q|] eqn:Eq.
  2: { apply wpp_bind, wpp_ret. apply Hend. split; [|by exists tl1, bl1].
       apply (deleted_step val e w h w1 h1 val w1); try done; [left; congruence|intros; by eexists|].
       split; try done; [by exists e1|intros f u Hl; by apply Hl1 in Hl as [_ []]|by left|by eexists|].
       exists []. split; [done|]. split; [simpl; lia|]. intros v f Hv Hf []. done. }
  assert (Hq : live (w_pool w1) q \/ closed (w_pool w1) q).
  { destruct (decide (q = val)) as [->|Hne]; [right; by exists e1|].
    destruct (pi_pair _ _ _ _ Hi val e q Hlv He ltac:(congruence)) as [Hq|(f & Hf & Hfq)].
    - left. by apply Hl1.
    - right. destruct (pl_items (w_pool w1) !! q) as [f1|] eqn:E1.
      + destruct (Hoth1 q f1 Hne E1) as (f0 & Hf0 & E & _). exists f1. split; [done|congruence].
      + apply lookup_ge_None in E1. apply lookup_lt_Some in Hf. lia. }
  assert (Hx : is_Some (pl_items (w_pool w1) !! q)).
  { destruct Hq as [?|(f & ? & _)]; [by eapply live_item|by eexists]. }
  destruct Hx as [x Hx]. apply wpp_bind, wpp_bind. eapply wpp_gev; [exact Hx|]. apply wpp_bind.
  assert (Hfin : forall w2 e2, pool_inv None w2 tl1 bl1 -> pl_items (w_pool w2) !! val = Some e2 ->
    (forall v, live (w_pool w2) v <-> live (w_pool w1) v) ->
    (forall v, closed (w_pool w1) v -> closed (w_pool w2) v) ->
    (forall v f', pl_items (w_pool w2) !! v = Some f' -> exists f, pl_items (w_pool w1) !! v = Some f /\ ev_fd f' = ev_fd f) ->
    length (pl_items (w_pool w2)) = length (pl_items (w_pool w1)) -> pl_efd (w_pool w2) = pl_efd (w_pool w1) ->
    pl_count (w_pool w2) = pl_count (w_pool w1) ->
    wpp (mev val (fun e => e <| ev_pair := None |>);; del_event_f k q) w2 h1
      (fun _ w' h' => wpp (p ← gpool; passert (0 <=? pl_count p)) w' h'
        (fun _ w' h' => deleted val w h w' h' /\ exists tl' bl', pool_inv None w' tl' bl'))).
  { intros w2 e2 Hi2 He2 Hl2 Hc2 Hit2 Hlen2 Hefd2 Hct2. apply wpp_bind. eapply wpp_mev; [exact He2|].
    fold (unpair val e2 w2). eapply wpp_mono; [apply (IH q (unpair val e2 w2) h1 tl1 bl1)|].
    - by apply unpair_inv.
    - destruct Hq as [Hq|Hq]; [left; by apply Hl2|right; apply unpair_closed; auto].
    - change (pl_count (w_pool w2) < Z.of_nat k). lia.
    - intros _ w' h' [Hd Hi']. apply Hend. split; [|done].
      apply (deleted_step val e w h w1 h1 q (unpair val e2 w2)); try done.
      + right. congruence.
      + intros v Hv. apply unpair_closed; auto.
      + intros v f' Hf. apply unpair_item in Hf as (f2 & Hf2 & E); [|done].
        destruct (Hit2 v f2 Hf2) as (f1 & ? & ?). exists f1. split; [done|congruence].
      + simpl. by rewrite length_insert. }
  destruct (decide (ev_pair x = Some val)).
  - eapply wpp_mev; [exact Hx|]. fold (unpair q x w1).
    assert (Hv2 : is_Some (pl_items (w_pool (unpair q x w1)) !! val)).
    { simpl. apply is_Some_insert. by eexists. }
    destruct Hv2 as [e2 He2]. apply (Hfin _ e2); [by apply unpair_inv|done|done| | |simpl; by rewrite length_insert|done|done].
    + intros v. by apply unpair_closed.
    + intros v f'. by apply unpair_item.
  - apply wpp_ret. apply (Hfin _ e1); try done. intros v f' Hf. by exists f'.
Qed.

Lemma wpp_del_event val w h tl bl :
  pool_inv None w tl bl -> live (w_pool w) val \/ closed (w_pool w) val ->
  wpp (del_event val) w h (fun _ w' h' => deleted val w h w' h' /\ exists tl' bl', pool_inv None w' tl' bl').
Proof.
  intros Hi Hval. unfold del_event. apply wpp_bind, wpp_gpool. eapply wpp_del_event_f; [exact Hi|done|].
  pose proof (pi_count _ _ _ _ Hi). rewrite (pi_len _ _ _ _ Hi) in *. lia.
Qed.
End del.

(** ** Adding *)

(** No event in use is paired with one that is not. *)
Definition paired_live (p : poolhd) : Prop :=
  forall v e q, live p v -> pl_items p !! v = Some e -> ev_pair e = Some q -> live p q.

Section add.
Context (w : world) (tl bl : list nat) (v : nat) (e new : eval).
Context (Hi : pool_inv None w tl bl) (Hp : paired_live (w_pool w))
  (Hk : pl_links (w_pool w) !! Z.to_nat (pl_count (w_pool w)) = Some v) (He : pl_items (w_pool w) !! v = Some e)
  (Hiter : ev_mod_iter new = pl_iters (w_pool w)) (Htv : tv_fields new = (0, None, None)).

Lemma add_not_live : ~ live (w_pool w) v.
Proof.
  intros (k & Hkv & Hlt). pose proof (pi_nodup _ _ _ _ Hi) as Hnd. rewrite NoDup_alt in Hnd.
  specialize (Hnd _ _ _ Hk Hkv). lia.
Qed.
Lemma add_tv : tv_fields new = tv_fields e.
Proof.
  assert (Hn : v ∉ tl) by (intros Hin; by apply add_not_live, (pi_tlive _ _ _ _ Hi)).
  destruct (to_unset _ _ (pi_timers _ _ _ _ Hi) v e He Hn) as [En Ep].
  assert (Em : ev_tv_ms e = 0).
  { destruct (decide (ev_tv_ms e = 0)) as [|Hm]; [done|]. by apply (to_set _ _ (pi_timers _ _ _ _ Hi) v e He) in Hm. }
  rewrite Htv. unfold tv_fields. congruence.
Qed.

(** [c] is the count after: the slot written, and counted or not. *)
Lemma pool_inv_add (c : Z) :
  c = pl_count (w_pool w) \/
  (c = pl_count (w_pool w) + 1 /\ ev_index new = pl_count (w_pool w) /\ 0 < ev_fd new /\
   ev_pair new = None /\ ev_buff new = None /\ ev_sq_buff new = None) ->
  let w' := w <| w_pool := (w_pool w) <| pl_items := <[v := new]> (pl_items (w_pool w)) |> <| pl_count := c |> |> in
  pool_inv None w' tl bl /\ (forall u, live (w_pool w') u <-> live (w_pool w) u \/ (c = pl_count (w_pool w) + 1 /\ u = v)).
Proof.
  intros Hc w'. assert (Hvl : (v < length (pl_items (w_pool w)))%nat) by (by eapply lookup_lt_Some).
  pose proof (pi_count _ _ _ _ Hi) as Hct. pose proof add_not_live as Hnl.
  assert (Hlt : (Z.to_nat (pl_count (w_pool w)) < length (pl_links (w_pool w)))%nat) by (by eapply lookup_lt_Some).
  assert (Hlive : forall u, live (w_pool w') u <-> live (w_pool w) u \/ (c = pl_count (w_pool w) + 1 /\ u = v)).
  { intros u. unfold live. simpl. split.
    - intros (k & Hku & Hkc). destruct (decide (Z.of_nat k < pl_count (w_pool w))); [left; by exists k|].
      right. split; [lia|]. replace k with (Z.to_nat (pl_count (w_pool w))) in Hku by lia. congruence.
    - intros [(k & ? & ?)|[-> ->]]; [exists k; split; [done|lia]|].
      exists (Z.to_nat (pl_count (w_pool w))). split; [done|lia]. }
  split; [|done].
  assert (Hit : forall u f, pl_items (w_pool w') !! u = Some f ->
    (u = v /\ f = new) \/ (u <> v /\ pl_items (w_pool w) !! u = Some f)).
  { intros u f. simpl. destruct (decide (u = v)) as [->|].
    - rewrite list_lookup_insert_eq by done. intros [= <-]. auto.
    - rewrite list_lookup_insert_ne by done. auto. }
  assert (Hnew : forall f, live (w_pool w') v -> f = new -> c = pl_count (w_pool w) + 1 /\ ev_index new = pl_count (w_pool w) /\ 0 < ev_fd new /\
   ev_pair new = None /\ ev_buff new = None /\ ev_sq_buff new = None).
  { intros f Hv _. apply Hlive in Hv as [Hv|[-> _]]; [done|]. destruct Hc as [?|?]; [lia|done]. }
  assert (Hold : forall u, live (w_pool w') u -> u <> v -> live (w_pool w) u).
  { intros u Hu Hne. apply Hlive in Hu as [?|[? ?]]; done. }
  destruct Hi. split.
  - simpl. by rewrite length_insert.
  - simpl. by rewrite length_insert.
  - done.
  - simpl. by rewrite length_insert.
  - simpl. destruct Hc as [->|[-> _]]; lia.
  - intros k u Hku Hkc. simpl in Hkc, Hku. destruct (decide (Z.of_nat k < pl_count (w_pool w))) as [Hlo|Hhi].
    + destruct (pi_index0 k u Hku Hlo) as (f & Hf & Hix). exists f. simpl. rewrite list_lookup_insert_ne; [done|].
      intros ->. apply Hnl. by exists k.
    + assert (Hkk : k = Z.to_nat (pl_count (w_pool w))) by lia. subst k. assert (u = v) as -> by congruence.
      exists new. simpl. rewrite list_lookup_insert_eq by done. split; [done|]. destruct Hc as [?|(_ & -> & _)]; lia.
  - intros u f Hu Hf _. destruct (Hit u f Hf) as [[-> ->]|[Hne Hf']].
    + destruct (Hnew new Hu eq_refl) as (_ & _ & ? & _). done.
    + apply (pi_fd0 u f); [by apply Hold|done|done].
  - intros u f Hf. destruct (Hit u f Hf) as [[-> ->]|[Hne Hf']]; [simpl; lia|by apply (pi_iter0 u)].
  - intros u f q Hu Hf Hq. destruct (Hit u f Hf) as [[-> ->]|[Hne Hf']].
    + destruct (Hnew new Hu eq_refl) as (_ & _ & _ & ? & _). congruence.
    + left. apply Hlive. left. apply (Hp u f q); [by apply Hold|done|done].
  - eapply timers_ok_ext; [| | |exact pi_timers0]; [|done|done]. intros i. simpl.
    destruct (decide (i = v)) as [->|].
    + rewrite list_lookup_insert_eq by done. rewrite He. simpl. by rewrite add_tv.
    + by rewrite list_lookup_insert_ne.
  - intros i Hin. apply Hlive. left. auto.
  - destruct pi_bufs0. split; done.
  - intros u f s b Hu Hf Hs. destruct (Hit u f Hf) as [[-> ->]|[Hne Hf']].
    + destruct (Hnew new Hu eq_refl) as (_ & _ & _ & _ & ? & ?). destruct s; simpl in Hs; congruence.
    + apply (pi_own0 u f s b); [by apply Hold|done|done].
  - intros u f s u2 f2 s2 b Hu Hf Hs Hu2 Hf2 Hs2.
    destruct (Hit u f Hf) as [[-> ->]|[Hne Hf']].
    { destruct (Hnew new Hu eq_refl) as (_ & _ & _ & _ & ? & ?). destruct s; simpl in Hs; congruence. }
    destruct (Hit u2 f2 Hf2) as [[-> ->]|[Hne2 Hf2']].
    { destruct (Hnew new Hu2 eq_refl) as (_ & _ & _ & _ & ? & ?). destruct s2; simpl in Hs2; congruence. }
    apply (pi_distinct0 u f s u2 f2 s2 b); [by apply Hold|done|done|by apply Hold|done|done].
Qed.
End add.

Section add_event.
Context {OS : Os}.

Definition new_event (cb : evcb) (fd : Z) (p : poolhd) : eval :=
  eval0 <| ev_mod_iter := pl_iters p |> <| ev_fd := fd |> <| ev_index := pl_count p |> <| ev_cb := cb |>.

Lemma wpp_add_event cb fd ev w h tl bl :
  pool_inv None w tl bl -> paired_live (w_pool w) -> 0 < fd ->
  wpp (add_event cb fd ev) w h (fun o w' h' => closes h' = closes h /\ pool_inv None w' tl bl /\
    match o with
    | Some v => ~ live (w_pool w) v /\ (forall u, live (w_pool w') u <-> live (w_pool w) u \/ u = v) /\
        pl_items (w_pool w') = <[v := new_event cb fd (w_pool w)]> (pl_items (w_pool w)) /\
        pl_items (w_pool w') !! v = Some (new_event cb fd (w_pool w)) /\ paired_live (w_pool w')
    | None => forall u, live (w_pool w') u <-> live (w_pool w) u
    end).
Proof.
  intros Hi Hp Hfd. unfold add_event. apply wpp_bind, wpp_passert; [by apply Z.ltb_lt|].
  apply wpp_bind, wpp_gpool. pose proof (pi_count _ _ _ _ Hi) as Hct.
  pose proof (pi_max _ _ _ _ Hi) as Hmx. pose proof (pi_len _ _ _ _ Hi) as Hlen.
  destruct (Z.leb_spec (pl_max (w_pool w)) (pl_count (w_pool w))); [by apply wpp_ret|].
  assert (Hlt : (Z.to_nat (pl_count (w_pool w)) < length (pl_links (w_pool w)))%nat) by lia.
  destruct (lookup_lt_is_Some_2 _ _ Hlt) as [v Hv]. apply wpp_bind. eapply wpp_deref; [exact Hv|].
  assert (He : is_Some (pl_items (w_pool w) !! v)).
  { apply lookup_lt_is_Some. apply (pi_range _ _ _ _ Hi). by eapply list_elem_of_lookup_2. }
  destruct He as [e He]. apply wpp_bind. eapply wpp_mev; [exact He|]. fold (new_event cb fd (w_pool w)).
  pose proof (pool_inv_add w tl bl v e (new_event cb fd (w_pool w)) Hi Hp Hv He eq_refl eq_refl) as Hadd.
  pose proof (add_not_live w tl bl v Hi Hv) as Hnl.
  apply wpp_bind. unfold epoll_ctl. apply wpp_bind, wpp_syscall, wpp_ret. destruct (truthy _).
  - apply wpp_ret. split; [done|]. destruct (Hadd (pl_count (w_pool w)) (or_introl eq_refl)) as [Hi' Hl'].
    match type of Hi' with pool_inv _ ?x _ _ => replace (upd_item _ _ _) with x by (by destruct w as [? ? [] ? ? ? ? ? ? ?]) end.
    split; [done|]. intros u. rewrite Hl'. intuition lia.
  - apply wpp_bind, wpp_mpool, wpp_ret. split; [done|].
    destruct (Hadd (pl_count (w_pool w) + 1)) as [Hi' Hl']; [right; repeat split; done|].
    split; [done|]. split; [done|].
    assert (Hl : forall u, live (w_pool (w <| w_pool := (w_pool w) <| pl_items := <[v := new_event cb fd (w_pool w)]> (pl_items (w_pool w)) |>
      <| pl_count := pl_count (w_pool w) + 1 |> |>)) u <-> live (w_pool w) u \/ u = v).
    { intros u. rewrite Hl'. intuition. }
    split; [exact Hl|]. split; [done|]. split; [simpl; rewrite list_lookup_insert_eq; [done|by eapply lookup_lt_Some]|].
    intros u f q Hu Hf Hq. apply Hl. simpl in Hf. destruct (decide (u = v)) as [->|Hne].
    + rewrite list_lookup_insert_eq in Hf by (by eapply lookup_lt_Some). simplify_eq.
    + rewrite list_lookup_insert_ne in Hf by done. left. apply (Hp u f q); [|done|done].
      apply Hl in Hu as [?|?]; done.
Qed.
End add_event.

(** ** Making and destroying the pool *)
Definition bufs_fresh (w : world) : Prop := forall b, is_Some (w_bufs w !! b) -> (b < w_fresh w)%nat.

Lemma live_index x w tl bl k v e : pool_inv x w tl bl -> pl_links (w_pool w) !! k = Some v ->
  Z.of_nat k < pl_count (w_pool w) -> pl_items (w_pool w) !! v = Some e -> ev_index e = Z.of_nat k.
Proof. intros Hi Hk Hlt He. destruct (pi_index _ _ _ _ Hi k v Hk Hlt) as (f & Hf & ?). congruence. Qed.

Section making.
Context {OS : Os}.

Lemma fresh_pool_inv w n efd :
  bufs_fresh w ->
  let p := poolhd0 <| pl_max := Z.of_nat n |> <| pl_efd := efd |> <| pl_links := seq 0 n |>
             <| pl_items := replicate n eval0 |> in
  pool_inv None (w <| w_pool := p |>) [] [].
Proof.
  intros Hf p. assert (Hnl : forall v, ~ live (w_pool (w <| w_pool := p |>)) v).
  { intros v (k & _ & Hlt). simpl in Hlt. lia. }
  assert (Hz : forall v e, replicate n eval0 !! v = Some e -> e = eval0).
  { intros v e He. by apply lookup_replicate in He as [-> _]. }
  split; simpl; try done.
  - by rewrite length_seq, length_replicate.
  - by rewrite length_replicate.
  - apply NoDup_seq.
  - intros v Hv. apply elem_of_seq in Hv. rewrite length_replicate. lia.
  - lia.
  - intros. lia.
  - intros v e Hv. by apply Hnl in Hv.
  - intros v e He. rewrite (Hz v e He). simpl. lia.
  - intros v e q Hv. by apply Hnl in Hv.
  - split; simpl; try done; [constructor| |intros i e He _; rewrite (Hz i e He); done|intros i Hi; by apply not_elem_of_nil in Hi|constructor].
    intros i e He. rewrite (Hz i e He). simpl. split; [done|]. by intros ?%not_elem_of_nil.
  - intros i Hi. by apply not_elem_of_nil in Hi.
  - split; simpl; try done; [constructor|lia].
  - intros v e s b Hv. by apply Hnl in Hv.
  - intros v e s v' e' s' b Hv. by apply Hnl in Hv.
Qed.

Lemma chain_size m root l : buf_chain m root l -> NoDup l -> (length l < S (size m))%nat.
Proof.
  revert m root. induction l as [|b l IH]; intros m root Hc Hnd; simpl in *; [lia|].
  destruct Hc as (-> & x & Hx & Hc). apply NoDup_cons in Hnd as [Hb Hnd].
  pose proof (IH (delete b m) (b_next x) ltac:(by apply buf_chain_delete) Hnd) as Hl.
  rewrite map_size_delete, Hx in Hl. assert (size m <> 0%nat).
  { intros E. apply map_size_empty_inv in E. by rewrite E, lookup_empty in Hx. }
  lia.
Qed.

(** [buff_destroy] frees the whole chain. *)
Lemma wpp_buff_destroy k root l w h :
  buf_chain (w_bufs w) root l -> NoDup l -> (length l < k)%nat ->
  wpp (buff_destroy k root) w h (fun _ w' h' => h' = h /\ w_pool w' = w_pool w /\
    (forall b, w_bufs w' !! b = if decide (b ∈ l) then None else w_bufs w !! b)).
Proof.
  revert root l w. induction k as [|k IH]; intros root l w Hc Hnd Hk; [lia|]. simpl.
  destruct l as [|b l]; simpl in Hc.
  - subst root. apply wpp_ret. split; [done|]. split; [done|]. intros b. by rewrite decide_False by apply not_elem_of_nil.
  - destruct Hc as (-> & x & Hx & Hc). apply NoDup_cons in Hnd as [Hb Hnd]. simpl in Hk.
    apply wpp_bind. eapply wpp_gbuf; [exact Hx|]. apply wpp_bind. unfold free_buffer. apply wpp_bind.
    eapply wpp_gbuf; [exact Hx|]. apply wpp_pmod.
    eapply wpp_mono; [apply (IH _ l); [simpl; by apply buf_chain_delete|done|lia]|].
    intros _ w' h' (-> & Hp & Hl). split; [done|]. split; [done|]. intros c. rewrite Hl. simpl.
    destruct (decide (c = b)) as [->|Hne].
    + rewrite (decide_True (P := b ∈ b :: l)) by constructor. rewrite decide_False by done. by rewrite lookup_delete_eq.
    + rewrite lookup_delete_ne by done. destruct (decide (c ∈ l)).
      * by rewrite decide_True by (by constructor).
      * by rewrite decide_False by (by rewrite elem_of_cons; intros []).
Qed.

(** Every live event is closed, one after the other. *)
Lemma wpp_destroy_events k w h tl bl :
  pool_inv None w tl bl -> pl_count (w_pool w) < Z.of_nat k ->
  wpp (destroy_events k) w h (fun _ w' h' => (exists tl' bl', pool_inv None w' tl' bl') /\
    pl_count (w_pool w') = 0 /\ pl_efd (w_pool w') = pl_efd (w_pool w) /\
    exists fds, closes h' = fds ++ closes h /\ Z.of_nat (length fds) = pl_count (w_pool w) /\
      forall v e, live (w_pool w) v -> pl_items (w_pool w) !! v = Some e -> ev_fd e ∈ fds).
Proof.
  revert w h tl bl. induction k as [|k IH]; intros w h tl bl Hi Hk; pose proof (pi_count _ _ _ _ Hi) as Hct; [lia|].
  simpl. apply wpp_bind, wpp_gpool. destruct (Z.eqb_spec (pl_count (w_pool w)) 0) as [E|E].
  - apply wpp_ret. split; [by exists tl, bl|]. split; [done|]. split; [done|]. exists []. split; [done|].
    split; [simpl; lia|]. intros v e (j & _ & ?). lia.
  - assert (Hlt : (0 < length (pl_links (w_pool w)))%nat) by lia.
    destruct (lookup_lt_is_Some_2 _ _ Hlt) as [v Hv]. apply wpp_bind. eapply wpp_deref; [exact Hv|].
    assert (Hlv : live (w_pool w) v) by (exists 0%nat; split; [done|lia]).
    apply wpp_bind. eapply wpp_mono; [apply (wpp_del_event v w h tl bl); [done|by left]|].
    intros _ w1 h1 ([Hdv _ Hdl Hdg Hdc Hdf Hde Hdn (fds & Ecl & Ect & Hin)] & tl1 & bl1 & Hi1).
    pose proof (pi_count _ _ _ _ Hi1) as Hct1.
    destruct (live_item _ _ _ _ _ Hi Hlv) as [e He].
    assert (Hpos : (0 < length fds)%nat).
    { assert (Hf : ev_fd e ∈ fds).
      { apply (Hin v e Hlv He). intros Hl1. destruct Hdv as (f & Hf & Hfd).
        pose proof (pi_fd _ _ _ _ Hi1 v f Hl1 Hf ltac:(done)). lia. }
      destruct fds; [by apply not_elem_of_nil in Hf|simpl; lia]. }
    eapply wpp_mono; [apply (IH w1 h1 tl1 bl1 Hi1); lia|].
    intros _ w2 h2 (Hi2 & Hc2 & He2 & fds2 & Ecl2 & Elen2 & Hin2). split; [done|]. split; [done|]. split; [congruence|].
    exists (fds2 ++ fds). rewrite Ecl2, Ecl, app_assoc. split; [done|]. split; [rewrite length_app; lia|].
    intros u f Hu Hf. apply elem_of_app. destruct (Hdg u Hu) as [Hu1|(f1 & Hf1 & Hfd1)].
    + left. destruct (live_item _ _ _ _ _ Hi1 Hu1) as [f1 Hf1]. destruct (Hdf u f1 Hu1 Hf1) as (f0 & Hf0 & Ef).
      replace (ev_fd f) with (ev_fd f1) by congruence. by apply (Hin2 u).
    + right. apply (Hin u f Hu Hf). intros Hu1. pose proof (pi_fd _ _ _ _ Hi1 u f1 Hu1 Hf1 ltac:(done)). lia.
Qed.
End making.
