(* ===== verification/PoolProps.v ===== *)
(** The properties of the event pool of conev.c, with their witnesses. *)
From S2P Require Import Prelude CMem Sys Mpool PktFake State Conev StateFacts TimerFacts BufFacts PoolFacts.
#[local] Open Scope Z_scope.

(** ** A pool of four items with a client and its paired remote *)
Definition os1 : Os := fun h c => match c with
  | CMalloc _ | CEpollCreate _ => Ret (100 + zlen h) 0 []
  | CTimeMs => Ret (1000 + zlen h) 0 []
  | CEpollWait _ _ => Ret 2 0 [POLLIN; 0; POLLOUT; 1]
  | _ => Ret 0 0 []
  end.
Definition world_empty : world := World params0 ∅ poolhd0 ∅ ∅ 0 packet0 packet0 packet0 0.
Definition world_of {A} (d : world) (r : res (A * world * hist)) : world :=
  match r with Ok (_, w, _) => w | _ => d end.
Definition pool4 : world :=
  world_empty <| w_pool := poolhd0 <| pl_max := 4 |> <| pl_efd := 7 |> <| pl_links := seq 0 4 |>
    <| pl_items := replicate 4 eval0 |> |>.
Definition two_events : world :=
  world_of pool4 ((add_event (OS := os1) cb_on_request 11 POLLIN;;
                   add_event (OS := os1) cb_on_connect 12 POLLOUT) pool4 []).
Definition pairing (v q : nat) (w : world) : world :=
  match pl_items (w_pool w) !! v with
  | Some e => upd_item v (e <| ev_pair := Some q |>) w
  | None => w
  end.
Definition pair_world : world := pairing 1 0 (pairing 0 1 two_events).

Lemma pairing_inv v q w tl bl :
  pool_inv None w tl bl -> live (w_pool w) q -> pool_inv None (pairing v q w) tl bl.
Proof.
  intros Hi Hq. unfold pairing. destruct (pl_items (w_pool w) !! v) as [e|] eqn:He; [|done].
  eapply pool_inv_upd; [exact Hi|by left|exact He| |done].
  assert (ev_mod_iter e <= pl_iters (w_pool w)) by (by apply (pi_iter _ _ _ _ Hi v)).
  split; auto. right. simpl. intros ? [= <-]. done.
Qed.
Lemma no_bufs_fresh (w : world) : w_bufs w = ∅ -> bufs_fresh w.
Proof. intros E b. rewrite E, lookup_empty. by intros [? ?]. Qed.
Lemma two_events_inv : pool_inv None two_events [] [].
Proof.
  assert (H0 : pool_inv None pool4 [] []) by (apply (fresh_pool_inv world_empty 4 7); by apply no_bufs_fresh).
  assert (P0 : paired_live (w_pool pool4)) by (intros v e q (k & _ & ?); simpl in *; lia).
  assert (W : wpp (add_event (OS := os1) cb_on_request 11 POLLIN;;
      add_event (OS := os1) cb_on_connect 12 POLLOUT) pool4 [] (fun _ w' _ => pool_inv None w' [] [])).
  { apply wpp_bind. eapply wpp_mono; [apply (wpp_add_event (OS := os1)); [exact H0|done|lia]|].
    intros o w1 h1 (_ & H1 & Ho). assert (P1 : paired_live (w_pool w1)).
    { destruct o; [by destruct Ho as (_ & _ & _ & _ & ?)|].
      intros v e q Hv. apply Ho in Hv as (k & _ & ?). simpl in *. lia. }
    eapply wpp_mono; [apply (wpp_add_event (OS := os1)); [exact H1|done|lia]|]. by intros ? ? ? (_ & ? & _). }
  apply wpp_inv in W as (a & w' & h' & E & Hi). unfold two_events. by rewrite E.
Qed.
Lemma pair_world_inv : pool_inv None pair_world [] [].
Proof.
  apply pairing_inv; [apply pairing_inv; [exact two_events_inv|]|].
  - exists 1%nat. by vm_compute.
  - exists 0%nat. by vm_compute.
Qed.

(** C16: deleting an event closes it and its pair. Whatever the links between events
    (pairs of pairs, a pair already closed, two events that point to each other),
    [del_event] returns, leaves a well-formed pool, closes the event and its pair,
    lets no event escape (each one that was in use is still, or is closed), adds
    none, and closes exactly one descriptor for each event it removed, its own. *)
Theorem del_event_closes {OS : Os} val w h tl bl :
  pool_inv None w tl bl -> live (w_pool w) val \/ closed (w_pool w) val ->
  exists w' h', del_event val w h = Ok (tt, w', h') /\
    (exists tl' bl', pool_inv None w' tl' bl') /\ closed (w_pool w') val /\
    (forall e q, live (w_pool w) val -> pl_items (w_pool w) !! val = Some e -> ev_pair e = Some q ->
       closed (w_pool w') q) /\
    (forall v, live (w_pool w') v -> live (w_pool w) v) /\
    (forall v, live (w_pool w) v -> live (w_pool w') v \/ closed (w_pool w') v) /\
    exists fds, closes h' = fds ++ closes h /\
      pl_count (w_pool w') = pl_count (w_pool w) - Z.of_nat (length fds) /\
      forall v e, live (w_pool w) v -> pl_items (w_pool w) !! v = Some e -> ~ live (w_pool w') v -> ev_fd e ∈ fds.
Proof.
  intros Hi Hv. destruct (wpp_inv _ _ _ _ (wpp_del_event val w h tl bl Hi Hv)) as ([] & w' & h' & E & [] & Hinv).
  exists w', h'. by repeat (split; [done|]).
Qed.

Lemma del_event_closes_witness :
  exists w' h', del_event (OS := os1) 0 pair_world [] = Ok (tt, w', h') /\
    closed (w_pool w') 0%nat /\ closed (w_pool w') 1%nat /\ closes h' = [12; 11].
Proof.
  assert (Hl : live (w_pool pair_world) 0%nat) by (exists 0%nat; by vm_compute).
  destruct (del_event_closes (OS := os1) 0 pair_world [] [] [] pair_world_inv (or_introl Hl))
    as (w' & h' & E & _ & Hc & Hp & _).
  exists w', h'. split; [exact E|]. split; [exact Hc|]. split; [by eapply Hp; [exact Hl|vm_compute; reflexivity..]|].
  vm_compute in E. injection E as <- <-. reflexivity.
Defined.

(** An event is added or nothing changes. In a well-formed pool [add_event]
    takes an item that is not in use, registers its descriptor and callback there,
    keeps every other item and the whole invariant; when the pool is full or epoll
    refuses it, the events in use are those of before. *)
Theorem add_event_adds {OS : Os} cb fd ev w h tl bl :
  pool_inv None w tl bl -> paired_live (w_pool w) -> 0 < fd ->
  exists o w' h', add_event cb fd ev w h = Ok (o, w', h') /\ pool_inv None w' tl bl /\
    match o with
    | Some v => ~ live (w_pool w) v /\ (forall u, live (w_pool w') u <-> live (w_pool w) u \/ u = v) /\
        pl_items (w_pool w') = <[v := new_event cb fd (w_pool w)]> (pl_items (w_pool w)) /\
        pl_count (w_pool w) < pl_max (w_pool w)
    | None => forall u, live (w_pool w') u <-> live (w_pool w) u
    end.
Proof.
  intros Hi Hp Hfd. destruct (wpp_inv _ _ _ _ (wpp_add_event cb fd ev w h tl bl Hi Hp Hfd))
    as (o & w' & h' & E & _ & Hi' & Ho).
  exists o, w', h'. split; [done|]. split; [done|]. destruct o as [v|]; [|done].
  destruct Ho as (Hn & Hl & Eit & _ & _). split; [done|]. split; [done|]. split; [done|].
  destruct (Z.lt_ge_cases (pl_count (w_pool w)) (pl_max (w_pool w))); [done|exfalso].
  revert E. unfold add_event. rewrite (proj2 (Z.ltb_lt 0 fd)) by done.
  unfold mbind, prog_bind, passert, gpool, pgets, mret, prog_ret. simpl.
  by rewrite (proj2 (Z.leb_le _ _)) by done.
Qed.

Lemma add_event_adds_witness :
  exists o w' h', add_event (OS := os1) cb_on_accept 9 POLLIN pool4 [] = Ok (o, w', h') /\ pool_inv None w' [] [].
Proof.
  destruct (add_event_adds (OS := os1) cb_on_accept 9 POLLIN pool4 [] [] []) as (o & w' & h' & E & Hi & _).
  - apply (fresh_pool_inv world_empty 4 7). by apply no_bufs_fresh.
  - intros v e q (k & _ & ?). simpl in *. lia.
  - lia.
  - by exists o, w', h'.
Defined.

(** A timer is filed by its deadline. On a well-formed timer list, [set_timer]
    puts the event between the timers due before it and those due at the same time
    or later, the list stays doubly linked and sorted, its ends are the pool's, and
    [remove_timer] afterwards gives the list of before. *)
Theorem timer_set_remove {OS : Os} val ms w h l :
  timers_ok (w_pool w) l -> is_Some (pl_items (w_pool w) !! val) -> val ∉ l ->
  rv (os_reply h CTimeMs) + ms <> 0 ->
  exists w' h' l1 l2, set_timer val ms w h = Ok (tt, w', h') /\ l = l1 ++ l2 /\
    timers_ok (w_pool w') (l1 ++ val :: l2) /\
    Forall (fun i => deadline (pl_items (w_pool w)) i < rv (os_reply h CTimeMs) + ms) l1 /\
    Forall (fun i => rv (os_reply h CTimeMs) + ms <= deadline (pl_items (w_pool w)) i) l2 /\
    exists w'', remove_timer val w' h' = Ok (tt, w'', h') /\ timers_ok (w_pool w'') l.
Proof.
  intros Hok Hv Hn HT.
  destruct (wpp_inv _ _ _ _ (wpp_set_timer val ms w h l Hok Hv Hn HT))
    as ([] & w' & h' & E & l1 & l2 & -> & -> & Ew & H1 & H2 & Hok').
  assert (He : is_Some (pl_items (w_pool w') !! val)).
  { apply (to_alloc _ _ Hok'), elem_of_app. right. constructor. }
  destruct He as [e He].
  destruct (wpp_inv _ _ _ _ (wpp_remove_timer val e w' ((CTimeMs, os_reply h CTimeMs) :: h) _ Hok' He))
    as ([] & w'' & h'' & E2 & -> & _ & Hok'').
  rewrite without_mid in Hok'' by apply (to_nodup _ _ Hok').
  exists w', ((CTimeMs, os_reply h CTimeMs) :: h), l1, l2. repeat (split; [done|]). by exists w''.
Qed.

Lemma timer_set_remove_witness :
  exists w' h', set_timer (OS := os1) 1 200 pair_world [] = Ok (tt, w', h') /\
    exists w'', remove_timer 1 w' h' = Ok (tt, w'', h') /\ timers_ok (w_pool w'') [].
Proof.
  destruct (timer_set_remove (OS := os1) 1 200 pair_world [] []) as (w' & h' & l1 & l2 & E & _ & _ & _ & _ & R).
  - exact (pi_timers _ _ _ _ pair_world_inv).
  - vm_compute. by eexists.
  - apply not_elem_of_nil.
  - vm_compute. congruence.
  - by exists w', h'.
Defined.

(** A buffer is borrowed and kept. When [buff_ppop] answers a buffer, the next
    [buff_pop], whatever size it asks for, takes that same buffer off the free
    list, without a call to the allocator: what [save_buffer] relies on. *)
Theorem ppop_then_pop {OS : Os} size size' w h l b w' h' :
  bufs_ok w l -> buff_ppop size w h = Ok (Some b, w', h') ->
  exists w'' l', buff_pop size' w' h' = Ok (Some b, w'', h') /\ bufs_ok w'' l' /\ b ∉ l'.
Proof.
  intros Hok E. destruct (wpp_inv _ _ _ _ (wpp_buff_ppop size w h l Hok)) as (o & w1 & h1 & E1 & Ho).
  assert (Eq : (o, w1, h1) = (Some b, w', h')) by congruence. injection Eq as -> -> ->.
  destruct Ho as [l' Hok'].
  destruct (wpp_inv _ _ _ _ (wpp_buff_pop size' w' h' _ Hok')) as (o2 & w2 & h2 & E2 & _ & -> & -> & _ & Hok2).
  exists w2, l'. split; [done|]. split; [done|]. pose proof (bo_nodup _ _ Hok') as Hnd. by apply NoDup_cons in Hnd as [? _].
Qed.

Lemma ppop_then_pop_witness :
  exists w' h' w'' l', buff_ppop (OS := os1) 16384 pair_world [] = Ok (Some 0%nat, w', h') /\
    buff_pop (OS := os1) 16384 w' h' = Ok (Some 0%nat, w'', h') /\ bufs_ok w'' l' /\ 0%nat ∉ l'.
Proof.
  destruct (buff_ppop (OS := os1) 16384 pair_world []) as [[[o w'] h']| |] eqn:E; [|by vm_compute in E..].
  assert (o = Some 0%nat) as ->.
  { pose proof (f_equal (fun r => match r with Ok (o, _, _) => o | _ => None end) E) as E'.
    vm_compute in E'. congruence. }
  destruct (ppop_then_pop (OS := os1) 16384 16384 pair_world [] [] 0 w' h' (pi_bufs _ _ _ _ pair_world_inv) E)
    as (w'' & l' & ? & ? & ?).
  by exists w', h', w'', l'.
Defined.

(** [init_pool] makes a pool that satisfies the invariant, empty and of the size
    asked for, or answers false. *)
Theorem init_pool_makes {OS : Os} n w h :
  0 <= n -> bufs_fresh w ->
  exists b w' h', init_pool n w h = Ok (b, w', h') /\
    (b = true -> pool_inv None w' [] [] /\ pl_count (w_pool w') = 0 /\ pl_max (w_pool w') = n /\
      closes h' = closes h).
Proof.
  intros Hn Hf. enough (W : wpp (init_pool n) w h (fun b w' h' => b = true -> pool_inv None w' [] [] /\
    pl_count (w_pool w') = 0 /\ pl_max (w_pool w') = n /\ closes h' = closes h)).
  { apply wpp_inv in W as (b & w' & h' & ? & ?). by exists b, w', h'. }
  unfold init_pool. wpp_go; try done.
  - unfold destroy_pool. apply wpp_bind, wpp_gpool, wpp_bind. simpl. apply wpp_bind, wpp_gpool. simpl. apply wpp_ret.
    apply wpp_bind, wpp_gpool, wpp_bind. unfold close_.
    assert (Hc : forall s h', wpp (w0 ← pget; buff_destroy (S (size (w_bufs w0))) None;; mpool (fun _ => poolhd0)) s h'
       (fun _ s h'' => wpp (mret false) s h'' (fun b w' h' => b = true -> pool_inv None w' [] [] /\
    pl_count (w_pool w') = 0 /\ pl_max (w_pool w') = n /\ closes h' = closes h))).
    { intros s h'. apply wpp_bind, wpp_pget, wpp_bind. apply wpp_ret, wpp_mpool, wpp_ret. done. }
    destruct (truthy _); [apply wpp_bind, wpp_syscall, wpp_ret|apply wpp_ret]; apply Hc.
  - intros _. assert (Hi := fresh_pool_inv w (Z.to_nat n) (rv (os_reply ((CMalloc 96, os_reply h (CMalloc 96)) :: h) (CEpollCreate n))) Hf).
    cbv zeta in Hi. rewrite Z2Nat.id in Hi by done. split; [|done].
    match goal with |- pool_inv _ ?a _ _ => match type of Hi with pool_inv _ ?b _ _ => replace a with b; [exact Hi|] end end.
    by destruct w.
Qed.

Lemma init_pool_makes_witness :
  exists w' h', init_pool (OS := os1) 64 world_empty [] = Ok (true, w', h') /\ pool_inv None w' [] [].
Proof.
  destruct (init_pool_makes (OS := os1) 64 world_empty []) as (b & w' & h' & E & Hb); [lia|by apply no_bufs_fresh|].
  assert (b = true) as ->.
  { pose proof (f_equal (fun r => match r with Ok (o, _, _) => o | _ => false end) E) as E'.
    vm_compute in E'. congruence. }
  exists w', h'. split; [exact E|]. by apply Hb.
Defined.

(** [destroy_pool] closes every descriptor the pool holds: one for each event in
    use, its own among them, and last that of epoll, and it leaves an empty pool. *)
Theorem destroy_pool_closes {OS : Os} w h tl bl :
  pool_inv None w tl bl ->
  exists w' h', destroy_pool w h = Ok (tt, w', h') /\ w_pool w' = poolhd0 /\
    exists fds, closes h' = (if truthy (pl_efd (w_pool w)) then [pl_efd (w_pool w)] else []) ++ fds ++ closes h /\
      Z.of_nat (length fds) = pl_count (w_pool w) /\
      forall v e, live (w_pool w) v -> pl_items (w_pool w) !! v = Some e -> ev_fd e ∈ fds.
Proof.
  intros Hi. enough (W : wpp destroy_pool w h (fun _ w' h' => w_pool w' = poolhd0 /\
    exists fds, closes h' = (if truthy (pl_efd (w_pool w)) then [pl_efd (w_pool w)] else []) ++ fds ++ closes h /\
      Z.of_nat (length fds) = pl_count (w_pool w) /\
      forall v e, live (w_pool w) v -> pl_items (w_pool w) !! v = Some e -> ev_fd e ∈ fds)).
  { apply wpp_inv in W as ([] & w' & h' & ? & ?). by exists w', h'. }
  unfold destroy_pool. apply wpp_bind, wpp_gpool, wpp_bind.
  eapply wpp_mono; [eapply wpp_destroy_events; [exact Hi|]|].
  { pose proof (pi_count _ _ _ _ Hi). rewrite (pi_len _ _ _ _ Hi) in *. lia. }
  intros _ w1 h1 ((tl1 & bl1 & Hi1) & _ & Eefd & fds & Ecl & Elen & Hin).
  apply wpp_bind, wpp_gpool, wpp_bind.
  assert (Hend : forall h2, closes h2 = (if truthy (pl_efd (w_pool w)) then [pl_efd (w_pool w)] else []) ++ closes h1 ->
    wpp (w0 ← pget; buff_destroy (S (size (w_bufs w0))) (pl_root_buff (w_pool w1));; mpool (fun _ => poolhd0)) w1 h2
      (fun _ w' h' => w_pool w' = poolhd0 /\ exists fds, closes h' = (if truthy (pl_efd (w_pool w)) then [pl_efd (w_pool w)] else []) ++ fds ++ closes h /\
      Z.of_nat (length fds) = pl_count (w_pool w) /\
      forall v e, live (w_pool w) v -> pl_items (w_pool w) !! v = Some e -> ev_fd e ∈ fds)).
  { intros h2 Eh2. destruct (pi_bufs _ _ _ _ Hi1) as [Hnd Hch _ _ _]. apply wpp_bind, wpp_pget, wpp_bind.
    eapply wpp_mono; [apply (wpp_buff_destroy _ _ bl1); [exact Hch|exact Hnd|by apply chain_size with (pl_root_buff (w_pool w1))]|].
    intros _ w2 h3 (-> & _). apply wpp_mpool. split; [done|]. exists fds. by rewrite Eh2, Ecl. }
  rewrite Eefd. unfold close_. destruct (truthy _).
  - by apply wpp_bind, wpp_syscall, wpp_ret, Hend.
  - by apply wpp_ret, Hend.
Qed.

Lemma destroy_pool_closes_witness :
  exists w' h', destroy_pool (OS := os1) pair_world [] = Ok (tt, w', h') /\ w_pool w' = poolhd0 /\ closes h' = [7; 12; 11].
Proof.
  destruct (destroy_pool_closes (OS := os1) pair_world [] [] [] pair_world_inv) as (w' & h' & E & Hp & _).
  exists w', h'. split; [exact E|]. split; [exact Hp|].
  replace h' with (match destroy_pool (OS := os1) pair_world [] with Ok (_, _, h) => h | _ => [] end)
    by (by rewrite E).
  vm_compute. reflexivity.
Defined.

(** The rounds of the loop: [epoll_wait] answers at most as many events as asked,
    each stores its bits and a registered item. *)
Definition waits_ok {OS : Os} (n : Z) (items : nat) : Prop := forall h ms,
  let r := os_reply h (CEpollWait n ms) in
  rv r <= n /\ rv r <= Z.of_nat (length (pevents_of (rdata r))) /\
  Forall (fun x => (x.2 < items)%nat) (pevents_of (rdata r)).

(** The stored events that are still to be served, [offs] down to 0. *)
Definition stored_ok (p : poolhd) (offs : Z) : Prop :=
  -1 <= offs < pl_max p /\ offs < Z.of_nat (length (pl_pevents p)) /\
  Forall (fun x => (x.2 < length (pl_items p))%nat) (pl_pevents p).

(** Events that changed since the last [epoll_wait]. *)
Definition stale (p : poolhd) (i : nat) : Prop :=
  exists ev v e, pl_pevents p !! i = Some (ev, v) /\ pl_items p !! v = Some e /\ ev_mod_iter e = pl_iters p.

Lemma wpp_next_stored {OS : Os} k offs type ms w h :
  0 <= offs -> stored_ok (w_pool w) offs -> (Z.to_nat offs < k)%nat ->
  (forall Q : option nat * Z * Z -> world -> hist -> Prop,
    (forall i ev v e, 0 <= i <= offs -> pl_pevents (w_pool w) !! Z.to_nat i = Some (ev, v) ->
      pl_items (w_pool w) !! v = Some e -> ev_mod_iter e <> pl_iters (w_pool w) ->
      (forall j, i < j <= offs -> stale (w_pool w) (Z.to_nat j)) -> Q (Some v, i - 1, ev) w h) ->
    ((forall j, 0 <= j <= offs -> stale (w_pool w) (Z.to_nat j)) ->
      wpp (next_event_f (k - Z.to_nat (offs + 1)) (-1) type ms) w h Q) ->
    wpp (next_event_f k offs type ms) w h Q).
Proof.
  revert offs. induction k as [|k IH]; intros offs Ho Hst Hk Q H1 H2; [lia|].
  cbn [next_event_f]. destruct Hst as (Hb & Hl & Hf).
  apply wpp_bind, wpp_gpool, wpp_bind, wpp_passert.
  { rewrite andb_true_iff, Z.leb_le, Z.ltb_lt. lia. }
  apply wpp_bind. rewrite (proj2 (Z.ltb_ge offs 0)) by lia. apply wpp_ret, wpp_bind, wpp_gpool, wpp_bind.
  destruct (lookup_lt_is_Some_2 (pl_pevents (w_pool w)) (Z.to_nat offs)) as [[ev v] Hev]; [lia|].
  eapply wpp_deref; [exact Hev|].
  assert (Hv : (v < length (pl_items (w_pool w)))%nat).
  { rewrite Forall_forall in Hf. apply (Hf (ev, v)). by eapply list_elem_of_lookup_2. }
  destruct (lookup_lt_is_Some_2 _ _ Hv) as [e He]. apply wpp_bind. eapply wpp_gev; [exact He|].
  destruct (Z.eqb_spec (ev_mod_iter e) (pl_iters (w_pool w))) as [Es|Es].
  - assert (Hs : stale (w_pool w) (Z.to_nat offs)) by (by exists ev, v, e).
    destruct (decide (offs = 0)) as [->|Hne].
    { replace (S k - Z.to_nat (0 + 1))%nat with k in H2 by lia. apply H2. intros j Hj.
      by replace j with 0 by lia. }
    apply IH; [lia|repeat split; try done; lia|lia| |].
    + intros i ev' v' e' Hi Hi' He' Hne' Hj. apply (H1 i ev' v' e'); [lia|done..|].
      intros j Hj'. destruct (decide (j = offs)) as [->|]; [done|apply Hj; lia].
    + intros Hj. replace (k - Z.to_nat (offs - 1 + 1))%nat with (S k - Z.to_nat (offs + 1))%nat by lia.
      apply H2. intros j Hj'. destruct (decide (j = offs)) as [->|]; [done|apply Hj; lia].
  - apply wpp_ret. apply (H1 offs ev v e); [lia|done..|lia].
Qed.

Lemma wpp_next_wait {OS : Os} k type ms w h tl bl (Q : option nat * Z * Z -> world -> hist -> Prop) :
  pool_inv None w tl bl -> waits_ok (pl_max (w_pool w)) (length (pl_items (w_pool w))) ->
  0 <= pl_max (w_pool w) ->
  let r := os_reply h (CEpollWait (pl_max (w_pool w)) ms) in
  let h' := (CEpollWait (pl_max (w_pool w)) ms, r) :: h in
  let w' := w <| w_pool := (w_pool w) <| pl_pevents := pevents_of (rdata r) |>
                                      <| pl_iters := pl_iters (w_pool w) + 1 |> |> in
  (rv r <= 0 -> Q (None, -1, if rv r =? 0 then POLLTIMEOUT else type) w h') ->
  (forall ev v e, 0 < rv r -> pevents_of (rdata r) !! Z.to_nat (rv r - 1) = Some (ev, v) ->
    pl_items (w_pool w) !! v = Some e -> ev_mod_iter e <> pl_iters (w_pool w) + 1 ->
    stored_ok (w_pool w') (rv r - 2) -> Q (Some v, rv r - 2, ev) w' h') ->
  wpp (next_event_f (S k) (-1) type ms) w h Q.
Proof.
  intros Hi Hw Hm r h' w' H0 H1. cbn [next_event_f]. apply wpp_bind, wpp_gpool, wpp_bind, wpp_passert.
  { by rewrite andb_true_iff, Z.leb_le, Z.ltb_lt; lia. }
  change (-1 <? 0) with true. cbv iota. apply wpp_bind, wpp_bind, wpp_syscall. fold r. fold h'.
  destruct (Hw h ms) as (Hr1 & Hr2 & Hr3). fold r in Hr1, Hr2, Hr3.
  destruct (Z.leb_spec (rv r) 0); [apply wpp_ret, wpp_ret; by apply H0|].
  apply wpp_bind, wpp_mpool, wpp_ret. fold w'. apply wpp_bind, wpp_gpool, wpp_bind.
  destruct (lookup_lt_is_Some_2 (pevents_of (rdata r)) (Z.to_nat (rv r - 1))) as [[ev v] Hev]; [lia|].
  eapply wpp_deref; [exact Hev|].
  assert (Hv : (v < length (pl_items (w_pool w)))%nat).
  { rewrite Forall_forall in Hr3. apply (Hr3 (ev, v)). by eapply list_elem_of_lookup_2. }
  destruct (lookup_lt_is_Some_2 _ _ Hv) as [e He]. apply wpp_bind. eapply wpp_gev; [exact He|].
  pose proof (pi_iter _ _ _ _ Hi v e He) as Hit. change (pl_iters (w_pool w')) with (pl_iters (w_pool w) + 1).
  rewrite (proj2 (Z.eqb_neq _ _)) by lia. apply wpp_ret. replace (rv r - 1 - 1) with (rv r - 2) by lia.
  apply (H1 ev v e); [done..|lia|]. repeat split; simpl; [lia..|done].
Qed.

(** C31: the event served is never one that changed in this round. Whatever the
    kernel reports within its contract, [next_event] returns (it asserts its index
    in range on every step), answers a reported event whose item was not added or
    deleted since the last [epoll_wait], skips only items that were, keeps the items,
    and leaves an index the next call can start from; it answers no event only when
    [epoll_wait] did not report one. *)
Theorem next_event_fresh {OS : Os} offs type ms w h tl bl :
  pool_inv None w tl bl -> stored_ok (w_pool w) offs ->
  waits_ok (pl_max (w_pool w)) (length (pl_items (w_pool w))) ->
  exists o offs' type' w' h', next_event offs type ms w h = Ok ((o, offs', type'), w', h') /\
    pl_items (w_pool w') = pl_items (w_pool w) /\ stored_ok (w_pool w') offs' /\
    match o with
    | Some v => exists e, pl_items (w_pool w) !! v = Some e /\ ev_mod_iter e <> pl_iters (w_pool w') /\
        pl_pevents (w_pool w') !! Z.to_nat (offs' + 1) = Some (type', v)
    | None => exists r, h' = (CEpollWait (pl_max (w_pool w)) ms, r) :: h /\ rv r <= 0 /\
        type' = (if rv r =? 0 then POLLTIMEOUT else type)
    end /\
    (forall j, (h' = h -> offs' + 1 < j) -> 0 <= j <= offs -> stale (w_pool w) (Z.to_nat j)).
Proof.
  intros Hi Hst Hw. set (Q := fun (a : option nat * Z * Z) (w' : world) (h' : hist) =>
    let '(o, offs', type') := a in
    pl_items (w_pool w') = pl_items (w_pool w) /\ stored_ok (w_pool w') offs' /\
    match o with
    | Some v => exists e, pl_items (w_pool w) !! v = Some e /\ ev_mod_iter e <> pl_iters (w_pool w') /\
        pl_pevents (w_pool w') !! Z.to_nat (offs' + 1) = Some (type', v)
    | None => exists r, h' = (CEpollWait (pl_max (w_pool w)) ms, r) :: h /\ rv r <= 0 /\
        type' = (if rv r =? 0 then POLLTIMEOUT else type)
    end /\
    (forall j, (h' = h -> offs' + 1 < j) -> 0 <= j <= offs -> stale (w_pool w) (Z.to_nat j))).
  enough (W : wpp (next_event offs type ms) w h Q).
  { apply wpp_inv in W as ([[o offs'] type'] & w' & h' & E & H). by exists o, offs', type', w', h'. }
  pose proof Hst as (Hb & Hl & Hf).
  assert (Hwait : (forall j, 0 <= j <= offs -> stale (w_pool w) (Z.to_nat j)) ->
    wpp (next_event_f 2 (-1) type ms) w h Q).
  { intros Hall. apply (wpp_next_wait 1 type ms w h tl bl); [done|done|lia| |].
    - intros Hr. split; [done|]. split; [repeat split; try done; lia|]. split; [by eexists|].
      intros j _ Hj. by apply Hall.
    - intros ev v e Hr Hev He Hne Hs. split; [done|]. split; [done|]. split.
      + exists e. split; [done|]. split; [done|]. simpl. by replace (rv _ - 2 + 1) with (rv (os_reply h (CEpollWait (pl_max (w_pool w)) ms)) - 1) by lia.
      + intros j _ Hj. by apply Hall. }
  unfold next_event. destruct (decide (offs = -1)) as [->|Hne].
  - apply Hwait. lia.
  - apply wpp_next_stored; [lia|done|lia| |].
    + intros i ev v e Hii Hev He Hm Hj. split; [done|]. split; [repeat split; try done; lia|]. split.
      * exists e. split; [done|]. split; [done|]. by replace (i - 1 + 1) with i by lia.
      * intros j Hjj Hj'. apply Hj. specialize (Hjj eq_refl). lia.
    + intros Hall. replace (_ + 2 - _)%nat with 2%nat by lia. by apply Hwait.
Qed.

Lemma next_event_fresh_witness :
  exists w' h', next_event (OS := os1) (-1) POLLTIMEOUT (-1) pair_world [] = Ok ((Some 1%nat, 0, POLLOUT), w', h') /\
    stored_ok (w_pool w') 0.
Proof.
  destruct (next_event_fresh (OS := os1) (-1) POLLTIMEOUT (-1) pair_world [] [] [])
    as (o & offs' & type' & w' & h' & E & _ & Hs & _).
  - exact pair_world_inv.
  - repeat split; vm_compute; by repeat constructor.
  - intros h ms. vm_compute. repeat split; [discriminate..|repeat constructor].
  - assert (Ea : (o, offs', type') = (Some 1%nat, 0, POLLOUT)).
    { assert (E' : match next_event (OS := os1) (-1) POLLTIMEOUT (-1) pair_world [] with Ok (a, _, _) => a | _ => (None, 0, 0) end
        = (o, offs', type')) by (by rewrite E). rewrite <- E'. vm_compute. reflexivity. }
    injection Ea as -> -> ->. by exists w', h'.
Defined.
