(* ===== verification/PktTlsFacts.v ===== *)
(** Theorems about the TLS half of packets.c: extension look-up against a
    reference walk, memory safety on hostile input, splitting and re-merging of
    records. *)
From S2P Require Import Prelude CMem Sys PktTls PktHttp PktFake.
From Stdlib Require Import String.

(** ** 16-bit access *)
Definition be16 (m : list Z) (i : Z) : Z := 256 * byte_at m i + byte_at m (i + 1).

Lemma be16_range m i : bytes_ok m -> 0 <= be16 m i < 65536.
Proof.
  intros H. unfold be16. pose proof (byte_at_range m i H).
  pose proof (byte_at_range m (i + 1) H). lia.
Qed.
Lemma ANTOHS_ok m i : 0 <= i -> i + 1 < zlen m -> ANTOHS m i = Ok (be16 m i).
Proof.
  intros. unfold ANTOHS. rewrite !rd_ok by lia. simpl. f_equal.
  rewrite Z.shiftl_mul_pow2 by lia. unfold be16. lia.
Qed.
Lemma wp_ANTOHS m i (Q : Z -> Prop) :
  0 <= i -> i + 1 < zlen m -> Q (be16 m i) -> wp (ANTOHS m i) Q.
Proof. intros. by rewrite ANTOHS_ok. Qed.

Definition hi8 (x : Z) : Z := u8 (Z.shiftr x 8).
Definition lo8 (x : Z) : Z := u8 (Z.land x 255).
Lemma lo8_mod x : lo8 x = x mod 256.
Proof.
  unfold lo8, u8. change 255 with (Z.ones 8). rewrite Z.land_ones by lia.
  rewrite Z.mod_mod by lia. done.
Qed.
Lemma hi8_div x : hi8 x = (x / 256) mod 256.
Proof. unfold hi8, u8. rewrite Z.shiftr_div_pow2 by lia. done. Qed.
Lemma hi_lo x : 0 <= x < 65536 -> 256 * hi8 x + lo8 x = x.
Proof. rewrite lo8_mod, hi8_div. intros. Z.to_euclidean_division_equations; lia. Qed.
Lemma hi_lo_u16 x : 256 * hi8 x + lo8 x = u16 x.
Proof.
  rewrite lo8_mod, hi8_div. unfold u16.
  Z.to_euclidean_division_equations; lia.
Qed.
Lemma hi8_byte x : is_byte (hi8 x).
Proof. apply u8_range. Qed.
Lemma lo8_byte x : is_byte (lo8 x).
Proof. apply u8_range. Qed.
#[export] Hint Resolve hi8_byte lo8_byte : cmem.

Lemma SHTONA_ok m i x :
  0 <= i -> i + 1 < zlen m ->
  SHTONA m i x = Ok (<[Z.to_nat (i + 1) := lo8 x]> (<[Z.to_nat i := hi8 x]> m)).
Proof.
  intros. unfold SHTONA. rewrite wr_ok by lia. simpl. rewrite wr_ok; [done|].
  rewrite zlen_insert. lia.
Qed.
Lemma SHTONA_app (a b : list Z) h l x i :
  i = zlen a -> SHTONA (a ++ h :: l :: b) i x = Ok (a ++ hi8 x :: lo8 x :: b).
Proof.
  intros ->. pose proof (zlen_nonneg a). rewrite SHTONA_ok; [|lia|].
  - rewrite insert_app_mid by done.
    change (a ++ hi8 x :: l :: b) with (a ++ [hi8 x] ++ l :: b).
    rewrite (assoc_L (++)), insert_app_mid; [by rewrite <- (assoc_L (++))|].
    by rewrite zlen_app.
  - rewrite zlen_app, !zlen_cons. pose proof (zlen_nonneg b). lia.
Qed.
Lemma be16_app (a b : list Z) h l i : i = zlen a -> be16 (a ++ h :: l :: b) i = 256 * h + l.
Proof.
  intros ->. unfold be16. rewrite byte_at_app_mid by done.
  change (a ++ h :: l :: b) with (a ++ [h] ++ l :: b).
  rewrite (assoc_L (++)), byte_at_app_mid; [done|by rewrite zlen_app].
Qed.

(** ** Extension look-up: the reference walk

    [ext_reach data s r]: [r] is the offset of an extension header that following
    the length fields reaches from the header at [s]. *)
Inductive ext_reach (data : list Z) : Z -> Z -> Prop :=
  | er_here s : ext_reach data s s
  | er_next s r : ext_reach data (s + 4 + be16 data (s + 2)) r -> ext_reach data s r.

Lemma ext_reach_le data s r : bytes_ok data -> ext_reach data s r -> s <= r.
Proof. induction 2; [lia|]. pose proof (be16_range data (s + 2) H). lia. Qed.

(** The look-up's answer for the list of extensions that starts at [s] and ends at
    [lim]: the first reachable header of the type, or 0 when there is none. *)
Definition ext_first (data : list Z) (type s lim r : Z) : Prop :=
  (r <> 0 /\ s <= r /\ r + 4 < lim /\ ext_reach data s r /\ be16 data r = type /\
    forall q, ext_reach data s q -> q < r -> be16 data q <> type) \/
  (r = 0 /\ forall q, ext_reach data s q -> q + 4 < lim -> be16 data q <> type).

Lemma wp_find_ext_loop k type data lim s :
  bytes_ok data -> 0 < s -> lim <= zlen data -> lim - s < Z.of_nat k -> 0 < Z.of_nat k ->
  wp (find_ext_loop k type data lim s) (ext_first data type s lim).
Proof.
  intros Hb. unfold ext_first. revert s.
  induction k as [|k IH]; intros s Hs Hl Hk Hk0; [lia|]. simpl.
  destruct (s + 4 <? lim) eqn:E.
  - wp_step. apply wp_ANTOHS; [lia|lia|]. destruct (type =? be16 data s) eqn:Et.
    + left. repeat split; [lia..|constructor|lia|]. intros q Hq ?.
      apply ext_reach_le in Hq; [lia|done].
    + wp_step. apply wp_ANTOHS; [lia|lia|].
      pose proof (be16_range data (s + 2) Hb) as Hr.
      eapply wp_mono; [apply IH; lia|].
      replace (s + (be16 data (s + 2) + 4)) with (s + 4 + be16 data (s + 2)) by lia.
      intros r [(H1 & H2 & H3 & H4 & H5 & H6)|[-> H]].
      * left. repeat split; [lia..|by constructor|done|].
        intros q Hq Hlt. inversion Hq; subst; [lia|eauto].
      * right. split; [done|]. intros q Hq Hlt. inversion Hq; subst; [lia|eauto].
  - simpl. right. split; [done|]. intros q Hq ?. apply ext_reach_le in Hq; [lia|done].
Qed.

(** Where the extension list that starts with its length at [skip] ends. *)
Definition ext_limit (data : list Z) (size skip : Z) : Z :=
  Z.min size (skip + 2 + be16 data skip).

Lemma wp_find_tls_ext_offset type data size skip :
  bytes_ok data -> 0 <= skip -> size <= zlen data ->
  wp (find_tls_ext_offset type data size skip) (fun r =>
    if size <=? skip + 2 then r = 0
    else ext_first data type (skip + 2) (ext_limit data size skip) r).
Proof.
  intros Hb Hs Hl. unfold find_tls_ext_offset.
  wp_step; [done|]. wp_step. apply wp_ANTOHS; [lia|lia|].
  pose proof (be16_range data skip Hb). cbv zeta.
  replace (if be16 data skip <? size - (skip + 2) then _ else _)
    with (ext_limit data size skip) by (unfold ext_limit; destruct (_ <? _) eqn:?; lia).
  apply wp_find_ext_loop; unfold ext_limit; [done|lia..].
Qed.

(** The part of the answer memory safety needs. *)
Lemma wp_find_ext_safe type data size skip (Q : Z -> Prop) :
  bytes_ok data -> 0 <= skip -> size <= zlen data ->
  Q 0 -> (forall r, skip + 2 <= r -> r + 4 < size -> be16 data r = type -> Q r) ->
  wp (find_tls_ext_offset type data size skip) Q.
Proof.
  intros Hb Hs Hl H0 Hr. eapply wp_mono; [by apply wp_find_tls_ext_offset|].
  intros r. destruct (size <=? skip + 2); [by intros ->|].
  unfold ext_limit. intros [(? & ? & ? & ? & ? & ?)|[-> ?]]; [|done]. apply Hr; lia.
Qed.

Lemma wp_find_ext_block data size (Q : Z -> Prop) :
  bytes_ok data -> size <= zlen data ->
  Q 0 ->
  (let sid := byte_at data 43 in let s := 48 + sid + be16 data (44 + sid) in
   44 <= size -> s <= size -> Q s) ->
  wp (find_ext_block data size) Q.
Proof.
  intros Hb Hl H0 Hs. unfold find_ext_block.
  wp_step; [done|]. wp_step. apply wp_rd; [lia|].
  pose proof (byte_at_range data 43 Hb).
  wp_step; [done|]. wp_step. apply wp_ANTOHS; [lia|lia|]. cbv zeta. apply wp_ok.
  replace (44 + byte_at data 43 + 2 + be16 data (44 + byte_at data 43) + 2)
    with (48 + byte_at data 43 + be16 data (44 + byte_at data 43)) by lia.
  case_match; [done|]. apply Hs; lia.
Qed.

Lemma wp_is_tls_chello m n (Q : bool -> Prop) :
  n <= zlen m -> Q false ->
  (5 < n -> be16 m 0 = 0x1603 -> byte_at m 5 = 1 -> Q true) ->
  wp (is_tls_chello m n) Q.
Proof.
  intros Hl Hf Ht. unfold is_tls_chello. wp_step; [|done].
  wp_step. apply wp_ANTOHS; [lia|lia|]. wp_step; [|done].
  wp_step. apply wp_rd; [lia|]. wp_step.
  destruct (byte_at m 5 =? 1) eqn:?; [|done]. apply Ht; lia.
Qed.

(** What [parse_tls] may answer: nothing, or a name inside the received bytes. *)
Definition tls_name_ok (buffer : list Z) (bsize : Z) (r : Z * option Z) : Prop :=
  match snd r with
  | None => fst r = 0
  | Some o => 0 <= fst r /\ 59 <= o /\ o + fst r <= bsize /\ fst r = be16 buffer (o - 2)
              /\ be16 buffer (o - 9) = 0
  end.

Lemma wp_parse_tls buffer bsize :
  bytes_ok buffer -> bsize <= zlen buffer -> wp (parse_tls buffer bsize) (tls_name_ok buffer bsize).
Proof.
  intros Hb Hl. unfold parse_tls. wp_step. apply wp_is_tls_chello; [done|done|].
  intros H5 _ _. wp_step; [done|]. wp_step. apply wp_find_ext_block; [done..|].
  intros sid s ? ?. pose proof (byte_at_range buffer 43 Hb).
  pose proof (be16_range buffer (44 + sid) Hb).
  wp_step; [done|]. wp_step. apply wp_find_ext_safe; [done|lia|done|done|].
  intros r ? ? ?. wp_step; [done|].
  wp_step. apply wp_ANTOHS; [lia|lia|]. pose proof (be16_range buffer (r + 7) Hb).
  wp_step; [done|]. wp_step. unfold tls_name_ok. simpl.
  replace (r + 9 - 2) with (r + 7) by lia. replace (r + 9 - 9) with r by lia.
  repeat split; lia.
Qed.

(** ** Splitting a record and merging it back *)

(** A record: type and version, 16-bit length, body. *)
Definition rec_hdr (t v1 v2 len : Z) : list Z := [t; v1; v2; hi8 len; lo8 len].
#[global] Arguments rec_hdr : simpl never.
Definition tls_record (t v1 v2 : Z) (body : list Z) : list Z :=
  rec_hdr t v1 v2 (zlen body) ++ body.

Lemma zlen_rec_hdr t v1 v2 len : zlen (rec_hdr t v1 v2 len) = 5.
Proof. done. Qed.

Lemma SHTONA_hdr (a : list Z) t v1 v2 h l b x i :
  i = zlen a + 3 -> SHTONA (a ++ t :: v1 :: v2 :: h :: l :: b) i x
    = Ok (a ++ rec_hdr t v1 v2 x ++ b).
Proof.
  intros ->. change (a ++ t :: v1 :: v2 :: h :: l :: b) with (a ++ [t; v1; v2] ++ h :: l :: b).
  rewrite (assoc_L (++)), SHTONA_app by (by rewrite zlen_app).
  by rewrite <- (assoc_L (++)).
Qed.
Lemma ANTOHS_hdr (a : list Z) t v1 v2 len b i :
  i = zlen a + 3 -> 0 <= len < 65536 -> ANTOHS (a ++ rec_hdr t v1 v2 len ++ b) i = Ok len.
Proof.
  intros -> Hl. pose proof (zlen_nonneg a). pose proof (zlen_nonneg b).
  rewrite ANTOHS_ok; [|lia|rewrite !zlen_app, zlen_rec_hdr; lia].
  change (a ++ rec_hdr t v1 v2 len ++ b) with (a ++ [t; v1; v2] ++ hi8 len :: lo8 len :: b).
  rewrite (assoc_L (++)), be16_app by (by rewrite zlen_app).
  by rewrite hi_lo.
Qed.

Lemma ANTOHS_hdr0 t v1 v2 len b :
  0 <= len < 65536 -> ANTOHS (rec_hdr t v1 v2 len ++ b) 3 = Ok len.
Proof. by apply (ANTOHS_hdr []). Qed.
Lemma SHTONA_hdr0 t v1 v2 len b x :
  SHTONA (rec_hdr t v1 v2 len ++ b) 3 x = Ok (rec_hdr t v1 v2 x ++ b).
Proof. by apply (SHTONA_hdr []). Qed.

(** The body of [part_tls] on a record header followed by [b1 ++ b2]. *)
Lemma part_tls_app t v1 v2 r_sz b1 b2 room rest bsize :
  zlen room = 5 -> bsize = 10 + zlen b1 + zlen b2 + zlen rest -> bsize < 2 ^ 63 ->
  zlen b1 <= r_sz < 65536 ->
  part_tls (rec_hdr t v1 v2 r_sz ++ b1 ++ b2 ++ room ++ rest) bsize
    (5 + zlen b1 + zlen b2) (zlen b1) =
  Ok (5, rec_hdr t v1 v2 (zlen b1) ++ b1 ++ rec_hdr t v1 v2 (r_sz - zlen b1) ++ b2 ++ rest).
Proof.
  intros Hroom -> Hbs Hr. pose proof (zlen_nonneg b1). pose proof (zlen_nonneg b2).
  pose proof (zlen_nonneg rest). unfold part_tls.
  rewrite usz_small by lia.
  destruct (_ || _) eqn:E; [lia|clear E].
  rewrite ANTOHS_hdr0 by lia. cbn [mbind res_bind].
  destruct (r_sz <? zlen b1) eqn:E; [lia|clear E].
  set (y := take 5 (b2 ++ room)). set (z := drop 5 (b2 ++ room)).
  assert (Hyz : y ++ z = b2 ++ room) by apply take_drop.
  assert (Hzl : zlen y + zlen z = zlen b2 + 5) by (rewrite <- !zlen_app, Hyz, zlen_app; lia).
  assert (Hy : zlen y = 5).
  { unfold y. change 5%nat with (Z.to_nat 5). apply zlen_take. rewrite zlen_app. lia. }
  rewrite (memmove_app _ (rec_hdr t v1 v2 r_sz ++ b1) b2 (room ++ rest)
             (rec_hdr t v1 v2 r_sz ++ b1 ++ y) z rest); cycle 1.
  { by rewrite <- (assoc_L (++)). }
  { rewrite <- !(assoc_L (++)), (assoc_L (++) y z), Hyz. by rewrite <- !(assoc_L (++)). }
  1-4: rewrite ?zlen_app, ?zlen_rec_hdr; lia. cbn [mbind res_bind].
  destruct (zlen_5 y Hy) as (y1 & y2 & y3 & y4 & y5 & ->).
  rewrite (memmove_app _ [] [t; v1; v2] ([hi8 r_sz; lo8 r_sz] ++ b1 ++ [y1; y2; y3; y4; y5] ++ b2 ++ rest)
             (rec_hdr t v1 v2 r_sz ++ b1) [y1; y2; y3] ([y4; y5] ++ b2 ++ rest)); cycle 1.
  { by rewrite <- !(assoc_L (++)). }
  { by rewrite <- !(assoc_L (++)). }
  1-4: rewrite ?zlen_app, ?zlen_rec_hdr; done || lia. cbn [mbind res_bind].
  rewrite <- (assoc_L (++)), SHTONA_hdr0. cbn [mbind res_bind].
  change ([t; v1; v2] ++ [y4; y5] ++ b2 ++ rest) with (t :: v1 :: v2 :: y4 :: y5 :: b2 ++ rest).
  rewrite (assoc_L (++) (rec_hdr _ _ _ _)), SHTONA_hdr; [|rewrite zlen_app, zlen_rec_hdr; lia].
  cbn [mbind res_bind]. by rewrite <- (assoc_L (++)).
Qed.

Lemma hi_lo_split h l : is_byte h -> is_byte l -> hi8 (256 * h + l) = h /\ lo8 (256 * h + l) = l.
Proof.
  unfold is_byte. rewrite hi8_div, lo8_mod. intros.
  split; Z.to_euclidean_division_equations; lia.
Qed.

(** Rewriting the handshake length with the value it has changes nothing. *)
Lemma SHTONA_handshake t v1 v2 len pl rest :
  bytes_ok pl -> 4 <= zlen pl -> be16 pl 2 = zlen pl - 4 ->
  SHTONA (rec_hdr t v1 v2 len ++ pl ++ rest) 7 (zlen pl - 4) = Ok (rec_hdr t v1 v2 len ++ pl ++ rest).
Proof.
  intros Hb Hl Hlen. destruct pl as [|p0 [|p1 [|h [|l pl]]]]; [unfold zlen in Hl; simpl in Hl; lia..|].
  rewrite <- Hlen. change (be16 (p0 :: p1 :: h :: l :: pl) 2) with (256 * h + l).
  change (rec_hdr t v1 v2 len ++ (p0 :: p1 :: h :: l :: pl) ++ rest)
    with ((rec_hdr t v1 v2 len ++ [p0; p1]) ++ h :: l :: (pl ++ rest)).
  rewrite SHTONA_app by done. unfold bytes_ok in Hb. rewrite !Forall_cons in Hb.
  destruct Hb as (_ & _ & ? & ? & _). by destruct (hi_lo_split h l) as [-> ->].
Qed.

(** [merge_tls_records] on two adjacent records of the same type. *)
Lemma merge_two t v1 v2 w1 w2 b1 b2 rest :
  let pl := b1 ++ b2 in
  bytes_ok pl -> zlen pl < 65536 -> 5 <= zlen b2 ->
  byte_at b2 (zlen b2 - 5) <> t -> be16 pl 2 = zlen pl - 4 ->
  exists q, zlen q = 5 /\
    merge_tls_records
      (rec_hdr t v1 v2 (zlen b1) ++ b1 ++ rec_hdr t w1 w2 (zlen b2) ++ b2 ++ rest)
      (10 + zlen b1 + zlen b2)
    = Ok (5, tls_record t v1 v2 pl ++ q ++ rest).
Proof.
  intros pl Hb Hl H5 Ht Hlen. unfold pl in *. rewrite zlen_app in *.
  pose proof (zlen_nonneg b1). pose proof (zlen_nonneg rest).
  set (hb := rec_hdr t w1 w2 (zlen b2) ++ b2).
  set (q0 := take (Z.to_nat (zlen b2)) hb). set (q := drop (Z.to_nat (zlen b2)) hb).
  assert (Hhb : q0 ++ q = hb) by apply take_drop.
  assert (Hhl : zlen hb = 5 + zlen b2) by (unfold hb; by rewrite zlen_app, zlen_rec_hdr).
  assert (Hq0 : zlen q0 = zlen b2) by (apply zlen_take; lia).
  assert (Hq : zlen q = 5) by (unfold q; rewrite zlen_drop; lia).
  assert (Hqt : byte_at q 0 <> t).
  { intros E. apply Ht. rewrite <- E. replace (byte_at q 0) with (byte_at hb (zlen b2)).
    - unfold hb. rewrite byte_at_app_r by (rewrite zlen_rec_hdr; lia). done.
    - rewrite <- Hhb, byte_at_app_r by lia. f_equal. lia. }
  exists q. split; [done|]. unfold merge_tls_records.
  destruct (_ <? 5) eqn:E; [lia|clear E]. rewrite ANTOHS_hdr0 by lia. cbn [mbind res_bind].
  replace (S (Z.to_nat (10 + zlen b1 + zlen b2)))
    with (S (S (Z.to_nat (9 + zlen b1 + zlen b2)))) by lia.
  set (k := Z.to_nat (9 + zlen b1 + zlen b2)). cbn [merge_loop].
  rewrite u16_small by lia. replace (0 + zlen b1) with (zlen b1) by lia.
  destruct (_ <? _) eqn:E; [lia|clear E].
  assert (Hrd0 : forall X, rd (rec_hdr t v1 v2 (zlen b1) ++ X) 0 = Ok t) by done.
  rewrite Hrd0.
  rewrite (rd_ok _ (5 + zlen b1)); [|rewrite !zlen_app, !zlen_rec_hdr; lia].
  rewrite (assoc_L (++)), byte_at_app_r by (rewrite zlen_app, zlen_rec_hdr; lia).
  replace (5 + zlen b1 - zlen _) with 0 by (rewrite zlen_app, zlen_rec_hdr; lia).
  change (byte_at (rec_hdr t w1 w2 (zlen b2) ++ b2 ++ rest) 0) with t.
  cbn [mbind res_bind]. rewrite Z.eqb_refl. cbn [mbind res_bind negb].
  rewrite ANTOHS_hdr by (rewrite ?zlen_app, ?zlen_rec_hdr; lia). cbn [mbind res_bind].
  destruct (_ <? _) eqn:E; [lia|clear E].
  rewrite (memmove_app _ (rec_hdr t v1 v2 (zlen b1) ++ b1 ++ rec_hdr t w1 w2 (zlen b2)) b2 rest
             (rec_hdr t v1 v2 (zlen b1) ++ b1) q0 (q ++ rest)); cycle 1.
  { by rewrite <- !(assoc_L (++)). }
  { rewrite (assoc_L (++) q0), Hhb. unfold hb. by rewrite <- !(assoc_L (++)). }
  1-4: rewrite ?zlen_app, ?zlen_rec_hdr; lia. cbn [mbind res_bind].
  destruct k eqn:Hk; [lia|]. clear Hk. cbn [merge_loop].
  rewrite u16_small by lia. destruct (_ <? _) eqn:E; [lia|clear E].
  rewrite <- (assoc_L (++)), Hrd0.
  rewrite rd_ok; [|rewrite !zlen_app, !zlen_rec_hdr; lia].
  rewrite !(assoc_L (++)), <- (assoc_L (++) _ q rest), byte_at_app_r
    by (rewrite !zlen_app, zlen_rec_hdr; lia).
  replace (_ - zlen _) with 0 by (rewrite !zlen_app, zlen_rec_hdr; lia).
  rewrite byte_at_app_l by lia. cbn [mbind res_bind].
  destruct (byte_at q 0 =? t) eqn:E; [lia|clear E]. cbn [mbind res_bind negb].
  rewrite <- !(assoc_L (++)), SHTONA_hdr0. cbn [mbind res_bind].
  rewrite (assoc_L (++) b1), <- zlen_app, SHTONA_handshake; [|done|rewrite zlen_app; lia|by rewrite zlen_app].
  simpl. unfold tls_record. by rewrite <- (assoc_L (++)).
Qed.

(** A hello of 100 bytes that ends inside its second key share. *)
Definition overrun_hello : list Z :=
  replicate 43 0 ++ [0] ++ [0; 0] ++ [0; 0]       (* no session id, no ciphers *)
  ++ [0; 50] ++ [0; 51; 0; 46; 0; 44]             (* key_share of 46 bytes *)
  ++ [0; 29; 0; 20] ++ replicate 20 0             (* a share of 20 bytes *)
  ++ [0; 23; 0; 40] ++ replicate 16 0.            (* a share that claims 40 *)

(** ** Properties *)

(** C21: [find_tls_ext_offset] never leaves the buffer, terminates, and answers as
    a walk over the extension list would: the first header of the wanted type
    reachable by the length fields before the end of the list, or 0 when there
    is none (or no room for the list's length). *)
Theorem find_tls_ext_offset_first type data size skip :
  bytes_ok data -> 0 <= skip -> size <= zlen data ->
  exists r, find_tls_ext_offset type data size skip = Ok r /\
    if size <=? skip + 2 then r = 0
    else ext_first data type (skip + 2) (ext_limit data size skip) r.
Proof. intros. by apply wp_inv, wp_find_tls_ext_offset. Qed.

Lemma bytes_ok_dec m : forallb (fun b => (0 <=? b) && (b <? 256)) m = true -> bytes_ok m.
Proof.
  unfold bytes_ok, is_byte. induction m as [|b m IH]; simpl; [constructor|].
  intros H. apply andb_true_iff in H as [??]. constructor; [lia|auto].
Qed.

Lemma find_tls_ext_offset_first_witness :
  exists r, find_tls_ext_offset 0x0a tls_data 517 138 = Ok r /\
    if 517 <=? 138 + 2 then r = 0
    else ext_first tls_data 0x0a (138 + 2) (ext_limit tls_data 517 138) r.
Proof.
  apply find_tls_ext_offset_first; [by apply bytes_ok_dec|done|vm_compute; discriminate].
Defined.

(** C22: [parse_tls] on any bytes received from the network reads only inside the
    buffer and terminates; the name it points to lies inside the received bytes,
    in an extension of type 0, and has the length its header states. *)
Theorem parse_tls_in_bounds buffer bsize :
  bytes_ok buffer -> bsize <= zlen buffer ->
  exists r, parse_tls buffer bsize = Ok r /\ tls_name_ok buffer bsize r.
Proof. intros. by apply wp_inv, wp_parse_tls. Qed.

Lemma parse_tls_in_bounds_witness :
  exists r, parse_tls tls_data 517 = Ok r /\ tls_name_ok tls_data 517 r.
Proof. apply parse_tls_in_bounds; [by apply bytes_ok_dec|vm_compute; discriminate]. Defined.

(** C35: [part_tls] splits a record in place into two records of the same type and
    version whose bodies are the two parts of the old body, and reports the 5
    bytes of the header it added; what lies behind the 5 spare bytes stays. *)
Theorem part_tls_splits t v1 v2 b1 b2 room rest :
  zlen room = 5 -> 10 + zlen b1 + zlen b2 + zlen rest < 2 ^ 63 -> zlen b1 + zlen b2 < 65536 ->
  part_tls (tls_record t v1 v2 (b1 ++ b2) ++ room ++ rest) (10 + zlen b1 + zlen b2 + zlen rest)
    (5 + zlen b1 + zlen b2) (zlen b1)
  = Ok (5, tls_record t v1 v2 b1 ++ tls_record t v1 v2 b2 ++ rest).
Proof.
  intros Hr Hb Hl. pose proof (zlen_nonneg b2). unfold tls_record.
  rewrite zlen_app, <- !(assoc_L (++)), part_tls_app; [|done..|lia].
  by replace (zlen b1 + zlen b2 - zlen b1) with (zlen b2) by lia.
Qed.

Lemma part_tls_splits_witness :
  part_tls (tls_record 22 3 1 ([1; 0] ++ [7; 8; 9]) ++ [0; 0; 0; 0; 0] ++ [4]) 16 10 2
  = Ok (5, tls_record 22 3 1 [1; 0] ++ tls_record 22 3 1 [7; 8; 9] ++ [4]).
Proof. apply (part_tls_splits 22 3 1 [1; 0] [7; 8; 9] [0; 0; 0; 0; 0] [4]); reflexivity. Defined.

(** C36: [merge_tls_records] undoes [part_tls] on a record that carries one whole
    handshake message: the split record merges back into the record it was, the
    stated number of bytes becomes free behind it. The code looks at a stale
    byte behind the merged record to decide whether to go on, hence the premise
    on the fifth byte from the end; [merge_loop] may not even end without such a byte. *)
Theorem merge_part_roundtrip t v1 v2 b1 b2 room rest :
  bytes_ok (b1 ++ b2) -> zlen (b1 ++ b2) < 65536 -> 5 <= zlen b2 -> zlen room = 5 ->
  10 + zlen b1 + zlen b2 + zlen rest < 2 ^ 63 ->
  be16 (b1 ++ b2) 2 = zlen (b1 ++ b2) - 4 -> byte_at b2 (zlen b2 - 5) <> t ->
  exists m q, zlen q = 5 /\
    part_tls (tls_record t v1 v2 (b1 ++ b2) ++ room ++ rest) (10 + zlen b1 + zlen b2 + zlen rest)
      (5 + zlen b1 + zlen b2) (zlen b1) = Ok (5, m) /\
    merge_tls_records m (10 + zlen b1 + zlen b2) = Ok (5, tls_record t v1 v2 (b1 ++ b2) ++ q ++ rest).
Proof.
  intros Hb Hl H5 Hroom Hbs Hlen Ht.
  destruct (merge_two t v1 v2 v1 v2 b1 b2 rest Hb Hl H5 Ht Hlen) as (q & Hq & Hm).
  exists (tls_record t v1 v2 b1 ++ tls_record t v1 v2 b2 ++ rest), q. split; [done|].
  rewrite zlen_app in Hl. unfold tls_record in *. rewrite zlen_app, <- !(assoc_L (++)) in *.
  rewrite part_tls_app by (done || lia).
  replace (zlen b1 + zlen b2 - zlen b1) with (zlen b2) by lia. done.
Qed.

Lemma merge_part_roundtrip_witness :
  exists m q, zlen q = 5 /\
    part_tls (tls_record 22 3 1 ([1; 0] ++ [0; 5; 9; 9; 9; 9; 9]) ++ [0; 0; 0; 0; 0] ++ []) 19 14 2 = Ok (5, m) /\
    merge_tls_records m 19 = Ok (5, tls_record 22 3 1 ([1; 0] ++ [0; 5; 9; 9; 9; 9; 9]) ++ q ++ []).
Proof.
  apply (merge_part_roundtrip 22 3 1 [1; 0] [0; 5; 9; 9; 9; 9; 9] [0; 0; 0; 0; 0] []);
    [by apply bytes_ok_dec|reflexivity|vm_compute; discriminate|reflexivity..|vm_compute; discriminate].
Defined.

(** On two empty records of one type in a row, an input of ten bytes a client
    can send, the loop of [merge_tls_records] never ends: no number of rounds is
    enough, each leaves the same buffer and the same sizes. *)
Theorem merge_loop_diverges k i :
  merge_loop k [22; 3; 1; 0; 0; 22; 3; 1; 0; 0] 10 0 0 i = Fuel.
Proof. revert i. induction k as [|k IH]; intros i; [done|]. exact (IH (i + 1)). Qed.

(** [randomize_tls] compares the size of a key share with the space behind the
    extension's header instead of the space behind the share's own: whatever the
    random bytes are, on this packet of 100 bytes it writes past the end. *)
Theorem randomize_tls_overruns {OS : Os} {St : Type} (s : St) h :
  randomize_tls overrun_hello 100 s h = Ub.
Proof. vm_compute. reflexivity. Qed.
