(* ===== verification/PktHttpFacts.v ===== *)
(** Theorems about the HTTP half of packets.c: memory safety of [parse_http] on
    hostile input, what [mod_http] changes, and the inputs on which the code
    leaves its objects. *)
From S2P Require Import Prelude CMem Sys PktTls PktHttp PktFake.
From Stdlib Require Import String.
#[local] Abbreviation length := (@Datatypes.length _).

(** ** The scanning loops *)
Lemma tolower_58 b : tolower b = 58 -> b = 58.
Proof. unfold tolower. destruct (_ && _) eqn:?; lia. Qed.
Lemma tolower_116 b : tolower b = 116 -> b = 116 \/ b = 84.
Proof. unfold tolower. destruct (_ && _) eqn:?; lia. Qed.

(** [p] is where [lit] occurs, up to case. *)
Definition occurs (m : list Z) (p : Z) (lit : list Z) : Prop :=
  forall j, 0 <= j < zlen lit -> tolower (byte_at m (p + j)) = tolower (byte_at lit j).

Lemma wp_strncasestr_loop k a size b p (Q : option Z -> Prop) :
  0 < zlen b -> 0 <= p <= size -> size <= zlen a -> size - p < Z.of_nat k ->
  Q None ->
  (forall r, p <= r -> r + zlen b <= size -> occurs a r b -> Q (Some r)) ->
  wp (strncasestr_loop k a size b p) Q.
Proof.
  intros Hb. revert p. induction k as [|k IH]; intros p Hp Hs Hk Hn Hr; [lia|].
  cbn [strncasestr_loop]. wp_step. apply wp_memchr; [lia..|done|].
  intros r Hpr Hc. wp_step; [done|]. wp_step.
  apply wp_strn_eq; [lia|lia|..].
  - apply IH; [lia..|done|]. intros q ? ? ?. apply Hr; [lia|lia|done].
  - intros Ho. apply Hr; [lia|lia|done].
Qed.

Lemma wp_strncasestr a size b (Q : option Z -> Prop) :
  0 < zlen b -> 0 <= size <= zlen a -> Q None ->
  (forall r, 0 <= r -> r + zlen b <= size -> occurs a r b -> Q (Some r)) ->
  wp (strncasestr a size b) Q.
Proof. intros. unfold strncasestr. apply wp_strncasestr_loop; [done|lia..|done|done]. Qed.

Lemma wp_any_method ms m (Q : bool -> Prop) :
  Forall (fun lit => zlen lit <= zlen m) ms -> Q true -> Q false -> wp (any_method ms m) Q.
Proof.
  intros Hm Ht Hf. induction Hm as [|lit ms Hl _ IH]; [done|]. cbn [any_method].
  wp_step. apply wp_strn_eq; [lia|lia|done|done].
Qed.

Section with_abi.
Context {CA : CharAbi}.

Lemma wp_is_http m n (Q : bool -> Prop) :
  n <= zlen m -> Q true -> Q false -> wp (is_http m n) Q.
Proof.
  intros Hl Ht Hf. unfold is_http. wp_step; [done|]. wp_step. apply wp_rd; [lia|].
  wp_step; [done|]. apply wp_any_method; [|done|done].
  unfold http_methods. simpl. repeat constructor; unfold zlen in *; simpl in *; lia.
Qed.

Lemma wp_skip_blanks k m host e (Q : Z -> Prop) :
  0 <= host <= e -> e <= zlen m -> e - host < Z.of_nat k ->
  (forall r, host <= r <= e -> (forall j, host <= j < r -> byte_at m j = 32) -> Q r) ->
  wp (skip_blanks k m host e) Q.
Proof.
  revert host. induction k as [|k IH]; intros host Hh He Hk HQ; [lia|].
  cbn [skip_blanks]. wp_step; [|wp_step; apply HQ; [lia|]; intros; lia].
  wp_step. apply wp_rd; [lia|]. wp_step.
  - apply IH; [lia..|]. intros r Hr Hj. apply HQ; [lia|]. intros j ?.
    destruct (decide (j = host)) as [->|]; [lia|apply Hj; lia].
  - wp_step. apply HQ; [lia|]. intros; lia.
Qed.

(** [trim_end] stops above any position [b] whose byte is no space. *)
Lemma wp_trim_end k m b e (Q : Z -> Prop) :
  0 <= b < e -> e <= zlen m -> isspace (byte_at m b) = false -> e - b <= Z.of_nat k ->
  (forall r, b < r <= e -> isspace (byte_at m (r - 1)) = false ->
     (forall j, r <= j < e -> isspace (byte_at m j) = true) -> Q r) ->
  wp (trim_end k m e) Q.
Proof.
  revert e. induction k as [|k IH]; intros e Hb He Hns Hk HQ; [lia|].
  cbn [trim_end]. wp_step. apply wp_rd; [lia|]. wp_step.
  - assert (e - 1 <> b) by congruence.
    apply IH; [lia|lia|done|lia|]. intros r Hr Hr1 Hj. apply HQ; [lia|done|].
    intros j ?. destruct (decide (j = e - 1)) as [->|]; [done|apply Hj; lia].
  - wp_step. apply HQ; [lia|done|]. intros; lia.
Qed.

Lemma wp_back_digits k m b e (Q : Z -> Prop) :
  0 <= b < e -> e <= zlen m -> isdigit (byte_at m b) = false -> e - b <= Z.of_nat k ->
  (forall r, b <= r < e -> isdigit (byte_at m r) = false ->
     (forall j, r < j < e -> isdigit (byte_at m j) = true) -> Q r) ->
  wp (back_digits k m e) Q.
Proof.
  revert e. induction k as [|k IH]; intros e Hb He Hns Hk HQ; [lia|].
  cbn [back_digits]. wp_step. apply wp_rd; [lia|]. wp_step.
  - assert (e - 1 <> b) by congruence.
    apply IH; [lia|lia|done|lia|]. intros r Hr Hr1 Hj. apply HQ; [lia|done|].
    intros j ?. destruct (decide (j = e - 1)) as [->|]; [done|apply Hj; lia].
  - wp_step. apply HQ; [lia|done|]. intros; lia.
Qed.

Lemma wp_strtol_digits k m p acc e (Q : Z * Z -> Prop) :
  0 <= p <= e -> e < zlen m -> isdigit (byte_at m e) = false -> e - p < Z.of_nat k ->
  (forall v r, p <= r <= e -> Q (v, r)) ->
  wp (strtol_digits k m p acc) Q.
Proof.
  revert p acc. induction k as [|k IH]; intros p acc Hp He Hns Hk HQ; [lia|].
  cbn [strtol_digits]. wp_step. apply wp_rd; [lia|]. wp_step.
  - assert (p <> e) by congruence. apply IH; [lia..|done|lia|]. intros. apply HQ. lia.
  - wp_step. apply HQ. lia.
Qed.

(** [strtol] at a character that is no space, with a non-digit at [e] ahead. *)
Lemma wp_strtol m p e (Q : Z * Z -> Prop) :
  0 <= p < e -> e < zlen m -> isspace (byte_at m p) = false -> isdigit (byte_at m e) = false ->
  (forall v r, p <= r <= e -> Q (v, r)) ->
  wp (strtol m p) Q.
Proof.
  intros Hp He Hs Hd HQ. unfold strtol. cbv zeta. wp_step. cbn [skip_while].
  wp_step. apply wp_rd; [lia|]. rewrite Hs. wp_step. wp_step. apply wp_rd; [lia|].
  wp_step. set (q' := if _ || _ then p + 1 else p).
  assert (p <= q' <= e) by (unfold q'; case_match; lia).
  eapply (wp_strtol_digits _ _ _ _ e); [lia|done|done|unfold zlen in He; lia|].
  intros v r Hr. wp_step. apply HQ. destruct (r =? q'); lia.
Qed.

(** What [parse_http] may answer: no host, or a range that starts after a
    "Host:" header's colon and ends, white space included, before [bsize]; a
    port, when asked for, in 1..65535. *)
Definition http_host_ok (buffer : list Z) (bsize : Z) (want_port : bool) (r : http_host) : Prop :=
  match hh_hs r with
  | None => hh_len r = 0
  | Some o => exists p L,
      0 <= p /\ occurs buffer p host_hdr /\ p + 6 <= o < bsize /\
      (forall j, p + 6 <= j < o -> byte_at buffer j = 32 \/ byte_at buffer j = 91) /\
      o + hh_len r <= L < bsize /\ p + 6 <= L /\ isspace (byte_at buffer L) = true
  end /\
  match hh_port r with None => True | Some i => want_port = true /\ 0 < i <= 65535 end.

Lemma wp_parse_http buffer bsize want_port :
  0 <= bsize <= zlen buffer ->
  wp (parse_http buffer bsize want_port) (http_host_ok buffer bsize want_port).
Proof.
  intros Hl. unfold parse_http. cbv zeta.
  wp_step. apply wp_is_http; [lia| |by wp_step]. cbn [negb]. cbv iota.
  wp_step. apply wp_strncasestr; [done|lia|done|].
  intros p Hp Hp6 Hocc. change (zlen host_hdr) with 6 in *.
  assert (H58 : byte_at buffer (p + 5) = 58).
  { apply tolower_58. rewrite (Hocc 5) by (change (zlen host_hdr) with 6; lia). done. }
  assert (H116 : byte_at buffer (p + 4) = 116 \/ byte_at buffer (p + 4) = 84).
  { apply tolower_116. rewrite (Hocc 4) by (change (zlen host_hdr) with 6; lia). done. }
  wp_step. apply wp_skip_blanks; [lia|lia|unfold zlen in Hl; lia|].
  intros host Hhost Hblank. wp_step. apply wp_memchr; [lia..|done|].
  intros l_end Hle Hlf. wp_step.
  apply (wp_trim_end _ _ (p + 5)); [lia|lia|by rewrite H58|unfold zlen in Hl; lia|].
  intros L HL HLn HLs. wp_step.
  assert (HLsp : isspace (byte_at buffer L) = true).
  { destruct (decide (L = l_end)) as [->|]; [by rewrite Hlf|apply HLs; lia]. }
  apply (wp_back_digits _ _ (p + 4)); [lia|lia| |unfold zlen in Hl; lia|].
  { destruct H116 as [-> | ->]; done. }
  intros h Hh Hhn Hhd. wp_step. apply wp_rd; [lia|]. wp_step.
  set (Post := fun x : Z * option Z * bool =>
    p + 5 <= fst (fst x) <= L /\
    match snd (fst x) with None => True | Some i => want_port = true /\ 0 < i <= 65535 end).
  apply wp_mono with Post.
  - unfold Post. wp_step.
    { wp_step. simpl. destruct want_port; simpl; lia. }
    assert (h <> p + 4) by (intros ->; lia).
    destruct want_port; [|wp_step; simpl; lia].
    wp_step. apply (wp_strtol _ _ L); [lia|lia| | |].
    { destruct (decide (h + 1 = L - 1)) as [->|]; [done|].
      specialize (Hhd (h + 1)). unfold isdigit, isspace in *. lia. }
    { unfold isdigit, isspace in *. lia. }
    intros v r Hr. wp_step; wp_step; simpl; lia.
  - intros [[h_end port] bad] [Hhe Hport]. simpl in Hhe, Hport. wp_step.
    { wp_step. split; [done|]. simpl. done. }
    wp_step. apply wp_rd; [lia|]. wp_step.
    + wp_step. apply wp_rd; [lia|]. wp_step; wp_step; split; simpl; [done|done| |done].
      exists p, L. repeat split; [lia|done|lia| | |lia..|done].
      * assert (host <> l_end) by (unfold LF in Hlf; intros ->; lia). lia.
      * intros j Hj. destruct (decide (j = host)) as [->|]; [right; lia|left; apply Hblank; lia].
    + wp_step. split; simpl; [|done]. exists p, L.
      repeat split; [lia|done|lia|lia| |lia..|done]. intros j Hj. left. apply Hblank. lia.
Qed.

(** ** [mod_http] *)
Lemma wp_map_at f m i (Q : list Z -> Prop) :
  (forall b, tolower (f b) = tolower b) -> 0 <= i < zlen m ->
  (forall m', lc m' = lc m -> Q m') -> wp (map_at f m i) Q.
Proof.
  intros Hf Hi HQ. unfold map_at. wp_step. apply wp_rd; [done|].
  rewrite wr_ok by done. apply HQ, lc_insert; [done|apply Hf].
Qed.

Lemma wp_mod_hmix m par (Q : list Z -> Prop) :
  0 <= par -> par + 3 < zlen m -> (forall m', lc m' = lc m -> Q m') -> wp (mod_hmix m par) Q.
Proof.
  intros H0 Hl HQ. unfold mod_hmix.
  wp_step. apply wp_map_at; [apply tolower_idem|lia|]. intros m1 H1.
  pose proof (lc_zlen _ _ H1).
  wp_step. apply wp_map_at; [apply tolower_toupper|lia|]. intros m2 H2.
  pose proof (lc_zlen _ _ H2).
  apply wp_map_at; [apply tolower_toupper|lia|]. intros m3 Hm3. apply HQ. congruence.
Qed.

Lemma wp_dmix_loop k m host hlen i (Q : list Z -> Prop) :
  0 <= i -> 0 <= host -> host + hlen <= zlen m -> hlen - i < Z.of_nat k ->
  0 < Z.of_nat k ->
  (forall m', lc m' = lc m -> Q m') -> wp (dmix_loop k m host hlen i) Q.
Proof.
  revert m i. induction k as [|k IH]; intros m i Hi Hh Hl Hk Hk0 HQ; [lia|].
  cbn [dmix_loop]. wp_step; [|wp_step; by apply HQ].
  wp_step. apply wp_map_at; [apply tolower_toupper|lia|]. intros m1 H1.
  pose proof (lc_zlen _ _ H1). apply IH; [lia..|].
  intros m' H'. apply HQ. congruence.
Qed.

Lemma wp_back_colon k m lo par (Q : Z -> Prop) :
  0 <= lo <= par -> par < zlen m -> byte_at m lo = 58 -> par - lo < Z.of_nat k ->
  (forall j, lo < j <= par -> byte_at m j <> 58) -> Q lo -> wp (back_colon k m par) Q.
Proof.
  revert par. induction k as [|k IH]; intros par Hp Hl H58 Hk Hne HQ; [lia|].
  cbn [back_colon]. wp_step. apply wp_rd; [lia|]. destruct (decide (par = lo)) as [->|].
  - rewrite H58. wp_step; [by wp_step|lia].
  - specialize (Hne par) as Hp'. wp_step; [lia|]. apply IH; [lia|lia|done|lia| |done].
    intros j ?. apply Hne. lia.
Qed.

Lemma wp_to_space k m host e hlen (Q : Z -> Prop) :
  0 <= host + hlen <= e -> e < zlen m -> isspace (byte_at m e) = true ->
  e - (host + hlen) < Z.of_nat k ->
  (forall r, hlen <= r -> host + r <= e -> isspace (byte_at m (host + r)) = true -> Q r) ->
  wp (to_space k m host hlen) Q.
Proof.
  revert hlen. induction k as [|k IH]; intros hlen Hp He Hsp Hk HQ; [lia|].
  cbn [to_space]. wp_step. apply wp_rd; [lia|]. wp_step.
  - wp_step. apply HQ; [lia|lia|done].
  - assert (host + hlen <> e) by congruence.
    apply IH; [lia|lia|done|lia|]. intros r ? ? ?. apply HQ; [lia|lia|done].
Qed.

(** [mod_space] moves the host name over the blanks before it and pads with tabs. *)
Lemma wp_mod_space A B C D par hlen L (Q : list Z -> Prop) :
  let m := A ++ B ++ C ++ D in
  zlen A = par + 5 -> 0 <= par -> 0 <= hlen ->
  zlen A + zlen B + hlen <= L -> L < zlen m -> isspace (byte_at m L) = true ->
  (forall C' D', C ++ D = C' ++ D' -> hlen <= zlen C' -> isspace (byte_at D' 0) = true ->
     Q (A ++ C' ++ replicate (length B) 9 ++ D')) ->
  wp (mod_space m par (zlen A + zlen B) hlen) Q.
Proof.
  intros m HA Hpar Hh HL HLm Hsp HQ. unfold mod_space.
  pose proof (zlen_nonneg A). pose proof (zlen_nonneg B).
  assert (Hm : m = (A ++ B) ++ (C ++ D)) by (unfold m; by rewrite <- (assoc_L (++))).
  assert (HmL : zlen m = zlen A + zlen B + zlen (C ++ D)) by (rewrite Hm, !zlen_app; done).
  wp_step. apply (wp_to_space _ _ _ L); [lia|lia|done|unfold zlen in *; lia|].
  intros h Hhh HhL Hs.
  set (C' := take (Z.to_nat h) (C ++ D)). set (D' := drop (Z.to_nat h) (C ++ D)).
  assert (HCD : C ++ D = C' ++ D') by (symmetry; apply take_drop).
  assert (HC' : zlen C' = h) by (apply zlen_take; lia).
  assert (HD' : isspace (byte_at D' 0) = true).
  { rewrite <- Hs. f_equal. rewrite Hm, HCD.
    rewrite byte_at_app_r by (rewrite zlen_app; lia). rewrite zlen_app.
    rewrite byte_at_app_r by lia. f_equal. lia. }
  set (B1 := take (Z.to_nat h) (B ++ C')). set (B2 := drop (Z.to_nat h) (B ++ C')).
  assert (HB : B1 ++ B2 = B ++ C') by apply take_drop.
  assert (HB1 : zlen B1 = h) by (apply zlen_take; rewrite zlen_app; lia).
  assert (HB2 : zlen B2 = zlen B)
    by (pose proof (f_equal zlen HB) as E; rewrite !zlen_app in E; lia).
  wp_step. rewrite (memmove_app m (A ++ B) C' D' A B1 (B2 ++ D')); cycle 1.
  { rewrite Hm, HCD. by rewrite <- !(assoc_L (++)). }
  { rewrite (assoc_L (++) B1), HB, Hm, HCD. by rewrite <- !(assoc_L (++)). }
  1-4: rewrite ?zlen_app; lia.
  wp_step. unfold memset. wp_step; [lia|].
  assert (Hr : zlen (replicate (Z.to_nat (zlen A + zlen B - (par + 5))) 9) = zlen B2)
    by (rewrite zlen_replicate; lia).
  rewrite wr_list_ok; [|lia|].
  - wp_step. rewrite (assoc_L (++)), splice_app_mid; [|rewrite zlen_app; lia|done].
    rewrite <- (assoc_L (++)).
    replace (Z.to_nat (zlen A + zlen B - (par + 5))) with (length B) by (unfold zlen in *; lia).
    apply HQ; [done|lia|done].
  - rewrite !zlen_app, Hr. pose proof (zlen_nonneg D'). lia.
Qed.
End with_abi.

Section mod_http.
Context {CA : CharAbi}.

(** The request [b'] that the Host rewriting [m] may make of [buffer], whose host
    name starts at [o] and has [len] bytes: without MH_SPACE the same text up to
    letter case; with it, the name with its tail up to the next white space
    moves up to the colon and tabs fill the gap behind it. *)
Definition http_rewritten (buffer : list Z) (o len m : Z) (b' : list Z) : Prop :=
  if has_flag m MH_SPACE then
    exists A B C D, buffer = A ++ B ++ C ++ D /\
      byte_at A (zlen A - 1) = 58 /\ zlen A + zlen B = o /\
      (forall j, 0 <= j < zlen B -> byte_at B j = 32 \/ byte_at B j = 91) /\
      len <= zlen C /\ isspace (byte_at D 0) = true /\
      lc b' = lc (A ++ C ++ replicate (Datatypes.length B) 9 ++ D)
  else lc b' = lc buffer.

Lemma lc_split (m X Y : list Z) :
  lc m = lc (X ++ Y) -> exists X' Y', m = X' ++ Y' /\ lc X' = lc X /\ lc Y' = lc Y /\ zlen X' = zlen X.
Proof.
  unfold lc. rewrite fmap_app. intros H.
  apply fmap_app_inv in H as (X' & Y' & H1 & H2 & ->).
  exists X', Y'. repeat split; [done|done|]. apply lc_zlen. done.
Qed.

Lemma wp_mod_http buffer bsize m r o :
  0 <= bsize <= zlen buffer ->
  parse_http buffer bsize false = Ok r -> hh_hs r = Some o -> 0 < hh_len r ->
  wp (mod_http buffer bsize m) (fun '(rc, b') =>
    rc = 0 /\ zlen b' = zlen buffer /\ http_rewritten buffer o (hh_len r) m b').
Proof.
  intros Hl Hr Ho Hlen. pose proof (wp_parse_http buffer bsize false Hl) as Hok.
  unfold mod_http. rewrite Hr in Hok |- *. cbn [mbind res_bind].
  destruct Hok as [Hok _]. rewrite Ho in *.
  destruct Hok as (p & L & Hp & Hocc & Hpo & Hbl & HoL & HpL & Hsp).
  assert (H58 : byte_at buffer (p + 5) = 58).
  { apply tolower_58. rewrite (Hocc 5) by (change (zlen host_hdr) with 6; lia). done. }
  wp_step; [lia|]. wp_step.
  apply (wp_back_colon _ _ (p + 5)); [lia|lia|done|unfold zlen in *; lia| |].
  { intros j Hj. destruct (Hbl j); lia. }
  cbv zeta. set (len := hh_len r) in *. wp_step.
  apply wp_mono with (fun b1 => lc b1 = lc buffer).
  { wp_step; [apply wp_mod_hmix; [lia|lia|done]|done]. }
  intros b1 H1. wp_step. pose proof (lc_zlen _ _ H1).
  apply wp_mono with (fun b2 => lc b2 = lc buffer).
  { wp_step; [|done]. apply wp_dmix_loop; [lia|lia|lia|unfold zlen in *; lia|lia|].
    intros m' ->. done. }
  intros b2 H2. wp_step. pose proof (lc_zlen _ _ H2). unfold http_rewritten.
  destruct (has_flag m MH_SPACE) eqn:Hf; [|by repeat wp_step].
  set (A := take (Z.to_nat (p + 6)) buffer).
  set (BCD := drop (Z.to_nat (p + 6)) buffer).
  set (B := take (Z.to_nat (o - (p + 6))) BCD). set (CD := drop (Z.to_nat (o - (p + 6))) BCD).
  assert (HA : zlen A = p + 6) by (apply zlen_take; lia).
  assert (HBCD : zlen BCD = zlen buffer - (p + 6)) by (apply zlen_drop; lia).
  assert (HB : zlen B = o - (p + 6)) by (apply zlen_take; lia).
  assert (Hbuf : buffer = A ++ B ++ CD) by (unfold A, B, CD, BCD; by rewrite !take_drop).
  rewrite Hbuf in H2. destruct (lc_split _ _ _ H2) as (A' & BC' & -> & HA' & HBC' & HlA).
  destruct (lc_split _ _ _ HBC') as (B' & CD' & -> & HB' & HCD' & HlB).
  assert (HB'B : B' = B).
  { apply list_eq_byte_at; [done|]. intros i Hi. rewrite HlB in Hi.
    assert (Hb : byte_at B i = byte_at buffer (p + 6 + i)).
    { rewrite Hbuf, byte_at_app_r, byte_at_app_l by lia. f_equal. lia. }
    pose proof (lc_byte_at _ _ i HB' Hi) as E. rewrite Hb in *.
    destruct (Hbl (p + 6 + i)) as [E'|E']; [lia|rewrite E' in *..];
      revert E; unfold tolower; repeat case_match; lia. }
  subst B'. replace (p + 5 - 4) with (p + 1) by lia.
  replace o with (zlen A' + zlen B) by lia.
  replace (A' ++ B ++ CD') with (A' ++ B ++ CD' ++ []) by (by rewrite app_nil_r).
  apply (wp_mod_space A' B CD' [] (p + 1) len L).
  - lia.
  - lia.
  - lia.
  - lia.
  - rewrite app_nil_r. lia.
  - rewrite app_nil_r, <- Hsp, <- isspace_tolower, <- (isspace_tolower (byte_at buffer L)).
    f_equal. apply lc_byte_at; [by rewrite Hbuf|lia].
  - intros C' D' HCD'' HlC HsD. rewrite app_nil_r in HCD''. wp_step.
    assert (HlcCD : lc (C' ++ D') = lc CD) by (by rewrite <- HCD'').
    symmetry in HlcCD. destruct (lc_split _ _ _ HlcCD) as (C & D & HCD3 & HC3 & HD3 & HlC3).
    split; [done|]. split.
    { rewrite !zlen_app, zlen_replicate. pose proof (f_equal zlen HCD'') as E.
      rewrite zlen_app in E.
      assert (zlen (A' ++ B ++ CD') = zlen buffer) by done.
      rewrite !zlen_app in *. change (Z.of_nat (Datatypes.length B)) with (zlen B). lia. }
    exists A, B, C, D. rewrite HCD3 in Hbuf. repeat split.
    + exact Hbuf.
    + rewrite HA. replace (p + 6 - 1) with (p + 5) by lia. rewrite <- H58.
      rewrite Hbuf, byte_at_app_l by lia. done.
    + lia.
    + intros j Hj.
      assert (E : byte_at B j = byte_at buffer (p + 6 + j)).
      { rewrite Hbuf, byte_at_app_r, byte_at_app_l by lia. f_equal. lia. }
      rewrite E. apply Hbl. lia.
    + lia.
    + rewrite <- isspace_tolower, <- HsD, <- (isspace_tolower (byte_at D' 0)). f_equal.
      destruct D as [|d D]; [|destruct D' as [|d' D']; [|by injection HD3]].
      * apply lc_zlen in HD3. symmetry in HD3. apply zlen_0_nil in HD3. by rewrite HD3.
      * apply lc_zlen in HD3. unfold zlen in HD3. simpl in HD3. lia.
    + rewrite !lc_app. congruence.
Qed.
End mod_http.

(** ** Properties *)

(** C23: [parse_http] on any received bytes terminates and reads only inside the
    buffer: the host it points to lies behind a "Host:" header, its end and the
    white space that ends the line lie inside the received bytes, and a port it
    stores is between 1 and 65535. *)
Theorem parse_http_in_bounds {CA : CharAbi} buffer bsize want_port :
  0 <= bsize <= zlen buffer ->
  exists r, parse_http buffer bsize want_port = Ok r /\ http_host_ok buffer bsize want_port r.
Proof. intros. by apply wp_inv, wp_parse_http. Qed.

Lemma parse_http_in_bounds_witness :
  exists r, parse_http (CA := true) http_data 43 true = Ok r /\ http_host_ok http_data 43 true r.
Proof. apply (parse_http_in_bounds (CA := true)). vm_compute. split; discriminate. Defined.

(** [mod_http] on a request whose host is not blank returns 0 and changes only
    what a server does not see: letter case and, for MH_SPACE, the white space
    around the host name; the request keeps its length. *)
Theorem mod_http_rewrites {CA : CharAbi} buffer bsize m r o :
  0 <= bsize <= zlen buffer ->
  parse_http buffer bsize false = Ok r -> hh_hs r = Some o -> 0 < hh_len r ->
  exists b', mod_http buffer bsize m = Ok (0, b') /\ zlen b' = zlen buffer /\
    http_rewritten buffer o (hh_len r) m b'.
Proof.
  intros Hl Hr Ho Hn. destruct (wp_inv _ _ (wp_mod_http buffer bsize m r o Hl Hr Ho Hn))
    as ([rc b'] & E & -> & H1 & H2). by exists b'.
Qed.

Lemma mod_http_rewrites_witness :
  exists b', mod_http (CA := true) http_data 43 7 = Ok (0, b') /\ zlen b' = zlen http_data /\
    http_rewritten http_data 22 17 7 b'.
Proof.
  apply (mod_http_rewrites (CA := true) http_data 43 7 (HttpHost 17 (Some 22) None) 22);
    [vm_compute; split; discriminate|reflexivity..].
Defined.

Definition blank_host : list Z :=
  bytes_of_string "GET / HTTP/1.1" ++ CRLF ++ bytes_of_string "Host: " ++ CRLF ++ CRLF.

(** On a request whose Host header is blank [parse_http] reports a host of
    length -1, and [mod_http] with MH_SPACE then moves [(size_t)-1] bytes. *)
Theorem mod_http_blank_host {CA : CharAbi} :
  (exists r, parse_http blank_host (zlen blank_host) false = Ok r /\ hh_len r = -1) /\
  mod_http blank_host (zlen blank_host) MH_SPACE = Ub.
Proof.
  destruct CA; (split; [eexists; split|]; vm_compute; reflexivity).
Qed.

(** The built-in decoys are what they pretend to be, for any allocation size:
    the ClientHello carries the server name of the HTTP request's Host header,
    "www.wikipedia.org", the request parses as one for port 80, and the UDP
    payload has the size asked for. *)
Theorem fakes_parse {OS : Os} {CA : CharAbi} {St : Type} (len : Z) (s : St) h :
  0 <= len -> (forall n, rv (os_reply h (CMalloc n)) <> 0) ->
  exists d hd ud h1 h2 h3 sz,
    fake_tls_init len s h = Ok (0, Packet 517 (Some d) 0, s, h1) /\
    parse_tls d 517 = Ok (17, Some 153) /\ slice d 153 17 = bytes_of_string "www.wikipedia.org" /\
    fake_http_init s h = Ok (0, Packet 43 (Some hd) 0, s, h2) /\
    parse_http hd 43 true = Ok (HttpHost 17 (Some 22) (Some 80)) /\
    slice hd 22 17 = bytes_of_string "www.wikipedia.org" /\
    fake_udp_init len s h = Ok (0, Packet sz (Some ud) 0, s, h3) /\
    sz = (if len =? 0 then 64 else len) /\ ud = replicate (Z.to_nat sz) 0.
Proof.
  intros Hlen Hm.
  assert (Ha : forall n, alloc (St := St) n s h =
    Ok (Some (replicate (Z.to_nat n) 0), s, (CMalloc n, os_reply h (CMalloc n)) :: h)).
  { intros n. unfold alloc, syscall, mbind, prog_bind, mret, prog_ret.
    destruct (Z.eqb_spec (rv (os_reply h (CMalloc n))) 0) as [E|]; [by apply Hm in E|done]. }
  set (n := if len <? 517 then 517 else len).
  set (tail := replicate (Z.to_nat (n - 517)) 0).
  assert (Hd : wr_list (replicate (Z.to_nat n) 0) 0 tls_data = Ok (tls_data ++ tail)).
  { assert (517 <= n) by (unfold n; case_match; lia).
    rewrite wr_list_ok; [|lia|rewrite zlen_replicate; change (zlen tls_data) with 517; lia].
    unfold splice. rewrite take_0, drop_replicate. change (zlen tls_data) with 517.
    replace (Z.to_nat n - Z.to_nat (0 + 517))%nat with (Z.to_nat (n - 517)) by lia. done. }
  set (sz := if truthy len then len else 64).
  assert (Hsz : sz = if len =? 0 then 64 else len)
    by (unfold sz, truthy; by destruct (len =? 0)).
  assert (0 < sz) by (rewrite Hsz; destruct (len =? 0) eqn:?; lia).
  set (w := Z.to_nat (if sz <? 64 then sz else 64)).
  assert (Hu : wr_list (replicate (Z.to_nat sz) 0) 0 (take w udp_data)
    = Ok (replicate (Z.to_nat sz) 0)).
  { unfold udp_data. rewrite take_replicate.
    rewrite wr_list_ok; [|lia|rewrite !zlen_replicate; unfold w; destruct (sz <? 64) eqn:?; lia].
    unfold splice. rewrite take_0, drop_replicate, <- replicate_add, zlen_replicate.
    rewrite app_nil_l. do 2 f_equal. unfold w. destruct (sz <? 64) eqn:?; lia. }
  do 3 eexists. exists ((CMalloc n, os_reply h (CMalloc n)) :: h). do 2 eexists. exists sz.
  split.
  { unfold fake_tls_init. fold n. unfold mbind at 1, prog_bind at 1. rewrite Ha.
    unfold mbind, prog_bind, lift. rewrite Hd. reflexivity. }
  split; [vm_compute; reflexivity|]. split; [vm_compute; reflexivity|]. split.
  { unfold fake_http_init. unfold mbind at 1, prog_bind at 1. rewrite Ha. reflexivity. }
  split; [destruct CA; vm_compute; reflexivity|].
  split; [vm_compute; reflexivity|]. split.
  { unfold fake_udp_init. fold sz. unfold mbind at 1, prog_bind at 1. rewrite Ha.
    unfold mbind, prog_bind, lift. fold w. rewrite Hu. reflexivity. }
  done.
Qed.

Lemma fakes_parse_witness :
  exists d hd ud h1 h2 h3 sz,
    fake_tls_init (OS := fun _ _ => Ret 1 0 []) 600 tt [] = Ok (0, Packet 517 (Some d) 0, tt, h1) /\
    parse_tls d 517 = Ok (17, Some 153) /\ slice d 153 17 = bytes_of_string "www.wikipedia.org" /\
    fake_http_init (OS := fun _ _ => Ret 1 0 []) tt [] = Ok (0, Packet 43 (Some hd) 0, tt, h2) /\
    parse_http (CA := false) hd 43 true = Ok (HttpHost 17 (Some 22) (Some 80)) /\
    slice hd 22 17 = bytes_of_string "www.wikipedia.org" /\
    fake_udp_init (OS := fun _ _ => Ret 1 0 []) 600 tt [] = Ok (0, Packet sz (Some ud) 0, tt, h3) /\
    sz = (if 600 =? 0 then 64 else 600) /\ ud = replicate (Z.to_nat sz) 0.
Proof.
  apply (fakes_parse (OS := fun _ _ => Ret 1 0 []) (CA := false) 600 tt []); [done|].
  intros n. simpl. discriminate.
Defined.
