(* ===== verification/PktSumFacts.v ===== *)
(** Theorems about the checksums of packets.c: they are the Internet checksum
    (ones' complement of the ones' complement sum), and a packet that carries
    its own checksum verifies. *)
From S2P Require Import Prelude CMem PktSum.

(** ** The sum of the 16-bit little-endian words of a text *)
Fixpoint wsum (l : list Z) : Z :=
  match l with
  | a :: b :: l => a + 256 * b + wsum l
  | [a] => a
  | [] => 0
  end.

(** The ones' complement sum: the representative of [s] modulo 65535 in
    1..65535, and 0 for 0. *)
Definition ones_sum (s : Z) : Z := if s =? 0 then 0 else (s - 1) mod 65535 + 1.

Lemma pair_ind {A} (P : list A -> Prop) :
  P [] -> (forall a, P [a]) -> (forall a b l, P l -> P (a :: b :: l)) -> forall l, P l.
Proof.
  intros H0 H1 H2. fix IH 1. intros [|a [|b l]]; [done|done|]. apply H2, IH.
Qed.

Lemma wsum_nonneg l : bytes_ok l -> 0 <= wsum l.
Proof.
  induction l as [|a|a b l IH] using pair_ind; [done|..]; unfold bytes_ok, is_byte in *;
    rewrite !Forall_cons; simpl; [lia|]. intros (? & ? & H). specialize (IH H). lia.
Qed.
Lemma wsum_bound l : bytes_ok l -> 2 * wsum l <= 65535 * (zlen l + 1).
Proof.
  induction l as [|a|a b l IH] using pair_ind; [done|..]; unfold bytes_ok, is_byte in *;
    rewrite !Forall_cons; [unfold zlen; simpl; lia|]. rewrite !zlen_cons. simpl.
  intros (? & ? & H). specialize (IH H). lia.
Qed.
Lemma wsum_app a b : Z.even (zlen a) = true -> wsum (a ++ b) = wsum a + wsum b.
Proof.
  induction a as [|x|x y a IH] using pair_ind; [done|done|].
  rewrite !zlen_cons. intros H. simpl. rewrite IH; [lia|].
  rewrite <- H. rewrite <- !Z.add_assoc, Z.even_add. by destruct (Z.even (zlen a)).
Qed.

Lemma ld16_app a x y b i : i = zlen a -> ld16 (a ++ x :: y :: b) i = Ok (x + 256 * y).
Proof.
  intros ->. pose proof (zlen_nonneg a). pose proof (zlen_nonneg b). unfold ld16.
  rewrite (rd_ok _ (zlen a)) by (rewrite zlen_app, !zlen_cons; lia).
  rewrite byte_at_app_mid by done. cbn [mbind res_bind].
  rewrite rd_ok by (rewrite zlen_app, !zlen_cons; lia). cbn [mbind res_bind].
  change (a ++ x :: y :: b) with (a ++ [x] ++ y :: b).
  rewrite (assoc_L (++)), byte_at_app_mid; [done|by rewrite zlen_app].
Qed.

Lemma u32_add x y : u32 (u32 x + y) = u32 (x + y).
Proof. unfold u32. by rewrite Zplus_mod_idemp_l. Qed.

Lemma sum_loop_app k pre l post sum :
  zlen l < Z.of_nat k -> 0 <= sum < 2 ^ 32 ->
  sum_loop k (pre ++ l ++ post) (zlen pre) (zlen l) sum = Ok (u32 (sum + wsum l)).
Proof.
  revert k pre sum. induction l as [|a|a b l IH] using pair_ind; intros k pre sum Hk Hs;
    (destruct k as [|k]; [unfold zlen in Hk; simpl in Hk; lia|]);
    cbn [sum_loop].
  - simpl. rewrite Z.add_0_r. unfold u32. by rewrite Z.mod_small.
  - change (zlen [a]) with 1. cbn. pose proof (zlen_nonneg pre). pose proof (zlen_nonneg post).
    rewrite rd_ok by (rewrite zlen_app, zlen_cons; lia).
    by rewrite byte_at_app_mid.
  - rewrite !zlen_cons. pose proof (zlen_nonneg l).
    destruct (1 <? zlen l + 1 + 1) eqn:E; [clear E|lia].
    simpl. rewrite ld16_app by done. cbn [mbind res_bind].
    replace (pre ++ a :: b :: l ++ post) with ((pre ++ [a; b]) ++ l ++ post)
      by (by rewrite <- (assoc_L (++))).
    replace (zlen pre + 2) with (zlen (pre ++ [a; b])) by (by rewrite zlen_app).
    replace (zlen l + 1 + 1 - 2) with (zlen l) by lia.
    rewrite IH; [|rewrite !zlen_cons in Hk; lia|unfold u32; apply Z.mod_pos_bound; lia].
    rewrite u32_add. do 2 f_equal. lia.
Qed.

Lemma fold_loop_ok s : 0 <= s < 2 ^ 32 -> fold_loop 4 s = Ok (ones_sum s).
Proof.
  intros Hs.
  assert (Hfin : forall k x, 0 <= x < 65536 -> fold_loop (S k) x = Ok x).
  { intros k x Hx. cbn [fold_loop]. rewrite Z.shiftr_div_pow2 by lia.
    change (2 ^ 16) with 65536. by rewrite Z.div_small. }
  assert (Hstep : forall k x, 65536 <= x < 2 ^ 32 ->
    fold_loop (S k) x = fold_loop k (x mod 65536 + x / 65536)).
  { intros k x Hx. cbn [fold_loop]. rewrite Z.shiftr_div_pow2 by lia.
    change (2 ^ 16) with 65536. unfold truthy.
    destruct (x / 65536 =? 0) eqn:E; [Z.to_euclidean_division_equations; lia|]. cbn [negb].
    change 65535 with (Z.ones 16). rewrite Z.land_ones by lia. change (2 ^ 16) with 65536.
    f_equal. unfold u32. rewrite Z.mod_small; [done|].
    Z.to_euclidean_division_equations; lia. }
  unfold ones_sum. destruct (s =? 0) eqn:E0; [by replace s with 0 by lia|].
  destruct (decide (s < 65536)).
  { rewrite Hfin by lia. f_equal. rewrite Z.mod_small; lia. }
  rewrite Hstep by lia. set (x := s mod 65536 + s / 65536).
  assert (Hx : 0 < x <= 131070 /\ (s - 1) mod 65535 = (x - 1) mod 65535).
  { unfold x. split; [Z.to_euclidean_division_equations; lia|].
    replace (s - 1) with (s mod 65536 + s / 65536 - 1 + (s / 65536) * 65535)
      by (pose proof (Z_div_mod_eq_full s 65536); lia).
    by rewrite Z_mod_plus_full. }
  destruct Hx as [Hx ->]. destruct (decide (x < 65536)).
  { rewrite Hfin by lia. f_equal. rewrite Z.mod_small; lia. }
  rewrite Hstep by lia.
  replace (x mod 65536 + x / 65536) with (x - 65535)
    by (Z.to_euclidean_division_equations; lia).
  rewrite Hfin by lia. f_equal.
  replace (x - 1) with (x - 65535 - 1 + 1 * 65535) by lia.
  rewrite Z_mod_plus_full, Z.mod_small; lia.
Qed.

Lemma ones_sum_range s : 0 <= s -> 0 <= ones_sum s < 65536.
Proof. intros. unfold ones_sum. case_match; Z.to_euclidean_division_equations; lia. Qed.

Lemma lnot_u16 x : 0 <= x < 65536 -> u16 (Z.lnot (u16 x)) = 65535 - x.
Proof.
  intros. rewrite (u16_small x) by done. unfold Z.lnot, u16.
  replace (Z.pred (- x)) with (65535 - x + (-1) * 2 ^ 16) by lia.
  rewrite Z_mod_plus_full, Z.mod_small; lia.
Qed.

Lemma ip_checksum_ok l rest :
  bytes_ok l -> zlen l <= 131068 -> ip_checksum (l ++ rest) (zlen l) = Ok (65535 - ones_sum (wsum l)).
Proof.
  intros Hb Hl. unfold ip_checksum. pose proof (zlen_nonneg l).
  change (sum_loop _ (l ++ rest) 0 (zlen l) 0)
    with (sum_loop (S (Z.to_nat (zlen l))) ([] ++ l ++ rest) (zlen (@nil Z)) (zlen l) 0).
  rewrite sum_loop_app by lia. cbn [mbind res_bind].
  pose proof (wsum_nonneg l Hb). pose proof (wsum_bound l Hb).
  unfold u32 at 1. rewrite Z.mod_small by lia.
  rewrite fold_loop_ok by lia. cbn [mbind res_bind]. f_equal.
  apply lnot_u16, ones_sum_range. lia.
Qed.

Lemma ones_sum_complement s c :
  0 <= s -> c = 65535 - ones_sum s -> ones_sum (s + c) = 65535.
Proof.
  intros Hs ->. pose proof (ones_sum_range s Hs). unfold ones_sum at 1.
  assert (s + (65535 - ones_sum s) <> 0 /\ (s + (65535 - ones_sum s) - 1) mod 65535 = 65534) as [? ->].
  { unfold ones_sum in *. destruct (s =? 0) eqn:?.
    - replace s with 0 by lia. split; [lia|done].
    - split; [Z.to_euclidean_division_equations; lia|].
      replace (s + (65535 - ((s - 1) mod 65535 + 1)) - 1)
        with (65534 + ((s - 1) / 65535) * 65535)
        by (pose proof (Z_div_mod_eq_full (s - 1) 65535); lia).
      by rewrite Z_mod_plus_full. }
  case_match; [lia|done].
Qed.

(** ** Properties *)

(** [ip_checksum] is the Internet checksum: when the field [c] computed over a
    header whose checksum field is zero is stored (low byte first, as the
    [uint16_t] store of the supported ABIs does) at the even offset it belongs
    to, the checksum over the completed header is 0, which is how a receiver
    verifies it. The header may have any length up to 131068 bytes. *)
Theorem ip_checksum_verifies a b rest :
  bytes_ok (a ++ 0 :: 0 :: b) -> zlen (a ++ 0 :: 0 :: b) <= 131068 -> Z.even (zlen a) = true ->
  exists c, 0 <= c < 65536 /\
    ip_checksum ((a ++ 0 :: 0 :: b) ++ rest) (zlen (a ++ 0 :: 0 :: b)) = Ok c /\
    ip_checksum ((a ++ c mod 256 :: c / 256 :: b) ++ rest) (zlen (a ++ 0 :: 0 :: b)) = Ok 0.
Proof.
  intros Hb Hl He. set (s := wsum a + wsum b).
  assert (Hw : forall x y, wsum (a ++ x :: y :: b) = s + (x + 256 * y))
    by (intros; rewrite wsum_app by done; simpl; unfold s; lia).
  pose proof (wsum_nonneg _ Hb) as Hs. rewrite Hw in Hs.
  pose proof (ones_sum_range s ltac:(lia)) as Hr.
  exists (65535 - ones_sum s). split; [lia|]. rewrite ip_checksum_ok, Hw by done. split.
  { do 3 f_equal. lia. }
  set (c := 65535 - ones_sum s).
  replace (zlen (a ++ 0 :: 0 :: b)) with (zlen (a ++ c mod 256 :: c / 256 :: b)) in *
    by (by rewrite !zlen_app, !zlen_cons).
  rewrite ip_checksum_ok; [|revert Hb; unfold bytes_ok, is_byte; rewrite !Forall_app, !Forall_cons|done].
  - rewrite Hw. replace (c mod 256 + 256 * (c / 256)) with c
      by (pose proof (Z_div_mod_eq_full c 256); lia).
    rewrite ones_sum_complement by (done || lia). done.
  - intros (? & _ & _ & ?). repeat split; [done|..|done];
      unfold c; Z.to_euclidean_division_equations; lia.
Qed.

Lemma ip_checksum_verifies_witness :
  exists c, 0 <= c < 65536 /\
    ip_checksum (([69; 0; 0; 28] ++ 0 :: 0 :: [10; 1; 7]) ++ [9]) (zlen ([69; 0; 0; 28] ++ 0 :: 0 :: [10; 1; 7])) = Ok c /\
    ip_checksum (([69; 0; 0; 28] ++ c mod 256 :: c / 256 :: [10; 1; 7]) ++ [9]) (zlen ([69; 0; 0; 28] ++ 0 :: 0 :: [10; 1; 7])) = Ok 0.
Proof.
  apply ip_checksum_verifies; [|vm_compute; discriminate|reflexivity].
  unfold bytes_ok, is_byte. simpl. repeat constructor; lia.
Defined.
