(* ===== verification/MpoolFacts.v ===== *)
(** Theorems about mpool.c and kavl.h: the search trees implement sets of keys for
    every comparison that is a key order, the three comparisons are key orders
    (host names only under a condition), and what happens otherwise. *)
From S2P Require Import Prelude CMem Sys Mpool.
From stdpp Require Import sorting sets.
#[local] Open Scope Z_scope.

(** ** Lexicographic comparison of lists *)
Lemma list_cmp_range a b : list_cmp a b = -1 \/ list_cmp a b = 0 \/ list_cmp a b = 1.
Proof.
  revert b. induction a as [|x a IH]; intros [|y b]; simpl; [lia..|].
  repeat case_match; auto.
Qed.
Lemma list_cmp_refl a : list_cmp a a = 0.
Proof. induction a as [|x a IH]; simpl; [done|]. by rewrite Z.ltb_irrefl. Qed.
Lemma list_cmp_sym a b : list_cmp b a = - list_cmp a b.
Proof.
  revert b. induction a as [|x a IH]; intros [|y b]; simpl; [done..|].
  destruct (x <? y) eqn:?, (y <? x) eqn:?; try lia. apply IH.
Qed.
Lemma list_cmp_trans a b c : list_cmp a b < 0 -> list_cmp b c < 0 -> list_cmp a c < 0.
Proof.
  revert b c. induction a as [|x a IH]; intros [|y b] [|z c]; simpl; try lia.
  destruct (x <? y) eqn:?, (y <? x) eqn:?, (y <? z) eqn:?, (z <? y) eqn:?,
    (x <? z) eqn:?, (z <? x) eqn:?; try lia. apply IH.
Qed.
Lemma list_cmp_app a b c d :
  length a = length b ->
  list_cmp (a ++ c) (b ++ d) = if list_cmp a b =? 0 then list_cmp c d else list_cmp a b.
Proof.
  revert b. induction a as [|x a IH]; intros [|y b] Hl; simpl; try done.
  destruct (x <? y), (y <? x); try done. by apply IH; injection Hl.
Qed.
Lemma list_cmp_take n a b :
  (n = length a \/ n = length b)%nat -> (n <= length a)%nat -> (n <= length b)%nat ->
  list_cmp a b = list_cmp (take n a) (take n b).
Proof.
  revert a b. induction n as [|n IH]; intros [|x a] [|y b] Hn Ha Hb; simpl in *; try done; try lia.
  by rewrite (IH a b) by lia.
Qed.
(** Lists compare equal exactly when one is a prefix of the other. *)
Lemma list_cmp_0 a b : list_cmp a b = 0 <-> a `prefix_of` b \/ b `prefix_of` a.
Proof.
  revert b. induction a as [|x a IH]; intros b.
  { split; [|done]. left. apply prefix_nil. }
  destruct b as [|y b]; simpl; [split; [right; apply prefix_nil|done]|].
  destruct (x <? y) eqn:E1; [|destruct (y <? x) eqn:E2].
  1-2: split; [lia|]; intros [H|H]; apply prefix_cons_inv_1 in H; lia.
  assert (x = y) as -> by lia. rewrite IH. split; intros [H|H].
  - left. by apply prefix_cons.
  - right. by apply prefix_cons.
  - left. by apply prefix_cons_inv_2 in H.
  - right. by apply prefix_cons_inv_2 in H.
Qed.

Lemma filter_all {A} (P : A -> Prop) `{!forall x, Decision (P x)} (l : list A) :
  (forall x, x ∈ l -> P x) -> filter P l = l.
Proof.
  induction l as [|x l IH]; intros Hl; [done|].
  rewrite filter_cons_True by (apply Hl; by left). f_equal. apply IH. intros y ?. apply Hl. by right.
Qed.

(** ** Key orders

    What the trees need of a comparison: on the keys of [dom] it is defined, it is
    0 on equal keys, antisymmetric, and its strict part is transitive. A key equal
    to two others need not make them equal (a prefix covers many addresses), but
    when it lies between them in length it does ([ko_between]). *)
Class KeyOrder {CA : CharAbi} (dom : elem -> Prop) := {
  ko_cmp : elem -> elem -> Z;
  ko_scmp p q : dom p -> dom q -> scmp p q = Ok (ko_cmp p q);
  ko_range p q : ko_cmp p q = -1 \/ ko_cmp p q = 0 \/ ko_cmp p q = 1;
  ko_refl p : dom p -> ko_cmp p p = 0;
  ko_sym p q : dom p -> dom q -> ko_cmp q p = - ko_cmp p q;
  ko_trans p q r : dom p -> dom q -> dom r -> ko_cmp p q < 0 -> ko_cmp q r < 0 -> ko_cmp p r < 0;
  ko_between p q r : dom p -> dom q -> dom r -> ko_cmp p q = 0 -> ko_cmp p r = 0 ->
    el_len q <= el_len p -> el_len p < el_len r -> ko_cmp q r = 0;
  (** only the key matters, not the address or the data an element carries *)
  ko_key p q : el_len p = el_len q -> el_data p = el_data q -> el_cmp p = el_cmp q ->
    dom p -> dom q /\ forall r, ko_cmp p r = ko_cmp q r }.

Fixpoint elems (t : tree) : list elem :=
  match t with Leaf => [] | Node l e r => elems l ++ e :: elems r end.
Fixpoint height (t : tree) : Z :=
  match t with Leaf => 0 | Node l _ r => 1 + Z.max (height l) (height r) end.

Lemma height_nonneg t : 0 <= height t.
Proof. induction t; simpl; lia. Qed.
Lemma height_elems t : height t <= zlen (elems t).
Proof.
  induction t as [|l IHl e r IHr]; simpl; [done|]. rewrite zlen_app, zlen_cons.
  pose proof (zlen_nonneg (elems l)). pose proof (zlen_nonneg (elems r)). lia.
Qed.
Lemma elems_height t n : height t <= n -> zlen (elems t) < 2 ^ n.
Proof.
  revert n. induction t as [|l IHl e r IHr]; intros n Hn; simpl in *.
  { apply Z.pow_pos_nonneg; [lia|done]. }
  pose proof (height_nonneg l). rewrite zlen_app, zlen_cons.
  replace n with (Z.succ (n - 1)) by lia. rewrite Z.pow_succ_r by lia.
  specialize (IHl (n - 1)). specialize (IHr (n - 1)). lia.
Qed.
Lemma length_elems t : length (elems t) = tree_size t.
Proof. induction t; simpl; [done|]. rewrite length_app. simpl. lia. Qed.

Section trees.
Context {CA : CharAbi} {dom : elem -> Prop} {KO : KeyOrder dom}.

Definition elt (p q : elem) : Prop := ko_cmp p q < 0.

(** The search tree invariant. *)
Record bst (t : tree) : Prop := Bst { bst_dom : Forall dom (elems t); bst_lt : StronglySorted elt (elems t) }.

Lemma sorted_app (a b : list elem) :
  StronglySorted elt (a ++ b) <->
  StronglySorted elt a /\ StronglySorted elt b /\ forall x y, x ∈ a -> y ∈ b -> elt x y.
Proof.
  induction a as [|x a IH]; simpl.
  { split; [intros H; repeat split; [constructor|done|set_solver]|by intros (_ & H & _)]. }
  split.
  - intros H. inversion H as [|? ? Hs Hf]; subst. apply IH in Hs as (H1 & H2 & H3).
    apply Forall_app in Hf as [Hf1 Hf2]. repeat split; [by constructor|done|].
    intros u v Hu Hv. apply elem_of_cons in Hu as [->|Hu]; [|by apply H3].
    by eapply Forall_forall in Hf2.
  - intros (H1 & H2 & H3). inversion H1 as [|? ? Hs Hf]; subst. constructor.
    + apply IH. repeat split; [done..|]. intros u v Hu. apply H3. by right.
    + apply Forall_app. split; [done|]. apply Forall_forall. intros v. apply H3. by left.
Qed.

Lemma bst_node l e r :
  bst (Node l e r) <-> bst l /\ bst r /\ dom e /\
    (forall x, x ∈ elems l -> elt x e) /\ (forall y, y ∈ elems r -> elt e y) /\
    (forall x y, x ∈ elems l -> y ∈ elems r -> elt x y).
Proof.
  split.
  - intros [Hd Hs]. simpl in *. apply Forall_app in Hd as [Hd1 Hd2]. inversion_clear Hd2.
    apply sorted_app in Hs as (H1 & H2 & H3). inversion H2 as [|? ? Hs Hf]; subst.
    rewrite Forall_forall in Hf. split; [by constructor|]. split; [by constructor|].
    repeat split; [done|..]; intros; [apply H3; [done|by left]|by apply Hf|apply H3; [done|by right]].
  - intros ([? ?] & [? ?] & ? & Hl & Hr & Hlr). constructor; simpl.
    + apply Forall_app. split; [done|by constructor].
    + apply sorted_app. repeat split; [done|constructor; [done|by apply Forall_forall]|].
      intros x y Hx Hy. apply elem_of_cons in Hy as [->|Hy]; auto.
Qed.

Lemma bst_dom_elem t e : bst t -> e ∈ elems t -> dom e.
Proof. intros [Hd _]. by rewrite Forall_forall in Hd; apply Hd. Qed.

(** A key below a node is below everything to its right, and conversely. *)
Lemma elt_sides l e r x :
  bst (Node l e r) -> dom x ->
  (ko_cmp x e < 0 -> forall y, y ∈ elems r -> ko_cmp x y < 0) /\
  (0 < ko_cmp x e -> forall y, y ∈ elems l -> 0 < ko_cmp x y).
Proof.
  intros Hb Hx. pose proof Hb as (Hl & Hr & He & Hle & Her & _)%bst_node.
  split; intros Hc y Hy.
  - apply (ko_trans x e y); eauto using bst_dom_elem. by apply Her.
  - rewrite (ko_sym y x) by eauto using bst_dom_elem.
    assert (ko_cmp y x < 0); [|lia].
    apply (ko_trans y e x); eauto using bst_dom_elem; [by apply Hle|].
    rewrite (ko_sym x e) by done. lia.
Qed.

Definition found_in (t : tree) (x : elem) (o : option elem) : Prop :=
  match o with
  | Some e => e ∈ elems t /\ ko_cmp x e = 0
  | None => forall e, e ∈ elems t -> ko_cmp x e <> 0
  end.

Lemma wp_kavl_find t x : bst t -> dom x -> wp (kavl_find t x) (found_in t x).
Proof.
  intros Hb Hx. induction t as [|l IHl e r IHr]; simpl; [wp_step; intros ? H; by inversion H|].
  pose proof (elt_sides _ _ _ x Hb Hx) as [Hlt Hgt].
  apply bst_node in Hb as (Hl & Hr & He & _).
  rewrite ko_scmp by done. wp_step. wp_step.
  destruct (ko_cmp x e =? 0) eqn:E0; [|destruct (ko_cmp x e <? 0) eqn:E1].
  - wp_step. simpl. split; [set_solver|lia].
  - eapply wp_mono; [by apply IHl|]. intros [v|]; simpl; [set_solver|].
    intros H y. rewrite elem_of_app, elem_of_cons. intros [Hy|[->|Hy]]; [by apply H|lia|].
    apply Hlt in Hy; lia.
  - eapply wp_mono; [by apply IHr|]. intros [v|]; simpl; [set_solver|].
    intros H y. rewrite elem_of_app, elem_of_cons. intros [Hy|[->|Hy]]; [|lia|by apply H].
    apply Hgt in Hy; lia.
Qed.

(** [kavl_insert]: the element that equals the key, or the key at its place. *)
Definition inserted (t : tree) (x : elem) (r : option elem * tree) : Prop :=
  match r with
  | (Some e, t') => t' = t /\ e ∈ elems t /\ ko_cmp x e = 0
  | (None, t') => height t' <= height t + 1 /\ exists a b,
      elems t = a ++ b /\ elems t' = a ++ x :: b /\
      (forall y, y ∈ a -> 0 < ko_cmp x y) /\ (forall y, y ∈ b -> ko_cmp x y < 0)
  end.

Lemma wp_kavl_insert_at t : forall d x,
  bst t -> dom x -> d + height t < KAVL_MAX_DEPTH -> 0 <= d ->
  wp (kavl_insert_at d t x) (inserted t x).
Proof.
  induction t as [|l IHl e r IHr]; intros d x Hb Hx Hd H0; simpl.
  { wp_step. simpl. split; [lia|]. exists [], []. repeat split; intros y Hy; inversion Hy. }
  pose proof (elt_sides _ _ _ x Hb Hx) as [Hlt Hgt].
  apply bst_node in Hb as (Hl & Hr & He & _).
  simpl in Hd. rewrite ko_scmp by done. wp_step. wp_step.
  pose proof (height_nonneg l). pose proof (height_nonneg r).
  destruct (ko_cmp x e =? 0) eqn:E0.
  { wp_step. simpl. split; [done|]. split; [set_solver|lia]. }
  destruct (KAVL_MAX_DEPTH <=? d + 1) eqn:E2; [lia|].
  destruct (ko_cmp x e <? 0) eqn:E1; wp_step.
  - eapply wp_mono; [apply IHl; [done|done|lia|lia]|]. intros [[v|] l'] Hr'; wp_step; simpl in *.
    + destruct Hr' as (-> & ? & ?). split; [done|]. split; [set_solver|done].
    + destruct Hr' as (? & a & b & -> & -> & Ha & Hb'). split; [lia|].
      exists a, (b ++ e :: elems r). rewrite <- !(assoc_L (++)). repeat split; [done|].
      intros y. rewrite elem_of_app, elem_of_cons. intros [?|[->|?]]; [by apply Hb'|lia|].
      apply Hlt; [lia|done].
  - eapply wp_mono; [apply IHr; [done|done|lia|lia]|]. intros [[v|] r'] Hr'; wp_step; simpl in *.
    + destruct Hr' as (-> & ? & ?). split; [done|]. split; [set_solver|done].
    + destruct Hr' as (? & a & b & -> & -> & Ha & Hb'). split; [lia|].
      exists (elems l ++ e :: a), b. rewrite <- !(assoc_L (++)). repeat split; [|done].
      intros y. rewrite elem_of_app, elem_of_cons. intros [?|[->|?]]; [|lia|by apply Ha].
      apply Hgt; [lia|done].
Qed.

Lemma bst_insert t x t' : bst t -> dom x -> inserted t x (None, t') -> bst t'.
Proof.
  intros [Hd Hs] Hx (_ & a & b & He & He' & Ha & Hb). rewrite He in Hd, Hs.
  apply Forall_app in Hd as [Hd1 Hd2]. apply sorted_app in Hs as (H1 & H2 & H3).
  rewrite Forall_forall in Hd1, Hd2.
  constructor; rewrite He'.
  - apply Forall_app. rewrite Forall_cons, !Forall_forall. auto.
  - apply sorted_app. repeat split; [done|constructor; [done|by apply Forall_forall]|].
    intros y z Hy Hz. apply elem_of_cons in Hz as [->|Hz]; [|by apply H3].
    unfold elt. rewrite ko_sym by auto. specialize (Ha y Hy). lia.
Qed.

Lemma pop_first_elems t :
  match pop_first t with
  | None => t = Leaf
  | Some (e, t') => elems t = e :: elems t' /\ height t' <= height t
  end.
Proof.
  induction t as [|l IHl e r _]; simpl; [done|].
  destruct (pop_first l) as [[m l']|].
  - destruct IHl as [-> ?]. simpl. split; [done|lia].
  - subst l. simpl. pose proof (height_nonneg r). split; [done|lia].
Qed.

(** [kavl_erase]: the element that equals the key leaves the sequence. *)
Definition erased (t : tree) (x : elem) (r : option elem * tree) : Prop :=
  match r with
  | (Some e, t') => height t' <= height t /\ ko_cmp x e = 0 /\ exists a b,
      elems t = a ++ e :: b /\ elems t' = a ++ b
  | (None, t') => t' = t /\ forall e, e ∈ elems t -> ko_cmp x e <> 0
  end.

Lemma wp_kavl_erase_at t : forall d x,
  bst t -> dom x -> d + height t <= KAVL_MAX_DEPTH -> 0 <= d ->
  wp (kavl_erase_at d t x) (erased t x).
Proof.
  induction t as [|l IHl e r IHr]; intros d x Hb Hx Hd H0; simpl.
  { wp_step. simpl. split; [done|]. intros e He. inversion He. }
  pose proof (elt_sides _ _ _ x Hb Hx) as [Hlt Hgt].
  apply bst_node in Hb as (Hl & Hr & He & _).
  simpl in Hd. rewrite ko_scmp by done. wp_step. wp_step.
  pose proof (height_nonneg l). pose proof (height_nonneg r).
  destruct (ko_cmp x e =? 0) eqn:E0.
  { wp_step. pose proof (pop_first_elems r) as Hp. split.
    - destruct (pop_first r) as [[m r']|]; simpl; [destruct Hp|]; lia.
    - split; [lia|]. exists (elems l), (elems r). split; [done|].
      destruct (pop_first r) as [[m r']|]; simpl; [by destruct Hp as [-> _]|].
      subst r. by rewrite app_nil_r. }
  destruct (KAVL_MAX_DEPTH <=? d) eqn:E2; [lia|].
  destruct (ko_cmp x e <? 0) eqn:E1; wp_step.
  - eapply wp_mono; [apply IHl; [done|done|lia|lia]|]. intros [[v|] l'] Hr'; wp_step; simpl in *.
    + destruct Hr' as (? & ? & a & b & -> & ->). split; [lia|]. split; [done|].
      exists a, (b ++ e :: elems r). by rewrite <- !(assoc_L (++)).
    + destruct Hr' as [-> Hn]. split; [done|]. intros y.
      rewrite elem_of_app, elem_of_cons. intros [?|[->|Hy]]; [by apply Hn|lia|].
      apply Hlt in Hy; lia.
  - eapply wp_mono; [apply IHr; [done|done|lia|lia]|]. intros [[v|] r'] Hr'; wp_step; simpl in *.
    + destruct Hr' as (? & ? & a & b & -> & ->). split; [lia|]. split; [done|].
      exists (elems l ++ e :: a), b. by rewrite <- !(assoc_L (++)).
    + destruct Hr' as [-> Hn]. split; [done|]. intros y.
      rewrite elem_of_app, elem_of_cons. intros [Hy|[->|?]]; [|lia|by apply Hn].
      apply Hgt in Hy; lia.
Qed.

Lemma bst_remove t t' a e b : bst t -> elems t = a ++ e :: b -> elems t' = a ++ b -> bst t'.
Proof.
  intros [Hd Hs] He He'. rewrite He in Hd, Hs. apply Forall_app in Hd as [Hd1 Hd2].
  inversion_clear Hd2. apply sorted_app in Hs as (H1 & H2 & H3). inversion_clear H2.
  constructor; rewrite He'; [by apply Forall_app|]. apply sorted_app.
  repeat split; [done..|]. intros x y Hx Hy. apply H3; [done|by right].
Qed.

(** No two elements of a search tree compare equal. *)
Lemma bst_unique t a e b y : bst t -> elems t = a ++ e :: b -> y ∈ a ++ b -> ko_cmp e y <> 0.
Proof.
  intros [Hd Hs] He Hy. rewrite He in Hd, Hs. apply sorted_app in Hs as (_ & H2 & H3).
  inversion H2 as [|? ? _ Hf]; subst. rewrite Forall_forall in Hf.
  apply Forall_app in Hd as [Hd1 Hd2]. inversion_clear Hd2 as [|? ? Hde Hdb].
  rewrite Forall_forall in Hd1. apply elem_of_app in Hy as [Hy|Hy].
  - assert (elt y e) by (apply H3; [done|by left]). unfold elt in *.
    rewrite ko_sym by auto. lia.
  - specialize (Hf y Hy). unfold elt in Hf. lia.
Qed.

Lemma bst_same t v w : bst t -> v ∈ elems t -> w ∈ elems t -> ko_cmp v w = 0 -> v = w.
Proof.
  intros Hb Hv Hw Hc. apply list_elem_of_split in Hv as (a & b & Hv).
  assert (w = v \/ w ∈ a ++ b) as [->|Hin] by (rewrite Hv in Hw; set_solver); [done|].
  by apply (bst_unique _ _ _ _ _ Hb Hv) in Hin.
Qed.
End trees.

(** ** Pools *)
Section pools.
Context {CA : CharAbi} {OS : Os} {St : Type} {dom : elem -> Prop} {KO : KeyOrder dom}.

(** The invariant of a pool: a search tree that can still grow, an exact count. *)
Record pool_ok (hdr : mphdr) : Prop := PoolOk {
  po_bst : bst (dom := dom) (mp_root hdr);
  po_count : mp_count hdr = zlen (elems (mp_root hdr));
  po_cmp : forall y, y ∈ elems (mp_root hdr) -> el_cmp y = mp_cmp hdr }.

Definition pool_elems (hdr : mphdr) : list elem := elems (mp_root hdr).

Lemma wp_mem_get hdr str len :
  pool_ok hdr -> dom (temp_elem hdr str len) ->
  wp (mem_get hdr str len) (found_in (mp_root hdr) (temp_elem hdr str len)).
Proof. intros [? _ _] ?. by apply wp_kavl_find. Qed.

Lemma wpp_free_ d (s : St) h (Q : unit -> St -> hist -> Prop) :
  (forall h', Q tt s h') -> wpp (free_ d) s h Q.
Proof. intros H. unfold free_. wpp_step. wpp_step. wpp_step. apply H. Qed.

Lemma wpp_destroy_elem hdr e (s : St) h (Q : unit -> St -> hist -> Prop) :
  (forall h', Q tt s h') -> wpp (destroy_elem hdr e) s h Q.
Proof.
  intros H. unfold destroy_elem.
  wpp_step. apply wpp_mono with (fun _ s' _ => s' = s).
  { destruct (has_flag _ _); [by wpp_step|by apply wpp_free_]. }
  intros _ ? h1 ->. wpp_step. apply wpp_mono with (fun _ s' _ => s' = s).
  { destruct (has_flag _ _); [|by wpp_step]. destruct (el_extra e); [by apply wpp_free_|by wpp_step]. }
  intros _ ? h2 ->. wpp_step. wpp_step. wpp_step. apply H.
Qed.

(** [mem_delete]: an element that equals the key leaves the pool; without one
    nothing changes. *)
Definition deleted (hdr : mphdr) (x : elem) (hdr' : mphdr) : Prop :=
  (hdr' = hdr /\ forall e, e ∈ pool_elems hdr -> ko_cmp x e <> 0) \/
  (exists a e b, pool_elems hdr = a ++ e :: b /\ pool_elems hdr' = a ++ b /\ ko_cmp x e = 0 /\
    mp_flags hdr' = mp_flags hdr /\ mp_cmp hdr' = mp_cmp hdr).

Lemma wpp_mem_delete hdr str len (s : St) h (Q : mphdr -> St -> hist -> Prop) :
  pool_ok hdr -> dom (temp_elem hdr str len) -> height (mp_root hdr) <= KAVL_MAX_DEPTH ->
  (forall hdr' h', pool_ok hdr' -> height (mp_root hdr') <= height (mp_root hdr) ->
     deleted hdr (temp_elem hdr str len) hdr' -> Q hdr' s h') ->
  wpp (mem_delete hdr str len) s h Q.
Proof.
  intros [Hb Hc Hm] Hd Hh HQ. unfold mem_delete, kavl_erase. wpp_step. wpp_step.
  eapply wp_mono; [by apply wp_kavl_erase_at|]. intros [[e|] t'] He; simpl in He.
  - destruct He as (Hht & Hce & a & b & Hab & Hab'). wpp_step.
    apply wpp_destroy_elem. intros h'. wpp_step. apply HQ.
    + constructor; simpl.
      * by eapply bst_remove.
      * pose proof (elems_height _ _ Hh) as Hz. rewrite Hab, zlen_app, zlen_cons in *.
        pose proof (zlen_nonneg a). pose proof (zlen_nonneg b).
        rewrite Hab', zlen_app, Hc, usz_small; unfold KAVL_MAX_DEPTH in *; lia.
      * intros y. rewrite Hab'. intros. apply Hm. rewrite Hab. set_solver.
    + done.
    + right. by exists a, e, b.
  - destruct He as [-> Hn]. wpp_step. apply HQ; [by constructor|lia|by left].
Qed.

Lemma set_root_id hdr : set_root hdr (mp_root hdr) = hdr.
Proof. by destruct hdr. Qed.

(** Deleting an element of the pool by its own key removes that element. *)
Lemma wpp_delete_found hdr v (s : St) h (Q : mphdr -> St -> hist -> Prop) :
  pool_ok hdr -> v ∈ elems (mp_root hdr) ->
  height (mp_root hdr) <= KAVL_MAX_DEPTH ->
  (forall hdr' h' a b, pool_ok hdr' -> height (mp_root hdr') <= height (mp_root hdr) ->
     elems (mp_root hdr) = a ++ v :: b -> elems (mp_root hdr') = a ++ b ->
     mp_flags hdr' = mp_flags hdr -> mp_cmp hdr' = mp_cmp hdr -> Q hdr' s h') ->
  wpp (mem_delete hdr (el_data v) (el_len v)) s h Q.
Proof.
  intros Hpo Hv Hh HQ. pose proof (po_bst _ Hpo) as Hb.
  assert (Hdv : dom v) by by eapply bst_dom_elem.
  pose proof (po_cmp _ Hpo v Hv) as Hcm.
  destruct (ko_key v (temp_elem hdr (el_data v) (el_len v))) as [Hdt Hkt]; [done..|].
  apply wpp_mem_delete; [done..|].
  intros hdr1 h1 Hpo1 Hh1 [[-> Hno]|(a & v1 & b & Hab & Hab1 & Hc0 & Hfl & Hcp)].
  { exfalso. eapply Hno; [exact Hv|]. rewrite <- Hkt. by apply ko_refl. }
  assert (v = v1) as ->.
  { apply (bst_same (mp_root hdr)); [done|done| |by rewrite Hkt].
    unfold pool_elems in Hab. rewrite Hab. set_solver. }
  by eapply HQ.
Qed.

(** The loop of [mem_add]: [t] is the tree before the last insertion, [D] the
    elements deleted so far. *)
Lemma wpp_mem_add_loop k : forall hdr e v t D (s : St) h,
  bst (dom := dom) t -> dom e -> inserted t e (v, mp_root hdr) ->
  mp_count hdr = zlen (elems t) ->
  height t + 1 < KAVL_MAX_DEPTH -> el_cmp e = mp_cmp hdr ->
  (length (elems t) < k)%nat ->
  (forall w, w ∈ D -> dom w /\ ko_cmp e w = 0 /\ el_len e < el_len w) ->
  (forall w y, w ∈ D -> y ∈ elems t -> ko_cmp y w <> 0) ->
  (forall y, y ∈ elems t -> el_cmp y = mp_cmp hdr) ->
  wpp (mem_add_loop k hdr e v) s h (fun '(v', hdr') s' h' => s' = s /\
    mp_flags hdr' = mp_flags hdr /\ mp_cmp hdr' = mp_cmp hdr /\
    match v' with
    | Some v0 => v0 ∈ elems t /\ ko_cmp e v0 = 0 /\ el_len v0 <= el_len e /\ D = [] /\
        mp_root hdr' = t /\ mp_count hdr' = zlen (elems t)
    | None => bst (dom := dom) (mp_root hdr') /\ exists a b,
        elems (mp_root hdr') = a ++ e :: b /\
        a ++ b = filter (fun y => ko_cmp e y <> 0) (elems t) /\
        mp_count hdr' = zlen (a ++ b) /\
        (forall y, y ∈ elems t -> ko_cmp e y = 0 -> el_len e < el_len y)
    end).
Proof.
  induction k as [|k IH]; intros hdr e v t D s h Hb Hde Hin Hc Hh Hec Hk HD Hne Hcm; [lia|].
  cbn [mem_add_loop]. destruct v as [v|].
  - destruct Hin as (Hroot & Hv & Hcv). assert (Hdv : dom v) by by eapply bst_dom_elem.
    destruct (el_len e <? el_len v) eqn:El.
    + wpp_step. apply wpp_delete_found; rewrite ?Hroot; [by constructor; rewrite Hroot|done|lia|].
      intros hdr1 h1 a b [Hb1 Hc1 Hm1] Hh1 Hab Hab1 Hfl Hcp.
      wpp_step. wpp_step.
      eapply wp_mono; [apply wp_kavl_insert_at; [done|done|lia|lia]|]. intros [v1 t1] Hin1.
      assert (Hroot1 : mp_root (set_root hdr1 t1) = t1) by done.
      eapply wpp_mono; [apply (IH _ e v1 (mp_root hdr1) (v :: D))|]; rewrite ?Hroot1; try done.
      * lia.
      * simpl. by rewrite Hcp.
      * rewrite Hab, Hab1, !length_app in *. simpl in *. lia.
      * intros w. rewrite elem_of_cons. intros [->|?]; [|by apply HD]. repeat split; [done|done|lia].
      * intros w y. rewrite elem_of_cons, Hab1. intros [->|?] Hy.
        -- rewrite (ko_sym v y); [|done|].
           ++ intros Heq. eapply (bst_unique _ _ _ _ y Hb Hab); [done|lia].
           ++ apply (bst_dom_elem t); [done|]. rewrite Hab. set_solver.
        -- apply Hne; [done|]. rewrite Hab. set_solver.
      * intros [v' hdr'] s' h' (-> & Hf' & Hcp' & Hpost). split; [done|].
        simpl in Hf', Hcp'. split; [congruence|]. split; [congruence|].
        destruct v' as [v0|].
        { by destruct Hpost as (_ & _ & _ & ? & _). }
        destruct Hpost as (? & a' & b' & ? & Hfi & ? & Hle). split; [done|]. exists a', b'.
        split; [done|]. split; [|split; [done|]].
        -- rewrite Hfi, Hab, Hab1, !filter_app, filter_cons_False; [done|]. by intros [].
        -- intros y. rewrite Hab, elem_of_app, elem_of_cons.
           intros [?|[->|?]] ?; [apply Hle; [rewrite Hab1; set_solver|done]|lia|apply Hle; [rewrite Hab1; set_solver|done]].
    + wpp_step. repeat split; try done; [lia|].
      destruct D as [|w D]; [done|]. destruct (HD w) as (Hdw & Hcw & Hlw); [by left|].
      exfalso. apply (Hne w v); [by left|done|]. apply (ko_between e v w); done || lia.
  - destruct Hin as (Hht & a & b & Hab & Hab' & Ha & Hb'). wpp_step.
    split; [done|]. split; [done|]. split; [done|]. split.
    + eapply (bst_insert t e); [done|done|]. split; [done|]. by exists a, b.
    + exists a, b. split; [done|]. split; [|split].
      * rewrite Hab. symmetry. apply filter_all. intros y. rewrite elem_of_app.
        intros [Hy|Hy]; [specialize (Ha y Hy)|specialize (Hb' y Hy)]; lia.
      * by rewrite Hc, Hab.
      * intros y. rewrite Hab, elem_of_app.
        intros [Hy|Hy]; [specialize (Ha y Hy)|specialize (Hb' y Hy)]; lia.
Qed.

(** The element [mem_add] makes. *)
Definition new_elem (hdr : mphdr) (a : Z) (str : list Z) (len : Z) : elem :=
  Elem a len str (mp_cmp hdr) 0 None 0 None 0 0.

(** What [mem_add] does when [calloc] gives it the address [a]: the pool already
    holds an element that equals the key and is no longer, which it returns; or
    the new element takes the place of the elements it equals, all longer. *)
Definition added (hdr : mphdr) (e : elem) (v : option elem) (hdr' : mphdr) : Prop :=
  (exists v0, v = Some v0 /\ v0 ∈ pool_elems hdr /\ ko_cmp e v0 = 0 /\ el_len v0 <= el_len e /\
     hdr' = hdr) \/
  (v = Some e /\ pool_elems hdr' ≡ₚ e :: filter (fun y => ko_cmp e y <> 0) (pool_elems hdr) /\
     mp_flags hdr' = mp_flags hdr /\ mp_cmp hdr' = mp_cmp hdr /\
     forall y, y ∈ pool_elems hdr -> ko_cmp e y = 0 -> el_len e < el_len y).

Lemma wpp_mem_add hdr str len sz (s : St) h :
  pool_ok hdr -> dom (temp_elem hdr str len) -> height (mp_root hdr) + 1 < KAVL_MAX_DEPTH ->
  wpp (mem_add hdr str len sz) s h (fun '(v, hdr') s' h' => s' = s /\ pool_ok hdr' /\
    let a := rv (os_reply h (CMalloc sz)) in
    if a =? 0 then v = None /\ hdr' = hdr else added hdr (new_elem hdr a str len) v hdr').
Proof.
  intros Hpo Hd Hh. pose proof Hpo as [Hb Hc Hm]. unfold mem_add. wpp_step. wpp_step. cbv zeta.
  set (a := rv _). destruct (a =? 0) eqn:Ea; [by wpp_step|].
  change (Elem a len str (mp_cmp hdr) 0 None 0 None 0 0) with (new_elem hdr a str len).
  set (e := new_elem hdr a str len). destruct (ko_key (temp_elem hdr str len) e) as [Hde _]; [done..|].
  wpp_step. wpp_step. eapply wp_mono; [apply wp_kavl_insert_at; [done|done|lia|lia]|].
  intros [v t] Hin. wpp_step.
  eapply wpp_mono; [apply (wpp_mem_add_loop _ _ e v (mp_root hdr) [])|]; simpl; try done.
  { rewrite <- length_elems. destruct v; simpl in Hin; [destruct Hin as [-> _]; lia|].
    destruct Hin as (_ & a' & b' & -> & -> & _). rewrite !length_app. simpl. lia. }
  { intros w. set_solver. }
  { intros w y. set_solver. }
  intros [v' hdr'] s' h' (-> & Hf & Hcp & Hpost). destruct v' as [v0|].
  - destruct Hpost as (Hv & Hcv & Hl & _ & Hr & Hcnt). wpp_step.
    apply wpp_destroy_elem. intros h2. wpp_step.
    assert (hdr' = hdr) as ->.
    { destruct hdr, hdr'. simpl in *. congruence. }
    split; [done|]. split; [done|]. left. by exists v0.
  - destruct Hpost as (Hb' & a' & b' & Hel & Hfi & Hcnt & Hle). wpp_step.
    assert (Hlen : (length (a' ++ b') <= length (elems (mp_root hdr)))%nat)
      by (rewrite Hfi; apply length_filter).
    split; [done|]. split.
    + constructor; simpl.
      * done.
      * pose proof (elems_height (mp_root hdr) 63) as Hz. unfold KAVL_MAX_DEPTH in Hh.
        rewrite Hel, Hcnt, usz_small; unfold zlen in *; rewrite !length_app in *; simpl; lia.
      * intros y Hy. rewrite Hcp. rewrite Hel, elem_of_app, elem_of_cons in Hy.
        destruct Hy as [Hy|[->|Hy]]; [|done|];
          (assert (y ∈ a' ++ b') as Hy' by set_solver; rewrite Hfi, list_elem_of_filter in Hy';
           apply Hm, Hy').
    + right. unfold pool_elems. simpl. rewrite Hel, <- Hfi. repeat split; try done.
      by rewrite Permutation_middle.
Qed.
End pools.
