(* ===== verification/MpoolOrd.v ===== *)
(** The three key comparisons of mpool.c are key orders: bytes, bit prefixes, and
    host names without characters below the dot. *)
From stdpp Require Import sorting sets.
From S2P Require Import Prelude CMem Sys Mpool MpoolFacts.
#[local] Open Scope Z_scope.

(** ** Bit prefixes (CMP_BITS) *)

(** The [w] bits of [v], the highest first. *)
Fixpoint bits (w : nat) (v : Z) : list Z :=
  match w with O => [] | S w => v / 2 ^ Z.of_nat w :: bits w (v mod 2 ^ Z.of_nat w) end.
Definition data_bits (d : list Z) : list Z := concat (map (bits 8) d).
Definition key_bits (p : elem) : list Z := take (Z.to_nat (el_len p)) (data_bits (el_data p)).

Lemma length_bits w v : length (bits w v) = w.
Proof. revert v. induction w; intros; simpl; auto. Qed.
Lemma length_data_bits d : length (data_bits d) = (8 * length d)%nat.
Proof.
  induction d as [|b d IH]; [done|]. unfold data_bits in *. cbn [map concat].
  rewrite length_app, length_bits, IH. simpl. lia.
Qed.

Lemma bits_cmp w v u :
  0 <= v < 2 ^ Z.of_nat w -> 0 <= u < 2 ^ Z.of_nat w ->
  list_cmp (bits w v) (bits w u) = if v <? u then -1 else if u <? v then 1 else 0.
Proof.
  revert v u. induction w as [|w IH]; intros v u Hv Hu.
  { simpl in *. repeat case_match; lia. }
  rewrite Nat2Z.inj_succ, Z.pow_succ_r in Hv, Hu by lia. cbn [bits list_cmp].
  set (m := 2 ^ Z.of_nat w) in *. assert (Hm : 0 < m) by (apply Z.pow_pos_nonneg; lia).
  pose proof (Z_div_mod_eq_full v m) as Ev. pose proof (Z.mod_pos_bound v m Hm).
  pose proof (Z_div_mod_eq_full u m) as Eu. pose proof (Z.mod_pos_bound u m Hm).
  rewrite IH by done.
  destruct (v / m <? u / m) eqn:E1; [|destruct (u / m <? v / m) eqn:E2].
  - assert (m * (v / m + 1) <= m * (u / m)) by (apply Z.mul_le_mono_nonneg_l; lia).
    destruct (v <? u) eqn:?; [done|lia].
  - assert (m * (u / m + 1) <= m * (v / m)) by (apply Z.mul_le_mono_nonneg_l; lia).
    destruct (v <? u) eqn:?; [lia|]. destruct (u <? v) eqn:?; [done|lia].
  - assert (v / m = u / m) as E by lia. rewrite E in Ev.
    destruct (v <? u) eqn:?, (v mod m <? u mod m) eqn:?; try lia.
    destruct (u <? v) eqn:?, (u mod m <? v mod m) eqn:?; lia.
Qed.

Lemma take_bits n m v : take n (bits (n + m) v) = bits n (v / 2 ^ Z.of_nat m).
Proof.
  revert v. induction n as [|n IH]; intros v; [done|]. cbn [Nat.add bits take].
  assert (0 < 2 ^ Z.of_nat n) by (apply Z.pow_pos_nonneg; lia).
  assert (0 < 2 ^ Z.of_nat m) by (apply Z.pow_pos_nonneg; lia).
  rewrite IH, Nat2Z.inj_add, Z.pow_add_r by lia.
  set (N := 2 ^ Z.of_nat n) in *. set (M := 2 ^ Z.of_nat m) in *. f_equal.
  - by rewrite Z.mul_comm, Z.div_div by lia.
  - f_equal. rewrite (Z.mul_comm N M), Z.rem_mul_r by lia.
    rewrite (Z.add_comm (v mod M)), (Z.mul_comm M), Z.div_add_l by lia.
    rewrite (Z.div_small (v mod M)) by (apply Z.mod_pos_bound; lia). lia.
Qed.

Lemma data_bits_cmp a b :
  length a = length b -> bytes_ok a -> bytes_ok b -> list_cmp (data_bits a) (data_bits b) = list_cmp a b.
Proof.
  unfold bytes_ok, is_byte. revert b. induction a as [|x a IH]; intros [|y b] Hl Ha Hb; try done.
  unfold data_bits. cbn [map concat list_cmp]. inversion_clear Ha. inversion_clear Hb.
  rewrite list_cmp_app by (by rewrite !length_bits).
  rewrite bits_cmp by (change (2 ^ Z.of_nat 8) with 256; lia).
  destruct (x <? y); [done|]. destruct (y <? x); [done|]. simpl.
  apply IH; [by injection Hl|done..].
Qed.

Lemma take_data_bits k df d b :
  d !! k = Some b -> (df <= 8)%nat ->
  take (8 * k + df) (data_bits d) = data_bits (take k d) ++ bits df (b / 2 ^ Z.of_nat (8 - df)).
Proof.
  revert d. induction k as [|k IH]; intros [|x d] Hk Hdf; try done.
  - injection Hk as ->. unfold data_bits. cbn [map concat].
    rewrite take_app_le by (rewrite length_bits; lia).
    pose proof (take_bits df (8 - df) b) as E. replace (df + (8 - df))%nat with 8%nat in E by lia.
    exact E.
  - unfold data_bits in *. cbn [map concat take]. simpl in Hk. rewrite take_app_ge by (rewrite length_bits; lia).
    rewrite length_bits. replace (8 * S k + df - 8)%nat with (8 * k + df)%nat by lia.
    rewrite IH by done. by rewrite (assoc_L (++)).
Qed.
Lemma take_data_bits_0 k d : (k <= length d)%nat -> take (8 * k) (data_bits d) = data_bits (take k d).
Proof.
  revert d. induction k as [|k IH]; intros [|x d] Hk; simpl in Hk; try done; try lia.
  unfold data_bits in *. cbn [map concat take]. rewrite take_app_ge by (rewrite length_bits; lia).
  rewrite length_bits. replace (8 * S k - 8)%nat with (8 * k)%nat by lia. rewrite IH by lia. done.
Qed.

Section bits.
Context {CA : CharAbi}.

(** The shifted bytes [bit_cmp] compares order as the bits do, whatever the sign
    of plain [char]. *)
Lemma shift_cmp b1 b2 k :
  is_byte b1 -> is_byte b2 -> 1 <= k <= 7 ->
  (let c1 := u8 (Z.shiftr (schar b1) k) in let c2 := u8 (Z.shiftr (schar b2) k) in
   if negb (c1 =? c2) then (if c1 <? c2 then -1 else 1) else 0) =
  if b1 / 2 ^ k <? b2 / 2 ^ k then -1 else if b2 / 2 ^ k <? b1 / 2 ^ k then 1 else 0.
Proof.
  unfold is_byte, schar. intros H1 H2 Hk. destruct char_signed; simpl.
  - assert (E : forall b, 0 <= b < 256 ->
      u8 (Z.shiftr (if 128 <=? b then b - 256 else b) k)
      = b / 2 ^ k + (if 128 <=? b then 256 - 2 ^ (8 - k) else 0)).
    { intros b Hb. rewrite Z.shiftr_div_pow2 by lia. unfold u8. change (2 ^ 8) with 256.
      assert (k = 1 \/ k = 2 \/ k = 3 \/ k = 4 \/ k = 5 \/ k = 6 \/ k = 7) as Hk' by lia.
      destruct (128 <=? b) eqn:?; destruct_or! Hk'; subst k; simpl (2 ^ _);
        Z.to_euclidean_division_equations; lia. }
    rewrite !E by done.
    assert (k = 1 \/ k = 2 \/ k = 3 \/ k = 4 \/ k = 5 \/ k = 6 \/ k = 7) as Hk' by lia.
    destruct (128 <=? b1) eqn:?, (128 <=? b2) eqn:?; destruct_or! Hk'; subst k; simpl (2 ^ _);
      repeat case_match; Z.to_euclidean_division_equations; lia.
  - assert (E : forall b, 0 <= b < 256 -> u8 (Z.shiftr b k) = b / 2 ^ k).
    { intros b Hb. rewrite Z.shiftr_div_pow2 by lia. apply u8_small.
      assert (1 <= 2 ^ k) by (apply Z.lt_succ_r; pose proof (Z.pow_pos_nonneg 2 k); lia).
      split; [apply Z.div_pos; lia|apply Z.div_lt_upper_bound; nia]. }
    rewrite !E by done. repeat case_match; lia.
Qed.

Definition dom_bits (p : elem) : Prop :=
  el_cmp p = CMP_BITS /\ 0 <= el_len p <= 8 * zlen (el_data p) /\ bytes_ok (el_data p).

Lemma length_key_bits p : dom_bits p -> Z.of_nat (length (key_bits p)) = el_len p.
Proof.
  intros (_ & Hl & _). unfold key_bits. rewrite length_take, length_data_bits.
  unfold zlen in Hl. lia.
Qed.

Lemma bit_cmp_ok p q : dom_bits p -> dom_bits q -> bit_cmp p q = Ok (list_cmp (key_bits p) (key_bits q)).
Proof.
  intros Hp Hq. pose proof Hp as (_ & Hlp & Hbp). pose proof Hq as (_ & Hlq & Hbq).
  unfold bit_cmp. cbv zeta. set (l := if el_len q <? el_len p then el_len q else el_len p).
  assert (Hl : 0 <= l /\ (l = el_len p \/ l = el_len q) /\ l <= el_len p /\ l <= el_len q)
    by (unfold l; destruct (_ <? _) eqn:?; lia).
  clearbody l. destruct Hl as (H0 & Hl & Hle1 & Hle2).
  rewrite Z.rem_mod_nonneg, Z.quot_div_nonneg by lia.
  pose proof (Z_div_mod_eq_full l 8) as El. pose proof (Z.mod_pos_bound l 8 ltac:(lia)).
  set (k := l / 8) in *. set (df := l mod 8) in *. clearbody k df.
  assert (0 <= k) by lia. unfold zlen in *.
  assert (Hk : forall x, dom_bits x -> l <= el_len x ->
    take (Z.to_nat l) (key_bits x) = take (8 * Z.to_nat k + Z.to_nat df) (data_bits (el_data x))).
  { intros x (_ & Hx & _) Hlx. unfold key_bits. rewrite take_take. f_equal. lia. }
  rewrite (list_cmp_take (Z.to_nat l)) by
    (pose proof (length_key_bits p Hp); pose proof (length_key_bits q Hq); lia).
  rewrite !Hk by done. unfold memcmp.
  rewrite !rd_list_ok by (unfold zlen; lia). unfold slice. rewrite !drop_0. cbn [mbind res_bind].
  set (A := take (Z.to_nat k) (el_data p)). set (B := take (Z.to_nat k) (el_data q)).
  assert (HAB : length A = length B) by (unfold A, B; rewrite !length_take; lia).
  assert (bytes_ok A /\ bytes_ok B) as [HA HB] by (split; by apply bytes_ok_take).
  unfold truthy. destruct (df =? 0) eqn:Edf.
  - rewrite negb_involutive, orb_true_r. replace (Z.to_nat df) with 0%nat by lia.
    rewrite Nat.add_0_r, !take_data_bits_0 by lia. fold A B. by rewrite data_bits_cmp.
  - rewrite negb_involutive, orb_false_r.
    destruct (lookup_lt_is_Some_2 (el_data p) (Z.to_nat k)) as [b1 E1]; [lia|].
    destruct (lookup_lt_is_Some_2 (el_data q) (Z.to_nat k)) as [b2 E2]; [lia|].
    rewrite (take_data_bits _ _ _ b1), (take_data_bits _ _ _ b2) by (done || lia). fold A B.
    rewrite list_cmp_app by (rewrite !length_data_bits; lia). rewrite data_bits_cmp by done.
    destruct (list_cmp A B =? 0) eqn:Ec; simpl; [|done].
    unfold rd. destruct (k <? 0) eqn:?; [lia|]. rewrite E1, E2. cbn [mbind res_bind res_of_option].
    f_equal. assert (is_byte b1) by (by eapply Forall_lookup_1 in E1).
    assert (is_byte b2) by (by eapply Forall_lookup_1 in E2).
    assert (Hdiv : forall b, is_byte b -> 0 <= b / 2 ^ (8 - df) < 2 ^ df).
    { intros b Hb. unfold is_byte in Hb. assert (0 < 2 ^ (8 - df)) by (apply Z.pow_pos_nonneg; lia).
      split; [apply Z.div_pos; lia|]. apply Z.div_lt_upper_bound; [done|].
      rewrite <- Z.pow_add_r by lia. replace (8 - df + df) with 8 by lia. change (2 ^ 8) with 256. lia. }
    replace (Z.of_nat (8 - Z.to_nat df)) with (8 - df) by lia.
    rewrite bits_cmp by (rewrite Z2Nat.id by lia; by apply Hdiv).
    apply shift_cmp; [done|done|lia].
Qed.

#[global] Program Instance bits_order : KeyOrder dom_bits := {
  ko_cmp p q := list_cmp (key_bits p) (key_bits q) }.
Next Obligation.
  intros p q Hp Hq. unfold scmp. rewrite (proj2 (Z.eqb_eq _ _) (proj1 Hp)). by apply bit_cmp_ok.
Qed.
Next Obligation. intros. apply list_cmp_range. Qed.
Next Obligation. intros. apply list_cmp_refl. Qed.
Next Obligation. intros. apply list_cmp_sym. Qed.
Next Obligation. intros. by eapply list_cmp_trans. Qed.
Next Obligation.
  simpl. intros p q r Hp Hq Hr Hpq Hpr Hqp Hpr'. apply list_cmp_0 in Hpq, Hpr.
  pose proof (length_key_bits p Hp). pose proof (length_key_bits q Hq). pose proof (length_key_bits r Hr).
  apply list_cmp_0. left. trans (key_bits p).
  - destruct Hpq as [Hpq|?]; [|done]. pose proof (prefix_length _ _ Hpq).
    rewrite (prefix_length_eq _ _ Hpq) by lia. done.
  - destruct Hpr as [?|Hpr]; [done|]. apply prefix_length in Hpr. lia.
Qed.
Next Obligation.
  simpl. unfold dom_bits, key_bits. intros p q -> -> ->. done.
Qed.
End bits.

(** ** Byte strings (CMP_BYTES): by length, then lexicographically *)
Section bytes.
Context {CA : CharAbi}.

Definition dom_bytes (p : elem) : Prop :=
  el_cmp p = CMP_BYTES /\ 0 <= el_len p <= zlen (el_data p).
Definition key_bytes (p : elem) : list Z := slice (el_data p) 0 (el_len p).
Definition bytes_cmp (p q : elem) : Z :=
  if el_len p =? el_len q then list_cmp (key_bytes p) (key_bytes q)
  else if el_len p <? el_len q then -1 else 1.

#[global] Program Instance bytes_order : KeyOrder dom_bytes := { ko_cmp := bytes_cmp }.
Next Obligation.
  intros p q (Hc & Hp) (_ & Hq). unfold scmp. rewrite Hc. simpl. unfold byte_cmp, bytes_cmp.
  destruct (el_len p =? el_len q) eqn:E; simpl; [|done]. unfold memcmp.
  rewrite !rd_list_ok by lia. cbn [mbind res_bind]. unfold key_bytes.
  by replace (el_len q) with (el_len p) by lia.
Qed.
Next Obligation. intros. unfold bytes_cmp. repeat case_match; auto. apply list_cmp_range. Qed.
Next Obligation. intros. unfold bytes_cmp. rewrite Z.eqb_refl. apply list_cmp_refl. Qed.
Next Obligation.
  intros p q _ _. unfold bytes_cmp. rewrite (Z.eqb_sym (el_len q)), list_cmp_sym.
  destruct (el_len p =? el_len q) eqn:?; [done|]. repeat case_match; lia.
Qed.
Next Obligation.
  intros p q r _ _ _. unfold bytes_cmp.
  destruct (el_len p =? el_len q) eqn:?, (el_len q =? el_len r) eqn:?, (el_len p =? el_len r) eqn:?;
    repeat case_match; try lia. apply list_cmp_trans.
Qed.
Next Obligation.
  simpl. intros p q r _ _ _. unfold bytes_cmp. repeat case_match; lia.
Qed.
Next Obligation. simpl. unfold dom_bytes, bytes_cmp, key_bytes. by intros p q -> -> ->. Qed.
End bytes.

(** ** Host names (CMP_HOST): from the end, a name equals its parent domains *)

(** The comparison on reversed names; [None] of either ends first. *)
Fixpoint hcmp (a b : list Z) : Z :=
  match a, b with
  | [], [] => 0
  | [], y :: _ => if y =? 46 then 0 else -1
  | x :: _, [] => if x =? 46 then 0 else 1
  | x :: a, y :: b => if x <? y then -1 else if y <? x then 1 else hcmp a b
  end.

Lemma hcmp_range a b : hcmp a b = -1 \/ hcmp a b = 0 \/ hcmp a b = 1.
Proof. revert b. induction a as [|x a IH]; intros [|y b]; simpl; repeat case_match; auto. Qed.
Lemma hcmp_refl a : hcmp a a = 0.
Proof. induction a as [|x a IH]; simpl; [done|]. by rewrite Z.ltb_irrefl. Qed.
Lemma hcmp_sym a b : hcmp b a = - hcmp a b.
Proof.
  revert b. induction a as [|x a IH]; intros [|y b]; simpl; try (repeat case_match; done).
  destruct (x <? y) eqn:?, (y <? x) eqn:?; try lia. apply IH.
Qed.
(** Transitive only without characters that sort before the dot. *)
Lemma hcmp_trans a b c :
  Forall (Z.le 46) a -> Forall (Z.le 46) b -> Forall (Z.le 46) c ->
  hcmp a b < 0 -> hcmp b c < 0 -> hcmp a c < 0.
Proof.
  intros Ha. revert b c. induction Ha as [|x a Hx Ha IH]; intros b c Hb Hc;
    destruct Hb as [|y b Hy Hb], Hc as [|z c Hz Hc]; simpl; try (repeat case_match; lia).
  destruct (x <? y) eqn:?, (y <? x) eqn:?, (y <? z) eqn:?, (z <? y) eqn:?,
    (x <? z) eqn:?, (z <? x) eqn:?; try lia. by apply IH.
Qed.
Lemma hcmp_between a b c :
  hcmp a b = 0 -> hcmp a c = 0 -> (length b <= length a)%nat -> (length a < length c)%nat ->
  hcmp b c = 0.
Proof.
  revert b c. induction a as [|x a IH]; intros [|y b] [|z c]; simpl; try (done || lia).
  - repeat case_match; lia.
  - destruct (x <? y) eqn:?, (y <? x) eqn:?, (x <? z) eqn:?, (z <? x) eqn:?; try lia.
    destruct (y <? z) eqn:?, (z <? y) eqn:?; try lia. intros. apply IH; [done|done|lia|lia].
Qed.

Section host.
Context {CA : CharAbi}.

(** The first [n] characters of a name, last first. *)
Definition rkey (d : list Z) (n : nat) : list Z := reverse (schar <$> take n d).

Lemma rkey_S d n b : d !! n = Some b -> rkey d (S n) = schar b :: rkey d n.
Proof.
  intros H. unfold rkey. rewrite (take_S_r _ _ b) by done.
  by rewrite fmap_app, reverse_app.
Qed.
Lemma length_rkey d n : (n <= length d)%nat -> length (rkey d n) = n.
Proof. intros. unfold rkey. rewrite length_reverse, length_fmap, length_take. lia. Qed.

Definition dom_host (p : elem) : Prop :=
  el_cmp p = CMP_HOST /\ 0 <= el_len p <= zlen (el_data p) /\ bytes_ok (el_data p) /\
  Forall (Z.le 46) (rkey (el_data p) (Z.to_nat (el_len p))).
Definition host_key (p : elem) : list Z := rkey (el_data p) (Z.to_nat (el_len p)).

Lemma schar_inj a b : is_byte a -> is_byte b -> schar a = schar b -> a = b.
Proof. unfold is_byte, schar. destruct char_signed; simpl; repeat case_match; lia. Qed.

(** The rest of [host_cmp] after its loop. *)
Definition host_tail (p q : elem) (k pd qd : Z) : res Z :=
  if pd =? qd then Ok 0 else
  c ← (if qd <? pd then rd (el_data p) (pd - k - 1) else rd (el_data q) (qd - k - 1));
  if c =? 46 then Ok 0 else Ok (if qd <? pd then 1 else -1).

Lemma lookup_byte d i : bytes_ok d -> (i < length d)%nat -> exists b, d !! i = Some b /\ is_byte b.
Proof.
  intros Hb Hi. destruct (lookup_lt_is_Some_2 d i Hi) as [b E]. exists b. split; [done|].
  by eapply Forall_lookup_1 in E.
Qed.
Lemma rd_nat d (i : nat) b : d !! i = Some b -> rd d (Z.of_nat i) = Ok b.
Proof. intros E. unfold rd. destruct (_ <? 0) eqn:?; [lia|]. by rewrite Nat2Z.id, E. Qed.

Lemma schar_46 b : is_byte b -> (schar b =? 46) = (b =? 46).
Proof. unfold is_byte, schar. destruct char_signed; simpl; repeat case_match; lia. Qed.

Lemma host_loop_ok p q (m n : nat) :
  bytes_ok (el_data p) -> bytes_ok (el_data q) ->
  (m <= length (el_data p))%nat -> (n <= length (el_data q))%nat ->
  (o ← host_loop (Nat.min m n) p q (Z.of_nat m) (Z.of_nat n);
   match o with Some c => Ok c | None => host_tail p q (Z.of_nat (Nat.min m n)) (Z.of_nat m) (Z.of_nat n) end)
  = Ok (hcmp (rkey (el_data p) m) (rkey (el_data q) n)).
Proof.
  intros Hp Hq. revert n. induction m as [|m IH]; intros n Hm Hn.
  { simpl. unfold host_tail. destruct n as [|n]; [done|].
    destruct (lookup_byte (el_data q) n) as (b & E & Hb); [done|lia|].
    destruct (Z.of_nat 0 =? Z.of_nat (S n)) eqn:?; [lia|].
    destruct (Z.of_nat (S n) <? Z.of_nat 0) eqn:?; [lia|].
    replace (Z.of_nat (S n) - Z.of_nat 0 - 1) with (Z.of_nat n) by lia.
    rewrite (rd_nat _ _ _ E), (rkey_S _ _ _ E). simpl. rewrite schar_46 by done. by case_match. }
  destruct (lookup_byte (el_data p) m) as (a & Ea & Ha); [done|lia|].
  destruct n as [|n].
  { simpl. unfold host_tail.
    destruct (Z.of_nat (S m) =? Z.of_nat 0) eqn:?; [lia|].
    destruct (Z.of_nat 0 <? Z.of_nat (S m)) eqn:?; [|lia].
    replace (Z.of_nat (S m) - Z.of_nat 0 - 1) with (Z.of_nat m) by lia.
    rewrite (rd_nat _ _ _ Ea), (rkey_S _ _ _ Ea). simpl. rewrite schar_46 by done. by case_match. }
  destruct (lookup_byte (el_data q) n) as (b & Eb & Hb); [done|lia|].
  rewrite (rkey_S _ _ _ Ea), (rkey_S _ _ _ Eb). simpl Nat.min. cbn [host_loop hcmp].
  replace (Z.of_nat (S m) - 1) with (Z.of_nat m) by lia.
  replace (Z.of_nat (S n) - 1) with (Z.of_nat n) by lia.
  rewrite (rd_nat _ _ _ Ea), (rd_nat _ _ _ Eb). cbn [mbind res_bind].
  destruct (a =? b) eqn:Eab; simpl negb; cbv iota.
  - assert (a = b) as -> by lia. rewrite Z.ltb_irrefl.
    rewrite <- IH by lia. destruct (host_loop _ _ _ _ _) as [[c|]| |]; simpl; try done.
    unfold host_tail.
    destruct (Z.of_nat (S m) =? Z.of_nat (S n)) eqn:?, (Z.of_nat m =? Z.of_nat n) eqn:?; try done; try lia.
    destruct (Z.of_nat (S n) <? Z.of_nat (S m)) eqn:?, (Z.of_nat n <? Z.of_nat m) eqn:?; try lia;
      rewrite !Nat2Z.inj_succ, <- !Z.add_1_r.
    + by replace (Z.of_nat m + 1 - (Z.of_nat (Nat.min m n) + 1) - 1) with (Z.of_nat m - Z.of_nat (Nat.min m n) - 1) by lia.
    + by replace (Z.of_nat n + 1 - (Z.of_nat (Nat.min m n) + 1) - 1) with (Z.of_nat n - Z.of_nat (Nat.min m n) - 1) by lia.
  - cbn [mbind res_bind]. assert (schar a <> schar b) by (intros E%schar_inj; [lia|done..]).
    destruct (schar a <? schar b) eqn:?, (schar b <? schar a) eqn:?; try done; lia.
Qed.

Lemma host_cmp_ok p q : dom_host p -> dom_host q -> host_cmp p q = Ok (hcmp (host_key p) (host_key q)).
Proof.
  intros (_ & Hlp & Hbp & _) (_ & Hlq & Hbq & _). unfold host_key, zlen in *.
  rewrite <- host_loop_ok by (done || lia). unfold host_cmp. cbv zeta.
  set (l := if el_len q <? el_len p then el_len q else el_len p).
  assert (l = Z.of_nat (Nat.min (Z.to_nat (el_len p)) (Z.to_nat (el_len q)))) as Hl
    by (unfold l; destruct (_ <? _) eqn:?; lia).
  rewrite Hl, Nat2Z.id, !Z2Nat.id by lia.
  destruct (host_loop _ _ _ _ _) as [[c|]| |]; [done| |done..]. cbn [mbind res_bind].
  unfold host_tail. destruct (el_len p =? el_len q); [done|].
  rewrite Z.max_l by lia. done.
Qed.

#[global] Program Instance host_order : KeyOrder dom_host := {
  ko_cmp p q := hcmp (host_key p) (host_key q) }.
Next Obligation.
  intros p q Hp Hq. unfold scmp. rewrite (proj1 Hp). by apply host_cmp_ok.
Qed.
Next Obligation. intros. apply hcmp_range. Qed.
Next Obligation. intros. apply hcmp_refl. Qed.
Next Obligation. intros. apply hcmp_sym. Qed.
Next Obligation. intros p q r (_ & _ & _ & ?) (_ & _ & _ & ?) (_ & _ & _ & ?). by apply hcmp_trans. Qed.
Next Obligation.
  simpl. unfold host_key, zlen. intros p q r (_ & ? & _) (_ & ? & _) (_ & ? & _) ? ? ? ?. unfold zlen in *.
  apply (hcmp_between (rkey (el_data p) (Z.to_nat (el_len p)))); try done; rewrite !length_rkey; lia.
Qed.
Next Obligation. simpl. unfold dom_host, host_key. by intros p q -> -> ->. Qed.
End host.
