(* ===== verification/MpoolProps.v ===== *)
(** Properties of the key pools of mpool.c. *)
From stdpp Require Import sorting sets.
From S2P Require Import Prelude CMem Sys Mpool MpoolFacts MpoolOrd.
From S2P Require Import PktHttp.
From Stdlib Require Import String.
#[local] Open Scope Z_scope.
#[local] Open Scope list_scope.
#[local] Abbreviation length := (@Datatypes.length _).

(** ** An address pool built by [mem_add] *)
Section ipset.
Context {CA : CharAbi} {OS : Os} {St : Type}.

(** Adding prefixes, each a byte string and a length in bits, one after the other. *)
Fixpoint add_all (hdr : mphdr) (ps : list (list Z * Z)) : Prog St mphdr :=
  match ps with
  | [] => mret hdr
  | (d, len) :: ps => '(_, hdr) ← mem_add hdr d len 96; add_all hdr ps
  end.

Definition prefix_ok (p : list Z * Z) : Prop := 0 <= snd p <= 8 * zlen (fst p) /\ bytes_ok (fst p).
Definition prefix_bits (p : list Z * Z) : list Z := take (Z.to_nat (snd p)) (data_bits (fst p)).

(** The prefixes of a pool cover a string of bits. *)
Definition covers (hdr : mphdr) (x : list Z) : Prop :=
  exists y, y ∈ pool_elems hdr /\ key_bits y `prefix_of` x.

Lemma covers_added hdr e v hdr' x :
  pool_ok (dom := dom_bits) hdr -> dom_bits e -> added (dom := dom_bits) hdr e v hdr' ->
  covers hdr' x <-> covers hdr x \/ key_bits e `prefix_of` x.
Proof.
  intros Hpo He [(v0 & _ & Hv & Hc & Hl & ->)|(_ & Hperm & _ & _ & Hlong)].
  - assert (Hpre : key_bits v0 `prefix_of` key_bits e).
    { assert (dom_bits v0) by (eapply bst_dom_elem; [apply Hpo|done]).
      pose proof (length_key_bits v0 ltac:(done)). pose proof (length_key_bits e He).
      simpl in Hc. apply list_cmp_0 in Hc as [Hc|?]; [|done].
      rewrite (prefix_length_eq _ _ Hc) by lia. done. }
    split; [by left|]. intros [?|?]; [done|]. exists v0. split; [done|]. by trans (key_bits e).
  - unfold covers. setoid_rewrite Hperm. setoid_rewrite elem_of_cons.
    setoid_rewrite list_elem_of_filter. split.
    + intros (y & [->|[_ Hy]] & Hpre); [by right|left; by exists y].
    + intros [(y & Hy & Hpre)|Hpre]; [|by exists e; split; [left|]].
      destruct (decide (ko_cmp (dom := dom_bits) e y = 0)) as [Hc|Hc]; [|exists y; split; [by right; split|done]].
      exists e. split; [by left|]. pose proof (Hlong y Hy Hc).
      assert (dom_bits y) by (eapply bst_dom_elem; [apply Hpo|done]).
      pose proof (length_key_bits y ltac:(done)). pose proof (length_key_bits e He).
      simpl in Hc. apply list_cmp_0 in Hc as [Hc|Hc].
      * by trans (key_bits y).
      * apply prefix_length in Hc. lia.
Qed.

Lemma added_length hdr e v hdr' :
  added (dom := dom_bits) hdr e v hdr' -> zlen (pool_elems hdr') <= zlen (pool_elems hdr) + 1.
Proof.
  intros [(v0 & _ & _ & _ & _ & ->)|(_ & Hperm & _)]; [lia|].
  unfold zlen. rewrite Hperm. cbn [Datatypes.length].
  match goal with |- context [filter ?P ?l] => pose proof (length_filter P l) end. lia.
Qed.

Lemma added_elems hdr e v hdr' y :
  added (dom := dom_bits) hdr e v hdr' -> y ∈ pool_elems hdr' -> y ∈ pool_elems hdr \/ y = e.
Proof.
  intros [(v0 & _ & _ & _ & _ & ->)|(_ & Hperm & _)] Hy; [by left|].
  rewrite Hperm, elem_of_cons, list_elem_of_filter in Hy. destruct Hy as [?|[_ ?]]; auto.
Qed.

Lemma wpp_add_all ps hdr (s : St) h :
  (forall h n, rv (os_reply h (CMalloc n)) <> 0) ->
  Forall prefix_ok ps -> pool_ok (dom := dom_bits) hdr -> mp_cmp hdr = CMP_BITS ->
  zlen (pool_elems hdr) + zlen ps < KAVL_MAX_DEPTH ->
  wpp (add_all hdr ps) s h (fun hdr' s' h' => s' = s /\ pool_ok (dom := dom_bits) hdr' /\
    mp_cmp hdr' = CMP_BITS /\
    (forall y, y ∈ pool_elems hdr' -> y ∈ pool_elems hdr \/ exists p, p ∈ ps /\ el_len y = snd p) /\
    forall x, covers hdr' x <-> covers hdr x \/ exists p, p ∈ ps /\ prefix_bits p `prefix_of` x).
Proof.
  intros Hm Hps. revert hdr s h. induction Hps as [|[d len] ps [Hlen Hd] Hps IH]; intros hdr s h Hpo Hc Hz.
  { cbn [add_all]. wpp_step. split; [done|]. split; [done|]. split; [done|]. split; [by left|]. intros x.
    split; [by left|]. intros [?|(p & Hp & _)]; [done|]. by inversion Hp. }
  cbn [add_all]. wpp_step. rewrite zlen_cons in Hz. pose proof (zlen_nonneg ps).
  pose proof (height_elems (mp_root hdr)) as Hh. fold (pool_elems hdr) in Hh.
  assert (Hdom : dom_bits (temp_elem hdr d len)) by done.
  eapply wpp_mono; [apply (wpp_mem_add (dom := dom_bits)); [done|done|lia]|]. cbv beta.
  intros [v hdr1] s1 h1 (-> & Hpo1 & Hadd). cbv zeta in Hadd.
  destruct (rv _ =? 0) eqn:E; [apply Z.eqb_eq in E; by apply Hm in E|].
  set (e := new_elem hdr _ d len) in *.
  assert (He : dom_bits e) by done.
  assert (Hcmp1 : mp_cmp hdr1 = CMP_BITS)
    by (destruct Hadd as [(? & ? & ? & ? & ? & ->)|(_ & _ & _ & -> & _)]; done).
  pose proof (added_length _ _ _ _ Hadd).
  eapply wpp_mono; [apply IH; [done|done|lia]|]. intros hdr2 s2 h2 (-> & Hpo2 & Hc2 & Hel & Hcov).
  split; [done|]. split; [done|]. split; [done|]. split.
  { intros y [Hy|(p & Hp & ?)]%Hel; [|right; exists p; split; [by right|done]].
    apply (added_elems _ _ _ _ _ Hadd) in Hy as [?| ->]; [by left|].
    right. exists (d, len). split; [by left|done]. }
  intros x. split.
  - rewrite Hcov, (covers_added _ _ _ _ _ Hpo He Hadd). change (key_bits e) with (prefix_bits (d, len)).
    intros [[?|?]|(p & Hp & Hpre)]; [by left|right; exists (d, len); split; [by left|done]|].
    right. exists p. split; [by right|done].
  - rewrite Hcov, (covers_added _ _ _ _ _ Hpo He Hadd). change (key_bits e) with (prefix_bits (d, len)).
    intros [?|(p & [->|Hp]%elem_of_cons & Hpre)]; [auto|auto|]. right. by exists p.
Qed.

Lemma wp_mem_get_covers hdr ip :
  pool_ok (dom := dom_bits) hdr -> mp_cmp hdr = CMP_BITS -> bytes_ok ip ->
  (forall y, y ∈ pool_elems hdr -> el_len y <= 8 * zlen ip) ->
  wp (mem_get hdr ip (8 * zlen ip)) (fun o => is_Some o <-> covers hdr (data_bits ip)).
Proof.
  intros Hpo Hc Hb Hle. pose proof (zlen_nonneg ip).
  assert (Hd : dom_bits (temp_elem hdr ip (8 * zlen ip))) by (unfold dom_bits; simpl; repeat split; done || lia).
  set (x := temp_elem hdr ip (8 * zlen ip)) in *.
  assert (Hx : key_bits x = data_bits ip).
  { unfold key_bits, x, zlen. simpl. rewrite take_ge; [done|]. rewrite length_data_bits. lia. }
  assert (Hiff : forall y, y ∈ pool_elems hdr -> ko_cmp (dom := dom_bits) x y = 0 <-> key_bits y `prefix_of` data_bits ip).
  { intros y Hy. simpl. rewrite list_cmp_0, Hx. split; [|by right]. intros [Hp|?]; [|done].
    assert (dom_bits y) by (eapply bst_dom_elem; [apply Hpo|done]).
    pose proof (length_key_bits y ltac:(done)). specialize (Hle y Hy).
    rewrite <- (prefix_length_eq _ _ Hp); [done|]. rewrite length_data_bits. unfold zlen in Hle. lia. }
  eapply wp_mono; [by apply (wp_mem_get (dom := dom_bits))|]. intros [e|]; simpl; intros Ho.
  - split; [|done]. intros _. destruct Ho as [He Hce]. exists e. split; [done|]. by apply Hiff.
  - split; [by intros []|]. intros (y & Hy & Hpre). exfalso. apply (Ho y Hy). by apply Hiff.
Qed.
End ipset.

(** ** Properties *)

(** C24: looking up a key in a pool terminates and is complete: it answers an
    element that equals the key when there is one, and none only when no element
    equals it. For every comparison that is a key order. *)
Theorem mem_get_complete {CA : CharAbi} dom {KO : KeyOrder dom} hdr str len :
  pool_ok hdr -> dom (temp_elem hdr str len) ->
  exists o, mem_get hdr str len = Ok o /\
    match o with
    | Some e => e ∈ pool_elems hdr /\ ko_cmp (temp_elem hdr str len) e = 0
    | None => forall e, e ∈ pool_elems hdr -> ko_cmp (temp_elem hdr str len) e <> 0
    end.
Proof. intros. by apply wp_inv, wp_mem_get. Qed.

Definition host_elem (name : string) : elem :=
  Elem 4096 (zlen (bytes_of_string name)) (bytes_of_string name) CMP_HOST 0 None 0 None 0 0.

Lemma dom_host_dec {CA : CharAbi} hdr name :
  mp_cmp hdr = CMP_HOST ->
  forallb (fun b => (46 <=? b) && (b <? 128)) (bytes_of_string name) = true ->
  dom_host (temp_elem hdr (bytes_of_string name) (zlen (bytes_of_string name))).
Proof.
  intros Hc H. set (d := bytes_of_string name) in *.
  assert (Hd : Forall (fun b => 46 <= b < 128) d).
  { apply Forall_forall. intros b Hb. rewrite forallb_forall in H.
    specialize (H b (proj1 (list_elem_of_In _ _) Hb)). lia. }
  split; [done|]. cbn [el_len el_data temp_elem].
  split; [pose proof (zlen_nonneg d); lia|]. split.
  { eapply Forall_impl; [exact Hd|]. intros b Hb. unfold is_byte. cbv beta in Hb. lia. }
  unfold rkey. apply Forall_reverse, Forall_fmap, Forall_take.
  eapply Forall_impl; [exact Hd|]. intros b Hb. unfold schar, compose. cbv beta in Hb.
  destruct (_ && _) eqn:?; lia.
Qed.

Lemma singleton_ok {CA : CharAbi} dom {KO : KeyOrder dom} flags m e :
  dom e -> el_cmp e = m -> pool_ok (Mphdr flags m 1 (Node Leaf e Leaf)).
Proof.
  intros He Hm. constructor; simpl; [|done|].
  - constructor; simpl; [by repeat constructor|]. repeat constructor.
  - intros y. by rewrite list_elem_of_singleton; intros ->.
Qed.

(** The ABI of the witnesses: plain [char] is signed. *)
#[local] Instance x86_abi : CharAbi := true.

Definition org_pool : mphdr := Mphdr 0 CMP_HOST 1 (Node Leaf (host_elem "example.org") Leaf).

Lemma mem_get_complete_witness :
  exists o, mem_get org_pool (bytes_of_string "www.example.org") 15 = Ok o /\
    match o with
    | Some e => e ∈ pool_elems org_pool /\
        ko_cmp (dom := dom_host) (temp_elem org_pool (bytes_of_string "www.example.org") 15) e = 0
    | None => forall e, e ∈ pool_elems org_pool ->
        ko_cmp (dom := dom_host) (temp_elem org_pool (bytes_of_string "www.example.org") 15) e <> 0
    end.
Proof.
  apply (mem_get_complete).
  - apply singleton_ok; [|reflexivity].
    apply (dom_host_dec (Mphdr 0 CMP_HOST 0 Leaf)); reflexivity.
  - apply (dom_host_dec org_pool "www.example.org"); reflexivity.
Defined.

(** C29: [mem_add] keeps the pool a search tree with an exact count and either
    returns an element that already equals the key and is no longer, leaving the
    pool as it is, or puts the new element in the place of exactly the elements it
    equals (which are all longer); out of memory it changes nothing. *)
Theorem mem_add_spec {CA : CharAbi} {OS : Os} {St : Type} dom {KO : KeyOrder dom}
    hdr str len sz (s : St) h :
  pool_ok hdr -> dom (temp_elem hdr str len) -> height (mp_root hdr) + 1 < KAVL_MAX_DEPTH ->
  exists v hdr' h', mem_add hdr str len sz s h = Ok ((v, hdr'), s, h') /\ pool_ok hdr' /\
    let a := rv (os_reply h (CMalloc sz)) in
    if a =? 0 then v = None /\ hdr' = hdr else added hdr (new_elem hdr a str len) v hdr'.
Proof.
  intros. destruct (wpp_inv _ _ _ _ (wpp_mem_add hdr str len sz s h ltac:(done) ltac:(done) ltac:(done)))
    as ([v hdr'] & s' & h' & E & -> & ?). by exists v, hdr', h'.
Qed.

Lemma mem_add_spec_witness :
  exists v hdr' h', mem_add (OS := fun _ _ => Ret 8192 0 []) org_pool (bytes_of_string "org") 3 48 tt []
      = Ok ((v, hdr'), tt, h') /\ pool_ok (dom := dom_host) hdr' /\
    let a := 8192 in
    if a =? 0 then v = None /\ hdr' = org_pool
    else added (dom := dom_host) org_pool (new_elem org_pool a (bytes_of_string "org") 3) v hdr'.
Proof.
  apply (mem_add_spec (OS := fun _ _ => Ret 8192 0 []) dom_host org_pool (bytes_of_string "org") 3 48 tt []).
  - apply singleton_ok; [|reflexivity].
    apply (dom_host_dec (Mphdr 0 CMP_HOST 0 Leaf)); reflexivity.
  - apply (dom_host_dec org_pool "org"); reflexivity.
  - reflexivity.
Defined.

(** [mem_delete] removes one element that equals the key and keeps the rest in
    order, or changes nothing when no element equals it. *)
Theorem mem_delete_spec {CA : CharAbi} {OS : Os} {St : Type} dom {KO : KeyOrder dom}
    hdr str len (s : St) h :
  pool_ok hdr -> dom (temp_elem hdr str len) -> height (mp_root hdr) <= KAVL_MAX_DEPTH ->
  exists hdr' h', mem_delete hdr str len s h = Ok (hdr', s, h') /\ pool_ok hdr' /\
    deleted hdr (temp_elem hdr str len) hdr'.
Proof.
  intros. destruct (wpp_inv (mem_delete hdr str len) s h
    (fun hdr' s' h' => s' = s /\ pool_ok hdr' /\ deleted hdr (temp_elem hdr str len) hdr'))
    as (hdr' & s' & h' & E & -> & ?); [by apply wpp_mem_delete|]. by exists hdr', h'.
Qed.

Lemma mem_delete_spec_witness :
  exists hdr' h', mem_delete (OS := fun _ _ => Ret 1 0 []) org_pool (bytes_of_string "org") 3 tt []
      = Ok (hdr', tt, h') /\ pool_ok (dom := dom_host) hdr' /\
    deleted (dom := dom_host) org_pool (temp_elem org_pool (bytes_of_string "org") 3) hdr'.
Proof.
  apply (mem_delete_spec (OS := fun _ _ => Ret 1 0 []) dom_host).
  - apply singleton_ok; [|reflexivity].
    apply (dom_host_dec (Mphdr 0 CMP_HOST 0 Leaf)); reflexivity.
  - apply (dom_host_dec org_pool "org"); reflexivity.
  - unfold KAVL_MAX_DEPTH. simpl. lia.
Defined.

(** C30: an address set is what it means to be. Adding up to 63 address prefixes to
    an empty CMP_BITS pool (nested and repeated ones included) and looking an
    address up finds an entry exactly when one of the prefixes added is a prefix
    of the address. *)
Theorem ipset_lookup {CA : CharAbi} {OS : Os} {St : Type} flags ps ip (s : St) h :
  (forall h n, rv (os_reply h (CMalloc n)) <> 0) ->
  Forall prefix_ok ps -> zlen ps < KAVL_MAX_DEPTH -> bytes_ok ip ->
  (forall p, p ∈ ps -> snd p <= 8 * zlen ip) ->
  exists hdr h', add_all (Mphdr flags CMP_BITS 0 Leaf) ps s h = Ok (hdr, s, h') /\
    exists o, mem_get hdr ip (8 * zlen ip) = Ok o /\
      (is_Some o <-> exists p, p ∈ ps /\ prefix_bits p `prefix_of` data_bits ip).
Proof.
  intros Hm Hps Hn Hip Hle. set (hdr0 := Mphdr flags CMP_BITS 0 Leaf).
  assert (Hpo : pool_ok (dom := dom_bits) hdr0).
  { constructor; simpl; [|done|intros y Hy; by inversion Hy]. constructor; simpl; constructor. }
  destruct (wpp_inv _ _ _ _ (wpp_add_all ps hdr0 s h Hm Hps Hpo ltac:(done) Hn))
    as (hdr & s' & h' & E & -> & Hpo' & Hc & Hel & Hcov).
  exists hdr, h'. split; [done|].
  destruct (wp_inv _ _ (wp_mem_get_covers hdr ip Hpo' Hc Hip
    ltac:(intros y [Hy|(p & Hp & ->)]%Hel; [by inversion Hy|by apply Hle]))) as (o & Ho & Hiff).
  exists o. split; [done|]. rewrite Hiff, Hcov. split; [|by right].
  intros [(y & Hy & _)|?]; [by inversion Hy|done].
Qed.

Lemma ipset_lookup_witness :
  exists hdr h', add_all (OS := fun _ _ => Ret 8192 0 []) (Mphdr 0 CMP_BITS 0 Leaf)
      [([10; 1], 16); ([192; 168; 0; 0], 20); ([10], 8)] tt [] = Ok (hdr, tt, h') /\
    exists o, mem_get hdr [10; 9; 9; 9] (8 * zlen [10; 9; 9; 9]) = Ok o /\
      (is_Some o <-> exists p, p ∈ [([10; 1], 16); ([192; 168; 0; 0], 20); ([10], 8)] /\
        prefix_bits p `prefix_of` data_bits [10; 9; 9; 9]).
Proof.
  apply (ipset_lookup (OS := fun _ _ => Ret 8192 0 [])).
  - intros; discriminate.
  - unfold prefix_ok, bytes_ok, is_byte, zlen. simpl. repeat constructor; simpl; lia.
  - reflexivity.
  - unfold bytes_ok, is_byte. repeat constructor; lia.
  - intros p. rewrite !elem_of_cons. intros [->|[->|[->|Hp]]]; [vm_compute; discriminate..|by inversion Hp].
Defined.

(** The comparison of host names is no order when names contain a hyphen: in
    the pool made by adding "foo-bar.com" and "bar.com", looking up
    "www.bar.com", a name below "bar.com", finds nothing. *)
Theorem host_lookup_misses {CA : CharAbi} :
  exists hdr h,
    (let OS : Os := fun h _ => Ret (4096 + zlen h) 0 [] in
     '(_, hdr) ← mem_add (OS := OS) (Mphdr 0 CMP_HOST 0 Leaf) (bytes_of_string "foo-bar.com") 11 48;
     '(_, hdr) ← mem_add (OS := OS) hdr (bytes_of_string "bar.com") 7 48; mret hdr) tt []
    = Ok (hdr, tt, h) /\
    mem_get hdr (bytes_of_string "www.bar.com") 11 = Ok None.
Proof. destruct CA; do 2 eexists; split; vm_compute; reflexivity. Qed.

(** The tree of kavl.h is never rebalanced, and its path arrays hold 64
    entries: adding the sixty-fifth of 65 increasing keys writes past them. *)
Theorem kavl_path_overflows {CA : CharAbi} :
  let OS : Os := fun h _ => Ret (4096 + zlen h) 0 [] in
  let keys n := map (fun i => ([Z.of_nat i; 0], 16)) (seq 0 n) in
  (exists hdr h, add_all (OS := OS) (Mphdr 0 CMP_BITS 0 Leaf) (keys 64%nat) tt [] = Ok (hdr, tt, h)) /\
  add_all (OS := OS) (Mphdr 0 CMP_BITS 0 Leaf) (keys 65%nat) tt [] = Ub.
Proof. destruct CA; split; [do 2 eexists; vm_compute; reflexivity|vm_compute; reflexivity|do 2 eexists; vm_compute; reflexivity|vm_compute; reflexivity]. Qed.
