(* ===== verification/DesyncFacts.v ===== *)
(** What [desync] sends: the bytes a connection's stream gets from a history, and
    the rules of the operations that send or do not. *)
From S2P Require Import Prelude CMem Sys Mpool PktTls PktHttp PktFake State Conev Desync.
From S2P Require Import StateFacts TimerFacts BufFacts PoolFacts PktTlsFacts PktHttpFacts.
#[local] Open Scope Z_scope.
#[local] Open Scope list_scope.

#[local] Arguments parse_tls : simpl never.
#[local] Arguments parse_http : simpl never.

(** ** The stream *)

(** What one call puts into the in-band stream of [fd]: the bytes the kernel took,
    less the last one of an out-of-band send, which is the urgent one. *)
Definition sent_by (fd : Z) (cr : call * ret) : list Z :=
  match cr with
  | (CSend f d fl, r) =>
      if f =? fd then take (Z.to_nat (if fl =? MSG_OOB then rv r - 1 else rv r)) d else []
  | _ => []
  end.
Fixpoint stream (fd : Z) (h : hist) : list Z :=
  match h with [] => [] | cr :: h => stream fd h ++ sent_by fd cr end.

(** [send] answers -1 or how many of the bytes it took. *)
Definition sends_ok {OS : Os} : Prop := forall h fd d fl,
  -1 <= rv (os_reply h (CSend fd d fl)) <= zlen d.

Lemma slice_0 (m : list Z) s : slice m s 0 = [].
Proof. done. Qed.
Lemma slice_take (m : list Z) s a n : 0 <= a <= n -> take (Z.to_nat a) (slice m s n) = slice m s a.
Proof. intros. unfold slice. rewrite take_take. f_equal. lia. Qed.
Lemma slice_drop (m : list Z) o s n : 0 <= o -> 0 <= s -> slice (drop (Z.to_nat o) m) s n = slice m (o + s) n.
Proof. intros. unfold slice. rewrite drop_drop. f_equal. f_equal. lia. Qed.

(** The out-of-band byte replaces the one behind the bytes of the part. *)
Lemma oob_prefix (m : list Z) p c n : 0 <= n <= p -> p < zlen m ->
  take (Z.to_nat n) (slice (<[Z.to_nat p := c]> m) 0 (p + 1)) = slice m 0 n.
Proof.
  intros Hn Hp. rewrite slice_take by lia. unfold slice. simpl. apply take_insert_ge. lia.
Qed.

Section rules.
Context {CA : CharAbi} {OS : Os}.

(** ** What the sending operations leave alone *)

(** The event that sends has no decoy under way, the timers are well formed. *)
Record sending (w : world) (val q bid : nat) (x : buffer) : Prop := {
  sd_val : exists e, pl_items (w_pool w) !! val = Some e /\ ev_restore_fake e = None;
  sd_pair : is_Some (pl_items (w_pool w) !! q);
  sd_buf : w_bufs w !! bid = Some x;
  sd_timers : exists l, timers_ok (w_pool w) l;
}.

Lemma sending_upd w val q bid x i e e' :
  sending w val q bid x -> pl_items (w_pool w) !! i = Some e ->
  ev_tv_ms e' = ev_tv_ms e -> ev_tv_next e' = ev_tv_next e -> ev_tv_prev e' = ev_tv_prev e ->
  ev_restore_fake e' = ev_restore_fake e ->
  sending (upd_item i e' w) val q bid x.
Proof.
  intros [(v & Hv & Hf) [p Hp] Hb (l & Hl)] He E1 E2 E3 E4.
  assert (Hlt : (i < length (pl_items (w_pool w)))%nat) by (by eapply lookup_lt_Some).
  split; [| |done|].
  - simpl. destruct (decide (val = i)) as [->|Hne].
    + rewrite list_lookup_insert_eq by done. exists e'. split; [done|]. congruence.
    + rewrite list_lookup_insert_ne by done. by exists v.
  - simpl. apply is_Some_insert. by exists p.
  - exists l. eapply timers_ok_ext; [| | |exact Hl]; [|done|done]. intros j. simpl.
    destruct (decide (j = i)) as [->|Hne].
    + rewrite list_lookup_insert_eq by done. rewrite He. simpl. unfold tv_fields. congruence.
    + by rewrite list_lookup_insert_ne.
Qed.

(** Calls that neither send nor change anything. *)
Definition quiet {A} (m : W A) : Prop := forall w h (Q : A -> world -> hist -> Prop),
  (forall a h', (forall fd, stream fd h' = stream fd h) -> Q a w h') -> wpp m w h Q.

Lemma wpp_assoc {A B C} (m : W A) (k : A -> W B) (j : B -> W C) w h (Q : C -> world -> hist -> Prop) :
  wpp ((a ← m; k a) ≫= j) w h Q -> wpp (a ← m; b ← k a; j b) w h Q.
Proof. unfold wpp, mbind, prog_bind. by destruct (m w h) as [[[? ?] ?]| |]. Qed.

Lemma quiet_ret {A} (a : A) : quiet (mret a).
Proof. intros w h Q HQ. apply wpp_ret. by apply HQ. Qed.
Lemma quiet_bind {A B} (m : W A) (k : A -> W B) : quiet m -> (forall a, quiet (k a)) -> quiet (m ≫= k).
Proof.
  intros Hm Hk w h Q HQ. apply wpp_bind, Hm. intros a h1 E1. apply Hk. intros b h2 E2. apply HQ.
  intros fd. by rewrite E2.
Qed.
Lemma quiet_setsockopt fd level name v : quiet (setsockopt_ fd level name v).
Proof. intros w h Q HQ. apply wpp_bind, wpp_syscall, wpp_ret, HQ. intros f. apply app_nil_r. Qed.
Lemma quiet_setttl fd ttl : quiet (setttl fd ttl).
Proof. repeat (apply quiet_bind; [apply quiet_setsockopt|intros ?]). apply quiet_ret. Qed.
Lemma quiet_call {A} c (k : ret -> W A) :
  (forall f d fl, c <> CSend f d fl) -> (forall r, quiet (k r)) -> quiet (syscall c ≫= k).
Proof.
  intros Hc Hk. apply quiet_bind; [|done]. intros w h Q HQ. apply wpp_syscall, HQ. intros fd. simpl.
  destruct c; try apply app_nil_r. by destruct (Hc fd0 data flags).
Qed.
Lemma quiet_has_notsent fd : quiet (sock_has_notsent fd).
Proof. apply quiet_call; [done|]. intros r. repeat case_match; apply quiet_ret. Qed.
Lemma quiet_md5 fd k : quiet (set_md5sig fd k).
Proof.
  apply quiet_call; [done|]. intros r. case_match; [apply quiet_ret|].
  apply quiet_bind; [apply quiet_setsockopt|intros; apply quiet_ret].
Qed.

Lemma wpp_restore_state val q bid x w h (Q : unit -> world -> hist -> Prop) :
  sending w val q bid x ->
  (forall w' h', sending w' val q bid x -> (forall fd, stream fd h' = stream fd h) ->
     w_params w' = w_params w -> Q tt w' h') ->
  wpp (restore_state val) w h Q.
Proof.
  intros Hs HQ. destruct (sd_val _ _ _ _ _ Hs) as (e & He & Hf). unfold restore_state.
  apply wpp_bind. eapply wpp_gev; [exact He|]. rewrite Hf. apply wpp_bind, wpp_ret.
  enough (Hmid : forall w1 h1, sending w1 val q bid x -> (forall fd, stream fd h1 = stream fd h) ->
    w_params w1 = w_params w -> wpp (if ev_restore_ttl e then
     p ← gpar; setttl (ev_fd e) (pr_def_ttl p);; mev val (fun e => e <| ev_restore_ttl := false |>)
   else mret tt) w1 h1 Q).
  { apply wpp_bind. destruct (ev_restore_md5 e); [|apply wpp_ret; by apply Hmid].
    apply wpp_bind, quiet_md5. intros _ h1 E1. eapply wpp_mev; [exact He|]. apply Hmid; [|done|done].
    by apply (sending_upd w val q bid x val e). }
  intros w1 h1 Hs1 E1 Ep. destruct (ev_restore_ttl e); [|apply wpp_ret; by apply HQ].
  apply wpp_bind, wpp_gpar, wpp_bind, quiet_setttl. intros _ h2 E2.
  destruct (sd_val _ _ _ _ _ Hs1) as (e1 & He1 & Hf1). eapply wpp_mev; [exact He1|].
  apply HQ; [by apply (sending_upd w1 val q bid x val e1)|intros; by rewrite E2|done].
Qed.

Lemma wpp_wait_timer val q bid x ms w h (Q : unit -> world -> hist -> Prop) :
  sending w val q bid x -> (forall h, 0 < rv (os_reply h CTimeMs) + ms) ->
  (forall w' h', w_bufs w' = w_bufs w -> (forall fd, stream fd h' = stream fd h) -> Q tt w' h') ->
  wpp (set_timer val ms) w h Q.
Proof.
  intros Hs Hms HQ. destruct (sd_val _ _ _ _ _ Hs) as (e & He & _). destruct (sd_timers _ _ _ _ _ Hs) as (l & Hl).
  destruct (decide (val ∈ l)) as [Hin|Hin].
  - unfold set_timer. apply wpp_bind. eapply wpp_gev; [exact He|].
    apply (to_set _ _ Hl val e He) in Hin. unfold truthy. rewrite (proj2 (Z.eqb_neq _ _)) by done.
    apply wpp_ret. by apply HQ.
  - eapply wpp_mono; [apply (wpp_set_timer val ms w h l Hl); [by eexists|done|specialize (Hms h); lia]|].
    intros [] w' h' (l1 & l2 & _ & -> & -> & _). apply HQ; [done|]. intros fd. apply app_nil_r.
Qed.

(** ** Positions *)
Lemma wp_init_proto_info buffer n info (Q : proto_info -> Prop) :
  bytes_ok buffer -> 0 <= n <= zlen buffer -> (forall i, Q i) -> wp (init_proto_info buffer n info) Q.
Proof.
  intros Hb Hn HQ. unfold init_proto_info. destruct (pi_init info); [apply wp_ok, HQ|].
  apply wp_bind. eapply wp_mono; [apply wp_parse_tls; [done|lia]|]. intros [len host] _.
  apply wp_bind. destruct (truthy len); [apply wp_ok, wp_ok, HQ|].
  apply wp_bind. eapply wp_mono; [apply wp_parse_http; lia|]. intros r _. apply wp_ok, wp_ok, HQ.
Qed.

Lemma quiet_gen_offset pos flag buffer n lp info :
  bytes_ok buffer -> 0 <= n <= zlen buffer -> has_flag flag OFFSET_RAND = false ->
  quiet (gen_offset pos flag buffer n lp info).
Proof.
  intros Hb Hn Hr w h Q HQ. unfold gen_offset. rewrite Hr.
  assert (forall a, Q a w h) by (intros; by apply HQ).
  repeat case_match; try (by apply wpp_ret);
    (apply wpp_bind, wpp_lift, wp_init_proto_info; [done|done|]; intros i; repeat case_match; by apply wpp_ret).
Qed.

(** ** One part *)

(** What a sending call did: it failed, or the stream grew by the [s] bytes it
    reports, taken from [lp] on. *)
Definition part_sent (buffer : list Z) (fd lp len : Z) (h : hist) (s : Z) (h' : hist) : Prop :=
  -1 <= s <= len /\ stream fd h' = stream fd h ++ slice buffer lp (Z.max 0 s).

Lemma wpp_send_plain buffer fd lp len w h (Q : Z -> world -> hist -> Prop) :
  sends_ok -> 0 <= lp -> 0 <= len -> lp + len <= zlen buffer ->
  (forall s h', part_sent buffer fd lp len h s h' ->
     (exists r, h' = (CSend fd (slice buffer lp len) 0, r) :: h /\ s = rv r) -> Q s w h') ->
  wpp (d ← lift (rd_list buffer lp len); send_ fd d 0) w h Q.
Proof.
  intros Hs Hlp Hlen Hb HQ. apply wpp_bind, wpp_lift. rewrite rd_list_ok by lia. apply wp_ok.
  apply wpp_bind, wpp_syscall, wpp_ret. pose proof (Hs h fd (slice buffer lp len) 0) as Hr.
  rewrite zlen_slice in Hr by lia. apply HQ; [|by eexists]. split; [done|]. simpl.
  rewrite Z.eqb_refl. change (0 =? MSG_OOB) with false. cbv iota. f_equal.
  destruct (decide (rv (os_reply h (CSend fd (slice buffer lp len) 0)) = -1)) as [E|Hne].
  - rewrite E. done.
  - rewrite Z.max_r by lia. by rewrite slice_take by lia.
Qed.

Lemma wpp_send_oob buffer fd lp len bfsize c w h (Q : Z -> world -> hist -> Prop) :
  sends_ok -> 0 <= lp -> 0 <= len -> lp + len <= zlen buffer -> bfsize = zlen buffer ->
  (forall s h', part_sent buffer fd lp len h s h' -> Q s w h') ->
  wpp (send_oob fd (drop (Z.to_nat lp) buffer) (bfsize - lp) len c) w h Q.
Proof.
  intros Hs Hlp Hlen Hb -> HQ. unfold send_oob.
  assert (Hno : part_sent buffer fd lp len h (-1) h).
  { split; [lia|]. simpl. by rewrite slice_0, app_nil_r. }
  destruct (Z.leb_spec (zlen buffer - lp) len); [by apply wpp_ret, HQ|].
  assert (Hz : zlen (drop (Z.to_nat lp) buffer) = zlen buffer - lp) by (apply zlen_drop; lia).
  apply wpp_bind, wpp_lift. rewrite rd_ok by lia. apply wp_ok.
  apply wpp_bind, wpp_lift. rewrite wr_ok by lia. apply wp_ok.
  apply wpp_bind, wpp_lift. rewrite rd_list_ok by (rewrite ?zlen_insert; lia). apply wp_ok.
  apply wpp_bind, wpp_bind, wpp_syscall, wpp_ret.
  set (ch := if truthy (snd c) then fst c else 97).
  set (d := slice (<[Z.to_nat len:=ch]> (drop (Z.to_nat lp) buffer)) 0 (len + 1)).
  pose proof (Hs h fd d MSG_OOB) as Hr. set (r := os_reply h (CSend fd d MSG_OOB)) in *.
  assert (Hzd : zlen d = len + 1) by (apply zlen_slice; rewrite ?zlen_insert; lia).
  assert (Hpost : forall s, -1 <= s <= len -> s = rv r - 1 \/ (s = -1 /\ rv r < 1) ->
    part_sent buffer fd lp len h s ((CSend fd d MSG_OOB, r) :: h)).
  { intros s Hsr Hcase. split; [done|]. simpl. rewrite !Z.eqb_refl. f_equal.
    destruct (decide (rv r < 1)) as [Hlt|Hge].
    - replace (Z.to_nat (rv r - 1)) with 0%nat by lia. replace (Z.max 0 s) with 0 by lia. done.
    - destruct Hcase as [->|[_ ?]]; [|lia]. rewrite Z.max_r by lia. unfold d.
      rewrite oob_prefix by lia. rewrite slice_drop by lia. by rewrite Z.add_0_r. }
  destruct (Z.ltb_spec (rv r) 0); apply wpp_ret, HQ, Hpost; lia.
Qed.
End rules.

(** A part [desync] sends as it is, at a place that does not depend on chance. *)
Definition plain_part (p : part) : Prop :=
  pt_m p <> DESYNC_FAKE /\ has_flag (pt_flag p) OFFSET_RAND = false.

Section parts.
Context {CA : CharAbi} {OS : Os} (c : dctx) (x : buffer) (par : params_t) (before : list Z).
Context (Hsend : sends_ok) (Hclock : forall h, 0 < rv (os_reply h CTimeMs) + pr_await_int par).
Context (Hbytes : bytes_ok (b_data x)) (Hsize : dc_bfsize c = zlen (b_data x)).
Context (Hn : 0 <= dc_offset c <= dc_n c) (Hnb : dc_n c <= zlen (b_data x)).
Context (Hskip : dc_part_skip c = 0).

Let inv (w : world) : Prop := sending w (dc_val c) (dc_pair c) (dc_buff c) x /\ w_params w = par.
Let upto (lp : Z) (h : hist) : Prop :=
  stream (dc_sfd c) h = before ++ slice (b_data x) (dc_offset c) (lp - dc_offset c).

Lemma wpp_send_part lp pos r part info w h (Q : option Z * proto_info -> world -> hist -> Prop) :
  inv w -> plain_part part -> 0 <= lp <= pos -> pos <= dc_n c ->
  (forall s info' w' h', inv w' -> part_sent (b_data x) (dc_sfd c) lp (pos - lp) h s h' -> Q (Some s, info') w' h') ->
  wpp (send_part (dc_sfd c) (dc_val c) (dc_buff c) (dc_bfsize c) (dc_n c) lp pos r part (dc_dp c) info) w h Q.
Proof.
  intros [Hs Hp] [Hm _] Hlp Hpos HQ. unfold send_part. apply wpp_bind.
  eapply wpp_gbuf; [apply (sd_buf _ _ _ _ _ Hs)|].
  assert (Hplain : wpp (d ← lift (rd_list (b_data x) lp (pos - lp)); s ← send_ (dc_sfd c) d 0; mret (Some s, info)) w h Q).
  { apply (wpp_assoc (lift (rd_list (b_data x) lp (pos - lp))) (fun d => send_ (dc_sfd c) d 0)).
    apply wpp_bind, wpp_send_plain; [done|lia..|]. intros s h' Hsent _. apply wpp_ret. by apply HQ. }
  assert (Hdis : forall w1 h1, inv w1 -> (forall fd, stream fd h1 = stream fd h) ->
    wpp (s ← (if decide (pt_m part = DESYNC_DISOOB)
              then send_oob (dc_sfd c) (drop (Z.to_nat lp) (b_data x)) (dc_bfsize c - lp) (pos - lp) (dp_oob_char (dc_dp c))
              else d ← lift (rd_list (b_data x) lp (pos - lp)); send_ (dc_sfd c) d 0);
         mret (Some s, info)) w1 h1 Q).
  { intros w1 h1 Hi1 E1.
    assert (HQ1 : forall s h', part_sent (b_data x) (dc_sfd c) lp (pos - lp) h1 s h' ->
      wpp (mret (Some s, info)) w1 h' Q).
    { intros s h' [? E]. apply wpp_ret, HQ; [done|]. split; [done|]. by rewrite E, E1. }
    apply wpp_bind. destruct (decide _); [apply wpp_send_oob; [done|lia..|done]|].
    apply wpp_send_plain; [done|lia..|]. intros s h' Hs' _. by apply HQ1. }
  assert (Hdo : wpp (rc ← (if negb (truthy (Z.rem (pt_r part - r) 2)) then setttl (dc_sfd c) 1 else mret 0);
      if rc <? 0 then mret (Some (-1), info) else
      mev (dc_val c) (fun e => e <| ev_restore_ttl := true |>);;
      s ← (if decide (pt_m part = DESYNC_DISOOB)
           then send_oob (dc_sfd c) (drop (Z.to_nat lp) (b_data x)) (dc_bfsize c - lp) (pos - lp) (dp_oob_char (dc_dp c))
           else d ← lift (rd_list (b_data x) lp (pos - lp)); send_ (dc_sfd c) d 0);
      mret (Some s, info)) w h Q).
  { apply wpp_bind. assert (Hq : quiet (if negb (truthy (Z.rem (pt_r part - r) 2)) then setttl (dc_sfd c) 1 else mret 0)).
    { destruct (negb _); [apply quiet_setttl|apply quiet_ret]. }
    apply Hq. intros rc h1 E1. destruct (rc <? 0).
    - apply wpp_ret, HQ; [done|]. split; [lia|]. by rewrite E1, slice_0, app_nil_r.
    - destruct (sd_val _ _ _ _ _ Hs) as (e & He & _). apply wpp_bind. eapply wpp_mev; [exact He|].
      apply Hdis; [|done]. split; [by apply (sending_upd w _ _ _ x _ e)|done]. }
  destruct (pt_m part); try done.
  apply wpp_bind, wpp_send_oob; [done|lia..|done|]. intros s h' Hs'. apply wpp_ret. by apply HQ.
Qed.

(** How a run over the parts may end. *)
Definition parts_end (o : Z * bool + Z) (w : world) (h : hist) : Prop :=
  w_bufs w !! dc_buff c = Some x /\
  match o with
  | inl (ret, _) => exists k, (ret = -1 \/ ret = k) /\ 0 <= k <= dc_n c - dc_offset c /\ upto (dc_offset c + k) h
  | inr lp => dc_offset c <= lp <= dc_n c /\ upto lp h
  end.

Lemma upto_grow lp s h h' : dc_offset c <= lp -> 0 <= s -> upto lp h ->
  stream (dc_sfd c) h' = stream (dc_sfd c) h ++ slice (b_data x) lp (Z.max 0 s) -> upto (lp + s) h'.
Proof.
  intros Hlp Hs0 Hu E. unfold upto. rewrite E, Hu, <- app_assoc. f_equal.
  replace lp with (dc_offset c + (lp - dc_offset c)) at 2 by lia.
  rewrite slice_app by lia. f_equal. lia.
Qed.

Lemma wpp_parts_loop k lp cur r ps curr_part info w h :
  inv w -> upto lp h -> dc_offset c <= lp <= dc_n c -> 0 <= curr_part ->
  Forall plain_part ps -> (forall p, cur = Some p -> plain_part p) ->
  (Z.to_nat r + rounds_of ps < k)%nat ->
  wpp (parts_loop k c lp cur r ps curr_part info) w h parts_end.
Proof.
  revert lp cur r ps curr_part info w h.
  induction k as [|k IH]; intros lp cur r ps curr_part info w h Hi Hu Hlp Hcp Hpl Hcur Hk; [lia|].
  pose proof Hi as [Hs Hpar]. pose proof (sd_buf _ _ _ _ _ Hs) as Hbf. cbn [parts_loop].
  destruct (if 0 <? r then cur else head ps) as [part|] eqn:Ehd; [|by apply wpp_ret].
  set (ps' := if 0 <? r then ps else tail ps). set (r' := if 0 <? r then r else pt_r part).
  assert (Hpart : plain_part part /\ Forall plain_part ps' /\ (Z.to_nat (r' - 1) + rounds_of ps' < k)%nat).
  { unfold ps', r'. destruct (Z.ltb_spec 0 r).
    - split; [by apply Hcur|]. split; [done|]. lia.
    - destruct ps as [|p ps]; simpl in Ehd; [done|]. injection Ehd as ->.
      apply Forall_cons in Hpl as [Hp Hpl]. split; [done|]. split; [done|]. simpl in Hk. simpl. lia. }
  destruct Hpart as (Hp & Hps' & Hk').
  assert (Hnext : forall lp info w h, inv w -> upto lp h -> dc_offset c <= lp <= dc_n c ->
    wpp (parts_loop k c lp (Some part) (r' - 1) ps' (curr_part + 1) info) w h parts_end).
  { intros. apply IH; [done..|lia|done|by intros ? [= <-]|done]. }
  apply wpp_bind. eapply wpp_gbuf; [exact Hbf|]. apply wpp_bind.
  apply quiet_gen_offset; [done|lia|by destruct Hp|]. intros [g info'] h1 E1.
  set (pos0 := g + pt_s part * (pt_r part - r')).
  assert (Hu1 : upto lp h1) by (unfold upto; by rewrite E1).
  set (skipped := _ && negb _). destruct skipped; [by apply Hnext|].
  destruct (truthy (dc_offset c) && _); [by apply Hnext|].
  destruct ((pos0 <? 0) || (pos0 <? lp)) eqn:Ec; [by apply wpp_ret|].
  apply orb_false_iff in Ec as [Ec1 Ec2]. rewrite Z.ltb_ge in Ec1, Ec2.
  set (pos := if dc_n c <? pos0 then dc_n c else pos0).
  assert (Hpos : lp <= pos <= dc_n c) by (unfold pos; destruct (Z.ltb_spec (dc_n c) pos0); lia).
  rewrite Hskip. rewrite (proj2 (Z.eqb_neq (curr_part + 1) 0)) by lia.
  apply wpp_bind, wpp_send_part; [done|done|lia|lia|].
  intros s info2 w2 h2 [Hs2 Hpar2] [Hsr Estr].
  destruct (sd_pair _ _ _ _ _ Hs2) as [pe Hpe]. apply wpp_bind. eapply wpp_mev; [exact Hpe|].
  set (w3 := upd_item _ _ w2).
  assert (Hi3 : inv w3) by (split; [by apply (sending_upd w2 _ _ _ x _ pe)|done]).
  destruct Hi3 as [Hs3 Hpar3]. apply wpp_bind, wpp_gpar.
  rewrite (proj2 (Z.eqb_neq s ERR_WAIT)) by (unfold ERR_WAIT; lia).
  assert (Hkeep : s < 0 -> upto lp h2).
  { intros. unfold upto. rewrite Estr, Z.max_l by lia. by rewrite slice_0, app_nil_r, Hu1. }
  pose proof (sd_buf _ _ _ _ _ Hs3) as Hb3.
  destruct (Z.ltb_spec s 0) as [Hneg|Hpos'].
  { assert (Hup : upto (dc_offset c + (lp - dc_offset c)) h2).
    { replace (dc_offset c + (lp - dc_offset c)) with lp by lia. by apply Hkeep. }
    apply wpp_bind, wpp_errno. destruct (_ =? EAGAIN); apply wpp_ret; (split; [done|]);
      exists (lp - dc_offset c); (split; [auto|]); (split; [lia|done]). }
  assert (Hu2 : upto (lp + s) h2) by (apply (upto_grow lp s h1); [lia|done..]).
  destruct (Z.eqb_spec s (pos - lp)) as [->|Hshort]; simpl negb; cbv iota.
  2: { apply wpp_ret. split; [done|]. exists (lp + s - dc_offset c). split; [by right|]. split; [lia|].
       by replace (dc_offset c + (lp + s - dc_offset c)) with (lp + s) by lia. }
  replace (lp + (pos - lp)) with pos in Hu2 by lia.
  apply wpp_bind, quiet_has_notsent. intros ns h3 E3.
  assert (Hu3 : upto pos h3) by (unfold upto; by rewrite E3).
  destruct (ns || _).
  - apply wpp_bind. eapply wpp_wait_timer; [exact Hs3|intros; by rewrite Hpar3|].
    intros w4 h4 Eb E4. apply wpp_ret. split; [by rewrite Eb|].
    exists (pos - dc_offset c). split; [by right|]. split; [lia|].
    replace (dc_offset c + (pos - dc_offset c)) with pos by lia. unfold upto. by rewrite E4.
  - apply wpp_bind. eapply wpp_restore_state; [exact Hs3|]. intros w4 h4 Hs4 E4 Ep4.
    apply Hnext; [split; [done|congruence]|unfold upto; by rewrite E4|lia].
Qed.
End parts.

(** ** [tamp] *)
Lemma wp_memmove m d s n (Q : list Z -> Prop) :
  bytes_ok m -> 0 <= s -> 0 <= d -> 0 <= n -> s + n <= zlen m -> d + n <= zlen m ->
  (forall m', bytes_ok m' -> zlen m' = zlen m -> Q m') -> wp (memmove m d s n) Q.
Proof.
  intros Hb Hs Hd Hn H1 H2 HQ. rewrite memmove_ok by lia. apply wp_ok, HQ.
  - apply bytes_ok_splice; [done|by apply bytes_ok_slice].
  - apply zlen_splice; [done|]. rewrite zlen_slice by lia. lia.
Qed.
Lemma wp_SHTONA m i v (Q : list Z -> Prop) :
  bytes_ok m -> 0 <= i -> i + 1 < zlen m ->
  (forall m', bytes_ok m' -> zlen m' = zlen m -> Q m') -> wp (SHTONA m i v) Q.
Proof.
  intros Hb Hi Hl HQ. rewrite SHTONA_ok by lia. apply wp_ok, HQ.
  - apply bytes_ok_insert; [apply bytes_ok_insert; [done|apply hi8_byte]|apply lo8_byte].
  - by rewrite !zlen_insert.
Qed.

Lemma wp_part_tls m bsize n pos :
  bytes_ok m -> 0 <= n <= bsize -> bsize <= zlen m -> bsize < 2 ^ 63 ->
  wp (part_tls m bsize n pos) (fun '(rc, m') => zlen m' = zlen m /\ bytes_ok m' /\
    (rc <> 0 -> n + 5 <= bsize /\ 0 <= pos /\ pos + 5 <= n)).
Proof.
  intros Hb Hn Hbs Hmax. unfold part_tls. rewrite usz_small by lia.
  destruct ((n <? 3) || _ || _ || _) eqn:E; [by apply wp_ok|].
  repeat (apply orb_false_iff in E as [E ?]). rewrite Z.ltb_ge in *.
  apply wp_bind, wp_ANTOHS; [lia|lia|].
  destruct (_ <? pos); [apply wp_ok; repeat split; [done|lia..]|].
  apply wp_bind, wp_memmove; [done|lia..|]. intros m1 Hb1 E1.
  apply wp_bind, wp_memmove; [done|lia..|]. intros m2 Hb2 E2.
  apply wp_bind, wp_SHTONA; [done|lia..|]. intros m3 Hb3 E3.
  apply wp_bind, wp_SHTONA; [done|lia..|]. intros m4 Hb4 E4.
  apply wp_ok. repeat split; [lia|done|lia..].
Qed.

(** A group whose changes to the first bytes do not depend on chance. *)
Definition plain_group (dp : desync_params) : Prop :=
  Forall plain_part (dp_parts dp) /\
  Forall (fun p => has_flag (pt_flag p) OFFSET_RAND = false) (dp_tlsrec dp) /\
  dp_mod_http dp = 0 /\ is_byte (dp_tlsminor dp).

Section tamp.
Context {CA : CharAbi} {OS : Os} (bfsize n0 : Z) (Hmax : bfsize < 2 ^ 63) (Hn0 : 0 <= n0).

Let tamped (h : hist) (x : list Z * Z * proto_info) (h' : hist) : Prop :=
  let '(m, n, _) := x in
  bytes_ok m /\ zlen m = bfsize /\ n0 <= n <= bfsize /\ forall fd, stream fd h' = stream fd h.

Lemma wpp_tlsrec_loop k m n lp cur r ps rc info w h :
  bytes_ok m -> zlen m = bfsize -> 0 <= lp <= n -> n <= bfsize -> n = n0 + 5 * rc -> 0 <= rc ->
  Forall (fun p => has_flag (pt_flag p) OFFSET_RAND = false) ps ->
  (forall p, cur = Some p -> has_flag (pt_flag p) OFFSET_RAND = false) ->
  (Z.to_nat r + rounds_of ps < k)%nat ->
  wpp (tlsrec_loop k m bfsize n lp cur r ps rc info) w h (fun x w' h' => w' = w /\ tamped h x h').
Proof.
  revert m n lp cur r ps rc info h.
  induction k as [|k IH]; intros m n lp cur r ps rc info h Hb Hm Hlp Hn En Hrc Hps Hcur Hk; [lia|].
  cbn [tlsrec_loop].
  assert (Hend : forall i h', (forall fd, stream fd h' = stream fd h) ->
    wpp (mret (m, n, i)) w h' (fun x w' h' => w' = w /\ tamped h x h')).
  { intros i h' Eh. apply wpp_ret. by repeat split; try done; try lia. }
  destruct (if 0 <? r then cur else head ps) as [part|] eqn:Ehd; [|by apply Hend].
  set (ps' := if 0 <? r then ps else tail ps). set (r' := if 0 <? r then r else pt_r part).
  assert (Hpart : has_flag (pt_flag part) OFFSET_RAND = false /\
     Forall (fun p => has_flag (pt_flag p) OFFSET_RAND = false) ps' /\ (Z.to_nat (r' - 1) + rounds_of ps' < k)%nat).
  { unfold ps', r'. destruct (Z.ltb_spec 0 r).
    - split; [by apply Hcur|]. split; [done|]. lia.
    - destruct ps as [|p ps]; simpl in Ehd; [done|]. injection Ehd as ->.
      apply Forall_cons in Hps as [Hp Hps]. split; [done|]. split; [done|]. simpl in Hk. simpl. lia. }
  destruct Hpart as (Hp & Hps' & Hk'). cbv zeta.
  apply wpp_bind, quiet_gen_offset; [done|lia|done|]. intros [g info'] h1 E1.
  set (pos := _ + pt_s part * _). destruct (Z.ltb_spec pos lp); [by apply Hend|].
  apply wpp_bind, wpp_lift. unfold at_off. rewrite in_range_true by lia.
  assert (Hd : zlen (drop (Z.to_nat lp) m) = bfsize - lp) by (rewrite zlen_drop; lia).
  rewrite usz_small by lia. apply wp_bind.
  eapply wp_mono; [apply wp_part_tls; [by apply bytes_ok_drop|lia..]|].
  intros [rc' m'] (Hl' & Hb' & Hok). apply wp_ok.
  assert (Hm1 : zlen (take (Z.to_nat lp) m ++ m') = bfsize).
  { rewrite zlen_app, zlen_take by lia. lia. }
  assert (Hb1 : bytes_ok (take (Z.to_nat lp) m ++ m')).
  { apply bytes_ok_app. split; [by apply bytes_ok_take|done]. }
  destruct (Z.eqb_spec rc' 0) as [->|Hne].
  - apply wpp_ret. by repeat split; try done; try lia.
  - destruct (Hok Hne) as (? & ? & ?). eapply wpp_mono.
    + apply (IH _ (n + 5) (pos + 5) (Some part) (r' - 1) ps' (rc + 1) info' h1);
        [done|done|lia|lia|lia|lia|done|by intros ? [= <-]|done].
    + intros [[m2 n2] i2] w2 h2 [-> (? & ? & ? & E2)]. repeat split; try done; try lia.
      intros fd. by rewrite E2.
Qed.

Lemma wpp_tamp m dp info w h :
  bytes_ok m -> zlen m = bfsize -> n0 <= bfsize -> plain_group dp ->
  wpp (tamp m bfsize n0 dp info) w h (fun x w' h' => w' = w /\ tamped h x h').
Proof.
  intros Hb Hm Hn (_ & Hrec & Hmh & Hminor). unfold tamp. rewrite Hmh.
  apply wpp_bind, wpp_lift, wp_ok. apply wpp_bind, wpp_lift.
  enough (Hrest : forall m1, bytes_ok m1 -> zlen m1 = bfsize -> wpp (
    ch ← lift (match dp_tlsrec dp with [] => Ok false | _ => is_tls_chello m1 n0 end);
    if (ch : bool) then tlsrec_loop (S (rounds_of (dp_tlsrec dp))) m1 bfsize n0 0 None 0 (dp_tlsrec dp) 0 info
    else mret (m1, n0, info)) w h (fun x w' h' => w' = w /\ tamped h x h')).
  { destruct (dp_tlsminor_set dp); [|by apply wp_ok, Hrest].
    apply wp_bind, wp_is_tls_chello; [lia|by apply wp_ok, Hrest|].
    intros H5 _ _. rewrite wr_ok by lia. apply wp_ok, Hrest; [by apply bytes_ok_insert|by rewrite zlen_insert]. }
  intros m1 Hb1 Hm1.
  assert (Hch : forall ch : bool, wpp (if ch then tlsrec_loop (S (rounds_of (dp_tlsrec dp))) m1 bfsize n0 0 None 0
      (dp_tlsrec dp) 0 info else mret (m1, n0, info)) w h (fun x w' h' => w' = w /\ tamped h x h')).
  { intros []; [apply wpp_tlsrec_loop; [done|done|lia|lia|lia|lia|done|done|simpl; lia]|].
    apply wpp_ret. by repeat split; try done; try lia. }
  apply wpp_bind, wpp_lift. destruct (dp_tlsrec dp); [apply wp_ok; exact (Hch false)|].
  apply wp_is_tls_chello; [lia|exact (Hch false)|intros; exact (Hch true)].
Qed.
End tamp.
