(* ===== verification/ExtendFacts.v ===== *)
(** The tracker of TLS records of extend.c, one byte at a time. *)
From S2P Require Import Prelude CMem Sys Mpool PktTls PktHttp PktFake State Conev Desync Socks Extend PktTlsFacts DesyncFacts.
#[local] Open Scope Z_scope.
#[local] Open Scope list_scope.

(** ** The reference: what one byte does to the tracker *)
Definition tls_byte (s : tls_st) (b : Z) : tls_st + tls_st :=
  let s := if (5 <? ts_pos s) && (ts_pos s =? ts_size s) then TlsSt 0 0 (ts_rec s) else s in
  if ts_pos s <? 5 then inr (TlsSt (ts_pos s + 1) (ts_size s) (<[Z.to_nat (ts_pos s) := b]> (ts_rec s)))
  else if ts_pos s =? 5 then
    let s := TlsSt 5 (be16 (ts_rec s) 3 + 5) (ts_rec s) in
    if (byte_at (ts_rec s) 0 <? 0x14) || (0x18 <? byte_at (ts_rec s) 0) || (ts_size s <=? 5) then inl s
    else inr (TlsSt 6 (ts_size s) (ts_rec s))
  else inr (TlsSt (ts_pos s + 1) (ts_size s) (ts_rec s)).
Fixpoint tls_bytes (l : list Z) (s : tls_st) : tls_st + tls_st :=
  match l with
  | [] => inr s
  | b :: l => match tls_byte s b with inl s => inl s | inr s => tls_bytes l s end
  end.

Definition tls_wf (s : tls_st) : Prop :=
  zlen (ts_rec s) = 5 /\ 0 <= ts_pos s /\ (5 < ts_pos s -> ts_pos s <= ts_size s).

Lemma tls_bytes_app a b s : tls_bytes (a ++ b) s =
  match tls_bytes a s with inl s => inl s | inr s => tls_bytes b s end.
Proof.
  revert s. induction a as [|x a IH]; intros s; [done|]. simpl. by destruct (tls_byte s x).
Qed.

(** The bytes of a body. *)
Lemma tls_bytes_body l s : 5 < ts_pos s -> ts_pos s + zlen l <= ts_size s ->
  tls_bytes l s = inr (TlsSt (ts_pos s + zlen l) (ts_size s) (ts_rec s)).
Proof.
  revert s. induction l as [|b l IH]; intros s Hp Hl.
  - rewrite zlen_nil, Z.add_0_r. by destruct s.
  - rewrite zlen_cons in Hl. pose proof (zlen_nonneg l). simpl. unfold tls_byte.
    rewrite (proj2 (Z.eqb_neq (ts_pos s) (ts_size s))) by lia. rewrite andb_false_r.
    rewrite (proj2 (Z.ltb_ge (ts_pos s) 5)), (proj2 (Z.eqb_neq (ts_pos s) 5)) by lia.
    rewrite IH; simpl; [|lia..]. rewrite zlen_cons. do 2 f_equal. lia.
Qed.

Lemma slice_cons (m : list Z) p n : 0 <= p < zlen m -> 0 < n ->
  slice m p n = byte_at m p :: slice m (p + 1) (n - 1).
Proof.
  intros Hp Hn. unfold slice.
  rewrite (drop_S m (byte_at m p) (Z.to_nat p)) by (by apply lookup_byte_at).
  replace (Z.to_nat n) with (S (Z.to_nat (n - 1))) by lia. simpl.
  by replace (Z.to_nat (p + 1)) with (S (Z.to_nat p)) by lia.
Qed.

Lemma tls_byte_wf s b s' : tls_wf s -> tls_byte s b = inr s' -> tls_wf s'.
Proof.
  intros (Hr & Hp & Hs). unfold tls_byte. set (s0 := if (5 <? ts_pos s) && (ts_pos s =? ts_size s) then TlsSt 0 0 (ts_rec s) else s).
  assert (Hw0 : tls_wf s0 /\ (5 < ts_pos s0 -> ts_pos s0 < ts_size s0)).
  { unfold s0, tls_wf. destruct (Z.ltb_spec 5 (ts_pos s)); simpl; [|repeat split; try done; lia].
    destruct (Z.eqb_spec (ts_pos s) (ts_size s)); simpl; repeat split; try done; lia. }
  destruct Hw0 as ((Hr0 & Hp0 & Hs0) & Hs1). destruct (Z.ltb_spec (ts_pos s0) 5).
  - intros [= <-]. unfold tls_wf. simpl. rewrite zlen_insert. repeat split; [done|lia|lia].
  - destruct (Z.eqb_spec (ts_pos s0) 5).
    + destruct (_ || _) eqn:E; [done|]. intros [= <-]. apply orb_false_iff in E as [_ E]. simpl in E.
      unfold tls_wf. simpl. repeat split; [done|lia|lia].
    + intros [= <-]. unfold tls_wf. simpl. repeat split; [done|lia|lia].
Qed.
Lemma tls_bytes_wf l s s' : tls_wf s -> tls_bytes l s = inr s' -> tls_wf s'.
Proof.
  revert s. induction l as [|b l IH]; intros s Hw; simpl; [by intros [= <-]|].
  destruct (tls_byte s b) eqn:E; [done|]. apply IH. by eapply tls_byte_wf.
Qed.

(** ** The loop takes the same steps, many bytes at a time *)
Lemma tls_rec_loop_eq k buff n p s :
  tls_wf s -> 0 <= p < n -> n <= zlen buff ->
  2 * (n - p) + (if (5 <? ts_pos s) && (ts_pos s =? ts_size s) then 1 else 0 : Z) <= Z.of_nat k ->
  tls_rec_loop k buff n p s = Ok (tls_bytes (slice buff p (n - p)) s).
Proof.
  revert p s. induction k as [|k IH]; intros p s Hw Hp Hn Hk; [destruct (_ && _); lia|].
  pose proof Hw as (Hr & Hpos & Hsz). cbn [tls_rec_loop]. cbv zeta.
  assert (Hcont : forall p' s', tls_wf s' -> p < p' <= n ->
    (if p' <? n then tls_rec_loop k buff n p' s' else Ok (inr s')) = Ok (tls_bytes (slice buff p' (n - p')) s')).
  { intros p' s' Hw' Hp'. destruct (Z.ltb_spec p' n).
    - apply IH; [done|lia|done|]. destruct (_ && _), (_ && _); lia.
    - replace (n - p') with 0 by lia. done. }
  (** a bite of [e] bytes of the body *)
  assert (Hbite : forall s1 : tls_st, tls_wf s1 -> 5 < ts_pos s1 -> ts_pos s1 < ts_size s1 -> forall e,
    e = (if n <? p + (ts_size s1 - ts_pos s1) then n - p else ts_size s1 - ts_pos s1) ->
    0 < e /\ p < p + e <= n /\ tls_wf (TlsSt (ts_pos s1 + e) (ts_size s1) (ts_rec s1)) /\
    tls_bytes (slice buff p (n - p)) s1 =
      tls_bytes (slice buff (p + e) (n - (p + e))) (TlsSt (ts_pos s1 + e) (ts_size s1) (ts_rec s1))).
  { intros s1 (Hr1 & Hp1 & _) H5 Hlt e ->.
    set (e := if n <? p + (ts_size s1 - ts_pos s1) then n - p else ts_size s1 - ts_pos s1).
    assert (He : 0 < e /\ p + e <= n /\ ts_pos s1 + e <= ts_size s1).
    { unfold e. destruct (Z.ltb_spec n (p + (ts_size s1 - ts_pos s1))); lia. }
    split; [lia|]. split; [lia|]. split; [repeat split; simpl; [done|lia|lia]|].
    replace (n - p) with (e + (n - (p + e))) by lia. rewrite <- slice_app by lia. rewrite tls_bytes_app.
    rewrite (tls_bytes_body (slice buff p e)) by (rewrite ?zlen_slice; lia). by rewrite zlen_slice by lia. }
  destruct (Z.ltb_spec (ts_pos s) 5) as [Hlt|Hge].
  - (** a byte of the header *)
    rewrite rd_ok by lia. cbn [mbind res_bind]. rewrite wr_ok by lia. cbn [mbind res_bind].
    rewrite Hcont; [|unfold tls_wf; simpl; rewrite zlen_insert; repeat split; [done|lia|lia]|lia].
    rewrite (slice_cons buff p (n - p)) by lia. replace (n - p - 1) with (n - (p + 1)) by lia.
    simpl. unfold tls_byte. rewrite (proj2 (Z.ltb_ge 5 (ts_pos s))) by lia. simpl.
    by rewrite (proj2 (Z.ltb_lt (ts_pos s) 5)).
  - destruct (Z.eqb_spec (ts_pos s) 5) as [E5|N5].
    + (** the header is complete *)
      rewrite ANTOHS_ok by lia. cbn [mbind res_bind]. rewrite rd_ok by lia. cbn [mbind res_bind ts_pos ts_size ts_rec].
      rewrite E5. rewrite (slice_cons buff p (n - p)) by lia. cbn [tls_bytes].
      unfold tls_byte. rewrite E5. change (5 <? 5) with false. cbn [andb ts_pos ts_size ts_rec].
      change (5 =? 5) with true. rewrite E5. change (5 <? 5) with false. change (5 =? 5) with true. cbv iota.
      destruct ((byte_at (ts_rec s) 0 <? 20) || (24 <? byte_at (ts_rec s) 0)); [done|]. cbn [orb].
      destruct (Z.leb_spec (be16 (ts_rec s) 3 + 5 - 5) 0) as [Hz|Hz].
      { by rewrite (proj2 (Z.leb_le (be16 (ts_rec s) 3 + 5) 5)) by lia. }
      rewrite (proj2 (Z.leb_gt (be16 (ts_rec s) 3 + 5) 5)) by lia.
      set (size := be16 (ts_rec s) 3 + 5) in *. set (e := if n <? p + (size - 5) then n - p else size - 5).
      assert (He : 0 < e /\ p + e <= n /\ 5 + e <= size).
      { unfold e. destruct (Z.ltb_spec n (p + (size - 5))); lia. }
      rewrite Hcont; [|repeat split; simpl; [done|lia|lia]|lia]. f_equal.
      replace (n - p - 1) with ((e - 1) + (n - (p + e))) by lia. rewrite <- slice_app by lia. rewrite tls_bytes_app.
      rewrite (tls_bytes_body (slice buff (p + 1) (e - 1))) by (rewrite ?zlen_slice by lia; simpl; lia).
      rewrite zlen_slice by lia.
      cbn [ts_pos ts_size ts_rec].
      replace (p + 1 + (e - 1)) with (p + e) by lia. by replace (6 + (e - 1)) with (5 + e) by lia.
    + destruct (Z.eqb_spec (ts_pos s) (ts_size s)) as [Ez|Nz].
      * (** the record is complete *)
        rewrite (proj2 (Z.ltb_lt p n)) by lia.
        rewrite (proj2 (Z.ltb_lt 5 (ts_pos s))) in Hk by lia. cbn [andb] in Hk. cbv iota in Hk.
        rewrite IH; [|repeat split; simpl; [done|lia|lia]|lia|done|cbn [ts_pos ts_size]; change ((5 <? 0) && (0 =? 0)) with false; cbv iota; lia].
        rewrite (slice_cons buff p (n - p)) by lia. cbn [tls_bytes]. unfold tls_byte.
        rewrite (proj2 (Z.ltb_lt 5 (ts_pos s))), (proj2 (Z.eqb_eq _ _) Ez) by lia. done.
      * rewrite (proj2 (Z.leb_gt (ts_size s - ts_pos s) 0)) by lia.
        destruct (Hbite s Hw ltac:(lia) ltac:(lia) _ eq_refl) as (He0 & He & Hwe & ->). by apply Hcont.
Qed.

(** ** Records *)
Record tls_rec : Type := TlsRec { rc_type : Z; rc_v1 : Z; rc_v2 : Z; rc_body : list Z }.
Definition rec_bytes (r : tls_rec) : list Z := tls_record (rc_type r) (rc_v1 r) (rc_v2 r) (rc_body r).
Definition rec_valid (r : tls_rec) : Prop :=
  0x14 <= rc_type r <= 0x18 /\ 0 < zlen (rc_body r) < 65536.

(** Between two records: at the start, or after a whole one. *)
Definition between (s : tls_st) : Prop :=
  zlen (ts_rec s) = 5 /\ ((ts_pos s = 0 /\ ts_size s = 0) \/ (5 < ts_pos s /\ ts_pos s = ts_size s)).

Lemma between_wf s : between s -> tls_wf s.
Proof. intros (Hr & [[E ?]|[? ?]]); repeat split; try done; lia. Qed.

Lemma splice_cons r p b l : 0 <= p -> p + 1 + zlen l <= zlen r ->
  splice (<[Z.to_nat p := b]> r) (p + 1) l = splice r p (b :: l).
Proof.
  intros Hp Hl. pose proof (zlen_nonneg l). unfold splice. rewrite zlen_cons.
  replace (p + 1 + zlen l) with (p + (zlen l + 1)) by lia.
  rewrite drop_insert_lt by lia. replace (Z.to_nat (p + 1)) with (S (Z.to_nat p)) by lia.
  rewrite (take_S_r _ _ b), take_insert_ge; [by rewrite <- app_assoc|lia|].
  apply list_lookup_insert_eq. unfold zlen in *. lia.
Qed.
(** The bytes of a header. *)
Lemma tls_bytes_header l s : 0 <= ts_pos s -> ts_pos s + zlen l <= 5 -> zlen (ts_rec s) = 5 ->
  tls_bytes l s = inr (TlsSt (ts_pos s + zlen l) (ts_size s) (splice (ts_rec s) (ts_pos s) l)).
Proof.
  revert s. induction l as [|b l IH]; intros s Hp Hl Hr.
  - rewrite zlen_nil, !Z.add_0_r. unfold splice. rewrite zlen_nil, Z.add_0_r. simpl. rewrite take_drop. by destruct s.
  - rewrite zlen_cons in Hl. pose proof (zlen_nonneg l). cbn [tls_bytes]. unfold tls_byte.
    rewrite (proj2 (Z.ltb_ge 5 (ts_pos s))) by lia. cbn [andb]. cbv iota.
    rewrite (proj2 (Z.ltb_lt (ts_pos s) 5)) by lia.
    rewrite IH; simpl; [|lia|lia|by rewrite zlen_insert]. rewrite zlen_cons, splice_cons by lia.
    do 2 f_equal. lia.
Qed.

Lemma tls_bytes_prefix r s j :
  rec_valid r -> between s -> 0 < j <= 5 + zlen (rc_body r) ->
  exists s', tls_bytes (take (Z.to_nat j) (rec_bytes r)) s = inr s' /\ zlen (ts_rec s') = 5 /\
    ts_pos s' = j /\ ts_size s' = (if j <=? 5 then 0 else 5 + zlen (rc_body r)).
Proof.
  destruct r as [t v1 v2 bd]. unfold rec_bytes, rec_valid. cbn [rc_type rc_v1 rc_v2 rc_body].
  intros [Ht Hb] [Hr Hs] Hj. set (h := rec_hdr t v1 v2 (zlen bd)).
  assert (Hstart : exists s0, ts_pos s0 = 0 /\ ts_size s0 = 0 /\ ts_rec s0 = ts_rec s /\
    forall x l, tls_bytes (x :: l) s = tls_bytes (x :: l) s0).
  { exists (TlsSt 0 0 (ts_rec s)). repeat (split; [done|]). intros x l. cbn [tls_bytes]. unfold tls_byte.
    destruct Hs as [[E E0]|[H5 E]].
    - rewrite E, E0. by replace s with (TlsSt 0 0 (ts_rec s)) by (destruct s; simpl in *; by subst).
    - by rewrite (proj2 (Z.ltb_lt 5 (ts_pos s))), (proj2 (Z.eqb_eq _ _) E). }
  destruct Hstart as (s0 & Hp0 & Hs0 & Hrec0 & Hstart). destruct s0 as [p0 z0 r0]. simpl in Hp0, Hs0, Hrec0. subst p0 z0 r0.
  assert (Hhead : forall i, 0 < i <= 5 -> exists s1, tls_bytes (take (Z.to_nat i) h) s = inr s1 /\
    zlen (ts_rec s1) = 5 /\ ts_pos s1 = i /\ ts_size s1 = 0 /\ (i = 5 -> ts_rec s1 = h)).
  { intros i Hi. assert (Hz : zlen (take (Z.to_nat i) h) = i) by (apply zlen_take; change (zlen h) with 5; lia).
    exists (TlsSt i 0 (splice (ts_rec s) 0 (take (Z.to_nat i) h))). split; [|repeat split].
    - assert (E : tls_bytes (take (Z.to_nat i) h) (TlsSt 0 0 (ts_rec s)) =
        inr (TlsSt i 0 (splice (ts_rec s) 0 (take (Z.to_nat i) h)))).
      { rewrite tls_bytes_header by (simpl; lia). simpl ts_pos. simpl ts_size. simpl ts_rec. by rewrite Hz. }
      destruct (take (Z.to_nat i) h) as [|x l]; [rewrite zlen_nil in Hz; lia|]. by rewrite Hstart.
    - simpl. rewrite zlen_splice by lia. done.
    - intros ->. cbn [ts_rec]. change (take (Z.to_nat 5) h) with h. unfold splice. simpl.
      change (zlen h) with 5. rewrite drop_ge; [done|]. unfold zlen in Hr. lia. }
  destruct (Z.leb_spec j 5) as [Hle|Hgt].
  - destruct (Hhead j ltac:(lia)) as (s1 & E & H5 & Hp & Hz & _).
    exists s1. unfold tls_record. rewrite take_app_le by (unfold rec_hdr; simpl; lia).
    repeat split; [done|done|lia|done].
  - destruct (Hhead 5 ltac:(lia)) as (s1 & E & H5 & Hp & Hz & Hh).
    specialize (Hh eq_refl). change (take (Z.to_nat 5) h) with h in E.
    exists (TlsSt j (5 + zlen bd) h). split; [|repeat split].
    unfold tls_record. fold h. rewrite take_app_ge by (unfold h, rec_hdr; simpl; lia).
    rewrite tls_bytes_app, E. change (length h) with 5%nat.
    replace (Z.to_nat j - 5)%nat with (S (Z.to_nat (j - 6))) by lia.
    destruct bd as [|x body]; [by destruct Hb|]. rewrite firstn_cons.
    cbn [tls_bytes]. unfold tls_byte. rewrite Hp. change (5 <? 5) with false. cbn [andb].
    change (5 <? 5) with false. rewrite Hp. change (5 <? 5) with false.
    change (5 =? 5) with true. cbv iota. rewrite Hh. cbn [ts_rec ts_size ts_pos].
    assert (Eh : be16 h 3 = zlen (x :: body)).
    { unfold h, rec_hdr. pose proof (hi_lo (zlen (x :: body)) ltac:(lia)) as E'.
      unfold be16, byte_at. simpl. lia. }
    rewrite Eh. change (byte_at h 0) with t.
    rewrite (proj2 (Z.ltb_ge t 20)), (proj2 (Z.ltb_ge 24 t)), (proj2 (Z.leb_gt _ 5)) by lia.
    cbn [orb]. rewrite zlen_cons in *.
    rewrite tls_bytes_body; simpl ts_pos; simpl ts_size; simpl ts_rec; [|lia|].
    + rewrite zlen_take by lia. f_equal. f_equal; lia.
    + rewrite zlen_take by lia. lia.
Qed.

Lemma zlen_rec_bytes r : zlen (rec_bytes r) = 5 + zlen (rc_body r).
Proof. unfold rec_bytes, tls_record. by rewrite zlen_app. Qed.

Lemma tls_bytes_records rs s : Forall rec_valid rs -> between s ->
  exists s', tls_bytes (concat (map rec_bytes rs)) s = inr s' /\ between s' /\ (rs = [] -> s' = s).
Proof.
  revert s. induction rs as [|r rs IH]; intros s Hrs Hs; [by exists s|].
  apply Forall_cons in Hrs as [Hr Hrs].
  assert (Hb : 0 < zlen (rc_body r)) by (destruct Hr; lia).
  destruct (tls_bytes_prefix r s (5 + zlen (rc_body r)) Hr Hs ltac:(lia)) as (s1 & E & H5 & Hp & Hz).
  rewrite (proj2 (Z.leb_gt _ 5)) in Hz by lia.
  rewrite take_ge in E by (pose proof (zlen_rec_bytes r); unfold zlen in *; lia).
  destruct (IH s1 Hrs) as (s2 & E2 & Hs2 & _); [split; [done|right; lia]|].
  exists s2. change (concat (map rec_bytes (r :: rs))) with (rec_bytes r ++ concat (map rec_bytes rs)). rewrite tls_bytes_app, E. done.
Qed.
