(* ===== verification/DesyncProps.v ===== *)
(** The properties of desync.c, with their witnesses. *)
From S2P Require Import Prelude CMem Sys Mpool PktTls PktHttp PktFake State Conev Desync.
From S2P Require Import StateFacts TimerFacts BufFacts PoolFacts PktTlsFacts PktHttpFacts DesyncFacts.
From S2P Require Import Socks Extend Proxy PoolProps.
#[local] Open Scope Z_scope.
#[local] Open Scope list_scope.

(** A connection whose first bytes are about to be sent: the remote event [val]
    (descriptor [fd]), its client [q] with the group [dp], the bytes received. *)
Record first_send (w : world) (val q bid : nat) (fd : Z) (dp : desync_params) (b : buffer) (np : Z) : Prop := {
  fs_val : exists e, pl_items (w_pool w) !! val = Some e /\ ev_fd e = fd /\ ev_pair e = Some q /\
    ev_restore_fake e = None;
  fs_pair : exists pe d, pl_items (w_pool w) !! q = Some pe /\ ev_dp pe = Some d /\ w_dps w !! d = Some dp /\
    ev_round_sent pe = 0 /\ ev_part_sent pe = 0;
  fs_buf : w_bufs w !! bid = Some b;
  fs_data : bytes_ok (b_data b) /\ zlen (b_data b) = b_size b /\ b_size b < 2 ^ 63;
  fs_np : 0 <= b_offset b <= np /\ np <= b_size b;
  fs_timers : exists l, timers_ok (w_pool w) l;
}.

Section desync.
Context {CA : CharAbi} {OS : Os}.

(** What [desync] did: [ret] bytes it reports, [k] bytes of the buffer it leaves
    behind, from the offset on, in the server's stream. *)
Record desynced (fd off : Z) (h : hist) (ret n : Z) (buffer : list Z) (h' : hist) (k : Z) : Prop := {
  dn_ret : -1 <= ret <= n - off;
  dn_sent : 0 <= k <= n - off;
  dn_stream : stream fd h' = stream fd h ++ slice buffer off k;
  (** all it reports is in the stream, unless the last [send] was short *)
  dn_exact : ret = -1 \/ ret = k \/ (ret = n - off /\ k < ret /\
    exists lp r h0, h' = (CSend fd (slice buffer lp (n - lp)) 0, r) :: h0 /\ 0 <= rv r < n - lp);
}.

Lemma wpp_desync val q bid fd dp b np w h :
  sends_ok -> (forall h, 0 < rv (os_reply h CTimeMs) + pr_await_int (w_params w)) ->
  plain_group dp -> first_send w val q bid fd dp b np ->
  wpp (desync val bid np) w h (fun '(ret, n, _) w' h' =>
    exists buffer k, w_bufs w' !! bid = Some (b <| b_data := buffer |>) /\
      np <= n <= b_size b /\ zlen buffer = b_size b /\ desynced fd (b_offset b) h ret n buffer h' k).
Proof.
  intros Hsend Hclock Hpl [(e & He & Efd & Eq & Erf) (pe & d & Hpe & Ed & Hd & Ers & Eps) Hbuf
    (Hb & Hz & Hmax) (Hoff & Hnp) (l & Hl)].
  unfold desync. apply wpp_bind. eapply wpp_gev; [exact He|]. apply wpp_bind. eapply wpp_deref; [exact Eq|].
  apply wpp_bind. eapply wpp_gev; [exact Hpe|]. apply wpp_bind. eapply wpp_deref; [exact Ed|].
  apply wpp_bind. eapply wpp_gdp; [exact Hd|]. apply wpp_bind. eapply wpp_gbuf; [exact Hbuf|].
  rewrite Ers. change (truthy 0) with false. cbv iota. cbv zeta.
  apply wpp_bind, wpp_bind, wpp_lift, wp_init_proto_info; [done|lia|]. intros info0.
  apply wpp_bind. eapply wpp_mono; [apply (wpp_tamp (b_size b) np); [done|lia|done|done|lia|done]|].
  intros [[buffer n] info] w1 h1 [-> (Hb1 & Hz1 & Hn & E1)].
  apply wpp_bind. eapply wpp_mbuf; [exact Hbuf|]. apply wpp_ret.
  set (b1 := b <| b_data := buffer |>). set (w2 := upd_buf bid b1 w).
  rewrite Efd, Eps. set (c := Dctx _ _ _ _ _ _ _ _ _ _).
  assert (Hs : sending w2 val q bid b1).
  { split; [by exists e|by eexists|simpl; by rewrite lookup_insert_eq|by exists l]. }
  apply wpp_bind. eapply wpp_mono.
  { apply (wpp_parts_loop c b1 (w_params w) (stream fd h)); [done|done|exact Hb1|by symmetry|simpl; lia|simpl; lia|done
      |by split| |simpl; lia|done|by destruct Hpl|done|lia].
    simpl. by rewrite E1, Z.sub_diag, slice_0, app_nil_r. }
  intros o w3 h3 [Hb3 Ho]. unfold c in Ho, Hb3. simpl in Ho, Hb3.
  assert (Hres : forall (ret : Z) (wait : bool) h' k, desynced fd (b_offset b) h ret n buffer h' k ->
    wpp (mret (ret, n, wait)) w3 h' (fun '(ret, n, _) w' h' => exists buffer k,
      w_bufs w' !! bid = Some (b <| b_data := buffer |>) /\ np <= n <= b_size b /\ zlen buffer = b_size b /\
      desynced fd (b_offset b) h ret n buffer h' k)).
  { intros ret wait h' k Hd'. apply wpp_ret. exists buffer, k. repeat (split; [done|]). done. }
  destruct o as [[ret wait]|lp].
  - destruct Ho as (k & Hret & Hk & Hu). apply (Hres _ _ _ k). split; [lia|done| |destruct Hret; auto].
    by replace (b_offset b + k - b_offset b) with k in Hu by lia.
  - destruct Ho as (Hlp & Hu).
    assert (Hstay : forall ret, ret = -1 \/ ret = lp - b_offset b -> forall h', stream fd h' = stream fd h3 ->
      desynced fd (b_offset b) h ret n buffer h' (lp - b_offset b)).
    { intros ret Hret h' E'. split; [lia|lia|congruence|]. destruct Hret; auto. }
    destruct (Z.ltb_spec lp n); [|apply (Hres _ _ _ (lp - b_offset b)), Hstay; [right; lia|done]].
    apply wpp_bind. eapply wpp_gbuf; [exact Hb3|].
    apply (wpp_assoc (lift (rd_list buffer lp (n - lp))) (fun d => send_ fd d 0)).
    apply wpp_bind, wpp_send_plain; [done|lia|lia|simpl; lia|]. intros s h4 [Hs4 E4] (r & -> & ->).
    destruct (Z.ltb_spec (rv r) 0).
    + apply wpp_bind, wpp_errno. rewrite Z.max_l, slice_0, app_nil_r in E4 by lia.
      destruct (_ =? EAGAIN); apply (Hres _ _ _ (lp - b_offset b)), Hstay; auto.
    + rewrite Z.max_r in E4 by lia. change (b_offset b1) with (b_offset b).
      apply (Hres _ _ _ (lp - b_offset b + rv r)). split; [lia|lia| |].
      * rewrite E4, Hu, <- app_assoc. f_equal.
        replace lp with (b_offset b + (lp - b_offset b)) at 2 by lia. rewrite slice_app by lia. done.
      * right. destruct (decide (rv r = n - lp)); [left; lia|right]. split; [lia|]. split; [lia|].
        exists lp, r, h3. split; [done|lia].
Qed.
End desync.

(** ** A connection with two parts, and what [on_tunnel] makes of it *)
Fixpoint sends (h : hist) : Z :=
  match h with [] => 0 | (CSend _ _ _, _) :: h => sends h + 1 | _ :: h => sends h end.
(** the first [send] takes all, the second as [second] says, the others all *)
Definition os2 (second : Z -> ret) : Os := fun h c => match c with
  | CSend _ d _ => if sends h =? 1 then second (zlen d) else Ret (zlen d) 0 []
  | CTimeMs => Ret (1000 + zlen h) 0 []
  | CMalloc _ => Ret 64 0 []
  | CRecv _ _ => Ret (-1) EAGAIN []
  | _ => Ret 0 0 []
  end.
Definition os_all : Os := os2 (fun n => Ret n 0 []).

Definition group2 : desync_params :=
  desync_params0 <| dp_parts := [Part DESYNC_SPLIT 0 2 1 0; Part DESYNC_DISORDER 0 4 1 0] |>.
Definition buff6 : buffer := Buffer 16 0 6 None ([11; 12; 13; 14; 15; 16] ++ replicate 10 0).
Definition set_item (i : nat) (f : eval -> eval) (w : world) : world :=
  w <| w_pool := (w_pool w) <| pl_items := alter f i (pl_items (w_pool w)) |> |>.
(** item 0 is the client (descriptor 11), item 1 the server's side (12) *)
Definition sending_world : world :=
  set_item 0 (fun e => e <| ev_dp := Some 0%nat |> <| ev_recv_count := 60 |> <| ev_buff := Some 7%nat |>)
    (set_item 1 (fun e => e <| ev_flag := FLAG_CONN |>) pair_world)
    <| w_dps := {[0%nat := group2]} |> <| w_bufs := {[7%nat := buff6]} |> <| w_fresh := 8%nat |>
    <| w_params := params0 <| pr_bfsize := 16 |> <| pr_def_ttl := 64 |> |>.

Lemma set_item_timers i f w l :
  (forall e, tv_fields (f e) = tv_fields e) -> timers_ok (w_pool w) l -> timers_ok (w_pool (set_item i f w)) l.
Proof.
  intros Hf Hl. eapply timers_ok_ext; [| | |exact Hl]; [|done|done]. intros j. simpl.
  destruct (decide (j = i)) as [->|].
  - rewrite list_lookup_alter_eq. destruct (pl_items (w_pool w) !! i); simpl; [by rewrite Hf|done].
  - by rewrite list_lookup_alter_ne.
Qed.

Lemma sending_world_ready : first_send sending_world 1 0 7 12 group2 buff6 6.
Proof.
  split.
  - eexists. split; [vm_compute; reflexivity|]. done.
  - eexists _, 0%nat. split; [vm_compute; reflexivity|]. done.
  - done.
  - split; [|done]. repeat constructor; vm_compute; congruence.
  - vm_compute. repeat split; congruence.
  - exists []. apply (set_item_timers 0); [done|]. apply (set_item_timers 1); [done|].
    apply (pi_timers _ _ _ _ pair_world_inv).
Qed.
Lemma group2_plain : plain_group group2.
Proof. repeat split; try done; repeat constructor; done. Qed.

(** C1: the desync methods keep the bytes. On the first bytes of a connection, for any
    group without decoys and random positions (splits, reordering by TTL,
    out-of-band bytes, TLS record splitting, repeats) and any answers of the
    kernel, [desync] returns, the in-band bytes the server's socket got are, in
    order and each once, a prefix of what lies in the buffer from the offset on,
    and the count it reports is exactly that, unless the last, plain [send] was
    short. *)
Theorem desync_sends_in_order {CA : CharAbi} {OS : Os} val q bid fd dp b np w h :
  sends_ok -> (forall h, 0 < rv (os_reply h CTimeMs) + pr_await_int (w_params w)) ->
  plain_group dp -> first_send w val q bid fd dp b np ->
  exists ret n wait w' h' buffer k, desync val bid np w h = Ok ((ret, n, wait), w', h') /\
    w_bufs w' !! bid = Some (b <| b_data := buffer |>) /\ np <= n <= b_size b /\ zlen buffer = b_size b /\
    -1 <= ret <= n - b_offset b /\ 0 <= k <= n - b_offset b /\
    stream fd h' = stream fd h ++ slice buffer (b_offset b) k /\
    (ret = -1 \/ ret = k \/ (ret = n - b_offset b /\ k < ret /\
      exists lp r h0, h' = (CSend fd (slice buffer lp (n - lp)) 0, r) :: h0 /\ 0 <= rv r < n - lp)).
Proof.
  intros H1 H2 H3 H4. destruct (wpp_inv _ _ _ _ (wpp_desync val q bid fd dp b np w h H1 H2 H3 H4))
    as ([[ret n] wait] & w' & h' & E & buffer & k & ? & ? & ? & []).
  exists ret, n, wait, w', h', buffer, k. by repeat (split; [done|]).
Qed.

Lemma desync_sends_in_order_witness :
  exists w' h', desync (CA := true) (OS := os_all) 1 7 6 sending_world [] = Ok ((6, 6, false), w', h') /\
    stream 12 h' = [11; 12; 13; 14; 15; 16].
Proof.
  destruct (desync_sends_in_order (CA := true) (OS := os_all) 1 0 7 12 group2 buff6 6 sending_world [])
    as (ret & n & wait & w' & h' & buffer & k & E & _ & _ & _ & _ & _ & Es & _).
  - intros h fd d fl. cbn -[zlen]. pose proof (zlen_nonneg d). destruct (_ =? _); cbn -[zlen]; lia.
  - intros h. cbn -[zlen]. pose proof (zlen_nonneg h). lia.
  - exact group2_plain.
  - exact sending_world_ready.
  - exists w', h'. assert (Er : match desync (CA := true) (OS := os_all) 1 7 6 sending_world [] with
        Ok (a, _, h) => (a, stream 12 h) | _ => (0, 0, true, []) end = (ret, n, wait, stream 12 h')) by (by rewrite E).
    vm_compute in Er. injection Er as <- <- <- Er. by split.
Defined.



(** The tail of the request is lost when the last [send] is short: [desync]
    reports all the bytes as sent. *)
Theorem short_last_send_is_lost {CA : CharAbi} :
  let OS := os2 (fun _ => Ret 1 0 []) in
  let w := sending_world <| w_dps := {[0%nat := group2 <| dp_parts := [Part DESYNC_SPLIT 0 2 1 0] |>]} |> in
  exists w' h', desync 1 7 6 w [] = Ok ((6, 6, false), w', h') /\ stream 12 h' = [11; 12; 13].
Proof. do 2 eexists. split; vm_compute; reflexivity. Qed.
