(* ===== verification/ExtendProps.v ===== *)
(** The properties of extend.c, with their witnesses. *)
From S2P Require Import Prelude CMem Sys Mpool PktTls PktHttp PktFake State Conev Desync Socks Extend.
From S2P Require Import MpoolFacts PktTlsFacts DesyncFacts ExtendFacts PoolProps.
#[local] Open Scope Z_scope.
#[local] Open Scope list_scope.

(** The loop of [try_set_tls_timer] over one received chunk. *)
Definition tls_chunk (chunk : list Z) (s : tls_st) : res (tls_st + tls_st) :=
  tls_rec_loop (S (2 * length chunk)) chunk (zlen chunk) 0 s.

Lemma tls_chunk_eq chunk s : tls_wf s -> chunk <> [] -> tls_chunk chunk s = Ok (tls_bytes chunk s).
Proof.
  intros Hw Hne. unfold tls_chunk. assert (0 < zlen chunk) by (destruct chunk; [done|rewrite zlen_cons; pose proof (zlen_nonneg chunk); lia]).
  rewrite tls_rec_loop_eq; [|done|lia|lia|].
  2: { unfold zlen. destruct (_ && _); lia. }
  unfold slice. rewrite Z.sub_0_r. change (drop (Z.to_nat 0) chunk) with chunk.
  rewrite (take_ge chunk) by (unfold zlen; lia). done.
Qed.

(** C32: how the server's bytes are cut into chunks does not matter. For any state the
    tracker can be in and any two chunks, the loop (which terminates within its
    bytes and never reads beyond them) ends on both together as it does on the
    second from where the first left it, refusals included. *)
Theorem tls_tracker_chunks a b s :
  tls_wf s -> a <> [] -> b <> [] ->
  exists o, tls_chunk a s = Ok o /\
    match o with
    | inl s' => tls_chunk (a ++ b) s = Ok (inl s')
    | inr s' => tls_wf s' /\ tls_chunk (a ++ b) s = tls_chunk b s' /\ exists o2, tls_chunk b s' = Ok o2
    end.
Proof.
  intros Hw Ha Hb. exists (tls_bytes a s). split; [by apply tls_chunk_eq|].
  assert (Hab : a ++ b <> []) by (by destruct a).
  rewrite (tls_chunk_eq (a ++ b)) by done. rewrite tls_bytes_app.
  destruct (tls_bytes a s) as [s'|s'] eqn:E; [done|]. pose proof (tls_bytes_wf a s s' Hw E).
  rewrite tls_chunk_eq by done. split; [done|]. split; [done|]. by eexists.
Qed.

Definition tls_start : tls_st := TlsSt 0 0 (replicate 5 0).
Lemma tls_start_wf : tls_wf tls_start.
Proof. done. Qed.

Lemma tls_tracker_chunks_witness :
  let a := [22; 3; 3; 0] in let b := [2; 14; 15; 23; 3; 3; 0; 9; 1] in
  exists s', tls_chunk a tls_start = Ok (inr s') /\ tls_chunk (a ++ b) tls_start = tls_chunk b s'.
Proof.
  intros a b. destruct (tls_tracker_chunks a b tls_start tls_start_wf) as (o & E & Ho); [done|done|].
  assert (E' : tls_chunk a tls_start = Ok (inr (TlsSt 4 0 [22; 3; 3; 0; 0]))) by (vm_compute; reflexivity).
  rewrite E' in E. injection E as <-. exists (TlsSt 4 0 [22; 3; 3; 0; 0]). split; [exact E'|]. by destruct Ho as (_ & ? & _).
Defined.

(** The tracker knows whether a record is open. From the start or after a whole
    record, on a chunk made of any number of valid records (types 20 to 24, bodies
    that are not empty) and a proper prefix of another, it accepts the chunk, and its
    position equals the record size, so that no timer is armed, exactly when the
    prefix is empty; otherwise the position is the length of that prefix. *)
Theorem tls_tracker_records rs r j s :
  Forall rec_valid rs -> rec_valid r -> between s -> 0 <= j < 5 + zlen (rc_body r) ->
  let chunk := concat (map rec_bytes rs) ++ take (Z.to_nat j) (rec_bytes r) in
  chunk <> [] ->
  exists s', tls_chunk chunk s = Ok (inr s') /\ (ts_pos s' = ts_size s' <-> j = 0) /\ (0 < j -> ts_pos s' = j).
Proof.
  intros Hrs Hr Hs Hj chunk Hne. rewrite tls_chunk_eq by (done || by apply between_wf). unfold chunk.
  destruct (tls_bytes_records rs s Hrs Hs) as (s1 & E1 & Hs1 & _). rewrite tls_bytes_app, E1.
  destruct (decide (j = 0)) as [->|Hj0].
  - exists s1. split; [done|]. split; [|lia]. split; [done|]. intros _. destruct Hs1 as [_ Hs1]. lia.
  - destruct (tls_bytes_prefix r s1 j Hr Hs1 ltac:(lia)) as (s2 & E2 & _ & Hp & Hz).
    exists s2. rewrite E2. split; [done|]. rewrite Hp, Hz. split; [|done].
    split; [|lia]. destruct (Z.leb_spec j 5); lia.
Qed.

Lemma tls_tracker_records_witness :
  let r := TlsRec 22 3 3 [14; 15] in
  exists s', tls_chunk (rec_bytes r ++ rec_bytes r ++ [22; 3; 3]) tls_start = Ok (inr s') /\ ts_pos s' = 3.
Proof.
  intros r. assert (Hr : rec_valid r) by (by split).
  destruct (tls_tracker_records [r; r] r 3 tls_start) as (s' & E & _ & Hp).
  - by repeat constructor.
  - exact Hr.
  - split; [done|]. by left.
  - by split.
  - done.
  - exists s'. split; [exact E|]. by apply Hp.
Defined.

(** ** The cache *)
Definition os_time (t : Z) : Os := fun h c => match c with
  | CTime => Ret t 0 []
  | CMalloc _ => Ret (4096 + 64 * zlen h) 0 []
  | _ => Ret 0 0 []
  end.
Definition host_a : sockaddr_u := Sockaddr AF_INET 47873 ([10; 0; 0; 1] ++ replicate 20 0).
Definition host_b : sockaddr_u := Sockaddr AF_INET 47873 ([10; 0; 0; 2] ++ replicate 20 0).
(** A group whose entries live for ten seconds, and two destinations cached for it. *)
Definition cache_world {CA : CharAbi} : world :=
  world_of pair_world ((a ← cache_add (OS := os_time 100) host_a 0;
    match a with Some a => melem_dp a 1 (Some 0%nat) 0 | None => mret tt end;;
    b ← cache_add (OS := os_time 100) host_b 0;
    match b with Some b => melem_dp b 1 (Some 0%nat) 0 | None => mret tt end)
    (pair_world <| w_dps := {[0%nat := desync_params0 <| dp_cache_ttl := 10 |>]} |>
                <| w_params := params0 <| pr_mempool := Some (Mphdr MF_EXTRA CMP_BITS 0 Leaf) |> |>) []).
Definition cached (w : world) : list (list Z) :=
  match pr_mempool (w_params w) with Some h => map el_data (elems (mp_root h)) | None => [] end.

(** A cached choice is found until it expires, and its expiry removes another one:
    [cache_get] gives [mem_delete] the length of the key in bytes where the pool
    counts bits, so that of two cached destinations the one whose entry is at the
    root goes, and the expired one stays. *)
Theorem cache_expiry_evicts_other {CA : CharAbi} :
  cached cache_world = [serialize_addr host_a; serialize_addr host_b] /\
  (exists e w' h', cache_get (OS := os_time 105) host_b cache_world [] = Ok (Some e, w', h') /\
     el_data e = serialize_addr host_b /\ el_dp e = Some 0%nat /\ cached w' = cached cache_world) /\
  exists w' h', cache_get (OS := os_time 500) host_b cache_world [] = Ok (None, w', h') /\
     cached w' = [serialize_addr host_b].
Proof.
  split; [|split].
  - destruct CA; vm_compute; reflexivity.
  - destruct CA; do 3 eexists; (split; [vm_compute; reflexivity|]); repeat split; vm_compute; reflexivity.
  - destruct CA; do 2 eexists; (split; [vm_compute; reflexivity|]); vm_compute; reflexivity.
Qed.
