(* ===== verification/JniFacts.v ===== *)
(** What the configuration of ciadpi_jni.c becomes: rules for [init_params] and for
    the strings of the settings. *)
From S2P Require Import Prelude CMem Sys Mpool PktTls PktHttp PktFake State Conev Desync Socks Extend Proxy Jni.
From S2P Require Import StateFacts.
From Stdlib Require Import String.
#[local] Open Scope Z_scope.
#[local] Open Scope list_scope.
#[local] Abbreviation length := (@Datatypes.length _).

(** ** The group a configuration asks for *)
Definition fake_part (cfg : JniConfig) : list part :=
  if truthy (j_fake_enabled cfg) && negb (bool_decide (pt_m (primary_part cfg) = DESYNC_FAKE))
  then [Part DESYNC_FAKE (pt_flag (primary_part cfg)) (pt_pos (primary_part cfg)) 1 0] else [].
Definition group_of (cfg : JniConfig) : desync_params :=
  desync_params0 <| dp_bit := 1 |> <| dp_oob_char := (97, 0) |>
    <| dp_parts := fake_part cfg ++ [primary_part cfg] |>
    <| dp_ttl := if truthy (j_fake_enabled cfg) then (if 0 <? j_fake_ttl cfg then j_fake_ttl cfg else 6) else 0 |>
    <| dp_drop_sack := truthy (j_drop_sack cfg) |>
    <| dp_tlsrec := if 0 <? j_tlsrec_pos cfg
                    then [Part DESYNC_SPLIT (j_tlsrec_flag cfg) (j_tlsrec_pos cfg) 1 0] else [] |>
    <| dp_udp_fake_count := if 0 <? j_udp_fake_count cfg then j_udp_fake_count cfg else 0 |>
    <| dp_mod_http := j_mod_http cfg |>.
Definition params_of (cfg : JniConfig) (ttl : Z) (d : option nat) : params_t :=
  params0 <| pr_mode := MODE_SOCKS5 |> <| pr_resolve := true |>
    <| pr_ipv6 := truthy (j_ipv6_enabled cfg) |> <| pr_udp := true |>
    <| pr_max_open := 512 |> <| pr_bfsize := 16384 |> <| pr_def_ttl := ttl |>
    <| pr_baddr := Sockaddr AF_INET6 0 (replicate 24 0) |>
    <| pr_protect_path := if 0 <? zlen (j_protect_path cfg) then Some (j_protect_path cfg) else None |>
    <| pr_mempool := Some (Mphdr MF_EXTRA CMP_BITS 0 Leaf) |>
    <| pr_dp := d |> <| pr_dp_n := match d with Some _ => 1 | None => 0 end |>
    <| pr_dp_full_mask := match d with Some _ => 1 | None => 0 end |>.

Section init.
Context {CA : CharAbi} {OS : Os}.
Context (Hmalloc : forall h n, rv (os_reply h (CMalloc n)) <> 0).
Implicit Types (w : world) (h : hist).

Lemma wpp_malloc n w h (Q : bool -> world -> hist -> Prop) :
  (forall h', Q true w h') -> wpp (malloc_ok n) w h Q.
Proof.
  intros HQ. apply wpp_bind, wpp_syscall, wpp_ret. unfold truthy.
  rewrite (proj2 (Z.eqb_neq _ 0)) by apply Hmalloc. apply HQ.
Qed.
Lemma wpp_checkpoint w h (Q : unit -> world -> hist -> Prop) :
  (forall h', Q tt w h') -> wpp checkpoint w h Q.
Proof. intros HQ. apply wpp_bind, wpp_syscall, wpp_ret, HQ. Qed.
Lemma wpp_default_ttl w h (Q : Z -> world -> hist -> Prop) :
  (forall ttl h', 0 < ttl -> Q ttl w h') -> wpp detect_default_ttl w h Q.
Proof.
  intros HQ. unfold detect_default_ttl, close_. wpp_go; apply HQ; [lia|].
  destruct (_ || _) eqn:E; [lia|]. apply orb_false_iff in E as [_ E]. by apply Z.leb_gt.
Qed.
Lemma wpp_fake_tls len w h (Q : Z * packet -> world -> hist -> Prop) :
  0 <= len -> (forall d h', Q (0, Packet 517 (Some (tls_data ++ d)) 0) w h') -> wpp (fake_tls_init len) w h Q.
Proof.
  intros Hl HQ. unfold fake_tls_init, alloc. apply wpp_bind, wpp_bind, wpp_syscall, wpp_ret.
  rewrite (proj2 (Z.eqb_neq _ 0)) by apply Hmalloc. set (n := if len <? 517 then 517 else len).
  assert (517 <= n) by (unfold n; destruct (Z.ltb_spec len 517); lia).
  apply wpp_bind, wpp_lift. rewrite wr_list_ok; [|lia|rewrite zlen_replicate; change (zlen tls_data) with 517; lia].
  apply wp_ok, wpp_ret. apply HQ.
Qed.
Lemma wpp_fake_http w h (Q : Z * packet -> world -> hist -> Prop) :
  (forall h', Q (0, Packet 43 (Some http_data) 0) w h') -> wpp fake_http_init w h Q.
Proof.
  intros HQ. unfold fake_http_init, alloc. apply wpp_bind, wpp_bind, wpp_syscall, wpp_ret.
  rewrite (proj2 (Z.eqb_neq _ 0)) by apply Hmalloc. apply wpp_bind, wpp_lift.
  change (wr_list _ 0 http_data) with (Ok http_data). apply wp_ok, wpp_ret, HQ.
Qed.

Definition base_world (cfg : JniConfig) (ttl : Z) (w : world) : world :=
  w <| w_params := params_of cfg ttl None |> <| w_fake_tls := packet0 |> <| w_fake_http := packet0 |>
    <| w_fake_udp := packet0 |>.
Lemma wpp_init_base cfg w h (Q : unit -> world -> hist -> Prop) :
  (forall ttl h', 0 < ttl -> Q tt (base_world cfg ttl w) h') -> wpp (init_base cfg) w h Q.
Proof.
  intros HQ. unfold init_base. repeat wpp_go1. apply wpp_default_ttl. intros ttl h1 Ht.
  apply wpp_bind, wpp_mparams.
  assert (Hlast : forall w1 h1, pr_mempool (w_params w1) = None ->
    (forall h2, Q tt (w1 <| w_params := (w_params w1) <| pr_mempool := Some (Mphdr MF_EXTRA CMP_BITS 0 Leaf) |> |>) h2) ->
    wpp (p ← gpar; if bool_decide (pr_mempool p = None)
      then m ← mem_pool MF_EXTRA CMP_BITS; mparams (fun p => p <| pr_mempool := m |>) else mret tt) w1 h1 Q).
  { intros w1 h2 E HQ1. apply wpp_bind, wpp_gpar. rewrite E. change (bool_decide (None = None)) with true.
    apply wpp_bind. unfold mem_pool. apply wpp_bind, wpp_syscall, wpp_ret.
    rewrite (proj2 (Z.eqb_neq _ 0)) by apply Hmalloc. apply wpp_mparams, HQ1. }
  apply wpp_bind. destruct (0 <? zlen (j_protect_path cfg)) eqn:Ep.
  - apply wpp_bind, wpp_malloc. intros h2. apply wpp_bind, wpp_mparams, wpp_checkpoint. intros h3.
    apply Hlast; [done|]. intros h4. specialize (HQ ttl h4 Ht). unfold base_world, params_of in HQ. by rewrite Ep in HQ.
  - apply wpp_checkpoint. intros h3.
    apply Hlast; [done|]. intros h4. specialize (HQ ttl h4 Ht). unfold base_world, params_of in HQ. by rewrite Ep in HQ.
Qed.

(** A world that has the parameters, the group [x] at [d], and the decoys. *)
Definition has_group (cfg : JniConfig) (ttl : Z) (d : nat) (x : desync_params) (f : bool) (w : world) : Prop :=
  w_params w = params_of cfg ttl (Some d) /\ w_dps w !! d = Some x /\
  (f = true -> (exists pad, w_fake_tls w = Packet 517 (Some (tls_data ++ pad)) 0) /\
               w_fake_http w = Packet 43 (Some http_data) 0).

Lemma wpp_group_mdp cfg ttl d x f g w h (Q : unit -> world -> hist -> Prop) :
  has_group cfg ttl d x f w -> (forall w', has_group cfg ttl d (g x) f w' -> Q tt w' h) ->
  wpp (mdp d g) w h Q.
Proof.
  intros (Hp & Hx & Hf) HQ. eapply wpp_mdp; [exact Hx|]. apply HQ. split; [done|].
  split; [simpl; by rewrite lookup_insert_eq|done].
Qed.
Lemma wpp_group_if (b : bool) cfg ttl d x f g w h (Q : unit -> world -> hist -> Prop) :
  has_group cfg ttl d x f w -> (forall w', has_group cfg ttl d (if b then g x else x) f w' -> Q tt w' h) ->
  wpp (if b then mdp d g else mret tt) w h Q.
Proof.
  intros Hg HQ. destruct b; [by eapply wpp_group_mdp|]. by apply wpp_ret, HQ.
Qed.

Lemma wpp_init_fake cfg ttl d x w h (Q : unit -> world -> hist -> Prop) :
  has_group cfg ttl d x false w -> dp_parts x = [primary_part cfg] -> dp_ttl x = 0 ->
  (forall w' h', has_group cfg ttl d
     (x <| dp_parts := fake_part cfg ++ [primary_part cfg] |>
        <| dp_ttl := if truthy (j_fake_enabled cfg) then (if 0 <? j_fake_ttl cfg then j_fake_ttl cfg else 6) else 0 |>)
     (truthy (j_fake_enabled cfg)) w' -> Q tt w' h') ->
  wpp (init_fake cfg d true) w h Q.
Proof.
  intros Hg Hparts Httl HQ. unfold init_fake, fake_part in *.
  destruct (truthy (j_fake_enabled cfg)) eqn:Ef.
  2: { apply wpp_ret, HQ. simpl. replace (x <| dp_parts := _ |> <| dp_ttl := 0 |>) with x; [done|].
       rewrite <- Hparts, <- Httl. by destruct x. }
  apply wpp_bind. eapply wpp_group_mdp; [exact Hg|]. intros w1 Hg1. rewrite andb_true_r. simpl in HQ.
  assert (Htail : forall w2 h2 x2, has_group cfg ttl d x2 false w2 ->
    (forall w' h', has_group cfg ttl d x2 true w' -> Q tt w' h') ->
    wpp ('(_, t) ← fake_tls_init 1024; pmod (fun w => w <| w_fake_tls := t |>);;
         '(_, hp) ← fake_http_init; pmod (fun w => w <| w_fake_http := hp |>)) w2 h2 Q).
  { intros w2 h2 x2 (Hp2 & Hx2 & _) HQ2. apply wpp_bind, wpp_fake_tls; [lia|]. intros pad h3.
    apply wpp_bind, wpp_pmod, wpp_bind, wpp_fake_http. intros h4. apply wpp_pmod, HQ2.
    split; [done|]. split; [done|]. intros _. by split; [exists pad|]. }
  apply wpp_bind. destruct (negb (bool_decide (pt_m (primary_part cfg) = DESYNC_FAKE))) eqn:En.
  - apply wpp_bind, wpp_malloc. intros h2. eapply wpp_group_mdp; [exact Hg1|]. intros w2 Hg2.
    eapply Htail; [exact Hg2|]. intros w3 h3 Hg3. apply HQ. rewrite <- Hparts. exact Hg3.
  - apply wpp_ret. eapply Htail; [exact Hg1|]. intros w3 h3 Hg3. apply HQ. simpl app. rewrite <- Hparts.
    replace (x <| dp_parts := dp_parts x |>) with x by (by destruct x). exact Hg3.
Qed.

(** [H] is about the goal's group, written otherwise. *)
Ltac same_group H :=
  match goal with
  | |- has_group _ _ _ ?a _ _ =>
      match type of H with has_group _ _ _ ?b _ _ => replace a with b; [exact H|vm_compute; reflexivity] end
  end.

Lemma mod_http_if y m : dp_mod_http y = 0 ->
  (if truthy m then y <| dp_mod_http := m |> else y) = y <| dp_mod_http := m |>.
Proof.
  intros E. unfold truthy. destruct (Z.eqb_spec m 0) as [->|]; simpl; [|done].
  rewrite <- E. by destruct y.
Qed.

Lemma wpp_init_params cfg w h :
  wpp (init_params cfg) w h (fun _ w' _ => exists ttl, 0 < ttl /\
    has_group cfg ttl (w_fresh w) (group_of cfg) (truthy (j_fake_enabled cfg)) w').
Proof.
  unfold init_params. apply wpp_bind, wpp_init_base. intros ttl h1 Httl.
  apply wpp_bind, wpp_malloc. intros h2. cbn [negb]. cbv iota. apply wpp_bind, wpp_pget, wpp_bind, wpp_pmod.
  apply wpp_bind, wpp_mparams. set (x0 := desync_params0 <| dp_bit := 1 |> <| dp_id := 0 |> <| dp_oob_char := (97, 0) |>).
  match goal with |- wpp _ ?a _ _ => set (w1 := a) end.
  assert (H1 : has_group cfg ttl (w_fresh w) x0 false w1).
  { split; [unfold w1; vm_compute; reflexivity|]. split; [|done]. apply lookup_insert_eq. }
  clearbody w1. apply wpp_bind, wpp_malloc. intros h3.
  apply wpp_bind. eapply (wpp_group_if true); [exact H1|]. intros w2 H2.
  apply wpp_bind. eapply wpp_group_if; [exact H2|]. intros w3 H3.
  apply wpp_bind. eapply wpp_init_fake; [exact H3|destruct (truthy (j_drop_sack cfg)); reflexivity..|]. intros w4 h4 H4.
  apply wpp_bind. apply wpp_mono with (fun _ w5 _ => has_group cfg ttl (w_fresh w)
    (x0 <| dp_parts := fake_part cfg ++ [primary_part cfg] |>
      <| dp_ttl := if truthy (j_fake_enabled cfg) then (if 0 <? j_fake_ttl cfg then j_fake_ttl cfg else 6) else 0 |>
      <| dp_drop_sack := truthy (j_drop_sack cfg) |>
      <| dp_tlsrec := if 0 <? j_tlsrec_pos cfg
                      then [Part DESYNC_SPLIT (j_tlsrec_flag cfg) (j_tlsrec_pos cfg) 1 0] else [] |>)
    (truthy (j_fake_enabled cfg)) w5).
  { destruct (0 <? j_tlsrec_pos cfg).
    - apply wpp_bind, wpp_malloc. intros h5. eapply wpp_group_mdp; [exact H4|]. intros w5 H5.
      destruct (truthy (j_drop_sack cfg)); same_group H5.
    - apply wpp_ret. destruct (truthy (j_drop_sack cfg)); same_group H4. }
  intros _ w5 h5 H5. apply wpp_bind. eapply wpp_group_if; [exact H5|]. intros w6 H6.
  eapply wpp_group_if; [exact H6|]. intros w7 H7. exists ttl. split; [done|].
  rewrite mod_http_if in H7 by (by destruct (0 <? j_udp_fake_count cfg)). unfold group_of.
  destruct (0 <? j_udp_fake_count cfg); same_group H7.
Qed.
End init.
