(* ===== verification/JniProps.v ===== *)
(** The properties of ciadpi_jni.c, with their witnesses. *)
From S2P Require Import Prelude CMem Sys Mpool PktTls PktHttp PktFake State Conev Desync Socks Extend Proxy Jni.
From S2P Require Import StateFacts TimerFacts BufFacts PoolFacts PktTlsFacts PktHttpFacts DesyncFacts PoolProps DesyncProps JniFacts.
From Stdlib Require Import String.
#[local] Open Scope Z_scope.
#[local] Open Scope list_scope.
#[local] Abbreviation length := (@Datatypes.length _).


Definition cfg_demo : JniConfig :=
  jni_config0 <| j_split_pos := 1 |> <| j_disorder := 1 |> <| j_fake_enabled := 1 |> <| j_tlsrec_pos := 3 |>
    <| j_tlsrec_flag := OFFSET_SNI |> <| j_protect_path := [47; 112] |>.

(** Every connection gets that group. Under the parameters of a configuration,
    for a client whose mask is still empty, [find_dp] answers the group, whatever
    the destination and the first bytes, and changes nothing; once the group has
    been tried and refused it answers none. *)
Theorem configured_group_serves {CA : CharAbi} cfg ttl d client c buff n dst w h :
  w_params w = params_of cfg ttl (Some d) -> w_dps w !! d = Some (group_of cfg) ->
  pl_items (w_pool w) !! client = Some c -> ev_dp c = None \/ ev_dp c = Some d ->
  (forall b, ev_buff c = Some b -> is_Some (w_bufs w !! b)) -> ev_dp_mask c = 0 \/ ev_dp_mask c = 1 ->
  find_dp client buff n dst w h = Ok (if ev_dp_mask c =? 0 then Some d else None, w, h).
Proof.
  intros Hp Hd Hc Hdp Hb Hm.
  assert (Hpr : pr_dp (w_params w) = Some d) by (by rewrite Hp).
  assert (Hfm : pr_dp_full_mask (w_params w) = 1) by (by rewrite Hp).
  enough (W : wpp (find_dp client buff n dst) w h (fun o w' h' =>
    o = (if ev_dp_mask c =? 0 then Some d else None) /\ w' = w /\ h' = h)).
  { apply wpp_inv in W as (o & w' & h' & E & -> & -> & ->). done. }
  unfold find_dp. apply wpp_bind. eapply wpp_gev; [exact Hc|].
  assert (Hloop : forall buff n, wpp (w0 ← pget; find_dp_loop (S (S (2 * size (w_dps w0)))) client (ev_dp c) (ev_dp c) buff n dst)
    w h (fun o w' h' => o = (if ev_dp_mask c =? 0 then Some d else None) /\ w' = w /\ h' = h)).
  { intros bf m. apply wpp_bind, wpp_pget. cbn [find_dp_loop]. apply wpp_bind, wpp_gpar, wpp_bind.
    eapply wpp_gev; [exact Hc|]. rewrite Hfm. destruct Hm as [Em|Em]; rewrite Em; [|by apply wpp_ret].
    change (0 =? 1) with false. cbv iota. apply wpp_bind. eapply (wpp_deref _ d).
    { destruct Hdp as [->| ->]; [exact Hpr|done]. }
    apply wpp_bind. eapply wpp_gdp; [exact Hd|]. apply wpp_bind, wpp_lift.
    assert (Hfit : dp_fits c d (group_of cfg) (ev_dp c) bf m dst = Ok true).
    { unfold dp_fits. rewrite Em. cbn. rewrite orb_true_r. by destruct bf. }
    rewrite Hfit. apply wp_ok. by apply wpp_ret. }
  apply wpp_bind. destruct buff as [bf|]; [apply wpp_ret, Hloop|].
  destruct (ev_buff c) as [b|] eqn:Eb; [|apply wpp_ret, Hloop].
  destruct (Hb b eq_refl) as [x Hx]. apply wpp_bind. eapply wpp_gbuf; [exact Hx|]. apply wpp_ret, Hloop.
Qed.

Lemma configured_group_serves_witness :
  let w := pair_world <| w_params := params_of cfg_demo 64 (Some 0%nat) |> <| w_dps := {[0%nat := group_of cfg_demo]} |> in
  find_dp (CA := true) 0 (Some [22; 3; 1]) 3 sockaddr0 w [] = Ok (Some 0%nat, w, []).
Proof.
  intros w. assert (Hc : exists c, pl_items (w_pool w) !! 0%nat = Some c /\ ev_dp c = None /\ ev_buff c = None /\ ev_dp_mask c = 0).
  { eexists. split; [vm_compute; reflexivity|]. done. }
  destruct Hc as (c & Hc & Hd & Hb & Hm).
  rewrite (configured_group_serves (CA := true) cfg_demo 64 0 0 c (Some [22; 3; 1]) 3 sockaddr0 w []).
  - by rewrite Hm.
  - reflexivity.
  - reflexivity.
  - exact Hc.
  - by left.
  - by rewrite Hb.
  - by left.
Defined.

(** ** The settings *)

(** What a configuration must satisfy for the engine to do something with it. *)
Record cfg_active (c : JniConfig) : Prop := {
  ca_split : 0 < j_split_pos c;
  ca_oob : j_oob_enabled c <> 0 -> 0 < j_oob_pos c;
  ca_tlsrec : 0 <= j_tlsrec_pos c;
  ca_path : zlen (j_protect_path c) <= 255;
  ca_some : j_disorder c <> 0 \/ j_oob_enabled c <> 0 \/ j_fake_enabled c <> 0 \/ 0 < j_tlsrec_pos c;
}.

(** What such a configuration's group does to the first bytes. *)
Definition group_active (x : desync_params) : Prop :=
  Forall (fun p => 0 < pt_pos p /\ pt_r p = 1 /\ pt_s p = 0 /\ pt_m p <> DESYNC_NONE) (dp_parts x) /\
  1 <= zlen (dp_parts x) <= 2 /\
  (Exists (fun p => pt_m p <> DESYNC_SPLIT) (dp_parts x) \/ dp_tlsrec x <> []).

Lemma group_of_active c : cfg_active c -> group_active (group_of c).
Proof.
  intros [Hsp Hoob Htls Hpath Hsome]. unfold group_active.
  assert (Ep : dp_parts (group_of c) = fake_part c ++ [primary_part c]) by (vm_compute; reflexivity).
  assert (Er : dp_tlsrec (group_of c) =
    if 0 <? j_tlsrec_pos c then [Part DESYNC_SPLIT (j_tlsrec_flag c) (j_tlsrec_pos c) 1 0] else [])
    by (vm_compute; reflexivity).
  rewrite Ep, Er.
  assert (Hprim : 0 < pt_pos (primary_part c) /\ pt_r (primary_part c) = 1 /\ pt_s (primary_part c) = 0 /\
    pt_m (primary_part c) <> DESYNC_NONE).
  { unfold primary_part. rewrite (proj2 (Z.ltb_lt 0 _) Hsp).
    repeat case_match; simpl; repeat split; try done; by apply Z.ltb_lt. }
  assert (Hsel : pt_m (primary_part c) <> DESYNC_SPLIT \/ (truthy (j_oob_enabled c) = false /\
    truthy (j_disorder c) = false /\ truthy (j_fake_enabled c) = false)).
  { unfold primary_part. repeat case_match; simpl; auto. }
  unfold fake_part. split; [|split].
  - destruct (_ && _); simpl; repeat constructor; simpl; try done; apply Hprim.
  - destruct (_ && _); simpl; rewrite ?zlen_cons, zlen_nil; lia.
  - destruct Hsel as [Hm|(E1 & E2 & E3)].
    + left. destruct (_ && _); simpl; [by apply Exists_cons_tl, Exists_cons_hd|by apply Exists_cons_hd].
    + right. unfold truthy in *. rewrite negb_false_iff, Z.eqb_eq in E1, E2, E3.
      destruct Hsome as [?|[?|[?|H]]]; [done..|]. by rewrite (proj2 (Z.ltb_lt _ _) H).
Qed.

Section settings.
Context {OS : Os}.

Lemma wpp_mcfg f s h (Q : unit -> jni_state -> hist -> Prop) :
  Q tt (JniState (js_world s) (js_running s) (f (js_cfg s))) h -> wpp (mcfg f) s h Q.
Proof. done. Qed.
Lemma wpp_utf (str : list Z) (s : jni_state) h (Q : option (list Z) -> jni_state -> hist -> Prop) :
  (forall r, Q (if rv r =? 0 then None else Some str) s ((CGetUtf str, r) :: h)) -> wpp (utf_chars str) s h Q.
Proof. intros HQ. apply wpp_bind, wpp_syscall, wpp_ret, HQ. Qed.
(** only characters are asked for *)
Definition only_utf (h h' : hist) : Prop := exists l, h' = l ++ h /\ Forall (fun c => exists s, fst c = CGetUtf s) l.
Lemma only_utf_refl h : only_utf h h.
Proof. by exists []. Qed.
Lemma only_utf_cons s r h h' : only_utf h h' -> only_utf h ((CGetUtf s, r) :: h').
Proof. intros (l & -> & Hl). exists ((CGetUtf s, r) :: l). split; [done|]. constructor; [by exists s|done]. Qed.

Lemma wpp_pos_string str d (s : jni_state) h0 h (Q : Z * Z -> jni_state -> hist -> Prop) :
  only_utf h0 h -> (forall x h', only_utf h0 h' -> Q x s h') -> wpp (parse_pos_string str d) s h Q.
Proof.
  intros Hh HQ. unfold parse_pos_string. destruct str as [str|]; [|by apply wpp_ret, HQ].
  apply wpp_bind, wpp_utf. intros r. destruct (_ =? 0); apply wpp_ret, HQ; by apply only_utf_cons.
Qed.
Lemma wpp_mod_string str (s : jni_state) h0 h (Q : Z -> jni_state -> hist -> Prop) :
  only_utf h0 h -> (forall x h', only_utf h0 h' -> Q x s h') -> wpp (parse_mod_http str) s h Q.
Proof.
  intros Hh HQ. unfold parse_mod_http. destruct str as [str|]; [|by apply wpp_ret, HQ].
  apply wpp_bind, wpp_utf. intros r. destruct (_ =? 0); apply wpp_ret, HQ; by apply only_utf_cons.
Qed.

Lemma wpp_ciadpi_config port sp dis fk ttl ds s1 s2 s3 s4 udp pp v6 s h :
  wpp (ciadpi_config port sp dis fk ttl ds s1 s2 s3 s4 udp pp v6) s h (fun _ s' h' =>
    js_world s' = js_world s /\ js_running s' = js_running s /\ only_utf h h' /\
    cfg_active (js_cfg s') /\ j_socks_port (js_cfg s') = port /\ j_fake_enabled (js_cfg s') = fk /\
    (dis <> 0 -> j_disorder (js_cfg s') = dis)).
Proof.
  unfold ciadpi_config. apply wpp_bind, wpp_mcfg, wpp_bind, wpp_mcfg. cbn [js_world js_running js_cfg].
  set (c0 := jni_config0 <| j_socks_port := port |> <| j_disorder := dis |> <| j_fake_enabled := fk |>
    <| j_fake_ttl := ttl |> <| j_drop_sack := ds |> <| j_udp_fake_count := udp |> <| j_ipv6_enabled := v6 |>).
  (** what the rest needs of the configuration so far *)
  set (base := fun c : JniConfig => j_socks_port c = port /\ j_disorder c = dis /\ j_fake_enabled c = fk /\
    zlen (j_protect_path c) <= 255).
  assert (Hpath : forall w r h1 (Q : unit -> jni_state -> hist -> Prop), only_utf h h1 ->
    (forall path h2, zlen path <= 255 -> only_utf h h2 -> Q tt (JniState w r (c0 <| j_protect_path := path |>)) h2) ->
    wpp (match pp with
     | Some pp => o ← utf_chars pp; match o with
         | Some pp => mcfg (fun c => c <| j_protect_path := take 255 pp |>) | None => mret tt end
     | None => mret tt end) (JniState w r c0) h1 Q).
  { intros w r h1 Q Hh HQ. destruct pp as [q|]; [|apply wpp_ret; by apply (HQ [])].
    apply wpp_bind, wpp_utf. intros r1. destruct (_ =? 0).
    - apply wpp_ret. apply (HQ []); [done|by apply only_utf_cons].
    - apply wpp_mcfg. apply HQ; [unfold zlen; rewrite length_take; lia|by apply only_utf_cons]. }
  apply wpp_bind, Hpath; [apply only_utf_refl|]. intros path h1 Hpl Hh1. clear Hpath.
  apply wpp_bind, (wpp_pos_string _ _ _ h); [done|]. intros [ps fl] h2 Hh2. apply wpp_bind, wpp_mcfg.
  apply wpp_bind, (wpp_pos_string _ _ _ h); [done|]. intros [op ofl] h3 Hh3. cbn [js_world js_running js_cfg].
  apply wpp_bind. apply wpp_mono with (fun _ s' h' => js_world s' = js_world s /\ js_running s' = js_running s /\
    only_utf h h' /\ base (js_cfg s') /\ 0 < j_split_pos (js_cfg s') /\ j_tlsrec_pos (js_cfg s') = 0 /\
    (j_oob_enabled (js_cfg s') <> 0 -> 0 < j_oob_pos (js_cfg s'))).
  { destruct (str_set s2); [apply wpp_mcfg|apply wpp_ret]; repeat (split; [done|]).
    - simpl. split; [by destruct (Z.ltb_spec 0 ps)|]. split; [done|]. intros _. by destruct (Z.ltb_spec 0 op).
    - simpl. split; [by destruct (Z.ltb_spec 0 ps)|]. split; [done|]. by intros []. }
  intros _ [w' r' c'] h4 (Ew & Er & Hh4 & Hb & Hsp & Htl & Hoob). simpl in Ew, Er, Hb, Hsp, Htl, Hoob. subst w' r'.
  apply wpp_bind, (wpp_pos_string _ _ _ h); [done|]. intros [tp tf] h5 Hh5.
  apply wpp_bind. apply wpp_mono with (fun _ s' h' => js_world s' = js_world s /\ js_running s' = js_running s /\
    only_utf h h' /\ base (js_cfg s') /\ 0 < j_split_pos (js_cfg s') /\ 0 <= j_tlsrec_pos (js_cfg s') /\
    (j_oob_enabled (js_cfg s') <> 0 -> 0 < j_oob_pos (js_cfg s'))).
  { destruct (str_set s3); [apply wpp_mcfg|apply wpp_ret]; repeat (split; [done|]).
    - cbn. destruct Hb as (? & ? & ? & ?). repeat split; try done. destruct (Z.ltb_spec 0 tp); lia.
    - cbn. destruct Hb as (? & ? & ? & ?). repeat split; try done. lia. }
  intros _ [w' r' c6] h6 (Ew & Er & Hh6 & Hb6 & Hsp6 & Htl6 & Hoob6). simpl in Ew, Er, Hb6, Hsp6, Htl6, Hoob6. subst w' r'.
  apply wpp_bind, (wpp_mod_string _ _ h); [done|]. intros m h7 Hh7.
  apply wpp_bind, wpp_mcfg, wpp_mcfg. simpl js_cfg. destruct Hb6 as (E1 & E2 & E3 & E4).
  split; [done|]. split; [done|]. split; [done|]. simpl. rewrite (proj2 (Z.ltb_lt 0 _) Hsp6).
  destruct (_ && _) eqn:Eall.
  - apply andb_true_iff in Eall as [Eall _]. apply andb_true_iff in Eall as [Eall _].
    apply andb_true_iff in Eall as [Eall _]. unfold truthy in Eall.
    assert (Ed : j_disorder c6 = 0) by (rewrite negb_involutive in Eall; by apply Z.eqb_eq).
    split; [split; simpl; auto; lia|]. split; [done|]. split; [done|]. simpl. congruence.
  - split; [|split; [done|split; [done|simpl; congruence]]].
    split; simpl; auto.
    apply andb_false_iff in Eall as [Eall|Eall]; [apply andb_false_iff in Eall as [Eall|Eall];
      [apply andb_false_iff in Eall as [Eall|Eall]|]|]; unfold truthy in Eall; simpl in Eall;
      rewrite ?negb_involutive, ?Z.eqb_neq, ?Z.leb_gt in Eall; auto.
Qed.
End settings.

(** No setting makes the engine idle. For any settings that the application can
    hand over (numbers of any sign, position strings of any content, strings the
    virtual machine cannot deliver), the configuration has positive positions and a
    path that fits its 256 bytes, and the group it describes has one or two parts,
    each at a positive position, and does more than split: it reorders, sends
    out-of-band bytes or a decoy, or splits TLS records. *)
Theorem settings_never_idle {OS : Os} port sp dis fk ttl ds s1 s2 s3 s4 udp pp v6 s h :
  exists s' h', ciadpi_config port sp dis fk ttl ds s1 s2 s3 s4 udp pp v6 s h = Ok (tt, s', h') /\
    js_world s' = js_world s /\ js_running s' = js_running s /\ cfg_active (js_cfg s') /\
    j_socks_port (js_cfg s') = port /\ (dis <> 0 -> j_disorder (js_cfg s') = dis) /\
    group_active (group_of (js_cfg s')).
Proof.
  destruct (wpp_inv _ _ _ _ (wpp_ciadpi_config port sp dis fk ttl ds s1 s2 s3 s4 udp pp v6 s h))
    as ([] & s' & h' & E & ? & ? & _ & Ha & ? & _ & ?).
  exists s', h'. repeat (split; [done|]). by apply group_of_active.
Qed.

(** ** Start and stop *)



(** ** Position strings *)

(** Decimal digits of a number, most significant first. *)
Fixpoint dec_f (k : nat) (n : Z) (acc : list Z) : list Z :=
  match k with
  | O => acc
  | S k => if n <? 10 then (48 + n) :: acc else dec_f k (n / 10) ((48 + n mod 10) :: acc)
  end.
Definition dec (n : Z) : list Z := dec_f (S (Z.to_nat n)) n [].

Lemma dec_f_atoi k n acc : 0 <= n < Z.of_nat k -> atoi_digits 0 (dec_f k n acc) = atoi_digits n acc.
Proof.
  revert n acc. induction k as [|k IH]; intros n acc Hn; [lia|]. cbn [dec_f].
  assert (Hd : forall d, 0 <= d < 10 -> is_digit (48 + d) = true).
  { intros d Hd. unfold is_digit. rewrite andb_true_iff, !Z.leb_le. lia. }
  destruct (Z.ltb_spec n 10).
  - cbn [atoi_digits]. rewrite Hd by lia. f_equal. lia.
  - pose proof (Z.div_mod n 10 ltac:(lia)) as E. pose proof (Z.mod_pos_bound n 10 ltac:(lia)).
    rewrite IH.
    + cbn [atoi_digits]. rewrite Hd by lia. f_equal. lia.
    + assert (n / 10 < n) by (apply Z.div_lt; lia). pose proof (Z.div_pos n 10 ltac:(lia) ltac:(lia)). lia.
Qed.
Lemma dec_f_app k n acc l : dec_f k n acc ++ l = dec_f k n (acc ++ l).
Proof.
  revert n acc. induction k as [|k IH]; intros n acc; [done|]. cbn [dec_f].
  destruct (_ <? _); [done|]. by rewrite IH.
Qed.
Lemma dec_f_digits k n acc : 0 <= n -> (0 < k)%nat ->
  exists ds, Forall (fun c => is_digit c = true) ds /\ ds <> [] /\ dec_f k n acc = ds ++ acc.
Proof.
  revert n acc. induction k as [|k IH]; intros n acc Hn Hk; [lia|]. cbn [dec_f].
  assert (Hd : forall d, 0 <= d < 10 -> is_digit (48 + d) = true).
  { intros d Hd. unfold is_digit. rewrite andb_true_iff, !Z.leb_le. lia. }
  destruct (Z.ltb_spec n 10).
  - exists [48 + n]. split; [repeat constructor; apply Hd; lia|done].
  - pose proof (Z.mod_pos_bound n 10 ltac:(lia)). destruct k as [|k].
    + exists [48 + n mod 10]. split; [repeat constructor; by apply Hd|done].
    + destruct (IH (n / 10) ((48 + n mod 10) :: acc)) as (ds & Hds & Hne & E); [apply Z.div_pos; lia|lia|].
      exists (ds ++ [48 + n mod 10]). rewrite <- app_assoc. split; [|split; [by destruct ds|done]].
      apply Forall_app. split; [done|]. repeat constructor. by apply Hd.
Qed.

Lemma strchr_app a b c : strchr_ (a ++ b) c = strchr_ a c || strchr_ b c.
Proof. apply existsb_app. Qed.
Lemma strchr_digits ds c : Forall (fun x => is_digit x = true) ds ->
  Forall (fun x => is_digit x = false) (bytes_of_string c) -> strchr_ ds c = false.
Proof.
  intros Hd Hc. unfold strchr_. apply not_true_is_false. intros H.
  apply existsb_exists in H as (x & Hx & H). apply existsb_exists in H as (y & Hy & ->%Z.eqb_eq).
  rewrite Forall_forall in Hd, Hc. apply list_elem_of_In in Hx, Hy. specialize (Hd y Hx). specialize (Hc y Hy). congruence.
Qed.

(** The flags that letters behind a number stand for. *)
Definition letter_flags (l : list Z) : Z :=
  Z.lor (if strchr_ l "sS" then OFFSET_SNI else 0)
    (Z.lor (if strchr_ l "hH" then OFFSET_HOST else 0)
      (Z.lor (if strchr_ l "mM" then OFFSET_MID else 0)
        (Z.lor (if strchr_ l "eE" then OFFSET_END else 0)
               (if strchr_ l "rR" then OFFSET_RAND else 0)))).

(** A position string is read as it is written: the decimal digits of a positive
    [int], then letters, "+" or nothing, give that number and the flags of the
    letters, whatever their order and case and whatever the default. *)
Theorem position_roundtrip n letters default_pos :
  0 < n < 2 ^ 31 -> Forall (fun c => is_digit c = false) letters ->
  pos_of_chars (dec n ++ letters) default_pos = (n, letter_flags letters).
Proof.
  intros Hn Hl. unfold dec. destruct (dec_f_digits (S (Z.to_nat n)) n [] ltac:(lia) ltac:(lia)) as (ds & Hds & Hne & E).
  assert (Hstr : forall c, Forall (fun x => is_digit x = false) (bytes_of_string c) ->
    strchr_ (ds ++ letters) c = strchr_ letters c).
  { intros c Hc. rewrite strchr_app, strchr_digits by done. done. }
  assert (Hat : atoi (ds ++ letters) = n).
  { unfold atoi. replace (ds ++ letters) with (dec_f (S (Z.to_nat n)) n letters)
      by (rewrite <- (app_nil_l letters), <- dec_f_app, E, app_nil_r; done).
    rewrite dec_f_atoi by lia. destruct letters as [|c l].
    - cbn [atoi_digits]. rewrite Z.min_l by lia. apply s32_small. lia.
    - apply Forall_cons in Hl as [Hc _]. cbn [atoi_digits]. rewrite Hc, Z.min_l by lia. apply s32_small. lia. }
  rewrite E, app_nil_r. unfold pos_of_chars. rewrite Hat.
  assert (H0 : is_digit (byte_at (ds ++ letters) 0) = true).
  { destruct ds as [|x ds]; [done|]. by apply Forall_cons in Hds as [? _]. }
  rewrite H0, (proj2 (Z.leb_gt n 0)) by lia. rewrite !Hstr by (repeat constructor).
  unfold letter_flags.
  destruct (strchr_ letters "sS"), (strchr_ letters "hH"), (strchr_ letters "mM"), (strchr_ letters "eE"),
    (strchr_ letters "rR"); reflexivity.
Qed.

Lemma position_roundtrip_witness :
  pos_of_chars (dec 15 ++ bytes_of_string "+sM") 1 = (15, Z.lor OFFSET_SNI OFFSET_MID).
Proof.
  rewrite (position_roundtrip 15 (bytes_of_string "+sM") 1); [reflexivity|lia|]. repeat constructor.
Defined.

(** ** Random positions *)

(** "r" as a position, with reordering and a decoy: the settings
    [disorder = 1, fakeEnabled = 1, splitPosStr = "r"]. *)
Definition cfg_random : JniConfig :=
  match ciadpi_config (OS := fun _ _ => Ret 1 0 []) 1080 1 1 1 0 0 (Some (bytes_of_string "r")) None None None 0 None 0
          (JniState world_empty 0 jni_config0) [] with
  | Ok (_, s, _) => js_cfg s
  | _ => jni_config0
  end.
Definition os_rand (r : Z) : Os := fun h c => match c with
  | CRand => Ret r 0 []
  | CMmap _ => Ret 65536 0 []
  | CPipe => Ret 0 0 [20; 21]
  | CVmsplice _ d => Ret (zlen d) 0 []
  | CSplice _ _ n => Ret n 0 []
  | CSend _ d _ => Ret (zlen d) 0 []
  | CTimeMs => Ret (1000 + zlen h) 0 []
  | _ => Ret 0 0 []
  end.
Definition random_world : world :=
  sending_world <| w_dps := {[0%nat := group_of cfg_random]} |>
    <| w_params := params_of cfg_random 64 (Some 0%nat) |>
    <| w_fake_tls := Packet 517 (Some (tls_data ++ replicate 507 0)) 0 |>
    <| w_fake_http := Packet 43 (Some http_data) 0 |>.

(** A random position can divide by zero. The settings "r" with reordering and a
    decoy give two parts at random positions of what is left; when the first one
    falls on the end of the request, nothing is left for the second, and its
    position is a remainder modulo zero, undefined in C; other values of [rand]
    send the request. *)
Theorem random_position_mod_zero {CA : CharAbi} :
  dp_parts (group_of cfg_random) = [Part DESYNC_FAKE OFFSET_RAND 1 1 0; Part DESYNC_DISORDER OFFSET_RAND 1 1 0] /\
  (exists w' h', desync (OS := os_rand 0) 1 7 6 random_world [] = Ok ((6, 6, false), w', h')) /\
  desync (OS := os_rand 5) 1 7 6 random_world [] = Ub.
Proof.
  split; [vm_compute; reflexivity|]. split.
  - destruct CA; do 2 eexists; vm_compute; reflexivity.
  - destruct CA; vm_compute; reflexivity.
Qed.
