(* ===== verification/ChunkFacts.v ===== *)
(** Facts about Chunk: the packets a circular buffer holds, and how each of its
    operations changes them. *)
From S2P Require Import Prelude CMem Flow Chunk.

Lemma wp_assert b (Q : unit -> Prop) : b = true -> Q tt -> wp (assert_ b) Q.
Proof. by intros ->. Qed.
(** Peels an [ASSERT] whose condition is arithmetic. *)
Ltac wp_assert_lia := apply wp_bind, wp_assert; [lia|].

(** A job that is set in one state of its interface only is not set in another. *)
Lemma job_false (b : bool) (x y : if_state) : (b = true <-> x = y) -> x <> y -> b = false.
Proof. destruct b; [|done]. by intros [H _] []; apply H. Qed.

(** ** Blocks *)
Definition nblocks (len : Z) : Z := 1 + (len + 3) / 4.

Lemma bdivide_up_eq a : 0 <= a < 2 ^ 63 -> bdivide_up a BLOCK = (a + 3) / 4.
Proof.
  intros H. unfold bdivide_up, BLOCK. rewrite usz_small by lia.
  cbv zeta. destruct (Z.ltb_spec 0 (a mod 4)); Z.to_euclidean_division_equations; lia.
Qed.
Lemma nblocks_pos len : 0 <= len -> 1 <= nblocks len.
Proof. unfold nblocks. Z.to_euclidean_division_equations. lia. Qed.
Lemma nblocks_bound len : 0 <= len -> len <= 4 * (nblocks len - 1) < len + 4.
Proof. unfold nblocks. Z.to_euclidean_division_equations. lia. Qed.

Lemma zlen_le32 x : zlen (le32 x) = 4.
Proof. done. Qed.
Lemma slice_4 m i : 0 <= i -> i + 4 <= zlen m ->
  slice m i 4 = [byte_at m i; byte_at m (i + 1); byte_at m (i + 2); byte_at m (i + 3)].
Proof.
  intros ? ?. apply list_eq_byte_at; [by rewrite zlen_slice by lia|].
  rewrite zlen_slice by lia. intros j Hj. rewrite byte_at_slice by lia.
  assert (j = 0 \/ j = 1 \/ j = 2 \/ j = 3) as [-> | [-> | [-> | ->]]] by lia; by rewrite ?Z.add_0_r.
Qed.
Lemma block_len_ok m i len :
  0 <= i -> BLOCK * (i + 1) <= zlen m -> 0 <= len < 2 ^ 31 -> slice m (BLOCK * i) 4 = le32 len ->
  block_len m i = Ok len.
Proof.
  unfold BLOCK. intros Hi Hm Hl Hs. rewrite slice_4 in Hs by lia. injection Hs as H0 H1 H2 H3.
  unfold block_len, BLOCK. rewrite !rd_ok by lia. simpl. rewrite H0, H1, H2, H3. f_equal.
  rewrite <- (s32_small len) at 5 by lia. f_equal. Z.to_euclidean_division_equations. lia.
Qed.

(** ** Packets in a row *)

(** The packets [ps] fill the blocks from [pos] to [e], each starting at [lim] or
    before. *)
Fixpoint chunks (m : list Z) (lim pos : Z) (ps : list (list Z)) (e : Z) : Prop :=
  match ps with
  | [] => e = pos
  | p :: ps =>
      pos <= lim /\ zlen p < 2 ^ 31 /\ slice m (BLOCK * pos) 4 = le32 (zlen p) /\
      slice m (BLOCK * (pos + 1)) (zlen p) = p /\ chunks m lim (pos + nblocks (zlen p)) ps e
  end.

Lemma chunks_le m lim pos ps e : chunks m lim pos ps e -> pos <= e.
Proof.
  revert pos. induction ps as [|p ps IH]; simpl; intros pos; [lia|].
  intros (_ & _ & _ & _ & H). apply IH in H. pose proof (nblocks_pos (zlen p) (zlen_nonneg p)). lia.
Qed.
Lemma chunks_cons_lt m lim pos p ps e : chunks m lim pos (p :: ps) e -> pos + nblocks (zlen p) <= e.
Proof. intros (_ & _ & _ & _ & H). by apply chunks_le in H. Qed.
Lemma chunks_app m lim pos ps qs mid e :
  chunks m lim pos ps mid -> chunks m lim mid qs e -> chunks m lim pos (ps ++ qs) e.
Proof.
  revert pos. induction ps as [|p ps IH]; simpl; intros pos; [by intros ->|].
  intros (? & ? & ? & ? & H) ?. repeat split; try done. by apply IH.
Qed.

Lemma slice_frame m m' s n :
  0 <= s -> 0 <= n -> s + n <= zlen m -> zlen m' = zlen m ->
  (forall i, s <= i < s + n -> byte_at m' i = byte_at m i) -> slice m' s n = slice m s n.
Proof.
  intros ? ? ? Hl H. apply list_eq_byte_at; [rewrite !zlen_slice; lia|].
  intros j Hj. rewrite zlen_slice in Hj by lia. rewrite !byte_at_slice by lia. apply H. lia.
Qed.
Lemma chunks_frame m m' lim pos ps e :
  chunks m lim pos ps e -> 0 <= pos -> BLOCK * e <= zlen m -> zlen m' = zlen m ->
  (forall i, BLOCK * pos <= i < BLOCK * e -> byte_at m' i = byte_at m i) -> chunks m' lim pos ps e.
Proof.
  revert pos. induction ps as [|p ps IH]; [done|]. intros pos H Hp He Hl Hf.
  pose proof (chunks_cons_lt _ _ _ _ _ _ H) as Hlt.
  pose proof (nblocks_bound (zlen p) (zlen_nonneg p)). pose proof (zlen_nonneg p).
  destruct H as (? & ? & Hs & Hd & Hr). cbn [chunks]. unfold BLOCK in *.
  split_and!; [done|done| | |].
  - rewrite (slice_frame m) by (try lia; intros; apply Hf; lia). done.
  - rewrite (slice_frame m) by (try lia; intros; apply Hf; lia). done.
  - apply IH; [done|lia|lia|done|]. intros. apply Hf. lia.
Qed.

(** ** The buffer *)
Definition cb_lim (b : ChunkBuffer2) : Z := cb_size b - 1 - cb_mtu b.

(** The packets are one row, or wrap around: a row up to [wrap] and one from 0. *)
Definition straight (b : ChunkBuffer2) (ps : list (list Z)) : Prop :=
  cb_wrap b = cb_size b /\ cb_start b + cb_used b <= cb_lim b /\
  chunks (cb_buffer b) (cb_lim b) (cb_start b) ps (cb_start b + cb_used b).
Definition wrapped (b : ChunkBuffer2) (ps : list (list Z)) : Prop :=
  exists ps1 ps2 e, ps = ps1 ++ ps2 /\ ps1 <> [] /\
    chunks (cb_buffer b) (cb_lim b) (cb_start b) ps1 (cb_wrap b) /\
    chunks (cb_buffer b) (cb_lim b) 0 ps2 e /\
    cb_used b = cb_wrap b - cb_start b + e /\ e <= cb_start b /\ cb_lim b < cb_wrap b <= cb_size b.
Record cb_core (b : ChunkBuffer2) (ps : list (list Z)) : Prop := CbCore {
  cc_len : zlen (cb_buffer b) = BLOCK * cb_size b;
  cc_max : BLOCK * cb_size b < 2 ^ 31;
  cc_mtu : 0 <= cb_mtu b;
  cc_start : 0 <= cb_start b;
  cc_rows : straight b ps \/ wrapped b ps }.

Definition input_view (b : ChunkBuffer2) : Prop :=
  (0 < free_blocks b -> cb_input_dest b = Some (BLOCK * (ChunkBuffer2_end b + 1)) /\
     cb_input_avail b = BLOCK * (free_blocks b - 1)) /\
  (free_blocks b <= 0 -> cb_input_dest b = None /\ cb_input_avail b = -1).
Definition output_view (b : ChunkBuffer2) (ps : list (list Z)) : Prop :=
  match ps with
  | [] => cb_output_dest b = None /\ cb_output_avail b = -1
  | p :: _ => cb_output_dest b = Some (BLOCK * (cb_start b + 1)) /\ cb_output_avail b = zlen p
  end.

(** The buffer holds the packets [ps], the oldest first. *)
Definition cb_holds (b : ChunkBuffer2) (ps : list (list Z)) : Prop :=
  cb_core b ps /\ input_view b /\ output_view b ps.

Lemma chunks_nonempty m lim pos ps e : ps <> [] -> chunks m lim pos ps e -> pos <= lim /\ pos < e.
Proof.
  destruct ps as [|p ps]; [done|]. intros _ H.
  pose proof (chunks_cons_lt _ _ _ _ _ _ H). destruct H as (? & _).
  pose proof (nblocks_pos (zlen p) (zlen_nonneg p)). lia.
Qed.

(** The numbers of a buffer that holds packets. *)
Lemma core_bounds b ps : cb_core b ps ->
  0 <= cb_start b < cb_wrap b /\ cb_wrap b <= cb_size b /\ 0 <= cb_used b <= cb_wrap b /\
  0 <= ChunkBuffer2_end b <= cb_lim b /\ ChunkBuffer2_end b + free_blocks b <= cb_size b /\
  (cb_wrap b = cb_size b \/ cb_wrap b - cb_start b <= cb_used b) /\
  (cb_used b < cb_wrap b - cb_start b -> cb_mtu b < free_blocks b) /\
  0 <= free_blocks b /\ (ps = [] <-> cb_used b = 0).
Proof.
  intros [Hl Hm Hmtu Hs Hr]. unfold ChunkBuffer2_end, free_blocks, ChunkBuffer2_end, cb_lim in *.
  destruct Hr as [(Hw & He & Hc)|(ps1 & ps2 & e & -> & Hn & Hc1 & Hc2 & Hu & He & Hw)].
  - unfold cb_lim in *. pose proof (chunks_le _ _ _ _ _ Hc). rewrite !(proj2 (Z.leb_gt _ _)) by lia.
    repeat split; try lia.
    + intros ->. simpl in Hc. lia.
    + intros H0. destruct ps as [|p ps]; [done|]. apply chunks_nonempty in Hc; [lia|done].
  - unfold cb_lim in *. pose proof (chunks_le _ _ _ _ _ Hc2).
    destruct (chunks_nonempty _ _ _ _ _ Hn Hc1). rewrite !(proj2 (Z.leb_le _ _)) by lia.
    repeat split; try lia. intros [-> ->]%app_eq_nil. by destruct Hn.
Qed.

(** The first packet of a buffer. *)
Lemma core_head b p ps : cb_core b (p :: ps) ->
  block_len (cb_buffer b) (cb_start b) = Ok (zlen p) /\ zlen p < 2 ^ 31 /\
  nblocks (zlen p) <= cb_wrap b - cb_start b /\ nblocks (zlen p) <= cb_used b /\
  slice (cb_buffer b) (BLOCK * (cb_start b + 1)) (zlen p) = p.
Proof.
  intros Hc. pose proof (core_bounds _ _ Hc) as Hb. destruct Hc as [Hl Hm Hmtu Hs Hr].
  pose proof (zlen_nonneg p).
  assert (exists qs e, chunks (cb_buffer b) (cb_lim b) (cb_start b) (p :: qs) e /\
    e <= cb_wrap b /\ e <= cb_start b + cb_used b) as (qs & e & Hch & He & Hu).
  { destruct Hr as [(Hw & He & Hch)|(ps1 & ps2 & e & Heq & Hn & Hc1 & Hc2 & Hu & He & Hw)].
    - exists ps, (cb_start b + cb_used b). unfold cb_lim in *. split; [done|lia].
    - destruct ps1 as [|q ps1]; [done|]. injection Heq as <- ->.
      exists ps1, (cb_wrap b). pose proof (chunks_le _ _ _ _ _ Hc2). split; [done|lia]. }
  pose proof (chunks_cons_lt _ _ _ _ _ _ Hch). pose proof (nblocks_pos (zlen p)).
  destruct Hch as (? & ? & Hh & Hd & _). unfold BLOCK in *.
  split_and!; [|done|lia|lia|done]. apply block_len_ok; [lia|unfold BLOCK; lia|lia|done].
Qed.

Lemma avail_bytes_eq b ps : cb_core b ps -> 0 < free_blocks b ->
  avail_bytes (free_blocks b) = BLOCK * (free_blocks b - 1).
Proof.
  intros Hc Hf. pose proof (core_bounds _ _ Hc). destruct Hc. unfold avail_bytes, BLOCK in *.
  rewrite usz_small, s32_small; lia.
Qed.

(** The debug checks of the buffer never fire. *)
Lemma wp_assert_buffer b ps (Q : unit -> Prop) : cb_core b ps -> Q tt -> wp (assert_buffer b) Q.
Proof.
  intros Hc HQ. pose proof (core_bounds _ _ Hc). destruct Hc. unfold assert_buffer.
  do 8 wp_assert_lia. apply wp_assert; [lia|done].
Qed.
Lemma wp_assert_io b ps (Q : unit -> Prop) : cb_holds b ps -> Q tt -> wp (assert_io b) Q.
Proof.
  intros (Hc & [Hi Hi'] & Ho) HQ. pose proof (core_bounds _ _ Hc) as Hb. unfold assert_io.
  rewrite (proj2 (Z.ltb_ge (cb_size b - ChunkBuffer2_end b - 1) (cb_mtu b))) by (unfold cb_lim in Hb; lia).
  apply wp_bind. apply (wp_mono _ (fun _ => True)).
  { cbv zeta. destruct (Z.ltb_spec 0 (free_blocks b)).
    - destruct (Hi H) as [-> ->]. apply wp_bind, wp_assert; [by apply bool_decide_eq_true|].
      apply wp_assert; [|done]. rewrite (avail_bytes_eq b ps) by done. apply Z.eqb_refl.
    - destruct (Hi' H) as [-> ->]. apply wp_bind, wp_assert; [done|]. by apply wp_assert. }
  intros _ _. destruct ps as [|p ps].
  - replace (cb_used b) with 0 by (symmetry; by apply Hb). destruct Ho as [-> ->].
    apply wp_bind, wp_assert; [done|]. by apply wp_assert.
  - destruct (core_head _ _ _ Hc) as (Hl & Hp & Hw & Hu & _). destruct Ho as [-> ->].
    pose proof (zlen_nonneg p). pose proof (nblocks_pos (zlen p)).
    rewrite (proj2 (Z.ltb_lt _ _)) by lia. rewrite Hl. apply wp_bind, wp_ok.
    wp_assert_lia. rewrite bdivide_up_eq by lia. unfold nblocks in *.
    do 2 wp_assert_lia. apply wp_bind, wp_assert; [by apply bool_decide_eq_true|].
    apply wp_assert; [lia|done].
Qed.

(** What the two updates set. *)
Lemma update_input_view b ps : cb_core b ps ->
  exists d a, update_input b = b <| cb_input_dest := d |> <| cb_input_avail := a |> /\
    input_view (b <| cb_input_dest := d |> <| cb_input_avail := a |>).
Proof.
  intros Hc. pose proof (core_bounds _ _ Hc) as Hb. unfold update_input.
  rewrite (proj2 (Z.ltb_ge (cb_size b - ChunkBuffer2_end b - 1) (cb_mtu b))) by (unfold cb_lim in Hb; lia). cbv zeta.
  destruct (Z.ltb_spec 0 (free_blocks b)).
  - do 2 eexists. split; [done|]. split; [|intros; change (free_blocks b <= 0) in H0; lia].
    intros _. split; [done|]. exact (avail_bytes_eq b ps Hc H).
  - do 2 eexists. split; [done|]. split; [|done]. intros Hf. change (0 < free_blocks b) in Hf. lia.
Qed.
Lemma update_output_view b ps : cb_core b ps ->
  exists d a, update_output b = Ok (b <| cb_output_dest := d |> <| cb_output_avail := a |>) /\
    output_view (b <| cb_output_dest := d |> <| cb_output_avail := a |>) ps.
Proof.
  intros Hc. pose proof (core_bounds _ _ Hc) as Hb. unfold update_output. destruct ps as [|p ps].
  - replace (cb_used b) with 0 by (symmetry; by apply Hb). by do 2 eexists.
  - destruct (core_head _ _ _ Hc) as (Hl & Hp & Hw & Hu & _).
    pose proof (zlen_nonneg p). pose proof (nblocks_pos (zlen p)).
    rewrite (proj2 (Z.ltb_lt _ _)) by lia. rewrite Hl. simpl.
    rewrite bdivide_up_eq by lia. unfold nblocks in *. unfold assert_.
    rewrite !(proj2 (Z.leb_le _ _)) by lia. by do 2 eexists.
Qed.
(** The four views are no part of the rows. *)
Lemma core_views b ps d a : cb_core b ps ->
  cb_core (b <| cb_input_dest := d |> <| cb_input_avail := a |>) ps.
Proof. by intros []. Qed.
Lemma core_views_out b ps d a : cb_core b ps ->
  cb_core (b <| cb_output_dest := d |> <| cb_output_avail := a |>) ps.
Proof. by intros []. Qed.

(** ** Writing a packet *)

(** [m] differs from the buffer in the free blocks only. *)
Definition free_only (b : ChunkBuffer2) (m : list Z) : Prop :=
  zlen m = zlen (cb_buffer b) /\
  forall i, 0 <= i -> i < BLOCK * ChunkBuffer2_end b \/ BLOCK * (ChunkBuffer2_end b + free_blocks b) <= i ->
    byte_at m i = byte_at (cb_buffer b) i.

Lemma straight_ends b ps : cb_core b ps -> straight b ps ->
  ChunkBuffer2_end b = cb_start b + cb_used b /\ free_blocks b = cb_size b - (cb_start b + cb_used b).
Proof.
  intros [] (Hw & He & _). unfold free_blocks, ChunkBuffer2_end, cb_lim in *.
  by rewrite !(proj2 (Z.leb_gt (cb_wrap b - cb_start b) (cb_used b))) by lia.
Qed.
Lemma wrapped_ends b e : 0 <= e -> cb_used b = cb_wrap b - cb_start b + e ->
  ChunkBuffer2_end b = e /\ free_blocks b = cb_start b - e.
Proof.
  intros He Hu. unfold free_blocks, ChunkBuffer2_end.
  rewrite !(proj2 (Z.leb_le (cb_wrap b - cb_start b) (cb_used b))) by lia. lia.
Qed.

Lemma core_free_only b ps m : cb_core b ps -> free_only b m -> cb_core (b <| cb_buffer := m |>) ps.
Proof.
  intros Hc [Hl Hf]. pose proof (core_bounds _ _ Hc) as Hb. pose proof (straight_ends b ps Hc) as Hst.
  destruct Hc as [Hz Hm Hmtu Hs Hr].
  constructor; simpl; [lia|done..|]. destruct Hr as [H|H]; [left|right].
  - destruct (Hst H) as [He Hfr]. destruct H as (Hw & Hle & Hch).
    repeat split; [done..|]. unfold BLOCK in *.
    apply (chunks_frame (cb_buffer b)); [done|done|unfold BLOCK, cb_lim in *; simpl; lia|done|].
    intros i Hi. unfold BLOCK in Hi. apply Hf; simpl in *; lia.
  - destruct H as (ps1 & ps2 & e & -> & Hn & Hc1 & Hc2 & Hu & Hle & Hw).
    pose proof (chunks_le _ _ _ _ _ Hc2). destruct (wrapped_ends b e) as [He Hfr]; [lia|done|].
    destruct (chunks_nonempty _ _ _ _ _ Hn Hc1). unfold cb_lim in *.
    exists ps1, ps2, e. unfold BLOCK in *. unfold cb_lim. simpl in *.
    split_and!; [done|done| | |done|lia|lia|lia].
    + apply (chunks_frame (cb_buffer b)); [done|done|unfold BLOCK; simpl; lia|done|].
      intros i Hi. unfold BLOCK in Hi. apply Hf; simpl in *; lia.
    + apply (chunks_frame (cb_buffer b)); [done|lia|unfold BLOCK; simpl; lia|done|].
      intros i Hi. unfold BLOCK in Hi. apply Hf; lia.
Qed.

(** A packet written behind the last one: its header and data are in place. *)
Definition written (b : ChunkBuffer2) (m p : list Z) : Prop :=
  free_only b m /\ nblocks (zlen p) <= free_blocks b /\ zlen p < 2 ^ 31 /\
  slice m (BLOCK * ChunkBuffer2_end b) 4 = le32 (zlen p) /\
  slice m (BLOCK * (ChunkBuffer2_end b + 1)) (zlen p) = p.

Definition append_blocks (b : ChunkBuffer2) (m p : list Z) : ChunkBuffer2 :=
  let end_ := ChunkBuffer2_end b in
  let b' := b <| cb_buffer := m |> <| cb_used := cb_used b + nblocks (zlen p) |> in
  if (cb_used b' <=? cb_wrap b' - cb_start b')
     && (cb_size b' - (end_ + nblocks (zlen p)) - 1 <? cb_mtu b')
  then b' <| cb_wrap := end_ + nblocks (zlen p) |> else b'.

Lemma core_append b ps m p : cb_core b ps -> written b m p -> cb_core (append_blocks b m p) (ps ++ [p]).
Proof.
  intros Hc (Hf & Hn & Hp & Hh & Hd). pose proof (core_bounds _ _ Hc) as Hb.
  pose proof (straight_ends b ps Hc) as Hst.
  pose proof (core_free_only _ _ _ Hc Hf) as [_ _ _ _ Hr]. pose proof (nblocks_pos (zlen p) (zlen_nonneg p)).
  assert (Hnew : ChunkBuffer2_end b <= cb_lim b -> chunks m (cb_lim b) (ChunkBuffer2_end b) [p]
    (ChunkBuffer2_end b + nblocks (zlen p))) by (intros; by split_and!).
  destruct Hc as [Hz Hm Hmtu Hs Hr0]. destruct Hf as [Hl _]. unfold append_blocks. cbv zeta.
  destruct Hr as [(Hw & Hle & Hch)|(ps1 & ps2 & e & -> & Hne & Hc1 & Hc2 & Hu & Hle & Hw)]; simpl in *.
  - assert (Hs0 : straight b ps).
    { destruct Hr0 as [?|(? & ? & e & -> & Hne & ? & Hc2 & Hu & ? & ?)]; [done|].
      apply chunks_le in Hc2. unfold cb_lim in *. simpl in *. lia. }
    destruct (Hst Hs0) as [He Hfr]. rewrite He in *. unfold cb_lim in *. simpl in *.
    rewrite (proj2 (Z.leb_le _ _)) by lia. simpl.
    assert (Hch' : chunks m (cb_size b - 1 - cb_mtu b) (cb_start b) (ps ++ [p])
      (cb_start b + cb_used b + nblocks (zlen p))) by (eapply chunks_app; [done|apply Hnew; lia]).
    case_match eqn:E; constructor; simpl; rewrite ?Z.ltb_lt, ?Z.ltb_ge in E; try lia; [right|left].
    + exists (ps ++ [p]), [], 0. simpl. rewrite app_nil_r. unfold cb_lim. simpl.
      split_and!; [done|by destruct ps|done|done|lia|lia|lia|lia].
    + unfold straight, cb_lim; simpl. split_and!; [done|lia|]. by rewrite Z.add_assoc.
  - pose proof (chunks_le _ _ _ _ _ Hc2). destruct (wrapped_ends b e) as [He Hfr]; [lia|done|].
    destruct (chunks_nonempty _ _ _ _ _ Hne Hc1). unfold cb_lim in *. simpl in *.
    rewrite (proj2 (Z.leb_gt (cb_used b + nblocks (zlen p)) (cb_wrap b - cb_start b))) by lia. simpl.
    constructor; simpl; try lia. right. exists ps1, (ps2 ++ [p]), (e + nblocks (zlen p)).
    unfold cb_lim. simpl. rewrite <- app_assoc. split_and!; [done..| |lia|lia|lia|lia].
    eapply chunks_app; [done|]. rewrite He in *. apply Hnew. lia.
Qed.

(** ** The operations *)

(** The user has written [p] where [input_dest] points. *)
Definition filled (b : ChunkBuffer2) (m p : list Z) : Prop :=
  free_only b m /\ zlen p <= cb_input_avail b /\ slice m (BLOCK * (ChunkBuffer2_end b + 1)) (zlen p) = p.

Lemma filled_fits b ps m p : cb_holds b ps -> filled b m p ->
  0 < free_blocks b /\ nblocks (zlen p) <= free_blocks b /\ zlen p < 2 ^ 31 /\
  cb_input_dest b = Some (BLOCK * (ChunkBuffer2_end b + 1)).
Proof.
  intros (Hc & [Hi Hi'] & _) (_ & Ha & _). pose proof (core_bounds _ _ Hc). destruct Hc as [_ Hm _ _ _].
  pose proof (zlen_nonneg p). unfold nblocks, BLOCK in *.
  destruct (Z.lt_ge_cases 0 (free_blocks b)) as [Hf|Hf]; [|destruct (Hi' Hf); lia].
  destruct (Hi Hf) as [? Hav]. rewrite Hav in Ha.
  split_and!; [done|Z.to_euclidean_division_equations; lia|lia|done].
Qed.

Lemma written_header b ps m p : cb_holds b ps -> filled b m p ->
  set_block_len m (ChunkBuffer2_end b) (zlen p) = Ok (splice m (BLOCK * ChunkBuffer2_end b) (le32 (zlen p))) /\
  written b (splice m (BLOCK * ChunkBuffer2_end b) (le32 (zlen p))) p.
Proof.
  intros Hh Hfl. destruct (filled_fits _ _ _ _ Hh Hfl) as (Hpos & Hn & Hp & _).
  destruct Hh as [Hc _]. pose proof (core_bounds _ _ Hc). destruct Hc as [Hl _ _ _ _].
  destruct Hfl as ([Hz Hf] & _ & Hd). pose proof (zlen_le32 (zlen p)).
  pose proof (nblocks_bound (zlen p) (zlen_nonneg p)). pose proof (zlen_nonneg p). unfold BLOCK in *.
  assert (Hin : 4 * ChunkBuffer2_end b + 4 <= zlen m) by lia. split.
  { unfold set_block_len. apply wr_list_ok; unfold BLOCK; lia. }
  unfold written. split_and!; [split|done|done| |].
  - rewrite zlen_splice by lia. done.
  - intros i Hi0 Hi. unfold BLOCK in Hi. destruct (Z.lt_ge_cases i (zlen m)).
    + rewrite byte_at_splice by lia. rewrite (proj2 (andb_false_iff _ _)) by lia. apply Hf; lia.
    + unfold byte_at. rewrite !lookup_ge_None_2; [done|unfold zlen in *; lia|].
      pose proof (zlen_splice m (4 * ChunkBuffer2_end b) (le32 (zlen p))). unfold zlen in *. lia.
  - unfold BLOCK. apply list_eq_byte_at; rewrite zlen_slice; rewrite ?zlen_splice; try lia.
    intros i Hi. rewrite byte_at_slice, byte_at_splice by lia.
    rewrite (proj2 (andb_true_iff _ _)) by lia. f_equal. lia.
  - unfold BLOCK. etransitivity; [|exact Hd]. apply slice_frame; try (rewrite ?zlen_splice; lia).
    intros i Hi. rewrite byte_at_splice by lia. by rewrite (proj2 (andb_false_iff _ _)) by lia.
Qed.

Lemma append_fields b m p :
  cb_size (append_blocks b m p) = cb_size b /\ cb_mtu (append_blocks b m p) = cb_mtu b /\
  cb_start (append_blocks b m p) = cb_start b /\
  cb_used (append_blocks b m p) = cb_used b + nblocks (zlen p) /\
  cb_output_dest (append_blocks b m p) = cb_output_dest b /\
  cb_output_avail (append_blocks b m p) = cb_output_avail b.
Proof. unfold append_blocks. cbv zeta. by case_match. Qed.

(** The last steps of a submission: the views of the buffer with the new packet. *)
Lemma submit_views b ps p b1 : output_view b ps -> cb_core b ps -> cb_core b1 (ps ++ [p]) ->
  cb_start b1 = cb_start b -> cb_used b1 = cb_used b + nblocks (zlen p) ->
  cb_output_dest b1 = cb_output_dest b -> cb_output_avail b1 = cb_output_avail b ->
  exists b2, (if cb_used (update_input b1) =? nblocks (zlen p) then update_output (update_input b1)
              else Ok (update_input b1)) = Ok b2 /\ cb_holds b2 (ps ++ [p]) /\
    cb_size b2 = cb_size b1 /\ cb_mtu b2 = cb_mtu b1 /\ cb_start b2 = cb_start b1.
Proof.
  intros Ho Hc H1 Hs Hu Hod Hoa. pose proof (core_bounds _ _ Hc) as Hb.
  destruct (update_input_view _ _ H1) as (d & a & -> & Hi).
  pose proof (core_views b1 _ d a H1) as H2.
  change (cb_used (b1 <| cb_input_dest := d |> <| cb_input_avail := a |>)) with (cb_used b1). rewrite Hu.
  destruct ps as [|q ps].
  - replace (cb_used b) with 0 by (symmetry; by apply Hb). rewrite Z.add_0_l, Z.eqb_refl.
    destruct (update_output_view _ _ H2) as (d' & a' & -> & Hv).
    eexists. split; [done|]. split; [|done]. split; [by apply core_views_out|]. by split.
  - assert (cb_used b <> 0) by (intros E; by apply Hb in E).
    rewrite (proj2 (Z.eqb_neq _ _)) by lia. eexists. split; [done|]. split; [|done].
    split; [done|]. split; [done|]. simpl in *. rewrite Hod, Hoa, Hs. done.
Qed.
Arguments update_input : simpl never.
Arguments update_output : simpl never.

Lemma wp_submit b ps m p (Q : ChunkBuffer2 -> Prop) :
  cb_holds b ps -> filled b m p ->
  (forall b', cb_holds b' (ps ++ [p]) -> cb_size b' = cb_size b -> cb_mtu b' = cb_mtu b ->
     cb_start b' = cb_start b -> Q b') ->
  wp (ChunkBuffer2_SubmitPacket (b <| cb_buffer := m |>) (zlen p)) Q.
Proof.
  intros Hh Hfl HQ. destruct (filled_fits _ _ _ _ Hh Hfl) as (Hpos & Hn & Hp & Hid).
  destruct (written_header _ _ _ _ Hh Hfl) as [Hset Hwr].
  destruct Hh as (Hc & Hiv & Ho). pose proof (core_bounds _ _ Hc) as Hb.
  assert (Hh' : cb_holds (b <| cb_buffer := m |>) ps)
    by (split; [apply core_free_only; [done|apply Hfl]|done]).
  pose proof (zlen_nonneg p). pose proof (core_append _ _ _ _ Hc Hwr) as Ha.
  destruct (append_fields b (splice m (BLOCK * ChunkBuffer2_end b) (le32 (zlen p))) p)
    as (Fs & Fm & Fst & Fu & Fod & Foa).
  destruct (submit_views b ps p _ Ho Hc Ha Fst Fu Fod Foa) as (b2 & Heq & Hh2 & Hs2 & Hm2 & Hst2).
  unfold ChunkBuffer2_SubmitPacket. simpl. rewrite Hid.
  apply wp_bind, wp_assert; [done|]. wp_assert_lia. destruct Hfl as (? & Hav & ?). wp_assert_lia.
  apply wp_bind, (wp_assert_buffer _ ps); [apply Hh'|].
  apply wp_bind, (wp_assert_io _ ps); [done|].
  change (ChunkBuffer2_end (b <| cb_buffer := m |>)) with (ChunkBuffer2_end b). cbv zeta.
  rewrite bdivide_up_eq, s32_small by (Z.to_euclidean_division_equations; lia).
  unfold nblocks in Hn. wp_assert_lia. apply wp_bind, wp_assert.
  { unfold free_blocks in Hn. destruct (Z.ltb_spec (cb_used b) (cb_wrap b - cb_start b)); [done|].
    rewrite (proj2 (Z.leb_le _ _)) in Hn by lia. lia. }
  rewrite Hset. apply wp_bind, wp_ok.
  replace (ChunkBuffer2_end b + 1 + (zlen p + 3) / 4) with (ChunkBuffer2_end b + nblocks (zlen p))
    by (unfold nblocks; lia).
  replace (1 + (zlen p + 3) / 4) with (nblocks (zlen p)) by done.
  lazymatch goal with |- wp (assert_buffer ?x ≫= _) _ =>
    change x with (append_blocks b (splice m (BLOCK * ChunkBuffer2_end b) (le32 (zlen p))) p) end.
  apply wp_bind, (wp_assert_buffer _ (ps ++ [p])); [done|].
  rewrite Heq. apply wp_bind, wp_ok. apply wp_bind, (wp_assert_io _ (ps ++ [p])); [done|].
  apply wp_ok, HQ; [done|congruence..].
Qed.

Definition drop_blocks (b : ChunkBuffer2) (p : list Z) : ChunkBuffer2 :=
  let b' := b <| cb_start := cb_start b + nblocks (zlen p) |> <| cb_used := cb_used b - nblocks (zlen p) |> in
  if cb_start b' =? cb_wrap b' then b' <| cb_start := 0 |> <| cb_wrap := cb_size b' |> else b'.

(** Taking the first packet out leaves the end where it is and frees blocks behind it. *)
Lemma core_drop b p ps : cb_core b (p :: ps) ->
  cb_core (drop_blocks b p) ps /\ ChunkBuffer2_end (drop_blocks b p) = ChunkBuffer2_end b /\
  free_blocks b <= free_blocks (drop_blocks b p) /\
  (cb_used b < cb_wrap b - cb_start b -> free_blocks b = free_blocks (drop_blocks b p)).
Proof.
  intros Hc. pose proof (straight_ends b _ Hc) as Hst. pose proof (core_bounds _ _ Hc) as Hb.
  pose proof (nblocks_pos (zlen p) (zlen_nonneg p)). destruct Hc as [Hl Hm Hmtu Hs Hr].
  unfold drop_blocks. cbv zeta. simpl. destruct Hr as [H1|(ps1 & ps2 & e & Heq & Hne & Hc1 & Hc2 & Hu & Hle & Hw)].
  - destruct (Hst H1) as [He Hf]. destruct H1 as (Hw & Hle & Hch).
    pose proof (chunks_cons_lt _ _ _ _ _ _ Hch). destruct Hch as (? & ? & _ & _ & Hch).
    unfold cb_lim in *. rewrite (proj2 (Z.eqb_neq _ _)) by lia.
    assert (Hcore : cb_core (b <| cb_start := cb_start b + nblocks (zlen p) |>
                               <| cb_used := cb_used b - nblocks (zlen p) |>) ps).
    { constructor; simpl; try lia. left. unfold straight, cb_lim. simpl. split_and!; [done|lia|].
      by replace (cb_start b + nblocks (zlen p) + (cb_used b - nblocks (zlen p)))
        with (cb_start b + cb_used b) by lia. }
    split; [done|]. destruct (straight_ends _ _ Hcore) as [E1 E2].
    { unfold straight, cb_lim. simpl. split_and!; [done|lia|].
      by replace (cb_start b + nblocks (zlen p) + (cb_used b - nblocks (zlen p)))
        with (cb_start b + cb_used b) by lia. }
    rewrite E1, E2, He, Hf. simpl. lia.
  - destruct ps1 as [|q ps1]; [done|]. injection Heq as <- ->.
    pose proof (chunks_le _ _ _ _ _ Hc2). destruct (wrapped_ends b e) as [He Hf]; [lia|done|].
    pose proof (chunks_cons_lt _ _ _ _ _ _ Hc1). destruct Hc1 as (? & ? & _ & _ & Hc1).
    unfold cb_lim in *. destruct ps1 as [|r ps1].
    + simpl in Hc1. rewrite (proj2 (Z.eqb_eq _ _)) by lia.
      assert (Hcore : cb_core (b <| cb_start := cb_start b + nblocks (zlen p) |>
          <| cb_used := cb_used b - nblocks (zlen p) |> <| cb_start := 0 |> <| cb_wrap := cb_size b |>) ps2).
      { constructor; simpl; try lia. left. unfold straight, cb_lim. simpl. split_and!; [done|lia|].
        by replace (cb_used b - nblocks (zlen p)) with e by lia. }
      split; [done|]. destruct (straight_ends _ _ Hcore) as [E1 E2].
      { unfold straight, cb_lim. simpl. split_and!; [done|lia|].
        by replace (cb_used b - nblocks (zlen p)) with e by lia. }
      rewrite E1, E2, He, Hf. simpl. lia.
    + assert (cb_start b + nblocks (zlen p) < cb_wrap b) by (eapply chunks_nonempty; [|exact Hc1]; done).
      rewrite (proj2 (Z.eqb_neq _ _)) by lia.
      edestruct (wrapped_ends (b <| cb_start := cb_start b + nblocks (zlen p) |>
        <| cb_used := cb_used b - nblocks (zlen p) |>) e) as [E1 E2]; [lia|simpl; lia|].
      rewrite E1, E2, He, Hf. simpl. split; [|lia]. constructor; simpl; try lia.
      right. exists (r :: ps1), ps2, e. unfold cb_lim. simpl. split_and!; [done|done|apply Hc1..|done|lia|lia|lia|lia].
Qed.

Lemma drop_fields b p :
  cb_size (drop_blocks b p) = cb_size b /\ cb_mtu (drop_blocks b p) = cb_mtu b /\
  cb_buffer (drop_blocks b p) = cb_buffer b /\
  cb_input_dest (drop_blocks b p) = cb_input_dest b /\ cb_input_avail (drop_blocks b p) = cb_input_avail b.
Proof. unfold drop_blocks. cbv zeta. by case_match. Qed.

(** What a consumption leaves as it is: the memory, and where the next packet goes,
    for which there is only more room. *)
Record consumed (b b' : ChunkBuffer2) : Prop := Consumed {
  cd_size : cb_size b' = cb_size b; cd_mtu : cb_mtu b' = cb_mtu b; cd_mem : cb_buffer b' = cb_buffer b;
  cd_end : ChunkBuffer2_end b' = ChunkBuffer2_end b; cd_free : free_blocks b <= free_blocks b' }.

Lemma consume_views b p ps : cb_holds b (p :: ps) ->
  let b1 := if cb_wrap b - cb_start b <=? cb_used b then update_input (drop_blocks b p) else drop_blocks b p in
  exists b2, update_output b1 = Ok b2 /\ cb_holds b2 ps /\ consumed b b2.
Proof.
  intros (Hc & Hi & _). destruct (core_drop _ _ _ Hc) as (Hd & He & Hf & Hsame).
  destruct (drop_fields b p) as (Fs & Fm & Fb & Fd & Fa).
  assert (exists d a, (if cb_wrap b - cb_start b <=? cb_used b then update_input (drop_blocks b p)
      else drop_blocks b p) = ((drop_blocks b p) <| cb_input_dest := d |> <| cb_input_avail := a |>) /\
      input_view ((drop_blocks b p) <| cb_input_dest := d |> <| cb_input_avail := a |>)) as (d & a & -> & Hv).
  { destruct (Z.leb_spec (cb_wrap b - cb_start b) (cb_used b)); [by apply update_input_view with ps|].
    exists (cb_input_dest b), (cb_input_avail b). split.
    - rewrite <- Fd, <- Fa. by destruct (drop_blocks b p).
    - destruct Hi as [Hi Hi']. unfold input_view. simpl.
      change (free_blocks ((drop_blocks b p) <| cb_input_dest := cb_input_dest b |>
        <| cb_input_avail := cb_input_avail b |>)) with (free_blocks (drop_blocks b p)).
      change (ChunkBuffer2_end ((drop_blocks b p) <| cb_input_dest := cb_input_dest b |>
        <| cb_input_avail := cb_input_avail b |>)) with (ChunkBuffer2_end (drop_blocks b p)).
      rewrite He, <- Hsame by done. done. }
  cbv zeta. pose proof (core_views _ _ d a Hd) as H2.
  destruct (update_output_view _ _ H2) as (d' & a' & -> & Ho). eexists. split; [done|].
  split; [split; [by apply core_views_out|by split]|]. by constructor.
Qed.

Lemma wp_consume b p ps (Q : ChunkBuffer2 -> Prop) :
  cb_holds b (p :: ps) -> (forall b', cb_holds b' ps -> consumed b b' -> Q b') ->
  wp (ChunkBuffer2_ConsumePacket b) Q.
Proof.
  intros Hh HQ. destruct (consume_views _ _ _ Hh) as (b2 & Heq & Hh2 & Hcd).
  pose proof Hh as (Hc & Hi & [Ho _]). destruct (core_head _ _ _ Hc) as (Hl & Hp & Hw & Hu & _).
  pose proof (zlen_nonneg p). pose proof (nblocks_pos (zlen p)). pose proof (core_drop _ _ _ Hc) as [Hd _].
  unfold ChunkBuffer2_ConsumePacket. rewrite Ho.
  apply wp_bind, wp_assert; [done|]. apply wp_bind, (wp_assert_buffer _ (p :: ps)); [done|].
  apply wp_bind, (wp_assert_io _ (p :: ps)); [done|]. do 2 wp_assert_lia.
  rewrite Hl. apply wp_bind, wp_ok. cbv zeta.
  rewrite bdivide_up_eq, s32_small by (Z.to_euclidean_division_equations; lia).
  unfold nblocks in Hw, Hu. do 2 wp_assert_lia.
  lazymatch goal with |- wp (assert_buffer ?x ≫= _) _ => change x with (drop_blocks b p) end.
  apply wp_bind, (wp_assert_buffer _ ps); [done|]. rewrite Heq. apply wp_bind, wp_ok.
  apply wp_bind, (wp_assert_io _ ps); [done|]. by apply wp_ok, HQ.
Qed.

(** A new buffer is empty. *)
Lemma wp_chunk_init m blocks mtu (Q : ChunkBuffer2 -> Prop) :
  zlen m = BLOCK * blocks -> BLOCK * blocks < 2 ^ 31 -> 0 <= mtu < 2 ^ 31 -> nblocks mtu <= blocks ->
  (forall b, cb_holds b [] -> cb_mtu b = nblocks mtu - 1 -> cb_size b = blocks -> Q b) -> wp (ChunkBuffer2_Init m blocks mtu) Q.
Proof.
  intros Hm Hmax Hmtu Hn HQ. pose proof (nblocks_pos mtu). unfold ChunkBuffer2_Init.
  do 2 wp_assert_lia. cbv zeta.
  rewrite bdivide_up_eq, s32_small by (Z.to_euclidean_division_equations; lia). unfold nblocks in *.
  assert (Hc : cb_core (ChunkBuffer2_ m blocks blocks 0 0 ((mtu + 3) / 4) None 0 None 0) []).
  { constructor; simpl; [done|done|lia|lia|]. left. unfold straight, cb_lim. simpl. split_and!; [done|lia|done]. }
  apply wp_bind, (wp_assert_buffer _ []); [done|].
  destruct (update_input_view _ _ Hc) as (d & a & -> & Hi).
  pose proof (core_views _ _ d a Hc) as H2. destruct (update_output_view _ _ H2) as (d' & a' & -> & Ho).
  apply wp_bind, wp_ok. assert (Hh : cb_holds ((ChunkBuffer2_ m blocks blocks 0 0 ((mtu + 3) / 4) None 0 None 0)
    <| cb_input_dest := d |> <| cb_input_avail := a |> <| cb_output_dest := d' |> <| cb_output_avail := a' |>) [])
    by (split; [by apply core_views_out|by split]).
  apply wp_bind, (wp_assert_io _ []); [done|]. apply wp_ok, HQ; [done| |done].
  simpl. unfold nblocks. lia.
Qed.
