(* ===== verification/FlowFacts.v ===== *)
(** Facts about Flow: frames of PacketProto in a stream, and what the decoder finds
    at the start of its data. *)
From S2P Require Import Prelude CMem Flow ChunkFacts.

(** ** Frames *)

(** A packet as it is in the stream, and the stream of several. *)
Definition frame (p : list Z) : list Z := le16 (zlen p) ++ p.
Definition frames (ps : list (list Z)) : list Z := concat (frame <$> ps).

#[global] Arguments frame : simpl never.
#[global] Arguments frames : simpl never.

Lemma zlen_frame p : zlen (frame p) = 2 + zlen p.
Proof. unfold frame. rewrite zlen_app. done. Qed.
Lemma frames_app ps qs : frames (ps ++ qs) = frames ps ++ frames qs.
Proof. unfold frames. by rewrite fmap_app, concat_app. Qed.
Lemma frames_cons p ps : frames (p :: ps) = frame p ++ frames ps.
Proof. done. Qed.
Lemma frames_1 p : frames [p] = frame p.
Proof. by rewrite frames_cons, app_nil_r. Qed.

(** the length in front of a stream of at least two bytes *)
Definition header (s : list Z) : Z := byte_at s 0 + 256 * byte_at s 1.

Lemma header_frame p s : zlen p <= 65535 -> header (frame p ++ s) = zlen p.
Proof.
  intros Hp. pose proof (zlen_nonneg p). unfold header, frame, le16. cbn [app].
  unfold byte_at. simpl. Z.to_euclidean_division_equations. lia.
Qed.
Lemma frame_of_header s : bytes_ok s -> 2 <= zlen s -> 2 + header s <= zlen s ->
  slice s 0 (2 + header s) = frame (slice s 2 (header s)).
Proof.
  intros Hb H2 Hl. pose proof (byte_at_range s 0 Hb). pose proof (byte_at_range s 1 Hb).
  unfold header in *. apply list_eq_byte_at; [rewrite zlen_frame, !zlen_slice; lia|].
  rewrite zlen_slice by lia. intros i Hi. unfold frame.
  set (h := byte_at s 0 + 256 * byte_at s 1) in *.
  assert (Hz : zlen (slice s 2 h) = h) by (rewrite zlen_slice; lia). rewrite Hz.
  rewrite byte_at_slice by lia. destruct (Z.lt_ge_cases i 2).
  - rewrite byte_at_app_l by (change (zlen (le16 h)) with 2; lia). unfold le16.
    assert (i = 0 \/ i = 1) as [-> | ->] by lia; unfold byte_at at 2; simpl; rewrite ?Z.add_0_l;
      unfold h; Z.to_euclidean_division_equations; lia.
  - rewrite byte_at_app_r by (change (zlen (le16 h)) with 2; lia). change (zlen (le16 h)) with 2.
    rewrite byte_at_slice by lia. f_equal. lia.
Qed.

(** Data that holds no whole packet and announces none over [mtu]. *)
Definition incomplete (mtu : Z) (s : list Z) : Prop :=
  zlen s < 2 \/ (header s <= mtu /\ zlen s < 2 + header s).

(** A stream of frames and its prefixes: what follows the packets taken out. *)
Lemma frames_prefix mtu ps outs s : mtu <= 65535 ->
  Forall (fun p => zlen p <= mtu) ps -> Forall (fun p => zlen p <= mtu) outs ->
  frames outs ++ s `prefix_of` frames ps ->
  exists qs, ps = outs ++ qs /\ s `prefix_of` frames qs.
Proof.
  intros Hm. revert ps. induction outs as [|o outs IH]; intros ps Hps Houts Hpre; [by exists ps|].
  apply Forall_cons in Houts as [Ho Houts]. rewrite frames_cons, <- app_assoc in Hpre.
  destruct ps as [|p ps].
  { apply prefix_nil_inv in Hpre. apply (f_equal zlen) in Hpre. rewrite !zlen_app, zlen_frame in Hpre.
    pose proof (zlen_nonneg (frames outs)). pose proof (zlen_nonneg o). pose proof (zlen_nonneg s).
    rewrite zlen_nil in Hpre. lia. }
  apply Forall_cons in Hps as [Hp Hps]. rewrite frames_cons in Hpre.
  destruct Hpre as [k Hk]. rewrite <- !app_assoc in Hk.
  assert (Hh : zlen p = zlen o).
  { rewrite <- (header_frame p (frames ps)), <- (header_frame o (frames outs ++ s ++ k)) by lia. by rewrite Hk. }
  apply app_inj_1 in Hk as [Hf Hk]; [|pose proof (zlen_frame p); pose proof (zlen_frame o); unfold zlen in *; lia].
  unfold frame in Hf. apply app_inj_1 in Hf as [_ ->]; [|done].
  destruct (IH ps Hps Houts) as (qs & -> & Hq); [exists k; by rewrite <- app_assoc|].
  by exists qs.
Qed.
Lemma incomplete_prefix mtu qs s : mtu <= 65535 -> Forall (fun p => zlen p <= mtu) qs ->
  s `prefix_of` frames qs -> zlen s < 2 \/ header s <= mtu.
Proof.
  intros Hm Hq Hpre. destruct (Z.lt_ge_cases (zlen s) 2) as [|H2]; [by left|right].
  destruct qs as [|q qs].
  { apply prefix_nil_inv in Hpre as ->. rewrite zlen_nil in H2. lia. }
  apply Forall_cons in Hq as [Hq _]. rewrite frames_cons in Hpre. destruct Hpre as [k Hk].
  assert (header s = header (frame q ++ frames qs)) as ->.
  { rewrite Hk. unfold header. by rewrite !byte_at_app_l by lia. }
  rewrite header_frame by lia. done.
Qed.
(** Nothing is missing at the end of the stream. *)
Lemma incomplete_end mtu qs s : mtu <= 65535 -> Forall (fun p => zlen p <= mtu) qs ->
  s = frames qs -> incomplete mtu s -> qs = [].
Proof.
  intros Hm Hq -> Hi. destruct qs as [|q qs]; [done|]. exfalso. apply Forall_cons in Hq as [Hq _].
  rewrite frames_cons in Hi.
  pose proof (zlen_frame q). pose proof (zlen_nonneg q). pose proof (zlen_nonneg (frames qs)).
  unfold incomplete in Hi. rewrite zlen_app, header_frame in Hi by lia. lia.
Qed.
