(* ===== verification/ChunkProps.v ===== *)
(** Properties of PacketBuffer: it is a queue of packets that never stops. *)
From S2P Require Import Prelude CMem Flow Chunk ChunkFacts.

(** A packet buffer between its neighbours: the packets the one has put in and the
    other has taken out so far. *)
Record buffer_link : Type := BufferLink {
  bl_buf : PacketBuffer; bl_in : list (list Z); bl_out : list (list Z) }.
#[global] Instance eta_buffer_link : Eta buffer_link := fun r =>
  BufferLink (bl_buf r) (bl_in r) (bl_out r).

(** What can happen: a job runs, the source has written a packet (the memory is then
    [m]), the sink has taken one. *)
Inductive buffer_event : Type :=
  | InputOperation | InputDone (m p : list Z) | InputJob
  | OutputOperation | OutputDone | OutputJob.

Definition enabled (l : buffer_link) (ev : buffer_event) : Prop :=
  let b := bl_buf l in
  match ev with
  | InputOperation => pri_job_operation (pb_input b) = true
  | InputDone m p =>
      pri_state (pb_input b) = STATE_BUSY /\ zlen p <= pri_mtu (pb_input b) /\
      zlen m = zlen (cb_buffer (pb_buf b)) /\
      (let d := pri_job_operation_data (pb_input b) in
       (forall i, 0 <= i -> i < d \/ d + pri_mtu (pb_input b) <= i ->
          byte_at m i = byte_at (cb_buffer (pb_buf b)) i) /\ slice m d (zlen p) = p)
  | InputJob => pri_job_done (pb_input b) = true
  | OutputOperation => ppi_job_operation (pb_output b) = true
  | OutputDone => ppi_state (pb_output b) = STATE_BUSY
  | OutputJob => ppi_job_done (pb_output b) = true
  end.

Definition buf_run (l : buffer_link) (ev : buffer_event) : res buffer_link :=
  let b := bl_buf l in
  match ev with
  | InputOperation =>
      '(i, _) ← PacketRecvInterface_job_operation (pb_input b); Ok (l <| bl_buf := b <| pb_input := i |> |>)
  | InputDone m p =>
      i ← PacketRecvInterface_Done (pb_input b) (zlen p);
      Ok (l <| bl_buf := b <| pb_input := i |> <| pb_buf := (pb_buf b) <| cb_buffer := m |> |> |>
            <| bl_in := bl_in l ++ [p] |>)
  | InputJob => b ← buffer_input_job b; Ok (l <| bl_buf := b |>)
  | OutputOperation =>
      '(o, _) ← PacketPassInterface_job_operation (pb_output b); Ok (l <| bl_buf := b <| pb_output := o |> |>)
  | OutputDone =>
      p ← rd_list (cb_buffer (pb_buf b)) (ppi_job_operation_data (pb_output b))
            (ppi_job_operation_len (pb_output b));
      o ← PacketPassInterface_Done (pb_output b);
      Ok (l <| bl_buf := b <| pb_output := o |> |> <| bl_out := bl_out l ++ [p] |>)
  | OutputJob => b ← buffer_output_job b; Ok (l <| bl_buf := b |>)
  end.

Inductive buffer_reach (l0 : buffer_link) : buffer_link -> Prop :=
  | reach_refl : buffer_reach l0 l0
  | reach_step l ev l' : buffer_reach l0 l -> enabled l ev -> buf_run l ev = Ok l' -> buffer_reach l0 l'.

(** ** The invariant *)

(** The receiving side: a packet that is written and not yet submitted is [pend]. *)
Definition input_ok (i : PacketRecvInterface) (M : Z) (c : ChunkBuffer2) (pend : list (list Z)) : Prop :=
  pri_mtu i = M /\
  (pri_job_operation i = true <-> pri_state i = STATE_OPERATION_PENDING) /\
  (pri_job_done i = true <-> pri_state i = STATE_DONE_PENDING) /\
  (pri_state i = STATE_NONE -> cb_input_avail c < M) /\
  (pri_state i <> STATE_NONE -> cb_input_dest c = Some (pri_job_operation_data i) /\ M <= cb_input_avail c) /\
  (pri_state i <> STATE_DONE_PENDING -> pend = []) /\
  (pri_state i = STATE_DONE_PENDING -> exists p, pend = [p] /\ pri_job_done_len i = zlen p /\ zlen p <= M /\
     slice (cb_buffer c) (pri_job_operation_data i) (zlen p) = p).
(** The sending side: it sends the first packet. *)
Definition output_ok (o : PacketPassInterface) (M : Z) (c : ChunkBuffer2) (ps : list (list Z)) : Prop :=
  M <= ppi_mtu o /\
  (ppi_job_operation o = true <-> ppi_state o = STATE_OPERATION_PENDING) /\
  (ppi_job_done o = true <-> ppi_state o = STATE_DONE_PENDING) /\
  (ppi_state o = STATE_NONE <-> ps = []) /\
  (ppi_state o <> STATE_NONE -> cb_output_dest c = Some (ppi_job_operation_data o) /\
     cb_output_avail c = ppi_job_operation_len o).

Record link_ok (num : Z) (l : buffer_link) (ps pend : list (list Z)) : Prop := LinkOk {
  lo_holds : cb_holds (pb_buf (bl_buf l)) ps;
  lo_sizes : Forall (fun p => zlen p <= pb_input_mtu (bl_buf l)) ps;
  lo_mtu : 0 <= pb_input_mtu (bl_buf l) <= BLOCK * cb_mtu (pb_buf (bl_buf l)) /\
    BLOCK * cb_mtu (pb_buf (bl_buf l)) < pb_input_mtu (bl_buf l) + BLOCK;
  lo_size : cb_size (pb_buf (bl_buf l)) = (num + 1) * (1 + cb_mtu (pb_buf (bl_buf l)));
  lo_input : input_ok (pb_input (bl_buf l)) (pb_input_mtu (bl_buf l)) (pb_buf (bl_buf l)) pend;
  lo_output : output_ok (pb_output (bl_buf l)) (pb_input_mtu (bl_buf l)) (pb_buf (bl_buf l)) ps;
  lo_trace : bl_in l = bl_out l ++
    (if is_state (ppi_state (pb_output (bl_buf l))) STATE_DONE_PENDING then tail ps else ps) ++ pend }.

(** ** Each event keeps it *)
Section step.
Context (num : Z).

Lemma wp_input_operation l ps pend :
  link_ok num l ps pend -> enabled l InputOperation ->
  wp (buf_run l InputOperation) (fun l' => link_ok num l' ps pend).
Proof.
  intros [Hh Hsz Hmtu Hs Hi Ho Ht] He. simpl in He.
  destruct Hi as (I1 & I2 & I3 & I4 & I5 & I6 & I7). apply I2 in He as Hst.
  simpl. unfold PacketRecvInterface_job_operation. rewrite Hst. simpl.
  apply wp_ok. constructor; simpl; try done. unfold input_ok. simpl. rewrite I3. rewrite Hst in *.
  split_and!; [done|by split|by split|done|by intros _; apply I5|by intros _; apply I6|done].
Qed.

Lemma wp_input_done l ps pend m p :
  link_ok num l ps pend -> enabled l (InputDone m p) ->
  wp (buf_run l (InputDone m p)) (fun l' => link_ok num l' ps [p]).
Proof.
  intros [Hh Hsz Hmtu Hs Hi Ho Ht] (Hst & Hp & Hm & Hout & Hd).
  destruct Hi as (I1 & I2 & I3 & I4 & I5 & I6 & I7). rewrite I1 in *.
  destruct I5 as [Hid Hav]; [by rewrite Hst|]. pose proof (zlen_nonneg p).
  destruct Hh as (Hc & Hiv & Hov). pose proof (core_bounds _ _ Hc) as Hb.
  assert (Hf : free_only (pb_buf (bl_buf l)) m).
  { split; [done|]. intros i Hi0 Hi. apply Hout; [done|].
    destruct Hiv as [Hiv Hiv']. destruct (Z.lt_ge_cases 0 (free_blocks (pb_buf (bl_buf l)))) as [Hfr|Hfr].
    - destruct (Hiv Hfr) as [Hd' Ha']. rewrite Hid in Hd'. injection Hd' as ->. unfold BLOCK in *. lia.
    - destruct (Hiv' Hfr) as [Hd' _]. congruence. }
  simpl. unfold PacketRecvInterface_Done. rewrite Hst, I1.
  apply wp_bind. wp_assert_lia. wp_assert_lia. apply wp_bind, wp_assert; [done|].
  apply wp_ok, wp_ok. rewrite I6 in Ht by (by rewrite Hst). rewrite app_nil_r in Ht.
  constructor; simpl; try done.
  - split; [by apply core_free_only|done].
  - unfold input_ok. simpl. rewrite I2, Hst.
    split_and!; [done|by split|by split|done|done|by intros []|by intros _; exists p].
  - by rewrite Ht, app_assoc.
Qed.

Lemma wp_output_operation l ps pend :
  link_ok num l ps pend -> enabled l OutputOperation ->
  wp (buf_run l OutputOperation) (fun l' => link_ok num l' ps pend).
Proof.
  intros [Hh Hsz Hmtu Hs Hi Ho Ht] He. simpl in He.
  destruct Ho as (O1 & O2 & O3 & O4 & O5). apply O2 in He as Hst.
  simpl. unfold PacketPassInterface_job_operation. rewrite Hst. simpl.
  apply wp_ok. rewrite Hst in *. constructor; simpl; try done. unfold output_ok. simpl. rewrite O3, <- O4.
  split_and!; [done|by split|by split|by split|by intros _; apply O5].
Qed.

Lemma wp_output_done l ps pend :
  link_ok num l ps pend -> enabled l OutputDone ->
  wp (buf_run l OutputDone) (fun l' => link_ok num l' ps pend /\
    exists p, head ps = Some p /\ bl_out l' = bl_out l ++ [p]).
Proof.
  intros [Hh Hsz Hmtu Hs Hi Ho Ht] Hst. simpl in Hst.
  destruct Ho as (O1 & O2 & O3 & O4 & O5). rewrite Hst in *.
  destruct ps as [|p ps]; [discriminate (proj2 O4 eq_refl)|]. destruct (O5 ltac:(done)) as [Hd Hl].
  destruct Hh as (Hc & Hiv & [Hd' Hl']). destruct (core_head _ _ _ Hc) as (_ & _ & Hw & Hu & Hp).
  pose proof (core_bounds _ _ Hc). pose proof (nblocks_bound (zlen p) (zlen_nonneg p)). pose proof (zlen_nonneg p).
  rewrite Hd in Hd'. injection Hd' as Hd'. rewrite Hl in Hl'. pose proof (cc_len _ _ Hc).
  simpl. rewrite Hd', Hl'. rewrite rd_list_ok by (unfold BLOCK in *; lia). apply wp_bind, wp_ok.
  unfold PacketPassInterface_Done. rewrite Hst. simpl. apply wp_ok. rewrite Hp.
  simpl in Ht. split; [|eauto]. constructor; simpl; try done.
  - split; [done|]. split; [done|]. split; [congruence|congruence].
  - unfold output_ok. simpl. rewrite O2. by split_and!.
  - by rewrite Ht, <- app_assoc.
Qed.

(** Scheduling a receive wherever there is room for a packet. *)
Lemma wp_receive_if b ps : let M := pb_input_mtu b in
  cb_holds (pb_buf b) ps -> 0 <= M -> pri_mtu (pb_input b) = M -> pri_state (pb_input b) = STATE_NONE ->
  pri_job_operation (pb_input b) = false -> pri_job_done (pb_input b) = false ->
  wp (if M <=? cb_input_avail (pb_buf b) then buffer_receive b else Ok b) (fun b' =>
    exists i, b' = b <| pb_input := i |> /\ input_ok i M (pb_buf b) []).
Proof.
  intros M Hh HM Hm Hst Ho Hd. destruct Hh as (_ & [Hi Hi'] & _).
  destruct (Z.leb_spec M (cb_input_avail (pb_buf b))) as [Hle|Hlt].
  - destruct (Z.lt_ge_cases 0 (free_blocks (pb_buf b))) as [Hf|Hf]; [|destruct (Hi' Hf); lia].
    destruct (Hi Hf) as [Hdst _]. unfold buffer_receive, PacketRecvInterface_Receiver_Recv.
    rewrite Hdst, Hst. simpl. apply wp_ok. eexists. split; [done|]. unfold input_ok. simpl. rewrite Hd.
    by split_and!.
  - apply wp_ok. exists (pb_input b). split; [by destruct b|]. unfold input_ok. rewrite Hst, Ho, Hd.
    by split_and!.
Qed.

(** Sending the first packet. *)
Lemma wp_send_first b p ps : let M := pb_input_mtu b in
  cb_holds (pb_buf b) (p :: ps) -> zlen p <= M -> M <= ppi_mtu (pb_output b) ->
  ppi_state (pb_output b) = STATE_NONE -> ppi_job_done (pb_output b) = false ->
  wp (buffer_send b) (fun b' => exists o, b' = b <| pb_output := o |> /\
    output_ok o M (pb_buf b) (p :: ps) /\ ppi_state o = STATE_OPERATION_PENDING).
Proof.
  intros M Hh Hp Hm Hst Hd. destruct Hh as (_ & _ & [Hdst Hav]). pose proof (zlen_nonneg p).
  unfold buffer_send, PacketPassInterface_Sender_Send. rewrite Hdst, Hav.
  apply wp_bind, wp_ok, wp_bind. do 2 wp_assert_lia. rewrite Hst. simpl. apply wp_ok, wp_ok.
  eexists. split; [done|]. split; [|done]. unfold output_ok. simpl. rewrite Hd. by split_and!.
Qed.

Lemma filled_pending b ps p : let c := pb_buf b in
  cb_holds c ps -> input_ok (pb_input b) (pb_input_mtu b) c [p] -> 0 <= pb_input_mtu b ->
  pri_state (pb_input b) = STATE_DONE_PENDING -> filled c (cb_buffer c) p.
Proof.
  intros c (Hc & [Hi Hi'] & _) (I1 & I2 & I3 & I4 & I5 & I6 & I7) HM Hst.
  destruct I5 as [Hd Hav]; [by rewrite Hst|]. destruct (I7 Hst) as (q & [= <-] & _ & Hp & Hs).
  destruct (Z.lt_ge_cases 0 (free_blocks c)) as [Hf|Hf]; [|destruct (Hi' Hf); lia].
  destruct (Hi Hf) as [Hd' _]. rewrite Hd in Hd'. injection Hd' as Hd'. rewrite Hd' in Hs.
  split_and!; [done|lia|done].
Qed.

Lemma wp_input_job l ps pend :
  link_ok num l ps pend -> enabled l InputJob ->
  wp (buf_run l InputJob) (fun l' => exists p, link_ok num l' (ps ++ [p]) []).
Proof.
  intros [Hh Hsz Hmtu Hs Hi Ho Ht] He. simpl in He. set (b := bl_buf l) in *.
  pose proof Hi as (I1 & I2 & I3 & I4 & I5 & I6 & I7). apply I3 in He as Hst.
  destruct (I7 Hst) as (p & -> & Hlen & Hp & _). pose proof (zlen_nonneg p).
  pose proof (filled_pending b ps p Hh Hi ltac:(lia) Hst) as Hfl.
  simpl. fold b. apply wp_bind. unfold buffer_input_job, PacketRecvInterface_job_done. rewrite Hst. simpl.
  rewrite Hlen. unfold buffer_input_handler_done. simpl. do 2 wp_assert_lia. apply wp_bind.
  replace (pb_buf b) with ((pb_buf b) <| cb_buffer := cb_buffer (pb_buf b) |>) at 1 by (by destruct (pb_buf b)).
  apply (wp_submit _ ps); [done|done|]. intros c Hh' Hsz' Hmt' Hst'.
  set (i := (pb_input b) <| pri_job_done := false |> <| pri_state := STATE_NONE |>).
  pose proof (wp_receive_if (b <| pb_input := i |> <| pb_buf := c |>) (ps ++ [p])) as Hrec. simpl in Hrec.
  apply wp_bind. eapply wp_mono.
  { apply Hrec; try done; [lia|]. apply (job_false _ _ _ I2). by rewrite Hst. }
  intros b' (i' & -> & Hi').
  assert (Hsz2 : Forall (fun q => zlen q <= pb_input_mtu b) (ps ++ [p])) by (apply Forall_app; split; by auto).
  destruct Ho as (O1 & O2 & O3 & O4 & O5). destruct ps as [|q ps].
  - destruct Hh as (_ & _ & [_ Hoa]). rewrite Hoa. simpl. assert (Hno : ppi_state (pb_output b) = STATE_NONE) by (by apply O4).
    pose proof (wp_send_first (b <| pb_input := i |> <| pb_buf := c |> <| pb_input := i' |>) p []) as Hsend.
    simpl in Hsend. eapply wp_mono.
    { apply Hsend; try done. apply (job_false _ _ _ O3). by rewrite Hno. }
    intros b' (o & -> & Ho' & Hop). apply wp_ok. exists p. constructor; simpl; try done.
    + by rewrite Hmt'.
    + by rewrite Hsz', Hmt'.
    + rewrite Hop. simpl. rewrite Ht, Hno. done.
  - destruct Hh as (_ & _ & [Hod Hoa]). pose proof (zlen_nonneg q).
    rewrite Hoa, (proj2 (Z.ltb_ge _ _)) by lia. apply wp_ok, wp_ok. exists p.
    destruct Hh' as (Hc' & Hiv' & [Hod' Hoa']). constructor; simpl; try done.
    + by rewrite Hmt'.
    + by rewrite Hsz', Hmt'.
    + unfold output_ok. split_and!; [done|done|done|by rewrite O4|]. intros Hn. apply O5 in Hn.
      by rewrite Hod', Hoa', Hst', <- Hod, <- Hoa.
    + rewrite Ht, app_nil_r. f_equal. by destruct (is_state (ppi_state (pb_output b)) STATE_DONE_PENDING).
Qed.

(** A consumption keeps the receiving side: there is only more room where it writes. *)
Lemma input_ok_consumed i M c c' pend ps ps' :
  cb_holds c ps -> cb_holds c' ps' -> consumed c c' -> 0 <= M -> pri_state i <> STATE_NONE ->
  input_ok i M c pend -> input_ok i M c' pend.
Proof.
  intros (Hc & [Hi Hi'] & _) (_ & [Hv Hv'] & _) [_ _ Hmem Hend Hfree] HM Hst (I1 & I2 & I3 & I4 & I5 & I6 & I7).
  destruct (I5 Hst) as [Hd Ha].
  destruct (Z.lt_ge_cases 0 (free_blocks c)) as [Hf|Hf]; [|destruct (Hi' Hf); lia].
  destruct (Hi Hf) as [Hd' Ha']. destruct (Hv ltac:(lia)) as [Hd2 Ha2]. rewrite Hend in Hd2. unfold BLOCK in *.
  unfold input_ok. rewrite Hmem. split_and!; [done|done|done|done| |done|done].
  intros _. split; [congruence|lia].
Qed.

Lemma wp_output_job l ps pend :
  link_ok num l ps pend -> enabled l OutputJob ->
  wp (buf_run l OutputJob) (fun l' => link_ok num l' (tail ps) pend).
Proof.
  intros [Hh Hsz Hmtu Hs Hi Ho Ht] He. simpl in He. set (b := bl_buf l) in *.
  pose proof Ho as (O1 & O2 & O3 & O4 & O5). apply O3 in He as Hst.
  destruct ps as [|p ps]; [rewrite Hst in O4; discriminate (proj2 O4 eq_refl)|].
  rewrite bool_decide_eq_true_2 in Ht by done. simpl in Ht.
  simpl. fold b. apply wp_bind. unfold buffer_output_job, PacketPassInterface_job_done. rewrite Hst. simpl.
  unfold buffer_output_handler_done. simpl. apply wp_bind, (wp_consume _ p ps); [done|].
  intros c Hh' Hcd. pose proof Hi as (I1 & I2 & I3 & I4 & I5 & I6 & I7).
  set (o := (pb_output b) <| ppi_job_done := false |> <| ppi_state := STATE_NONE |>).
  apply Forall_cons in Hsz as [Hp Hsz]. apply wp_bind. apply (wp_mono _ (fun b' => exists i,
    b' = b <| pb_output := o |> <| pb_buf := c |> <| pb_input := i |> /\ input_ok i (pb_input_mtu b) c pend)).
  { destruct (decide (pri_state (pb_input b) = STATE_NONE)) as [Hn|Hn].
    - pose proof (I4 Hn) as Hlt. rewrite (proj2 (Z.ltb_lt _ _)) by done. simpl.
      pose proof (wp_receive_if (b <| pb_output := o |> <| pb_buf := c |>) ps) as Hrec. simpl in Hrec.
      rewrite (I6 ltac:(by rewrite Hn)). apply Hrec; try done; [lia|..].
      + apply (job_false _ _ _ I2). by rewrite Hn.
      + apply (job_false _ _ _ I3). by rewrite Hn.
    - destruct (I5 Hn) as [_ Hle]. rewrite (proj2 (Z.ltb_ge _ _)) by done. simpl. apply wp_ok.
      exists (pb_input b). split; [done|]. apply (input_ok_consumed _ _ (pb_buf b) _ _ (p :: ps) ps); try done; lia. }
  intros b' (i & -> & Hi'). simpl. destruct Hcd as [Cs Cm Cb _ _]. destruct ps as [|q ps].
  - pose proof Hh' as (_ & _ & [_ Hoa]). rewrite Hoa. simpl. apply wp_ok, wp_ok. constructor; simpl; try done.
    + by rewrite Cm.
    + by rewrite Cs, Cm.
    + unfold output_ok. simpl. rewrite O2, Hst. by split_and!.
  - pose proof Hh' as (_ & _ & [_ Hoa]). rewrite Hoa. rewrite (proj2 (Z.leb_le _ _)) by apply zlen_nonneg.
    pose proof (wp_send_first (b <| pb_output := o |> <| pb_buf := c |> <| pb_input := i |>) q ps) as Hsend.
    simpl in Hsend. eapply wp_mono.
    { apply Hsend; try done. by apply Forall_cons in Hsz as [? _]. }
    intros b' (o' & -> & Ho' & Hop). apply wp_ok. constructor; simpl; try done.
    + by rewrite Cm.
    + by rewrite Cs, Cm.
    + by rewrite Hop.
Qed.

(** Every event that can happen happens without an error and keeps the invariant. *)
Lemma wp_run l ev ps pend : link_ok num l ps pend -> enabled l ev ->
  wp (buf_run l ev) (fun l' => exists ps pend, link_ok num l' ps pend).
Proof.
  intros Hl He. destruct ev as [|m p| | | |].
  - eapply wp_mono; [by apply wp_input_operation|]. intros l' H; do 2 eexists; exact H.
  - eapply wp_mono; [by eapply wp_input_done|]. intros l' H; do 2 eexists; exact H.
  - eapply wp_mono; [by eapply wp_input_job|]. intros l' [p H]; do 2 eexists; exact H.
  - eapply wp_mono; [by apply wp_output_operation|]. intros l' H; do 2 eexists; exact H.
  - eapply wp_mono; [by eapply wp_output_done|]. intros l' [H _]; do 2 eexists; exact H.
  - eapply wp_mono; [by apply wp_output_job|]. intros l' H; do 2 eexists; exact H.
Qed.

Lemma reach_ok l0 l ps pend : link_ok num l0 ps pend -> buffer_reach l0 l ->
  exists ps pend, link_ok num l ps pend.
Proof.
  intros H0 Hr. induction Hr as [|l ev l' _ (ps' & pend' & IH) He Hrun]; [eauto|].
  pose proof (wp_run _ _ _ _ IH He) as Hw. rewrite Hrun in Hw. exact Hw.
Qed.

(** *** Capacity *)
Lemma chunks_size m lim pos ps e K : chunks m lim pos ps e ->
  Forall (fun p => nblocks (zlen p) <= K) ps -> e - pos <= zlen ps * K.
Proof.
  revert pos. induction ps as [|p ps IH]; intros pos Hc Hs; [simpl in Hc; change (zlen (@nil (list Z))) with 0; lia|].
  apply Forall_cons in Hs as [Hp Hs]. destruct Hc as (_ & _ & _ & _ & Hc). apply (IH _ Hc) in Hs.
  rewrite zlen_cons. lia.
Qed.
Lemma full_count l ps pend : link_ok num l ps pend -> 0 <= num ->
  cb_input_avail (pb_buf (bl_buf l)) < pb_input_mtu (bl_buf l) -> num <= zlen ps.
Proof.
  intros [Hh Hsz Hmtu Hs Hi Ho Ht] Hnum Hav. set (b := pb_buf (bl_buf l)) in *.
  destruct Hh as (Hc & [Hv Hv'] & _). pose proof (core_bounds _ _ Hc) as Hb.
  assert (Hk : Forall (fun p => nblocks (zlen p) <= 1 + cb_mtu b) ps).
  { eapply Forall_impl; [exact Hsz|]. intros p Hp. simpl in Hp. unfold nblocks, BLOCK in *.
    Z.to_euclidean_division_equations. lia. }
  assert (Hf : free_blocks b <= cb_mtu b).
  { destruct (Z.lt_ge_cases 0 (free_blocks b)) as [Hf|Hf]; [|destruct Hc; lia].
    destruct (Hv Hf) as [_ Ha]. rewrite Ha in Hav. unfold BLOCK in *. lia. }
  destruct (cc_rows _ _ Hc) as [Hst|(ps1 & ps2 & e & -> & Hn & Hc1 & Hc2 & Hu & Hle & Hw)].
  { exfalso. destruct Hst as (? & ? & _). unfold cb_lim in *. lia. }
  apply Forall_app in Hk as [Hk1 Hk2]. apply (chunks_size _ _ _ _ _ _ Hc1) in Hk1.
  pose proof (chunks_le _ _ _ _ _ Hc2). apply (chunks_size _ _ _ _ _ _ Hc2) in Hk2.
  destruct (wrapped_ends b e) as [He Hfr]; [lia|done|]. rewrite zlen_app.
  unfold cb_lim in *. nia.
Qed.
End step.

(** ** Starting *)

Lemma calc_blocks_eq M num : 0 <= M < 2 ^ 31 -> 0 < num -> BLOCK * ((num + 1) * nblocks M) < 2 ^ 31 ->
  ChunkBuffer2_calc_blocks M num = (num + 1) * nblocks M.
Proof.
  intros HM Hn Hmax. pose proof (nblocks_bound M). pose proof (nblocks_pos M).
  unfold ChunkBuffer2_calc_blocks, INT_MAX, BLOCK in *.
  rewrite bdivide_up_eq by lia. replace ((M + 3) / 4) with (nblocks M - 1) by (unfold nblocks; lia).
  rewrite s32_small by lia. rewrite !(proj2 (Z.ltb_ge _ _)); [lia| |nia|lia].
  replace (1 + (nblocks M - 1)) with (nblocks M) by lia. apply Z.quot_le_lower_bound; nia.
Qed.

(** A buffer for [num] packets as [PacketBuffer_Init] makes it, between a source of
    packets of [M] bytes at most and a sink that takes [M']. *)
Definition started (num M M' : Z) (l : buffer_link) : Prop :=
  exists i o mem b, PacketRecvInterface_Init M = Ok i /\ PacketPassInterface_Init M' = Ok o /\
    (forall n m, mem n = Some m -> zlen m = n) /\ PacketBuffer_Init i o num mem = Ok (Some b) /\
    l = BufferLink b [] [].

Lemma started_ok num M M' l : started num M M' l -> M < 2 ^ 31 -> BLOCK * ((num + 1) * nblocks M) < 2 ^ 31 ->
  0 < num /\ link_ok num l [] [].
Proof.
  intros (i & o & mem & b & Hi & Ho & Hm & Hb & ->) HM Hmax.
  unfold PacketRecvInterface_Init, PacketPassInterface_Init, assert_ in Hi, Ho.
  destruct (Z.leb_spec 0 M) as [HM0|]; [|done]. injection Hi as <-.
  destruct (Z.leb_spec 0 M') as [HM'|]; [|done]. injection Ho as <-.
  unfold PacketBuffer_Init, assert_ in Hb. simpl in Hb.
  destruct (Z.leb_spec M M'); [|done]. destruct (Z.ltb_spec 0 num); [|done]. simpl in Hb.
  rewrite calc_blocks_eq in Hb by lia. pose proof (nblocks_pos M HM0). pose proof (nblocks_bound M HM0).
  rewrite (proj2 (Z.ltb_ge _ _)) in Hb by nia.
  destruct (mem _) as [m|] eqn:E; [|done]. apply Hm in E. split; [done|].
  apply bind_ok_inv in Hb as (c & Hc & Hb).
  assert (Hw : wp (ChunkBuffer2_Init m ((num + 1) * nblocks M) M) (fun c => cb_holds c [] /\
    cb_mtu c = nblocks M - 1 /\ cb_size c = (num + 1) * nblocks M)).
  { apply wp_chunk_init; [done|done|lia|nia|]. intros c' ? ? ?. by split. }
  rewrite Hc in Hw. destruct Hw as (Hh & Hmtu & Hsz).
  apply bind_ok_inv in Hb as (b' & Hb' & [= <-]).
  pose proof (wp_receive_if (PacketBuffer_ (PacketRecvInterface_ STATE_NONE M false 0 false 0) M
    (PacketPassInterface_ STATE_NONE M' false 0 0 false false false false) c) []) as Hrec.
  simpl in Hrec. rewrite (proj2 (Z.leb_le _ _)) in Hrec.
  2:{ destruct Hh as (Hcc & [Hv _] & _). pose proof (core_bounds _ _ Hcc) as Hbb.
      assert (cb_used c = 0) by (apply Hbb; done). destruct (Hv ltac:(lia)) as [_ ->]. unfold BLOCK. lia. }
  rewrite Hb' in Hrec. destruct (Hrec Hh HM0 eq_refl eq_refl eq_refl eq_refl) as (i & -> & Hi).
  constructor; simpl; try done; try (unfold BLOCK; lia).
Qed.

Lemma started_reach num M M' l0 l : started num M M' l0 -> M < 2 ^ 31 ->
  BLOCK * ((num + 1) * nblocks M) < 2 ^ 31 -> buffer_reach l0 l ->
  0 < num /\ exists ps pend, link_ok num l ps pend.
Proof. intros H0 HM Hmax Hr. destruct (started_ok _ _ _ _ H0 HM Hmax). split; [done|]. by eapply reach_ok. Qed.

Lemma output_done_taken l ps pend num : link_ok num l ps pend ->
  exists q, bl_in l = bl_out l ++ q ++ pend /\ zlen ps <= zlen q + 1 /\
    (ppi_state (pb_output (bl_buf l)) = STATE_NONE -> q = []).
Proof.
  intros Hl. pose proof (lo_trace _ _ _ _ Hl) as Ht. destruct (lo_output _ _ _ _ Hl) as (_ & _ & _ & O4 & _).
  destruct ps as [|p ps].
  - exists []. rewrite Ht. split; [by case_match|done].
  - eexists. split; [exact Ht|]. split.
    + case_match; simpl; rewrite ?zlen_cons; lia.
    + intros Hn. by apply O4 in Hn.
Qed.

(** C18: Whatever packets the source writes, of whatever sizes up to the MTU, and
    however the jobs interleave, no operation of a PacketBuffer fails an assertion or
    leaves its memory, and the sink has received the packets unchanged and in the
    order in which they were put in; what is missing waits in the buffer. The
    buffer stops asking for packets only while at least as many as it was made for,
    but one, still wait. *)
Theorem packet_buffer_fifo num M M' l0 l :
  started num M M' l0 -> M < 2 ^ 31 -> BLOCK * ((num + 1) * nblocks M) < 2 ^ 31 -> buffer_reach l0 l ->
  (forall ev, enabled l ev -> exists l', buf_run l ev = Ok l') /\
  exists q, bl_in l = bl_out l ++ q /\
    (pri_state (pb_input (bl_buf l)) = STATE_NONE -> num - 1 <= zlen q).
Proof.
  intros H0 HM Hmax Hr. destruct (started_reach _ _ _ _ _ H0 HM Hmax Hr) as (Hn & ps & pend & Hl). split.
  - intros ev He. destruct (wp_inv _ _ (wp_run _ _ _ _ _ Hl He)) as (l' & ? & _). by exists l'.
  - destruct (output_done_taken _ _ _ _ Hl) as (q & Hq & Hz & _). exists (q ++ pend). split; [done|].
    intros Hst. pose proof (lo_input _ _ _ _ Hl) as (_ & _ & _ & Hfull & _).
    pose proof (full_count _ _ _ _ Hl ltac:(lia) (Hfull Hst)). rewrite zlen_app. pose proof (zlen_nonneg pend). lia.
Qed.

(** *** Draining *)
Lemma reach_trans l0 l1 l2 : buffer_reach l0 l1 -> buffer_reach l1 l2 -> buffer_reach l0 l2.
Proof. intros H01 H12. induction H12; [done|]. by eapply reach_step. Qed.

Lemma reach_one l ev l' : enabled l ev -> buf_run l ev = Ok l' -> buffer_reach l l'.
Proof. intros. eapply reach_step; [apply reach_refl|done..]. Qed.
Lemma reach_then l ev l1 l2 : enabled l ev -> buf_run l ev = Ok l1 -> buffer_reach l1 l2 -> buffer_reach l l2.
Proof. intros. eapply reach_trans; [by eapply reach_one|done]. Qed.

Lemma output_operation_busy l l' : buf_run l OutputOperation = Ok l' ->
  ppi_state (pb_output (bl_buf l')) = STATE_BUSY.
Proof.
  simpl. unfold PacketPassInterface_job_operation, assert_. case_match; [|done]. by intros [= <-].
Qed.
Lemma output_done_pending l l' : buf_run l OutputDone = Ok l' ->
  ppi_state (pb_output (bl_buf l')) = STATE_DONE_PENDING /\ bl_in l' = bl_in l.
Proof.
  simpl. unfold PacketPassInterface_Done, assert_. intros (p & _ & H)%bind_ok_inv. simpl in H.
  case_match; [|done]. injection H as <-. done.
Qed.
Lemma output_event_in l ev l' : buf_run l ev = Ok l' -> ev = OutputOperation \/ ev = OutputJob -> bl_in l' = bl_in l.
Proof.
  intros H [-> | ->]; simpl in H; apply bind_ok_inv in H as (x & _ & H); [destruct x|]; by injection H as <-.
Qed.

Lemma drain num l ps : link_ok num l ps [] ->
  exists l', buffer_reach l l' /\ link_ok num l' [] [] /\ bl_in l' = bl_in l.
Proof.
  revert l. induction ps as [|p ps IH]; intros l Hl; [exists l; split; [apply reach_refl|done]|].
  assert (Hd : forall l1, link_ok num l1 (p :: ps) [] -> ppi_state (pb_output (bl_buf l1)) = STATE_DONE_PENDING ->
    exists l', buffer_reach l1 l' /\ link_ok num l' [] [] /\ bl_in l' = bl_in l1).
  { intros l1 H1 Hs. assert (He : enabled l1 OutputJob) by (destruct (lo_output _ _ _ _ H1) as (_ & _ & O3 & _); by apply O3).
    destruct (wp_inv _ _ (wp_output_job _ _ _ _ H1 He)) as (l2 & Hrun & H2).
    destruct (IH _ H2) as (l3 & Hr3 & H3 & Hi). exists l3. split_and!; [|done|].
    - by apply (reach_then _ OutputJob l2).
    - rewrite Hi. apply (output_event_in _ _ _ Hrun). by right. }
  assert (Hb : forall l1, link_ok num l1 (p :: ps) [] -> ppi_state (pb_output (bl_buf l1)) = STATE_BUSY ->
    exists l', buffer_reach l1 l' /\ link_ok num l' [] [] /\ bl_in l' = bl_in l1).
  { intros l1 H1 Hs. destruct (wp_inv _ _ (wp_output_done _ _ _ _ H1 Hs)) as (l2 & Hrun & H2 & _).
    destruct (output_done_pending _ _ Hrun) as [Hs2 Hi2].
    destruct (Hd _ H2 Hs2) as (l3 & Hr3 & H3 & Hi). exists l3. split_and!; [|done|congruence].
    by apply (reach_then _ OutputDone l2). }
  pose proof (lo_output _ _ _ _ Hl) as (_ & O2 & _ & O4 & _).
  destruct (ppi_state (pb_output (bl_buf l))) eqn:E; [|clear Hd|by apply Hb|by apply Hd].
  - discriminate (proj1 O4 eq_refl).
  - assert (He : enabled l OutputOperation) by (by apply O2).
    destruct (wp_inv _ _ (wp_output_operation _ _ _ _ Hl He)) as (l2 & Hrun & H2).
    destruct (Hb _ H2 (output_operation_busy _ _ Hrun)) as (l3 & Hr3 & H3 & Hi). exists l3. split_and!; [|done|].
    + by apply (reach_then _ OutputOperation l2).
    + rewrite Hi. apply (output_event_in _ _ _ Hrun). by left.
Qed.

(** C27: From every state a PacketBuffer can reach it can be run empty: the sink then has
    every packet that was put in, and the buffer is asking for the next one. So no
    interleaving leads to a state in which it waits for nothing or keeps a packet. *)
Theorem packet_buffer_drains num M M' l0 l :
  started num M M' l0 -> M < 2 ^ 31 -> BLOCK * ((num + 1) * nblocks M) < 2 ^ 31 -> buffer_reach l0 l ->
  exists l', buffer_reach l l' /\ bl_in l' = bl_in l /\ bl_out l' = bl_in l /\
    pri_state (pb_input (bl_buf l')) <> STATE_NONE.
Proof.
  intros H0 HM Hmax Hr. destruct (started_reach _ _ _ _ _ H0 HM Hmax Hr) as (Hn & ps & pend & Hl).
  assert (exists l1 qs, buffer_reach l l1 /\ link_ok num l1 qs [] /\ bl_in l1 = bl_in l) as (l1 & qs & Hr1 & H1 & Hi1).
  { pose proof (lo_input _ _ _ _ Hl) as (_ & _ & I3 & _ & _ & I6 & _).
    destruct (decide (pri_state (pb_input (bl_buf l)) = STATE_DONE_PENDING)) as [Hd|Hd].
    - assert (He : enabled l InputJob) by (by apply I3).
      destruct (wp_inv _ _ (wp_input_job _ _ _ _ Hl He)) as (l1 & Hrun & p & H1). exists l1, (ps ++ [p]).
      split_and!; [by apply (reach_one _ InputJob)|done|].
      simpl in Hrun. apply bind_ok_inv in Hrun as (b & _ & [= <-]). done.
    - exists l, ps. rewrite (I6 Hd) in Hl. split_and!; [apply reach_refl|done..]. }
  destruct (drain _ _ _ H1) as (l2 & Hr2 & H2 & Hi2). exists l2. split_and!; [by eapply reach_trans|congruence| |].
  - destruct (output_done_taken _ _ _ _ H2) as (q & Hq & _ & Hnone). rewrite Hnone, app_nil_r in Hq; [congruence|].
    destruct (lo_output _ _ _ _ H2) as (_ & _ & _ & O4 & _). by apply O4.
  - intros Hs. pose proof (lo_input _ _ _ _ H2) as (_ & _ & _ & Hfull & _).
    pose proof (full_count _ _ _ _ H2 ltac:(lia) (Hfull Hs)) as Hc. change (zlen (@nil (list Z))) with 0 in Hc. lia.
Qed.

(** *** A run: room for one packet of eight bytes, one of three bytes goes in *)
Definition link_of (r : res buffer_link) : buffer_link :=
  match r with
  | Ok l => l
  | _ => BufferLink (PacketBuffer_ (PacketRecvInterface_ STATE_NONE 0 false 0 false 0) 0
           (PacketPassInterface_ STATE_NONE 0 false 0 0 false false false false)
           (ChunkBuffer2_ [] 0 0 0 0 0 None 0 None 0)) [] []
  end.
Definition demo0 : buffer_link := link_of (
  i ← PacketRecvInterface_Init 8; o ← PacketPassInterface_Init 8;
  b ← PacketBuffer_Init i o 1 (fun n => Some (replicate (Z.to_nat n) 0));
  match b with Some b => Ok (BufferLink b [] []) | None => Ub end).
Definition demo_mem : list Z := splice (replicate 24 0) 4 [7; 8; 9].
Definition demo1 : buffer_link := link_of (buf_run demo0 InputOperation).
Definition demo2 : buffer_link := link_of (buf_run demo1 (InputDone demo_mem [7; 8; 9])).

Lemma demo_started : started 1 8 8 demo0.
Proof.
  exists (PacketRecvInterface_ STATE_NONE 8 false 0 false 0),
    (PacketPassInterface_ STATE_NONE 8 false 0 0 false false false false),
    (fun n => if n <? 0 then None else Some (replicate (Z.to_nat n) 0)), (bl_buf demo0).
  split_and!; [done|done| |vm_compute; reflexivity|vm_compute; reflexivity].
  intros n m. case_match; [done|]. intros [= <-]. rewrite zlen_replicate. lia.
Qed.
Lemma demo_reach : buffer_reach demo0 demo2.
Proof.
  apply (reach_then _ InputOperation demo1); [vm_compute; reflexivity|vm_compute; reflexivity|].
  apply (reach_one _ (InputDone demo_mem [7; 8; 9])); [|vm_compute; reflexivity].
  split; [vm_compute; reflexivity|]. split; [vm_compute; congruence|]. split; [vm_compute; reflexivity|].
  split; [|vm_compute; reflexivity]. intros i H0 Hi.
  change (byte_at demo_mem i = byte_at (replicate 24 0) i).
  assert (Hd : pri_job_operation_data (pb_input (bl_buf demo1)) = 4) by (vm_compute; reflexivity).
  assert (Hm : pri_mtu (pb_input (bl_buf demo1)) = 8) by (vm_compute; reflexivity).
  rewrite Hd, Hm in Hi.
  assert (zlen (replicate 24 0) = 24) by done. assert (zlen [7; 8; 9] = 3) by done.
  destruct (Z.lt_ge_cases i 24).
  - unfold demo_mem. rewrite byte_at_splice by lia. by rewrite (proj2 (andb_false_iff _ _)) by lia.
  - unfold byte_at. rewrite !lookup_ge_None_2; [done|simpl; lia..].
Qed.

Lemma packet_buffer_fifo_witness : bl_in demo2 = [[7; 8; 9]] /\
  (forall ev, enabled demo2 ev -> exists l', buf_run demo2 ev = Ok l') /\
  exists q, bl_in demo2 = bl_out demo2 ++ q /\
    (pri_state (pb_input (bl_buf demo2)) = STATE_NONE -> 1 - 1 <= zlen q).
Proof.
  split; [vm_compute; reflexivity|].
  apply (packet_buffer_fifo 1 8 8 demo0); [exact demo_started|lia|vm_compute; reflexivity|exact demo_reach].
Defined.

Lemma packet_buffer_drains_witness : bl_in demo2 = [[7; 8; 9]] /\
  exists l', buffer_reach demo2 l' /\ bl_in l' = bl_in demo2 /\ bl_out l' = bl_in demo2 /\
    pri_state (pb_input (bl_buf l')) <> STATE_NONE.
Proof.
  split; [vm_compute; reflexivity|].
  apply (packet_buffer_drains 1 8 8 demo0); [exact demo_started|lia|vm_compute; reflexivity|exact demo_reach].
Defined.
