(* ===== verification/FlowProps.v ===== *)
(** Properties of the flow objects: frames survive the stream, in whatever pieces it
    comes. *)
From S2P Require Import Prelude CMem Flow ChunkFacts FlowFacts.

(** ** PacketProtoDecoder between its neighbours: the bytes the stream has delivered
    and the packets the sink has taken. *)
Record decoder_link : Type := DecoderLink {
  dl_dec : PacketProtoDecoder; dl_in : list Z; dl_out : list (list Z) }.
#[global] Instance eta_decoder_link : Eta decoder_link := fun r =>
  DecoderLink (dl_dec r) (dl_in r) (dl_out r).

Inductive decoder_event : Type :=
  | InOperation | InDone (data : list Z) | InJob | OutOperation | OutDone | OutJob.

Definition dec_enabled (l : decoder_link) (ev : decoder_event) : Prop :=
  let d := dl_dec l in
  match ev with
  | InOperation => sri_job_operation (d_input d) = true
  | InDone data => sri_state (d_input d) = STATE_BUSY /\ 0 < zlen data <= sri_job_operation_len (d_input d) /\
      bytes_ok data
  | InJob => sri_job_done (d_input d) = true
  | OutOperation => ppi_job_operation (d_output d) = true
  | OutDone => ppi_state (d_output d) = STATE_BUSY
  | OutJob => ppi_job_done (d_output d) = true
  end.

(** The flag: [handler_error] was called. *)
Definition dec_run (l : decoder_link) (ev : decoder_event) : res (decoder_link * bool) :=
  let d := dl_dec l in
  match ev with
  | InOperation =>
      '(i, _) ← StreamRecvInterface_job_operation (d_input d);
      Ok (l <| dl_dec := d <| d_input := i |> |>, false)
  | InDone data =>
      b ← wr_list (d_buf d) (sri_job_operation_data (d_input d)) data;
      i ← StreamRecvInterface_Done (d_input d) (zlen data);
      Ok (l <| dl_dec := d <| d_buf := b |> <| d_input := i |> |> <| dl_in := dl_in l ++ data |>, false)
  | InJob => '(d, e) ← decoder_input_job d; Ok (l <| dl_dec := d |>, e)
  | OutOperation =>
      '(o, _) ← PacketPassInterface_job_operation (d_output d);
      Ok (l <| dl_dec := d <| d_output := o |> |>, false)
  | OutDone =>
      p ← rd_list (d_buf d) (ppi_job_operation_data (d_output d)) (ppi_job_operation_len (d_output d));
      o ← PacketPassInterface_Done (d_output d);
      Ok (l <| dl_dec := d <| d_output := o |> |> <| dl_out := dl_out l ++ [p] |>, false)
  | OutJob => '(d, e) ← decoder_output_job d; Ok (l <| dl_dec := d |>, e)
  end.

Inductive dec_reach (l0 : decoder_link) : decoder_link -> Prop :=
  | dec_refl : dec_reach l0 l0
  | dec_step l ev l' : dec_reach l0 l -> dec_enabled l ev -> dec_run l ev = Ok (l', false) -> dec_reach l0 l'.

(** *** The invariant *)

(** what the decoder holds and has not taken apart *)
Definition rest_of (d : PacketProtoDecoder) : list Z := slice (d_buf d) (d_buf_start d) (d_buf_used d).
(** bytes written behind it and not reported yet *)
Definition pending_of (d : PacketProtoDecoder) : list Z :=
  if is_state (sri_state (d_input d)) STATE_DONE_PENDING
  then slice (d_buf d) (d_buf_start d + d_buf_used d) (sri_job_done_len (d_input d)) else [].

Record dec_buffer (mtu : Z) (d : PacketProtoDecoder) : Prop := DecBuffer {
  db_mtu : 0 <= mtu <= 65535; db_out : d_output_mtu d = mtu; db_ppi : mtu <= ppi_mtu (d_output d);
  db_size : d_buf_size d = 2 + mtu; db_len : zlen (d_buf d) = 2 + mtu;
  db_start : 0 <= d_buf_start d; db_used : 0 <= d_buf_used d; db_end : d_buf_start d + d_buf_used d <= 2 + mtu;
  db_bytes : bytes_ok (rest_of d) }.

Definition receiving (mtu : Z) (d : PacketProtoDecoder) : Prop :=
  let i := d_input d in
  ppi_state (d_output d) = STATE_NONE /\ ppi_job_operation (d_output d) = false /\
  ppi_job_done (d_output d) = false /\ incomplete mtu (rest_of d) /\
  sri_state i <> STATE_NONE /\
  (sri_job_operation i = true <-> sri_state i = STATE_OPERATION_PENDING) /\
  (sri_job_done i = true <-> sri_state i = STATE_DONE_PENDING) /\
  sri_job_operation_data i = d_buf_start d + d_buf_used d /\
  sri_job_operation_len i = d_buf_size d - (d_buf_start d + d_buf_used d) /\
  0 < sri_job_operation_len i /\
  (sri_state i = STATE_DONE_PENDING ->
     0 < sri_job_done_len i <= sri_job_operation_len i /\ bytes_ok (pending_of d)).
Definition passing (d : PacketProtoDecoder) (cur : list (list Z)) : Prop :=
  let o := d_output d in
  sri_state (d_input d) = STATE_NONE /\ sri_job_operation (d_input d) = false /\
  sri_job_done (d_input d) = false /\
  ppi_state o <> STATE_NONE /\
  (ppi_job_operation o = true <-> ppi_state o = STATE_OPERATION_PENDING) /\
  (ppi_job_done o = true <-> ppi_state o = STATE_DONE_PENDING) /\
  0 <= ppi_job_operation_data o /\ 0 <= ppi_job_operation_len o /\
  ppi_job_operation_data o + ppi_job_operation_len o <= d_buf_start d /\
  cur = (if is_state (ppi_state o) STATE_DONE_PENDING then []
         else [slice (d_buf d) (ppi_job_operation_data o) (ppi_job_operation_len o)]).

Record dec_ok (mtu : Z) (l : decoder_link) (cur : list (list Z)) : Prop := DecOk {
  do_buf : dec_buffer mtu (dl_dec l);
  do_phase : (receiving mtu (dl_dec l) /\ cur = []) \/ passing (dl_dec l) cur;
  do_sizes : Forall (fun p => zlen p <= mtu) (dl_out l ++ cur);
  do_trace : dl_in l = frames (dl_out l ++ cur) ++ rest_of (dl_dec l) ++ pending_of (dl_dec l) }.

(** *** [process_data] *)

Lemma ltoh16_header m s n : 0 <= s -> 2 <= n -> s + n <= zlen m ->
  ltoh16 m s = Ok (header (slice m s n)).
Proof.
  intros. unfold ltoh16. rewrite !rd_ok by lia. simpl. unfold header. rewrite !byte_at_slice by lia.
  by rewrite Z.add_0_r.
Qed.

Lemma zlen_rest mtu d : dec_buffer mtu d -> zlen (rest_of d) = d_buf_used d.
Proof. intros []. unfold rest_of. apply zlen_slice; lia. Qed.

Lemma wp_find_packet mtu d : dec_buffer mtu d ->
  wp (find_packet d) (fun f => match f with
    | FoundPacket n => n = header (rest_of d) /\ 0 <= n <= mtu /\ 2 + n <= d_buf_used d
    | FoundPart => incomplete mtu (rest_of d)
    | FoundTooLarge => 2 <= zlen (rest_of d) /\ mtu < header (rest_of d)
    end).
Proof.
  intros Hd. pose proof (zlen_rest _ _ Hd) as Hz. destruct Hd as [Hm Ho Hp Hs Hl H0 Hu He Hb].
  pose proof (byte_at_range (rest_of d) 0 Hb). pose proof (byte_at_range (rest_of d) 1 Hb).
  unfold find_packet. cbv zeta. rewrite usz_small by lia.
  destruct (Z.ltb_spec (d_buf_used d) 2); [apply wp_ok; left; lia|].
  rewrite (ltoh16_header _ _ (d_buf_used d)) by lia. apply wp_bind, wp_ok.
  fold (rest_of d). rewrite Ho. destruct (Z.ltb_spec mtu (header (rest_of d))); [apply wp_ok; lia|].
  destruct (Z.ltb_spec (d_buf_used d - 2) (header (rest_of d))); apply wp_ok.
  - right. lia.
  - unfold header in *. lia.
Qed.

(** An idle decoder looks at its data: it passes a packet on, waits for more, or
    gives up on a length over the MTU. *)
Lemma wp_process mtu d (Q : PacketProtoDecoder * bool -> Prop) :
  dec_buffer mtu d ->
  ppi_state (d_output d) = STATE_NONE -> ppi_job_operation (d_output d) = false ->
  ppi_job_done (d_output d) = false ->
  sri_state (d_input d) = STATE_NONE -> sri_job_operation (d_input d) = false ->
  sri_job_done (d_input d) = false ->
  (forall d' p, dec_buffer mtu d' -> passing d' [p] -> zlen p <= mtu ->
     rest_of d = frame p ++ rest_of d' -> pending_of d' = [] -> Q (d', false)) ->
  (forall d', dec_buffer mtu d' -> receiving mtu d' -> rest_of d' = rest_of d -> pending_of d' = [] -> Q (d', false)) ->
  (forall d', 2 <= zlen (rest_of d) -> mtu < header (rest_of d) -> Q (d', true)) ->
  wp (process_data d) Q.
Proof.
  intros Hd Hp1 Hp2 Hp3 Hs1 Hs2 Hs3 Hpass Hrecv Herr. pose proof (zlen_rest _ _ Hd) as Hz.
  pose proof Hd as [Hm Ho Hpm Hsz Hl H0 Hu He Hb]. unfold process_data.
  apply wp_bind. eapply wp_mono; [by apply wp_find_packet|]. intros [n| |].
  - intros (Hn & Hnr & Hn2). cbv zeta. unfold PacketPassInterface_Sender_Send.
    apply wp_bind. wp_assert_lia. simpl. wp_assert_lia. rewrite Hp1. simpl. apply wp_ok, wp_ok.
    apply (Hpass _ (slice (d_buf d) (d_buf_start d + 2) n)).
    + constructor; simpl; try done; try lia. unfold rest_of. simpl.
      replace (slice (d_buf d) (d_buf_start d + (2 + n)) (d_buf_used d - (2 + n)))
        with (slice (rest_of d) (2 + n) (d_buf_used d - (2 + n))); [by apply bytes_ok_slice|].
      unfold rest_of. rewrite slice_slice by lia. done.
    + unfold passing. simpl. rewrite Hp3. split_and!; try done; try lia.
    + rewrite zlen_slice; lia.
    + transitivity (slice (d_buf d) (d_buf_start d) (2 + n) ++
        slice (d_buf d) (d_buf_start d + (2 + n)) (d_buf_used d - (2 + n))).
      { rewrite slice_app by lia. unfold rest_of. f_equal. lia. }
      f_equal. subst n.
      assert (E : slice (rest_of d) 0 (2 + header (rest_of d)) = frame (slice (rest_of d) 2 (header (rest_of d))))
        by (apply frame_of_header; [done|lia|lia]).
      unfold rest_of in E at 1 3. rewrite !slice_slice, Z.add_0_r in E by lia. exact E.
    + unfold pending_of. simpl. by rewrite Hs1.
  - intros Hi.
    assert (Hlast : d_buf_start d = 0 -> d_buf_used d < 2 + mtu).
    { intros. destruct Hi as [?|[? ?]]; lia. }
    apply wp_bind, (wp_mono _ (fun d1 => dec_buffer mtu d1 /\ rest_of d1 = rest_of d /\
      d_buf_start d1 + d_buf_used d1 < 2 + mtu /\ d_output d1 = d_output d /\ d_input d1 = d_input d)).
    { destruct (Z.eqb_spec (d_buf_start d + d_buf_used d) (d_buf_size d)) as [E|E].
      - rewrite memmove_ok by lia. apply wp_bind, wp_ok, wp_ok.
        set (b := splice _ _ _). assert (Hzs : zlen (slice (d_buf d) (d_buf_start d) (d_buf_used d)) = d_buf_used d)
          by (rewrite zlen_slice; lia).
        assert (Hr : rest_of (d <| d_buf := b |> <| d_buf_start := 0 |>) = rest_of d).
        { unfold rest_of. simpl. apply list_eq_byte_at; rewrite zlen_slice; rewrite ?Hzs; unfold b; rewrite ?zlen_splice; try lia.
          intros i Hi'. rewrite byte_at_slice, Z.add_0_l, byte_at_splice by lia.
          rewrite (proj2 (andb_true_iff _ _)) by lia. f_equal. lia. }
        split_and!; [|done|simpl; lia|done|done]. constructor; simpl; try done; try lia.
        + unfold b. rewrite zlen_splice; lia.
        + by rewrite Hr.
      - apply wp_ok. split_and!; try done. lia. }
    intros d1 (Hd1 & Hr1 & Hroom & Eo & Ei). unfold receive_more, StreamRecvInterface_Receiver_Recv.
    pose proof Hd1 as [_ _ _ Hsz1 _ _ _ _ _]. rewrite Ei, Hs1. apply wp_bind, wp_bind, wp_bind.
    apply wp_assert; [lia|]. simpl. apply wp_ok, wp_ok, wp_ok. apply Hrecv.
    + destruct Hd1. by constructor.
    + unfold receiving. simpl. rewrite Eo, Hs3, Hp1. split_and!; try done; try lia.
      change (incomplete mtu (rest_of d1)). by rewrite Hr1.
    + exact Hr1.
    + done.
  - intros [H2 Hh]. apply wp_bind. unfold receive_more, StreamRecvInterface_Receiver_Recv. simpl.
    rewrite Hs1, Hsz. apply wp_bind, wp_bind, wp_assert; [lia|]. simpl. apply wp_ok, wp_ok, wp_ok. by apply Herr.
Qed.

(** *** Each event keeps it *)

(** What an event leads to: the invariant, or an error that the stream announces a
    packet over the MTU. *)
Definition dec_post (mtu : Z) (r : decoder_link * bool) : Prop :=
  let '(l, e) := r in
  if e then exists s, dl_in l = frames (dl_out l) ++ s /\ Forall (fun p => zlen p <= mtu) (dl_out l) /\
              2 <= zlen s /\ mtu < header s
  else exists cur, dec_ok mtu l cur.

Lemma wp_process_link mtu d tin tout :
  dec_buffer mtu d ->
  ppi_state (d_output d) = STATE_NONE -> ppi_job_operation (d_output d) = false ->
  ppi_job_done (d_output d) = false ->
  sri_state (d_input d) = STATE_NONE -> sri_job_operation (d_input d) = false ->
  sri_job_done (d_input d) = false ->
  Forall (fun p => zlen p <= mtu) tout -> tin = frames tout ++ rest_of d ->
  wp (process_data d) (fun '(d, e) => dec_post mtu (DecoderLink d tin tout, e)).
Proof.
  intros Hd Hp1 Hp2 Hp3 Hs1 Hs2 Hs3 Hsz Ht. apply (wp_process mtu); try done.
  - intros d' p Hd' Hp Hl Hr Hpe. exists [p]. constructor; simpl; [done|by right|by apply Forall_app; auto|].
    rewrite Ht, Hr, Hpe, frames_app, frames_1, app_nil_r, app_assoc. done.
  - intros d' Hd' Hrc Hr Hpe. exists []. constructor; simpl; [done|by left|by rewrite app_nil_r|].
    by rewrite Ht, Hr, Hpe, !app_nil_r.
  - intros d' H2 Hh. exists (rest_of d). by split_and!.
Qed.

Lemma wp_in_operation mtu l cur : dec_ok mtu l cur -> dec_enabled l InOperation ->
  wp (dec_run l InOperation) (dec_post mtu).
Proof.
  intros [Hb Hph Hsz Ht] He. simpl in He.
  destruct Hph as [[Hr ->]|Hp]; [|destruct Hp as (_ & Hf & _); congruence].
  destruct Hr as (R1 & R2 & R3 & R4 & R5 & R6 & R7 & R8 & R9 & R10 & R11).
  apply R6 in He as Hst. simpl. unfold StreamRecvInterface_job_operation. rewrite Hst. simpl. apply wp_ok.
  exists []. constructor; simpl; [by destruct Hb| |done|].
  - left. split; [|done]. unfold receiving. simpl. rewrite R7, Hst. split_and!; try done.
  - unfold rest_of, pending_of in *. rewrite Hst in Ht. exact Ht.
Qed.

Lemma wp_in_done mtu l cur data : dec_ok mtu l cur -> dec_enabled l (InDone data) ->
  wp (dec_run l (InDone data)) (dec_post mtu).
Proof.
  intros [Hb Hph Hsz Ht] (Hst & Hn & Hby).
  destruct Hph as [[Hr ->]|Hp]; [|destruct Hp as (Hf & _); congruence].
  destruct Hr as (R1 & R2 & R3 & R4 & R5 & R6 & R7 & R8 & R9 & R10 & R11).
  pose proof Hb as [B1 B2 B3 B4 B5 B6 B7 B8 B9]. set (d := dl_dec l) in *.
  simpl. fold d. rewrite R8, R9 in *. rewrite wr_list_ok by lia. apply wp_bind, wp_ok.
  unfold StreamRecvInterface_Done. rewrite Hst, R9. apply wp_bind, wp_bind, wp_assert; [done|].
  do 2 wp_assert_lia. apply wp_ok, wp_ok.
  set (b := splice (d_buf d) (d_buf_start d + d_buf_used d) data).
  assert (Hrest : slice b (d_buf_start d) (d_buf_used d) = rest_of d).
  { apply slice_frame; try lia; [unfold b; rewrite zlen_splice; lia|].
    intros i Hi. unfold b. rewrite byte_at_splice by lia. by rewrite (proj2 (andb_false_iff _ _)) by lia. }
  assert (Hpend : slice b (d_buf_start d + d_buf_used d) (zlen data) = data).
  { apply list_eq_byte_at; rewrite zlen_slice; unfold b; rewrite ?zlen_splice; try lia.
    intros i Hi. rewrite byte_at_slice, byte_at_splice by lia.
    rewrite (proj2 (andb_true_iff _ _)) by lia. f_equal. lia. }
  unfold pending_of in Ht. rewrite Hst in Ht. simpl in Ht. rewrite !app_nil_r in Ht.
  exists []. constructor; simpl.
  - constructor; simpl; try done; [unfold b; rewrite zlen_splice; lia|]. unfold rest_of. simpl. by rewrite Hrest.
  - left. split; [|done]. unfold receiving. simpl. rewrite R6, Hst, R9. split_and!; try done; try lia.
    + unfold rest_of. simpl. by rewrite Hrest.
    + intros _. split; [lia|]. unfold pending_of. simpl. by rewrite Hpend.
  - done.
  - unfold rest_of at 1, pending_of. simpl. by rewrite Hrest, Hpend, Ht, app_nil_r, app_assoc.
Qed.

Lemma wp_in_job mtu l cur : dec_ok mtu l cur -> dec_enabled l InJob -> wp (dec_run l InJob) (dec_post mtu).
Proof.
  intros [Hb Hph Hsz Ht] He. simpl in He.
  destruct Hph as [[Hr ->]|Hp]; [|destruct Hp as (_ & _ & Hf & _); congruence].
  destruct Hr as (R1 & R2 & R3 & R4 & R5 & R6 & R7 & R8 & R9 & R10 & R11).
  apply R7 in He as Hst. destruct (R11 Hst) as [Hn Hby]. pose proof Hb as [B1 B2 B3 B4 B5 B6 B7 B8 B9].
  set (d := dl_dec l) in *. unfold pending_of in *. rewrite Hst in *. simpl in Ht, Hby.
  simpl. fold d. unfold decoder_input_job, StreamRecvInterface_job_done. rewrite Hst. simpl.
  apply wp_bind. unfold decoder_input_handler_done. simpl. do 2 wp_assert_lia.
  set (d1 := d <| d_input := _ |> <| d_buf_used := _ |>).
  assert (Hrest : rest_of d1 = rest_of d ++ slice (d_buf d) (d_buf_start d + d_buf_used d) (sri_job_done_len (d_input d))).
  { unfold rest_of. simpl. rewrite slice_app by lia. done. }
  assert (Hd1 : dec_buffer mtu d1).
  { constructor; simpl; try done; try lia. rewrite Hrest. by apply bytes_ok_app. }
  eapply wp_mono.
  { apply (wp_process_link mtu d1 (dl_in l) (dl_out l)); try done.
    - simpl. destruct (sri_job_operation (d_input d)); [|done]. discriminate (proj1 R6 eq_refl).
    - by rewrite app_nil_r in Hsz.
    - by rewrite Ht, Hrest, app_nil_r. }
  intros [d' e] Hpost. apply wp_ok. exact Hpost.
Qed.

Lemma wp_out_operation mtu l cur : dec_ok mtu l cur -> dec_enabled l OutOperation ->
  wp (dec_run l OutOperation) (dec_post mtu).
Proof.
  intros [Hb Hph Hsz Ht] He. simpl in He.
  destruct Hph as [[Hr ->]|Hp]; [destruct Hr as (_ & Hf & _); congruence|].
  destruct Hp as (P1 & P2 & P3 & P4 & P5 & P6 & P7 & P8 & P9 & ->).
  apply P5 in He as Hst. simpl. unfold PacketPassInterface_job_operation. rewrite Hst in *. simpl. apply wp_ok.
  eexists. constructor; simpl; [by destruct Hb| |exact Hsz|exact Ht].
  right. unfold passing. simpl. rewrite P6. by split_and!.
Qed.

Lemma wp_out_done mtu l cur : dec_ok mtu l cur -> dec_enabled l OutDone ->
  wp (dec_run l OutDone) (dec_post mtu).
Proof.
  intros [Hb Hph Hsz Ht] Hst. simpl in Hst.
  destruct Hph as [[Hr ->]|Hp]; [destruct Hr as (Hf & _); congruence|].
  destruct Hp as (P1 & P2 & P3 & P4 & P5 & P6 & P7 & P8 & P9 & ->). pose proof Hb as [B1 B2 B3 B4 B5 B6 B7 B8 B9].
  simpl. rewrite rd_list_ok by lia. apply wp_bind, wp_ok. unfold PacketPassInterface_Done.
  rewrite Hst in *. simpl. apply wp_ok. simpl in Hsz, Ht.
  exists []. constructor; simpl; [done| |by rewrite app_nil_r|by rewrite app_nil_r].
  right. unfold passing. simpl. rewrite P5. by split_and!.
Qed.

Lemma wp_out_job mtu l cur : dec_ok mtu l cur -> dec_enabled l OutJob -> wp (dec_run l OutJob) (dec_post mtu).
Proof.
  intros [Hb Hph Hsz Ht] He. simpl in He.
  destruct Hph as [[Hr ->]|Hp]; [destruct Hr as (_ & _ & Hf & _); congruence|].
  destruct Hp as (P1 & P2 & P3 & P4 & P5 & P6 & P7 & P8 & P9 & ->). apply P6 in He as Hst.
  rewrite Hst in *. simpl in Hsz, Ht. rewrite !app_nil_r in *. set (d := dl_dec l) in *.
  simpl. fold d. unfold decoder_output_job, PacketPassInterface_job_done. rewrite Hst. simpl.
  apply wp_bind. eapply wp_mono.
  { apply (wp_process_link mtu _ (dl_in l) (dl_out l)); try done.
    - by destruct Hb.
    - simpl. destruct (ppi_job_operation (d_output d)); [|done]. discriminate (proj1 P5 eq_refl).
    - rewrite Ht. unfold pending_of. rewrite P1. simpl. by rewrite app_nil_r. }
  intros [d' e] Hpost. apply wp_ok. exact Hpost.
Qed.

Lemma wp_dec_run mtu l ev cur : dec_ok mtu l cur -> dec_enabled l ev -> wp (dec_run l ev) (dec_post mtu).
Proof.
  intros Hl He. destruct ev; eauto using wp_in_operation, wp_in_done, wp_in_job, wp_out_operation,
    wp_out_done, wp_out_job.
Qed.
Lemma dec_reach_ok mtu l0 l cur : dec_ok mtu l0 cur -> dec_reach l0 l -> exists cur, dec_ok mtu l cur.
Proof.
  intros H0 Hr. induction Hr as [|l ev l' _ [c IH] He Hrun]; [eauto|].
  pose proof (wp_dec_run _ _ _ _ IH He) as Hw. rewrite Hrun in Hw. exact Hw.
Qed.

(** ** PacketProtoEncoder: one packet through it *)

(** The sink asks for a packet at the start of the buffer [mem], the source writes [p]
    where the encoder tells it; the bytes the sink then gets. *)
Definition encode_packet (mtu : Z) (mem p : list Z) : res (list Z) :=
  i ← PacketRecvInterface_Init mtu;
  enc ← PacketProtoEncoder_Init i;
  o ← PacketRecvInterface_Receiver_Recv (e_output enc) 0;
  '(o, at_) ← PacketRecvInterface_job_operation o;
  enc ← encoder_output_handler_recv (enc <| e_output := o |>) at_;
  '(i, at_) ← PacketRecvInterface_job_operation (e_input enc);
  mem ← wr_list mem at_ p;
  i ← PacketRecvInterface_Done i (zlen p);
  '(i, len) ← PacketRecvInterface_job_done i;
  '(enc, mem) ← encoder_input_handler_done (enc <| e_input := i |>) mem len;
  '(_, len) ← PacketRecvInterface_job_done (e_output enc);
  rd_list mem 0 len.

Lemma encode_packet_frame mtu mem p : mtu <= 65535 -> zlen mem = 2 + mtu -> zlen p <= mtu ->
  encode_packet mtu mem p = Ok (frame p).
Proof.
  intros Hm Hl Hp. pose proof (zlen_nonneg p).
  assert (Hw : wr_list mem 2 p = Ok (splice mem 2 p)) by (apply wr_list_ok; lia).
  assert (Hz : zlen (splice mem 2 p) = 2 + mtu) by (rewrite zlen_splice; lia).
  assert (Hw2 : wr_list (splice mem 2 p) 0 (le16 (zlen p)) = Ok (splice (splice mem 2 p) 0 (le16 (zlen p)))).
  { apply wr_list_ok; [done|]. rewrite Hz. change (zlen (le16 (zlen p))) with 2. lia. }
  assert (Hwp : wp (encode_packet mtu mem p) (fun f => f = frame p)).
  { unfold encode_packet, PacketRecvInterface_Init, PacketProtoEncoder_Init, PacketRecvInterface_Receiver_Recv,
      PacketRecvInterface_job_operation, encoder_output_handler_recv, encoder_input_handler_done,
      PacketRecvInterface_Done, PacketRecvInterface_job_done, PACKETPROTO_ENCLEN, PACKETPROTO_MAXPAYLOAD.
    repeat first [change (0 + 2) with 2; rewrite Hw|rewrite u16_small by lia; rewrite Hw2|progress simpl
      |apply wp_bind|apply wp_assert; [lia|]|apply wp_assert; [done|]|apply wp_ok].
    rewrite rd_list_ok by (rewrite ?zlen_splice; change (zlen (le16 (zlen p))) with 2; lia). apply wp_ok.
    assert (Hz2 : zlen (le16 (zlen p)) = 2) by done. unfold frame.
    apply list_eq_byte_at; rewrite zlen_slice; rewrite ?zlen_app, ?zlen_splice; try lia.
    intros i Hi. rewrite byte_at_slice, Z.add_0_l, byte_at_splice by lia. rewrite Hz2.
    destruct (Z.lt_ge_cases i 2).
    - rewrite (proj2 (andb_true_iff _ _)), Z.sub_0_r by lia. by rewrite byte_at_app_l by lia.
    - rewrite (proj2 (andb_false_iff _ _)), byte_at_splice by lia.
      rewrite (proj2 (andb_true_iff _ _)), byte_at_app_r by lia. by rewrite Hz2. }
  destruct (wp_inv _ _ Hwp) as (f & -> & ->). done.
Qed.

(** ** The two together *)

(** A decoder as [PacketProtoDecoder_Init] makes it, for a sink that takes packets of
    [m] bytes at most. *)
Definition dec_started (m : Z) (l : decoder_link) : Prop :=
  exists o buf d, PacketPassInterface_Init m = Ok o /\ zlen buf = 2 + Z.min m 65535 /\
    PacketProtoDecoder_Init StreamRecvInterface_Init o (Some buf) = Ok (Some d) /\ l = DecoderLink d [] [].

Lemma dec_started_ok m l : dec_started m l -> dec_ok (Z.min m 65535) l [].
Proof.
  intros (o & buf & d & Ho & Hz & Hd & ->). unfold PacketPassInterface_Init, assert_ in Ho.
  destruct (Z.leb_spec 0 m); [|done]. injection Ho as <-.
  unfold PacketProtoDecoder_Init, StreamRecvInterface_Receiver_Recv, PACKETPROTO_ENCLEN, PACKETPROTO_MAXPAYLOAD,
    assert_ in Hd. simpl in Hd.
  rewrite (proj2 (Z.ltb_lt 0 (2 + Z.min m 65535))) in Hd by lia. injection Hd as <-.
  constructor; simpl; [|left; split; [|done]|done|done].
  - constructor; simpl; try done; try lia. by apply Forall_nil.
  - unfold receiving. simpl. split_and!; try done; try lia. by left.
Qed.

(** The stream so far is a prefix of a stream of frames: no error, and the packets out
    are a prefix. *)
Lemma dec_out_prefix mtu l cur ps : mtu <= 65535 -> dec_ok mtu l cur ->
  Forall (fun p => zlen p <= mtu) ps -> dl_in l `prefix_of` frames ps ->
  exists qs, ps = dl_out l ++ cur ++ qs /\ rest_of (dl_dec l) ++ pending_of (dl_dec l) `prefix_of` frames qs.
Proof.
  intros Hm [Hb Hph Hsz Ht] Hps Hpre. rewrite Ht in Hpre.
  destruct (frames_prefix mtu ps _ _ Hm Hps Hsz Hpre) as (qs & -> & Hq). exists qs. by rewrite <- app_assoc.
Qed.

Lemma encode_all mtu mem ps : mtu <= 65535 -> zlen mem = 2 + mtu -> Forall (fun p => zlen p <= mtu) ps ->
  mapM (encode_packet mtu mem) ps = Ok (frame <$> ps).
Proof.
  intros Hm Hz. induction ps as [|p ps IH]; intros Hps; [done|]. apply Forall_cons in Hps as [Hp Hps].
  simpl. by rewrite encode_packet_frame, IH.
Qed.
(** An error is reported by the two events that look at the data. *)
Lemma dec_run_error l ev l' : dec_run l ev = Ok (l', true) -> dl_in l' = dl_in l /\ dl_out l' = dl_out l.
Proof.
  destruct ev; simpl; intros H; repeat (apply bind_ok_inv in H as (? & _ & H)); try (by injection H);
    repeat case_match; by injection H as <-.
Qed.

(** C26: What PacketProtoEncoder makes of a list of packets, PacketProtoDecoder takes
    apart again: while the stream has delivered a prefix of the frames, in pieces of any
    sizes, no event of the decoder fails an assertion, leaves its buffer or reports an
    error; the packets it has passed on are the first ones, unchanged and in order; and
    once the whole stream is in and the decoder waits for more, they are all of them. *)
Theorem packet_proto_roundtrip m l0 l mem ps fs :
  dec_started m l0 -> dec_reach l0 l -> zlen mem = 2 + Z.min m 65535 ->
  Forall (fun p => zlen p <= Z.min m 65535) ps ->
  mapM (encode_packet (Z.min m 65535) mem) ps = Ok fs -> dl_in l `prefix_of` concat fs ->
  (forall ev, dec_enabled l ev -> exists l', dec_run l ev = Ok (l', false)) /\
  dl_out l `prefix_of` ps /\
  (dl_in l = concat fs -> ppi_state (d_output (dl_dec l)) = STATE_NONE ->
   sri_job_done (d_input (dl_dec l)) = false -> dl_out l = ps).
Proof.
  intros H0 Hr Hz Hps Hfs Hpre. set (mtu := Z.min m 65535) in *.
  rewrite (encode_all mtu mem) in Hfs by (try done; unfold mtu; lia). injection Hfs as <-.
  destruct (dec_reach_ok mtu _ _ _ (dec_started_ok _ _ H0) Hr) as [cur Hl].
  assert (Hm : mtu <= 65535) by (unfold mtu; lia).
  destruct (dec_out_prefix mtu l cur ps Hm Hl Hps Hpre) as (qs & Hqs & Hrest). split_and!.
  - intros ev He. destruct (wp_inv _ _ (wp_dec_run _ _ _ _ Hl He)) as ([l' e] & Hrun & Hpost).
    exists l'. destruct e; [exfalso|done]. destruct (dec_run_error _ _ _ Hrun) as [Hi Ho].
    destruct Hpost as (s & Hs & Hsz & H2 & Hh). rewrite Hi, Ho in *. rewrite Hs in Hpre.
    destruct (frames_prefix mtu ps _ _ Hm Hps Hsz Hpre) as (qs' & -> & Hq).
    apply Forall_app in Hps as [_ Hps]. destruct (incomplete_prefix mtu qs' s Hm Hps Hq); lia.
  - exists (cur ++ qs). done.
  - intros Hall Hst Hjob. destruct Hl as [Hb [[Hrc ->]|Hp] Hsz Ht].
    2:{ destruct Hp as (_ & _ & _ & Hn & _). by rewrite Hst in Hn. }
    destruct Hrc as (_ & _ & _ & Hinc & _ & _ & R7 & _). simpl in Hqs.
    assert (Hpend : pending_of (dl_dec l) = []).
    { unfold pending_of. rewrite bool_decide_eq_false_2; [done|]. rewrite <- R7, Hjob. done. }
    rewrite Hqs in Hps. apply Forall_app in Hps as [_ Hps].
    assert (qs = []) as ->; [|by rewrite Hqs, app_nil_r].
    apply (incomplete_end mtu qs (rest_of (dl_dec l))); try done.
    change (dl_in l = frames ps) in Hall. rewrite Hpend, !app_nil_r, Hall, Hqs, frames_app in Ht.
    by apply app_inv_head in Ht.
Qed.

(** *** A run: two packets, of which the stream brings one and a half at first *)
Definition dec_link_of (r : res (decoder_link * bool)) : decoder_link :=
  match r with
  | Ok (l, _) => l
  | _ => DecoderLink (PacketProtoDecoder_ StreamRecvInterface_Init
           (PacketPassInterface_ STATE_NONE 0 false 0 0 false false false false) 0 [] 0 0 0) [] []
  end.
Definition dec0 : decoder_link := dec_link_of (
  o ← PacketPassInterface_Init 4;
  d ← PacketProtoDecoder_Init StreamRecvInterface_Init o (Some (replicate 6 0));
  match d with Some d => Ok (DecoderLink d [] [], false) | None => Ub end).
Definition dec1 : decoder_link := dec_link_of (dec_run dec0 InOperation).
Definition dec2 : decoder_link := dec_link_of (dec_run dec1 (InDone [2; 0; 5; 6; 1])).
Definition dec3 : decoder_link := dec_link_of (dec_run dec2 InJob).
Definition dec4 : decoder_link := dec_link_of (dec_run dec3 OutOperation).
Definition dec5 : decoder_link := dec_link_of (dec_run dec4 OutDone).

Lemma dec_demo_reach : dec_reach dec0 dec5.
Proof.
  apply (dec_step _ dec4 OutDone); [|vm_compute; reflexivity|vm_compute; reflexivity].
  apply (dec_step _ dec3 OutOperation); [|vm_compute; reflexivity|vm_compute; reflexivity].
  apply (dec_step _ dec2 InJob); [|vm_compute; reflexivity|vm_compute; reflexivity].
  apply (dec_step _ dec1 (InDone [2; 0; 5; 6; 1])); [| |vm_compute; reflexivity].
  - apply (dec_step _ dec0 InOperation); [apply dec_refl|vm_compute; reflexivity|vm_compute; reflexivity].
  - split; [vm_compute; reflexivity|]. split; [split; vm_compute; congruence|].
    repeat apply Forall_cons_2; try (split; [done|lia]); by apply Forall_nil.
Qed.

Lemma packet_proto_roundtrip_witness :
  (dl_in dec5 = [2; 0; 5; 6; 1] /\ dl_out dec5 = [[5; 6]]) /\
  (forall ev, dec_enabled dec5 ev -> exists l', dec_run dec5 ev = Ok (l', false)) /\
  dl_out dec5 `prefix_of` [[5; 6]; [7]] /\
  (dl_in dec5 = [2; 0; 5; 6; 1; 0; 7] -> ppi_state (d_output (dl_dec dec5)) = STATE_NONE ->
   sri_job_done (d_input (dl_dec dec5)) = false -> dl_out dec5 = [[5; 6]; [7]]).
Proof.
  split; [split; vm_compute; reflexivity|].
  apply (packet_proto_roundtrip 4 dec0 dec5 (replicate 6 0) [[5; 6]; [7]] [[2; 0; 5; 6]; [1; 0; 7]]).
  - do 3 eexists. split; [vm_compute; reflexivity|]. split; [|split; vm_compute; reflexivity]. vm_compute. reflexivity.
  - exact dec_demo_reach.
  - vm_compute. reflexivity.
  - repeat apply Forall_cons_2; try (vm_compute; congruence). by apply Forall_nil.
  - vm_compute. reflexivity.
  - exists [0; 7]. vm_compute. reflexivity.
Defined.
