(* ===== verification/SocksClientFacts.v ===== *)
(** Facts about SocksClient: the conversation a SOCKS5 client is to have, the client
    with its connection, and the invariant that ties them. *)
From S2P Require Import Prelude CMem Sys Flow SocksClient ChunkFacts.

(** ** The conversation, from the side of the client *)

Definition hello_msg (auth : list auth_info) : list Z :=
  [SOCKS_VERSION; u8 (zlen auth)] ++ ((fun ai => u8 (auth_type ai)) <$> auth).
Definition password_msg (ai : auth_info) : list Z :=
  [1; u8 (ai_username_len ai)] ++ slice (ai_username ai) 0 (ai_username_len ai) ++
  [u8 (ai_password_len ai)] ++ slice (ai_password ai) 0 (ai_password_len ai).
Definition addr_bytes (a : BAddr) : list Z := if ba_type a =? BADDR_TYPE_IPV4 then ba_ipv4 a else ba_ipv6 a.
Definition request_msg (dest : BAddr) (udp : bool) : list Z :=
  [SOCKS_VERSION; if udp then SOCKS_CMD_UDP_ASSOCIATE else SOCKS_CMD_CONNECT; 0;
   if ba_type dest =? BADDR_TYPE_IPV4 then SOCKS_ATYP_IPV4 else SOCKS_ATYP_IPV6] ++ addr_bytes dest.

(** What the client waits for. *)
Inductive phase : Type :=
  | AwaitMethod | AwaitAuth | AwaitReply | AwaitRest (v4 : bool) | Done_ (v4 : bool) (bind : list Z).
Definition addr_len (v4 : bool) : Z := if v4 then ADDR_IPV4 else ADDR_IPV6.
Lemma addr_len_bounds v4 : 6 <= addr_len v4 <= 18.
Proof. by destruct v4. Qed.
Definition needs (p : phase) : Z :=
  match p with AwaitMethod | AwaitAuth => 2 | AwaitReply => 4 | AwaitRest v4 => addr_len v4 | Done_ _ _ => 0 end.
Definition usable (dest : BAddr) : Prop := ba_type dest = BADDR_TYPE_IPV4 \/ ba_type dest = BADDR_TYPE_IPV6.

(** [talk auth dest udp p r s]: having received [r] and sent [s], whole messages, the
    client is in phase [p]. *)
Inductive talk (auth : list auth_info) (dest : BAddr) (udp : bool) : phase -> list Z -> list Z -> Prop :=
  | talk_hello : zlen auth <> 0 -> zlen auth <= 255 -> talk auth dest udp AwaitMethod [] (hello_msg auth)
  | talk_none r s m ai : talk auth dest udp AwaitMethod r s -> find_method auth m = Some ai ->
      auth_type ai = SOCKS_METHOD_NO_AUTHENTICATION_REQUIRED -> usable dest ->
      talk auth dest udp AwaitReply (r ++ [SOCKS_VERSION; m]) (s ++ request_msg dest udp)
  | talk_password r s m ai : talk auth dest udp AwaitMethod r s -> find_method auth m = Some ai ->
      auth_type ai = SOCKS_METHOD_USERNAME_PASSWORD ->
      1 <= ai_username_len ai <= 255 -> 1 <= ai_password_len ai <= 255 ->
      talk auth dest udp AwaitAuth (r ++ [SOCKS_VERSION; m]) (s ++ password_msg ai)
  | talk_accepted r s : talk auth dest udp AwaitAuth r s -> usable dest ->
      talk auth dest udp AwaitReply (r ++ [1; 0]) (s ++ request_msg dest udp)
  | talk_reply r s x (v4 : bool) : talk auth dest udp AwaitReply r s ->
      talk auth dest udp (AwaitRest v4)
        (r ++ [SOCKS_VERSION; SOCKS_REP_SUCCEEDED; x; if v4 then SOCKS_ATYP_IPV4 else SOCKS_ATYP_IPV6]) s
  | talk_rest r s v4 a : talk auth dest udp (AwaitRest v4) r s -> zlen a = addr_len v4 ->
      talk auth dest udp (Done_ v4 a) (r ++ a) s.

(** ** The client and its connection *)

(** the bytes the connection has taken and has brought *)
Record client_link : Type := ClientLink {
  k_o : BSocksClient; k_h : hist; k_out : list Z; k_in : list Z }.
#[global] Instance eta_client_link : Eta client_link := fun r => ClientLink (k_o r) (k_h r) (k_out r) (k_in r).

(** The client has reported an error: its owner frees it, nothing happens any more. *)
Definition is_report (c : call) : bool :=
  match c with
  | CHandler e => (e =? BSOCKSCLIENT_EVENT_ERROR) || (e =? BSOCKSCLIENT_EVENT_ERROR_CLOSED)
  | _ => false
  end.
Definition reported (h : hist) : bool := existsb (fun x => is_report x.1) h.

Inductive client_event : Type :=
  | EvConnector (is_error : bool)      (* the connector is done *)
  | EvConnection (event : Z)           (* the connection failed or was closed *)
  | EvSetDest (a : BAddr)              (* the owner sets the destination *)
  | EvContinue                         (* jobs *)
  | EvSendOperation | EvStreamOperation
  | EvStreamDone (n : Z)               (* the connection took [n] bytes *)
  | EvStreamJob | EvSendJob
  | EvRecvOperation
  | EvRecvDone (data : list Z)         (* the connection brought [data] *)
  | EvRecvJob.

Definition io_up (o : BSocksClient) : Prop := o_state o <> STATE_CONNECTING /\ o_state o <> STATE_UP.

Definition cl_enabled (l : client_link) (ev : client_event) : Prop :=
  let o := k_o l in
  reported (k_h l) = false /\
  match ev with
  | EvConnector _ => o_state o = STATE_CONNECTING
  | EvConnection _ => o_state o <> STATE_CONNECTING
  | EvSetDest a => (o_state o = STATE_CONNECTING \/ o_state o = STATE_CONNECTED_HANDLER) /\ zlen (ba_body a) = 24
  | EvContinue => o_continue_job o = true /\ o_state o <> STATE_CONNECTING
  | EvSendOperation => io_up o /\ ppi_job_operation (s_input (o_sender o)) = true
  | EvStreamOperation => io_up o /\ spi_job_operation (s_output (o_sender o)) = true
  | EvStreamDone n => io_up o /\ spi_state (s_output (o_sender o)) = STATE_BUSY /\
      0 < n <= spi_job_operation_len (s_output (o_sender o))
  | EvStreamJob => io_up o /\ spi_job_done (s_output (o_sender o)) = true
  | EvSendJob => io_up o /\ ppi_job_done (s_input (o_sender o)) = true
  | EvRecvOperation => io_up o /\ sri_job_operation (o_recv_if o) = true
  | EvRecvDone data => io_up o /\ sri_state (o_recv_if o) = STATE_BUSY /\
      0 < zlen data <= sri_job_operation_len (o_recv_if o) /\ bytes_ok data
  | EvRecvJob => io_up o /\ sri_job_done (o_recv_if o) = true
  end.

Section run.
Context {OS : Os}.

Definition run_prog (l : client_link) (p : Prog BSocksClient unit) : res client_link :=
  match p (k_o l) (k_h l) with
  | Ok (_, o, h) => Ok (l <| k_o := o |> <| k_h := h |>)
  | Ub => Ub
  | Fuel => Fuel
  end.

Definition cl_run (l : client_link) (ev : client_event) : res client_link :=
  let o := k_o l in
  match ev with
  | EvConnector e => run_prog l (connector_handler e)
  | EvConnection e => run_prog l (connection_handler e)
  | EvSetDest a => run_prog l (BSocksClient_SetDestAddr a)
  | EvContinue => run_prog l continue_job
  | EvSendOperation => run_prog l (with_sender sender_operation_job)
  | EvStreamOperation =>
      run_prog l (with_sender (fun s => '(i, _) ← StreamPassInterface_job_operation (s_output s); Ok (s <| s_output := i |>)))
  | EvStreamDone n =>
      m ← res_of_option (o_buffer o);
      sent ← rd_list m (spi_job_operation_data (s_output (o_sender o))) n;
      i ← StreamPassInterface_Done (s_output (o_sender o)) n;
      Ok (l <| k_o := o <| o_sender := (o_sender o) <| s_output := i |> |> |> <| k_out := k_out l ++ sent |>)
  | EvStreamJob => run_prog l (with_sender sender_done_job)
  | EvSendJob => run_prog l send_done_job
  | EvRecvOperation =>
      '(i, _) ← StreamRecvInterface_job_operation (o_recv_if o);
      Ok (l <| k_o := o <| o_recv_if := i |> |>)
  | EvRecvDone data =>
      m ← res_of_option (o_buffer o);
      m ← wr_list m (sri_job_operation_data (o_recv_if o)) data;
      i ← StreamRecvInterface_Done (o_recv_if o) (zlen data);
      Ok (l <| k_o := o <| o_buffer := Some m |> <| o_recv_if := i |> |> <| k_in := k_in l ++ data |>)
  | EvRecvJob => run_prog l recv_done_job
  end.

Inductive cl_reach (l0 : client_link) : client_link -> Prop :=
  | cl_refl : cl_reach l0 l0
  | cl_step l ev l' : cl_reach l0 l -> cl_enabled l ev -> cl_run l ev = Ok l' -> cl_reach l0 l'.
End run.

(** ** The invariant *)

Definition auth_ok (auth : list auth_info) : Prop :=
  Forall (fun ai => (auth_type ai = SOCKS_METHOD_NO_AUTHENTICATION_REQUIRED \/ auth_type ai = SOCKS_METHOD_USERNAME_PASSWORD) /\
    0 <= ai_username_len ai <= zlen (ai_username ai) /\ 0 <= ai_password_len ai <= zlen (ai_password ai)) auth.

Definition sender_idle (s : PacketStreamSender) : Prop :=
  ppi_mtu (s_input s) = 2 ^ 31 - 1 /\ ppi_state (s_input s) = STATE_NONE /\ ppi_job_operation (s_input s) = false /\
  ppi_job_done (s_input s) = false /\ spi_state (s_output s) = STATE_NONE /\ spi_job_operation (s_output s) = false /\
  spi_job_done (s_output s) = false /\ s_in_len s = -1.
Definition recv_idle (i : StreamRecvInterface) : Prop :=
  sri_state i = STATE_NONE /\ sri_job_operation i = false /\ sri_job_done i = false.

(** The sender is at work on the packet [msg]; the connection has not taken [unsent]. *)
Definition busy_part (s : PacketStreamSender) (msg unsent : list Z) : Prop :=
  s_in s = 0 /\ s_in_len s = zlen msg /\ 0 <= s_in_used s < zlen msg /\ spi_state (s_output s) <> STATE_NONE /\
  spi_job_operation_data (s_output s) = s_in_used s /\ spi_job_operation_len (s_output s) = zlen msg - s_in_used s /\
  (if bool_decide (spi_state (s_output s) = STATE_DONE_PENDING)
   then 0 < spi_job_done_len (s_output s) <= zlen msg - s_in_used s /\
        unsent = drop (Z.to_nat (s_in_used s + spi_job_done_len (s_output s))) msg
   else unsent = drop (Z.to_nat (s_in_used s)) msg).
Definition sending (s : PacketStreamSender) (msg unsent : list Z) : Prop :=
  ppi_mtu (s_input s) = 2 ^ 31 - 1 /\ 0 < zlen msg < 2 ^ 31 /\
  (ppi_job_operation (s_input s) = true <-> ppi_state (s_input s) = STATE_OPERATION_PENDING) /\
  (ppi_job_done (s_input s) = true <-> ppi_state (s_input s) = STATE_DONE_PENDING) /\
  (spi_job_operation (s_output s) = true <-> spi_state (s_output s) = STATE_OPERATION_PENDING) /\
  (spi_job_done (s_output s) = true <-> spi_state (s_output s) = STATE_DONE_PENDING) /\
  match ppi_state (s_input s) with
  | STATE_NONE => False
  | STATE_OPERATION_PENDING => s_in_len s = -1 /\ spi_state (s_output s) = STATE_NONE /\
      ppi_job_operation_data (s_input s) = 0 /\ ppi_job_operation_len (s_input s) = zlen msg /\ unsent = msg
  | STATE_BUSY => busy_part s msg unsent
  | STATE_DONE_PENDING => s_in_len s = -1 /\ spi_state (s_output s) = STATE_NONE /\ unsent = []
  end.

(** A receive of [total] bytes at [dest] is under way; [n] bytes are there, the ones
    not reported yet included. *)
Definition recving (o : BSocksClient) (dest total n : Z) : Prop :=
  let i := o_recv_if o in
  o_recv_dest o = dest /\ o_recv_total o = total /\ 0 <= o_recv_len o < total /\ sri_state i <> STATE_NONE /\
  (sri_job_operation i = true <-> sri_state i = STATE_OPERATION_PENDING) /\
  (sri_job_done i = true <-> sri_state i = STATE_DONE_PENDING) /\
  sri_job_operation_data i = dest + o_recv_len o /\ sri_job_operation_len i = total - o_recv_len o /\
  (if bool_decide (sri_state i = STATE_DONE_PENDING)
   then 0 < sri_job_done_len i <= total - o_recv_len o /\ n = o_recv_len o + sri_job_done_len i
   else n = o_recv_len o).

Definition send_state (p : phase) : option client_state :=
  match p with
  | AwaitMethod => Some STATE_SENDING_HELLO | AwaitAuth => Some STATE_SENDING_PASSWORD
  | AwaitReply => Some STATE_SENDING_REQUEST | _ => None
  end.
Definition wait_state (p : phase) : option client_state :=
  match p with
  | AwaitMethod => Some STATE_SENT_HELLO | AwaitAuth => Some STATE_SENT_PASSWORD
  | AwaitReply => Some STATE_SENT_REQUEST | AwaitRest _ => Some STATE_RECEIVED_REPLY_HEADER | Done_ _ _ => None
  end.
(** where a message is received, and the size of the buffer *)
Definition recv_at (p : phase) : Z := match p with AwaitRest _ => 4 | _ => 0 end.
Definition room (p : phase) : Z := match p with AwaitReply | AwaitRest _ => 22 | _ => 2 end.
Definition bind_type (v4 : bool) : Z := if v4 then BADDR_TYPE_IPV4 else BADDR_TYPE_IPV6.

Definition talk_of (o : BSocksClient) : phase -> list Z -> list Z -> Prop :=
  talk (o_auth_info o) (o_dest_addr o) (o_udp o).
Record static_ok (o : BSocksClient) : Prop := StaticOk {
  so_auth : auth_ok (o_auth_info o); so_dest : zlen (ba_body (o_dest_addr o)) = 24;
  so_bind : zlen (ba_body (o_bind_addr o)) = 24 }.

Inductive client_ok (l : client_link) : Prop :=
  | ok_reported : reported (k_h l) = true -> client_ok l
  | ok_connecting : static_ok (k_o l) -> o_state (k_o l) = STATE_CONNECTING -> o_buffer (k_o l) = None ->
      k_in l = [] -> k_out l = [] -> client_ok l
  | ok_connected : static_ok (k_o l) -> o_state (k_o l) = STATE_CONNECTED_HANDLER -> o_continue_job (k_o l) = true ->
      o_buffer (k_o l) = None ->
      sender_idle (o_sender (k_o l)) -> recv_idle (o_recv_if (k_o l)) ->
      k_in l = [] -> k_out l = [] -> client_ok l
  | ok_sending p r s msg unsent : static_ok (k_o l) -> send_state p = Some (o_state (k_o l)) ->
      o_continue_job (k_o l) = false -> o_buffer (k_o l) = Some msg -> sending (o_sender (k_o l)) msg unsent ->
      recv_idle (o_recv_if (k_o l)) -> talk_of (k_o l) p r s -> k_in l = r -> s = k_out l ++ unsent -> client_ok l
  | ok_receiving p r m n : static_ok (k_o l) -> wait_state p = Some (o_state (k_o l)) ->
      o_continue_job (k_o l) = false -> o_buffer (k_o l) = Some m -> zlen m = room p -> bytes_ok (slice m (recv_at p) n) ->
      sender_idle (o_sender (k_o l)) -> recving (k_o l) (recv_at p) (needs p) n ->
      (forall v4, p = AwaitRest v4 -> ba_type (o_bind_addr (k_o l)) = bind_type v4) ->
      talk_of (k_o l) p r (k_out l) -> k_in l = r ++ slice m (recv_at p) n -> client_ok l
  | ok_up v4 a : static_ok (k_o l) -> o_state (k_o l) = STATE_UP -> o_continue_job (k_o l) = false ->
      o_buffer (k_o l) = None -> talk_of (k_o l) (Done_ v4 a) (k_in l) (k_out l) ->
      ba_type (o_bind_addr (k_o l)) = bind_type v4 -> addr_bytes (o_bind_addr (k_o l)) = a -> client_ok l.

(** ** Buffers *)
Lemma zlen_resize_block n old junk : zlen (resize_block n old junk) = Z.of_nat n.
Proof.
  revert old junk. induction n as [|n IH]; intros old junk; [done|].
  destruct old; simpl; rewrite zlen_cons, IH; lia.
Qed.
Lemma bytes_resize_block n old jnk : bytes_ok old -> bytes_ok (resize_block n old jnk).
Proof.
  unfold bytes_ok. revert old jnk. induction n as [|n IH]; intros old jnk Ho; simpl; [constructor|].
  destruct old as [|b old]; [|apply Forall_cons_1 in Ho as [? Ho]; constructor; auto].
  constructor; [|auto]. unfold is_byte, u8. by apply Z.mod_pos_bound.
Qed.
Lemma slice_splice_0 m a n : zlen a = n -> slice (splice m 0 a) 0 n = a.
Proof. intros <-. unfold splice. simpl. by apply (slice_app_mid []). Qed.
(** Writing behind what is written already. *)
Lemma wr_list_next done_ rest bytes : zlen bytes <= zlen rest ->
  wr_list (done_ ++ rest) (zlen done_) bytes = Ok (done_ ++ bytes ++ drop (length bytes) rest).
Proof.
  intros H. pose proof (zlen_nonneg done_). rewrite wr_list_ok; [|done|rewrite zlen_app; lia].
  f_equal. replace rest with (take (length bytes) rest ++ drop (length bytes) rest) at 1 by apply take_drop.
  apply splice_app_mid; [done|]. unfold zlen in *. rewrite length_take. lia.
Qed.

(** ** The client's own operations *)
Section ops.
Context {OS : Os}.
Implicit Types (o : BSocksClient) (h : hist).

(** All of the client but its buffer, its sender and its state. *)
Definition same_cfg o o' : Prop :=
  o_auth_info o' = o_auth_info o /\ o_dest_addr o' = o_dest_addr o /\ o_udp o' = o_udp o /\
  o_bind_addr o' = o_bind_addr o /\ o_continue_job o' = o_continue_job o /\ o_recv_if o' = o_recv_if o.
Lemma same_cfg_refl o : same_cfg o o.
Proof. done. Qed.

(** The message is in the buffer and on its way. *)
Definition sent_off o (st : client_state) (msg : list Z) o' : Prop :=
  same_cfg o o' /\ o_state o' = st /\ o_buffer o' = Some msg /\ sending (o_sender o') msg msg.
Definition or_reported (P : BSocksClient -> Prop) (x : unit) o h : Prop := reported h = true \/ P o.

Lemma wpp_report e o h (Q : unit -> BSocksClient -> hist -> Prop) :
  e = BSOCKSCLIENT_EVENT_ERROR \/ e = BSOCKSCLIENT_EVENT_ERROR_CLOSED ->
  (forall h', reported h' = true -> Q tt o h') -> wpp (report_error e) o h Q.
Proof.
  intros He HQ. unfold report_error. wpp_step. wpp_step. wpp_step. apply HQ.
  unfold reported. simpl. by destruct He as [-> | ->].
Qed.
Lemma wpp_report_or e o h P : e = BSOCKSCLIENT_EVENT_ERROR \/ e = BSOCKSCLIENT_EVENT_ERROR_CLOSED ->
  wpp (report_error e) o h (or_reported P).
Proof. intros He. apply wpp_report; [done|]. intros h' Hr. by left. Qed.

Lemma wpp_reserve size o h (Q : bool -> BSocksClient -> hist -> Prop) :
  is_overflow size = false -> 0 < value size ->
  (forall h', Q false o h') ->
  (forall m h', zlen m = value size -> Q true (o <| o_buffer := Some m |>) h') ->
  wpp (reserve_buffer size) o h Q.
Proof.
  intros Ho Hv Hf Ht. unfold reserve_buffer. rewrite Ho, (proj2 (Z.eqb_neq _ _)) by lia.
  wpp_step. wpp_step. case_match; [wpp_step; apply Hf|]. wpp_step. wpp_step. wpp_step.
  apply Ht. rewrite zlen_resize_block. lia.
Qed.

Lemma wpp_write pos bytes done_ rest o h (Q : unit -> BSocksClient -> hist -> Prop) :
  o_buffer o = Some (done_ ++ rest) -> pos = zlen done_ -> zlen bytes <= zlen rest ->
  Q tt (o <| o_buffer := Some (done_ ++ bytes ++ drop (length bytes) rest) |>) h ->
  wpp (buffer_write pos bytes) o h Q.
Proof.
  intros Hb -> Hz HQ. unfold buffer_write. do 2 wpp_step. rewrite Hb. wpp_step. apply (wpp_deref _ (done_ ++ rest)); [done|].
  wpp_step. wpp_step. rewrite wr_list_next by done. apply wp_ok. by wpp_step.
Qed.

Lemma wpp_send st msg o h (Q : unit -> BSocksClient -> hist -> Prop) :
  o_buffer o = Some msg -> sender_idle (o_sender o) -> 0 < zlen msg < 2 ^ 31 ->
  (forall o', sent_off o st msg o' -> Q tt o' h) ->
  wpp (send_packet (zlen msg);; set_state st) o h Q.
Proof.
  intros Hb (I1 & I2 & I3 & I4 & I5 & I6 & I7 & I8) Hz HQ. unfold send_packet, set_state.
  do 3 wpp_step. wpp_step. wpp_step. unfold PacketPassInterface_Sender_Send.
  wp_assert_lia. wp_assert_lia. rewrite I2. simpl. apply wp_ok. wpp_step. wpp_step. apply HQ.
  split; [done|]. split; [done|]. split; [done|]. unfold sending. simpl.
  rewrite I4, I5, I6, I7, I8. split_and!; try done; lia.
Qed.

(** Writing the methods of the hello. *)
Lemma wpp_write_methods l i done_ rest o h (Q : unit -> BSocksClient -> hist -> Prop) :
  o_buffer o = Some (done_ ++ rest) -> zlen done_ = HELLO_HEADER + i -> zlen rest = zlen l ->
  Q tt (o <| o_buffer := Some (done_ ++ ((fun ai => u8 (auth_type ai)) <$> l)) |>) h ->
  wpp (write_methods i l) o h Q.
Proof.
  revert i done_ rest o. induction l as [|ai l IH]; intros i done_ rest o Hb Hd Hr HQ.
  - simpl. wpp_step. apply zlen_0_nil in Hr as ->. simpl in HQ. rewrite <- Hb in HQ. by destruct o.
  - destruct rest as [|x rest]; [rewrite zlen_cons in Hr; pose proof (zlen_nonneg l); rewrite zlen_nil in Hr; lia|].
    rewrite !zlen_cons in Hr. simpl. wpp_step. apply (wpp_write _ _ done_ (x :: rest)); [done|lia| |].
    { rewrite !zlen_cons, zlen_nil. pose proof (zlen_nonneg rest). lia. }
    simpl. apply (IH (i + 1) (done_ ++ [u8 (auth_type ai)]) rest).
    + simpl. by rewrite <- app_assoc.
    + rewrite zlen_app. change (zlen [u8 (auth_type ai)]) with 1. lia.
    + lia.
    + by rewrite <- app_assoc.
Qed.

Lemma hello_size n : 0 < n <= 255 ->
  bsize_add (bsize_fromsize HELLO_HEADER) (bsize_mul (bsize_fromsize n) (bsize_fromsize 1)) = Bsize false (2 + n).
Proof.
  intros H. unfold bsize_add, bsize_mul, bsize_fromsize, HELLO_HEADER, SIZE_MAX. cbn [is_overflow value orb].
  assert ((2 ^ 64 - 1) / n >= 1) by (apply Z.le_ge, Z.div_le_lower_bound; lia).
  rewrite (proj2 (Z.ltb_ge ((2 ^ 64 - 1) / n) 1)) by lia.
  rewrite Z.mul_1_r, andb_false_r, (usz_small n), (proj2 (Z.ltb_ge _ _)), usz_small by lia. done.
Qed.

Lemma zlen_hello auth : zlen (hello_msg auth) = 2 + zlen auth.
Proof. unfold hello_msg. rewrite zlen_app. unfold zlen. rewrite length_fmap. simpl. lia. Qed.

Lemma wpp_continue_handler o h :
  o_state o = STATE_CONNECTED_HANDLER -> sender_idle (o_sender o) ->
  wpp continue_job_handler o h (or_reported (fun o' => 0 < num_auth_info o <= 255 /\
    sent_off o STATE_SENDING_HELLO (hello_msg (o_auth_info o)) o')).
Proof.
  intros Hst Hid. unfold continue_job_handler. do 2 wpp_step. wpp_step. apply wpp_passert; [by rewrite Hst|].
  destruct ((num_auth_info o =? 0) || (255 <? num_auth_info o)) eqn:E; [apply wpp_report_or; by left|].
  apply orb_false_iff in E as [E1%Z.eqb_neq E2%Z.ltb_ge]. pose proof (zlen_nonneg (o_auth_info o)).
  fold (num_auth_info o) in *. cbv zeta. rewrite hello_size by lia.
  wpp_step. apply wpp_reserve; [done|simpl; lia|intros h'; simpl; apply wpp_report_or; by left|].
  intros m h' Hm. simpl in Hm. cbn [negb]. wpp_step.
  apply (wpp_write _ _ [] m); [done|done|change (zlen [SOCKS_VERSION; u8 (num_auth_info o)]) with 2; lia|].
  simpl. wpp_step. apply (wpp_write_methods _ 0 [SOCKS_VERSION; u8 (num_auth_info o)] (drop 2 m)); [done|done| |].
  { unfold zlen in *. rewrite length_drop. unfold num_auth_info, zlen in *. lia. }
  change (value (Bsize false (2 + num_auth_info o))) with (2 + num_auth_info o).
  replace (2 + num_auth_info o) with (zlen (hello_msg (o_auth_info o))) by apply zlen_hello.
  apply wpp_send; [done|done|rewrite zlen_hello; unfold num_auth_info in *; lia|].
  intros o' Ho'. right. split; [lia|]. exact Ho'.
Qed.

Lemma zlen_addr a : zlen (ba_body a) = 24 ->
  zlen (addr_bytes a) = if ba_type a =? BADDR_TYPE_IPV4 then ADDR_IPV4 else ADDR_IPV6.
Proof.
  intros H. unfold addr_bytes, ba_ipv4, ba_ipv6, ADDR_IPV4, ADDR_IPV6. case_match; rewrite zlen_slice; lia.
Qed.
Lemma zlen_request dest udp : zlen (ba_body dest) = 24 ->
  zlen (request_msg dest udp) = 4 + if ba_type dest =? BADDR_TYPE_IPV4 then ADDR_IPV4 else ADDR_IPV6.
Proof. intros H. unfold request_msg. rewrite zlen_app, zlen_addr by done. done. Qed.

Lemma wpp_auth_finished o h :
  zlen (ba_body (o_dest_addr o)) = 24 -> sender_idle (o_sender o) ->
  wpp auth_finished o h (or_reported (fun o' => usable (o_dest_addr o) /\
    sent_off o STATE_SENDING_REQUEST (request_msg (o_dest_addr o) (o_udp o)) o')).
Proof.
  intros Hd Hid. unfold auth_finished. do 2 wpp_step. cbv zeta.
  destruct ((ba_type (o_dest_addr o) =? BADDR_TYPE_IPV4) || (ba_type (o_dest_addr o) =? BADDR_TYPE_IPV6)) eqn:E;
    cbn [negb]; [|apply wpp_report_or; by left].
  apply orb_true_iff in E. rewrite !Z.eqb_eq in E. pose proof (zlen_request _ (o_udp o) Hd) as Hz.
  pose proof (zlen_addr _ Hd) as Ha. set (al := if ba_type (o_dest_addr o) =? BADDR_TYPE_IPV4 then ADDR_IPV4 else ADDR_IPV6) in *.
  assert (Hal : al = 6 \/ al = 18) by (unfold al, ADDR_IPV4, ADDR_IPV6; case_match; lia).
  assert (Hs : bsize_add (bsize_fromsize REQUEST_HEADER) (bsize_fromsize al) = Bsize false (zlen (request_msg (o_dest_addr o) (o_udp o)))).
  { rewrite Hz. by destruct Hal as [-> | ->]. }
  rewrite Hs. wpp_step. apply wpp_reserve; [done|simpl; lia|intros h'; simpl; apply wpp_report_or; by left|].
  intros m h' Hm. simpl in Hm. cbn [negb value].
  assert (exists x rest, m = x ++ rest /\ zlen x = 4 /\ zlen rest = al) as (x & rest & -> & Hx & Hr).
  { exists (take 4 m), (drop 4 m). rewrite take_drop. unfold zlen in *. rewrite length_take, length_drop. split; [done|lia]. }
  assert (Hdrop : drop (length (addr_bytes (o_dest_addr o))) rest = []).
  { apply drop_ge. unfold zlen in *. lia. }
  set (o1 := o <| o_buffer := Some (x ++ rest) |>).
  set (atyp := if ba_type (o_dest_addr o) =? BADDR_TYPE_IPV4 then SOCKS_ATYP_IPV4 else SOCKS_ATYP_IPV6).
  wpp_step. eapply (wpp_mono _ _ _ (fun a o' h'' => a = atyp /\ h'' = h' /\
    o' = o1 <| o_buffer := Some (x ++ addr_bytes (o_dest_addr o)) |>)).
  { unfold addr_bytes, atyp in *. destruct (ba_type (o_dest_addr o) =? BADDR_TYPE_IPV4); wpp_step;
      (eapply (wpp_write _ _ x rest); [done|done|lia|rewrite Hdrop, app_nil_r; by wpp_step]). }
  intros a o' h'' (-> & -> & ->). wpp_step.
  apply (wpp_write _ _ [] (x ++ addr_bytes (o_dest_addr o))); [done|done| |].
  { rewrite zlen_app, Hx. pose proof (zlen_nonneg (addr_bytes (o_dest_addr o))).
    rewrite !zlen_cons, zlen_nil. lia. }
  apply wpp_send; [|done|lia|].
  - simpl. f_equal. unfold request_msg. fold atyp.
    destruct x as [|x1 [|x2 [|x3 [|x4 [|x5 x]]]]]; rewrite ?zlen_cons, ?zlen_nil in Hx;
      try (pose proof (zlen_nonneg x)); try lia. done.
  - intros o' Ho'. right. split; [done|]. exact Ho'.
Qed.

Lemma wpp_read pos n m o h (Q : list Z -> BSocksClient -> hist -> Prop) :
  o_buffer o = Some m -> 0 <= pos -> 0 <= n -> pos + n <= zlen m -> Q (slice m pos n) o h ->
  wpp (buffer_read pos n) o h Q.
Proof.
  intros Hb ? ? ? HQ. unfold buffer_read. do 2 wpp_step. rewrite Hb. wpp_step. apply (wpp_deref _ m); [done|].
  wpp_step. by rewrite rd_list_ok.
Qed.

Lemma find_method_in l m ai : find_method l m = Some ai -> ai ∈ l /\ auth_type ai = m.
Proof.
  induction l as [|x l IH]; simpl; [done|]. destruct (Z.eqb_spec (auth_type x) m).
  - intros [= <-]. split; [by left|done].
  - intros H. destruct (IH H). split; [by right|done].
Qed.

(** Writing the password packet. *)
Lemma wpp_password ai o h m :
  1 <= ai_username_len ai <= 255 -> 1 <= ai_password_len ai <= 255 ->
  ai_username_len ai <= zlen (ai_username ai) -> ai_password_len ai <= zlen (ai_password ai) ->
  o_buffer o = Some m -> zlen m = 1 + 1 + ai_username_len ai + 1 + ai_password_len ai -> sender_idle (o_sender o) ->
  let ul := ai_username_len ai in let pl := ai_password_len ai in
  wpp (buffer_write 0 [1];; buffer_write 1 [u8 ul];;
       name ← lift (rd_list (ai_username ai) 0 ul); buffer_write 2 name;;
       buffer_write (2 + ul) [u8 pl];;
       word ← lift (rd_list (ai_password ai) 0 pl); buffer_write (3 + ul) word;;
       send_packet (1 + 1 + ul + 1 + pl);; set_state STATE_SENDING_PASSWORD) o h
    (fun _ o' h' => h' = h /\ sent_off o STATE_SENDING_PASSWORD (password_msg ai) o').
Proof.
  intros Hu Hp Hul Hpl Hb Hm Hid ul pl.
  assert (Hzu : zlen (slice (ai_username ai) 0 ul) = ul) by (apply zlen_slice; unfold ul; lia).
  assert (Hzp : zlen (slice (ai_password ai) 0 pl) = pl) by (apply zlen_slice; unfold pl; lia).
  assert (H1 : forall x : Z, zlen [x] = 1) by done. fold ul pl in Hm.
  assert (Hrest : forall d r, d ++ r = m -> zlen r = 3 + ul + pl - zlen d).
  { intros d r <-. rewrite zlen_app in Hm. lia. }
  assert (Hdrop : forall b r : list Z, zlen b <= zlen r -> zlen (drop (length b) r) = zlen r - zlen b).
  { intros b r. unfold zlen. rewrite length_drop. lia. }
  wpp_step. apply (wpp_write _ _ [] m); [done|done|rewrite H1; lia|]. set (r1 := drop _ m).
  assert (Z1 : zlen r1 = 2 + ul + pl) by (unfold r1; rewrite Hdrop; rewrite H1; lia).
  wpp_step. apply (wpp_write _ _ [1] r1); [done|done|rewrite H1; lia|]. set (r2 := drop _ r1).
  assert (Z2 : zlen r2 = 1 + ul + pl) by (unfold r2; rewrite Hdrop; rewrite H1; lia).
  wpp_step. wpp_step. rewrite rd_list_ok by lia. apply wp_ok.
  wpp_step. apply (wpp_write _ _ [1; u8 ul] r2); [done|done|lia|]. set (r3 := drop _ r2).
  assert (Z3 : zlen r3 = 1 + pl) by (unfold r3; rewrite Hdrop; lia).
  wpp_step. apply (wpp_write _ _ ([1; u8 ul] ++ slice (ai_username ai) 0 ul) r3);
    [by rewrite <- app_assoc|rewrite zlen_app, Hzu; done|rewrite H1; lia|]. set (r4 := drop _ r3).
  assert (Z4 : zlen r4 = pl) by (unfold r4; rewrite Hdrop; rewrite H1; lia).
  wpp_step. wpp_step. rewrite rd_list_ok by lia. apply wp_ok.
  wpp_step. apply (wpp_write _ _ (([1; u8 ul] ++ slice (ai_username ai) 0 ul) ++ [u8 pl]) r4).
  { by rewrite <- !app_assoc. }
  { rewrite !zlen_app, Hzu, H1. change (zlen [1; u8 ul]) with 2. lia. }
  { lia. }
  assert (drop (length (slice (ai_password ai) 0 pl)) r4 = []) as -> by (apply drop_ge; unfold zlen in *; lia).
  rewrite app_nil_r.
  assert (Hmsg : (([1; u8 ul] ++ slice (ai_username ai) 0 ul) ++ [u8 pl]) ++ slice (ai_password ai) 0 pl = password_msg ai)
    by (unfold password_msg; by rewrite <- !app_assoc).
  assert (Hz : zlen (password_msg ai) = 1 + 1 + ul + 1 + pl).
  { rewrite <- Hmsg, !zlen_app, Hzu, Hzp, H1. change (zlen [1; u8 ul]) with 2. lia. }
  rewrite Hmsg, <- Hz. apply wpp_send; [done|done|lia|]. intros o' Ho'. by split.
Qed.

(** *** The answers *)

Lemma auth_ok_in auth m ai : auth_ok auth -> find_method auth m = Some ai -> auth_type ai = m /\
  (auth_type ai = SOCKS_METHOD_NO_AUTHENTICATION_REQUIRED \/ auth_type ai = SOCKS_METHOD_USERNAME_PASSWORD) /\
  0 <= ai_username_len ai <= zlen (ai_username ai) /\ 0 <= ai_password_len ai <= zlen (ai_password ai).
Proof.
  intros Ha Hf. destruct (find_method_in _ _ _ Hf) as [Hin Ht]. split; [done|].
  unfold auth_ok in Ha. rewrite Forall_forall in Ha. by apply Ha.
Qed.

(** A state in which the next message is under way. *)
Definition next_sent o (p : phase) (msg : list Z) o' : Prop :=
  exists st, send_state p = Some st /\ sent_off o st msg o'.

Lemma wpp_received_hello o h b0 b1 :
  static_ok o -> sender_idle (o_sender o) -> o_buffer o = Some [b0; b1] ->
  wpp received_hello o h (or_reported (fun o' => b0 = SOCKS_VERSION /\ exists ai p msg,
    find_method (o_auth_info o) b1 = Some ai /\ next_sent o p msg o' /\
    forall r s, talk_of o AwaitMethod r s -> talk_of o p (r ++ [b0; b1]) (s ++ msg))).
Proof.
  intros [Ha Hd _] Hid Hb. unfold received_hello. wpp_step.
  apply (wpp_read _ _ [b0; b1]); [done|done|done|done|]. change (slice [b0; b1] 0 SERVER_HELLO) with [b0; b1].
  do 2 wpp_step. change (byte_at [b0; b1] 0) with b0. change (byte_at [b0; b1] 1) with b1.
  destruct (Z.eqb_spec b0 SOCKS_VERSION) as [->|]; cbn [negb]; [|apply wpp_report_or; by left].
  destruct (find_method (o_auth_info o) b1) as [ai|] eqn:Hf; [|apply wpp_report_or; by left].
  destruct (auth_ok_in _ _ _ Ha Hf) as (Ht & Hor & Hu & Hp).
  destruct (Z.eqb_spec (auth_type ai) SOCKS_METHOD_NO_AUTHENTICATION_REQUIRED) as [E|E].
  - eapply wpp_mono; [by apply wpp_auth_finished|]. intros [] o' h' [Hr|[Hus Hs]]; [by left|right].
    split; [done|]. exists ai, AwaitReply, (request_msg (o_dest_addr o) (o_udp o)).
    split; [done|]. split; [by exists STATE_SENDING_REQUEST|]. intros r s Htk. by apply talk_none with ai.
  - destruct Hor as [?|Hpw]; [done|]. rewrite Hpw. simpl.
    destruct ((ai_username_len ai =? 0) || (255 <? ai_username_len ai) || (ai_password_len ai =? 0)
      || (255 <? ai_password_len ai)) eqn:El; [apply wpp_report_or; by left|].
    rewrite !orb_false_iff, !Z.eqb_neq, !Z.ltb_ge in El.
    wpp_step. apply wpp_reserve; [done|simpl; lia|intros h'; simpl; apply wpp_report_or; by left|].
    intros m h' Hm. simpl in Hm. cbn [negb value bsize_fromsize].
    eapply wpp_mono; [apply (wpp_password ai _ _ m); try done; lia|].
    intros [] o' h'' [-> Hs]. right. split; [done|]. exists ai, AwaitAuth, (password_msg ai).
    split; [done|]. split; [by exists STATE_SENDING_PASSWORD|]. intros r s Htk. apply talk_password; try done; lia.
Qed.

Lemma wpp_received_password o h b0 b1 :
  static_ok o -> sender_idle (o_sender o) -> o_buffer o = Some [b0; b1] ->
  wpp received_password_reply o h (or_reported (fun o' => exists msg, next_sent o AwaitReply msg o' /\
    forall r s, talk_of o AwaitAuth r s -> talk_of o AwaitReply (r ++ [b0; b1]) (s ++ msg))).
Proof.
  intros [Ha Hd _] Hid Hb. unfold received_password_reply. wpp_step.
  apply (wpp_read _ _ [b0; b1]); [done|done|done|done|]. change (slice [b0; b1] 0 2) with [b0; b1].
  change (byte_at [b0; b1] 0) with b0. change (byte_at [b0; b1] 1) with b1.
  destruct (Z.eqb_spec b0 1) as [->|]; cbn [negb]; [|apply wpp_report_or; by left].
  destruct (Z.eqb_spec b1 0) as [->|]; cbn [negb]; [|apply wpp_report_or; by left].
  eapply wpp_mono; [by apply wpp_auth_finished|]. intros [] o' h' [Hr|[Hus Hs]]; [by left|right].
  exists (request_msg (o_dest_addr o) (o_udp o)). split; [by exists STATE_SENDING_REQUEST|].
  intros r s Htk. by apply talk_accepted.
Qed.

Lemma wpp_start_receive dest total o h (Q : unit -> BSocksClient -> hist -> Prop) :
  0 < total -> recv_idle (o_recv_if o) ->
  (forall i, let o' := o <| o_recv_dest := dest |> <| o_recv_len := 0 |> <| o_recv_total := total |> <| o_recv_if := i |> in
     recving o' dest total 0 -> Q tt o' h) ->
  wpp (start_receive dest total) o h Q.
Proof.
  intros Ht (R1 & R2 & R3) HQ. unfold start_receive, do_receive. wpp_step. apply wpp_passert; [lia|].
  do 3 wpp_step. wpp_step. wpp_step. simpl. apply wpp_passert; [lia|]. wpp_step. wpp_step.
  unfold StreamRecvInterface_Receiver_Recv. wp_assert_lia. rewrite R1. simpl. apply wp_ok. wpp_step. apply HQ.
  unfold recving. simpl. rewrite R3. split_and!; try done; lia.
Qed.

Lemma wpp_received_header o h m b0 b1 b2 b3 :
  recv_idle (o_recv_if o) -> o_buffer o = Some m -> zlen m = 22 -> slice m 0 4 = [b0; b1; b2; b3] ->
  wpp received_reply_header o h (or_reported (fun o' => exists (v4 : bool),
    [b0; b1; b2; b3] = [SOCKS_VERSION; SOCKS_REP_SUCCEEDED; b2; if v4 then SOCKS_ATYP_IPV4 else SOCKS_ATYP_IPV6] /\
    recving o' 4 (addr_len v4) 0 /\ o_state o' = STATE_RECEIVED_REPLY_HEADER /\
    ba_type (o_bind_addr o') = bind_type v4 /\ ba_body (o_bind_addr o') = ba_body (o_bind_addr o) /\
    o_auth_info o' = o_auth_info o /\ o_dest_addr o' = o_dest_addr o /\ o_udp o' = o_udp o /\
    o_continue_job o' = o_continue_job o /\ o_buffer o' = o_buffer o /\ o_sender o' = o_sender o)).
Proof.
  intros Hi Hb Hm Hs. unfold received_reply_header. wpp_step.
  apply (wpp_read _ _ m); [done|done|done|unfold REPLY_HEADER; lia|]. change REPLY_HEADER with 4. rewrite Hs.
  change (byte_at [b0; b1; b2; b3] 0) with b0. change (byte_at [b0; b1; b2; b3] 1) with b1.
  change (byte_at [b0; b1; b2; b3] 3) with b3.
  destruct (Z.eqb_spec b0 SOCKS_VERSION) as [->|]; cbn [negb]; [|apply wpp_report_or; by left].
  destruct (Z.eqb_spec b1 SOCKS_REP_SUCCEEDED) as [->|]; cbn [negb]; [|apply wpp_report_or; by left].
  destruct ((b3 =? SOCKS_ATYP_IPV4) || (b3 =? SOCKS_ATYP_IPV6)) eqn:E; cbn [negb]; [|apply wpp_report_or; by left].
  apply orb_true_iff in E. rewrite !Z.eqb_eq in E. cbv zeta. wpp_step. wpp_step. wpp_step.
  apply wpp_start_receive; [unfold ADDR_IPV4, ADDR_IPV6; case_match; lia|done|].
  intros i o' Hr. unfold set_state. wpp_step. right. exists (b3 =? SOCKS_ATYP_IPV4).
  split_and!; try done.
  destruct (Z.eqb_spec b3 SOCKS_ATYP_IPV4) as [->|]; [done|]. destruct E as [?|E]; [done|by rewrite E].
Qed.

Lemma wpp_received_rest o h m v4 :
  o_buffer o = Some m -> zlen m = 22 -> ba_type (o_bind_addr o) = bind_type v4 ->
  zlen (ba_body (o_bind_addr o)) = 24 ->
  wpp received_reply_rest o h (fun _ o' _ => o_state o' = STATE_UP /\ o_buffer o' = None /\
    ba_type (o_bind_addr o') = bind_type v4 /\ zlen (ba_body (o_bind_addr o')) = 24 /\
    addr_bytes (o_bind_addr o') = slice m 4 (addr_len v4) /\
    o_auth_info o' = o_auth_info o /\ o_dest_addr o' = o_dest_addr o /\ o_udp o' = o_udp o /\
    o_continue_job o' = o_continue_job o).
Proof.
  intros Hb Hm Ht Hz. pose proof (addr_len_bounds v4). unfold received_reply_rest. do 2 wpp_step. cbv zeta. rewrite Ht.
  assert (Hal : (if bind_type v4 =? BADDR_TYPE_IPV4 then ADDR_IPV4 else ADDR_IPV6) = addr_len v4) by (by destruct v4).
  assert (Hz2 : zlen (slice m 4 (addr_len v4)) = addr_len v4).
  { apply zlen_slice; lia. }
  rewrite Hal. replace (negb _) with false by (by destruct v4). wpp_step.
  apply (wpp_read _ _ m); [done|done|lia|unfold REPLY_HEADER; lia|].
  change REPLY_HEADER with 4. wpp_step. wpp_step. wpp_step. rewrite Hb. apply (wpp_deref _ m); [done|].
  unfold free_control_io, init_up_io, set_state. repeat wpp_step.
  split_and!; try done; simpl.
  - rewrite zlen_splice; [done|done|]. rewrite Hz2. lia.
  - unfold addr_bytes, ba_ipv4, ba_ipv6. simpl. rewrite Ht.
    pose proof (slice_splice_0 (ba_body (o_bind_addr o)) _ _ Hz2) as Hsp. by destruct v4.
Qed.
End ops.
