(* ===== verification/SocksClientSteps.v ===== *)
(** The steps of the SOCKS client with its connection: each keeps the invariant. *)
From S2P Require Import Prelude CMem Sys Flow SocksClient ChunkFacts SocksClientFacts.

(** ** The sender *)

Lemma wp_sender_operation s msg unsent :
  sending s msg unsent -> ppi_job_operation (s_input s) = true ->
  wp (sender_operation_job s) (fun s' => sending s' msg unsent).
Proof.
  intros (S1 & S2 & S3 & S4 & S5 & S6 & S7) He. apply S3 in He as Hst. rewrite Hst in S7.
  destruct S7 as (L1 & L2 & L3 & L4 & ->). unfold sender_operation_job, PacketPassInterface_job_operation.
  rewrite Hst. simpl. unfold sender_input_handler_send. simpl. rewrite L1, L4. simpl. wp_assert_lia.
  unfold send_data. simpl. wp_assert_lia. rewrite (proj2 (Z.ltb_lt 0 (zlen msg))) by lia.
  unfold StreamPassInterface_Sender_Send. rewrite L2, L3. apply wp_bind, wp_bind, wp_assert; [lia|]. simpl.
  apply wp_ok, wp_ok. unfold sending, busy_part. simpl.
  assert (Hd : spi_job_done (s_output s) = false).
  { apply (job_false _ _ _ S6). by rewrite L2. }
  assert (Hp : ppi_job_done (s_input s) = false).
  { apply (job_false _ _ _ S4). by rewrite Hst. }
  rewrite Hd, Hp. split_and!; try done; lia.
Qed.

Lemma wp_sender_stream_operation s msg unsent :
  sending s msg unsent -> spi_job_operation (s_output s) = true ->
  wp ('(i, _) ← StreamPassInterface_job_operation (s_output s); Ok (s <| s_output := i |>))
    (fun s' => sending s' msg unsent).
Proof.
  intros (S1 & S2 & S3 & S4 & S5 & S6 & S7) He. apply S5 in He as Hst.
  unfold StreamPassInterface_job_operation. rewrite Hst. simpl. apply wp_ok.
  unfold sending, busy_part in *. simpl. rewrite S6, Hst.
  destruct (ppi_state (s_input s)).
  - done.
  - destruct S7 as (? & Hn & _). congruence.
  - rewrite Hst in S7. simpl in S7. split_and!; try done; try (by split); try apply S7; lia.
  - destruct S7 as (? & Hn & _). congruence.
Qed.

(** The connection takes [n] bytes of what the sender offers. *)
Lemma wp_sender_stream_done s msg unsent n (Q : StreamPassInterface -> Prop) :
  sending s msg unsent -> spi_state (s_output s) = STATE_BUSY -> 0 < n <= spi_job_operation_len (s_output s) ->
  (forall i unsent', sending (s <| s_output := i |>) msg unsent' ->
     unsent = slice msg (spi_job_operation_data (s_output s)) n ++ unsent' ->
     Q i) ->
  0 <= spi_job_operation_data (s_output s) /\ spi_job_operation_data (s_output s) + n <= zlen msg /\
  wp (StreamPassInterface_Done (s_output s) n) Q.
Proof.
  intros (S1 & S2 & S3 & S4 & S5 & S6 & S7) Hst Hn HQ.
  destruct (ppi_state (s_input s)) eqn:Hp; [done|destruct S7 as (? & ? & _); congruence| |destruct S7 as (? & ? & _); congruence].
  pose proof S7 as (B1 & B2 & B3 & B4 & B5 & B6 & B7). rewrite Hst in B7. simpl in B7. rewrite B5, B6 in *.
  split; [lia|]. split; [lia|]. unfold StreamPassInterface_Done. rewrite Hst, B6.
  apply wp_bind, wp_assert; [done|]. do 2 wp_assert_lia. apply wp_ok.
  apply (HQ _ (drop (Z.to_nat (s_in_used s + n)) msg)).
  - unfold sending, busy_part. simpl. rewrite Hp, B5, B6, S5, Hst. split_and!; try done; try lia.
  - rewrite B7. unfold slice. rewrite <- (take_drop (Z.to_nat n) (drop (Z.to_nat (s_in_used s)) msg)) at 1.
    f_equal. rewrite drop_drop. f_equal. lia.
Qed.

Lemma wp_sender_done s msg unsent :
  sending s msg unsent -> spi_job_done (s_output s) = true ->
  wp (sender_done_job s) (fun s' => sending s' msg unsent).
Proof.
  intros (S1 & S2 & S3 & S4 & S5 & S6 & S7) He. apply S6 in He as Hst.
  destruct (ppi_state (s_input s)) eqn:Hp; [done|destruct S7 as (? & ? & _); congruence| |destruct S7 as (? & ? & _); congruence].
  destruct S7 as (B1 & B2 & B3 & B4 & B5 & B6 & B7). rewrite Hst in B7. simpl in B7. destruct B7 as [Hn ->].
  unfold sender_done_job, StreamPassInterface_job_done. rewrite Hst. simpl.
  unfold sender_output_handler_done. simpl. rewrite B2. do 3 wp_assert_lia.
  unfold send_data. simpl. rewrite B2. wp_assert_lia.
  assert (Hj : spi_job_operation (s_output s) = false) by (apply (job_false _ _ _ S5); by rewrite Hst).
  assert (Ho : ppi_job_operation (s_input s) = false) by (apply (job_false _ _ _ S3); by rewrite ?Hp).
  destruct (Z.ltb_spec (s_in_used s + spi_job_done_len (s_output s)) (zlen msg)) as [Hlt|Hge].
  - unfold StreamPassInterface_Sender_Send. simpl. apply wp_bind. wp_assert_lia. apply wp_ok, wp_ok.
    unfold sending, busy_part. simpl. rewrite Hp, B1, B2, S4. split_and!; try done; lia.
  - unfold PacketPassInterface_Done. simpl. rewrite Hp. simpl. apply wp_ok.
    unfold sending. simpl. rewrite Ho, Hj. split_and!; try done; try lia.
    apply drop_ge. unfold zlen in *. lia.
Qed.

Lemma sending_done s msg unsent :
  sending s msg unsent -> ppi_job_done (s_input s) = true ->
  unsent = [] /\ exists i, PacketPassInterface_job_done (s_input s) = Ok i /\ sender_idle (s <| s_input := i |>).
Proof.
  intros (S1 & S2 & S3 & S4 & S5 & S6 & S7) He. apply S4 in He as Hst. rewrite Hst in *.
  destruct S7 as (L1 & L2 & ->). split; [done|]. unfold PacketPassInterface_job_done. rewrite Hst. simpl.
  eexists. split; [done|]. unfold sender_idle. simpl. split_and!; try done.
  - by apply (job_false _ _ _ S3).
  - apply (job_false _ _ _ S5). by rewrite L2.
  - apply (job_false _ _ _ S6). by rewrite L2.
Qed.

(** ** The client *)
Section steps.
Context {OS : Os}.
Implicit Types (l : client_link).

Lemma wp_run_prog l p (P : client_link -> Prop) :
  wpp p (k_o l) (k_h l) (fun _ o h => P (ClientLink o h (k_out l) (k_in l))) -> wp (run_prog l p) P.
Proof.
  intros H. unfold run_prog. destruct (wpp_inv _ _ _ _ H) as ([] & o & h & -> & HP). apply wp_ok. exact HP.
Qed.
Lemma wpp_with_sender f o h (Q : unit -> BSocksClient -> hist -> Prop) :
  wp (f (o_sender o)) (fun s => Q tt (o <| o_sender := s |>) h) -> wpp (with_sender f) o h Q.
Proof.
  intros H. unfold with_sender. do 2 wpp_step. wpp_step. wpp_step. eapply wp_mono; [exact H|].
  intros s Hs. by wpp_step.
Qed.

(** In which case of the invariant an event can happen. *)
Lemma in_sending l : client_ok l -> reported (k_h l) = false -> io_up (k_o l) ->
  ppi_job_operation (s_input (o_sender (k_o l))) = true \/ ppi_job_done (s_input (o_sender (k_o l))) = true \/
  spi_state (s_output (o_sender (k_o l))) <> STATE_NONE ->
  exists p s msg unsent, static_ok (k_o l) /\ send_state p = Some (o_state (k_o l)) /\
    o_continue_job (k_o l) = false /\ o_buffer (k_o l) = Some msg /\ sending (o_sender (k_o l)) msg unsent /\
    recv_idle (o_recv_if (k_o l)) /\ talk_of (k_o l) p (k_in l) s /\ s = k_out l ++ unsent.
Proof.
  intros Hok Hr [Hc Hu] Hb. destruct Hok as [?|?|? ? ? ? Hid|p r s msg unsent|p r m n ? ? ? ? ? ? Hid|]; try congruence.
  - destruct Hid as (_ & ? & ? & ? & ? & _). destruct Hb as [?|[?|?]]; congruence.
  - subst r. by exists p, s, msg, unsent.
  - destruct Hid as (_ & ? & ? & ? & ? & _). destruct Hb as [?|[?|?]]; congruence.
Qed.
Lemma in_receiving l : client_ok l -> reported (k_h l) = false -> io_up (k_o l) ->
  sri_state (o_recv_if (k_o l)) <> STATE_NONE \/ sri_job_operation (o_recv_if (k_o l)) = true \/
  sri_job_done (o_recv_if (k_o l)) = true ->
  exists p r m n, static_ok (k_o l) /\ wait_state p = Some (o_state (k_o l)) /\ o_continue_job (k_o l) = false /\
    o_buffer (k_o l) = Some m /\ zlen m = room p /\ bytes_ok (slice m (recv_at p) n) /\
    sender_idle (o_sender (k_o l)) /\ recving (k_o l) (recv_at p) (needs p) n /\
    (forall v4, p = AwaitRest v4 -> ba_type (o_bind_addr (k_o l)) = bind_type v4) /\
    talk_of (k_o l) p r (k_out l) /\ k_in l = r ++ slice m (recv_at p) n.
Proof.
  intros Hok Hr [Hc Hu] Hb.
  destruct Hok as [?|?|? ? ? ? ? Hid|p r s msg unsent ? ? ? ? ? Hid|p r m n|]; try congruence.
  - destruct Hid as (? & ? & ?). destruct Hb as [?|[?|?]]; congruence.
  - destruct Hid as (? & ? & ?). destruct Hb as [?|[?|?]]; congruence.
  - by exists p, r, m, n.
Qed.

Lemma wp_connector l e : client_ok l -> cl_enabled l (EvConnector e) ->
  wp (cl_run l (EvConnector e)) client_ok.
Proof.
  intros Hok [Hr Hst]. simpl in Hst. simpl. apply wp_run_prog.
  destruct Hok as [?|Hs _ Hb Hi Ho|? ?|p ? ? ? ? ? Hp|p ? ? ? ? Hp|]; try congruence;
    try (destruct p; rewrite Hst in Hp; done).
  unfold connector_handler. do 2 wpp_step. wpp_step. apply wpp_passert; [by rewrite Hst|].
  destruct e; [apply wpp_report; [by left|]; intros; by apply ok_reported|].
  wpp_step. wpp_step. case_match; [apply wpp_report; [by left|]; intros; by apply ok_reported|].
  unfold init_control_io, set_state. repeat wpp_step. unfold PacketStreamSender_Init, PacketPassInterface_Init.
  simpl. apply wp_ok. repeat wpp_step.
  apply ok_connected; try done; try (by destruct Hs); try (simpl; by split_and!).
Qed.

Lemma wp_connection l e : client_ok l -> cl_enabled l (EvConnection e) ->
  wp (cl_run l (EvConnection e)) client_ok.
Proof.
  intros _ [Hr Hst]. simpl in Hst. simpl. apply wp_run_prog. unfold connection_handler. do 2 wpp_step. wpp_step.
  apply wpp_passert; [by rewrite bool_decide_eq_false_2|].
  case_match; (apply wpp_report; [auto|]; intros; by apply ok_reported).
Qed.

Lemma wp_set_dest l a : client_ok l -> cl_enabled l (EvSetDest a) ->
  wp (cl_run l (EvSetDest a)) client_ok.
Proof.
  intros Hok (Hr & Hst & Ha). simpl. apply wp_run_prog. unfold BSocksClient_SetDestAddr. do 2 wpp_step. wpp_step.
  apply wpp_passert; [destruct Hst as [-> | ->]; done|]. wpp_step.
  destruct Hok as [?|[? ? ?] Hc Hb Hi Ho|[? ? ?] Hc ? ? ? ?|p ? ? ? ? ? Hp|p ? ? ? ? Hp|? ? ? Hu]; try congruence.
  - by apply ok_connecting.
  - by apply ok_connected.
  - destruct p; simpl in Hp; try done; injection Hp as Hp; rewrite <- Hp in Hst; by destruct Hst.
  - destruct p; simpl in Hp; try done; injection Hp as Hp; rewrite <- Hp in Hst; by destruct Hst.
  - rewrite Hu in Hst. by destruct Hst.
Qed.

(** The first message, or the next one, is under way. *)
Lemma next_sent_ok o o' h out r p msg :
  static_ok o -> o_continue_job o = false -> recv_idle (o_recv_if o) -> next_sent o p msg o' ->
  talk_of o p r (out ++ msg) -> client_ok (ClientLink o' h out r).
Proof.
  intros [? ? ?] Hj Hi (st & Hp & (E1 & E2 & E3 & E4 & E5 & E6) & Hst & Hb & Hs) Ht.
  apply (ok_sending _ p r (out ++ msg) msg msg); simpl; try done; try congruence.
  - constructor; congruence.
  - unfold talk_of. by rewrite E1, E2, E3.
Qed.

Lemma wp_continue l : client_ok l -> cl_enabled l EvContinue -> wp (cl_run l EvContinue) client_ok.
Proof.
  intros Hok (Hr & Hj & Hc). simpl. apply wp_run_prog.
  destruct Hok as [?|? ?|Hs Hst Hj' Hb Hid Hri Hi Ho|? ? ? ? ? ? ? ?|? ? ? ? ? ? ?|? ? ? ? ?]; try congruence.
  unfold continue_job. wpp_step. wpp_step. eapply wpp_mono; [by apply wpp_continue_handler|].
  intros [] o' h' [?|(Hn & Hsent)]; [by apply ok_reported|]. rewrite Hi, Ho.
  apply (next_sent_ok ((k_o l) <| o_continue_job := false |>) _ _ _ _ AwaitMethod (hello_msg (o_auth_info (k_o l))));
    try done.
  - by destruct Hs.
  - by exists STATE_SENDING_HELLO.
  - simpl. unfold num_auth_info in Hn. simpl in Hn. apply talk_hello; simpl; lia.
Qed.

Lemma sending_keep l s' : forall p s msg unsent,
  static_ok (k_o l) -> send_state p = Some (o_state (k_o l)) -> o_continue_job (k_o l) = false ->
  o_buffer (k_o l) = Some msg -> sending s' msg unsent -> recv_idle (o_recv_if (k_o l)) ->
  talk_of (k_o l) p (k_in l) s -> s = k_out l ++ unsent ->
  client_ok (l <| k_o := (k_o l) <| o_sender := s' |> |>).
Proof. intros p s msg unsent [? ? ?] ? ? ? ? ? ? ->. by apply (ok_sending _ p (k_in l) (k_out l ++ unsent) msg unsent). Qed.

Lemma wp_send_operation l : client_ok l -> cl_enabled l EvSendOperation ->
  wp (cl_run l EvSendOperation) client_ok.
Proof.
  intros Hok (Hr & Hio & He). destruct (in_sending l Hok Hr Hio ltac:(by left))
    as (p & s & msg & unsent & ? & ? & ? & ? & Hs & ? & ? & ?).
  simpl. apply wp_run_prog, wpp_with_sender. eapply wp_mono; [by apply wp_sender_operation|].
  intros s' Hs'. by apply (sending_keep l s' p s msg unsent).
Qed.
Lemma wp_stream_operation l : client_ok l -> cl_enabled l EvStreamOperation ->
  wp (cl_run l EvStreamOperation) client_ok.
Proof.
  intros Hok (Hr & Hio & He).
  assert (exists p s msg unsent, static_ok (k_o l) /\ send_state p = Some (o_state (k_o l)) /\
    o_continue_job (k_o l) = false /\ o_buffer (k_o l) = Some msg /\ sending (o_sender (k_o l)) msg unsent /\
    recv_idle (o_recv_if (k_o l)) /\ talk_of (k_o l) p (k_in l) s /\ s = k_out l ++ unsent)
    as (p & s & msg & unsent & ? & ? & ? & ? & Hs & ? & ? & ?).
  { destruct (decide (spi_state (s_output (o_sender (k_o l))) = STATE_NONE)) as [Hn|Hn];
      [|apply in_sending; auto]. exfalso.
    destruct Hio as [Hc Hu].
    destruct Hok as [?|?|? ? ? ? Hid|p r s msg unsent ? ? ? ? Hs|p r m n ? ? ? ? ? ? Hid|]; try congruence.
    - destruct Hid as (_ & _ & _ & _ & _ & ? & _). congruence.
    - destruct Hs as (_ & _ & _ & _ & S5 & _). apply S5 in He. congruence.
    - destruct Hid as (_ & _ & _ & _ & _ & ? & _). congruence. }
  simpl. apply wp_run_prog, wpp_with_sender. eapply wp_mono; [by apply wp_sender_stream_operation|].
  intros s' Hs'. by apply (sending_keep l s' p s msg unsent).
Qed.

Lemma wp_stream_done l n : client_ok l -> cl_enabled l (EvStreamDone n) ->
  wp (cl_run l (EvStreamDone n)) client_ok.
Proof.
  intros Hok (Hr & Hio & Hst & Hn).
  destruct (in_sending l Hok Hr Hio) as (p & s & msg & unsent & Hso & Hp & Hj & Hb & Hs & Hi & Ht & Ho);
    [right; right; by rewrite Hst|].
  destruct (wp_sender_stream_done _ _ _ n (fun i => client_ok (l <| k_o := (k_o l) <| o_sender := (o_sender (k_o l)) <| s_output := i |> |> |>
    <| k_out := k_out l ++ slice msg (spi_job_operation_data (s_output (o_sender (k_o l)))) n |>)) Hs Hst Hn)
    as (H0 & Hle & Hw).
  { intros i unsent' Hs' Hu. destruct Hso.
    apply (ok_sending _ p (k_in l) s msg unsent'); try done. simpl. by rewrite Ho, Hu, app_assoc. }
  simpl. rewrite Hb. apply wp_bind, wp_ok. rewrite rd_list_ok by lia. apply wp_bind, wp_ok.
  apply wp_bind. eapply wp_mono; [exact Hw|]. intros i Hi'. by apply wp_ok.
Qed.

Lemma wp_stream_job l : client_ok l -> cl_enabled l EvStreamJob -> wp (cl_run l EvStreamJob) client_ok.
Proof.
  intros Hok (Hr & Hio & He).
  assert (Hn : spi_state (s_output (o_sender (k_o l))) <> STATE_NONE).
  { destruct Hio as [Hc Hu]. intros Hn.
    destruct Hok as [?|?|? ? ? ? Hid|p r s msg unsent ? ? ? ? Hs|p r m n ? ? ? ? ? ? Hid|]; try congruence.
    - destruct Hid as (_ & _ & _ & _ & _ & _ & ? & _). congruence.
    - destruct Hs as (_ & _ & _ & _ & _ & S6 & _). apply S6 in He. congruence.
    - destruct Hid as (_ & _ & _ & _ & _ & _ & ? & _). congruence. }
  destruct (in_sending l Hok Hr Hio) as (p & s & msg & unsent & ? & ? & ? & ? & Hs & ? & ? & ?); [auto|].
  simpl. apply wp_run_prog, wpp_with_sender. eapply wp_mono; [by apply wp_sender_done|].
  intros s' Hs'. by apply (sending_keep l s' p s msg unsent).
Qed.

(** The reply to a message is awaited once the message is gone. *)
Lemma wpp_await o h size st p r out (Q := fun (_ : unit) o' h' => client_ok (ClientLink o' h' out r)) :
  static_ok o -> o_continue_job o = false -> sender_idle (o_sender o) -> recv_idle (o_recv_if o) ->
  talk_of o p r out -> is_overflow size = false -> value size = room p -> recv_at p = 0 -> 0 < needs p ->
  wait_state p = Some st -> (forall v4, p <> AwaitRest v4) ->
  wpp (await_reply size (needs p) st) o h Q.
Proof.
  intros Hs Hj Hid Hi Ht Ho Hv Hat Hn Hw Hp. unfold await_reply. wpp_step.
  apply wpp_reserve; [done|rewrite Hv; by destruct p| |].
  - intros h'. simpl. apply wpp_report; [by left|]. intros. by apply ok_reported.
  - intros m h' Hm. cbn [negb]. wpp_step. apply wpp_start_receive; [done|done|].
    intros i o' Hr. unfold set_state. wpp_step. destruct Hs.
    apply (ok_receiving _ p r m 0); simpl; try done; try congruence.
    + rewrite Hat. by apply Forall_nil.
    + rewrite Hat. exact Hr.
    + by rewrite Hat, app_nil_r.
Qed.

Lemma wp_send_job l : client_ok l -> cl_enabled l EvSendJob -> wp (cl_run l EvSendJob) client_ok.
Proof.
  intros Hok (Hr & Hio & He).
  destruct (in_sending l Hok Hr Hio ltac:(auto)) as (p & s & msg & unsent & Hso & Hp & Hj & Hb & Hs & Hi & Ht & Ho).
  destruct (sending_done _ _ _ Hs He) as (-> & i & Hi' & Hid). rewrite app_nil_r in Ho. subst s.
  simpl. apply wp_run_prog. unfold send_done_job. wpp_step. apply wpp_with_sender. rewrite Hi'. simpl. apply wp_ok.
  unfold send_handler_done. do 2 wpp_step. wpp_step. apply wpp_passert; [simpl; rewrite Hb; by apply bool_decide_eq_true|].
  assert (Hs1 : static_ok ((k_o l) <| o_sender := (o_sender (k_o l)) <| s_input := i |> |>)) by (by destruct Hso).
  destruct p; simpl in Hp; try done; injection Hp as Hst; simpl; rewrite <- Hst.
  - by apply (wpp_await _ _ _ _ AwaitMethod).
  - by apply (wpp_await _ _ _ _ AwaitAuth).
  - by apply (wpp_await _ _ _ _ AwaitReply).
Qed.

Lemma wp_recv_operation l : client_ok l -> cl_enabled l EvRecvOperation ->
  wp (cl_run l EvRecvOperation) client_ok.
Proof.
  intros Hok (Hr & Hio & He).
  destruct (in_receiving l Hok Hr Hio ltac:(auto))
    as (p & r & m & n & Hso & Hw & Hj & Hb & Hz & Hby & Hid & Hrec & Hbt & Ht & Hin).
  destruct Hrec as (R1 & R2 & R3 & R4 & R5 & R6 & R7 & R8 & R9). apply R5 in He as Hst.
  simpl. unfold StreamRecvInterface_job_operation. rewrite Hst. simpl. apply wp_ok. destruct Hso.
  apply (ok_receiving _ p r m n); try done. unfold recving. simpl. rewrite Hst in R9. rewrite R6, Hst.
  split_and!; try done; lia.
Qed.

Lemma recv_room p : p = p -> 0 <= recv_at p /\ 0 <= needs p /\ recv_at p + needs p <= room p.
Proof. intros _. destruct p as [| | |v4|]; simpl; try lia. pose proof (addr_len_bounds v4). lia. Qed.

Lemma wp_recv_done l data : client_ok l -> cl_enabled l (EvRecvDone data) ->
  wp (cl_run l (EvRecvDone data)) client_ok.
Proof.
  intros Hok (Hr & Hio & Hst & Hn & Hdb).
  destruct (in_receiving l Hok Hr Hio) as (p & r & m & n & Hso & Hw & Hj & Hb & Hz & Hby & Hid & Hrec & Hbt & Ht & Hin);
    [left; by rewrite Hst|].
  destruct Hrec as (R1 & R2 & R3 & R4 & R5 & R6 & R7 & R8 & R9). rewrite Hst in R9. simpl in R9. subst n.
  destruct (recv_room p eq_refl) as (? & ? & ?). pose proof (zlen_nonneg data). rewrite R8 in Hn.
  simpl. rewrite Hb. apply wp_bind, wp_ok. rewrite R7, wr_list_ok by lia. apply wp_bind, wp_ok.
  unfold StreamRecvInterface_Done. rewrite Hst, R8. apply wp_bind, wp_bind, wp_assert; [done|]. do 2 wp_assert_lia.
  apply wp_ok, wp_ok. set (m' := splice m _ data). destruct Hso.
  assert (Hm' : zlen m' = zlen m) by (unfold m'; apply zlen_splice; lia).
  assert (Hsl : slice m' (recv_at p) (o_recv_len (k_o l) + zlen data) = slice m (recv_at p) (o_recv_len (k_o l)) ++ data).
  { rewrite <- slice_app by lia. f_equal.
    - unfold m'. apply list_eq_byte_at; rewrite !zlen_slice; rewrite ?zlen_splice; try lia. intros i Hi.
      rewrite !byte_at_slice, byte_at_splice by lia. by rewrite (proj2 (andb_false_iff _ _)) by lia.
    - unfold m'. apply list_eq_byte_at; rewrite zlen_slice; rewrite ?zlen_splice; try lia. intros i Hi.
      rewrite byte_at_slice, byte_at_splice by lia. rewrite (proj2 (andb_true_iff _ _)) by lia. f_equal. lia. }
  apply (ok_receiving _ p r m' (o_recv_len (k_o l) + zlen data)); try done; simpl.
  - congruence.
  - rewrite Hsl. by apply bytes_ok_app.
  - unfold recving. simpl. rewrite R5, Hst. split_and!; try done; lia.
  - by rewrite Hsl, Hin, app_assoc.
Qed.

(** *** A receive is done *)

Lemma two_bytes (m : list Z) : zlen m = 2 -> exists b0 b1, m = [b0; b1].
Proof.
  destruct m as [|b0 [|b1 [|b2 m]]]; rewrite ?zlen_cons, ?zlen_nil; intros H; try lia; [eauto|].
  pose proof (zlen_nonneg m). lia.
Qed.
Lemma four_bytes (m : list Z) : zlen m = 4 -> exists b0 b1 b2 b3, m = [b0; b1; b2; b3].
Proof.
  destruct m as [|b0 [|b1 [|b2 [|b3 [|b4 m]]]]]; rewrite ?zlen_cons, ?zlen_nil; intros H; try lia; [eauto 6|].
  pose proof (zlen_nonneg m). lia.
Qed.
Lemma slice_all (m : list Z) n : zlen m = n -> slice m 0 n = m.
Proof. intros <-. unfold slice, zlen. rewrite Nat2Z.id. simpl. by apply take_ge. Qed.

(** The whole message is there: each of the answers. *)
Lemma wpp_message o h p r m out st (Q := fun (_ : unit) o' h' =>
    client_ok (ClientLink o' h' out (r ++ slice m (recv_at p) (needs p)))) :
  static_ok o -> wait_state p = Some st -> o_state o = st -> o_continue_job o = false -> o_buffer o = Some m ->
  zlen m = room p -> sender_idle (o_sender o) -> recv_idle (o_recv_if o) ->
  (forall v4, p = AwaitRest v4 -> ba_type (o_bind_addr o) = bind_type v4) -> talk_of o p r out ->
  wpp (match o_state o with
       | STATE_SENT_HELLO => received_hello | STATE_SENT_REQUEST => received_reply_header
       | STATE_SENT_PASSWORD => received_password_reply | STATE_RECEIVED_REPLY_HEADER => received_reply_rest
       | _ => pub
       end) o h Q.
Proof.
  intros Hs Hw Hst Hj Hb Hz Hid Hi Hbt Ht. rewrite Hst. clear Hst. unfold Q. clear Q.
  destruct p as [| | |v4|]; simpl in Hw; try done; injection Hw as <-; simpl in Hz |- *.
  - destruct (two_bytes _ Hz) as (b0 & b1 & ->). rewrite slice_all by done.
    eapply wpp_mono; [by apply wpp_received_hello|].
    intros [] o' h' [?|(_ & ai & p & msg & _ & Hn & Hp)]; [by apply ok_reported|].
    apply (next_sent_ok o _ _ _ _ p msg); auto.
  - destruct (two_bytes _ Hz) as (b0 & b1 & ->). rewrite slice_all by done.
    eapply wpp_mono; [by apply wpp_received_password|].
    intros [] o' h' [?|(msg & Hn & Hp)]; [by apply ok_reported|].
    apply (next_sent_ok o _ _ _ _ AwaitReply msg); auto.
  - destruct (four_bytes (slice m 0 4)) as (b0 & b1 & b2 & b3 & Hm); [apply zlen_slice; lia|]. rewrite Hm.
    eapply wpp_mono; [by apply (wpp_received_header _ _ m b0 b1 b2 b3)|].
    intros [] o' h' [?|(v4 & Heq & Hr & Hst & Hbt' & Hbb & E1 & E2 & E3 & E4 & E5 & E6)]; [by apply ok_reported|].
    destruct Hs. apply (ok_receiving _ (AwaitRest v4) (r ++ [b0; b1; b2; b3]) m 0); simpl; try done; try congruence.
    + constructor; congruence.
    + by apply Forall_nil.
    + unfold talk_of. rewrite E1, E2, E3, Heq. by apply talk_reply.
    + by rewrite app_nil_r.
  - pose proof (addr_len_bounds v4). destruct Hs.
    eapply wpp_mono; [apply (wpp_received_rest o h m v4); auto|]. intros [] o' h' (U1 & U2 & U3 & U4 & U5 & E1 & E2 & E3 & E4).
    apply (ok_up _ v4 (slice m 4 (addr_len v4))); simpl; try done; try congruence.
    + constructor; congruence.
    + unfold talk_of. rewrite E1, E2, E3. apply talk_rest; [done|]. apply zlen_slice; lia.
Qed.

Lemma wp_recv_job l : client_ok l -> cl_enabled l EvRecvJob -> wp (cl_run l EvRecvJob) client_ok.
Proof.
  intros Hok (Hr & Hio & He).
  destruct (in_receiving l Hok Hr Hio ltac:(auto))
    as (p & r & m & n & Hso & Hw & Hj & Hb & Hz & Hby & Hid & Hrec & Hbt & Ht & Hin).
  destruct Hrec as (R1 & R2 & R3 & R4 & R5 & R6 & R7 & R8 & R9). apply R6 in He as Hst. rewrite Hst in R9.
  simpl in R9. destruct R9 as [Hn ->]. destruct (recv_room p eq_refl) as (? & ? & ?).
  assert (Hjo : sri_job_operation (o_recv_if (k_o l)) = false) by (apply (job_false _ _ _ R5); by rewrite Hst).
  simpl. apply wp_run_prog. unfold recv_done_job. do 2 wpp_step. wpp_step. wpp_step.
  unfold StreamRecvInterface_job_done. rewrite Hst. simpl. apply wp_ok. wpp_step. wpp_step.
  set (n := o_recv_len (k_o l) + sri_job_done_len (o_recv_if (k_o l))) in *.
  unfold recv_handler_done. do 2 wpp_step. wpp_step. apply wpp_passert; [lia|].
  wpp_step. simpl. apply wpp_passert; [lia|]. do 2 wpp_step. do 2 wpp_step. simpl. fold n. rewrite R2.
  set (i0 := (o_recv_if (k_o l)) <| sri_job_done := false |> <| sri_state := STATE_NONE |>).
  destruct Hso as [Ha Hd Hbz]. destruct (Z.ltb_spec n (needs p)) as [Hlt|Hge].
  - unfold do_receive. do 2 wpp_step. wpp_step. simpl. fold n. rewrite R2. apply wpp_passert; [lia|].
    wpp_step. wpp_step. unfold StreamRecvInterface_Receiver_Recv. wp_assert_lia. simpl. apply wp_ok. wpp_step.
    apply (ok_receiving _ p r m n); try done. unfold recving. simpl. fold n. rewrite R1, R2. split_and!; try done; lia.
  - assert (En : n = needs p) by lia. rewrite Hin, En.
    set (o' := (k_o l) <| o_recv_if := i0 |> <| o_recv_len := needs p |>).
    pose proof (wpp_message o' (k_h l) p r m (k_out l) (o_state (k_o l))) as Hm. simpl in Hm.
    apply Hm; try done.
Qed.

(** Every event that can happen leads to a state of the invariant. *)
Lemma wp_cl_run l ev : client_ok l -> cl_enabled l ev -> wp (cl_run l ev) client_ok.
Proof.
  intros Hl He. destruct ev; eauto using wp_connector, wp_connection, wp_set_dest, wp_continue, wp_send_operation,
    wp_stream_operation, wp_stream_done, wp_stream_job, wp_send_job, wp_recv_operation, wp_recv_done, wp_recv_job.
Qed.
Lemma cl_reach_ok l0 l : client_ok l0 -> cl_reach l0 l -> client_ok l.
Proof.
  intros H0 Hr. induction Hr as [|l ev l' _ IH He Hrun]; [done|].
  pose proof (wp_cl_run _ _ IH He) as Hw. rewrite Hrun in Hw. exact Hw.
Qed.
End steps.
