(* ===== verification/SocksClientProps.v ===== *)
(** The properties of the SOCKS client: it holds the SOCKS5 conversation however the
    stream is cut, is never stuck, and byedpi's server understands it. *)
From S2P Require Import Prelude CMem Sys Flow SocksClient ChunkFacts SocksClientFacts SocksClientSteps.
From S2P Require Import Mpool PktTls PktHttp PktFake State Conev Desync Socks StateFacts SocksFacts.
#[local] Open Scope Z_scope.
#[local] Open Scope list_scope.

#[local] Arguments find_auth : simpl never.

(** A client as [BSocksClient_Init] leaves it in any memory. *)
Definition cl_started {OS : Os} (auth : list auth_info) (dest : BAddr) (udp : bool) (l : client_link) : Prop :=
  exists srv o0 o h, BSocksClient_Init srv auth dest udp o0 [] = Ok (true, o, h) /\
    zlen (ba_body (o_bind_addr o)) = 24 /\ l = ClientLink o h [] [].

Lemma cl_started_ok {OS : Os} auth dest udp l :
  cl_started auth dest udp l -> auth_ok auth -> zlen (ba_body dest) = 24 -> client_ok l.
Proof.
  intros (srv & o0 & o & h & Hi & Hb & ->) Ha Hd. unfold BSocksClient_Init in Hi.
  assert (Hw : wpp (BSocksClient_Init srv auth dest udp) o0 [] (fun ok o _ => ok = true ->
    o_buffer o = None /\ o_auth_info o = auth /\ o_dest_addr o = dest /\ o_state o = STATE_CONNECTING)
    \/ BSocksClient_Init srv auth dest udp o0 [] = Ub).
  { unfold BSocksClient_Init. destruct (negb (ba_type srv =? BADDR_TYPE_NONE)) eqn:E1; [|by right].
    destruct (forallb _ auth) eqn:E2; [|by right]. left. unfold set_state, passert. repeat wpp_step.
    case_match; repeat wpp_step; done. }
  unfold BSocksClient_Init in Hw. destruct Hw as [Hw|Hw]; [|rewrite Hi in Hw; done].
  unfold wpp in Hw. rewrite Hi in Hw. destruct (Hw eq_refl) as (Hbuf & Hau & Hde & Hst).
  apply ok_connecting; simpl; try done. constructor; simpl; congruence.
Qed.

(** C17: The SOCKS client of tun2socks against SOCKS5 as an abstract conversation
    ([talk]). However the connection cuts the stream into pieces, in which order the
    jobs run, and whatever the allocator and the server do: no operation fails an
    assertion or leaves the buffer; and unless an error was reported, what was received
    is the whole answers so far and a part of the next, what was sent is a prefix of
    the messages they call for, and the client is up exactly when the conversation is
    over, with the address that the server bound. *)
Theorem socks_client_protocol {OS : Os} auth dest udp l0 l :
  cl_started auth dest udp l0 -> auth_ok auth -> zlen (ba_body dest) = 24 -> cl_reach l0 l ->
  (forall ev, cl_enabled l ev -> exists l', cl_run l ev = Ok l') /\
  (reported (k_h l) = false ->
   (o_state (k_o l) = STATE_CONNECTING \/ o_state (k_o l) = STATE_CONNECTED_HANDLER) /\ k_in l = [] /\ k_out l = [] \/
   exists p r s part unsent, talk (o_auth_info (k_o l)) (o_dest_addr (k_o l)) (o_udp (k_o l)) p r s /\
     k_in l = r ++ part /\ s = k_out l ++ unsent /\
     (part = [] \/ (unsent = [] /\ zlen part <= needs p)) /\
     (o_state (k_o l) = STATE_UP <-> exists v4 a, p = Done_ v4 a) /\
     (forall v4 a, p = Done_ v4 a -> part = [] /\ unsent = [] /\
        ba_type (o_bind_addr (k_o l)) = bind_type v4 /\ addr_bytes (o_bind_addr (k_o l)) = a)).
Proof.
  intros Hs Ha Hd Hr. pose proof (cl_reach_ok _ _ (cl_started_ok _ _ _ _ Hs Ha Hd) Hr) as Hok. split.
  - intros ev He. destruct (wp_inv _ _ (wp_cl_run _ _ Hok He)) as (l' & ? & _). by exists l'.
  - intros Hn. destruct Hok as [?|Hst Hc Hb Hi Ho|Hst Hc Hj Hb Hid Hri Hi Ho|p r s msg unsent ? Hp ? ? ? ? Ht Hi Hss
      |p r m n ? Hp ? ? Hz ? ? Hrec ? Ht Hi|v4 a ? Hu ? ? Ht Hbt Hba]; [congruence|left; auto..|right|right|right].
    + exists p, r, s, [], unsent. rewrite app_nil_r. split_and!; try done; [by left| |].
      * destruct p; simpl in Hp; try done; injection Hp as Hp; rewrite <- Hp; (split; [done|by intros (? & ? & ?)]).
      * intros v4 a ->. done.
    + exists p, r, (k_out l), (slice m (recv_at p) n), []. rewrite app_nil_r. split_and!; try done.
      * right. split; [done|]. destruct Hrec as (_ & _ & Hlen & _ & _ & _ & _ & _ & Hn').
        assert (0 <= n <= needs p) by (case_match; lia).
        destruct (recv_room p eq_refl) as (? & ? & ?). rewrite zlen_slice; lia.
      * destruct p; simpl in Hp; try done; injection Hp as Hp; rewrite <- Hp; (split; [done|by intros (? & ? & ?)]).
      * intros v4 a ->. done.
    + exists (Done_ v4 a), (k_in l), (k_out l), [], []. rewrite !app_nil_r.
      split_and!; try done; [by left|split; [by exists v4, a|done]|]. intros v4' a' [= <- <-]. done.
Qed.

(** C28: The client is never stuck: until it is up or has reported an error, one of its
    jobs is set, or the connection has been asked to connect, to send or to receive, so
    that some event other than a failure or a call of its owner can happen. *)
Theorem socks_client_progress {OS : Os} auth dest udp l0 l :
  cl_started auth dest udp l0 -> auth_ok auth -> zlen (ba_body dest) = 24 -> cl_reach l0 l ->
  reported (k_h l) = false -> o_state (k_o l) <> STATE_UP ->
  exists ev, cl_enabled l ev /\ (forall e, ev <> EvConnection e) /\ (forall a, ev <> EvSetDest a) /\
    ev <> EvConnector true.
Proof.
  intros Hs Ha Hd Hr Hn Hup. pose proof (cl_reach_ok _ _ (cl_started_ok _ _ _ _ Hs Ha Hd) Hr) as Hok.
  destruct Hok as [?|Hst Hc Hb Hi Ho|Hst Hc Hj Hb Hid Hri Hi Ho|p r s msg unsent ? Hp ? ? Hsd ? Ht Hi Hss
      |p r m n ? Hp ? ? Hz ? ? Hrec ? Ht Hi|v4 a ? Hu ? ? Ht Hbt Hba]; [congruence| | | | |done].
  - by exists (EvConnector false).
  - exists EvContinue. split; [split; [done|split; [done|by rewrite Hc]]|by split_and!].
  - assert (Hio : io_up (k_o l)) by (split; [|done]; intros E; rewrite E in Hp; by destruct p).
    destruct Hsd as (S1 & S2 & S3 & S4 & S5 & S6 & S7). destruct (ppi_state (s_input (o_sender (k_o l)))) eqn:E; [done| | |].
    + exists EvSendOperation. split; [split; [done|split; [done|by apply S3]]|by split_and!].
    + destruct S7 as (_ & _ & Hu & Hne & _ & Hl & _).
      destruct (spi_state (s_output (o_sender (k_o l)))) eqn:E2; [done| | |].
      * exists EvStreamOperation. split; [split; [done|split; [done|by apply S5]]|by split_and!].
      * exists (EvStreamDone 1). split; [split; [done|split; [done|split; [done|lia]]]|by split_and!].
      * exists EvStreamJob. split; [split; [done|split; [done|by apply S6]]|by split_and!].
    + exists EvSendJob. split; [split; [done|split; [done|by apply S4]]|by split_and!].
  - assert (Hio : io_up (k_o l)) by (split; [|done]; intros E; rewrite E in Hp; by destruct p).
    destruct Hrec as (R1 & R2 & R3 & R4 & R5 & R6 & R7 & R8 & R9).
    destruct (sri_state (o_recv_if (k_o l))) eqn:E; [done| | |].
    + exists EvRecvOperation. split; [split; [done|split; [done|by apply R5]]|by split_and!].
    + exists (EvRecvDone [0]). split; [|by split_and!]. split; [done|]. split; [done|]. split; [done|].
      change (zlen [0]) with 1. split; [lia|]. apply Forall_cons. split; [by split|by apply Forall_nil].
    + exists EvRecvJob. split; [split; [done|split; [done|by apply R6]]|by split_and!].
Qed.

(** ** byedpi's server at the other end *)

(** The address of a destination as byedpi holds it. *)
Definition sockaddr_of (d : BAddr) : sockaddr_u :=
  if ba_type d =? BADDR_TYPE_IPV4
  then Sockaddr AF_INET (byte_at (ba_body d) 4 + 256 * byte_at (ba_body d) 5) (slice (ba_body d) 0 4 ++ replicate 20 0)
  else Sockaddr AF_INET6 (byte_at (ba_body d) 16 + 256 * byte_at (ba_body d) 17)
         (replicate 4 0 ++ slice (ba_body d) 0 16 ++ replicate 4 0).

Lemma port_bytes_of a b : 0 <= a < 256 -> 0 <= b < 256 -> port_bytes (a + 256 * b) = [a; b].
Proof. intros. unfold port_bytes. f_equal; [|f_equal]; Z.to_euclidean_division_equations; lia. Qed.
Lemma slice_2 m i : 0 <= i -> i + 2 <= zlen m -> slice m i 2 = [byte_at m i; byte_at m (i + 1)].
Proof.
  intros ? ?. apply list_eq_byte_at; [by rewrite zlen_slice by lia|].
  rewrite zlen_slice by lia. intros j Hj. rewrite byte_at_slice by lia.
  assert (j = 0 \/ j = 1) as [-> | ->] by lia; by rewrite ?Z.add_0_r.
Qed.

Lemma sockaddr_of_ok d : usable d -> zlen (ba_body d) = 24 -> bytes_ok (ba_body d) ->
  addr_ok (sockaddr_of d) /\ addr_bytes d = ip_of (sockaddr_of d) ++ port_bytes (sin_port (sockaddr_of d)) /\
  (sa_family (sockaddr_of d) =? AF_INET) = (ba_type d =? BADDR_TYPE_IPV4).
Proof.
  intros Hu Hz Hb. pose proof (byte_at_range (ba_body d) 4 Hb). pose proof (byte_at_range (ba_body d) 5 Hb).
  pose proof (byte_at_range (ba_body d) 16 Hb). pose proof (byte_at_range (ba_body d) 17 Hb).
  assert (Z4 : zlen (slice (ba_body d) 0 4) = 4) by (apply zlen_slice; lia).
  assert (Z16 : zlen (slice (ba_body d) 0 16) = 16) by (apply zlen_slice; lia).
  unfold sockaddr_of, addr_bytes, ba_ipv4, ba_ipv6, ADDR_IPV4, ADDR_IPV6.
  destruct (ba_type d =? BADDR_TYPE_IPV4); split_and!; try done.
  - constructor; simpl; [by left|lia|]. rewrite zlen_app, Z4. done.
  - unfold ip_of, sin_addr. cbn [sa_family sa_body sin_port]. rewrite Z.eqb_refl, port_bytes_of by lia.
    replace (slice (slice (ba_body d) 0 4 ++ replicate 20 0) 0 4) with (slice (ba_body d) 0 4)
      by (symmetry; by apply (slice_app_mid [])).
    change [byte_at (ba_body d) 4; byte_at (ba_body d) 5] with [byte_at (ba_body d) 4; byte_at (ba_body d) (4 + 1)].
    rewrite <- slice_2 by lia. exact (eq_sym (slice_app (ba_body d) 0 4 2 ltac:(lia) ltac:(lia) ltac:(lia))).
  - constructor; simpl; [by right|lia|]. rewrite !zlen_cons, zlen_app, Z16. done.
  - unfold ip_of, sin6_addr. cbn [sa_family sa_body sin_port]. change (AF_INET6 =? AF_INET) with false.
    cbv iota. rewrite port_bytes_of by lia.
    rewrite (slice_app_mid (replicate 4 0) (slice (ba_body d) 0 16)) by done.
    change [byte_at (ba_body d) 16; byte_at (ba_body d) 17] with [byte_at (ba_body d) 16; byte_at (ba_body d) (16 + 1)].
    rewrite <- slice_2 by lia. exact (eq_sym (slice_app (ba_body d) 0 16 2 ltac:(lia) ltac:(lia) ltac:(lia))).
Qed.

Lemma request_is_address d udp : usable d -> zlen (ba_body d) = 24 -> bytes_ok (ba_body d) ->
  let a := sockaddr_of d in
  request_msg d udp = [SOCKS_VERSION; if udp then SOCKS_CMD_UDP_ASSOCIATE else SOCKS_CMD_CONNECT; 0]
    ++ (s5_atp a :: ip_of a ++ port_bytes (sin_port a)) ++ [].
Proof.
  intros Hu Hz Hb a. destruct (sockaddr_of_ok d Hu Hz Hb) as (_ & Ha & Hf). fold a in Ha, Hf.
  rewrite app_nil_r. unfold request_msg, s5_atp. rewrite Ha, Hf. simpl. by case_match.
Qed.

(** The server's side of the negotiation, on the client's hello. *)
Lemma auth_socks5_answers {CA : CharAbi} {OS : Os} fd auth w h :
  0 < zlen auth -> zlen auth <= 255 -> (exists ai, find_method auth S_AUTH_NONE = Some ai) ->
  exists s, auth_socks5 fd (hello_msg auth) (zlen (hello_msg auth)) w h =
    Ok (if rv s <? 0 then -1 else 0, w, (CSend fd [S_VER5; S_AUTH_NONE] 0, s) :: h).
Proof.
  intros H0 Hn [ai Hf]. pose proof (zlen_hello auth) as Hz.
  assert (Hex : exists j, 2 <= j < zlen (hello_msg auth) /\ byte_at (hello_msg auth) j = S_AUTH_NONE).
  { destruct (find_method_in _ _ _ Hf) as [Hin Hty]. apply list_elem_of_lookup_1 in Hin as [i Hi].
    pose proof (lookup_lt_Some _ _ _ Hi). exists (2 + Z.of_nat i). unfold zlen in *. split; [lia|].
    unfold byte_at, hello_msg. replace (Z.to_nat (2 + Z.of_nat i)) with (S (S i)) by lia. simpl.
    rewrite list_lookup_fmap, Hi. simpl. by rewrite Hty. }
  assert (Hw : wpp (auth_socks5 fd (hello_msg auth) (zlen (hello_msg auth))) w h (fun r w' h' => exists s,
    r = (if rv s <? 0 then -1 else 0) /\ w' = w /\ h' = (CSend fd [S_VER5; S_AUTH_NONE] 0, s) :: h)).
  { unfold auth_socks5. rewrite (proj2 (Z.leb_gt _ _)) by lia. apply wpp_bind, wpp_lift.
    rewrite rd_ok by lia. apply wp_ok. change (byte_at (hello_msg auth) 1) with (u8 (zlen auth)).
    rewrite u8_small by lia. rewrite (proj2 (Z.eqb_eq _ _)) by lia. simpl.
    apply wpp_bind, wpp_lift. apply wp_find_auth; [lia|lia|lia|]. intros c _ Hc.
    rewrite (proj2 Hc Hex). unfold send_. repeat wpp_step. case_match eqn:Hs; wpp_step; eexists; (split; [|done]); by rewrite Hs. }
  destruct (wpp_inv _ _ _ _ Hw) as (r & w' & h' & E & s & -> & -> & ->). by exists s.
Qed.

(** C25: tun2socks's client and byedpi's server agree on the protocol. The hello of a
    client that offers "no authentication" passes [auth_socks5], whose answer makes the
    client send its request; of the request, connect or UDP association, for IPv4 or
    IPv6, [s5_get_addr] decodes exactly the destination and its whole length; the
    answer [resp_s5_error] sends for success brings the client up, and the answer for
    any other code makes it report an error. *)
Theorem socks_peers_agree {CA : CharAbi} {OS : Os} auth ai dest udp fd a0 type w h o m :
  zlen auth <= 255 -> find_method auth S_AUTH_NONE = Some ai ->
  usable dest -> zlen (ba_body dest) = 24 -> bytes_ok (ba_body dest) ->
  zlen (sa_body a0) = 24 -> (ba_type dest = BADDR_TYPE_IPV6 -> pr_ipv6 (w_params w) = true) ->
  (exists rc s, auth_socks5 fd (hello_msg auth) (zlen (hello_msg auth)) w h =
     Ok (rc, w, (CSend fd [S_VER5; S_AUTH_NONE] 0, s) :: h) /\ (0 <= rv s -> rc = 0)) /\
  talk auth dest udp AwaitReply [S_VER5; S_AUTH_NONE] (hello_msg auth ++ request_msg dest udp) /\
  wpp (s5_get_addr (request_msg dest udp) 0 (zlen (request_msg dest udp)) a0 type) w h
    (fun x w' h' => fst x = zlen (request_msg dest udp) /\ same_addr (snd x) (sockaddr_of dest) /\ w' = w /\ h' = h) /\
  (forall e, 0 <= e < 256 -> exists rep s rc, resp_s5_error fd e w h = Ok (rc, w, (CSend fd rep 0, s) :: h) /\
     if e =? S_ER_OK
     then talk auth dest udp (Done_ true (replicate 6 0)) ([S_VER5; S_AUTH_NONE] ++ rep)
            (hello_msg auth ++ request_msg dest udp)
     else o_buffer o = Some m -> zlen m = 22 -> slice m 0 4 = take 4 rep ->
          wpp received_reply_header o h (fun _ _ h' => reported h' = true)).
Proof.
  intros Hn Hf Hu Hz Hb Ha0 H6. destruct (find_method_in _ _ _ Hf) as [Hin Hty].
  assert (Hpos : 0 < zlen auth).
  { destruct auth; [by apply not_elem_of_nil in Hin|]. rewrite zlen_cons. pose proof (zlen_nonneg auth). lia. }
  assert (Hreq : talk auth dest udp AwaitReply [S_VER5; S_AUTH_NONE] (hello_msg auth ++ request_msg dest udp)).
  { apply (talk_none _ _ _ [] (hello_msg auth) S_AUTH_NONE ai); [apply talk_hello; lia|done|by rewrite Hty|done]. }
  split_and!.
  - destruct (auth_socks5_answers fd auth w h ltac:(lia) ltac:(lia) ltac:(by exists ai)) as (s & E).
    eexists _, s. split; [exact E|]. intros Hs. by rewrite (proj2 (Z.ltb_ge _ _)).
  - exact Hreq.
  - destruct (sockaddr_of_ok dest Hu Hz Hb) as (Ha & _ & Hfam).
    assert (Hsz : zlen (request_msg dest udp) = s5_size (sockaddr_of dest)).
    { rewrite zlen_request by done. unfold s5_size. rewrite Hfam. by case_match. }
    rewrite Hsz, (request_is_address dest udp) by done.
    apply wpp_s5_get_addr_reads; [done|done|lia|done|].
    intros E6. apply H6. unfold usable in Hu. destruct Hu as [E4|?]; [|done]. rewrite E4, E6 in Hfam. done.
  - intros e He. exists [5; u8 e; 0; S_ATP_I4; 0; 0; 0; 0; 0; 0].
    eexists _, _. split; [done|]. rewrite u8_small by lia.
    destruct (Z.eqb_spec e S_ER_OK) as [->|Hne].
    + change ([S_VER5; S_AUTH_NONE] ++ [5; S_ER_OK; 0; S_ATP_I4; 0; 0; 0; 0; 0; 0])
        with (([S_VER5; S_AUTH_NONE] ++ [SOCKS_VERSION; SOCKS_REP_SUCCEEDED; 0; SOCKS_ATYP_IPV4]) ++ replicate 6 0).
      apply talk_rest; [|done]. exact (talk_reply auth dest udp _ _ 0 true Hreq).
    + intros Hb' Hm Hs. simpl in Hs. unfold received_reply_header. wpp_step.
      apply (wpp_read _ _ m); [done|done|done|unfold REPLY_HEADER; lia|]. change REPLY_HEADER with 4. rewrite Hs.
      change (byte_at [5; e; 0; S_ATP_I4] 0) with 5. change (byte_at [5; e; 0; S_ATP_I4] 1) with e. simpl.
      rewrite (proj2 (Z.eqb_neq e SOCKS_REP_SUCCEEDED)) by done. simpl. apply wpp_report; [by left|done].
Qed.

(** ** A run: a connection to 93.184.216.34:443 over a server that needs no password *)
#[local] Instance os_grants : Os := fun _ _ => Ret 1 0 [].
Definition demo_dest : BAddr := BAddr_MakeIPv4 [93; 184; 216; 34] [1; 187].
Definition demo_auth : list auth_info := [BSocksClient_auth_none].
Definition client0 : BSocksClient := BSocksClient_ [] (BAddr_ 0 (replicate 24 0)) false (BAddr_ 0 (replicate 24 0))
  STATE_CONNECTING None false
  (PacketStreamSender_ (PacketPassInterface_ STATE_NONE 0 false 0 0 false false false false) StreamPassInterface_Init 0 (-1) 0)
  StreamRecvInterface_Init 0 0 0.
Definition cl_link_of (r : res client_link) : client_link :=
  match r with Ok l => l | _ => ClientLink client0 [] [] [] end.
Definition cl0 : client_link := cl_link_of (
  match BSocksClient_Init (BAddr_MakeIPv4 [127; 0; 0; 1] [4; 56]) demo_auth demo_dest false client0 [] with
  | Ok (true, o, h) => Ok (ClientLink o h [] [])
  | _ => Ub
  end).
Definition run_events (l : client_link) (evs : list client_event) : client_link :=
  fold_left (fun l ev => cl_link_of (cl_run l ev)) evs l.
(** The hello goes out in two pieces, its answer comes in two. *)
Definition hello_events : list client_event :=
  [EvConnector false; EvContinue; EvSendOperation; EvStreamOperation; EvStreamDone 2; EvStreamJob;
   EvStreamOperation; EvStreamDone 1; EvStreamJob; EvSendJob; EvRecvOperation; EvRecvDone [5]; EvRecvJob;
   EvRecvOperation; EvRecvDone [0]; EvRecvJob].
Definition request_events : list client_event :=
  [EvSendOperation; EvStreamOperation; EvStreamDone 10; EvStreamJob; EvSendJob; EvRecvOperation;
   EvRecvDone [5; 0; 0; 1]; EvRecvJob; EvRecvOperation; EvRecvDone [0; 0; 0; 0; 0; 0]; EvRecvJob].

(** Whether an event can happen, and whether a schedule can be run, by computation. *)
Definition io_upb (o : BSocksClient) : bool :=
  negb (bool_decide (o_state o = STATE_CONNECTING)) && negb (bool_decide (o_state o = STATE_UP)).
Definition cl_enabledb (l : client_link) (ev : client_event) : bool :=
  let o := k_o l in
  negb (reported (k_h l)) &&
  match ev with
  | EvConnector _ => bool_decide (o_state o = STATE_CONNECTING)
  | EvContinue => o_continue_job o && negb (bool_decide (o_state o = STATE_CONNECTING))
  | EvSendOperation => io_upb o && ppi_job_operation (s_input (o_sender o))
  | EvStreamOperation => io_upb o && spi_job_operation (s_output (o_sender o))
  | EvStreamDone n => io_upb o && bool_decide (spi_state (s_output (o_sender o)) = STATE_BUSY) &&
      (0 <? n) && (n <=? spi_job_operation_len (s_output (o_sender o)))
  | EvStreamJob => io_upb o && spi_job_done (s_output (o_sender o))
  | EvSendJob => io_upb o && ppi_job_done (s_input (o_sender o))
  | EvRecvOperation => io_upb o && sri_job_operation (o_recv_if o)
  | EvRecvDone data => io_upb o && bool_decide (sri_state (o_recv_if o) = STATE_BUSY) &&
      (0 <? zlen data) && (zlen data <=? sri_job_operation_len (o_recv_if o)) &&
      forallb (fun b => (0 <=? b) && (b <? 256)) data
  | EvRecvJob => io_upb o && sri_job_done (o_recv_if o)
  | _ => false
  end.
Lemma io_upb_ok o : io_upb o = true -> io_up o.
Proof.
  unfold io_upb. intros [H1 H2]%andb_true_iff. rewrite !negb_true_iff, !bool_decide_eq_false in *. by split.
Qed.
Lemma cl_enabledb_ok l ev : cl_enabledb l ev = true -> cl_enabled l ev.
Proof.
  unfold cl_enabledb. intros [Hr He]%andb_true_iff. apply negb_true_iff in Hr. split; [done|].
  destruct ev as [| | | | | |n| | | |data|]; rewrite ?andb_true_iff, ?negb_true_iff, ?bool_decide_eq_true, ?bool_decide_eq_false in He;
    try done; try (destruct He as [?%io_upb_ok ?]; by split).
  - destruct He as [[[?%io_upb_ok ?] ?] ?]. split_and!; try done; lia.
  - destruct He as [[[[?%io_upb_ok ?] ?] ?] Hf]. split; [done|]. split; [done|]. split; [lia|].
    unfold bytes_ok. rewrite Forall_forall. rewrite forallb_forall in Hf. intros b Hb.
    apply list_elem_of_In, Hf in Hb. unfold is_byte. lia.
Qed.
Fixpoint runnable (l : client_link) (evs : list client_event) : bool :=
  match evs with
  | [] => true
  | ev :: evs =>
      cl_enabledb l ev && match cl_run l ev with Ok l' => runnable l' evs | _ => false end
  end.
Lemma runnable_reach l0 l evs : cl_reach l0 l -> runnable l evs = true -> cl_reach l0 (run_events l evs).
Proof.
  revert l. induction evs as [|ev evs IH]; intros l Hr; [done|]. simpl. intros [He Hrun]%andb_true_iff.
  destruct (cl_run l ev) as [l'| |] eqn:E; [|done..]. simpl. apply IH; [|done].
  apply (cl_step _ l ev); [done|by apply cl_enabledb_ok|done].
Qed.

Lemma cl_demo_started : cl_started demo_auth demo_dest false cl0.
Proof. exists (BAddr_MakeIPv4 [127; 0; 0; 1] [4; 56]), client0, (k_o cl0), (k_h cl0). by split_and!. Qed.
Lemma demo_auth_ok : auth_ok demo_auth.
Proof. apply Forall_cons_2; [|by apply Forall_nil_2]. split; [by left|done]. Qed.

Definition cl_mid : client_link := run_events cl0 hello_events.
Definition cl_end : client_link := run_events cl_mid request_events.
Lemma demo_mid : cl_reach cl0 cl_mid.
Proof. apply runnable_reach; [apply cl_refl|vm_compute; reflexivity]. Qed.
Lemma demo_end : cl_reach cl0 cl_end.
Proof. apply runnable_reach; [apply demo_mid|vm_compute; reflexivity]. Qed.

Lemma socks_client_protocol_witness :
  (o_state (k_o cl_end) = STATE_UP /\ k_in cl_end = [5; 0; 5; 0; 0; 1; 0; 0; 0; 0; 0; 0] /\
   k_out cl_end = [5; 1; 0; 5; 1; 0; 1; 93; 184; 216; 34; 1; 187]) /\
  (forall ev, cl_enabled cl_end ev -> exists l', cl_run cl_end ev = Ok l') /\
  (reported (k_h cl_end) = false ->
   (o_state (k_o cl_end) = STATE_CONNECTING \/ o_state (k_o cl_end) = STATE_CONNECTED_HANDLER) /\
     k_in cl_end = [] /\ k_out cl_end = [] \/
   exists p r s part unsent,
     talk (o_auth_info (k_o cl_end)) (o_dest_addr (k_o cl_end)) (o_udp (k_o cl_end)) p r s /\
     k_in cl_end = r ++ part /\ s = k_out cl_end ++ unsent /\
     (part = [] \/ (unsent = [] /\ zlen part <= needs p)) /\
     (o_state (k_o cl_end) = STATE_UP <-> exists v4 a, p = Done_ v4 a) /\
     (forall v4 a, p = Done_ v4 a -> part = [] /\ unsent = [] /\
        ba_type (o_bind_addr (k_o cl_end)) = bind_type v4 /\ addr_bytes (o_bind_addr (k_o cl_end)) = a)).
Proof.
  split; [split_and!; vm_compute; reflexivity|].
  exact (socks_client_protocol demo_auth demo_dest false cl0 cl_end cl_demo_started demo_auth_ok eq_refl demo_end).
Defined.

Lemma socks_client_progress_witness :
  o_state (k_o cl_mid) = STATE_SENDING_REQUEST /\
  exists ev, cl_enabled cl_mid ev /\ (forall e, ev <> EvConnection e) /\ (forall a, ev <> EvSetDest a) /\
    ev <> EvConnector true.
Proof.
  split; [vm_compute; reflexivity|].
  apply (socks_client_progress demo_auth demo_dest false cl0 cl_mid cl_demo_started demo_auth_ok eq_refl demo_mid);
    [vm_compute; reflexivity|vm_compute; congruence].
Defined.

#[local] Instance char_abi : CharAbi := true.
Definition byedpi_world : world :=
  World params0 ∅ poolhd0 ∅ ∅ 0%nat packet0 packet0 packet0 0.
Lemma socks_peers_agree_witness :
  let fd := 7 in
  (exists rc s, auth_socks5 fd (hello_msg demo_auth) (zlen (hello_msg demo_auth)) byedpi_world [] =
     Ok (rc, byedpi_world, [(CSend fd [S_VER5; S_AUTH_NONE] 0, s)]) /\ (0 <= rv s -> rc = 0)) /\
  talk demo_auth demo_dest false AwaitReply [S_VER5; S_AUTH_NONE] (hello_msg demo_auth ++ request_msg demo_dest false) /\
  wpp (s5_get_addr (request_msg demo_dest false) 0 (zlen (request_msg demo_dest false)) sockaddr0 SOCK_STREAM) byedpi_world []
    (fun x w' h' => fst x = zlen (request_msg demo_dest false) /\ same_addr (snd x) (sockaddr_of demo_dest) /\
       w' = byedpi_world /\ h' = []) /\
  (forall e, 0 <= e < 256 -> exists rep s rc, resp_s5_error fd e byedpi_world [] = Ok (rc, byedpi_world, [(CSend fd rep 0, s)]) /\
     if e =? S_ER_OK
     then talk demo_auth demo_dest false (Done_ true (replicate 6 0)) ([S_VER5; S_AUTH_NONE] ++ rep)
            (hello_msg demo_auth ++ request_msg demo_dest false)
     else o_buffer client0 = Some [] -> zlen (@nil Z) = 22 -> slice [] 0 4 = take 4 rep ->
          wpp received_reply_header client0 [] (fun _ _ h' => reported h' = true)).
Proof.
  apply (socks_peers_agree demo_auth BSocksClient_auth_none demo_dest false 7 sockaddr0 SOCK_STREAM byedpi_world [] client0 []);
    try done; [by left|].
  repeat apply Forall_cons_2; try (split; [done|lia]); by apply Forall_nil.
Defined.
