(* ===== verification/TcpClientFacts.v ===== *)
(** Facts about TcpClient: what its calls amount to, the invariant of a client, and what
    the operations that end a client do to it. *)
From S2P Require Import Prelude CMem Sys Flow SocksClient TcpClient.

(** ** What the history says of the client

    The bytes taken from lwIP, those the SOCKS connection took and brought, those lwIP
    took; how much was confirmed to lwIP, how often the SOCKS client was freed and the
    pcb aborted. *)
Fixpoint taken (h : hist) : list Z :=
  match h with
  | [] => []
  | (CTun (PbufFree d), _) :: h => taken h ++ d
  | _ :: h => taken h
  end.
Fixpoint sent (h : hist) : list Z :=
  match h with
  | [] => []
  | (CTun (ConnSent d), _) :: h => sent h ++ d
  | _ :: h => sent h
  end.
Fixpoint got (h : hist) : list Z :=
  match h with
  | [] => []
  | (CTun (ConnGot d), _) :: h => got h ++ d
  | _ :: h => got h
  end.
Fixpoint written (h : hist) : list Z :=
  match h with
  | [] => []
  | (CTun (TcpWrite _ d), r) :: h => if rv r =? ERR_OK then written h ++ d else written h
  | _ :: h => written h
  end.
Fixpoint confirmed (h : hist) : Z :=
  match h with
  | [] => 0
  | (CTun (TcpRecved _ n), _) :: h => confirmed h + n
  | _ :: h => confirmed h
  end.
Fixpoint socks_frees (h : hist) : Z :=
  match h with
  | [] => 0
  | (CConnectorFree, _) :: h => socks_frees h + 1
  | _ :: h => socks_frees h
  end.
Fixpoint aborts (h : hist) : Z :=
  match h with
  | [] => 0
  | (CTun (TcpAbort _), _) :: h => aborts h + 1
  | _ :: h => aborts h
  end.

(** ** The invariant *)

(** bytes the connection took whose completion the client has not seen *)
Definition unconf (cl : tcp_client) : Z :=
  let out := s_output (o_sender (tc_socks cl)) in
  if tc_socks_up cl && is_state (spi_state out) STATE_DONE_PENDING then spi_job_done_len out else 0.
(** bytes from SOCKS on their way to lwIP *)
Definition inflight (cl : tcp_client) : list Z :=
  let i := o_recv_if (tc_socks cl) in
  if 0 <? tc_recv_used cl then slice (tc_recv_buf cl) (tc_recv_sent cl) (tc_recv_used cl - tc_recv_sent cl)
  else if is_state (sri_state i) STATE_DONE_PENDING then slice (tc_recv_buf cl) 0 (sri_job_done_len i) else [].

Definition send_ok (cl : tcp_client) : Prop :=
  let out := s_output (o_sender (tc_socks cl)) in
  (spi_job_operation out = true <-> spi_state out = STATE_OPERATION_PENDING) /\
  (spi_job_done out = true <-> spi_state out = STATE_DONE_PENDING) /\
  match spi_state out with
  | STATE_NONE => tc_buf_used cl = 0
  | STATE_DONE_PENDING => 0 < spi_job_done_len out <= tc_buf_used cl
  | _ => spi_job_operation_data out = 0 /\ 0 < spi_job_operation_len out <= tc_buf_used cl
  end.
Definition recv_ok (cl : tcp_client) : Prop :=
  let i := o_recv_if (tc_socks cl) in
  (sri_job_operation i = true <-> sri_state i = STATE_OPERATION_PENDING) /\
  (sri_job_done i = true <-> sri_state i = STATE_DONE_PENDING) /\
  match sri_state i with
  | STATE_NONE => True
  | STATE_DONE_PENDING => tc_recv_used cl = -1 /\ 0 < sri_job_done_len i <= CLIENT_SOCKS_RECV_BUF_SIZE
  | _ => tc_recv_used cl = -1 /\ sri_job_operation_data i = 0 /\ sri_job_operation_len i = CLIENT_SOCKS_RECV_BUF_SIZE
  end.
(** the data for lwIP: none, or the rest of a buffer, waiting *)
Definition out_ok (cl : tcp_client) : Prop :=
  0 <= tc_tcp_pending cl /\
  (tc_recv_used cl = -1 \/
   0 <= tc_recv_sent cl < tc_recv_used cl /\ tc_recv_used cl <= CLIENT_SOCKS_RECV_BUF_SIZE /\
   tc_recv_waiting cl = true /\ 0 < tc_tcp_pending cl).

(** What holds of a client also while it is being ended. *)
Record core (cl : tcp_client) (h : hist) : Prop := Core {
  c_buf : zlen (tc_buf cl) = TCP_WND;
  c_rbuf : zlen (tc_recv_buf cl) = CLIENT_SOCKS_RECV_BUF_SIZE;
  c_used : 0 <= tc_buf_used cl <= TCP_WND;
  c_in : tc_socks_closed cl = false ->
    taken h = sent h ++ slice (tc_buf cl) (unconf cl) (tc_buf_used cl - unconf cl);
  c_sent : sent h `prefix_of` taken h;
  c_written : written h `prefix_of` got h;
  c_free : socks_frees h = if tc_socks_closed cl then 1 else 0;
  c_up : tc_socks_up cl = true -> tc_socks_closed cl = false -> send_ok cl /\ recv_ok cl;
  c_noup : tc_socks_up cl = false -> written h = [] /\ got h = [] }.

(** [acked]: how many bytes lwIP has reported as delivered; [r] is false between the
    moment a buffer is passed on whole and the moment the next receive is asked for. *)
Record alive (r : bool) (acked : Z) (w : cworld) (cl : tcp_client) (h : hist) : Prop := Alive {
  al_core : core cl h;
  al_open : p_open (cw_pcb w) = negb (tc_client_closed cl);
  al_aborted : tc_client_closed cl = false -> tc_aborted cl = false;
  al_cbs : tc_client_closed cl = false -> p_errf (cw_pcb w) = true /\
    p_recv (cw_pcb w) = negb (tc_socks_closed cl) /\ p_sent (cw_pcb w) = tc_socks_up cl;
  al_closed : tc_client_closed cl = true -> tc_socks_closed cl = false /\ 0 < tc_buf_used cl;
  al_sclosed : tc_socks_closed cl = true -> tc_socks_up cl = true /\ (0 < tc_recv_used cl \/ 0 < tc_tcp_pending cl);
  al_out : tc_socks_up cl = true -> tc_client_closed cl = false -> out_ok cl;
  al_recv : r = true -> tc_socks_up cl = true -> tc_client_closed cl = false -> tc_socks_closed cl = false ->
    sri_state (o_recv_if (tc_socks cl)) = STATE_NONE -> 0 < tc_recv_used cl;
  al_acked : tc_socks_up cl = false -> tc_client_closed cl = false -> acked = 0;
  al_window : tc_client_closed cl = false -> confirmed h + tc_buf_used cl = zlen (taken h);
  al_got : tc_socks_up cl = true -> tc_client_closed cl = false -> got h = written h ++ inflight cl;
  al_pending : tc_socks_up cl = true -> tc_client_closed cl = false -> tc_tcp_pending cl = zlen (written h) - acked;
  al_none : tc_socks_up cl = true -> tc_socks_closed cl = true -> 0 < tc_recv_used cl ->
    sri_state (o_recv_if (tc_socks cl)) = STATE_NONE }.

Definition freed (w : cworld) (h : hist) : Prop :=
  p_open (cw_pcb w) = false /\ sent h `prefix_of` taken h /\ written h `prefix_of` got h /\ socks_frees h = 1.

(** The variable of the running callback and the pointer to it. [n] is the number of
    aborts when the callback began, [None] if no callback of the client runs. *)
Definition frame_ok (n : option Z) (w : cworld) (h : hist) : Prop :=
  match n, cw_frame w with
  | None, None => match cw_client w with Some cl => tc_dead cl = true -> tc_aborted cl = true | None => True end
  | Some n, Some d =>
      match cw_client w with
      | Some cl => if tc_aborted cl then d = 1 else d = 0 /\ tc_dead cl = true
      | None => d = 1 \/ d = -1
      end /\ aborts h = n + (if d =? 1 then 1 else 0)
  | _, _ => False
  end.
Definition globals_ok (w : cworld) : Prop :=
  NoDup (cw_tcp_clients w) /\ cw_num_clients w = zlen (cw_tcp_clients w) /\
  match cw_client w with
  | Some _ => cw_self w ∈ cw_tcp_clients w
  | None => cw_self w ∉ cw_tcp_clients w
  end.

Record tok (n : option Z) (acked : Z) (w : cworld) (h : hist) : Prop := Tok {
  tk_globals : globals_ok w;
  tk_frame : frame_ok n w h;
  tk_client : match cw_client w with Some cl => alive true acked w cl h | None => freed w h end }.

(** [lia] without the hypotheses on booleans and lists, which it would split. *)
Ltac zlia :=
  repeat match goal with
  | H : @eq bool _ _ |- _ => clear H
  | H : @eq (list _) _ _ |- _ => clear H
  | H : _ -> _ |- _ => clear H
  | H : prefix _ _ |- _ => clear H
  end; lia.

(** ** Steps *)
Lemma length_remove (x : Z) l : NoDup l -> x ∈ l ->
  zlen (remove Z.eqb x l) = zlen l - 1 /\ (x ∉ remove Z.eqb x l) /\ NoDup (remove Z.eqb x l).
Proof.
  intros Hn. induction Hn as [|y l Hy Hn IH]; intros Hx; [by apply not_elem_of_nil in Hx|]. simpl.
  destruct (Z.eqb_spec x y) as [->|Hne]; simpl.
  - assert (Hid : remove Z.eqb y l = l).
    { clear -Hy. induction l as [|z l IH]; [done|]. apply not_elem_of_cons in Hy as [? ?]. simpl.
      destruct (Z.eqb_spec y z); [done|]. simpl. by rewrite IH. }
    rewrite Hid, zlen_cons. split_and!; [lia|done|done].
  - apply elem_of_cons in Hx as [?|Hx]; [done|]. destruct (IH Hx) as (H1 & H2 & H3).
    rewrite !zlen_cons, H1. split_and!; [lia| |].
    + apply not_elem_of_cons. done.
    + constructor; [|done]. intros Hin. apply Hy. clear -Hin. unfold remove in Hin.
      apply list_elem_of_In, List.filter_In in Hin as [Hin _]. by apply list_elem_of_In.
Qed.

Section steps.
Context {OS : Os}.
Implicit Types (w : cworld) (h : hist) (cl : tcp_client).

Lemma wpp_client w h cl (Q : tcp_client -> cworld -> hist -> Prop) :
  cw_client w = Some cl -> Q cl w h -> wpp client w h Q.
Proof. intros E HQ. unfold client, cget. wpp_step. wpp_step. by eapply wpp_deref. Qed.
Lemma wpp_mcl f w h cl (Q : unit -> cworld -> hist -> Prop) :
  cw_client w = Some cl -> Q tt (w <| cw_client := Some (f cl) |>) h -> wpp (mcl f) w h Q.
Proof. intros E HQ. unfold mcl, cget. wpp_step. wpp_step. wpp_step. by eapply wpp_deref. Qed.
Lemma wpp_cget w h (Q : cworld -> cworld -> hist -> Prop) : Q w w h -> wpp cget w h Q.
Proof. done. Qed.
Lemma wpp_on_socks {A} (p : Prog BSocksClient A) w h cl (Q : A -> cworld -> hist -> Prop) :
  cw_client w = Some cl ->
  wpp p (tc_socks cl) h (fun a o h => Q a (w <| cw_client := Some (cl <| tc_socks := o |>) |>) h) ->
  wpp (on_socks p) w h Q.
Proof. unfold wpp, on_socks. intros ->. by destruct (p (tc_socks cl) h) as [[[? ?] ?]| |]. Qed.
Lemma wpp_mpcb f w h (Q : unit -> cworld -> hist -> Prop) :
  p_open (cw_pcb w) = true -> Q tt (w <| cw_pcb := f (cw_pcb w) |>) h -> wpp (mpcb f) w h Q.
Proof. intros E HQ. unfold mpcb, the_pcb, cget. do 3 wpp_step. wpp_step. apply wpp_passert; [done|]. by wpp_step. Qed.
Lemma wpp_tcp_call c w h (Q : ret -> cworld -> hist -> Prop) :
  p_open (cw_pcb w) = true ->
  (forall r, Q r w ((CTun (c (p_id (cw_pcb w))), r) :: h)) -> wpp (tcp_call c) w h Q.
Proof. intros E HQ. unfold tcp_call, the_pcb, cget. do 3 wpp_step. wpp_step. apply wpp_passert; [done|]. wpp_step. wpp_step. apply HQ. Qed.
Lemma wpp_tcp_close w h (Q : Z -> cworld -> hist -> Prop) :
  p_open (cw_pcb w) = true ->
  (forall r, rv r = ERR_OK -> Q ERR_OK (w <| cw_pcb := (cw_pcb w) <| p_open := false |> |>) ((CTun (TcpClose (p_id (cw_pcb w))), r) :: h)) ->
  (forall r, rv r <> ERR_OK -> Q (rv r) w ((CTun (TcpClose (p_id (cw_pcb w))), r) :: h)) ->
  wpp tcp_close w h Q.
Proof.
  intros E H1 H2. unfold tcp_close, pcb_gone. wpp_step. apply wpp_tcp_call; [done|]. intros r. wpp_step.
  destruct (Z.eqb_spec (rv r) ERR_OK) as [Hr|Hr]; wpp_step; wpp_step.
  - rewrite Hr. by apply H1.
  - by apply H2.
Qed.
Lemma wpp_tcp_abort w h (Q : unit -> cworld -> hist -> Prop) :
  p_open (cw_pcb w) = true -> p_errf (cw_pcb w) = false ->
  (forall r, Q tt (w <| cw_pcb := (cw_pcb w) <| p_open := false |> |>) ((CTun (TcpAbort (p_id (cw_pcb w))), r) :: h)) ->
  wpp tcp_abort w h Q.
Proof.
  intros E E2 HQ. unfold tcp_abort, the_pcb, cget. do 3 wpp_step. wpp_step. apply wpp_passert; [done|]. wpp_step. wpp_step.
  apply wpp_passert; [by rewrite E2|]. wpp_step. apply wpp_tcp_call; [done|]. intros r. unfold pcb_gone. wpp_step. apply HQ.
Qed.
Lemma wpp_dead_kill v w h cl (Q : unit -> cworld -> hist -> Prop) :
  cw_client w = Some cl -> (tc_dead cl = true -> is_Some (cw_frame w)) ->
  Q tt (if tc_dead cl then w <| cw_frame := Some v |> else w) h -> wpp (dead_kill v) w h Q.
Proof.
  intros E Hf HQ. unfold dead_kill. wpp_step. apply (wpp_client _ _ cl); [done|]. destruct (tc_dead cl).
  - destruct (Hf eq_refl) as [d Hd]. wpp_step. apply wpp_cget. cbv beta. wpp_step. eapply wpp_deref; [done|]. by wpp_step.
  - by wpp_step.
Qed.
End steps.

(** One step of a client's code, on a state that computes. *)
Ltac tc_step :=
  lazymatch goal with
  | |- wpp (_ ≫= _) _ _ _ => apply wpp_bind
  | |- wpp (mret _) _ _ _ => apply wpp_ret
  | |- wpp client _ _ _ => eapply wpp_client; [reflexivity|]
  | |- wpp (mcl _) _ _ _ => eapply wpp_mcl; [reflexivity|]
  | |- wpp cget _ _ _ => apply wpp_cget
  | |- wpp (syscall _) _ _ _ => apply wpp_syscall
  | |- wpp (pmod _) _ _ _ => apply wpp_pmod
  | |- wpp pget _ _ _ => apply wpp_pget
  end; cbv beta.

(** ** Ending a client *)

(** The histories say the same of the data. *)
Definition same_data (h h' : hist) : Prop :=
  taken h' = taken h /\ sent h' = sent h /\ got h' = got h /\ written h' = written h /\ confirmed h' = confirmed h.
Lemma same_data_refl h : same_data h h.
Proof. by split_and!. Qed.

Section ending.
Context {OS : Os}.
Implicit Types (w : cworld) (h : hist) (cl : tcp_client).

Lemma wpp_socks_free o h (Q : unit -> BSocksClient -> hist -> Prop) :
  (forall o' h', sri_state (o_recv_if o') = sri_state (o_recv_if o) ->
     sri_job_done_len (o_recv_if o') = sri_job_done_len (o_recv_if o) ->
     same_data h h' -> aborts h' = aborts h -> socks_frees h' = socks_frees h + 1 -> Q tt o' h') ->
  wpp BSocksClient_Free o h Q.
Proof.
  intros HQ. unfold BSocksClient_Free, free_up_io, free_control_io.
  assert (Hend : forall o' h', sri_state (o_recv_if o') = sri_state (o_recv_if o) ->
     sri_job_done_len (o_recv_if o') = sri_job_done_len (o_recv_if o) ->
     same_data h h' -> aborts h' = aborts h -> socks_frees h' = socks_frees h ->
     o_buffer o' = o_buffer o ->
     wpp (_ ← syscall CConnectorFree; pmod (fun o => o <| o_continue_job := false |>);;
          match o_buffer o with
          | Some m => _ ← syscall (CFree m); pmod (fun o => o <| o_buffer := None |>)
          | None => mret tt
          end) o' h' Q).
  { intros o' h' E1 E2 Hs Ha Hf Hb. repeat wpp_step. destruct (o_buffer o) as [m|]; repeat wpp_step.
    - apply HQ; simpl; [done..|lia].
    - apply HQ; simpl; [done..|lia]. }
  wpp_step. wpp_step. wpp_step. destruct (bool_decide (o_state o = STATE_CONNECTING)); simpl.
  - wpp_step. by (apply Hend; try apply same_data_refl).
  - wpp_step. destruct (bool_decide (o_state o = STATE_UP)); repeat wpp_step; by (apply Hend; try apply same_data_refl).
Qed.

Lemma frame_alive n w h cl : frame_ok n w h -> cw_client w = Some cl -> tc_aborted cl = false ->
  cw_frame w = None /\ tc_dead cl = false /\ n = None \/
  cw_frame w = Some 0 /\ tc_dead cl = true /\ n = Some (aborts h).
Proof.
  unfold frame_ok. intros Hf E Ha. rewrite E, Ha in Hf. destruct n as [n|], (cw_frame w) as [d|]; try done.
  - destruct Hf as [[-> ?] Hn]. right. split_and!; [done..|]. simpl in Hn. f_equal. lia.
  - left. split; [done|]. destruct (tc_dead cl); [by discriminate Hf|done].
Qed.

Lemma wpp_dealloc_none n a w h cl :
  cw_client w = Some cl -> core cl h -> tc_client_closed cl = true -> tc_socks_closed cl = true ->
  p_open (cw_pcb w) = false -> globals_ok w -> frame_ok n w h ->
  wpp client_dealloc w h (fun _ w' h' => tok n a w' h' /\ cw_client w' = None).
Proof.
  intros E Hc Hcl Hs Hp (Hnd & Hn & Hin) Hf. rewrite E in Hin. unfold client_dealloc.
  destruct (length_remove _ _ Hnd Hin) as (L1 & L2 & L3). pose proof (zlen_nonneg (remove Z.eqb (cw_self w) (cw_tcp_clients w))).
  wpp_step. apply (wpp_client _ _ cl); [done|].
  wpp_step. apply wpp_passert; [done|]. wpp_step. apply wpp_passert; [done|].
  wpp_step. apply wpp_cget. wpp_step. apply wpp_passert; [lia|]. do 4 wpp_step. wpp_step.
  assert (Hend : forall f, (match n, f with Some n, Some d => (d = 1 \/ d = -1) /\ aborts h = n + (if d =? 1 then 1 else 0)
      | None, None => True | _, _ => False end) ->
    forall w', w' = (((w <| cw_num_clients := cw_num_clients w - 1 |>)
      <| cw_tcp_clients := remove Z.eqb (cw_self w) (cw_tcp_clients w) |>) <| cw_frame := f |>) ->
    wpp (_ ← syscall (CFreeElem (cw_self w)); pmod (fun w => w <| cw_client := None |>)) w' h
      (fun _ w' h' => tok n a w' h' /\ cw_client w' = None)).
  { intros f Hff w' ->. repeat wpp_step. split; [|done]. constructor; simpl.
    - unfold globals_ok. simpl. split_and!; [done|lia|done].
    - unfold frame_ok. simpl. by destruct n, f.
    - destruct Hc as [? ? ? ? ? ? Hfr]. rewrite Hs in Hfr. by split_and!. }
  destruct (tc_aborted cl) eqn:Ha; simpl.
  - wpp_step. apply (Hend (cw_frame w)); [|by destruct w]. unfold frame_ok in Hf. rewrite E, Ha in Hf.
    destruct n, (cw_frame w) as [d|]; try done. destruct Hf as [-> ?]. by split; [left|].
  - destruct (frame_alive _ _ _ _ Hf E Ha) as [(Hfr & Hd & ->)|(Hfr & Hd & ->)].
    + eapply wpp_dead_kill; [exact E|by rewrite Hd|]. rewrite Hd. apply (Hend None); [done|]. rewrite <- Hfr. by destruct w.
    + eapply wpp_dead_kill; [exact E|intros _; by exists 0|]. rewrite Hd. apply (Hend (Some (-1))); [|by destruct w].
      split; [by right|]. simpl. lia.
Qed.

Lemma wpp_dealloc n a w h cl :
  cw_client w = Some cl -> core cl h -> tc_client_closed cl = true -> tc_socks_closed cl = true ->
  p_open (cw_pcb w) = false -> globals_ok w -> frame_ok n w h ->
  wpp client_dealloc w h (fun _ => tok n a).
Proof. intros. eapply wpp_mono; [by eapply (wpp_dealloc_none n a)|]. by intros ? ? ? [? _]. Qed.

Lemma wpp_abort_pcb n w h cl (Q : unit -> cworld -> hist -> Prop) :
  cw_client w = Some cl -> tc_aborted cl = false -> p_open (cw_pcb w) = true -> p_errf (cw_pcb w) = false ->
  frame_ok n w h ->
  (forall r f w' h', h' = (CTun (TcpAbort (p_id (cw_pcb w))), r) :: h ->
     w' = (((w <| cw_pcb := (cw_pcb w) <| p_open := false |> |>)
       <| cw_client := Some (cl <| tc_aborted := true |>) |>) <| cw_frame := f |>) ->
     frame_ok n w' h' -> Q tt w' h') ->
  wpp client_abort_pcb w h Q.
Proof.
  intros E Ha Hp He Hf HQ. unfold client_abort_pcb. wpp_step. apply (wpp_client _ _ cl); [done|].
  wpp_step. apply wpp_passert; [by rewrite Ha|]. wpp_step. apply wpp_tcp_abort; [done|done|]. intros r.
  wpp_step. eapply wpp_mcl; [exact E|].
  destruct (frame_alive _ _ _ _ Hf E Ha) as [(Hfr & Hd & ->)|(Hfr & Hd & ->)].
  - eapply wpp_dead_kill; [done|simpl; by rewrite Hd|]. simpl. rewrite Hd. apply (HQ r None); [done| |].
    + rewrite <- Hfr. by destruct w.
    + unfold frame_ok. simpl. by rewrite Hfr.
  - eapply wpp_dead_kill; [done|simpl; intros _; by exists 0|]. simpl. rewrite Hd. apply (HQ r (Some 1)); [done| |].
    + by destruct w.
    + unfold frame_ok. simpl. split; [done|]. lia.
Qed.

Lemma wpp_remove_callbacks w h (Q : unit -> cworld -> hist -> Prop) :
  p_open (cw_pcb w) = true ->
  (forall p, p = (((cw_pcb w) <| p_errf := false |>) <| p_recv := false |>) <| p_sent := false |> ->
     Q tt (w <| cw_pcb := p |>) h) -> wpp remove_callbacks w h Q.
Proof.
  intros Hp HQ. unfold remove_callbacks, tcp_err, tcp_recv, tcp_sent.
  wpp_step. apply wpp_mpcb; [done|]. wpp_step. apply wpp_mpcb; [done|]. apply wpp_mpcb; [done|]. by apply HQ.
Qed.
End ending.

#[global] Arguments client_handle_freed_client_f : simpl never.
#[global] Arguments client_free_client_f : simpl never.
#[global] Arguments client_free_socks_f : simpl never.

Section ending2.
Context {OS : Os}.
Implicit Types (w : cworld) (h : hist) (cl : tcp_client).

(** A client on its way out, at an operation that has just begun. *)
Record closing (n : option Z) (w : cworld) (cl : tcp_client) (h : hist) : Prop := Closing {
  cg_client : cw_client w = Some cl;
  cg_core : core cl h;
  cg_globals : globals_ok w;
  cg_frame : frame_ok n w h }.

Lemma core_data cl h h' : core cl h -> same_data h h' -> socks_frees h' = socks_frees h -> core cl h'.
Proof.
  intros [C1 C2 C3 C4 C5 C6 C7 C8 C9] (E1 & E2 & E3 & E4 & E5) Ef.
  constructor; rewrite ?E1, ?E2, ?E3, ?E4, ?Ef; done.
Qed.
(** freeing the SOCKS client *)
Lemma core_freed cl o h h' : core cl h -> tc_socks_closed cl = false -> same_data h h' ->
  socks_frees h' = socks_frees h + 1 -> core ((cl <| tc_socks := o |>) <| tc_socks_closed := true |>) h'.
Proof.
  intros [C1 C2 C3 C4 C5 C6 C7 C8 C9] Hs (E1 & E2 & E3 & E4 & E5) Ef. rewrite Hs in C7.
  constructor; simpl; rewrite ?E1, ?E2, ?E3, ?E4, ?Ef, ?C7; done.
Qed.
Lemma core_closed cl h : core cl h -> core (cl <| tc_client_closed := true |>) h.
Proof. by intros [? ? ? ? ? ? ? ? ?]. Qed.
Lemma core_aborted cl h : core cl h -> core (cl <| tc_aborted := true |>) h.
Proof. by intros [? ? ? ? ? ? ? ? ?]. Qed.
Lemma frame_same n w h w' h' : frame_ok n w h -> cw_frame w' = cw_frame w -> aborts h' = aborts h ->
  (forall cl, cw_client w = Some cl -> exists cl', cw_client w' = Some cl' /\ tc_aborted cl' = tc_aborted cl /\ tc_dead cl' = tc_dead cl) ->
  (cw_client w = None -> cw_client w' = None) -> frame_ok n w' h'.
Proof.
  unfold frame_ok. intros Hf -> -> Hs Hn. destruct n, (cw_frame w); try done; (destruct (cw_client w) as [cl|];
    [destruct (Hs cl eq_refl) as (cl' & -> & -> & ->); done|by rewrite Hn]).
Qed.

(** The SOCKS side ends after the other side. *)
Lemma wpp_free_socks_closed n a k w h cl :
  closing n w cl h -> tc_client_closed cl = true -> tc_socks_closed cl = false -> p_open (cw_pcb w) = false ->
  wpp (client_free_socks_f (S k)) w h (fun _ => tok n a).
Proof.
  intros [E Hc Hg Hf] Hcl Hs Hp.
  change (client_free_socks_f (S k)) with
    (cl ← client; passert (negb (tc_socks_closed cl));;
      (if tc_socks_up cl then if negb (tc_client_closed cl) then tcp_recv false else mret tt else mret tt);;
      on_socks BSocksClient_Free;; mcl (fun cl => cl <| tc_socks_closed := true |>);;
      if tc_socks_up cl && ((0 <=? tc_recv_used cl) || (0 <? tc_tcp_pending cl)) && negb (tc_client_closed cl)
      then mret tt
      else if negb (tc_client_closed cl) then client_free_client_f k else client_dealloc).
  wpp_step. apply (wpp_client _ _ cl); [done|].
  wpp_step. apply wpp_passert; [by rewrite Hs|]. rewrite Hcl. simpl.
  wpp_step. assert (Hpass : forall Q : unit -> cworld -> hist -> Prop, Q tt w h ->
    wpp (if tc_socks_up cl then mret tt else mret tt) w h Q) by (intros Q ?; by case_match). apply Hpass.
  wpp_step. eapply wpp_on_socks; [exact E|]. apply wpp_socks_free. intros o h' _ _ Hd Ha Hfr.
  wpp_step. eapply wpp_mcl; [reflexivity|]. rewrite andb_false_r.
  eapply wpp_dealloc; [reflexivity| | | | | |]; simpl.
  - by eapply core_freed.
  - done.
  - done.
  - done.
  - destruct Hg as (? & ? & Hin). rewrite E in Hin. unfold globals_ok. by simpl.
  - eapply frame_same; [exact Hf|done|done| |by rewrite E]. intros cl0. rewrite E. intros [= <-]. by eexists.
Qed.

(** The pcb is gone. *)
Lemma wpp_handle_freed n a k w h cl :
  closing n w cl h -> tc_client_closed cl = false -> p_open (cw_pcb w) = false ->
  wpp (client_handle_freed_client_f (S (S k))) w h (fun _ => tok n a).
Proof.
  intros [E Hc Hg Hf] Hcl Hp. pose proof Hg as (Hnd & Hn & Hin). rewrite E in Hin.
  change (client_handle_freed_client_f (S (S k))) with
    (cl ← client; passert (negb (tc_client_closed cl));;
      mcl (fun cl => cl <| tc_client_closed := true |>);;
      if (0 <? tc_buf_used cl) && negb (tc_socks_closed cl) then mret tt
      else if negb (tc_socks_closed cl) then client_free_socks_f (S k) else client_dealloc).
  wpp_step. apply (wpp_client _ _ cl); [done|]. wpp_step. apply wpp_passert; [by rewrite Hcl|].
  wpp_step. eapply wpp_mcl; [exact E|]. set (w' := w <| cw_client := _ |>).
  assert (Hc' : closing n w' (cl <| tc_client_closed := true |>) h).
  { constructor; [done|by apply core_closed| |].
    - unfold globals_ok. by simpl.
    - eapply frame_same; [exact Hf|done|done| |by rewrite E]. intros cl0. rewrite E. intros [= <-]. by eexists. }
  destruct (tc_socks_closed cl) eqn:Hs; simpl; rewrite ?andb_false_r, ?andb_true_r.
  - destruct Hc'. by eapply wpp_dealloc.
  - destruct (Z.ltb_spec 0 (tc_buf_used cl)) as [Hu|Hu].
    + wpp_step. destruct Hc' as [? ? ? ?]. constructor; [done..|]. simpl.
      constructor; simpl; try done; by rewrite Hs.
    + by apply wpp_free_socks_closed with (cl := cl <| tc_client_closed := true |>).
Qed.

(** Both sides of the pcb go. *)
Lemma wpp_free_client n a k w h cl :
  closing n w cl h -> tc_client_closed cl = false -> tc_aborted cl = false -> p_open (cw_pcb w) = true ->
  wpp (client_free_client_f (S (S (S k)))) w h (fun _ => tok n a).
Proof.
  intros [E Hc Hg Hf] Hcl Ha Hp. pose proof Hg as (Hnd & Hn & Hin). rewrite E in Hin.
  change (client_free_client_f (S (S (S k)))) with
    (cl ← client; passert (negb (tc_client_closed cl));; remove_callbacks;; err ← tcp_close;
      (if err =? ERR_OK then mret tt else client_abort_pcb);; client_handle_freed_client_f (S (S k))).
  wpp_step. apply (wpp_client _ _ cl); [done|]. wpp_step. apply wpp_passert; [by rewrite Hcl|].
  wpp_step. apply wpp_remove_callbacks; [done|]. intros p ->. wpp_step. apply wpp_tcp_close; [done|..].
  - intros r Hr. wpp_step. apply wpp_ret. eapply wpp_handle_freed; [|exact Hcl|done]. constructor; [done|by eapply core_data| |].
    + unfold globals_ok. simpl. by rewrite E.
    + eapply frame_same; [exact Hf|done|done| |by rewrite E]. intros cl0 ?. by exists cl0.
  - intros r Hr. rewrite (proj2 (Z.eqb_neq _ _) Hr). wpp_step.
    eapply wpp_abort_pcb; [exact E|done|done|done| |].
    + eapply frame_same; [exact Hf|done|done| |by rewrite E]. intros cl0 ?. by exists cl0.
    + intros r' f w' h' -> -> Hf'. apply wpp_handle_freed with (cl := cl <| tc_aborted := true |>); [|exact Hcl|done]. constructor; [done| | |done].
      * apply core_aborted. by eapply core_data.
      * unfold globals_ok. by simpl.
Qed.

Lemma alive_closing n a w h cl : tok n a w h -> cw_client w = Some cl -> closing n w cl h /\ alive true a w cl h.
Proof. intros [? ? Hc] E. rewrite E in Hc. split; [|done]. constructor; [done|apply Hc|done..]. Qed.

(** The SOCKS side ends while the other is open. *)
Lemma wpp_free_socks n a k w h cl :
  tok n a w h -> cw_client w = Some cl -> tc_client_closed cl = false -> tc_socks_closed cl = false ->
  wpp (client_free_socks_f (S (S (S (S k))))) w h (fun _ => tok n a).
Proof.
  intros Ht E Hcl Hs. destruct (alive_closing _ _ _ _ _ Ht E) as [[_ Hc Hg Hf] Hal].
  pose proof Hg as (Hnd & Hn & Hin). rewrite E in Hin. destruct Hal as [_ Hp Ha Hcb _ _ Ho Hr Hak Hw Hgot Hpend].
  rewrite Hcl in Hp. specialize (Ha Hcl). destruct (Hcb Hcl) as (He & Hrv & Hst). rewrite Hs in Hrv.
  change (client_free_socks_f (S (S (S (S k))))) with
    (cl ← client; passert (negb (tc_socks_closed cl));;
      (if tc_socks_up cl then if negb (tc_client_closed cl) then tcp_recv false else mret tt else mret tt);;
      on_socks BSocksClient_Free;; mcl (fun cl => cl <| tc_socks_closed := true |>);;
      if tc_socks_up cl && ((0 <=? tc_recv_used cl) || (0 <? tc_tcp_pending cl)) && negb (tc_client_closed cl)
      then mret tt
      else if negb (tc_client_closed cl) then client_free_client_f (S (S (S k))) else client_dealloc).
  wpp_step. apply (wpp_client _ _ cl); [done|]. wpp_step. apply wpp_passert; [by rewrite Hs|]. rewrite Hcl. simpl.
  set (p := if tc_socks_up cl then (cw_pcb w) <| p_recv := false |> else cw_pcb w).
  assert (Hpp : p_open p = true /\ p_errf p = true /\ p_sent p = tc_socks_up cl /\ (tc_socks_up cl = true -> p_recv p = false)).
  { unfold p. destruct (tc_socks_up cl); by split_and!. }
  destruct Hpp as (P1 & P2 & P3 & P4).
  wpp_step. assert (Hstep : forall Q : unit -> cworld -> hist -> Prop, Q tt (w <| cw_pcb := p |>) h ->
    wpp (if tc_socks_up cl then tcp_recv false else mret tt) w h Q).
  { intros Q HQ. unfold p in HQ. destruct (tc_socks_up cl).
    - by apply wpp_mpcb.
    - wpp_step. by destruct w. }
  apply Hstep. clear Hstep. clearbody p. wpp_step. eapply wpp_on_socks; [exact E|]. apply wpp_socks_free.
  intros o h' Ei El Hd Hab Hfr. wpp_step. eapply wpp_mcl; [reflexivity|]. rewrite andb_true_r. simpl.
  set (w' := _ <| cw_client := Some (_ <| tc_socks_closed := true |>) |>).
  assert (Hc' : closing n w' ((cl <| tc_socks := o |>) <| tc_socks_closed := true |>) h').
  { constructor; [done|by eapply core_freed| |].
    - unfold globals_ok. by simpl.
    - eapply frame_same; [exact Hf|done|done| |by rewrite E]. intros cl0. rewrite E. intros [= <-]. by eexists. }
  destruct (tc_socks_up cl) eqn:Hup; simpl.
  - destruct ((0 <=? tc_recv_used cl) || (0 <? tc_tcp_pending cl)) eqn:Hwait.
    + wpp_step. destruct Hc' as [? ? ? ?]. constructor; [done..|]. simpl. destruct (Ho eq_refl Hcl) as [Hp0 Hor].
      destruct Hd as (D1 & D2 & D3 & D4 & D5).
      constructor; simpl; try done; rewrite ?Hcl, ?D1, ?D2, ?D3, ?D4, ?D5; try done.
      * intros _. split_and!; [congruence|by apply P4|congruence].
      * intros _. split; [done|]. clear -Hwait Hor. destruct Hor as [Hor|[Hor _]]; lia.
      * congruence.
      * intros _. by apply Hw.
      * intros _ _. rewrite (Hgot eq_refl Hcl). unfold inflight. simpl. by rewrite Ei, El.
      * intros _ _. by apply Hpend.
      * intros _ _ Hu. rewrite Ei. destruct (c_up _ _ Hc Hup Hs) as (_ & _ & _ & Hv).
        destruct (sri_state (o_recv_if (tc_socks cl))); [done|clear -Hu Hv; lia..].
    + by eapply wpp_free_client.
  - by eapply wpp_free_client.
Qed.

Lemma wpp_abort_client n a w h cl :
  closing n w cl h -> tc_client_closed cl = false -> tc_aborted cl = false -> p_open (cw_pcb w) = true ->
  wpp client_abort_client w h (fun _ => tok n a).
Proof.
  intros [E Hc Hg Hf] Hcl Ha Hp. pose proof Hg as (Hnd & Hn & Hin). rewrite E in Hin. unfold client_abort_client.
  wpp_step. apply (wpp_client _ _ cl); [done|]. wpp_step. apply wpp_passert; [by rewrite Hcl|].
  wpp_step. apply wpp_remove_callbacks; [done|]. intros p ->. wpp_step.
  eapply wpp_abort_pcb; [exact E|done|done|done| |].
  + eapply frame_same; [exact Hf|done|done| |by rewrite E]. intros cl0 ?. by exists cl0.
  + intros r' f w' h' -> -> Hf'. apply (wpp_handle_freed _ _ 2) with (cl := cl <| tc_aborted := true |>); [|exact Hcl|done]. constructor; [done| | |done].
    * apply core_aborted. by eapply core_data.
    * unfold globals_ok. by simpl.
Qed.
End ending2.
