(* ===== verification/TcpClientSteps.v ===== *)
(** The steps of the TCP client: every job of the reactor and every callback of lwIP keeps
    its invariant. *)
From S2P Require Import Prelude CMem Sys Flow SocksClient TcpClient TcpClientFacts.

(** The flags of an interface whose state is known. *)
Ltac flags := split_and!; try done; try (split; discriminate); try zlia.

Section steps.
Context {OS : Os}.
Implicit Types (w : cworld) (h : hist) (cl : tcp_client).

(** A step that changes the structure only. *)
Lemma tok_keep n a a' w h cl cl' h' w' :
  tok n a w h -> cw_client w = Some cl -> w' = w <| cw_client := Some cl' |> -> aborts h' = aborts h ->
  tc_aborted cl' = tc_aborted cl -> tc_dead cl' = tc_dead cl -> alive true a' w' cl' h' -> tok n a' w' h'.
Proof.
  intros [(Hnd & Hn & Hin) Hf Hc] E -> Ha E1 E2 Hal. rewrite E in Hin. constructor; [| |exact Hal].
  - unfold globals_ok. by simpl.
  - eapply frame_same; [exact Hf|done|done| |by rewrite E]. intros cl0. rewrite E. intros [= <-]. by exists cl'.
Qed.

(** ** From the SOCKS client to lwIP *)

(** In the middle of passing a buffer on. *)
Record passing (n : option Z) (a : Z) (w : cworld) (cl : tcp_client) (h : hist) : Prop := Passing {
  ps_closing : closing n w cl h;
  ps_open : p_open (cw_pcb w) = true;
  ps_closed : tc_client_closed cl = false;
  ps_aborted : tc_aborted cl = false;
  ps_up : tc_socks_up cl = true;
  ps_cbs : p_errf (cw_pcb w) = true /\ p_recv (cw_pcb w) = negb (tc_socks_closed cl) /\ p_sent (cw_pcb w) = true;
  ps_range : 0 <= tc_recv_sent cl <= tc_recv_used cl;
  ps_size : 0 < tc_recv_used cl <= CLIENT_SOCKS_RECV_BUF_SIZE;
  ps_pending0 : 0 <= tc_tcp_pending cl;
  ps_window : confirmed h + tc_buf_used cl = zlen (taken h);
  ps_got : got h = written h ++ inflight cl;
  ps_pending : tc_tcp_pending cl = zlen (written h) - a }.

Lemma passing_call n a w cl h c r : passing n a w cl h ->
  (forall b, c <> CTun (TcpWrite (p_id (cw_pcb w)) b)) -> aborts ((c, r) :: h) = aborts h ->
  same_data h ((c, r) :: h) -> socks_frees ((c, r) :: h) = socks_frees h -> passing n a w cl ((c, r) :: h).
Proof.
  intros [[E Hc Hg Hf] P1 P2 P3 P4 P5 P6 P7 P8 P9 P10 P11] _ Ha Hs Hfr.
  pose proof Hs as (D1 & D2 & D3 & D4 & D5).
  constructor; rewrite ?D1, ?D2, ?D3, ?D4, ?D5; try done. constructor; [done|by eapply core_data|done|].
  eapply frame_same; [exact Hf|done|done| |done]. intros cl0 ?. by exists cl0.
Qed.

Lemma passing_written n a w cl h p r k (d := slice (tc_recv_buf cl) (tc_recv_sent cl) k)
    (cl' := (cl <| tc_recv_sent := tc_recv_sent cl + k |>) <| tc_tcp_pending := tc_tcp_pending cl + k |>) :
  passing n a w cl h -> 0 < k <= tc_recv_used cl - tc_recv_sent cl -> rv r = ERR_OK ->
  passing n a (w <| cw_client := Some cl' |>) cl' ((CTun (TcpWrite p d), r) :: h).
Proof.
  intros [[E Hc Hg Hf] P1 P2 P3 P4 P5 P6 P7 P8 P9 P10 P11] Hk Hr.
  destruct Hc as [C1 C2 C3 C4 C5 C6 C7 C8 C9]. destruct Hg as (G1 & G2 & G3). rewrite E in G3.
  assert (Hz : zlen d = k) by (unfold d; rewrite zlen_slice; zlia).
  assert (Hin : inflight cl = d ++ inflight cl').
  { unfold inflight, cl', d. simpl. rewrite !(proj2 (Z.ltb_lt 0 _)) by zlia.
    rewrite slice_app by zlia. f_equal. zlia. }
  constructor; simpl; rewrite ?Hr; simpl; try done; try zlia.
  - constructor; [done| | |].
    + constructor; simpl; rewrite ?Hr; simpl; try done.
      * rewrite P10, Hin. rewrite app_assoc. by apply prefix_app_r.
      * intros Hu. congruence.
    + by split_and!.
    + eapply frame_same; [exact Hf|done|done| |by rewrite E]. intros cl0. rewrite E. intros [= <-]. by eexists.
  - by rewrite P10, Hin, app_assoc.
  - rewrite zlen_app. zlia.
Qed.

Lemma passing_abort n a w cl h : passing n a w cl h -> wpp client_abort_client w h (fun _ => tok n a).
Proof. intros [? ? ? ? ? ? ? ? ? ? ? ?]. by eapply wpp_abort_client. Qed.

Lemma wpp_write_loop n a fuel w cl h :
  passing n a w cl h -> tc_recv_sent cl < tc_recv_used cl -> tc_recv_waiting cl = false ->
  tc_recv_used cl - tc_recv_sent cl <= Z.of_nat fuel ->
  wpp (write_loop fuel) w h (fun b w' h' => if b then exists cl', passing n a w' cl' h' /\
      tc_socks cl' = tc_socks cl /\ tc_recv_used cl' = tc_recv_used cl /\ tc_socks_closed cl' = tc_socks_closed cl /\
      tc_recv_waiting cl' = false /\
      tc_tcp_pending cl' - tc_tcp_pending cl = tc_recv_sent cl' - tc_recv_sent cl
    else tok n a w' h').
Proof.
  revert w cl h. induction fuel as [|fuel IH]; intros w cl h Hp Hlt Hw Hfuel; [zlia|].
  pose proof Hp as [[E Hc Hg Hf] P1 P2 P3 P4 P5 P6 P7 P8 P9 P10 P11].
  simpl. wpp_step. apply (wpp_client _ _ cl); [done|]. wpp_step. unfold tcp_sndbuf. wpp_step.
  apply wpp_tcp_call; [done|]. intros r. wpp_step. pose proof (u16_range (rv r)) as Hroom.
  set (room := u16 (rv r)) in *. set (k := Z.min _ _).
  assert (Hp1 : passing n a w cl ((CTun (TcpSndbuf (p_id (cw_pcb w))), r) :: h)) by (by apply passing_call).
  destruct (Z.eqb_spec k 0) as [Hk|Hk].
  { wpp_step. exists cl. split_and!; try done. zlia. }
  assert (Hk' : 0 < k <= tc_recv_used cl - tc_recv_sent cl) by zlia. clearbody k.
  wpp_step. apply wpp_lift. rewrite rd_list_ok by (destruct Hc; zlia). apply wp_ok. wpp_step. unfold tcp_write.
  wpp_step. apply wpp_tcp_call; [done|]. intros r2. wpp_step.
  destruct (Z.eqb_spec (rv r2) ERR_OK) as [Hr2|Hr2]; simpl.
  - wpp_step. eapply wpp_mcl; [exact E|]. wpp_step. eapply wpp_mcl; [reflexivity|]. wpp_step.
    eapply wpp_client; [reflexivity|]. simpl.
    pose proof (passing_written n a w cl _ (p_id (cw_pcb w)) r2 k Hp1 Hk' Hr2) as Hp2.
    set (w' := w <| cw_client := _ |>) in Hp2. set (cl' := _ <| tc_tcp_pending := _ |>) in *.
    change (_ <| cw_client := Some cl' |>) with w'.
    destruct (Z.ltb_spec (tc_recv_sent cl + k) (tc_recv_used cl)) as [Hl|Hl].
    + eapply wpp_mono; [apply (IH w' cl'); [exact Hp2|simpl; zlia|done|simpl; zlia]|].
      intros [] w'' h''; [|done]. intros (cl'' & Q1 & Q2 & Q3 & Q4 & Q5 & Q6). exists cl''. simpl in *. split_and!; try done. zlia.
    + wpp_step. exists cl'. split_and!; try done. simpl. zlia.
  - assert (Hp2 : passing n a w cl ((CTun (TcpWrite (p_id (cw_pcb w)) (slice (tc_recv_buf cl) (tc_recv_sent cl) k)), r2)
       :: (CTun (TcpSndbuf (p_id (cw_pcb w))), r) :: h)).
    { destruct Hp1 as [[_ Hc1 _ Hf1] R1 R2 R3 R4 R5 R6 R7 R8 R9 R10 R11].
      constructor; simpl; rewrite ?(proj2 (Z.eqb_neq _ _) Hr2); try done. constructor; [done| |done|].
      - eapply core_data; [exact Hc1| |done]. unfold same_data. simpl. by rewrite (proj2 (Z.eqb_neq _ _) Hr2).
      - eapply frame_same; [exact Hf1|done|done| |done]. intros cl0 ?. by exists cl0. }
    destruct (rv r2 =? ERR_MEM).
    + wpp_step. exists cl. split_and!; try done. zlia.
    + wpp_step. eapply wpp_mono; [by eapply passing_abort|]. intros [] w' h' Ht. by wpp_step.
Qed.

(** A buffer was passed on, or waits. *)
Record passed (n : option Z) (a : Z) (cl0 : tcp_client) (w : cworld) (h : hist) (cl : tcp_client) : Prop := Passed {
  pd_closing : closing n w cl h;
  pd_alive : alive false a w cl h;
  pd_closed : tc_client_closed cl = false;
  pd_up : tc_socks_up cl = true;
  pd_pending : 0 < tc_tcp_pending cl;
  pd_socks : tc_socks cl = tc_socks cl0;
  pd_sclosed : tc_socks_closed cl = tc_socks_closed cl0 }.

Lemma recv_none cl : recv_ok cl -> 0 < tc_recv_used cl -> sri_state (o_recv_if (tc_socks cl)) = STATE_NONE.
Proof. intros (_ & _ & H) Hu. destruct (sri_state _); [done|zlia..]. Qed.

Lemma wpp_send_out n a w cl h :
  passing n a w cl h -> tc_recv_sent cl < tc_recv_used cl -> tc_recv_waiting cl = false ->
  (sri_state (o_recv_if (tc_socks cl)) = STATE_NONE) ->
  wpp client_socks_recv_send_out w h (fun b w' h' =>
    if b then exists cl', cw_client w' = Some cl' /\ passed n a cl w' h' cl' else tok n a w' h').
Proof.
  intros Hp Hlt Hw Hnone. pose proof Hp as [[E Hc Hg Hf] P1 P2 P3 P4 P5 P6 P7 P8 P9 P10 P11].
  unfold client_socks_recv_send_out. wpp_step. apply (wpp_client _ _ cl); [done|].
  wpp_step. apply wpp_passert; [by rewrite P2|]. wpp_step. apply wpp_passert; [done|].
  wpp_step. apply wpp_passert; [zlia|]. wpp_step. apply wpp_passert; [zlia|]. wpp_step. apply wpp_passert; [by rewrite Hw|].
  wpp_step. eapply wpp_mono; [eapply (wpp_write_loop n a); [exact Hp|done|done|zlia]|].
  intros [] w1 h1; simpl; [|intros Ht; by wpp_step].
  intros (cl1 & Hp1 & E1 & E2 & E3 & E4 & E5). unfold tcp_output. wpp_step. wpp_step.
  pose proof Hp1 as [[F1 _ _ _] R1 _ _ _ _ _ _ _ _ _ _].
  apply wpp_tcp_call; [done|]. intros r. wpp_step.
  assert (Hp2 : passing n a w1 cl1 ((CTun (TcpOutput (p_id (cw_pcb w1))), r) :: h1)) by (by apply passing_call).
  clear Hp1 R1 F1. destruct (rv r =? ERR_OK); simpl;
    [|wpp_step; eapply wpp_mono; [by eapply passing_abort|]; intros [] w' h' Ht; by wpp_step].
  pose proof Hp2 as [[F1 F2 F3 F4] R1 R2 R3 R4 R5 R6 R7 R8 R9 R10 R11]. destruct F3 as (G1 & G2 & G3). rewrite F1 in G3.
  wpp_step. apply (wpp_client _ _ cl1); [done|].
  destruct (Z.ltb_spec (tc_recv_sent cl1) (tc_recv_used cl1)) as [Hl|Hl].
  - destruct (Z.eqb_spec (tc_tcp_pending cl1) 0) as [Hz|Hz].
    { wpp_step. eapply wpp_mono; [by eapply passing_abort|]. intros [] w' h' Ht. by wpp_step. }
    wpp_step. eapply wpp_mcl; [exact F1|]. wpp_step. eexists. split; [reflexivity|].
    apply Passed; [| |exact R2|exact R4|simpl; clear -R8 Hz; zlia|exact E1|exact E3].
    + constructor; [done|by destruct F2| |].
      * unfold globals_ok. by simpl.
      * eapply frame_same; [exact F4|done|done| |by rewrite F1]. intros cl2. rewrite F1. intros [= <-]. by eexists.
    + constructor; simpl; try done; try congruence.
      * by destruct F2.
      * by rewrite R2.
      * intros Hs. split; [done|]. left. clear -R7. zlia.
      * intros _ _. split; [done|]. right. simpl. clear -R6 R7 R8 Hl Hz. split_and!; zlia || done.
  - wpp_step. eapply wpp_mcl; [exact F1|]. wpp_step. eexists. split; [reflexivity|].
    assert (Hi : inflight cl1 = []).
    { clear -R7 Hl R6. unfold inflight. rewrite (proj2 (Z.ltb_lt 0 _)) by zlia.
      by replace (tc_recv_used cl1 - tc_recv_sent cl1) with 0 by zlia. }
    assert (Hpos : 0 < tc_tcp_pending cl1) by (clear -E5 Hl Hlt P8 E2; zlia).
    apply Passed; [| |exact R2|exact R4|exact Hpos|exact E1|exact E3].
    + constructor; [done| | |].
      * destruct F2 as [K1 K2 K3 K4 K5 K6 K7 K8 K9]. constructor; simpl; try done.
        intros _ Hs. destruct (K8 R4 Hs) as (S1 & V1 & V2 & V3). split; [done|]. split_and!; [done..|]. simpl.
        rewrite E1, Hnone in *. done.
      * unfold globals_ok. by simpl.
      * eapply frame_same; [exact F4|done|done| |by rewrite F1]. intros cl2. rewrite F1. intros [= <-]. by eexists.
    + constructor; simpl; try done; try congruence.
      * destruct F2 as [K1 K2 K3 K4 K5 K6 K7 K8 K9]. constructor; simpl; try done.
        intros _ Hs. destruct (K8 R4 Hs) as (S1 & V1 & V2 & V3). split; [done|]. split_and!; [done..|]. simpl.
        rewrite E1, Hnone in *. done.
      * by rewrite R2.
      * intros Hs. split; [done|]. by right.
      * intros _ _. split; [done|]. by left.
      * intros _ _. simpl in R10. rewrite R10, Hi. unfold inflight. simpl. by rewrite E1, Hnone.
Qed.

Lemma passed_tok n a cl0 w h cl :
  passed n a cl0 w h cl -> (tc_socks_closed cl = false -> sri_state (o_recv_if (tc_socks cl)) = STATE_NONE -> 0 < tc_recv_used cl) ->
  tok n a w h.
Proof.
  intros [[E Hc Hg Hf] [] ? ? ? ? ?] Hr. constructor; [done..|]. rewrite E. constructor; auto.
Qed.

(** Asking for the next receive. *)
Lemma wpp_recv_initiate n a w cl h :
  closing n w cl h -> alive false a w cl h -> tc_client_closed cl = false -> tc_socks_closed cl = false ->
  tc_socks_up cl = true -> tc_recv_used cl = -1 -> sri_state (o_recv_if (tc_socks cl)) = STATE_NONE ->
  wpp client_socks_recv_initiate w h (fun _ => tok n a).
Proof.
  intros [E Hc Hg Hf] Hal Hcl Hs Hup Hu Hn. pose proof Hg as (Hnd & Hnum & Hin). rewrite E in Hin.
  unfold client_socks_recv_initiate. wpp_step. apply (wpp_client _ _ cl); [done|].
  wpp_step. apply wpp_passert; [by rewrite Hcl|]. wpp_step. apply wpp_passert; [by rewrite Hs|].
  wpp_step. apply wpp_passert; [done|]. wpp_step. apply wpp_passert; [by rewrite Hu|].
  unfold socks_recv. eapply wpp_on_socks; [exact E|]. do 2 wpp_step. wpp_step. wpp_step.
  unfold StreamRecvInterface_Receiver_Recv. rewrite Hn. apply wp_ok. wpp_step.
  destruct Hal as [_ A1 A2 A3 A4 A5 A6 A7 A8 A9 A10 A11]. destruct Hc as [K1 K2 K3 K4 K5 K6 K7 K8 K9].
  destruct (K8 Hup Hs) as (Hso & V1 & V2 & V3). rewrite Hn in V1, V2.
  assert (Hd : sri_job_done (o_recv_if (tc_socks cl)) = false).
  { destruct (sri_job_done _); [|done]. by discriminate (proj1 V2 eq_refl). }
  constructor.
  - unfold globals_ok. by simpl.
  - eapply frame_same; [exact Hf|done|done| |by rewrite E]. intros cl0. rewrite E. intros [= <-]. by eexists.
  - simpl. constructor; simpl; try done; try congruence.
    + constructor; simpl; try done. intros _ _. split; [done|]. unfold recv_ok. simpl. rewrite Hd. flags.
    + intros _ _. rewrite A10 by done. unfold inflight. simpl. rewrite Hu, Hn. done.
Qed.

Lemma wpp_client_free_socks n a w cl h :
  tok n a w h -> cw_client w = Some cl -> tc_socks_closed cl = false ->
  wpp client_free_socks w h (fun _ => tok n a).
Proof.
  intros Ht E Hs. destruct (tc_client_closed cl) eqn:Hcl.
  - destruct (alive_closing _ _ _ _ _ Ht E) as [Hcg Hal]. eapply wpp_free_socks_closed; [done..|].
    rewrite (al_open _ _ _ _ _ Hal), Hcl. done.
  - by eapply wpp_free_socks.
Qed.

(** What is left of [client_socks_recv_send_out] for its callers. *)
Lemma passed_next n a cl0 w h cl (js : cworld -> hist -> Prop) :
  passed n a cl0 w h cl -> cw_client w = Some cl -> sri_state (o_recv_if (tc_socks cl)) = STATE_NONE ->
  tc_recv_used cl = -1 /\ tc_socks_closed cl = false /\
    wpp client_socks_recv_initiate w h (fun _ => tok n a) \/
  (tc_recv_used cl = -1 -> tc_socks_closed cl = true) /\ tok n a w h.
Proof.
  intros Hp E Hn. pose proof Hp as [Hcg Hal Hcl Hup Hpend _ _].
  destruct (al_out _ _ _ _ _ Hal Hup Hcl) as [_ [Hu|(? & ? & ? & ?)]].
  - destruct (tc_socks_closed cl) eqn:Hs.
    + right. split; [done|]. eapply passed_tok; [exact Hp|]. by rewrite Hs.
    + left. split_and!; [done..|]. by eapply wpp_recv_initiate.
  - right. split; [zlia|]. eapply passed_tok; [exact Hp|]. intros _ _. zlia.
Qed.

(** ** The jobs *)


Lemma wpp_with_output (f : PacketStreamSender -> res PacketStreamSender) w h cl (Q : unit -> cworld -> hist -> Prop) :
  cw_client w = Some cl ->
  wp (f (o_sender (tc_socks cl))) (fun s =>
    Q tt (w <| cw_client := Some (cl <| tc_socks := (tc_socks cl) <| o_sender := s |> |>) |>) h) ->
  wpp (on_socks (with_sender f)) w h Q.
Proof.
  intros E Hw. eapply wpp_on_socks; [exact E|]. unfold with_sender. do 2 wpp_step. wpp_step. wpp_step.
  eapply wp_mono; [exact Hw|]. intros s HQ. by wpp_step.
Qed.

Lemma job_done_false (b : bool) (x y : if_state) : (b = true <-> x = y) -> x <> y -> b = false.
Proof. intros H Hne. destruct b; [|done]. by destruct (Hne (proj1 H eq_refl)). Qed.

Lemma wpp_send_op n a w h : tok n a w h -> job_ready w JSendOp = true -> wpp (run_job JSendOp) w h (fun _ => tok n a).
Proof.
  intros Ht Hj. unfold job_ready in Hj. destruct (cw_client w) as [cl|] eqn:E; [|done].
  destruct (tc_socks_closed cl) eqn:Hs; [done|]. simpl in Hj. apply andb_true_iff in Hj as [Hup Hj].
  destruct (alive_closing _ _ _ _ _ Ht E) as [_ Hal]. pose proof Hal as [Hc A1 A2 A3 A4 A5 A6 A7 A8 A9 A10 A11].
  destruct Hc as [K1 K2 K3 K4 K5 K6 K7 K8 K9]. destruct (K8 Hup Hs) as ((S1 & S2 & S3) & Hr). apply S1 in Hj as Hst.
  simpl. eapply wpp_with_output; [exact E|]. unfold StreamPassInterface_job_operation. rewrite Hst. simpl. apply wp_ok.
  assert (Hd : spi_job_done (s_output (o_sender (tc_socks cl))) = false) by (apply (job_done_false _ _ _ S2); congruence).
  eapply tok_keep; [exact Ht|exact E|reflexivity|done|done|done|].
  assert (Hun : unconf cl = 0) by (unfold unconf; by rewrite Hst, andb_false_r).
  constructor; simpl; try done; try congruence. constructor; simpl; try done.
  - rewrite Hun in K4. unfold unconf. simpl. by rewrite andb_false_r.
  - intros _ _. split; [|done]. unfold send_ok. simpl. rewrite Hd. rewrite Hst in S3. flags.
Qed.

Lemma wpp_send_conn n a w h k :
  tok n a w h -> job_ready w (JSendConn k) = true -> wpp (run_job (JSendConn k)) w h (fun _ => tok n a).
Proof.
  intros Ht Hj. unfold job_ready in Hj. destruct (cw_client w) as [cl|] eqn:E; [|done].
  destruct (tc_socks_closed cl) eqn:Hs; [done|]. simpl in Hj.
  apply andb_true_iff in Hj as [[[Hup Hst%bool_decide_eq_true]%andb_true_iff Hk1]%andb_true_iff Hk2].
  destruct (alive_closing _ _ _ _ _ Ht E) as [_ Hal]. pose proof Hal as [Hc A1 A2 A3 A4 A5 A6 A7 A8 A9 A10 A11].
  destruct Hc as [K1 K2 K3 K4 K5 K6 K7 K8 K9]. destruct (K8 Hup Hs) as ((S1 & S2 & S3) & Hr). rewrite Hst in S3.
  destruct S3 as (Hd & Hl). assert (Hk : 0 < k <= spi_job_operation_len (s_output (o_sender (tc_socks cl)))) by lia.
  assert (Hun : unconf cl = 0) by (unfold unconf; by rewrite Hst, andb_false_r).
  simpl. wpp_step. apply (wpp_client _ _ cl); [done|]. wpp_step. wpp_step. rewrite Hd. rewrite rd_list_ok by zlia.
  apply wp_ok. wpp_step. wpp_step. eapply wpp_with_output; [exact E|].
  unfold StreamPassInterface_Done. rewrite Hst. simpl. unfold assert_. rewrite (proj2 (Z.ltb_lt 0 k)), (proj2 (Z.leb_le k _)) by zlia.
  simpl. apply wp_ok.
  assert (Hjo : spi_job_operation (s_output (o_sender (tc_socks cl))) = false) by (apply (job_done_false _ _ _ S1); congruence).
  eapply tok_keep; [exact Ht|exact E|reflexivity|done|done|done|].
  assert (Htk : taken h = (sent h ++ slice (tc_buf cl) 0 k) ++ slice (tc_buf cl) k (tc_buf_used cl - k)).
  { rewrite (K4 Hs), Hun, <- app_assoc. f_equal. rewrite (slice_app (tc_buf cl) 0 k) by zlia. f_equal. zlia. }
  constructor; simpl; try done; try congruence. constructor; simpl; try done.
  - intros _. unfold unconf. simpl. by rewrite Hup.
  - rewrite Htk. by apply prefix_app_r.
  - intros _ _. split; [|done]. unfold send_ok. simpl. rewrite Hjo. flags.
Qed.

Lemma wpp_recv_op n a w h : tok n a w h -> job_ready w JRecvOp = true -> wpp (run_job JRecvOp) w h (fun _ => tok n a).
Proof.
  intros Ht Hj. unfold job_ready in Hj. destruct (cw_client w) as [cl|] eqn:E; [|done].
  destruct (tc_socks_closed cl) eqn:Hs; [done|]. simpl in Hj. apply andb_true_iff in Hj as [Hup Hj].
  destruct (alive_closing _ _ _ _ _ Ht E) as [_ Hal]. pose proof Hal as [Hc A1 A2 A3 A4 A5 A6 A7 A8 A9 A10 A11].
  destruct Hc as [K1 K2 K3 K4 K5 K6 K7 K8 K9]. destruct (K8 Hup Hs) as (Hso & V1 & V2 & V3). apply V1 in Hj as Hst.
  simpl. eapply wpp_on_socks; [exact E|]. do 2 wpp_step. wpp_step. wpp_step.
  unfold StreamRecvInterface_job_operation. rewrite Hst. simpl. apply wp_ok. wpp_step.
  assert (Hd : sri_job_done (o_recv_if (tc_socks cl)) = false) by (apply (job_done_false _ _ _ V2); congruence).
  eapply tok_keep; [exact Ht|exact E|reflexivity|done|done|done|]. rewrite Hst in V3. destruct V3 as (W1 & W2 & W3).
  constructor; simpl; try done; try congruence.
  - constructor; simpl; try done. intros _ _. split; [done|]. unfold recv_ok. simpl. rewrite Hd. flags.
  - intros _ Hcl. rewrite A10 by done. unfold inflight. simpl. by rewrite W1, Hst.
Qed.

Lemma wpp_recv_conn n a w h data :
  tok n a w h -> job_ready w (JRecvConn data) = true -> wpp (run_job (JRecvConn data)) w h (fun _ => tok n a).
Proof.
  intros Ht Hj. unfold job_ready in Hj. destruct (cw_client w) as [cl|] eqn:E; [|done].
  destruct (tc_socks_closed cl) eqn:Hs; [done|]. simpl in Hj.
  apply andb_true_iff in Hj as [[[Hup Hst%bool_decide_eq_true]%andb_true_iff Hk1]%andb_true_iff Hk2].
  destruct (alive_closing _ _ _ _ _ Ht E) as [_ Hal]. pose proof Hal as [Hc A1 A2 A3 A4 A5 A6 A7 A8 A9 A10 A11].
  destruct Hc as [K1 K2 K3 K4 K5 K6 K7 K8 K9]. destruct (K8 Hup Hs) as (Hso & V1 & V2 & V3). rewrite Hst in V3.
  destruct V3 as (W1 & W2 & W3). assert (Hk : 0 < zlen data <= CLIENT_SOCKS_RECV_BUF_SIZE) by lia.
  simpl. wpp_step. apply (wpp_client _ _ cl); [done|]. wpp_step. wpp_step. rewrite W2, wr_list_ok by zlia.
  apply wp_ok. wpp_step. eapply wpp_mcl; [exact E|]. wpp_step. wpp_step.
  eapply wpp_on_socks; [reflexivity|]. do 2 wpp_step. wpp_step. wpp_step. simpl.
  unfold StreamRecvInterface_Done. rewrite Hst. simpl. unfold assert_. rewrite (proj2 (Z.ltb_lt 0 _)), (proj2 (Z.leb_le (zlen data) _)) by zlia.
  simpl. apply wp_ok. wpp_step.
  assert (Hjo : sri_job_operation (o_recv_if (tc_socks cl)) = false) by (apply (job_done_false _ _ _ V1); congruence).
  eapply tok_keep; [exact Ht|exact E|reflexivity|done|done|done|].
  constructor; simpl; try done; try congruence.
  - constructor; simpl; try done; try by rewrite zlen_splice by zlia.
    + by apply prefix_app_r.
    + intros _ _. split; [done|]. unfold recv_ok. simpl. rewrite Hjo. flags.
    + congruence.
  - intros _ Hcl. rewrite A10 by done. unfold inflight. simpl. rewrite W1, Hst. simpl. rewrite app_nil_r.
    by rewrite slice_splice_at by zlia.
Qed.

End steps.
