(* ===== verification/TcpClientCalls.v ===== *)
(** The TCP client's own handlers: what runs when a send or a receive of the SOCKS
    connection is done, on the SOCKS client's events, and in lwIP's callbacks. *)
From S2P Require Import Prelude CMem Sys Flow SocksClient TcpClient TcpClientFacts TcpClientSteps.

Section calls.
Context {OS : Os}.
Implicit Types (w : cworld) (h : hist) (cl : tcp_client).

Definition out_of (cl : tcp_client) : StreamPassInterface := s_output (o_sender (tc_socks cl)).
(** the SOCKS client when [k] bytes from the start of the buffer are to be sent *)
Definition sending_out (o : BSocksClient) (k : Z) : BSocksClient :=
  o <| o_sender := (o_sender o) <| s_output := (((s_output (o_sender o)) <| spi_job_operation_data := 0 |>
    <| spi_job_operation_len := k |>) <| spi_job_operation := true |>) <| spi_state := STATE_OPERATION_PENDING |> |> |>.
Lemma wpp_socks_send w h cl k (Q : unit -> cworld -> hist -> Prop) :
  cw_client w = Some cl -> 0 < k -> spi_state (out_of cl) = STATE_NONE ->
  Q tt (w <| cw_client := Some (cl <| tc_socks := sending_out (tc_socks cl) k |>) |>) h -> wpp (socks_send 0 k) w h Q.
Proof.
  intros E Hk Hs HQ. unfold socks_send. eapply wpp_on_socks; [exact E|]. do 2 wpp_step. wpp_step. wpp_step.
  unfold StreamPassInterface_Sender_Send. unfold out_of in Hs. rewrite Hs. unfold assert_.
  rewrite (proj2 (Z.ltb_lt 0 k)) by done. apply wp_ok. by wpp_step.
Qed.
Lemma unconf_none cl : spi_state (out_of cl) = STATE_NONE -> unconf cl = 0.
Proof. unfold unconf, out_of. intros ->. by rewrite andb_false_r. Qed.
(** Once the send is asked for the structure is in order again. *)
Lemma core_sending cl h k :
  zlen (tc_buf cl) = TCP_WND -> zlen (tc_recv_buf cl) = CLIENT_SOCKS_RECV_BUF_SIZE -> 0 <= tc_buf_used cl <= TCP_WND ->
  taken h = sent h ++ slice (tc_buf cl) 0 (tc_buf_used cl) -> written h `prefix_of` got h ->
  socks_frees h = (if tc_socks_closed cl then 1 else 0) -> tc_socks_up cl = true -> recv_ok cl ->
  spi_job_done (out_of cl) = false -> 0 < k <= tc_buf_used cl ->
  core (cl <| tc_socks := sending_out (tc_socks cl) k |>) h.
Proof.
  intros H1 H2 H3 H4 H5 H6 Hup Hr Hd Hk. unfold out_of in Hd. constructor; simpl; try done.
  - intros _. unfold unconf. simpl. rewrite andb_false_r, Z.sub_0_r. done.
  - rewrite H4. by apply prefix_app_r.
  - intros _ _. split; [|exact Hr]. unfold send_ok. simpl. rewrite Hd. flags.
  - congruence.
Qed.

(** Only the buffer and the sending side change. *)
Definition same_down (cl cl' : tcp_client) : Prop :=
  tc_client_closed cl' = tc_client_closed cl /\ tc_aborted cl' = tc_aborted cl /\ tc_dead cl' = tc_dead cl /\
  tc_socks_up cl' = tc_socks_up cl /\ tc_socks_closed cl' = tc_socks_closed cl /\ tc_recv_buf cl' = tc_recv_buf cl /\
  tc_recv_used cl' = tc_recv_used cl /\ tc_recv_sent cl' = tc_recv_sent cl /\ tc_recv_waiting cl' = tc_recv_waiting cl /\
  tc_tcp_pending cl' = tc_tcp_pending cl /\ o_recv_if (tc_socks cl') = o_recv_if (tc_socks cl).
Lemma tok_buffer n a w h cl cl' w' h' :
  tok n a w h -> cw_client w = Some cl -> w' = w <| cw_client := Some cl' |> -> same_down cl cl' -> core cl' h' ->
  written h' = written h -> got h' = got h -> aborts h' = aborts h ->
  (tc_client_closed cl = false -> confirmed h' + tc_buf_used cl' = zlen (taken h')) ->
  (tc_client_closed cl = true -> 0 < tc_buf_used cl') -> tok n a w' h'.
Proof.
  intros Ht E -> (E1 & E2 & E3 & E4 & E5 & E6 & E7 & E8 & E9 & E10 & E11) Hc Hw Hg Hab Hcf Hu.
  destruct (alive_closing _ _ _ _ _ Ht E) as [_ [_ A1 A2 A3 A4 A5 A6 A7 A8 A9 A10 A11 A12]].
  eapply tok_keep; [exact Ht|exact E|reflexivity|done|done|done|].
  constructor; simpl; rewrite ?E1, ?E2, ?E4, ?E5, ?E7, ?E10, ?Hw, ?Hg; try done.
  - intros Hcl. split; [by apply A4|by apply Hu].
  - intros Hup Hcl. unfold out_ok. rewrite E7, E8, E9, E10. by apply A6.
  - by rewrite E11.
  - intros Hup Hcl. unfold inflight. rewrite E6, E7, E8, E11. by apply A10.
  - by rewrite E11.
Qed.
Lemma closing_buffer n a w h cl cl' w' h' :
  tok n a w h -> cw_client w = Some cl -> w' = w <| cw_client := Some cl' |> -> same_down cl cl' -> core cl' h' ->
  aborts h' = aborts h -> closing n w' cl' h'.
Proof.
  intros Ht E -> (E1 & E2 & E3 & _) Hc Hab. destruct (alive_closing _ _ _ _ _ Ht E) as [[_ _ (G1 & G2 & G3) Hf] _].
  rewrite E in G3. constructor; [done|done|by split_and!|].
  eapply frame_same; [exact Hf|done|done| |by rewrite E]. intros cl0. rewrite E. intros [= <-]. by eexists.
Qed.

(** The end of [client_socks_send_handler_done], when [k] bytes have left the buffer. *)
Lemma wpp_send_rest n a w h cl cl1 w1 h1 :
  tok n a w h -> cw_client w = Some cl -> w1 = w <| cw_client := Some cl1 |> -> same_down cl cl1 ->
  tc_socks_up cl = true -> tc_socks_closed cl = false ->
  spi_state (out_of cl1) = STATE_NONE -> spi_job_done (out_of cl1) = false -> spi_job_operation (out_of cl1) = false ->
  zlen (tc_buf cl1) = TCP_WND -> 0 <= tc_buf_used cl1 <= TCP_WND ->
  taken h1 = sent h1 ++ slice (tc_buf cl1) 0 (tc_buf_used cl1) ->
  written h1 = written h -> got h1 = got h -> aborts h1 = aborts h -> socks_frees h1 = socks_frees h ->
  (tc_client_closed cl = false -> confirmed h1 + tc_buf_used cl1 = zlen (taken h1)) ->
  wpp (cl ← client; if 0 <? tc_buf_used cl then socks_send 0 (tc_buf_used cl)
       else if tc_client_closed cl then client_free_socks else mret tt) w1 h1 (fun _ => tok n a).
Proof.
  intros Ht E -> Hsd Hup Hs O1 O2 O3 Hz Hu Htk Hw Hg Hab Hfr Hcf.
  pose proof Hsd as (E1 & E2 & E3 & E4 & E5 & E6 & E7 & E8 & E9 & E10 & E11).
  destruct (alive_closing _ _ _ _ _ Ht E) as [_ [[K1 K2 K3 K4 K5 K6 K7 K8 K9] A1 _ _ _ _ _ _ _ _ _ _]].
  destruct (K8 Hup Hs) as (_ & Hr). rewrite Hs in K7.
  assert (Hr1 : recv_ok cl1) by (unfold recv_ok; by rewrite E7, E11).
  wpp_step. eapply wpp_client; [reflexivity|]. destruct (Z.ltb_spec 0 (tc_buf_used cl1)) as [Hp|Hp].
  - eapply wpp_socks_send; [reflexivity|done|done|]. eapply tok_buffer; [exact Ht|exact E|reflexivity|done| |done..].
    apply core_sending; try congruence; try done. rewrite E5, Hs. congruence.
  - assert (Hc1 : core cl1 h1).
    { constructor; try congruence; try done.
      - intros _. rewrite unconf_none by done. by rewrite Z.sub_0_r.
      - rewrite Htk. by apply prefix_app_r.
      - rewrite E5, Hs. congruence.
      - intros _ _. split; [|done]. unfold send_ok. unfold out_of in *. rewrite O1, O2, O3. flags. }
    rewrite E1. destruct (tc_client_closed cl) eqn:Hcl.
    + eapply wpp_free_socks_closed with (cl := cl1); [eapply closing_buffer; [exact Ht|done..]|congruence..|].
      simpl. by rewrite A1.
    + wpp_step. eapply tok_buffer; [exact Ht|exact E|reflexivity|done..| |]; [by rewrite Hcl|]. congruence.
Qed.

Lemma wpp_send_done n a w h : tok n a w h -> job_ready w JSendDone = true ->
  wpp (run_job JSendDone) w h (fun _ => tok n a).
Proof.
  intros Ht Hj. unfold job_ready in Hj. destruct (cw_client w) as [cl|] eqn:E; [|done].
  destruct (tc_socks_closed cl) eqn:Hs; [done|]. simpl in Hj. apply andb_true_iff in Hj as [Hup Hj].
  destruct (alive_closing _ _ _ _ _ Ht E) as [_ Hal]. destruct Hal as [Hc A1 _ _ _ _ _ _ _ A9 _ _].
  destruct Hc as [K1 K2 K3 K4 K5 K6 K7 K8 K9]. destruct (K8 Hup Hs) as ((S1 & S2 & S3) & Hr). apply S2 in Hj as Hst.
  rewrite Hst in S3. set (k := spi_job_done_len _) in S3.
  assert (Hun : unconf cl = k) by (unfold unconf; by rewrite Hup, Hst).
  assert (Hjo : spi_job_operation (out_of cl) = false) by (apply (job_done_false _ _ _ S1); congruence).
  simpl. wpp_step. apply (wpp_client _ _ cl); [done|]. wpp_step. wpp_step.
  unfold StreamPassInterface_job_done. rewrite Hst. simpl. apply wp_ok. wpp_step.
  eapply wpp_with_output; [exact E|]. apply wp_ok. fold k.
  unfold client_socks_send_handler_done. wpp_step. eapply wpp_client; [reflexivity|].
  wpp_step. apply wpp_passert; [simpl; by rewrite Hs|]. wpp_step. apply wpp_passert; [done|].
  wpp_step. apply wpp_passert; [simpl; zlia|]. wpp_step. apply wpp_passert; [zlia|].
  wpp_step. apply wpp_passert; [simpl; zlia|]. wpp_step. wpp_step. simpl tc_buf. simpl tc_buf_used.
  assert (Hz : zlen (slice (tc_buf cl) k (tc_buf_used cl - k)) = tc_buf_used cl - k) by (rewrite zlen_slice; zlia).
  rewrite memmove_ok by zlia. apply wp_ok. wpp_step. eapply wpp_mcl; [reflexivity|]. wpp_step. eapply wpp_mcl; [reflexivity|].
  assert (Hb : slice (splice (tc_buf cl) 0 (slice (tc_buf cl) k (tc_buf_used cl - k))) 0 (tc_buf_used cl - k)
    = slice (tc_buf cl) k (tc_buf_used cl - k)) by (rewrite <- Hz at 2; apply slice_splice_at; zlia).
  wpp_step. simpl. destruct (tc_client_closed cl) eqn:Hcl; simpl.
  - wpp_step. eapply wpp_send_rest; [exact Ht|exact E|reflexivity|..]; simpl; try done.
    + rewrite zlen_splice; zlia.
    + zlia.
    + rewrite Hb, <- Hun. by apply K4.
    + congruence.
  - unfold tcp_recved. wpp_step. apply wpp_tcp_call; [simpl; by rewrite A1|]. intros r. wpp_step.
    eapply wpp_send_rest; [exact Ht|exact E|reflexivity|..]; simpl; try done.
    + rewrite zlen_splice; zlia.
    + zlia.
    + rewrite Hb, <- Hun. by apply K4.
    + intros _. rewrite <- A9 by done. zlia.
Qed.

(** What follows a [client_socks_recv_send_out] that did not abort. *)
Lemma wpp_after_send_out n a w h cl (k : tcp_client -> Prog cworld unit) :
  passing n a w cl h -> tc_recv_sent cl < tc_recv_used cl -> tc_recv_waiting cl = false ->
  sri_state (o_recv_if (tc_socks cl)) = STATE_NONE ->
  (forall w' h' cl', cw_client w' = Some cl' -> passed n a cl w' h' cl' ->
     sri_state (o_recv_if (tc_socks cl')) = STATE_NONE -> wpp (k cl') w' h' (fun _ => tok n a)) ->
  wpp (ok ← client_socks_recv_send_out; if negb ok then mret tt else cl ← client; k cl) w h (fun _ => tok n a).
Proof.
  intros Hp Hlt Hw Hn Hk. wpp_step. eapply wpp_mono; [by eapply wpp_send_out|].
  intros [] w' h'; simpl; [|intros Ht; by wpp_step].
  intros (cl' & E & Hpd). wpp_step. eapply wpp_client; [exact E|]. apply Hk; [done|done|].
  by rewrite (pd_socks _ _ _ _ _ _ Hpd).
Qed.

Lemma wpp_recv_done n a w h : tok n a w h -> job_ready w JRecvDone = true ->
  wpp (run_job JRecvDone) w h (fun _ => tok n a).
Proof.
  intros Ht Hj. unfold job_ready in Hj. destruct (cw_client w) as [cl|] eqn:E; [|done].
  destruct (tc_socks_closed cl) eqn:Hs; [done|]. simpl in Hj. apply andb_true_iff in Hj as [Hup Hj].
  destruct (alive_closing _ _ _ _ _ Ht E) as [[_ _ (G1 & G2 & G3) Hf] Hal].
  pose proof Hal as [Hc A1 A2 A3 A4 A5 A6 A7 A8 A9 A10 A11]. rewrite E in G3.
  destruct Hc as [K1 K2 K3 K4 K5 K6 K7 K8 K9]. destruct (K8 Hup Hs) as (Hso & V1 & V2 & V3). apply V2 in Hj as Hst.
  rewrite Hst in V3. destruct V3 as (W1 & W2). set (k := sri_job_done_len _) in W2.
  assert (Hjo : sri_job_operation (o_recv_if (tc_socks cl)) = false) by (apply (job_done_false _ _ _ V1); congruence).
  simpl. wpp_step. apply (wpp_client _ _ cl); [done|]. wpp_step. wpp_step.
  unfold StreamRecvInterface_job_done. rewrite Hst. simpl. apply wp_ok. wpp_step.
  eapply wpp_on_socks; [exact E|]. wpp_step. fold k. unfold client_socks_recv_handler_done.
  wpp_step. apply wpp_passert; [zlia|]. wpp_step. apply wpp_passert; [zlia|].
  wpp_step. eapply wpp_client; [reflexivity|]. wpp_step. apply wpp_passert; [simpl; by rewrite Hs|].
  wpp_step. apply wpp_passert; [done|]. wpp_step. apply wpp_passert; [simpl; by rewrite W1|]. simpl.
  destruct (tc_client_closed cl) eqn:Hcl.
  { wpp_step. eapply tok_keep; [exact Ht|exact E|reflexivity|done|done|done|].
    constructor; simpl; try done; try congruence; [|by rewrite Hcl].
    constructor; simpl; try done. intros _ _. split; [done|]. unfold recv_ok. simpl. rewrite Hjo. flags. }
  specialize (A2 eq_refl). destruct (A3 eq_refl) as (B1 & B2 & B3). destruct (A6 Hup eq_refl) as [Hp0 _].
  do 3 (wpp_step; eapply wpp_mcl; [reflexivity|]).
  apply wpp_after_send_out with (cl := ((((cl <| tc_socks := (tc_socks cl) <| o_recv_if := ((o_recv_if (tc_socks cl))
    <| sri_job_done := false |>) <| sri_state := STATE_NONE |> |> |>) <| tc_recv_used := k |>) <| tc_recv_sent := 0 |>)
    <| tc_recv_waiting := false |>)); try done; [|simpl; zlia|].
  - constructor; simpl; try done; try zlia; try congruence.
    + constructor; [done| |by split_and!|].
      * constructor; simpl; try done. intros _ _. split; [done|]. unfold recv_ok. simpl. rewrite Hjo. flags.
      * eapply frame_same; [exact Hf|done|done| |by rewrite E]. intros cl0. rewrite E. intros [= <-]. by eexists.
    + split_and!; congruence.
    + by apply A9.
    + rewrite A10 by done. unfold inflight. simpl. rewrite W1, Hst, (proj2 (Z.ltb_lt 0 k)) by zlia. simpl. fold k.
      by rewrite Z.sub_0_r.
    + by apply A11.
  - intros w' h' cl' E' Hpd Hn. cbv beta. destruct (passed_next _ _ _ _ _ _ (fun _ _ => True) Hpd E' Hn) as [(-> & _ & Hw)|[Hne Htok]].
    + exact Hw.
    + destruct (Z.eqb_spec (tc_recv_used cl') (-1)) as [Hu|Hu]; [|by wpp_step].
      pose proof (pd_sclosed _ _ _ _ _ _ Hpd) as Hsc. simpl in Hsc. rewrite (Hne Hu) in Hsc. congruence.
Qed.

(** ** The SOCKS client's events *)

(** While SOCKS is not up its object can change at will. *)
Lemma tok_socks n a w h cl o :
  tok n a w h -> cw_client w = Some cl -> tc_socks_up cl = false ->
  tok n a (w <| cw_client := Some (cl <| tc_socks := o |>) |>) h.
Proof.
  intros Ht E Hup. destruct (alive_closing _ _ _ _ _ Ht E) as [_ Hal].
  pose proof Hal as [[K1 K2 K3 K4 K5 K6 K7 K8 K9] A1 A2 A3 A4 A5 A6 A7 A8 A9 A10 A11].
  eapply tok_keep; [exact Ht|exact E|reflexivity|done|done|done|].
  constructor; simpl; try done; try congruence.
  constructor; simpl; try done; try congruence. unfold unconf in *. simpl. rewrite Hup in *. done.
Qed.

Lemma wpp_socks_event n a w h e o : tok n a w h -> job_ready w (JSocks e o) = true ->
  wpp (run_job (JSocks e o)) w h (fun _ => tok n a).
Proof.
  intros Ht Hj. unfold job_ready in Hj. destruct (cw_client w) as [cl0|] eqn:E0; [|done].
  destruct (tc_socks_closed cl0) eqn:Hs0; [done|]. simpl in Hj. destruct (tc_socks_up cl0) eqn:Hup0; [done|]. simpl in Hj.
  pose proof (tok_socks _ _ _ _ _ o Ht E0 Hup0) as Ht1. simpl. wpp_step. eapply wpp_mcl; [exact E0|].
  set (w1 := w <| cw_client := _ |>) in *. set (cl := cl0 <| tc_socks := o |>) in *.
  assert (E : cw_client w1 = Some cl) by done. assert (Hs : tc_socks_closed cl = false) by done.
  assert (Hup : tc_socks_up cl = false) by done. assert (Ho : tc_socks cl = o) by done. clearbody cl w1.
  clear Ht E0 Hs0 Hup0 cl0 w. unfold client_socks_handler. wpp_step. apply (wpp_client _ _ cl); [done|].
  wpp_step. apply wpp_passert; [by rewrite Hs|].
  destruct (Z.eqb_spec e BSOCKSCLIENT_EVENT_ERROR) as [He|He]; [by eapply wpp_client_free_socks|].
  destruct (Z.eqb_spec e BSOCKSCLIENT_EVENT_UP) as [He2|He2].
  2:{ destruct (Z.eqb_spec e BSOCKSCLIENT_EVENT_ERROR_CLOSED) as [->|He3]; [done|by wpp_step]. }
  subst e. simpl in Hj. unfold socks_ready in Hj.
  apply andb_true_iff in Hj as [[[[[[[R1%bool_decide_eq_true R2]%andb_true_iff R3%bool_decide_eq_true]%andb_true_iff
    R4%negb_true_iff]%andb_true_iff R5%negb_true_iff]%andb_true_iff R6%bool_decide_eq_true]%andb_true_iff
    R7%negb_true_iff]%andb_true_iff R8%negb_true_iff].
  destruct (alive_closing _ _ _ _ _ Ht1 E) as [[_ _ (G1 & G2 & G3) Hf] Hal].
  pose proof Hal as [[K1 K2 K3 K4 K5 K6 K7 K8 K9] A1 A2 A3 A4 A5 A6 A7 A8 A9 A10 A11]. rewrite E in G3.
  assert (Hun : unconf cl = 0) by (unfold unconf; by rewrite Hup). destruct (K9 Hup) as [Hwr Hgt].
  wpp_step. apply wpp_passert; [by rewrite Hup|].
  wpp_step. eapply wpp_on_socks; [exact E|]. unfold BSocksClient_GetSendInterface. do 2 wpp_step. wpp_step.
  apply wpp_passert; [by rewrite Ho, R1|]. wpp_step. apply wpp_passert; [by rewrite Ho, R2|]. wpp_step.
  wpp_step. eapply wpp_on_socks; [reflexivity|]. unfold BSocksClient_GetRecvInterface. do 2 wpp_step. wpp_step.
  apply wpp_passert; [simpl; by rewrite Ho, R1|]. wpp_step. apply wpp_passert; [simpl; by rewrite Ho, R2|]. wpp_step.
  do 2 (wpp_step; eapply wpp_mcl; [reflexivity|]). simpl.
  set (p := if tc_client_closed cl then cw_pcb w1 else (cw_pcb w1) <| p_sent := true |>).
  wpp_step. assert (Hstep : forall w' (Q : unit -> cworld -> hist -> Prop), cw_pcb w' = cw_pcb w1 ->
    Q tt (w' <| cw_pcb := p |>) h -> wpp (if negb (tc_client_closed cl) then tcp_sent true else mret tt) w' h Q).
  { intros w' Q Ep HQ. unfold p in HQ. destruct (tc_client_closed cl); simpl.
    - wpp_step. rewrite <- Ep in HQ. by destruct w'.
    - unfold tcp_sent. apply wpp_mpcb; rewrite Ep; [by rewrite A1|done]. }
  apply Hstep; [done|]. clear Hstep. wpp_step. eapply wpp_mcl; [reflexivity|].
  assert (Hpp : p_open p = negb (tc_client_closed cl) /\ (tc_client_closed cl = false -> p_errf p = true /\ p_recv p = true /\ p_sent p = true)).
  { unfold p. destruct (tc_client_closed cl) eqn:Hcl; [done|]. destruct (A3 eq_refl) as (B1 & B2 & B3). rewrite Hs in B2. by split_and!. }
  destruct Hpp as [P1 P2]. clearbody p.
  (* the structure, up, with its sending side [o'] *)
  set (up_with := fun o' => (((cl <| tc_socks := o' |>) <| tc_recv_used := -1 |>) <| tc_tcp_pending := 0 |>) <| tc_socks_up := true |>).
  assert (Hend : forall o', o_recv_if o' = o_recv_if o -> core (up_with o') h ->
    wpp (if negb (tc_client_closed cl) then client_socks_recv_initiate else mret tt)
      ((w1 <| cw_pcb := p |>) <| cw_client := Some (up_with o') |>) h (fun _ => tok n a)).
  { intros o' Eo Hc'. assert (Hcg : closing n ((w1 <| cw_pcb := p |>) <| cw_client := Some (up_with o') |>) (up_with o') h).
    { constructor; [done|done|by split_and!|]. eapply frame_same; [exact Hf|done|done| |by rewrite E].
      intros cl2. rewrite E. intros [= <-]. by eexists. }
    assert (Hal' : alive false a ((w1 <| cw_pcb := p |>) <| cw_client := Some (up_with o') |>) (up_with o') h).
    { constructor; simpl; try done; try congruence.
      - intros Hcl. destruct (P2 Hcl) as (? & ? & ?). rewrite Hs. by split_and!.
      - intros _ _. split; [done|]. by left.
      - intros _ _. rewrite Hwr, Hgt. unfold inflight. simpl. by rewrite Eo, R6.
      - intros _ Hcl. rewrite Hwr, (A8 Hup Hcl). done. }
    destruct (tc_client_closed cl) eqn:Hcl; simpl.
    - wpp_step. destruct Hcg as [? ? ? ?]. constructor; [done..|]. simpl. destruct Hal'. constructor; try done.
      simpl. congruence.
    - eapply wpp_recv_initiate; [exact Hcg|exact Hal'|done|done|done|done|]. simpl. by rewrite Eo. }
  wpp_step. destruct (Z.ltb_spec 0 (tc_buf_used cl)) as [Hu|Hu].
  - unfold client_send_to_socks. wpp_step. eapply wpp_client; [reflexivity|].
    wpp_step. apply wpp_passert; [simpl; by rewrite Hs|]. wpp_step. apply wpp_passert; [done|].
    wpp_step. apply wpp_passert; [simpl; zlia|]. eapply wpp_socks_send; [reflexivity|done|simpl; unfold out_of; simpl; by rewrite Ho|].
    apply (Hend (sending_out (tc_socks cl) (tc_buf_used cl))); [simpl; by rewrite Ho|].
    set (cl2 := ((cl <| tc_recv_used := -1 |>) <| tc_tcp_pending := 0 |>) <| tc_socks_up := true |>).
    change (core (cl2 <| tc_socks := sending_out (tc_socks cl2) (tc_buf_used cl2) |>) h).
    apply core_sending; simpl; try done.
    + rewrite (K4 Hs), Hun. by rewrite Z.sub_0_r.
    + unfold recv_ok. simpl. rewrite Ho, R6, R7, R8. flags.
    + unfold out_of. simpl. by rewrite Ho.
  - wpp_step. apply (Hend (tc_socks cl)); [by rewrite Ho|]. constructor; simpl; try done.
    + intros _. rewrite (K4 Hs), Hun. unfold unconf. simpl. by rewrite Ho, R3.
    + intros _ _. split.
      * unfold send_ok. simpl. rewrite Ho, R3, R4, R5. flags.
      * unfold recv_ok. simpl. rewrite Ho, R6, R7, R8. flags.
Qed.

Lemma wpp_socks_up_event n a w h e : tok n a w h -> job_ready w (JSocksUp e) = true ->
  wpp (run_job (JSocksUp e)) w h (fun _ => tok n a).
Proof.
  intros Ht Hj. unfold job_ready in Hj. destruct (cw_client w) as [cl|] eqn:E; [|done].
  destruct (tc_socks_closed cl) eqn:Hs; [done|]. simpl in Hj. apply andb_true_iff in Hj as [Hup Hj].
  simpl. unfold client_socks_handler. wpp_step. apply (wpp_client _ _ cl); [done|].
  wpp_step. apply wpp_passert; [by rewrite Hs|].
  destruct (Z.eqb_spec e BSOCKSCLIENT_EVENT_ERROR) as [->|He]; [by eapply wpp_client_free_socks|].
  destruct (Z.eqb_spec e BSOCKSCLIENT_EVENT_ERROR_CLOSED) as [->|He2]; [|done]. simpl.
  wpp_step. apply wpp_passert; [done|]. by eapply wpp_client_free_socks.
Qed.

(** Every job the reactor can run keeps the invariant. *)
Lemma wpp_job n a w h j : tok n a w h -> job_ready w j = true -> wpp (run_job j) w h (fun _ => tok n a).
Proof.
  destruct j; [apply wpp_socks_event|apply wpp_socks_up_event|apply wpp_send_op|apply wpp_send_conn|apply wpp_send_done
    |apply wpp_recv_op|apply wpp_recv_conn|apply wpp_recv_done].
Qed.
Lemma wpp_synchronize n a js w h : tok n a w h -> wpp (synchronize js) w h (fun _ => tok n a).
Proof.
  revert w h. induction js as [|j js IH]; intros w h Ht; simpl; [by wpp_step|].
  wpp_step. apply wpp_cget. wpp_step. destruct (job_ready w j) eqn:Hj.
  - eapply wpp_mono; [by apply wpp_job|]. intros [] w' h' Ht'. by apply IH.
  - wpp_step. by apply IH.
Qed.
End calls.
