(* ===== verification/TcpClientProps.v ===== *)
(** The TCP client of tun2socks with lwIP and its SOCKS connection around it: what holds
    in every state it can reach. *)
From S2P Require Import Prelude CMem Sys Flow SocksClient SocksClientFacts SocksClientProps TcpClient TcpClientFacts TcpClientSteps TcpClientCalls.

Section callbacks.
Context {OS : Os}.
Implicit Types (w : cworld) (h : hist) (cl : tcp_client).

(** ** lwIP's callbacks *)

Lemma wpp_dead_enter a w h cl (Q : bool -> cworld -> hist -> Prop) :
  tok None a w h -> cw_client w = Some cl -> tc_client_closed cl = false ->
  (forall w', w' = (w <| cw_frame := Some 0 |>) <| cw_client := Some (cl <| tc_dead := true |>) |> ->
     tok (Some (aborts h)) a w' h -> Q false w' h) -> wpp dead_enter w h Q.
Proof.
  intros Ht E Hcl HQ. destruct (alive_closing _ _ _ _ _ Ht E) as [[_ Hc (G1 & G2 & G3) Hf] Hal]. rewrite E in G3.
  pose proof (al_aborted _ _ _ _ _ Hal Hcl) as Ha.
  destruct (frame_alive _ _ _ _ Hf E Ha) as [(Hfr & Hd & _)|(? & ? & ?)]; [|done].
  unfold dead_enter. wpp_step. apply (wpp_client _ _ cl); [done|]. do 2 wpp_step. wpp_step.
  eapply wpp_mcl; [exact E|]. wpp_step. rewrite Hd. apply HQ; [done|]. constructor.
  - unfold globals_ok. by simpl.
  - unfold frame_ok. simpl. rewrite Ha. split; [by split|]. lia.
  - simpl. destruct Hal as [Hc1 ? ? ? ? ? ? ? ? ? ? ?]. constructor; simpl; try done. by destruct Hc1.
Qed.

Lemma wpp_dead_leave n a w h (Q : Z -> cworld -> hist -> Prop) :
  tok (Some n) a w h ->
  (forall d w', tok None a w' h -> aborts h = n + (if callback_result d =? ERR_ABRT then 1 else 0) ->
     (callback_result d = ERR_OK \/ callback_result d = ERR_ABRT) -> Q d w' h) -> wpp (dead_leave false) w h Q.
Proof.
  intros [(G1 & G2 & G3) Hf Hc] HQ. unfold dead_leave. unfold frame_ok in Hf.
  destruct (cw_frame w) as [d|] eqn:Hfr; [|done]. destruct Hf as [Hf Hab].
  wpp_step. apply wpp_cget. cbv beta. wpp_step. eapply wpp_deref; [exact Hfr|].
  assert (Hrc : callback_result d = ERR_OK \/ callback_result d = ERR_ABRT) by (unfold callback_result; destruct (0 <? d); [by right|by left]).
  destruct (cw_client w) as [cl|] eqn:E.
  - destruct (tc_aborted cl) eqn:Ha.
    + subst d. simpl. repeat first [wpp_step | apply wpp_passert; [done|]].
      apply HQ; [|done|done]. constructor.
      * unfold globals_ok. simpl. by rewrite E.
      * unfold frame_ok. simpl. rewrite E. done.
      * simpl. rewrite E. destruct Hc. by constructor.
    + destruct Hf as [-> Hd]. simpl. wpp_step. eapply wpp_mcl; [exact E|]. repeat first [wpp_step | apply wpp_passert; [done|]].
      apply HQ; [|done|done]. constructor.
      * unfold globals_ok. by simpl.
      * unfold frame_ok. by simpl.
      * simpl. destruct Hc as [Hc1 ? ? ? ? ? ? ? ? ? ? ?]. constructor; simpl; try done. by destruct Hc1.
  - assert (Hd : (d =? 0) = false) by (destruct Hf as [->| ->]; done). rewrite Hd.
    repeat first [wpp_step | apply wpp_passert; [done|]]. apply HQ; [| |done].
    + constructor.
      * unfold globals_ok. simpl. by rewrite E.
      * unfold frame_ok. simpl. by rewrite E.
      * simpl. by rewrite E.
    + rewrite Hab. unfold callback_result. by destruct Hf as [->| ->].
Qed.

(** What a callback's result says of the pcb. *)
Definition callback_post (a : Z) (n : Z) (rc : Z) (w : cworld) (h : hist) : Prop :=
  tok None a w h /\ aborts h = n + (if rc =? ERR_ABRT then 1 else 0) /\ (rc = ERR_OK \/ rc = ERR_ABRT).

Lemma wpp_leave n a w h : tok (Some n) a w h ->
  wpp (d ← dead_leave false; mret (callback_result d)) w h (callback_post a n).
Proof. intros Ht. wpp_step. eapply wpp_dead_leave; [exact Ht|]. intros d w' ? ? ?. wpp_step. by split_and!. Qed.

(** lwIP hands over [data], or reports the end. Only data beyond the window is refused,
    and then nothing happens. *)
Lemma wpp_recv_func a w h cl p js :
  tok None a w h -> cw_client w = Some cl -> tc_client_closed cl = false -> p_recv (cw_pcb w) = true -> p <> Some [] ->
  wpp (client_recv_func p js) w h (fun rc w' h' =>
    callback_post a (aborts h) rc w' h' \/
    rc = ERR_MEM /\ tok None a w' h' /\ h' = h /\ exists data, p = Some data /\ TCP_WND - (zlen (taken h) - confirmed h) < zlen data).
Proof.
  intros Ht E Hcl Hrv Hp. destruct (alive_closing _ _ _ _ _ Ht E) as [_ Hal].
  pose proof (al_window _ _ _ _ _ Hal Hcl) as Hwin. pose proof (c_used _ _ (al_core _ _ _ _ _ Hal)) as Hu.
  unfold client_recv_func. wpp_step. apply (wpp_client _ _ cl); [done|].
  wpp_step. apply wpp_passert; [by rewrite Hcl|]. wpp_step. eapply wpp_dead_enter; [exact Ht|exact E|done|].
  intros w1 Hw1 Ht1. assert (E1 : cw_client w1 = Some (cl <| tc_dead := true |>)) by (by subst w1).
  destruct (alive_closing _ _ _ _ _ Ht1 E1) as [Hcg1 Hal1].
  destruct p as [data|].
  - assert (Hz : 0 < zlen data) by (destruct data; [done|rewrite zlen_cons; pose proof (zlen_nonneg data); lia]).
    wpp_step. apply wpp_passert; [lia|]. rewrite usz_small by (unfold TCP_WND, TCP_MSS in *; lia).
    destruct (Z.ltb_spec (TCP_WND - tc_buf_used cl) (zlen data)) as [Hbig|Hfit].
    { wpp_step. eapply wpp_dead_leave; [exact Ht1|]. intros d w2 Ht2 _ _. wpp_step. right. split_and!; [done..|].
      exists data. split; [done|]. lia. }
    destruct (al_core _ _ _ _ _ Hal) as [K1 K2 K3 K4 K5 K6 K7 K8 K9].
    wpp_step. wpp_step. rewrite wr_list_ok by lia. apply wp_ok. wpp_step. eapply wpp_mcl; [exact E1|].
    wpp_step. eapply wpp_mcl; [reflexivity|]. do 2 wpp_step. wpp_step. eapply wpp_client; [reflexivity|].
    assert (Hsl : forall s, 0 <= s -> s <= tc_buf_used cl ->
      slice (splice (tc_buf cl) (tc_buf_used cl) data) s (tc_buf_used cl + zlen data - s)
      = slice (tc_buf cl) s (tc_buf_used cl - s) ++ data).
    { intros s H0 Hs. replace (tc_buf_used cl + zlen data - s) with ((tc_buf_used cl - s) + zlen data) by lia.
      rewrite <- slice_app by lia. f_equal; [by rewrite slice_splice_before by lia|].
      replace (s + (tc_buf_used cl - s)) with (tc_buf_used cl) by lia. by rewrite slice_splice_at by lia. }
    set (h1 := (CTun (PbufFree data), _) :: h).
    set (cl1 := ((cl <| tc_dead := true |>) <| tc_buf := splice (tc_buf cl) (tc_buf_used cl) data |>)
      <| tc_buf_used := tc_buf_used cl + zlen data |>).
    assert (Hpre : sent h1 `prefix_of` taken h1) by (simpl; by apply prefix_app_r).
    assert (Htk : tc_socks_closed cl = false -> unconf cl <= tc_buf_used cl -> 0 <= unconf cl ->
      taken h1 = sent h1 ++ slice (tc_buf cl1) (unconf cl1) (tc_buf_used cl1 - unconf cl1)).
    { intros Hs Hle H0. simpl. rewrite (K4 Hs), <- app_assoc. f_equal.
      change (unconf cl1) with (unconf cl). rewrite <- Hsl by done. f_equal. }
    assert (Hsd : same_down (cl <| tc_dead := true |>) cl1) by (by split_and!).
    assert (Hwd : tc_client_closed (cl <| tc_dead := true |>) = false -> confirmed h1 + tc_buf_used cl1 = zlen (taken h1)).
    { intros _. simpl. rewrite zlen_app. lia. }
    assert (Hlen : zlen (tc_buf cl1) = TCP_WND) by (simpl; rewrite zlen_splice; lia).
    assert (Hcc : (tc_socks_up cl = true -> tc_socks_closed cl = false -> 0 < tc_buf_used cl) -> core cl1 h1).
    { intros Hpos. constructor; simpl; try done; try lia.
      - intros Hs. apply Htk; [done| |]; unfold unconf; (destruct (tc_socks_up cl) eqn:Hup; [|simpl; lia]);
          destruct (K8 eq_refl Hs) as ((_ & _ & S3) & _); simpl;
          (destruct (spi_state (s_output (o_sender (tc_socks cl)))); simpl; lia).
      - intros Hup Hs. destruct (K8 Hup Hs) as ((S1 & S2 & S3) & Hr). split; [|done]. split_and!; [done..|].
        simpl. specialize (Hpos Hup Hs). destruct (spi_state _); [lia| | |]; try (split; [apply S3|]); lia. }
    destruct (al_cbs _ _ _ _ _ Hal Hcl) as (_ & Hsc & _). rewrite Hrv in Hsc.
    assert (Hs : tc_socks_closed cl = false) by (destruct (tc_socks_closed cl); done).
    assert (Hgo : core cl1 h1 -> wpp (d ← dead_leave false; mret (callback_result d)) (w1 <| cw_client := Some cl1 |>) h1
      (callback_post a (aborts h))).
    { intros Hc1. apply wpp_leave. eapply tok_buffer; [exact Ht1|exact E1|reflexivity|done..|simpl; by rewrite Hcl]. }
    assert (Hpost : forall rc w' h', callback_post a (aborts h) rc w' h' -> callback_post a (aborts h) rc w' h' \/
      rc = ERR_MEM /\ tok None a w' h' /\ h' = h /\ exists data0, Some data = Some data0 /\
        TCP_WND - (zlen (taken h) - confirmed h) < zlen data0) by auto.
    simpl tc_socks_up. simpl tc_buf_used at 1. wpp_step.
    destruct (Z.eqb_spec (tc_buf_used cl + zlen data) (zlen data)) as [H0|H0]; simpl andb;
      [destruct (tc_socks_up cl) eqn:Hup|].
    + wpp_step. apply wpp_passert; [simpl; by rewrite Hs|]. destruct (K8 eq_refl Hs) as ((S1 & S2 & S3) & Hr).
      assert (Hst : spi_state (s_output (o_sender (tc_socks cl))) = STATE_NONE) by (destruct (spi_state _); [done|lia..]).
      wpp_step. unfold client_send_to_socks. wpp_step. eapply wpp_client; [reflexivity|].
      wpp_step. apply wpp_passert; [simpl; by rewrite Hs|]. wpp_step. apply wpp_passert; [done|].
      wpp_step. apply wpp_passert; [simpl; lia|]. eapply wpp_socks_send; [reflexivity|simpl; lia|done|].
      eapply wpp_mono; [eapply (wpp_synchronize (Some (aborts h)) a)|].
      * eapply tok_buffer; [exact Ht1|exact E1|reflexivity|done| |done..|simpl; by rewrite Hcl].
        apply core_sending; simpl; try done; try lia.
        -- pose proof (Hsl 0 ltac:(lia) ltac:(lia)) as Hs0. rewrite !Z.sub_0_r in Hs0. rewrite Hs0, app_assoc. f_equal.
           rewrite (K4 Hs), (unconf_none cl Hst). by rewrite Z.sub_0_r.
        -- apply (job_done_false _ _ _ S2). unfold out_of. simpl. congruence.
      * intros [] w2 h2 Ht2. eapply wpp_mono; [by eapply wpp_leave|]. apply Hpost.
    + wpp_step. eapply wpp_mono; [apply Hgo, Hcc; congruence|apply Hpost].
    + cbv iota. wpp_step. eapply wpp_mono; [apply Hgo, Hcc; intros _ _; lia|apply Hpost].
  - wpp_step. eapply wpp_mono; [eapply (wpp_free_client (Some (aborts h)) a 1); [exact Hcg1|done|by apply (al_aborted _ _ _ _ _ Hal1)|]|].
    + rewrite (al_open _ _ _ _ _ Hal1). simpl. by rewrite Hcl.
    + intros [] w2 h2 Ht2. eapply wpp_mono; [by eapply wpp_leave|]. intros ? ? ? ?. by left.
Qed.

Lemma wpp_sent_func a w h cl len js :
  tok None a w h -> cw_client w = Some cl -> tc_client_closed cl = false -> p_sent (cw_pcb w) = true ->
  0 < len <= zlen (written h) - a ->
  wpp (client_sent_func len js) w h (callback_post (a + len) (aborts h)).
Proof.
  intros Ht E Hcl Hsn Hlen. destruct (alive_closing _ _ _ _ _ Ht E) as [_ Hal0].
  destruct (al_cbs _ _ _ _ _ Hal0 Hcl) as (_ & _ & Hup). rewrite Hsn in Hup. symmetry in Hup.
  pose proof (al_pending _ _ _ _ _ Hal0 Hup Hcl) as Hpend.
  unfold client_sent_func. wpp_step. apply (wpp_client _ _ cl); [done|].
  wpp_step. apply wpp_passert; [by rewrite Hcl|]. wpp_step. apply wpp_passert; [done|].
  wpp_step. apply wpp_passert; [zlia|]. wpp_step. apply wpp_passert; [zlia|].
  wpp_step. eapply wpp_dead_enter; [exact Ht|exact E|done|]. intros w1 Hw1 Ht1. set (n := Some (aborts h)) in *.
  set (cl1 := cl <| tc_dead := true |>) in *. assert (E1 : cw_client w1 = Some cl1) by (by subst w1).
  assert (F : tc_client_closed cl1 = false /\ tc_socks_up cl1 = true /\ tc_tcp_pending cl1 = zlen (written h) - a) by done.
  destruct F as (F1 & F2 & F3). clearbody cl1. clear Hw1 Ht E Hcl Hsn Hal0 Hup Hpend cl w.
  destruct (alive_closing _ _ _ _ _ Ht1 E1) as [[_ _ Hg Hf] Hal].
  pose proof Hal as [Hc A1 A2 A3 A4 A5 A6 A7 A8 A9 A10 A11 A12]. rewrite F1 in A1.
  destruct (A6 F2 F1) as [Hp0 Hout]. destruct Hg as (G1 & G2 & G3). rewrite E1 in G3.
  assert (Hn0 : 0 < tc_recv_used cl1 -> sri_state (o_recv_if (tc_socks cl1)) = STATE_NONE).
  { intros Hu. destruct (tc_socks_closed cl1) eqn:Hs; [by apply A12|]. by apply recv_none; [apply Hc|]. }
  set (cl2 := cl1 <| tc_tcp_pending := tc_tcp_pending cl1 - len |>).
  assert (Hfr : forall cl', tc_aborted cl' = tc_aborted cl1 -> tc_dead cl' = tc_dead cl1 ->
    frame_ok n (w1 <| cw_client := Some cl' |>) h).
  { intros cl' H1 H2. eapply frame_same; [exact Hf|done|done| |by rewrite E1]. intros cl0. rewrite E1.
    intros [= <-]. by exists cl'. }
  wpp_step. eapply wpp_mcl; [exact E1|]. wpp_step. eapply wpp_client; [reflexivity|]. fold cl2.
  wpp_step. apply (wpp_mono _ _ _ (fun _ => tok n (a + len))); [|intros [] w' h' Ht'; by apply wpp_leave].
  change (tc_recv_used cl2) with (tc_recv_used cl1). destruct (Z.ltb_spec 0 (tc_recv_used cl1)) as [Hu|Hu].
  - destruct Hout as [?|(O1 & O2 & O3 & O4)]; [lia|].
    wpp_step. apply wpp_passert; [done|]. wpp_step. apply wpp_passert; [simpl; zlia|].
    wpp_step. eapply wpp_mcl; [reflexivity|].
    apply (wpp_after_send_out n (a + len) _ h (cl2 <| tc_recv_waiting := false |>)); [|simpl; zlia|done|by apply Hn0|].
    + constructor; simpl; try done; try zlia.
      * constructor; [done| |by split_and!|by apply Hfr]. by destruct Hc.
      * by apply A2.
      * destruct (A3 F1) as (? & ? & ?). split_and!; congruence.
      * by apply A9.
      * by apply A10.
    + intros w' h' cl' E' Hpd Hn. cbv beta. wpp_step. apply wpp_passert; [pose proof (pd_pending _ _ _ _ _ _ Hpd); lia|].
      destruct (passed_next _ _ _ _ _ _ (fun _ _ => True) Hpd E' Hn) as [(-> & -> & Hw)|[Hne Htok]].
      * simpl. wpp_step. eapply wpp_mono; [exact Hw|]. intros [] w'' h'' Ht'. by apply wpp_synchronize.
      * destruct (Z.eqb_spec (tc_recv_used cl') (-1)) as [Hu'|Hu']; [rewrite (Hne Hu')|]; simpl; by wpp_step.
  - assert (Hu' : tc_recv_used cl1 = -1) by zlia.
    change (tc_socks_closed cl2) with (tc_socks_closed cl1).
    assert (Hkeep : (tc_socks_closed cl1 = true -> 0 < tc_tcp_pending cl2) -> tok n (a + len) (w1 <| cw_client := Some cl2 |>) h).
    { intros Hpos. eapply tok_keep; [exact Ht1|exact E1|reflexivity|done|done|done|].
      constructor; simpl; try done; try congruence; try zlia.
      - by destruct Hc.
      - intros Hs. split; [done|]. right. by apply Hpos.
      - intros _ _. split; [simpl; zlia|]. by left. }
    destruct (tc_socks_closed cl1) eqn:Hs; simpl.
    + destruct (Z.eqb_spec (tc_tcp_pending cl1 - len) 0) as [Hz|Hz].
      * apply (wpp_free_client n (a + len) 1 _ _ cl2); [|exact F1|exact (A2 F1)|simpl; by rewrite A1].
        constructor; [done|by destruct Hc|by split_and!|by apply Hfr].
      * wpp_step. apply Hkeep. intros _. simpl. zlia.
    + wpp_step. apply Hkeep. done.
Qed.

Lemma wpp_err_func a w h cl err :
  tok None a w h -> cw_client w = Some cl -> tc_client_closed cl = false ->
  wpp (pcb_gone;; client_err_func err) w h (fun _ => tok None a).
Proof.
  intros Ht E Hcl. destruct (alive_closing _ _ _ _ _ Ht E) as [[_ Hc Hg Hf] _].
  unfold pcb_gone, client_err_func. wpp_step. wpp_step. wpp_step. eapply wpp_client; [exact E|].
  wpp_step. apply wpp_passert; [by rewrite Hcl|]. eapply (wpp_handle_freed None a 2); [|exact Hcl|done].
  constructor; [done|done|by unfold globals_ok|]. eapply frame_same; [exact Hf|done|done| |done]. intros cl0 ?. by exists cl0.
Qed.

Lemma wpp_murder a w h cl :
  tok None a w h -> cw_client w = Some cl ->
  wpp client_murder w h (fun _ w' h' => tok None a w' h' /\ cw_client w' = None).
Proof.
  intros Ht E. destruct (alive_closing _ _ _ _ _ Ht E) as [Hcg Hal].
  assert (Hend : forall w h cl, closing None w cl h -> tc_client_closed cl = true -> p_open (cw_pcb w) = false ->
    wpp (cl ← client; (if negb (tc_socks_closed cl)
       then on_socks BSocksClient_Free;; mcl (fun cl => cl <| tc_socks_closed := true |>) else mret tt);;
       client_dealloc) w h (fun _ w' h' => tok None a w' h' /\ cw_client w' = None)).
  { clear. intros w h cl [E Hc Hg Hf] Hcl Hp. pose proof Hg as (G1 & G2 & G3). rewrite E in G3.
    wpp_step. apply (wpp_client _ _ cl); [done|]. wpp_step. destruct (tc_socks_closed cl) eqn:Hs; simpl.
    - wpp_step. by eapply wpp_dealloc_none.
    - wpp_step. eapply wpp_on_socks; [exact E|]. apply wpp_socks_free. intros o h' _ _ Hd Ha Hfr.
      eapply wpp_mcl; [reflexivity|]. eapply wpp_dealloc_none; [reflexivity|by eapply core_freed|done|done|done|by split_and!|].
      eapply frame_same; [exact Hf|done|done| |by rewrite E]. intros cl0. rewrite E. intros [= <-]. by eexists. }
  unfold client_murder. wpp_step. apply (wpp_client _ _ cl); [done|]. wpp_step.
  pose proof (al_open _ _ _ _ _ Hal) as Hp. pose proof Hcg as [_ Hc (G1 & G2 & G3) Hf]. rewrite E in G3.
  destruct (tc_client_closed cl) eqn:Hcl; simpl; [wpp_step; by eapply Hend|].
  wpp_step. apply wpp_remove_callbacks; [done|]. intros p ->. wpp_step.
  eapply wpp_abort_pcb; [exact E|by apply (al_aborted _ _ _ _ _ Hal)|done|done| |].
  - eapply frame_same; [exact Hf|done|done| |by rewrite E]. intros cl0 ?. by exists cl0.
  - intros r f w' h' -> -> Hf'. eapply wpp_mcl; [reflexivity|].
    eapply (Hend _ _ ((cl <| tc_aborted := true |>) <| tc_client_closed := true |>)); [|done|done].
    constructor; [done| |by split_and!|].
    + apply core_closed, core_aborted. by eapply core_data.
    + eapply frame_same; [exact Hf'|done|done| |done]. intros cl0 [= <-]. by eexists.
Qed.
End callbacks.

(** ** The client with its surroundings *)
Record tcp_link : Type := TcpLink { t_w : cworld; t_h : hist; t_acked : Z }.

(** A job of the reactor; lwIP's error, receive and sent callbacks, with the jobs that run
    while a callback synchronizes; the end of the program. *)
Inductive tcp_event : Type :=
  | TJob (j : job)
  | TErr (err : Z)
  | TRecv (p : option (list Z)) (js : list job)
  | TSent (len : Z) (js : list job)
  | TMurder.

(** lwIP calls what is set on a pcb that is not gone, and reports only bytes it took. *)
Definition tcp_enabled (l : tcp_link) (ev : tcp_event) : Prop :=
  let w := t_w l in
  match ev with
  | TJob j => job_ready w j = true
  | TErr _ => p_open (cw_pcb w) = true /\ p_errf (cw_pcb w) = true
  | TRecv p _ => p_open (cw_pcb w) = true /\ p_recv (cw_pcb w) = true /\ p <> Some []
  | TSent len _ => p_open (cw_pcb w) = true /\ p_sent (cw_pcb w) = true /\ 0 < len <= zlen (written (t_h l)) - t_acked l
  | TMurder => is_Some (cw_client w)
  end.

Section link.
Context {OS : Os}.

Definition tcp_do (l : tcp_link) (acked : Z) (m : Prog cworld Z) : res (tcp_link * Z) :=
  match m (t_w l) (t_h l) with
  | Ok (rc, w, h) => Ok (TcpLink w h acked, rc)
  | Ub => Ub
  | Fuel => Fuel
  end.
Definition tcp_run (l : tcp_link) (ev : tcp_event) : res (tcp_link * Z) :=
  match ev with
  | TJob j => tcp_do l (t_acked l) (run_job j;; mret ERR_OK)
  | TErr err => tcp_do l (t_acked l) (pcb_gone;; client_err_func err;; mret ERR_OK)
  | TRecv p js => tcp_do l (t_acked l) (client_recv_func p js)
  | TSent len js => tcp_do l (t_acked l + len) (client_sent_func len js)
  | TMurder => tcp_do l (t_acked l) (client_murder;; mret ERR_OK)
  end.
Inductive tcp_reach (l0 : tcp_link) : tcp_link -> Prop :=
  | tcp_reach_refl : tcp_reach l0 l0
  | tcp_reach_step l ev l' rc : tcp_reach l0 l -> tcp_enabled l ev -> tcp_run l ev = Ok (l', rc) -> tcp_reach l0 l'.

(** A pcb as lwIP hands it to the listener. *)
Definition fresh_pcb (p : pcb) : Prop := p_open p = true /\ p_sent p = false.
(** [listener_accept_func] accepted a connection, when [others] were being served; the
    history begins here. *)
Definition accepted (l : tcp_link) : Prop :=
  exists size p lip rip lport rport server auth mem js self pcb0 others rc,
    fresh_pcb p /\ NoDup others /\ (rv (os_reply [] (CMalloc size)) ∉ others) /\
    ba_type server <> BADDR_TYPE_NONE /\ auth_ok auth /\
    zlen (tc_buf mem) = TCP_WND /\ zlen (tc_recv_buf mem) = CLIENT_SOCKS_RECV_BUF_SIZE /\
    listener_accept_func size p lip rip lport rport server auth mem js
      (Cworld self None pcb0 None (zlen others) others) [] = Ok (rc, t_w l, t_h l) /\
    rc <> ERR_MEM /\ t_acked l = 0.

Lemma wpp_socks_init server auth dest udp o h (Q : bool -> BSocksClient -> hist -> Prop) :
  ba_type server <> BADDR_TYPE_NONE -> auth_ok auth ->
  (forall b o' r, Q b o' ((CConnectorInit (ba_body server), r) :: h)) ->
  wpp (BSocksClient_Init server auth dest udp) o h Q.
Proof.
  intros Hs Ha HQ. unfold BSocksClient_Init. wpp_step. apply wpp_passert; [by apply negb_true_iff, Z.eqb_neq|].
  wpp_step. apply wpp_passert.
  { apply forallb_forall. intros ai Hin. apply list_elem_of_In in Hin.
    destruct (proj1 (Forall_forall _ _) Ha ai Hin) as [[->| ->] _]; done. }
  do 4 wpp_step. unfold set_state. case_match; repeat wpp_step; apply HQ.
Qed.

(** The listener's callback: a client in order, or nothing. *)
Lemma wpp_accept size p lip rip lport rport server auth mem js self pcb0 others :
  fresh_pcb p -> NoDup others -> rv (os_reply [] (CMalloc size)) ∉ others ->
  ba_type server <> BADDR_TYPE_NONE -> auth_ok auth ->
  zlen (tc_buf mem) = TCP_WND -> zlen (tc_recv_buf mem) = CLIENT_SOCKS_RECV_BUF_SIZE ->
  wpp (listener_accept_func size p lip rip lport rport server auth mem js)
    (Cworld self None pcb0 None (zlen others) others) []
    (fun rc w h => (rc = ERR_MEM /\ cw_client w = None /\ cw_tcp_clients w = others /\ cw_num_clients w = zlen others) \/
       callback_post 0 0 rc w h).
Proof.
  intros [Hp Hsn] Hnd Hfresh Hs Ha Hb Hrb. unfold listener_accept_func. repeat tc_step.
  destruct (rv _ =? 0); [tc_step; by left|]. repeat tc_step. eapply wpp_on_socks; [reflexivity|].
  apply wpp_socks_init; [done|done|]. intros [] o r; simpl; [|repeat tc_step; by left].
  repeat tc_step. apply wpp_passert; [simpl; pose proof (zlen_nonneg others); lia|].
  repeat tc_step. unfold tcp_arg, tcp_err, tcp_recv.
  apply wpp_mpcb; [done|]. tc_step. apply wpp_mpcb; [done|]. tc_step. apply wpp_mpcb; [done|]. repeat tc_step.
  eapply (wpp_dead_enter 0); [|reflexivity|done|].
  - constructor; simpl.
    + unfold globals_ok. simpl. split_and!.
      * apply NoDup_app. split_and!; [done| |by apply NoDup_singleton]. intros x Hx Hx'.
        apply list_elem_of_singleton in Hx' as ->. done.
      * rewrite zlen_app. done.
      * apply elem_of_app. right. by apply list_elem_of_singleton.
    + done.
    + constructor; simpl; try done.
  - intros w' -> Ht. wpp_step. eapply wpp_mono; [by apply (wpp_synchronize (Some 0) 0)|].
    intros [] w'' h'' Ht''. eapply wpp_mono; [by eapply wpp_leave|]. intros ? ? ? ?. by right.
Qed.

Definition link_ok (l : tcp_link) : Prop := tok None (t_acked l) (t_w l) (t_h l).
Lemma accepted_ok l : accepted l -> link_ok l.
Proof.
  intros (size & p & lip & rip & lport & rport & server & auth & mem & js & self & pcb0 & others & rc & H1 & H2 & H3 & H4 & H5 & H6 & H7 & Hrun & Hrc & Ha).
  pose proof (wpp_accept size p lip rip lport rport server auth mem js self pcb0 others H1 H2 H3 H4 H5 H6 H7) as Hw.
  unfold wpp in Hw. rewrite Hrun in Hw. unfold link_ok. rewrite Ha. destruct Hw as [[? _]|[Ht _]]; done.
Qed.

(** the callbacks of lwIP, whose result lwIP looks at *)
Definition is_callback (ev : tcp_event) : bool := match ev with TRecv _ _ | TSent _ _ => true | _ => false end.

Lemma client_open l : link_ok l -> p_open (cw_pcb (t_w l)) = true ->
  exists cl, cw_client (t_w l) = Some cl /\ tc_client_closed cl = false.
Proof.
  intros [_ _ Hc] Hp. destruct (cw_client (t_w l)) as [cl|].
  - exists cl. split; [done|]. pose proof (al_open _ _ _ _ _ Hc) as Ho. destruct (tc_client_closed cl); simpl in Ho; congruence.
  - destruct Hc as (? & _). congruence.
Qed.

(** What one event does. *)
Lemma tcp_step l ev : link_ok l -> tcp_enabled l ev ->
  exists l' rc, tcp_run l ev = Ok (l', rc) /\ link_ok l' /\
    (is_callback ev = true -> aborts (t_h l') = aborts (t_h l) + (if rc =? ERR_ABRT then 1 else 0)) /\
    (forall data js, ev = TRecv (Some data) js -> zlen data <= TCP_WND - (zlen (taken (t_h l)) - confirmed (t_h l)) -> rc <> ERR_MEM) /\
    (ev = TMurder -> cw_client (t_w l') = None).
Proof.
  intros Hl He. unfold link_ok in Hl.
  assert (Hdo : forall m acked (P : Z -> cworld -> hist -> Prop), wpp m (t_w l) (t_h l) P ->
    exists l' rc, tcp_do l acked m = Ok (l', rc) /\ t_acked l' = acked /\ P rc (t_w l') (t_h l')).
  { intros m acked P Hw. destruct (wpp_inv _ _ _ _ Hw) as (rc & w & h & E & HP). unfold tcp_do. rewrite E. eauto. }
  destruct ev as [j|err|p js|len js|]; simpl in *.
  - destruct (Hdo (run_job j;; mret ERR_OK) (t_acked l) (fun _ w h => tok None (t_acked l) w h)) as (l' & rc & E & Ea & Ht).
    { wpp_step. eapply wpp_mono; [by apply wpp_job|]. intros [] w h Ht. by wpp_step. }
    exists l', rc. unfold link_ok. rewrite Ea. by split_and!.
  - destruct He as [Hp _]. destruct (client_open l Hl Hp) as (cl & Ec & Hcl).
    destruct (Hdo (pcb_gone;; client_err_func err;; mret ERR_OK) (t_acked l) (fun _ w h => tok None (t_acked l) w h)) as (l' & rc & E & Ea & Ht).
    { pose proof (wpp_err_func _ _ _ _ err Hl Ec Hcl) as Hw. unfold pcb_gone in *. do 2 wpp_step. wpp_step.
      eapply wpp_mono; [exact Hw|]. intros [] w h Ht. by wpp_step. }
    exists l', rc. unfold link_ok. rewrite Ea. by split_and!.
  - destruct He as (Hp & Hr & Hne). destruct (client_open l Hl Hp) as (cl & Ec & Hcl).
    destruct (Hdo _ (t_acked l) _ (wpp_recv_func _ _ _ _ p js Hl Ec Hcl Hr Hne)) as (l' & rc & E & Ea & Ht).
    exists l', rc. unfold link_ok. rewrite Ea. split; [done|].
    destruct Ht as [(Ht & Hab & Hrc)|(-> & Ht & Hh & data & -> & Hbig)].
    + split_and!; try done. intros data js' _ _ ->. by destruct Hrc.
    + split_and!; try done; [rewrite Hh; simpl; lia|]. intros data' js' [= <- <-] Hle. lia.
  - destruct He as (Hp & Hs & Hlen). destruct (client_open l Hl Hp) as (cl & Ec & Hcl).
    destruct (Hdo _ (t_acked l + len) _ (wpp_sent_func _ _ _ _ len js Hl Ec Hcl Hs Hlen)) as (l' & rc & E & Ea & Ht & Hab & Hrc).
    exists l', rc. unfold link_ok. rewrite Ea. by split_and!.
  - destruct He as [cl Ec].
    destruct (Hdo (client_murder;; mret ERR_OK) (t_acked l) (fun _ w h => tok None (t_acked l) w h /\ cw_client w = None)) as (l' & rc & E & Ea & Ht & Hn).
    { wpp_step. eapply wpp_mono; [by eapply wpp_murder|]. intros [] w h [Ht ?]. by wpp_step. }
    exists l', rc. unfold link_ok. rewrite Ea. by split_and!.
Qed.
Lemma tcp_reach_ok l0 l : accepted l0 -> tcp_reach l0 l -> link_ok l.
Proof.
  intros Ha Hr. induction Hr as [|l ev l' rc _ IH He Hrun]; [by apply accepted_ok|].
  destruct (tcp_step l ev IH He) as (l2 & rc2 & Hrun2 & Hok & _). rewrite Hrun in Hrun2. by injection Hrun2 as <- <-.
Qed.
End link.

(** C2: The TCP client of tun2socks is safe. In every state reached from an accepted
    connection, whatever lwIP, the SOCKS server, the allocator and the order of jobs
    do: each enabled event runs without a failed assertion, an access to a freed client,
    to a pcb that is lwIP's again or outside a buffer; a callback answers [ERR_ABRT]
    exactly when it aborted the pcb, as lwIP demands; [client_murder] frees the client;
    the client is in the list of clients exactly while it lives, and [num_clients]
    counts the list; once it is freed its pcb is gone and its SOCKS client was freed
    exactly once. *)
Theorem tcp_client_safe {OS : Os} l0 l : accepted l0 -> tcp_reach l0 l ->
  (forall ev, tcp_enabled l ev -> exists l' rc, tcp_run l ev = Ok (l', rc) /\
    (is_callback ev = true -> aborts (t_h l') = aborts (t_h l) + (if rc =? ERR_ABRT then 1 else 0)) /\
    (ev = TMurder -> cw_client (t_w l') = None)) /\
  NoDup (cw_tcp_clients (t_w l)) /\ cw_num_clients (t_w l) = zlen (cw_tcp_clients (t_w l)) /\
  (cw_self (t_w l) ∈ cw_tcp_clients (t_w l) <-> is_Some (cw_client (t_w l))) /\
  (cw_client (t_w l) = None -> p_open (cw_pcb (t_w l)) = false /\ socks_frees (t_h l) = 1).
Proof.
  intros Ha Hr. pose proof (tcp_reach_ok _ _ Ha Hr) as Hl. split.
  - intros ev He. destruct (tcp_step l ev Hl He) as (l' & rc & E & _ & Hab & _ & Hm). by exists l', rc.
  - destruct Hl as [(G1 & G2 & G3) _ Hc]. split; [done|]. split; [done|].
    destruct (cw_client (t_w l)) as [cl|].
    + split; [|done]. by split; [intros _; exists cl|].
    + split; [|by destruct Hc as (? & _ & _ & ?)]. split; [done|by intros []].
Qed.

Lemma inflight_len r a w cl h : alive r a w cl h -> tc_socks_up cl = true -> tc_client_closed cl = false ->
  tc_socks_closed cl = false -> zlen (inflight cl) <= CLIENT_SOCKS_RECV_BUF_SIZE.
Proof.
  intros Hal Hu Hcl Hs. destruct (al_out _ _ _ _ _ Hal Hu Hcl) as [_ Ho]. pose proof (al_core _ _ _ _ _ Hal) as Hc.
  destruct (c_up _ _ Hc Hu Hs) as [_ (_ & _ & Hrv)]. pose proof (c_rbuf _ _ Hc) as Hb. unfold inflight.
  destruct (Z.ltb_spec 0 (tc_recv_used cl)).
  - destruct Ho as [?|(? & ? & _)]; [zlia|]. rewrite zlen_slice; zlia.
  - destruct (sri_state _); simpl; try done. rewrite zlen_slice; zlia.
Qed.

(** C3: The TCP client relays the two streams. In every state reached from an accepted
    connection: what the SOCKS connection took is a prefix of what lwIP delivered, and
    what lwIP took a prefix of what the SOCKS connection brought, nothing lost, repeated
    or reordered. While the SOCKS side is open, what it did not take yet is in the
    buffer, which never holds more than the window; while lwIP's side is open, exactly
    the buffered bytes are unconfirmed, so that data within lwIP's window is never
    refused; and while both are, at most one receive buffer is on its way to lwIP. *)
Theorem tcp_client_relay {OS : Os} l0 l : accepted l0 -> tcp_reach l0 l ->
  let w := t_w l in let h := t_h l in
  sent h `prefix_of` taken h /\ written h `prefix_of` got h /\
  (forall cl, cw_client w = Some cl ->
     (tc_socks_closed cl = false -> exists rest, taken h = sent h ++ rest /\
        rest = slice (tc_buf cl) (unconf cl) (tc_buf_used cl - unconf cl) /\ tc_buf_used cl <= TCP_WND) /\
     (tc_client_closed cl = false -> zlen (taken h) - confirmed h = tc_buf_used cl) /\
     (tc_client_closed cl = false -> tc_socks_closed cl = false -> tc_socks_up cl = true ->
        exists rest, got h = written h ++ rest /\ zlen rest <= CLIENT_SOCKS_RECV_BUF_SIZE)) /\
  (forall data js l' rc, tcp_enabled l (TRecv (Some data) js) ->
     zlen data <= TCP_WND - (zlen (taken h) - confirmed h) ->
     tcp_run l (TRecv (Some data) js) = Ok (l', rc) -> rc <> ERR_MEM).
Proof.
  intros Ha Hr w h. pose proof (tcp_reach_ok _ _ Ha Hr) as Hl. pose proof Hl as [_ _ Hc]. fold w h in Hc.
  split; [|split; [|split]].
  - destruct (cw_client w); [apply Hc|]. by destruct Hc as (_ & ? & _).
  - destruct (cw_client w); [apply Hc|]. by destruct Hc as (_ & _ & ? & _).
  - intros cl E. rewrite E in Hc. pose proof (al_core _ _ _ _ _ Hc) as Hk. split_and!.
    + intros Hs. eexists. split_and!; [by apply (c_in _ _ Hk)|done|apply (c_used _ _ Hk)].
    + intros Hcl. pose proof (al_window _ _ _ _ _ Hc Hcl). lia.
    + intros Hcl Hs Hu. exists (inflight cl). split; [by apply (al_got _ _ _ _ _ Hc)|by eapply inflight_len].
  - intros data js l' rc He Hlen Hrun. destruct (tcp_step l _ Hl He) as (l2 & rc2 & E & _ & _ & Hw & _).
    rewrite Hrun in E. injection E as <- <-. by eapply Hw.
Qed.

Definition is_send_job (j : job) : bool := match j with JSendOp | JSendConn _ | JSendDone => true | _ => false end.
Definition is_recv_job (j : job) : bool := match j with JRecvOp | JRecvConn _ | JRecvDone => true | _ => false end.

Lemma send_under_way w cl : cw_client w = Some cl -> send_ok cl -> tc_socks_up cl = true ->
  tc_socks_closed cl = false -> 0 < tc_buf_used cl -> exists j, is_send_job j = true /\ job_ready w j = true.
Proof.
  intros E (H1 & H2 & H3) Hu Hs Hb. unfold job_ready. rewrite E, Hs, Hu.
  destruct (spi_state (s_output (o_sender (tc_socks cl)))) eqn:Est.
  - lia.
  - exists JSendOp. split; [done|]. simpl. by apply H1.
  - exists (JSendConn 1). split; [done|]. simpl. destruct H3. apply Z.leb_le. lia.
  - exists JSendDone. split; [done|]. simpl. by apply H2.
Qed.
Lemma recv_under_way w cl : cw_client w = Some cl -> recv_ok cl -> tc_socks_up cl = true ->
  tc_socks_closed cl = false -> sri_state (o_recv_if (tc_socks cl)) <> STATE_NONE ->
  exists j, is_recv_job j = true /\ job_ready w j = true.
Proof.
  intros E (H1 & H2 & H3) Hu Hs Hn. unfold job_ready. rewrite E, Hs, Hu.
  destruct (sri_state (o_recv_if (tc_socks cl))) eqn:Est.
  - done.
  - exists JRecvOp. split; [done|]. simpl. by apply H1.
  - exists (JRecvConn [0]). split; [done|]. destruct H3 as (_ & _ & ->). done.
  - exists JRecvDone. split; [done|]. simpl. by apply H2.
Qed.

(** C4: A live TCP client is never stuck. In every state reached from an accepted
    connection: before its SOCKS client is up it is open, so an event of it is still to
    come; buffered data has a send under way, also after the application closed its
    side; while both sides are open and nothing waits for lwIP, a receive is under way;
    and when data waits for room in lwIP, or the SOCKS side is closed and lwIP's not,
    bytes are outstanding and the sent callback is set, so that the acknowledgement of
    the network restarts it. *)
Theorem tcp_client_progress {OS : Os} l0 l cl : accepted l0 -> tcp_reach l0 l -> cw_client (t_w l) = Some cl ->
  (tc_socks_up cl = false -> tc_socks_closed cl = false) /\
  (tc_client_closed cl = true -> tc_socks_closed cl = false /\ 0 < tc_buf_used cl) /\
  (tc_socks_up cl = true -> tc_socks_closed cl = false -> 0 < tc_buf_used cl ->
     exists j, is_send_job j = true /\ tcp_enabled l (TJob j)) /\
  (tc_socks_up cl = true -> tc_socks_closed cl = false -> tc_client_closed cl = false -> tc_recv_used cl <= 0 ->
     exists j, is_recv_job j = true /\ tcp_enabled l (TJob j)) /\
  (tc_socks_up cl = true -> tc_client_closed cl = false -> tc_socks_closed cl = true \/ 0 < tc_recv_used cl ->
     forall js, tcp_enabled l (TSent (zlen (written (t_h l)) - t_acked l) js)).
Proof.
  intros Ha Hr E. destruct (tcp_reach_ok _ _ Ha Hr) as [_ _ Hc]. rewrite E in Hc. pose proof (al_core _ _ _ _ _ Hc) as Hk.
  split_and!.
  - intros Hu. destruct (tc_socks_closed cl) eqn:Hs; [|done]. destruct (al_sclosed _ _ _ _ _ Hc Hs). congruence.
  - apply (al_closed _ _ _ _ _ Hc).
  - intros Hu Hs Hb. destruct (c_up _ _ Hk Hu Hs) as [Hsd _]. by eapply send_under_way.
  - intros Hu Hs Hcl Hn. destruct (c_up _ _ Hk Hu Hs) as [_ Hrv]. eapply recv_under_way; [done..|].
    intros Hst. pose proof (al_recv _ _ _ _ _ Hc eq_refl Hu Hcl Hs Hst). lia.
  - intros Hu Hcl Hor js. simpl. pose proof (al_open _ _ _ _ _ Hc) as Ho. rewrite Hcl in Ho.
    destruct (al_cbs _ _ _ _ _ Hc Hcl) as (_ & _ & Hsn). split_and!; [done|congruence| |done].
    rewrite <- (al_pending _ _ _ _ _ Hc Hu Hcl). destruct (al_out _ _ _ _ _ Hc Hu Hcl) as [Hp Ho2].
    destruct Hor as [Hs|?]; [destruct (al_sclosed _ _ _ _ _ Hc Hs) as [_ [?|?]]|]; zlia.
Qed.

(** ** A client that lives and ends

    Three bytes from the application, taken in two pieces; five from the server, for
    which lwIP has room for four at first; the application closes before the last byte
    is taken, and the client is freed when it was. *)
#[local] Instance demo_os : Os := fun h c =>
  Ret (match c with CMalloc _ => 4096 | CConnectorInit _ => 1 | CTun (TcpSndbuf _) => match h with (CTun (TcpWrite _ _), _) :: _ => 0 | _ => 4 end | _ => 0 end) 0 [].

Definition demo_pcb : pcb := Pcb 9 true false false false false.
Definition demo_mem : tcp_client := TcpClient_ true true (BAddr_ 0 []) (BAddr_ 0 []) true (replicate (Z.to_nat TCP_WND) 0) 7
  client0 true true (replicate (Z.to_nat CLIENT_SOCKS_RECV_BUF_SIZE) 0) 0 0 false 0.
Definition tcp_link_of (r : res (tcp_link * Z)) : tcp_link :=
  match r with Ok (l, _) => l | _ => TcpLink (Cworld 0 None demo_pcb None 0 []) [] 0 end.
Definition tcp0 : tcp_link := tcp_link_of (tcp_do (TcpLink (Cworld 0 None demo_pcb None 1 [77]) [] 0) 0
  (listener_accept_func 14500 demo_pcb (IpAddr false [93; 184; 216; 34]) (IpAddr false [10; 111; 222; 1]) 443 40000
     (BAddr_MakeIPv4 [127; 0; 0; 1] [4; 56]) demo_auth demo_mem [])).
Lemma tcp0_accepted : accepted tcp0.
Proof.
  exists 14500, demo_pcb, (IpAddr false [93; 184; 216; 34]), (IpAddr false [10; 111; 222; 1]), 443, 40000,
    (BAddr_MakeIPv4 [127; 0; 0; 1] [4; 56]), demo_auth, demo_mem, [], 0, demo_pcb, [77], 0.
  split; [by split|]. split; [apply NoDup_singleton|].
  split; [intros Hin; by apply list_elem_of_singleton in Hin|]. split; [done|]. split; [exact demo_auth_ok|].
  do 3 (split; [vm_compute; reflexivity|]). split; [discriminate|reflexivity].
Qed.

Definition tcp_enabledb (l : tcp_link) (ev : tcp_event) : bool :=
  let w := t_w l in
  match ev with
  | TJob j => job_ready w j
  | TErr _ => p_open (cw_pcb w) && p_errf (cw_pcb w)
  | TRecv p _ => p_open (cw_pcb w) && p_recv (cw_pcb w) && match p with Some [] => false | _ => true end
  | TSent len _ => p_open (cw_pcb w) && p_sent (cw_pcb w) && (0 <? len) && (len <=? zlen (written (t_h l)) - t_acked l)
  | TMurder => match cw_client w with Some _ => true | None => false end
  end.
Lemma tcp_enabledb_ok l ev : tcp_enabledb l ev = true -> tcp_enabled l ev.
Proof.
  destruct ev as [j|err|p js|len js|]; simpl; rewrite ?andb_true_iff; try done.
  - intros [[? ?] ?]. split_and!; [done..|]. by intros ->.
  - intros [[[? ?] ?] ?]. split_and!; [done..|lia|lia].
  - destruct (cw_client _); [by eexists|done].
Qed.
Fixpoint tcp_runnable (l : tcp_link) (evs : list tcp_event) : bool :=
  match evs with
  | [] => true
  | ev :: evs => tcp_enabledb l ev && match tcp_run l ev with Ok (l', _) => tcp_runnable l' evs | _ => false end
  end.
Definition tcp_play (l : tcp_link) (evs : list tcp_event) : tcp_link :=
  fold_left (fun l ev => tcp_link_of (tcp_run l ev)) evs l.
Lemma tcp_runnable_reach l0 l evs : tcp_reach l0 l -> tcp_runnable l evs = true -> tcp_reach l0 (tcp_play l evs).
Proof.
  revert l. induction evs as [|ev evs IH]; intros l Hr; [done|]. simpl. intros [He Hrun]%andb_true_iff.
  destruct (tcp_run l ev) as [[l' rc]| |] eqn:E; [|done..]. simpl. apply IH; [|done].
  apply (tcp_reach_step _ l ev _ rc); [done|by apply tcp_enabledb_ok|done].
Qed.

Definition tcp_mid_events : list tcp_event :=
  [TRecv (Some [71; 69; 84]) []; TJob (JSocks BSOCKSCLIENT_EVENT_UP (client0 <| o_state := STATE_UP |>));
   TJob JSendOp; TJob (JSendConn 2); TJob JSendDone;
   TJob JRecvOp; TJob (JRecvConn [72; 84; 84; 80; 47]); TJob JRecvDone].
Definition tcp_end_events : list tcp_event :=
  [TSent 4 []; TRecv None []; TJob JSendOp; TJob (JSendConn 1); TJob JSendDone].
Definition tcp_mid : tcp_link := tcp_play tcp0 tcp_mid_events.
Definition tcp_end : tcp_link := tcp_play tcp_mid tcp_end_events.
Lemma tcp_demo_mid : tcp_reach tcp0 tcp_mid.
Proof. apply tcp_runnable_reach; [apply tcp_reach_refl|vm_compute; reflexivity]. Qed.
Lemma tcp_demo_end : tcp_reach tcp0 tcp_end.
Proof. apply tcp_runnable_reach; [apply tcp_demo_mid|vm_compute; reflexivity]. Qed.

Lemma tcp_client_safe_witness :
  cw_client (t_w tcp_end) = None /\ cw_tcp_clients (t_w tcp_end) = [77] /\ cw_num_clients (t_w tcp_end) = 1 /\
  socks_frees (t_h tcp_end) = 1 /\ aborts (t_h tcp_end) = 0 /\
  (exists l' rc, tcp_run tcp_mid TMurder = Ok (l', rc) /\ cw_client (t_w l') = None).
Proof.
  destruct (tcp_client_safe tcp0 tcp_end tcp0_accepted tcp_demo_end) as (_ & _ & _ & _ & He).
  destruct (tcp_client_safe tcp0 tcp_mid tcp0_accepted tcp_demo_mid) as [Hr _].
  split; [vm_compute; reflexivity|]. split; [vm_compute; reflexivity|]. split; [vm_compute; reflexivity|].
  split; [apply He; vm_compute; reflexivity|]. split; [vm_compute; reflexivity|].
  destruct (Hr TMurder) as (l' & rc & E & _ & Hm); [by apply tcp_enabledb_ok; vm_compute|].
  exists l', rc. split; [exact E|by apply Hm].
Defined.

Lemma tcp_client_relay_witness :
  taken (t_h tcp_end) = [71; 69; 84] /\ sent (t_h tcp_end) = [71; 69; 84] /\
  got (t_h tcp_end) = [72; 84; 84; 80; 47] /\ written (t_h tcp_mid) = [72; 84; 84; 80] /\
  sent (t_h tcp_end) `prefix_of` taken (t_h tcp_end) /\ written (t_h tcp_mid) `prefix_of` got (t_h tcp_mid).
Proof.
  destruct (tcp_client_relay tcp0 tcp_end tcp0_accepted tcp_demo_end) as (H1 & _).
  destruct (tcp_client_relay tcp0 tcp_mid tcp0_accepted tcp_demo_mid) as (_ & H2 & _).
  do 4 (split; [vm_compute; reflexivity|]). by split.
Defined.

Definition tcp_mid_cl : tcp_client := match cw_client (t_w tcp_mid) with Some cl => cl | None => demo_mem end.
Lemma tcp_mid_client : cw_client (t_w tcp_mid) = Some tcp_mid_cl.
Proof. vm_compute. reflexivity. Qed.

Lemma tcp_client_progress_witness :
  tc_buf_used tcp_mid_cl = 1 /\ tc_recv_waiting tcp_mid_cl = true /\
  tcp_enabled tcp_mid (TSent (zlen (written (t_h tcp_mid)) - t_acked tcp_mid) []) /\
  exists j, is_send_job j = true /\ tcp_enabled tcp_mid (TJob j).
Proof.
  destruct (tcp_client_progress tcp0 tcp_mid tcp_mid_cl tcp0_accepted tcp_demo_mid tcp_mid_client) as (_ & _ & Hs & _ & Hw).
  split; [vm_compute; reflexivity|]. split; [vm_compute; reflexivity|]. split.
  - apply Hw; [vm_compute; reflexivity|vm_compute; reflexivity|right; vm_compute; reflexivity].
  - apply Hs; vm_compute; reflexivity.
Defined.
