(* ===== verification/PacketFacts.v ===== *)
(** Facts about Packet: the checksums are one's complement sums of big-endian words, and
    the checks find the parts of a packet. *)
From S2P Require Import Prelude CMem PktSum PktSumFacts Flow TcpClient Packet.

#[global] Arguments udp_checksum_summer : simpl never.
#[global] Arguments hton16 : simpl never.
#[global] Arguments hton32 : simpl never.
#[global] Arguments fold_loop : simpl never.

(** The sum of the big-endian words of a text, an odd last byte filled with zero. *)
Fixpoint bsum (l : list Z) : Z :=
  match l with
  | a :: b :: l => 256 * a + b + bsum l
  | [a] => 256 * a
  | [] => 0
  end.

Lemma bsum_nonneg l : bytes_ok l -> 0 <= bsum l.
Proof.
  induction l as [|a|a b l IH] using pair_ind; [done|..]; unfold bytes_ok, is_byte in *;
    rewrite !Forall_cons; simpl; [lia|]. intros (? & ? & H). specialize (IH H). lia.
Qed.
Lemma bsum_bound l : bytes_ok l -> 2 * bsum l <= 65535 * (zlen l + 1).
Proof.
  induction l as [|a|a b l IH] using pair_ind; [done|..]; unfold bytes_ok, is_byte in *;
    rewrite !Forall_cons; [unfold zlen; simpl; lia|]. rewrite !zlen_cons. simpl.
  intros (? & ? & H). specialize (IH H). lia.
Qed.
Lemma bsum_app a b : Z.even (zlen a) = true -> bsum (a ++ b) = bsum a + bsum b.
Proof.
  induction a as [|x|x y a IH] using pair_ind; [done|done|].
  rewrite !zlen_cons. intros H. simpl. rewrite IH; [lia|].
  rewrite <- H. rewrite <- !Z.add_assoc, Z.even_add. by destruct (Z.even (zlen a)).
Qed.

Lemma be16_value a b : is_byte a -> is_byte b -> Z.lor (Z.shiftl a 8) (Z.shiftl b 0) = 256 * a + b.
Proof.
  unfold is_byte. intros Ha Hb. rewrite Z.shiftl_0_r, Z.shiftl_mul_pow2 by lia.
  change (2 ^ 8) with 256.
  assert (Hl : Z.land (a * 256) b = 0).
  { apply Z.bits_inj'. intros n Hn. rewrite Z.land_spec, Z.bits_0.
    change 256 with (2 ^ 8). destruct (decide (n < 8)).
    - by rewrite Z.mul_pow2_bits_low.
    - rewrite (Z.bits_above_log2 b n), andb_false_r; [done|lia|].
      destruct (decide (b = 0)) as [->|]; [simpl; lia|]. apply Z.log2_lt_pow2; [lia|].
      apply Z.lt_le_trans with (2 ^ 8); [lia|]. apply Z.pow_le_mono_r; lia. }
  pose proof (Z.add_lor_land (a * 256) b). lia.
Qed.

Lemma sum_be16_app k pre l post t :
  bytes_ok l -> zlen l = 2 * Z.of_nat k -> 0 <= t < 2 ^ 32 ->
  sum_be16 k (pre ++ l ++ post) (zlen pre) t = Ok (u32 (t + bsum l)).
Proof.
  revert pre l t. induction k as [|k IH]; intros pre l t Hb Hl Ht.
  - destruct l; [|rewrite zlen_cons in Hl; pose proof (zlen_nonneg l); lia]. simpl. unfold u32.
    rewrite Z.add_0_r, Z.mod_small by lia. done.
  - destruct l as [|a [|b l]]; rewrite ?zlen_cons, ?zlen_nil in Hl; [lia|lia|].
    unfold bytes_ok in Hb. apply Forall_cons_1 in Hb as [Ha Hb]. apply Forall_cons_1 in Hb as [Hb' Hb]. cbn [sum_be16]. unfold badvpn_read_be16.
    pose proof (zlen_nonneg pre). pose proof (zlen_nonneg post). pose proof (zlen_nonneg l).
    change ((a :: b :: l) ++ post) with (a :: b :: l ++ post).
    rewrite (rd_ok _ (zlen pre)) by (rewrite zlen_app, !zlen_cons, zlen_app; lia). cbn [mbind res_bind].
    rewrite (byte_at_app_mid pre a) by done.
    rewrite rd_ok by (rewrite zlen_app, !zlen_cons, zlen_app; lia). cbn [mbind res_bind].
    assert (Hb2 : byte_at (pre ++ a :: b :: l ++ post) (zlen pre + 1) = b).
    { change (pre ++ a :: b :: l ++ post) with (pre ++ [a] ++ b :: l ++ post). rewrite (assoc_L (++)).
      by rewrite byte_at_app_mid; [|rewrite zlen_app]. }
    rewrite Hb2, be16_value by done.
    replace (pre ++ a :: b :: l ++ post) with ((pre ++ [a; b]) ++ l ++ post) by (by rewrite <- (assoc_L (++))).
    replace (zlen pre + 2) with (zlen (pre ++ [a; b])) by (by rewrite zlen_app).
    rewrite IH; [|done|lia|unfold u32; apply Z.mod_pos_bound; lia]. rewrite u32_add. do 2 f_equal. simpl. lia.
Qed.

#[global] Arguments sum_be16 : simpl never.

Lemma split_slice (m : list Z) p n : 0 <= p -> 0 <= n -> p + n <= zlen m ->
  exists pre post, m = pre ++ slice m p n ++ post /\ zlen pre = p /\ zlen (slice m p n) = n.
Proof.
  intros Hp Hn Hl. exists (take (Z.to_nat p) m), (drop (Z.to_nat n) (drop (Z.to_nat p) m)). split_and!.
  - unfold slice. by rewrite take_drop, take_drop.
  - by rewrite zlen_take by lia.
  - by apply zlen_slice.
Qed.

Lemma sum_be16_slice k m p t : bytes_ok m -> 0 <= p -> p + 2 * Z.of_nat k <= zlen m -> 0 <= t < 2 ^ 32 ->
  sum_be16 k m p t = Ok (u32 (t + bsum (slice m p (2 * Z.of_nat k)))).
Proof.
  intros Hb Hp Hl Ht. destruct (split_slice m p (2 * Z.of_nat k)) as (pre & post & E & <- & Hz); [lia..|].
  rewrite E at 1. apply sum_be16_app; [by apply bytes_ok_slice|done|done].
Qed.

Lemma summer_slice m p len : bytes_ok m -> 0 <= p -> 0 <= len -> p + len <= zlen m -> Z.even len = true ->
  udp_checksum_summer m p len = Ok (u32 (bsum (slice m p len))).
Proof.
  intros Hb Hp Hn Hl He. unfold udp_checksum_summer. rewrite Z.even_spec in He. destruct He as [k ->].
  replace (2 * k mod 2) with 0 by (rewrite Z.mul_comm, Z_mod_mult; done). simpl.
  replace (2 * k / 2) with k by (rewrite Z.mul_comm, Z.div_mul by lia; done).
  rewrite sum_be16_slice; [|done|done|rewrite Z2Nat.id; lia|lia]. by rewrite Z2Nat.id by lia.
Qed.
Lemma slice_whole (l : list Z) : slice l 0 (zlen l) = l.
Proof. unfold slice, zlen. rewrite Nat2Z.id. simpl. by rewrite firstn_all. Qed.
Lemma summer_all l : bytes_ok l -> Z.even (zlen l) = true -> udp_checksum_summer l 0 (zlen l) = Ok (u32 (bsum l)).
Proof. intros. pose proof (zlen_nonneg l). rewrite summer_slice, slice_whole by (done || lia). done. Qed.

Lemma hton16_bytes x : bytes_ok (hton16 x) /\ zlen (hton16 x) = 2.
Proof. split; [|done]. repeat constructor; apply Z.mod_pos_bound; lia. Qed.
Lemma bsum_hton16 x : 0 <= x < 65536 -> bsum (hton16 x) = x.
Proof. intros. unfold hton16. simpl. Z.to_euclidean_division_equations; lia. Qed.
Lemma ntoh16_hton16 x : 0 <= x < 65536 -> ntoh16 (hton16 x) = x.
Proof. intros. unfold ntoh16, hton16, byte_at. simpl. Z.to_euclidean_division_equations; lia. Qed.
Lemma hton32_bytes x : bytes_ok (hton32 x) /\ zlen (hton32 x) = 4.
Proof. split; [|done]. repeat constructor; apply Z.mod_pos_bound; lia. Qed.
Lemma bsum_hton32 x : 0 <= x < 65536 -> bsum (hton32 x) = x.
Proof. intros. unfold hton32. cbn [bsum]. Z.to_euclidean_division_equations; lia. Qed.
Lemma summer_bytes l n : bytes_ok l -> zlen l = n -> Z.even n = true -> udp_checksum_summer l 0 n = Ok (u32 (bsum l)).
Proof. intros Hb <- He. by apply summer_all. Qed.
Lemma summer_hton16 x : 0 <= x < 65536 -> udp_checksum_summer (hton16 x) 0 2 = Ok x.
Proof.
  intros. destruct (hton16_bytes x). rewrite summer_bytes, bsum_hton16 by done. f_equal. unfold u32. rewrite Z.mod_small; lia.
Qed.
Lemma summer_hton32 x : 0 <= x < 65536 -> udp_checksum_summer (hton32 x) 0 4 = Ok x.
Proof.
  intros. destruct (hton32_bytes x). rewrite summer_bytes, bsum_hton32 by done. f_equal. unfold u32. rewrite Z.mod_small; lia.
Qed.
Lemma hton16_ntoh16 b : bytes_ok b -> zlen b = 2 -> hton16 (ntoh16 b) = b.
Proof.
  intros Hb Hl. destruct b as [|x [|y [|z b]]]; rewrite ?zlen_cons, ?zlen_nil in Hl; [lia..| |pose proof (zlen_nonneg b); lia].
  unfold bytes_ok, is_byte in Hb. rewrite !Forall_cons in Hb. destruct Hb as (? & ? & _).
  unfold hton16, ntoh16, byte_at. simpl. repeat f_equal; Z.to_euclidean_division_equations; lia.
Qed.

(** ** The checksums *)
Lemma slice_snoc (m : list Z) p n : 0 <= p -> 0 <= n -> p + n < zlen m -> slice m p (n + 1) = slice m p n ++ [byte_at m (p + n)].
Proof.
  intros. rewrite <- (slice_app m p n 1) by lia. f_equal. destruct (split_slice m (p + n) 1) as (pre & post & E & Hp & Hz); [lia..|].
  destruct (slice m (p + n) 1) as [|x [|]]; rewrite ?zlen_cons, ?zlen_nil in Hz; [lia| |pose proof (zlen_nonneg l); lia].
  f_equal. rewrite E. symmetry. by apply byte_at_app_mid.
Qed.

Lemma udp_payload_sum_ok m p n t : bytes_ok m -> 0 <= p -> 0 <= n -> p + n <= zlen m ->
  udp_payload_sum m p n t = Ok (u32 (t + bsum (slice m p n))).
Proof.
  intros Hb Hp Hn Hl. unfold udp_payload_sum. rewrite Zmod_even. destruct (Z.even n) eqn:He.
  - change (0 =? 0) with true. cbv iota. rewrite summer_slice by done. cbn [mbind res_bind].
    by rewrite Z.add_comm, u32_add, Z.add_comm.
  - change (1 =? 0) with false. cbv iota. assert (He' : Z.even (n - 1) = true) by (rewrite Z.even_sub, He; done).
    assert (Hn1 : 0 <= n - 1) by (destruct (decide (n = 0)) as [->|]; [done|lia]).
    rewrite summer_slice by (done || lia). cbn [mbind res_bind]. rewrite rd_ok by lia. cbn [mbind res_bind].
    pose proof (byte_at_range m (p + n - 1) Hb) as Hr.
    assert (Hs : u16 (byte_at m (p + n - 1) ≪ 8) = 256 * byte_at m (p + n - 1)).
    { rewrite Z.shiftl_mul_pow2 by lia. unfold u16. rewrite Z.mod_small; lia. }
    rewrite Hs, summer_hton16 by lia. cbn [mbind res_bind].
    assert (E : slice m p n = slice m p (n - 1) ++ [byte_at m (p + n - 1)]).
    { replace n with (n - 1 + 1) at 1 by lia. rewrite slice_snoc by lia. do 3 f_equal. lia. }
    rewrite E, bsum_app by (by rewrite zlen_slice by lia). cbn [bsum]. unfold u32. rewrite Zplus_mod_idemp_r, Zplus_mod_idemp_l.
    do 2 f_equal. lia.
Qed.

Lemma udp_finish_ok t : 0 <= t < 2 ^ 32 -> udp_finish t = Ok (hton16 (65535 - ones_sum t)).
Proof.
  intros Ht. unfold udp_finish. rewrite fold_loop_ok by done. simpl. pose proof (ones_sum_range t ltac:(lia)) as Hr.
  assert (Hl : u32 (Z.lnot (ones_sum t)) = 2 ^ 32 - 1 - ones_sum t).
  { unfold Z.lnot, u32. replace (Z.pred (- ones_sum t)) with (2 ^ 32 - 1 - ones_sum t + (-1) * 2 ^ 32) by lia.
    rewrite Z_mod_plus_full, Z.mod_small; lia. }
  rewrite Hl. destruct (Z.eqb_spec (2 ^ 32 - 1 - ones_sum t) 0); [lia|]. do 2 f_equal. unfold u16.
  replace (2 ^ 32 - 1 - ones_sum t) with (65535 - ones_sum t + 65535 * 2 ^ 16) by lia.
  rewrite Z_mod_plus_full, Z.mod_small; lia.
Qed.

Definition udp_wf (h : udp_header) : Prop :=
  bytes_ok (udp_bytes h) /\ zlen (ud_source_port h) = 2 /\ zlen (ud_dest_port h) = 2 /\ zlen (ud_length h) = 2 /\ zlen (ud_checksum h) = 2.
Lemma udp_bytes_len h : udp_wf h -> zlen (udp_bytes h) = 8.
Proof. intros (_ & ? & ? & ? & ?). unfold udp_bytes. rewrite !zlen_app. lia. Qed.

(** The words that the UDP checksum covers, over IPv4 and over IPv6. *)
Definition udp_sum (source dest : list Z) (h : udp_header) (payload : list Z) : Z :=
  bsum source + bsum dest + 17 + (UDP_HEADER + zlen payload) + bsum (udp_bytes h) + bsum payload.

Lemma udp_sum_range source dest h payload :
  bytes_ok source -> bytes_ok dest -> udp_wf h -> bytes_ok payload -> zlen source <= 16 -> zlen dest <= 16 -> zlen payload <= 65527 ->
  0 <= udp_sum source dest h payload < 2 ^ 32.
Proof.
  intros Hs Hd Hh Hp Hls Hld Hlp. pose proof (udp_bytes_len h Hh) as Hl. destruct Hh as [Hh _]. unfold udp_sum.
  pose proof (bsum_nonneg _ Hs). pose proof (bsum_nonneg _ Hd). pose proof (bsum_nonneg _ Hh). pose proof (bsum_nonneg _ Hp).
  pose proof (bsum_bound _ Hs). pose proof (bsum_bound _ Hd). pose proof (bsum_bound _ Hh). pose proof (bsum_bound _ Hp).
  pose proof (zlen_nonneg payload). change UDP_HEADER with 8. lia.
Qed.

Lemma u32_sum6 a b c d e f :
  u32 (u32 (u32 (u32 (u32 (u32 (0 + u32 a) + u32 b) + c) + d) + u32 e) + f) = u32 (a + b + c + d + e + f).
Proof.
  assert (H : forall x, exists k, u32 x = x + k * 2 ^ 32).
  { intros x. exists (- (x / 2 ^ 32)). unfold u32. pose proof (Z_div_mod_eq_full x (2 ^ 32)). lia. }
  destruct (H a) as [ka ->], (H b) as [kb ->], (H e) as [ke ->].
  assert (H2 : forall x y k, x = y + k * 2 ^ 32 -> u32 x = u32 y) by (intros x y k ->; unfold u32; apply Z_mod_plus_full).
  destruct (H (0 + (a + ka * 2 ^ 32))) as [k1 ->]. destruct (H (0 + (a + ka * 2 ^ 32) + k1 * 2 ^ 32 + (b + kb * 2 ^ 32))) as [k2 ->].
  match goal with |- u32 (u32 (u32 (u32 ?x + _) + _) + _) = _ => destruct (H x) as [k3 ->] end.
  match goal with |- u32 (u32 (u32 ?x + _) + _) = _ => destruct (H x) as [k4 ->] end.
  match goal with |- u32 (u32 ?x + _) = _ => destruct (H x) as [k5 ->] end.
  apply (H2 _ _ (ka + kb + ke + k1 + k2 + k3 + k4 + k5)). lia.
Qed.

Lemma udp_checksum_ok h m p n source dest :
  bytes_ok source -> bytes_ok dest -> udp_wf h -> bytes_ok m -> zlen source = 4 -> zlen dest = 4 ->
  0 <= p -> 0 <= n <= 65527 -> p + n <= zlen m ->
  udp_checksum h m p n source dest = Ok (hton16 (65535 - ones_sum (udp_sum source dest h (slice m p n)))).
Proof.
  intros Hs Hd Hh Hm Hls Hld Hp Hn Hpn.
  pose proof (udp_sum_range source dest h (slice m p n) Hs Hd Hh (bytes_ok_slice _ _ _ Hm)) as Hr.
  rewrite zlen_slice in Hr by lia. specialize (Hr ltac:(lia) ltac:(lia) ltac:(lia)).
  unfold udp_checksum. rewrite (summer_bytes source), (summer_bytes dest) by done. cbn [mbind res_bind].
  rewrite (summer_hton16 IPV4_PROTOCOL_UDP) by (unfold IPV4_PROTOCOL_UDP; lia). cbn [mbind res_bind].
  unfold u16. rewrite (Z.mod_small (UDP_HEADER + n)) by (change UDP_HEADER with 8; lia).
  rewrite (summer_hton16 (UDP_HEADER + n)) by (change UDP_HEADER with 8; lia). cbn [mbind res_bind].
  pose proof (udp_bytes_len h Hh) as Hl. rewrite summer_bytes by (try apply Hh; done). cbn [mbind res_bind].
  rewrite udp_payload_sum_ok by (done || lia). cbn [mbind res_bind]. rewrite u32_sum6.
  assert (E : bsum source + bsum dest + IPV4_PROTOCOL_UDP + (UDP_HEADER + n) + bsum (udp_bytes h) + bsum (slice m p n)
    = udp_sum source dest h (slice m p n)) by (unfold udp_sum; rewrite zlen_slice by lia; done).
  rewrite E. unfold u32. rewrite Z.mod_small by done. by apply udp_finish_ok.
Qed.
Lemma udp_ip6_checksum_ok h m p n source dest :
  bytes_ok source -> bytes_ok dest -> udp_wf h -> bytes_ok m -> zlen source = 16 -> zlen dest = 16 ->
  0 <= p -> 0 <= n <= 65527 -> p + n <= zlen m ->
  udp_ip6_checksum h m p n source dest = Ok (hton16 (65535 - ones_sum (udp_sum source dest h (slice m p n)))).
Proof.
  intros Hs Hd Hh Hm Hls Hld Hp Hn Hpn.
  pose proof (udp_sum_range source dest h (slice m p n) Hs Hd Hh (bytes_ok_slice _ _ _ Hm)) as Hr.
  rewrite zlen_slice in Hr by lia. specialize (Hr ltac:(lia) ltac:(lia) ltac:(lia)).
  unfold udp_ip6_checksum. rewrite (summer_bytes source), (summer_bytes dest) by done. cbn [mbind res_bind].
  replace (u32 (UDP_HEADER + n)) with (UDP_HEADER + n) by (unfold u32; change UDP_HEADER with 8; rewrite Z.mod_small; lia).
  rewrite (summer_hton32 (UDP_HEADER + n)) by (change UDP_HEADER with 8; lia). cbn [mbind res_bind].
  rewrite (summer_hton32 IPV6_NEXT_UDP) by (unfold IPV6_NEXT_UDP; lia). cbn [mbind res_bind].
  pose proof (udp_bytes_len h Hh) as Hl. rewrite summer_bytes by (try apply Hh; done). cbn [mbind res_bind].
  rewrite udp_payload_sum_ok by (done || lia). cbn [mbind res_bind]. rewrite u32_sum6.
  assert (E : bsum source + bsum dest + (UDP_HEADER + n) + IPV6_NEXT_UDP + bsum (udp_bytes h) + bsum (slice m p n)
    = udp_sum source dest h (slice m p n)) by (unfold udp_sum, IPV6_NEXT_UDP; rewrite zlen_slice by lia; lia).
  rewrite E. unfold u32. rewrite Z.mod_small by done. by apply udp_finish_ok.
Qed.

Definition ipv4_wf (h : ipv4_header) : Prop :=
  bytes_ok (ipv4_bytes h) /\ zlen (i4_total_length h) = 2 /\ zlen (i4_identification h) = 2 /\ zlen (i4_fragment h) = 2 /\
  zlen (i4_checksum h) = 2 /\ zlen (i4_source h) = 4 /\ zlen (i4_destination h) = 4.
Lemma ipv4_bytes_len h : ipv4_wf h -> zlen (ipv4_bytes h) = 20.
Proof.
  intros (_ & ? & ? & ? & ? & ? & ?). unfold ipv4_bytes. rewrite !zlen_app. change (zlen [version4_ihl4 h; i4_ds h]) with 2.
  change (zlen [i4_ttl h; i4_protocol h]) with 2. lia.
Qed.
Lemma ipv4_checksum_ok h m p n : ipv4_wf h -> bytes_ok m -> 0 <= p -> 0 <= n <= 65536 -> p + n <= zlen m -> Z.even n = true ->
  ipv4_checksum h m p n = Ok (hton16 (65535 - ones_sum (bsum (ipv4_bytes h) + bsum (slice m p n)))).
Proof.
  intros Hh Hm Hp Hn Hpn He. pose proof (ipv4_bytes_len h Hh) as Hl. destruct Hh as [Hh _].
  unfold ipv4_checksum. rewrite Zmod_even, He. change (0 =? 0) with true. cbn [assert_ mbind res_bind].
  change (Z.to_nat (IPV4_HEADER / 2)) with 10%nat. rewrite sum_be16_slice by (done || lia). cbn [mbind res_bind].
  rewrite Z.even_spec in He. destruct He as [k ->]. replace (2 * k / 2) with k by (rewrite Z.mul_comm, Z.div_mul; lia).
  pose proof (bsum_nonneg _ Hh). pose proof (bsum_bound _ Hh). pose proof (bsum_nonneg _ (bytes_ok_slice m p (2 * k) Hm)).
  pose proof (bsum_bound _ (bytes_ok_slice m p (2 * k) Hm)) as Hb2. rewrite zlen_slice in Hb2 by lia.
  replace (slice (ipv4_bytes h) 0 (2 * Z.of_nat 10)) with (ipv4_bytes h) by (rewrite <- (slice_whole (ipv4_bytes h)) at 1; by rewrite Hl).
  rewrite sum_be16_slice; [|done|done|rewrite Z2Nat.id; lia|unfold u32; apply Z.mod_pos_bound; lia].
  cbn [mbind res_bind]. rewrite Z2Nat.id, u32_add by lia. rewrite Z.add_0_l. unfold u32 at 1. rewrite Z.mod_small by lia.
  rewrite fold_loop_ok by lia. cbn [mbind res_bind]. do 2 f_equal.
  pose proof (ones_sum_range (bsum (ipv4_bytes h) + bsum (slice m p (2 * k))) ltac:(lia)) as Hr.
  rewrite <- lnot_u16 by done. by rewrite (u16_small _ Hr).
Qed.
