(* ===== verification/DeviceFacts.v ===== *)
(** Facts about Device: which packets from the device are UDP that is passed on, as a
    grammar, and that the checks of the code decide it. *)
From S2P Require Import Prelude CMem PktSum PktSumFacts Sys Flow Chunk SocksClient TcpClient Packet PacketFacts Device.

(** ** Headers and their bytes *)
Lemma slice_0_app (a b : list Z) : slice (a ++ b) 0 (zlen a) = a.
Proof. apply (slice_app_mid [] a b); done. Qed.
Lemma slice_skip (a b : list Z) s n : 0 <= s -> zlen a <= s -> slice (a ++ b) s n = slice b (s - zlen a) n.
Proof.
  intros Hs Ha. unfold slice, zlen in *. rewrite drop_app_ge by lia. do 2 f_equal. lia.
Qed.
Lemma slice_keep (a b : list Z) s n : 0 <= s -> 0 <= n -> s + n <= zlen a -> slice (a ++ b) s n = slice a s n.
Proof.
  intros Hs Hn Ha. unfold slice, zlen in *. rewrite drop_app_le by lia. rewrite take_app_le; [done|].
  rewrite length_drop. lia.
Qed.

Lemma zlen_2 {A} (l : list A) : zlen l = 2 -> exists a b, l = [a; b].
Proof. unfold zlen. destruct l as [|a [|b [|]]]; simpl; try lia. eauto. Qed.
Lemma zlen_4 {A} (l : list A) : zlen l = 4 -> exists a b c d, l = [a; b; c; d].
Proof. unfold zlen. destruct l as [|a [|b [|c [|d [|]]]]]; simpl; try lia. eauto 6. Qed.
Ltac words := repeat match goal with
  | H : zlen ?l = 2 |- _ => is_var l; apply zlen_2 in H as (? & ? & ->)
  | H : zlen ?l = 4 |- _ => is_var l; apply zlen_4 in H as (? & ? & ? & ? & ->)
  end.

Lemma ipv4_of_bytes h : ipv4_wf h -> ipv4_of (ipv4_bytes h) = h.
Proof. intros (_ & H1 & H2 & H3 & H4 & H5 & H6). destruct h; simpl in *. words. reflexivity. Qed.
Lemma udp_of_bytes h : udp_wf h -> udp_of (udp_bytes h) = h.
Proof. intros (_ & H1 & H2 & H3 & H4). destruct h; simpl in *. words. reflexivity. Qed.
Definition ipv6_wf (h : ipv6_header) : Prop :=
  bytes_ok (ipv6_bytes h) /\ zlen (i6_fl h) = 2 /\ zlen (i6_payload_length h) = 2 /\
  zlen (i6_source h) = 16 /\ zlen (i6_destination h) = 16.
Lemma ipv6_of_bytes h : ipv6_wf h -> ipv6_of (ipv6_bytes h) = h.
Proof.
  intros (_ & H1 & H2 & H3 & H4). destruct h as [v t fl pl n hl s d]; simpl in *. words.
  unfold ipv6_of, ipv6_bytes. simpl. f_equal.
  - match goal with |- slice ?m 8 16 = _ => change m with (take 8 m ++ s ++ d) end. by apply slice_app_mid.
  - match goal with |- slice ?m 24 16 = _ => change m with (take 8 m ++ s ++ d) end.
    rewrite (assoc_L (++)), slice_skip by (rewrite ?zlen_app, ?H3; unfold zlen; simpl; lia).
    rewrite zlen_app, H3. change (24 - (zlen _ + 16)) with 0. rewrite <- H4. apply slice_whole.
Qed.
Lemma ipv6_bytes_len h : ipv6_wf h -> zlen (ipv6_bytes h) = 40.
Proof.
  intros (_ & H1 & H2 & H3 & H4). unfold ipv6_bytes. rewrite !zlen_app, H1, H2, H3, H4. done.
Qed.

(** what [memcpy] loads *)
Lemma take_slice_at (l : list Z) i : 0 <= i < zlen l -> byte_at l i :: [] = slice l i 1.
Proof.
  intros H. destruct (split_slice l i 1) as (pre & post & E & Hp & Hz); [lia..|].
  destruct (slice l i 1) as [|x [|y k]]; rewrite ?zlen_cons, ?zlen_nil in Hz; [lia| |pose proof (zlen_nonneg k); lia].
  f_equal. rewrite E. by apply byte_at_app_mid.
Qed.
Ltac join := repeat (rewrite slice_app by lia; simpl (_ + _)).
Lemma ipv4_bytes_of b : zlen b = 20 -> ipv4_bytes (ipv4_of b) = b.
Proof.
  intros Hb. do 20 (destruct b as [|? b]; [discriminate Hb|]). destruct b; [reflexivity|].
  unfold zlen in Hb. simpl in Hb. lia.
Qed.
Lemma udp_bytes_of b : zlen b = 8 -> udp_bytes (udp_of b) = b.
Proof.
  intros Hb. do 8 (destruct b as [|? b]; [discriminate Hb|]). destruct b; [reflexivity|].
  unfold zlen in Hb. simpl in Hb. lia.
Qed.
Lemma ipv6_bytes_of b : zlen b = 40 -> ipv6_bytes (ipv6_of b) = b.
Proof.
  intros Hb. do 40 (destruct b as [|? b]; [discriminate Hb|]). destruct b; [reflexivity|].
  unfold zlen in Hb. simpl in Hb. lia.
Qed.
Lemma ipv4_of_wf b : bytes_ok b -> zlen b = 20 -> ipv4_wf (ipv4_of b).
Proof. intros Hb Hz. split; [by rewrite ipv4_bytes_of|]. unfold ipv4_of. simpl. rewrite !zlen_slice by lia. done. Qed.
Lemma udp_of_wf b : bytes_ok b -> zlen b = 8 -> udp_wf (udp_of b).
Proof. intros Hb Hz. split; [by rewrite udp_bytes_of|]. unfold udp_of. simpl. rewrite !zlen_slice by lia. done. Qed.
Lemma ipv6_of_wf b : bytes_ok b -> zlen b = 40 -> ipv6_wf (ipv6_of b).
Proof. intros Hb Hz. split; [by rewrite ipv6_bytes_of|]. unfold ipv6_of. simpl. rewrite !zlen_slice by lia. done. Qed.

(** ** The checks decide a grammar *)

(** [p] is the IPv4 header [h], options, a payload, and what follows the packet. *)
Definition ipv4_valid (p : list Z) (h : ipv4_header) (opts payload rest : list Z) : Prop :=
  p = ipv4_bytes h ++ opts ++ payload ++ rest /\ ipv4_wf h /\ IPV4_GET_VERSION h = 4 /\
  IPV4_GET_IHL h * 4 = IPV4_HEADER + zlen opts /\
  ntoh16 (i4_total_length h) = IPV4_HEADER + zlen opts + zlen payload /\
  i4_checksum h = hton16 (65535 - ones_sum (bsum (ipv4_bytes (h <| i4_checksum := hton16 0 |>)) + bsum opts)).
Definition ipv6_valid (p : list Z) (h : ipv6_header) (payload rest : list Z) : Prop :=
  p = ipv6_bytes h ++ payload ++ rest /\ ipv6_wf h /\ Z.shiftr (version4_tc4 h) 4 = 6 /\
  ntoh16 (i6_payload_length h) = zlen payload.
Definition udp_valid (p : list Z) (h : udp_header) (payload rest : list Z) : Prop :=
  p = udp_bytes h ++ payload ++ rest /\ udp_wf h /\ ntoh16 (ud_length h) = UDP_HEADER + zlen payload.

Lemma ntoh16_range b : bytes_ok b -> 0 <= ntoh16 b < 65536.
Proof. intros Hb. pose proof (byte_at_range b 0 Hb). pose proof (byte_at_range b 1 Hb). unfold ntoh16. lia. Qed.
Lemma ihl_range h : ipv4_wf h -> 0 <= IPV4_GET_IHL h < 16.
Proof.
  intros [Hb _]. unfold ipv4_bytes, bytes_ok in Hb. simpl in Hb. apply Forall_cons_1 in Hb as [Hv _]. unfold is_byte in Hv.
  unfold IPV4_GET_IHL. rewrite Z.shiftr_0_r. change 0x0F with (Z.ones 4). rewrite Z.land_ones by lia. apply Z.mod_pos_bound. lia.
Qed.
Lemma ipv4_wf_checksum h c : ipv4_wf h -> bytes_ok c -> zlen c = 2 -> ipv4_wf (h <| i4_checksum := c |>).
Proof.
  intros (Hb & ? & ? & ? & ? & ? & ?) Hc Hz. destruct h as [v ds tl id fr ttl pr ck so de]. unfold ipv4_wf, ipv4_bytes in *. simpl in *.
  split; [|done]. unfold bytes_ok in *. rewrite !Forall_cons, !Forall_app, !Forall_cons, !Forall_app in *. tauto.
Qed.
Lemma udp_wf_checksum h c : udp_wf h -> bytes_ok c -> zlen c = 2 -> udp_wf (h <| ud_checksum := c |>).
Proof.
  intros (Hb & ? & ? & ? & ?) Hc Hz. destruct h. unfold udp_wf, udp_bytes in *. simpl in *.
  split; [|done]. unfold bytes_ok in *. rewrite !Forall_app in *. tauto.
Qed.
Lemma ipv4_total_bytes h : ipv4_wf h -> bytes_ok (i4_total_length h).
Proof.
  intros (Hb & _). destruct h. unfold ipv4_bytes, bytes_ok in *. simpl in *. rewrite !Forall_cons, !Forall_app in Hb. tauto.
Qed.
Lemma even_mul4 x : Z.even (x * 4 - 20) = true.
Proof. replace (x * 4 - 20) with (2 * (x * 2 - 10)) by lia. by rewrite Z.even_mul. Qed.

Section checks.
Variables (m : list Z) (data len : Z).
Hypotheses (Hm : bytes_ok m) (Hd : 0 <= data) (Hl : 0 <= len) (Hr : data + len <= zlen m).

(** Loads from the packet. *)
Lemma slice_sub a n : 0 <= a -> 0 <= n -> a + n <= len -> slice m (data + a) n = slice (slice m data len) a n.
Proof. intros. by rewrite slice_slice. Qed.
Lemma packet_split a b : 0 <= a -> 0 <= b -> a + b <= len ->
  slice m data len = slice m data a ++ slice m (data + a) b ++ slice m (data + a + b) (len - a - b).
Proof.
  intros. rewrite (slice_app m (data + a) b) by lia. rewrite slice_app by lia. f_equal. lia.
Qed.

Lemma ipv4_check_sound : wp (ipv4_check m data len) (fun o =>
  match o with
  | None => True
  | Some (h, q, n) => exists opts payload rest, ipv4_valid (slice m data len) h opts payload rest /\
      q = data + IPV4_HEADER + zlen opts /\ n = zlen payload /\ slice m q n = payload
  end).
Proof.
  unfold ipv4_check. destruct (Z.leb_spec 0 len); [|lia]. cbn [assert_ mbind res_bind].
  destruct (Z.ltb_spec len IPV4_HEADER) as [|Hlen]; [done|]. change IPV4_HEADER with 20 in *.
  rewrite rd_list_ok by lia. cbn [mbind res_bind].
  assert (Hw : ipv4_wf (ipv4_of (slice m data 20))) by (apply ipv4_of_wf; [by apply bytes_ok_slice|apply zlen_slice; lia]).
  set (h := ipv4_of (slice m data 20)) in *. pose proof (ihl_range h Hw) as Hi.
  destruct (Z.eqb_spec (IPV4_GET_VERSION h) 4) as [Hv|]; cbn [negb]; [|done].
  replace (u16 (IPV4_GET_IHL h * 4)) with (IPV4_GET_IHL h * 4) by (unfold u16; rewrite Z.mod_small; lia).
  set (hl := IPV4_GET_IHL h * 4) in *.
  destruct (Z.ltb_spec hl 20); [done|]. destruct (Z.ltb_spec len hl); [done|].
  pose proof (ntoh16_range _ (ipv4_total_bytes _ Hw)) as Ht. set (tl := ntoh16 (i4_total_length h)) in *.
  destruct (Z.ltb_spec tl hl); [done|]. destruct (Z.ltb_spec len tl); [done|].
  destruct (hton16_bytes 0) as [Hz0 Hz0'].
  rewrite ipv4_checksum_ok; [|by apply ipv4_wf_checksum|done|lia|unfold hl; lia|lia|apply even_mul4].
  cbn [mbind res_bind]. case_bool_decide as Hc; cbn [negb]; [|done].
  exists (slice m (data + 20) (hl - 20)), (slice m (data + hl) (tl - hl)), (slice m (data + tl) (len - tl)).
  assert (Hz1 : zlen (slice m (data + 20) (hl - 20)) = hl - 20) by (apply zlen_slice; lia).
  assert (Hz2 : zlen (slice m (data + hl) (tl - hl)) = tl - hl) by (apply zlen_slice; lia).
  split; [|split_and!; [lia|lia|done]].
  unfold ipv4_valid. rewrite Hz1, Hz2. change IPV4_HEADER with 20.
  split_and!; try done; [|unfold hl; lia|unfold tl; lia].
  unfold h. rewrite ipv4_bytes_of by (apply zlen_slice; lia).
  rewrite (packet_split 20 (hl - 20)) by lia. do 2 f_equal. replace (data + 20 + (hl - 20)) with (data + hl) by lia.
  replace (len - 20 - (hl - 20)) with ((tl - hl) + (len - tl)) by lia.
  rewrite <- (slice_app m (data + hl)) by lia. do 2 f_equal. lia.
Qed.

Lemma head_slice a : 0 <= a <= len -> slice m data a = slice (slice m data len) 0 a.
Proof. intros. rewrite slice_slice by lia. f_equal. lia. Qed.

Lemma ipv4_check_complete h opts payload rest : ipv4_valid (slice m data len) h opts payload rest ->
  ipv4_check m data len = Ok (Some (h, data + IPV4_HEADER + zlen opts, zlen payload)) /\
  slice m (data + IPV4_HEADER + zlen opts) (zlen payload) = payload.
Proof.
  intros (E & Hw & Hv & Hi & Ht & Hc). change IPV4_HEADER with 20 in *.
  pose proof (ipv4_bytes_len h Hw) as Hz. pose proof (zlen_nonneg opts). pose proof (zlen_nonneg payload). pose proof (zlen_nonneg rest).
  assert (El : len = 20 + zlen opts + zlen payload + zlen rest).
  { rewrite <- (zlen_slice m data len) by lia. rewrite E, !zlen_app. lia. }
  pose proof (ihl_range h Hw) as Hir.
  assert (Ho : slice m (data + 20) (zlen opts) = opts).
  { rewrite slice_sub, E by lia. apply slice_app_mid; [lia|done]. }
  split.
  - unfold ipv4_check. destruct (Z.leb_spec 0 len); [|lia]. cbn [assert_ mbind res_bind]. change IPV4_HEADER with 20.
    destruct (Z.ltb_spec len 20); [lia|]. rewrite rd_list_ok by lia. cbn [mbind res_bind].
    rewrite (head_slice 20), E, <- Hz, slice_0_app, ipv4_of_bytes by (done || lia). rewrite Hz, Hv. change (4 =? 4) with true. cbn [negb].
    replace (u16 (IPV4_GET_IHL h * 4)) with (20 + zlen opts) by (unfold u16; rewrite Z.mod_small; lia). rewrite Ht.
    destruct (Z.ltb_spec (20 + zlen opts) 20); [lia|]. destruct (Z.ltb_spec len (20 + zlen opts)); [lia|].
    destruct (Z.ltb_spec (20 + zlen opts + zlen payload) (20 + zlen opts)); [lia|].
    destruct (Z.ltb_spec len (20 + zlen opts + zlen payload)); [lia|].
    destruct (hton16_bytes 0) as [Hz0 Hz0'].
    rewrite ipv4_checksum_ok; [|by apply ipv4_wf_checksum|done|lia|lia|lia|rewrite <- (even_mul4 (IPV4_GET_IHL h)); f_equal; lia].
    cbn [mbind res_bind]. replace (20 + zlen opts - 20) with (zlen opts) by lia. rewrite Ho, <- Hc.
    rewrite bool_decide_eq_true_2 by done. cbn [negb]. do 3 f_equal; [f_equal; lia|lia].
  - replace (data + 20 + zlen opts) with (data + (20 + zlen opts)) by lia. rewrite slice_sub, E by lia.
    rewrite (assoc_L (++)). apply slice_app_mid; [rewrite zlen_app; lia|done].
Qed.

Lemma ipv6_check_sound : wp (ipv6_check m data len) (fun o =>
  match o with
  | None => True
  | Some (h, q, n) => exists payload rest, ipv6_valid (slice m data len) h payload rest /\
      q = data + IPV6_HEADER /\ n = zlen payload /\ slice m q n = payload
  end).
Proof.
  unfold ipv6_check. destruct (Z.leb_spec 0 len); [|lia]. cbn [assert_ mbind res_bind].
  destruct (Z.ltb_spec len IPV6_HEADER) as [|Hlen]; [done|]. change IPV6_HEADER with 40 in *.
  rewrite rd_list_ok by lia. cbn [mbind res_bind].
  assert (Hw : ipv6_wf (ipv6_of (slice m data 40))) by (apply ipv6_of_wf; [by apply bytes_ok_slice|apply zlen_slice; lia]).
  set (h := ipv6_of (slice m data 40)) in *.
  destruct (Z.eqb_spec (Z.shiftr (version4_tc4 h) 4) 6) as [Hv|]; cbn [negb]; [|done].
  assert (Hb : bytes_ok (i6_payload_length h)) by (by apply bytes_ok_slice, bytes_ok_slice).
  pose proof (ntoh16_range _ Hb) as Ht. set (n := ntoh16 (i6_payload_length h)) in *.
  destruct (Z.ltb_spec (usz (len - 40)) n) as [|Hn]; [done|].
  assert (Hn' : n <= len - 40) by (pose proof (Z.mod_le (len - 40) (2 ^ 64)); unfold usz in Hn; lia).
  exists (slice m (data + 40) n), (slice m (data + 40 + n) (len - 40 - n)).
  assert (Hz1 : zlen (slice m (data + 40) n) = n) by (apply zlen_slice; lia).
  split; [|split_and!; [lia|lia|done]]. unfold ipv6_valid. rewrite Hz1. split_and!; try done.
  unfold h. rewrite ipv6_bytes_of by (apply zlen_slice; lia). by apply packet_split; lia.
Qed.
Lemma ipv6_check_complete h payload rest : len < 2 ^ 64 -> ipv6_valid (slice m data len) h payload rest ->
  ipv6_check m data len = Ok (Some (h, data + IPV6_HEADER, zlen payload)) /\
  slice m (data + IPV6_HEADER) (zlen payload) = payload.
Proof.
  intros H64 (E & Hw & Hv & Ht). change IPV6_HEADER with 40 in *. pose proof (ipv6_bytes_len h Hw) as Hz.
  pose proof (zlen_nonneg payload). pose proof (zlen_nonneg rest).
  assert (El : len = 40 + zlen payload + zlen rest).
  { rewrite <- (zlen_slice m data len) by lia. rewrite E, !zlen_app. lia. }
  split.
  - unfold ipv6_check. destruct (Z.leb_spec 0 len); [|lia]. cbn [assert_ mbind res_bind]. change IPV6_HEADER with 40.
    destruct (Z.ltb_spec len 40); [lia|]. rewrite rd_list_ok by lia. cbn [mbind res_bind].
    rewrite (head_slice 40), E, <- Hz, slice_0_app, ipv6_of_bytes by (done || lia). rewrite Hz, Hv, Ht. change (6 =? 6) with true. cbn [negb].
    replace (usz (len - 40)) with (len - 40) by (unfold usz; rewrite Z.mod_small; lia).
    destruct (Z.ltb_spec (len - 40) (zlen payload)); [lia|]. done.
  - rewrite slice_sub, E by lia. by apply slice_app_mid.
Qed.

Lemma udp_check_sound : wp (udp_check m data len) (fun o =>
  match o with
  | None => True
  | Some (h, q, n) => exists payload rest, udp_valid (slice m data len) h payload rest /\
      q = data + UDP_HEADER /\ n = zlen payload /\ slice m q n = payload
  end).
Proof.
  unfold udp_check. destruct (Z.leb_spec 0 len); [|lia]. cbn [assert_ mbind res_bind].
  destruct (Z.ltb_spec len UDP_HEADER) as [|Hlen]; [done|]. change UDP_HEADER with 8 in *.
  rewrite rd_list_ok by lia. cbn [mbind res_bind].
  assert (Hw : udp_wf (udp_of (slice m data 8))) by (apply udp_of_wf; [by apply bytes_ok_slice|apply zlen_slice; lia]).
  set (h := udp_of (slice m data 8)) in *.
  assert (Hb : bytes_ok (ud_length h)) by (by apply bytes_ok_slice, bytes_ok_slice).
  pose proof (ntoh16_range _ Hb) as Ht. set (n := ntoh16 (ud_length h)) in *.
  destruct (Z.ltb_spec n 8); [done|]. destruct (Z.ltb_spec (usz (8 + (len - 8))) n) as [|Hn]; [done|].
  assert (Hn' : n <= len) by (pose proof (Z.mod_le (8 + (len - 8)) (2 ^ 64)); unfold usz in Hn; lia).
  exists (slice m (data + 8) (n - 8)), (slice m (data + 8 + (n - 8)) (len - 8 - (n - 8))).
  assert (Hz1 : zlen (slice m (data + 8) (n - 8)) = n - 8) by (apply zlen_slice; lia).
  split; [|split_and!; [lia|lia|done]]. unfold udp_valid. rewrite Hz1. split_and!; [|done|change UDP_HEADER with 8; lia].
  unfold h. rewrite udp_bytes_of by (apply zlen_slice; lia). by apply packet_split; lia.
Qed.
Lemma udp_check_complete h payload rest : len < 2 ^ 64 -> udp_valid (slice m data len) h payload rest ->
  udp_check m data len = Ok (Some (h, data + UDP_HEADER, zlen payload)) /\
  slice m (data + UDP_HEADER) (zlen payload) = payload.
Proof.
  intros H64 (E & Hw & Ht). change UDP_HEADER with 8 in *. pose proof (udp_bytes_len h Hw) as Hz.
  pose proof (zlen_nonneg payload). pose proof (zlen_nonneg rest).
  assert (El : len = 8 + zlen payload + zlen rest).
  { rewrite <- (zlen_slice m data len) by lia. rewrite E, !zlen_app. lia. }
  split.
  - unfold udp_check. destruct (Z.leb_spec 0 len); [|lia]. cbn [assert_ mbind res_bind]. change UDP_HEADER with 8.
    destruct (Z.ltb_spec len 8); [lia|]. rewrite rd_list_ok by lia. cbn [mbind res_bind].
    rewrite (head_slice 8), E, <- Hz, slice_0_app, udp_of_bytes by (done || lia). rewrite Hz, Ht.
    destruct (Z.ltb_spec (8 + zlen payload) 8); [lia|].
    replace (usz (8 + (len - 8))) with len by (unfold usz; rewrite Z.mod_small; lia).
    destruct (Z.ltb_spec len (8 + zlen payload)); [lia|]. do 3 f_equal. lia.
  - rewrite slice_sub, E by lia. by apply slice_app_mid.
Qed.
End checks.
