(* ===== verification/DeviceProps.v ===== *)
(** Properties of the device side of tun2socks: which packets are taken as UDP, that the
    packets it builds are such, and the pump that carries packets from the device. *)
From S2P Require Import Prelude CMem PktSum PktSumFacts Sys Flow Chunk SocksClient TcpClient Packet PacketFacts Device DeviceFacts.

#[local] Arguments bsum : simpl never.
#[local] Arguments ones_sum : simpl never.

(** A packet with UDP from [local] to [remote]: whole headers, checksums that are right,
    and not for the port of QUIC. *)
Inductive udp_packet (ip6 : bool) (p : list Z) : BAddr -> BAddr -> list Z -> Prop :=
  | udp_packet4 iph opts seg rest udph data stray :
      ipv4_valid p iph opts seg rest -> i4_protocol iph = IPV4_PROTOCOL_UDP -> udp_valid seg udph data stray ->
      ud_checksum udph = hton16 (65535 - ones_sum (udp_sum (i4_source iph) (i4_destination iph) (udph <| ud_checksum := [0; 0] |>) data)) ->
      ud_dest_port udph <> hton16 443 ->
      udp_packet ip6 p (BAddr_MakeIPv4 (i4_source iph) (ud_source_port udph))
        (BAddr_MakeIPv4 (i4_destination iph) (ud_dest_port udph)) data
  | udp_packet6 iph seg rest udph data stray :
      ip6 = true -> ipv6_valid p iph seg rest -> i6_next_header iph = IPV6_NEXT_UDP -> udp_valid seg udph data stray ->
      ud_checksum udph = hton16 (65535 - ones_sum (udp_sum (i6_source iph) (i6_destination iph) (udph <| ud_checksum := [0; 0] |>) data)) ->
      ud_dest_port udph <> hton16 443 ->
      udp_packet ip6 p (BAddr_MakeIPv6 (i6_source iph) (ud_source_port udph))
        (BAddr_MakeIPv6 (i6_destination iph) (ud_dest_port udph)) data.

Lemma slice_byte (m : list Z) p n i : 0 <= p -> 0 <= i < n -> p + n <= zlen m -> byte_at (slice m p n) i = byte_at m (p + i).
Proof. intros. apply byte_at_slice; lia. Qed.
Lemma version_shift v : is_byte v -> Z.shiftr (Z.land v 0xF0) 4 = Z.shiftr v 4.
Proof.
  intros Hv. rewrite Z.shiftr_land. change (Z.shiftr 0xF0 4) with (Z.ones 4). rewrite Z.land_ones by lia.
  rewrite Z.shiftr_div_pow2 by lia. unfold is_byte in Hv. apply Z.mod_small. Z.to_euclidean_division_equations; lia.
Qed.
Lemma ipv4_parts h : ipv4_wf h -> bytes_ok (i4_source h) /\ bytes_ok (i4_destination h) /\ is_byte (version4_ihl4 h).
Proof.
  intros [Hb _]. destruct h. unfold ipv4_bytes, bytes_ok in *. simpl in *. rewrite !Forall_cons, !Forall_app, !Forall_cons, !Forall_app in Hb. tauto.
Qed.
Lemma ipv6_parts h : ipv6_wf h -> bytes_ok (i6_source h) /\ bytes_ok (i6_destination h).
Proof.
  intros [Hb _]. destruct h. unfold ipv6_bytes, bytes_ok in *. simpl in *. rewrite !Forall_cons, !Forall_app, !Forall_cons, !Forall_app in Hb. tauto.
Qed.

Lemma udp_payload16 p h payload stray : udp_valid p h payload stray -> u16 (zlen payload) = zlen payload /\ zlen payload <= 65527.
Proof.
  intros (_ & (Hb & _) & Hl). unfold udp_bytes, bytes_ok in Hb. rewrite !Forall_app in Hb. destruct Hb as (_ & _ & Hb & _).
  pose proof (ntoh16_range _ Hb). pose proof (zlen_nonneg payload). change UDP_HEADER with 8 in *.
  split; [unfold u16; rewrite Z.mod_small; lia|lia].
Qed.

Section process.
Context {OS : Os}.

(** What the outcome of the last part of the parsers is. *)
Definition submitted (p : list Z) (d : dev) (h : hist) (r : bool) (d' : dev) (h' : hist) : Prop :=
  d' = d /\
  (r = true /\ (exists l rm payload rep, udp_packet (d_ip6 d) p l rm payload /\ zlen payload <= d_udp_mtu d /\
     h' = (CTun (UdpSubmit (addr_pair l) (addr_pair rm) payload), rep) :: h) \/
   r = false /\ h' = h).

Lemma wpp_submit_udp p l rm dns q n payload d h :
  d_udp_mode d = UdpModeSocks -> 0 <= q -> 0 <= n -> q + n <= zlen (d_buf d) -> slice (d_buf d) q n = payload -> zlen payload = n ->
  udp_packet (d_ip6 d) p l rm payload -> wpp (submit_udp l rm dns q n) d h (submitted p d h).
Proof.
  intros Hm Hq Hn Hr Hs Hz Hp. unfold submit_udp, submitted, tun_. wpp_step. wpp_step.
  destruct (Z.ltb_spec (d_udp_mtu d) n); [wpp_step; split; [done|by right]|].
  wpp_step. wpp_step. rewrite rd_list_ok by done. apply wp_ok. rewrite Hm, Hs. repeat wpp_step.
  split; [done|]. left. split; [done|]. eexists l, rm, payload, _. split; [done|]. split; [lia|done].
Qed.

Lemma process_udp4_sound d h data len :
  bytes_ok (d_buf d) -> d_udp_mode d = UdpModeSocks -> 0 <= data -> 0 <= len < 2 ^ 31 -> data + len <= zlen (d_buf d) ->
  wpp (process_udp4 data len) d h (submitted (slice (d_buf d) data len) d h).
Proof.
  intros Hb Hm Hd Hl Hr. assert (Hno : submitted (slice (d_buf d) data len) d h false d h) by (split; [done|by right]).
  unfold process_udp4. wpp_step. wpp_step. destruct (Z.ltb_spec len IPV4_HEADER); [by wpp_step|]. change IPV4_HEADER with 20 in *.
  wpp_step. wpp_step. change IPV4_PROTOCOL_OFFSET with 9. rewrite rd_ok by lia. apply wp_ok.
  destruct (Z.eqb_spec (byte_at (d_buf d) (data + 9)) IPV4_PROTOCOL_UDP) as [Hpr|]; cbn [negb]; [|by wpp_step].
  wpp_step. wpp_step. eapply wp_mono; [apply ipv4_check_sound; done || lia|]. intros [[[iph q] n]|]; [|by intros _; wpp_step].
  intros (opts & seg & rest & Hv & -> & -> & Hseg). pose proof Hv as (E & Hw & _). change IPV4_HEADER with 20 in *.
  pose proof (ipv4_bytes_len iph Hw) as Hz. pose proof (zlen_nonneg opts). pose proof (zlen_nonneg seg). pose proof (zlen_nonneg rest).
  assert (El : len = 20 + zlen opts + zlen seg + zlen rest).
  { rewrite <- (zlen_slice (d_buf d) data len) by lia. rewrite E, !zlen_app. lia. }
  wpp_step. wpp_step. eapply wp_mono; [apply udp_check_sound; done || lia|]. intros [[[udph q] n]|]; [|by intros _; wpp_step].
  rewrite Hseg. intros (payload & stray & Hu & -> & -> & Hpl). pose proof Hu as (E2 & Hwu & _). change UDP_HEADER with 8 in *.
  pose proof (udp_bytes_len udph Hwu) as Hzu. pose proof (zlen_nonneg payload). pose proof (zlen_nonneg stray).
  assert (El2 : zlen seg = 8 + zlen payload + zlen stray) by (rewrite E2, !zlen_app; lia).
  destruct (ipv4_parts _ Hw) as (Hbs & Hbd & _). destruct Hw as (_ & _ & _ & _ & _ & Hzs & Hzd).
  destruct (udp_payload16 _ _ _ _ Hu) as [-> Hp16]. wpp_step. wpp_step.
  rewrite udp_checksum_ok; [|done|done|by apply udp_wf_checksum; [|repeat constructor; lia|]|done|done|done|lia|lia|lia].
  rewrite Hpl. apply wp_ok. case_bool_decide as Hc; cbn [negb]; [|by wpp_step].
  case_bool_decide as H443; [by wpp_step|].
  eapply wpp_submit_udp; [done|lia|lia|lia|done|done|]. econstructor; [exact Hv| |exact Hu|done|done].
  rewrite <- Hpr, <- (ipv4_of_bytes iph (proj1 (proj2 Hv))). unfold ipv4_of. simpl i4_protocol.
  replace (ipv4_bytes iph) with (slice (slice (d_buf d) data len) 0 20) by (rewrite E, <- Hz; apply slice_0_app).
  rewrite slice_slice, byte_at_slice by lia. f_equal. lia.
Qed.

Lemma process_udp6_sound d h data len :
  bytes_ok (d_buf d) -> d_udp_mode d = UdpModeSocks -> 0 <= data -> 0 <= len < 2 ^ 31 -> data + len <= zlen (d_buf d) ->
  wpp (process_udp6 data len) d h (submitted (slice (d_buf d) data len) d h).
Proof.
  intros Hb Hm Hd Hl Hr. assert (Hno : submitted (slice (d_buf d) data len) d h false d h) by (split; [done|by right]).
  unfold process_udp6. wpp_step. wpp_step. destruct (d_ip6 d) eqn:H6; cbn [negb]; [|by wpp_step].
  destruct (Z.ltb_spec len IPV6_HEADER); [by wpp_step|]. change IPV6_HEADER with 40 in *.
  wpp_step. wpp_step. change IPV6_NEXT_OFFSET with 6. rewrite rd_ok by lia. apply wp_ok.
  destruct (Z.eqb_spec (byte_at (d_buf d) (data + 6)) IPV6_NEXT_UDP) as [Hpr|]; cbn [negb]; [|by wpp_step].
  wpp_step. wpp_step. eapply wp_mono; [apply ipv6_check_sound; done || lia|]. intros [[[iph q] n]|]; [|by intros _; wpp_step].
  intros (seg & rest & Hv & -> & -> & Hseg). pose proof Hv as (E & Hw & _). change IPV6_HEADER with 40 in *.
  pose proof (ipv6_bytes_len iph Hw) as Hz. pose proof (zlen_nonneg seg). pose proof (zlen_nonneg rest).
  assert (El : len = 40 + zlen seg + zlen rest).
  { rewrite <- (zlen_slice (d_buf d) data len) by lia. rewrite E, !zlen_app. lia. }
  wpp_step. wpp_step. eapply wp_mono; [apply udp_check_sound; done || lia|]. intros [[[udph q] n]|]; [|by intros _; wpp_step].
  rewrite Hseg. intros (payload & stray & Hu & -> & -> & Hpl). pose proof Hu as (E2 & Hwu & _). change UDP_HEADER with 8 in *.
  pose proof (udp_bytes_len udph Hwu) as Hzu. pose proof (zlen_nonneg payload). pose proof (zlen_nonneg stray).
  assert (El2 : zlen seg = 8 + zlen payload + zlen stray) by (rewrite E2, !zlen_app; lia).
  destruct (ipv6_parts _ Hw) as (Hbs & Hbd). destruct Hw as (_ & _ & _ & Hzs & Hzd).
  destruct (udp_payload16 _ _ _ _ Hu) as [-> Hp16]. wpp_step. wpp_step.
  rewrite udp_ip6_checksum_ok; [|done|done|by apply udp_wf_checksum; [|repeat constructor; lia|]|done|done|done|lia|lia|lia].
  rewrite Hpl. apply wp_ok. case_bool_decide as Hc; cbn [negb]; [|by wpp_step].
  case_bool_decide as H443; [by wpp_step|].
  eapply wpp_submit_udp; [done|lia|lia|lia|done|done|]. rewrite H6. eapply udp_packet6; [done|exact Hv| |exact Hu|done|done].
  rewrite <- Hpr, <- (ipv6_of_bytes iph (proj1 (proj2 Hv))). unfold ipv6_of. simpl i6_next_header.
  replace (ipv6_bytes iph) with (slice (slice (d_buf d) data len) 0 40) by (rewrite E, <- Hz; apply slice_0_app).
  rewrite slice_slice, byte_at_slice by lia. f_equal. lia.
Qed.

Definition submits (m : Prog dev bool) (d : dev) (h : hist) (l rm : BAddr) (payload : list Z) : Prop :=
  m d h = Ok (true, d, (CTun (UdpSubmit (addr_pair l) (addr_pair rm) payload), os_reply h (CTun (UdpSubmit (addr_pair l) (addr_pair rm) payload))) :: h).

Lemma submit_udp_complete l rm dns q n payload d h :
  d_udp_mode d = UdpModeSocks -> 0 <= q -> 0 <= n -> q + n <= zlen (d_buf d) -> slice (d_buf d) q n = payload ->
  n <= d_udp_mtu d -> submits (submit_udp l rm dns q n) d h l rm payload.
Proof.
  intros Hm Hq Hn Hr Hs Hz. unfold submits, submit_udp, tun_. unfold mbind, prog_bind, pget. cbv beta iota.
  destruct (Z.ltb_spec (d_udp_mtu d) n); [lia|]. unfold lift. rewrite rd_list_ok by done. by rewrite Hm, Hs.
Qed.

Lemma process4_complete d h data len iph opts seg rest udph payload stray :
  bytes_ok (d_buf d) -> d_udp_mode d = UdpModeSocks -> 0 <= data -> 0 <= len < 2 ^ 31 -> data + len <= zlen (d_buf d) ->
  ipv4_valid (slice (d_buf d) data len) iph opts seg rest -> i4_protocol iph = IPV4_PROTOCOL_UDP -> udp_valid seg udph payload stray ->
  ud_checksum udph = hton16 (65535 - ones_sum (udp_sum (i4_source iph) (i4_destination iph) (udph <| ud_checksum := [0; 0] |>) payload)) ->
  ud_dest_port udph <> hton16 443 -> zlen payload <= d_udp_mtu d ->
  submits (process_udp4 data len) d h (BAddr_MakeIPv4 (i4_source iph) (ud_source_port udph))
    (BAddr_MakeIPv4 (i4_destination iph) (ud_dest_port udph)) payload.
Proof.
  intros Hb Hm Hd Hl Hr Hv Hpr Hu Hc H443 Hmtu. pose proof Hv as (E & Hw & _). pose proof (ipv4_bytes_len iph Hw) as Hz.
  pose proof (zlen_nonneg opts). pose proof (zlen_nonneg seg). pose proof (zlen_nonneg rest).
  assert (El : len = 20 + zlen opts + zlen seg + zlen rest).
  { rewrite <- (zlen_slice (d_buf d) data len) by lia. rewrite E, !zlen_app. lia. }
  pose proof Hu as (E2 & Hwu & _). pose proof (udp_bytes_len udph Hwu) as Hzu. pose proof (zlen_nonneg payload). pose proof (zlen_nonneg stray).
  assert (El2 : zlen seg = 8 + zlen payload + zlen stray) by (rewrite E2, !zlen_app; lia).
  destruct (ipv4_parts _ Hw) as (Hbs & Hbd & _). destruct (udp_payload16 _ _ _ _ Hu) as [Hp16 Hp16'].
  unfold submits, process_udp4. unfold mbind, prog_bind, pget. cbv beta iota.
  destruct (Z.ltb_spec len IPV4_HEADER) as [Hx|_]; [change IPV4_HEADER with 20 in Hx; lia|].
  unfold lift. change IPV4_PROTOCOL_OFFSET with 9. rewrite rd_ok by lia. cbv beta iota.
  assert (Hp9 : byte_at (d_buf d) (data + 9) = IPV4_PROTOCOL_UDP).
  { rewrite <- Hpr, <- (ipv4_of_bytes iph Hw). unfold ipv4_of. simpl i4_protocol.
    replace (ipv4_bytes iph) with (slice (slice (d_buf d) data len) 0 20) by (rewrite E, <- Hz; apply slice_0_app).
    rewrite slice_slice, byte_at_slice by lia. f_equal. lia. }
  rewrite Hp9, Z.eqb_refl. cbn [negb].
  destruct (ipv4_check_complete (d_buf d) data len Hb Hd ltac:(lia) Hr _ _ _ _ Hv) as [-> Hseg]. cbv beta iota.
  rewrite <- Hseg in Hu. change IPV4_HEADER with 20 in *.
  destruct (udp_check_complete (d_buf d) (data + 20 + zlen opts) (zlen seg) ltac:(lia) ltac:(lia) ltac:(lia) _ _ _ ltac:(lia) Hu) as [-> Hpl].
  cbv beta iota. rewrite Hp16. change UDP_HEADER with 8 in *. destruct Hw as (_ & _ & _ & _ & _ & Hzs & Hzd).
  rewrite udp_checksum_ok; [|done|done|by apply udp_wf_checksum; [|repeat constructor; lia|]|done|done|done|lia|lia|lia].
  cbv beta iota. rewrite Hpl, bool_decide_eq_true_2 by done. cbn [negb]. rewrite bool_decide_eq_false_2 by done.
  apply submit_udp_complete; try done; lia.
Qed.
Lemma process6_complete d h data len iph seg rest udph payload stray :
  bytes_ok (d_buf d) -> d_udp_mode d = UdpModeSocks -> 0 <= data -> 0 <= len < 2 ^ 31 -> data + len <= zlen (d_buf d) ->
  d_ip6 d = true -> ipv6_valid (slice (d_buf d) data len) iph seg rest -> i6_next_header iph = IPV6_NEXT_UDP -> udp_valid seg udph payload stray ->
  ud_checksum udph = hton16 (65535 - ones_sum (udp_sum (i6_source iph) (i6_destination iph) (udph <| ud_checksum := [0; 0] |>) payload)) ->
  ud_dest_port udph <> hton16 443 -> zlen payload <= d_udp_mtu d ->
  submits (process_udp6 data len) d h (BAddr_MakeIPv6 (i6_source iph) (ud_source_port udph))
    (BAddr_MakeIPv6 (i6_destination iph) (ud_dest_port udph)) payload.
Proof.
  intros Hb Hm Hd Hl Hr H6 Hv Hpr Hu Hc H443 Hmtu. pose proof Hv as (E & Hw & _). pose proof (ipv6_bytes_len iph Hw) as Hz.
  pose proof (zlen_nonneg seg). pose proof (zlen_nonneg rest).
  assert (El : len = 40 + zlen seg + zlen rest).
  { rewrite <- (zlen_slice (d_buf d) data len) by lia. rewrite E, !zlen_app. lia. }
  pose proof Hu as (E2 & Hwu & _). pose proof (udp_bytes_len udph Hwu) as Hzu. pose proof (zlen_nonneg payload). pose proof (zlen_nonneg stray).
  assert (El2 : zlen seg = 8 + zlen payload + zlen stray) by (rewrite E2, !zlen_app; lia).
  destruct (ipv6_parts _ Hw) as (Hbs & Hbd). destruct (udp_payload16 _ _ _ _ Hu) as [Hp16 Hp16'].
  unfold submits, process_udp6. unfold mbind, prog_bind, pget. cbv beta iota. rewrite H6. cbn [negb].
  destruct (Z.ltb_spec len IPV6_HEADER) as [Hx|_]; [change IPV6_HEADER with 40 in Hx; lia|].
  unfold lift. change IPV6_NEXT_OFFSET with 6. rewrite rd_ok by lia. cbv beta iota.
  assert (Hp6 : byte_at (d_buf d) (data + 6) = IPV6_NEXT_UDP).
  { rewrite <- Hpr, <- (ipv6_of_bytes iph Hw). unfold ipv6_of. simpl i6_next_header.
    replace (ipv6_bytes iph) with (slice (slice (d_buf d) data len) 0 40) by (rewrite E, <- Hz; apply slice_0_app).
    rewrite slice_slice, byte_at_slice by lia. f_equal. lia. }
  rewrite Hp6, Z.eqb_refl. cbn [negb].
  destruct (ipv6_check_complete (d_buf d) data len Hd ltac:(lia) Hr _ _ _ ltac:(lia) Hv) as [-> Hseg]. cbv beta iota.
  rewrite <- Hseg in Hu. change IPV6_HEADER with 40 in *.
  destruct (udp_check_complete (d_buf d) (data + 40) (zlen seg) ltac:(lia) ltac:(lia) ltac:(lia) _ _ _ ltac:(lia) Hu) as [-> Hpl].
  cbv beta iota. rewrite Hp16. change UDP_HEADER with 8 in *. destruct Hw as (_ & _ & _ & Hzs & Hzd).
  rewrite udp_ip6_checksum_ok; [|done|done|by apply udp_wf_checksum; [|repeat constructor; lia|]|done|done|done|lia|lia|lia].
  cbv beta iota. rewrite Hpl, bool_decide_eq_true_2 by done. cbn [negb]. rewrite bool_decide_eq_false_2 by done.
  apply submit_udp_complete; try done; lia.
Qed.
End process.

Lemma packet_version4 (m : list Z) data len iph opts seg rest : bytes_ok m -> 0 <= data -> 0 <= len -> data + len <= zlen m ->
  ipv4_valid (slice m data len) iph opts seg rest -> 0 < len /\ Z.shiftr (byte_at m data) 4 = 4.
Proof.
  intros Hb Hd Hl Hr (E & Hw & Hv & _). pose proof (ipv4_bytes_len iph Hw) as Hz.
  assert (0 < len). { rewrite <- (zlen_slice m data len), E, zlen_app by lia. pose proof (zlen_nonneg (opts ++ seg ++ rest)). lia. }
  split; [done|]. destruct (ipv4_parts _ Hw) as (_ & _ & Hvb). trans (IPV4_GET_VERSION iph); [|done].
  unfold IPV4_GET_VERSION. rewrite version_shift by done.
  f_equal. replace (byte_at m data) with (byte_at (slice m data len) 0) by (rewrite byte_at_slice by lia; f_equal; lia).
  by rewrite E.
Qed.
Lemma packet_version6 (m : list Z) data len iph seg rest : 0 <= data -> 0 <= len -> data + len <= zlen m ->
  ipv6_valid (slice m data len) iph seg rest -> 0 < len /\ Z.shiftr (byte_at m data) 4 = 6.
Proof.
  intros Hd Hl Hr (E & Hw & Hv & _). pose proof (ipv6_bytes_len iph Hw) as Hz.
  assert (0 < len). { rewrite <- (zlen_slice m data len), E, zlen_app by lia. pose proof (zlen_nonneg (seg ++ rest)). lia. }
  split; [done|]. trans (Z.shiftr (version4_tc4 iph) 4); [|done]. f_equal.
  replace (byte_at m data) with (byte_at (slice m data len) 0) by (rewrite byte_at_slice by lia; f_equal; lia). by rewrite E.
Qed.

Lemma process_complete {OS : Os} d h data len l rm payload :
  bytes_ok (d_buf d) -> d_udp_mode d = UdpModeSocks -> 0 <= data -> 0 <= len < 2 ^ 31 -> data + len <= zlen (d_buf d) ->
  udp_packet (d_ip6 d) (slice (d_buf d) data len) l rm payload -> zlen payload <= d_udp_mtu d ->
  submits (process_device_udp_packet data len) d h l rm payload.
Proof.
  intros Hb Hm Hd Hl Hr Hp Hmtu. unfold submits, process_device_udp_packet. unfold passert. destruct (Z.leb_spec 0 len); [|lia].
  unfold mbind, prog_bind, mret, prog_ret, pget. cbv beta iota. rewrite bool_decide_eq_false_2 by (by rewrite Hm).
  inversion Hp as [iph opts seg rest udph data' stray Hv H1 H2 H3 H4|iph seg rest udph data' stray H6 Hv H1 H2 H3 H4]; subst.
  - destruct (packet_version4 (d_buf d) data len _ _ _ _ Hb Hd ltac:(lia) Hr Hv) as [Hlen Hver]. destruct (Z.ltb_spec 0 len); [|lia].
    unfold lift. rewrite rd_ok by lia. cbv beta iota. rewrite Hver. by eapply process4_complete.
  - destruct (packet_version6 (d_buf d) data len _ _ _ Hd ltac:(lia) Hr Hv) as [Hlen Hver]. destruct (Z.ltb_spec 0 len); [|lia].
    unfold lift. rewrite rd_ok by lia. cbv beta iota. rewrite Hver. by eapply process6_complete.
Qed.

Lemma process_sound {OS : Os} d h data len :
  bytes_ok (d_buf d) -> d_udp_mode d = UdpModeSocks -> 0 <= data -> 0 <= len < 2 ^ 31 -> data + len <= zlen (d_buf d) ->
  wpp (process_device_udp_packet data len) d h (submitted (slice (d_buf d) data len) d h).
Proof.
  intros Hb Hm Hd Hl Hr. assert (Hno : submitted (slice (d_buf d) data len) d h false d h) by (split; [done|by right]).
  unfold process_device_udp_packet. wpp_step. apply wpp_passert; [lia|]. wpp_step. wpp_step.
  rewrite bool_decide_eq_false_2 by (by rewrite Hm). wpp_step.
  assert (Hgo : forall v, wpp (if v =? 4 then process_udp4 data len else if v =? 6 then process_udp6 data len else mret false) d h
    (submitted (slice (d_buf d) data len) d h)).
  { intros v. case_match; [by apply process_udp4_sound|]. case_match; [by apply process_udp6_sound|]. by wpp_step. }
  destruct (Z.ltb_spec 0 len); wpp_step; [|by apply Hgo]. wpp_step. rewrite rd_ok by lia. apply wp_ok. wpp_step. apply Hgo.
Qed.

(** C10: Packets from the device against the grammar [udp_packet]. On any bytes,
    [process_device_udp_packet] returns, loads nothing outside the packet and changes
    nothing; it takes a packet exactly when the grammar says that it is UDP (IPv4 with
    its options, or IPv6 while that is enabled, with headers whose lengths agree and
    whose checksums are right, not for port 443) and its data fits, and then passes on
    exactly the addresses and the data that the grammar reads in it, once. *)
Theorem device_udp_exact {OS : Os} d h data len :
  bytes_ok (d_buf d) -> d_udp_mode d = UdpModeSocks -> 0 <= data -> 0 <= len < 2 ^ 31 -> data + len <= zlen (d_buf d) ->
  let p := slice (d_buf d) data len in
  exists r h', process_device_udp_packet data len d h = Ok (r, d, h') /\
    (r = true /\ (exists l rm payload rep, udp_packet (d_ip6 d) p l rm payload /\ zlen payload <= d_udp_mtu d /\
       h' = (CTun (UdpSubmit (addr_pair l) (addr_pair rm) payload), rep) :: h) \/
     r = false /\ h' = h /\ forall l rm payload, udp_packet (d_ip6 d) p l rm payload -> d_udp_mtu d < zlen payload).
Proof.
  intros Hb Hm Hd Hl Hr p. destruct (wpp_inv _ _ _ _ (process_sound d h data len Hb Hm Hd Hl Hr)) as (r & d' & h' & E & -> & Hs).
  exists r, h'. split; [done|]. destruct Hs as [[-> Hs]|[-> ->]]; [by left|right]. split_and!; try done.
  intros l rm payload Hp. destruct (Z.lt_ge_cases (d_udp_mtu d) (zlen payload)) as [|Hle]; [done|].
  pose proof (process_complete d h data len l rm payload Hb Hm Hd Hl Hr Hp Hle) as Hc. unfold submits in Hc. congruence.
Qed.

(** ** Packets to the device *)

(** An address of a UDP client: its bytes, and its family. *)
Definition addr_ok (a : BAddr) : Prop := bytes_ok (ba_body a) /\ zlen (ba_body a) = 24.
Definition addr_ip (a : BAddr) : list Z := if ba_type a =? BADDR_TYPE_IPV4 then slice (ba_ipv4 a) 0 4 else slice (ba_ipv6 a) 0 16.
Definition addr_port (a : BAddr) : list Z := if ba_type a =? BADDR_TYPE_IPV4 then slice (ba_ipv4 a) 4 2 else slice (ba_ipv6 a) 16 2.
Definition addr_make (a : BAddr) : BAddr :=
  if ba_type a =? BADDR_TYPE_IPV4 then BAddr_MakeIPv4 (addr_ip a) (addr_port a) else BAddr_MakeIPv6 (addr_ip a) (addr_port a).
(** Whether the data fits in a packet to [a]. *)
Definition udp_fits (d : dev) (a : BAddr) (data : list Z) : bool :=
  if ba_type a =? BADDR_TYPE_IPV4 then (zlen data <=? 65507) && (zlen data <=? BTap_GetMTU d - 28)
  else d_ip6 d && (zlen data <=? 65527) && (zlen data <=? BTap_GetMTU d - 48).

Lemma addr_ok_ipv4 a : addr_ok a -> bytes_ok (ba_ipv4 a) /\ zlen (slice (ba_ipv4 a) 0 4) = 4 /\ zlen (slice (ba_ipv4 a) 4 2) = 2.
Proof.
  intros [Hb Hz]. unfold ba_ipv4, ADDR_IPV4. split; [by apply bytes_ok_slice|].
  rewrite !zlen_slice; rewrite ?zlen_slice; lia.
Qed.
Lemma addr_ok_ipv6 a : addr_ok a -> bytes_ok (ba_ipv6 a) /\ zlen (slice (ba_ipv6 a) 0 16) = 16 /\ zlen (slice (ba_ipv6 a) 16 2) = 2.
Proof.
  intros [Hb Hz]. unfold ba_ipv6, ADDR_IPV6. split; [by apply bytes_ok_slice|].
  rewrite !zlen_slice; rewrite ?zlen_slice; lia.
Qed.

Section send.
Context {OS : Os}.

Lemma splice_at_end (m : list Z) (src : list Z) a : 0 <= a -> a + zlen src <= zlen m ->
  slice (splice m a src) 0 (a + zlen src) = slice m 0 a ++ src.
Proof.
  intros Ha Hl. pose proof (zlen_nonneg src). rewrite <- (slice_app _ 0 a (zlen src)) by lia.
  rewrite slice_splice_before by lia. by rewrite slice_splice_at by lia.
Qed.

(** Only [device_write_buf] changed. *)
Definition rebuffered (d d' : dev) : Prop :=
  exists wb, zlen wb = zlen (d_write_buf d) /\ bytes_ok wb /\ d' = d <| d_write_buf := wb |>.
Lemma rebuffered_refl d : bytes_ok (d_write_buf d) -> rebuffered d d.
Proof. intros H. exists (d_write_buf d). by destruct d. Qed.

Lemma wpp_send_parts iph udph data d h :
  zlen (d_write_buf d) = BTap_GetMTU d -> zlen (iph ++ udph ++ data) <= BTap_GetMTU d ->
  bytes_ok (d_write_buf d) -> bytes_ok iph -> bytes_ok udph -> bytes_ok data ->
  wpp (send_parts iph udph data) d h (fun _ d' h' => (exists rep, h' = (CTun (Write (t_fd (d_tap d)) (iph ++ udph ++ data)), rep) :: h) /\ rebuffered d d').
Proof.
  intros Hz Hl Hbw Hbi Hbu Hbd. rewrite !zlen_app in Hl. pose proof (zlen_nonneg iph). pose proof (zlen_nonneg udph). pose proof (zlen_nonneg data).
  unfold send_parts. wpp_step. wpp_step. wpp_step. wpp_step. rewrite wr_list_ok by lia. apply wp_ok.
  pose proof (zlen_splice (d_write_buf d) 0 iph ltac:(lia) ltac:(lia)) as Hz1. pose proof (splice_at_end (d_write_buf d) iph 0 ltac:(lia) ltac:(lia)) as E1.
  set (m1 := splice (d_write_buf d) 0 iph) in *. wpp_step. wpp_step. rewrite wr_list_ok by lia. apply wp_ok.
  pose proof (zlen_splice m1 (zlen iph) udph ltac:(lia) ltac:(lia)) as Hz2. pose proof (splice_at_end m1 udph (zlen iph) ltac:(lia) ltac:(lia)) as E2.
  set (m2 := splice m1 (zlen iph) udph) in *. wpp_step. wpp_step. rewrite wr_list_ok by lia. apply wp_ok.
  pose proof (zlen_splice m2 (zlen iph + zlen udph) data ltac:(lia) ltac:(lia)) as Hz3.
  pose proof (splice_at_end m2 data (zlen iph + zlen udph) ltac:(lia) ltac:(lia)) as E3.
  set (m3 := splice m2 (zlen iph + zlen udph) data) in *. wpp_step. wpp_step. wpp_step. wpp_step. rewrite rd_list_ok by lia. apply wp_ok.
  rewrite E3, E2. rewrite Z.add_0_l in E1. rewrite E1. change (slice (d_write_buf d) 0 0) with (@nil Z). cbn [app]. rewrite <- (assoc_L (++)).
  unfold BTap_Send, tun_. wpp_step. wpp_step. wpp_step. apply wpp_passert.
  { rewrite !zlen_app. unfold BTap_GetMTU in *. simpl. lia. }
  repeat wpp_step. split; [by eexists|]. exists m3. split_and!; [lia| |done]. by repeat apply bytes_ok_splice.
Qed.
End send.

Lemma zero16 : hton16 0 = [0; 0].
Proof. done. Qed.
Lemma checksum_field x : bytes_ok (hton16 x) /\ zlen (hton16 x) = 2.
Proof. apply hton16_bytes. Qed.

(** The headers that tun2socks builds. *)
Lemma built_ipv4 (source dest data : list Z) : bytes_ok source -> bytes_ok dest -> zlen source = 4 -> zlen dest = 4 ->
  zlen data <= 65507 ->
  let iph := Ipv4Header (IPV4_MAKE_VERSION_IHL IPV4_HEADER) 0 (hton16 (u16 (IPV4_HEADER + UDP_HEADER + zlen data)))
    (hton16 0) (hton16 0) 64 IPV4_PROTOCOL_UDP (hton16 0) source dest in
  exists c, ipv4_checksum iph [] 0 0 = Ok c /\ ipv4_wf (iph <| i4_checksum := c |>) /\
    forall udph, zlen udph = 8 -> ipv4_valid (ipv4_bytes (iph <| i4_checksum := c |>) ++ udph ++ data) (iph <| i4_checksum := c |>) [] (udph ++ data) [].
Proof.
  intros Hs Hd Hls Hld Hl iph. pose proof (zlen_nonneg data).
  assert (Hw : ipv4_wf iph).
  { destruct (checksum_field (u16 (IPV4_HEADER + UDP_HEADER + zlen data))). unfold ipv4_wf, ipv4_bytes, iph. simpl.
    split; [|done]. unfold bytes_ok in *. rewrite !Forall_cons, !Forall_app. split_and!; try done; repeat constructor; first [by apply Z.mod_pos_bound|by vm_compute]. }
  eexists. split; [apply (ipv4_checksum_ok iph [] 0 0); try done; constructor|].
  set (c := hton16 _). destruct (checksum_field (65535 - ones_sum (bsum (ipv4_bytes iph) + bsum (slice [] 0 0)))) as [Hcb Hcz].
  fold c in Hcb, Hcz. assert (Hw' : ipv4_wf (iph <| i4_checksum := c |>)) by (by apply ipv4_wf_checksum). split; [done|].
  intros udph Hu. unfold ipv4_valid. rewrite app_nil_r. cbn [app]. split_and!; try done.
  - simpl i4_total_length. change (IPV4_HEADER + UDP_HEADER) with 28. rewrite ntoh16_hton16 by (unfold u16; apply Z.mod_pos_bound; lia).
    unfold u16. rewrite Z.mod_small by lia. rewrite zlen_app. unfold IPV4_HEADER. change (zlen []) with 0. lia.
Qed.
Lemma built_ipv6 (source dest udph data : list Z) : bytes_ok source -> bytes_ok dest -> zlen source = 16 -> zlen dest = 16 ->
  zlen udph = 8 -> zlen data <= 65527 ->
  let iph := Ipv6Header (Z.shiftl 6 4) 0 (hton16 0) (hton16 (u16 (UDP_HEADER + zlen data))) IPV6_NEXT_UDP 64 source dest in
  ipv6_valid (ipv6_bytes iph ++ udph ++ data) iph (udph ++ data) [].
Proof.
  intros Hs Hd Hls Hld Hu Hl iph. pose proof (zlen_nonneg data). unfold ipv6_valid. rewrite app_nil_r. split_and!; try done.
  - destruct (checksum_field (u16 (UDP_HEADER + zlen data))). unfold ipv6_wf, ipv6_bytes, iph. simpl.
    split; [|done]. unfold bytes_ok in *. rewrite !Forall_cons, !Forall_app. split_and!; try done; repeat constructor; first [by apply Z.mod_pos_bound|by vm_compute].
  - simpl i6_payload_length. change UDP_HEADER with 8. rewrite ntoh16_hton16 by (unfold u16; apply Z.mod_pos_bound; lia).
    unfold u16. rewrite Z.mod_small by lia. rewrite zlen_app. lia.
Qed.
Lemma built_udp (sport dport c data : list Z) : bytes_ok sport -> bytes_ok dport -> zlen sport = 2 -> zlen dport = 2 ->
  bytes_ok c -> zlen c = 2 -> zlen data <= 65527 ->
  let udph := UdpHeader sport dport (hton16 (u16 (UDP_HEADER + zlen data))) c in
  udp_wf udph /\ udp_valid (udp_bytes udph ++ data) udph data [].
Proof.
  intros Hs Hd Hls Hld Hc Hlc Hl udph. pose proof (zlen_nonneg data).
  assert (Hw : udp_wf udph).
  { destruct (checksum_field (u16 (UDP_HEADER + zlen data))). unfold udp_wf, udp_bytes, udph. cbn [ud_source_port ud_dest_port ud_length ud_checksum]. split; [|done].
    unfold bytes_ok in *. rewrite !Forall_app. tauto. }
  split; [done|]. unfold udp_valid. rewrite app_nil_r. split_and!; try done. simpl ud_length. change UDP_HEADER with 8.
  rewrite ntoh16_hton16 by (unfold u16; apply Z.mod_pos_bound; lia). unfold u16. rewrite Z.mod_small; lia.
Qed.

Section roundtrip.
Context {OS : Os}.

(** What is sent: one packet, which reads as UDP from [remote] to [local]. *)
Definition sent_udp (local remote : BAddr) (data : list Z) (d : dev) (h : hist) (d' : dev) (h' : hist) : Prop :=
  rebuffered d d' /\ exists p rep, h' = (CTun (Write (t_fd (d_tap d)) p), rep) :: h /\ zlen p <= BTap_GetMTU d /\ bytes_ok p /\
    (addr_port local <> hton16 443 -> udp_packet (d_ip6 d) p (addr_make remote) (addr_make local) data).

Lemma sent_intro local remote data d h iph udph : bytes_ok iph -> bytes_ok udph -> bytes_ok data ->
  zlen (d_write_buf d) = BTap_GetMTU d -> zlen (iph ++ udph ++ data) <= BTap_GetMTU d ->
  bytes_ok (d_write_buf d) ->
  (addr_port local <> hton16 443 -> udp_packet (d_ip6 d) (iph ++ udph ++ data) (addr_make remote) (addr_make local) data) ->
  wpp (send_parts iph udph data) d h (fun _ d' h' => sent_udp local remote data d h d' h').
Proof.
  intros Hi Hu Hd Hz Hl Hw Hp. eapply wpp_mono; [by apply wpp_send_parts|]. intros _ d' h' [[rep ->] Hrb]. split; [done|].
  exists (iph ++ udph ++ data), rep. split_and!; try done. by rewrite !bytes_ok_app.
Qed.

Lemma fits4 local data d : ba_type local = BADDR_TYPE_IPV4 ->
  (usz (2 ^ 16 - 1 - (IPV4_HEADER + UDP_HEADER)) <? zlen data) || (BTap_GetMTU d - (IPV4_HEADER + UDP_HEADER) <? zlen data)
    = negb (udp_fits d local data).
Proof.
  intros Hl. unfold udp_fits. rewrite Hl. change (BADDR_TYPE_IPV4 =? BADDR_TYPE_IPV4) with true. cbv iota.
  change (usz (2 ^ 16 - 1 - (IPV4_HEADER + UDP_HEADER))) with 65507. change (IPV4_HEADER + UDP_HEADER) with 28. lia.
Qed.
Lemma fits6 local data d : ba_type local = BADDR_TYPE_IPV6 -> d_ip6 d = true ->
  (usz (2 ^ 16 - 1 - UDP_HEADER) <? zlen data) || (BTap_GetMTU d - (IPV6_HEADER + UDP_HEADER) <? zlen data)
    = negb (udp_fits d local data).
Proof.
  intros Hl H6. unfold udp_fits. rewrite Hl, H6. change (BADDR_TYPE_IPV6 =? BADDR_TYPE_IPV4) with false. cbv iota.
  change (usz (2 ^ 16 - 1 - UDP_HEADER)) with 65527. change (IPV6_HEADER + UDP_HEADER) with 48. cbn [andb]. lia.
Qed.

Lemma wpp_udp_send4 local remote data d h :
  zlen (d_write_buf d) = BTap_GetMTU d -> bytes_ok (d_write_buf d) -> d_udp_mode d <> UdpModeNone -> addr_ok local -> addr_ok remote -> bytes_ok data ->
  ba_type local = BADDR_TYPE_IPV4 -> ba_type remote = BADDR_TYPE_IPV4 ->
  wpp (udp_send_packet_to_device local remote data) d h (fun _ d' h' =>
    if udp_fits d local data then sent_udp local remote data d h d' h' else h' = h /\ d' = d).
Proof.
  intros Hz Hbw Hm Hlo Hre Hd Hl Hr. unfold udp_send_packet_to_device. wpp_step. wpp_step. wpp_step.
  apply wpp_passert; [by rewrite bool_decide_eq_false_2|]. rewrite (fits4 local) by done. rewrite Hl, Hr.
  do 2 (wpp_step; apply wpp_passert; [done|]). change (BADDR_TYPE_IPV4 =? BADDR_TYPE_IPV4) with true. cbv iota.
  destruct (udp_fits d local data) eqn:Hf; cbn [negb]; [|by wpp_step].
  unfold udp_fits in Hf. rewrite Hl in Hf. change (BADDR_TYPE_IPV4 =? BADDR_TYPE_IPV4) with true in Hf. cbv iota in Hf.
  destruct (addr_ok_ipv4 local Hlo) as (L1 & L2 & L3). destruct (addr_ok_ipv4 remote Hre) as (R1 & R2 & R3).
  pose proof (zlen_nonneg data).
  destruct (built_ipv4 (slice (ba_ipv4 remote) 0 4) (slice (ba_ipv4 local) 0 4) data) as (c & Ec & Hwi & Hvi);
    try done; try (by apply bytes_ok_slice); [lia|].
  set (iph := Ipv4Header _ _ _ _ _ _ _ _ _ _) in *. wpp_step. wpp_step. rewrite Ec. apply wp_ok.
  set (iph' := iph <| i4_checksum := c |>) in *.
  pose proof (fun ck Hck Hzk => built_udp (slice (ba_ipv4 remote) 4 2) (slice (ba_ipv4 local) 4 2) ck data
    (bytes_ok_slice _ _ _ R1) (bytes_ok_slice _ _ _ L1) R3 L3 Hck Hzk ltac:(lia)) as Hb.
  replace (u16 (zlen data)) with (zlen data) by (unfold u16; rewrite Z.mod_small; lia).
  destruct (Hb [0; 0]) as [Hwu _]; [by repeat constructor|done|]. wpp_step. wpp_step.
  rewrite udp_checksum_ok; [|by apply bytes_ok_slice|by apply bytes_ok_slice|exact Hwu|done|done|done|lia|lia|lia].
  apply wp_ok. rewrite slice_whole. set (ck := hton16 _).
  match goal with |- wpp (send_parts _ (udp_bytes ?u) _) _ _ _ => set (udph' := u) end.
  assert (Hu' : udp_wf udph' /\ udp_valid (udp_bytes udph' ++ data) udph' data []) by (apply (Hb ck); apply checksum_field).
  destruct Hu' as [Hwu' Hvu]. pose proof (udp_bytes_len _ Hwu') as Hz8. pose proof (ipv4_bytes_len _ Hwi) as Hz20.
  apply sent_intro; [apply Hwi|apply Hwu'|done|done| |done|].
  { rewrite !zlen_app. lia. }
  intros H443. unfold addr_make, addr_ip, addr_port in *. rewrite Hl, Hr in *. change (BADDR_TYPE_IPV4 =? BADDR_TYPE_IPV4) with true in *. cbv iota in *.
  exact (udp_packet4 (d_ip6 d) _ iph' [] _ [] udph' data [] (Hvi _ Hz8) eq_refl Hvu eq_refl H443).
Qed.

Lemma wpp_udp_send6 local remote data d h :
  zlen (d_write_buf d) = BTap_GetMTU d -> bytes_ok (d_write_buf d) -> d_udp_mode d <> UdpModeNone -> addr_ok local -> addr_ok remote -> bytes_ok data ->
  ba_type local = BADDR_TYPE_IPV6 -> ba_type remote = BADDR_TYPE_IPV6 ->
  wpp (udp_send_packet_to_device local remote data) d h (fun _ d' h' =>
    if udp_fits d local data then sent_udp local remote data d h d' h' else h' = h /\ d' = d).
Proof.
  intros Hz Hbw Hm Hlo Hre Hd Hl Hr. unfold udp_send_packet_to_device. wpp_step. wpp_step. wpp_step.
  apply wpp_passert; [by rewrite bool_decide_eq_false_2|]. rewrite Hl, Hr.
  do 2 (wpp_step; apply wpp_passert; [done|]). change (BADDR_TYPE_IPV6 =? BADDR_TYPE_IPV4) with false. cbv iota.
  destruct (d_ip6 d) eqn:H6; cbn [negb]; [|wpp_step; unfold udp_fits; rewrite Hl, H6; done].
  rewrite (fits6 local) by done.
  destruct (udp_fits d local data) eqn:Hf; cbn [negb]; [|by wpp_step].
  unfold udp_fits in Hf. rewrite Hl in Hf. change (BADDR_TYPE_IPV6 =? BADDR_TYPE_IPV4) with false in Hf. cbv iota in Hf.
  destruct (addr_ok_ipv6 local Hlo) as (L1 & L2 & L3). destruct (addr_ok_ipv6 remote Hre) as (R1 & R2 & R3).
  pose proof (zlen_nonneg data).
  assert (Hvi : forall udph, zlen udph = 8 -> _) by exact (fun udph Hu => built_ipv6 (slice (ba_ipv6 remote) 0 16) (slice (ba_ipv6 local) 0 16) udph data
    (bytes_ok_slice _ _ _ R1) (bytes_ok_slice _ _ _ L1) R2 L2 Hu ltac:(lia)).
  cbv zeta in Hvi. set (iph := Ipv6Header _ _ _ _ _ _ _ _) in *.
  pose proof (fun ck Hck Hzk => built_udp (slice (ba_ipv6 remote) 16 2) (slice (ba_ipv6 local) 16 2) ck data
    (bytes_ok_slice _ _ _ R1) (bytes_ok_slice _ _ _ L1) R3 L3 Hck Hzk ltac:(lia)) as Hb.
  replace (u16 (zlen data)) with (zlen data) by (unfold u16; rewrite Z.mod_small; lia).
  destruct (Hb [0; 0]) as [Hwu _]; [by repeat constructor|done|]. wpp_step. wpp_step.
  rewrite udp_ip6_checksum_ok; [|by apply bytes_ok_slice|by apply bytes_ok_slice|exact Hwu|done|done|done|lia|lia|lia].
  apply wp_ok. rewrite slice_whole. set (ck := hton16 _).
  match goal with |- wpp (send_parts _ (udp_bytes ?u) _) _ _ _ => set (udph' := u) end.
  assert (Hu' : udp_wf udph' /\ udp_valid (udp_bytes udph' ++ data) udph' data []) by (apply (Hb ck); apply checksum_field).
  destruct Hu' as [Hwu' Hvu]. pose proof (udp_bytes_len _ Hwu') as Hz8.
  pose proof (Hvi _ Hz8) as Hv. pose proof Hv as (_ & Hwi & _). pose proof (ipv6_bytes_len _ Hwi) as Hz40.
  apply sent_intro; [apply Hwi|apply Hwu'|done|done| |done|].
  { rewrite !zlen_app. lia. }
  intros H443. unfold addr_make, addr_ip, addr_port in *. rewrite Hl, Hr in *. change (BADDR_TYPE_IPV6 =? BADDR_TYPE_IPV4) with false in *. cbv iota in *.
  rewrite H6. exact (udp_packet6 true _ iph _ [] udph' data [] eq_refl Hv eq_refl Hvu eq_refl H443).
Qed.
End roundtrip.

(** C15: UDP to the device and back. For data that fits in a packet,
    [udp_send_packet_to_device] writes exactly one packet to the device, no longer than
    its MTU; what [process_device_udp_packet] reads in that packet, wherever it lies in
    a buffer, is the same data from [remote] to [local] (the packet is not taken when it
    is for port 443 there). Data that does not fit, or IPv6 while that is disabled,
    sends nothing. *)
Theorem udp_device_roundtrip {OS : Os} local remote data d h :
  zlen (d_write_buf d) = BTap_GetMTU d -> bytes_ok (d_write_buf d) -> BTap_GetMTU d < 2 ^ 31 -> d_udp_mode d = UdpModeSocks ->
  addr_ok local -> addr_ok remote -> bytes_ok data ->
  ba_type local = ba_type remote -> ba_type local = BADDR_TYPE_IPV4 \/ ba_type local = BADDR_TYPE_IPV6 ->
  exists d' h', udp_send_packet_to_device local remote data d h = Ok (tt, d', h') /\
    if udp_fits d local data then
      exists p rep, h' = (CTun (Write (t_fd (d_tap d)) p), rep) :: h /\ zlen p <= BTap_GetMTU d /\
        forall pre post h2, bytes_ok (pre ++ post) -> addr_port local <> hton16 443 -> zlen data <= d_udp_mtu d ->
          let d2 := d <| d_buf := pre ++ p ++ post |> in
          exists rep2, process_device_udp_packet (zlen pre) (zlen p) d2 h2 =
            Ok (true, d2, (CTun (UdpSubmit (addr_pair (addr_make remote)) (addr_pair (addr_make local)) data), rep2) :: h2)
    else h' = h.
Proof.
  intros Hz Hbw H31 Hm Hlo Hre Hd Ht Hor.
  assert (Hw : wpp (udp_send_packet_to_device local remote data) d h (fun _ d' h' =>
    if udp_fits d local data then sent_udp local remote data d h d' h' else h' = h /\ d' = d)).
  { destruct Hor as [Hl|Hl]; [apply wpp_udp_send4|apply wpp_udp_send6]; rewrite ?Hm; congruence. }
  destruct (wpp_inv _ _ _ _ Hw) as ([] & d' & h' & E & Hs). exists d', h'. split; [done|].
  destruct (udp_fits d local data); [|by destruct Hs]. destruct Hs as (_ & p & rep & -> & Hp & Hb & Hu). exists p, rep. split_and!; try done.
  intros pre post h2 Hpp H443 Hmtu d2. eexists. pose proof (zlen_nonneg pre). pose proof (zlen_nonneg p). pose proof (zlen_nonneg post).
  apply (process_complete d2 h2 (zlen pre) (zlen p)); try done; [|lia|simpl; rewrite !zlen_app; lia|].
  - simpl. rewrite !bytes_ok_app in *. tauto.
  - simpl. rewrite slice_app_mid by done. by apply Hu.
Qed.

(** ** The checksum that is zero *)
Lemma udp_sum_pos source dest h payload : bytes_ok source -> bytes_ok dest -> udp_wf h -> bytes_ok payload ->
  0 < udp_sum source dest h payload.
Proof.
  intros Hs Hd [Hh _] Hp. unfold udp_sum. pose proof (bsum_nonneg _ Hs). pose proof (bsum_nonneg _ Hd).
  pose proof (bsum_nonneg _ Hh). pose proof (bsum_nonneg _ Hp). pose proof (zlen_nonneg payload). change UDP_HEADER with 8. lia.
Qed.

(** C39: The UDP checksum is the complement of the one's complement sum of the pseudo
    header, the header and the data. It is zero when that sum is 65535 and is never
    65535, so that the test [if (t == 0) t = UINT16_MAX] of the code never holds: a
    packet whose checksum computes to zero is sent with the value that says that there
    is none (which IPv6 does not allow), and one that carries 65535, as the standard
    asks for then, is not taken from the device. *)
Theorem udp_checksum_zero source dest h m p n :
  bytes_ok source -> bytes_ok dest -> udp_wf h -> bytes_ok m -> zlen source = zlen dest -> zlen source = 4 \/ zlen source = 16 ->
  0 <= p -> 0 <= n <= 65527 -> p + n <= zlen m ->
  let s := ones_sum (udp_sum source dest h (slice m p n)) in
  (if zlen source =? 4 then udp_checksum h m p n source dest else udp_ip6_checksum h m p n source dest) = Ok (hton16 (65535 - s)) /\
  1 <= s <= 65535 /\ (s = 65535 <-> hton16 (65535 - s) = [0; 0]) /\ hton16 (65535 - s) <> [255; 255].
Proof.
  intros Hs Hd Hh Hm Hz Hor Hp Hn Hpn s.
  pose proof (udp_sum_pos source dest h (slice m p n) Hs Hd Hh (bytes_ok_slice _ _ _ Hm)) as Hpos.
  pose proof (ones_sum_range (udp_sum source dest h (slice m p n)) ltac:(lia)) as Hr. fold s in Hr.
  assert (Hs1 : 1 <= s) by (unfold s, ones_sum; case_match; [lia|]; pose proof (Z.mod_pos_bound (udp_sum source dest h (slice m p n) - 1) 65535); lia).
  assert (Hv : bsum (hton16 (65535 - s)) = 65535 - s) by (apply bsum_hton16; lia).
  split; [|split; [lia|split; [split|]]].
  - destruct Hor as [E|E]; rewrite E; [apply udp_checksum_ok|apply udp_ip6_checksum_ok]; try done; lia.
  - intros ->. done.
  - intros E. rewrite E in Hv. unfold bsum in Hv. lia.
  - intros E. rewrite E in Hv. unfold bsum in Hv. lia.
Qed.

(** Two bytes of data, over IPv6, for which that happens. *)
Lemma udp_checksum_zero_witness :
  let h := UdpHeader [0; 53] [0; 53] [0; 10] [0; 0] in
  ones_sum (udp_sum (replicate 16 0) (replicate 16 0) h [255; 112]) = 65535 /\
  udp_ip6_checksum h [255; 112] 0 2 (replicate 16 0) (replicate 16 0) = Ok [0; 0].
Proof.
  split; [vm_compute; reflexivity|].
  destruct (udp_checksum_zero (replicate 16 0) (replicate 16 0) (UdpHeader [0; 53] [0; 53] [0; 10] [0; 0]) [255; 112] 0 2)
    as [E _]; [by repeat constructor..| |by repeat constructor|done|by right|lia|lia|done|].
  - split; [by repeat constructor|done].
  - exact E.
Defined.

(** ** A datagram from 1.1.1.1:53 *)
#[local] Instance demo_os : Os := fun h c => Ret 0 0 [].
Definition demo_tap : BTap := BTap_ false 7 1400 0 (PacketRecvInterface_ STATE_NONE 1400 false 0 false 0) None.
Definition demo_dev (buf : list Z) : dev :=
  Dev false demo_tap buf (PacketPassInterface_ STATE_NONE 1400 false 0 0 false false false false)
    (replicate (Z.to_nat 1400) 0) UdpModeSocks 1372 true false [10; 111; 222; 1].
Definition demo_local : BAddr := BAddr_MakeIPv4 [10; 111; 222; 2] (hton16 5000).
Definition demo_remote : BAddr := BAddr_MakeIPv4 [1; 1; 1; 1] (hton16 53).
Definition demo_packet : list Z :=
  [69; 0; 0; 31; 0; 0; 0; 0; 64; 17; 144; 91; 1; 1; 1; 1; 10; 111; 222; 2; 0; 53; 19; 136; 0; 11; 253; 165; 1; 2; 3].

Definition last_udp (h : hist) : option ((Z * list Z) * (Z * list Z) * list Z) :=
  match h with (CTun (UdpSubmit l rm data), _) :: _ => Some (l, rm, data) | _ => None end.

Lemma device_udp_exact_witness :
  exists l rm payload, udp_packet true demo_packet l rm payload /\
    (addr_pair l, addr_pair rm, payload) = (addr_pair demo_remote, addr_pair demo_local, [1; 2; 3]).
Proof.
  destruct (device_udp_exact (demo_dev ([9] ++ demo_packet)) [] 1 31) as (r & h' & E & Hor);
    [by repeat constructor|done|done|done|vm_compute; congruence|].
  vm_compute in E. injection E as <- <-. destruct Hor as [(_ & l & rm & payload & rep & Hp & _ & Eh)|(? & _)]; [|done].
  exists l, rm, payload. split; [exact Hp|]. apply (f_equal last_udp) in Eh. apply (inj Some). symmetry. exact Eh.
Defined.

Lemma udp_device_roundtrip_witness :
  exists d' p rep rep2, udp_send_packet_to_device demo_local demo_remote [1; 2; 3] (demo_dev []) [] = Ok (tt, d', [(CTun (Write 7 p), rep)]) /\
    process_device_udp_packet 1 (zlen p) (demo_dev ([9] ++ p ++ [7])) [] =
      Ok (true, demo_dev ([9] ++ p ++ [7]), [(CTun (UdpSubmit (addr_pair (addr_make demo_remote)) (addr_pair (addr_make demo_local)) [1; 2; 3]), rep2)]).
Proof.
  destruct (udp_device_roundtrip demo_local demo_remote [1; 2; 3] (demo_dev []) []) as (d' & h' & E & Hs);
    [vm_compute; reflexivity|by apply Forall_replicate|vm_compute; reflexivity|reflexivity|split; [by repeat constructor|reflexivity]
    |split; [by repeat constructor|reflexivity]|by repeat constructor|reflexivity|by left|].
  replace (udp_fits (demo_dev []) demo_local [1; 2; 3]) with true in Hs by (vm_compute; reflexivity).
  destruct Hs as (p & rep & -> & _ & Hr). destruct (Hr [9] [7] []) as (rep2 & E2); [by repeat constructor|by vm_compute|by vm_compute|].
  exists d', p, rep, rep2. split; [exact E|exact E2].
Defined.
