(* ===== verification/DevicePump.v ===== *)
(** The pump of the device: the jobs of its two interfaces carry each packet that is read
    from the descriptor, one at a time, to the handler. *)
From S2P Require Import Prelude CMem PktSum PktSumFacts Sys Flow Chunk SocksClient TcpClient Packet PacketFacts Device DeviceFacts DeviceProps.

(** POSIX: [read] stores as many bytes as it says, and no more than it was given room for. *)
Definition reads_ok (OS : Os) : Prop := forall h fd n, 0 <= n ->
  rv (os_reply h (CTun (Read fd n))) <= n /\
  (0 < rv (os_reply h (CTun (Read fd n))) ->
   zlen (rdata (os_reply h (CTun (Read fd n)))) = rv (os_reply h (CTun (Read fd n))) /\ bytes_ok (rdata (os_reply h (CTun (Read fd n))))).

(** the packets read from the device so far *)
Fixpoint packets_read (h : hist) : list (list Z) :=
  match h with
  | [] => []
  | (CTun (Read _ _), r) :: h => if 0 <? rv r then packets_read h ++ [rdata r] else packets_read h
  | _ :: h => packets_read h
  end.

(** ** The phases of a packet *)
Inductive phase : Type := Asking | Waiting | Read_ | Passing | Passed.
Record pump (ph : phase) (d : dev) (h : hist) (handled : list (list Z)) : Prop := Pump {
  pu_mtu : pri_mtu (t_output (d_tap d)) = t_frame_mtu (d_tap d) /\ ppi_mtu (d_read_if d) = t_frame_mtu (d_tap d);
  pu_range : 0 <= t_frame_mtu (d_tap d) < 2 ^ 31;
  pu_buf : bytes_ok (d_buf d) /\ zlen (d_buf d) = t_frame_mtu (d_tap d);
  pu_wbuf : bytes_ok (d_write_buf d) /\ zlen (d_write_buf d) = t_frame_mtu (d_tap d);
  pu_mode : d_udp_mode d = UdpModeSocks;
  pu_run : d_quitting d = false;
  pu_poll : t_poll_events (d_tap d) = match ph with Waiting => 1 | _ => 0 end;
  pu_packet : t_output_packet (d_tap d) = match ph with Waiting => Some 0 | _ => None end;
  pu_recv : pri_state (t_output (d_tap d)) = match ph with Asking => STATE_OPERATION_PENDING | Waiting => STATE_BUSY | Read_ => STATE_DONE_PENDING | _ => STATE_NONE end;
  pu_recv_jobs : pri_job_operation (t_output (d_tap d)) = match ph with Asking => true | _ => false end /\
    pri_job_done (t_output (d_tap d)) = match ph with Read_ => true | _ => false end;
  pu_pass : ppi_state (d_read_if d) = match ph with Passing => STATE_OPERATION_PENDING | Passed => STATE_DONE_PENDING | _ => STATE_NONE end;
  pu_pass_jobs : ppi_job_operation (d_read_if d) = match ph with Passing => true | _ => false end /\
    ppi_job_done (d_read_if d) = match ph with Passed => true | _ => false end;
  pu_data : match ph with
    | Asking => pri_job_operation_data (t_output (d_tap d)) = 0
    | Read_ => 0 < pri_job_done_len (t_output (d_tap d)) <= t_frame_mtu (d_tap d)
    | Passing => ppi_job_operation_data (d_read_if d) = 0 /\ 0 < ppi_job_operation_len (d_read_if d) <= t_frame_mtu (d_tap d)
    | _ => True
    end;
  pu_read : packets_read h = handled ++ match ph with
    | Read_ => [slice (d_buf d) 0 (pri_job_done_len (t_output (d_tap d)))]
    | Passing => [slice (d_buf d) 0 (ppi_job_operation_len (d_read_if d))]
    | _ => []
    end }.

(** After the loop was told to end nothing more happens. *)
Definition pump_ok (d : dev) (h : hist) (handled : list (list Z)) : Prop :=
  d_quitting d = true \/ exists ph, pump ph d h handled.

Section jobs.
Context {OS : Os} (Hreads : reads_ok OS).

Lemma wpp_tap_read packet d h (Q : Z -> dev -> hist -> Prop) :
  packet = 0 -> zlen (d_buf d) = t_frame_mtu (d_tap d) -> bytes_ok (d_buf d) ->
  (forall r, rv r <= 0 -> Q (rv r) d ((CTun (Read (t_fd (d_tap d)) (t_frame_mtu (d_tap d))), r) :: h)) ->
  (forall r b, 0 < rv r <= t_frame_mtu (d_tap d) -> zlen b = zlen (d_buf d) -> bytes_ok b -> slice b 0 (rv r) = rdata r ->
     Q (rv r) (d <| d_buf := b |>) ((CTun (Read (t_fd (d_tap d)) (t_frame_mtu (d_tap d))), r) :: h)) ->
  wpp (tap_read packet) d h Q.
Proof.
  intros -> Hz Hb H1 H2. unfold tap_read, gtap, tun_. wpp_step. wpp_step. wpp_step. wpp_step.
  pose proof (zlen_nonneg (d_buf d)). destruct (Hreads h (t_fd (d_tap d)) (t_frame_mtu (d_tap d))) as [Hle Hpos]; [lia|]. set (r := os_reply _ _) in *.
  destruct (Z.ltb_spec 0 (rv r)) as [Hr|Hr]; [|do 2 wpp_step; wpp_step; by apply H1].
  destruct (Hpos Hr) as [Hz2 Hb2]. do 5 wpp_step. rewrite wr_list_ok by lia. apply wp_ok. repeat wpp_step.
  apply (H2 r); [lia|by apply zlen_splice; lia|by apply bytes_ok_splice|].
  rewrite <- Hz2. apply slice_splice_at; lia.
Qed.

Lemma pri_job_operation_ok i : pri_state i = STATE_OPERATION_PENDING ->
  PacketRecvInterface_job_operation i = Ok (i <| pri_job_operation := false |> <| pri_state := STATE_BUSY |>, pri_job_operation_data i).
Proof. intros E. unfold PacketRecvInterface_job_operation, assert_. by rewrite bool_decide_eq_true_2. Qed.
Lemma pri_job_done_ok i : pri_state i = STATE_DONE_PENDING ->
  PacketRecvInterface_job_done i = Ok (i <| pri_job_done := false |> <| pri_state := STATE_NONE |>, pri_job_done_len i).
Proof. intros E. unfold PacketRecvInterface_job_done, assert_. by rewrite bool_decide_eq_true_2. Qed.
Lemma pri_done_ok i len : pri_state i = STATE_BUSY -> 0 <= len <= pri_mtu i ->
  PacketRecvInterface_Done i len = Ok (i <| pri_job_done_len := len |> <| pri_job_done := true |> <| pri_state := STATE_DONE_PENDING |>).
Proof.
  intros E Hl. unfold PacketRecvInterface_Done, assert_. destruct (Z.leb_spec 0 len); [|lia]. destruct (Z.leb_spec len (pri_mtu i)); [|lia].
  by rewrite bool_decide_eq_true_2.
Qed.
Lemma pri_recv_ok i data : pri_state i = STATE_NONE ->
  PacketRecvInterface_Receiver_Recv i data = Ok (i <| pri_job_operation_data := data |> <| pri_job_operation := true |> <| pri_state := STATE_OPERATION_PENDING |>).
Proof. intros E. unfold PacketRecvInterface_Receiver_Recv, assert_. by rewrite bool_decide_eq_true_2. Qed.
Lemma ppi_job_operation_ok i : ppi_state i = STATE_OPERATION_PENDING ->
  PacketPassInterface_job_operation i = Ok (i <| ppi_job_operation := false |> <| ppi_state := STATE_BUSY |>, (ppi_job_operation_data i, ppi_job_operation_len i)).
Proof. intros E. unfold PacketPassInterface_job_operation, assert_. by rewrite bool_decide_eq_true_2. Qed.
Lemma ppi_job_done_ok i : ppi_state i = STATE_DONE_PENDING ->
  PacketPassInterface_job_done i = Ok (i <| ppi_job_done := false |> <| ppi_state := STATE_NONE |>).
Proof. intros E. unfold PacketPassInterface_job_done, assert_. by rewrite bool_decide_eq_true_2. Qed.
Lemma ppi_done_ok i : ppi_state i = STATE_BUSY ->
  PacketPassInterface_Done i = Ok (i <| ppi_job_requestcancel := false |> <| ppi_job_done := true |> <| ppi_state := STATE_DONE_PENDING |>).
Proof. intros E. unfold PacketPassInterface_Done, assert_. by rewrite bool_decide_eq_true_2. Qed.
Lemma ppi_send_ok i data len : ppi_state i = STATE_NONE -> 0 <= len <= ppi_mtu i ->
  PacketPassInterface_Sender_Send i data len = Ok (i <| ppi_job_operation_data := data |> <| ppi_job_operation_len := len |>
    <| ppi_job_operation := true |> <| ppi_state := STATE_OPERATION_PENDING |> <| ppi_cancel_requested := false |>).
Proof.
  intros E Hl. unfold PacketPassInterface_Sender_Send, assert_. destruct (Z.leb_spec 0 len); [|lia]. destruct (Z.leb_spec len (ppi_mtu i)); [|lia].
  by rewrite bool_decide_eq_true_2.
Qed.

Lemma wpp_report_error d h handled : d_quitting d = false -> wpp tap_report_error d h (fun _ d' h' => pump_ok d' h' handled).
Proof.
  intros Hq. unfold tap_report_error, device_error_handler, terminate, tun_. wpp_step. wpp_step. wpp_step. apply wpp_passert; [by rewrite Hq|].
  wpp_step. wpp_step. wpp_step. apply wpp_passert; [by rewrite Hq|]. repeat wpp_step. by left.
Qed.

Ltac dstep := first [wpp_step | progress unfold gtap, mtap, tun_, set_events, output_Done].

(** A packet, or not yet. *)
Lemma wpp_tap_recv_op d h handled : pump Asking d h handled -> wpp (run_dev_job DRecvOp) d h (fun _ d' h' => pump_ok d' h' handled).
Proof.
  intros [[Hm1 Hm2] Hr [Hb1 Hb2] Hw Hmo Hq Hpo Hpk Hrv [Hj1 Hj2] Hps Hpj Hd Hrd]. rewrite app_nil_r in Hrd.
  destruct d as [q [cf fd mtu ev o pk] buf ri wb um umtu i6 dns ip]. simpl in *. subst.
  unfold run_dev_job. do 4 dstep. simpl. rewrite pri_job_operation_ok by done. apply wp_ok. repeat dstep. simpl. rewrite Hd.
  unfold tap_output_handler_recv. repeat dstep. apply wpp_passert; [done|]. dstep.
  apply wpp_tap_read; [done|done|done|..]; simpl.
  - intros r Hneg. destruct (Z.leb_spec (rv r) 0); [|lia]. repeat dstep. case_match; [|by apply wpp_report_error].
    repeat dstep. right. exists Waiting. constructor; simpl; try done. rewrite app_nil_r. destruct (Z.ltb_spec 0 (rv r)); [lia|done].
  - intros r b Hpos Hz Hbb Hs. destruct (Z.leb_spec (rv r) 0); [lia|]. dstep. apply wpp_passert; [lia|]. repeat dstep. simpl.
    rewrite pri_done_ok by (simpl; lia || done). apply wp_ok. repeat dstep. right. exists Read_. constructor; simpl; try done; [by rewrite Hz|].
    rewrite Hs. destruct (Z.ltb_spec 0 (rv r)); [done|lia].
Qed.

Lemma wpp_fd ev d h handled ph : pump ph d h handled -> dev_job_ready d (DFd ev) = true ->
  wpp (run_dev_job (DFd ev)) d h (fun _ d' h' => pump_ok d' h' handled).
Proof.
  intros Hp Hready. pose proof Hp as [[Hm1 Hm2] Hr [Hb1 Hb2] Hw Hmo Hq Hpo Hpk Hrv [Hj1 Hj2] Hps Hpj Hd Hrd].
  unfold run_dev_job, fd_handler. simpl in Hready. rewrite Hpo in Hready.
  destruct (Z.eqb_spec (Z.land ev BREACTOR_READ) 0) as [|Hne]; [wpp_step; right; by exists ph|].
  destruct ph; try (rewrite Z.land_0_r in Hready; lia). rewrite app_nil_r in Hrd.
  destruct d as [q [cf fd mtu pe o pk] buf ri wb um umtu i6 dns ip]. simpl in *. subst.
  repeat dstep. simpl. dstep. dstep. apply wpp_tap_read; [done|done|done|..]; simpl.
  - intros r Hneg. destruct (Z.leb_spec (rv r) 0); [|lia]. repeat dstep. case_match; [|by apply wpp_report_error].
    repeat dstep. right. exists Waiting. constructor; simpl; try done. rewrite app_nil_r. destruct (Z.ltb_spec 0 (rv r)); [lia|done].
  - intros r b Hpos Hz Hbb Hs. destruct (Z.leb_spec (rv r) 0); [lia|]. dstep. apply wpp_passert; [lia|]. repeat dstep. simpl.
    rewrite pri_done_ok by (simpl; lia || done). apply wp_ok. repeat dstep. right. exists Read_. constructor; simpl; try done; [by rewrite Hz|].
    rewrite Hs. destruct (Z.ltb_spec 0 (rv r)); [done|lia].
Qed.

Lemma wpp_tap_recv_done d h handled : pump Read_ d h handled -> wpp (run_dev_job DRecvDone) d h (fun _ d' h' => pump_ok d' h' handled).
Proof.
  intros [[Hm1 Hm2] Hr [Hb1 Hb2] Hw Hmo Hq Hpo Hpk Hrv [Hj1 Hj2] Hps Hpj Hd Hrd].
  destruct d as [q [cf fd mtu pe o pk] buf ri wb um umtu i6 dns ip]. simpl in *. subst.
  unfold run_dev_job. repeat dstep. simpl. rewrite pri_job_done_ok by done. apply wp_ok. repeat dstep.
  unfold single_input_handler_done. repeat dstep. simpl. rewrite ppi_send_ok by (done || lia). apply wp_ok. repeat dstep.
  right. exists Passing. constructor; simpl; try done. by destruct Hpj.
Qed.

Lemma wpp_pass_done d h handled : pump Passed d h handled -> wpp (run_dev_job DPassDone) d h (fun _ d' h' => pump_ok d' h' handled).
Proof.
  intros [[Hm1 Hm2] Hr [Hb1 Hb2] Hw Hmo Hq Hpo Hpk Hrv [Hj1 Hj2] Hps [Hpj1 Hpj2] Hd Hrd].
  destruct d as [q [cf fd mtu pe o pk] buf ri wb um umtu i6 dns ip]. simpl in *. subst.
  unfold run_dev_job. repeat dstep. simpl. rewrite ppi_job_done_ok by done. apply wp_ok. repeat dstep.
  unfold single_output_handler_done, single_receive. repeat dstep. simpl. rewrite pri_recv_ok by done. apply wp_ok. repeat dstep.
  right. exists Asking. constructor; simpl; try done.
Qed.

(** The handler gets the packet that was read. *)
Lemma wpp_pass_op d h handled : pump Passing d h handled ->
  wpp (run_dev_job DPassOp) d h (fun _ d' h' => pump_ok d' h' (handled ++ [slice (d_buf d) 0 (ppi_job_operation_len (d_read_if d))])).
Proof.
  intros [[Hm1 Hm2] Hr [Hb1 Hb2] Hw Hmo Hq Hpo Hpk Hrv [Hj1 Hj2] Hps [Hpj1 Hpj2] [Hd1 Hd2] Hrd].
  destruct d as [q [cf fd mtu pe o pk] buf ri wb um umtu i6 dns ip]. simpl in *. subst.
  unfold run_dev_job. repeat dstep. simpl. rewrite ppi_job_operation_ok by done. apply wp_ok. repeat dstep. rewrite Hd1.
  set (len := ppi_job_operation_len ri) in *. unfold device_read_handler_send. dstep. dstep. dstep. apply wpp_passert; [done|]. dstep.
  apply wpp_passert; [simpl; lia|]. repeat dstep. simpl. rewrite ppi_done_ok by done. apply wp_ok. repeat dstep.
  match goal with |- wpp _ ?s _ _ => set (d2 := s) end.
  assert (Hend : forall h', packets_read h' = packets_read h -> pump_ok d2 h' (handled ++ [slice buf 0 len])).
  { intros h' Eh. right. exists Passed. constructor; simpl; try done. by rewrite app_nil_r, Eh. }
  eapply wpp_mono; [apply process_sound; simpl; done || lia|]. intros r d' h' (-> & [[-> (l & rm & payload & rep & _ & _ & ->)]|[-> ->]]).
  { wpp_step. by apply Hend. }
  destruct (Z.ltb_spec (2 ^ 16 - 1) len); [wpp_step; by apply Hend|].
  repeat dstep. case_match; [wpp_step; by apply Hend|]. repeat dstep. simpl. rewrite rd_list_ok by lia. apply wp_ok.
  unfold netif_input_func. repeat dstep.
  repeat first [case_match; repeat dstep]; by apply Hend.
Qed.

(** Packets to the device in the meantime. *)
Lemma wpp_gather p len d h (Q : option Z -> dev -> hist -> Prop) :
  zlen (d_write_buf d) = BTap_GetMTU d -> bytes_ok (d_write_buf d) -> Forall bytes_ok p -> 0 <= len <= BTap_GetMTU d ->
  (forall wb o, zlen wb = zlen (d_write_buf d) -> bytes_ok wb ->
     match o with Some n => 0 <= n <= BTap_GetMTU d | None => True end -> Q o (d <| d_write_buf := wb |>) h) ->
  wpp (gather p len) d h Q.
Proof.
  revert len d. induction p as [|payload p IH]; intros len d Hz Hb Hp Hl HQ; simpl.
  - wpp_step. replace d with (d <| d_write_buf := d_write_buf d |>) by (by destruct d). by apply HQ.
  - apply Forall_cons_1 in Hp as [Hpl Hp]. pose proof (zlen_nonneg payload). wpp_step. wpp_step.
    destruct (Z.ltb_spec (BTap_GetMTU d - len) (zlen payload)).
    { wpp_step. replace d with (d <| d_write_buf := d_write_buf d |>) by (by destruct d). by apply HQ. }
    wpp_step. wpp_step. rewrite wr_list_ok by lia. apply wp_ok. wpp_step. wpp_step.
    assert (Hz2 : zlen (splice (d_write_buf d) len payload) = zlen (d_write_buf d)) by (apply zlen_splice; lia).
    apply IH; simpl; [by rewrite Hz2|by apply bytes_ok_splice|done|unfold BTap_GetMTU in *; simpl; lia|].
    intros wb o H1 H2 H3. apply (HQ wb o); [congruence|done|done].
Qed.
Lemma wpp_output p d h : zlen (d_write_buf d) = BTap_GetMTU d -> bytes_ok (d_write_buf d) -> Forall bytes_ok p -> 0 <= BTap_GetMTU d -> p <> [] ->
  wpp (common_netif_output p) d h (fun rc d' h' => rc = ERR_OK /\ packets_read h' = packets_read h /\ rebuffered d d').
Proof.
  intros Hz Hb Hp Hm Hne. unfold common_netif_output. wpp_step. wpp_step.
  pose proof (rebuffered_refl d Hb) as Hid.
  destruct (d_quitting d); [by wpp_step|].
  assert (Hgo : wpp (len ← gather p 0; match len with None => mret ERR_OK | Some len => d ← pget; b ← lift (rd_list (d_write_buf d) 0 len); BTap_Send b;; mret ERR_OK end)
    d h (fun rc d' h' => rc = ERR_OK /\ packets_read h' = packets_read h /\
      rebuffered d d')).
  { wpp_step. apply wpp_gather; [done|done|done|lia|]. intros wb [n|] H1 H2 H3; [|wpp_step; split_and!; [done..|by exists wb]].
    repeat dstep. simpl. rewrite rd_list_ok by lia. apply wp_ok. dstep. unfold BTap_Send. repeat dstep.
    apply wpp_passert; [rewrite zlen_slice; unfold BTap_GetMTU in *; simpl; lia|]. repeat dstep. split_and!; [done..|by exists wb]. }
  destruct p as [|payload [|? ?]]; [done| |exact Hgo].
  destruct (Z.ltb_spec (BTap_GetMTU d) (zlen payload)); [by wpp_step|].
  unfold BTap_Send. repeat dstep. apply wpp_passert; [lia|]. by repeat dstep.
Qed.

Lemma pump_rebuffered ph d h handled d' h' : pump ph d h handled -> rebuffered d d' -> packets_read h' = packets_read h ->
  pump ph d' h' handled.
Proof.
  intros Hp (wb & Hz & Hb & ->) Hr. destruct Hp as [? ? ? [? ?] ? ? ? ? ? ? ? ? ? Hrd]. constructor; simpl; try done.
  - split; [done|lia].
  - by rewrite Hr.
Qed.
End jobs.

(** ** Everything that happens at the device *)
Inductive dev_event : Type :=
  | DJob (j : dev_job) | DOutput (p : list (list Z)) | DUdp (local remote : BAddr) (data : list Z).

(** The reactor runs jobs until the loop is told to end; lwIP hands over a chain of
    buffers; the UDP client hands over data from an address of the same family. *)
Definition dev_enabled (d : dev) (ev : dev_event) : Prop :=
  d_quitting d = false /\
  match ev with
  | DJob j => dev_job_ready d j = true
  | DOutput p => p <> [] /\ Forall bytes_ok p
  | DUdp local remote data => addr_ok local /\ addr_ok remote /\ bytes_ok data /\ ba_type local = ba_type remote /\
      (ba_type local = BADDR_TYPE_IPV4 \/ ba_type local = BADDR_TYPE_IPV6)
  end.
Definition dev_run {OS : Os} (ev : dev_event) : Prog dev unit :=
  match ev with
  | DJob j => run_dev_job j
  | DOutput p => _ ← common_netif_output p; mret tt
  | DUdp local remote data => udp_send_packet_to_device local remote data
  end.
(** The packet that an event hands to [device_read_handler_send]. *)
Definition handles (d : dev) (ev : dev_event) : list (list Z) :=
  match ev with
  | DJob DPassOp => [slice (d_buf d) (ppi_job_operation_data (d_read_if d)) (ppi_job_operation_len (d_read_if d))]
  | _ => []
  end.
Inductive dev_reach {OS : Os} (d0 : dev) : dev -> hist -> list (list Z) -> Prop :=
  | dev_reach_refl : dev_reach d0 d0 [] []
  | dev_reach_step d h handled ev d' h' : dev_reach d0 d h handled -> dev_enabled d ev ->
      dev_run ev d h = Ok (tt, d', h') -> dev_reach d0 d' h' (handled ++ handles d ev).

(** What [tun2socks_bridge_run] has set up before the loop. *)
Definition device_started (d : dev) : Prop :=
  exists mtu, 0 <= mtu < 2 ^ 31 /\ t_frame_mtu (d_tap d) = mtu /\ t_poll_events (d_tap d) = 0 /\ t_output_packet (d_tap d) = None /\
    PacketRecvInterface_Receiver_Recv (PacketRecvInterface_ STATE_NONE mtu false 0 false 0) 0 = Ok (t_output (d_tap d)) /\
    PacketPassInterface_Init mtu = Ok (d_read_if d) /\ d_udp_mode d = UdpModeSocks /\ d_quitting d = false /\
    bytes_ok (d_buf d) /\ zlen (d_buf d) = mtu /\ bytes_ok (d_write_buf d) /\ zlen (d_write_buf d) = mtu.

Section reach.
Context {OS : Os} (Hreads : reads_ok OS).

Lemma started_pump d : device_started d -> pump Asking d [] [].
Proof.
  intros (mtu & Hm & Hf & Hp & Hk & Ho & Hi & Hu & Hq & Hb & Hz & Hwb & Hwz). rewrite pri_recv_ok in Ho by done.
  unfold PacketPassInterface_Init, assert_ in Hi. destruct (Z.leb_spec 0 mtu); [|lia]. injection Ho as Ho. injection Hi as Hi.
  constructor; rewrite <- ?Ho, <- ?Hi; simpl; try done; try lia; split; congruence.
Qed.

Lemma wpp_dev_run d h handled ph ev : pump ph d h handled -> dev_enabled d ev ->
  wpp (dev_run ev) d h (fun _ d' h' => pump_ok d' h' (handled ++ handles d ev)).
Proof.
  intros Hp [Hq He]. destruct ev as [j|p|local remote data]; simpl in *.
  - destruct j as [| | | |ev]; cbn [dev_job_ready] in He.
    + rewrite app_nil_r. pose proof (pu_recv_jobs _ _ _ _ Hp) as [Hj _]. destruct ph; try by rewrite Hj in He. by apply wpp_tap_recv_op.
    + rewrite app_nil_r. pose proof (pu_recv_jobs _ _ _ _ Hp) as [_ Hj]. destruct ph; try by rewrite Hj in He. by apply wpp_tap_recv_done.
    + pose proof (pu_pass_jobs _ _ _ _ Hp) as [Hj _]. destruct ph; try by rewrite Hj in He.
      pose proof (pu_data _ _ _ _ Hp) as [Hz _]. rewrite Hz. by apply wpp_pass_op.
    + rewrite app_nil_r. pose proof (pu_pass_jobs _ _ _ _ Hp) as [_ Hj]. destruct ph; try by rewrite Hj in He. by apply wpp_pass_done.
    + rewrite app_nil_r. by eapply wpp_fd.
  - rewrite app_nil_r. destruct He as [Hne Hb]. pose proof (pu_wbuf _ _ _ _ Hp) as [Hwb Hwz]. pose proof (pu_range _ _ _ _ Hp).
    wpp_step. eapply wpp_mono; [apply wpp_output; done || (unfold BTap_GetMTU; lia)|]. intros rc d' h' (_ & Hr & Hrb). wpp_step.
    right. exists ph. by eapply pump_rebuffered.
  - rewrite app_nil_r. destruct He as (H1 & H2 & H3 & Ht & Hor). pose proof (pu_wbuf _ _ _ _ Hp) as [Hwb Hwz]. pose proof (pu_mode _ _ _ _ Hp) as Hm.
    assert (Hw : wpp (udp_send_packet_to_device local remote data) d h (fun _ d' h' =>
      if udp_fits d local data then sent_udp local remote data d h d' h' else h' = h /\ d' = d)).
    { destruct Hor as [Hl|Hl]; [apply wpp_udp_send4|apply wpp_udp_send6]; rewrite ?Hm; try done; congruence. }
    eapply wpp_mono; [exact Hw|]. intros [] d' h'. destruct (udp_fits d local data).
    + intros (Hrb & p & rep & -> & _). right. exists ph. by eapply pump_rebuffered.
    + intros [-> ->]. right. by exists ph.
Qed.

Lemma dev_reach_pump d0 d h handled : device_started d0 -> dev_reach d0 d h handled -> pump_ok d h handled.
Proof.
  intros Hs Hr. induction Hr as [|d h handled ev d' h' _ IH He Hrun]; [right; exists Asking; by apply started_pump|].
  destruct IH as [Hq|[ph Hp]]; [destruct He as [Hq' _]; congruence|].
  pose proof (wpp_dev_run _ _ _ _ _ Hp He) as Hw. unfold wpp in Hw. by rewrite Hrun in Hw.
Qed.
End reach.

(** C14: The pump of the device. Whatever [read] answers (within POSIX), in whatever order
    jobs, lwIP and the UDP client run: every event that can happen runs to its end
    without a failed assertion or an access outside a buffer; the packets handed to
    [device_read_handler_send] are the packets that were read, each once, in order and
    unaltered, but for at most one that is still on its way; and until the loop is told
    to end, there is a job to run or the descriptor is being watched for the next
    packet. *)
Theorem device_pump {OS : Os} d0 d h handled : reads_ok OS -> device_started d0 -> dev_reach d0 d h handled ->
  (forall ev, dev_enabled d ev -> exists d' h', dev_run ev d h = Ok (tt, d', h')) /\
  (d_quitting d = false ->
   (exists rest, packets_read h = handled ++ rest /\ (length rest <= 1)%nat) /\
   ((exists j, (forall ev, j <> DFd ev) /\ dev_enabled d (DJob j)) \/
    t_poll_events (d_tap d) = BREACTOR_READ /\ forall ev, dev_enabled d (DJob (DFd ev)))).
Proof.
  intros Hreads Hs Hr. pose proof (dev_reach_pump Hreads _ _ _ _ Hs Hr) as Hok. split.
  - intros ev He. destruct Hok as [Hq|[ph Hp]]; [destruct He; congruence|].
    destruct (wpp_inv _ _ _ _ (wpp_dev_run Hreads _ _ _ _ _ Hp He)) as ([] & d' & h' & E & _). by exists d', h'.
  - intros Hq. destruct Hok as [?|[ph Hp]]; [congruence|]. split.
    + eexists. split; [apply (pu_read _ _ _ _ Hp)|]. destruct ph; simpl; lia.
    + pose proof (pu_recv_jobs _ _ _ _ Hp) as [R1 R2]. pose proof (pu_pass_jobs _ _ _ _ Hp) as [P1 P2].
      pose proof (pu_poll _ _ _ _ Hp) as Hpo.
      destruct ph; [left; exists DRecvOp|right|left; exists DRecvDone|left; exists DPassOp|left; exists DPassDone];
        try (split; [done|by split]).
      split; [done|]. intros ev. split; [done|]. simpl. rewrite Hpo. unfold BREACTOR_READ.
      rewrite <- Z.land_assoc. apply Z.eqb_refl.
Qed.

(** ** One packet through a device of 64 bytes *)
Section pump_demo.
#[local] Instance pump_os : Os := fun h c =>
  match c, h with
  | CTun (Read _ n), [] => if n <? 2 then Ret (-1) 11 [] else Ret 2 0 [96; 1]
  | CTun (Read _ _), _ => Ret (-1) 11 []
  | _, _ => Ret 0 0 []
  end.
Definition pump_dev : dev :=
  Dev false (BTap_ false 7 64 0 (PacketRecvInterface_ STATE_OPERATION_PENDING 64 true 0 false 0) None) (replicate 64 0)
    (PacketPassInterface_ STATE_NONE 64 false 0 0 false false false false) (replicate 64 0) UdpModeSocks 1372 true false [10; 111; 222; 1].
Definition pump_after (n : nat) : dev * hist :=
  match n with
  | O => (pump_dev, [])
  | _ => match run_dev_job DRecvOp pump_dev [] with Ok (_, d, h) => (d, h) | _ => (pump_dev, []) end
  end.

Lemma device_pump_witness :
  (exists d' h', dev_run (DJob DRecvDone) (pump_after 1).1 (pump_after 1).2 = Ok (tt, d', h')) /\
  packets_read (pump_after 1).2 = [[96; 1]].
Proof.
  split; [|vm_compute; reflexivity].
  destruct (device_pump pump_dev (pump_after 1).1 (pump_after 1).2 ([] ++ [])) as [Hrun _].
  - intros h fd n Hn. unfold os_reply, pump_os. destruct h; [|simpl; lia]. destruct (Z.ltb_spec n 2); simpl; [lia|].
    split; [lia|]. intros _. split; [done|by repeat constructor].
  - exists 64. split_and!; try (vm_compute; reflexivity); try done; by apply Forall_replicate.
  - apply (dev_reach_step _ _ _ _ (DJob DRecvOp) _ _ (dev_reach_refl _)); [by split|vm_compute; reflexivity].
  - apply Hrun. split; vm_compute; reflexivity.
Defined.
End pump_demo.
