(* ===== verification/AddrFacts.v ===== *)
(** Facts about Addr: the printed digits, the readers of numbers, and what the reader of
    IPv6 addresses does to its variables. *)
From S2P Require Import Prelude CMem Sys Flow SocksClient SocksClientFacts TcpClient Packet PacketFacts Addr.

(** ** Numbers *)

(** the value of a string of digits *)
Definition digits_value (base : Z) (dec : Z -> Z) (n : Z) (ds : list Z) : Z := fold_left (fun n c => base * n + dec c) ds n.

Lemma digit_char_dec d : 0 <= d < 10 -> digit_char d = 48 + d.
Proof. intros ?. unfold digit_char. destruct (Z.ltb_spec d 10); lia. Qed.
Lemma decode_digit_char d : 0 <= d < 16 -> decode_hex_digit (digit_char d) = d.
Proof.
  intros ?. unfold digit_char, decode_hex_digit. destruct (Z.ltb_spec d 10).
  - destruct (Z.leb_spec 48 (48 + d)), (Z.leb_spec (48 + d) 57); simpl; lia.
  - destruct (Z.leb_spec 48 (87 + d)), (Z.leb_spec (87 + d) 57), (Z.leb_spec 65 (87 + d)), (Z.leb_spec (87 + d) 70),
      (Z.leb_spec 97 (87 + d)), (Z.leb_spec (87 + d) 102); simpl; lia.
Qed.

(** [n] in [base], as its digits. *)
Section digits.
Context (base : Z) (Hbase : 2 <= base <= 16).
Definition digit_in (c : Z) : Prop := exists d, c = digit_char d /\ 0 <= d < base.

Lemma print_digits_app fuel n acc l : print_digits fuel base n acc ++ l = print_digits fuel base n (acc ++ l).
Proof. revert n acc. induction fuel as [|fuel IH]; intros n acc; [done|]. simpl. destruct (_ <? _); [done|]. apply IH. Qed.

Lemma print_digits_spec fuel n acc : 0 <= n < base ^ Z.of_nat fuel -> (0 < fuel)%nat ->
  exists ds, print_digits fuel base n acc = ds ++ acc /\ ds <> [] /\ Forall digit_in ds /\ zlen ds <= Z.of_nat fuel /\
    forall m k, m * base ^ zlen ds + n = digits_value base decode_hex_digit m ds /\
    (zlen ds = k + 1 -> n = 0 \/ base ^ k <= n).
Proof.
  revert n acc. induction fuel as [|fuel IH]; intros n acc Hn Hf; [lia|]. simpl.
  destruct (Z.ltb_spec n base) as [Hlt|Hge].
  - exists [digit_char n]. split_and!; [done|done|repeat constructor; exists n; lia|unfold zlen; simpl; lia|].
    intros m k. split; [|intros Hk; change (zlen [digit_char n]) with 1 in Hk; replace k with 0 by lia; lia]. cbn [digits_value fold_left].
    rewrite decode_digit_char by lia. change (zlen [digit_char n]) with 1. rewrite Z.pow_1_r. lia.
  - pose proof (Z.div_mod n base ltac:(lia)) as E. pose proof (Z.mod_pos_bound n base ltac:(lia)) as Hm.
    assert (Hq : 0 <= n / base < base ^ Z.of_nat fuel).
    { split; [apply Z.div_pos; lia|]. apply Z.div_lt_upper_bound; [lia|].
      rewrite <- Z.pow_succ_r by lia. replace (Z.succ (Z.of_nat fuel)) with (Z.of_nat (S fuel)) by lia. lia. }
    assert (Hf' : (0 < fuel)%nat) by (destruct fuel; [simpl in Hq; pose proof (Z.div_str_pos n base ltac:(lia)); lia|lia]).
    destruct (IH (n / base) (digit_char (n mod base) :: acc) Hq Hf') as (ds & Eds & Hne & Hd & Hlen & Hv).
    exists (ds ++ [digit_char (n mod base)]). split_and!.
    + rewrite Eds, <- app_assoc. done.
    + by destruct ds.
    + apply Forall_app. split; [done|]. repeat constructor. exists (n mod base). lia.
    + rewrite zlen_app. change (zlen [digit_char (n mod base)]) with 1. lia.
    + intros m k. destruct (Hv m (k - 1)) as [Hv1 Hv2]. rewrite zlen_app. change (zlen [digit_char (n mod base)]) with 1.
      pose proof (zlen_nonneg ds). split.
      * unfold digits_value in *. rewrite fold_left_app, <- Hv1. simpl. rewrite decode_digit_char by lia.
        rewrite Z.pow_add_r, Z.pow_1_r by lia. nia.
      * intros Hk. right. destruct (Hv2 ltac:(lia)) as [H0|Hb]; [pose proof (Z.div_str_pos n base ltac:(lia)); lia|].
        assert (1 <= k) by (destruct ds; [done|rewrite zlen_cons in Hk; pose proof (zlen_nonneg ds); lia]).
        replace k with (Z.succ (k - 1)) by lia. rewrite Z.pow_succ_r by lia. nia.
Qed.
End digits.

(** What [sprintf] writes for a number: its digits, without a leading zero. *)
Lemma print_num_spec base n : 2 <= base <= 16 -> 0 <= n < base ^ 20 ->
  print_num base n <> [] /\ Forall (digit_in base) (print_num base n) /\ zlen (print_num base n) <= 20 /\
  digits_value base decode_hex_digit 0 (print_num base n) = n /\
  (forall k, zlen (print_num base n) = k + 1 -> n = 0 \/ base ^ k <= n).
Proof.
  intros Hb Hn. destruct (print_digits_spec base Hb DIGITS n [] Hn ltac:(unfold DIGITS; lia)) as (ds & E & Hne & Hd & Hl & Hv).
  unfold print_num. rewrite E, app_nil_r. split_and!; [done|done|done| |].
  - destruct (Hv 0 0) as [<- _]. lia.
  - intros k. apply (Hv 0 k).
Qed.

(** ** The reader of IPv6 addresses stays in its arrays *)
Record p6_ok (name : list Z) (s : p6) : Prop := P6Ok {
  q_i : 0 <= p6_i s <= zlen name;
  q_blocks : 0 <= p6_num_blocks s <= 7;
  q_compress : -1 <= p6_compress_pos s <= p6_num_blocks s;
  q_block : 0 <= p6_block s < 2 ^ 16;
  q_bytes : zlen (p6_bytes s) = 16 /\ bytes_ok (p6_bytes s);
  q_colon : p6_num_blocks s = 0 /\ p6_compress_pos s = -1 \/ exists j, 0 <= j < p6_i s /\ byte_at name j = 58 }.

Lemma wp_store_block s (Q : p6 -> Prop) : 0 <= p6_num_blocks s <= 7 -> 0 <= p6_block s < 2 ^ 16 ->
  zlen (p6_bytes s) = 16 -> bytes_ok (p6_bytes s) ->
  (forall b, zlen b = 16 -> bytes_ok b -> b = splice (p6_bytes s) (2 * p6_num_blocks s) [p6_block s / 256; p6_block s mod 256] ->
     Q (s <| p6_bytes := b |> <| p6_num_blocks := p6_num_blocks s + 1 |>)) -> wp (store_block s) Q.
Proof.
  intros Hn Hb Hz Hok HQ. change (2 ^ 16) with 65536 in Hb. unfold store_block. rewrite Z.shiftr_div_pow2 by lia. change 0xFF with (Z.ones 8). rewrite Z.land_ones by lia.
  change (2 ^ 8) with 256. set (hi := p6_block s / 256). set (lo := p6_block s mod 256).
  assert (is_byte hi) by (subst hi; split; [apply Z.div_pos; lia|apply Z.div_lt_upper_bound; lia]).
  assert (is_byte lo) by (subst lo; apply Z.mod_pos_bound; lia).
  wp_step. rewrite wr_ok by lia. wp_step. wp_step. rewrite wr_ok by (rewrite zlen_insert; lia). wp_step. wp_step.
  apply HQ; [by rewrite !zlen_insert|by apply bytes_ok_insert; [apply bytes_ok_insert|]|].
  fold hi lo. apply list_eq_byte_at; [rewrite !zlen_insert, zlen_splice; [done|lia|change (zlen [hi; lo]) with 2; lia]|].
  intros i Hi. rewrite !zlen_insert in Hi. rewrite byte_at_splice by (change (zlen [hi; lo]) with 2; lia). change (zlen [hi; lo]) with 2.
  rewrite !byte_at_insert by (rewrite ?zlen_insert; lia).
  destruct (Z.eqb_spec (2 * p6_num_blocks s + 1) i), (Z.eqb_spec (2 * p6_num_blocks s) i), (Z.leb_spec (2 * p6_num_blocks s) i),
    (Z.ltb_spec i (2 * p6_num_blocks s + 2)); simpl; try lia; try done; subst i.
  - by replace (2 * p6_num_blocks s + 1 - 2 * p6_num_blocks s) with 1 by lia.
  - by rewrite Z.sub_diag.
Qed.

Lemma wp_p6_colon name s : p6_ok name s -> p6_i s < zlen name -> byte_at name (p6_i s) = 58 ->
  wp (p6_colon name s) (fun o => match o with Some s' => p6_ok name s' /\ p6_i s < p6_i s' | None => True end).
Proof.
  intros [Hi Hn Hc Hb [Hz Hok] Hj] Hlt H58. unfold p6_colon. wp_step.
  eapply (wp_mono _ (fun is_double : bool => is_double = true -> p6_i s + 1 < zlen name)).
  { destruct (Z.ltb_spec (p6_i s + 1) (zlen name)); [|by wp_step]. wp_step. apply wp_rd; [lia|]. wp_step. lia. }
  intros d Hd. wp_step. eapply (wp_mono _ (fun o => match o with Some s' =>
    p6_i s' = p6_i s /\ p6_compress_pos s' = p6_compress_pos s /\ p6_num_blocks s <= p6_num_blocks s' <= 7 /\
    0 <= p6_block s' < 2 ^ 16 /\ zlen (p6_bytes s') = 16 /\ bytes_ok (p6_bytes s') /\
    (p6_num_blocks s' = 0 -> d = true) | None => True end)).
  { destruct (Z.ltb_spec 0 (p6_i s)).
    - destruct (p6_empty s); simpl; [by wp_step|]. destruct (Z.eqb_spec (p6_num_blocks s) 7); [by wp_step|]. wp_step.
      apply wp_store_block; [lia|done|done|done|]. intros b Hbz Hbok _. wp_step. simpl. split_and!; done || lia.
    - destruct d; simpl; wp_step; [|done]. split_and!; done || lia. }
  intros [s'|] Hs; [|by wp_step]. destruct Hs as (E1 & E2 & E3 & E4 & E5 & E6 & E7).
  assert (Hcolon : forall i, p6_i s < i -> exists j, 0 <= j < i /\ byte_at name j = 58) by (intros i ?; exists (p6_i s); lia).
  destruct d.
  - destruct (Z.eqb_spec (p6_compress_pos s') (-1)); simpl; wp_step; [|done]. specialize (Hd eq_refl).
    split; [|simpl; lia]. constructor; simpl; try done; try lia. right. apply Hcolon. lia.
  - wp_step. split; [|simpl; lia]. constructor; simpl; try done; try lia. right. apply Hcolon. lia.
Qed.

Lemma p6_digit_ok name c s s' : p6_ok name s -> p6_i s < zlen name -> p6_digit c s = Some s' -> p6_ok name s' /\ p6_i s < p6_i s'.
Proof.
  intros [Hi Hn Hc Hb Hby Hj] Hlt. unfold p6_digit. destruct (decode_hex_digit c <? 0); [done|].
  destruct (_ <? p6_block s); [done|]. destruct (_ <? decode_hex_digit c); [done|]. intros [= <-]. split; [|simpl; lia].
  constructor; simpl; try done; try lia; [by apply u16_range|].
  destruct Hj as [?|(j & ? & ?)]; [by left|right; exists j; split; [lia|done]].
Qed.

Lemma wp_p6_loop name fuel s : p6_ok name s -> (Z.to_nat (zlen name - p6_i s) < fuel)%nat ->
  wp (p6_loop fuel name s) (fun o => match o with Some (P6Dot s' | P6End s') => p6_ok name s' | None => True end).
Proof.
  revert s. induction fuel as [|fuel IH]; intros s Hs Hf; [lia|]. simpl.
  destruct (Z.ltb_spec (p6_i s) (zlen name)) as [Hlt|]; simpl; [|by apply wp_ok].
  wp_step. apply wp_rd; [pose proof (q_i _ _ Hs); lia|]. destruct (byte_at name (p6_i s) =? 46); [by apply wp_ok|].
  assert (Hnext : forall s', p6_ok name s' /\ p6_i s < p6_i s' -> wp (p6_loop fuel name s')
    (fun o => match o with Some (P6Dot s' | P6End s') => p6_ok name s' | None => True end)).
  { intros s' [Hs' Hi]. apply IH; [done|]. pose proof (q_i _ _ Hs'). lia. }
  destruct (Z.eqb_spec (byte_at name (p6_i s)) 58).
  - wp_step. eapply wp_mono; [by apply wp_p6_colon|]. intros [s'|] Hs'; [by apply Hnext|by apply wp_ok].
  - wp_step. wp_step. destruct (p6_digit _ s) as [s'|] eqn:E; [|by apply wp_ok]. apply Hnext. by eapply p6_digit_ok.
Qed.

Lemma wp_p6_back name i k fuel : 0 <= i <= zlen name -> (exists j, 0 <= j < i /\ byte_at name j = 58) -> (Z.to_nat i < fuel)%nat -> k = fuel ->
  wp (p6_back k name i) (fun i' => 0 <= i' <= i).
Proof.
  intros Hi Hj Hf ->. revert i Hi Hj Hf. induction fuel as [|fuel IH]; intros i Hi (j & Hj & Ej) Hf; [lia|]. simpl.
  wp_step. apply wp_rd; [lia|]. destruct (Z.eqb_spec (byte_at name (i - 1)) 58); [apply wp_ok; lia|].
  assert (j <> i - 1) by congruence.
  eapply wp_mono; [apply IH; [lia|exists j; split; [lia|done]|lia]|]. intros i' ?. simpl in *. lia.
Qed.

Lemma wp_p6_dotted name fuel i cur byte empty bytes : 0 <= i -> 0 <= cur <= 3 -> 0 <= byte < 256 -> zlen bytes = 4 -> bytes_ok bytes ->
  (Z.to_nat (zlen name - i) < fuel)%nat ->
  wp (p6_dotted fuel name i cur byte empty bytes) (fun o => match o with
    | Some (cur', byte', _, bytes') => 0 <= cur' <= 3 /\ 0 <= byte' < 256 /\ zlen bytes' = 4 /\ bytes_ok bytes' | None => True end).
Proof.
  revert i cur byte empty bytes. induction fuel as [|fuel IH]; intros i cur byte empty bytes Hi Hc Hb Hz Hok Hf; [lia|]. simpl.
  destruct (Z.ltb_spec i (zlen name)); simpl; [|by apply wp_ok]. wp_step. apply wp_rd; [lia|].
  destruct (byte_at name i =? 46).
  - destruct empty; simpl; [by apply wp_ok|]. destruct (Z.eqb_spec cur 3); [by apply wp_ok|]. wp_step. rewrite wr_ok by lia. wp_step.
    apply IH; [lia|lia|lia|by rewrite zlen_insert|by apply bytes_ok_insert|lia].
  - destruct (negb empty && (byte =? 0)); [by apply wp_ok|]. destruct (_ <? 0); [by apply wp_ok|]. destruct (_ <? byte); [by apply wp_ok|].
    destruct (_ <? decode_decimal_digit _); [by apply wp_ok|]. apply IH; [lia|lia|apply u8_range|done|done|lia].
Qed.

Lemma wp_p6_done s (Hn : 0 <= p6_num_blocks s <= 8) : -1 <= p6_compress_pos s <= p6_num_blocks s ->
  zlen (p6_bytes s) = 16 -> bytes_ok (p6_bytes s) ->
  wp (p6_done s) (fun o => match o with Some b => zlen b = 16 /\ bytes_ok b | None => True end).
Proof.
  intros Hc Hz Hok. unfold p6_done, NUM_BLOCKS. destruct (_ && _) eqn:E; [by apply wp_ok|].
  set (cp := if p6_compress_pos s =? -1 then 0 else p6_compress_pos s).
  assert (Hcp : 0 <= cp <= p6_num_blocks s) by (unfold cp; destruct (Z.eqb_spec (p6_compress_pos s) (-1)); lia).
  wp_step. rewrite memmove_ok by lia. wp_step. wp_step. unfold memset. destruct (Z.ltb_spec (2 * (8 - (p6_num_blocks s - cp) - cp)) 0); [lia|].
  pose proof (bytes_ok_slice _ (2 * cp) (2 * (p6_num_blocks s - cp)) Hok) as Hsl.
  assert (Hzs : zlen (slice (p6_bytes s) (2 * cp) (2 * (p6_num_blocks s - cp))) = 2 * (p6_num_blocks s - cp)) by (apply zlen_slice; lia).
  rewrite wr_list_ok; [|lia|rewrite zlen_replicate, zlen_splice; lia]. wp_step. wp_step.
  split; [rewrite zlen_splice; rewrite ?zlen_splice, ?zlen_replicate; lia|]. apply bytes_ok_splice; [by apply bytes_ok_splice|].
  apply Forall_replicate. done.
Qed.

(** The reader returns, whatever the string, and stays in its arrays. *)
Lemma wp_parse_ipv6 name out junk : zlen out = 16 -> bytes_ok out -> zlen junk = 4 -> bytes_ok junk ->
  wp (ipaddr6_parse_ipv6_addr name out junk) (fun o => match o with Some b => zlen b = 16 /\ bytes_ok b | None => True end).
Proof.
  intros Hz Hok Hjz Hjok. unfold ipaddr6_parse_ipv6_addr. wp_step.
  eapply wp_mono; [apply wp_p6_loop; [|simpl; unfold zlen; lia]|].
  { pose proof (zlen_nonneg name). constructor; simpl; try done; try lia. }
  intros [[s|s]|] Hs; [| |by apply wp_ok].
  - pose proof Hs as [Hi Hn Hc Hb [Hbz Hbok] Hj]. wp_step. unfold p6_ipv4_ending.
    destruct (p6_empty s); cbn [orb]; [by repeat wp_step|].
    destruct ((p6_num_blocks s =? 0) && (p6_compress_pos s =? -1)) eqn:E; [by repeat wp_step|].
    destruct Hj as [?|Hj]; [lia|]. wp_step. eapply wp_mono; [apply (wp_p6_back name (p6_i s) _ (S (Z.to_nat (p6_i s)))); [done|done|lia|done]|]. intros i Hi'. cbv beta in Hi'.
    wp_step. eapply wp_mono; [apply wp_p6_dotted; [lia|lia|lia|done|done|unfold zlen in *; lia]|].
    intros [[[[cur byte] empty] bytes]|] Hd; [|by repeat wp_step]. destruct Hd as (Hcur & Hbyte & Hz4 & Hok4).
    destruct (_ || empty); [by repeat wp_step|]. wp_step. rewrite wr_ok by lia. wp_step. unfold NUM_BLOCKS.
    destruct (Z.ltb_spec (8 - p6_num_blocks s) 2); [by repeat wp_step|]. wp_step.
    rewrite wr_list_ok; [|lia|rewrite zlen_insert; lia]. wp_step. wp_step.
    apply wp_p6_done; simpl; [lia|lia|rewrite zlen_splice; rewrite ?zlen_insert; lia|].
    apply bytes_ok_splice; [done|]. by apply bytes_ok_insert.
  - pose proof Hs as [Hi Hn Hc Hb [Hbz Hbok] Hj]. destruct (p6_empty s); simpl.
    + destruct (_ =? p6_compress_pos s); simpl; [|by apply wp_ok]. apply wp_p6_done; [lia|lia|done|done].
    + wp_step. apply wp_store_block; [done..|]. intros b Hz' Hok' _. apply wp_p6_done; simpl; [lia|lia|done|done].
Qed.

(** ** Reading what was printed *)

(** From [s] the loop gets to [s'], in no more turns than characters. *)
Definition p6_runs (name : list Z) (s s' : p6) : Prop :=
  exists n, Z.of_nat n <= p6_i s' - p6_i s /\ forall fuel, p6_loop (n + fuel) name s = p6_loop fuel name s'.
Lemma p6_runs_refl name s : p6_runs name s s.
Proof. exists O. split; [lia|done]. Qed.
Lemma p6_runs_trans name a b c : p6_runs name a b -> p6_runs name b c -> p6_runs name a c.
Proof.
  intros (n & Hn & En) (m & Hm & Em). exists (n + m)%nat. split; [lia|]. intros fuel. by rewrite <- Nat.add_assoc, En, Em.
Qed.

Lemma hex_digit c : digit_in 16 c -> c <> 46 /\ c <> 58 /\ 0 <= decode_hex_digit c < 16.
Proof.
  intros (d & -> & Hd). rewrite decode_digit_char by lia. split_and!; [| |lia|lia]; unfold digit_char; destruct (Z.ltb_spec d 10); lia.
Qed.
Lemma digits_value_ge n ds : Forall (digit_in 16) ds -> 0 <= n -> n <= digits_value 16 decode_hex_digit n ds.
Proof.
  intros Hd. revert n. induction Hd as [|c ds Hc _ IH]; intros n Hn; simpl; [lia|].
  destruct (hex_digit c Hc) as (_ & _ & ?). specialize (IH (16 * n + decode_hex_digit c)). lia.
Qed.

Lemma runs_digits name pre ds rest s : name = pre ++ ds ++ rest -> p6_i s = zlen pre -> Forall (digit_in 16) ds ->
  0 <= p6_block s -> digits_value 16 decode_hex_digit (p6_block s) ds < 65536 -> ds <> [] ->
  p6_runs name s (P6 (zlen pre + zlen ds) (p6_num_blocks s) (p6_compress_pos s) (digits_value 16 decode_hex_digit (p6_block s) ds) false (p6_bytes s)).
Proof.
  intros En Ei Hd. revert pre s En Ei. induction Hd as [|c ds Hc Hd IH]; intros pre s En Ei Hb Hv Hne; [done|]. clear Hne.
  destruct (hex_digit c Hc) as (H46 & H58 & Hdig). cbn [digits_value fold_left] in *. change (fold_left _ ds ?n) with (digits_value 16 decode_hex_digit n ds) in *.
  pose proof (digits_value_ge (16 * p6_block s + decode_hex_digit c) ds Hd ltac:(lia)) as Hge.
  set (s1 := P6 (zlen pre + 1) (p6_num_blocks s) (p6_compress_pos s) (16 * p6_block s + decode_hex_digit c) false (p6_bytes s)).
  assert (Hlen : zlen name = zlen pre + (zlen ds + 1) + zlen rest) by (rewrite En, !zlen_app, zlen_cons; lia).
  pose proof (zlen_nonneg pre). pose proof (zlen_nonneg ds). pose proof (zlen_nonneg rest).
  assert (Hstep : p6_runs name s s1).
  { exists 1%nat. split; [subst s1; simpl; lia|]. intros fuel. cbn [Nat.add]. change (p6_loop (S fuel) name s) with
      (if negb (p6_i s <? zlen name) then Ok (Some (P6End s)) else
       c ← rd name (p6_i s); if c =? 46 then Ok (Some (P6Dot s)) else
       o ← (if c =? 58 then p6_colon name s else Ok (p6_digit c s)); match o with None => Ok None | Some s => p6_loop fuel name s end).
    rewrite Ei. destruct (Z.ltb_spec (zlen pre) (zlen name)); [|lia]. cbn [negb]. rewrite rd_ok by lia. cbn [mbind res_bind].
    rewrite En at 1. cbn [app]. rewrite byte_at_app_mid by done. destruct (Z.eqb_spec c 46); [done|].
    rewrite En at 1. cbn [app]. rewrite byte_at_app_mid by done. destruct (Z.eqb_spec c 58); [done|]. cbn [mbind res_bind].
    rewrite En at 1. cbn [app]. rewrite byte_at_app_mid by done. unfold p6_digit. destruct (Z.ltb_spec (decode_hex_digit c) 0); [lia|].
    change ((2 ^ 16 - 1) / 16) with 4095. destruct (Z.ltb_spec 4095 (p6_block s)); [lia|]. rewrite (u16_small (p6_block s * 16)) by lia.
    change (2 ^ 16 - 1) with 65535. destruct (Z.ltb_spec (65535 - p6_block s * 16) (decode_hex_digit c)); [lia|].
    rewrite u16_small by lia. f_equal. subst s1.
    change (P6 (p6_i s + 1) (p6_num_blocks s) (p6_compress_pos s) (p6_block s * 16 + decode_hex_digit c) false (p6_bytes s) =
      P6 (zlen pre + 1) (p6_num_blocks s) (p6_compress_pos s) (16 * p6_block s + decode_hex_digit c) false (p6_bytes s)). f_equal; lia. }
  destruct ds as [|c' ds'].
  - simpl. by replace (zlen [c]) with 1 by done.
  - eapply p6_runs_trans; [exact Hstep|]. rewrite zlen_cons. replace (zlen pre + (zlen (c' :: ds') + 1)) with (zlen (pre ++ [c]) + zlen (c' :: ds'))
      by (rewrite zlen_app; change (zlen [c]) with 1; lia).
    apply (IH (pre ++ [c]) s1); [by rewrite En, <- app_assoc|by rewrite zlen_app|simpl; lia|done|done].
Qed.

Definition block_bytes (v : Z) : list Z := [v / 256; v mod 256].
Lemma zlen_blocks vs : zlen (concat (block_bytes <$> vs)) = 2 * zlen vs.
Proof. induction vs as [|v vs IH]; [done|]. cbn [fmap list_fmap concat]. rewrite zlen_app, IH, zlen_cons. change (zlen (block_bytes v)) with 2. lia. Qed.

Lemma store_block_ok s : 0 <= p6_num_blocks s <= 7 -> 0 <= p6_block s < 65536 -> zlen (p6_bytes s) = 16 -> bytes_ok (p6_bytes s) ->
  store_block s = Ok (s <| p6_bytes := splice (p6_bytes s) (2 * p6_num_blocks s) (block_bytes (p6_block s)) |> <| p6_num_blocks := p6_num_blocks s + 1 |>).
Proof.
  intros Hn Hb Hz Hok. destruct (wp_inv _ _ (wp_store_block s (fun s' => s' = s <| p6_bytes := splice (p6_bytes s) (2 * p6_num_blocks s) (block_bytes (p6_block s)) |>
    <| p6_num_blocks := p6_num_blocks s + 1 |>) Hn Hb Hz Hok ltac:(intros b _ _ ->; done))) as (s' & E & ->). done.
Qed.

Lemma loop_at_colon name pre rest s fuel : name = pre ++ 58 :: rest -> p6_i s = zlen pre ->
  p6_loop (S fuel) name s = (o ← p6_colon name s; match o with None => Ok None | Some s => p6_loop fuel name s end).
Proof.
  intros En Ei. pose proof (zlen_nonneg rest). pose proof (zlen_nonneg pre).
  assert (Hlen : zlen name = zlen pre + (zlen rest + 1)) by (by rewrite En, zlen_app, zlen_cons).
  cbn [p6_loop]. rewrite Ei. destruct (Z.ltb_spec (zlen pre) (zlen name)); [|lia]. cbn [negb]. rewrite rd_ok by lia. cbn [mbind res_bind].
  assert (E58 : byte_at name (zlen pre) = 58) by (rewrite En; by apply byte_at_app_mid). by rewrite E58.
Qed.

(** A colon behind a block: alone, or the first of two. *)
Lemma runs_colon name pre c rest s : name = pre ++ 58 :: c :: rest -> p6_i s = zlen pre -> c <> 58 -> 0 < zlen pre ->
  p6_empty s = false -> 0 <= p6_num_blocks s < 7 -> 0 <= p6_block s < 65536 -> zlen (p6_bytes s) = 16 -> bytes_ok (p6_bytes s) ->
  p6_runs name s (P6 (zlen pre + 1) (p6_num_blocks s + 1) (p6_compress_pos s) 0 true
    (splice (p6_bytes s) (2 * p6_num_blocks s) (block_bytes (p6_block s)))).
Proof.
  intros En Ei Hc Hp He Hn Hb Hz Hok. exists 1%nat. split; [simpl; lia|]. intros fuel. cbn [Nat.add].
  rewrite (loop_at_colon _ _ _ _ _ En Ei). unfold p6_colon. pose proof (zlen_nonneg rest).
  assert (Hlen : zlen name = zlen pre + (zlen rest + 1 + 1)) by (by rewrite En, zlen_app, !zlen_cons).
  rewrite Ei. destruct (Z.ltb_spec (zlen pre + 1) (zlen name)); [|lia]. rewrite rd_ok by lia. cbn [mbind res_bind].
  assert (Ec : byte_at name (zlen pre + 1) = c).
  { rewrite En. change (pre ++ 58 :: c :: rest) with (pre ++ [58] ++ c :: rest). rewrite app_assoc. apply byte_at_app_mid. by rewrite zlen_app. }
  rewrite Ec. destruct (Z.eqb_spec c 58); [done|]. destruct (Z.ltb_spec 0 (zlen pre)); [|lia]. rewrite He. cbn [orb].
  destruct (Z.eqb_spec (p6_num_blocks s) 7); [lia|]. rewrite store_block_ok by (done || lia). cbn [mbind res_bind]. by rewrite <- Ei.
Qed.
Lemma runs_double name pre rest s : name = pre ++ 58 :: 58 :: rest -> p6_i s = zlen pre -> 0 < zlen pre ->
  p6_empty s = false -> 0 <= p6_num_blocks s < 7 -> 0 <= p6_block s < 65536 -> zlen (p6_bytes s) = 16 -> bytes_ok (p6_bytes s) ->
  p6_compress_pos s = -1 ->
  p6_runs name s (P6 (zlen pre + 2) (p6_num_blocks s + 1) (p6_num_blocks s + 1) 0 true
    (splice (p6_bytes s) (2 * p6_num_blocks s) (block_bytes (p6_block s)))).
Proof.
  intros En Ei Hp He Hn Hb Hz Hok Hcp. exists 1%nat. split; [simpl; lia|]. intros fuel. cbn [Nat.add].
  rewrite (loop_at_colon _ _ _ _ _ En Ei). unfold p6_colon. pose proof (zlen_nonneg rest).
  assert (Hlen : zlen name = zlen pre + (zlen rest + 1 + 1)) by (by rewrite En, zlen_app, !zlen_cons).
  rewrite Ei. destruct (Z.ltb_spec (zlen pre + 1) (zlen name)); [|lia]. rewrite rd_ok by lia. cbn [mbind res_bind].
  assert (Ec : byte_at name (zlen pre + 1) = 58).
  { rewrite En. change (pre ++ 58 :: 58 :: rest) with (pre ++ [58] ++ 58 :: rest). rewrite app_assoc. apply byte_at_app_mid. by rewrite zlen_app. }
  rewrite Ec. change (58 =? 58) with true. destruct (Z.ltb_spec 0 (zlen pre)); [|lia]. rewrite He. cbn [orb].
  destruct (Z.eqb_spec (p6_num_blocks s) 7); [lia|]. rewrite store_block_ok by (done || lia). cbn [mbind res_bind].
  match goal with |- context [negb (p6_compress_pos ?x =? -1)] => change (p6_compress_pos x) with (p6_compress_pos s) end.
  rewrite Hcp. by rewrite <- Ei.
Qed.
Lemma runs_double_front name rest out : name = 58 :: 58 :: rest ->
  p6_runs name (P6 0 0 (-1) 0 true out) (P6 2 0 0 0 true out).
Proof.
  intros En. exists 1%nat. split; [simpl; lia|]. intros fuel. cbn [Nat.add].
  rewrite (loop_at_colon name [] (58 :: rest)) by done. unfold p6_colon. pose proof (zlen_nonneg rest).
  assert (Hlen : zlen name = zlen rest + 1 + 1) by (by rewrite En, !zlen_cons). cbn [p6_i].
  destruct (Z.ltb_spec (0 + 1) (zlen name)); [|lia]. rewrite rd_ok by lia. cbn [mbind res_bind]. by rewrite En.
Qed.

Abbreviation is_block v := (0 <= v < 65536).
Definition joined (ts : list (list Z)) : list Z := match ts with [] => [] | t :: ts => t ++ concat ((fun t => 58 :: t) <$> ts) end.
Abbreviation texts vs := (print_num 16 <$> vs).

Lemma text_spec v : is_block v -> print_num 16 v <> [] /\ Forall (digit_in 16) (print_num 16 v) /\
  digits_value 16 decode_hex_digit 0 (print_num 16 v) = v.
Proof. intros Hv. destruct (print_num_spec 16 v ltac:(lia) ltac:(simpl; lia)) as (H1 & H2 & _ & H3 & _). done. Qed.
Lemma bytes_ok_block v : is_block v -> bytes_ok (block_bytes v).
Proof.
  intros Hv. pose proof (Z.mod_pos_bound v 256 ltac:(lia)). assert (0 <= v / 256 < 256) by (split; [apply Z.div_pos|apply Z.div_lt_upper_bound]; lia).
  apply Forall_cons_2; [done|]. apply Forall_cons_2; [done|]. apply Forall_nil_2.
Qed.
Lemma bytes_ok_blocks vs : Forall (fun v => is_block v) vs -> bytes_ok (concat (block_bytes <$> vs)).
Proof. induction 1 as [|v vs Hv _ IH]; [by apply Forall_nil_2|]. cbn [fmap list_fmap concat]. apply bytes_ok_app. split; [by apply bytes_ok_block|done]. Qed.

Lemma splice_splice_next m d a b : 0 <= d -> d + zlen a + zlen b <= zlen m ->
  splice (splice m d a) (d + zlen a) b = splice m d (a ++ b).
Proof.
  intros Hd Hl. pose proof (zlen_nonneg a). pose proof (zlen_nonneg b).
  apply list_eq_byte_at; [rewrite !zlen_splice; rewrite ?zlen_splice, ?zlen_app; lia|].
  rewrite !zlen_splice by (rewrite ?zlen_splice; lia). intros i Hi.
  rewrite !byte_at_splice by (rewrite ?zlen_splice, ?zlen_app; lia). rewrite zlen_app.
  destruct (decide (d + zlen a <= i < d + zlen a + zlen b)) as [H1|H1].
  - replace ((d + zlen a <=? i) && (i <? d + zlen a + zlen b)) with true by lia.
    replace ((d <=? i) && (i <? d + (zlen a + zlen b))) with true by lia. rewrite byte_at_app_r by lia. f_equal. lia.
  - replace ((d + zlen a <=? i) && (i <? d + zlen a + zlen b)) with false by lia.
    destruct (decide (d <= i < d + zlen a)) as [H2|H2].
    + replace ((d <=? i) && (i <? d + zlen a)) with true by lia. replace ((d <=? i) && (i <? d + (zlen a + zlen b))) with true by lia.
      by rewrite byte_at_app_l by lia.
    + replace ((d <=? i) && (i <? d + zlen a)) with false by lia. by replace ((d <=? i) && (i <? d + (zlen a + zlen b))) with false by lia.
Qed.
Lemma splice_nil m d : 0 <= d <= zlen m -> splice m d [] = m.
Proof. intros ?. unfold splice. simpl. rewrite zlen_nil, Z.add_0_r. apply take_drop. Qed.

Lemma last_cons_default (w v : Z) vs : List.last (w :: vs) v = List.last vs w.
Proof.
  revert w v. induction vs as [|x vs IH]; intros w v; [done|]. change (List.last (w :: x :: vs) v) with (List.last (x :: vs) v).
  by rewrite !IH.
Qed.

(** The texts of blocks with colons between them. *)
Lemma runs_blocks name v vs pre rest s : name = pre ++ joined (texts (v :: vs)) ++ rest -> p6_i s = zlen pre ->
  Forall (fun v => is_block v) (v :: vs) -> p6_block s = 0 -> 0 <= p6_num_blocks s -> p6_num_blocks s + zlen vs <= 7 ->
  zlen (p6_bytes s) = 16 -> bytes_ok (p6_bytes s) ->
  p6_runs name s (P6 (zlen pre + zlen (joined (texts (v :: vs)))) (p6_num_blocks s + zlen vs) (p6_compress_pos s)
    (List.last vs v) false (splice (p6_bytes s) (2 * p6_num_blocks s) (concat (block_bytes <$> removelast (v :: vs))))).
Proof.
  revert v pre s. induction vs as [|w vs IH]; intros v pre s En Ei Hv Hb0 Hn Hn7 Hz Hok;
    apply Forall_cons_1 in Hv as [Hv Hvs]; destruct (text_spec v Hv) as (Hne & Hd & Hval).
  - cbn [fmap list_fmap joined concat] in *. rewrite app_nil_r in *. change (zlen []) with 0 in *. rewrite Z.add_0_r.
    cbn [removelast fmap list_fmap concat List.last]. rewrite splice_nil by lia.
    pose proof (runs_digits name pre (print_num 16 v) rest s En Ei Hd ltac:(lia)) as Hr. rewrite Hb0, Hval in Hr. apply Hr; [lia|done].
  - pose proof (Forall_inv Hvs) as Hw. destruct (text_spec w Hw) as (Hnew & Hdw & _).
    rewrite zlen_cons in *. pose proof (zlen_nonneg vs). pose proof (zlen_nonneg pre).
    assert (Ej : joined (texts (v :: w :: vs)) = print_num 16 v ++ [58] ++ joined (texts (w :: vs))) by done.
    rewrite Ej in *. pose proof (zlen_nonneg (print_num 16 v)).
    assert (Htl : 0 < zlen (print_num 16 v)) by (destruct (print_num 16 v); [done|rewrite zlen_cons; pose proof (zlen_nonneg l); lia]).
    eapply p6_runs_trans; [eapply (runs_digits _ pre (print_num 16 v)); [rewrite En, <- !app_assoc; done|done|done|lia|rewrite Hb0, Hval; lia|done]|].
    rewrite Hb0, Hval.
    destruct (joined (texts (w :: vs))) as [|c js] eqn:Ec; [cbn [fmap list_fmap joined] in Ec; by destruct (print_num 16 w)|].
    assert (Hc : c <> 58).
    { destruct (print_num 16 w) as [|c' t] eqn:Et; [done|]. cbn [fmap list_fmap joined] in Ec. rewrite Et in Ec. injection Ec as <- _.
      apply Forall_inv in Hdw. by apply hex_digit. }
    eapply p6_runs_trans; [eapply (runs_colon name (pre ++ print_num 16 v) c (js ++ rest)); simpl; try done; try lia|].
    { by rewrite En, <- !app_assoc. }
    { by rewrite zlen_app. }
    { rewrite zlen_app. lia. }
    simpl p6_num_blocks. simpl p6_block. simpl p6_bytes. simpl p6_compress_pos.
    pose proof (bytes_ok_block v Hv) as Hbv. rewrite zlen_app.
    set (s2 := P6 _ _ _ _ _ _).
    pose proof (IH w (pre ++ print_num 16 v ++ [58]) s2) as IHs. rewrite Ec in IHs.
    replace (zlen pre + zlen (print_num 16 v ++ [58] ++ c :: js)) with (zlen (pre ++ print_num 16 v ++ [58]) + zlen (c :: js))
      by (rewrite !zlen_app; lia).
    replace (p6_num_blocks s + (zlen vs + 1)) with (p6_num_blocks s2 + zlen vs) by (subst s2; simpl; lia).
    rewrite last_cons_default.
    replace (splice (p6_bytes s) (2 * p6_num_blocks s) (concat (block_bytes <$> removelast (v :: w :: vs))))
      with (splice (p6_bytes s2) (2 * p6_num_blocks s2) (concat (block_bytes <$> removelast (w :: vs)))).
    2:{ subst s2. simpl p6_bytes. simpl p6_num_blocks. change (removelast (v :: w :: vs)) with (v :: removelast (w :: vs)).
        cbn [fmap list_fmap concat]. replace (2 * (p6_num_blocks s + 1)) with (2 * p6_num_blocks s + zlen (block_bytes v)) by (change (zlen (block_bytes v)) with 2; lia).
        apply splice_splice_next; [lia|]. rewrite zlen_blocks. change (zlen (block_bytes v)) with 2.
        assert (zlen (removelast (w :: vs)) = zlen vs) by (unfold zlen; rewrite List.removelast_firstn_len, firstn_length_le; simpl; lia). lia. }
    apply IHs; subst s2; simpl; try done; try lia.
    + by rewrite En, <- !app_assoc.
    + rewrite !zlen_app. change (zlen [58]) with 1. lia.
    + rewrite zlen_splice; [done|lia|]. change (zlen (block_bytes v)) with 2. lia.
    + by apply bytes_ok_splice.
Qed.

(** the end of the address: [num_rear] blocks go behind zeros *)
Lemma p6_done_ok s F R T cp : p6_bytes s = F ++ R ++ T -> zlen (p6_bytes s) = 16 -> zlen F = 2 * cp -> zlen R = 2 * (p6_num_blocks s - cp) ->
  0 <= p6_num_blocks s <= 8 -> p6_compress_pos s = cp \/ p6_compress_pos s = -1 /\ cp = 0 /\ p6_num_blocks s = 8 -> 0 <= cp ->
  p6_done s = Ok (Some (F ++ replicate (Z.to_nat (16 - 2 * p6_num_blocks s)) 0 ++ R)).
Proof.
  intros Eb Hz HF HR Hn Hcp Hcp0. unfold p6_done, NUM_BLOCKS. pose proof (zlen_nonneg F). pose proof (zlen_nonneg R). pose proof (zlen_nonneg T).
  assert (E1 : (p6_compress_pos s =? -1) && negb (p6_num_blocks s =? 8) = false) by lia. rewrite E1.
  assert (E2 : (if p6_compress_pos s =? -1 then 0 else p6_compress_pos s) = cp) by (destruct (Z.eqb_spec (p6_compress_pos s) (-1)); lia). rewrite E2.
  set (n := p6_num_blocks s) in *. rewrite memmove_ok by lia. cbn [mbind res_bind].
  assert (Hsl : slice (p6_bytes s) (2 * cp) (2 * (n - cp)) = R) by (rewrite Eb; apply slice_app_mid; lia). rewrite Hsl.
  unfold memset. destruct (Z.ltb_spec (2 * (8 - (n - cp) - cp)) 0); [lia|].
  assert (Hz2 : zlen (splice (p6_bytes s) (2 * (8 - (n - cp))) R) = 16) by (rewrite zlen_splice; lia).
  rewrite wr_list_ok by (rewrite ?zlen_replicate; lia). cbn [mbind res_bind]. do 2 f_equal.
  replace (2 * (8 - (n - cp) - cp)) with (16 - 2 * n) by lia.
  assert (Hzr : zlen (replicate (Z.to_nat (16 - 2 * n)) 0) = 16 - 2 * n) by (rewrite zlen_replicate; lia).
  apply list_eq_byte_at; [rewrite zlen_splice by lia; rewrite !zlen_app; lia|].
  rewrite zlen_splice by lia. rewrite Hz2. intros i Hi. rewrite byte_at_splice by lia. rewrite Hzr.
  destruct (decide (i < 2 * cp)) as [Hx|Hx].
  - replace ((2 * cp <=? i) && (i <? 2 * cp + (16 - 2 * n))) with false by lia. rewrite byte_at_splice by lia.
    replace ((2 * (8 - (n - cp)) <=? i) && (i <? 2 * (8 - (n - cp)) + zlen R)) with false by lia. rewrite Eb, !byte_at_app_l by lia. done.
  - destruct (decide (i < 2 * cp + (16 - 2 * n))) as [Hy|Hy].
    + replace ((2 * cp <=? i) && (i <? 2 * cp + (16 - 2 * n))) with true by lia.
      rewrite (byte_at_app_r F), byte_at_app_l by lia. f_equal. lia.
    + replace ((2 * cp <=? i) && (i <? 2 * cp + (16 - 2 * n))) with false by lia. rewrite byte_at_splice by lia.
      replace ((2 * (8 - (n - cp)) <=? i) && (i <? 2 * (8 - (n - cp)) + zlen R)) with true by lia.
      rewrite (byte_at_app_r F), byte_at_app_r by lia. f_equal. lia.
Qed.

(** ** The blocks of an address *)
Definition blocks (addr : list Z) (i n : Z) : list Z := block_at addr <$> seqZ i n.
Lemma block_at_ok addr i : bytes_ok addr -> is_block (block_at addr i) /\ block_bytes (block_at addr i) = [byte_at addr (2 * i); byte_at addr (2 * i + 1)].
Proof.
  intros Hok. pose proof (byte_at_range addr (2 * i) Hok). pose proof (byte_at_range addr (2 * i + 1) Hok).
  unfold block_at. rewrite Z.shiftl_mul_pow2 by lia. change (2 ^ 8) with 256. rewrite u16_small by lia.
  pose proof (be16_value (byte_at addr (2 * i)) (byte_at addr (2 * i + 1)) ltac:(done) ltac:(done)) as E.
  rewrite Z.shiftl_mul_pow2 in E by lia. rewrite Z.shiftl_0_r in E. change (2 ^ 8) with 256 in E. rewrite E. split; [lia|].
  unfold block_bytes. rewrite (Z.mul_comm 256), Z.div_add_l, Z.div_small, Z.add_0_r by lia. rewrite Z.add_comm, Z.mod_add, Z.mod_small by lia. done.
Qed.
Lemma blocks_ok addr i n : bytes_ok addr -> Forall (fun v => is_block v) (blocks addr i n).
Proof. intros Hok. apply Forall_fmap, Forall_true. intros j. by apply block_at_ok. Qed.
Lemma zlen_blocks_n addr i n : 0 <= n -> zlen (blocks addr i n) = n.
Proof. intros. unfold zlen, blocks. rewrite length_fmap, length_seqZ. lia. Qed.
Lemma blocks_cons addr i n : 0 < n -> blocks addr i n = block_at addr i :: blocks addr (i + 1) (n - 1).
Proof. intros. unfold blocks. rewrite seqZ_cons by lia. cbn [fmap list_fmap]. by replace (Z.succ i) with (i + 1) by lia. Qed.
Lemma slice_one (m : list Z) i : 0 <= i < zlen m -> slice m i 1 = [byte_at m i].
Proof. intros Hi. change 1 with (0 + 1). rewrite slice_snoc by lia. by rewrite Z.add_0_r. Qed.
Lemma blocks_bytes addr i n : bytes_ok addr -> 0 <= i -> 0 <= n -> 2 * (i + n) <= zlen addr ->
  concat (block_bytes <$> blocks addr i n) = slice addr (2 * i) (2 * n).
Proof.
  intros Hok Hi Hn. revert n Hn i Hi.
  apply (natlike_ind (fun n => forall i, 0 <= i -> 2 * (i + n) <= zlen addr -> concat (block_bytes <$> blocks addr i n) = slice addr (2 * i) (2 * n))).
  - intros i _ _. done.
  - intros n Hn IH i Hi Hl. rewrite blocks_cons by lia. cbn [fmap list_fmap concat]. replace (Z.succ n - 1) with n by lia.
    rewrite IH by lia. destruct (block_at_ok addr i Hok) as [_ ->].
    replace (2 * Z.succ n) with (1 + (1 + 2 * n)) by lia. rewrite <- !slice_app by lia.
    change ([byte_at addr (2 * i); byte_at addr (2 * i + 1)]) with ([byte_at addr (2 * i)] ++ [byte_at addr (2 * i + 1)]).
    rewrite <- app_assoc. f_equal; [|f_equal; [|f_equal; lia]].
    + by rewrite (slice_one addr (2 * i)) by lia.
    + by rewrite (slice_one addr (2 * i + 1)) by lia.
Qed.

(** the run that is left out consists of zeros *)
Lemma largest_run_ok addr n i cs cl ls ll : 0 <= cs -> 0 <= cl -> cs + cl = i -> 0 <= ls -> 0 <= ll -> ls + ll <= i ->
  (forall j, cs <= j < i -> block_at addr j = 0) -> (forall j, ls <= j < ls + ll -> block_at addr j = 0) ->
  let '(s, l) := largest_run n addr i cs cl ls ll in
  0 <= s /\ 0 <= l /\ s + l <= i + Z.of_nat n /\ forall j, s <= j < s + l -> block_at addr j = 0.
Proof.
  revert i cs cl ls ll. induction n as [|n IH]; intros i cs cl ls ll Hcs Hcl Hi Hls Hll Hl Hc Hz; simpl; [split_and!; done || lia|].
  destruct ((byte_at addr (2 * i) =? 0) && (byte_at addr (2 * i + 1) =? 0)) eqn:E.
  - assert (Hb : block_at addr i = 0).
    { apply andb_true_iff in E as [E1%Z.eqb_eq E2%Z.eqb_eq]. unfold block_at. by rewrite E1, E2. }
    assert (Hc' : forall j, cs <= j < i + 1 -> block_at addr j = 0) by (intros j ?; destruct (decide (j = i)) as [->|]; [done|apply Hc; lia]).
    destruct (Z.ltb_spec ll (cl + 1)).
    + specialize (IH (i + 1) cs (cl + 1) cs (cl + 1)). destruct (largest_run n addr (i + 1) cs (cl + 1) cs (cl + 1)) as [s l].
      destruct IH as (? & ? & ? & ?); try done; try lia; [intros j ?; apply Hc'; lia|]. split_and!; done || lia.
    + specialize (IH (i + 1) cs (cl + 1) ls ll). destruct (largest_run n addr (i + 1) cs (cl + 1) ls ll) as [s l].
      destruct IH as (? & ? & ? & ?); try done; try lia. split_and!; done || lia.
  - specialize (IH (i + 1) (i + 1) 0 ls ll). destruct (largest_run n addr (i + 1) (i + 1) 0 ls ll) as [s l].
    destruct IH as (? & ? & ? & ?); try done; try lia. split_and!; done || lia.
Qed.
