(* ===== verification/AddrProps.v ===== *)
(** Properties of Addr: printed addresses and numbers are read back, and the readers
    answer on every string. *)
From S2P Require Import Prelude CMem Sys Mpool Flow SocksClient TcpClient Packet PacketFacts Addr AddrFacts.

Lemma runs_end name s0 s1 : p6_runs name s0 s1 -> p6_i s0 = 0 -> p6_i s1 = zlen name ->
  p6_loop (S (length name)) name s0 = Ok (Some (P6End s1)).
Proof.
  intros (n & Hn & E) H0 H1. pose proof (zlen_nonneg name). assert (n <= length name)%nat by (unfold zlen in *; lia).
  replace (S (length name)) with (n + S (length name - n))%nat by lia. rewrite E. simpl. by rewrite H1, Z.ltb_irrefl.
Qed.

Lemma joined_snoc t ts : concat ((fun t => t ++ [58]) <$> t :: ts) = joined (t :: ts) ++ [58].
Proof.
  revert t. induction ts as [|u ts IH]; intros t; [by simpl; rewrite !app_nil_r|].
  cbn [fmap list_fmap concat]. cbn [fmap list_fmap concat] in IH. rewrite IH. cbn [joined fmap list_fmap concat]. by rewrite <- !app_assoc.
Qed.
Lemma blocks_texts addr i n : blocks_text addr i n = texts (blocks addr i n).
Proof. unfold blocks_text, blocks. by rewrite <- list_fmap_compose. Qed.

(** what follows the loop at the end of the string *)
Definition p6_finish (s : p6) : res (option (list Z)) :=
  if negb (p6_empty s) then s ← store_block s; p6_done s
  else if negb (p6_num_blocks s =? p6_compress_pos s) then Ok None else p6_done s.
Lemma removelast_last (v : Z) vs : removelast (v :: vs) ++ [List.last vs v] = v :: vs.
Proof.
  rewrite <- (last_cons_default v 0 vs). symmetry. apply app_removelast_last. done.
Qed.

Lemma zlen_removelast (v : Z) vs : zlen (removelast (v :: vs)) = zlen vs.
Proof. pose proof (f_equal length (removelast_last v vs)) as E. rewrite length_app in E. unfold zlen. simpl length in *. lia. Qed.

(** The rest of a string, blocks with colons between them, read to the end. *)
Lemma read_tail name pre vs s : name = pre ++ joined (texts vs) -> p6_i s = zlen pre ->
  Forall (fun v => is_block v) vs -> p6_block s = 0 -> p6_empty s = true -> 0 <= p6_num_blocks s -> p6_num_blocks s + zlen vs <= 8 ->
  zlen (p6_bytes s) = 16 -> bytes_ok (p6_bytes s) -> (vs = [] -> p6_num_blocks s = p6_compress_pos s) ->
  exists s1 s2, p6_runs name s s1 /\ p6_i s1 = zlen name /\ p6_finish s1 = p6_done s2 /\
    p6_num_blocks s2 = p6_num_blocks s + zlen vs /\ p6_compress_pos s2 = p6_compress_pos s /\
    p6_bytes s2 = splice (p6_bytes s) (2 * p6_num_blocks s) (concat (block_bytes <$> vs)).
Proof.
  intros En Ei Hv Hb He Hn Hn8 Hz Hok Hnil. destruct vs as [|v vs].
  - exists s, s. rewrite zlen_nil in *. split_and!; [apply p6_runs_refl|by rewrite En, app_nil_r|..]; [|lia|done|by rewrite splice_nil by lia].
    unfold p6_finish. rewrite He, (Hnil eq_refl), Z.eqb_refl. done.
  - rewrite zlen_cons in *. pose proof (runs_blocks name v vs pre [] s) as Hr. rewrite app_nil_r in Hr.
    specialize (Hr En Ei Hv Hb Hn ltac:(lia) Hz Hok). eexists _, _. split; [exact Hr|]. split; [by rewrite En, zlen_app|].
    pose proof (Forall_inv Hv) as Hv0. pose proof (zlen_nonneg vs).
    assert (Hl : is_block (List.last vs v)).
    { assert (Hin : List.last vs v ∈ v :: vs) by (rewrite <- (removelast_last v vs); apply elem_of_app; right; by apply list_elem_of_singleton). by apply (proj1 (Forall_forall _ _) Hv). }
    assert (Hzr : zlen (concat (block_bytes <$> removelast (v :: vs))) = 2 * zlen vs).
    { by rewrite zlen_blocks, zlen_removelast. }
    assert (Hvr : Forall (fun v => is_block v) (removelast (v :: vs))).
    { rewrite <- (removelast_last v vs) in Hv. by apply Forall_app in Hv as [? _]. }
    unfold p6_finish. cbn [p6_empty negb]. rewrite store_block_ok; cbn [p6_num_blocks p6_block p6_bytes];
      [|lia|done|rewrite zlen_splice; lia|by apply bytes_ok_splice; [|apply bytes_ok_blocks]].
    cbn [mbind res_bind]. split_and!; [reflexivity|change (p6_num_blocks s + zlen vs + 1 = p6_num_blocks s + (zlen vs + 1)); lia|reflexivity|].
    replace (2 * (p6_num_blocks s + zlen vs)) with (2 * p6_num_blocks s + zlen (concat (block_bytes <$> removelast (v :: vs)))) by lia.
    rewrite splice_splice_next by (change (zlen (block_bytes (List.last vs v))) with 2; lia).
    assert (Ec : concat (block_bytes <$> v :: vs) = concat (block_bytes <$> removelast (v :: vs)) ++ block_bytes (List.last vs v)).
    { rewrite <- (removelast_last v vs) at 1. rewrite fmap_app, concat_app. cbn [fmap list_fmap concat]. by rewrite app_nil_r. }
    by rewrite Ec.
Qed.

Lemma parse_finish name out junk s1 : p6_runs name (P6 0 0 (-1) 0 true out) s1 -> p6_i s1 = zlen name ->
  ipaddr6_parse_ipv6_addr name out junk = p6_finish s1.
Proof. intros Hr Hi. unfold ipaddr6_parse_ipv6_addr. rewrite (runs_end _ _ _ Hr eq_refl Hi). done. Qed.

(** All eight blocks written out. *)
Lemma parse_full addr out junk : zlen addr = 16 -> bytes_ok addr -> zlen out = 16 -> bytes_ok out ->
  ipaddr6_parse_ipv6_addr (joined (texts (blocks addr 0 8))) out junk = Ok (Some addr).
Proof.
  intros Hz Hok Hoz Hook. pose proof (zlen_blocks_n addr 0 8 ltac:(lia)) as Hn.
  assert (Hb : concat (block_bytes <$> blocks addr 0 8) = addr).
  { rewrite blocks_bytes by (done || lia). change (2 * 0) with 0. change (2 * 8) with 16. rewrite <- Hz. apply slice_whole. }
  destruct (read_tail (joined (texts (blocks addr 0 8))) [] (blocks addr 0 8) (P6 0 0 (-1) 0 true out)) as (s1 & s2 & Hr & Hi & Hf & H1 & H2 & H3);
    [done|done|by apply blocks_ok|done|done|done|by rewrite Hn|done|done|intros E; by rewrite E in Hn|]. cbn [p6_num_blocks p6_bytes p6_compress_pos] in *.
  rewrite (parse_finish _ _ _ _ Hr Hi), Hf, (p6_done_ok s2 [] addr [] 0).
  - rewrite H1, Hn. done.
  - rewrite H3, Hb. cbn [p6_num_blocks p6_bytes]. unfold splice. change (Z.to_nat (2 * 0)) with O. rewrite drop_ge by (unfold zlen in *; lia). done.
  - rewrite H3, Hb. cbn [p6_num_blocks p6_bytes]. rewrite zlen_splice; lia.
  - done.
  - rewrite H1, Hn, Hz. done.
  - rewrite H1, Hn. done.
  - right. rewrite H2, H1, Hn. done.
  - lia.
Qed.

Lemma p6_bytes_ok_splice F R out : zlen out = 16 -> zlen F + zlen R <= 16 ->
  exists T, splice (splice out 0 F) (zlen F) R = F ++ R ++ T /\ zlen (splice (splice out 0 F) (zlen F) R) = 16.
Proof.
  intros Hz Hl. pose proof (zlen_nonneg F). pose proof (zlen_nonneg R). exists (drop (Z.to_nat (zlen F + zlen R)) out).
  replace (zlen F) with (0 + zlen F) at 1 3 by lia. rewrite splice_splice_next by lia. split; [|rewrite zlen_splice; rewrite ?zlen_app; lia].
  unfold splice. simpl. by rewrite zlen_app, Z.add_0_l, <- app_assoc.
Qed.

(** With the run of zeros from [s], [l] blocks, left out: [rear] blocks follow. *)
Lemma parse_short name pre addr s l out junk s0 : zlen addr = 16 -> bytes_ok addr -> zlen out = 16 -> bytes_ok out ->
  0 <= s -> 2 <= l -> s + l <= 8 -> (forall j, s <= j < s + l -> block_at addr j = 0) ->
  name = pre ++ joined (texts (blocks addr (s + l) (8 - (s + l)))) ->
  p6_runs name (P6 0 0 (-1) 0 true out) s0 ->
  s0 = P6 (zlen pre) s s 0 true (splice out 0 (concat (block_bytes <$> blocks addr 0 s))) ->
  ipaddr6_parse_ipv6_addr name out junk = Ok (Some addr).
Proof.
  intros Hz Hok Hoz Hook Hs Hl Hsl Hzero En Hr E0.
  set (F := concat (block_bytes <$> blocks addr 0 s)) in *. set (k := 8 - (s + l)) in *.
  pose proof (zlen_blocks_n addr 0 s ltac:(lia)) as HnF. pose proof (zlen_blocks_n addr (s + l) k ltac:(lia)) as HnR.
  assert (HzF : zlen F = 2 * s) by (unfold F; rewrite zlen_blocks; lia).
  assert (HF : F = slice addr 0 (2 * s)) by (apply blocks_bytes; done || lia).
  assert (HR : concat (block_bytes <$> blocks addr (s + l) k) = slice addr (2 * (s + l)) (2 * k)) by (apply blocks_bytes; done || lia).
  assert (HZ : replicate (Z.to_nat (2 * l)) 0 = slice addr (2 * s) (2 * l)).
  { assert (Hb : blocks addr s l = replicate (Z.to_nat l) 0).
    { apply list_eq_byte_at; [rewrite zlen_blocks_n, zlen_replicate by lia; lia|]. rewrite zlen_blocks_n by lia. intros i Hi. unfold byte_at, blocks.
      rewrite list_lookup_fmap, lookup_seqZ_lt by lia. cbn [fmap option_fmap option_map default].
      rewrite lookup_replicate_2 by lia. apply Hzero. lia. }
    rewrite <- blocks_bytes by (done || lia). rewrite Hb. replace (Z.to_nat (2 * l)) with (2 * Z.to_nat l)%nat by lia.
    clear. induction (Z.to_nat l) as [|n IH]; [done|]. replace (2 * S n)%nat with (S (S (2 * n))) by lia.
    change (0 :: 0 :: replicate (2 * n) 0 = [0; 0] ++ concat (block_bytes <$> replicate n 0)). by rewrite <- IH. }
  assert (HFok : bytes_ok F) by (rewrite HF; by apply bytes_ok_slice).
  destruct (read_tail name pre (blocks addr (s + l) k) s0) as (s1 & s2 & Hr1 & Hi & Hf & H1 & H2 & H3); subst s0;
    cbn [p6_i p6_num_blocks p6_bytes p6_compress_pos p6_block p6_empty] in *;
    [done|done|by apply blocks_ok|done|done|done|lia|rewrite zlen_splice; lia|by apply bytes_ok_splice|done|].
  rewrite (parse_finish _ _ _ _ (p6_runs_trans _ _ _ _ Hr Hr1) Hi), Hf.
  rewrite HR in H3. set (R := slice addr (2 * (s + l)) (2 * k)) in *.
  assert (HzR : zlen R = 2 * k) by (unfold R; apply zlen_slice; lia).
  replace (2 * s) with (zlen F) in H3 by lia. destruct (p6_bytes_ok_splice F R out Hoz ltac:(lia)) as (T & ET & EZ).
  rewrite (p6_done_ok s2 F R T s); [|by rewrite H3|by rewrite H3|done|lia|lia|by left|lia].
  do 2 f_equal. rewrite H1, HnR. replace (16 - 2 * (s + k)) with (2 * l) by lia. rewrite HZ, HF. unfold R.
  replace (2 * (s + l)) with (0 + 2 * s + 2 * l) by lia. rewrite app_assoc. replace (2 * s) with (0 + 2 * s) at 2 by lia.
  rewrite slice_app by lia. replace (0 + 2 * s + 2 * l) with (0 + (2 * s + 2 * l)) by lia. rewrite slice_app by lia.
  replace (2 * s + 2 * l + 2 * k) with (zlen addr) by lia. apply slice_whole.
Qed.

Lemma parse_print_ipv6 addr out junk : zlen addr = 16 -> bytes_ok addr -> zlen out = 16 -> bytes_ok out ->
  ipaddr6_parse_ipv6_addr (ipaddr6_print_addr addr) out junk = Ok (Some addr).
Proof.
  intros Hz Hok Hoz Hook. unfold ipaddr6_print_addr.
  pose proof (largest_run_ok addr 8 0 0 0 0 0 ltac:(lia) ltac:(lia) ltac:(lia) ltac:(lia) ltac:(lia) ltac:(lia) ltac:(lia) ltac:(lia)) as Hrun.
  destruct (largest_run 8 addr 0 0 0 0 0) as [s l]. destruct Hrun as (Hs & Hl & Hsl & Hzero). rewrite !blocks_texts.
  destruct (Z.ltb_spec 1 l) as [Hl2|Hl1]; [|by apply parse_full]. set (k := 8 - (s + l)).
  set (tail := concat ((fun t => 58 :: t) <$> texts (blocks addr (s + l) k)) ++ (if s + l =? 8 then [58] else [])).
  assert (Etail : tail = 58 :: joined (texts (blocks addr (s + l) k))).
  { unfold tail. destruct (Z.eqb_spec (s + l) 8) as [E8|].
    - replace k with 0 by lia. done.
    - rewrite (blocks_cons addr (s + l) k) by lia. cbn [fmap list_fmap concat joined]. by rewrite app_nil_r. }
  destruct (Z.eqb_spec s 0) as [->|Hs0].
  - change (texts (blocks addr 0 0)) with (@nil (list Z)). cbn [fmap list_fmap concat app]. rewrite Etail.
    change (58 :: 58 :: ?x) with ([58; 58] ++ x). eapply (parse_short _ [58; 58] addr 0 l); try done; try lia.
    { by apply runs_double_front with (rest := joined (texts (blocks addr (0 + l) k))). }
  - assert (Hs7 : s <= 6) by lia. pose proof (blocks_ok addr 0 s Hok) as Hbok. pose proof (zlen_blocks_n addr 0 s Hs) as Hn.
    destruct (blocks addr 0 s) as [|v vs] eqn:Eb; [change (zlen []) with 0 in Hn; lia|]. rewrite zlen_cons in Hn. pose proof (zlen_nonneg vs).
    change (texts (v :: vs)) with (print_num 16 v :: texts vs). rewrite joined_snoc. change (print_num 16 v :: texts vs) with (texts (v :: vs)).
    rewrite <- app_assoc. cbn [app]. rewrite app_nil_l || idtac. rewrite Etail.
    set (pre := joined (texts (v :: vs))). set (J := joined (texts (blocks addr (s + l) k))).
    pose proof (Forall_inv Hbok) as Hv. destruct (text_spec v Hv) as (Hne & _ & _).
    assert (Hpre : 0 < zlen pre).
    { unfold pre. cbn [fmap list_fmap joined]. rewrite zlen_app. destruct (print_num 16 v); [done|]. rewrite zlen_cons.
      match goal with |- 0 < zlen ?a + 1 + zlen ?b => pose proof (zlen_nonneg a); pose proof (zlen_nonneg b) end. lia. }
    pose proof (runs_blocks (pre ++ 58 :: 58 :: J) v vs [] (58 :: 58 :: J) (P6 0 0 (-1) 0 true out) eq_refl eq_refl Hbok eq_refl) as Hr.
    cbn [p6_i p6_num_blocks p6_bytes p6_compress_pos] in Hr. specialize (Hr ltac:(lia) ltac:(lia) Hoz Hook). fold pre in Hr.
    assert (Hlast : is_block (List.last vs v)).
    { assert (Hin : List.last vs v ∈ v :: vs) by (rewrite <- (removelast_last v vs); apply elem_of_app; right; by apply list_elem_of_singleton).
      by apply (proj1 (Forall_forall _ _) Hbok). }
    assert (Hbr : Forall (fun v => is_block v) (removelast (v :: vs))) by (rewrite <- (removelast_last v vs) in Hbok; by apply Forall_app in Hbok as [? _]).
    pose proof (removelast_last v vs) as Erl.
    assert (Hzr : zlen (concat (block_bytes <$> removelast (v :: vs))) = 2 * zlen vs) by (by rewrite zlen_blocks, zlen_removelast).
    apply (parse_short _ (pre ++ [58; 58]) addr s l out junk (P6 (zlen (pre ++ [58; 58])) s s 0 true (splice out 0 (concat (block_bytes <$> blocks addr 0 s)))));
      [done|done|done|done|done|lia|lia|done|by rewrite <- app_assoc| |done].
    eapply p6_runs_trans; [exact Hr|].
    pose proof (runs_double (pre ++ 58 :: 58 :: J) pre J (P6 (0 + zlen pre) (0 + zlen vs) (-1) (List.last vs v) false
      (splice out (2 * 0) (concat (block_bytes <$> removelast (v :: vs)))))) as Hd.
    cbn [p6_i p6_num_blocks p6_bytes p6_compress_pos p6_empty p6_block] in Hd.
    specialize (Hd eq_refl ltac:(lia) Hpre eq_refl ltac:(lia) Hlast ltac:(rewrite zlen_splice; lia) ltac:(by apply bytes_ok_splice, bytes_ok_blocks) eq_refl).
    eapply eq_ind; [exact Hd|]. rewrite Eb. f_equal; [rewrite zlen_app; done|lia|lia|].
    rewrite <- Erl. rewrite fmap_app, concat_app. cbn [fmap list_fmap concat]. rewrite app_nil_r.
    change (2 * 0) with 0. rewrite <- (splice_splice_next out 0) by (change (zlen (block_bytes (List.last vs v))) with 2; lia).
    f_equal; [by rewrite Erl|]. rewrite Hzr. lia.
Qed.

(** ** Numbers *)
Definition is_dig (c : Z) : Prop := 48 <= c <= 57.
#[global] Instance is_dig_dec c : Decision (is_dig c) := _.
Definition dec_value (n : Z) (ds : list Z) : Z := digits_value 10 (fun c => c - 48) n ds.
#[global] Arguments dec_value : simpl never.
Lemma dec_value_cons n c ds : dec_value n (c :: ds) = dec_value (10 * n + (c - 48)) ds.
Proof. done. Qed.
Lemma dec_value_split n ds : dec_value n ds = n * 10 ^ zlen ds + dec_value 0 ds.
Proof.
  revert n. induction ds as [|c ds IH]; intros n; [change (n = n * 1 + 0); lia|].
  rewrite !dec_value_cons, IH, (IH (10 * 0 + _)), zlen_cons. pose proof (zlen_nonneg ds). rewrite Z.pow_add_r by lia. nia.
Qed.
Lemma dec_value_range ds : Forall is_dig ds -> 0 <= dec_value 0 ds < 10 ^ zlen ds.
Proof.
  induction 1 as [|c ds Hc _ IH]; [change (0 <= 0 < 1); lia|]. rewrite dec_value_cons, (dec_value_split (10 * 0 + (c - 48))), zlen_cons.
  pose proof (zlen_nonneg ds). rewrite Z.pow_add_r, Z.pow_1_r by lia. unfold is_dig in Hc.
  set (P := 10 ^ zlen ds) in *. assert (0 <= (c - 48) * P <= 9 * P) by nia. nia.
Qed.
Lemma dec_value_mono n ds : Forall is_dig ds -> 0 <= n -> n <= dec_value n ds.
Proof.
  intros Hd Hn. rewrite dec_value_split. pose proof (dec_value_range ds Hd).
  assert (1 <= 10 ^ zlen ds) by (pose proof (Z.pow_pos_nonneg 10 (zlen ds) ltac:(lia) (zlen_nonneg ds)); lia). nia.
Qed.

Lemma no_overflow_ok str n : Forall is_dig str -> 0 <= n -> dec_value n str < 2 ^ 64 -> parse__no_overflow str n = Some (dec_value n str).
Proof.
  intros Hd. revert n. induction Hd as [|c str Hc Hd IH]; intros n Hn Hv; [done|]. rewrite dec_value_cons in *. unfold is_dig in Hc. simpl.
  pose proof (dec_value_mono (10 * n + (c - 48)) str Hd ltac:(lia)). destruct (Z.ltb_spec c 48); [lia|]. destruct (Z.ltb_spec 57 c); [lia|]. simpl.
  unfold u64. rewrite Z.mod_small by lia. apply IH; lia.
Qed.
Lemma no_overflow_digits str n m : parse__no_overflow str n = Some m -> Forall is_dig str.
Proof.
  revert n. induction str as [|c str IH]; intros n; simpl; [constructor|].
  destruct (Z.ltb_spec c 48); [done|]. destruct (Z.ltb_spec 57 c); [done|]. simpl. intros E. constructor; [unfold is_dig; lia|by eapply IH].
Qed.
Lemma skip_zeros_spec str : exists k, str = replicate k 48 ++ skip_zeros str /\ (forall c r, skip_zeros str = c :: r -> c <> 48).
Proof.
  induction str as [|c str (k & E & Hc)]; [by exists O|]. simpl. destruct (Z.eqb_spec c 48) as [->|].
  - exists (S k). split; [by rewrite E at 1|done].
  - exists O. split; [done|]. by intros c' r [= -> _].
Qed.
Lemma dec_value_zeros k ds : dec_value 0 (replicate k 48 ++ ds) = dec_value 0 ds.
Proof. induction k as [|k IH]; [done|]. cbn [replicate app]. by rewrite dec_value_cons. Qed.
(** Numbers of the same length compare as their texts. *)
Lemma list_cmp_value a b : zlen a = zlen b -> Forall is_dig a -> Forall is_dig b -> (0 < list_cmp a b <-> dec_value 0 b < dec_value 0 a).
Proof.
  intros Hl Ha. revert b Hl. induction Ha as [|x a Hx Ha IH]; intros [|y b] Hl Hb.
  - change (0 < 0 <-> 0 < 0). lia.
  - rewrite zlen_cons in Hl. pose proof (zlen_nonneg b). change (zlen []) with 0 in Hl. lia.
  - rewrite zlen_cons in Hl. pose proof (zlen_nonneg a). change (zlen []) with 0 in Hl. lia.
  - apply Forall_cons_1 in Hb as [Hy Hb]. rewrite !zlen_cons in Hl. assert (El : zlen a = zlen b) by lia. simpl. specialize (IH b El Hb).
    rewrite !dec_value_cons, (dec_value_split (10 * 0 + (x - 48))), (dec_value_split (10 * 0 + (y - 48))), El.
    pose proof (dec_value_range a Ha) as Ra. pose proof (dec_value_range b Hb) as Rb. rewrite El in Ra.
    destruct (Z.ltb_spec x y); [split; [lia|nia]|]. destruct (Z.ltb_spec y x); [split; [nia|lia]|].
    assert (x = y) as -> by lia. rewrite IH. lia.
Qed.

(** The reader of numbers, exactly: the decimal numbers that fit 64 bits. *)
Lemma parse_unsigned_spec str n :
  parse_unsigned_integer str = Some n <-> str <> [] /\ Forall is_dig str /\ n = dec_value 0 str /\ n < 2 ^ 64.
Proof.
  unfold parse_unsigned_integer. destruct (skip_zeros_spec str) as (k & E & Hnz). set (rest := skip_zeros str) in *.
  assert (Hmax : Forall is_dig parse_number__uintmax_max_str /\ dec_value 0 parse_number__uintmax_max_str = UINTMAX_MAX /\
    zlen parse_number__uintmax_max_str = 20).
  { split; [|by vm_compute]. repeat (apply Forall_cons_2; [unfold is_dig; lia|]). apply Forall_nil_2. }
  destruct Hmax as (Hmd & Hmv & Hml). rewrite Hml.
  assert (Hdig : Forall is_dig str <-> Forall is_dig rest).
  { rewrite E at 1. rewrite Forall_app. split; [by intros []|]. split; [|done]. apply Forall_replicate. unfold is_dig. lia. }
  assert (Hval : dec_value 0 str = dec_value 0 rest) by (rewrite E at 1; apply dec_value_zeros).
  destruct (Z.eqb_spec (zlen str) 0) as [Ez|Hne].
  { split; [done|]. intros (Hne & _). destruct Hne; exact (zlen_0_nil _ Ez). }
  assert (Hs : str <> []) by (intros Hs; apply Hne; rewrite Hs; reflexivity). rewrite Hdig, Hval. clearbody rest. clear E Hdig Hval.
  assert (Hbig : Forall is_dig rest -> 20 < zlen rest -> 2 ^ 64 <= dec_value 0 rest).
  { intros Hd Hl. destruct rest as [|c r]; [change (zlen []) with 0 in Hl; lia|]. apply Forall_cons_1 in Hd as [Hc Hd].
    specialize (Hnz c r eq_refl). rewrite zlen_cons in Hl. rewrite dec_value_cons, (dec_value_split (10 * 0 + (c - 48))). unfold is_dig in Hc.
    pose proof (dec_value_range r Hd). assert (10 ^ 20 <= 10 ^ zlen r) by (apply Z.pow_le_mono_r; lia).
    assert (2 ^ 64 <= 10 ^ 20) by (vm_compute; discriminate). nia. }
  destruct (Z.ltb_spec 20 (zlen rest)); cbn [orb].
  { split; [done|]. intros (_ & Hd & -> & Hlt). specialize (Hbig Hd ltac:(lia)). lia. }
  assert (Hfit : Forall is_dig rest -> ((zlen rest =? 20) && (0 <? list_cmp rest parse_number__uintmax_max_str) = false <-> dec_value 0 rest < 2 ^ 64)).
  { intros Hd. destruct (Z.eqb_spec (zlen rest) 20) as [E20|Hlt]; simpl.
    - pose proof (list_cmp_value rest _ ltac:(by rewrite E20, Hml) Hd Hmd) as Hc. rewrite Hmv in Hc. unfold UINTMAX_MAX in Hc.
      rewrite Z.ltb_ge. lia.
    - pose proof (dec_value_range rest Hd). assert (10 ^ zlen rest <= 10 ^ 19) by (apply Z.pow_le_mono_r; lia).
      assert (10 ^ 19 < 2 ^ 64) by (vm_compute; done). split; [lia|done]. }
  destruct ((zlen rest =? 20) && (0 <? list_cmp rest parse_number__uintmax_max_str)) eqn:Ec.
  - split; [done|]. intros (_ & Hd & -> & Hlt). apply (Hfit Hd) in Hlt. done.
  - split.
    + intros Hp. pose proof (no_overflow_digits _ _ _ Hp) as Hd. pose proof (proj1 (Hfit Hd) eq_refl) as Hlt.
      rewrite no_overflow_ok in Hp; [|exact Hd|lia|exact Hlt]. injection Hp as <-.
      split; [exact Hs|]. split; [exact Hd|]. split; [reflexivity|exact Hlt].
    + intros (_ & Hd & -> & Hlt). apply no_overflow_ok; [exact Hd|lia|exact Hlt].
Qed.

Lemma digit_in_dec ds : Forall (digit_in 10) ds -> Forall is_dig ds /\ digits_value 10 decode_hex_digit 0 ds = dec_value 0 ds.
Proof.
  intros Hd. assert (Hone : forall c, digit_in 10 c -> is_dig c /\ decode_hex_digit c = c - 48).
  { intros c (d & -> & Hr). rewrite decode_digit_char, digit_char_dec by lia. unfold is_dig. lia. }
  split; [by eapply Forall_impl; [exact Hd|]; intros c Hc; apply Hone|]. generalize 0. unfold dec_value.
  induction Hd as [|c ds Hc _ IH]; intros n; [done|]. simpl. destruct (Hone c Hc) as [_ ->]. apply IH.
Qed.
Lemma print_num_dec n : 0 <= n < 2 ^ 64 -> print_num 10 n <> [] /\ Forall is_dig (print_num 10 n) /\ dec_value 0 (print_num 10 n) = n.
Proof.
  intros Hn. assert (2 ^ 64 < 10 ^ 20) by (vm_compute; done).
  destruct (print_num_spec 10 n ltac:(lia) ltac:(lia)) as (H1 & H2 & _ & H3 & _).
  destruct (digit_in_dec _ H2) as [H4 H5]. split; [exact H1|]. split; [exact H4|]. by rewrite <- H5.
Qed.
Lemma parse_print_num n : 0 <= n < 2 ^ 64 -> parse_unsigned_integer (print_num 10 n) = Some n.
Proof.
  intros Hn. destruct (print_num_dec n Hn) as (H1 & H2 & H3). apply parse_unsigned_spec.
  split; [exact H1|]. split; [exact H2|]. split; [by rewrite H3|lia].
Qed.

(** ** misc/ipaddr.h *)
Lemma memchr_loop_app k a c b rest : c ∉ a -> (length a < k)%nat ->
  memchr_loop k (rest ++ a ++ c :: b) (zlen rest) c = Ok (Some (zlen rest + zlen a)).
Proof.
  revert rest k. induction a as [|x a IH]; intros rest k Hc Hk; (destruct k as [|k]; [simpl in Hk; lia|]); cbn [memchr_loop app].
  - pose proof (zlen_nonneg rest). pose proof (zlen_nonneg b). rewrite rd_ok by (rewrite zlen_app, zlen_cons; lia). cbn [mbind res_bind].
    rewrite byte_at_app_mid by done. rewrite Z.eqb_refl. do 2 f_equal. change (zlen (@nil Z)) with 0. lia.
  - pose proof (zlen_nonneg rest). pose proof (zlen_nonneg a). pose proof (zlen_nonneg b). apply not_elem_of_cons in Hc as [Hx Hc].
    rewrite rd_ok by (rewrite zlen_app, zlen_cons, zlen_app, zlen_cons; lia). cbn [mbind res_bind].
    rewrite byte_at_app_mid by done. destruct (Z.eqb_spec x c); [done|].
    replace (rest ++ x :: a ++ c :: b) with ((rest ++ [x]) ++ a ++ c :: b) by (by rewrite <- app_assoc).
    replace (zlen rest + 1) with (zlen (rest ++ [x])) by (by rewrite zlen_app). rewrite IH by (done || (simpl in Hk; lia)).
    do 2 f_equal. rewrite zlen_app, (zlen_cons x a). change (zlen [x]) with 1. lia.
Qed.
Lemma find_char_app a c b : c ∉ a -> MemRef_FindChar (a ++ c :: b) c = Ok (Some (zlen a)).
Proof.
  intros Hc. unfold MemRef_FindChar, memchr. pose proof (zlen_nonneg (a ++ c :: b)). destruct (Z.ltb_spec (zlen (a ++ c :: b)) 0); [lia|].
  pose proof (memchr_loop_app (Z.to_nat (zlen (a ++ c :: b))) a c b [] Hc) as E. apply E.
  unfold zlen. rewrite length_app. simpl. lia.
Qed.
Lemma find_char_none a c : c ∉ a -> MemRef_FindChar a c = Ok None.
Proof.
  intros Hc. unfold MemRef_FindChar. pose proof (wp_memchr a 0 c (zlen a)) as Hw.
  assert (Hloop : forall k rest a, c ∉ a -> (k <= length a)%nat -> memchr_loop k (rest ++ a) (zlen rest) c = Ok None).
  { clear. induction k as [|k IH]; intros rest a Hc Hk; [done|]. destruct a as [|x a]; [simpl in Hk; lia|]. cbn [memchr_loop].
    pose proof (zlen_nonneg rest). pose proof (zlen_nonneg a). apply not_elem_of_cons in Hc as [Hx Hc].
    rewrite rd_ok by (rewrite zlen_app, zlen_cons; lia). cbn [mbind res_bind]. rewrite byte_at_app_mid by done. destruct (Z.eqb_spec x c); [done|].
    replace (rest ++ x :: a) with ((rest ++ [x]) ++ a) by (by rewrite <- app_assoc).
    replace (zlen rest + 1) with (zlen (rest ++ [x])) by (by rewrite zlen_app). apply IH; [done|simpl in Hk; lia]. }
  unfold memchr. pose proof (zlen_nonneg a). destruct (Z.ltb_spec (zlen a) 0); [lia|].
  apply (Hloop (Z.to_nat (zlen a)) [] a Hc). unfold zlen. lia.
Qed.

Lemma print_byte b : is_byte b -> (46 ∉ print_num 10 b) /\ (47 ∉ print_num 10 b) /\ 1 <= zlen (print_num 10 b) <= 3.
Proof.
  intros Hb. unfold is_byte in Hb. destruct (print_num_dec b ltac:(lia)) as (Hne & Hd & _). split_and!.
  - intros Hin. apply (proj1 (Forall_forall _ _) Hd) in Hin. unfold is_dig in Hin. lia.
  - intros Hin. apply (proj1 (Forall_forall _ _) Hd) in Hin. unfold is_dig in Hin. lia.
  - destruct (print_num 10 b) as [|c l]; [done|]. rewrite zlen_cons. pose proof (zlen_nonneg l). lia.
  - destruct (print_num_spec 10 b ltac:(lia)) as (_ & _ & _ & _ & Hl); [assert (256 < 10 ^ 20) by (vm_compute; done); lia|].
    destruct (Z.le_gt_cases (zlen (print_num 10 b)) 3) as [|Hgt]; [done|].
    destruct (Hl (zlen (print_num 10 b) - 1) ltac:(lia)) as [->|Hp]; [done|].
    assert (10 ^ 3 <= 10 ^ (zlen (print_num 10 b) - 1)) by (apply Z.pow_le_mono_r; lia). change (10 ^ 3) with 1000 in *. lia.
Qed.

Lemma ipv4_step fuel b rest i out : is_byte b -> 0 <= i < 3 -> zlen out = 4 ->
  ipv4_loop (S fuel) (print_num 10 b ++ 46 :: rest) i out = ipv4_loop fuel rest (i + 1) (<[Z.to_nat i := b]> out).
Proof.
  intros Hb Hi Hz. destruct (print_byte b Hb) as (H46 & _ & Hl). pose proof (parse_print_num b ltac:(unfold is_byte in Hb; lia)) as Hp. cbn [ipv4_loop]. rewrite find_char_app by done. cbn [mbind res_bind].
  set (t := print_num 10 b) in *. pose proof (zlen_nonneg rest). rewrite zlen_app, zlen_cons.
  destruct (Z.eqb_spec (zlen t) (zlen t + (zlen rest + 1))); [lia|]. cbn [andb orb]. destruct (Z.ltb_spec (zlen t) (zlen t + (zlen rest + 1))); [|lia].
  destruct (Z.eqb_spec i 3); [lia|]. cbn [andb]. destruct (Z.ltb_spec (zlen t) 1); [lia|]. destruct (Z.ltb_spec 3 (zlen t)); [lia|]. cbn [orb].
  unfold MemRef_SubTo, assert_. rewrite zlen_app, zlen_cons. destruct (Z.leb_spec (zlen t) (zlen t + (zlen rest + 1))); [|lia]. cbn [mbind res_bind].
  replace (slice (t ++ 46 :: rest) 0 (zlen t)) with t by (symmetry; apply (slice_app_mid [] t); done).
  unfold is_byte in Hb. rewrite Hp. destruct (Z.ltb_spec 255 b); [lia|]. rewrite wr_ok by lia. cbn [mbind res_bind].
  f_equal. replace (zlen t + (zlen rest + 1) - (zlen t + 1)) with (zlen rest) by lia.
  replace (t ++ 46 :: rest) with ((t ++ [46]) ++ rest ++ []) by (by rewrite app_nil_r, <- app_assoc).
  apply slice_app_mid; [by rewrite zlen_app|done].
Qed.
Lemma ipv4_last fuel b out : is_byte b -> zlen out = 4 -> ipv4_loop (S fuel) (print_num 10 b) 3 out = Ok (Some (<[3%nat := b]> out)).
Proof.
  intros Hb Hz. destruct (print_byte b Hb) as (H46 & _ & Hl). pose proof (parse_print_num b ltac:(unfold is_byte in Hb; lia)) as Hp. cbn [ipv4_loop]. rewrite find_char_none by done. cbn [mbind res_bind].
  set (t := print_num 10 b) in *. rewrite Z.ltb_irrefl. cbn [andb orb]. rewrite Z.eqb_refl. cbn [andb orb].
  destruct (Z.ltb_spec (zlen t) 1); [lia|]. destruct (Z.ltb_spec 3 (zlen t)); [lia|]. cbn [orb].
  unfold MemRef_SubTo, assert_. rewrite Z.leb_refl. cbn [mbind res_bind]. rewrite slice_whole.
  unfold is_byte in Hb. change (3 <? 3) with false. cbn [orb].  rewrite Hp. destruct (Z.ltb_spec 255 b); [lia|]. rewrite wr_ok by lia. cbn [mbind res_bind]. by rewrite Z.ltb_irrefl.
Qed.
Lemma parse_print_ipv4 addr out : zlen addr = 4 -> bytes_ok addr -> zlen out = 4 ->
  ipaddr_parse_ipv4_addr (ipaddr_print_addr addr) out = Ok (Some addr).
Proof.
  intros Hz Hok Ho. destruct addr as [|a [|b [|c [|d [|? ?]]]]]; try (unfold zlen in Hz; simpl in Hz; lia).
  apply Forall_cons_1 in Hok as [Ha Hok]. apply Forall_cons_1 in Hok as [Hb Hok]. apply Forall_cons_1 in Hok as [Hc Hok]. apply Forall_cons_1 in Hok as [Hd _].
  destruct out as [|o1 [|o2 [|o3 [|o4 [|? ?]]]]]; try (unfold zlen in Ho; simpl in Ho; lia).
  unfold ipaddr_parse_ipv4_addr, ipaddr_print_addr. change (byte_at [a; b; c; d] 0) with a. change (byte_at [a; b; c; d] 1) with b.
  change (byte_at [a; b; c; d] 2) with c. change (byte_at [a; b; c; d] 3) with d.
  cbn [app]. rewrite (ipv4_step 3) by (done || lia). rewrite (ipv4_step 2) by (done || lia).
  rewrite (ipv4_step 1) by (done || lia). by rewrite (ipv4_last 0).
Qed.

(** ** Readers on any string *)
Lemma wp_find_char a c (Q : option Z -> Prop) : Q None -> (forall j, 0 <= j < zlen a -> Q (Some j)) -> wp (MemRef_FindChar a c) Q.
Proof. intros H1 H2. unfold MemRef_FindChar. pose proof (zlen_nonneg a). apply wp_memchr; [lia|lia|lia|done|]. intros j Hj _. apply H2. lia. Qed.
Lemma wp_ipv4_loop fuel name i out : 0 <= i <= 3 -> Z.of_nat fuel = 4 - i -> zlen out = 4 -> bytes_ok out ->
  wp (ipv4_loop fuel name i out) (fun o => match o with Some b => zlen b = 4 /\ bytes_ok b | None => True end).
Proof.
  revert name i out. induction fuel as [|fuel IH]; intros name i out Hi Hf Hz Hok; [lia|]. cbn [ipv4_loop]. wp_step.
  assert (Hgo : forall j, 0 <= j <= zlen name ->
    wp (if ((j =? zlen name) && (i <? 3)) || ((j <? zlen name) && (i =? 3)) then Ok None else if (j <? 1) || (3 <? j) then Ok None else
      part ← MemRef_SubTo name j;
      match parse_unsigned_integer part with
      | None => Ok None
      | Some d => if 255 <? d then Ok None else out ← wr out i d;
          if i =? 3 then Ok (Some out) else ipv4_loop fuel (slice name (j + 1) (zlen name - (j + 1))) (i + 1) out
      end) (fun o => match o with Some b => zlen b = 4 /\ bytes_ok b | None => True end)).
  { intros j Hj. destruct (((j =? zlen name) && (i <? 3)) || _); [by apply wp_ok|]. destruct (_ || _); [by apply wp_ok|]. wp_step.
    unfold MemRef_SubTo, assert_. destruct (Z.leb_spec j (zlen name)); [|lia]. wp_step. wp_step. wp_step.
    destruct (parse_unsigned_integer _) as [d|] eqn:Ep; [|by apply wp_ok].
    destruct (proj1 (parse_unsigned_spec _ _) Ep) as (_ & Hd & -> & _). pose proof (proj1 (dec_value_range _ Hd)) as Hd0.
    destruct (Z.ltb_spec 255 (dec_value 0 (slice name 0 j))) as [|Hd255]; [by apply wp_ok|]. wp_step. rewrite wr_ok by lia. wp_step.
    assert (Hok' : bytes_ok (<[Z.to_nat i := dec_value 0 (slice name 0 j)]> out)) by (apply bytes_ok_insert; [done|unfold is_byte; lia]).
    destruct (Z.eqb_spec i 3); [wp_step; by rewrite zlen_insert|]. apply IH; [lia|lia|by rewrite zlen_insert|done]. }
  pose proof (zlen_nonneg name). apply wp_find_char; [apply Hgo; lia|]. intros j Hj. apply Hgo. lia.
Qed.

Section strings.
Context (s : list Z).
Lemma rd_str i : 0 <= i <= zlen s -> rd (s ++ [0]) i = Ok (byte_at (s ++ [0]) i) /\ (i = zlen s -> byte_at (s ++ [0]) i = 0).
Proof.
  intros Hi. split; [apply rd_ok; rewrite zlen_app; change (zlen [0]) with 1; lia|]. intros ->. by apply byte_at_app_mid.
Qed.
Lemma wp_skip_while f k p : f 0 = false -> 0 <= p <= zlen s -> (Z.to_nat (zlen s - p) < k)%nat ->
  wp (skip_while f k (s ++ [0]) p) (fun q => p <= q <= zlen s).
Proof.
  revert p. induction k as [|k IH]; intros p Hf Hp Hk; [lia|]. simpl. wp_step. destruct (rd_str p Hp) as [-> E]. wp_step.
  destruct (f (byte_at (s ++ [0]) p)) eqn:Ef; [|wp_step; lia]. destruct (decide (p = zlen s)) as [Ep|]; [rewrite (E Ep) in Ef; congruence|].
  eapply wp_mono; [apply IH; [done|lia|lia]|]. intros q Hq. cbv beta in Hq. lia.
Qed.
Lemma wp_digits k p acc : 0 <= p <= zlen s -> (Z.to_nat (zlen s - p) < k)%nat ->
  wp (strtol_digits k (s ++ [0]) p acc) (fun r => p <= snd r <= zlen s).
Proof.
  revert p acc. induction k as [|k IH]; intros p acc Hp Hk; [lia|]. simpl. wp_step. destruct (rd_str p Hp) as [-> E]. wp_step.
  destruct (isdigit _) eqn:Ef; [|wp_step; simpl; lia]. destruct (decide (p = zlen s)) as [Ep|]; [by rewrite (E Ep) in Ef|].
  eapply wp_mono; [apply IH; lia|]. intros q Hq. cbv beta in Hq. lia.
Qed.
Lemma wp_strtol_str : wp (strtol (s ++ [0]) 0) (fun r => 0 <= snd r <= zlen s).
Proof.
  unfold strtol. assert (Hk : (Z.to_nat (zlen s) < S (length (s ++ [0%Z])))%nat) by (unfold zlen; rewrite length_app; simpl; lia).
  pose proof (zlen_nonneg s). wp_step. eapply wp_mono; [apply wp_skip_while; [done|lia|by rewrite Z.sub_0_r]|]. intros q Hq. cbv beta in Hq.
  wp_step. destruct (rd_str q ltac:(lia)) as [-> E]. wp_step. cbv zeta.
  set (c := byte_at (s ++ [0]) q) in *. wp_step.
  set (q' := if (c =? 43) || (c =? 45) then q + 1 else q).
  assert (Hq' : 0 <= q' <= zlen s).
  { unfold q'. destruct ((c =? 43) || (c =? 45)) eqn:Ec; [|lia]. destruct (decide (q = zlen s)) as [Eq|]; [specialize (E Eq); lia|lia]. }
  eapply wp_mono; [apply wp_digits; [done|lia]|]. intros [v e] He. cbv beta in He. simpl in He. wp_step. simpl. destruct (e =? q'); lia.
Qed.
End strings.

Lemma wp_parse_port s : wp (parse_port s) (fun o => match o with Some port => 0 <= port < 65536 | None => True end).
Proof.
  unfold parse_port. wp_step. eapply wp_mono; [apply wp_strtol_str|]. intros [v e] He. simpl in He. wp_step.
  destruct (rd_str s e He) as [-> _]. wp_step. destruct (_ || _); [by wp_step|]. destruct (_ || _) eqn:E; wp_step; [done|]. apply u16_range.
Qed.
Lemma wp_find_end fuel str i c : 0 <= i -> (Z.to_nat (zlen str - i) < fuel)%nat ->
  wp (find_end fuel str i c) (fun j => i <= j /\ (i <= zlen str -> j <= zlen str)).
Proof.
  revert i. induction fuel as [|fuel IH]; intros i Hi Hf; [lia|]. simpl. destruct (Z.ltb_spec i (zlen str)); [|wp_step; lia]. wp_step.
  apply wp_rd; [lia|]. destruct (_ =? c); [wp_step; lia|]. eapply wp_mono; [apply IH; lia|]. intros j Hj. cbv beta in Hj. lia.
Qed.
Lemma wp_split_addr str : 1 <= zlen str ->
  wp (split_addr str) (fun o => match o with Some (t, _, _) => t = BADDR_TYPE_IPV4 \/ t = BADDR_TYPE_IPV6 | None => True end).
Proof.
  intros Hl. unfold split_addr. wp_step. apply wp_rd; [lia|]. destruct (_ =? 91).
  - wp_step. eapply wp_mono; [apply wp_find_end; [lia|unfold zlen; lia]|]. intros i Hi. cbv beta in Hi.
    destruct (Z.leb_spec (zlen str) i); [by wp_step|]. wp_step.
    apply (wp_mono _ (fun _ => True)); [destruct (Z.leb_spec (zlen str) (i + 1)); [by wp_step|]; wp_step; apply wp_rd; [lia|]; by wp_step|].
    intros [] _; simpl; wp_step; auto.
  - wp_step. eapply wp_mono; [apply wp_find_end; [lia|unfold zlen; lia]|]. intros i Hi. destruct (Z.leb_spec (zlen str) i); wp_step; auto.
Qed.

(** ** Addresses with a prefix *)
Lemma concat_not_in (c : Z) (ls : list (list Z)) : Forall (fun l => c ∉ l) ls -> c ∉ concat ls.
Proof. induction 1 as [|l ls Hl _ IH]; [by apply not_elem_of_nil|]. cbn [concat]. by rewrite not_elem_of_app. Qed.
Lemma text_no_slash v : is_block v -> 47 ∉ print_num 16 v.
Proof.
  intros Hv Hin. destruct (text_spec v Hv) as (_ & Hd & _). apply (proj1 (Forall_forall _ _) Hd) in Hin.
  destruct Hin as (d & E & Hr). unfold digit_char in E. destruct (Z.ltb_spec d 10); lia.
Qed.
Lemma ipv6_no_slash addr : bytes_ok addr -> 47 ∉ ipaddr6_print_addr addr.
Proof.
  intros Hok. assert (H58 : 47 ∉ [58]) by (intros E; by apply list_elem_of_singleton in E).
  assert (Hts : forall i n, Forall (fun t => 47 ∉ t) (blocks_text addr i n)).
  { intros i n. rewrite blocks_texts. apply Forall_fmap. eapply Forall_impl; [by apply blocks_ok|]. intros v Hv. by apply text_no_slash. }
  assert (Hc1 : forall ts, Forall (fun t => 47 ∉ t) ts -> 47 ∉ concat ((fun t => 58 :: t) <$> ts)).
  { intros ts Ht. apply concat_not_in, Forall_fmap. eapply Forall_impl; [exact Ht|]. intros t Hn. cbn. apply not_elem_of_cons. by split. }
  unfold ipaddr6_print_addr. destruct (largest_run 8 addr 0 0 0 0 0) as [s l]. destruct (1 <? l).
  - rewrite !not_elem_of_app. split_and!.
    + apply concat_not_in, Forall_fmap. eapply Forall_impl; [by apply Hts|]. intros t Hn. cbn. by rewrite not_elem_of_app.
    + destruct (s =? 0); [done|by apply not_elem_of_nil].
    + by apply Hc1.
    + destruct (s + l =? 8); [done|by apply not_elem_of_nil].
  - pose proof (Hts 0 8) as Ht. destruct (blocks_text addr 0 8) as [|t ts]; [by apply not_elem_of_nil|].
    apply Forall_cons_1 in Ht as [Ht Htt]. rewrite not_elem_of_app. split; [done|by apply Hc1].
Qed.
Lemma ipv4_no_slash addr : zlen addr = 4 -> bytes_ok addr -> 47 ∉ ipaddr_print_addr addr.
Proof.
  intros Hz Hok. assert (H46 : 47 ∉ [46]) by (intros E; by apply list_elem_of_singleton in E).
  assert (Hb : forall i, 47 ∉ print_num 10 (byte_at addr i)) by (intros i; apply print_byte; by apply byte_at_range).
  unfold ipaddr_print_addr. rewrite !not_elem_of_app. by split_and!.
Qed.

(** C19: Addresses survive being printed and read back. For every IPv4 address (four
    bytes) and prefix length up to 32, and every IPv6 address (sixteen bytes) and prefix
    length up to 128, the reader takes the printed text and answers the same address and
    the same prefix, whatever its output held before: also when the text leaves out the
    longest run of zero blocks, at either end or in the middle. *)
Theorem addr_text_roundtrip addr prefix out junk : bytes_ok addr -> bytes_ok out -> 0 <= prefix ->
  (zlen addr = 4 -> zlen out = 4 -> prefix <= 32 ->
     exists text, ipaddr_print_ifaddr addr prefix = Ok text /\ ipaddr_parse_ipv4_ifaddr text out = Ok (Some (addr, prefix))) /\
  (zlen addr = 16 -> zlen out = 16 -> prefix <= 128 ->
     exists text, ipaddr6_print_ifaddr addr prefix = Ok text /\ ipaddr6_parse_ipv6_ifaddr text out junk = Ok (Some (addr, prefix))).
Proof.
  intros Hok Hook Hp.
  assert (Hsub : forall t u, MemRef_SubTo (t ++ 47 :: u) (zlen t) = Ok t /\ MemRef_SubFrom (t ++ 47 :: u) (zlen t + 1) = Ok u).
  { intros t u. pose proof (zlen_nonneg t). pose proof (zlen_nonneg u). unfold MemRef_SubTo, MemRef_SubFrom, assert_. rewrite zlen_app, zlen_cons.
    destruct (Z.leb_spec (zlen t) (zlen t + (zlen u + 1))); [|lia]. destruct (Z.leb_spec (zlen t + 1) (zlen t + (zlen u + 1))); [|lia].
    cbn [mbind res_bind]. split; f_equal; [by apply (slice_app_mid [] t)|].
    replace (t ++ 47 :: u) with ((t ++ [47]) ++ u ++ []) by (by rewrite app_nil_r, <- app_assoc). apply slice_app_mid; [by rewrite zlen_app|lia]. }
  split; intros Hz Hoz Hle.
  - unfold ipaddr_print_ifaddr, assert_. destruct (Z.leb_spec 0 prefix); [|lia]. destruct (Z.leb_spec prefix 32); [|lia].
    eexists. split; [reflexivity|]. unfold ipaddr_parse_ipv4_ifaddr. cbn [app]. rewrite find_char_app by (by apply ipv4_no_slash). cbn [mbind res_bind].
    destruct (Hsub (ipaddr_print_addr addr) (print_num 10 prefix)) as [-> ->]. cbn [mbind res_bind]. rewrite parse_print_ipv4 by done. cbn [mbind res_bind].
    unfold ipaddr_parse_ipv4_prefix. rewrite parse_print_num by lia. destruct (Z.ltb_spec 32 prefix); [lia|done].
  - unfold ipaddr6_print_ifaddr, assert_. destruct (Z.leb_spec 0 prefix); [|lia]. destruct (Z.leb_spec prefix 128); [|lia].
    eexists. split; [reflexivity|]. unfold ipaddr6_parse_ipv6_ifaddr. cbn [app]. rewrite find_char_app by (by apply ipv6_no_slash). cbn [mbind res_bind].
    destruct (Hsub (ipaddr6_print_addr addr) (print_num 10 prefix)) as [-> ->]. cbn [mbind res_bind]. rewrite parse_print_ipv6 by done. cbn [mbind res_bind].
    unfold ipaddr6_parse_ipv6_prefix. rewrite parse_print_num by lia. destruct (Z.ltb_spec 128 prefix); [lia|done].
Qed.

(** [getaddrinfo] stores a socket address of the family it was asked for. *)
Definition getaddrinfo_ok (OS : Os) : Prop := forall h host type family numeric,
  let r := os_reply h (CGetaddrinfo host type family numeric) in
  rv r = 0 -> bytes_ok (rdata r) /\ (if family =? AF_INET6 then 24 else 8) <= zlen (rdata r).

Definition is_addr (a : BAddr) : Prop :=
  ba_type a = BADDR_TYPE_IPV4 \/ ba_type a = BADDR_TYPE_IPV6.

Section resolving.
Context {OS : Os} {St : Type} (Hgai : getaddrinfo_ok OS).
Lemma wpp_getaddrinfo host type noresolve (s : St) h (Q : option (list Z) -> St -> hist -> Prop) :
  type = BADDR_TYPE_IPV4 \/ type = BADDR_TYPE_IPV6 ->
  (forall ip r, ip = None \/ (exists b, ip = Some b /\ bytes_ok b /\ zlen b = if type =? BADDR_TYPE_IPV6 then 16 else 4) ->
     Q ip s ((CGetaddrinfo host 0 (if type =? BADDR_TYPE_IPV6 then AF_INET6 else AF_INET) noresolve, r) :: h)) ->
  wpp (getaddrinfo host type noresolve) s h Q.
Proof.
  intros Ht HQ. unfold getaddrinfo. wpp_step. wpp_step.
  set (c := CGetaddrinfo _ _ _ _). destruct (Z.eqb_spec (rv (os_reply h c)) 0) as [E|]; cbn [negb]; [|wpp_step; apply HQ; by left].
  destruct (Hgai h _ _ _ _ E) as [Hok Hl]. fold c in Hok, Hl. wpp_step. wpp_step.
  destruct Ht as [->| ->]; cbn in Hl |- *; rewrite rd_list_ok by lia; apply wp_ok; cbv beta; apply HQ; right; eexists; (split; [done|]);
    (split; [by apply bytes_ok_slice|cbn; rewrite zlen_slice by lia; done]).
Qed.
Lemma wpp_parse2 str noresolve (s : St) h (Q : option BAddr -> St -> hist -> Prop) :
  (forall o h', (match o with Some a => is_addr a /\ zlen (ba_body a) = 24 /\ bytes_ok (ba_body a) | None => True end) -> Q o s h') ->
  wpp (BAddr_Parse2 str noresolve) s h Q.
Proof.
  intros HQ. unfold BAddr_Parse2. destruct (Z.ltb_spec (zlen str) 1); cbn [orb]; [wpp_step; by apply HQ|].
  destruct (1000 <? zlen str); [wpp_step; by apply HQ|]. wpp_step. wpp_step. eapply wp_mono; [by apply wp_split_addr|].
  intros [[[t a] p]|] Ht; [|wpp_step; by apply HQ]. destruct (128 <=? zlen a); [wpp_step; by apply HQ|].
  destruct (6 <=? zlen p); [wpp_step; by apply HQ|]. wpp_step. wpp_step. eapply wp_mono; [apply wp_parse_port|].
  intros [port|] Hport; [|wpp_step; by apply HQ]. wpp_step. apply wpp_getaddrinfo; [done|]. intros ip r Hip. wpp_step. apply HQ.
  destruct Hip as [->|(b & -> & Hb & Hz)]; [done|]. destruct (hton16_bytes port) as [Hpb Hpz].
  assert (Hrep : forall n, bytes_ok (replicate n 0)) by (intros; by apply Forall_replicate).
  destruct Ht as [->| ->]; cbn in Hz |- *.
  - split; [by left|]. split; [rewrite !zlen_app, Hpz, Hz; done|]. rewrite !bytes_ok_app. split_and!; [done|done|apply (Hrep 18%nat)].
  - split; [by right|]. split; [rewrite !zlen_app, Hpz, Hz; done|]. rewrite !bytes_ok_app. split_and!; [done|done|apply (Hrep 6%nat)].
Qed.
Lemma wpp_resolve_ip str noresolve (s : St) h (Q : option BIPAddr -> St -> hist -> Prop) :
  (forall o h', (match o with Some a => bytes_ok (bip_ip a) /\ (bip_type a = BADDR_TYPE_IPV4 /\ zlen (bip_ip a) = 4 \/
     bip_type a = BADDR_TYPE_IPV6 /\ zlen (bip_ip a) = 16) | None => True end) -> Q o s h') ->
  wpp (BIPAddr_Resolve str noresolve) s h Q.
Proof.
  intros HQ. unfold BIPAddr_Resolve. cbv zeta. pose proof (zlen_nonneg str).
  set (v6 := (1 <=? zlen str) && (byte_at str 0 =? 91) && (byte_at str (zlen str - 1) =? 93)).
  assert (Hv6 : v6 = true -> 2 <= zlen str).
  { unfold v6. intros E. destruct (decide (zlen str = 1)) as [E1|]; [|lia]. rewrite E1 in E. change (1 - 1) with 0 in E. lia. }
  destruct (BADDR_MAX_ADDR_LEN <? _); [wpp_step; by apply HQ|]. wpp_step. wpp_step.
  assert (E : rd_list str (if v6 then 1 else 0) (if v6 then zlen str - 2 else zlen str) = Ok (slice str (if v6 then 1 else 0) (if v6 then zlen str - 2 else zlen str))).
  { destruct v6; [specialize (Hv6 eq_refl)|]; apply rd_list_ok; lia. }
  rewrite E. apply wp_ok. wpp_step. apply wpp_getaddrinfo; [destruct v6; auto|]. intros ip r Hip. wpp_step. apply HQ.
  destruct Hip as [->|(b & -> & Hb & Hz)]; [done|]. simpl. split; [done|]. destruct v6; cbn in Hz; auto.
Qed.
End resolving.

(** C20: The readers of addresses answer on every string. Whatever the characters, they
    return within the string's length, read and write inside the string and the output
    array, and answer a whole address or a failure: the IPv4 and the IPv6 reader, and,
    when [getaddrinfo] keeps its contract, the readers of an address with a port and of
    an address or host name. *)
Theorem addr_readers_total {OS : Os} str out4 out6 junk noresolve h : getaddrinfo_ok OS ->
  zlen out4 = 4 -> bytes_ok out4 -> zlen out6 = 16 -> bytes_ok out6 -> zlen junk = 4 -> bytes_ok junk ->
  (exists o, ipaddr_parse_ipv4_addr str out4 = Ok o /\ forall b, o = Some b -> zlen b = 4 /\ bytes_ok b) /\
  (exists o, ipaddr6_parse_ipv6_addr str out6 junk = Ok o /\ forall b, o = Some b -> zlen b = 16 /\ bytes_ok b) /\
  (exists o h', BAddr_Parse2 str noresolve tt h = Ok (o, tt, h') /\ forall a, o = Some a -> is_addr a /\ zlen (ba_body a) = 24 /\ bytes_ok (ba_body a)) /\
  (exists o h', BIPAddr_Resolve str noresolve tt h = Ok (o, tt, h') /\
     forall a, o = Some a -> bytes_ok (bip_ip a) /\ zlen (bip_ip a) = if bip_type a =? BADDR_TYPE_IPV6 then 16 else 4).
Proof.
  intros Hgai H4 H4ok H6 H6ok Hj Hjok. split_and!.
  - destruct (wp_inv _ _ (wp_ipv4_loop 4 str 0 out4 ltac:(lia) ltac:(lia) H4 H4ok)) as (o & E & Ho). exists o. split; [done|]. by intros b ->.
  - destruct (wp_inv _ _ (wp_parse_ipv6 str out6 junk H6 H6ok Hj Hjok)) as (o & E & Ho). exists o. split; [done|]. by intros b ->.
  - destruct (wpp_inv (BAddr_Parse2 str noresolve) tt h (fun o _ _ => match o with Some a => is_addr a /\ zlen (ba_body a) = 24 /\ bytes_ok (ba_body a) | None => True end))
      as (o & [] & h' & E & Ho); [by apply wpp_parse2|]. exists o, h'. split; [done|]. by intros a ->.
  - destruct (wpp_inv (BIPAddr_Resolve str noresolve) tt h (fun o _ _ => match o with Some a => bytes_ok (bip_ip a) /\ (bip_type a = BADDR_TYPE_IPV4 /\ zlen (bip_ip a) = 4 \/
      bip_type a = BADDR_TYPE_IPV6 /\ zlen (bip_ip a) = 16) | None => True end)) as (o & [] & h' & E & Ho); [by apply wpp_resolve_ip|]. exists o, h'. split; [done|].
    intros a ->. destruct Ho as [Hb [[-> ->]|[-> ->]]]; done.
Qed.

(** ** At fe80::1:0:0:2, 10.0.0.2 and a resolver that answers 127.0.0.1 or ::1 *)
Definition demo_ip6 : list Z := [254; 128; 0; 0; 0; 0; 0; 0; 0; 1; 0; 0; 0; 0; 0; 2].
Definition demo_resolver : Os := fun _ c =>
  match c with
  | CGetaddrinfo _ _ family _ =>
      Ret 0 0 (if family =? AF_INET6 then replicate 23 0 ++ [1] else [2; 0; 0; 0; 127; 0; 0; 1])
  | _ => Ret (-1) 0 []
  end.
Lemma demo_resolver_ok : getaddrinfo_ok demo_resolver.
Proof. intros h host type family numeric. simpl. destruct (family =? AF_INET6); (split; [by repeat constructor|by vm_compute]). Qed.

Lemma addr_text_roundtrip_witness :
  (exists text, ipaddr_print_ifaddr [10; 0; 0; 2] 24 = Ok text /\ ipaddr_parse_ipv4_ifaddr text [1; 2; 3; 4] = Ok (Some ([10; 0; 0; 2], 24))) /\
  (exists text, ipaddr6_print_ifaddr demo_ip6 64 = Ok text /\ ipaddr6_parse_ipv6_ifaddr text (replicate 16 7) [1; 2; 3; 4] = Ok (Some (demo_ip6, 64))).
Proof.
  split.
  - destruct (addr_text_roundtrip [10; 0; 0; 2] 24 [1; 2; 3; 4] [1; 2; 3; 4]) as [H _]; [by repeat constructor..|lia|]. apply H; [reflexivity|reflexivity|lia].
  - destruct (addr_text_roundtrip demo_ip6 64 (replicate 16 7) [1; 2; 3; 4]) as [_ H]; [by repeat constructor..|lia|]. apply H; [reflexivity|reflexivity|lia].
Defined.

Lemma addr_readers_total_witness :
  exists a h', @BAddr_Parse2 demo_resolver unit [49; 58; 56; 48] false tt [] = Ok (Some a, tt, h') /\ ba_body a = [127; 0; 0; 1; 0; 80] ++ replicate 18 0.
Proof.
  destruct (@addr_readers_total demo_resolver [49; 58; 56; 48] (replicate 4 0) (replicate 16 0) (replicate 4 0) false []) as (_ & _ & (o & h' & E & _) & _);
    [apply demo_resolver_ok|reflexivity|by repeat constructor|reflexivity|by repeat constructor|reflexivity|by repeat constructor|].
  destruct o as [a|]; [|vm_compute in E; discriminate E]. exists a, h'. split; [exact E|]. vm_compute in E. injection E as <- _. reflexivity.
Defined.
