(* ===== verification/LwipFacts.v ===== *)
(** lwIP's listeners: how the control blocks that tun2socks creates, binds and listens on
    change the static variables, and which of them [tcp_input] finds. *)
From S2P Require Import Prelude CMem Sys Flow TcpClient Lwip.
From stdpp Require Import gmap.
#[local] Open Scope Z_scope.

(** ** Numbers of interfaces *)
(** With an empty list the number asked for is free. *)
Lemma assign_num_alone num : 0 <= num <= 254 -> assign_num NUM_TURNS [] num = Ok num.
Proof. intros Hn. unfold NUM_TURNS. cbn [assign_num num_taken mbind res_bind]. destruct (Z.eqb_spec num 255); [lia|done]. Qed.

(** ** The control blocks *)
Fixpoint assoc (a : Z) (ls : list (Z * lpcb)) : option lpcb :=
  match ls with [] => None | (b, p) :: ls => if a =? b then Some p else assoc a ls end.
Lemma assoc_notin a ls : a ∉ ls.*1 -> assoc a ls = None.
Proof.
  induction ls as [|[b p] ls IH]; [done|]. rewrite fmap_cons, not_elem_of_cons. intros [Hne Hl]. simpl in *.
  destruct (Z.eqb_spec a b); [congruence|auto].
Qed.
Lemma assoc_in a p ls : assoc a ls = Some p -> (a, p) ∈ ls.
Proof.
  induction ls as [|[b q] ls IH]; [done|]. simpl. destruct (Z.eqb_spec a b) as [->|]; [intros [= ->]; apply list_elem_of_here|].
  intros E. apply list_elem_of_further. auto.
Qed.
Lemma assoc_elem a p ls : NoDup ls.*1 -> (a, p) ∈ ls -> assoc a ls = Some p.
Proof.
  induction ls as [|[b q] ls IH]; [by intros _ ?%not_elem_of_nil|]. rewrite fmap_cons, NoDup_cons, elem_of_cons. simpl.
  intros [Hn Hd] [[= -> ->]|Hin]; [by rewrite Z.eqb_refl|]. destruct (Z.eqb_spec a b) as [->|]; [|auto].
  exfalso. apply Hn. apply list_elem_of_fmap. by exists (b, p).
Qed.

(** A block that listens for what comes in on the interface [ifname]. *)
Definition is_listener (ifname : list Z) (p : lpcb) : Prop :=
  q_listen p = true /\ q_bound p = true /\ q_netif p = ifname /\ q_netif_idx p = NETIF_NO_INDEX /\
  (q_type p = IPADDR_TYPE_V4 \/ q_type p = IPADDR_TYPE_V6).

(** The listeners are [ls]; [extra] is a closed block that the code is working on, which
    is in the list of bound blocks or in none. *)
Record blocks (ifname : list Z) (ls : list (Z * lpcb)) (extra : option (Z * lpcb)) (bound : list Z) (w : lwip) : Prop := Blocks {
  bk_bound : l_bound_pcbs w = bound;
  bk_listen : Permutation (l_listen_pcbs w) ls.*1;
  bk_pcbs : forall x, l_pcbs w !! x =
    match extra with Some (a, p) => if x =? a then Some p else assoc x ls | None => assoc x ls end;
  bk_nodup : NoDup ls.*1;
  bk_next : Forall (fun x => x < l_next w) (ls.*1);
  bk_extra : match extra with Some (a, p) => a ∉ ls.*1 /\ a < l_next w /\ q_listen p = false | None => True end;
  bk_are : Forall (is_listener ifname) ls.*2 }.

Definition same_netifs (w w' : lwip) : Prop :=
  l_netif_num w' = l_netif_num w /\ l_netif_list w' = l_netif_list w /\ l_netif_default w' = l_netif_default w.

Lemma wpp_pput {S} (s0 s : S) h (Q : unit -> S -> hist -> Prop) : Q tt s0 h -> wpp (pput s0) s h Q.
Proof. done. Qed.

Section blocks.
Context {OS : Os} (ifname : list Z).
Abbreviation blocks := (blocks ifname).

Lemma wpp_get_pcb a p w h (Q : lpcb -> lwip -> hist -> Prop) : l_pcbs w !! a = Some p -> Q p w h -> wpp (get_pcb a) w h Q.
Proof. intros E HQ. unfold get_pcb. wpp_step. wpp_step. by apply (wpp_deref _ p). Qed.
Lemma wpp_mpcb_at a p f w h (Q : unit -> lwip -> hist -> Prop) : l_pcbs w !! a = Some p ->
  Q tt (w <| l_pcbs := <[a := f p]> (l_pcbs w) |>) h -> wpp (mpcb_at a f) w h Q.
Proof. intros E HQ. unfold mpcb_at. wpp_step. eapply wpp_get_pcb; [done|]. by wpp_step. Qed.

Lemma blocks_extra ls a p bound w : blocks ls (Some (a, p)) bound w -> l_pcbs w !! a = Some p.
Proof. intros Hb. by rewrite (bk_pcbs _ _ _ _ _ Hb), Z.eqb_refl. Qed.
(** A change of the block that is being worked on. *)
Lemma blocks_change ls a p q bound w : blocks ls (Some (a, p)) bound w -> q_listen q = false ->
  blocks ls (Some (a, q)) bound (w <| l_pcbs := <[a := q]> (l_pcbs w) |>).
Proof.
  intros [Hb Hl Hp Hn Hx He Ha] Hq. destruct He as (He1 & He2 & He3). constructor; simpl; try done.
  intros x. destruct (Z.eqb_spec x a) as [->|]; [by rewrite lookup_insert_eq|]. rewrite lookup_insert_ne by congruence.
  rewrite Hp. by destruct (Z.eqb_spec x a).
Qed.

Lemma wpp_tcp_new type ls w h (Q : option Z -> lwip -> hist -> Prop) : blocks ls None [] w ->
  (forall r, Q None w ((CTun (TcpNew (type =? IPADDR_TYPE_V6)), r) :: h)) ->
  (forall r w' ip, blocks ls (Some (l_next w, Lpcb false type ip 0 false [0; 0; 0] NETIF_NO_INDEX false)) [] w' -> same_netifs w w' ->
     Q (Some (l_next w)) w' ((CTun (TcpNew (type =? IPADDR_TYPE_V6)), r) :: h)) ->
  wpp (tcp_new_ip_type type) w h Q.
Proof.
  intros [Hb Hl Hp Hn Hx He Ha] HN HS. unfold tcp_new_ip_type, alloc_pcb. wpp_step. wpp_step. destruct (_ =? 0); [by wpp_step|].
  repeat wpp_step. apply wpp_pput. wpp_step.
  assert (Hnew : l_next w ∉ ls.*1) by (intros Hin; apply (proj1 (Forall_forall _ _) Hx) in Hin; lia).
  eapply HS; [|done]. constructor; simpl; try done.
  - intros x. destruct (Z.eqb_spec x (l_next w)) as [->|]; [by rewrite lookup_insert_eq|]. rewrite lookup_insert_ne by congruence. apply Hp.
  - eapply Forall_impl; [exact Hx|]. simpl. intros; lia.
  - split_and!; [done|lia|done].
Qed.

Lemma blocks_assoc ls extra bound w a p : blocks ls extra bound w -> (a, p) ∈ ls -> l_pcbs w !! a = Some p.
Proof.
  intros Hb Hin. rewrite (bk_pcbs _ _ _ _ _ Hb). pose proof (assoc_elem a p ls (bk_nodup _ _ _ _ _ Hb) Hin) as E.
  pose proof (bk_extra _ _ _ _ _ Hb) as He. destruct extra as [[b q]|]; [|done]. destruct (Z.eqb_spec a b) as [->|]; [|done].
  destruct He as [He _]. exfalso. apply He. apply list_elem_of_fmap. by exists (b, p).
Qed.
(** No block has an address of the type: the interface is free for it. *)
Lemma wpp_in_use ls extra bound w h type l (Q : bool -> lwip -> hist -> Prop) : blocks ls extra bound w ->
  type <> IPADDR_TYPE_ANY -> Forall (fun e => q_type (snd e) <> type) ls -> l ⊆ ls.*1 ->
  Q false w h -> wpp (netif_in_use type ifname l) w h Q.
Proof.
  intros Hb Hany Ht Hl HQ. induction l as [|a l IH]; [done|]. cbn [netif_in_use]. wpp_step.
  assert (Hin : a ∈ ls.*1) by (apply Hl, list_elem_of_here). apply list_elem_of_fmap in Hin as ([a' p] & -> & Hin). simpl.
  eapply wpp_get_pcb; [by eapply blocks_assoc|].
  assert (is_listener ifname p) as (_ & _ & _ & _ & Hty).
  { apply (proj1 (Forall_forall _ _) (bk_are _ _ _ _ _ Hb)). apply list_elem_of_fmap. by exists (a', p). }
  pose proof (proj1 (Forall_forall _ _) Ht _ Hin) as Hne. simpl in Hne.
  replace ((type =? IPADDR_TYPE_ANY) || (q_type p =? IPADDR_TYPE_ANY) || (type =? q_type p)) with false.
  - rewrite andb_false_r. apply IH. intros x Hx. apply Hl. by apply list_elem_of_further.
  - symmetry. unfold IPADDR_TYPE_ANY, IPADDR_TYPE_V4, IPADDR_TYPE_V6 in *. lia.
Qed.

Lemma same_netifs_refl w : same_netifs w w.
Proof. done. Qed.
Lemma same_netifs_trans w1 w2 w3 : same_netifs w1 w2 -> same_netifs w2 w3 -> same_netifs w1 w3.
Proof. intros (?&?&?) (?&?&?). split_and!; congruence. Qed.

Lemma wpp_bind_to_netif a p ls w h (Q : Z -> lwip -> hist -> Prop) : blocks ls (Some (a, p)) [] w ->
  (q_type p = IPADDR_TYPE_V4 \/ q_type p = IPADDR_TYPE_V6) -> Forall (fun e => q_type (snd e) <> q_type p) ls ->
  (forall w' q, blocks ls (Some (a, q)) [a] w' -> q_type q = q_type p -> q_bound q = true -> q_netif q = ifname ->
     same_netifs w w' -> Q ERR_OK w' h) ->
  wpp (tcp_bind_to_netif a ifname) w h Q.
Proof.
  intros Hb Hty Hl HQ. unfold tcp_bind_to_netif. wpp_step. eapply wpp_get_pcb; [by eapply blocks_extra|].
  destruct (bk_extra _ _ _ _ _ Hb) as (_ & _ & ->). wpp_step. wpp_step. wpp_step. rewrite (bk_bound _ _ _ _ _ Hb), app_nil_r.
  assert (Hany : q_type p <> IPADDR_TYPE_ANY) by (unfold IPADDR_TYPE_ANY, IPADDR_TYPE_V4, IPADDR_TYPE_V6 in *; lia).
  eapply wpp_in_use; [done..| |]. { intros x. by rewrite (bk_listen _ _ _ _ _ Hb). }
  wpp_step. eapply wpp_mpcb_at; [by eapply blocks_extra|]. wpp_step.
  destruct (Z.eqb_spec (q_type p) IPADDR_TYPE_ANY); [done|]. cbn [negb].
  pose proof (blocks_change _ _ _ (p <| q_bound := true |>) _ _ Hb ltac:(simpl; by destruct (bk_extra _ _ _ _ _ Hb) as (_ & _ & ?))) as Hb1.
  eapply wpp_mpcb_at; [by eapply blocks_extra|]. pose proof (fun q => blocks_change _ _ _ q _ _ Hb1) as Hc. wpp_step.
  pose proof (Hc ((p <| q_bound := true |>) <| q_ip := ip_addr_set_any (q_type p) |>) ltac:(simpl; by destruct (bk_extra _ _ _ _ _ Hb) as (_ & _ & ?))) as Hb2.
  eapply wpp_mpcb_at; [by eapply blocks_extra|]. wpp_step.
  pose proof (blocks_change _ _ _ (((p <| q_bound := true |>) <| q_ip := ip_addr_set_any (q_type p) |>) <| q_port := 0 |>) _ _ Hb2
    ltac:(simpl; by destruct (bk_extra _ _ _ _ _ Hb) as (_ & _ & ?))) as Hb3.
  eapply wpp_mpcb_at; [by eapply blocks_extra|].
  pose proof (blocks_change _ _ _ ((((p <| q_bound := true |>) <| q_ip := ip_addr_set_any (q_type p) |>) <| q_port := 0 |>) <| q_netif := ifname |>) _ _ Hb3
    ltac:(simpl; by destruct (bk_extra _ _ _ _ _ Hb) as (_ & _ & ?))) as Hb4.
  wpp_step. wpp_step. wpp_step. destruct Hb4 as [B1 B2 B3 B4 B5 B6 B7].
  eapply HQ; [constructor; [|exact B2|exact B3|exact B4|exact B5|exact B6|exact B7]; simpl in *; by rewrite B1|done..].
Qed.

Lemma wpp_bind_netif a p n ls bound w h (Q : unit -> lwip -> hist -> Prop) : blocks ls (Some (a, p)) bound w ->
  (forall w' q, blocks ls (Some (a, q)) bound w' -> q_type q = q_type p -> q_bound q = q_bound p -> q_netif q = q_netif p ->
     same_netifs w w' -> Q tt w' h) ->
  wpp (tcp_bind_netif a n) w h Q.
Proof.
  intros Hb HQ. unfold tcp_bind_netif. eapply wpp_mpcb_at; [by eapply blocks_extra|].
  eapply HQ; [eapply blocks_change; [done|]; simpl; by destruct (bk_extra _ _ _ _ _ Hb) as (_ & _ & ?)|done..].
Qed.

Lemma remove_self a : TcpClient.remove Z.eqb a [a] = [].
Proof. unfold TcpClient.remove. simpl. by rewrite Z.eqb_refl. Qed.

Lemma wpp_listen a p ls w h (Q : option Z -> lwip -> hist -> Prop) : blocks ls (Some (a, p)) [a] w ->
  q_bound p = true -> q_netif p = ifname -> (q_type p = IPADDR_TYPE_V4 \/ q_type p = IPADDR_TYPE_V6) ->
  (forall r, Q None w ((CTun (TcpListen a), r) :: h)) ->
  (forall r w' b q, blocks ((b, q) :: ls) None [] w' -> q_type q = q_type p -> same_netifs w w' ->
     Q (Some b) w' ((CTun (TcpListen a), r) :: h)) ->
  wpp (tcp_listen a) w h Q.
Proof.
  intros Hb Hbd Hn Hty HN HS. unfold tcp_listen. wpp_step. eapply wpp_get_pcb; [by eapply blocks_extra|].
  pose proof Hb as [B1 B2 B3 B4 B5 (B6 & B7 & B8) B9]. rewrite B8. unfold alloc_pcb. wpp_step. wpp_step. wpp_step.
  destruct (_ =? 0); [repeat wpp_step; done|]. do 3 wpp_step. apply wpp_pput. wpp_step. wpp_step.
  rewrite Hbd, orb_true_r. unfold memp_free. repeat wpp_step.
  eapply (HS _ _ _ (Lpcb true (q_type p) (q_ip p) (q_port p) true (q_netif p) NETIF_NO_INDEX false)); [constructor; simpl|done..].
  - by rewrite B1, remove_self.
  - by rewrite B2.
  - intros x. destruct (Z.eqb_spec x (l_next w)) as [->|Hx].
    + rewrite lookup_delete_ne by lia. by rewrite lookup_insert_eq.
    + destruct (decide (x = a)) as [->|]; [rewrite lookup_delete_eq; by rewrite assoc_notin|].
      rewrite lookup_delete_ne, lookup_insert_ne by congruence. rewrite B3. by destruct (Z.eqb_spec x a).
  - apply NoDup_cons. split; [|done]. intros Hin. apply (proj1 (Forall_forall _ _) B5) in Hin. lia.
  - constructor; [simpl; lia|]. eapply Forall_impl; [exact B5|]. simpl. intros; lia.
  - done.
  - constructor; [|done]. by split_and!.
Qed.

(** Ending a closed block that is bound. *)
Lemma wpp_close_bound a p ls w h (Q : Z -> lwip -> hist -> Prop) : blocks ls (Some (a, p)) [a] w -> q_bound p = true ->
  (forall w', blocks ls None [] w' -> same_netifs w w' -> Q ERR_OK w' h) -> wpp (tcp_close_idle a) w h Q.
Proof.
  intros Hb Hbd HQ. unfold tcp_close_idle. wpp_step. eapply wpp_get_pcb; [by eapply blocks_extra|].
  pose proof Hb as [B1 B2 B3 B4 B5 (B6 & B7 & B8) B9]. rewrite B8, Hbd, orb_true_r. unfold memp_free. repeat wpp_step.
  eapply HQ; [|done]. constructor; simpl; try done; [by rewrite B1, remove_self|].
  intros x. destruct (decide (x = a)) as [->|]; [rewrite lookup_delete_eq; by rewrite assoc_notin|].
  rewrite lookup_delete_ne by congruence. rewrite B3. by destruct (Z.eqb_spec x a).
Qed.

(** The accept function of the newest listener. *)
Lemma wpp_accept_set a p ls w h (Q : unit -> lwip -> hist -> Prop) : blocks ((a, p) :: ls) None [] w ->
  (forall w', blocks ((a, p <| q_accept := true |>) :: ls) None [] w' -> same_netifs w w' -> Q tt w' h) ->
  wpp (tcp_accept a) w h Q.
Proof.
  intros Hb HQ. unfold tcp_accept. eapply wpp_mpcb_at; [eapply blocks_assoc; [exact Hb|apply list_elem_of_here]|].
  pose proof Hb as [B1 B2 B3 B4 B5 B6 B7]. apply HQ; [|done]. constructor; simpl; try done.
  - intros x. destruct (Z.eqb_spec x a) as [->|]; [by rewrite lookup_insert_eq|]. rewrite lookup_insert_ne by congruence.
    rewrite B3. simpl. by destruct (Z.eqb_spec x a).
  - apply Forall_cons_1 in B7 as [H1 H2]. by constructor.
Qed.

Lemma remove_perm (a : Z) (l l' : list Z) : NoDup l' -> Permutation l (a :: l') -> a ∉ l' -> Permutation (TcpClient.remove Z.eqb a l) l'.
Proof.
  intros Hd Hp Hn. assert (Hl : NoDup l) by (rewrite Hp; by constructor). apply NoDup_Permutation; [|done|].
  - unfold TcpClient.remove. apply NoDup_ListNoDup, List.NoDup_filter. by apply NoDup_ListNoDup.
  - intros x. destruct (decide (x = a)) as [->|Hx].
    + split; [|done]. unfold TcpClient.remove. rewrite list_elem_of_In, filter_In. intros [_ E]. by rewrite Z.eqb_refl in E.
    + assert (x ∈ TcpClient.remove Z.eqb a l <-> x ∈ l) as ->.
      { unfold TcpClient.remove. rewrite !list_elem_of_In, filter_In. split; [tauto|]. intros ?. split; [done|lia]. }
      rewrite Hp, elem_of_cons. tauto.
Qed.
(** Ending the newest listener. *)
Lemma wpp_close_listener a p ls w h (Q : Z -> lwip -> hist -> Prop) : blocks ((a, p) :: ls) None [] w ->
  (forall w', blocks ls None [] w' -> same_netifs w w' -> Q ERR_OK w' h) -> wpp (tcp_close_idle a) w h Q.
Proof.
  intros Hb HQ. unfold tcp_close_idle. wpp_step. eapply wpp_get_pcb; [eapply blocks_assoc; [exact Hb|apply list_elem_of_here]|].
  pose proof Hb as [B1 B2 B3 B4 B5 B6 B7]. apply Forall_cons_1 in B7 as [(E & _) B7]. simpl in E. rewrite E. unfold memp_free. repeat wpp_step.
  rewrite fmap_cons in B2, B4, B5. apply NoDup_cons in B4 as [B4 B4']. apply Forall_cons_1 in B5 as [_ B5]. simpl in *.
  apply HQ; [|done]. constructor; simpl; try done; [by apply remove_perm|].
  intros x. destruct (decide (x = a)) as [->|Hx]; [rewrite lookup_delete_eq; by rewrite assoc_notin|].
  rewrite lookup_delete_ne by congruence. rewrite B3. simpl. destruct (Z.eqb_spec x a); [congruence|done].
Qed.

(** The search: the last of the listeners of the address's version, if the interface has
    the name they listen on. *)
Lemma wpp_find_listener ls w h n dest port l np (Q : option Z -> lwip -> hist -> Prop) : blocks ls None [] w -> l ⊆ ls.*1 ->
  (forall o, (o = np \/ exists a p, o = Some a /\ (a, p) ∈ ls /\ version_match p dest = true /\ netif_is_named n ifname = true) ->
     (np = None -> netif_is_named n ifname = true ->
      Exists (fun a => exists p, (a, p) ∈ ls /\ version_match p dest = true) l -> is_Some o) ->
     (is_Some np -> is_Some o) -> Q o w h) ->
  wpp (find_listener n dest port np l) w h Q.
Proof.
  revert np. induction l as [|a l IH]; intros np Hb Hl HQ; [cbn [find_listener]; wpp_step; apply HQ; [by left|by intros _ _ ?%Exists_nil|done]|].
  cbn [find_listener]. wpp_step. assert (Hin : a ∈ ls.*1) by (apply Hl, list_elem_of_here).
  apply list_elem_of_fmap in Hin as ([a' p] & -> & Hin). simpl. eapply wpp_get_pcb; [by eapply blocks_assoc|].
  assert (is_listener ifname p) as (_ & Hbd & Hnm & Hix & _).
  { apply (proj1 (Forall_forall _ _) (bk_are _ _ _ _ _ Hb)). apply list_elem_of_fmap. by exists (a', p). }
  rewrite Hix, Hbd, Hnm, Z.eqb_refl. cbn [negb andb].
  assert (Hl' : l ⊆ ls.*1) by (intros x Hx; apply Hl; by apply list_elem_of_further).
  destruct (version_match p dest) eqn:Ev; [destruct (netif_is_named n ifname) eqn:En|]; cbn [andb]; apply IH; try done.
  - intros o Ho _ Hs. apply HQ; [|by intros; apply Hs|by intros; apply Hs].
    destruct Ho as [->|?]; [right; by exists a', p|by right].
  - intros o Ho Hx Hs. apply HQ; [done|by intros _ ?|done].
  - intros o Ho Hx Hs. apply HQ; [done| |done]. intros Hn Hnamed He. apply Exists_cons in He as [(p' & Hp' & Ev')|He]; [|by apply Hx].
    simpl in Hp'. assert (p' = p) as ->; [|congruence].
    pose proof (assoc_elem _ _ _ (bk_nodup _ _ _ _ _ Hb) Hp'). pose proof (assoc_elem _ _ _ (bk_nodup _ _ _ _ _ Hb) Hin). congruence.
Qed.

Lemma blocks_front a ls w : blocks ls None [] w -> a ∈ ls.*1 ->
  blocks ls None [] (w <| l_listen_pcbs := a :: TcpClient.remove Z.eqb a (l_listen_pcbs w) |>).
Proof.
  intros [B1 B2 B3 B4 B5 B6 B7] Ha. constructor; simpl; try done.
  apply elem_of_Permutation in Ha as [l' Hl']. rewrite Hl' in B2, B4 |- *. apply NoDup_cons in B4 as [Hn Hd].
  apply Permutation_skip. by apply remove_perm.
Qed.

Lemma wpp_input_listener ls w h n dest port (Q : option Z -> lwip -> hist -> Prop) : blocks ls None [] w ->
  (forall w', blocks ls None [] w' -> same_netifs w w' ->
     (netif_is_named n ifname = true -> Exists (fun e => version_match (snd e) dest = true) ls -> False) \/ netif_is_named n ifname = false ->
     Q None w' h) ->
  (forall w' a p, blocks ls None [] w' -> same_netifs w w' -> (a, p) ∈ ls -> version_match p dest = true ->
     netif_is_named n ifname = true -> Q (Some a) w' h) ->
  wpp (tcp_input_listener n dest port) w h Q.
Proof.
  intros Hb HN HS. unfold tcp_input_listener. wpp_step. wpp_step. wpp_step.
  eapply wpp_find_listener; [exact Hb|intros x; by rewrite (bk_listen _ _ _ _ _ Hb)|].
  intros o Ho Hx _. destruct o as [a|].
  - destruct Ho as [?|(a' & p & [= <-] & Hin & Hv & Hn)]; [done|]. wpp_step. wpp_step. wpp_step.
    eapply HS; [|done..]. apply blocks_front; [done|]. apply list_elem_of_fmap. by exists (a, p).
  - wpp_step. apply HN; [done|done|]. destruct (netif_is_named n ifname) eqn:En; [left|by right]. intros _ He.
    destruct (Hx eq_refl eq_refl) as [? ?]; [|done]. apply Exists_exists in He as ([a p] & Hin & Hv).
    apply Exists_exists. exists a. split; [|by exists p]. rewrite (bk_listen _ _ _ _ _ Hb). apply list_elem_of_fmap. by exists (a, p).
Qed.
End blocks.
