(* ===== verification/Bridge.v ===== *)
(** The program around the parts of tun2socks: [tun2socks_bridge_run] and
    [tun2socks_bridge_stop] of tun2socks/tun2socks.c, with [process_arguments], the job
    that initializes lwIP, the TCP timer, the listener's callback and the loop in which
    the device and the TCP clients run. *)
From S2P Require Import Prelude CMem Sys Flow SocksClient SocksClientFacts TcpClient TcpClientFacts TcpClientProps.
From S2P Require Import Packet PacketFacts Device DeviceFacts DeviceProps DevicePump Addr Lwip.
From stdpp Require Import gmap.
#[local] Open Scope Z_scope.

(** ** A part in its surroundings

    A part runs with a history of its own, in which only its own calls are. The replies
    are those of the real history [H]: what the part has added to [h0] in front of it. *)
Definition splice (h0 h1 H : hist) : hist := take (length h1 - length h0) h1 ++ H.
Definition os_from {OS : Os} (h0 H : hist) : Os := fun h c => os_reply (splice h0 h H) c.
Definition run_part {OS : Os} {S A : Type} (p : Os -> Prog S A) (s : S) (h0 H : hist) : res (A * S * hist * hist) :=
  match p (os_from h0 H) s h0 with
  | Ok (a, s, h1) => Ok (a, s, h1, splice h0 h1 H)
  | Ub => Ub
  | Fuel => Fuel
  end.

#[global] Instance dev_enabled_dec d ev : Decision (dev_enabled d ev).
Proof. unfold dev_enabled. destruct ev; unfold addr_ok, bytes_ok, is_byte; apply _. Defined.

(** ** Data *)

(** [struct tun2socks_bridge_config]; strings without their NUL *)
Record bridge_config : Type := BridgeConfig {
  c_tun_fd : Z; c_mtu : Z; c_netif_ipaddr : option (list Z); c_netif_netmask : option (list Z);
  c_netif_ip6addr : option (list Z); c_socks_server_addr : option (list Z) }.

(** the [options] that the library build reads *)
Record options : Type := Options {
  op_netif_ipaddr : list Z; op_netif_netmask : list Z; op_netif_ip6addr : option (list Z);
  op_socks_server_addr : list Z; op_username : option (list Z); op_password : option (list Z);
  op_password_file : option (list Z); op_udpgw : option (list Z) }.

(** The globals of tun2socks.c; those of the device are in [br_dev]. [br_init_job] and
    [br_timer] say that the job and the timer are set. [br_clients] are the allocated
    [struct tcp_client]s with their connections, by address. *)
Record bridge : Type := Bridge {
  br_stop_pipe : Z * Z; br_options : options; br_netif_ipaddr : BIPAddr; br_netif_netmask : BIPAddr;
  br_netif_ip6addr : list Z; br_socks_server_addr : BAddr; br_password_file_contents : option (list Z);
  br_auth_info : list auth_info; br_udpgw_addr : BAddr;
  br_dev : dev; br_dev_h : hist; br_init_job : bool; br_timer : bool; br_tcp_timer_mod4 : Z;
  br_have_netif : bool; br_lwip : lwip; br_listener : option Z; br_listener_ip6 : option Z;
  br_clients : gmap Z tcp_link; br_tcp_clients : list Z; br_num_clients : Z }.
#[global] Instance eta_bridge : Eta bridge := fun r => Bridge
  (br_stop_pipe r) (br_options r) (br_netif_ipaddr r) (br_netif_netmask r)
  (br_netif_ip6addr r) (br_socks_server_addr r) (br_password_file_contents r)
  (br_auth_info r) (br_udpgw_addr r)
  (br_dev r) (br_dev_h r) (br_init_job r) (br_timer r) (br_tcp_timer_mod4 r)
  (br_have_netif r) (br_lwip r) (br_listener r) (br_listener_ip6 r)
  (br_clients r) (br_tcp_clients r) (br_num_clients r).

(** What the loop runs: the stop pipe's descriptor is readable; the TCP timer expires;
    the device; lwIP has a new connection; a client. *)
Inductive bridge_event : Type :=
  | BStop
  | BTimer
  | BDev (ev : dev_event)
  | BAccept (newpcb : pcb) (local_ip remote_ip : ip_addr) (local_port remote_port : Z) (mem : tcp_client) (js : list job)
  | BClient (a : Z) (ev : tcp_event).

(** What the program holds of the system; the reactor counts its descriptors. *)
Inductive resource : Type := RFd (fd : Z) | RWatch | RReactor | RUdp.
#[global] Instance resource_eq : EqDecision resource.
Proof. solve_decision. Defined.
Definition one (r r' : resource) : Z := if decide (r = r') then 1 else 0.
Definition delta (r : resource) (c : call) (rep : ret) : Z :=
  match c with
  | CPipe => if rv rep <? 0 then 0 else one r (RFd (byte_at (rdata rep) 0)) + one r (RFd (byte_at (rdata rep) 1))
  | CClose fd => - one r (RFd fd)
  | CTun (Dup _) => if rv rep <? 0 then 0 else one r (RFd (rv rep))
  | CTun (AddFd _) => if rv rep =? 0 then 0 else one r RWatch
  | CTun (RemoveFd _) => - one r RWatch
  | CTun ReactorInit => if rv rep =? 0 then 0 else one r RReactor
  | CTun ReactorFree => - one r RReactor
  | CTun (UdpClientInit _) => one r RUdp
  | CTun UdpClientFree => - one r RUdp
  | _ => 0
  end.
Fixpoint held (r : resource) (h : hist) : Z :=
  match h with [] => 0 | (c, rep) :: h => delta r c rep + held r h end.

Section bridge.
Context {OS : Os} (sizeof_tcp_client : Z) (junk : list Z).
Abbreviation B A := (Prog bridge A).

Definition tun_call_ (c : tun_call) : B ret := syscall (CTun c).
Definition on_dev {A} (p : Os -> Prog dev A) : B A := fun b h =>
  match run_part p (br_dev b) (br_dev_h b) h with
  | Ok (a, d, hd, h) => Ok (a, b <| br_dev := d |> <| br_dev_h := hd |>, h)
  | Ub => Ub
  | Fuel => Fuel
  end.
Definition on_lwip {A} (p : Prog lwip A) : B A := fun b h =>
  match p (br_lwip b) h with
  | Ok (a, w, h) => Ok (a, b <| br_lwip := w |>, h)
  | Ub => Ub
  | Fuel => Fuel
  end.

(** ** The clients *)
Definition with_globals (b : bridge) (l : tcp_link) : tcp_link :=
  TcpLink ((t_w l) <| cw_num_clients := br_num_clients b |> <| cw_tcp_clients := br_tcp_clients b |>) (t_h l) (t_acked l).
Definition put_client (l : tcp_link) (b : bridge) : bridge :=
  b <| br_num_clients := cw_num_clients (t_w l) |> <| br_tcp_clients := cw_tcp_clients (t_w l) |>
    <| br_clients := match cw_client (t_w l) with
                     | Some _ => <[cw_self (t_w l) := l]> (br_clients b)
                     | None => delete (cw_self (t_w l)) (br_clients b)
                     end |>.
Definition on_link {A} (l : tcp_link) (p : Os -> res (tcp_link * A)) : B A := fun b h =>
  match p (os_from (t_h l) h) with
  | Ok (l', a) => Ok (a, put_client l' b, splice (t_h l) (t_h l') h)
  | Ub => Ub
  | Fuel => Fuel
  end.
Definition on_client (a : Z) (ev : tcp_event) : B Z :=
  b ← pget; l ← deref (br_clients b !! a);
  let l := with_globals b l in on_link l (fun _ => tcp_run l ev).

(** ** Stopping *)

(** [while (read(bridge_stop_pipe[0], &b, 1) > 0) {}]: a pipe holds at most 65536 bytes. *)
Definition PIPE_TURNS : nat := Z.to_nat 65537.
Fixpoint drain (fuel : nat) (fd : Z) : B unit :=
  match fuel with
  | O => pfuel
  | S fuel => r ← tun_call_ (Read fd 1); if 0 <? rv r then drain fuel fd else mret tt
  end.
Definition bridge_stop_pipe_handler : B unit :=
  b ← pget; drain PIPE_TURNS (fst (br_stop_pipe b));; on_dev (fun _ => terminate).
Definition tun2socks_bridge_stop : B unit :=
  b ← pget;
  if snd (br_stop_pipe b) <? 0 then mret tt else _ ← tun_call_ (Write (snd (br_stop_pipe b)) [1]); mret tt.

(** ** Arguments *)
Definition process_auth : B bool :=
  b ← pget;
  match op_username (br_options b) with
  | None => mret true
  | Some username =>
      password ← (match op_password (br_options b) with
        | Some password => mret (Some password)
        | None =>
            r ← tun_call_ (ReadFile (default [] (op_password_file (br_options b))));
            if rv r =? 0 then mret None
            else pmod (fun b => b <| br_password_file_contents := Some (rdata r) |>);; mret (Some (rdata r))
        end);
      match password with
      | None => mret false
      | Some password =>
          pmod (fun b => b <| br_auth_info := br_auth_info b ++
            [BSocksClient_auth_password username (zlen username) password (zlen password)] |>);;
          mret true
      end
  end.
(** the end of [process_arguments]: the server, how to authenticate, the UDP gateway *)
Definition server_and_auth : B bool :=
  b ← pget;
  server ← BAddr_Parse2 (op_socks_server_addr (br_options b)) false;
  match server with
  | None => mret false
  | Some server =>
  pmod (fun b => b <| br_socks_server_addr := server |>);;
  pmod (fun b => b <| br_auth_info := [BSocksClient_auth_none] |>);;
  auth ← process_auth;
  if negb auth then mret false else
  match op_udpgw (br_options b) with
  | None => mret true
  | Some s =>
      udpgw ← BAddr_Parse2 s false;
      match udpgw with
      | None => mret false
      | Some a => pmod (fun b => b <| br_udpgw_addr := a |>);; mret true
      end
  end end.
Definition process_arguments : B bool :=
  b ← pget; passert (bool_decide (br_password_file_contents b = None));;
  ip ← BIPAddr_Resolve (op_netif_ipaddr (br_options b)) false;
  match ip with
  | None => mret false
  | Some ip =>
  pmod (fun b => b <| br_netif_ipaddr := ip |>);;
  if negb (bip_type ip =? BADDR_TYPE_IPV4) then mret false else
  mask ← BIPAddr_Resolve (op_netif_netmask (br_options b)) false;
  match mask with
  | None => mret false
  | Some mask =>
  pmod (fun b => b <| br_netif_netmask := mask |>);;
  if negb (bip_type mask =? BADDR_TYPE_IPV4) then mret false else
  ip6 ← (match op_netif_ip6addr (br_options b) with
    | None => mret true
    | Some s =>
        a ← lift (ipaddr6_parse_ipv6_addr s (br_netif_ip6addr b) junk);
        match a with None => mret false | Some a => pmod (fun b => b <| br_netif_ip6addr := a |>);; mret true end
    end);
  if negb ip6 then mret false else
  server_and_auth
  end end.

(** ** lwIP *)
(** the address of [struct netif the_netif] *)
Definition the_netif : Z := 0.
Definition netif_init_func (n : netif) : netif * Z := (n <| n_name := [104; 111] |>, ERR_OK).
Definition find_netif (w : lwip) : option netif := head (filter (fun n => n_addr n = the_netif) (l_netif_list w)).
(** "ho0" *)
Definition LISTEN_NETIF : list Z := [104; 111; 48].

(** From [tcp_new_ip_type] to [tcp_listen]; [None]: one of them failed. *)
Definition make_listener (type : Z) : B (option Z) :=
  l ← on_lwip (tcp_new_ip_type type);
  match l with
  | None => mret None
  | Some l =>
      err ← on_lwip (tcp_bind_to_netif l LISTEN_NETIF);
      if negb (err =? ERR_OK) then _ ← on_lwip (tcp_close_idle l); mret None else
      b ← pget; on_lwip (tcp_bind_netif l (find_netif (br_lwip b)));;
      listener ← on_lwip (tcp_listen l);
      match listener with
      | None => _ ← on_lwip (tcp_close_idle l); mret None
      | Some a => mret (Some a)
      end
  end.
(** [fail] *)
Definition lwip_init_failed : B unit :=
  b ← pget; if negb (d_quitting (br_dev b)) then on_dev (fun _ => terminate) else mret tt.
Definition set_netif : B unit :=
  b ← pget;
  on_lwip (netif_set_up the_netif);;
  on_lwip (netif_set_link_up the_netif);;
  on_lwip (netif_set_pretend_tcp the_netif 1);;
  on_lwip (netif_set_default (Some the_netif));;
  if bool_decide (is_Some (op_netif_ip6addr (br_options b))) then
    on_lwip (netif_ip6_addr_set the_netif (br_netif_ip6addr b));;
    on_lwip (netif_ip6_addr_set_state the_netif IP6_ADDR_VALID)
  else mret tt.

Definition lwip_init_job_hadler : B unit :=
  b ← pget;
  passert (negb (d_quitting (br_dev b)));;
  passert (bip_type (br_netif_ipaddr b) =? BADDR_TYPE_IPV4);;
  passert (bip_type (br_netif_netmask b) =? BADDR_TYPE_IPV4);;
  passert (negb (br_have_netif b));;
  passert (bool_decide (br_listener b = None));;
  passert (bool_decide (br_listener_ip6 b = None));;
  _ ← tun_call_ LwipInit;
  added ← on_lwip (netif_add the_netif (bip_ip (br_netif_ipaddr b)) (bip_ip (br_netif_netmask b)) [0; 0; 0; 0] netif_init_func);
  if negb added then lwip_init_failed else
  pmod (fun b => b <| br_have_netif := true |>);;
  set_netif;;
  l ← make_listener IPADDR_TYPE_V4;
  match l with
  | None => lwip_init_failed
  | Some l =>
      pmod (fun b => b <| br_listener := Some l |>);;
      on_lwip (tcp_accept l);;
      if bool_decide (is_Some (op_netif_ip6addr (br_options b))) then
        l6 ← make_listener IPADDR_TYPE_V6;
        match l6 with
        | None => lwip_init_failed
        | Some l6 =>
            pmod (fun b => b <| br_listener_ip6 := Some l6 |>);;
            on_lwip (tcp_accept l6)
        end
      else mret tt
  end.

Definition tcp_timer_handler : B unit :=
  b ← pget; passert (negb (d_quitting (br_dev b)));;
  pmod (fun b => b <| br_timer := true |>);;
  _ ← tun_call_ TcpTmr;
  pmod (fun b => b <| br_tcp_timer_mod4 := Z.rem (br_tcp_timer_mod4 b + 1) 4 |>);;
  b ← pget;
  if br_tcp_timer_mod4 b =? 0 then
    _ ← tun_call_ IpReassTmr; _ ← tun_call_ Nd6Tmr; _ ← tun_call_ Ip6ReassTmr; mret tt
  else mret tt.

(** ** The loop *)

(** A connection to [local_ip] is complete: the listener that [tcp_input] finds is told. *)
Definition accept_connection (newpcb : pcb) (local_ip remote_ip : ip_addr) (local_port remote_port : Z)
    (mem : tcp_client) (js : list job) : B unit :=
  b ← pget;
  match find_netif (br_lwip b) with
  | None => mret tt
  | Some n =>
      l ← on_lwip (tcp_input_listener n local_ip local_port);
      match l with
      | None => mret tt
      | Some l =>
          p ← on_lwip (get_pcb l);
          if negb (q_accept p) then mret tt else
          b ← pget;
          let link := TcpLink (Cworld 0 None newpcb None (br_num_clients b) (br_tcp_clients b)) [] 0 in
          _ ← on_link link (fun _ => tcp_do link 0
                (listener_accept_func sizeof_tcp_client newpcb local_ip remote_ip local_port remote_port
                   (br_socks_server_addr b) (br_auth_info b) mem js));
          mret tt
      end
  end.

(** Can the event happen? [malloc] gives a block that is not in use. *)
Definition bridge_ready (ev : bridge_event) (b : bridge) (h : hist) : bool :=
  match ev with
  | BStop => true
  | BTimer => br_timer b
  | BDev ev => bool_decide (dev_enabled (br_dev b) ev)
  | BAccept p _ _ _ _ mem _ =>
      p_open p && negb (p_sent p)
      && (zlen (tc_buf mem) =? TCP_WND) && (zlen (tc_recv_buf mem) =? CLIENT_SOCKS_RECV_BUF_SIZE)
      && negb (bool_decide (rv (os_reply h (CMalloc sizeof_tcp_client)) ∈ br_tcp_clients b))
  | BClient a ev =>
      match br_clients b !! a with
      | Some l => tcp_enabledb l ev && match ev with TMurder => false | _ => true end
      | None => false
      end
  end.
Definition run_bridge_event (ev : bridge_event) : B unit :=
  match ev with
  | BStop => bridge_stop_pipe_handler
  | BTimer => pmod (fun b => b <| br_timer := false |>);; tcp_timer_handler
  | BDev ev => on_dev (fun _ => dev_run ev)
  | BAccept p lip rip lport rport mem js => accept_connection p lip rip lport rport mem js
  | BClient a ev => _ ← on_client a ev; mret tt
  end.
(** Until [BReactor_Quit]: in any order, what can happen. *)
Fixpoint exec_events (evs : list bridge_event) : B unit :=
  b ← pget;
  if d_quitting (br_dev b) then mret tt else
  match evs with
  | [] => pfuel
  | ev :: evs =>
      (fun b h => if bridge_ready ev b h then run_bridge_event ev b h else Ok (tt, b, h));;
      exec_events evs
  end.
(** The job that was set last runs first. *)
Definition BReactor_Exec (evs : list bridge_event) : B unit :=
  pmod (fun b => b <| br_init_job := false |>);; lwip_init_job_hadler;; exec_events evs.

(** [BReactor_Free] *)
Definition reactor_idle (b : bridge) (h : hist) : bool :=
  let out := t_output (d_tap (br_dev b)) in
  let inp := d_read_if (br_dev b) in
  negb (br_init_job b) && negb (pri_job_operation out) && negb (pri_job_done out)
  && negb (ppi_job_operation inp) && negb (ppi_job_done inp) && negb (br_timer b) && (held RWatch h =? 0).
Definition BReactor_Free : B unit :=
  (fun b h => if reactor_idle b h then Ok (tt, b, h) else Ub);;
  _ ← tun_call_ ReactorFree; mret tt.

(** [while (node = LinkedList1_GetFirst(&tcp_clients)) client_murder(...)] *)
Fixpoint murder_clients (fuel : nat) : B unit :=
  b ← pget;
  match br_tcp_clients b with
  | [] => mret tt
  | a :: _ =>
      match fuel with
      | O => pfuel
      | S fuel => _ ← on_client a TMurder; murder_clients fuel
      end
  end.

(** ** [tun2socks_bridge_run] *)
Definition set_options (cfg : bridge_config) (ipaddr netmask server : list Z) : options :=
  Options ipaddr netmask (c_netif_ip6addr cfg) server None None None None.
Definition free_password : B unit := pmod (fun b => b <| br_password_file_contents := None |>).
(** [fail_log], [fail_reactor] and so on, each with what follows it *)
Definition fail_log : B Z := free_password;; mret (-1).
Definition fail_reactor : B Z := BReactor_Free;; fail_log.
Definition fail_pipe : B Z :=
  b ← pget;
  (if 0 <=? fst (br_stop_pipe b) then _ ← syscall (CClose (fst (br_stop_pipe b))); mret tt else mret tt);;
  (if 0 <=? snd (br_stop_pipe b) then _ ← syscall (CClose (snd (br_stop_pipe b))); mret tt else mret tt);;
  pmod (fun b => b <| br_stop_pipe := (-1, -1) |>);;
  fail_reactor.
Definition fail_stopfd : B Z := b ← pget; _ ← tun_call_ (RemoveFd (fst (br_stop_pipe b))); fail_pipe.
Definition free_read_interface : B unit :=
  on_dev (fun _ => pmod (fun d => d <| d_read_if := PacketPassInterface_Free (d_read_if d) |>)).
Definition fail_tap : B Z := free_read_interface;; on_dev (fun _ => BTap_Free);; fail_stopfd.
Definition fail_udpmode : B Z :=
  _ ← tun_call_ UdpClientFree; on_dev (fun _ => SinglePacketBuffer_Free);; fail_tap.

Definition compute_udp_mtu (mtu : Z) (ip6 : bool) : Z :=
  let m := mtu - (IPV4_HEADER + UDP_HEADER) in
  let m := if ip6 then let m6 := mtu - (IPV6_HEADER + UDP_HEADER) in if m <? m6 then m6 else m else m in
  if m <? 0 then 0 else m.

(** What follows the loop. *)
Definition bridge_teardown : B Z :=
  b ← pget;
  murder_clients (length (br_tcp_clients b));;
  b ← pget;
  (match br_listener_ip6 b with Some l => _ ← on_lwip (tcp_close_idle l); mret tt | None => mret tt end);;
  (match br_listener b with Some l => _ ← on_lwip (tcp_close_idle l); mret tt | None => mret tt end);;
  (if br_have_netif b then on_lwip (netif_remove the_netif) else mret tt);;
  pmod (fun b => b <| br_timer := false |>);;
  _ ← syscall (CFree (d_write_buf (br_dev b)));
  pmod (fun b => b <| br_init_job := false |>);;
  _ ← tun_call_ UdpClientFree;
  on_dev (fun _ => SinglePacketBuffer_Free);;
  free_read_interface;;
  on_dev (fun _ => BTap_Free);;
  _ ← tun_call_ (RemoveFd (fst (br_stop_pipe b)));
  _ ← syscall (CClose (fst (br_stop_pipe b)));
  _ ← syscall (CClose (snd (br_stop_pipe b)));
  pmod (fun b => b <| br_stop_pipe := (-1, -1) |>);;
  BReactor_Free;;
  free_password;;
  mret 0.

(** From the device's interface to the loop. *)
Definition bridge_serve (evs : list bridge_event) : B Z :=
  on_dev (fun _ => d ← pget; i ← lift (PacketPassInterface_Init (BTap_GetMTU d)); pmod (fun d => d <| d_read_if := i |>));;
  ok ← on_dev (fun _ => SinglePacketBuffer_Init);
  if negb ok then fail_tap else
  b ← pget;
  let udp_mtu := compute_udp_mtu (BTap_GetMTU (br_dev b)) (d_ip6 (br_dev b)) in
  on_dev (fun _ => pmod (fun d => d <| d_udp_mtu := udp_mtu |> <| d_udp_mode := UdpModeSocks |>));;
  _ ← tun_call_ (UdpClientInit udp_mtu);
  pmod (fun b => b <| br_init_job := true |>);;
  r ← tun_call_ (BAlloc (BTap_GetMTU (br_dev b)));
  if rv r =? 0 then fail_udpmode else
  on_dev (fun _ => pmod (fun d => d <| d_write_buf := resize_block (Z.to_nat (BTap_GetMTU d)) [] (rdata r) |>));;
  pmod (fun b => b <| br_timer := true |> <| br_tcp_timer_mod4 := 0 |> <| br_have_netif := false |>
                   <| br_listener := None |> <| br_listener_ip6 := None |>
                   <| br_tcp_clients := [] |> <| br_num_clients := 0 |> <| br_dev_h := [] |>);;
  BReactor_Exec evs;;
  bridge_teardown.

(** The device, on a duplicate of the descriptor. *)
Definition bridge_open (cfg : bridge_config) (evs : list bridge_event) : B Z :=
  dup ← tun_call_ (Dup (c_tun_fd cfg));
  if rv dup <? 0 then fail_stopfd else
  pmod (fun b => b <| br_dev_h := [] |>);;
  ok ← on_dev (fun _ => BTap_Init2 BTAP_DEV_TUN (BTAP_INIT_FD (rv dup) (if 0 <? c_mtu cfg then c_mtu cfg else 1500)));
  if negb ok then _ ← syscall (CClose (rv dup)); fail_stopfd else
  bridge_serve evs.

(** The stop pipe, and on. *)
Definition bridge_start (cfg : bridge_config) (evs : list bridge_event) : B Z :=
  b ← pget;
  on_dev (fun _ => pmod (fun d => d <| d_quitting := false |>
    <| d_ip6 := bool_decide (is_Some (op_netif_ip6addr (br_options b))) |>
    <| d_transparent_dns := false |> <| d_netif_ipaddr := bip_ip (br_netif_ipaddr b) |>));;
  p ← syscall CPipe;
  if rv p <? 0 then fail_reactor else
  let fds := (byte_at (rdata p) 0, byte_at (rdata p) 1) in
  pmod (fun b => b <| br_stop_pipe := fds |>);;
  r ← tun_call_ (Fcntl (fst fds));
  if rv r <? 0 then fail_pipe else
  r ← tun_call_ (AddFd (fst fds));
  if rv r =? 0 then fail_pipe else
  _ ← tun_call_ (SetFdEvents (fst fds) BREACTOR_READ);
  bridge_open cfg evs.

Definition tun2socks_bridge_run (cfg : bridge_config) (evs : list bridge_event) : B Z :=
  match c_netif_ipaddr cfg, c_netif_netmask cfg, c_socks_server_addr cfg with
  | Some ipaddr, Some netmask, Some server =>
      if c_tun_fd cfg <? 0 then mret (-1) else
      free_password;;
      r ← tun_call_ NetworkInit;
      if rv r =? 0 then fail_log else
      pmod (fun b => b <| br_options := set_options cfg ipaddr netmask server |>);;
      ok ← process_arguments;
      if negb ok then fail_log else
      r ← tun_call_ ReactorInit;
      if rv r =? 0 then fail_log else
      bridge_start cfg evs
  | _, _, _ => mret (-1)
  end.
End bridge.
