(* ===== verification/BridgeFrame.v ===== *)
(** What the parts leave alone. A program keeps a relation between the states and
    histories before and after it: the device and the TCP clients take and give back none
    of the resources that [tun2socks_bridge_run] manages, and a client leaves the others
    in the list. *)
From S2P Require Import Prelude CMem Sys Flow Chunk SocksClient TcpClient TcpClientProps Packet Device DevicePump Addr Lwip Bridge.
From stdpp Require Import gmap.
#[local] Open Scope Z_scope.

(** ** Programs that keep a relation *)
Section keeps.
Context {S : Type} (R : S * hist -> S * hist -> Prop) `{!PreOrder R}.

Definition keeps {A} (p : Prog S A) : Prop := forall s h a s' h', p s h = Ok (a, s', h') -> R (s, h) (s', h').

Lemma keeps_ret {A} (a : A) : keeps (mret a).
Proof. intros s h a' s' h' [= <- <- <-]. reflexivity. Qed.
Lemma keeps_bind {A B} (p : Prog S A) (k : A -> Prog S B) : keeps p -> (forall a, keeps (k a)) -> keeps (p ≫= k).
Proof.
  intros Hp Hk s h b s' h' E. unfold mbind, prog_bind in E. destruct (p s h) as [[[a s1] h1]| |] eqn:E1; try done.
  etransitivity; [by eapply Hp|by eapply Hk].
Qed.
Lemma keeps_pget : keeps pget.
Proof. intros s h a s' h' [= <- <- <-]. reflexivity. Qed.
Lemma keeps_pgets {A} (f : S -> A) : keeps (pgets f).
Proof. intros s h a s' h' [= <- <- <-]. reflexivity. Qed.
Lemma keeps_errno : keeps errno.
Proof. intros s h a s' h' [= <- <- <-]. reflexivity. Qed.
Lemma keeps_lift {A} (r : res A) : keeps (lift r).
Proof. intros s h a s' h' E. unfold lift in E. destruct r; try done. injection E as <- <- <-. reflexivity. Qed.
Lemma keeps_pub {A} : keeps (@pub S A).
Proof. by intros s h a s' h' E. Qed.
Lemma keeps_pfuel {A} : keeps (@pfuel S A).
Proof. by intros s h a s' h' E. Qed.
Lemma keeps_passert b : keeps (passert b).
Proof. destruct b; [apply keeps_ret|apply keeps_pub]. Qed.
Lemma keeps_deref {A} (o : option A) : keeps (deref o).
Proof. destruct o; [apply keeps_ret|apply keeps_pub]. Qed.
Lemma keeps_pmod f : (forall s h, R (s, h) (f s, h)) -> keeps (pmod f).
Proof. intros Hf s h a s' h' [= <- <- <-]. apply Hf. Qed.
Lemma keeps_pput s0 : (forall s h, R (s, h) (s0, h)) -> keeps (pput s0).
Proof. intros Hf s h a s' h' [= <- <- <-]. apply Hf. Qed.
Lemma keeps_syscall {OS : Os} c : (forall s h r, R (s, h) (s, (c, r) :: h)) -> keeps (syscall c).
Proof. intros Hf s h a s' h' [= <- <- <-]. apply Hf. Qed.

Lemma wpp_keeps {A} (p : Prog S A) s h (Q : A -> S -> hist -> Prop) : keeps p ->
  wpp p s h (fun a s' h' => R (s, h) (s', h') -> Q a s' h') -> wpp p s h Q.
Proof. intros Hk. unfold wpp. destruct (p s h) as [[[a s'] h']| |] eqn:E; [|done..]. intros HQ. apply HQ. by eapply Hk. Qed.
End keeps.

(** The goal [keeps R p], by the form of [p]; what the tactic [side] proves are the
    changes of the state and the calls. *)
Ltac keeps_step side :=
  first
    [ solve [ first [apply keeps_ret | apply keeps_pget | apply keeps_pgets | apply keeps_errno | apply keeps_lift
                     | apply keeps_pub | apply keeps_pfuel | apply keeps_passert | apply keeps_deref]; exact _ ]
    | solve [auto with keeps nocore]
    | apply keeps_bind; [exact _| |intros ?]
    | apply keeps_syscall; intros ???; side
    | apply keeps_pmod; intros ??; side
    | apply keeps_pput; intros ??; side
    | match goal with
      | |- keeps _ (match ?x with _ => _ end) => destruct x
      | |- keeps _ ((fun _ => _) _) => cbv beta
      end ].
Create HintDb keeps discriminated.

(** ** Calls that take and give back nothing *)
Definition quiet (c : call) : bool :=
  match c with
  | CPipe | CClose _ | CMalloc _ => false
  | CTun (Dup _ | AddFd _ | RemoveFd _ | ReactorInit | ReactorFree | UdpClientInit _ | UdpClientFree) => false
  | _ => true
  end.
Definition adds (h h' : hist) : Prop := exists t, h' = t ++ h /\ Forall (fun e => quiet (fst e) = true) t.
#[global] Instance adds_preorder : PreOrder adds.
Proof.
  split; [intros h; by exists []|]. intros h1 h2 h3 (t1 & -> & H1) (t2 & -> & H2).
  exists (t2 ++ t1). by rewrite app_assoc, Forall_app.
Qed.
Lemma adds_call c r h : quiet c = true -> adds h ((c, r) :: h).
Proof. intros Hq. exists [(c, r)]. split; [done|]. by constructor. Qed.
Lemma adds_cons c r h h' : quiet c = true -> adds h h' -> adds h ((c, r) :: h').
Proof. intros Hq (t & -> & Ht). exists ((c, r) :: t). split; [done|by constructor]. Qed.
Lemma held_adds r h h' : adds h h' -> held r h' = held r h.
Proof.
  intros (t & -> & Ht). induction Ht as [|[c rep] t Hq _ IH]; [done|]. simpl in *. rewrite IH.
  assert (delta r c rep = 0) as ->; [|lia]. destruct c as [| | | | | | | | | | | | | | | | | | | | | | | | | | | | | | | | | | | | | | | | |c]; try done. by destruct c.
Qed.
Lemma splice_app t h0 H : splice h0 (t ++ h0) H = t ++ H.
Proof.
  unfold splice. rewrite length_app. replace (length t + length h0 - length h0)%nat with (length t) by lia.
  by rewrite take_app_length.
Qed.
Lemma splice_same h0 H : splice h0 h0 H = H.
Proof. apply (splice_app []). Qed.
Lemma splice_one e h0 H : splice h0 (e :: h0) H = e :: H.
Proof. apply (splice_app [e]). Qed.
Lemma splice_adds h0 h1 H : adds h0 h1 -> adds H (splice h0 h1 H).
Proof. intros (t & -> & Ht). rewrite splice_app. by exists t. Qed.

(** the history only *)
Definition hist_only {S} (x y : S * hist) : Prop := adds (snd x) (snd y).
#[global] Instance hist_only_preorder S : PreOrder (@hist_only S).
Proof. split; [intros x; unfold hist_only; reflexivity|]. intros x y z ??. unfold hist_only in *. by etransitivity. Qed.
Ltac hist_side := unfold hist_only; cbn [snd]; first [reflexivity | by apply adds_call].

(** ** The SOCKS client *)
Section socks.
Context {OS : Os}.
Lemma keeps_socks_init server auth dest udp : keeps hist_only (BSocksClient_Init server auth dest udp).
Proof. unfold BSocksClient_Init, set_state. repeat keeps_step hist_side. Qed.
Lemma keeps_socks_free : keeps hist_only BSocksClient_Free.
Proof. unfold BSocksClient_Free, free_up_io, free_control_io. repeat keeps_step hist_side. Qed.
Lemma keeps_socks_send_if : keeps hist_only BSocksClient_GetSendInterface.
Proof. unfold BSocksClient_GetSendInterface. repeat keeps_step hist_side. Qed.
Lemma keeps_socks_recv_if : keeps hist_only BSocksClient_GetRecvInterface.
Proof. unfold BSocksClient_GetRecvInterface. repeat keeps_step hist_side. Qed.
Lemma keeps_with_sender f : keeps hist_only (with_sender f).
Proof. unfold with_sender. repeat keeps_step hist_side. Qed.
End socks.
#[export] Hint Resolve keeps_socks_init keeps_socks_free keeps_socks_send_if keeps_socks_recv_if keeps_with_sender : keeps.

(** ** The TCP client at [self] *)
Definition one_client (self : Z) (x y : cworld * hist) : Prop :=
  adds (snd x) (snd y) /\
  (cw_self (fst x) = self -> cw_self (fst y) = self /\
   forall a, a <> self -> (a ∈ cw_tcp_clients (fst y) <-> a ∈ cw_tcp_clients (fst x))).
#[global] Instance one_client_preorder self : PreOrder (one_client self).
Proof.
  split; [intros x; split; [reflexivity|done]|]. intros x y z [H1 H2] [H3 H4]. split; [by etransitivity|].
  intros Hs. destruct (H2 Hs) as [Hs2 Ha]. destruct (H4 Hs2) as [Hs3 Hb]. split; [done|]. intros a Hne. rewrite Hb, Ha; done.
Qed.
Lemma in_remove a self l : a <> self -> a ∈ TcpClient.remove Z.eqb self l <-> a ∈ l.
Proof. intros Hne. unfold TcpClient.remove. rewrite !list_elem_of_In, filter_In. split; [tauto|]. intros ?. split; [done|lia]. Qed.
Ltac client_side := split; cbn [fst snd]; [first [reflexivity | by apply adds_call]|done].

Section client.
Context {OS : Os} (self : Z).
Abbreviation KC := (keeps (one_client self)).
Ltac kc := repeat keeps_step client_side.

Lemma keeps_mcl f : KC (mcl f).
Proof.
  intros w h a w' h' E. unfold mcl, cget, mbind, prog_bind, pget, deref in E.
  destruct (cw_client w) as [cl|]; [|done]. injection E as <- <- <-. client_side.
Qed.
Lemma keeps_on_socks {A} (p : Prog BSocksClient A) : keeps hist_only p -> KC (on_socks p).
Proof.
  intros Hp w h a w' h' E. unfold on_socks in E. destruct (cw_client w) as [cl|]; [|done].
  destruct (p (tc_socks cl) h) as [[[a1 o] h1]| |] eqn:E1; [|done..]. injection E as <- <- <-.
  split; [by apply (Hp _ _ _ _ _ E1)|done].
Qed.
Lemma keeps_client : KC client.
Proof. unfold client, cget. kc. Qed.
Lemma keeps_the_pcb : KC the_pcb.
Proof. unfold the_pcb, cget. kc. Qed.
Hint Resolve keeps_mcl keeps_client keeps_the_pcb : keeps.
Lemma keeps_mpcb f : KC (mpcb f).
Proof. unfold mpcb. kc. Qed.
Lemma keeps_tcp_call c : (forall p, quiet (CTun (c p)) = true) -> KC (tcp_call c).
Proof. intros Hq. unfold tcp_call. keeps_step client_side; [kc|]. apply keeps_syscall. intros w h r. split; [by apply adds_call|done]. Qed.
Hint Resolve keeps_mpcb : keeps.
Hint Extern 1 (keeps _ (tcp_call _)) => (apply keeps_tcp_call; done) : keeps.
Lemma keeps_tcp_close : KC tcp_close.
Proof. unfold tcp_close, pcb_gone. kc. Qed.
Lemma keeps_tcp_abort : KC tcp_abort.
Proof. unfold tcp_abort, pcb_gone. kc. Qed.
Lemma keeps_dead_kill v : KC (dead_kill v).
Proof. unfold dead_kill, cget. kc. Qed.
Lemma keeps_dead_enter : KC dead_enter.
Proof. unfold dead_enter. kc. Qed.
Lemma keeps_dead_leave p : KC (dead_leave p).
Proof. unfold dead_leave, cget. kc. Qed.
Lemma keeps_socks_send d n : KC (socks_send d n).
Proof. unfold socks_send. apply keeps_on_socks. repeat keeps_step hist_side. Qed.
Lemma keeps_socks_recv d n : KC (socks_recv d n).
Proof. unfold socks_recv. apply keeps_on_socks. repeat keeps_step hist_side. Qed.
Lemma keeps_remove_callbacks : KC remove_callbacks.
Proof. unfold remove_callbacks, tcp_err, tcp_recv, tcp_sent. kc. Qed.
Lemma keeps_socks_free' : KC (on_socks BSocksClient_Free).
Proof. apply keeps_on_socks. auto with keeps. Qed.
Hint Resolve keeps_tcp_close keeps_tcp_abort keeps_dead_kill keeps_dead_enter keeps_dead_leave
  keeps_socks_send keeps_socks_recv keeps_remove_callbacks keeps_socks_free' : keeps.

(** the only change of the list *)
Lemma keeps_unlist : KC (pmod (fun w => w <| cw_tcp_clients := TcpClient.remove Z.eqb (cw_self w) (cw_tcp_clients w) |>)).
Proof.
  apply keeps_pmod. intros w h. split; [reflexivity|]. cbn. intros Hs. split; [done|]. intros a Hne. rewrite Hs. by apply in_remove.
Qed.
Hint Resolve keeps_unlist : keeps.
Lemma keeps_dealloc : KC client_dealloc.
Proof. unfold client_dealloc, cget. kc. Qed.
Lemma keeps_abort_pcb : KC client_abort_pcb.
Proof. unfold client_abort_pcb. kc. Qed.
Hint Resolve keeps_dealloc keeps_abort_pcb : keeps.
Lemma keeps_free_cycle n : KC (client_handle_freed_client_f n) /\ KC (client_free_client_f n) /\ KC (client_free_socks_f n).
Proof.
  induction n as [|n (IH1 & IH2 & IH3)]; [split_and!; apply keeps_pfuel|].
  split_and!; cbn [client_handle_freed_client_f client_free_client_f client_free_socks_f]; unfold tcp_recv; kc.
Qed.
Lemma keeps_handle_freed : KC client_handle_freed_client.
Proof. apply keeps_free_cycle. Qed.
Lemma keeps_free_client : KC client_free_client.
Proof. apply keeps_free_cycle. Qed.
Lemma keeps_free_socks : KC client_free_socks.
Proof. apply keeps_free_cycle. Qed.
Hint Resolve keeps_handle_freed keeps_free_client keeps_free_socks : keeps.
Lemma keeps_abort_client : KC client_abort_client.
Proof. unfold client_abort_client. kc. Qed.
Lemma keeps_murder : KC client_murder.
Proof. unfold client_murder. kc. Qed.
Hint Resolve keeps_abort_client keeps_murder : keeps.

Lemma keeps_send_to_socks : KC client_send_to_socks.
Proof. unfold client_send_to_socks. kc. Qed.
Lemma keeps_send_done n : KC (client_socks_send_handler_done n).
Proof. unfold client_socks_send_handler_done, tcp_recved. kc. Qed.
Lemma keeps_recv_initiate : KC client_socks_recv_initiate.
Proof. unfold client_socks_recv_initiate. kc. Qed.
Lemma keeps_write_loop n : KC (write_loop n).
Proof. induction n; [apply keeps_pfuel|]. cbn [write_loop]. unfold tcp_sndbuf, tcp_write. kc. Qed.
Hint Resolve keeps_send_to_socks keeps_send_done keeps_recv_initiate keeps_write_loop : keeps.
Lemma keeps_send_out : KC client_socks_recv_send_out.
Proof. unfold client_socks_recv_send_out, tcp_output. kc. Qed.
Hint Resolve keeps_send_out : keeps.
Lemma keeps_recv_done n : KC (client_socks_recv_handler_done n).
Proof. unfold client_socks_recv_handler_done. kc. Qed.
Hint Resolve keeps_recv_done : keeps.
Lemma keeps_socks_handler e : KC (client_socks_handler e).
Proof.
  unfold client_socks_handler, tcp_sent. kc; try (apply keeps_on_socks; auto with keeps).
Qed.
Hint Resolve keeps_socks_handler : keeps.
Lemma keeps_run_job j : KC (run_job j).
Proof. destruct j; cbn [run_job]; kc; try (apply keeps_on_socks; repeat keeps_step hist_side). Qed.
Hint Resolve keeps_run_job : keeps.
Lemma keeps_synchronize js : KC (synchronize js).
Proof. induction js; cbn [synchronize]; unfold cget; kc. Qed.
Hint Resolve keeps_synchronize : keeps.
Lemma keeps_recv_func p js : KC (client_recv_func p js).
Proof. unfold client_recv_func. kc. Qed.
Lemma keeps_sent_func len js : KC (client_sent_func len js).
Proof. unfold client_sent_func. kc. Qed.
Lemma keeps_err_func err : KC (client_err_func err).
Proof. unfold client_err_func. kc. Qed.
Hint Resolve keeps_recv_func keeps_sent_func keeps_err_func : keeps.

Lemma bind_inv {S A B} (m : Prog S A) (k : A -> Prog S B) s h b s' h' : (m ≫= k) s h = Ok (b, s', h') ->
  exists a s1 h1, m s h = Ok (a, s1, h1) /\ k a s1 h1 = Ok (b, s', h').
Proof. unfold mbind, prog_bind. destruct (m s h) as [[[a s1] h1]| |]; [|done..]. intros E. by exists a, s1, h1. Qed.

Lemma tcp_run_frame l ev l' rc : cw_self (t_w l) = self -> tcp_run l ev = Ok (l', rc) ->
  one_client self (t_w l, t_h l) (t_w l', t_h l').
Proof.
  intros Hs E.
  assert (Hdo : forall acked m, KC m -> tcp_do l acked m = Ok (l', rc) -> one_client self (t_w l, t_h l) (t_w l', t_h l')).
  { intros acked m Hm E1. unfold tcp_do in E1. destruct (m (t_w l) (t_h l)) as [[[rc1 w] h]| |] eqn:E2; [|done..].
    injection E1 as <- <-. by apply (Hm _ _ _ _ _ E2). }
  destruct ev; simpl in E; (eapply Hdo; [|exact E]); unfold pcb_gone; kc.
Qed.

(** After the block for the client is allocated at [self]. *)
Lemma accept_frame size p lip rip lport rport server auth mem js w h rc w' h' :
  rv (os_reply h (CMalloc size)) = self ->
  listener_accept_func size p lip rip lport rport server auth mem js w h = Ok (rc, w', h') ->
  adds ((CMalloc size, os_reply h (CMalloc size)) :: h) h' /\
  (self = 0 /\ w' = w \/ self <> 0 /\ cw_self w' = self /\ forall a, a <> self -> (a ∈ cw_tcp_clients w' <-> a ∈ cw_tcp_clients w)).
Proof.
  intros Hself E. unfold listener_accept_func in E. apply bind_inv in E as (r & w1 & h1 & [= <- <- <-] & E). rewrite Hself in E.
  destruct (Z.eqb_spec self 0) as [->|]; [injection E as <- <- <-; split; [reflexivity|by left]|].
  apply bind_inv in E as ([] & w1 & h1 & [= <- <-] & E).
  match type of E with ?m ?w1 ?h1 = _ => assert (Hm : KC m) end.
  { unfold tcp_arg, tcp_err, tcp_recv, cget. kc.
    - apply keeps_on_socks. auto with keeps.
    - apply keeps_pmod. intros w2 h2. split; [reflexivity|]. cbn. intros ->. split; [done|]. intros x Hne.
      rewrite elem_of_app, list_elem_of_singleton. tauto. }
  apply Hm in E as [Ha Hl]. cbn [fst snd] in Ha, Hl. split; [done|]. right. split; [done|by apply Hl].
Qed.
End client.

(** ** The device *)
Definition device_frame (x y : dev * hist) : Prop :=
  adds (snd x) (snd y) /\ t_close_fd (d_tap (fst y)) = t_close_fd (d_tap (fst x)).
#[global] Instance device_frame_preorder : PreOrder device_frame.
Proof. split; [intros x; split; reflexivity|]. intros x y z [H1 H2] [H3 H4]. split; [by etransitivity|congruence]. Qed.
Ltac device_side := split; cbn [fst snd]; [first [reflexivity | by apply adds_call]|done].

Section device.
Context {OS : Os}.
Abbreviation KD := (keeps device_frame).
Ltac kd := repeat keeps_step device_side.

Lemma keeps_tun c : quiet (CTun c) = true -> KD (tun_ c).
Proof. intros Hq. unfold tun_. apply keeps_syscall. intros d h r. split; [by apply adds_call|done]. Qed.
Lemma keeps_mtap f : (forall t, t_close_fd (f t) = t_close_fd t) -> KD (mtap f).
Proof. intros Hf. unfold mtap. apply keeps_pmod. intros d h. split; [reflexivity|]. cbn. apply Hf. Qed.
Lemma keeps_gtap : KD gtap.
Proof. apply keeps_pgets. exact _. Qed.
Hint Extern 1 (keeps _ (tun_ _)) => (apply keeps_tun; reflexivity) : keeps.
Hint Extern 1 (keeps _ (mtap _)) => (apply keeps_mtap; reflexivity) : keeps.
Hint Resolve keeps_gtap : keeps.
Lemma keeps_terminate : KD terminate.
Proof. unfold terminate. kd. Qed.
Hint Resolve keeps_terminate : keeps.
Lemma keeps_tap_error : KD tap_report_error.
Proof. unfold tap_report_error, device_error_handler. kd. Qed.
Lemma keeps_output_done n : KD (output_Done n).
Proof. unfold output_Done. kd. Qed.
Lemma keeps_set_events n : KD (set_events n).
Proof. unfold set_events. kd. Qed.
Lemma keeps_tap_read n : KD (tap_read n).
Proof. unfold tap_read. kd. Qed.
Lemma keeps_single_receive : KD single_receive.
Proof. unfold single_receive. kd. Qed.
Lemma keeps_single_input n : KD (single_input_handler_done n).
Proof. unfold single_input_handler_done. kd. Qed.
Hint Resolve keeps_tap_error keeps_output_done keeps_set_events keeps_tap_read keeps_single_receive keeps_single_input : keeps.
Lemma keeps_fd_handler n : KD (fd_handler n).
Proof. unfold fd_handler. kd. Qed.
Lemma keeps_tap_recv n : KD (tap_output_handler_recv n).
Proof. unfold tap_output_handler_recv. kd. Qed.
Lemma keeps_submit l r b d n : KD (submit_udp l r b d n).
Proof. unfold submit_udp. kd. Qed.
Hint Resolve keeps_fd_handler keeps_tap_recv keeps_submit : keeps.
Lemma keeps_process_udp d n : KD (process_device_udp_packet d n).
Proof. unfold process_device_udp_packet, process_udp4, process_udp6. kd. Qed.
Lemma keeps_netif_input p : KD (netif_input_func p).
Proof. unfold netif_input_func. kd. Qed.
Hint Resolve keeps_process_udp keeps_netif_input : keeps.
Lemma keeps_read_handler d n : KD (device_read_handler_send d n).
Proof. unfold device_read_handler_send. kd. Qed.
Lemma keeps_gather p n : KD (gather p n).
Proof. revert n. induction p as [|b p IH]; intros n; cbn [gather]; kd. Qed.
Lemma keeps_tap_send b : KD (BTap_Send b).
Proof. unfold BTap_Send. kd. Qed.
Hint Resolve keeps_read_handler keeps_gather keeps_tap_send : keeps.
Lemma keeps_netif_output p : KD (common_netif_output p).
Proof. unfold common_netif_output. kd. Qed.
Lemma keeps_send_parts a b c : KD (send_parts a b c).
Proof. unfold send_parts. kd. Qed.
Hint Resolve keeps_netif_output keeps_send_parts : keeps.
Lemma keeps_udp_send l r b : KD (udp_send_packet_to_device l r b).
Proof. unfold udp_send_packet_to_device. cbv zeta. kd. Qed.
Hint Resolve keeps_udp_send : keeps.
Lemma keeps_dev_job j : KD (run_dev_job j).
Proof. destruct j; cbn [run_dev_job]; unfold single_output_handler_done; kd. Qed.
Hint Resolve keeps_dev_job : keeps.
Lemma keeps_dev_run ev : KD (dev_run ev).
Proof. destruct ev; cbn [dev_run]; kd. Qed.
End device.
