(* ===== verification/BridgeFacts.v ===== *)
(** The loop of tun2socks keeps its state in order: the device, the clients, lwIP's
    listeners and what is held of the system. *)
From S2P Require Import Prelude CMem Sys Flow Chunk SocksClient SocksClientFacts TcpClient TcpClientFacts TcpClientProps.
From S2P Require Import Packet Device DevicePump Addr Lwip LwipFacts Bridge BridgeFrame.
From stdpp Require Import gmap.
#[local] Open Scope Z_scope.

(** ** Parts *)
Section parts.
Context {OS : Os}.
Lemma wpp_on_lwip {A} (p : Prog lwip A) b h (Q : A -> bridge -> hist -> Prop) :
  wpp p (br_lwip b) h (fun a w h => Q a (b <| br_lwip := w |>) h) -> wpp (on_lwip p) b h Q.
Proof. unfold wpp, on_lwip. by destruct (p (br_lwip b) h) as [[[a w] h']| |]. Qed.
Lemma wpp_on_dev {A} (p : Os -> Prog dev A) b h (Q : A -> bridge -> hist -> Prop) :
  wpp (p (os_from (br_dev_h b) h)) (br_dev b) (br_dev_h b)
    (fun a d hd => Q a (b <| br_dev := d |> <| br_dev_h := hd |>) (splice (br_dev_h b) hd h)) ->
  wpp (on_dev p) b h Q.
Proof. unfold wpp, on_dev, run_part. by destruct (p _ (br_dev b) (br_dev_h b)) as [[[a d] hd]| |]. Qed.
Lemma wpp_on_link {A} l l' (a : A) p b h (Q : A -> bridge -> hist -> Prop) : p (os_from (t_h l) h) = Ok (l', a) ->
  Q a (put_client l' b) (splice (t_h l) (t_h l') h) -> wpp (on_link l p) b h Q.
Proof. unfold wpp, on_link. by intros ->. Qed.

Lemma reads_from h0 H : reads_ok OS -> reads_ok (os_from h0 H).
Proof. intros Hr h fd n Hn. unfold os_reply, os_from. by apply Hr. Qed.
End parts.

(** The blocks that [listener_accept_func] asked for. *)
Fixpoint accepts (h : hist) : Z :=
  match h with
  | [] => 0
  | (CMalloc _, _) :: h => 1 + accepts h
  | _ :: h => accepts h
  end.
Lemma accepts_adds h h' : adds h h' -> accepts h' = accepts h.
Proof. intros (t & -> & Ht). induction Ht as [|[c r] t Hq _ IH]; [done|]. simpl in *. by destruct c. Qed.

(** A byte can be read from the stop pipe only so often. *)
Definition after_reads {OS : Os} (fd : Z) (n : nat) (h : hist) : hist :=
  Nat.iter n (fun h => (CTun (Read fd 1), os_reply h (CTun (Read fd 1))) :: h) h.
Definition drained (OS : Os) : Prop := forall h fd, exists n, (n < PIPE_TURNS)%nat /\
  rv (os_reply (after_reads fd n h) (CTun (Read fd 1))) <= 0.

(** ** The clients *)
Record client_ok (a : Z) (l : tcp_link) : Prop := ClientOk {
  ck_self : cw_self (t_w l) = a;
  ck_frame : frame_ok None (t_w l) (t_h l);
  ck_alive : exists cl, cw_client (t_w l) = Some cl /\ alive true (t_acked l) (t_w l) cl (t_h l) }.
Record clients_ok (b : bridge) : Prop := ClientsOk {
  cs_nodup : NoDup (br_tcp_clients b);
  cs_null : 0 ∉ br_tcp_clients b;
  cs_num : br_num_clients b = zlen (br_tcp_clients b);
  cs_in : forall a, a ∈ br_tcp_clients b <-> is_Some (br_clients b !! a);
  cs_each : forall a l, br_clients b !! a = Some l -> client_ok a l }.

Lemma alive_pcb r acked w w' cl h : cw_pcb w' = cw_pcb w -> alive r acked w cl h -> alive r acked w' cl h.
Proof. intros E []. constructor; rewrite ?E; done. Qed.

Lemma with_globals_ok b a l : clients_ok b -> br_clients b !! a = Some l -> link_ok (with_globals b l).
Proof.
  intros [C1 C0 C2 C3 C4] E. destruct (C4 _ _ E) as [K1 K2 (cl & Ec & Hal)]. constructor.
  - unfold globals_ok. simpl. rewrite Ec, K1. split_and!; [done|done|]. apply C3. by exists l.
  - exact K2.
  - simpl. rewrite Ec. by eapply alive_pcb; [|exact Hal].
Qed.

(** A client's step gives the state back in order. *)
Lemma put_client_ok b l' a : clients_ok b -> link_ok l' -> cw_self (t_w l') = a -> a <> 0 ->
  (forall x, x <> a -> (x ∈ cw_tcp_clients (t_w l') <-> x ∈ br_tcp_clients b)) -> clients_ok (put_client l' b).
Proof.
  intros [C1 C0 C2 C3 C4] [(G1 & G2 & G3) Hf Hc] Hs Ha Hx. unfold put_client. rewrite Hs in *.
  constructor; simpl; [done|by rewrite Hx|done| |].
  - intros x. destruct (decide (x = a)) as [->|Hne].
    + destruct (cw_client (t_w l')); [rewrite lookup_insert_eq; split; [eauto|done]|]. rewrite lookup_delete_eq. by split; [|intros []].
    + rewrite Hx, C3 by done. destruct (cw_client (t_w l')); [by rewrite lookup_insert_ne by congruence|by rewrite lookup_delete_ne by congruence].
  - intros x l E. destruct (decide (x = a)) as [->|Hne].
    + destruct (cw_client (t_w l')) as [cl|] eqn:Ec; [|by rewrite lookup_delete_eq in E]. rewrite lookup_insert_eq in E. injection E as <-.
      constructor; [done|done|]. exists cl. done.
    + apply C4. destruct (cw_client (t_w l')); [by rewrite lookup_insert_ne in E by congruence|by rewrite lookup_delete_ne in E by congruence].
Qed.

Section clients.
Context {OS : Os}.
(** One event of a client. *)
Lemma wpp_on_client a ev l b h (Q : Z -> bridge -> hist -> Prop) : clients_ok b -> br_clients b !! a = Some l -> tcp_enabled l ev ->
  (forall rc l' h', clients_ok (put_client l' b) -> adds h h' ->
     (ev = TMurder -> (length (cw_tcp_clients (t_w l')) < length (br_tcp_clients b))%nat) -> Q rc (put_client l' b) h') ->
  wpp (on_client a ev) b h Q.
Proof.
  intros Hb E He HQ. unfold on_client. wpp_step. wpp_step. wpp_step. eapply wpp_deref; [exact E|].
  pose proof (with_globals_ok _ _ _ Hb E) as Hl. pose proof (ck_self _ _ (cs_each _ Hb _ _ E)) as Hs.
  destruct (@tcp_step (os_from (t_h l) h) (with_globals b l) ev Hl) as (l' & rc & Er & Hl' & _ & _ & Hm).
  { destruct ev; exact He. }
  eapply wpp_on_link; [exact Er|].
  destruct (@tcp_run_frame (os_from (t_h l) h) a (with_globals b l) ev l' rc Hs Er) as [Ha Hx]. cbn [fst snd] in Ha, Hx.
  destruct (Hx Hs) as [Hs' Hx']. simpl in Hx'.
  assert (Hnz : a <> 0) by (intros ->; apply (cs_null _ Hb), (cs_in _ Hb); by exists l).
  apply HQ; [by eapply put_client_ok|by apply splice_adds|]. intros ->. specialize (Hm eq_refl).
  destruct Hl' as [(G1 & _ & G3) _ _]. rewrite Hm, Hs' in G3.
  assert (Hsub : a :: cw_tcp_clients (t_w l') ⊆+ br_tcp_clients b).
  { apply NoDup_submseteq; [by apply NoDup_cons|]. intros x [->|Hin]%elem_of_cons; [apply (cs_in _ Hb); by exists l|].
    apply Hx'; [|done]. intros ->. done. }
  apply submseteq_length in Hsub. simpl in Hsub. lia.
Qed.

(** A new connection: a client more, or none. *)
Lemma wpp_new_client size p lip rip lport rport server auth mem js b h (Q : Z -> bridge -> hist -> Prop) :
  clients_ok b -> fresh_pcb p -> rv (os_reply h (CMalloc size)) ∉ br_tcp_clients b ->
  ba_type server <> BADDR_TYPE_NONE -> auth_ok auth ->
  zlen (tc_buf mem) = TCP_WND -> zlen (tc_recv_buf mem) = CLIENT_SOCKS_RECV_BUF_SIZE ->
  let link := TcpLink (Cworld 0 None p None (br_num_clients b) (br_tcp_clients b)) [] 0 in
  (forall rc l' h' r, clients_ok (put_client l' b) -> adds ((CMalloc size, r) :: h) h' -> Q rc (put_client l' b) h') ->
  wpp (on_link link (fun _ => tcp_do link 0 (listener_accept_func size p lip rip lport rport server auth mem js))) b h Q.
Proof.
  intros Hb Hp Hfr Hsv Hau H1 H2 link HQ.
  destruct (wpp_inv _ _ _ _ (@wpp_accept (os_from [] h) size p lip rip lport rport server auth mem js 0 p (br_tcp_clients b)
    Hp (cs_nodup _ Hb) Hfr Hsv Hau H1 H2)) as (rc & w & h1 & E & Hor).
  rewrite <- (cs_num _ Hb) in E.
  destruct (@accept_frame (os_from [] h) _ size p lip rip lport rport server auth mem js _ _ _ _ _ eq_refl E) as [Ha Hself].
  set (self := rv (@os_reply (os_from [] h) [] (CMalloc size))) in *. change (rv (os_reply h (CMalloc size))) with self in Hfr.
  eapply (wpp_on_link _ (TcpLink w h1 0)).
  { unfold tcp_do. cbn [t_w t_h link]. rewrite E. reflexivity. }
  cbn [t_h link].
  assert (Hadds : adds ((CMalloc size, os_reply h (CMalloc size)) :: h) (splice [] h1 h)).
  { destruct Ha as (t & -> & Ht). rewrite <- (app_nil_r (t ++ _)), splice_app. exists t. by rewrite <- app_assoc. }
  eapply HQ; [|exact Hadds]. destruct Hor as [(-> & Ec & El & En)|[Ht _]].
  - destruct Hb as [C1 C0 C2 C3 C4]. unfold put_client. cbn [t_w]. rewrite Ec, El, En.
    assert (Hn : br_clients b !! cw_self w = None).
    { apply eq_None_not_Some. rewrite <- C3. by destruct Hself as [[_ ->]|(_ & -> & _)]. }
    rewrite delete_id by done. by constructor.
  - destruct Hself as [[Hz Hw]|(Hnz & Hs & Hx)].
    + (* malloc failed: no callback ran *)
      destruct Ht as [(G1 & G2 & G3) _ Hc]. rewrite Hw in *. simpl in *. unfold put_client. simpl.
      assert (Hn : br_clients b !! 0 = None) by (apply eq_None_not_Some; rewrite <- (cs_in _ Hb); apply (cs_null _ Hb)).
      rewrite delete_id by done. by destruct Hb.
    + by eapply put_client_ok; [|exact Ht|exact Hs| |exact Hx].
Qed.
End clients.

(** ** lwIP *)

(** lwIP between the start that gave the interface the number [n0] and its end. *)
Definition netif_up (n0 : Z) (have : bool) (w : lwip) : Prop :=
  if have then exists n, l_netif_list w = [n] /\ n_addr n = the_netif /\ n_name n = [104; 111] /\ n_num n = n0 /\
    l_netif_num w = (n0 + 1) mod 255
  else l_netif_list w = [] /\ l_netif_num w = n0.
Record lwip_up (n0 : Z) (b : bridge) : Prop := LwipUp {
  lu_blocks : exists ls, blocks LISTEN_NETIF ls None [] (br_lwip b) /\
    ls.*1 = option_list (br_listener_ip6 b) ++ option_list (br_listener b);
  lu_netif : netif_up n0 (br_have_netif b) (br_lwip b) }.
Lemma netif_up_same n0 have w w' : same_netifs w w' -> netif_up n0 have w -> netif_up n0 have w'.
Proof. intros (E1 & E2 & _). unfold netif_up. by rewrite E1, E2. Qed.
Lemma named_zero n : n_name n = [104; 111] -> netif_is_named n LISTEN_NETIF = (n_num n =? 0).
Proof. intros En. unfold netif_is_named, LISTEN_NETIF. rewrite En. by rewrite bool_decide_true by done. Qed.

(** ** The loop *)

(** [n0]: the number of lwIP's interface; [acc0], [hs]: the clients accepted and what was
    held when the loop began. *)
Record in_loop (n0 acc0 : Z) (hs : resource -> Z) (fds : Z * Z) (b : bridge) (h : hist) : Prop := InLoop {
  lo_dev : exists handled, pump_ok (br_dev b) (br_dev_h b) handled;
  lo_tap : t_close_fd (d_tap (br_dev b)) = false;
  lo_clients : clients_ok b;
  lo_lwip : lwip_up n0 b;
  lo_server : ba_type (br_socks_server_addr b) <> BADDR_TYPE_NONE /\ auth_ok (br_auth_info b);
  lo_pipe : br_stop_pipe b = fds;
  lo_ip6 : zlen (br_netif_ip6addr b) = 16 /\ bytes_ok (br_netif_ip6addr b);
  lo_held : forall r, held r h = hs r;
  lo_accepts : n0 <> 0 -> accepts h = acc0 }.

Section loop.
Context {OS : Os} (sizeof_tcp_client : Z) (junk : list Z) (n0 acc0 : Z) (hs : resource -> Z) (fds : Z * Z).
Context (Hreads : reads_ok OS) (Hdrained : drained OS).
Abbreviation LO := (in_loop n0 acc0 hs fds).

Lemma loop_quiet b h h' : LO b h -> adds h h' -> LO b h'.
Proof. intros [] Ha. constructor; try done; [intros r; by rewrite (held_adds _ _ _ Ha)|]. intros Hn. rewrite (accepts_adds _ _ Ha). auto. Qed.

Lemma wpp_drain b h (Q : unit -> bridge -> hist -> Prop) fd : (forall h', adds h h' -> Q tt b h') -> wpp (drain PIPE_TURNS fd) b h Q.
Proof.
  destruct (Hdrained h fd) as (n & Hn & Hr). revert n h Hn Hr. induction PIPE_TURNS as [|fuel IH]; intros n h Hn Hr HQ; [lia|].
  cbn [drain]. unfold tun_call_. wpp_step. wpp_step. destruct (Z.ltb_spec 0 (rv (os_reply h (CTun (Read fd 1))))) as [Hp|]; [|wpp_step; apply HQ; by apply adds_call].
  destruct n as [|n]; [simpl in Hr; lia|]. apply (IH n); [lia| |].
  - unfold after_reads in *. rewrite Nat.iter_succ_r in Hr. exact Hr.
  - intros h' Ha. apply HQ. etransitivity; [|exact Ha]. by apply adds_call.
Qed.

(** What the device's side does. *)
Lemma wpp_loop_dev {A} (p : Os -> Prog dev A) b h (Q : A -> bridge -> hist -> Prop) : LO b h ->
  (forall os, keeps device_frame (p os)) ->
  wpp (p (os_from (br_dev_h b) h)) (br_dev b) (br_dev_h b) (fun _ d hd => exists handled, pump_ok d hd handled) ->
  (forall a h' d hd, LO (b <| br_dev := d |> <| br_dev_h := hd |>) h' ->
     p (os_from (br_dev_h b) h) (br_dev b) (br_dev_h b) = Ok (a, d, hd) -> Q a (b <| br_dev := d |> <| br_dev_h := hd |>) h') ->
  wpp (on_dev p) b h Q.
Proof.
  intros Hb Hk Hw HQ. apply wpp_on_dev. destruct (wpp_inv _ _ _ _ Hw) as (a & d & hd & E & Hp). unfold wpp. rewrite E.
  destruct (Hk _ _ _ _ _ _ E) as [Ha Hc]. cbn [fst snd] in Ha, Hc. eapply HQ; [|exact E].
  destruct Hb as [L1 L2 L3 L4 L5 L6 L7 L8 L9]. pose proof (splice_adds _ _ h Ha) as Ha'. constructor; simpl; try done; [congruence|by destruct L3|by destruct L4|..].
  - intros r. by rewrite (held_adds _ _ _ Ha').
  - intros Hn. rewrite (accepts_adds _ _ Ha'). auto.
Qed.

Lemma wpp_loop_terminate b h (Q : unit -> bridge -> hist -> Prop) : LO b h -> d_quitting (br_dev b) = false ->
  (forall h' d hd, LO (b <| br_dev := d |> <| br_dev_h := hd |>) h' -> d_quitting d = true ->
     Q tt (b <| br_dev := d |> <| br_dev_h := hd |>) h') -> wpp (on_dev (fun _ => terminate)) b h Q.
Proof.
  intros Hb Hq HQ. eapply wpp_loop_dev; [done|intros; apply keeps_terminate| |].
  - unfold terminate, tun_. wpp_step. wpp_step. wpp_step. apply wpp_passert; [by rewrite Hq|]. repeat wpp_step. exists []. by left.
  - intros [] h' d hd Hb' E. apply HQ; [done|]. unfold terminate, tun_ in E.
    apply bind_inv in E as (d1 & d2 & h2 & [= <- <- <-] & E). apply bind_inv in E as ([] & d2 & h2 & E1 & E).
    rewrite Hq in E1. cbn [negb passert] in E1. injection E1 as <- <-. apply bind_inv in E as ([] & d2 & h2 & [= <- <-] & E).
    apply bind_inv in E as (r & d2 & h2 & [= <- <- <-] & E). by injection E as <- <-.
Qed.

(** lwIP's part may change if its own invariant holds again. *)
Lemma loop_lwip b h have l l6 w : LO b h ->
  let b' := b <| br_have_netif := have |> <| br_listener := l |> <| br_listener_ip6 := l6 |> <| br_lwip := w |> in
  lwip_up n0 b' -> LO b' h.
Proof. intros [L1 L2 L3 L4 L5 L6 L7 L8 L9] b' Hw. constructor; try done. by destruct L3. Qed.

(** *** Initialization of lwIP *)
Lemma blocks_netif ls extra bound w (num : Z) (l : list netif) (d : option Z) : blocks LISTEN_NETIF ls extra bound w ->
  blocks LISTEN_NETIF ls extra bound (w <| l_netif_num := num |> <| l_netif_list := l |> <| l_netif_default := d |>).
Proof. by intros []. Qed.

Lemma wpp_make_listener type ls b h (Q : option Z -> bridge -> hist -> Prop) :
  blocks LISTEN_NETIF ls None [] (br_lwip b) -> (type = IPADDR_TYPE_V4 \/ type = IPADDR_TYPE_V6) ->
  Forall (fun e => q_type (snd e) <> type) ls ->
  (forall w h', blocks LISTEN_NETIF ls None [] w -> same_netifs (br_lwip b) w -> adds h h' -> Q None (b <| br_lwip := w |>) h') ->
  (forall w h' a q, blocks LISTEN_NETIF ((a, q) :: ls) None [] w -> q_type q = type -> same_netifs (br_lwip b) w -> adds h h' ->
     Q (Some a) (b <| br_lwip := w |>) h') ->
  wpp (make_listener type) b h Q.
Proof.
  intros Hb Hty Hls HN HS. unfold make_listener. wpp_step. apply wpp_on_lwip. eapply wpp_tcp_new; [exact Hb| |].
  { intros r. wpp_step. apply HN; [exact Hb|apply same_netifs_refl|by apply adds_call]. }
  intros r w1 ip Hb1 E1. wpp_step. apply wpp_on_lwip.
  eapply wpp_bind_to_netif; [exact Hb1|done|done|]. intros w2 q2 Hb2 T2 D2 N2 E2. cbn [Z.eqb ERR_OK negb]. cbn.
  wpp_step. wpp_step. wpp_step. apply wpp_on_lwip.
  eapply wpp_bind_netif; [exact Hb2|]. intros w3 q3 Hb3 T3 D3 N3 E3. wpp_step. apply wpp_on_lwip. simpl in *.
  assert (E123 : same_netifs (br_lwip b) w3) by (eapply same_netifs_trans; [exact E1|eapply same_netifs_trans; [exact E2|exact E3]]).
  eapply wpp_listen; [exact Hb3|congruence|congruence|by rewrite T3, T2| |].
  - intros r2. wpp_step. apply wpp_on_lwip. eapply wpp_close_bound; [exact Hb3|congruence|]. intros w4 Hb4 E4. wpp_step.
    apply (HN w4); [exact Hb4|by eapply same_netifs_trans|]. by apply adds_cons, adds_call.
  - intros r2 w4 a q4 Hb4 T4 E4. wpp_step. apply (HS w4 _ a q4); [exact Hb4|congruence|by eapply same_netifs_trans|]. by apply adds_cons, adds_call.
Qed.

(** A change of the interface's structure. *)
Lemma wpp_mnetif f b h ls (Q : unit -> bridge -> hist -> Prop) :
  (forall n, n_addr (f n) = n_addr n /\ n_name (f n) = n_name n /\ n_num (f n) = n_num n) ->
  blocks LISTEN_NETIF ls None [] (br_lwip b) -> netif_up n0 true (br_lwip b) ->
  (forall w, blocks LISTEN_NETIF ls None [] w -> netif_up n0 true w -> Q tt (b <| br_lwip := w |>) h) ->
  wpp (on_lwip (mnetif the_netif f)) b h Q.
Proof.
  intros Hf Hb (n & En & Ea & Em & Eu & Ex) HQ. apply wpp_on_lwip. unfold mnetif. wpp_step. apply HQ.
  - by destruct Hb.
  - destruct (Hf n) as (F1 & F2 & F3). exists (f n). simpl. rewrite En. simpl. rewrite Ea. simpl. by rewrite F1, F2, F3.
Qed.
Lemma wpp_set_netif b h ls (Q : unit -> bridge -> hist -> Prop) :
  blocks LISTEN_NETIF ls None [] (br_lwip b) -> netif_up n0 true (br_lwip b) ->
  (forall w, blocks LISTEN_NETIF ls None [] w -> netif_up n0 true w -> Q tt (b <| br_lwip := w |>) h) ->
  wpp set_netif b h Q.
Proof.
  intros Hb Hn HQ. unfold set_netif, netif_set_up, netif_set_link_up, netif_set_pretend_tcp, netif_ip6_addr_set, netif_ip6_addr_set_state.
  wpp_step. wpp_step. wpp_step. eapply wpp_mnetif; [done|exact Hb|exact Hn|]. intros w1 B1 N1.
  wpp_step. eapply wpp_mnetif; [done|exact B1|exact N1|]. intros w2 B2 N2.
  wpp_step. eapply wpp_mnetif; [done|exact B2|exact N2|]. intros w3 B3 N3.
  wpp_step. apply wpp_on_lwip. unfold netif_set_default. wpp_step.
  set (w4 := w3 <| l_netif_default := Some the_netif |>).
  assert (B4 : blocks LISTEN_NETIF ls None [] w4) by (by destruct B3). assert (N4 : netif_up n0 true w4) by exact N3.
  destruct (bool_decide _); [|wpp_step; by apply (HQ w4)].
  wpp_step. eapply wpp_mnetif; [done|exact B4|exact N4|]. intros w5 B5 N5.
  eapply wpp_mnetif; [done|exact B5|exact N5|]. intros w6 B6 N6. by apply (HQ w6).
Qed.

Lemma wpp_netif_add b h ls ip mask gw (Q : bool -> bridge -> hist -> Prop) :
  blocks LISTEN_NETIF ls None [] (br_lwip b) -> netif_up n0 false (br_lwip b) -> 0 <= n0 <= 254 ->
  (forall w, blocks LISTEN_NETIF ls None [] w -> netif_up n0 true w -> Q true (b <| br_lwip := w |>) h) ->
  wpp (on_lwip (netif_add the_netif ip mask gw netif_init_func)) b h Q.
Proof.
  intros Hb [En Eu] Hn HQ. apply wpp_on_lwip. unfold netif_add, netif_init_func. wpp_step. wpp_step. rewrite Eu, En.
  cbv beta iota zeta. change (negb (ERR_OK =? ERR_OK)) with false. cbv iota. wpp_step. wpp_step.
  match goal with |- wp _ ?P => change (wp (assign_num NUM_TURNS [] n0) P) end. rewrite assign_num_alone by done. apply wp_ok. wpp_step. wpp_step. wpp_step. apply HQ; [by destruct Hb|].
  eexists. simpl. rewrite En. split_and!; [done..|]. destruct (Z.eqb_spec n0 254) as [->|]; [done|].
  unfold u8. rewrite !Z.mod_small; lia.
Qed.

Lemma wpp_lwip_init_failed b h (Q : unit -> bridge -> hist -> Prop) : LO b h ->
  (forall b' h', LO b' h' -> br_have_netif b' = br_have_netif b -> Q tt b' h') -> wpp lwip_init_failed b h Q.
Proof.
  intros Hb HQ. unfold lwip_init_failed. wpp_step. wpp_step. destruct (d_quitting (br_dev b)) eqn:E; cbn [negb]; [wpp_step; by apply HQ|].
  eapply wpp_loop_terminate; [done|done|]. intros h' d hd Hb' _. by apply HQ.
Qed.

(** The accept function of the listener [a], which a variable now holds. *)
Lemma wpp_set_accept a q ls b h (Q : unit -> bridge -> hist -> Prop) :
  blocks LISTEN_NETIF ((a, q) :: ls) None [] (br_lwip b) ->
  (forall w q', blocks LISTEN_NETIF ((a, q') :: ls) None [] w -> q_type q' = q_type q -> same_netifs (br_lwip b) w -> Q tt (b <| br_lwip := w |>) h) ->
  wpp (on_lwip (tcp_accept a)) b h Q.
Proof.
  intros Hb HQ. apply wpp_on_lwip. eapply wpp_accept_set; [exact Hb|]. intros w' Hw Hs. eapply HQ; [exact Hw|done|done].
Qed.

(** What holds when the job that initializes lwIP runs. *)
Record before_init (b : bridge) : Prop := BeforeInit {
  bi_quitting : d_quitting (br_dev b) = false;
  bi_types : bip_type (br_netif_ipaddr b) = BADDR_TYPE_IPV4 /\ bip_type (br_netif_netmask b) = BADDR_TYPE_IPV4;
  bi_have : br_have_netif b = false;
  bi_listeners : br_listener b = None /\ br_listener_ip6 b = None }.

Lemma wpp_lwip_init b h (Q : unit -> bridge -> hist -> Prop) : LO b h -> before_init b -> 0 <= n0 <= 254 ->
  (forall b' h', LO b' h' -> br_have_netif b' = true -> Q tt b' h') -> wpp lwip_init_job_hadler b h Q.
Proof.
  intros Hb [Hq [Ht1 Ht2] Hh [Hl Hl6]] Hn HQ. unfold lwip_init_job_hadler. wpp_step. wpp_step. rewrite Hq, Ht1, Ht2, Hh, Hl, Hl6.
  do 6 (wpp_step; apply wpp_passert; [done|]). unfold tun_call_. wpp_step. wpp_step. wpp_step.
  destruct (lo_lwip _ _ _ _ _ _ Hb) as [(ls & Hbk & Els) Hnf]. rewrite Hh in Hnf. rewrite Hl, Hl6 in Els.
  apply fmap_nil_inv in Els. subst ls.
  eapply (wpp_netif_add _ _ []); [exact Hbk|exact Hnf|done|]. intros w1 B1 N1. cbn [negb].
  wpp_step. wpp_step. wpp_step.
  eapply (wpp_set_netif _ _ []); [exact B1|exact N1|]. intros w2 B2 N2.
  wpp_step. eapply (wpp_make_listener _ []); [exact B2|by left|by constructor| |].
  - intros w3 h3 B3 E3 A3. cbv beta iota. eapply wpp_lwip_init_failed.
    + eapply loop_quiet; [|exact A3]. eapply loop_quiet; [|by apply adds_call].
      apply (loop_lwip b h true (br_listener b) (br_listener_ip6 b) w3 Hb).
      constructor; [exists []; split; [done|]; simpl; by rewrite Hl, Hl6|]. by eapply netif_up_same.
    + intros b' h' Hb' Eh. by apply HQ.
  - intros w3 h3 a q B3 T3 E3 A3. cbv beta iota. wpp_step. wpp_step. wpp_step.
    eapply wpp_set_accept; [exact B3|]. intros w4 q4 B4 T4 E4.
    assert (N4 : netif_up n0 true w4) by (eapply netif_up_same; [exact E4|]; by eapply netif_up_same).
    assert (Hb4 : LO (b <| br_have_netif := true |> <| br_listener := Some a |> <| br_listener_ip6 := br_listener_ip6 b |> <| br_lwip := w4 |>) h3).
    { eapply loop_quiet; [|exact A3]. eapply loop_quiet; [|by apply adds_call].
      apply (loop_lwip b h true (Some a) (br_listener_ip6 b) w4 Hb).
      constructor; [exists [(a, q4)]; split; [done|]; simpl; by rewrite Hl6|done]. }
    destruct (bool_decide _); [|wpp_step; by apply (HQ _ _ Hb4)].
    wpp_step. eapply (wpp_make_listener _ [(a, q4)]); [exact B4|by right|constructor; [simpl; by rewrite T4, T3|constructor]| |].
    + intros w5 h5 B5 E5 A5. cbv beta iota. eapply wpp_lwip_init_failed.
      * eapply loop_quiet; [|exact A5]. apply (loop_lwip _ h3 true (Some a) (br_listener_ip6 b) w5 Hb4).
        constructor; [exists [(a, q4)]; split; [done|]; simpl; by rewrite Hl6|]. by eapply netif_up_same.
      * intros b' h' Hb' Eh. by apply HQ.
    + intros w5 h5 a5 q5 B5 T5 E5 A5. cbv beta iota. wpp_step. wpp_step.
      eapply wpp_set_accept; [exact B5|]. intros w6 q6 B6 T6 E6. apply HQ; [|done].
      eapply loop_quiet; [|exact A5]. apply (loop_lwip _ h3 true (Some a) (Some a5) w6 Hb4).
      constructor; [by exists [(a5, q6); (a, q4)]|]. eapply netif_up_same; [exact E6|]. by eapply netif_up_same.
Qed.

(** *** The events *)
Lemma loop_client b h l h' : LO b h -> clients_ok (put_client l b) -> (forall r, held r h' = held r h) ->
  (n0 <> 0 -> accepts h' = accepts h) -> LO (put_client l b) h'.
Proof.
  intros [L1 L2 L3 L4 L5 L6 L7 L8 L9] Hc Hh Ha. constructor; try done; [by destruct L4|intros r; by rewrite Hh|].
  intros Hn. rewrite Ha by done. auto.
Qed.

Lemma wpp_accept_connection p lip rip lport rport mem js b h (Q : unit -> bridge -> hist -> Prop) :
  LO b h -> br_have_netif b = true ->
  bridge_ready sizeof_tcp_client (BAccept p lip rip lport rport mem js) b h = true ->
  (forall b' h', LO b' h' -> br_have_netif b' = true -> Q tt b' h') ->
  wpp (accept_connection sizeof_tcp_client p lip rip lport rport mem js) b h Q.
Proof.
  intros Hb Hh Hr HQ. cbn [bridge_ready] in Hr. unfold accept_connection. wpp_step. wpp_step.
  destruct (lo_lwip _ _ _ _ _ _ Hb) as [(ls & Hbk & Els) Hnf]. pose proof Hnf as Hup. rewrite Hh in Hup.
  destruct Hup as (n & En & Ea & Em & Eu & _).
  assert (find_netif (br_lwip b) = Some n) as ->.
  { unfold find_netif. rewrite En. rewrite filter_cons_True by done. done. }
  assert (Hlo : forall w, blocks LISTEN_NETIF ls None [] w -> same_netifs (br_lwip b) w -> LO (b <| br_lwip := w |>) h).
  { intros w Bw Sw. apply (loop_lwip b h (br_have_netif b) (br_listener b) (br_listener_ip6 b) w Hb).
    constructor; [by exists ls|]. by eapply netif_up_same. }
  wpp_step. apply wpp_on_lwip. eapply wpp_input_listener; [exact Hbk| |].
  { intros w Bw Sw _. wpp_step. apply HQ; [by apply Hlo|done]. }
  intros w a q Bw Sw Hin _ Hnm. rewrite (named_zero _ Em), Eu in Hnm. wpp_step. apply wpp_on_lwip.
  eapply wpp_get_pcb; [by eapply blocks_assoc|]. destruct (q_accept q); cbn [negb]; [|wpp_step; apply HQ; [by apply Hlo|done]].
  wpp_step. wpp_step. wpp_step. pose proof (Hlo w Bw Sw) as Hb1.
  rewrite !andb_true_iff, negb_true_iff in Hr. destruct Hr as [[[[Hr1 Hr2] Hr3] Hr4] Hr5].
  apply Z.eqb_eq in Hr3, Hr4. apply negb_true_iff, bool_decide_eq_false in Hr5.
  eapply wpp_new_client; [exact (lo_clients _ _ _ _ _ _ Hb1)|by split|exact Hr5|apply (lo_server _ _ _ _ _ _ Hb)
    |apply (lo_server _ _ _ _ _ _ Hb)|done|done|].
  intros rc l' h' r Hc Ha. wpp_step. apply HQ; [|done]. eapply loop_client; [exact Hb1|exact Hc| |lia].
  intros x. by rewrite (held_adds _ _ _ Ha).
Qed.

Lemma wpp_event ev b h (Q : unit -> bridge -> hist -> Prop) : LO b h -> d_quitting (br_dev b) = false -> br_have_netif b = true ->
  bridge_ready sizeof_tcp_client ev b h = true ->
  (forall b' h', LO b' h' -> br_have_netif b' = true -> (ev = BStop -> d_quitting (br_dev b') = true) -> Q tt b' h') ->
  wpp (run_bridge_event sizeof_tcp_client ev) b h Q.
Proof.
  intros Hb Hq Hh Hr HQ. destruct ev as [| |ev|p lip rip lport rport mem js|a ev]; cbn [run_bridge_event].
  - unfold bridge_stop_pipe_handler. wpp_step. wpp_step. wpp_step. apply wpp_drain. intros h1 Ha.
    eapply wpp_loop_terminate; [by eapply loop_quiet|done|]. intros h2 d hd Hb' Hd. by apply HQ.
  - unfold tcp_timer_handler, tun_call_. do 5 wpp_step. apply wpp_passert; [simpl; by rewrite Hq|].
    repeat wpp_step.
    assert (Hb1 : forall t m h', adds h h' -> LO (b <| br_timer := t |> <| br_tcp_timer_mod4 := m |>) h').
    { intros t m h' Ha. eapply loop_quiet; [|exact Ha]. destruct Hb as [L1 L2 L3 L4 L5 L6 L7 L8 L9]. constructor; try done; [by destruct L3|by destruct L4]. }
    destruct (_ =? 0); repeat wpp_step; (apply HQ; [|done..]); apply (Hb1 true); repeat (apply adds_cons; [done|]); reflexivity.
  - cbn [bridge_ready] in Hr. apply bool_decide_eq_true in Hr. destruct (lo_dev _ _ _ _ _ _ Hb) as (handled & [Hq'|[ph Hp]]); [congruence|].
    eapply wpp_loop_dev; [exact Hb|intros; apply keeps_dev_run| |].
    + eapply wpp_mono; [apply (wpp_dev_run (reads_from _ _ Hreads) _ _ _ _ _ Hp Hr)|]. intros [] d hd Hok. by eexists.
    + intros [] h' d hd Hb' _. by apply HQ.
  - eapply wpp_accept_connection; [done..|]. intros b' h' Hb' Hh'. by apply HQ.
  - cbn [bridge_ready] in Hr. destruct (br_clients b !! a) as [l|] eqn:El; [|done]. apply andb_true_iff in Hr as [Hr _].
    wpp_step. eapply wpp_on_client; [apply (lo_clients _ _ _ _ _ _ Hb)|exact El|by apply tcp_enabledb_ok|].
    intros rc l' h' Hc Ha _. wpp_step. apply HQ; [|done..]. eapply loop_client; [done|done|intros r; by apply held_adds|].
    intros _. by apply accepts_adds.
Qed.

Lemma wpp_exec_events evs b h (Q : unit -> bridge -> hist -> Prop) :
  (if d_quitting (br_dev b) then Q tt b h else
   match evs with
   | [] => False
   | ev :: evs =>
       if bridge_ready sizeof_tcp_client ev b h
       then wpp (run_bridge_event sizeof_tcp_client ev) b h (fun _ b' h' => wpp (exec_events sizeof_tcp_client evs) b' h' Q)
       else wpp (exec_events sizeof_tcp_client evs) b h Q
   end) -> wpp (exec_events sizeof_tcp_client evs) b h Q.
Proof.
  intros HQ. destruct evs as [|ev evs]; cbn [exec_events]; wpp_step; wpp_step; destruct (d_quitting (br_dev b)); try (by wpp_step); [done|].
  wpp_step. unfold wpp at 1. destruct (bridge_ready _ _ _ _); exact HQ.
Qed.
(** A stop is in the schedule: the loop ends, in order. *)
Lemma wpp_exec evs b h (Q : unit -> bridge -> hist -> Prop) : LO b h -> br_have_netif b = true ->
  BStop ∈ evs \/ d_quitting (br_dev b) = true ->
  (forall b' h', LO b' h' -> br_have_netif b' = true -> Q tt b' h') -> wpp (exec_events sizeof_tcp_client evs) b h Q.
Proof.
  revert b h. induction evs as [|ev evs IH]; intros b h Hb Hh Hs HQ; apply wpp_exec_events;
    (destruct (d_quitting (br_dev b)) eqn:Eq; [by apply HQ|]).
  - destruct Hs as [Hs%not_elem_of_nil|]; done.
  - destruct (bridge_ready sizeof_tcp_client ev b h) eqn:Er.
    + eapply wpp_event; [done..|]. intros b' h' Hb' Hh' Hst. apply IH; [done..| |done].
      destruct Hs as [[<-|Hs]%elem_of_cons|]; [right; by apply Hst|by left|done].
    + apply IH; [done..| |done]. destruct Hs as [[<-|Hs]%elem_of_cons|]; [done|by left|done].
Qed.

(** *** After the loop *)
Lemma wpp_murder_clients fuel b h (Q : unit -> bridge -> hist -> Prop) : LO b h -> (length (br_tcp_clients b) <= fuel)%nat ->
  (forall b' h', LO b' h' -> br_tcp_clients b' = [] -> br_have_netif b' = br_have_netif b -> Q tt b' h') ->
  wpp (murder_clients fuel) b h Q.
Proof.
  revert b h. induction fuel as [|fuel IH]; intros b h Hb Hf HQ; cbn [murder_clients]; wpp_step; wpp_step;
    destruct (br_tcp_clients b) as [|a l] eqn:El; [wpp_step; by apply HQ|simpl in Hf; lia|wpp_step; by apply HQ|].
  pose proof (lo_clients _ _ _ _ _ _ Hb) as Hc.
  assert (is_Some (br_clients b !! a)) as [lk Elk] by (apply (cs_in _ Hc); rewrite El; apply list_elem_of_here).
  destruct (ck_alive _ _ (cs_each _ Hc _ _ Elk)) as (cl & Ecl & _).
  wpp_step. eapply wpp_on_client; [exact Hc|exact Elk|by exists cl|]. intros rc l' h' Hc' Ha Hlen. specialize (Hlen eq_refl).
  apply IH.
  - eapply loop_client; [done|done|intros r; by apply held_adds|]. intros _. by apply accepts_adds.
  - rewrite El in Hlen. simpl in *. lia.
  - intros b' h2 Hb' Hn Hh. by apply HQ.
Qed.
End loop.
