(* ===== verification/BridgeProps.v ===== *)
(** [tun2socks_bridge_run]: from start to stop, on every path. What the program took of
    the system it has given back, but for the duplicate of the device's descriptor; and
    which starts accept connections. *)
From S2P Require Import Prelude CMem Sys Mpool Flow Chunk SocksClient SocksClientFacts TcpClient TcpClientFacts TcpClientProps.
From S2P Require Import Packet Device DevicePump Addr AddrFacts AddrProps Lwip LwipFacts Bridge BridgeFrame BridgeFacts.
From stdpp Require Import gmap.
#[local] Open Scope Z_scope.

(** The descriptors of a pipe are not negative. *)
Definition pipe_ok (OS : Os) : Prop := forall h, 0 <= rv (os_reply h CPipe) ->
  0 <= byte_at (rdata (os_reply h CPipe)) 0 /\ 0 <= byte_at (rdata (os_reply h CPipe)) 1.

Definition no_dev_jobs (d : dev) : bool :=
  negb (pri_job_operation (t_output (d_tap d))) && negb (pri_job_done (t_output (d_tap d)))
  && negb (ppi_job_operation (d_read_if d)) && negb (ppi_job_done (d_read_if d)).

(** Outside the loop: no job, no timer, no client, no listener, no interface; [extra] is
    what is held beyond what was held at the start. *)
Record stage (n0 acc0 : Z) (hs0 : resource -> Z) (num : Z) (extra : resource -> Z) (b : bridge) (h : hist) : Prop := Stage {
  sg_jobs : br_init_job b = false /\ br_timer b = false;
  sg_dev : no_dev_jobs (br_dev b) = true;
  sg_lwip : blocks LISTEN_NETIF [] None [] (br_lwip b) /\ l_netif_list (br_lwip b) = [] /\ l_netif_num (br_lwip b) = num;
  sg_clients : br_tcp_clients b = [] /\ br_clients b = ∅ /\ br_num_clients b = 0;
  sg_ip6 : zlen (br_netif_ip6addr b) = 16 /\ bytes_ok (br_netif_ip6addr b);
  sg_held : forall r, held r h = hs0 r + extra r;
  sg_accepts : n0 <> 0 -> accepts h = acc0 }.
Definition leak_of (leak : option Z) (r : resource) : Z := match leak with Some fd => one r (RFd fd) | None => 0 end.

(** ** The device's buffer *)
Section single.
Context {OS : Os}.
(** What [BTap_Init2] has made of the descriptor. *)
Definition opened (fd mtu : Z) (d : dev) : Prop :=
  d_tap d = BTap_ false fd mtu 0 (PacketRecvInterface_ STATE_NONE mtu false 0 false 0) None /\ d_quitting d = false.

(** [SinglePacketBuffer_Init] asks the device for the first packet. *)
Lemma wpp_single_init fd mtu d h (Q : bool -> dev -> hist -> Prop) : 0 <= mtu -> opened fd mtu d ->
  d_read_if d = PacketPassInterface_ STATE_NONE mtu false 0 0 false false false false ->
  (forall rep, Q false d ((CTun (BAlloc mtu), rep) :: h)) ->
  (forall rep b, bytes_ok b -> zlen b = mtu ->
     Q true (d <| d_buf := b |> <| d_tap := (d_tap d) <| t_output := PacketRecvInterface_ STATE_OPERATION_PENDING mtu true 0 false 0 |> |>)
       ((CTun (BAlloc mtu), rep) :: h)) ->
  wpp SinglePacketBuffer_Init d h Q.
Proof.
  intros Hm [Et _] Er HN HS. unfold SinglePacketBuffer_Init, tun_. wpp_step. wpp_step. rewrite Et, Er. cbn.
  wpp_step. apply wpp_passert; [apply Z.leb_refl|]. wpp_step. wpp_step. destruct (_ =? 0); [wpp_step; apply HN|].
  unfold single_receive, gtap, mtap. repeat wpp_step. simpl. rewrite Et. simpl. rewrite pri_recv_ok by done. apply wp_ok. repeat wpp_step.
  destruct d as [q tp buf ri wb um umtu i6 dns ip]. simpl in *. subst tp.
  apply (HS _ (resize_block (Z.to_nat mtu) [] (rdata (os_reply h (CTun (BAlloc mtu)))))); [apply bytes_resize_block; constructor|].
  rewrite zlen_resize_block. lia.
Qed.

(** [BTap_Init2] on a descriptor: it is watched, or nothing was taken. *)
Lemma wpp_init_fd fd mtu d h (Q : bool -> dev -> hist -> Prop) : 0 <= fd -> 0 <= mtu -> d_quitting d = false -> no_dev_jobs d = true ->
  (forall d' rep, no_dev_jobs d' = true -> Q false d' ((CTun (Fcntl fd), rep) :: h)) ->
  (forall d' rep1 rep2, no_dev_jobs d' = true -> rv rep2 = 0 -> Q false d' ((CTun (AddFd fd), rep2) :: (CTun (Fcntl fd), rep1) :: h)) ->
  (forall d' rep1 rep2, no_dev_jobs d' = true -> opened fd mtu d' -> rv rep2 <> 0 ->
     Q true d' ((CTun (AddFd fd), rep2) :: (CTun (Fcntl fd), rep1) :: h)) ->
  wpp (BTap_Init2 BTAP_DEV_TUN (BTAP_INIT_FD fd mtu)) d h Q.
Proof.
  intros Hf Hm Hq Hj H1 H2 H3. unfold BTap_Init2, tap_open, tap_fail1, mtap, gtap, tun_. repeat wpp_step.
  apply wpp_passert; [by apply Z.leb_le|]. wpp_step. apply wpp_passert; [by apply Z.leb_le|]. wpp_step. apply wpp_passert; [done|]. repeat wpp_step.
  simpl. destruct (_ <? 0); [repeat wpp_step; simpl; repeat wpp_step; by apply H1|]. repeat wpp_step.
  destruct (Z.eqb_spec (rv (os_reply ((CTun (Fcntl fd), os_reply h (CTun (Fcntl fd))) :: h) (CTun (AddFd fd)))) 0);
    [repeat wpp_step; simpl; repeat wpp_step; by apply H2|].
  repeat wpp_step. unfold PacketRecvInterface_Init, assert_. destruct (Z.leb_spec 0 mtu); [|lia]. apply wp_ok. repeat wpp_step.
  apply H3; [|split; [done|exact Hq]|done]. unfold no_dev_jobs in *. simpl. rewrite !andb_true_iff in Hj. destruct Hj as [[_ Ha] Hb]. by rewrite Ha, Hb.
Qed.
End single.

Section run.
Context {OS : Os} (sizeof_tcp_client : Z) (junk : list Z).
Context (Hreads : reads_ok OS) (Hdrained : drained OS) (Hgai : getaddrinfo_ok OS) (Hpipe : pipe_ok OS).
Context (Hjunk : zlen junk = 4 /\ bytes_ok junk).
Context (n0 acc0 : Z) (hs0 : resource -> Z) (Hn0 : 0 <= n0 <= 254) (Hw0 : hs0 RWatch = 0).
Abbreviation SG := (stage n0 acc0 hs0).
Definition ended (num : Z) (leak : option Z) (b : bridge) (h : hist) : Prop :=
  SG num (leak_of leak) b h /\ br_stop_pipe b = (-1, -1).

(** ** Failing *)
Lemma stage_call num extra extra' b h c rep : SG num extra b h -> (forall sz, c <> CMalloc sz) ->
  (forall r, delta r c rep + extra r = extra' r) -> SG num extra' b ((c, rep) :: h).
Proof.
  intros [S1 S2 S3 S4 S5 S6 S7] Hc He. constructor; try done.
  - intros r. simpl. rewrite S6. specialize (He r). lia.
  - intros Hn. simpl. destruct c; auto. by destruct (Hc n).
Qed.
Lemma stage_adds num extra b h h' : SG num extra b h -> adds h h' -> SG num extra b h'.
Proof.
  intros [S1 S2 S3 S4 S5 S6 S7] Ha. constructor; try done; [intros r; by rewrite (held_adds _ _ _ Ha)|].
  intros Hn. rewrite (accepts_adds _ _ Ha). auto.
Qed.
Lemma stage_ext num extra extra' b h : SG num extra b h -> (forall r, extra r = extra' r) -> SG num extra' b h.
Proof. intros [S1 S2 S3 S4 S5 S6 S7] He. constructor; try done. intros r. by rewrite S6, He. Qed.

Lemma wpp_fail_log num leak b h (Q : Z -> bridge -> hist -> Prop) : ended num leak b h ->
  (forall b' h', ended num leak b' h' -> Q (-1) b' h') -> wpp fail_log b h Q.
Proof.
  intros [Hs Hp] HQ. unfold fail_log, free_password. wpp_step. wpp_step. wpp_step. apply HQ. split; [by destruct Hs|done].
Qed.
Lemma wpp_reactor_free num extra b h (Q : unit -> bridge -> hist -> Prop) : SG num (fun r => one r RReactor + extra r) b h ->
  extra RWatch = 0 -> (forall h', SG num extra b h' -> Q tt b h') -> wpp BReactor_Free b h Q.
Proof.
  intros Hs He HQ. unfold BReactor_Free. wpp_step. unfold wpp at 1.
  assert (reactor_idle b h = true) as ->.
  { destruct Hs as [[S1 S1'] S2 _ _ _ S6 _]. unfold reactor_idle. rewrite S1, S1', S6, Hw0, He. unfold no_dev_jobs in S2.
    rewrite !andb_true_iff in S2. destruct S2 as [[[-> ->] ->] ->]. done. }
  unfold tun_call_. wpp_step. wpp_step. wpp_step. apply HQ. eapply stage_call; [exact Hs|done|]. intros r. simpl. lia.
Qed.
Lemma wpp_fail_reactor num leak b h (Q : Z -> bridge -> hist -> Prop) : SG num (fun r => one r RReactor + leak_of leak r) b h ->
  br_stop_pipe b = (-1, -1) -> (forall b' h', ended num leak b' h' -> Q (-1) b' h') -> wpp fail_reactor b h Q.
Proof.
  intros Hs Hp HQ. unfold fail_reactor. wpp_step. eapply wpp_reactor_free; [exact Hs|by destruct leak|].
  intros h' Hs'. eapply wpp_fail_log; [by split|done].
Qed.
Lemma stage_pipe num extra b h p : SG num extra b h -> SG num extra (b <| br_stop_pipe := p |>) h.
Proof. by intros []. Qed.
Lemma wpp_fail_pipe num leak p0 p1 b h (Q : Z -> bridge -> hist -> Prop) : br_stop_pipe b = (p0, p1) -> 0 <= p0 -> 0 <= p1 ->
  SG num (fun r => one r (RFd p0) + one r (RFd p1) + one r RReactor + leak_of leak r) b h ->
  (forall b' h', ended num leak b' h' -> Q (-1) b' h') -> wpp fail_pipe b h Q.
Proof.
  intros Hp H0 H1 Hs HQ. unfold fail_pipe. wpp_step. wpp_step. rewrite Hp. cbn [fst snd].
  destruct (Z.leb_spec 0 p0); [|lia]. destruct (Z.leb_spec 0 p1); [|lia]. repeat wpp_step.
  eapply wpp_fail_reactor; [|done|exact HQ]. apply stage_pipe.
  eapply (stage_call _ (fun r => one r (RFd p1) + one r RReactor + leak_of leak r)); [|done|intros r; simpl; lia].
  eapply stage_call; [exact Hs|done|intros r; simpl; lia].
Qed.
Lemma wpp_fail_stopfd num leak p0 p1 b h (Q : Z -> bridge -> hist -> Prop) : br_stop_pipe b = (p0, p1) -> 0 <= p0 -> 0 <= p1 ->
  SG num (fun r => one r RWatch + one r (RFd p0) + one r (RFd p1) + one r RReactor + leak_of leak r) b h ->
  (forall b' h', ended num leak b' h' -> Q (-1) b' h') -> wpp fail_stopfd b h Q.
Proof.
  intros Hp H0 H1 Hs HQ. unfold fail_stopfd, tun_call_. repeat wpp_step. eapply wpp_fail_pipe; [exact Hp|done|done| |exact HQ].
  eapply stage_call; [exact Hs|done|intros r; simpl; lia].
Qed.

(** ** Freeing the device *)
Definition stage_any_dev (num : Z) (extra : resource -> Z) (b : bridge) (h : hist) : Prop :=
  forall d hd, no_dev_jobs d = true -> SG num extra (b <| br_dev := d |> <| br_dev_h := hd |>) h.

Lemma wpp_free_read_interface b h (Q : unit -> bridge -> hist -> Prop) :
  Q tt (b <| br_dev := (br_dev b) <| d_read_if := PacketPassInterface_Free (d_read_if (br_dev b)) |> |> <| br_dev_h := br_dev_h b |>) h ->
  wpp free_read_interface b h Q.
Proof. intros HQ. unfold free_read_interface. apply wpp_on_dev. wpp_step. by rewrite splice_same. Qed.
Lemma wpp_free_buffer b h (Q : unit -> bridge -> hist -> Prop) :
  (forall rep, Q tt (b <| br_dev := br_dev b |> <| br_dev_h := (CFree (d_buf (br_dev b)), rep) :: br_dev_h b |>) ((CFree (d_buf (br_dev b)), rep) :: h)) ->
  wpp (on_dev (fun _ => SinglePacketBuffer_Free)) b h Q.
Proof. intros HQ. apply wpp_on_dev. unfold SinglePacketBuffer_Free. repeat wpp_step. rewrite splice_one. apply HQ. Qed.
(** Both interfaces are freed: the device has no job any more. *)
Lemma wpp_free_device num extra b h {A} (k : Prog bridge A) (Q : A -> bridge -> hist -> Prop) :
  stage_any_dev num (fun r => one r RWatch + extra r) b h -> t_close_fd (d_tap (br_dev b)) = false ->
  (forall d hd h', let b' := b <| br_dev := d |> <| br_dev_h := hd |> in SG num extra b' h' -> wpp k b' h' Q) ->
  wpp (free_read_interface;; on_dev (fun _ => BTap_Free);; k) b h Q.
Proof.
  intros Hs Hc HQ. wpp_step. apply wpp_free_read_interface. wpp_step. apply wpp_on_dev.
  unfold BTap_Free, mtap, gtap, tun_. repeat wpp_step. simpl. rewrite Hc. wpp_step. simpl. rewrite splice_one.
  match goal with |- wpp k ?b2 ?h2 Q => apply (HQ (br_dev b2) (br_dev_h b2) h2) end.
  eapply stage_call; [apply Hs|done|intros r; simpl; lia]. done.
Qed.

Lemma stage_dev num extra b h : SG num extra b h -> stage_any_dev num extra b h.
Proof. intros Hs d hd Hd. destruct Hs. by constructor. Qed.
Lemma any_dev_call num extra extra' b h c rep : stage_any_dev num extra b h -> (forall sz, c <> CMalloc sz) ->
  (forall r, delta r c rep + extra r = extra' r) -> stage_any_dev num extra' b ((c, rep) :: h).
Proof. intros Hs Hc He d hd Hd. eapply stage_call; [by apply Hs|done|done]. Qed.

Lemma wpp_fail_tap num leak p0 p1 b h (Q : Z -> bridge -> hist -> Prop) : br_stop_pipe b = (p0, p1) -> 0 <= p0 -> 0 <= p1 ->
  stage_any_dev num (fun r => one r RWatch + (one r RWatch + one r (RFd p0) + one r (RFd p1) + one r RReactor + leak_of leak r)) b h ->
  t_close_fd (d_tap (br_dev b)) = false ->
  (forall b' h', ended num leak b' h' -> Q (-1) b' h') -> wpp fail_tap b h Q.
Proof.
  intros Hp H0 H1 Hs Hc HQ. unfold fail_tap. eapply wpp_free_device; [exact Hs|done|]. intros d hd h' b' Hs'.
  eapply wpp_fail_stopfd; [exact Hp|done|done|exact Hs'|exact HQ].
Qed.

(** ** After the loop *)
Lemma clients_none b : clients_ok b -> br_tcp_clients b = [] -> br_clients b = ∅ /\ br_num_clients b = 0.
Proof.
  intros [_ _ C2 C3 _] E. rewrite C2, E. split; [|done]. apply map_eq. intros a. rewrite lookup_empty.
  apply eq_None_not_Some. rewrite <- C3, E. by apply not_elem_of_nil.
Qed.
(** The listeners end, the IPv6 one first; then the interface. *)
Lemma wpp_end_lwip b h {A} (k : Prog bridge A) (Q : A -> bridge -> hist -> Prop) : lwip_up n0 b -> br_have_netif b = true ->
  (forall w rep, blocks LISTEN_NETIF [] None [] w -> l_netif_list w = [] -> l_netif_num w = (n0 + 1) mod 255 ->
     wpp k (b <| br_lwip := w |>) ((CTun NetifRemove, rep) :: h) Q) ->
  wpp ((match br_listener_ip6 b with Some l => _ ← on_lwip (tcp_close_idle l); mret tt | None => mret tt end);;
       (match br_listener b with Some l => _ ← on_lwip (tcp_close_idle l); mret tt | None => mret tt end);;
       (if br_have_netif b then on_lwip (netif_remove the_netif) else mret tt);; k) b h Q.
Proof.
  intros [(ls & Hb & El) Hn] Hh HQ. rewrite Hh in Hn |- *.
  assert (Hend : forall w, blocks LISTEN_NETIF [] None [] w -> same_netifs (br_lwip b) w ->
    wpp (on_lwip (netif_remove the_netif);; k) (b <| br_lwip := w |>) h Q).
  { intros w Bw Sw. pose proof (netif_up_same _ _ _ _ Sw Hn) as (n & En & Ea & _ & _ & Ex). wpp_step. apply wpp_on_lwip.
    unfold netif_remove. wpp_step. wpp_step. wpp_step. wpp_step. wpp_step.
    destruct (bool_decide _); unfold netif_set_default; repeat wpp_step;
      (match goal with |- wpp k ?b2 _ Q => eapply (HQ (br_lwip b2)) end;
       [by destruct Bw|simpl in *; rewrite En; simpl; by rewrite Ea|exact Ex]). }
  assert (Hone : forall a ls' w (k2 : Prog bridge A), blocks LISTEN_NETIF ls' None [] w -> ls'.*1 = [a] -> same_netifs (br_lwip b) w ->
    (forall w', blocks LISTEN_NETIF [] None [] w' -> same_netifs (br_lwip b) w' -> wpp k2 (b <| br_lwip := w' |>) h Q) ->
    wpp ((_ ← on_lwip (tcp_close_idle a); mret tt);; k2) (b <| br_lwip := w |>) h Q).
  { intros a ls' w k2 Bw E Sw Hk. destruct ls' as [|[a' q] [|? ?]]; try done. injection E as ->.
    wpp_step. wpp_step. apply wpp_on_lwip. eapply wpp_close_listener; [exact Bw|]. intros w' Bw' Sw'. wpp_step.
    apply (Hk w' Bw'). by eapply same_netifs_trans. }
  destruct (br_listener_ip6 b) as [a6|], (br_listener b) as [a|]; simpl in El.
  - destruct ls as [|[a6' q6] [|[a' q] [|? ?]]]; try done. injection El as -> ->.
    wpp_step. wpp_step. apply wpp_on_lwip. eapply wpp_close_listener; [exact Hb|]. intros w' Bw' Sw'. wpp_step.
    apply (Hone a [(a, q)] w'); [done|done|done|exact Hend].
  - apply (Hone a6 ls (br_lwip b)); [done|done|done|]. intros w' Bw' Sw'. wpp_step. wpp_step. by apply Hend.
  - wpp_step. wpp_step. apply (Hone a ls (br_lwip b)); [done|done|done|exact Hend].
  - wpp_step. wpp_step. wpp_step. wpp_step. apply fmap_nil_inv in El. subst. by apply (Hend (br_lwip b)).
Qed.

Lemma mod_255_range : 0 <= (n0 + 1) mod 255 <= 254.
Proof. pose proof (Z.mod_pos_bound (n0 + 1) 255). lia. Qed.


(** What is left once the loop's parts are gone. *)
Lemma loop_over_stage hs fds extra b h w : in_loop n0 acc0 hs fds b h -> br_tcp_clients b = [] ->
  blocks LISTEN_NETIF [] None [] w -> l_netif_list w = [] -> l_netif_num w = (n0 + 1) mod 255 ->
  (forall r, hs r = hs0 r + extra r) ->
  stage_any_dev ((n0 + 1) mod 255) extra (b <| br_lwip := w |> <| br_timer := false |> <| br_init_job := false |>) h.
Proof.
  intros [L1 L2 L3 L4 L5 L6 L7 L8 L9] Hnil Bw Lw Nw He d hd Hd. destruct (clients_none _ L3 Hnil).
  constructor; try done. intros r. rewrite L8. apply He.
Qed.

Lemma wpp_teardown p0 p1 leak hs b h (Q : Z -> bridge -> hist -> Prop) : in_loop n0 acc0 hs (p0, p1) b h -> br_have_netif b = true ->
  (forall r, hs r = hs0 r + (one r RUdp + (one r RWatch + (one r RWatch + one r (RFd p0) + one r (RFd p1) + one r RReactor + leak_of leak r)))) ->
  (forall b' h', ended ((n0 + 1) mod 255) leak b' h' -> Q 0 b' h') -> wpp bridge_teardown b h Q.
Proof.
  intros Hb Hh He HQ. unfold bridge_teardown. wpp_step. wpp_step. wpp_step.
  eapply wpp_murder_clients; [exact Hb|done|]. intros b1 h1 Hb1 Hnil Hh1. rewrite Hh in Hh1. wpp_step. wpp_step.
  pose proof (lo_pipe _ _ _ _ _ _ Hb1) as Hp. rewrite Hp. cbn [fst snd].
  apply wpp_end_lwip; [apply (lo_lwip _ _ _ _ _ _ Hb1)|done|]. intros w rep Bw Lw Nw.
  unfold tun_call_. repeat wpp_step. apply wpp_free_buffer. intros rep2.
  pose proof (loop_over_stage _ _ _ _ _ w Hb1 Hnil Bw Lw Nw He) as Hs.
  eapply (wpp_free_device _ (fun r => one r RWatch + one r (RFd p0) + one r (RFd p1) + one r RReactor + leak_of leak r)).
  - intros d hd Hd. eapply stage_adds; [|by apply adds_call].
    eapply (stage_call _ (fun r => one r RUdp + (one r RWatch + (one r RWatch + one r (RFd p0) + one r (RFd p1) + one r RReactor + leak_of leak r))));
      [|done|intros r; simpl; lia].
    eapply stage_adds; [exact (Hs d hd Hd)|]. by apply adds_cons, adds_call.
  - simpl. apply (lo_tap _ _ _ _ _ _ Hb1).
  - intros d hd h2 b2 Hs2. wpp_step. wpp_step. wpp_step. wpp_step. wpp_step. wpp_step. wpp_step. wpp_step. wpp_step.
    eapply (wpp_reactor_free _ (leak_of leak)); [|by destruct leak|].
    + apply stage_pipe. eapply (stage_call _ (fun r => one r (RFd p1) + one r RReactor + leak_of leak r)); [|done|intros r; simpl; lia].
      eapply (stage_call _ (fun r => one r (RFd p0) + one r (RFd p1) + one r RReactor + leak_of leak r)); [|done|intros r; simpl; lia].
      eapply stage_call; [exact Hs2|done|intros r; simpl; lia].
    + intros h3 Hs3. unfold free_password. wpp_step. wpp_step. wpp_step. apply HQ. split; [by destruct Hs3|done].
Qed.

(** ** Before the loop *)

(** What [process_arguments] has made of the configuration. *)
Record configured (b : bridge) : Prop := Configured {
  cf_types : bip_type (br_netif_ipaddr b) = BADDR_TYPE_IPV4 /\ bip_type (br_netif_netmask b) = BADDR_TYPE_IPV4;
  cf_server : ba_type (br_socks_server_addr b) <> BADDR_TYPE_NONE /\ auth_ok (br_auth_info b) }.
(** The UDP part is there: nothing can fail any more. *)
Lemma loop_begins p0 p1 leak b h d : configured b -> br_stop_pipe b = (p0, p1) ->
  stage_any_dev n0 (fun r => one r RUdp + (one r RWatch + (one r RWatch + one r (RFd p0) + one r (RFd p1) + one r RReactor + leak_of leak r))) b h ->
  device_started d -> t_close_fd (d_tap d) = false ->
  in_loop n0 acc0 (fun r => hs0 r + (one r RUdp + (one r RWatch + (one r RWatch + one r (RFd p0) + one r (RFd p1) + one r RReactor + leak_of leak r))))
    (p0, p1) (b <| br_dev := d |> <| br_init_job := false |> <| br_timer := true |> <| br_tcp_timer_mod4 := 0 |> <| br_have_netif := false |>
                <| br_listener := None |> <| br_listener_ip6 := None |>
                <| br_tcp_clients := [] |> <| br_num_clients := 0 |> <| br_dev_h := [] |>) h.
Proof.
  intros [_ Hsv] Hp Hs Hd Hc.
  set (d0 := d <| d_tap := BTap_ false 0 0 0 (PacketRecvInterface_ STATE_NONE 0 false 0 false 0) None |>
    <| d_read_if := PacketPassInterface_ STATE_NONE 0 false 0 0 false false false false |>).
  destruct (Hs d0 []) as [_ _ (S1 & S2 & S3) (S4 & S5 & S6) S7 S8 S9]; [reflexivity|].
  simpl in *. constructor; simpl; try done.
  - exists []. right. exists Asking. by apply started_pump.
  - constructor; simpl; [constructor|apply not_elem_of_nil|done| |]; rewrite S5; [|done].
    intros a. rewrite lookup_empty. split; [by intros ?%not_elem_of_nil|by intros []].
  - constructor; simpl; [by exists []|done].
Qed.

(** How a start ends: it failed, or the loop has run and the interface had a number. *)
Definition outcome (leak : option Z) (rc : Z) (b : bridge) (h : hist) : Prop :=
  rc = -1 /\ ended n0 leak b h \/ rc = 0 /\ ended ((n0 + 1) mod 255) leak b h.

(** lwIP's initialization, the events up to a stop, the end. *)
Lemma wpp_loop_and_end evs p0 p1 leak b h (Q : Z -> bridge -> hist -> Prop) : BStop ∈ evs ->
  in_loop n0 acc0 (fun r => hs0 r + (one r RUdp + (one r RWatch + (one r RWatch + one r (RFd p0) + one r (RFd p1) + one r RReactor + leak_of leak r)))) (p0, p1) b h ->
  before_init b -> (forall rc b' h', outcome leak rc b' h' -> Q rc b' h') ->
  wpp lwip_init_job_hadler b h (fun _ b h => wpp (exec_events sizeof_tcp_client evs) b h (fun _ b h => wpp bridge_teardown b h Q)).
Proof.
  intros Hst Hb Hbi HQ. eapply wpp_lwip_init; [exact Hb|exact Hbi|exact Hn0|]. intros b4 h4 Hb4 Hh4.
  eapply wpp_exec; [exact Hreads|exact Hdrained|exact Hb4|exact Hh4|by left|]. intros b5 h5 Hb5 Hh5.
  eapply wpp_teardown; [exact Hb5|exact Hh5|done|]. intros b' h' He. apply HQ. by right.
Qed.

(** The last allocation before the loop succeeds. *)
Definition write_buffer_ok : Prop := forall h n rep mtu, rv (os_reply ((CTun (UdpClientInit n), rep) :: h) (CTun (BAlloc mtu))) <> 0.

Lemma wpp_serve evs p0 p1 fd mtu leak b h (Q : Z -> bridge -> hist -> Prop) :
  write_buffer_ok -> BStop ∈ evs -> br_stop_pipe b = (p0, p1) -> 0 <= p0 -> 0 <= p1 -> 0 <= mtu < 2 ^ 31 ->
  opened fd mtu (br_dev b) -> configured b ->
  SG n0 (fun r => one r RWatch + (one r RWatch + one r (RFd p0) + one r (RFd p1) + one r RReactor + leak_of leak r)) b h ->
  (forall rc b' h', outcome leak rc b' h' -> Q rc b' h') -> wpp (bridge_serve sizeof_tcp_client evs) b h Q.
Proof.
  intros Hwb Hst Hp H0 H1 Hm [Et Eq] Hcf Hs HQ. unfold bridge_serve. wpp_step. apply wpp_on_dev. wpp_step. wpp_step. wpp_step. wpp_step.
  unfold BTap_GetMTU at 1. rewrite Et. cbn [t_frame_mtu]. unfold PacketPassInterface_Init, assert_. destruct (Z.leb_spec 0 mtu); [|lia].
  apply wp_ok. wpp_step. rewrite splice_same. set (d1 := (br_dev b) <| d_read_if := _ |>).
  assert (Hany : stage_any_dev n0 (fun r => one r RWatch + (one r RWatch + one r (RFd p0) + one r (RFd p1) + one r RReactor + leak_of leak r)) b h).
  { by apply stage_dev. }
  wpp_step. apply wpp_on_dev. eapply (wpp_single_init fd mtu); [lia|by split|done| |].
  { intros rep. simpl. rewrite splice_one. cbn [negb]. eapply wpp_fail_tap; [exact Hp|done|done| |simpl; by rewrite Et|].
    - intros d hd Hd. eapply stage_adds; [by apply (Hany d hd)|by apply adds_call].
    - intros b' h' He. apply HQ. by left. }
  intros rep buf Hb Hz. cbn [negb]. wpp_step. wpp_step. wpp_step. apply wpp_on_dev. wpp_step. unfold tun_call_. repeat wpp_step.
  match goal with |- wpp (if rv ?r =? 0 then _ else _) _ _ _ => assert (rv r <> 0) by apply Hwb; destruct (Z.eqb_spec (rv r) 0); [done|] end.
  wpp_step. apply wpp_on_dev. wpp_step. rewrite !splice_same, !splice_one. wpp_step. wpp_step. wpp_step. unfold BReactor_Exec. repeat wpp_step.
  match goal with |- wpp _ ?b2 ?h2 _ => assert (Hb2 : in_loop n0 acc0 (fun r => hs0 r + (one r RUdp + (one r RWatch + (one r RWatch + one r (RFd p0) + one r (RFd p1) + one r RReactor + leak_of leak r)))) (p0, p1) b2 h2) end.
  { match goal with |- in_loop _ _ _ _ ?b2 ?h2 => refine (loop_begins p0 p1 leak b h2 (br_dev b2) Hcf Hp _ _ _) end.
    - eapply any_dev_call; [|done|intros r; reflexivity].
      eapply (any_dev_call _ (fun r => one r RWatch + (one r RWatch + one r (RFd p0) + one r (RFd p1) + one r RReactor + leak_of leak r)));
        [|done|intros r; reflexivity].
      eapply any_dev_call; [exact Hany|done|intros r; reflexivity].
    - exists mtu. simpl. rewrite Et. unfold BTap_GetMTU. simpl. split_and!; try done.
      + lia.
      + unfold PacketPassInterface_Init, assert_. by destruct (Z.leb_spec 0 mtu); [|lia].
      + apply bytes_resize_block. constructor.
      + rewrite zlen_resize_block. lia.
    - simpl. by rewrite Et. }
  eapply wpp_loop_and_end; [exact Hst|exact Hb2|constructor; [exact Eq|apply Hcf|done|done]|exact HQ].
Qed.

Lemma wpp_open cfg evs p0 p1 b h (Q : Z -> bridge -> hist -> Prop) :
  write_buffer_ok -> BStop ∈ evs -> br_stop_pipe b = (p0, p1) -> 0 <= p0 -> 0 <= p1 -> c_mtu cfg < 2 ^ 31 ->
  d_quitting (br_dev b) = false -> configured b ->
  SG n0 (fun r => one r RWatch + one r (RFd p0) + one r (RFd p1) + one r RReactor + 0) b h ->
  (forall rc b' h' leak, outcome leak rc b' h' -> (rc = 0 -> exists fd, leak = Some fd /\ 0 <= fd) -> Q rc b' h') ->
  wpp (bridge_open sizeof_tcp_client cfg evs) b h Q.
Proof.
  intros Hwb Hst Hp H0 H1 Hm Hq Hcf Hs HQ. unfold bridge_open, tun_call_. wpp_step. wpp_step. set (dup := os_reply h _).
  assert (Hfail : forall b h, br_stop_pipe b = (p0, p1) ->
    SG n0 (fun r => one r RWatch + one r (RFd p0) + one r (RFd p1) + one r RReactor + 0) b h -> wpp fail_stopfd b h Q).
  { intros b1 h1 Hp1 Hs1. eapply (wpp_fail_stopfd _ None); [exact Hp1|done|done|exact Hs1|]. intros b' h' He. apply (HQ _ _ _ None); [by left|done]. }
  destruct (Z.ltb_spec (rv dup) 0) as [Hd|Hd].
  { apply Hfail; [done|]. eapply stage_call; [exact Hs|done|]. intros r. simpl. by destruct (Z.ltb_spec (rv dup) 0); [|lia]. }
  assert (Hs1 : forall d hd rep, no_dev_jobs d = true ->
    SG n0 (fun r => one r (RFd (rv dup)) + (one r RWatch + one r (RFd p0) + one r (RFd p1) + one r RReactor + 0))
      (b <| br_dev := d |> <| br_dev_h := hd |>) ((CTun (Fcntl (rv dup)), rep) :: (CTun (Dup (c_tun_fd cfg)), dup) :: h)).
  { intros d hd rep Hj. eapply stage_adds; [|by apply adds_call]. eapply stage_call; [apply stage_dev; [exact Hs|exact Hj]|done|]. intros r. simpl. by destruct (Z.ltb_spec (rv dup) 0); [lia|]. }
  repeat wpp_step. apply wpp_on_dev. set (mtu := if _ <? _ then _ else _). assert (0 <= mtu < 2 ^ 31) by (unfold mtu; case_match; lia).
  eapply wpp_init_fd; [done|lia|done|by destruct Hs| | |].
  - intros d' rep Hj. cbn [negb]. wpp_step. wpp_step. apply Hfail; [done|].
    eapply stage_call; [by apply (Hs1 d' _ rep)|done|intros r; simpl; lia].
  - intros d' rep1 rep2 Hj Hr. cbn [negb]. wpp_step. wpp_step. apply Hfail; [done|].
    eapply (stage_call _ (fun r => one r (RFd (rv dup)) + (one r RWatch + one r (RFd p0) + one r (RFd p1) + one r RReactor + 0)));
      [|done|intros r; simpl; lia].
    eapply stage_call; [by apply (Hs1 d' _ rep1)|done|]. intros r. simpl. by rewrite Hr.
  - intros d' rep1 rep2 Hj Hop Hr. cbn [negb].
    eapply (wpp_serve _ p0 p1 (rv dup) mtu (Some (rv dup))); [done|done|exact Hp|done|done|done|exact Hop|by destruct Hcf| |].
    + eapply stage_call; [by apply (Hs1 d' _ rep1)|done|]. intros r. simpl. destruct (Z.eqb_spec (rv rep2) 0); [done|]. lia.
    + intros rc b' h' Ho. apply (HQ _ _ _ _ Ho). intros _. by exists (rv dup).
Qed.

(** ** The arguments *)
Lemma keeps_resolve_ip str noresolve : keeps hist_only (BIPAddr_Resolve str noresolve : Prog bridge (option BIPAddr)).
Proof. unfold BIPAddr_Resolve, getaddrinfo. repeat keeps_step hist_side. Qed.
Lemma keeps_parse2 str noresolve : keeps hist_only (BAddr_Parse2 str noresolve : Prog bridge (option BAddr)).
Proof. unfold BAddr_Parse2, getaddrinfo. repeat keeps_step hist_side. Qed.

Lemma wpp_server_and_auth num extra b h (Q : bool -> bridge -> hist -> Prop) : SG num extra b h ->
  op_username (br_options b) = None -> op_udpgw (br_options b) = None ->
  bip_type (br_netif_ipaddr b) = BADDR_TYPE_IPV4 -> bip_type (br_netif_netmask b) = BADDR_TYPE_IPV4 ->
  (forall ok b' h', SG num extra b' h' -> br_stop_pipe b' = br_stop_pipe b -> (ok = true -> configured b') -> Q ok b' h') ->
  wpp server_and_auth b h Q.
Proof.
  intros Hs Hu Hg T1 T2 HQ. unfold server_and_auth. wpp_step. wpp_step. wpp_step. eapply (wpp_keeps hist_only); [apply keeps_parse2|].
  apply wpp_parse2; [done|]. intros [server|] h1 Hsv Ha; unfold hist_only in Ha; cbn [snd] in Ha;
    (apply (stage_adds _ _ _ _ h1) in Hs; [|done]); [|wpp_step; by apply HQ].
  unfold process_auth. repeat wpp_step. simpl. rewrite Hu. wpp_step. cbn [negb]. rewrite Hg. wpp_step.
  apply HQ; [by destruct Hs|done|]. intros _. constructor; [done|]. simpl. split; [|by repeat constructor].
  destruct Hsv as [[E|E] _]; by rewrite E.
Qed.
(** The library's configuration has no user name and no gateway for UDP. *)
Lemma wpp_process_arguments num extra b h (Q : bool -> bridge -> hist -> Prop) : SG num extra b h ->
  br_password_file_contents b = None -> op_username (br_options b) = None -> op_udpgw (br_options b) = None ->
  (forall ok b' h', SG num extra b' h' -> br_stop_pipe b' = br_stop_pipe b -> (ok = true -> configured b') -> Q ok b' h') ->
  wpp (process_arguments junk) b h Q.
Proof.
  intros Hs Hpw Hu Hg HQ. unfold process_arguments. wpp_step. wpp_step. wpp_step. apply wpp_passert; [by rewrite Hpw|]. wpp_step.
  eapply (wpp_keeps hist_only); [apply keeps_resolve_ip|]. apply wpp_resolve_ip; [done|]. intros [ip|] h1 _ Ha1; unfold hist_only in Ha1; cbn [snd] in Ha1;
    (apply (stage_adds _ _ _ _ h1) in Hs; [|done]); [|wpp_step; by apply HQ].
  wpp_step. wpp_step. destruct (Z.eqb_spec (bip_type ip) BADDR_TYPE_IPV4) as [Et1|]; cbn [negb]; [|wpp_step; apply HQ; [by destruct Hs|done..]].
  wpp_step. eapply (wpp_keeps hist_only); [apply keeps_resolve_ip|]. apply wpp_resolve_ip; [done|]. intros [mask|] h2 _ Ha2; unfold hist_only in Ha2; cbn [snd] in Ha2;
    (apply (stage_adds _ _ _ _ h2) in Hs; [|done]); [|wpp_step; apply HQ; [by destruct Hs|done..]].
  wpp_step. wpp_step. destruct (Z.eqb_spec (bip_type mask) BADDR_TYPE_IPV4) as [Et2|]; cbn [negb]; [|wpp_step; apply HQ; [by destruct Hs|done..]].
  wpp_step. destruct (op_netif_ip6addr (br_options b)) as [s|]; [|wpp_step; cbn [negb]; eapply wpp_server_and_auth; [by destruct Hs|done..]].
  wpp_step. wpp_step. destruct (sg_ip6 _ _ _ _ _ _ _ Hs) as [Hz Hb]. eapply wp_mono; [apply wp_parse_ipv6; [done|done|apply Hjunk..]|].
  intros [a|] Ha; [|wpp_step; cbn [negb]; wpp_step; apply HQ; [by destruct Hs|done..]].
  repeat wpp_step. cbn [negb]. eapply wpp_server_and_auth; [by destruct Hs; constructor|done..].
Qed.

(** ** The whole *)
Definition run_ends (b0 : bridge) (Q : Z -> bridge -> hist -> Prop) : Prop :=
  forall rc b' h' leak, outcome leak rc b' h' -> (rc = 0 -> exists fd, leak = Some fd /\ 0 <= fd) -> Q rc b' h'.

(** From the reactor to the device. *)
Lemma wpp_start cfg evs b h (Q : Z -> bridge -> hist -> Prop) : write_buffer_ok -> BStop ∈ evs -> c_mtu cfg < 2 ^ 31 ->
  SG n0 (fun r => one r RReactor + 0) b h -> br_stop_pipe b = (-1, -1) -> configured b -> run_ends b Q ->
  wpp (bridge_start sizeof_tcp_client cfg evs) b h Q.
Proof.
  intros Hwb Hst Hm Hs Hp Hcf HQ. unfold bridge_start. wpp_step. wpp_step. wpp_step. apply wpp_on_dev. wpp_step. rewrite splice_same. wpp_step. wpp_step.
  assert (Hs1 : SG n0 (fun r => one r RReactor + 0) (b <| br_dev := (br_dev b) <| d_quitting := false |>
        <| d_ip6 := bool_decide (is_Some (op_netif_ip6addr (br_options b))) |>
        <| d_transparent_dns := false |> <| d_netif_ipaddr := bip_ip (br_netif_ipaddr b) |> |> <| br_dev_h := br_dev_h b |>) h)
    by (by apply stage_dev; [|apply Hs]).
  pose proof (Hpipe h) as Hpip. set (p := os_reply h CPipe) in *.
  assert (Hfail : forall leak, leak = None -> forall b' h', ended n0 leak b' h' -> Q (-1) b' h').
  { intros leak -> b' h' He. apply (HQ _ _ _ None); [by left|done]. }
  destruct (Z.ltb_spec (rv p) 0) as [Hn|Hn].
  { eapply (wpp_fail_reactor _ None); [|exact Hp|by apply Hfail].
    eapply stage_call; [exact Hs1|done|]. intros r. simpl. by destruct (Z.ltb_spec (rv p) 0); [|lia]. }
  destruct (Hpip Hn) as [H0 H1]. set (p0 := byte_at (rdata p) 0) in *. set (p1 := byte_at (rdata p) 1) in *.
  cbv zeta. cbn [fst snd]. unfold tun_call_. wpp_step. wpp_step. wpp_step. wpp_step.
  match goal with |- wpp _ ?b2 ?h2 _ => assert (Hs2 : forall rep, SG n0 (fun r => one r (RFd p0) + one r (RFd p1) + one r RReactor + 0) b2 ((CTun (Fcntl p0), rep) :: (CPipe, p) :: h)) end.
  { intros rep. eapply stage_adds; [|by apply adds_call]. eapply stage_call; [apply stage_pipe, Hs1|done|]. intros r. simpl.
    destruct (Z.ltb_spec (rv p) 0); [lia|]. fold p0 p1. lia. }
  destruct (_ <? 0). { eapply (wpp_fail_pipe _ None p0 p1); [done|done|done|apply Hs2|by apply Hfail]. }
  wpp_step. wpp_step. set (rep2 := os_reply _ (CTun (AddFd p0))). destruct (Z.eqb_spec (rv rep2) 0) as [Hz|Hz].
  { eapply (wpp_fail_pipe _ None p0 p1); [done|done|done| |by apply Hfail].
    eapply stage_call; [apply Hs2|done|]. intros r. simpl. by rewrite Hz. }
  wpp_step. wpp_step. eapply wpp_open; [done|done|done|done|done|done|done|by destruct Hcf| |exact HQ].
  eapply stage_adds; [|by apply adds_call]. eapply stage_call; [apply Hs2|done|]. intros r. simpl.
  destruct (Z.eqb_spec (rv rep2) 0); [done|]. lia.
Qed.

Lemma wpp_run cfg evs b h (Q : Z -> bridge -> hist -> Prop) : write_buffer_ok -> BStop ∈ evs -> c_mtu cfg < 2 ^ 31 ->
  SG n0 (fun _ => 0) b h -> br_stop_pipe b = (-1, -1) -> run_ends b Q -> wpp (tun2socks_bridge_run sizeof_tcp_client junk cfg evs) b h Q.
Proof.
  intros Hwb Hst Hm Hs Hp HQ. unfold tun2socks_bridge_run.
  assert (Hend : forall b' h', SG n0 (fun _ => 0) b' h' -> br_stop_pipe b' = (-1, -1) -> Q (-1) b' h').
  { intros b' h' Hs' Hp'. apply (HQ _ _ _ None); [|done]. left. split; [done|]. by split. }
  assert (Hlog : forall b' h', SG n0 (fun _ => 0) b' h' -> br_stop_pipe b' = (-1, -1) -> wpp fail_log b' h' Q).
  { intros b' h' Hs' Hp'. eapply (wpp_fail_log _ None); [by split|]. intros b2 h2 [Hs2 Hp2]. by apply Hend. }
  destruct (c_netif_ipaddr cfg) as [ip|]; [|wpp_step; by apply Hend]. destruct (c_netif_netmask cfg) as [mask|]; [|wpp_step; by apply Hend].
  destruct (c_socks_server_addr cfg) as [server|]; [|wpp_step; by apply Hend].
  destruct (_ <? 0); [wpp_step; by apply Hend|]. unfold free_password, tun_call_. repeat wpp_step.
  destruct (_ =? 0); [apply Hlog; [eapply stage_adds; [by destruct Hs|by apply adds_call]|done]|]. repeat wpp_step.
  eapply (wpp_process_arguments n0 (fun _ => 0)); [eapply stage_adds; [destruct Hs; by constructor|by apply adds_call]|done..|].
  intros [|] b1 h1 Hs1 Hp1 Hcf; cbn [negb]; [|apply Hlog; [done|by rewrite Hp1]]. repeat wpp_step.
  destruct (Z.eqb_spec (rv (os_reply h1 (CTun ReactorInit))) 0) as [Hz|Hz].
  - apply Hlog; [|by rewrite Hp1]. eapply stage_call; [exact Hs1|done|]. intros r. simpl. by rewrite Hz.
  - eapply wpp_start; [done|done|done| |by rewrite Hp1|by apply Hcf|exact HQ].
    eapply stage_call; [exact Hs1|done|]. intros r. simpl. by destruct (Z.eqb_spec (rv (os_reply h1 (CTun ReactorInit))) 0).
Qed.
End run.

(** ** A process that is not running the loop *)

(** No job and no timer is set; lwIP has no block, no listener and no interface; there is
    no client, no stop pipe, and no descriptor is watched. *)
Record idle (b : bridge) (h : hist) : Prop := Idle {
  id_jobs : br_init_job b = false /\ br_timer b = false /\ no_dev_jobs (br_dev b) = true;
  id_lwip : l_pcbs (br_lwip b) = ∅ /\ l_bound_pcbs (br_lwip b) = [] /\ l_listen_pcbs (br_lwip b) = [] /\
    l_netif_list (br_lwip b) = [] /\ 0 <= l_netif_num (br_lwip b) <= 254;
  id_clients : br_tcp_clients b = [] /\ br_clients b = ∅ /\ br_num_clients b = 0;
  id_ip6 : zlen (br_netif_ip6addr b) = 16 /\ bytes_ok (br_netif_ip6addr b);
  id_pipe : br_stop_pipe b = (-1, -1);
  id_watch : held RWatch h = 0 }.

Lemma idle_stage b h : idle b h -> stage (l_netif_num (br_lwip b)) (accepts h) (fun r => held r h) (l_netif_num (br_lwip b)) (fun _ => 0) b h.
Proof.
  intros [(I1 & I2 & I3) (I4 & I5 & I6 & I7 & I8) I9 I10 I11 I12]. constructor; try done; [|intros r; lia].
  split_and!; [|done..]. constructor; [done|by rewrite I6|intros x; by rewrite I4|constructor|constructor|done|constructor].
Qed.
Lemma stage_idle n0 acc0 hs0 num leak b h : stage n0 acc0 hs0 num (leak_of leak) b h -> br_stop_pipe b = (-1, -1) ->
  hs0 RWatch = 0 -> 0 <= num <= 254 -> idle b h.
Proof.
  intros [[S1 S2] S3 (S4 & S5 & S6) S7 S8 S9 S10] Hp Hw Hn. constructor; try done.
  - destruct S4 as [B1 B2 B3 _ _ _ _]. split_and!; [|done| |done|lia|lia].
    + apply map_eq. intros x. by rewrite B3, lookup_empty.
    + by apply Permutation_nil_r in B2.
  - rewrite S9, Hw. by destruct leak.
Qed.

(** What is assumed of the system: [read] and [getaddrinfo] keep their contracts, a
    pipe's descriptors are not negative and it can be read empty, and the last allocation
    before the loop succeeds. *)
Record system_ok (OS : Os) : Prop := SystemOk {
  sys_reads : reads_ok OS; sys_drained : drained OS; sys_gai : getaddrinfo_ok OS; sys_pipe : pipe_ok OS; sys_write_buffer : @write_buffer_ok OS }.

Lemma run_total {OS : Os} sizeof_tcp_client junk cfg evs b h : system_ok OS -> zlen junk = 4 /\ bytes_ok junk ->
  idle b h -> BStop ∈ evs -> c_mtu cfg < 2 ^ 31 ->
  exists rc b' h' leak, tun2socks_bridge_run sizeof_tcp_client junk cfg evs b h = Ok (rc, b', h') /\ idle b' h' /\
    (forall r, held r h' = held r h + leak_of leak r) /\ (l_netif_num (br_lwip b) <> 0 -> accepts h' = accepts h) /\
    (rc = -1 /\ l_netif_num (br_lwip b') = l_netif_num (br_lwip b) \/
     rc = 0 /\ l_netif_num (br_lwip b') = (l_netif_num (br_lwip b) + 1) mod 255 /\ exists fd, leak = Some fd /\ 0 <= fd).
Proof.
  intros [H1 H2 H3 H4 H5] Hj Hi Hst Hm. destruct Hi as [I1 I2 I3 I4 I5 I6] eqn:Ei. pose proof Hi as Hs. apply idle_stage in Hs.
  pose proof (proj2 (proj2 (proj2 (proj2 I2)))) as Hn.
  destruct (wpp_inv _ _ _ _ (wpp_run sizeof_tcp_client junk H1 H2 H3 H4 Hj _ _ _ Hn I6 cfg evs b h
    (fun rc b' h' => exists leak, outcome (l_netif_num (br_lwip b)) (accepts h) (fun r => held r h) leak rc b' h' /\ (rc = 0 -> exists fd, leak = Some fd /\ 0 <= fd))
    H5 Hst Hm Hs I5 ltac:(intros rc b' h' leak Ho Hl; by exists leak))) as (rc & b' & h' & E & leak & Ho & Hl).
  exists rc, b', h', leak. split; [done|]. destruct Ho as [(-> & Hs' & Hp')|(-> & Hs' & Hp')].
  - split; [by eapply stage_idle|]. split; [apply Hs'|]. split; [apply Hs'|]. left. split; [done|]. apply Hs'.
  - split; [eapply stage_idle; [exact Hs'|done|done|by apply mod_255_range]|]. split; [apply Hs'|]. split; [apply Hs'|]. right.
    split; [done|]. split; [apply Hs'|by apply Hl].
Qed.


(** C12: Only the first start of a process accepts connections. The number that
    [netif_add] gives out counts on over the runs, and the listeners are bound to the
    interface with number 0, so that after a run that returned 0 the next one, whatever
    happens in it, asks for no [struct tcp_client]: it accepts no connection. *)
Theorem restart_accepts_nothing {OS : Os} sizeof_tcp_client junk cfg1 evs1 cfg2 evs2 b h b1 h1 : system_ok OS ->
  zlen junk = 4 /\ bytes_ok junk -> idle b h -> l_netif_num (br_lwip b) <> 254 ->
  BStop ∈ evs1 -> c_mtu cfg1 < 2 ^ 31 -> BStop ∈ evs2 -> c_mtu cfg2 < 2 ^ 31 ->
  tun2socks_bridge_run sizeof_tcp_client junk cfg1 evs1 b h = Ok (0, b1, h1) ->
  exists rc b2 h2, tun2socks_bridge_run sizeof_tcp_client junk cfg2 evs2 b1 h1 = Ok (rc, b2, h2) /\ accepts h2 = accepts h1.
Proof.
  intros Hsys Hj Hi Hn Hst1 Hm1 Hst2 Hm2 E1.
  destruct (run_total sizeof_tcp_client junk cfg1 evs1 b h Hsys Hj Hi Hst1 Hm1) as (rc & b' & h' & leak & E & Hi1 & _ & _ & Hrc).
  rewrite E in E1. injection E1 as -> -> ->. destruct Hrc as [[? _]|(_ & Hnum & _)]; [done|].
  destruct (run_total sizeof_tcp_client junk cfg2 evs2 b1 h1 Hsys Hj Hi1 Hst2 Hm2) as (rc2 & b2 & h2 & leak2 & E2 & _ & _ & Hacc & _).
  exists rc2, b2, h2. split; [done|]. apply Hacc. rewrite Hnum. pose proof (id_lwip _ _ Hi) as (_ & _ & _ & _ & Hr). rewrite Z.mod_small; lia.
Qed.

(** When the last allocation before the loop fails, the job that initializes lwIP is
    still set when the reactor is freed, which the reactor asserts it is not. *)
Lemma fail_udpmode_asserts {OS : Os} b h : br_init_job b = true -> t_close_fd (d_tap (br_dev b)) = false -> fail_udpmode b h = Ub.
Proof.
  intros Hj Hc. destruct b as [[p0 p1] op ip mask ip6 sv pw au ug [q [cf fd mtu pe o pk] buf ri wb um umtu i6 dns nip] dh ij tm m4 hn lw l l6 cl tc nc].
  simpl in Hj, Hc. subst. cbv -[Z.leb held splice os_reply os_from]. destruct (Z.leb 0 p0), (Z.leb 0 p1); reflexivity.
Qed.

(** ** Two runs *)
Section run_demo.
#[local] Instance run_os : Os := fun h c =>
  match c with
  | CTun NetworkInit | CTun ReactorInit | CTun (AddFd _) | CTun (BAlloc _) | CTun (TcpNew _) | CTun (TcpListen _) => Ret 1 0 []
  | CGetaddrinfo _ _ f _ => Ret 0 0 (if f =? AF_INET6 then replicate 24 1 else [2; 0; 0; 0; 10; 0; 0; 1])
  | CPipe => Ret 0 0 [40; 41]
  | CTun (Dup _) => Ret 50 0 []
  | CTun (Read _ _) => Ret (-1) 11 []
  | CMalloc _ => Ret (1000 + zlen h) 0 []
  | CConnectorInit _ => Ret 1 0 []
  | _ => Ret 0 0 []
  end.
Lemma run_os_ok : system_ok run_os.
Proof.
  constructor.
  - intros h fd n Hn. cbn. lia.
  - intros h fd. exists O. split; [unfold PIPE_TURNS; lia|done].
  - intros h host type family numeric. cbn. destruct (family =? AF_INET6); (split; [by repeat constructor|by vm_compute]).
  - intros h _. done.
  - intros h n rep mtu. done.
Qed.
Definition run_dev0 : dev :=
  Dev false (BTap_ false 0 0 0 (PacketRecvInterface_ STATE_NONE 0 false 0 false 0) None) []
    (PacketPassInterface_ STATE_NONE 0 false 0 0 false false false false) [] UdpModeNone 0 false false [].
(** the globals at the process's start *)
Definition run_bridge0 : bridge :=
  Bridge (-1, -1) (Options [] [] None [] None None None None) (BIPAddr_ 0 []) (BIPAddr_ 0 []) (replicate 16 0) (BAddr_ 0 []) None []
    (BAddr_ 0 []) run_dev0 [] false false 0 false (Lwip_ 0 [] None ∅ 1 [] []) None None ∅ [] 0.
(** 10.0.0.1, 25, ::1, 1:80 *)
Definition run_cfg : bridge_config :=
  BridgeConfig 7 1400 (Some [49; 48; 46; 48; 46; 48; 46; 49]) (Some [50; 53]) (Some [58; 58; 49]) (Some [49; 58; 56; 48]).
Definition run_mem : tcp_client :=
  TcpClient_ true true (BAddr_ 0 []) (BAddr_ 0 []) true (replicate (Z.to_nat TCP_WND) 0) 7
    (tc_socks demo_mem) false false (replicate (Z.to_nat CLIENT_SOCKS_RECV_BUF_SIZE) 0) 0 0 false 0.
Definition run_events : list bridge_event :=
  [BTimer; BDev (DJob DRecvOp); BAccept demo_pcb (IpAddr false [1; 1; 1; 1]) (IpAddr false [10; 0; 0; 2]) 443 5555 run_mem []; BStop].
Definition run_demo (b : bridge) (h : hist) : option (Z * bridge * hist) :=
  match tun2socks_bridge_run 2000 [0; 0; 0; 0] run_cfg run_events b h with Ok r => Some r | _ => None end.
Definition run_first : Z * bridge * hist := Eval vm_compute in default (0, run_bridge0, []) (run_demo run_bridge0 []).

Lemma run_bridge0_idle : idle run_bridge0 [].
Proof. constructor; try done. split; [done|by apply Forall_replicate]. Qed.
Lemma run_first_ok : tun2socks_bridge_run 2000 [0; 0; 0; 0] run_cfg run_events run_bridge0 [] = Ok (0, run_first.1.2, run_first.2).
Proof. vm_compute. reflexivity. Qed.
Lemma run_stops : BStop ∈ run_events.
Proof. unfold run_events. set_solver. Qed.
Lemma run_junk : zlen [0; 0; 0; 0] = 4 /\ bytes_ok [0; 0; 0; 0].
Proof. split; [done|]. by repeat constructor. Qed.


Lemma restart_accepts_nothing_witness : accepts run_first.2 = 1 /\
  exists rc b2 h2, tun2socks_bridge_run 2000 [0; 0; 0; 0] run_cfg run_events run_first.1.2 run_first.2 = Ok (rc, b2, h2) /\ accepts h2 = 1.
Proof.
  split; [vm_compute; reflexivity|].
  destruct (restart_accepts_nothing 2000 [0; 0; 0; 0] run_cfg run_events run_cfg run_events run_bridge0 [] run_first.1.2 run_first.2
    run_os_ok run_junk run_bridge0_idle ltac:(vm_compute; discriminate) run_stops eq_refl run_stops eq_refl run_first_ok) as (rc & b2 & h2 & E & Ha).
  exists rc, b2, h2. split; [exact E|]. rewrite Ha. vm_compute. reflexivity.
Defined.
End run_demo.
