(* ===== verification/TunJni.v ===== *)
(** tun2socks_jni.c: the configuration of tun2socks, its thread, start and stop. *)
From S2P Require Import Prelude CMem Sys Flow SocksClient TcpClient Packet Device DevicePump Addr Lwip Bridge.
From S2P Require Jni.
#[local] Open Scope Z_scope.

(** [Tun2SocksConfig]; the strings in its arrays without their NUL *)
Record Tun2SocksConfig : Type := Tun2SocksConfig_ {
  tj_tun_fd : Z; tj_socks_port : Z; tj_tun_addr : list Z; tj_tun_gw : list Z; tj_tun_ip6addr : list Z;
  tj_tun_prefix : Z; tj_mtu : Z }.
#[global] Instance eta_tun_config : Eta Tun2SocksConfig := fun r => Tun2SocksConfig_
  (tj_tun_fd r) (tj_socks_port r) (tj_tun_addr r) (tj_tun_gw r) (tj_tun_ip6addr r) (tj_tun_prefix r) (tj_mtu r).
Definition tun_config0 : Tun2SocksConfig := Tun2SocksConfig_ 0 0 [] [] [] 0 0.

(** [g_running], [g_config], and the globals of tun2socks *)
Record tun_state : Type := TunState { ts_bridge : bridge; ts_running : Z; ts_cfg : Tun2SocksConfig }.
#[global] Instance eta_tun_state : Eta tun_state := fun r => TunState (ts_bridge r) (ts_running r) (ts_cfg r).

(** The text of [%d] *)
Definition print_int (n : Z) : list Z := if n <? 0 then 45 :: print_num 10 (- n) else print_num 10 n.
(** "127.0.0.1:", "255.255.255.0", "fd00:1:fd00:1:fd00:1:fd00:2" *)
Definition LOOPBACK_PREFIX : list Z := [49; 50; 55; 46; 48; 46; 48; 46; 49; 58].
Definition NETMASK : list Z := [50; 53; 53; 46; 50; 53; 53; 46; 50; 53; 53; 46; 48].
Definition FALLBACK_IP6 : list Z :=
  [102; 100; 48; 48; 58; 49; 58; 102; 100; 48; 48; 58; 49; 58; 102; 100; 48; 48; 58; 49; 58; 102; 100; 48; 48; 58; 50].

Section tun_jni.
Context {OS : Os} (sizeof_tcp_client : Z) (junk : list Z).
Abbreviation J A := (Prog tun_state A).

Definition on_bridge {A} (p : Prog bridge A) : J A := fun s h =>
  match p (ts_bridge s) h with
  | Ok (a, b, h) => Ok (a, s <| ts_bridge := b |>, h)
  | Ub => Ub
  | Fuel => Fuel
  end.
Definition mtun (f : Tun2SocksConfig -> Tun2SocksConfig) : J unit := pmod (fun s => s <| ts_cfg := f (ts_cfg s) |>).
Definition tun_checkpoint : J unit := _ ← syscall CCheckpoint; mret tt.

(** What the thread makes of the configuration. *)
Definition thread_config (c : Tun2SocksConfig) : bridge_config :=
  BridgeConfig (tj_tun_fd c) (if 0 <? tj_mtu c then tj_mtu c else 1500) (Some (tj_tun_gw c)) (Some NETMASK)
    (match tj_tun_ip6addr c with [] => None | s => Some s end)
    (Some (take 47 (LOOPBACK_PREFIX ++ print_int (tj_socks_port c)))).

Definition tun2socks_thread (evs : list bridge_event) : J unit :=
  tun_checkpoint;;
  s ← pget;
  tun_checkpoint;;
  _ ← on_bridge (tun2socks_bridge_run sizeof_tcp_client junk (thread_config (ts_cfg s)) evs);
  tun_checkpoint;;
  pmod (fun s => s <| ts_running := 0 |>).

(** [strncpy] into an array of zeros, but for its last byte *)
Definition copy_string (s : list Z) (size : Z) (set : list Z -> Tun2SocksConfig -> Tun2SocksConfig) : J unit :=
  o ← Jni.utf_chars s;
  match o with Some s => mtun (set (take (Z.to_nat (size - 1)) s)) | None => mret tt end.
Definition set_ip6 (s : list Z) (c : Tun2SocksConfig) : Tun2SocksConfig := c <| tj_tun_ip6addr := s |>.

Definition tun2socks_config (tunFd socksPort : Z) (tunAddr tunGw : list Z) (tunPrefix : Z)
    (tunIp6Addr : option (list Z)) (ipv6Enabled : Z) : J unit :=
  mtun (fun _ => tun_config0 <| tj_tun_fd := tunFd |> <| tj_socks_port := socksPort |>
                   <| tj_tun_prefix := tunPrefix |> <| tj_mtu := 1400 |>);;
  copy_string tunAddr 20 (fun s c => c <| tj_tun_addr := s |>);;
  copy_string tunGw 20 (fun s c => c <| tj_tun_gw := s |>);;
  if negb (ipv6Enabled =? 0) then
    (match tunIp6Addr with Some s => copy_string s 64 set_ip6 | None => mret tt end);;
    mtun (fun c => match tj_tun_ip6addr c with [] => set_ip6 FALLBACK_IP6 c | _ => c end)
  else
    mtun (set_ip6 []);; tun_checkpoint.

(** [Java_..._tun2socksStart]; the thread itself is [tun2socks_thread]. *)
Definition tun2socksStart (tunFd socksPort : Z) (tunAddr tunGw : list Z) (tunPrefix : Z)
    (tunIp6Addr : option (list Z)) (ipv6Enabled : Z) : J Z :=
  s ← pget;
  if negb (ts_running s =? 0) then mret 0 else
  tun2socks_config tunFd socksPort tunAddr tunGw tunPrefix tunIp6Addr ipv6Enabled;;
  tun_checkpoint;;
  pmod (fun s => s <| ts_running := 1 |>);;
  r ← syscall CPthreadCreate;
  if negb (rv r =? 0) then pmod (fun s => s <| ts_running := 0 |>);; mret (-1) else mret 0.

(** [Java_..._tun2socksStop] *)
Definition tun2socksStop : J unit :=
  s ← pget;
  if ts_running s =? 0 then mret tt else
  on_bridge tun2socks_bridge_stop;;
  _ ← syscall CPthreadJoin;
  pmod (fun s => s <| ts_running := 0 |>).
End tun_jni.
