(* ===== verification/TunJniProps.v ===== *)
(** tun2socks as the application starts and stops it: what the settings become, and that
    each session returns the process to where it was. *)
From S2P Require Import Prelude CMem Sys Mpool Flow SocksClient TcpClient Packet Device DevicePump Addr AddrProps Lwip.
From S2P Require Import Bridge BridgeFrame BridgeFacts BridgeProps TunJni.
From S2P Require Jni JniProps.
#[local] Open Scope Z_scope.



Section session.
Context {OS : Os}.



Lemma wpp_on_bridge {A} (p : Prog bridge A) st h (Q : A -> tun_state -> hist -> Prop) :
  wpp p (ts_bridge st) h (fun a b h => Q a (st <| ts_bridge := b |>) h) -> wpp (on_bridge p) st h Q.
Proof. unfold wpp, on_bridge. by destruct (p (ts_bridge st) h) as [[[a b] h']| |]. Qed.


Lemma wpp_stop st h (Q : unit -> tun_state -> hist -> Prop) :
  (ts_running st = 0 -> Q tt st h) ->
  (ts_running st <> 0 -> forall h1 rep, (if snd (br_stop_pipe (ts_bridge st)) <? 0 then h1 = h
      else exists r, h1 = (CTun (Write (snd (br_stop_pipe (ts_bridge st))) [1]), r) :: h) ->
     Q tt (st <| ts_running := 0 |>) ((CPthreadJoin, rep) :: h1)) ->
  wpp tun2socksStop st h Q.
Proof.
  intros H0 H1. unfold tun2socksStop. wpp_step. wpp_step. destruct (Z.eqb_spec (ts_running st) 0) as [E|E]; [wpp_step; auto|].
  wpp_step. apply wpp_on_bridge. unfold tun2socks_bridge_stop, tun_call_. wpp_step. wpp_step. destruct (_ <? 0) eqn:Ep; repeat wpp_step.
  - by apply (H1 E h).
  - apply (H1 E). eauto.
Qed.

End session.


(** A stop that comes before the thread has made its pipe only waits for the thread,
    which nothing stops then: with no other event its loop does not end. *)
Lemma early_stop_is_lost {OS : Os} st h : ts_running st <> 0 -> snd (br_stop_pipe (ts_bridge st)) < 0 ->
  exists rep, tun2socksStop st h = Ok (tt, st <| ts_running := 0 |>, (CPthreadJoin, rep) :: h).
Proof.
  intros Hr Hp.
  destruct (wpp_inv _ _ _ _ (wpp_stop st h (fun _ st' h' => st' = st <| ts_running := 0 |> /\ exists rep, h' = (CPthreadJoin, rep) :: h)
    ltac:(done) ltac:(intros _ h1 rep H1; destruct (Z.ltb_spec (snd (br_stop_pipe (ts_bridge st))) 0); [subst; eauto|lia])))
    as ([] & st' & h' & E & -> & rep & ->).
  by exists rep.
Qed.

(** ** A session *)
Section session_demo.
#[local] Existing Instance run_os.
Definition session_state : tun_state := TunState run_bridge0 0 tun_config0.

(** The loop waits for ever. *)
Lemma early_stop_hangs : tun2socks_thread 2000 [0; 0; 0; 0] [BTimer] session_state [] = Fuel.
Proof. vm_compute. reflexivity. Qed.
End session_demo.
