(* ===== verification/Datagram.v ===== *)
(** system/BDatagram_unix.c: a datagram socket between two packet interfaces. What is to
    be sent waits until there is an address to send it to, what is to be received until
    the socket is bound or something was sent; both wait for the descriptor. *)
From S2P Require Import Prelude CMem Sys Flow Chunk SocksClient TcpClient Packet Device Addr.

Definition BREACTOR_ERROR : Z := 4.
Definition BREACTOR_HUP : Z := 8.
Definition AF_INET : Z := 2.
Definition AF_INET6 : Z := 10.
Definition SOCK_DGRAM : Z := 2.
Definition IPPROTO_IP : Z := 0.
Definition IPPROTO_IPV6 : Z := 41.
Definition IP_PKTINFO : Z := 8.
Definition IPV6_RECVPKTINFO : Z := 49.
Definition IPV6_PKTINFO : Z := 50.

(** [struct BDatagram_s]: the fields of [send] and of [recv]; the two jobs are the flags
    that say they are set. A pointer to data is an offset into the owner's buffer. *)
Record BDatagram : Type := BDatagram_ {
  dg_fd : Z; dg_wait_events : Z;
  ds_have_addrs : bool; ds_remote_addr : BAddr; ds_local_addr : BIPAddr; ds_inited : bool; ds_mtu : Z;
  ds_iface : PacketPassInterface; ds_job : bool; ds_busy : bool; ds_busy_data : Z; ds_busy_data_len : Z;
  dr_started : bool; dr_have_addrs : bool; dr_remote_addr : BAddr; dr_local_addr : BIPAddr; dr_inited : bool; dr_mtu : Z;
  dr_iface : PacketRecvInterface; dr_job : bool; dr_busy : bool; dr_busy_data : Z }.
#[global] Instance eta_datagram : Eta BDatagram := fun r => BDatagram_
  (dg_fd r) (dg_wait_events r)
  (ds_have_addrs r) (ds_remote_addr r) (ds_local_addr r) (ds_inited r) (ds_mtu r)
  (ds_iface r) (ds_job r) (ds_busy r) (ds_busy_data r) (ds_busy_data_len r)
  (dr_started r) (dr_have_addrs r) (dr_remote_addr r) (dr_local_addr r) (dr_inited r) (dr_mtu r)
  (dr_iface r) (dr_job r) (dr_busy r) (dr_busy_data r).

(** A socket and the memory of its neighbours: where what it sends lies, and where it
    puts what it receives. *)
Record gworld : Type := Gworld { g_dg : BDatagram; g_out : list Z; g_in : list Z }.
#[global] Instance eta_gworld : Eta gworld := fun r => Gworld (g_dg r) (g_out r) (g_in r).

(** ** Addresses *)
Definition BDatagram_AddressFamilySupported (family : Z) : bool :=
  (family =? BADDR_TYPE_IPV4) || (family =? BADDR_TYPE_IPV6).
(** Without packet sockets, here and below. *)
Definition family_socket_to_sys (family : Z) : res Z :=
  if family =? BADDR_TYPE_IPV4 then Ok AF_INET else if family =? BADDR_TYPE_IPV6 then Ok AF_INET6 else Ub.
(** the bytes of the [struct sockaddr_in] or [sockaddr_in6] *)
Definition addr_socket_to_sys (addr : BAddr) : res (list Z) :=
  if ba_type addr =? BADDR_TYPE_IPV4 then
    Ok ([AF_INET; 0] ++ slice (ba_ipv4 addr) 4 2 ++ slice (ba_ipv4 addr) 0 4 ++ replicate 8 0)
  else if ba_type addr =? BADDR_TYPE_IPV6 then
    Ok ([AF_INET6; 0] ++ slice (ba_ipv6 addr) 16 2 ++ replicate 4 0 ++ slice (ba_ipv6 addr) 0 16 ++ replicate 4 0)
  else Ub.
Definition addr_sys_to_socket (name : list Z) : res BAddr :=
  let family := byte_at name 0 + 2 ^ 8 * byte_at name 1 in
  if family =? AF_INET then
    assert_ (zlen name =? 16);; Ok (BAddr_MakeIPv4 (slice name 4 4) (slice name 2 2))
  else if family =? AF_INET6 then
    assert_ (zlen name =? 28);; Ok (BAddr_MakeIPv6 (slice name 8 16) (slice name 2 2))
  else Ok (BAddr_ BADDR_TYPE_NONE (replicate 24 0)).
(** The control data of [do_send]: a [struct cmsghdr] with an [in_pktinfo] or an
    [in6_pktinfo], in their alignment. *)
Definition cmsg (len level type : Z) (data : list Z) : list Z := le32 len ++ replicate 4 0 ++ le32 level ++ le32 type ++ data.
Definition pktinfo (a : BIPAddr) : list Z :=
  if bip_type a =? BADDR_TYPE_IPV4 then
    cmsg 28 IPPROTO_IP IP_PKTINFO (replicate 4 0 ++ slice (bip_ip a) 0 4 ++ replicate 8 0)
  else if bip_type a =? BADDR_TYPE_IPV6 then
    cmsg 36 IPPROTO_IPV6 IPV6_PKTINFO (slice (bip_ip a) 0 16 ++ replicate 8 0)
  else [].

Section datagram.
Context {OS : Os}.
Abbreviation G A := (Prog gworld A).

Definition gdg : G BDatagram := pgets g_dg.
Definition mdg (f : BDatagram -> BDatagram) : G unit := pmod (fun w => w <| g_dg := f (g_dg w) |>).
Definition set_fd_events : G unit := d ← gdg; _ ← syscall (CTun (SetFdEvents (dg_fd d) (dg_wait_events d))); mret tt.
Definition wait_for (events : Z) : G unit :=
  mdg (fun d => d <| dg_wait_events := Z.lor (dg_wait_events d) events |>);; set_fd_events.
(** "if recv wasn't started yet, start it" *)
Definition start_recv : G unit :=
  d ← gdg;
  if dr_started d then mret tt else
  mdg (fun d => d <| dr_started := true |>);;
  if dr_inited d && dr_busy d then mdg (fun d => d <| dr_job := true |>) else mret tt.

(** [true], here and below: the handler is called with BDATAGRAM_EVENT_ERROR, the last
    thing done. *)
Definition do_send : G bool :=
  d ← gdg;
  passert (ds_inited d);; passert (ds_busy d);; passert (ds_have_addrs d);;
  r ← syscall (CTun LimitIncrement);
  if rv r =? 0 then wait_for BREACTOR_WRITE;; mret false else
  name ← lift (addr_socket_to_sys (ds_remote_addr d));
  w ← pget; data ← lift (rd_list (g_out w) (ds_busy_data d) (ds_busy_data_len d));
  r ← syscall (CTun (SendMsg (dg_fd d) name (pktinfo (ds_local_addr d)) data));
  if rv r <? 0 then
    e ← errno;
    if would_block e then wait_for BREACTOR_WRITE;; mret false else mret true
  else
  passert (rv r <=? ds_busy_data_len d);;
  start_recv;;
  mdg (fun d => d <| ds_busy := false |>);;
  i ← lift (PacketPassInterface_Done (ds_iface d));
  mdg (fun d => d <| ds_iface := i |>);; mret false.

(** The loop over the control messages is the call [MsgLocal]: which address it found. *)
Definition do_recv : G bool :=
  d ← gdg;
  passert (dr_inited d);; passert (dr_busy d);; passert (dr_started d);;
  r ← syscall (CTun LimitIncrement);
  if rv r =? 0 then wait_for BREACTOR_READ;; mret false else
  r ← syscall (CTun (RecvMsg (dg_fd d) (dr_mtu d)));
  e ← errno;
  if rv r <? 0 then
    if would_block e then wait_for BREACTOR_READ;; mret false else mret true
  else
  w ← pget; m ← lift (wr_list (g_in w) (dr_busy_data d) (rdata r));
  pmod (fun w => w <| g_in := m |>);;
  passert (rv r <=? dr_mtu d);;
  n ← syscall (CTun MsgName);
  a ← lift (addr_sys_to_socket (rdata n));
  mdg (fun d => d <| dr_remote_addr := a |>);;
  l ← syscall (CTun MsgLocal);
  mdg (fun d => d <| dr_local_addr := BIPAddr_ (rv l) (rdata l) |>);;
  mdg (fun d => d <| dr_have_addrs := true |>);;
  mdg (fun d => d <| dr_busy := false |>);;
  i ← lift (PacketRecvInterface_Done (dr_iface d) (rv r));
  mdg (fun d => d <| dr_iface := i |>);; mret false.

Definition datagram_fd_handler (events : Z) : G bool :=
  mdg (fun d => d <| dg_wait_events := Z.land (dg_wait_events d) (Z.lnot events) |>);;
  set_fd_events;;
  d ← gdg;
  let broken := has_flag events (Z.lor BREACTOR_ERROR BREACTOR_HUP) in
  let have_send := has_flag events BREACTOR_WRITE || (broken && ds_inited d && ds_busy d && ds_have_addrs d) in
  (if have_send then passert (ds_inited d);; passert (ds_busy d);; passert (ds_have_addrs d) else mret tt);;
  let have_recv := has_flag events BREACTOR_READ || (broken && dr_inited d && dr_busy d && dr_started d) in
  (if have_recv then passert (dr_inited d);; passert (dr_busy d);; passert (dr_started d) else mret tt);;
  if have_send then
    (if have_recv then mdg (fun d => d <| dr_job := true |>) else mret tt);; do_send
  else if have_recv then do_recv
  else mret true.

(** ** The jobs *)
Definition send_job_handler : G bool := mdg (fun d => d <| ds_job := false |>);; do_send.
Definition recv_job_handler : G bool := mdg (fun d => d <| dr_job := false |>);; do_recv.
Definition send_if_handler_send (data data_len : Z) : G unit :=
  d ← gdg;
  passert (ds_inited d);; passert (negb (ds_busy d));;
  passert (0 <=? data_len);; passert (data_len <=? ds_mtu d);;
  mdg (fun d => d <| ds_busy_data := data |> <| ds_busy_data_len := data_len |> <| ds_busy := true |>);;
  if negb (ds_have_addrs d) then mret tt else mdg (fun d => d <| ds_job := true |>).
Definition recv_if_handler_recv (data : Z) : G unit :=
  d ← gdg;
  passert (dr_inited d);; passert (negb (dr_busy d));;
  mdg (fun d => d <| dr_busy_data := data |> <| dr_busy := true |>);;
  if negb (dr_started d) then mret tt else mdg (fun d => d <| dr_job := true |>).
(** [job_operation] of the two interfaces *)
Definition datagram_send_operation : G unit :=
  d ← gdg; '(i, (data, len)) ← lift (PacketPassInterface_job_operation (ds_iface d));
  mdg (fun d => d <| ds_iface := i |>);; send_if_handler_send data len.
Definition datagram_recv_operation : G unit :=
  d ← gdg; '(i, data) ← lift (PacketRecvInterface_job_operation (dr_iface d));
  mdg (fun d => d <| dr_iface := i |>);; recv_if_handler_recv data.

(** ** The owner's calls *)
Definition set_pktinfo (fd family : Z) : G unit :=
  if family =? BADDR_TYPE_IPV4 then _ ← syscall (CSetsockopt fd IPPROTO_IP IP_PKTINFO (le32 1)); mret tt
  else if family =? BADDR_TYPE_IPV6 then _ ← syscall (CSetsockopt fd IPPROTO_IPV6 IPV6_RECVPKTINFO (le32 1)); mret tt
  else mret tt.
Definition BDatagram_Init (family : Z) : G bool :=
  passert (BDatagram_AddressFamilySupported family);;
  domain ← lift (family_socket_to_sys family);
  s ← syscall (CSocket domain SOCK_DGRAM);
  mdg (fun d => d <| dg_fd := rv s |>);;
  if rv s <? 0 then mret false else
  let fail1 := _ ← syscall (CClose (rv s)); mret false in
  r ← syscall (CTun (Fcntl (rv s)));
  if rv r <? 0 then fail1 else
  set_pktinfo (rv s) family;;
  r ← syscall (CTun (AddFd (rv s)));
  if rv r =? 0 then fail1 else
  mdg (fun d => d <| dg_wait_events := 0 |> <| ds_have_addrs := false |> <| dr_have_addrs := false |>
    <| dr_started := false |> <| ds_inited := false |> <| dr_inited := false |>);; mret true.
Definition BDatagram_Free : G unit :=
  d ← gdg; passert (negb (dr_inited d));; passert (negb (ds_inited d));;
  _ ← syscall (CTun (RemoveFd (dg_fd d))); _ ← syscall (CClose (dg_fd d)); mret tt.
Definition BDatagram_Bind (addr : BAddr) : G bool :=
  passert (BDatagram_AddressFamilySupported (ba_type addr));;
  d ← gdg; name ← lift (addr_socket_to_sys addr);
  r ← syscall (CBind (dg_fd d) name);
  if rv r <? 0 then mret false else start_recv;; mret true.
Definition BDatagram_SetSendAddrs (remote_addr : BAddr) (local_addr : BIPAddr) : G unit :=
  passert (BDatagram_AddressFamilySupported (ba_type remote_addr));;
  passert ((bip_type local_addr =? BADDR_TYPE_NONE) || BDatagram_AddressFamilySupported (bip_type local_addr));;
  mdg (fun d => d <| ds_remote_addr := remote_addr |> <| ds_local_addr := local_addr |>);;
  d ← gdg;
  if ds_have_addrs d then mret tt else
  mdg (fun d => d <| ds_have_addrs := true |>);;
  if ds_inited d && ds_busy d then mdg (fun d => d <| ds_job := true |>) else mret tt.
Definition BDatagram_GetLocalAddr : G (option BAddr) :=
  d ← gdg; r ← syscall (CGetsockname (dg_fd d));
  if negb (rv r =? 0) then mret None else
  a ← lift (addr_sys_to_socket (rdata r));
  if ba_type a =? BADDR_TYPE_NONE then mret None else mret (Some a).
Definition BDatagram_SendAsync_Init (mtu : Z) : G unit :=
  d ← gdg; passert (negb (ds_inited d));; passert (0 <=? mtu);;
  i ← lift (PacketPassInterface_Init mtu);
  mdg (fun d => d <| ds_mtu := mtu |> <| ds_iface := i |> <| ds_job := false |> <| ds_busy := false |> <| ds_inited := true |>).
Definition BDatagram_SendAsync_Free : G unit :=
  d ← gdg; passert (ds_inited d);;
  mdg (fun d => d <| dg_wait_events := Z.land (dg_wait_events d) (Z.lnot BREACTOR_WRITE) |>);; set_fd_events;;
  mdg (fun d => d <| ds_job := false |> <| ds_iface := PacketPassInterface_Free (ds_iface d) |> <| ds_inited := false |>).
Definition BDatagram_SendAsync_GetIf : G PacketPassInterface := d ← gdg; passert (ds_inited d);; mret (ds_iface d).
Definition BDatagram_RecvAsync_Init (mtu : Z) : G unit :=
  d ← gdg; passert (negb (dr_inited d));; passert (0 <=? mtu);;
  i ← lift (PacketRecvInterface_Init mtu);
  mdg (fun d => d <| dr_mtu := mtu |> <| dr_iface := i |> <| dr_job := false |> <| dr_busy := false |> <| dr_inited := true |>).
Definition BDatagram_RecvAsync_Free : G unit :=
  d ← gdg; passert (dr_inited d);;
  mdg (fun d => d <| dg_wait_events := Z.land (dg_wait_events d) (Z.lnot BREACTOR_READ) |>);; set_fd_events;;
  mdg (fun d => d <| dr_job := false |> <| dr_iface := PacketRecvInterface_Free (dr_iface d) |> <| dr_inited := false |>).
Definition BDatagram_RecvAsync_GetIf : G PacketRecvInterface := d ← gdg; passert (dr_inited d);; mret (dr_iface d).
End datagram.
