(* ===== verification/UdpClient.v ===== *)
(** socks_udp_client/SocksUdpClient.c, with flow/BufferWriter.c and
    flowextra/PacketPassInactivityMonitor.c: UDP over a SOCKS5 server. Each local address
    has a connection of its own: a SOCKS client for the association, a datagram socket,
    and the flow objects between them. *)
From S2P Require Import Prelude CMem Sys Flow Chunk SocksClient TcpClient Packet Device Addr Datagram.

(** ** misc/bsize.h, system/BAddr.h *)
Definition bsize_fromint (v : Z) : bsize_t := Bsize ((v <? 0) || (SIZE_MAX <? v)) (usz v).
Definition bsize_toint (s : bsize_t) : option Z := if is_overflow s || (INT_MAX <? value s) then None else Some (value s).

Definition is_ip (a : BAddr) : bool := (ba_type a =? BADDR_TYPE_IPV4) || (ba_type a =? BADDR_TYPE_IPV6).
Definition BAddr_GetPort (a : BAddr) : res (list Z) :=
  assert_ (is_ip a);;
  Ok (if ba_type a =? BADDR_TYPE_IPV4 then slice (ba_ipv4 a) 4 2 else slice (ba_ipv6 a) 16 2).
Definition BAddr_SetPort (a : BAddr) (port : list Z) : res BAddr :=
  assert_ (is_ip a);;
  b ← wr_list (ba_body a) (if ba_type a =? BADDR_TYPE_IPV4 then 4 else 16) port; Ok (a <| ba_body := b |>).
Definition B_COMPARE (a b : Z) : Z := (if b <? a then 1 else 0) - (if a <? b then 1 else 0).
(** [memcmp], by its sign *)
Fixpoint memcmp_sign (a b : list Z) : Z :=
  match a, b with
  | x :: a, y :: b => if x =? y then memcmp_sign a b else B_COMPARE x y
  | _, _ => 0
  end.
Definition BAddr_CompareOrder (a b : BAddr) : Z :=
  let cmp := B_COMPARE (ba_type a) (ba_type b) in
  if negb (cmp =? 0) then cmp else
  if ba_type a =? BADDR_TYPE_IPV4 then
    let cmp := B_COMPARE (ntoh32 (slice (ba_ipv4 a) 0 4)) (ntoh32 (slice (ba_ipv4 b) 0 4)) in
    if negb (cmp =? 0) then cmp else B_COMPARE (ntoh16 (slice (ba_ipv4 a) 4 2)) (ntoh16 (slice (ba_ipv4 b) 4 2))
  else if ba_type a =? BADDR_TYPE_IPV6 then
    let cmp := memcmp_sign (slice (ba_ipv6 a) 0 16) (slice (ba_ipv6 b) 0 16) in
    if negb (cmp =? 0) then cmp else B_COMPARE (ntoh16 (slice (ba_ipv6 a) 16 2)) (ntoh16 (slice (ba_ipv6 b) 16 2))
  else 0.

(** ** Data *)
Definition DnsPort : Z := 53.
(** [sizeof(struct socks_udp_header)] *)
Definition SOCKS_UDP_HEADER : Z := 4.

(** [BufferWriter]; its interface is the input of the packet buffer behind it. [bw_out]
    is an offset into that buffer. *)
Record BufferWriter : Type := BufferWriter_ { bw_out_have : bool; bw_out : Z; bw_mtu : Z; bw_writing : bool }.
#[global] Instance eta_writer : Eta BufferWriter := fun r => BufferWriter_ (bw_out_have r) (bw_out r) (bw_mtu r) (bw_writing r).

(** [struct SocksUdpClient_connection], at the address [uc_self]. [uc_send] is
    [send_buffer] between the interfaces of [send_writer] and [send_monitor]; [uc_timer]
    says that the monitor's timer is set; [uc_recv_buf] is the memory of [recv_buffer],
    which lies between the interfaces of [socket] and [recv_if]; [uc_first_job] says that
    [first_job] is set. *)
Record UdpCon : Type := UdpCon_ {
  uc_self : Z; uc_local_addr : BAddr; uc_socks : BSocksClient; uc_dg : BDatagram;
  uc_writer : BufferWriter; uc_send : PacketBuffer; uc_timer : bool;
  uc_recv_if : PacketPassInterface; uc_recv_buf : list Z;
  uc_first_data : option (list Z); uc_first_remote_addr : BAddr; uc_dns_id : Z; uc_first_job : bool }.
#[global] Instance eta_con : Eta UdpCon := fun r => UdpCon_
  (uc_self r) (uc_local_addr r) (uc_socks r) (uc_dg r) (uc_writer r) (uc_send r) (uc_timer r)
  (uc_recv_if r) (uc_recv_buf r) (uc_first_data r) (uc_first_remote_addr r) (uc_dns_id r) (uc_first_job r).

(** [SocksUdpClient]; [su_conns] is the tree in its order. *)
Record SocksUdpClient : Type := SocksUdpClient_ {
  su_server_addr : BAddr; su_auth_info : list auth_info; su_num : Z; su_max : Z; su_send_buf_size : Z;
  su_udp_mtu : Z; su_socks_mtu : Z; su_conns : list UdpCon }.
#[global] Instance eta_udp_client : Eta SocksUdpClient := fun r => SocksUdpClient_
  (su_server_addr r) (su_auth_info r) (su_num r) (su_max r) (su_send_buf_size r)
  (su_udp_mtu r) (su_socks_mtu r) (su_conns r).

Definition compute_socks_mtu (udp_mtu : Z) : Z :=
  default (-1) (bsize_toint (bsize_add (bsize_fromint udp_mtu)
    (bsize_add (bsize_fromsize SOCKS_UDP_HEADER) (bsize_fromsize ADDR_IPV6)))).
Definition get_dns_id (remote_addr : BAddr) (data : list Z) : res Z :=
  port ← BAddr_GetPort remote_addr;
  Ok (if (ntoh16 port =? DnsPort) && (2 <=? zlen data) then Z.lor (Z.shiftl (byte_at data 0) 8) (byte_at data 1) else -1).

(** the bytes of a [BAddr] in memory, as a connection gives its address *)
Definition baddr_of (m : list Z) : BAddr :=
  BAddr_ (s32 (byte_at m 0 + 2 ^ 8 * byte_at m 1 + 2 ^ 16 * byte_at m 2 + 2 ^ 24 * byte_at m 3)) (slice m 4 24).

(** ** A connection

    [udp_mtu] and [socks_mtu] are those of its client. A handler's result says that it
    ends with [connection_free]. *)
Section con.
Context {OS : Os} (udp_mtu socks_mtu : Z).
Abbreviation U A := (Prog UdpCon A).

Definition con_socks {A} (p : Prog BSocksClient A) : U A := fun c h =>
  match p (uc_socks c) h with Ok (a, o, h) => Ok (a, c <| uc_socks := o |>, h) | Ub => Ub | Fuel => Fuel end.
Definition con_dg {A} (p : Prog gworld A) : U A := fun c h =>
  match p (Gworld (uc_dg c) (cb_buffer (pb_buf (uc_send c))) (uc_recv_buf c)) h with
  | Ok (a, w, h) => Ok (a, c <| uc_dg := g_dg w |> <| uc_recv_buf := g_in w |>, h) | Ub => Ub | Fuel => Fuel end.
Definition mwriter (f : BufferWriter -> BufferWriter) : U unit := pmod (fun c => c <| uc_writer := f (uc_writer c) |>).
Definition mbuffer (f : PacketBuffer -> res PacketBuffer) : U unit :=
  c ← pget; b ← lift (f (uc_send c)); pmod (fun c => c <| uc_send := b |>).
Definition monitor_set_timer (on : bool) : U unit :=
  _ ← syscall (CTun (if on then SetTimer else RemoveTimer)); pmod (fun c => c <| uc_timer := on |>).

(** *** BufferWriter *)
Definition writer_output_handler_recv (data : Z) : U unit :=
  c ← pget; passert (negb (bw_out_have (uc_writer c)));;
  mwriter (fun w => w <| bw_out_have := true |> <| bw_out := data |>).
Definition BufferWriter_Init (mtu : Z) : U PacketRecvInterface :=
  passert (0 <=? mtu);;
  i ← lift (PacketRecvInterface_Init mtu);
  mwriter (fun w => w <| bw_out_have := false |> <| bw_mtu := mtu |> <| bw_writing := false |>);; mret i.
Definition BufferWriter_Free : U unit :=
  mbuffer (fun b => Ok (b <| pb_input := PacketRecvInterface_Free (pb_input b) |>)).
Definition BufferWriter_StartPacket : U (option Z) :=
  c ← pget; let w := uc_writer c in
  passert (negb (bw_writing w));;
  if negb (bw_out_have w) then mret None else
  mwriter (fun w => w <| bw_writing := true |>);; mret (Some (bw_out w)).
Definition BufferWriter_EndPacket (len : Z) : U unit :=
  c ← pget; let w := uc_writer c in
  passert (0 <=? len);; passert (len <=? bw_mtu w);; passert (bw_out_have w);; passert (bw_writing w);;
  mwriter (fun w => w <| bw_out_have := false |>);;
  mbuffer (fun b => i ← PacketRecvInterface_Done (pb_input b) len; Ok (b <| pb_input := i |>));;
  mwriter (fun w => w <| bw_writing := false |>).

(** *** PacketPassInactivityMonitor: its output is the socket *)
Definition monitor_input_handler_send (data data_len : Z) : U unit :=
  con_dg (d ← gdg; i ← lift (PacketPassInterface_Sender_Send (ds_iface d) data data_len);
          mdg (fun d => d <| ds_iface := i |>));;
  monitor_set_timer false.
Definition monitor_output_handler_done : U unit :=
  monitor_set_timer true;;
  mbuffer (fun b => o ← PacketPassInterface_Done (pb_output b); Ok (b <| pb_output := o |>)).
(** [send_monitor_handler] is called. *)
Definition monitor_timer_handler : U bool := monitor_set_timer true;; mret true.
Definition PacketPassInactivityMonitor_Init (output : PacketPassInterface) : U PacketPassInterface :=
  i ← lift (PacketPassInterface_Init (PacketPassInterface_GetMTU output));
  i ← lift (if PacketPassInterface_HasCancel output then PacketPassInterface_EnableCancel i else Ok i);
  monitor_set_timer true;; mret i.
Definition PacketPassInactivityMonitor_Free : U unit :=
  monitor_set_timer false;; mbuffer (fun b => Ok (b <| pb_output := PacketPassInterface_Free (pb_output b) |>)).

(** *** SinglePacketBuffer: from the socket to [recv_if] *)
Definition recv_buffer_input_handler_done (in_len : Z) : U unit :=
  c ← pget; i ← lift (PacketPassInterface_Sender_Send (uc_recv_if c) 0 in_len); pmod (fun c => c <| uc_recv_if := i |>).
Definition recv_buffer_output_handler_done : U unit :=
  con_dg (d ← gdg; i ← lift (PacketRecvInterface_Receiver_Recv (dr_iface d) 0); mdg (fun d => d <| dr_iface := i |>)).
Definition recv_buffer_Init (input : PacketRecvInterface) (output : PacketPassInterface) : U bool :=
  passert (PacketRecvInterface_GetMTU input <=? PacketPassInterface_GetMTU output);;
  r ← syscall (CTun (BAlloc (PacketRecvInterface_GetMTU input)));
  if rv r =? 0 then mret false else
  pmod (fun c => c <| uc_recv_buf := resize_block (Z.to_nat (PacketRecvInterface_GetMTU input)) [] (rdata r) |>);;
  recv_buffer_output_handler_done;; mret true.
Definition recv_buffer_Free : U unit := c ← pget; _ ← syscall (CFree (uc_recv_buf c)); mret tt.

(** *** PacketBuffer's memory *)
Definition send_buffer_Init (input : PacketRecvInterface) (output : PacketPassInterface) (num_packets : Z) : U bool :=
  let n := ChunkBuffer2_calc_blocks (pri_mtu input) num_packets in
  mem ← (if n <? 0 then mret None else
    r ← syscall (CTun (BAlloc (BLOCK * n)));
    mret (if rv r =? 0 then None else Some (resize_block (Z.to_nat (BLOCK * n)) [] (rdata r))));
  b ← lift (PacketBuffer_Init input output num_packets (fun _ => mem));
  match b with
  | None => mret false
  | Some b => pmod (fun c => c <| uc_send := b |>);; mret true
  end.
Definition send_buffer_Free : U unit := c ← pget; _ ← syscall (CFree (cb_buffer (pb_buf (uc_send c)))); mret tt.

(** *** Sending *)
Definition poke (pos : Z) (bytes : list Z) : U unit :=
  mbuffer (fun b => m ← wr_list (cb_buffer (pb_buf b)) pos bytes; Ok (b <| pb_buf := (pb_buf b) <| cb_buffer := m |> |>)).
Definition connection_send (remote_addr : BAddr) (data : list Z) : U unit :=
  let data_len := zlen data in
  passert (0 <=? data_len);; passert (data_len <=? udp_mtu);;
  c ← pget;
  (if 0 <=? uc_dns_id c then
     new_dns_id ← lift (get_dns_id remote_addr data);
     if negb (new_dns_id =? uc_dns_id c) then pmod (fun c => c <| uc_dns_id := -1 |>) else mret tt
   else mret tt);;
  if negb (is_ip remote_addr) then mret tt else
  let v4 := ba_type remote_addr =? BADDR_TYPE_IPV4 in
  let atyp := if v4 then SOCKS_ATYP_IPV4 else SOCKS_ATYP_IPV6 in
  let address_size := if v4 then ADDR_IPV4 else ADDR_IPV6 in
  let total_len := usz (SOCKS_UDP_HEADER + address_size + data_len) in
  passert (total_len <=? socks_mtu);;
  out ← BufferWriter_StartPacket;
  match out with
  | None => mret tt
  | Some out_data =>
      poke out_data [0; 0; 0; atyp];;
      poke (out_data + SOCKS_UDP_HEADER) (if v4 then ba_ipv4 remote_addr else ba_ipv6 remote_addr);;
      poke (out_data + SOCKS_UDP_HEADER + address_size) data;;
      passert (SOCKS_UDP_HEADER + address_size + data_len =? total_len);;
      BufferWriter_EndPacket total_len
  end.
Definition first_job_handler : U unit :=
  c ← pget; data ← deref (uc_first_data c);
  connection_send (uc_first_remote_addr c) data;;
  _ ← syscall (CFree data);
  pmod (fun c => c <| uc_first_data := None |>).

(** *** Receiving *)
Definition peek (data n : Z) : U (list Z) := c ← pget; lift (rd_list (uc_recv_buf c) data n).
(** The address behind the header, and where the data begins; [None]: the function
    returns. *)
Definition parse_address (atyp data data_len : Z) : U (option (BAddr * Z * Z)) :=
  if atyp =? SOCKS_ATYP_IPV4 then
    if usz data_len <? ADDR_IPV4 then mret None else
    a ← peek data ADDR_IPV4;
    mret (Some (BAddr_MakeIPv4 (slice a 0 4) (slice a 4 2), data + ADDR_IPV4, data_len - ADDR_IPV4))
  else if atyp =? SOCKS_ATYP_IPV6 then
    if usz data_len <? ADDR_IPV6 then mret None else
    a ← peek data ADDR_IPV6;
    mret (Some (BAddr_MakeIPv6 (slice a 0 16) (slice a 16 2), data + ADDR_IPV6, data_len - ADDR_IPV6))
  else mret None.
Definition recv_if_handler_send (data data_len : Z) : U bool :=
  passert (0 <=? data_len);; passert (data_len <=? socks_mtu);;
  c ← pget; i ← lift (PacketPassInterface_Done (uc_recv_if c)); pmod (fun c => c <| uc_recv_if := i |>);;
  if usz data_len <? SOCKS_UDP_HEADER then mret false else
  header ← peek data SOCKS_UDP_HEADER;
  parsed ← parse_address (byte_at header 3) (data + SOCKS_UDP_HEADER) (data_len - SOCKS_UDP_HEADER);
  match parsed with
  | None => mret false
  | Some (remote_addr, data, data_len) =>
      if udp_mtu <? data_len then mret false else
      payload ← peek data data_len;
      _ ← syscall (CTun (UdpReceived (addr_pair (uc_local_addr c)) (addr_pair remote_addr) payload));
      if 0 <=? uc_dns_id c then
        recv_dns_id ← lift (get_dns_id remote_addr payload);
        if recv_dns_id =? uc_dns_id c then mret true
        else pmod (fun c => c <| uc_dns_id := -1 |>);; mret false
      else mret false
  end.

(** *** The other handlers *)
Definition socks_state_handler (event : Z) : U bool :=
  if event =? BSOCKSCLIENT_EVENT_CONNECTED then
    '(ok, m) ← con_socks BSocksClient_GetLocalAddr;
    if ok =? 0 then mret true else
    let tcp_local_addr := baddr_of m in
    if negb (is_ip tcp_local_addr) then mret true else
    udp_bound_addr ← lift (BAddr_SetPort tcp_local_addr [0; 0]);
    bound ← con_dg (BDatagram_Bind udp_bound_addr);
    if negb (bound : bool) then mret true else
    a ← con_dg BDatagram_GetLocalAddr;
    match a with
    | None => mret true
    | Some udp_bound_addr => con_socks (BSocksClient_SetDestAddr udp_bound_addr);; mret false
    end
  else if event =? BSOCKSCLIENT_EVENT_UP then
    remote_addr ← con_socks BSocksClient_GetBindAddr;
    con_dg (BDatagram_SetSendAddrs remote_addr (BIPAddr_ BADDR_TYPE_NONE []));; mret false
  else mret ((event =? BSOCKSCLIENT_EVENT_ERROR) || (event =? BSOCKSCLIENT_EVENT_ERROR_CLOSED)).
(** [datagram_state_handler] *)
Definition datagram_state_handler (event : bool) : bool := event.

(** *** What the reactor can run for a connection: a job, an event of its SOCKS client
    (whose state is then [o]), an event of its descriptor, the timer *)
Inductive udp_event : Type :=
  | UFirst | USocks (event : Z) (o : BSocksClient) | UTimer
  | UWriterOp | UBufferIn | UMonitorOp | USendOp | USendJob | UFd (events : Z) | USendDone | UBufferOut
  | URecvOp | URecvJob | URecvDone | UPass | UPassDone.

Definition con_run (e : udp_event) : U bool :=
  match e with
  | UFirst => pmod (fun c => c <| uc_first_job := false |>);; first_job_handler;; mret false
  | USocks event o => pmod (fun c => c <| uc_socks := o |>);; socks_state_handler event
  | UTimer => pmod (fun c => c <| uc_timer := false |>);; monitor_timer_handler
  | UWriterOp =>
      c ← pget; '(i, data) ← lift (PacketRecvInterface_job_operation (pb_input (uc_send c)));
      mbuffer (fun b => Ok (b <| pb_input := i |>));; writer_output_handler_recv data;; mret false
  | UBufferIn => mbuffer buffer_input_job;; mret false
  | UMonitorOp =>
      c ← pget; '(o, (data, len)) ← lift (PacketPassInterface_job_operation (pb_output (uc_send c)));
      mbuffer (fun b => Ok (b <| pb_output := o |>));; monitor_input_handler_send data len;; mret false
  | USendOp => con_dg datagram_send_operation;; mret false
  | USendJob => e ← con_dg send_job_handler; mret (datagram_state_handler e)
  | UFd events => e ← con_dg (datagram_fd_handler events); mret (datagram_state_handler e)
  | USendDone =>
      con_dg (d ← gdg; i ← lift (PacketPassInterface_job_done (ds_iface d)); mdg (fun d => d <| ds_iface := i |>));;
      monitor_output_handler_done;; mret false
  | UBufferOut => mbuffer buffer_output_job;; mret false
  | URecvOp => con_dg datagram_recv_operation;; mret false
  | URecvJob => e ← con_dg recv_job_handler; mret (datagram_state_handler e)
  | URecvDone =>
      len ← con_dg (d ← gdg; '(i, len) ← lift (PacketRecvInterface_job_done (dr_iface d));
                    mdg (fun d => d <| dr_iface := i |>);; mret len);
      recv_buffer_input_handler_done len;; mret false
  | UPass =>
      c ← pget; '(i, (data, len)) ← lift (PacketPassInterface_job_operation (uc_recv_if c));
      pmod (fun c => c <| uc_recv_if := i |>);; recv_if_handler_send data len
  | UPassDone =>
      c ← pget; i ← lift (PacketPassInterface_job_done (uc_recv_if c));
      pmod (fun c => c <| uc_recv_if := i |>);; recv_buffer_output_handler_done;; mret false
  end.
End con.

(** ** The client *)
Fixpoint find_connection (l : list UdpCon) (addr : BAddr) : option UdpCon :=
  match l with
  | [] => None
  | c :: l => if BAddr_CompareOrder (uc_local_addr c) addr =? 0 then Some c else find_connection l addr
  end.
Definition same_key (c d : UdpCon) : bool := BAddr_CompareOrder (uc_local_addr c) (uc_local_addr d) =? 0.
(** [BAVL_Insert]; [BAVL_Remove] and a change of a node: the one with this key *)
Fixpoint insert_connection (c : UdpCon) (l : list UdpCon) : list UdpCon :=
  match l with
  | [] => [c]
  | d :: l => if BAddr_CompareOrder (uc_local_addr c) (uc_local_addr d) <? 0 then c :: d :: l else d :: insert_connection c l
  end.
Definition remove_connection (c : UdpCon) (l : list UdpCon) : list UdpCon := List.filter (fun d => negb (same_key d c)) l.
Definition put_connection (c : UdpCon) (l : list UdpCon) : list UdpCon := (fun d => if same_key d c then c else d) <$> l.

Section client.
Context {OS : Os}.
Abbreviation S A := (Prog SocksUdpClient A).

(** a program on the connection [c], whatever becomes of it *)
Definition with_con {A} (c : UdpCon) (p : Prog UdpCon A) : S (A * UdpCon) := fun s h =>
  match p c h with Ok (a, c, h) => Ok ((a, c), s, h) | Ub => Ub | Fuel => Fuel end.
(** a program on a connection of the tree *)
Definition on_con {A} (c : UdpCon) (p : Prog UdpCon A) : S A :=
  '(a, c) ← with_con c p; pmod (fun s => s <| su_conns := put_connection c (su_conns s) |>);; mret a.

(** [connection_init] from [BDatagram_Init] on, with the ends that it goes to *)
Definition init_fail2 : Prog UdpCon bool :=
  pmod (fun c => c <| uc_first_job := false |>);;
  c ← pget; data ← deref (uc_first_data c); _ ← syscall (CFree data); mret false.
Definition init_fail3 : Prog UdpCon bool := con_dg BDatagram_Free;; init_fail2.
Definition init_fail4 : Prog UdpCon bool :=
  BufferWriter_Free;; PacketPassInactivityMonitor_Free;; con_dg BDatagram_SendAsync_Free;;
  con_socks BSocksClient_Free;; init_fail3.
Definition init_fail5 : Prog UdpCon bool :=
  pmod (fun c => c <| uc_recv_if := PacketPassInterface_Free (uc_recv_if c) |>);;
  con_dg BDatagram_RecvAsync_Free;; send_buffer_Free;; init_fail4.
Definition connection_init_rest (server_addr : BAddr) (auth : list auth_info) (socks_mtu send_buf_size : Z) : Prog UdpCon bool :=
  c ← pget;
  ok ← con_dg (BDatagram_Init (ba_type (uc_local_addr c)));
  if negb ok then init_fail2 else
  ok ← con_socks (BSocksClient_Init server_addr auth (BAddr_ BADDR_TYPE_NONE (replicate 24 0)) true);
  if negb ok then init_fail3 else
  con_dg (BDatagram_SendAsync_Init socks_mtu);;
  send_if ← con_dg BDatagram_SendAsync_GetIf;
  monitor ← PacketPassInactivityMonitor_Init send_if;
  writer ← BufferWriter_Init socks_mtu;
  mbuffer (fun b => Ok (b <| pb_input := writer |> <| pb_output := monitor |>));;
  ok ← send_buffer_Init writer monitor send_buf_size;
  if negb ok then init_fail4 else
  con_dg (BDatagram_RecvAsync_Init socks_mtu);;
  recv_if ← lift (PacketPassInterface_Init socks_mtu);
  pmod (fun c => c <| uc_recv_if := recv_if |>);;
  input ← con_dg BDatagram_RecvAsync_GetIf;
  ok ← recv_buffer_Init input recv_if;
  if negb ok then init_fail5 else mret true.

(** [size]: that of the structure, [mem]: what the block that is allocated for it holds *)
Definition connection_init (size : Z) (mem : UdpCon) (local_addr first_remote_addr : BAddr) (first_data : list Z) : S bool :=
  o ← pget;
  passert (su_num o <=? su_max o);;
  passert (bool_decide (find_connection (su_conns o) local_addr = None));;
  con ← syscall (CTun (BAlloc size));
  if rv con =? 0 then mret false else
  let fail1 := _ ← syscall (CFreeElem (rv con)); mret false in
  let c := mem <| uc_self := rv con |> <| uc_local_addr := local_addr |> in
  block ← syscall (CTun (BAlloc (zlen first_data)));
  if rv block =? 0 then fail1 else
  let c := c <| uc_first_data := Some first_data |> <| uc_first_remote_addr := first_remote_addr |> in
  dns_id ← lift (get_dns_id first_remote_addr first_data);
  let c := c <| uc_dns_id := dns_id |> <| uc_first_job := true |> in
  '(ok, c) ← with_con c (connection_init_rest (su_server_addr o) (su_auth_info o) (su_socks_mtu o) (su_send_buf_size o));
  if negb ok then fail1 else
  pmod (fun o => o <| su_conns := insert_connection c (su_conns o) |>);;
  pmod (fun o => o <| su_num := su_num o + 1 |>);; mret true.

Definition connection_free (c : UdpCon) : S unit :=
  o ← pget; passert (0 <? su_num o);;
  pmod (fun o => o <| su_num := su_num o - 1 |>);;
  pmod (fun o => o <| su_conns := remove_connection c (su_conns o) |>);;
  _ ← with_con c (
    recv_buffer_Free;;
    pmod (fun c => c <| uc_recv_if := PacketPassInterface_Free (uc_recv_if c) |>);;
    con_dg BDatagram_RecvAsync_Free;;
    send_buffer_Free;; BufferWriter_Free;; PacketPassInactivityMonitor_Free;;
    con_dg BDatagram_SendAsync_Free;;
    con_socks BSocksClient_Free;;
    con_dg BDatagram_Free;;
    pmod (fun c => c <| uc_first_job := false |>);;
    c ← pget;
    match uc_first_data c with Some data => _ ← syscall (CFree data); mret tt | None => mret tt end);
  _ ← syscall (CFreeElem (uc_self c)); mret tt.

Definition SocksUdpClient_Init (udp_mtu max_connections send_buf_size : Z) (server_addr : BAddr) (auth : list auth_info) : S bool :=
  passert (0 <=? udp_mtu);; passert (0 <? max_connections);; passert (0 <? send_buf_size);;
  pmod (fun o => o <| su_server_addr := server_addr |> <| su_auth_info := auth |> <| su_num := 0 |>
    <| su_max := max_connections |> <| su_send_buf_size := send_buf_size |> <| su_udp_mtu := udp_mtu |>);;
  pmod (fun o => o <| su_socks_mtu := compute_socks_mtu udp_mtu |>);;
  o ← pget;
  if su_socks_mtu o <? 0 then mret false else
  pmod (fun o => o <| su_conns := [] |>);; mret true.

Fixpoint free_connections (fuel : nat) : S unit :=
  o ← pget;
  match su_conns o with
  | [] => mret tt
  | c :: _ => match fuel with O => pfuel | Datatypes.S fuel => connection_free c;; free_connections fuel end
  end.
Definition SocksUdpClient_Free : S unit := o ← pget; free_connections (length (su_conns o)).

Definition SocksUdpClient_SubmitPacket (size : Z) (mem : UdpCon) (local_addr remote_addr : BAddr) (data : list Z) : S unit :=
  o ← pget;
  passert (is_ip local_addr);; passert (is_ip remote_addr);;
  passert (0 <=? zlen data);; passert (zlen data <=? su_udp_mtu o);;
  match find_connection (su_conns o) local_addr with
  | None =>
      if su_max o <=? su_num o then mret tt
      else _ ← connection_init size mem local_addr remote_addr data; mret tt
  | Some c => on_con c (connection_send (su_udp_mtu o) (su_socks_mtu o) remote_addr data)
  end.

(** what the reactor runs for the connection with a local address *)
Definition run_connection (c : UdpCon) (e : udp_event) : S unit :=
  o ← pget;
  '(ends, c) ← with_con c (con_run (su_udp_mtu o) (su_socks_mtu o) e);
  if (ends : bool) then connection_free c
  else pmod (fun o => o <| su_conns := put_connection c (su_conns o) |>).
End client.
