(* ===== verification/DatagramFacts.v ===== *)
(** Lemmas on the datagram sockets: the invariant of each direction and what each of
    their handlers does to it. *)
From S2P Require Import Prelude CMem Sys Flow Chunk SocksClient TcpClient Packet Device DevicePump Addr UdpClient Datagram.

(** POSIX: a message is sent in one piece; what [recvmsg] stores is as long as it says
    and fits; an address has the length of its
    family, and that of a connection is a [BAddr]. *)
Record datagrams_ok (OS : Os) : Prop := DatagramsOk {
  do_sent : forall h fd name control data, rv (os_reply h (CTun (SendMsg fd name control data))) <= zlen data;
  do_got : forall h fd n, 0 <= n -> 0 <= rv (os_reply h (CTun (RecvMsg fd n))) ->
    rv (os_reply h (CTun (RecvMsg fd n))) <= n /\
    zlen (rdata (os_reply h (CTun (RecvMsg fd n)))) = rv (os_reply h (CTun (RecvMsg fd n))) /\
    bytes_ok (rdata (os_reply h (CTun (RecvMsg fd n))));
  do_name : forall h, wp (addr_sys_to_socket (rdata (os_reply h (CTun MsgName)))) (fun _ => True);
  do_bound : forall h fd, rv (os_reply h (CGetsockname fd)) = 0 ->
    wp (addr_sys_to_socket (rdata (os_reply h (CGetsockname fd)))) (fun _ => True);
  do_local : forall h, rv (os_reply h CConnectionLocalAddr) <> 0 -> 28 <= zlen (rdata (os_reply h CConnectionLocalAddr)) }.

(** the messages sent, and those received, so far *)
Fixpoint msgs_sent (h : hist) : list (list Z) :=
  match h with
  | [] => []
  | (CTun (SendMsg _ _ _ data), r) :: h => if 0 <=? rv r then msgs_sent h ++ [data] else msgs_sent h
  | _ :: h => msgs_sent h
  end.
Fixpoint msgs_got (h : hist) : list (list Z) :=
  match h with
  | [] => []
  | (CTun (RecvMsg _ _), r) :: h => if 0 <=? rv r then msgs_got h ++ [rdata r] else msgs_got h
  | _ :: h => msgs_got h
  end.

(** what was handed to the owner *)
Fixpoint msgs_given (h : hist) : list ((Z * list Z) * (Z * list Z) * list Z) :=
  match h with
  | [] => []
  | (CTun (UdpReceived local remote data), _) :: h => msgs_given h ++ [(local, remote, data)]
  | _ :: h => msgs_given h
  end.
(** descriptors and connectors that were opened and not closed *)
Fixpoint opened (h : hist) : Z :=
  match h with
  | [] => 0
  | (CSocket _ _, r) :: h => opened h + (if 0 <=? rv r then 1 else 0)
  | (CClose _, _) :: h => opened h - 1
  | (CConnectorInit _, r) :: h => opened h + (if rv r =? 0 then 0 else 1)
  | (CConnectorFree, _) :: h => opened h - 1
  | _ :: h => opened h
  end.
Definition traces (h : hist) := (msgs_sent h, msgs_got h, msgs_given h, opened h).
Definition quiet (h h' : hist) : Prop := traces h' = traces h.
Lemma quiet_refl h : quiet h h. Proof. done. Qed.
Lemma quiet_trans h h' h'' : quiet h h' -> quiet h' h'' -> quiet h h''. Proof. unfold quiet. congruence. Qed.

(** ** The invariant *)
Record send_ok (d : BDatagram) : Prop := SendOk {
  so_inited : ds_inited d = true;
  so_mtu : ppi_mtu (ds_iface d) = ds_mtu d;
  so_op : ppi_job_operation (ds_iface d) = is_state (ppi_state (ds_iface d)) STATE_OPERATION_PENDING;
  so_done : ppi_job_done (ds_iface d) = is_state (ppi_state (ds_iface d)) STATE_DONE_PENDING;
  so_busy : ds_busy d = is_state (ppi_state (ds_iface d)) STATE_BUSY;
  so_data : ds_busy d = true -> ds_busy_data d = ppi_job_operation_data (ds_iface d) /\
    ds_busy_data_len d = ppi_job_operation_len (ds_iface d);
  so_len : ppi_state (ds_iface d) <> STATE_NONE -> 0 <= ppi_job_operation_len (ds_iface d) <= ds_mtu d;
  so_addrs : ds_have_addrs d = true -> is_ip (ds_remote_addr d) = true }.
Record recv_ok (d : BDatagram) : Prop := RecvOk {
  ro_inited : dr_inited d = true;
  ro_mtu : pri_mtu (dr_iface d) = dr_mtu d /\ 0 <= dr_mtu d;
  ro_op : pri_job_operation (dr_iface d) = is_state (pri_state (dr_iface d)) STATE_OPERATION_PENDING;
  ro_done : pri_job_done (dr_iface d) = is_state (pri_state (dr_iface d)) STATE_DONE_PENDING;
  ro_busy : dr_busy d = is_state (pri_state (dr_iface d)) STATE_BUSY;
  ro_data : dr_busy d = true -> dr_busy_data d = pri_job_operation_data (dr_iface d) }.
(** While a transfer can go on, its job is set or the descriptor is waited for: never
    neither, never both. *)
Definition waits (ready job event : bool) : Prop := if ready then event = negb job else event = false /\ job = false.
Definition send_wait (d : BDatagram) : Prop := waits (ds_busy d && ds_have_addrs d) (ds_job d) (Z.testbit (dg_wait_events d) 1).
Definition recv_wait (d : BDatagram) : Prop := waits (dr_busy d && dr_started d) (dr_job d) (Z.testbit (dg_wait_events d) 0).

(** what a change of the other direction leaves as it is *)
Definition same_send (d d' : BDatagram) : Prop := dg_fd d' = dg_fd d /\
  ds_have_addrs d' = ds_have_addrs d /\ ds_remote_addr d' = ds_remote_addr d /\ ds_inited d' = ds_inited d /\
  ds_mtu d' = ds_mtu d /\ ds_iface d' = ds_iface d /\ ds_job d' = ds_job d /\ ds_busy d' = ds_busy d /\
  ds_busy_data d' = ds_busy_data d /\ ds_busy_data_len d' = ds_busy_data_len d.
Definition same_recv (d d' : BDatagram) : Prop := dg_fd d' = dg_fd d /\
  dr_inited d' = dr_inited d /\ dr_mtu d' = dr_mtu d /\ dr_iface d' = dr_iface d /\
  dr_busy d' = dr_busy d /\ dr_busy_data d' = dr_busy_data d.
Lemma same_send_ok d d' : same_send d d' -> send_ok d -> send_ok d'.
Proof.
  intros (? & E1 & E2 & E3 & E4 & E5 & E6 & E7 & E8 & E9) [? ? ? ? ? ? ? ?].
  constructor; rewrite ?E1, ?E2, ?E3, ?E4, ?E5, ?E6, ?E7, ?E8, ?E9; done.
Qed.
Lemma same_recv_ok d d' : same_recv d d' -> recv_ok d -> recv_ok d'.
Proof.
  intros (? & E1 & E2 & E3 & E4 & E5) [? ? ? ? ? ?]. constructor; rewrite ?E1, ?E2, ?E3, ?E4, ?E5; done.
Qed.

(** ** Bits of the events *)
Lemma has_flag_bit x k : 0 <= k -> has_flag x (2 ^ k) = Z.testbit x k.
Proof.
  intros Hk. unfold has_flag, truthy. destruct (Z.testbit x k) eqn:E.
  - apply negb_true_iff, Z.eqb_neq. intros H. apply (f_equal (fun y => Z.testbit y k)) in H.
    rewrite Z.land_spec, Z.pow2_bits_true, E, Z.bits_0 in H by done. done.
  - apply negb_false_iff, Z.eqb_eq. apply Z.bits_inj_0. intros n. rewrite Z.land_spec.
    destruct (decide (n = k)) as [-> |Hn]; [by rewrite E|]. rewrite Z.pow2_bits_false by congruence. apply andb_false_r.
Qed.
Lemma has_read ev : has_flag ev BREACTOR_READ = Z.testbit ev 0. Proof. exact (has_flag_bit ev 0 ltac:(lia)). Qed.
Lemma has_write ev : has_flag ev BREACTOR_WRITE = Z.testbit ev 1. Proof. exact (has_flag_bit ev 1 ltac:(lia)). Qed.
Lemma set_read w : Z.testbit (Z.lor w BREACTOR_READ) 0 = true /\ Z.testbit (Z.lor w BREACTOR_READ) 1 = Z.testbit w 1.
Proof. rewrite !Z.lor_spec. change (Z.testbit BREACTOR_READ 0) with true. change (Z.testbit BREACTOR_READ 1) with false. by destruct (Z.testbit w 0), (Z.testbit w 1). Qed.
Lemma set_write w : Z.testbit (Z.lor w BREACTOR_WRITE) 1 = true /\ Z.testbit (Z.lor w BREACTOR_WRITE) 0 = Z.testbit w 0.
Proof. rewrite !Z.lor_spec. change (Z.testbit BREACTOR_WRITE 0) with false. change (Z.testbit BREACTOR_WRITE 1) with true. by destruct (Z.testbit w 0), (Z.testbit w 1). Qed.
Lemma clear_events w ev k : 0 <= k -> Z.testbit (Z.land w (Z.lnot ev)) k = Z.testbit w k && negb (Z.testbit ev k).
Proof. intros. by rewrite Z.land_spec, Z.lnot_spec. Qed.

(** ** What the handlers do *)
Definition started (d : BDatagram) : BDatagram :=
  if dr_started d then d else
  if dr_inited d && dr_busy d then (d <| dr_started := true |>) <| dr_job := true |> else d <| dr_started := true |>.
Definition sent_one (d : BDatagram) : BDatagram :=
  (started d) <| ds_busy := false |>
    <| ds_iface := (((ds_iface d) <| ppi_job_requestcancel := false |>) <| ppi_job_done := true |>) <| ppi_state := STATE_DONE_PENDING |> |>.
Lemma started_same d : same_send d (started d).
Proof. unfold started, same_send. by destruct (dr_started d), (dr_inited d && dr_busy d). Qed.
Lemma started_recv d : same_recv d (started d).
Proof. unfold started, same_recv. by destruct (dr_started d), (dr_inited d && dr_busy d). Qed.
Lemma started_wait d : recv_ok d -> recv_wait d -> recv_wait (started d).
Proof.
  intros [Hi _ _ _ _ _] Hw. unfold started, recv_wait in *. rewrite Hi. destruct (dr_started d) eqn:E; [by rewrite E|].
  rewrite andb_false_r in Hw. destruct Hw as [Hw Hj], (dr_busy d) eqn:Eb; simpl; by rewrite Eb.
Qed.

Section handlers.
Context {OS : Os} (Hos : datagrams_ok OS).
Implicit Types (w : gworld) (h : hist) (d : BDatagram).

Ltac gstep := first [wpp_step | progress unfold gdg, mdg, wait_for, set_fd_events].

Lemma wpp_start_recv w h (Q : unit -> gworld -> hist -> Prop) :
  Q tt (w <| g_dg := started (g_dg w) |>) h -> wpp start_recv w h Q.
Proof.
  intros HQ. unfold start_recv. do 3 gstep. unfold started in HQ. destruct (dr_started (g_dg w)).
  - wpp_step. by destruct w.
  - repeat gstep. simpl. case_match; repeat gstep; exact HQ.
Qed.

Lemma to_sys_ok a : is_ip a = true -> exists n, addr_socket_to_sys a = Ok n.
Proof.
  intros H. unfold is_ip in H. unfold addr_socket_to_sys. destruct (ba_type a =? BADDR_TYPE_IPV4); [eauto|].
  simpl in H. rewrite H. eauto.
Qed.
Lemma sys_body n a : addr_sys_to_socket n = Ok a -> zlen (ba_body a) = 24.
Proof.
  unfold addr_sys_to_socket, assert_. destruct (_ =? AF_INET); [|destruct (_ =? AF_INET6)].
  - destruct (Z.eqb_spec (zlen n) 16); [|done]. intros [= <-]. cbn [ba_body BAddr_MakeIPv4 BAddr_MakeIPv6].
    rewrite !zlen_app, !zlen_slice by lia. change (zlen (replicate 18 0)) with 18. lia.
  - destruct (Z.eqb_spec (zlen n) 28); [|done]. intros [= <-]. cbn [ba_body BAddr_MakeIPv4 BAddr_MakeIPv6].
    rewrite !zlen_app, !zlen_slice by lia. change (zlen (replicate 6 0)) with 6. lia.
  - by intros [= <-].
Qed.

Lemma wpp_do_send w h p (Q : bool -> gworld -> hist -> Prop) :
  send_ok (g_dg w) -> ds_busy (g_dg w) = true -> ds_have_addrs (g_dg w) = true ->
  rd_list (g_out w) (ds_busy_data (g_dg w)) (ds_busy_data_len (g_dg w)) = Ok p ->
  zlen p = ds_busy_data_len (g_dg w) ->
  (forall h', quiet h h' -> Q true w h') ->
  (forall h', quiet h h' -> Q false (w <| g_dg := (g_dg w) <| dg_wait_events := Z.lor (dg_wait_events (g_dg w)) BREACTOR_WRITE |> |>) h') ->
  (forall h', traces h' = (msgs_sent h ++ [p], msgs_got h, msgs_given h, opened h) -> Q false (w <| g_dg := sent_one (g_dg w) |>) h') ->
  wpp do_send w h Q.
Proof.
  intros Hs Hb Ha Hrd Hp Q1 Q2 Q3. unfold do_send. do 3 gstep.
  gstep. apply wpp_passert; [apply Hs|]. gstep. apply wpp_passert; [done|]. gstep. apply wpp_passert; [done|].
  do 2 gstep. case_match; [repeat gstep; by apply Q2|]. do 2 gstep.
  destruct (to_sys_ok _ (so_addrs _ Hs Ha)) as [n Hn]. rewrite Hn. apply wp_ok. do 4 gstep. rewrite Hrd. apply wp_ok.
  do 2 gstep. set (r := os_reply (_ :: h) (CTun (SendMsg _ _ _ _))). pose proof (do_sent _ Hos) as Hle.
  assert (Hr : rv r <= zlen p) by apply Hle. clear Hle. destruct (Z.ltb_spec (rv r) 0) as [Hneg|Hpos].
  - rewrite <- Z.leb_gt in Hneg. do 2 gstep.
    case_match; repeat gstep; [apply Q2|apply Q1]; unfold quiet, traces; simpl; by rewrite Hneg.
  - rewrite <- Z.leb_le in Hpos. gstep. apply wpp_passert; [lia|].
    gstep. apply wpp_start_recv. do 4 gstep. rewrite ppi_done_ok.
    2:{ pose proof (so_busy _ Hs) as E. rewrite Hb in E. apply symmetry, bool_decide_eq_true in E. exact E. }
    apply wp_ok. repeat gstep. apply Q3. unfold traces. simpl. by rewrite Hpos.
Qed.

Definition got_one (d : BDatagram) (a : BAddr) (l : BIPAddr) (len : Z) : BDatagram :=
  ((((d <| dr_remote_addr := a |>) <| dr_local_addr := l |>) <| dr_have_addrs := true |>) <| dr_busy := false |>)
    <| dr_iface := (((dr_iface d) <| pri_job_done_len := len |>) <| pri_job_done := true |>) <| pri_state := STATE_DONE_PENDING |> |>.

Lemma wpp_do_recv w h (Q : bool -> gworld -> hist -> Prop) :
  recv_ok (g_dg w) -> dr_busy (g_dg w) = true -> dr_started (g_dg w) = true ->
  dr_busy_data (g_dg w) = 0 -> zlen (g_in w) = dr_mtu (g_dg w) -> bytes_ok (g_in w) ->
  (forall h', quiet h h' -> Q true w h') ->
  (forall h', quiet h h' -> Q false (w <| g_dg := (g_dg w) <| dg_wait_events := Z.lor (dg_wait_events (g_dg w)) BREACTOR_READ |> |>) h') ->
  (forall m a l len h', traces h' = (msgs_sent h, msgs_got h ++ [slice m 0 len], msgs_given h, opened h) ->
     0 <= len <= dr_mtu (g_dg w) -> zlen m = dr_mtu (g_dg w) -> bytes_ok m ->
     Q false ((w <| g_in := m |>) <| g_dg := got_one (g_dg w) a l len |>) h') ->
  wpp do_recv w h Q.
Proof.
  intros Hs Hb Ha Hd Hz Hby Q1 Q2 Q3. unfold do_recv. do 3 gstep.
  gstep. apply wpp_passert; [apply Hs|]. gstep. apply wpp_passert; [done|]. gstep. apply wpp_passert; [done|].
  do 2 gstep. case_match; [repeat gstep; by apply Q2|]. do 4 gstep. destruct (ro_mtu _ Hs) as [Hm Hm0].
  set (r := os_reply (_ :: h) (CTun (RecvMsg _ _))).
  assert (Hr : 0 <= rv r -> rv r <= dr_mtu (g_dg w) /\ zlen (rdata r) = rv r /\ bytes_ok (rdata r)) by (apply Hos; done).
  destruct (Z.ltb_spec (rv r) 0) as [Hneg|Hpos].
  - rewrite <- Z.leb_gt in Hneg. case_match; repeat gstep; [apply Q2|apply Q1]; unfold quiet, traces; simpl; by rewrite Hneg.
  - destruct (Hr Hpos) as (Hle & Hzr & Hbr). rewrite <- Z.leb_le in Hpos.
    do 4 gstep. rewrite Hd. rewrite wr_list_ok by (rewrite ?Hzr; lia). apply wp_ok. do 2 gstep.
    gstep. apply wpp_passert; [lia|]. repeat gstep. eapply wp_mono; [apply (do_name _ Hos)|]. intros a _. repeat gstep.
    rewrite pri_done_ok; [|pose proof (ro_busy _ Hs) as E; rewrite Hb in E; apply symmetry, bool_decide_eq_true in E; exact E|lia].
    apply wp_ok. repeat gstep. apply (Q3 _ a (BIPAddr_ _ _)); [|lia|by rewrite zlen_splice by lia|by apply bytes_ok_splice].
    assert (Hsl : slice (splice (g_in w) 0 (rdata r)) 0 (rv r) = rdata r) by (rewrite <- Hzr; apply slice_splice_at; lia).
    rewrite Hsl. unfold traces. cbn [msgs_sent msgs_got msgs_given opened]. by rewrite Hpos.
Qed.
End handlers.

(** ** Both directions together; [p] is the message the sending one has *)
Record dg_core (w : gworld) (p : list Z) : Prop := DgCore {
  dc_send : send_ok (g_dg w);
  dc_recv : recv_ok (g_dg w);
  dc_in : zlen (g_in w) = dr_mtu (g_dg w) /\ bytes_ok (g_in w);
  dc_zero : pri_state (dr_iface (g_dg w)) <> STATE_NONE -> pri_job_operation_data (dr_iface (g_dg w)) = 0;
  dc_len : pri_state (dr_iface (g_dg w)) = STATE_DONE_PENDING -> 0 <= pri_job_done_len (dr_iface (g_dg w)) <= dr_mtu (g_dg w);
  dc_out : ppi_state (ds_iface (g_dg w)) <> STATE_NONE ->
    rd_list (g_out w) (ppi_job_operation_data (ds_iface (g_dg w))) (ppi_job_operation_len (ds_iface (g_dg w))) = Ok p /\
    zlen p = ppi_job_operation_len (ds_iface (g_dg w)) }.

(** what the transfers of a handler do: they complete, or nothing *)
Record moved (p : list Z) (w : gworld) (h : hist) (w' : gworld) (h' : hist) : Prop := Moved {
  mv_fd : dg_fd (g_dg w') = dg_fd (g_dg w);
  mv_have : ds_have_addrs (g_dg w') = ds_have_addrs (g_dg w);
  mv_inited : ds_inited (g_dg w') = ds_inited (g_dg w) /\ dr_inited (g_dg w') = dr_inited (g_dg w);
  mv_mtu : ds_mtu (g_dg w') = ds_mtu (g_dg w) /\ dr_mtu (g_dg w') = dr_mtu (g_dg w);
  mv_out : g_out w' = g_out w;
  mv_data : ppi_job_operation_data (ds_iface (g_dg w')) = ppi_job_operation_data (ds_iface (g_dg w)) /\
    ppi_job_operation_len (ds_iface (g_dg w')) = ppi_job_operation_len (ds_iface (g_dg w));
  mv_traces : exists s g, traces h' = (msgs_sent h ++ s, msgs_got h ++ g, msgs_given h, opened h) /\
    (s = [] /\ ppi_state (ds_iface (g_dg w')) = ppi_state (ds_iface (g_dg w)) \/
     s = [p] /\ ppi_state (ds_iface (g_dg w)) = STATE_BUSY /\ ppi_state (ds_iface (g_dg w')) = STATE_DONE_PENDING) /\
    (g = [] /\ pri_state (dr_iface (g_dg w')) = pri_state (dr_iface (g_dg w)) /\
       pri_job_done_len (dr_iface (g_dg w')) = pri_job_done_len (dr_iface (g_dg w)) /\ g_in w' = g_in w \/
     g = [slice (g_in w') 0 (pri_job_done_len (dr_iface (g_dg w')))] /\
       pri_state (dr_iface (g_dg w)) = STATE_BUSY /\ pri_state (dr_iface (g_dg w')) = STATE_DONE_PENDING) }.
(** a handler that only changes flags *)
Lemma moved_still p w h w' h' : g_out w' = g_out w -> g_in w' = g_in w ->
  dg_fd (g_dg w') = dg_fd (g_dg w) -> ds_have_addrs (g_dg w') = ds_have_addrs (g_dg w) ->
  ds_mtu (g_dg w') = ds_mtu (g_dg w) -> dr_mtu (g_dg w') = dr_mtu (g_dg w) ->
  ds_iface (g_dg w') = ds_iface (g_dg w) -> dr_iface (g_dg w') = dr_iface (g_dg w) ->
  ds_inited (g_dg w') = ds_inited (g_dg w) -> dr_inited (g_dg w') = dr_inited (g_dg w) -> quiet h h' -> moved p w h w' h'.
Proof.
  intros E1 E2 E3 E4 E5 E6 E7 E8 E9 E10 Hq. constructor; rewrite ?E7; try done. exists [], []. rewrite !app_nil_r, E8, E2.
  split; [exact Hq|]. split; by left.
Qed.
Lemma moved_trans p w h w1 h1 w' h' : quiet h h1 -> g_out w1 = g_out w -> g_in w1 = g_in w ->
  dg_fd (g_dg w1) = dg_fd (g_dg w) -> ds_have_addrs (g_dg w1) = ds_have_addrs (g_dg w) ->
  ds_mtu (g_dg w1) = ds_mtu (g_dg w) -> dr_mtu (g_dg w1) = dr_mtu (g_dg w) ->
  ds_iface (g_dg w1) = ds_iface (g_dg w) -> dr_iface (g_dg w1) = dr_iface (g_dg w) ->
  ds_inited (g_dg w1) = ds_inited (g_dg w) -> dr_inited (g_dg w1) = dr_inited (g_dg w) ->
  moved p w1 h1 w' h' -> moved p w h w' h'.
Proof.
  intros Hq E1 E2 E3 E4 E5 E6 E7 E8 E9 E10 [F1 F2 [F6 F7] [F3 F3'] F4 [F5 F5'] (s & g & Ht & Hs & Hg)].
  unfold quiet, traces in Hq. injection Hq as Q1 Q2 Q3 Q4.
  constructor; rewrite ?E7 in *; try (split; congruence); try congruence. exists s, g. by rewrite <- Q1, <- Q2, <- Q3, <- Q4, <- E8, <- E2.
Qed.

#[local] Arguments Z.testbit : simpl never.
Section both.
Context {OS : Os} (Hos : datagrams_ok OS).
Implicit Types (w : gworld) (h : hist) (d : BDatagram).

Lemma wpp_send_core w h p :
  dg_core w p -> ds_busy (g_dg w) = true -> ds_have_addrs (g_dg w) = true ->
  wpp do_send w h (fun b w' h' => moved p w h w' h' /\ dg_core w' p /\
    (recv_wait (g_dg w) -> recv_wait (g_dg w')) /\
    (b = false -> ds_job (g_dg w) = false ->
     ds_busy (g_dg w') = true \/ Z.testbit (dg_wait_events (g_dg w)) 1 = false -> send_wait (g_dg w'))).
Proof.
  intros Hc Hb Ha. pose proof Hc as [Hs Hr Hi Hz Hl Ho]. pose proof (so_busy _ Hs) as Est. rewrite Hb in Est.
  apply symmetry, bool_decide_eq_true in Est. destruct (so_data _ Hs Hb) as [Ed El].
  destruct Ho as [Hrd Hzp]; [by rewrite Est|].
  apply (wpp_do_send Hos _ _ p); rewrite ?Ed, ?El; try done.
  - intros h' Hq. split; [by apply moved_still|]. by split_and!.
  - intros h' Hq. split; [by apply moved_still|]. destruct (set_write (dg_wait_events (g_dg w))) as [W1 W0].
    split; [|split].
    + destruct Hs, Hr. constructor; simpl; try done; by constructor.
    + unfold recv_wait. simpl. by rewrite W0.
    + intros _ Hj _. unfold send_wait. simpl. by rewrite W1, Hj, Hb, Ha.
  - intros h' Ht. pose proof (started_same (g_dg w)) as Hss. pose proof (started_recv (g_dg w)) as Hsr.
    pose proof (same_recv_ok _ _ Hsr Hr) as Hr'. destruct Hss as (S0 & S1 & S2 & S3 & S4 & S5 & S6 & S7 & S8 & S9).
    destruct Hsr as (_ & R1 & R2 & R3 & R4 & R5). split; [|split; [|split]].
    + constructor; simpl; rewrite ?R3; try done. exists [p], []. rewrite app_nil_r. split; [exact Ht|]. split; [by right|by left].
    + constructor; simpl; rewrite ?R2, ?R3; try done.
      * destruct Hs as [A1 A2 A3 A4 A5 A6 A7 A8]. rewrite Est in *. constructor; simpl; rewrite ?S1, ?S2, ?S3, ?S4; try done. intros _. by apply A7.
      * by destruct Hr'.
    + intros Hw. pose proof (started_wait _ Hr Hw) as Hw'. exact Hw'.
    + intros _ Hj Hor. unfold send_wait. simpl. destruct Hor as [Hor|Hor]; [done|]. rewrite S6, Hj. split; [|done].
      rewrite <- Hor. unfold started. by repeat case_match.
Qed.

Lemma wpp_recv_core w h p :
  dg_core w p -> dr_busy (g_dg w) = true -> dr_started (g_dg w) = true ->
  wpp do_recv w h (fun b w' h' => moved p w h w' h' /\ dg_core w' p /\
    (send_wait (g_dg w) -> send_wait (g_dg w')) /\
    (b = false -> dr_job (g_dg w) = false ->
     dr_busy (g_dg w') = true \/ Z.testbit (dg_wait_events (g_dg w)) 0 = false -> recv_wait (g_dg w'))).
Proof.
  intros Hc Hb Ha. pose proof Hc as [Hs Hr [Hi Hi'] Hz Hl Ho]. pose proof (ro_busy _ Hr) as Est. rewrite Hb in Est.
  apply symmetry, bool_decide_eq_true in Est. pose proof (ro_data _ Hr Hb) as Ed.
  apply (wpp_do_recv Hos); try done.
  - rewrite Ed. apply Hz. by rewrite Est.
  - intros h' Hq. split; [by apply moved_still|]. by split_and!.
  - intros h' Hq. split; [by apply moved_still|]. destruct (set_read (dg_wait_events (g_dg w))) as [W1 W0].
    split; [|split].
    + destruct Hs, Hr. constructor; simpl; try done; by constructor.
    + unfold send_wait. simpl. by rewrite W0.
    + intros _ Hj _. unfold recv_wait. simpl. by rewrite W1, Hj, Hb, Ha.
  - intros m a l len h' Ht Hlen Hzm Hbm. split; [|split; [|split]].
    + constructor; simpl; try done. exists [], [slice m 0 len]. rewrite app_nil_r. split; [exact Ht|]. split; [by left|by right].
    + constructor; simpl; try done.
      * by destruct Hs.
      * destruct Hr as [A1 A2 A3 A4 A5 A6]. rewrite Est in *. by constructor.
      * intros _. apply Hz. by rewrite Est.
    + done.
    + intros _ Hj Hor. unfold recv_wait. simpl. destruct Hor as [Hor|Hor]; [done|]. by rewrite Hj.
Qed.
End both.

Definition dg_ok (w : gworld) (p : list Z) : Prop := dg_core w p /\ send_wait (g_dg w) /\ recv_wait (g_dg w).
Definition broken (ev : Z) : bool := has_flag ev (Z.lor BREACTOR_ERROR BREACTOR_HUP).

Section events.
Context {OS : Os} (Hos : datagrams_ok OS).
Implicit Types (w : gworld) (h : hist) (d : BDatagram).
Ltac gstep := first [wpp_step | progress unfold gdg, mdg, wait_for, set_fd_events].

(** When the reactor calls [fd_handler]: no job is set, reading and writing are reported
    only when they are waited for, and an error comes with the events that are waited
    for. *)
Definition fd_ready (w : gworld) (ev : Z) : Prop :=
  let d := g_dg w in
  ds_job d = false /\ dr_job d = false /\
  (forall k, k = 0 \/ k = 1 -> Z.testbit ev k = true -> Z.testbit (dg_wait_events d) k = true) /\
  (broken ev = false \/ forall k, k = 0 \/ k = 1 -> Z.testbit (dg_wait_events d) k = true -> Z.testbit ev k = true).

Lemma wpp_send_job w h p : dg_ok w p -> ds_job (g_dg w) = true ->
  wpp send_job_handler w h (fun b w' h' => moved p w h w' h' /\ (b = false -> dg_ok w' p)).
Proof.
  intros (Hc & Hs & Hr) Hj. unfold send_wait, waits in Hs. rewrite Hj in Hs. case_match eqn:E; [|by destruct Hs].
  apply andb_true_iff in E as [Eb Ea]. unfold send_job_handler. repeat gstep.
  eapply wpp_mono.
  { apply (wpp_send_core Hos _ _ p); [|done|done]. destruct Hc as [Cs Cr ? ? ? ?]. constructor; simpl; try done; [by destruct Cs|by destruct Cr]. }
  intros b w' h' (Hm & Hc' & Hr' & Hs'). split; [by eapply moved_trans; [..|exact Hm]|].
  intros ->. split; [done|]. split; [|by apply Hr']. apply Hs'; [done|done|by right].
Qed.
Lemma wpp_recv_job w h p : dg_ok w p -> dr_job (g_dg w) = true ->
  wpp recv_job_handler w h (fun b w' h' => moved p w h w' h' /\ (b = false -> dg_ok w' p)).
Proof.
  intros (Hc & Hs & Hr) Hj. unfold recv_wait, waits in Hr. rewrite Hj in Hr. case_match eqn:E; [|by destruct Hr].
  apply andb_true_iff in E as [Eb Ea]. unfold recv_job_handler. repeat gstep.
  eapply wpp_mono.
  { apply (wpp_recv_core Hos _ _ p); [|done|done]. destruct Hc as [Cs Cr ? ? ? ?]. constructor; simpl; try done; [by destruct Cs|by destruct Cr]. }
  intros b w' h' (Hm & Hc' & Hs' & Hr'). split; [by eapply moved_trans; [..|exact Hm]|].
  intros ->. split; [done|]. split; [by apply Hs'|]. apply Hr'; [done|done|by right].
Qed.

Lemma wpp_dg_fd w h p ev : dg_ok w p -> ds_job (g_dg w) = false -> dr_job (g_dg w) = false ->
  (forall k, k = 0 \/ k = 1 -> Z.testbit ev k = true -> Z.testbit (dg_wait_events (g_dg w)) k = true) ->
  wpp (datagram_fd_handler ev) w h (fun b w' h' => moved p w h w' h' /\
    (broken ev = false \/ (forall k, k = 0 \/ k = 1 -> Z.testbit (dg_wait_events (g_dg w)) k = true -> Z.testbit ev k = true) ->
     b = false -> dg_ok w' p)).
Proof.
  intros (Hc & Hs & Hr) Hjs Hjr Hev. pose proof Hc as [Cs Cr Ci Cz Cl Co].
  pose proof (Hev 1 ltac:(by right)) as Hev1. pose proof (Hev 0 ltac:(by left)) as Hev0. clear Hev.
  assert (Bs : Z.testbit (dg_wait_events (g_dg w)) 1 = ds_busy (g_dg w) && ds_have_addrs (g_dg w)).
  { unfold send_wait, waits in Hs. rewrite Hjs in Hs. case_match; [done|by destruct Hs]. }
  assert (Br : Z.testbit (dg_wait_events (g_dg w)) 0 = dr_busy (g_dg w) && dr_started (g_dg w)).
  { unfold recv_wait, waits in Hr. rewrite Hjr in Hr. case_match; [done|by destruct Hr]. }
  unfold datagram_fd_handler. repeat gstep. simpl. rewrite (so_inited _ Cs), (ro_inited _ Cr), has_read, has_write, !andb_true_r.
  fold (broken ev). set (d1 := (g_dg w) <| dg_wait_events := Z.land (dg_wait_events (g_dg w)) (Z.lnot ev) |>).
  assert (W1 : Z.testbit (dg_wait_events d1) 1 = Z.testbit (dg_wait_events (g_dg w)) 1 && negb (Z.testbit ev 1)) by (by apply clear_events).
  assert (W0 : Z.testbit (dg_wait_events d1) 0 = Z.testbit (dg_wait_events (g_dg w)) 0 && negb (Z.testbit ev 0)) by (by apply clear_events).
  rewrite <- andb_assoc, <- Bs. rewrite <- (andb_assoc (broken ev)), <- Br.
  set (hs := Z.testbit ev 1 || broken ev && _). set (hr := Z.testbit ev 0 || broken ev && _).
  assert (Hhs : hs = true -> ds_busy (g_dg w) = true /\ ds_have_addrs (g_dg w) = true).
  { intros E. apply andb_true_iff. rewrite <- Bs. unfold hs in E. destruct (Z.testbit ev 1); [by apply Hev1|]. simpl in E. by apply andb_true_iff in E as [_ E]. }
  assert (Hhr : hr = true -> dr_busy (g_dg w) = true /\ dr_started (g_dg w) = true).
  { intros E. apply andb_true_iff. rewrite <- Br. unfold hr in E. destruct (Z.testbit ev 0); [by apply Hev0|]. simpl in E. by apply andb_true_iff in E as [_ E]. }
  assert (Hcore : forall j, dg_core (w <| g_dg := d1 <| dr_job := j |> |>) p).
  { intros j. constructor; simpl; try done; [by destruct Cs|by destruct Cr]. }
  set (h1 := _ :: h).
  assert (Hmv : forall j w' h', moved p (w <| g_dg := d1 <| dr_job := j |> |>) h1 w' h' -> moved p w h w' h').
  { intros j w' h' Hm. by eapply moved_trans; [..|exact Hm]. }
  assert (Hw1 : w <| g_dg := d1 |> = w <| g_dg := d1 <| dr_job := false |> |>) by (unfold d1; destruct w as [d ? ?]; destruct d; simpl in *; by subst).
  assert (Hex : broken ev = false \/ (forall k, k = 0 \/ k = 1 -> Z.testbit (dg_wait_events (g_dg w)) k = true -> Z.testbit ev k = true) ->
    hs = Z.testbit ev 1 /\ hr = Z.testbit ev 0).
  { unfold hs, hr. intros [-> |He]; [by rewrite !orb_false_r|].
    pose proof (He 1 ltac:(by right)) as He1. pose proof (He 0 ltac:(by left)) as He0.
    destruct (Z.testbit ev 1), (Z.testbit ev 0), (Z.testbit (dg_wait_events (g_dg w)) 1), (Z.testbit (dg_wait_events (g_dg w)) 0);
      rewrite ?andb_false_r, ?andb_true_r; simpl; try done; first [by specialize (He1 eq_refl)|by specialize (He0 eq_refl)]. }
  assert (Hasserts : forall (Q : unit -> gworld -> hist -> Prop) (b x y : bool) w1, (b = true -> x = true /\ y = true) -> Q tt w1 h1 ->
    wpp (if b then passert true;; passert x;; passert y else mret tt) w1 h1 Q).
  { intros Q b x y w1 Hb HQ. destruct b; [|by wpp_step]. destruct (Hb eq_refl) as [-> ->]. repeat (gstep; try (apply wpp_passert; [done|])). exact HQ. }
  apply Hasserts; [exact Hhs|]. wpp_step. apply Hasserts; [exact Hhr|]. clear Hasserts.
  destruct hs eqn:Ehs; [|destruct hr eqn:Ehr].
  - destruct (Hhs eq_refl) as [Hb Ha]. wpp_step.
    assert (Hj : forall Q : unit -> gworld -> hist -> Prop, Q tt (w <| g_dg := d1 <| dr_job := hr |> |>) h1 ->
      wpp (if hr then pmod (fun w0 => w0 <| g_dg := (g_dg w0) <| dr_job := true |> |>) else mret tt) (w <| g_dg := d1 |>) h1 Q).
    { intros Q HQ. destruct hr; wpp_step; [exact HQ|by rewrite Hw1]. }
    apply Hj. eapply wpp_mono; [by apply (wpp_send_core Hos _ _ p)|].
    intros b w' h' (Hm & Hc' & Hr' & Hs'). split; [by eapply Hmv|]. intros He Eb. destruct (Hex He) as [E1 E0].
    split; [done|]. split.
    + apply Hs'; [done|done|]. right. change (Z.testbit (dg_wait_events d1) 1 = false). by rewrite W1, <- E1, andb_false_r.
    + apply Hr'. change (waits (dr_busy (g_dg w) && dr_started (g_dg w)) hr (Z.testbit (dg_wait_events d1) 0)). rewrite W0, <- E0, Br. destruct hr; simpl.
      * destruct (Hhr eq_refl) as [-> ->]. done.
      * rewrite andb_true_r. by destruct (dr_busy (g_dg w) && dr_started (g_dg w)).
  - destruct (Hhr eq_refl) as [Hb Ha]. rewrite Hw1. eapply wpp_mono; [by apply (wpp_recv_core Hos _ _ p)|].
    intros b w' h' (Hm & Hc' & Hs' & Hr'). split; [by eapply Hmv|]. intros He Eb. destruct (Hex He) as [E1 E0].
    split; [done|]. split.
    + apply Hs'. change (waits (ds_busy (g_dg w) && ds_have_addrs (g_dg w)) (ds_job (g_dg w)) (Z.testbit (dg_wait_events d1) 1)). rewrite W1, <- E1, Bs, Hjs, andb_true_r. by destruct (ds_busy (g_dg w) && ds_have_addrs (g_dg w)).
    + apply Hr'; [done|done|]. right. change (Z.testbit (dg_wait_events d1) 0 = false). by rewrite W0, <- E0, andb_false_r.
  - wpp_step. split; [|done]. by apply moved_still.
Qed.

Lemma wpp_fd_ready w h p ev : dg_ok w p -> fd_ready w ev ->
  wpp (datagram_fd_handler ev) w h (fun b w' h' => moved p w h w' h' /\ (b = false -> dg_ok w' p)).
Proof.
  intros Hok (Hj1 & Hj2 & Hev & Hor). eapply wpp_mono; [exact (wpp_dg_fd w h p ev Hok Hj1 Hj2 Hev)|].
  intros b w' h' [Hm Hd]. split; [done|]. intros Hb. by apply Hd.
Qed.

(** The interfaces hand over a transfer. *)
Lemma wpp_send_operation w h p : dg_ok w p -> ppi_job_operation (ds_iface (g_dg w)) = true ->
  wpp datagram_send_operation w h (fun _ w' h' => h' = h /\ dg_ok w' p /\
    g_out w' = g_out w /\ g_in w' = g_in w /\ same_recv (g_dg w) (g_dg w') /\
    ppi_state (ds_iface (g_dg w)) = STATE_OPERATION_PENDING /\ ppi_state (ds_iface (g_dg w')) = STATE_BUSY /\
    ds_mtu (g_dg w') = ds_mtu (g_dg w) /\ ds_have_addrs (g_dg w') = ds_have_addrs (g_dg w) /\
    ppi_job_operation_data (ds_iface (g_dg w')) = ppi_job_operation_data (ds_iface (g_dg w)) /\
    ppi_job_operation_len (ds_iface (g_dg w')) = ppi_job_operation_len (ds_iface (g_dg w))).
Proof.
  intros ([Cs Cr Ci Cz Cl Co] & Hs & Hr) Ho. rewrite (so_op _ Cs) in Ho. apply bool_decide_eq_true in Ho as Est.
  destruct Cs as [A1 A2 A3 A4 A5 A6 A7 A8]. rewrite Est in *. simpl in *. destruct (Co ltac:(done)) as [Hrd Hz]. destruct (A7 ltac:(done)) as [L1 L2].
  unfold send_wait, waits in Hs. rewrite A5 in Hs. simpl in Hs. destruct Hs as [W1 Hj].
  unfold datagram_send_operation, send_if_handler_send. repeat gstep. rewrite ppi_job_operation_ok by done. apply wp_ok. repeat gstep.
  simpl. rewrite A1, A5. do 4 (try wpp_step; apply wpp_passert; [simpl; lia || done|]). repeat gstep. simpl.
  assert (Hgoal : forall j, waits (ds_have_addrs (g_dg w)) j (Z.testbit (dg_wait_events (g_dg w)) 1) ->
    dg_ok (w <| g_dg := (((((g_dg w) <| ds_iface := ((ds_iface (g_dg w)) <| ppi_job_operation := false |>) <| ppi_state := STATE_BUSY |> |>)
      <| ds_busy_data := ppi_job_operation_data (ds_iface (g_dg w)) |>) <| ds_busy_data_len := ppi_job_operation_len (ds_iface (g_dg w)) |>)
      <| ds_busy := true |>) <| ds_job := j |> |>) p).
  { intros j Hw. split; [|split; [exact Hw|exact Hr]]. constructor; simpl; try done; try (by destruct Cr); constructor; simpl; try done; by rewrite A4. }
  unfold waits in Hgoal. rewrite W1 in Hgoal. destruct (ds_have_addrs (g_dg w)) eqn:Ea; simpl; repeat gstep.
  - split; [done|]. split; [by apply (Hgoal true)|]. by split_and!.
  - split; [done|]. split; [|by split_and!]. specialize (Hgoal false ltac:(done)).
    destruct w as [d ? ?]. destruct d. simpl in *. subst. exact Hgoal.
Qed.
Lemma wpp_recv_operation w h p : dg_ok w p -> pri_job_operation (dr_iface (g_dg w)) = true ->
  wpp datagram_recv_operation w h (fun _ w' h' => h' = h /\ dg_ok w' p /\
    g_out w' = g_out w /\ g_in w' = g_in w /\ same_send (g_dg w) (g_dg w') /\
    pri_state (dr_iface (g_dg w)) = STATE_OPERATION_PENDING /\ pri_state (dr_iface (g_dg w')) = STATE_BUSY /\
    dr_mtu (g_dg w') = dr_mtu (g_dg w) /\
    pri_job_operation_data (dr_iface (g_dg w')) = pri_job_operation_data (dr_iface (g_dg w))).
Proof.
  intros ([Cs Cr Ci Cz Cl Co] & Hs & Hr) Ho. rewrite (ro_op _ Cr) in Ho. apply bool_decide_eq_true in Ho as Est.
  destruct Cr as [A1 [A2 A2'] A3 A4 A5 A6]. rewrite Est in *. simpl in *. pose proof (Cz ltac:(done)) as Hz.
  unfold recv_wait, waits in Hr. rewrite A5 in Hr. simpl in Hr. destruct Hr as [W1 Hj].
  unfold datagram_recv_operation, recv_if_handler_recv. repeat gstep. rewrite pri_job_operation_ok by done. apply wp_ok. repeat gstep.
  simpl. rewrite A1, A5. do 2 (try wpp_step; apply wpp_passert; [done|]). repeat gstep. simpl.
  assert (Hgoal : forall j, waits (dr_started (g_dg w)) j (Z.testbit (dg_wait_events (g_dg w)) 0) ->
    dg_ok (w <| g_dg := ((((g_dg w) <| dr_iface := ((dr_iface (g_dg w)) <| pri_job_operation := false |>) <| pri_state := STATE_BUSY |> |>)
      <| dr_busy_data := pri_job_operation_data (dr_iface (g_dg w)) |>) <| dr_busy := true |>) <| dr_job := j |> |>) p).
  { intros j Hw. split; [|split; [exact Hs|exact Hw]]. constructor; simpl; try done; try (by destruct Cs); constructor; simpl; try done; by rewrite A4. }
  unfold waits in Hgoal. rewrite W1 in Hgoal. destruct (dr_started (g_dg w)) eqn:Ea; simpl; repeat gstep.
  - split; [done|]. split; [by apply (Hgoal true)|]. by split_and!.
  - split; [done|]. split; [|by split_and!]. specialize (Hgoal false ltac:(done)).
    destruct w as [d ? ?]. destruct d. simpl in *. subst. exact Hgoal.
Qed.
End events.
