(* ===== verification/UdpClientFacts.v ===== *)
(** Lemmas on the connections of the UDP client: their invariant, and what each of the
    reactor's steps does to it. *)
From S2P Require Import Prelude CMem Sys Flow Chunk ChunkFacts ChunkProps SocksClient TcpClient Packet Device DevicePump Addr AddrFacts UdpClient Datagram DatagramFacts.

(** ** What goes over the socket *)
(** a datagram to [a], and what a datagram from the server says *)
Definition udp_packet (a : BAddr) (data : list Z) : list Z :=
  (if ba_type a =? BADDR_TYPE_IPV4 then [0; 0; 0; SOCKS_ATYP_IPV4] ++ ba_ipv4 a else [0; 0; 0; SOCKS_ATYP_IPV6] ++ ba_ipv6 a) ++ data.
Definition udp_parse (udp_mtu : Z) (p : list Z) : option (BAddr * list Z) :=
  if zlen p <? 4 then None else
  let atyp := byte_at p 3 in
  let a_len := if atyp =? SOCKS_ATYP_IPV4 then ADDR_IPV4 else ADDR_IPV6 in
  if negb ((atyp =? SOCKS_ATYP_IPV4) || (atyp =? SOCKS_ATYP_IPV6)) || (zlen p <? 4 + a_len) || (udp_mtu <? zlen p - 4 - a_len) then None else
  Some (if atyp =? SOCKS_ATYP_IPV4 then BAddr_MakeIPv4 (slice p 4 4) (slice p 8 2) else BAddr_MakeIPv6 (slice p 4 16) (slice p 20 2),
        slice p (4 + a_len) (zlen p - 4 - a_len)).

(** what the owner gets of the datagrams [ps] *)
Definition delivered (udp_mtu : Z) (local : BAddr) (ps : list (list Z)) :=
  omap (fun p => match udp_parse udp_mtu p with Some (a, data) => Some (addr_pair local, addr_pair a, data) | None => None end) ps.

(** ** The invariant *)
Section con.
Context (num udp_mtu socks_mtu : Z).

(** the writer in front of the packet buffer *)
Definition writer_ok (c : UdpCon) : Prop :=
  bw_out_have (uc_writer c) = is_state (pri_state (pb_input (uc_send c))) STATE_BUSY /\
  (bw_out_have (uc_writer c) = true -> bw_out (uc_writer c) = pri_job_operation_data (pb_input (uc_send c))) /\
  bw_writing (uc_writer c) = false.
(** the monitor between it and the socket; [ps] is what the buffer holds *)
Definition monitor_ok (c : UdpCon) (ps : list (list Z)) (p : list Z) : Prop :=
  (if is_state (ppi_state (pb_output (uc_send c))) STATE_BUSY then
     ppi_state (ds_iface (uc_dg c)) <> STATE_NONE /\ head ps = Some p /\
     ppi_job_operation_data (ds_iface (uc_dg c)) = ppi_job_operation_data (pb_output (uc_send c)) /\
     ppi_job_operation_len (ds_iface (uc_dg c)) = ppi_job_operation_len (pb_output (uc_send c))
   else ppi_state (ds_iface (uc_dg c)) = STATE_NONE) /\
  uc_timer c = negb (is_state (ppi_state (pb_output (uc_send c))) STATE_BUSY).
(** the single packet on its way from the socket to [recv_if]: the part of [got] that is
    still in the buffer *)
Definition passing (c : UdpCon) (part : list (list Z)) : Prop :=
  ppi_job_operation (uc_recv_if c) = is_state (ppi_state (uc_recv_if c)) STATE_OPERATION_PENDING /\
  ppi_job_done (uc_recv_if c) = is_state (ppi_state (uc_recv_if c)) STATE_DONE_PENDING /\
  match ppi_state (uc_recv_if c) with
  | STATE_NONE => pri_state (dr_iface (uc_dg c)) <> STATE_NONE /\
      part = (if is_state (pri_state (dr_iface (uc_dg c))) STATE_DONE_PENDING
              then [slice (uc_recv_buf c) 0 (pri_job_done_len (dr_iface (uc_dg c)))] else [])
  | STATE_OPERATION_PENDING => pri_state (dr_iface (uc_dg c)) = STATE_NONE /\
      ppi_job_operation_data (uc_recv_if c) = 0 /\ 0 <= ppi_job_operation_len (uc_recv_if c) <= socks_mtu /\
      part = [slice (uc_recv_buf c) 0 (ppi_job_operation_len (uc_recv_if c))]
  | STATE_BUSY => False
  | STATE_DONE_PENDING => pri_state (dr_iface (uc_dg c)) = STATE_NONE /\ part = []
  end.
Definition con_world (c : UdpCon) : gworld := Gworld (uc_dg c) (cb_buffer (pb_buf (uc_send c))) (uc_recv_buf c).

(** [ins]: the datagrams it took to send; [sent], [got], [given]: its part of the traces *)
Record con_ok (c : UdpCon) (ins sent got : list (list Z)) (given : list ((Z * list Z) * (Z * list Z) * list Z)) : Prop := ConOk {
  co_mtu : 0 <= udp_mtu /\ socks_mtu = udp_mtu + 22 /\ socks_mtu < 2 ^ 31;
  co_mtus : pb_input_mtu (uc_send c) = socks_mtu /\ ppi_mtu (pb_output (uc_send c)) = socks_mtu /\ bw_mtu (uc_writer c) = socks_mtu /\
    ds_mtu (uc_dg c) = socks_mtu /\ dr_mtu (uc_dg c) = socks_mtu /\ ppi_mtu (uc_recv_if c) = socks_mtu;
  co_local : is_ip (uc_local_addr c) = true;
  co_first : uc_first_job c = true -> exists data, uc_first_data c = Some data /\ zlen data <= udp_mtu /\ is_ip (uc_first_remote_addr c) = true /\
    zlen (ba_body (uc_first_remote_addr c)) = 24;
  co_writer : writer_ok c;
  co_send : exists ps pend outs p, link_ok num (BufferLink (uc_send c) ins outs) ps pend /\ dg_ok (con_world c) p /\ monitor_ok c ps p /\
    sent = outs ++ (if is_state (ppi_state (ds_iface (uc_dg c))) STATE_DONE_PENDING then [p] else []);
  co_recv : exists done part, passing c part /\ got = done ++ part /\ given = delivered udp_mtu (uc_local_addr c) done }.

(** What the owner of the connection can tell. *)
Definition trace_ok (local : BAddr) (ins sent got : list (list Z)) given : Prop :=
  sent `prefix_of` ins /\ exists done, done `prefix_of` got /\ given = delivered udp_mtu local done.

Lemma con_trace c ins sent got given : con_ok c ins sent got given -> trace_ok (uc_local_addr c) ins sent got given.
Proof.
  intros [_ _ _ _ _ (ps & pend & outs & p & Hl & _ & [Hm _] & ->) (d & part & _ & -> & ->)]. split; [|by exists d; split; [eexists|]].
  pose proof (lo_trace _ _ _ _ Hl) as Ht. cbn [bl_in bl_out bl_buf] in Ht. rewrite Ht. apply prefix_app.
  destruct (is_state (ppi_state (ds_iface (uc_dg c))) STATE_DONE_PENDING) eqn:E; [|apply prefix_nil].
  apply bool_decide_eq_true in E. rewrite E in Hm.
  destruct (is_state (ppi_state (pb_output (uc_send c))) STATE_BUSY) eqn:E2; [|done]. apply bool_decide_eq_true in E2. rewrite E2. simpl.
  destruct Hm as (_ & Hh & _). destruct ps; [done|]. injection Hh as ->. by eexists.
Qed.

(** the two sides of the socket are set up *)
Definition con_inited (c : UdpCon) : Prop := ds_inited (uc_dg c) = true /\ dr_inited (uc_dg c) = true.
Lemma con_ok_inited c ins sent got given : con_ok c ins sent got given -> con_inited c.
Proof.
  intros [_ _ _ _ _ (_ & _ & _ & _ & _ & ([Cs Cr _ _ _ _] & _) & _) _]. split; [exact (so_inited _ Cs)|exact (ro_inited _ Cr)].
Qed.

(** What a step leaves behind: what it adds to the traces, and the invariant unless the
    connection ends. *)
Definition con_post (c : UdpCon) (h : hist) (ins sent got : list (list Z)) given (ends : bool) (c' : UdpCon) (h' : hist) : Prop :=
  exists s g v, traces h' = (msgs_sent h ++ s, msgs_got h ++ g, msgs_given h ++ v, opened h) /\
    uc_local_addr c' = uc_local_addr c /\ con_inited c' /\ trace_ok (uc_local_addr c) ins (sent ++ s) (got ++ g) (given ++ v) /\
    (ends = false -> con_ok c' ins (sent ++ s) (got ++ g) (given ++ v)).
Lemma post_quiet c h ins sent got given c' h' : quiet h h' -> uc_local_addr c' = uc_local_addr c ->
  trace_ok (uc_local_addr c) ins sent got given -> (false = false -> con_ok c' ins sent got given) ->
  con_post c h ins sent got given false c' h'.
Proof.
  intros Hq Hl Ht Hc. exists [], [], []. rewrite !app_nil_r. split_and!; try done. by eapply con_ok_inited, Hc.
Qed.
Lemma post_ends c h ins sent got given c' h' : quiet h h' -> uc_local_addr c' = uc_local_addr c -> con_inited c' ->
  trace_ok (uc_local_addr c) ins sent got given -> con_post c h ins sent got given true c' h'.
Proof. intros Hq Hl Hi Ht. exists [], [], []. by rewrite !app_nil_r. Qed.
End con.

Section steps.
Context {OS : Os}.

Lemma wpp_con_dg {A} (p : Prog gworld A) c h (Q : A -> UdpCon -> hist -> Prop) :
  wpp p (con_world c) h (fun a w h' => Q a ((c <| uc_dg := g_dg w |>) <| uc_recv_buf := g_in w |>) h') -> wpp (con_dg p) c h Q.
Proof. unfold wpp, con_dg. fold (con_world c). by destruct (p (con_world c) h) as [[[? ?] ?]| |]. Qed.
Lemma wpp_con_socks {A} (p : Prog BSocksClient A) c h (Q : A -> UdpCon -> hist -> Prop) :
  wpp p (uc_socks c) h (fun a o h' => Q a (c <| uc_socks := o |>) h') -> wpp (con_socks p) c h Q.
Proof. unfold wpp, con_socks. by destruct (p (uc_socks c) h) as [[[? ?] ?]| |]. Qed.
Lemma wpp_mbuffer f c h (Q : unit -> UdpCon -> hist -> Prop) :
  wp (f (uc_send c)) (fun b => Q tt (c <| uc_send := b |>) h) -> wpp (mbuffer f) c h Q.
Proof. intros H. unfold mbuffer. do 2 wpp_step. do 2 wpp_step. eapply wp_mono; [exact H|]. intros b Hb. by repeat wpp_step. Qed.
Lemma wpp_udp_set_timer on c h (Q : unit -> UdpCon -> hist -> Prop) :
  (forall h', quiet h h' -> Q tt (c <| uc_timer := on |>) h') -> wpp (monitor_set_timer on) c h Q.
Proof. intros H. unfold monitor_set_timer. repeat wpp_step. apply H. by destruct on. Qed.
End steps.

(** ** The packet buffer's jobs: what they leave as it is *)
Lemma receive_if_frame b b' : (if pb_input_mtu b <=? cb_input_avail (pb_buf b) then buffer_receive b else Ok b) = Ok b' ->
  pb_input_mtu b' = pb_input_mtu b /\ pb_output b' = pb_output b /\ pb_buf b' = pb_buf b /\
  (pb_input b' = pb_input b \/ pri_state (pb_input b) = STATE_NONE /\ pri_state (pb_input b') = STATE_OPERATION_PENDING).
Proof.
  case_match; [|intros [= <-]; by split_and!; try left]. unfold buffer_receive, PacketRecvInterface_Receiver_Recv, assert_.
  intros (q & _ & (i & Hi & [= <-])%bind_ok_inv)%bind_ok_inv. case_match eqn:E; [|done]. injection Hi as <-.
  apply bool_decide_eq_true in E. split_and!; [done..|]. by right.
Qed.
Lemma send_frame b b' : buffer_send b = Ok b' -> pb_input_mtu b' = pb_input_mtu b /\ pb_input b' = pb_input b /\ pb_buf b' = pb_buf b /\
  ppi_mtu (pb_output b') = ppi_mtu (pb_output b) /\ ppi_state (pb_output b) = STATE_NONE /\ ppi_state (pb_output b') = STATE_OPERATION_PENDING.
Proof.
  unfold buffer_send, PacketPassInterface_Sender_Send, assert_.
  intros (q & _ & (o & Ho & [= <-])%bind_ok_inv)%bind_ok_inv.
  apply bind_ok_inv in Ho as (_ & _ & Ho). apply bind_ok_inv in Ho as (_ & _ & Ho). case_match eqn:E; [|done].
  injection Ho as <-. apply bool_decide_eq_true in E. by split_and!.
Qed.
Lemma input_job_frame b b' : buffer_input_job b = Ok b' ->
  pb_input_mtu b' = pb_input_mtu b /\ ppi_mtu (pb_output b') = ppi_mtu (pb_output b) /\
  pri_state (pb_input b) <> STATE_BUSY /\ pri_state (pb_input b') <> STATE_BUSY /\
  (pb_output b' = pb_output b \/ ppi_state (pb_output b) = STATE_NONE /\ ppi_state (pb_output b') = STATE_OPERATION_PENDING).
Proof.
  unfold buffer_input_job, PacketRecvInterface_job_done, assert_. intros ([i len] & Hi & H)%bind_ok_inv.
  case_match eqn:E; [|done]. apply bool_decide_eq_true in E. injection Hi as <- <-.
  unfold buffer_input_handler_done in H. apply bind_ok_inv in H as (_ & _ & H). apply bind_ok_inv in H as (_ & _ & H).
  apply bind_ok_inv in H as (c & _ & H). apply bind_ok_inv in H as (b1 & H1 & H).
  apply receive_if_frame in H1 as (F1 & F2 & F3 & F4). simpl in *.
  assert (Hb1 : pri_state (pb_input b1) <> STATE_BUSY) by (destruct F4 as [-> |[_ ->]]; done).
  destruct (cb_output_avail (pb_buf b) <? 0).
  - apply send_frame in H as (S1 & S2 & _ & S4 & S5 & S6). rewrite S1, S2, S4, F1, F2, E. rewrite F2 in S5. split_and!; try done. by right.
  - injection H as <-. rewrite F1, F2, E. split_and!; try done. by left.
Qed.
Lemma output_job_frame b b' : buffer_output_job b = Ok b' ->
  pb_input_mtu b' = pb_input_mtu b /\ ppi_mtu (pb_output b') = ppi_mtu (pb_output b) /\
  ppi_state (pb_output b) = STATE_DONE_PENDING /\ ppi_state (pb_output b') <> STATE_BUSY /\
  (pb_input b' = pb_input b \/ pri_state (pb_input b) = STATE_NONE /\ pri_state (pb_input b') = STATE_OPERATION_PENDING).
Proof.
  unfold buffer_output_job, PacketPassInterface_job_done, assert_. intros (o & Ho & H)%bind_ok_inv.
  case_match eqn:E; [|done]. apply bool_decide_eq_true in E. injection Ho as <-.
  unfold buffer_output_handler_done in H. apply bind_ok_inv in H as (c & _ & H). apply bind_ok_inv in H as (b1 & H1 & H).
  assert (F : pb_input_mtu b1 = pb_input_mtu b /\
    pb_output b1 = ((pb_output b) <| ppi_job_done := false |>) <| ppi_state := STATE_NONE |> /\
    (pb_input b1 = pb_input b \/ pri_state (pb_input b) = STATE_NONE /\ pri_state (pb_input b1) = STATE_OPERATION_PENDING)).
  { simpl in H1. destruct (cb_input_avail (pb_buf b) <? pb_input_mtu b); simpl in H1; [|injection H1 as <-; by split_and!; try left].
    by destruct (receive_if_frame ((b <| pb_output := ((pb_output b) <| ppi_job_done := false |>) <| ppi_state := STATE_NONE |> |>) <| pb_buf := c |>) b1 H1) as (F1 & F2 & _ & F4). }
  destruct F as (F1 & F2 & F3). clear H1. destruct (0 <=? cb_output_avail (pb_buf b1)).
  - apply send_frame in H as (S1 & S2 & _ & S4 & S5 & S6). rewrite S1, S2, S4, S6, F1, F2. by split_and!.
  - injection H as <-. rewrite F1, F2. by split_and!.
Qed.

(** the message the sending side has is the first of the queue *)
Lemma link_head num l ps pend p : link_ok num l ps pend -> head ps = Some p ->
  rd_list (cb_buffer (pb_buf (bl_buf l))) (ppi_job_operation_data (pb_output (bl_buf l))) (ppi_job_operation_len (pb_output (bl_buf l))) = Ok p /\
  zlen p = ppi_job_operation_len (pb_output (bl_buf l)) /\ zlen p <= pb_input_mtu (bl_buf l).
Proof.
  intros [Hh Hsz Hmtu Hs Hi Ho Ht] Hp. destruct ps as [|q ps]; [done|]. injection Hp as ->.
  destruct Ho as (O1 & O2 & O3 & O4 & O5). apply Forall_cons in Hsz as [Hsz _].
  destruct O5 as [Hd Hl]; [by rewrite O4|]. destruct Hh as (Hc & Hiv & [Hd' Hl']).
  destruct (core_head _ _ _ Hc) as (_ & _ & Hw & Hu & Hsl).
  pose proof (core_bounds _ _ Hc). pose proof (nblocks_bound (zlen p) (zlen_nonneg p)). pose proof (zlen_nonneg p).
  rewrite Hd in Hd'. injection Hd' as Hd'. rewrite Hl in Hl'. pose proof (cc_len _ _ Hc).
  rewrite Hd', Hl'. rewrite rd_list_ok by (unfold BLOCK in *; lia). by rewrite Hsl.
Qed.

(** ** The sending side *)
Lemma dg_ok_out w p p' m : dg_ok w p -> (ppi_state (ds_iface (g_dg w)) <> STATE_NONE ->
    rd_list m (ppi_job_operation_data (ds_iface (g_dg w))) (ppi_job_operation_len (ds_iface (g_dg w))) = Ok p' /\
    zlen p' = ppi_job_operation_len (ds_iface (g_dg w))) ->
  dg_ok (w <| g_out := m |>) p'.
Proof. intros ([Cs Cr Ci Cz Cl Co] & Hs & Hr) H. split; [|by split]. by constructor. Qed.

Section sending.
Context (num udp_mtu socks_mtu : Z).
Abbreviation con_ok := (con_ok num udp_mtu socks_mtu).
Abbreviation con_post := (con_post num udp_mtu socks_mtu).

(** A change at the near end of the packet buffer: what is on its way stays first. *)
Lemma input_side c ins sent got given b w ins' :
  con_ok c ins sent got given ->
  (forall outs ps pend, link_ok num (BufferLink (uc_send c) ins outs) ps pend -> exists ps' pend',
     link_ok num (BufferLink b ins' outs) ps' pend' /\ (head ps = None \/ head ps' = head ps)) ->
  pb_input_mtu b = socks_mtu -> ppi_mtu (pb_output b) = socks_mtu ->
  (pb_output b = pb_output (uc_send c) \/
   ppi_state (pb_output (uc_send c)) = STATE_NONE /\ ppi_state (pb_output b) = STATE_OPERATION_PENDING) ->
  bw_mtu w = socks_mtu -> writer_ok ((c <| uc_send := b |>) <| uc_writer := w |>) ->
  con_ok ((c <| uc_send := b |>) <| uc_writer := w |>) ins' sent got given.
Proof.
  intros [M1 M2 Lo Fi Wr (ps & pend & outs & p & Hl & Hd & [Hm Ht] & Hsent) Rv] Hlink Hb1 Hb2 Hout Hw Hwr.
  destruct (Hlink _ _ _ Hl) as (ps' & pend' & Hl' & Hhead). constructor; simpl; try done; [by split_and!; try apply M2|].
  exists ps', pend', outs, p. split; [exact Hl'|]. unfold monitor_ok. simpl.
  destruct Hout as [Eo|[E1 E2]].
  - destruct (is_state (ppi_state (pb_output (uc_send c))) STATE_BUSY) eqn:E.
    + destruct Hm as (Hne & Hp & D1 & D2). destruct Hhead as [Hh|Hh]; [congruence|].
      assert (Hp' : head ps' = Some p) by congruence.
      destruct (link_head _ _ _ _ _ Hl' Hp') as (R1 & R2 & _). simpl in R1, R2. rewrite Eo in R1, R2.
      rewrite Eo, E. split; [|by split_and!]. apply (dg_ok_out (con_world c) p); [done|]. intros _. simpl. by rewrite D1, D2.
    + rewrite Eo, E. split; [|by split_and!]. apply (dg_ok_out (con_world c) p); [done|]. simpl. by rewrite Hm.
  - rewrite E1 in Hm, Ht. rewrite E2. simpl in *. split; [|by split_and!].
    apply (dg_ok_out (con_world c) p); [done|]. simpl. by rewrite Hm.
Qed.

Lemma wpp_writer_takes {OS : Os} c h ins sent got given : con_ok c ins sent got given -> pri_job_operation (pb_input (uc_send c)) = true ->
  wpp (con_run udp_mtu socks_mtu UWriterOp) c h (fun b c' h' => b = false /\ h' = h /\ con_ok c' ins sent got given /\
    bw_out_have (uc_writer c') = true /\ uc_local_addr c' = uc_local_addr c /\ uc_first_job c' = uc_first_job c /\
    uc_first_data c' = uc_first_data c /\ uc_first_remote_addr c' = uc_first_remote_addr c).
Proof.
  intros Hok Hop. pose proof Hok as [M1 M2 Lo Fi [W1 [W2 W3]] (ps0 & pend0 & outs0 & p0 & Hl0 & _) Rv].
  destruct (wp_inv _ _ (wp_input_operation num _ _ _ Hl0 Hop)) as (l' & Hrun & _).
  apply bind_ok_inv in Hrun as ([i data] & Hi & _). pose proof Hi as Hst. simpl in Hi, Hst.
  unfold PacketRecvInterface_job_operation, assert_ in Hst. case_match eqn:E; [|done]. apply bool_decide_eq_true in E. injection Hst as <- <-.
  rewrite E in W1. simpl in W1.
  simpl. wpp_step. wpp_step. wpp_step. wpp_step. rewrite Hi. apply wp_ok. wpp_step. apply wpp_mbuffer, wp_ok.
  unfold writer_output_handler_recv, mwriter. do 4 wpp_step. apply wpp_passert; [simpl; by rewrite W1|]. repeat wpp_step. simpl.
  split; [done|]. split; [done|]. split; [|by split_and!].
  apply input_side with (ins := ins); try done; try apply M2; [|by left].
  intros outs ps pend Hl. destruct (wp_inv _ _ (wp_input_operation num _ _ _ Hl Hop)) as (l1 & Hrun & Hl1).
  simpl in Hrun. rewrite Hi in Hrun. injection Hrun as <-. exists ps, pend. split; [exact Hl1|by right].
Qed.
Lemma wpp_writer_op {OS : Os} c h ins sent got given : con_ok c ins sent got given -> pri_job_operation (pb_input (uc_send c)) = true ->
  wpp (con_run udp_mtu socks_mtu UWriterOp) c h (fun b c' h' => b = false /\ con_post c h ins sent got given b c' h').
Proof.
  intros Hok Hop. eapply wpp_mono; [by apply wpp_writer_takes|]. intros b c' h' (-> & -> & Hc & _ & El & _).
  split; [done|]. apply post_quiet; [done|done|by eapply con_trace|done].
Qed.

Lemma wpp_buffer_in {OS : Os} c h ins sent got given : con_ok c ins sent got given -> pri_job_done (pb_input (uc_send c)) = true ->
  wpp (con_run udp_mtu socks_mtu UBufferIn) c h (fun b c' h' => b = false /\ con_post c h ins sent got given b c' h').
Proof.
  intros Hok Hop. pose proof (con_trace _ _ _ _ _ _ _ _ Hok) as Htr. pose proof Hok as [M1 M2 Lo Fi [W1 [W2 W3]] (ps0 & pend0 & outs0 & p0 & Hl0 & _) Rv].
  destruct (wp_inv _ _ (wp_input_job num _ _ _ Hl0 Hop)) as (l' & Hrun & _). simpl in Hrun.
  apply bind_ok_inv in Hrun as (b & Hb & _). pose proof (input_job_frame _ _ Hb) as (F1 & F2 & F3 & F4 & F5).
  simpl. wpp_step. apply wpp_mbuffer. rewrite Hb. apply wp_ok. wpp_step.
  split; [done|]. apply post_quiet; [done|done|done|]. intros _.
  apply (input_side c ins _ _ _ b (uc_writer c)); try done; [|by rewrite F1; apply M2|by rewrite F2; apply M2|by apply M2|].
  - intros outs ps pend Hl. destruct (wp_inv _ _ (wp_input_job num _ _ _ Hl Hop)) as (l1 & Hrun & q & Hl1).
    simpl in Hrun. rewrite Hb in Hrun. injection Hrun as <-. exists (ps ++ [q]), []. split; [exact Hl1|]. destruct ps; [by left|by right].
  - unfold writer_ok. simpl. rewrite (bool_decide_eq_false_2 _ F3) in W1. by rewrite W1, (bool_decide_eq_false_2 _ F4).
Qed.

(** *** A datagram to send *)
Lemma con_ok_dns c ins sent got given x : con_ok c ins sent got given -> con_ok (c <| uc_dns_id := x |>) ins sent got given.
Proof. by intros [? ? ? ? ? ? ?]. Qed.
Lemma wpp_get_dns_id {S} a data (s : S) h (Q : Z -> S -> hist -> Prop) : is_ip a = true -> (forall x, Q x s h) -> wpp (lift (get_dns_id a data)) s h Q.
Proof.
  intros Ha HQ. apply wpp_lift. unfold get_dns_id, BAddr_GetPort, assert_. rewrite Ha. simpl. by case_match; apply HQ.
Qed.
Lemma wpp_maybe_dns c h a data (Q : unit -> UdpCon -> hist -> Prop) : is_ip a = true -> (forall x, Q tt (c <| uc_dns_id := x |>) h) ->
  wpp (if 0 <=? uc_dns_id c then
     new_dns_id ← lift (get_dns_id a data);
     if negb (new_dns_id =? uc_dns_id c) then pmod (fun c => c <| uc_dns_id := -1 |>) else mret tt
   else mret tt) c h Q.
Proof.
  intros Ha HQ. assert (Hsame : Q tt c h) by (specialize (HQ (uc_dns_id c)); by destruct c).
  case_match; [|by wpp_step]. wpp_step. apply wpp_get_dns_id; [done|]. intros x. case_match; wpp_step; [apply HQ|done].
Qed.
Lemma link_room l ps pend : link_ok num l ps pend -> pri_state (pb_input (bl_buf l)) <> STATE_NONE ->
  0 <= pri_job_operation_data (pb_input (bl_buf l)) /\
  pri_job_operation_data (pb_input (bl_buf l)) + pb_input_mtu (bl_buf l) <= zlen (cb_buffer (pb_buf (bl_buf l))).
Proof.
  intros [Hh Hsz Hmtu Hs Hi Ho Ht] Hne. destruct Hi as (I1 & I2 & I3 & I4 & I5 & I6 & I7).
  destruct (I5 Hne) as [Hd Ha]. destruct Hh as (Hc & [Hv Hv'] & _). pose proof (core_bounds _ _ Hc) as Hb. pose proof (cc_len _ _ Hc).
  destruct (Z.lt_ge_cases 0 (free_blocks (pb_buf (bl_buf l)))) as [Hf|Hf]; [|destruct (Hv' Hf); congruence].
  destruct (Hv Hf) as [Hd' Ha']. rewrite Hd in Hd'. injection Hd' as ->. unfold BLOCK in *. lia.
Qed.
Lemma zlen_udp_packet a data : is_ip a = true -> zlen (ba_body a) = 24 ->
  zlen (udp_packet a data) = 4 + (if ba_type a =? BADDR_TYPE_IPV4 then 6 else 18) + zlen data.
Proof.
  intros Ha Hb. unfold udp_packet, ba_ipv4, ba_ipv6, ADDR_IPV4, ADDR_IPV6.
  destruct (ba_type a =? BADDR_TYPE_IPV4); rewrite !zlen_app, zlen_slice by lia; change (zlen [0; 0; 0; _]) with 4; lia.
Qed.

(** the three pieces make the datagram *)
Lemma wpp_pokes (a : BAddr) data d c h (Q : unit -> UdpCon -> hist -> Prop) (k : unit -> Prog UdpCon unit) :
  let v4 := ba_type a =? BADDR_TYPE_IPV4 in let m := cb_buffer (pb_buf (uc_send c)) in
  is_ip a = true -> zlen (ba_body a) = 24 -> 0 <= d -> d + zlen (udp_packet a data) <= zlen m ->
  wpp (k tt) (c <| uc_send := (uc_send c) <| pb_buf := (pb_buf (uc_send c)) <| cb_buffer := splice m d (udp_packet a data) |> |> |>) h Q ->
  wpp (poke d [0; 0; 0; if v4 then SOCKS_ATYP_IPV4 else SOCKS_ATYP_IPV6];;
       poke (d + SOCKS_UDP_HEADER) (if v4 then ba_ipv4 a else ba_ipv6 a);;
       u ← poke (d + SOCKS_UDP_HEADER + (if v4 then ADDR_IPV4 else ADDR_IPV6)) data; k u) c h Q.
Proof.
  intros v4 m Ha Hb Hd Hz HQ. pose proof (zlen_udp_packet a data Ha Hb) as Hp. fold v4 in Hp. pose proof (zlen_nonneg data).
  assert (Z1 : zlen [0; 0; 0; if v4 then SOCKS_ATYP_IPV4 else SOCKS_ATYP_IPV6] = 4) by done.
  set (x := [0; 0; 0; if v4 then SOCKS_ATYP_IPV4 else SOCKS_ATYP_IPV6]) in *.
  assert (Z2 : zlen (if v4 then ba_ipv4 a else ba_ipv6 a) = if v4 then ADDR_IPV4 else ADDR_IPV6).
  { unfold ba_ipv4, ba_ipv6, ADDR_IPV4, ADDR_IPV6. destruct v4; apply zlen_slice; lia. }
  set (y := if v4 then ba_ipv4 a else ba_ipv6 a) in *. set (n := if v4 then ADDR_IPV4 else ADDR_IPV6) in *.
  assert (Hn : n = if v4 then 6 else 18) by (unfold n; by destruct v4). rewrite <- Hn in Hp.
  assert (E : udp_packet a data = x ++ y ++ data).
  { unfold udp_packet, x, y, v4. by destruct (ba_type a =? BADDR_TYPE_IPV4). }
  assert (Z3 : zlen (splice m d x) = zlen m) by (apply zlen_splice; lia).
  assert (Z4 : zlen (splice (splice m d x) (d + 4) y) = zlen m) by (rewrite zlen_splice; lia).
  unfold poke, SOCKS_UDP_HEADER. wpp_step. apply wpp_mbuffer. fold m. rewrite wr_list_ok by lia. apply wp_ok, wp_ok.
  wpp_step. apply wpp_mbuffer. simpl. rewrite wr_list_ok by lia. apply wp_ok, wp_ok.
  wpp_step. apply wpp_mbuffer. simpl. rewrite wr_list_ok by lia. apply wp_ok, wp_ok.
  rewrite <- Z1 at 1. replace (d + 4 + n) with (d + zlen x + zlen y) by lia.
  assert (Es : splice (splice (splice m d x) (d + 4) y) (d + zlen x + zlen y) data = splice m d (x ++ y ++ data)).
  { rewrite <- Z1. rewrite (splice_splice_next (splice m d x)) by lia. apply splice_splice_next; rewrite ?zlen_app; lia. }
  rewrite Z1 in Es |- *. rewrite Es, <- E. exact HQ.
Qed.

(** what the connection has taken to send after one more datagram *)
Definition taken (c : UdpCon) (ins : list (list Z)) (a : BAddr) (data : list Z) : list (list Z) :=
  if bw_out_have (uc_writer c) then ins ++ [udp_packet a data] else ins.

Lemma wpp_end_packet {OS : Os} c h ins sent got given a data (Q : unit -> UdpCon -> hist -> Prop) :
  let d := bw_out (uc_writer c) in let p := udp_packet a data in
  let m := splice (cb_buffer (pb_buf (uc_send c))) d p in
  con_ok c ins sent got given -> bw_out_have (uc_writer c) = true -> zlen p <= socks_mtu ->
  (forall c', con_ok c' (ins ++ [p]) sent got given -> uc_local_addr c' = uc_local_addr c -> uc_first_data c' = uc_first_data c ->
     uc_first_job c' = uc_first_job c -> Q tt c' h) ->
  wpp (BufferWriter_EndPacket (zlen p))
    ((c <| uc_writer := (uc_writer c) <| bw_writing := true |> |>) <| uc_send := (uc_send c) <| pb_buf := (pb_buf (uc_send c)) <| cb_buffer := m |> |> |>) h Q.
Proof.
  intros d p m Hok Hh Hp HQ. pose proof Hok as [M1 M2 Lo Fi [W1 [W2 W3]] (ps0 & pend0 & outs0 & p0 & Hl0 & _) Rv].
  rewrite Hh in W1. apply symmetry, bool_decide_eq_true in W1 as Hst. specialize (W2 Hh).
  pose proof (link_room _ _ _ Hl0) as Hroom. simpl in Hroom. rewrite Hst in Hroom. destruct (Hroom ltac:(done)) as [Hr0 Hr1]. clear Hroom.
  rewrite <- W2 in Hr0, Hr1. destruct M2 as (N1 & N2 & N3 & N4 & N5 & N6). rewrite N1 in Hr1. fold d in Hr0, Hr1.
  pose proof (zlen_nonneg p) as Hp0. assert (Hm : zlen m = zlen (cb_buffer (pb_buf (uc_send c)))) by (apply zlen_splice; lia).
  assert (Hi : pri_mtu (pb_input (uc_send c)) = socks_mtu) by (rewrite <- N1; apply (lo_input _ _ _ _ Hl0)).
  assert (He : forall outs, enabled (BufferLink (uc_send c) ins outs) (InputDone m p)).
  { intros outs. simpl. rewrite Hi, <- W2. fold d. split_and!; [done|done|done| |].
    - intros i Hi0 Hor. destruct (Z.lt_ge_cases i (zlen (cb_buffer (pb_buf (uc_send c))))).
      + unfold m. rewrite byte_at_splice by lia. by rewrite (proj2 (andb_false_iff _ _)) by lia.
      + unfold byte_at. rewrite !lookup_ge_None_2; [done|unfold zlen in *; lia..].
    - unfold m. apply slice_splice_at; lia. }
  unfold BufferWriter_EndPacket, mwriter. do 2 wpp_step. simpl.
  wpp_step. apply wpp_passert; [lia|]. wpp_step. apply wpp_passert; [lia|]. wpp_step. apply wpp_passert; [done|]. do 2 wpp_step.
  do 2 wpp_step. wpp_step. apply wpp_mbuffer. simpl. rewrite pri_done_ok by (done || lia). apply wp_ok, wp_ok. repeat wpp_step.
  apply HQ; [|done..].
  set (i := (((pb_input (uc_send c)) <| pri_job_done_len := zlen p |>) <| pri_job_done := true |>) <| pri_state := STATE_DONE_PENDING |>).
  set (b := ((uc_send c) <| pb_input := i |>) <| pb_buf := (pb_buf (uc_send c)) <| cb_buffer := m |> |>).
  set (w := ((uc_writer c) <| bw_writing := false |>) <| bw_out_have := false |>).
  match goal with |- con_ok ?x _ _ _ _ => assert (E : x = (c <| uc_send := b |>) <| uc_writer := w |>) by reflexivity; rewrite E; clear E end.
  apply input_side with (ins := ins); [done| |done|done|by left|done|by split_and!].
  intros outs ps pend Hl. destruct (wp_inv _ _ (wp_input_done num _ _ _ _ _ Hl (He outs))) as (l1 & Hrun & Hl1).
  simpl in Hrun. rewrite pri_done_ok in Hrun by (done || lia). injection Hrun as <-. exists ps, [p]. split; [exact Hl1|by right].
Qed.

Lemma wpp_connection_send {OS : Os} c h ins sent got given a data :
  con_ok c ins sent got given -> zlen data <= udp_mtu -> is_ip a = true -> zlen (ba_body a) = 24 ->
  wpp (connection_send udp_mtu socks_mtu a data) c h (fun _ c' h' => h' = h /\ con_ok c' (taken c ins a data) sent got given /\
    uc_local_addr c' = uc_local_addr c /\ uc_first_data c' = uc_first_data c /\ uc_first_job c' = uc_first_job c).
Proof.
  intros Hok Hz Ha Hb. pose proof (co_mtu _ _ _ _ _ _ _ _ Hok) as (Hm0 & Hm1 & Hm2). pose proof (zlen_nonneg data).
  unfold connection_send. wpp_step. apply wpp_passert; [lia|]. wpp_step. apply wpp_passert; [lia|].
  do 2 wpp_step. wpp_step. apply wpp_maybe_dns; [done|]. intros x. rewrite Ha. simpl negb. cbv iota.
  pose proof (con_ok_dns _ _ _ _ _ x Hok) as Hok'. unfold taken. change (uc_writer c) with (uc_writer (c <| uc_dns_id := x |>)).
  assert (Hgoal : forall c' ins', con_ok c' ins' sent got given -> uc_local_addr c' = uc_local_addr (c <| uc_dns_id := x |>) ->
    uc_first_data c' = uc_first_data (c <| uc_dns_id := x |>) -> uc_first_job c' = uc_first_job (c <| uc_dns_id := x |>) ->
    h = h /\ con_ok c' ins' sent got given /\ uc_local_addr c' = uc_local_addr c /\ uc_first_data c' = uc_first_data c /\ uc_first_job c' = uc_first_job c) by done.
  set (c1 := c <| uc_dns_id := x |>) in *. clearbody c1.
  set (n := if ba_type a =? BADDR_TYPE_IPV4 then ADDR_IPV4 else ADDR_IPV6).
  assert (Hn : n = if ba_type a =? BADDR_TYPE_IPV4 then 6 else 18) by (unfold n; by case_match).
  pose proof (zlen_udp_packet a data Ha Hb) as Hp. rewrite <- Hn in Hp.
  assert (Hn1 : 0 < n <= 18) by (rewrite Hn; case_match; lia).
  assert (Hu : usz (SOCKS_UDP_HEADER + n + zlen data) = zlen (udp_packet a data)).
  { unfold usz, SOCKS_UDP_HEADER. rewrite Z.mod_small; lia. }
  rewrite Hu. wpp_step. apply wpp_passert; [lia|].
  unfold BufferWriter_StartPacket, mwriter. pose proof Hok' as [M1 M2 Lo Fi [W1 [W2 W3]] (ps0 & pend0 & outs0 & p0 & Hl0 & _) Rv].
  do 3 wpp_step. wpp_step. apply wpp_passert; [by rewrite W3|].
  destruct (bw_out_have (uc_writer c1)) eqn:Eh; simpl negb; cbv iota; [|repeat wpp_step; by apply Hgoal].
  do 3 wpp_step. cbv iota.
  apply symmetry, bool_decide_eq_true in W1 as Hst. specialize (W2 eq_refl).
  pose proof (link_room _ _ _ Hl0) as Hroom. simpl in Hroom. rewrite Hst in Hroom. destruct (Hroom ltac:(done)) as [Hr0 Hr1].
  rewrite (proj1 M2) in Hr1. rewrite <- W2 in Hr0, Hr1.
  apply wpp_pokes; [done|done|done|simpl; lia|].
  wpp_step. apply wpp_passert; [unfold SOCKS_UDP_HEADER; fold n; lia|].
  refine (wpp_end_packet c1 h ins sent got given a data _ Hok' Eh _ _); [lia|]. intros c' Hc' ? ? ?. by apply Hgoal.
Qed.

Lemma prefix_taken c (l ins : list (list Z)) a data : l `prefix_of` ins -> l `prefix_of` taken c ins a data.
Proof. unfold taken. case_match; [|done]. intros. by apply prefix_app_r. Qed.
Lemma wpp_first_taken {OS : Os} c h ins sent got given : con_ok c ins sent got given -> uc_first_job c = true ->
  wpp (con_run udp_mtu socks_mtu UFirst) c h (fun b c' h' => b = false /\ exists data, uc_first_data c = Some data /\
    quiet h h' /\ uc_local_addr c' = uc_local_addr c /\ con_ok c' (taken c ins (uc_first_remote_addr c) data) sent got given).
Proof.
  intros Hok Hj. pose proof (co_first _ _ _ _ _ _ _ _ Hok Hj) as (data & Hd & Hz & Ha & Hb).
  assert (Hok' : con_ok (c <| uc_first_job := false |>) ins sent got given) by (destruct Hok; by constructor).
  simpl. do 2 wpp_step. unfold first_job_handler. do 2 wpp_step. wpp_step. wpp_step. apply (wpp_deref _ data); [exact Hd|].
  wpp_step. eapply wpp_mono; [by apply wpp_connection_send|]. intros _ c' h' (-> & Hc' & L1 & L2 & L3). repeat wpp_step.
  split; [done|]. exists data. split; [done|]. split; [done|]. split; [done|].
  change (taken c ins) with (taken (c <| uc_first_job := false |>) ins). destruct Hc'. constructor; try done. simpl. rewrite L3. done.
Qed.
Lemma wpp_first {OS : Os} c h ins sent got given : con_ok c ins sent got given -> uc_first_job c = true ->
  wpp (con_run udp_mtu socks_mtu UFirst) c h (fun b c' h' => b = false /\ exists data, uc_first_data c = Some data /\
    con_post c h (taken c ins (uc_first_remote_addr c) data) sent got given b c' h').
Proof.
  intros Hok Hj. destruct (con_trace _ _ _ _ _ _ _ _ Hok) as [Hpre Hgiv]. eapply wpp_mono; [by apply wpp_first_taken|].
  intros b c' h' (-> & data & Hd & Hq & El & Hc). split; [done|]. exists data. split; [done|].
  apply post_quiet; [done|done|split; [by apply prefix_taken|done]|done].
Qed.

(** *** From the buffer to the socket *)
Lemma wpp_monitor_op {OS : Os} c h ins sent got given : con_ok c ins sent got given -> ppi_job_operation (pb_output (uc_send c)) = true ->
  wpp (con_run udp_mtu socks_mtu UMonitorOp) c h (fun b c' h' => b = false /\ con_post c h ins sent got given b c' h').
Proof.
  intros Hok Hop. pose proof (con_trace _ _ _ _ _ _ _ _ Hok) as Htr.
  pose proof Hok as [M1 M2 Lo Fi Wr (ps & pend & outs & p0 & Hl & Hd & [Hm Ht] & Hsent) Rv]. destruct M2 as (N1 & N2 & N3 & N4 & N5 & N6).
  destruct (lo_output _ _ _ _ Hl) as (O1 & O2 & O3 & O4 & O5). simpl in O1, O2, O3, O4, O5.
  apply O2 in Hop as Hst. rewrite Hst in Hm, Ht. simpl in Hm, Ht.
  destruct ps as [|p ps]; [rewrite Hst in O4; discriminate (proj2 O4 eq_refl)|].
  destruct (link_head _ _ _ _ p Hl eq_refl) as (R1 & R2 & R3). simpl in R1, R2, R3. rewrite N1 in R3. pose proof (zlen_nonneg p).
  destruct (wp_inv _ _ (wp_output_operation num _ _ _ Hl Hop)) as (l1 & Hrun & Hl1). simpl in Hrun.
  simpl. do 4 wpp_step. rewrite ppi_job_operation_ok in Hrun |- * by done. injection Hrun as <-. apply wp_ok.
  wpp_step. apply wpp_mbuffer, wp_ok. unfold monitor_input_handler_send. do 2 wpp_step. apply wpp_con_dg. unfold gdg, mdg. do 4 wpp_step.
  destruct Hd as ([Cs Cr Ci Cz Cl Co] & Hs & Hr). pose proof (so_mtu _ Cs) as Hsm. pose proof (so_busy _ Cs) as Hsb. simpl in Hsm, Hsb, Cs, Cr. rewrite Hm in Hsb. simpl in Hsb.
  simpl g_dg. rewrite ppi_send_ok by (simpl; rewrite ?Hsm; done || lia). apply wp_ok. wpp_step. apply wpp_udp_set_timer. intros h' Hq. wpp_step.
  split; [done|]. apply post_quiet; [done|done|done|]. intros _.
  constructor; try done. exists (p :: ps), pend, outs, p. simpl. split; [exact Hl1|]. split; [|split; [|by rewrite Hm in Hsent]].
  - split; [|split; [exact Hs|exact Hr]]. constructor; try done.
    + destruct Cs as [A1 A2 A3 A4 A5 A6 A7 A8]. rewrite Hm in *. constructor; simpl; try done; [by rewrite Hsb|]. intros _. rewrite <- R2, N4. by split.
    + by destruct Cr.
  - split; [|done]. simpl. by split_and!.
Qed.

Lemma wpp_udp_send_op {OS : Os} c h ins sent got given : con_ok c ins sent got given -> ppi_job_operation (ds_iface (uc_dg c)) = true ->
  wpp (con_run udp_mtu socks_mtu USendOp) c h (fun b c' h' => b = false /\ con_post c h ins sent got given b c' h').
Proof.
  intros Hok Hop. pose proof (con_trace _ _ _ _ _ _ _ _ Hok) as Htr.
  pose proof Hok as [M1 M2 Lo Fi Wr (ps & pend & outs & p & Hl & Hd & [Hm Ht] & Hsent) Rv]. destruct M2 as (N1 & N2 & N3 & N4 & N5 & N6).
  simpl. wpp_step. apply wpp_con_dg. eapply wpp_mono; [by apply (wpp_send_operation _ _ p)|].
  intros _ w h' (-> & Hd' & E1 & E2 & (F0 & F1 & F2 & F3 & F4 & F5) & S1 & S2 & E3 & E4 & E5 & E6). wpp_step. simpl in *.
  split; [done|]. apply post_quiet; [done|done|done|]. intros _. rewrite S1 in Hsent.
  constructor; try done; [by simpl; rewrite E3, F2|exists ps, pend, outs, p|].
  - simpl. rewrite S2. split; [exact Hl|]. split; [by destruct w; simpl in *; subst|]. split; [|exact Hsent].
    unfold monitor_ok. simpl. rewrite S2, E5, E6. split; [|done]. rewrite S1 in Hm. destruct (is_state (ppi_state (pb_output (uc_send c))) STATE_BUSY); [|done]. by destruct Hm as (_ & ? & ? & ?).
  - unfold passing. simpl. rewrite E2, F3. exact Rv.
Qed.

(** a transfer of the socket, in whichever direction *)
Lemma con_moved c h ins sent got given ends w h' : con_ok c ins sent got given ->
  (forall p, dg_ok (con_world c) p -> moved p (con_world c) h w h' /\ (ends = false -> dg_ok w p)) ->
  con_post c h ins sent got given ends ((c <| uc_dg := g_dg w |>) <| uc_recv_buf := g_in w |>) h'.
Proof.
  intros Hok Hmv. pose proof Hok as [M1 M2 Lo Fi Wr (ps & pend & outs & p & Hl & Hd & [Hm Ht] & Hsent) (d & part & Hpass & Hgot & Hgiv)].
  destruct (Hmv p Hd) as [[Hfd Hhv [Hin1 Hin2] [Hmt1 Hmt2] Ho [Hda Hle] (s & g & Htr & Hs & Hg)] Hdg]. simpl in *.
  assert (Hsent' : sent ++ s = outs ++ (if is_state (ppi_state (ds_iface (g_dg w))) STATE_DONE_PENDING then [p] else [])).
  { rewrite Hsent. destruct Hs as [[-> ->]|(-> & -> & ->)]; simpl; by rewrite ?app_nil_r. }
  assert (Hm' : if is_state (ppi_state (pb_output (uc_send c))) STATE_BUSY then
     ppi_state (ds_iface (g_dg w)) <> STATE_NONE /\ head ps = Some p /\
     ppi_job_operation_data (ds_iface (g_dg w)) = ppi_job_operation_data (pb_output (uc_send c)) /\
     ppi_job_operation_len (ds_iface (g_dg w)) = ppi_job_operation_len (pb_output (uc_send c))
   else ppi_state (ds_iface (g_dg w)) = STATE_NONE).
  { rewrite Hda, Hle. destruct Hs as [[_ E]|(_ & E1 & E2)]; [by rewrite E|]. rewrite E2. rewrite E1 in Hm.
    destruct (is_state (ppi_state (pb_output (uc_send c))) STATE_BUSY); [|done]. by destruct Hm as (_ & ? & ? & ?). }
  assert (Hp' : exists part', passing socks_mtu ((c <| uc_dg := g_dg w |>) <| uc_recv_buf := g_in w |>) part' /\ got ++ g = d ++ part').
  { rewrite Hgot. destruct Hg as [(-> & E1 & E2 & E3)|(-> & E1 & E2)].
    - exists part. rewrite app_nil_r. split; [|done]. unfold passing. simpl. by rewrite E1, E2, E3.
    - destruct Hpass as (P1 & P2 & P3). rewrite E1 in P3. destruct (ppi_state (uc_recv_if c)) eqn:E; [|by destruct P3..].
      destruct P3 as [_ ->]. eexists. rewrite app_nil_r. split; [|done]. unfold passing. simpl. by rewrite E, E2. }
  destruct Hp' as (part' & Hpass' & Hgot').
  destruct (con_ok_inited _ _ _ _ _ _ _ _ Hok) as [Hi1 Hi2].
  exists s, g, []. rewrite !app_nil_r. split; [exact Htr|]. split; [done|]. split; [split; simpl; congruence|]. split.
  - split; [|exists d; split; [rewrite Hgot'; by eexists|done]]. rewrite Hsent'.
    pose proof (lo_trace _ _ _ _ Hl) as Hlt. cbn [bl_in bl_out bl_buf] in Hlt. rewrite Hlt. apply prefix_app.
    destruct (is_state (ppi_state (ds_iface (g_dg w))) STATE_DONE_PENDING) eqn:E; [|apply prefix_nil].
    apply bool_decide_eq_true in E. rewrite E in Hm'.
    destruct (is_state (ppi_state (pb_output (uc_send c))) STATE_BUSY) eqn:E2; [|done]. apply bool_decide_eq_true in E2. rewrite E2. simpl.
    destruct Hm' as (_ & Hh & _). destruct ps; [done|]. injection Hh as ->. by eexists.
  - intros He. constructor; try done; [simpl; by rewrite Hmt1, Hmt2|exists ps, pend, outs, p|by exists d, part'].
    split; [done|]. split; [|by split]. specialize (Hdg He). destruct w as [wd wo wi]. simpl in *. by subst wo.
Qed.

Lemma wpp_transfer (m : Prog gworld bool) c h ins sent got given : con_ok c ins sent got given ->
  (forall p, dg_ok (con_world c) p -> wpp m (con_world c) h (fun b w h' => moved p (con_world c) h w h' /\ (b = false -> dg_ok w p))) ->
  wpp (e ← con_dg m; mret (datagram_state_handler e)) c h (fun b c' h' => con_post c h ins sent got given b c' h').
Proof.
  intros Hok Hm. wpp_step. apply wpp_con_dg. pose proof (co_send _ _ _ _ _ _ _ _ Hok) as (_ & _ & _ & p & _ & Hd & _).
  destruct (wpp_inv _ _ _ _ (Hm p Hd)) as (b & w & h' & E & _). unfold wpp. rewrite E. apply con_moved; [done|].
  intros q Hq. specialize (Hm q Hq). unfold wpp in Hm. by rewrite E in Hm.
Qed.

(** a packet is on its way no more: the buffer may drop it *)
Lemma wpp_udp_send_done {OS : Os} c h ins sent got given : con_ok c ins sent got given -> ppi_job_done (ds_iface (uc_dg c)) = true ->
  wpp (con_run udp_mtu socks_mtu USendDone) c h (fun b c' h' => b = false /\ con_post c h ins sent got given b c' h').
Proof.
  intros Hok Hop. pose proof (con_trace _ _ _ _ _ _ _ _ Hok) as Htr.
  pose proof Hok as [M1 M2 Lo Fi Wr (ps & pend & outs & p & Hl & Hd & [Hm Ht] & Hsent) Rv].
  destruct Hd as ([Cs Cr Ci Cz Cl Co] & Hs & Hr). pose proof (so_done _ Cs) as Hst. simpl in Hst. rewrite Hop in Hst.
  apply symmetry, bool_decide_eq_true in Hst. rewrite Hst in Hm, Hsent. simpl in Hsent.
  destruct (is_state (ppi_state (pb_output (uc_send c))) STATE_BUSY) eqn:Eb; [|done]. apply bool_decide_eq_true in Eb.
  destruct Hm as (_ & Hh & D1 & D2). destruct ps as [|q ps]; [done|]. injection Hh as ->.
  destruct (link_head _ _ _ _ p Hl eq_refl) as (R1 & R2 & R3). simpl in R1.
  destruct (wp_inv _ _ (wp_output_done num _ _ _ Hl Eb)) as (l1 & Hrun & Hl1 & _). simpl in Hrun. rewrite R1, ppi_done_ok in Hrun by done. injection Hrun as <-.
  simpl. wpp_step. apply wpp_con_dg. unfold gdg, mdg. do 4 wpp_step. simpl g_dg. rewrite ppi_job_done_ok by done. apply wp_ok. wpp_step.
  wpp_step. unfold monitor_output_handler_done. wpp_step. apply wpp_udp_set_timer. intros h' Hq. apply wpp_mbuffer. simpl. rewrite ppi_done_ok by done.
  apply wp_ok. wpp_step. split; [done|]. apply post_quiet; [done|done|done|]. intros _.
  constructor; try done. exists (p :: ps), pend, (outs ++ [p]), p. simpl. split; [exact Hl1|]. rewrite app_nil_r. split; [|by split].
  split; [|split; [|exact Hr]].
  - constructor; try done; [|by destruct Cr]. destruct Cs as [A1 A2 A3 A4 A5 A6 A7 A8]. simpl in *. rewrite Hst in *. by constructor.
  - unfold send_wait in *. simpl in *. pose proof (so_busy _ Cs) as Hb. simpl in Hb. rewrite Hst in Hb. by rewrite Hb in *.
Qed.

Lemma wpp_buffer_out {OS : Os} c h ins sent got given : con_ok c ins sent got given -> ppi_job_done (pb_output (uc_send c)) = true ->
  wpp (con_run udp_mtu socks_mtu UBufferOut) c h (fun b c' h' => b = false /\ con_post c h ins sent got given b c' h').
Proof.
  intros Hok Hop. pose proof (con_trace _ _ _ _ _ _ _ _ Hok) as Htr.
  pose proof Hok as [M1 M2 Lo Fi [W1 [W2 W3]] (ps & pend & outs & p & Hl & Hd & [Hm Ht] & Hsent) Rv]. destruct M2 as (N1 & N2 & N3 & N4 & N5 & N6).
  destruct (wp_inv _ _ (wp_output_job num _ _ _ Hl Hop)) as (l' & Hrun & Hl'). simpl in Hrun.
  apply bind_ok_inv in Hrun as (b & Hb & [= <-]). pose proof (output_job_frame _ _ Hb) as (F1 & F2 & F3 & F4 & F5).
  rewrite F3 in Hm, Ht. simpl in Hm, Ht.
  simpl. wpp_step. apply wpp_mbuffer. rewrite Hb. apply wp_ok. wpp_step.
  split; [done|]. apply post_quiet; [done|done|done|]. intros _. constructor; try done.
  - simpl. by rewrite F1, F2.
  - unfold writer_ok. simpl. destruct F5 as [-> |[E1 E2]]; [done|]. rewrite E2. rewrite E1 in W1. simpl in W1. by rewrite W1.
  - exists (tail ps), pend, outs, p. split; [exact Hl'|]. split; [|split; [|exact Hsent]].
    + apply (dg_ok_out (con_world c) p); [done|]. simpl. by rewrite Hm.
    + unfold monitor_ok. simpl. by rewrite (bool_decide_eq_false_2 _ F4).
Qed.
End sending.

(** ** The receiving side *)
Section receiving.
Context (num udp_mtu socks_mtu : Z).
Abbreviation con_ok := (con_ok num udp_mtu socks_mtu).
Abbreviation con_post := (con_post num udp_mtu socks_mtu).

Lemma wpp_udp_recv_op {OS : Os} c h ins sent got given : con_ok c ins sent got given -> pri_job_operation (dr_iface (uc_dg c)) = true ->
  wpp (con_run udp_mtu socks_mtu URecvOp) c h (fun b c' h' => b = false /\ con_post c h ins sent got given b c' h').
Proof.
  intros Hok Hop. pose proof (con_trace _ _ _ _ _ _ _ _ Hok) as Htr.
  pose proof Hok as [M1 M2 Lo Fi Wr (ps & pend & outs & p & Hl & Hd & [Hm Ht] & Hsent) (d & part & (P1 & P2 & P3) & Hgot & Hgiv)].
  destruct M2 as (N1 & N2 & N3 & N4 & N5 & N6).
  simpl. wpp_step. apply wpp_con_dg. eapply wpp_mono; [by apply (wpp_recv_operation _ _ p)|].
  intros _ w h' (-> & Hd' & E1 & E2 & (F0 & F1 & F2 & F3 & F4 & F5 & F6 & F7 & F8 & F9) & S1 & S2 & E3 & E4). wpp_step. simpl in *.
  split; [done|]. apply post_quiet; [done|done|done|]. intros _.
  constructor; try done; [by simpl; rewrite E3, F4|exists ps, pend, outs, p|exists d, part].
  - simpl. rewrite F5. split; [exact Hl|]. split; [by destruct w; simpl in *; subst|]. split; [|exact Hsent].
    unfold monitor_ok. simpl. by rewrite F5.
  - split; [|done]. unfold passing. simpl. rewrite E2, S2. rewrite S1 in P3. split_and!; [done|done|].
    destruct (ppi_state (uc_recv_if c)); [|by destruct P3..]. by destruct P3 as [_ ->].
Qed.

Lemma wpp_udp_recv_done {OS : Os} c h ins sent got given : con_ok c ins sent got given -> pri_job_done (dr_iface (uc_dg c)) = true ->
  wpp (con_run udp_mtu socks_mtu URecvDone) c h (fun b c' h' => b = false /\ con_post c h ins sent got given b c' h').
Proof.
  intros Hok Hop. pose proof (con_trace _ _ _ _ _ _ _ _ Hok) as Htr.
  pose proof Hok as [M1 M2 Lo Fi Wr (ps & pend & outs & p & Hl & Hd & Hm & Hsent) (d & part & (P1 & P2 & P3) & Hgot & Hgiv)].
  destruct M2 as (N1 & N2 & N3 & N4 & N5 & N6). destruct Hd as ([Cs Cr Ci Cz Cl Co] & Hs & Hr).
  pose proof (ro_done _ Cr) as Hst. simpl in Hst. rewrite Hop in Hst. apply symmetry, bool_decide_eq_true in Hst.
  specialize (Cl Hst). simpl in Cl. rewrite Hst in P3. destruct (ppi_state (uc_recv_if c)) eqn:E; [|by destruct P3..]. destruct P3 as [_ ->].
  simpl. wpp_step. apply wpp_con_dg. unfold gdg, mdg. do 4 wpp_step. simpl g_dg. rewrite pri_job_done_ok by done. apply wp_ok. repeat wpp_step.
  unfold recv_buffer_input_handler_done. repeat wpp_step. simpl. rewrite ppi_send_ok by (done || by rewrite N6, <- N5). apply wp_ok. repeat wpp_step.
  split; [done|]. apply post_quiet; [done|done|done|]. intros _. constructor; try done; [exists ps, pend, outs, p|exists d, [slice (uc_recv_buf c) 0 (pri_job_done_len (dr_iface (uc_dg c)))]].
  - split; [exact Hl|]. split; [|split; [exact Hm|exact Hsent]]. split; [|split; [exact Hs|]].
    + constructor; try done; [by destruct Cs|]. destruct Cr as [A1 A2 A3 A4 A5 A6]. simpl in *. rewrite Hst in *. by constructor.
    + unfold recv_wait in *. simpl in *. pose proof (ro_busy _ Cr) as Hb. simpl in Hb. rewrite Hst in Hb. by rewrite Hb in *.
  - split; [|done]. unfold passing. simpl. rewrite P2, <- N5. split_and!; done || apply Cl.
Qed.

Lemma wpp_udp_pass_done {OS : Os} c h ins sent got given : con_ok c ins sent got given -> ppi_job_done (uc_recv_if c) = true ->
  wpp (con_run udp_mtu socks_mtu UPassDone) c h (fun b c' h' => b = false /\ con_post c h ins sent got given b c' h').
Proof.
  intros Hok Hop. pose proof (con_trace _ _ _ _ _ _ _ _ Hok) as Htr.
  pose proof Hok as [M1 M2 Lo Fi Wr (ps & pend & outs & p & Hl & Hd & Hm & Hsent) (d & part & (P1 & P2 & P3) & Hgot & Hgiv)].
  destruct M2 as (N1 & N2 & N3 & N4 & N5 & N6). destruct Hd as ([Cs Cr Ci Cz Cl Co] & Hs & Hr).
  rewrite Hop in P2. apply symmetry, bool_decide_eq_true in P2. rewrite P2 in P1, P3. destruct P3 as [Hst ->].
  simpl. repeat wpp_step. rewrite ppi_job_done_ok by done. apply wp_ok. repeat wpp_step.
  unfold recv_buffer_output_handler_done. apply wpp_con_dg. unfold gdg, mdg. repeat wpp_step. simpl g_dg. rewrite pri_recv_ok by done. apply wp_ok. repeat wpp_step.
  split; [done|]. apply post_quiet; [done|done|done|]. intros _. constructor; try done; [exists ps, pend, outs, p|exists d, []].
  - split; [exact Hl|]. split; [|split; [exact Hm|exact Hsent]]. split; [|split; [exact Hs|]].
    + constructor; try done; [by destruct Cs|]. destruct Cr as [A1 A2 A3 A4 A5 A6]. simpl in *. rewrite Hst in *. constructor; simpl; try done. by rewrite A5.
    + exact Hr.
  - split; [|done]. unfold passing. simpl. by rewrite P1.
Qed.

(** *** A datagram from the server *)
Lemma wpp_peek {OS : Os} c h d n (Q : list Z -> UdpCon -> hist -> Prop) :
  0 <= d -> 0 <= n -> d + n <= zlen (uc_recv_buf c) -> Q (slice (uc_recv_buf c) d n) c h -> wpp (peek d n) c h Q.
Proof. intros ? ? ? HQ. unfold peek. repeat wpp_step. rewrite rd_list_ok by lia. by apply wp_ok. Qed.

(** the body of [recv_if_handler_send] against what the datagram says *)
Lemma wpp_parse_address {OS : Os} c h len (Q : option (BAddr * Z * Z) -> UdpCon -> hist -> Prop) :
  let p := slice (uc_recv_buf c) 0 len in let atyp := byte_at p 3 in
  let n := if atyp =? SOCKS_ATYP_IPV4 then ADDR_IPV4 else ADDR_IPV6 in
  4 <= len < 2 ^ 31 -> len <= zlen (uc_recv_buf c) ->
  Q (if negb ((atyp =? SOCKS_ATYP_IPV4) || (atyp =? SOCKS_ATYP_IPV6)) || (len <? 4 + n) then None
     else Some (if atyp =? SOCKS_ATYP_IPV4 then BAddr_MakeIPv4 (slice p 4 4) (slice p 8 2) else BAddr_MakeIPv6 (slice p 4 16) (slice p 20 2),
                4 + n, len - 4 - n)) c h ->
  wpp (parse_address atyp (0 + SOCKS_UDP_HEADER) (len - SOCKS_UDP_HEADER)) c h Q.
Proof.
  intros p atyp n Hl Hz HQ. unfold parse_address, SOCKS_UDP_HEADER, n, ADDR_IPV4, ADDR_IPV6 in *. clear n. rewrite usz_small by lia.
  destruct (atyp =? SOCKS_ATYP_IPV4); [|destruct (atyp =? SOCKS_ATYP_IPV6)]; simpl in HQ.
  - destruct (Z.ltb_spec len (4 + 6)), (Z.ltb_spec (len - 4) 6); try lia; [by wpp_step|]. wpp_step. apply wpp_peek; [lia..|]. wpp_step.
    unfold p in HQ. rewrite !slice_slice in HQ by lia. rewrite !slice_slice by lia. exact HQ.
  - destruct (Z.ltb_spec len (4 + 18)), (Z.ltb_spec (len - 4) 18); try lia; [by wpp_step|]. wpp_step. apply wpp_peek; [lia..|]. wpp_step.
    unfold p in HQ. rewrite !slice_slice in HQ by lia. rewrite !slice_slice by lia. exact HQ.
  - by wpp_step.
Qed.

Lemma make_ip (v4 : bool) a b c d : is_ip (if v4 then BAddr_MakeIPv4 a b else BAddr_MakeIPv6 c d) = true.
Proof. by destruct v4. Qed.
Lemma wpp_recv_if {OS : Os} c h len :
  0 <= len <= socks_mtu -> socks_mtu < 2 ^ 31 -> zlen (uc_recv_buf c) = socks_mtu -> ppi_state (uc_recv_if c) = STATE_BUSY ->
  wpp (recv_if_handler_send udp_mtu socks_mtu 0 len) c h (fun b c' h' =>
    traces h' = (msgs_sent h, msgs_got h, msgs_given h ++ delivered udp_mtu (uc_local_addr c) [slice (uc_recv_buf c) 0 len], opened h) /\
    exists x, c' = (c <| uc_recv_if := (((uc_recv_if c) <| ppi_job_requestcancel := false |>) <| ppi_job_done := true |>) <| ppi_state := STATE_DONE_PENDING |> |>)
      <| uc_dns_id := x |>).
Proof.
  intros Hl Hs Hz Hst. set (p := slice (uc_recv_buf c) 0 len). assert (Hp : zlen p = len) by (apply zlen_slice; lia).
  unfold recv_if_handler_send. wpp_step. apply wpp_passert; [lia|]. wpp_step. apply wpp_passert; [lia|]. do 4 wpp_step.
  rewrite ppi_done_ok by done. apply wp_ok. do 2 wpp_step. set (c1 := c <| uc_recv_if := _ |>).
  assert (Hsame : exists x, c1 = c1 <| uc_dns_id := x |>) by (exists (uc_dns_id c); by destruct c).
  assert (Hnone : udp_parse udp_mtu p = None -> forall h', quiet h h' ->
    traces h' = (msgs_sent h, msgs_got h, msgs_given h ++ delivered udp_mtu (uc_local_addr c) [p], opened h)).
  { intros E h' Hq. unfold delivered. simpl. rewrite E. rewrite app_nil_r. exact Hq. }
  assert (Hparse : udp_parse udp_mtu p = udp_parse udp_mtu p) by done. unfold udp_parse at 2 in Hparse. rewrite Hp in Hparse.
  rewrite usz_small by lia. unfold SOCKS_UDP_HEADER at 1. destruct (Z.ltb_spec len 4); [wpp_step; split; [by apply Hnone|done]|].
  wpp_step. apply wpp_peek; [unfold SOCKS_UDP_HEADER; simpl; lia..|].
  assert (E3 : byte_at (slice (uc_recv_buf c1) 0 SOCKS_UDP_HEADER) 3 = byte_at p 3).
  { unfold p, SOCKS_UDP_HEADER. by rewrite !byte_at_slice by lia. }
  rewrite E3. wpp_step. apply (wpp_parse_address c1 h len); [lia|simpl; lia|]. fold p. change (slice (uc_recv_buf c1) 0 len) with p.
  set (n := if byte_at p 3 =? SOCKS_ATYP_IPV4 then ADDR_IPV4 else ADDR_IPV6) in *.
  destruct (negb _ || (len <? 4 + n)) eqn:Eb; [simpl in Hparse; wpp_step; split; [by apply Hnone|done]|]. simpl in Hparse.
  apply orb_false_iff in Eb as [_ Eb]. apply Z.ltb_ge in Eb. assert (0 < n <= 18) by (clear; unfold n, ADDR_IPV4, ADDR_IPV6; destruct (byte_at p 3 =? SOCKS_ATYP_IPV4); lia).
  destruct (udp_mtu <? len - 4 - n); [wpp_step; split; [by apply Hnone|done]|].
  wpp_step. apply wpp_peek; [lia..|simpl; lia|].
  assert (Es : slice (uc_recv_buf c1) (4 + n) (len - 4 - n) = slice p (4 + n) (len - 4 - n)).
  { unfold p. by rewrite slice_slice by lia. }
  rewrite Es. do 2 wpp_step. set (a := if byte_at p 3 =? SOCKS_ATYP_IPV4 then BAddr_MakeIPv4 _ _ else BAddr_MakeIPv6 _ _) in *.
  assert (Ha : is_ip a = true) by apply make_ip.
  assert (Hgive : forall r, traces ((CTun (UdpReceived (addr_pair (uc_local_addr c)) (addr_pair a) (slice p (4 + n) (len - 4 - n))), r) :: h) =
    (msgs_sent h, msgs_got h, msgs_given h ++ delivered udp_mtu (uc_local_addr c) [p], opened h)).
  { intros r. unfold delivered. simpl. rewrite Hparse. done. }
  case_match; [|wpp_step; by split]. wpp_step. apply wpp_get_dns_id; [done|]. intros x. case_match; repeat wpp_step; (split; [apply Hgive|]); [done|by exists (-1)].
Qed.

Lemma wpp_pass {OS : Os} c h ins sent got given : con_ok c ins sent got given -> ppi_job_operation (uc_recv_if c) = true ->
  wpp (con_run udp_mtu socks_mtu UPass) c h (fun b c' h' => con_post c h ins sent got given b c' h').
Proof.
  intros Hok Hop. destruct (con_trace _ _ _ _ _ _ _ _ Hok) as [Hpre _].
  pose proof Hok as [M1 M2 Lo Fi Wr (ps & pend & outs & p & Hl & Hd & Hm & Hsent) (d & part & (P1 & P2 & P3) & Hgot & Hgiv)].
  destruct M2 as (N1 & N2 & N3 & N4 & N5 & N6). pose proof Hd as ([Cs Cr [Ci _] Cz Cl Co] & Hs & Hr). simpl in Ci.
  rewrite Hop in P1. apply symmetry, bool_decide_eq_true in P1. rewrite P1 in P2, P3. destruct P3 as (Hst & Hd0 & Hlen & ->).
  set (q := slice (uc_recv_buf c) 0 (ppi_job_operation_len (uc_recv_if c))) in *.
  simpl. repeat wpp_step. rewrite ppi_job_operation_ok by done. apply wp_ok. repeat wpp_step. rewrite Hd0.
  eapply wpp_mono; [apply wpp_recv_if; [done|lia|simpl; by rewrite Ci|done]|]. simpl. fold q. intros b c' h' (Htr & x & ->).
  exists [], [], (delivered udp_mtu (uc_local_addr c) [q]). rewrite !app_nil_r. split; [exact Htr|]. split; [done|]. split; [exact (con_ok_inited _ _ _ _ _ _ _ _ Hok)|].
  assert (Hg : given ++ delivered udp_mtu (uc_local_addr c) [q] = delivered udp_mtu (uc_local_addr c) (d ++ [q])).
  { rewrite Hgiv. unfold delivered. by rewrite omap_app. }
  rewrite Hg. split; [split; [done|exists (d ++ [q]); by rewrite Hgot]|]. intros _.
  constructor; try done; [exists ps, pend, outs, p; by split_and!|exists (d ++ [q]), []].
  split; [|by rewrite app_nil_r]. unfold passing. simpl. by split_and!.
Qed.
End receiving.

(** ** The other handlers *)
#[local] Arguments Z.testbit : simpl never.
Section others.
Context (num udp_mtu socks_mtu : Z).
Abbreviation con_ok := (con_ok num udp_mtu socks_mtu).
Abbreviation con_post := (con_post num udp_mtu socks_mtu).

(** When the SOCKS client calls the handler: once it is connected, then once it is up,
    with the address that the server bound; or with an error. *)
Definition socks_event_ok (event : Z) (o : BSocksClient) : Prop :=
  event = BSOCKSCLIENT_EVENT_CONNECTED /\ o_state o = STATE_CONNECTED_HANDLER \/
  event = BSOCKSCLIENT_EVENT_UP /\ o_state o = STATE_UP /\ is_ip (o_bind_addr o) = true \/
  event = BSOCKSCLIENT_EVENT_ERROR \/ event = BSOCKSCLIENT_EVENT_ERROR_CLOSED.

Lemma con_dg_change c ins sent got given d' : con_ok c ins sent got given ->
  ds_iface d' = ds_iface (uc_dg c) -> dr_iface d' = dr_iface (uc_dg c) -> ds_mtu d' = ds_mtu (uc_dg c) -> dr_mtu d' = dr_mtu (uc_dg c) ->
  (forall p, dg_ok (con_world c) p -> dg_ok ((con_world c) <| g_dg := d' |>) p) -> con_ok (c <| uc_dg := d' |>) ins sent got given.
Proof.
  intros [M1 M2 Lo Fi Wr (ps & pend & outs & p & Hl & Hd & Hm & Hsent) (d & part & Hpa & Hrest)] E1 E2 E3 E4 Hdg.
  constructor; try done; [simpl; by rewrite E3, E4|exists ps, pend, outs, p|exists d, part].
  - simpl. rewrite E1. split; [exact Hl|]. split; [by apply Hdg|]. split; [|exact Hsent]. unfold monitor_ok. simpl. rewrite E1. exact Hm.
  - split; [|done]. unfold passing. simpl. rewrite E2. exact Hpa.
Qed.
Lemma con_socks_change c ins sent got given o : con_ok c ins sent got given -> con_ok (c <| uc_socks := o |>) ins sent got given.
Proof. by intros [? ? ? ? ? ? ?]. Qed.

Lemma dg_ok_started w p : dg_ok w p -> dg_ok (w <| g_dg := started (g_dg w) |>) p.
Proof.
  intros ([Cs Cr Ci Cz Cl Co] & Hs & Hr). pose proof (started_same (g_dg w)) as Hss. pose proof (started_recv (g_dg w)) as Hsr.
  pose proof (same_send_ok _ _ Hss Cs) as Cs'. pose proof (same_recv_ok _ _ Hsr Cr) as Cr'. pose proof (started_wait _ Cr Hr) as Hr'.
  destruct Hss as (S0 & S1 & S2 & S3 & S4 & S5 & S6 & S7 & S8 & S9). destruct Hsr as (_ & R1 & R2 & R3 & R4 & R5).
  split; [|split; [|exact Hr']].
  - constructor; simpl; rewrite ?R2, ?R3, ?S5; done.
  - assert (E : dg_wait_events (started (g_dg w)) = dg_wait_events (g_dg w)) by (unfold started; by repeat case_match).
    unfold send_wait. simpl. by rewrite S1, S6, S7, E.
Qed.
Lemma dg_ok_addrs w p a l : dg_ok w p -> is_ip a = true -> ds_have_addrs (g_dg w) = true ->
  dg_ok (w <| g_dg := ((g_dg w) <| ds_remote_addr := a |>) <| ds_local_addr := l |> |>) p.
Proof. intros ([Cs Cr Ci Cz Cl Co] & Hs & Hr) Ha Hh. split; [|by split]. constructor; try done; [|by destruct Cr]. destruct Cs; by constructor. Qed.
Lemma dg_ok_first_addrs w p a l : dg_ok w p -> is_ip a = true -> ds_have_addrs (g_dg w) = false ->
  dg_ok (w <| g_dg := ((((g_dg w) <| ds_remote_addr := a |>) <| ds_local_addr := l |>) <| ds_have_addrs := true |>)
    <| ds_job := ds_busy (g_dg w) |> |>) p.
Proof.
  intros ([Cs Cr Ci Cz Cl Co] & Hs & Hr) Ha Hh. unfold send_wait in Hs. rewrite Hh, andb_false_r in Hs. destruct Hs as [W J].
  split; [|split; [|exact Hr]].
  - constructor; try done; [|by destruct Cr]. destruct Cs; by constructor.
  - unfold send_wait. simpl. rewrite W. by destruct (ds_busy (g_dg w)).
Qed.

Lemma wpp_set_send_addrs {OS : Os} c h ins sent got given a (Q : unit -> UdpCon -> hist -> Prop) :
  con_ok c ins sent got given -> is_ip a = true -> (forall d', con_ok (c <| uc_dg := d' |>) ins sent got given -> ds_have_addrs d' = true -> ds_remote_addr d' = a ->
    Q tt (c <| uc_dg := d' |>) h) ->
  wpp (con_dg (BDatagram_SetSendAddrs a (BIPAddr_ BADDR_TYPE_NONE []))) c h Q.
Proof.
  intros Hok Ha HQ. apply wpp_con_dg. unfold BDatagram_SetSendAddrs, gdg, mdg.
  wpp_step. apply wpp_passert; [exact Ha|]. wpp_step. apply wpp_passert; [done|]. repeat wpp_step. simpl.
  pose proof (co_send _ _ _ _ _ _ _ _ Hok) as (_ & _ & _ & p0 & _ & ([Cs0 _ _ _ _ _] & Hs0 & _) & _).
  pose proof (so_inited _ Cs0) as Hin. simpl in Hin.
  destruct (ds_have_addrs (uc_dg c)) eqn:Eh.
  - wpp_step. apply HQ; [|exact Eh|done]. apply con_dg_change; try done. intros p Hp. by apply (dg_ok_addrs (con_world c)).
  - rewrite Hin. assert (Hg : forall p, dg_ok (con_world c) p -> dg_ok ((con_world c) <| g_dg :=
      ((((uc_dg c) <| ds_remote_addr := a |>) <| ds_local_addr := BIPAddr_ BADDR_TYPE_NONE [] |>) <| ds_have_addrs := true |>) <| ds_job := ds_busy (uc_dg c) |> |>) p)
      by (intros p Hp; by apply (dg_ok_first_addrs (con_world c))).
    repeat wpp_step. simpl. destruct (ds_busy (uc_dg c)) eqn:Eb; simpl; repeat wpp_step.
    + by apply HQ; [apply con_dg_change|..].
    + assert (Ej : ds_job (uc_dg c) = false) by (unfold send_wait in Hs0; simpl in Hs0; rewrite Eb in Hs0; apply Hs0).
      apply HQ; [|done..]. apply con_dg_change; try done. intros p Hp. specialize (Hg p Hp). destruct (uc_dg c). simpl in *. by subst.
Qed.

Lemma wpp_bind_con {OS : Os} c h ins sent got given a (Q : bool -> UdpCon -> hist -> Prop) :
  con_ok c ins sent got given -> is_ip a = true ->
  (forall h', quiet h h' -> Q false c h') ->
  (forall d' h', quiet h h' -> con_ok (c <| uc_dg := d' |>) ins sent got given -> Q true (c <| uc_dg := d' |>) h') ->
  wpp (con_dg (BDatagram_Bind a)) c h Q.
Proof.
  intros Hok Ha Q0 Q1. apply wpp_con_dg. unfold BDatagram_Bind, gdg. wpp_step. apply wpp_passert; [exact Ha|].
  do 3 wpp_step. destruct (to_sys_ok a Ha) as [n Hn]. wpp_step. rewrite Hn. apply wp_ok. repeat wpp_step.
  case_match; [wpp_step; simpl; match goal with |- Q false ?x _ => replace x with c by (by destruct c) end; by apply Q0|].
  wpp_step. apply wpp_start_recv. wpp_step. simpl. apply Q1; [done|].
  pose proof (started_same (uc_dg c)) as (S0 & S1 & S2 & S3 & S4 & S5 & S6 & S7 & S8 & S9). pose proof (started_recv (uc_dg c)) as (_ & R1 & R2 & R3 & R4 & R5).
  apply con_dg_change; try done. intros p Hp. by apply (dg_ok_started (con_world c)).
Qed.

Lemma wpp_socks {OS : Os} (Hos : datagrams_ok OS) c h ins sent got given e o : con_ok c ins sent got given -> socks_event_ok e o ->
  wpp (con_run udp_mtu socks_mtu (USocks e o)) c h (fun b c' h' => con_post c h ins sent got given b c' h').
Proof.
  intros Hok He. pose proof (con_trace _ _ _ _ _ _ _ _ Hok) as Htr. simpl. do 2 wpp_step. unfold socks_state_handler.
  pose proof (con_socks_change _ _ _ _ _ o Hok) as Hok'. set (c1 := c <| uc_socks := o |>) in *.
  assert (Hends : forall c' h', uc_local_addr c' = uc_local_addr c -> con_inited c' -> quiet h h' -> con_post c h ins sent got given true c' h') by (intros; by apply post_ends).
  pose proof (con_ok_inited _ _ _ _ _ _ _ _ Hok) as Hin.
  assert (Hlives : forall c' h', uc_local_addr c' = uc_local_addr c -> quiet h h' -> con_ok c' ins sent got given -> con_post c h ins sent got given false c' h') by (intros; by apply post_quiet).
  destruct He as [[-> Ho]|[(-> & Ho & Hb)|He]].
  - simpl. wpp_step. apply wpp_con_socks. unfold BSocksClient_GetLocalAddr. wpp_step. wpp_step. wpp_step.
    apply wpp_passert; [simpl; by rewrite Ho|]. repeat wpp_step. simpl.
    set (r := os_reply h CConnectionLocalAddr). destruct (Z.eqb_spec (rv r) 0) as [|Hr]; [wpp_step; by apply Hends|].
    pose proof (do_local _ Hos h Hr) as Hz. fold r in Hz. destruct (is_ip (baddr_of (rdata r))) eqn:Ei; simpl; [|wpp_step; by apply Hends].
    wpp_step. wpp_step. unfold BAddr_SetPort. rewrite Ei. simpl.
    assert (Hw : forall x, x = 4 \/ x = 16 -> wr_list (slice (rdata r) 4 24) x [0; 0] = Ok (splice (slice (rdata r) 4 24) x [0; 0])).
    { intros x Hx. assert (Z24 : zlen (slice (rdata r) 4 24) = 24) by (apply zlen_slice; lia). apply wr_list_ok; [lia|]. rewrite Z24. change (zlen [0; 0]) with 2. lia. }
    assert (Hx : (if ba_type (baddr_of (rdata r)) =? BADDR_TYPE_IPV4 then 4 else 16) = 4 \/ (if ba_type (baddr_of (rdata r)) =? BADDR_TYPE_IPV4 then 4 else 16) = 16) by (case_match; auto).
    simpl in Hx. rewrite Hw by exact Hx. apply wp_ok. wpp_step.
    eapply wpp_bind_con; [by apply con_socks_change|exact Ei|intros h' Hq; simpl; wpp_step; by apply Hends|].
    intros d' h' Hq Hd'. simpl. wpp_step. apply wpp_con_dg. unfold BDatagram_GetLocalAddr, gdg. do 4 wpp_step.
    set (r2 := os_reply h' (CGetsockname _)).
    pose proof (con_ok_inited _ _ _ _ _ _ _ _ Hd') as Hin'.
    destruct (Z.eqb_spec (rv r2) 0) as [Hr2|]; simpl; [|wpp_step; simpl; wpp_step; by apply Hends].
    do 2 wpp_step. eapply wp_mono; [apply (do_bound _ Hos); exact Hr2|]. intros a _. simpl.
    destruct (ba_type a =? BADDR_TYPE_NONE); wpp_step; cbv iota; [wpp_step; by apply Hends|].
    wpp_step. apply wpp_con_socks. unfold BSocksClient_SetDestAddr. do 2 wpp_step. simpl. wpp_step. apply wpp_passert; [by rewrite Ho|]. repeat wpp_step.
    apply Hlives; [done|done|]. exact (con_socks_change _ _ _ _ _ _ Hd').
  - simpl. wpp_step. apply wpp_con_socks. unfold BSocksClient_GetBindAddr. do 2 wpp_step. wpp_step. apply wpp_passert; [simpl; by rewrite Ho|].
    wpp_step. wpp_step. simpl. eapply wpp_set_send_addrs; [by apply con_socks_change|exact Hb|]. intros d' Hd' _ _. wpp_step. by apply Hlives.
  - assert (Hev : (e =? BSOCKSCLIENT_EVENT_CONNECTED) = false /\ (e =? BSOCKSCLIENT_EVENT_UP) = false /\
      ((e =? BSOCKSCLIENT_EVENT_ERROR) || (e =? BSOCKSCLIENT_EVENT_ERROR_CLOSED)) = true) by (by destruct He as [-> | ->]).
    destruct Hev as (-> & -> & ->). wpp_step. by apply Hends.
Qed.

Lemma wpp_timer {OS : Os} c h ins sent got given : con_ok c ins sent got given ->
  wpp (con_run udp_mtu socks_mtu UTimer) c h (fun b c' h' => b = true /\ con_post c h ins sent got given b c' h').
Proof.
  intros Hok. simpl. do 2 wpp_step. unfold monitor_timer_handler. wpp_step. apply wpp_udp_set_timer. intros h' Hq. wpp_step.
  split; [done|]. apply post_ends; [done|done|by apply (con_ok_inited _ _ _ _ _ _ _ _ Hok)|by eapply con_trace].
Qed.

(** ** Every step *)
Definition con_ready (c : UdpCon) (e : udp_event) : Prop :=
  match e with
  | UFirst => uc_first_job c = true
  | USocks event o => socks_event_ok event o
  | UTimer => uc_timer c = true
  | UWriterOp => pri_job_operation (pb_input (uc_send c)) = true
  | UBufferIn => pri_job_done (pb_input (uc_send c)) = true
  | UMonitorOp => ppi_job_operation (pb_output (uc_send c)) = true
  | USendOp => ppi_job_operation (ds_iface (uc_dg c)) = true
  | USendJob => ds_job (uc_dg c) = true
  | UFd ev => fd_ready (con_world c) ev
  | USendDone => ppi_job_done (ds_iface (uc_dg c)) = true
  | UBufferOut => ppi_job_done (pb_output (uc_send c)) = true
  | URecvOp => pri_job_operation (dr_iface (uc_dg c)) = true
  | URecvJob => dr_job (uc_dg c) = true
  | URecvDone => pri_job_done (dr_iface (uc_dg c)) = true
  | UPass => ppi_job_operation (uc_recv_if c) = true
  | UPassDone => ppi_job_done (uc_recv_if c) = true
  end.
(** what the connection has taken to send after a step *)
Definition step_taken (c : UdpCon) (ins : list (list Z)) (e : udp_event) : list (list Z) :=
  match e, uc_first_data c with UFirst, Some data => taken c ins (uc_first_remote_addr c) data | _, _ => ins end.

Lemma wpp_con_run {OS : Os} (Hos : datagrams_ok OS) c h ins sent got given e : con_ok c ins sent got given -> con_ready c e ->
  wpp (con_run udp_mtu socks_mtu e) c h (fun b c' h' => con_post c h (step_taken c ins e) sent got given b c' h').
Proof.
  intros Hok He. pose proof (co_send _ _ _ _ _ _ _ _ Hok) as (_ & _ & _ & p & _ & Hd & _).
  assert (Ht : e = UFirst \/ step_taken c ins e = ins) by (destruct e; auto). destruct Ht as [-> |Ht].
  - eapply wpp_mono; [by apply wpp_first|]. intros b c' h' (-> & data & Hdata & Hp). unfold step_taken. by rewrite Hdata.
  - rewrite Ht. destruct e; try (eapply wpp_mono; [first [by apply wpp_timer|by apply wpp_writer_op|by apply wpp_buffer_in|by apply wpp_monitor_op
      |by apply wpp_udp_send_op|by apply wpp_udp_send_done|by apply wpp_buffer_out|by apply wpp_udp_recv_op|by apply wpp_udp_recv_done|by apply wpp_udp_pass_done]|by intros b c' h' [_ ?]]).
    + eapply wpp_mono; [by apply wpp_first|]. intros b c' h' (-> & data & Hdata & Hp). unfold step_taken in Ht. rewrite Hdata in Ht. by rewrite Ht in Hp.
    + by apply wpp_socks.
    + apply wpp_transfer; [done|]. intros q Hq. by apply wpp_send_job.
    + apply wpp_transfer; [done|]. intros q Hq. by apply wpp_fd_ready.
    + apply wpp_transfer; [done|]. intros q Hq. by apply wpp_recv_job.
    + by apply wpp_pass.
Qed.
End others.
