(* ===== verification/UdpClientSteps.v ===== *)
(** The UDP client around its connections: how one begins and ends, and what every call
    and every step of the reactor does to the client. *)
From S2P Require Import Prelude CMem Sys Flow Chunk ChunkFacts ChunkProps SocksClient SocksClientFacts TcpClient Packet Device DevicePump Addr AddrFacts.
From S2P Require Import UdpClient Datagram DatagramFacts UdpClientFacts.

(** ** Keys *)
Lemma compare_zero a b : B_COMPARE a b = 0 <-> a = b.
Proof. unfold B_COMPARE. destruct (Z.ltb_spec b a), (Z.ltb_spec a b); lia. Qed.
Lemma memcmp_sign_sym a b : memcmp_sign a b = 0 -> memcmp_sign b a = 0.
Proof.
  revert b. induction a as [|x a IH]; intros [|y b]; simpl; try done. rewrite (Z.eqb_sym y x).
  destruct (Z.eqb_spec x y) as [|Hn]; [apply IH|]. intros H%(proj1 (compare_zero _ _)). by destruct Hn.
Qed.
Lemma order_sym a b : BAddr_CompareOrder a b = 0 -> BAddr_CompareOrder b a = 0.
Proof.
  unfold BAddr_CompareOrder. destruct (Z.eqb_spec (B_COMPARE (ba_type a) (ba_type b)) 0) as [E|E]; simpl; [|done].
  apply (proj1 (compare_zero _ _)) in E. rewrite E, (proj2 (compare_zero _ _) eq_refl). simpl.
  destruct (ba_type b =? BADDR_TYPE_IPV4); [|destruct (ba_type b =? BADDR_TYPE_IPV6); [|done]].
  - destruct (Z.eqb_spec (B_COMPARE (ntoh32 (slice (ba_ipv4 a) 0 4)) (ntoh32 (slice (ba_ipv4 b) 0 4))) 0) as [E2|E2]; simpl; [|done].
    apply (proj1 (compare_zero _ _)) in E2. rewrite E2, (proj2 (compare_zero _ _) eq_refl). simpl. intros H%(proj1 (compare_zero _ _)). by apply (proj2 (compare_zero _ _)).
  - destruct (Z.eqb_spec (memcmp_sign (slice (ba_ipv6 a) 0 16) (slice (ba_ipv6 b) 0 16)) 0) as [E2|E2]; simpl; [|done].
    rewrite (memcmp_sign_sym _ _ E2). simpl. intros H%(proj1 (compare_zero _ _)). by apply (proj2 (compare_zero _ _)).
Qed.
Lemma order_refl a : BAddr_CompareOrder a a = 0.
Proof.
  assert (Hm : forall l, memcmp_sign l l = 0) by (induction l as [|x l IH]; simpl; [done|by rewrite Z.eqb_refl]).
  unfold BAddr_CompareOrder. rewrite !(proj2 (compare_zero _ _) eq_refl), Hm. simpl. by repeat case_match.
Qed.

(** What a call adds to the count of what is open. *)
Definition opens (k : Z) (h h' : hist) : Prop := traces h' = (msgs_sent h, msgs_got h, msgs_given h, opened h + k).
Lemma opens_quiet k h h' h'' : opens k h h' -> quiet h' h'' -> opens k h h''.
Proof. unfold opens, quiet. by intros <- ->. Qed.
Lemma quiet_opens k h h' h'' : quiet h h' -> opens k h' h'' -> opens k h h''.
Proof. unfold opens, quiet, traces. intros [= -> -> -> ->]. done. Qed.
Lemma opens_trans j k h h' h'' : opens j h h' -> opens k h' h'' -> opens (j + k) h h''.
Proof. unfold opens, traces. intros [= -> -> -> ->] [= -> -> -> ->]. by rewrite Z.add_assoc. Qed.
Lemma opens_0 h h' : opens 0 h h' <-> quiet h h'.
Proof. unfold opens, quiet, traces. by rewrite Z.add_0_r. Qed.

(** ** The end of a connection *)
Section ending.
Context {OS : Os}.

Lemma wpp_socks_end o h (Q : unit -> BSocksClient -> hist -> Prop) :
  (forall o' h', opens (-1) h h' -> Q tt o' h') -> wpp BSocksClient_Free o h Q.
Proof.
  intros HQ. unfold BSocksClient_Free, free_up_io, free_control_io.
  assert (Hend : forall o' h', quiet h h' ->
     wpp (_ ← syscall CConnectorFree; pmod (fun o => o <| o_continue_job := false |>);;
          match o_buffer o with
          | Some m => _ ← syscall (CFree m); pmod (fun o => o <| o_buffer := None |>)
          | None => mret tt
          end) o' h' Q).
  { intros o' h' Hq. repeat wpp_step. destruct (o_buffer o); repeat wpp_step; apply HQ; eapply (quiet_opens _ _ _ _ Hq); done. }
  do 3 wpp_step. destruct (bool_decide (o_state o = STATE_CONNECTING)); simpl.
  - wpp_step. by apply Hend.
  - wpp_step. destruct (bool_decide (o_state o = STATE_UP)); repeat wpp_step; by apply Hend.
Qed.

Lemma wpp_dg_send_free w h (Q : unit -> gworld -> hist -> Prop) : ds_inited (g_dg w) = true ->
  (forall d' h', quiet h h' -> ds_inited d' = false -> dr_inited d' = dr_inited (g_dg w) -> Q tt (w <| g_dg := d' |>) h') ->
  wpp BDatagram_SendAsync_Free w h Q.
Proof.
  intros Hi HQ. unfold BDatagram_SendAsync_Free, gdg, mdg, set_fd_events, gdg. do 3 wpp_step. apply wpp_passert; [done|]. repeat wpp_step. by apply HQ.
Qed.
Lemma wpp_dg_recv_free w h (Q : unit -> gworld -> hist -> Prop) : dr_inited (g_dg w) = true ->
  (forall d' h', quiet h h' -> dr_inited d' = false -> ds_inited d' = ds_inited (g_dg w) -> Q tt (w <| g_dg := d' |>) h') ->
  wpp BDatagram_RecvAsync_Free w h Q.
Proof.
  intros Hi HQ. unfold BDatagram_RecvAsync_Free, gdg, mdg, set_fd_events, gdg. do 3 wpp_step. apply wpp_passert; [done|]. repeat wpp_step. by apply HQ.
Qed.
Lemma wpp_dg_free w h (Q : unit -> gworld -> hist -> Prop) : ds_inited (g_dg w) = false -> dr_inited (g_dg w) = false ->
  (forall h', opens (-1) h h' -> Q tt w h') -> wpp BDatagram_Free w h Q.
Proof.
  intros Hs Hr HQ. unfold BDatagram_Free, gdg. do 3 wpp_step. apply wpp_passert; [by rewrite Hr|]. wpp_step. apply wpp_passert; [by rewrite Hs|].
  repeat wpp_step. by apply HQ.
Qed.

Lemma wpp_with_con {A} c (p : Prog UdpCon A) o h (Q : A * UdpCon -> SocksUdpClient -> hist -> Prop) :
  wpp p c h (fun a c' h' => Q (a, c') o h') -> wpp (with_con c p) o h Q.
Proof. unfold wpp, with_con. by destruct (p c h) as [[[? ?] ?]| |]. Qed.

(** The objects of a connection go, whatever they were doing. *)
Lemma wpp_connection_free c o h (Q : unit -> SocksUdpClient -> hist -> Prop) : con_inited c -> 0 < su_num o ->
  (forall h', opens (-2) h h' ->
     Q tt ((o <| su_num := su_num o - 1 |>) <| su_conns := remove_connection c (su_conns o) |>) h') ->
  wpp (connection_free c) o h Q.
Proof.
  intros [Hi1 Hi2] Hn HQ. unfold connection_free. do 3 wpp_step. apply wpp_passert; [by apply Z.ltb_lt|]. repeat wpp_step.
  apply wpp_with_con. unfold recv_buffer_Free, send_buffer_Free, BufferWriter_Free, PacketPassInactivityMonitor_Free. repeat wpp_step.
  apply wpp_con_dg, wpp_dg_recv_free; [exact Hi2|]. intros d1 h1 Q1 E1 E2. simpl. repeat wpp_step.
  apply wpp_mbuffer, wp_ok. repeat wpp_step. apply wpp_udp_set_timer. intros h2 Q2. apply wpp_mbuffer, wp_ok. repeat wpp_step.
  apply wpp_con_dg, wpp_dg_send_free; [simpl; by rewrite E2|]. intros d2 h3 Q3 E3 E4. simpl in *. repeat wpp_step.
  apply wpp_con_socks, wpp_socks_end. intros s h4 Q4. simpl. repeat wpp_step.
  apply wpp_con_dg, wpp_dg_free; [exact E3|simpl; by rewrite E4|]. intros h5 Q5. simpl. repeat wpp_step. simpl.
  assert (Hq : opens (-2) h h5).
  { assert (Hq3 : quiet h h3) by (eapply quiet_trans; [|exact Q3]; eapply quiet_trans; [|exact Q2]; exact Q1).
    exact (opens_trans (-1) (-1) _ _ _ (quiet_opens _ _ _ _ Hq3 Q4) Q5). }
  case_match; repeat wpp_step; apply HQ; exact Hq.
Qed.
End ending.

(** ** The beginning of a connection *)
Section beginning.
Context {OS : Os}.

Lemma wpp_dg_init family w h (Q : bool -> gworld -> hist -> Prop) : BDatagram_AddressFamilySupported family = true ->
  (forall d' h', quiet h h' -> Q false (w <| g_dg := d' |>) h') ->
  (forall d' h', opens 1 h h' -> ds_inited d' = false -> dr_inited d' = false -> ds_have_addrs d' = false -> dr_started d' = false ->
     dg_wait_events d' = 0 -> Q true (w <| g_dg := d' |>) h') ->
  wpp (BDatagram_Init family) w h Q.
Proof.
  intros Hf Q0 Q1. unfold BDatagram_Init, mdg. wpp_step. apply wpp_passert; [done|].
  assert (Hd : exists x, family_socket_to_sys family = Ok x).
  { unfold BDatagram_AddressFamilySupported in Hf. unfold family_socket_to_sys. destruct (family =? BADDR_TYPE_IPV4); [eauto|]. simpl in Hf. rewrite Hf. eauto. }
  destruct Hd as [x Hx]. do 2 wpp_step. rewrite Hx. apply wp_ok. do 4 wpp_step. set (s := os_reply h (CSocket x SOCK_DGRAM)).
  destruct (Z.ltb_spec (rv s) 0) as [Hn|Hp]; [wpp_step; apply Q0; unfold quiet, traces; simpl; fold s; rewrite (proj2 (Z.leb_gt _ _) Hn), Z.add_0_r; done|].
  assert (H1 : forall h', quiet ((CSocket x SOCK_DGRAM, s) :: h) h' -> opens 1 h h').
  { intros h' Hq. unfold opens, quiet, traces in *. rewrite Hq. simpl. by rewrite (proj2 (Z.leb_le _ _) Hp). }
  assert (Hfail : forall d' h', quiet ((CSocket x SOCK_DGRAM, s) :: h) h' ->
    wpp (_ ← syscall (CClose (rv s)); mret false) (w <| g_dg := d' |>) h' Q).
  { intros d' h' Hq. repeat wpp_step. apply Q0. apply H1 in Hq. unfold opens, quiet, traces in *. simpl. injection Hq as -> -> -> ->. do 2 f_equal. lia. }
  do 2 wpp_step. case_match; [by apply Hfail|]. wpp_step.
  assert (Hinfo : forall (P : unit -> gworld -> hist -> Prop) w1 h1, (forall h2, quiet h1 h2 -> P tt w1 h2) -> wpp (set_pktinfo (rv s) family) w1 h1 P).
  { intros P w1 h1 HP. unfold set_pktinfo. repeat case_match; repeat wpp_step; by apply HP. }
  apply Hinfo. intros h2 Hq2. do 2 wpp_step. case_match; [apply Hfail; exact Hq2|]. repeat wpp_step. apply Q1; try done. apply H1. exact Hq2.
Qed.

Lemma wpp_socks_begin server auth dest udp o h (Q : bool -> BSocksClient -> hist -> Prop) :
  ba_type server <> BADDR_TYPE_NONE -> auth_ok auth ->
  (forall o' h', quiet h h' -> Q false o' h') -> (forall o' h', opens 1 h h' -> Q true o' h') ->
  wpp (BSocksClient_Init server auth dest udp) o h Q.
Proof.
  intros Hs Ha Q0 Q1. unfold BSocksClient_Init, set_state. wpp_step. apply wpp_passert; [by apply negb_true_iff, Z.eqb_neq|].
  wpp_step. apply wpp_passert.
  { apply forallb_forall. intros ai Hin. unfold auth_ok in Ha. rewrite List.Forall_forall in Ha. destruct (Ha ai Hin) as [Ht _].
    apply orb_true_iff. by destruct Ht as [-> | ->]; [left|right]. }
  do 4 wpp_step. set (r := os_reply _ _). destruct (rv r =? 0) eqn:E; repeat wpp_step.
  - apply Q0. unfold quiet, traces. simpl. fold r. by rewrite E, Z.add_0_r.
  - apply Q1. unfold opens, traces. simpl. fold r. by rewrite E.
Qed.

Lemma wp_packet_buffer_init M num mem : 0 <= M < 2 ^ 31 -> 0 < num -> BLOCK * ((num + 1) * nblocks M) < 2 ^ 31 ->
  (forall m, mem = Some m -> zlen m = BLOCK * ChunkBuffer2_calc_blocks M num) ->
  let i := PacketRecvInterface_ STATE_NONE M false 0 false 0 in
  let o := PacketPassInterface_ STATE_NONE M false 0 0 false false false false in
  wp (PacketBuffer_Init i o num (fun _ => mem)) (fun r => match r with
    | None => True
    | Some b => link_ok num (BufferLink b [] []) [] [] /\ pb_input_mtu b = M /\ pb_output b = o /\ pri_state (pb_input b) = STATE_OPERATION_PENDING
    end).
Proof.
  intros HM Hn Hmax Hmem i o. unfold PacketBuffer_Init, assert_. simpl. rewrite Z.leb_refl, (proj2 (Z.ltb_lt _ _) Hn). simpl.
  rewrite calc_blocks_eq in Hmem |- * by lia. pose proof (nblocks_pos M (proj1 HM)). rewrite (proj2 (Z.ltb_ge _ _)) by nia.
  destruct mem as [m|]; [|done]. specialize (Hmem m eq_refl). apply wp_bind, wp_chunk_init; [done|done|lia|nia|].
  intros c Hh Hmtu Hsz. apply wp_bind.
  pose proof (wp_receive_if (PacketBuffer_ i M o c) []) as Hrec. simpl in Hrec.
  rewrite (proj2 (Z.leb_le _ _)) in Hrec.
  2:{ destruct Hh as (Hcc & [Hv _] & _). pose proof (core_bounds _ _ Hcc) as Hbb. pose proof (nblocks_bound M (proj1 HM)).
      assert (cb_used c = 0) by (apply Hbb; done). destruct (Hv ltac:(lia)) as [_ ->]. unfold BLOCK in *. lia. }
  destruct (wp_inv _ _ (Hrec Hh (proj1 HM) eq_refl eq_refl eq_refl eq_refl)) as (b & Hb & i' & -> & Hi). rewrite Hb. apply wp_ok, wp_ok.
  split; [|split; [done|split; [done|]]].
  - pose proof (nblocks_bound M (proj1 HM)). constructor; simpl; try done; unfold BLOCK in *; lia.
  - simpl. simpl in Hb. clear -Hb. unfold buffer_receive, PacketRecvInterface_Receiver_Recv in Hb.
    simpl in Hb. apply bind_ok_inv in Hb as (q & _ & Hb). injection Hb as <-. done.
Qed.

(** what a connection starts with *)
Record first_ok (udp_mtu : Z) (c : UdpCon) : Prop := FirstOk {
  fo_local : is_ip (uc_local_addr c) = true;
  fo_data : exists data, uc_first_data c = Some data /\ zlen data <= udp_mtu;
  fo_remote : is_ip (uc_first_remote_addr c) = true /\ zlen (ba_body (uc_first_remote_addr c)) = 24 }.
(** MTUs and a number of packets for which the buffer can be made *)
Record sizes_ok (num udp_mtu socks_mtu : Z) : Prop := SizesOk {
  si_mtu : 0 <= udp_mtu /\ socks_mtu = udp_mtu + 22 /\ socks_mtu < 2 ^ 31;
  si_num : 0 < num;
  si_max : BLOCK * ((num + 1) * nblocks socks_mtu) < 2 ^ 31 }.

Lemma wpp_fail2 c h (Q : bool -> UdpCon -> hist -> Prop) data : uc_first_data c = Some data ->
  (forall c' h', uc_local_addr c' = uc_local_addr c -> quiet h h' -> Q false c' h') -> wpp init_fail2 c h Q.
Proof.
  intros Hd HQ. unfold init_fail2. repeat wpp_step. apply (wpp_deref _ data); [exact Hd|]. repeat wpp_step. by apply HQ.
Qed.
Lemma wpp_fail3 c h (Q : bool -> UdpCon -> hist -> Prop) data : uc_first_data c = Some data ->
  ds_inited (uc_dg c) = false -> dr_inited (uc_dg c) = false ->
  (forall c' h', uc_local_addr c' = uc_local_addr c -> opens (-1) h h' -> Q false c' h') -> wpp init_fail3 c h Q.
Proof.
  intros Hd Hi1 Hi2 HQ. unfold init_fail3. wpp_step. apply wpp_con_dg, wpp_dg_free; [done|done|]. intros h1 H1.
  eapply wpp_fail2; [exact Hd|]. intros c' h' ? ?. apply HQ; [done|]. by eapply opens_quiet.
Qed.
Lemma wpp_fail4 c h (Q : bool -> UdpCon -> hist -> Prop) data : uc_first_data c = Some data ->
  ds_inited (uc_dg c) = true -> dr_inited (uc_dg c) = false ->
  (forall c' h', uc_local_addr c' = uc_local_addr c -> opens (-2) h h' -> Q false c' h') -> wpp init_fail4 c h Q.
Proof.
  intros Hd Hi1 Hi2 HQ. unfold init_fail4, BufferWriter_Free, PacketPassInactivityMonitor_Free. wpp_step. apply wpp_mbuffer, wp_ok. do 2 wpp_step.
  apply wpp_udp_set_timer. intros h1 Q1. apply wpp_mbuffer, wp_ok. wpp_step.
  apply wpp_con_dg, wpp_dg_send_free; [exact Hi1|]. intros d2 h2 Q2 E2 E3. wpp_step.
  apply wpp_con_socks, wpp_socks_end. intros o h3 Q3. eapply wpp_fail3; [exact Hd|exact E2|simpl; by rewrite E3|].
  intros c' h' ? Q4. apply HQ; [done|].
  exact (opens_trans (-1) (-1) _ _ _ (quiet_opens _ _ _ _ (quiet_trans _ _ _ Q1 Q2) Q3) Q4).
Qed.
Lemma wpp_fail5 c h (Q : bool -> UdpCon -> hist -> Prop) data : uc_first_data c = Some data ->
  ds_inited (uc_dg c) = true -> dr_inited (uc_dg c) = true ->
  (forall c' h', uc_local_addr c' = uc_local_addr c -> opens (-2) h h' -> Q false c' h') -> wpp init_fail5 c h Q.
Proof.
  intros Hd Hi1 Hi2 HQ. unfold init_fail5, send_buffer_Free. repeat wpp_step. apply wpp_con_dg, wpp_dg_recv_free; [exact Hi2|].
  intros d1 h1 Q1 E1 E2. repeat wpp_step. eapply wpp_fail4; [exact Hd|simpl; by rewrite E2|exact E1|].
  intros c' h' ? Q4. apply HQ; [done|]. eapply quiet_opens; [|exact Q4]. exact Q1.
Qed.

(** the first datagram waits for the writer *)
Definition fresh (c c' : UdpCon) : Prop := uc_first_job c' = uc_first_job c /\ uc_first_data c' = uc_first_data c /\
  uc_first_remote_addr c' = uc_first_remote_addr c /\ pri_state (pb_input (uc_send c')) = STATE_OPERATION_PENDING.
(** a connection whose sending side is there *)
Record sender_made (num udp_mtu socks_mtu : Z) (c : UdpCon) : Prop := SenderMade {
  sm_first : first_ok udp_mtu c;
  sm_dg : ds_inited (uc_dg c) = true /\ dr_inited (uc_dg c) = false /\ ds_have_addrs (uc_dg c) = false /\ dr_started (uc_dg c) = false /\
    dg_wait_events (uc_dg c) = 0 /\ ds_mtu (uc_dg c) = socks_mtu /\ ds_job (uc_dg c) = false /\ ds_busy (uc_dg c) = false /\
    ds_iface (uc_dg c) = PacketPassInterface_ STATE_NONE socks_mtu false 0 0 false false false false;
  sm_writer : uc_timer c = true /\ uc_writer c = BufferWriter_ false (bw_out (uc_writer c)) socks_mtu false;
  sm_link : link_ok num (BufferLink (uc_send c) [] []) [] [] /\ pb_input_mtu (uc_send c) = socks_mtu /\
    pb_output (uc_send c) = PacketPassInterface_ STATE_NONE socks_mtu false 0 0 false false false false /\
    pri_state (pb_input (uc_send c)) = STATE_OPERATION_PENDING }.

Lemma wpp_send_buffer_init num M c h (Q : bool -> UdpCon -> hist -> Prop) :
  0 <= M < 2 ^ 31 -> 0 < num -> BLOCK * ((num + 1) * nblocks M) < 2 ^ 31 ->
  let i := PacketRecvInterface_ STATE_NONE M false 0 false 0 in
  let o := PacketPassInterface_ STATE_NONE M false 0 0 false false false false in
  (forall h', quiet h h' -> Q false c h') ->
  (forall b h', quiet h h' -> link_ok num (BufferLink b [] []) [] [] -> pb_input_mtu b = M -> pb_output b = o ->
     pri_state (pb_input b) = STATE_OPERATION_PENDING -> Q true (c <| uc_send := b |>) h') ->
  wpp (send_buffer_Init i o num) c h Q.
Proof.
  intros HM Hn Hmax i o Q0 Q1. unfold send_buffer_Init. cbn [pri_mtu i].
  assert (HB : forall mem h', quiet h h' -> (forall m, mem = Some m -> zlen m = BLOCK * ChunkBuffer2_calc_blocks M num) ->
    wpp (b ← lift (PacketBuffer_Init i o num (fun _ => mem));
      match b with None => mret false | Some b => pmod (fun c => c <| uc_send := b |>);; mret true end) c h' Q).
  { intros mem h' Hq Hm. do 2 wpp_step. eapply wp_mono; [by apply wp_packet_buffer_init|]. intros [b|] Hb; repeat wpp_step; [|by apply Q0].
    destruct Hb as (? & ? & ? & ?). by apply Q1. }
  destruct (Z.ltb_spec (ChunkBuffer2_calc_blocks M num) 0) as [Hneg|Hpos]; do 2 wpp_step; [by apply HB|].
  do 2 wpp_step. case_match; (apply HB; [done|]); [done|].
  intros m [= <-]. rewrite zlen_resize_block. unfold BLOCK in *. lia.
Qed.

(** A program on the socket that leaves the receiver's memory. *)
Lemma wpp_con_dg_only {A} (p : Prog gworld A) c h (Q : A -> UdpCon -> hist -> Prop) :
  wpp p (con_world c) h (fun a w h' => g_in w = uc_recv_buf c /\ Q a (c <| uc_dg := g_dg w |>) h') -> wpp (con_dg p) c h Q.
Proof.
  intros H. apply wpp_con_dg. eapply wpp_mono; [exact H|]. intros a w h' [E HQ]. rewrite E.
  match goal with |- Q _ ?x _ => assert (Ex : x = c <| uc_dg := g_dg w |>) by reflexivity; rewrite Ex end. exact HQ.
Qed.
Lemma wpp_recv_init mtu c h (Q : unit -> UdpCon -> hist -> Prop) : 0 <= mtu -> dr_inited (uc_dg c) = false ->
  (forall d, d = (((uc_dg c) <| dr_mtu := mtu |> <| dr_iface := PacketRecvInterface_ STATE_NONE mtu false 0 false 0 |>)
     <| dr_job := false |>) <| dr_busy := false |> <| dr_inited := true |> -> Q tt (c <| uc_dg := d |>) h) ->
  wpp (con_dg (BDatagram_RecvAsync_Init mtu)) c h Q.
Proof.
  intros Hm Hi HQ. apply wpp_con_dg_only. unfold BDatagram_RecvAsync_Init, gdg, mdg. do 3 wpp_step. apply wpp_passert; [simpl; by rewrite Hi|].
  wpp_step. apply wpp_passert; [by apply Z.leb_le|]. do 2 wpp_step. unfold PacketRecvInterface_Init, assert_.
  rewrite (proj2 (Z.leb_le 0 mtu)) by done. apply wp_ok. repeat wpp_step. split; [done|]. by apply HQ.
Qed.
Lemma wpp_recv_start M c h (Q : unit -> UdpCon -> hist -> Prop) :
  dr_iface (uc_dg c) = PacketRecvInterface_ STATE_NONE M false 0 false 0 ->
  (forall d, d = (uc_dg c) <| dr_iface := PacketRecvInterface_ STATE_OPERATION_PENDING M true 0 false 0 |> -> Q tt (c <| uc_dg := d |>) h) ->
  wpp recv_buffer_output_handler_done c h Q.
Proof.
  intros Hi HQ. unfold recv_buffer_output_handler_done. apply wpp_con_dg_only. unfold gdg, mdg. do 4 wpp_step.
  unfold PacketRecvInterface_Receiver_Recv, assert_. simpl. rewrite Hi. apply wp_ok. repeat wpp_step. split; [done|]. by apply HQ.
Qed.

Lemma con_ok_made num udp_mtu socks_mtu c c' : sizes_ok num udp_mtu socks_mtu -> sender_made num udp_mtu socks_mtu c ->
  uc_dg c' = ((((uc_dg c) <| dr_mtu := socks_mtu |>) <| dr_iface :=
      PacketRecvInterface_ STATE_OPERATION_PENDING socks_mtu true 0 false 0 |>) <| dr_job := false |>)
      <| dr_busy := false |> <| dr_inited := true |> ->
  uc_recv_if c' = PacketPassInterface_ STATE_NONE socks_mtu false 0 0 false false false false ->
  zlen (uc_recv_buf c') = socks_mtu -> bytes_ok (uc_recv_buf c') ->
  uc_local_addr c' = uc_local_addr c -> uc_first_data c' = uc_first_data c -> uc_first_remote_addr c' = uc_first_remote_addr c ->
  uc_timer c' = uc_timer c -> uc_writer c' = uc_writer c -> uc_send c' = uc_send c ->
  con_ok num udp_mtu socks_mtu c' [] [] [] [].
Proof.
  intros [(M0 & M1 & M2) Hn Hmax] [[Hl (data & Hd & Hz) Hr] (I1 & I2 & A1 & S1 & W1 & D1 & D2 & D3 & D4) (T1 & T2) (L1 & L2 & L3 & L4)].
  intros Ed Er Hb Hy El E1 E2 E3 E4 E5. constructor; rewrite ?El; try done.
  - rewrite Ed, Er, E5, L2, L3, E4, T2. simpl. rewrite D1. by split_and!.
  - intros _. exists data. rewrite E1, E2. destruct Hr. by split_and!.
  - unfold writer_ok. rewrite E4, E5, T2. simpl. rewrite L4. by split_and!.
  - exists [], [], [], []. rewrite E5. split; [exact L1|]. split; [|split].
    + unfold con_world. rewrite Ed. split; [|split].
      * constructor; simpl; rewrite ?D4; try done; constructor; simpl; rewrite ?D4, ?D1, ?D3, ?A1; try done. split; [done|lia].
      * unfold send_wait. simpl. by rewrite D3, W1, D2.
      * unfold recv_wait. simpl. by rewrite W1.
    + unfold monitor_ok. rewrite Ed, E5, E3. simpl. by rewrite L3, D4, T1.
    + rewrite Ed. simpl. by rewrite D4.
  - exists [], []. unfold passing. rewrite Ed, Er. by split_and!.
Qed.

Lemma wpp_recv_made num udp_mtu socks_mtu c h :
  sizes_ok num udp_mtu socks_mtu -> sender_made num udp_mtu socks_mtu c -> 
  wpp (con_dg (BDatagram_RecvAsync_Init socks_mtu);;
       recv_if ← lift (PacketPassInterface_Init socks_mtu);
       pmod (fun c => c <| uc_recv_if := recv_if |>);;
       input ← con_dg BDatagram_RecvAsync_GetIf;
       ok ← recv_buffer_Init input recv_if;
       if negb ok then init_fail5 else mret true) c h (fun (ok : bool) c' h' => uc_local_addr c' = uc_local_addr c /\
    if ok then quiet h h' /\ con_ok num udp_mtu socks_mtu c' [] [] [] [] /\ fresh c c' else opens (-2) h h').
Proof.
  intros Hsz Hsm. pose proof Hsz as [(M0 & M1 & M2) Hn Hmax]. pose proof Hsm as [[Hl (data & Hd & Hz) Hr] (I1 & I2 & _) _ _].
  wpp_step. apply wpp_recv_init; [lia|done|]. intros d Ed. do 2 wpp_step. unfold PacketPassInterface_Init, assert_.
  rewrite (proj2 (Z.leb_le 0 socks_mtu)) by lia. apply wp_ok. do 3 wpp_step. apply wpp_con_dg_only.
  unfold BDatagram_RecvAsync_GetIf, gdg. do 3 wpp_step. apply wpp_passert; [simpl; by rewrite Ed|]. wpp_step. split; [done|]. simpl.
  unfold recv_buffer_Init, PacketRecvInterface_GetMTU, PacketPassInterface_GetMTU.
  assert (Em : dr_iface d = PacketRecvInterface_ STATE_NONE socks_mtu false 0 false 0) by (by rewrite Ed). rewrite Em. cbn [pri_mtu ppi_mtu].
  do 2 wpp_step. apply wpp_passert; [apply Z.leb_refl|]. do 2 wpp_step. destruct (rv _ =? 0).
  { wpp_step. eapply wpp_fail5; [exact Hd|simpl; by rewrite Ed|simpl; by rewrite Ed|]. intros c' h' E Q. by split. }
  do 3 wpp_step. apply (wpp_recv_start socks_mtu); [exact Em|]. intros d' Ed'. repeat wpp_step.
  split; [done|]. split; [done|]. split; [|split_and!; try done; apply Hsm].
  eapply (con_ok_made num udp_mtu socks_mtu c); [done|done|simpl; by rewrite Ed', Ed|done| | |done..].
  - simpl. rewrite zlen_resize_block. lia.
  - apply bytes_resize_block. constructor.
Qed.

Lemma wpp_send_init mtu c h (Q : unit -> UdpCon -> hist -> Prop) : 0 <= mtu -> ds_inited (uc_dg c) = false ->
  (forall d, d = ((((uc_dg c) <| ds_mtu := mtu |>) <| ds_iface := PacketPassInterface_ STATE_NONE mtu false 0 0 false false false false |>)
     <| ds_job := false |>) <| ds_busy := false |> <| ds_inited := true |> -> Q tt (c <| uc_dg := d |>) h) ->
  wpp (con_dg (BDatagram_SendAsync_Init mtu)) c h Q.
Proof.
  intros Hm Hi HQ. apply wpp_con_dg_only. unfold BDatagram_SendAsync_Init, gdg, mdg. do 3 wpp_step. apply wpp_passert; [simpl; by rewrite Hi|].
  wpp_step. apply wpp_passert; [by apply Z.leb_le|]. do 2 wpp_step. unfold PacketPassInterface_Init, assert_.
  rewrite (proj2 (Z.leb_le 0 mtu)) by done. apply wp_ok. repeat wpp_step. split; [done|]. by apply HQ.
Qed.
Lemma wpp_monitor_init mtu c h (Q : PacketPassInterface -> UdpCon -> hist -> Prop) :
  let i := PacketPassInterface_ STATE_NONE mtu false 0 0 false false false false in 0 <= mtu ->
  (forall h', quiet h h' -> Q i (c <| uc_timer := true |>) h') -> wpp (PacketPassInactivityMonitor_Init i) c h Q.
Proof.
  intros i Hm HQ. unfold PacketPassInactivityMonitor_Init. do 2 wpp_step. unfold PacketPassInterface_Init, assert_, PacketPassInterface_GetMTU. simpl.
  rewrite (proj2 (Z.leb_le 0 mtu)) by done. apply wp_ok. do 2 wpp_step. apply wp_ok. wpp_step. apply wpp_udp_set_timer. intros h' Hq. wpp_step. by apply HQ.
Qed.
Lemma wpp_writer_init mtu c h (Q : PacketRecvInterface -> UdpCon -> hist -> Prop) : 0 <= mtu ->
  (forall w, w = BufferWriter_ false (bw_out w) mtu false -> Q (PacketRecvInterface_ STATE_NONE mtu false 0 false 0) (c <| uc_writer := w |>) h) ->
  wpp (BufferWriter_Init mtu) c h Q.
Proof.
  intros Hm HQ. unfold BufferWriter_Init, mwriter. wpp_step. apply wpp_passert; [by apply Z.leb_le|]. do 2 wpp_step.
  unfold PacketRecvInterface_Init, assert_. rewrite (proj2 (Z.leb_le 0 mtu)) by done. apply wp_ok. repeat wpp_step. by apply HQ.
Qed.

Lemma wpp_init_rest num udp_mtu socks_mtu server auth c h :
  sizes_ok num udp_mtu socks_mtu -> ba_type server <> BADDR_TYPE_NONE -> auth_ok auth -> first_ok udp_mtu c ->
  wpp (connection_init_rest server auth socks_mtu num) c h (fun ok c' h' => uc_local_addr c' = uc_local_addr c /\
    if ok then opens 2 h h' /\ con_ok num udp_mtu socks_mtu c' [] [] [] [] /\ fresh c c' else quiet h h').
Proof.
  intros Hsz Hsrv Hauth Hfirst. pose proof Hsz as [(M0 & M1 & M2) Hn Hmax]. pose proof Hfirst as [Hl (data & Hd & Hz) Hr].
  unfold connection_init_rest. do 3 wpp_step. apply wpp_con_dg_only, wpp_dg_init; [exact Hl| |].
  { intros d1 h1 Q1. split; [done|]. simpl. eapply wpp_fail2; [exact Hd|]. intros c' h' ? ?. split; [done|]. by eapply quiet_trans. }
  intros d1 h1 Q1 I1 I2 A1 S1 W1. split; [done|]. simpl. wpp_step. apply wpp_con_socks, wpp_socks_begin; [done|done| |].
  { intros o h2 Q2. simpl. eapply wpp_fail3; [exact Hd|done|done|]. intros c' h' ? Q3. split; [done|].
    apply opens_0. exact (opens_trans 1 (-1) _ _ _ Q1 (quiet_opens _ _ _ _ Q2 Q3)). }
  intros o h2 Q2. simpl. pose proof (opens_trans _ _ _ _ _ Q1 Q2) as Q12. clear Q1 Q2.
  wpp_step. apply wpp_send_init; [lia|exact I1|]. intros d Ed. simpl in Ed. wpp_step. apply wpp_con_dg_only.
  unfold BDatagram_SendAsync_GetIf, gdg. do 3 wpp_step. apply wpp_passert; [simpl; by rewrite Ed|]. wpp_step. split; [done|]. simpl.
  assert (Em : ds_iface d = PacketPassInterface_ STATE_NONE socks_mtu false 0 0 false false false false) by (by rewrite Ed). rewrite Em.
  wpp_step. apply wpp_monitor_init; [lia|]. intros h3 Q3. pose proof (opens_quiet _ _ _ _ Q12 Q3) as Q. clear Q12 Q3.
  wpp_step. apply wpp_writer_init; [lia|]. intros w Ew. wpp_step. apply wpp_mbuffer, wp_ok. wpp_step.
  pose proof (zlen_nonneg data). apply wpp_send_buffer_init; [lia|done|done| |].
  - intros h4 Q4. simpl. eapply wpp_fail4; [exact Hd|simpl; by rewrite Ed|simpl; by rewrite Ed|]. intros c' h' E Q5. split; [exact E|].
    apply opens_0. exact (opens_trans 2 (-2) _ _ _ (opens_quiet _ _ _ _ Q Q4) Q5).
  - intros b h4 Q4 L1 L2 L3 L4. simpl. eapply wpp_mono; [apply (wpp_recv_made num udp_mtu socks_mtu); [done|]|].
      constructor; simpl; try done; [by constructor; [|exists data|]|rewrite Ed; by split_and!].
    + intros ok c' h' [E H']. split; [exact E|]. destruct ok.
      * destruct H' as (Q5 & Hok & E2). split; [|by split]. eapply opens_quiet; [|exact Q5]. by eapply opens_quiet.
      * apply opens_0. exact (opens_trans 2 (-2) _ _ _ (opens_quiet _ _ _ _ Q Q4) H').
Qed.
End beginning.
