(* ===== verification/UdpClientTree.v ===== *)
(** The UDP client as a whole: its tree, its count, and what each call and each step of
    the reactor does to them. *)
From S2P Require Import Prelude CMem Sys Flow Chunk ChunkFacts ChunkProps SocksClient SocksClientFacts TcpClient Packet Device DevicePump Addr AddrFacts.
From S2P Require Import UdpClient Datagram DatagramFacts UdpClientFacts UdpClientSteps.

(** ** The tree *)
Definition differ (a b : BAddr) : Prop := BAddr_CompareOrder b a <> 0.
Lemma differ_sym a b : differ a b -> differ b a.
Proof. intros H E. by apply H, order_sym. Qed.
(** no two connections for one address *)
Fixpoint apart (l : list BAddr) : Prop := match l with [] => True | a :: l => Forall (differ a) l /\ apart l end.
Lemma apart_mid l1 a l2 : apart (l1 ++ a :: l2) <-> apart (l1 ++ l2) /\ Forall (differ a) (l1 ++ l2).
Proof.
  induction l1 as [|b l1 IH]; simpl; [tauto|]. rewrite IH, !Forall_cons, !Forall_app, !Forall_cons.
  split; [intros ((? & ? & ?) & (? & ? & ?)); split_and!; try done; by apply differ_sym|].
  intros (((? & ?) & ?) & ? & ? & ?). split_and!; try done. by apply differ_sym.
Qed.
Lemma apart_conns l1 (c : UdpCon) l2 : apart (uc_local_addr <$> l1 ++ c :: l2) <->
  apart (uc_local_addr <$> l1 ++ l2) /\ Forall (fun d => differ (uc_local_addr c) (uc_local_addr d)) (l1 ++ l2).
Proof. rewrite !fmap_app, fmap_cons, apart_mid, <- fmap_app, Forall_fmap. done. Qed.

Lemma find_some l a c : find_connection l a = Some c -> c ∈ l /\ BAddr_CompareOrder (uc_local_addr c) a = 0.
Proof.
  induction l as [|d l IH]; simpl; [done|]. destruct (Z.eqb_spec (BAddr_CompareOrder (uc_local_addr d) a) 0); [intros [= ->]|intros H; apply IH in H as [? ?]];
    (split; [by constructor|done]).
Qed.
Lemma find_none l a : find_connection l a = None -> Forall (fun d => differ a (uc_local_addr d)) l.
Proof.
  induction l as [|d l IH]; simpl; [constructor|]. destruct (Z.eqb_spec (BAddr_CompareOrder (uc_local_addr d) a) 0); [done|].
  intros H. constructor; [done|by apply IH].
Qed.
Lemma insert_split c l : exists l1 l2, l = l1 ++ l2 /\ insert_connection c l = l1 ++ c :: l2.
Proof.
  induction l as [|d l (l1 & l2 & -> & IH)]; simpl; [by exists [], []|]. case_match; [by exists [], (d :: l1 ++ l2)|].
  exists (d :: l1), l2. by rewrite IH.
Qed.
(** A connection of the tree: where it is, and that its key finds nothing else. *)
Lemma tree_split l c : apart (uc_local_addr <$> l) -> c ∈ l -> exists l1 l2, l = l1 ++ c :: l2 /\
  forall c', uc_local_addr c' = uc_local_addr c -> put_connection c' l = l1 ++ c' :: l2 /\ remove_connection c' l = l1 ++ l2.
Proof.
  intros Ha (l1 & l2 & ->)%list_elem_of_split. exists l1, l2. split; [done|]. intros c' E. apply apart_conns in Ha as [_ Hd].
  apply Forall_app in Hd as [H1 H2].
  assert (Hk : forall l, Forall (fun d => differ (uc_local_addr c) (uc_local_addr d)) l -> put_connection c' l = l /\ remove_connection c' l = l).
  { intros l H. induction H as [|d l Hd H [IH1 IH2]]; [done|]. unfold put_connection, remove_connection in *. rewrite fmap_cons. cbn [List.filter].
    assert (Es : same_key d c' = false) by (apply Z.eqb_neq; rewrite E; exact Hd). by rewrite Es, IH1, IH2. }
  assert (Es : same_key c c' = true) by (apply Z.eqb_eq; rewrite E; apply order_refl).
  destruct (Hk _ H1) as [P1 R1], (Hk _ H2) as [P2 R2]. unfold put_connection, remove_connection in *. rewrite fmap_app, fmap_cons, List.filter_app. cbn [List.filter].
  by rewrite Es, P1, P2, R1, R2.
Qed.

(** ** The client *)
Section client.
Context {OS : Os} (Hos : datagrams_ok OS) (base : Z).

Record client_ok (o : SocksUdpClient) (h : hist) : Prop := ClientOk {
  cl_sizes : sizes_ok (su_send_buf_size o) (su_udp_mtu o) (su_socks_mtu o);
  cl_server : ba_type (su_server_addr o) <> BADDR_TYPE_NONE /\ auth_ok (su_auth_info o);
  cl_num : su_num o = zlen (su_conns o) /\ su_num o <= su_max o;
  cl_apart : apart (uc_local_addr <$> su_conns o);
  cl_conns : Forall (fun c => exists ins sent got given, con_ok (su_send_buf_size o) (su_udp_mtu o) (su_socks_mtu o) c ins sent got given) (su_conns o);
  cl_opened : opened h = base + 2 * su_num o }.

(** what every call leaves as it is *)
Definition same_client (o o' : SocksUdpClient) : Prop :=
  su_server_addr o' = su_server_addr o /\ su_auth_info o' = su_auth_info o /\ su_max o' = su_max o /\
  su_send_buf_size o' = su_send_buf_size o /\ su_udp_mtu o' = su_udp_mtu o /\ su_socks_mtu o' = su_socks_mtu o.
Lemma client_conns o h conns h' num : client_ok o h ->
  num = zlen conns -> num <= su_max o -> apart (uc_local_addr <$> conns) ->
  Forall (fun c => exists ins sent got given, con_ok (su_send_buf_size o) (su_udp_mtu o) (su_socks_mtu o) c ins sent got given) conns ->
  opened h' = base + 2 * num -> client_ok ((o <| su_num := num |>) <| su_conns := conns |>) h'.
Proof. intros [? ? ? ? ? ?] ? ? ? ? ?. by constructor. Qed.

(** One of them changes. *)
Lemma client_put o h c c' ins sent got given h' : client_ok o h -> c ∈ su_conns o -> uc_local_addr c' = uc_local_addr c ->
  con_ok (su_send_buf_size o) (su_udp_mtu o) (su_socks_mtu o) c' ins sent got given -> opened h' = opened h ->
  client_ok (o <| su_conns := put_connection c' (su_conns o) |>) h'.
Proof.
  intros Hok Hin El Hc Hop. pose proof Hok as [H1 H2 [H3 H3'] H4 H5 H6]. destruct (tree_split _ _ H4 Hin) as (l1 & l2 & E & Hp).
  destruct (Hp _ El) as [-> _]. rewrite E in *.
  assert (Hgoal : client_ok ((o <| su_num := su_num o |>) <| su_conns := l1 ++ c' :: l2 |>) h').
  { apply (client_conns o h); [done|rewrite H3; unfold zlen; by rewrite !length_app|done| | |by rewrite Hop].
    - apply apart_conns. apply apart_conns in H4. by rewrite El.
    - rewrite Forall_app, Forall_cons in H5 |- *. destruct H5 as (? & _ & ?). split_and!; [done|by do 4 eexists|done]. }
  exact Hgoal.
Qed.

(** One of them ends. *)
Lemma wpp_client_free o h c c' h1 (Q : unit -> SocksUdpClient -> hist -> Prop) : client_ok o h -> c ∈ su_conns o -> uc_local_addr c' = uc_local_addr c ->
  con_inited c' -> opened h1 = opened h ->
  (forall o' h', client_ok o' h' -> same_client o o' -> zlen (su_conns o') = zlen (su_conns o) - 1 -> Q tt o' h') ->
  wpp (connection_free c') o h1 Q.
Proof.
  intros Hok Hin El Hi Hop HQ. pose proof Hok as [H1 H2 [H3 H3'] H4 H5 H6]. destruct (tree_split _ _ H4 Hin) as (l1 & l2 & E & Hp).
  destruct (Hp _ El) as [_ Hr].
  assert (Hz : zlen (su_conns o) = zlen (l1 ++ l2) + 1) by (rewrite E; unfold zlen; rewrite !length_app; simpl; lia).
  pose proof (zlen_nonneg (l1 ++ l2)). apply wpp_connection_free; [done|lia|]. intros h' Ho. rewrite Hr. apply HQ.
  - apply (client_conns o h); [done|lia|lia| | |].
    + rewrite E in H4. by apply apart_conns in H4 as [? _].
    + rewrite E, Forall_app, Forall_cons in H5. destruct H5 as (? & _ & ?). by apply Forall_app.
    + unfold opens, traces in Ho. injection Ho as _ _ _ ->. lia.
  - by split_and!.
  - simpl. lia.
Qed.

Lemma wpp_run_connection o h c e : client_ok o h -> c ∈ su_conns o -> con_ready c e ->
  wpp (run_connection c e) o h (fun _ o' h' => client_ok o' h' /\ same_client o o').
Proof.
  intros Hok Hin He. pose proof (cl_conns _ _ Hok) as Hcs. rewrite Forall_forall in Hcs. destruct (Hcs _ Hin) as (ins & sent & got & given & Hc).
  unfold run_connection. do 3 wpp_step. apply wpp_with_con. eapply wpp_mono; [by eapply wpp_con_run|].
  intros b c' h' (s & g & v & Ht & El & Hi & _ & Hl). unfold traces in Ht. injection Ht as _ _ _ Ho. destruct b.
  - eapply wpp_client_free; [done|done|done|done|done|]. by intros.
  - wpp_step. split; [|by split_and!]. eapply client_put; [done|done|done|by apply Hl|done].
Qed.

(** what the owner promises of a datagram *)
Definition datagram_in (o : SocksUdpClient) (local remote : BAddr) (data : list Z) : Prop :=
  is_ip local = true /\ is_ip remote = true /\ zlen (ba_body remote) = 24 /\ zlen data <= su_udp_mtu o.

Lemma client_quiet o h h' : client_ok o h -> opened h' = opened h -> client_ok o h'.
Proof. intros [? ? ? ? ? ?] E. constructor; try done. by rewrite E. Qed.

Lemma wpp_connection_init size mem local remote data o h : client_ok o h -> datagram_in o local remote data ->
  find_connection (su_conns o) local = None -> su_num o < su_max o ->
  wpp (connection_init size mem local remote data) o h (fun b o' h' => client_ok o' h' /\ same_client o o' /\
    su_num o' = su_num o + if b then 1 else 0).
Proof.
  intros Hok (Hl & Hr & Hb & Hz) Hf Hn. pose proof Hok as [H1 [H2 H2'] [H3 H3'] H4 H5 H6]. unfold connection_init.
  do 3 wpp_step. apply wpp_passert; [lia|]. wpp_step. apply wpp_passert; [by rewrite Hf|].
  assert (Hno : forall h', opened h' = opened h -> client_ok o h' /\ same_client o o /\ su_num o = su_num o + 0).
  { intros h' E. split; [by eapply client_quiet|]. split; [done|lia]. }
  do 2 wpp_step. destruct (rv _ =? 0); [wpp_step; by apply Hno|]. do 2 wpp_step. destruct (rv _ =? 0); [repeat wpp_step; by apply Hno|].
  wpp_step. apply wpp_get_dns_id; [done|]. intros x. wpp_step. apply wpp_with_con.
  eapply wpp_mono; [apply (wpp_init_rest (su_send_buf_size o) (su_udp_mtu o)); [done..|]|].
  { constructor; [done|by exists data|done]. }
  intros b c' h' [E Hpost]. destruct b; simpl.
  - destruct Hpost as (Ho & Hc & _). unfold opens, traces in Ho. injection Ho as _ _ _ Ho. repeat wpp_step. split; [|by split_and!].
    destruct (insert_split c' (su_conns o)) as (l1 & l2 & El & ->).
    assert (Hgoal : client_ok ((o <| su_num := su_num o + 1 |>) <| su_conns := l1 ++ c' :: l2 |>) h').
    { apply (client_conns o h); [done|rewrite H3, El; unfold zlen; rewrite !length_app; simpl; lia|lia| | |].
      - apply apart_conns. rewrite <- El. split; [done|]. rewrite E. by apply find_none.
      - rewrite El, Forall_app in H5. rewrite Forall_app, Forall_cons. destruct H5. split_and!; [done|by do 4 eexists|done].
      - rewrite Ho. simpl. lia. }
    exact Hgoal.
  - unfold quiet, traces in Hpost. injection Hpost as _ _ _ Ho. repeat wpp_step. apply Hno. simpl. by rewrite Ho.
Qed.

Lemma wpp_submit size mem local remote data o h : client_ok o h -> datagram_in o local remote data ->
  wpp (SocksUdpClient_SubmitPacket size mem local remote data) o h (fun _ o' h' => client_ok o' h' /\ same_client o o').
Proof.
  intros Hok Hd. pose proof Hd as (Hl & Hr & Hb & Hz). pose proof (zlen_nonneg data). unfold SocksUdpClient_SubmitPacket.
  do 3 wpp_step. apply wpp_passert; [done|]. wpp_step. apply wpp_passert; [done|]. wpp_step. apply wpp_passert; [lia|].
  wpp_step. apply wpp_passert; [lia|]. destruct (find_connection (su_conns o) local) as [c|] eqn:E.
  - apply find_some in E as [Hin _]. pose proof (cl_conns _ _ Hok) as Hcs. rewrite Forall_forall in Hcs. destruct (Hcs _ Hin) as (ins & sent & got & given & Hc).
    unfold on_con. wpp_step. apply wpp_with_con. eapply wpp_mono; [by eapply wpp_connection_send|].
    intros u c' h' (-> & Hc' & El & _). repeat wpp_step. split; [|by split_and!]. by eapply client_put.
  - destruct (Z.leb_spec (su_max o) (su_num o)) as [Hm|Hm]; [wpp_step; by split|]. wpp_step.
    eapply wpp_mono; [by apply wpp_connection_init|]. intros b o' h' (? & ? & _). by wpp_step.
Qed.

Lemma wpp_free_connections n o h : client_ok o h -> zlen (su_conns o) <= Z.of_nat n ->
  wpp (free_connections n) o h (fun _ o' h' => su_conns o' = [] /\ opened h' = base).
Proof.
  revert o h. induction n as [|n IH]; intros o h Hok Hn; pose proof Hok as [H1 H2 [H3 H3'] H4 H5 H6];
    cbn [free_connections]; do 2 wpp_step; destruct (su_conns o) as [|c l] eqn:E.
  1,3: wpp_step; split; [done|]; rewrite H6, H3; unfold zlen; simpl; lia.
  - unfold zlen in Hn. simpl in Hn. lia.
  - wpp_step. assert (Hin : c ∈ su_conns o) by (rewrite E; by constructor). rewrite <- E in H5.
    pose proof H5 as Hcs. rewrite Forall_forall in Hcs. destruct (Hcs _ Hin) as (ins & sent & got & given & Hc).
    apply (wpp_client_free o h c c h); [done|done|done|by eapply con_ok_inited|done|].
    intros o' h' Hok' _ Hz. apply IH; [done|]. rewrite Hz, E. lia.
Qed.

(** The header fits into an [int] with the datagram, or the MTU is refused. *)
Lemma compute_socks_mtu_eq v : 0 <= v < 2 ^ 31 -> compute_socks_mtu v = if v + 22 <? 2 ^ 31 then v + 22 else -1.
Proof.
  intros Hv. unfold compute_socks_mtu, bsize_fromint, bsize_add, bsize_fromsize, bsize_toint, SIZE_MAX, INT_MAX, ADDR_IPV6, SOCKS_UDP_HEADER, usz.
  cbn [is_overflow value]. rewrite (Z.mod_small v), (Z.mod_small (4 + 18)), (Z.mod_small (v + _)) by lia.
  rewrite !(proj2 (Z.ltb_ge _ _)) by lia. change (4 + 18) with 22. simpl orb. cbv iota.
  destruct (Z.ltb_spec (v + 22) (2 ^ 31)); [rewrite (proj2 (Z.ltb_ge _ _)) by lia|rewrite (proj2 (Z.ltb_lt _ _)) by lia]; done.
Qed.
Lemma wpp_client_init udp_mtu max num server auth o h : 0 <= udp_mtu < 2 ^ 31 -> 0 < max -> 0 < num ->
  ba_type server <> BADDR_TYPE_NONE -> auth_ok auth -> BLOCK * ((num + 1) * nblocks (udp_mtu + 22)) < 2 ^ 31 -> opened h = base ->
  wpp (SocksUdpClient_Init udp_mtu max num server auth) o h (fun b o' h' => h' = h /\ b = (udp_mtu + 22 <? 2 ^ 31) /\ (b = true -> client_ok o' h' /\
    su_max o' = max /\ su_udp_mtu o' = udp_mtu /\ su_conns o' = [])).
Proof.
  intros Hm Hx Hn Hs Ha Hmax Hb. unfold SocksUdpClient_Init. do 3 (wpp_step; apply wpp_passert; [lia|]). repeat wpp_step. simpl.
  rewrite compute_socks_mtu_eq by done. destruct (Z.ltb_spec (udp_mtu + 22) (2 ^ 31)).
  - rewrite (proj2 (Z.ltb_ge _ _)) by lia. repeat wpp_step. split; [done|]. split; [done|]. intros _.
    split; [|done]. constructor; simpl; try done; [constructor; simpl; [lia|done..]|unfold zlen; simpl; lia|lia].
  - simpl. wpp_step. by split_and!.
Qed.
End client.
