(* ===== verification/UdpClientProps.v ===== *)
(** What the UDP client guarantees: a run of the client with all its connections, the
    traces of one connection, and its datagrams at byedpi's end. *)
From S2P Require Import Prelude CMem Sys Flow Chunk ChunkFacts ChunkProps SocksClient SocksClientFacts TcpClient Packet Device DevicePump Addr AddrFacts.
From S2P Require Import UdpClient Datagram DatagramFacts UdpClientFacts UdpClientSteps UdpClientTree.

(** ** Runs *)
Section runs.
Context {OS : Os}.


(** A connection from [connection_init] on, among any calls of others: [ins] is what it
    took to send, [sent], [got] and [given] what its own calls add to the history. *)
Inductive con_reach (num udp_mtu socks_mtu : Z) : UdpCon -> list (list Z) -> list (list Z) -> list (list Z) ->
    list ((Z * list Z) * (Z * list Z) * list Z) -> Prop :=
  | cn_init server auth c0 h0 c h : sizes_ok num udp_mtu socks_mtu -> ba_type server <> BADDR_TYPE_NONE -> auth_ok auth -> first_ok udp_mtu c0 ->
      connection_init_rest server auth socks_mtu num c0 h0 = Ok (true, c, h) -> con_reach num udp_mtu socks_mtu c [] [] [] []
  | cn_send c ins sent got given a data h c' h' : con_reach num udp_mtu socks_mtu c ins sent got given ->
      zlen data <= udp_mtu -> is_ip a = true -> zlen (ba_body a) = 24 ->
      connection_send udp_mtu socks_mtu a data c h = Ok (tt, c', h') ->
      con_reach num udp_mtu socks_mtu c' (taken c ins a data) sent got given
  | cn_run c ins sent got given e h c' h' s g v : con_reach num udp_mtu socks_mtu c ins sent got given -> con_ready c e ->
      con_run udp_mtu socks_mtu e c h = Ok (false, c', h') ->
      traces h' = (msgs_sent h ++ s, msgs_got h ++ g, msgs_given h ++ v, opened h) ->
      con_reach num udp_mtu socks_mtu c' (step_taken c ins e) (sent ++ s) (got ++ g) (given ++ v).

Lemma wpp_eq {A S} (m : Prog S A) s h (Q : A -> S -> hist -> Prop) a s' h' : wpp m s h Q -> m s h = Ok (a, s', h') -> Q a s' h'.
Proof. unfold wpp. intros H E. by rewrite E in H. Qed.

Lemma con_reach_ok (Hos : datagrams_ok OS) num udp_mtu socks_mtu c ins sent got given :
  con_reach num udp_mtu socks_mtu c ins sent got given -> con_ok num udp_mtu socks_mtu c ins sent got given.
Proof.
  induction 1 as [? ? ? ? c h Hs Hsrv Ha Hf E|c ins sent got given a data h c' h' _ IH Hz Ha Hb E|c ins sent got given e h c' h' s g v _ IH He E Ht].
  - apply (wpp_eq _ _ _ _ _ _ _ (wpp_init_rest _ _ _ _ _ _ _ Hs Hsrv Ha Hf) E).
  - apply (wpp_eq _ _ _ _ _ _ _ (wpp_connection_send _ _ _ _ _ _ _ _ _ _ _ IH Hz Ha Hb) E).
  - destruct (wpp_eq _ _ _ _ _ _ _ (wpp_con_run _ _ _ Hos _ h _ _ _ _ _ IH He) E) as (s' & g' & v' & Ht' & _ & _ & _ & Hok).
    rewrite Ht in Ht'. injection Ht' as <-%app_inv_head <-%app_inv_head <-%app_inv_head. by apply Hok.
Qed.


(** C6: What a connection of the UDP client sent is a prefix of the SOCKS encodings of the
    datagrams that it took, in their order; what its owner was given is what a prefix of
    the received messages says, in their order, each exactly once, anything malformed
    left out. Every ready step keeps to that, also the one that ends the connection. *)
Theorem udp_connection_traces num udp_mtu socks_mtu c ins sent got given : datagrams_ok OS ->
  con_reach num udp_mtu socks_mtu c ins sent got given ->
  trace_ok udp_mtu (uc_local_addr c) ins sent got given /\
  forall e h, con_ready c e -> exists b c' h' s g v, con_run udp_mtu socks_mtu e c h = Ok (b, c', h') /\
    traces h' = (msgs_sent h ++ s, msgs_got h ++ g, msgs_given h ++ v, opened h) /\
    trace_ok udp_mtu (uc_local_addr c) (step_taken c ins e) (sent ++ s) (got ++ g) (given ++ v).
Proof.
  intros Hos Hr. pose proof (con_reach_ok Hos _ _ _ _ _ _ _ _ Hr) as Hok. split; [by eapply con_trace|].
  intros e h He. destruct (wpp_inv _ _ _ _ (wpp_con_run _ _ _ Hos c h _ _ _ _ e Hok He)) as (b & c' & h' & E & s & g & v & Ht & _ & _ & Htr & _).
  by exists b, c', h', s, g, v.
Qed.

Ltac ready e := exists e; split; [apply list_elem_of_In; simpl; tauto|].
Lemma send_side_ready num udp_mtu socks_mtu c ins sent got given : con_ok num udp_mtu socks_mtu c ins sent got given -> sent <> ins ->
  (exists e, e ∈ [UBufferIn; UMonitorOp; USendOp; USendJob; USendDone; UBufferOut] /\ con_ready c e) \/
  ds_busy (uc_dg c) = true /\ (ds_have_addrs (uc_dg c) = false \/ Z.testbit (dg_wait_events (uc_dg c)) 1 = true).
Proof.
  intros [_ _ _ _ _ (ps & pend & outs & p & [_ _ _ _ (_ & _ & I3 & _ & _ & I6 & _) (_ & O2 & O3 & O4 & _) Ht] & ([Cs _ _ _ _ _] & Hw & _) & [Hm _] & ->) _] Hne.
  cbn [bl_in bl_out bl_buf] in *. destruct Cs as [_ _ A3 A4 A5 _ _ _]. unfold send_wait in Hw. simpl in A3, A4, A5, Hw.
  destruct (ppi_state (pb_output (uc_send c))) eqn:Eo; simpl in Hm, Ht.
  - left. ready UBufferIn. apply I3. rewrite Hm in Hne. simpl in Hne. rewrite app_nil_r in Hne.
    assert (ps = []) as -> by by apply O4. destruct (decide (pri_state (pb_input (uc_send c)) = STATE_DONE_PENDING)) as [|Hn]; [done|].
    by rewrite (I6 Hn), !app_nil_r in Ht.
  - left. ready UMonitorOp. by apply O2.
  - destruct Hm as (Hn & _). destruct (ppi_state (ds_iface (uc_dg c))) eqn:Ed; simpl in A3, A4, A5; [done|left; ready USendOp; done| |
      left; ready USendDone; done].
    rewrite A5 in Hw. simpl in Hw. destruct (ds_have_addrs (uc_dg c)) eqn:Ea; [|right; split; [done|by left]]. simpl in Hw.
    destruct (ds_job (uc_dg c)) eqn:Ej; [left; ready USendJob; done|right; split; [done|by right]].
  - left. ready UBufferOut. by apply O3.
Qed.
Lemma recv_side_ready num udp_mtu socks_mtu c ins sent got given : con_ok num udp_mtu socks_mtu c ins sent got given ->
  (exists e, e ∈ [URecvOp; URecvJob; URecvDone; UPass; UPassDone] /\ con_ready c e) \/
  dr_busy (uc_dg c) = true /\ (dr_started (uc_dg c) = false \/ Z.testbit (dg_wait_events (uc_dg c)) 0 = true).
Proof.
  intros [_ _ _ _ _ (_ & _ & _ & p & _ & ([_ Cr _ _ _ _] & _ & Hw) & _) (_ & part & (P1 & P2 & P3) & _)].
  destruct Cr as [_ _ A3 A4 A5 _]. unfold recv_wait in Hw. simpl in A3, A4, A5, Hw.
  destruct (ppi_state (uc_recv_if c)); simpl in P1, P2; [|left; ready UPass; done|done|left; ready UPassDone; done].
  destruct P3 as [Hn _]. destruct (pri_state (dr_iface (uc_dg c))); simpl in A3, A4, A5; [done|left; ready URecvOp; done| |
      left; ready URecvDone; done].
  rewrite A5 in Hw. simpl in Hw. destruct (dr_started (uc_dg c)); [|right; split; [done|by left]]. simpl in Hw.
  destruct (dr_job (uc_dg c)) eqn:Ej; [left; ready URecvJob; done|right; split; [done|by right]].
Qed.

(** C7: A connection of the UDP client is never stuck: while a datagram it took is not
    sent, a step that moves it on is ready, or the socket waits for the server's address
    or for the descriptor to become writable; likewise it always receives, or waits for
    the socket to be bound or readable; and it can time out exactly while no datagram is
    with the socket. *)
Theorem udp_never_stuck num udp_mtu socks_mtu c ins sent got given : datagrams_ok OS ->
  con_reach num udp_mtu socks_mtu c ins sent got given ->
  (sent <> ins -> (exists e, e ∈ [UBufferIn; UMonitorOp; USendOp; USendJob; USendDone; UBufferOut] /\ con_ready c e) \/
     ds_busy (uc_dg c) = true /\ (ds_have_addrs (uc_dg c) = false \/ Z.testbit (dg_wait_events (uc_dg c)) 1 = true)) /\
  ((exists e, e ∈ [URecvOp; URecvJob; URecvDone; UPass; UPassDone] /\ con_ready c e) \/
     dr_busy (uc_dg c) = true /\ (dr_started (uc_dg c) = false \/ Z.testbit (dg_wait_events (uc_dg c)) 0 = true)) /\
  (con_ready c UTimer <-> ppi_state (ds_iface (uc_dg c)) = STATE_NONE).
Proof.
  intros Hos Hr. pose proof (con_reach_ok Hos _ _ _ _ _ _ _ _ Hr) as Hok. split; [intros; by eapply send_side_ready|].
  split; [by eapply recv_side_ready|]. destruct Hok as [_ _ _ _ _ (ps & pend & outs & p & _ & _ & [Hm Ht] & _) _].
  simpl. rewrite Ht. destruct (is_state _ _); simpl; [|tauto]. destruct Hm as [Hn _]. split; [done|intros E; by rewrite E in Hn].
Qed.

End runs.

(** ** A run: a datagram from 10.0.0.2:1000 to 8.8.8.8:53, and its reply *)
#[local] Instance udp_os : Os := fun _ c =>
  match c with
  | CTun (SendMsg _ _ _ data) => Ret (zlen data) 0 []
  | CTun (RecvMsg _ n) => if 13 <=? n then Ret 13 0 [0; 0; 0; 1; 8; 8; 8; 8; 0; 53; 4; 5; 6] else Ret (-1) 0 []
  | CGetsockname _ => Ret 0 0 ([2; 0; 200; 1; 127; 0; 0; 1] ++ replicate 8 0)
  | CConnectionLocalAddr => Ret 1 0 ([1; 0; 0; 0; 127; 0; 0; 1; 200; 2] ++ replicate 18 0)
  | _ => Ret 1 0 []
  end.
Lemma udp_os_ok : datagrams_ok udp_os.
Proof.
  constructor; intros h; try done.
  - intros fd n Hn. unfold os_reply, udp_os. destruct (Z.leb_spec 13 n); cbn [rv rdata]; [|lia]. intros _. split; [done|]. split; [done|].
    apply Forall_forall. intros x Hx. apply list_elem_of_In in Hx. simpl in Hx. unfold is_byte. lia.
Qed.

Definition socks0 : BSocksClient := BSocksClient_ [] (BAddr_ 0 (replicate 24 0)) false (BAddr_ 0 (replicate 24 0))
  STATE_CONNECTING None false
  (PacketStreamSender_ (PacketPassInterface_ STATE_NONE 0 false 0 0 false false false false) StreamPassInterface_Init 0 (-1) 0)
  StreamRecvInterface_Init 0 0 0.
Definition pass0 : PacketPassInterface := PacketPassInterface_ STATE_NONE 0 false 0 0 false false false false.
Definition recv0 : PacketRecvInterface := PacketRecvInterface_ STATE_NONE 0 false 0 false 0.
Definition dg0 : BDatagram := BDatagram_ 0 0 false (BAddr_ 0 (replicate 24 0)) (BIPAddr_ 0 []) false 0 pass0 false false 0 0
  false false (BAddr_ 0 (replicate 24 0)) (BIPAddr_ 0 []) false 0 recv0 false false 0.
(** what the memory of a connection happens to hold *)
Definition con_mem : UdpCon := UdpCon_ 0 (BAddr_ 0 (replicate 24 0)) socks0 dg0 (BufferWriter_ true 7 0 true)
  (PacketBuffer_ recv0 0 pass0 (ChunkBuffer2_ [] 0 0 0 0 0 None 0 None 0)) false pass0 [] None (BAddr_ 0 (replicate 24 0)) 0 false.
Definition local_end : BAddr := BAddr_MakeIPv4 [10; 0; 0; 2] [3; 232].
Definition remote_end : BAddr := BAddr_MakeIPv4 [8; 8; 8; 8] [0; 53].
Definition socks_server : BAddr := BAddr_MakeIPv4 [127; 0; 0; 1] [4; 56].
Definition after {A S} (m : Prog S A) (x : S * hist) : S * hist :=
  match m (fst x) (snd x) with Ok (_, s, h) => (s, h) | _ => x end.

(** *** One connection: the datagram is sent once the association is up, then the reply
    is received and given to the owner. *)
Definition first_con : UdpCon := con_mem <| uc_local_addr := local_end |> <| uc_first_data := Some [1; 2; 3] |>
  <| uc_first_remote_addr := remote_end |> <| uc_dns_id := -1 |> <| uc_first_job := true |>.
Definition socks_up : BSocksClient := socks0 <| o_state := STATE_UP |> <| o_bind_addr := socks_server |>.
Definition demo_events : list udp_event :=
  [UWriterOp; UFirst; UBufferIn; UMonitorOp; USendOp; USocks BSOCKSCLIENT_EVENT_UP socks_up; USendJob; USendDone; UBufferOut;
   URecvOp; URecvJob; URecvDone; UPass; UPassDone].
Definition demo_at (n : nat) : UdpCon * hist :=
  fold_left (fun x e => after (con_run 20 42 e) x) (take n demo_events)
    (after (connection_init_rest socks_server [BSocksClient_auth_none] 42 2) (first_con, [])).
Definition demo_packet : list Z := [0; 0; 0; 1; 8; 8; 8; 8; 0; 53; 1; 2; 3].
Definition demo_reply : list Z := [0; 0; 0; 1; 8; 8; 8; 8; 0; 53; 4; 5; 6].

Lemma auth_none_ok : auth_ok [BSocksClient_auth_none].
Proof. apply Forall_singleton. split; [by left|]. by vm_compute. Qed.
Lemma demo_sizes : sizes_ok 2 20 42.
Proof. by constructor. Qed.
Lemma demo_first : first_ok 20 first_con.
Proof. constructor; [done|by exists [1; 2; 3]|done]. Qed.

Lemma demo_next n e ins sent got given s g v ins' sent' got' given' :
  con_reach 2 20 42 (fst (demo_at n)) ins sent got given -> con_ready (fst (demo_at n)) e ->
  con_run 20 42 e (fst (demo_at n)) (snd (demo_at n)) = Ok (false, fst (demo_at (S n)), snd (demo_at (S n))) ->
  (let h := snd (demo_at n) in traces (snd (demo_at (S n))) = (msgs_sent h ++ s, msgs_got h ++ g, msgs_given h ++ v, opened h)) ->
  (ins', sent', got', given') = (step_taken (fst (demo_at n)) ins e, sent ++ s, got ++ g, given ++ v) ->
  con_reach 2 20 42 (fst (demo_at (S n))) ins' sent' got' given'.
Proof. intros Hr He E Ht [= -> -> -> ->]. by eapply cn_run. Qed.
Definition demo_given : (Z * list Z) * (Z * list Z) * list Z := (addr_pair local_end, addr_pair remote_end, [4; 5; 6]).
Ltac demo_step e ins sent got given s g v :=
  apply (demo_next _ e ins sent got given s g v); [|try (vm_compute; reflexivity)|vm_compute; reflexivity|vm_compute; reflexivity|vm_compute; reflexivity].
Ltac demo_still e := match goal with |- con_reach _ _ _ _ ?ins ?sent ?got ?given => demo_step e ins sent got given (@nil (list Z)) (@nil (list Z)) (@nil ((Z * list Z) * (Z * list Z) * list Z)) end.

Lemma demo_taken : con_reach 2 20 42 (fst (demo_at 2)) [demo_packet] [] [] [].
Proof.
  demo_step UFirst (@nil (list Z)) (@nil (list Z)) (@nil (list Z)) (@nil ((Z * list Z) * (Z * list Z) * list Z)) (@nil (list Z)) (@nil (list Z)) (@nil ((Z * list Z) * (Z * list Z) * list Z)).
  demo_still UWriterOp.
  eapply (cn_init 2 20 42 socks_server [BSocksClient_auth_none] first_con []); [exact demo_sizes|done|exact auth_none_ok|exact demo_first|vm_compute; reflexivity].
Qed.
Lemma demo_waits : con_reach 2 20 42 (fst (demo_at 6)) [demo_packet] [] [] [].
Proof.
  demo_still (USocks BSOCKSCLIENT_EVENT_UP socks_up); [|by right; left].
  demo_still USendOp. demo_still UMonitorOp. demo_still UBufferIn. exact demo_taken.
Qed.
Lemma demo_answered : con_reach 2 20 42 (fst (demo_at 14)) [demo_packet] [demo_packet] [demo_reply] [demo_given].
Proof.
  demo_still UPassDone.
  demo_step UPass [demo_packet] [demo_packet] [demo_reply] (@nil ((Z * list Z) * (Z * list Z) * list Z)) (@nil (list Z)) (@nil (list Z)) [demo_given].
  demo_still URecvDone.
  demo_step URecvJob [demo_packet] [demo_packet] (@nil (list Z)) (@nil ((Z * list Z) * (Z * list Z) * list Z)) (@nil (list Z)) [demo_reply] (@nil ((Z * list Z) * (Z * list Z) * list Z)).
  demo_still URecvOp. demo_still UBufferOut. demo_still USendDone.
  demo_step USendJob [demo_packet] (@nil (list Z)) (@nil (list Z)) (@nil ((Z * list Z) * (Z * list Z) * list Z)) [demo_packet] (@nil (list Z)) (@nil ((Z * list Z) * (Z * list Z) * list Z)).
  exact demo_waits.
Qed.

Lemma udp_connection_traces_witness :
  demo_given = (addr_pair local_end, addr_pair remote_end, [4; 5; 6]) /\
  trace_ok 20 (uc_local_addr (fst (demo_at 14))) [demo_packet] [demo_packet] [demo_reply] [demo_given].
Proof. split; [reflexivity|]. exact (proj1 (udp_connection_traces 2 20 42 _ _ _ _ _ udp_os_ok demo_answered)). Defined.
(** before the address is known, the datagram waits at the socket *)
Lemma udp_never_stuck_witness : let c := fst (demo_at 5) in
  uc_timer c = false /\ (con_ready c UTimer <-> ppi_state (ds_iface (uc_dg c)) = STATE_NONE).
Proof. split; [vm_compute; reflexivity|]. eapply (udp_never_stuck 2 20 42 (fst (demo_at 5)) [demo_packet] [] [] [] udp_os_ok).
  demo_still USendOp. demo_still UMonitorOp. demo_still UBufferIn. exact demo_taken.
Defined.


(** ** What the code does not do *)
(** The socket has the family of the local address, its name that of the server's. *)
Definition con6 : UdpCon := first_con <| uc_local_addr := BAddr_MakeIPv6 (replicate 15 0 ++ [2]) [3; 232] |>.
Lemma socket_family_mismatch :
  let x := after (connection_init_rest socks_server [BSocksClient_auth_none] 42 2) (con6, []) in
  let h := snd (after (con_run 20 42 (USocks BSOCKSCLIENT_EVENT_CONNECTED (socks0 <| o_state := STATE_CONNECTED_HANDLER |>))) x) in
  (exists r, (CSocket AF_INET6 SOCK_DGRAM, r) ∈ h) /\ exists r, (CBind 1 ([AF_INET; 0; 0; 0; 127; 0; 0; 1] ++ replicate 8 0), r) ∈ h.
Proof. split; exists (Ret 1 0 []); apply list_elem_of_In; vm_compute; tauto. Qed.
(** A fragment is taken for a whole datagram. *)
Definition fragment : list Z := [0; 0; 129; 1; 8; 8; 8; 8; 0; 53; 4; 5; 6].
Lemma fragment_is_delivered : let c := first_con <| uc_recv_buf := fragment ++ replicate 29 0 |> <| uc_recv_if := pass0 <| ppi_state := STATE_BUSY |> |> in
  msgs_given (snd (after (recv_if_handler_send 20 42 0 13) (c, []))) = [demo_given].
Proof. vm_compute. reflexivity. Qed.
(** An error that is reported alone leaves writing waited for after the message was sent;
    when it is reported then, an assertion fails. *)
Definition waiting_socket : gworld := Gworld
  (dg0 <| ds_inited := true |> <| ds_busy := true |> <| ds_busy_data_len := 1 |> <| ds_have_addrs := true |> <| ds_remote_addr := remote_end |>
    <| ds_iface := pass0 <| ppi_state := STATE_BUSY |> |> <| dg_wait_events := BREACTOR_WRITE |>) [7] [].
Lemma error_event_asserts :
  let x := after (datagram_fd_handler BREACTOR_ERROR) (waiting_socket, []) in
  msgs_sent (snd x) = [[7]] /\ dg_wait_events (g_dg (fst x)) = BREACTOR_WRITE /\ datagram_fd_handler BREACTOR_WRITE (fst x) (snd x) = Ub.
Proof. split_and!; vm_compute; reflexivity. Qed.
