(* ===== verification/UdpPeers.v ===== *)
(** The datagrams of the UDP client at byedpi's end: what one side writes the other reads. *)
From S2P Require Import Prelude CMem Sys Flow Chunk SocksClient ChunkFacts SocksClientFacts SocksClientSteps Packet Device DevicePump Addr UdpClient Datagram DatagramFacts UdpClientFacts.
From S2P Require Import Mpool PktTls PktHttp PktFake State Conev Desync Socks Proxy StateFacts SocksFacts SocksClientProps.
#[local] Open Scope Z_scope.
#[local] Open Scope list_scope.

Section agree.
Context (a : BAddr) (Hu : usable a) (Hz : zlen (ba_body a) = 24) (Hb : bytes_ok (ba_body a)).

(** A datagram is three zeros, the address as byedpi writes it, and the data. *)
Lemma packet_is_address data : udp_packet a data =
  [0; 0; 0] ++ (s5_atp (sockaddr_of a) :: ip_of (sockaddr_of a) ++ port_bytes (sin_port (sockaddr_of a))) ++ data.
Proof.
  destruct (sockaddr_of_ok a Hu Hz Hb) as (_ & Ha & Hf). unfold udp_packet, s5_atp.
  rewrite <- Ha, Hf. unfold addr_bytes. by destruct (ba_type a =? BADDR_TYPE_IPV4).
Qed.
Lemma packet_size data : zlen (udp_packet a data) = s5_size (sockaddr_of a) + zlen data.
Proof.
  destruct (sockaddr_of_ok a Hu Hz Hb) as (_ & _ & Hf). rewrite zlen_udp_packet; [|by unfold is_ip; destruct Hu as [-> | ->]|done].
  unfold s5_size, S_SIZE_I4, S_SIZE_I6. rewrite Hf. case_match; lia.
Qed.

(** byedpi reads what the client writes, *)
Lemma server_reads {CA : CharAbi} {OS : Os} data a0 type w h : zlen (sa_body a0) = 24 ->
  (ba_type a = BADDR_TYPE_IPV6 -> pr_ipv6 (w_params w) = true) ->
  wpp (s5_get_addr (udp_packet a data) 0 (zlen (udp_packet a data)) a0 type) w h
    (fun x w' h' => same_addr (snd x) (sockaddr_of a) /\ drop (Z.to_nat (fst x)) (udp_packet a data) = data /\ w' = w /\ h' = h).
Proof.
  intros Ha0 H6. destruct (sockaddr_of_ok a Hu Hz Hb) as (Ha & _ & Hf). pose proof (packet_size data) as Hsz. pose proof (zlen_nonneg data).
  assert (Hdrop : drop (Z.to_nat (s5_size (sockaddr_of a))) (udp_packet a data) = data).
  { rewrite packet_is_address, app_assoc in Hsz |- *. rewrite zlen_app in Hsz. apply drop_app_length'.
    unfold zlen in Hsz at 1. lia. }
  set (M := udp_packet a data) in *. replace M with ([0; 0; 0] ++ (s5_atp (sockaddr_of a) :: ip_of (sockaddr_of a) ++ port_bytes (sin_port (sockaddr_of a))) ++ data) at 1
    by (symmetry; apply packet_is_address).
  eapply wpp_mono.
  - apply wpp_s5_get_addr_reads; [done|done|lia|done|].
    intros E6. apply H6. destruct Hu as [E4|?]; [|done]. rewrite E4, E6 in Hf. done.
  - intros [n x] w' h' (E & Hs & -> & ->). simpl in E. rewrite E. by split_and!.
Qed.
(** and the client what byedpi writes. *)
Lemma server_writes {CA : CharAbi} {OS : Os} data junk rest pev bid b e w h : v4mapped (sockaddr_of a) = false ->
  w_bufs w !! bid = Some b -> pl_items (w_pool w) !! pev = Some e -> zlen junk = S_SIZE_I6 -> b_data b = junk ++ data ++ rest ->
  wpp (udp_from_server pev bid (zlen data) (sockaddr_of a)) w h (fun _ _ h' => exists r, h' = (CSend (ev_fd e) (udp_packet a data) 0, r) :: h).
Proof.
  intros Hv Hbuf Hev Hj Hd. destruct (sockaddr_of_ok a Hu Hz Hb) as (Ha & _ & Hf). pose proof (packet_size data) as Hsz.
  pose proof (zlen_nonneg data). pose proof (zlen_nonneg rest). set (n := s5_size (sockaddr_of a)) in *.
  assert (Hn : n = 10 \/ n = 22) by (unfold n, s5_size, S_SIZE_I4, S_SIZE_I6; case_match; auto).
  set (k := replicate (Z.to_nat (22 - n)) 0 ++ [0; 0; 0]).
  assert (Hk : replicate (Z.to_nat 22) 0 = k ++ replicate (Z.to_nat (n - 3)) 0) by (unfold k; by destruct Hn as [-> | ->]).
  assert (Zk : zlen k = 22 - n + 3) by (unfold k; by destruct Hn as [-> | ->]).
  unfold udp_from_server, map_fix. rewrite Hv. simpl truthy. rewrite andb_false_r. simpl.
  wpp_step. apply (wpp_gbuf _ b); [done|]. rewrite Hd. do 2 wpp_step. unfold memset, S_SIZE_I6 in *. simpl (22 <? 0). cbv iota.
  rewrite wr_list_ok; [|lia|rewrite !zlen_app, Hj; change (zlen (replicate (Z.to_nat 22) 0)) with 22; lia].
  rewrite (splice_app_mid [] junk (data ++ rest)) by done. apply wp_ok. do 2 wpp_step.
  change ([] ++ replicate (Z.to_nat 22) 0 ++ data ++ rest) with (replicate (Z.to_nat 22) 0 ++ data ++ rest). rewrite Hk, <- app_assoc.
  rewrite s5_set_addr_writes; [|done|fold n; lia|fold n; lia|fold n; by destruct Hn as [-> | ->]]. fold n. apply wp_ok.
  wpp_step. apply (wpp_mbuf _ _ b); [done|]. rewrite (proj2 (Z.ltb_ge n 0)), (proj2 (Z.ltb_ge 22 n)) by lia. simpl orb. cbv iota.
  wpp_step. apply (wpp_gev _ e); [done|]. do 2 wpp_step.
  match goal with |- context [rd_list ?m _ _] => assert (E : m = replicate (Z.to_nat (22 - n)) 0 ++ udp_packet a data ++ rest)
    by (unfold k; rewrite packet_is_address, <- !app_assoc; done); rewrite E; clear E end.
  assert (Zr : zlen (replicate (Z.to_nat (22 - n)) 0) = 22 - n) by (unfold zlen; rewrite length_replicate; lia).
  rewrite rd_list_ok; [|lia|lia|rewrite !zlen_app, Hsz, Zr; lia]. apply wp_ok.
  rewrite slice_app_mid by (by rewrite ?Zr, ?Hsz). unfold send_. repeat wpp_step. by eexists.
Qed.

Lemma parse_packet udp_mtu data : zlen data <= udp_mtu -> exists a',
  udp_parse udp_mtu (udp_packet a data) = Some (a', data) /\ ba_type a' = ba_type a /\ addr_bytes a' = addr_bytes a.
Proof.
  intros Hd. pose proof (zlen_nonneg data).
  assert (Hbody : forall x n, 0 <= n -> n + 2 <= 24 -> x = slice (ba_body a) 0 (n + 2) ->
    zlen x = n + 2 /\ slice x 0 n ++ slice x n 2 = x).
  { intros x n Hn H24 ->. split; [apply zlen_slice; lia|]. rewrite (slice_app _ 0 n 2) by lia. apply slice_all. apply zlen_slice; lia. }
  assert (Hcut : forall at_ x n, zlen x = n + 2 -> 0 <= n ->
    zlen ([0; 0; 0; at_] ++ x ++ data) = 4 + n + 2 + zlen data /\ byte_at ([0; 0; 0; at_] ++ x ++ data) 3 = at_ /\
    slice ([0; 0; 0; at_] ++ x ++ data) 4 n = slice x 0 n /\ slice ([0; 0; 0; at_] ++ x ++ data) (4 + n) 2 = slice x n 2 /\
    slice ([0; 0; 0; at_] ++ x ++ data) (4 + (n + 2)) (zlen data) = data).
  { intros at_ x n Hx Hn. assert (Es : slice ([0; 0; 0; at_] ++ x ++ data) 4 (n + 2) = x) by (by apply slice_app_mid).
    split; [rewrite !zlen_app; change (zlen [0; 0; 0; at_]) with 4; lia|]. split; [done|].
    split; [rewrite <- Es at 2; rewrite slice_slice by lia; f_equal; lia|].
    split; [rewrite <- Es at 2; rewrite slice_slice by lia; f_equal; lia|].
    rewrite app_assoc, <- (app_nil_r data) at 1. apply slice_app_mid; [rewrite zlen_app, Hx; reflexivity|done]. }
  unfold addr_bytes, udp_packet, udp_parse, ba_ipv4, ba_ipv6. destruct Hu as [Et|Et]; rewrite Et; simpl (_ =? BADDR_TYPE_IPV4); cbv iota; rewrite <- app_assoc.
  - destruct (Hbody (slice (ba_body a) 0 ADDR_IPV4) 4 ltac:(lia) ltac:(lia) eq_refl) as [Zx Hx].
    set (x := slice (ba_body a) 0 ADDR_IPV4) in *. destruct (Hcut SOCKS_ATYP_IPV4 x 4 Zx ltac:(lia)) as (C1 & C2 & C3 & C4 & C5).
    rewrite C1, C2. simpl (_ =? SOCKS_ATYP_IPV4). cbv iota. change ADDR_IPV4 with 6.
    rewrite (proj2 (Z.ltb_ge _ 4)), (proj2 (Z.ltb_ge _ (4 + 6))) by lia. simpl orb. replace (4 + 4 + 2 + zlen data - 4 - 6) with (zlen data) by lia.
    rewrite (proj2 (Z.ltb_ge udp_mtu _)) by lia. change (4 + 4) with 8 in C4. change (4 + (4 + 2)) with (4 + 6) in C5. rewrite C3, C4, C5. eexists. split; [done|]. split; [done|].
    simpl. rewrite app_assoc, Hx. by apply (slice_app_mid []).
  - destruct (Hbody (slice (ba_body a) 0 ADDR_IPV6) 16 ltac:(lia) ltac:(lia) eq_refl) as [Zx Hx].
    set (x := slice (ba_body a) 0 ADDR_IPV6) in *. destruct (Hcut SOCKS_ATYP_IPV6 x 16 Zx ltac:(lia)) as (C1 & C2 & C3 & C4 & C5).
    rewrite C1, C2. simpl (_ =? SOCKS_ATYP_IPV4). simpl (_ =? SOCKS_ATYP_IPV6). cbv iota. change ADDR_IPV6 with 18.
    rewrite (proj2 (Z.ltb_ge _ 4)), (proj2 (Z.ltb_ge _ (4 + 18))) by lia. simpl orb. replace (4 + 16 + 2 + zlen data - 4 - 18) with (zlen data) by lia.
    rewrite (proj2 (Z.ltb_ge udp_mtu _)) by lia. change (4 + 16) with 20 in C4. change (4 + (16 + 2)) with (4 + 18) in C5. rewrite C3, C4, C5. eexists. split; [done|]. split; [done|].
    simpl. rewrite app_assoc, Hx. by apply (slice_app_mid []).
Qed.

(** What the client makes of it. *)
Lemma client_reads {OS : Os} udp_mtu socks_mtu data rest c h : zlen data <= udp_mtu -> socks_mtu < 2 ^ 31 ->
  uc_recv_buf c = udp_packet a data ++ rest -> zlen (uc_recv_buf c) = socks_mtu -> ppi_state (uc_recv_if c) = STATE_BUSY ->
  wpp (recv_if_handler_send udp_mtu socks_mtu 0 (zlen (udp_packet a data))) c h (fun _ _ h' => exists a',
    msgs_given h' = msgs_given h ++ [(addr_pair (uc_local_addr c), addr_pair a', data)] /\ ba_type a' = ba_type a /\ addr_bytes a' = addr_bytes a).
Proof.
  intros Hd Hm Hbuf Hzb Hst. set (p := udp_packet a data) in *. pose proof (zlen_nonneg p). pose proof (zlen_nonneg rest).
  assert (Hp : zlen p <= socks_mtu) by (rewrite <- Hzb, Hbuf, zlen_app; lia).
  eapply wpp_mono; [by apply wpp_recv_if|]. intros b c' h' [Ht _]. unfold traces in Ht. injection Ht as _ _ -> _.
  rewrite Hbuf, (slice_app_mid [] p rest) by done.
  destruct (parse_packet udp_mtu data Hd) as (a' & E & ?). fold p in E. exists a'. unfold delivered. simpl. by rewrite E.
Qed.
End agree.

(** C9: The UDP client of tun2socks and byedpi's server agree on the datagrams. For every
    IPv4 or IPv6 address and any data: of the client's datagram [s5_get_addr] decodes
    exactly the address, and what follows the length that it answers is the data; the
    datagram that [udp_from_server] makes of a reply from that address is the same one
    that the client would write; and of that one the client gives its owner the local
    address of the connection, the address and the data. *)
Theorem udp_peers_agree {CA : CharAbi} {OS : Os} a data : usable a -> zlen (ba_body a) = 24 -> bytes_ok (ba_body a) ->
  (forall a0 type w h, zlen (sa_body a0) = 24 -> (ba_type a = BADDR_TYPE_IPV6 -> pr_ipv6 (w_params w) = true) ->
     wpp (s5_get_addr (udp_packet a data) 0 (zlen (udp_packet a data)) a0 type) w h (fun x w' h' =>
       same_addr (snd x) (sockaddr_of a) /\ drop (Z.to_nat (fst x)) (udp_packet a data) = data /\ w' = w /\ h' = h)) /\
  (forall junk rest pev bid b e w h, v4mapped (sockaddr_of a) = false ->
     w_bufs w !! bid = Some b -> pl_items (w_pool w) !! pev = Some e -> zlen junk = S_SIZE_I6 -> b_data b = junk ++ data ++ rest ->
     wpp (udp_from_server pev bid (zlen data) (sockaddr_of a)) w h (fun _ _ h' => exists r, h' = (CSend (ev_fd e) (udp_packet a data) 0, r) :: h)) /\
  (forall udp_mtu socks_mtu rest c h, zlen data <= udp_mtu -> socks_mtu < 2 ^ 31 ->
     uc_recv_buf c = udp_packet a data ++ rest -> zlen (uc_recv_buf c) = socks_mtu -> ppi_state (uc_recv_if c) = STATE_BUSY ->
     wpp (recv_if_handler_send udp_mtu socks_mtu 0 (zlen (udp_packet a data))) c h (fun _ _ h' => exists a',
       msgs_given h' = msgs_given h ++ [(addr_pair (uc_local_addr c), addr_pair a', data)] /\ ba_type a' = ba_type a /\ addr_bytes a' = addr_bytes a)).
Proof.
  intros Hu Hz Hb. split; [|split]; intros; [by apply server_reads|by eapply server_writes|by eapply client_reads].
Qed.

(** ** A datagram to 8.8.8.8:53 *)
#[local] Instance udp_char_abi : CharAbi := true.
#[local] Instance udp_peer_os : Os := fun _ _ => Ret 1 0 [].
Definition dns_server : BAddr := BAddr_MakeIPv4 [8; 8; 8; 8] [0; 53].
Lemma udp_peers_agree_witness :
  let p := udp_packet dns_server [1; 2; 3] in
  p = [0; 0; 0; 1; 8; 8; 8; 8; 0; 53; 1; 2; 3] /\
  wpp (s5_get_addr p 0 (zlen p) sockaddr0 SOCK_DGRAM) byedpi_world [] (fun x w' h' =>
    same_addr (snd x) (sockaddr_of dns_server) /\ drop (Z.to_nat (fst x)) p = [1; 2; 3] /\ w' = byedpi_world /\ h' = []).
Proof.
  split; [reflexivity|].
  apply (udp_peers_agree dns_server [1; 2; 3]); [by left|reflexivity| |reflexivity|vm_compute; congruence].
  repeat apply Forall_cons_2; try (split; [done|lia]); by apply Forall_nil.
Defined.
